(* ===== verification/_CoqProject ===== *)
-Q . S2P
Prelude.v
Flit.v
CxlBuf.v
Samples.v
CxlBus.v
Packing.v
Link.v
CxlNode.v
CxlHost.v
HostPack.v
HostRun.v
CxlSwitch.v
SwitchRun.v
RamIf.v
CxlDevice.v
DevPack.v
DevRun.v
LinkRun.v
Wire.v
SwitchRoute.v
DevHeaders.v
Dram.v
DramTiming.v
DramState.v
DramServe.v
Ddr4.v
Ddr4Run.v
AddrMap.v
PageAlloc.v
Sched.v
Cache.v
CacheSet.v
CacheRun.v
CacheSafe.v
CacheTick.v
CacheTree.v
CacheLru.v
CacheWitness.v
Controller.v
CtrlRun.v
Ddr4Ctrl.v
Ddr4Safe.v
CtrlWitness.v
Memory.v
Ddr4Memory.v
MemRun.v
RamDevice.v
RamRun.v
DevRam.v
MemWitness.v
HostTrace.v
SysFrame.v
Flow.v
HostFlow.v
HostSafe.v
DevFlow.v
DevSafe.v
CxlSys.v
SysRun.v
SysFlow.v
SysOnce.v
SysSafe.v
SysWitness.v
