(* ===== verification/Prelude.v ===== *)
(** * A verification of the CXL memory simulator

    The program under [src/cxlsim] simulates, tick by tick, a host whose
    loads and stores travel over CXL links to memory devices, directly or
    through a switch, and are served there by a DRAM model (Ramulator).
    Everything else of the repository (the hyrise database, the pin tool, the
    sniper core simulator, query traces and scripts) produces its input and is
    not modelled.

    ** The program

    Messages ([include/message.h]) are packed into flits of four slots
    ([include/flit.h]) by the node that sends them ([CXLHost], [CXLDevice]),
    put on a bus ([CXLBus]) with a latency and a bandwidth, possibly forwarded
    by a switch ([CXLSwitch]), and unpacked by the node that receives them.
    A device passes requests to its memory ([CXLInterface], [Ramulator]) and
    turns the completions into responses.  A message with data takes a header
    slot and four data slots, which roll over into the next flit; credits
    bound the messages under way.  The memory is a tree of channels, ranks,
    bank groups and banks ([DRAM.h]) with the timing tables of a standard
    ([DDR4.cpp]).

    ** The files

    - [Prelude] (this file): outcomes, machine integers, tactics, lists.
      [CXL_ASSERT] and [assert] become the [Abort] outcome of the error monad
      [res], so "never violates an assertion" is a theorem about results.
    - [Flit]: [message], [slot], [flit] and the operations of [Misc.cpp].
      Members a constructor leaves uninitialised come from the class [Indet].
    - [CxlBuf]: parameters ([CXLParams.h]), global counters, [CXLBuf<T>].
    - [Samples]: concrete values for the witnesses.
    - [CxlBus]: [CXLBus.cpp], and its runs.
    - [Packing]: the packing protocol on the kinds of slots ([wf_flit],
      [wf_stream]), a specification of the slot-filling loop, and the loops of
      the unpackers.  [Link]: a legal stream is unpacked to its messages.
    - [CxlNode], [CxlHost], [CxlDevice]: [CXLNode.h], [CXLHost.cpp],
      [CXLDevice.cpp], one definition per member function, the state as a
      record with the members of the class, pointers to buses and to the
      memory as arguments.  [RamIf]: [Request.h], [CXLInterface.cpp].
    - [HostPack], [HostRun], [DevPack], [DevRun], [DevHeaders]: their theorems;
      what the packer of a device keeps is proved once for every invariant of
      the class [PackClosed].
    - [LinkRun]: the interface [Packer] between a packing node and the link,
      its two instances, and the round trips in both directions.
    - [CxlSwitch], [SwitchRun], [SwitchRoute]: [CXLSwitch.cpp] and its
      theorems, towards the host and towards the devices.
    - [Dram]: the class template [DRAM<T>], the standard as a record [Spec].
      [DramTiming], [DramState], [DramServe]: theorems for every standard that
      satisfies the class [TimingOk].
    - [Ddr4], [Ddr4Run]: the standard [DDR4], an instance of [TimingOk], and
      its theorems.
    - [Sched]: [Request.h] and [Scheduler.h]: requests, the row table, the
      schedulers and the row policies.  [Controller]: [Controller.h] and
      [Refresh.h], the queues and the tick.  [CtrlRun]: sequences of calls of
      a controller of any standard.  [Ddr4Ctrl], [Ddr4Safe]: the controller
      of a DDR4 channel.  [CtrlWitness]: concrete controllers.
    - [AddrMap], [PageAlloc], [Memory]: [Memory.h]: the address mapping, the
      translation of pages, [send], [tick] and the mapping of a file.
      [Ddr4Memory]: the memory the simulator builds; [MemRun]: its requests
      as a multiset.
    - [Cache]: [Cache.h], [Cache.cpp] and the hierarchies of [Processor.cpp].
      An iterator is the number of the node it points to, so that a dangling
      one is seen; what an erased node reads as is the argument [freed].
      [CacheSet]: the lines and miss registers of one cache.  [CacheRun]: the
      tree of caches and its invariant, inclusion, with the operations that
      evict; [CacheSafe]: requests and answers; [CacheTick]: the ticks;
      [CacheTree]: every hierarchy a processor builds, and its runs.
      [CacheLru]: the reference of a least-recently-used cache, and the
      refinement.  [CacheWitness]: concrete runs, and two that go wrong.
    - [RamDevice]: [RamDevice.cpp], and [DirectAttached.cpp], whose update is
      the same code, over the class [MemClient] of the nodes that use a
      memory.  [RamRun]: what an update does for every client that satisfies
      [ClientLaws].  [DevRam]: the CXL device as a client; [MemWitness]:
      concrete memories and devices.
    - [HostTrace]: the trace file and [text_to_trace] of [CXLHost.cpp].
      [CxlSys]: the direct-attached memory as a client, the jump over idle
      time, [CXLSys.cpp] for one host, and the loop of [Main.cpp] with its
      exit.  [SysFrame]: what the operations of the nodes leave alone.
      [SysRun]: the clock in runs of the whole simulator.
    - [Wire]: flits up to their time stamps, and the way from one node to the
      other, buses and switch included, as a queue.  [Flow]: the invariant of
      a host and a device with the flits between them: where every message
      is, what the two sides know of each other, and the balance of the
      credits.  [HostFlow], [DevFlow]: every operation of the host and of the
      device keeps it.  [SysFlow]: so does the whole system, with the trace
      and the direct-attached memory; [SysOnce]: from a new system on.
      [HostSafe], [DevSafe], [SysSafe]: which assertions can fail under the
      invariant.  [SysWitness]: concrete runs, from a trace to the exit.

    ** What the theorems show

    - The packers of host and device never violate one of their assertions,
      keep every message, and emit legal flit streams ([host_packer_safe],
      [device_packer_safe], [host_packer_conserves],
      [device_packer_conserves], [device_headers_agree]); the unpackers accept
      every legal flit and deliver its messages in order
      ([host_unpacker_delivers], [device_unpacker_delivers]); together no
      message is lost, duplicated or invented on a link
      ([host_to_device_link], [device_to_host_link]).
    - A bus delivers every flit in order after exactly its latency, and its
      stagnation assertion holds ([bus_exact_latency],
      [bus_never_stagnates]).
    - A device and its memory together answer every request exactly once,
      whatever the memory refuses or reorders ([device_answers_once]).
    - In every run of the whole simulator with one device and a
      direct-attached memory each line of the trace becomes one message, which
      is in exactly one place until it completes, once
      ([message_in_one_place], [trace_completes_once]); the credits of the
      flow control are conserved ([credits_conserved]); and, as long as
      every address of the trace lies in one of the two ranges, no assertion
      fails but those on the form of the trace, on room and on the time a
      flit spends on a bus ([run_stops_only]; [unknown_address_stops] shows
      what happens otherwise); a receiver never stalls, since
      its channels have room for every message sent ([Link.no_stall]).
    - In a run of the whole simulator the memory of every device has run
      exactly the cycles that belong to the simulated time, jumps over idle
      time included ([memory_clock_exact]).
    - The switch merges the streams of its devices into one legal stream
      without losing or reordering flits, and passes every flit of the host
      to the device it belongs to, rolled-over data after its header
      ([switch_merges_legally], [switch_keeps_port_order], [switch_routes]).
    - The cycles the simulator skips are those in which nothing happens
      ([host_skip_sound], [device_skip_sound], [switch_skip_sound]).
    - The timing check of the DRAM model, with bounded histories and a table
      of earliest clocks, is exactly the declarative reading of the timing
      tables ([dram_check_exact], [dram_next_is_first],
      [ddr4_activate_windows]); DDR4 banks hold at most one open row and a
      request needs at most four commands ([ddr4_one_open_row],
      [ddr4_request_in_four], [ddr4_row_hit]).
    - The schedulers choose as they should ([scheduler_best],
      [prior_hit_keeps_rows]).  A controller keeps every request until it
      calls it back once, its queues keep their types and bounds, refreshes
      are injected on time and reads with data on the way are answered on
      time ([controller_conserves], [controller_queues_typed],
      [refresh_on_time], [pending_read_served]).  On DDR4 none of its
      assertions can fail but the one on room for refreshes
      ([ddr4_controller_safe]).
    - The address mapping is a bijection ([address_map_bijective]) and page
      translation is injective ([page_translation_injective]).  A memory is
      its channels ([memory_refines_channels]), so on DDR4 no address makes
      an assertion fail ([memory_safe]).

    - The caches of a processor stay inclusive and within their bounds in
      every run of requests, answers and ticks in which no answer comes for a
      block whose request was refused below ([caches_inclusive],
      [cache_bounds]); requests and answers are always accepted without a
      failing assertion, and an answer reaches every cache that waits
      ([cache_calls_answered], [answer_wakes_waiters]).  Without that proviso
      the code fails ([early_answer_fails]), and two of its loops use erased
      nodes ([write_back_depends_on_freed], [retry_steps_past_end]).  A single
      cache is a least-recently-used write-back cache ([cache_refines_lru]).

    ** Choices and bounds

    Ticks, clocks, ids and sizes are [Z]; [uint64_t] arithmetic whose
    wrap-around can be observed is written with [u64]; a signed overflow is
    undefined in the source and is not modelled.  The loops of the sources run
    over lists and are structural.  The recursions with fuel are the
    construction and the state update of the DRAM tree, whose fuel is the
    number of levels above the rows, which is the height of the tree
    ([DramTiming.build_at], [DramState.update_state_path]); the binary
    logarithm of an [int], whose fuel is its 32 bits ([AddrMap.calc_log2_ok]);
    the search for a free page, whose fuel is the number of pages
    ([PageAlloc.search_free]); and the loop that makes up for the memory
    cycles of a jump, whose fuel is the number of cycles up to the new time
    ([SysRun.catch_up_clocked]).  The loop of [main] has no bound of its own:
    its theorems are about any number of rounds.  The recursions of the caches
    go from level to level; their fuel is 6, and [CacheSafe.send_spec] and
    [CacheTick.tick_spec] show that three levels never use it up.  The statistics counters of Ramulator are
    floating-point numbers that hold integers and are modelled as integers;
    the write-queue watermarks, fractions of the 32 entries, are kept as the
    lengths they stand for.  Requests completed in a tick are called back
    after it, in the order of the calls: a callback does not read the memory.

    ** What is not modelled

    The command line of [main], the latencies the host reports in
    floating-point, the event log, [regStats], [record_core] and [finish],
    which report; systems of several hosts, for which the switch has no
    ports; the parser of the mapping file, which only DDR3 reads; the
    specialised controllers of TL-DRAM, SALP and DSARP and the cores of the
    processor, which the simulator does not build; the other standards, which
    are further tables for the same [Spec]. *)
From Stdlib Require Import ZArith Lia Bool String.
From stdpp Require Import base list gmap.
#[global] Open Scope Z_scope.

(** ** Outcomes

    [CXL_ASSERT], [CXLAssert] and [assert] end the simulation when their
    condition is false.  A handler therefore returns [Ok] of its result or
    [Abort] with the text of the violated assertion. *)
Inductive res (A : Type) : Type :=
| Ok (a : A)
| Abort (msg : string).
Arguments Ok {A} a.
Arguments Abort {A} msg.

Definition bind {A B : Type} (m : res A) (k : A -> res B) : res B :=
  match m with
  | Ok a => k a
  | Abort s => Abort s
  end.

Declare Scope cxl_scope.
Delimit Scope cxl_scope with cxl.
#[global] Open Scope cxl_scope.

Notation "'let!' x ':=' m 'in' k" := (bind m (fun x => k))
  (at level 10, x pattern, m at level 100, k at level 200)
  : cxl_scope.
Notation "'assert!' b , s 'in' k" := (if b%bool then k else Abort s%string)
  (at level 10, b at level 100, s at level 100, k at level 200)
  : cxl_scope.

Definition is_ok {A} (m : res A) : bool :=
  match m with Ok _ => true | Abort _ => false end.

Lemma bind_ok_inv {A B} (m : res A) (k : A -> res B) (b : B) :
  bind m k = Ok b -> exists a, m = Ok a /\ k a = Ok b.
Proof. destruct m; simpl; [eauto | discriminate]. Qed.

Lemma bind_assoc {A B C} (m : res A) (k : A -> res B) (l : B -> res C) :
  bind (bind m k) l = bind m (fun a => bind (k a) l).
Proof. by destruct m. Qed.

(** ** Machine integers

    [int64_t] counters of ticks are kept as [Z] (a signed overflow is
    undefined behaviour in the source); the [uint64_t] arithmetic whose
    wrap-around is observable is written with [u64]. *)
Definition u64 (z : Z) : Z := z mod 2 ^ 64.
Definition u32 (z : Z) : Z := z mod 2 ^ 32.
Definition s32 (z : Z) : Z := (z + 2 ^ 31) mod 2 ^ 32 - 2 ^ 31.

Lemma u64_small z : 0 <= z < 2 ^ 64 -> u64 z = z.
Proof. apply Z.mod_small. Qed.

Lemma u64_range z : 0 <= u64 z < 2 ^ 64.
Proof. apply Z.mod_pos_bound. lia. Qed.

Lemma s32_small z : - 2 ^ 31 <= z < 2 ^ 31 -> s32 z = z.
Proof. intros H. unfold s32. rewrite Z.mod_small; lia. Qed.

(** ** Tactics *)

(** Turn every boolean test of the context or the goal into the
    proposition it decides. *)
Ltac bool_prop :=
  repeat first
    [ match goal with
      | H : (_ && _)%bool = true |- _ => apply andb_true_iff in H; destruct H
      | H : (_ || _)%bool = false |- _ => apply orb_false_iff in H; destruct H
      | H : negb _ = true |- _ => apply negb_true_iff in H
      | H : negb _ = false |- _ => apply negb_false_iff in H
      | H : (_ =? _) = true |- _ => apply Z.eqb_eq in H
      | H : (_ =? _) = false |- _ => apply Z.eqb_neq in H
      | H : (_ <? _) = true |- _ => apply Z.ltb_lt in H
      | H : (_ <? _) = false |- _ => apply Z.ltb_ge in H
      | H : (_ <=? _) = true |- _ => apply Z.leb_le in H
      | H : (_ <=? _) = false |- _ => apply Z.leb_gt in H
      end ].

(** Decompose a successful computation [bind m k = Ok x], case on the
    conditionals it tests. *)
Ltac res_inv :=
  repeat match goal with
    | H : bind _ _ = Ok _ |- _ =>
        let a := fresh "v" in let E := fresh "E" in
        apply bind_ok_inv in H; destruct H as (a & E & H)
    | H : Abort _ = Ok _ |- _ => discriminate H
    | H : Ok _ = Ok _ |- _ => injection H; clear H; intros; subst
    | H : (if ?b then _ else Abort _) = Ok _ |- _ =>
        let E := fresh "E" in destruct b eqn:E; [| discriminate H]
    end.

(** A computation whose result, if it has one, satisfies [P] *)
Definition ensures {A} (m : res A) (P : A -> Prop) : Prop :=
  match m with Ok x => P x | Abort _ => True end.

Lemma ensures_bind {A B} (m : res A) (k : A -> res B) P Q :
  ensures m P -> (forall x, P x -> ensures (k x) Q) -> ensures (bind m k) Q.
Proof. destruct m; cbn; auto. Qed.
Lemma ensures_ok {A} (m : res A) P x : ensures m P -> m = Ok x -> P x.
Proof. by intros H ->. Qed.
Lemma ensures_any {A} (m : res A) : ensures m (fun _ => True).
Proof. by destruct m. Qed.
(** A computation that has a result, which satisfies [P] *)
Definition returns {A} (m : res A) (P : A -> Prop) : Prop :=
  match m with Ok x => P x | Abort _ => False end.

Lemma returns_bind {A B} (m : res A) (k : A -> res B) P Q :
  returns m P -> (forall x, P x -> returns (k x) Q) -> returns (bind m k) Q.
Proof. destruct m; cbn; [auto|done]. Qed.
Lemma returns_ok {A} (m : res A) P : returns m P <-> exists x, m = Ok x /\ P x.
Proof. destruct m; cbn; [split; [eauto|by intros (x & [= <-] & H)]|split; [done|by intros (x & [=] & _)]]. Qed.
Lemma returns_weak {A} (m : res A) (P Q : A -> Prop) : returns m P -> (forall x, P x -> Q x) -> returns m Q.
Proof. destruct m; cbn; auto. Qed.
Create HintDb frame.

(** Go through a computation: a part about which a lemma of [frame] is known
    is used with it, any other part with nothing known of its result. *)
Ltac frame_step :=
  lazymatch goal with
  | |- ensures (Abort _) _ => exact I
  | |- ensures (bind _ _) _ =>
      first [ eapply ensures_bind; [solve [eauto with frame nocore]|]
            | eapply (ensures_bind _ _ (fun _ => True)); [apply ensures_any|] ];
      let x := fresh "x" in let H := fresh "H" in intros x H; cbn beta in H
  | |- ensures (let '(_, _) := ?x in _) _ => destruct x; cbn [fst snd] in *
  | |- ensures (if ?b then _ else _) _ => destruct b
  | |- ensures (match ?x with _ => _ end) _ => destruct x
  | |- ensures (Ok _) _ => cbn in *
  end.
Ltac frame_tac := cbv zeta; repeat frame_step; repeat case_match; cbn in *; intuition congruence.

(** The condition of the computation in [H] *)
Ltac if_in H := match type of H with (if ?b then _ else _) = _ => destruct b end.
Ltac if_goal := match goal with |- context [if ?b then _ else _] => destruct b end.
(** Lists of numbers that are equal up to order, by the permutations in the
    context: every number occurs as often in both. *)
Ltac perm_lia :=
  apply (Permutation_count_occ Z.eq_dec); let x := fresh "x" in intros x;
  repeat match goal with
    | Hp : Permutation _ _ |- _ => apply (fun H => proj1 (Permutation_count_occ Z.eq_dec _ _) H x) in Hp
    end;
  rewrite ?count_occ_app in *; lia.
(** Equal tuples of numbers *)
Ltac pair_lia := repeat apply (f_equal2 pair); lia.

(** ** Lists *)

(** Number of elements of a list that satisfy a boolean test. *)
Fixpoint countb {A} (p : A -> bool) (l : list A) : Z :=
  match l with
  | [] => 0
  | x :: l => (if p x then 1 else 0) + countb p l
  end.

Lemma countb_nonneg {A} (p : A -> bool) l : 0 <= countb p l.
Proof. induction l as [|x l IH]; simpl; [lia | destruct (p x); lia]. Qed.

Lemma countb_app {A} (p : A -> bool) l1 l2 :
  countb p (l1 ++ l2) = countb p l1 + countb p l2.
Proof. induction l1; simpl; lia. Qed.

Lemma countb_length {A} (p : A -> bool) l : countb p l <= Z.of_nat (length l).
Proof. induction l as [|x l IH]; simpl; [lia | destruct (p x); lia]. Qed.

Lemma countb_ext {A} (p q : A -> bool) l :
  (forall x, p x = q x) -> countb p l = countb q l.
Proof. intros E. induction l as [|x l IH]; simpl; [done|]. by rewrite E, IH. Qed.

Lemma countb_perm {A} (p : A -> bool) l1 l2 : l1 ≡ₚ l2 -> countb p l1 = countb p l2.
Proof. induction 1; cbn [countb]; lia. Qed.
Lemma countb_zero {A} (p : A -> bool) l : countb p l = 0 <-> forall x, In x l -> p x = false.
Proof.
  induction l as [|x l IH]; simpl; [done|]. pose proof (countb_nonneg p l). split.
  - intros E y [<-|Hy]; [by destruct (p x); [lia|]|]. apply IH; [destruct (p x); lia|done].
  - intros H'. rewrite (H' x) by (by left). apply IH. auto.
Qed.
Lemma countb_insert {A} (p : A -> bool) l : forall i x d, (i < length l)%nat ->
  countb p (<[i := x]> l) = countb p l - (if p (nth i l d) then 1 else 0) + (if p x then 1 else 0).
Proof.
  induction l as [|y l IH]; intros [|i] x d Hi; simpl in *; try lia. rewrite (IH i x d) by lia. lia.
Qed.
Lemma countb_update {A} (p : A -> bool) l i x y : l !! i = Some y ->
  countb p (<[i := x]> l) = countb p l - (if p y then 1 else 0) + (if p x then 1 else 0).
Proof.
  intros Hi. rewrite (countb_insert p l i x x) by (by eapply lookup_lt_Some).
  by rewrite (nth_lookup_Some _ _ _ _ Hi).
Qed.
Lemma countb_delete {A} (p : A -> bool) l : forall i x, l !! i = Some x ->
  countb p (delete i l) = countb p l - (if p x then 1 else 0).
Proof.
  induction l as [|y l IH]; intros [|i] x Hx; cbn in Hx; simplify_eq; [cbn; lia|].
  change (delete (S i) (y :: l)) with (y :: delete i l). cbn [countb]. rewrite (IH _ _ Hx). lia.
Qed.

Create HintDb cxl discriminated.
Create Rewrite HintDb cxl.
#[export] Hint Resolve countb_nonneg countb_length u64_range : cxl.
