(* ===== verification/Flit.v ===== *)
(** * Messages, slots and flits

    [include/message.h], [include/flit.h] and the parts of [src/Misc.cpp]
    that construct, copy and inspect them.  Members the C++ constructors
    leave uninitialised are read from the class [Indet], so every theorem
    holds whatever those indeterminate values are. *)
From Stdlib Require Import ZArith Lia Bool String.
From stdpp Require Import base list gmap.
From S2P Require Import Prelude.

(** ** Messages ([include/message.h]) *)

Inductive opcode : Type := Req | RwD | NDR | DRS.
#[global] Instance opcode_eq_dec : EqDecision opcode.
Proof. solve_decision. Defined.

Record msg_timing : Type := mk_msg_timing {
  read_write : bool;
  tick_created : Z;
  tick_packed : Z;
  tick_transmitted : Z;
  tick_switch_ds_rx : Z;
  tick_switch_ds_tx : Z;
  tick_received : Z;
  tick_unpacked : Z;
  tick_at_ramulator : Z;
  tick_ramulator_complete : Z;
  tick_repacked : Z;
  tick_retransmitted : Z;
  tick_switch_us_rx : Z;
  tick_switch_us_tx : Z;
  tick_resp_received : Z;
  tick_resp_unpacked : Z;
  tick_req_complete : Z;
  ramulator_clk_start : Z;
  ramulator_clk_end : Z
}.
Definition set_read_write (v : bool) (r : msg_timing) : msg_timing :=
  mk_msg_timing v (tick_created r) (tick_packed r) (tick_transmitted r) (tick_switch_ds_rx r) (tick_switch_ds_tx r) (tick_received r) (tick_unpacked r) (tick_at_ramulator r) (tick_ramulator_complete r) (tick_repacked r) (tick_retransmitted r) (tick_switch_us_rx r) (tick_switch_us_tx r) (tick_resp_received r) (tick_resp_unpacked r) (tick_req_complete r) (ramulator_clk_start r) (ramulator_clk_end r).
Definition set_tick_created (v : Z) (r : msg_timing) : msg_timing :=
  mk_msg_timing (read_write r) v (tick_packed r) (tick_transmitted r) (tick_switch_ds_rx r) (tick_switch_ds_tx r) (tick_received r) (tick_unpacked r) (tick_at_ramulator r) (tick_ramulator_complete r) (tick_repacked r) (tick_retransmitted r) (tick_switch_us_rx r) (tick_switch_us_tx r) (tick_resp_received r) (tick_resp_unpacked r) (tick_req_complete r) (ramulator_clk_start r) (ramulator_clk_end r).
Definition set_tick_packed (v : Z) (r : msg_timing) : msg_timing :=
  mk_msg_timing (read_write r) (tick_created r) v (tick_transmitted r) (tick_switch_ds_rx r) (tick_switch_ds_tx r) (tick_received r) (tick_unpacked r) (tick_at_ramulator r) (tick_ramulator_complete r) (tick_repacked r) (tick_retransmitted r) (tick_switch_us_rx r) (tick_switch_us_tx r) (tick_resp_received r) (tick_resp_unpacked r) (tick_req_complete r) (ramulator_clk_start r) (ramulator_clk_end r).
Definition set_tick_transmitted (v : Z) (r : msg_timing) : msg_timing :=
  mk_msg_timing (read_write r) (tick_created r) (tick_packed r) v (tick_switch_ds_rx r) (tick_switch_ds_tx r) (tick_received r) (tick_unpacked r) (tick_at_ramulator r) (tick_ramulator_complete r) (tick_repacked r) (tick_retransmitted r) (tick_switch_us_rx r) (tick_switch_us_tx r) (tick_resp_received r) (tick_resp_unpacked r) (tick_req_complete r) (ramulator_clk_start r) (ramulator_clk_end r).
Definition set_tick_switch_ds_rx (v : Z) (r : msg_timing) : msg_timing :=
  mk_msg_timing (read_write r) (tick_created r) (tick_packed r) (tick_transmitted r) v (tick_switch_ds_tx r) (tick_received r) (tick_unpacked r) (tick_at_ramulator r) (tick_ramulator_complete r) (tick_repacked r) (tick_retransmitted r) (tick_switch_us_rx r) (tick_switch_us_tx r) (tick_resp_received r) (tick_resp_unpacked r) (tick_req_complete r) (ramulator_clk_start r) (ramulator_clk_end r).
Definition set_tick_switch_ds_tx (v : Z) (r : msg_timing) : msg_timing :=
  mk_msg_timing (read_write r) (tick_created r) (tick_packed r) (tick_transmitted r) (tick_switch_ds_rx r) v (tick_received r) (tick_unpacked r) (tick_at_ramulator r) (tick_ramulator_complete r) (tick_repacked r) (tick_retransmitted r) (tick_switch_us_rx r) (tick_switch_us_tx r) (tick_resp_received r) (tick_resp_unpacked r) (tick_req_complete r) (ramulator_clk_start r) (ramulator_clk_end r).
Definition set_tick_received (v : Z) (r : msg_timing) : msg_timing :=
  mk_msg_timing (read_write r) (tick_created r) (tick_packed r) (tick_transmitted r) (tick_switch_ds_rx r) (tick_switch_ds_tx r) v (tick_unpacked r) (tick_at_ramulator r) (tick_ramulator_complete r) (tick_repacked r) (tick_retransmitted r) (tick_switch_us_rx r) (tick_switch_us_tx r) (tick_resp_received r) (tick_resp_unpacked r) (tick_req_complete r) (ramulator_clk_start r) (ramulator_clk_end r).
Definition set_tick_unpacked (v : Z) (r : msg_timing) : msg_timing :=
  mk_msg_timing (read_write r) (tick_created r) (tick_packed r) (tick_transmitted r) (tick_switch_ds_rx r) (tick_switch_ds_tx r) (tick_received r) v (tick_at_ramulator r) (tick_ramulator_complete r) (tick_repacked r) (tick_retransmitted r) (tick_switch_us_rx r) (tick_switch_us_tx r) (tick_resp_received r) (tick_resp_unpacked r) (tick_req_complete r) (ramulator_clk_start r) (ramulator_clk_end r).
Definition set_tick_at_ramulator (v : Z) (r : msg_timing) : msg_timing :=
  mk_msg_timing (read_write r) (tick_created r) (tick_packed r) (tick_transmitted r) (tick_switch_ds_rx r) (tick_switch_ds_tx r) (tick_received r) (tick_unpacked r) v (tick_ramulator_complete r) (tick_repacked r) (tick_retransmitted r) (tick_switch_us_rx r) (tick_switch_us_tx r) (tick_resp_received r) (tick_resp_unpacked r) (tick_req_complete r) (ramulator_clk_start r) (ramulator_clk_end r).
Definition set_tick_ramulator_complete (v : Z) (r : msg_timing) : msg_timing :=
  mk_msg_timing (read_write r) (tick_created r) (tick_packed r) (tick_transmitted r) (tick_switch_ds_rx r) (tick_switch_ds_tx r) (tick_received r) (tick_unpacked r) (tick_at_ramulator r) v (tick_repacked r) (tick_retransmitted r) (tick_switch_us_rx r) (tick_switch_us_tx r) (tick_resp_received r) (tick_resp_unpacked r) (tick_req_complete r) (ramulator_clk_start r) (ramulator_clk_end r).
Definition set_tick_repacked (v : Z) (r : msg_timing) : msg_timing :=
  mk_msg_timing (read_write r) (tick_created r) (tick_packed r) (tick_transmitted r) (tick_switch_ds_rx r) (tick_switch_ds_tx r) (tick_received r) (tick_unpacked r) (tick_at_ramulator r) (tick_ramulator_complete r) v (tick_retransmitted r) (tick_switch_us_rx r) (tick_switch_us_tx r) (tick_resp_received r) (tick_resp_unpacked r) (tick_req_complete r) (ramulator_clk_start r) (ramulator_clk_end r).
Definition set_tick_retransmitted (v : Z) (r : msg_timing) : msg_timing :=
  mk_msg_timing (read_write r) (tick_created r) (tick_packed r) (tick_transmitted r) (tick_switch_ds_rx r) (tick_switch_ds_tx r) (tick_received r) (tick_unpacked r) (tick_at_ramulator r) (tick_ramulator_complete r) (tick_repacked r) v (tick_switch_us_rx r) (tick_switch_us_tx r) (tick_resp_received r) (tick_resp_unpacked r) (tick_req_complete r) (ramulator_clk_start r) (ramulator_clk_end r).
Definition set_tick_switch_us_rx (v : Z) (r : msg_timing) : msg_timing :=
  mk_msg_timing (read_write r) (tick_created r) (tick_packed r) (tick_transmitted r) (tick_switch_ds_rx r) (tick_switch_ds_tx r) (tick_received r) (tick_unpacked r) (tick_at_ramulator r) (tick_ramulator_complete r) (tick_repacked r) (tick_retransmitted r) v (tick_switch_us_tx r) (tick_resp_received r) (tick_resp_unpacked r) (tick_req_complete r) (ramulator_clk_start r) (ramulator_clk_end r).
Definition set_tick_switch_us_tx (v : Z) (r : msg_timing) : msg_timing :=
  mk_msg_timing (read_write r) (tick_created r) (tick_packed r) (tick_transmitted r) (tick_switch_ds_rx r) (tick_switch_ds_tx r) (tick_received r) (tick_unpacked r) (tick_at_ramulator r) (tick_ramulator_complete r) (tick_repacked r) (tick_retransmitted r) (tick_switch_us_rx r) v (tick_resp_received r) (tick_resp_unpacked r) (tick_req_complete r) (ramulator_clk_start r) (ramulator_clk_end r).
Definition set_tick_resp_received (v : Z) (r : msg_timing) : msg_timing :=
  mk_msg_timing (read_write r) (tick_created r) (tick_packed r) (tick_transmitted r) (tick_switch_ds_rx r) (tick_switch_ds_tx r) (tick_received r) (tick_unpacked r) (tick_at_ramulator r) (tick_ramulator_complete r) (tick_repacked r) (tick_retransmitted r) (tick_switch_us_rx r) (tick_switch_us_tx r) v (tick_resp_unpacked r) (tick_req_complete r) (ramulator_clk_start r) (ramulator_clk_end r).
Definition set_tick_resp_unpacked (v : Z) (r : msg_timing) : msg_timing :=
  mk_msg_timing (read_write r) (tick_created r) (tick_packed r) (tick_transmitted r) (tick_switch_ds_rx r) (tick_switch_ds_tx r) (tick_received r) (tick_unpacked r) (tick_at_ramulator r) (tick_ramulator_complete r) (tick_repacked r) (tick_retransmitted r) (tick_switch_us_rx r) (tick_switch_us_tx r) (tick_resp_received r) v (tick_req_complete r) (ramulator_clk_start r) (ramulator_clk_end r).
Definition set_tick_req_complete (v : Z) (r : msg_timing) : msg_timing :=
  mk_msg_timing (read_write r) (tick_created r) (tick_packed r) (tick_transmitted r) (tick_switch_ds_rx r) (tick_switch_ds_tx r) (tick_received r) (tick_unpacked r) (tick_at_ramulator r) (tick_ramulator_complete r) (tick_repacked r) (tick_retransmitted r) (tick_switch_us_rx r) (tick_switch_us_tx r) (tick_resp_received r) (tick_resp_unpacked r) v (ramulator_clk_start r) (ramulator_clk_end r).
Definition set_ramulator_clk_start (v : Z) (r : msg_timing) : msg_timing :=
  mk_msg_timing (read_write r) (tick_created r) (tick_packed r) (tick_transmitted r) (tick_switch_ds_rx r) (tick_switch_ds_tx r) (tick_received r) (tick_unpacked r) (tick_at_ramulator r) (tick_ramulator_complete r) (tick_repacked r) (tick_retransmitted r) (tick_switch_us_rx r) (tick_switch_us_tx r) (tick_resp_received r) (tick_resp_unpacked r) (tick_req_complete r) v (ramulator_clk_end r).
Definition set_ramulator_clk_end (v : Z) (r : msg_timing) : msg_timing :=
  mk_msg_timing (read_write r) (tick_created r) (tick_packed r) (tick_transmitted r) (tick_switch_ds_rx r) (tick_switch_ds_tx r) (tick_received r) (tick_unpacked r) (tick_at_ramulator r) (tick_ramulator_complete r) (tick_repacked r) (tick_retransmitted r) (tick_switch_us_rx r) (tick_switch_us_tx r) (tick_resp_received r) (tick_resp_unpacked r) (tick_req_complete r) (ramulator_clk_start r) v.

Record message : Type := mk_message {
  msg_valid : bool;
  opCode : opcode;
  meta_field : Z;
  meta_value : Z;
  snoop_type : Z;
  tag : Z;
  address : Z;
  ld_id : Z;
  sp_id : Z;
  dp_id : Z;
  traffic_class : Z;
  poison : bool;
  byte_enable_present : bool;
  dev_load : Z;
  msg_id : Z;
  msg_time : msg_timing
}.
Definition set_opCode (v : opcode) (r : message) : message :=
  mk_message (msg_valid r) v (meta_field r) (meta_value r) (snoop_type r) (tag r) (address r) (ld_id r) (sp_id r) (dp_id r) (traffic_class r) (poison r) (byte_enable_present r) (dev_load r) (msg_id r) (msg_time r).
Definition set_address (v : Z) (r : message) : message :=
  mk_message (msg_valid r) (opCode r) (meta_field r) (meta_value r) (snoop_type r) (tag r) v (ld_id r) (sp_id r) (dp_id r) (traffic_class r) (poison r) (byte_enable_present r) (dev_load r) (msg_id r) (msg_time r).
Definition set_msg_id (v : Z) (r : message) : message :=
  mk_message (msg_valid r) (opCode r) (meta_field r) (meta_value r) (snoop_type r) (tag r) (address r) (ld_id r) (sp_id r) (dp_id r) (traffic_class r) (poison r) (byte_enable_present r) (dev_load r) v (msg_time r).
Definition set_msg_time (v : msg_timing) (r : message) : message :=
  mk_message (msg_valid r) (opCode r) (meta_field r) (meta_value r) (snoop_type r) (tag r) (address r) (ld_id r) (sp_id r) (dp_id r) (traffic_class r) (poison r) (byte_enable_present r) (dev_load r) (msg_id r) v.

(** [m.time.member = value], for a pointer to member given by its setter. *)
Definition set_msg_tick (member : Z -> msg_timing -> msg_timing) (value : Z)
    (m : message) : message :=
  set_msg_time (member value (msg_time m)) m.

(** [message::copy] assigns every member of the source, one by one. *)
Definition message_copy (m : message) : message :=
  mk_message (msg_valid m) (opCode m) (meta_field m) (meta_value m) (snoop_type m)
    (tag m) (address m) (ld_id m) (sp_id m) (dp_id m) (traffic_class m)
    (poison m) (byte_enable_present m) (dev_load m) (msg_id m) (msg_time m).

#[global] Arguments message_copy : simpl never.

Lemma message_copy_id m : message_copy m = m.
Proof. by destruct m. Qed.

(** ** Slots and flits ([include/flit.h]) *)

Record credits : Type := mk_credits {
  req_credit : Z;
  rsp_credit : Z;
  data_credit : Z
}.
Definition no_credits : credits := mk_credits 0 0 0.

Inductive slot_type : Type :=
| m2s_req | m2s_rwd_hdr | s2m_ndr | s2m_drs_hdr | data | empty.
#[global] Instance slot_type_eq_dec : EqDecision slot_type.
Proof. solve_decision. Defined.

Definition slot_type_eqb (a b : slot_type) : bool := bool_decide (a = b).

Record slot : Type := mk_slot {
  slot_ty : slot_type;
  slot_msgs : list message;
  slot_msg : message
}.
Definition set_slot_ty (v : slot_type) (r : slot) : slot :=
  mk_slot v (slot_msgs r) (slot_msg r).
Definition set_slot_msg (v : message) (r : slot) : slot :=
  mk_slot (slot_ty r) (slot_msgs r) v.

Record flit_lifetime : Type := mk_flit_lifetime {
  time_of_creation : Z;
  time_of_transmission : Z;
  time_of_receipt : Z
}.
Definition set_time_of_creation (v : Z) (r : flit_lifetime) : flit_lifetime :=
  mk_flit_lifetime v (time_of_transmission r) (time_of_receipt r).
Definition set_time_of_transmission (v : Z) (r : flit_lifetime) : flit_lifetime :=
  mk_flit_lifetime (time_of_creation r) v (time_of_receipt r).
Definition set_time_of_receipt (v : Z) (r : flit_lifetime) : flit_lifetime :=
  mk_flit_lifetime (time_of_creation r) (time_of_transmission r) v.

Inductive flit_type : Type := control | protocol.
Inductive flit_size : Type := B68 | B256 | PBR.

Record flit_header : Type := mk_flit_header {
  hdr_type : flit_type;
  ack : bool;
  byte_enable : bool;
  hdr_size : bool;
  credit : credits;
  hdr_slots : list slot_type
}.
Definition set_credit (v : credits) (r : flit_header) : flit_header :=
  mk_flit_header (hdr_type r) (ack r) (byte_enable r) (hdr_size r) v (hdr_slots r).
Definition set_hdr_slots (v : list slot_type) (r : flit_header) : flit_header :=
  mk_flit_header (hdr_type r) (ack r) (byte_enable r) (hdr_size r) (credit r) v.

Record flit : Type := mk_flit {
  flit_valid : bool;
  flit_time : flit_lifetime;
  flit_size_ : flit_size;
  header : flit_header;
  slots : list slot;
  flit_id : Z
}.
Definition set_flit_time (v : flit_lifetime) (r : flit) : flit :=
  mk_flit (flit_valid r) v (flit_size_ r) (header r) (slots r) (flit_id r).
Definition set_header (v : flit_header) (r : flit) : flit :=
  mk_flit (flit_valid r) (flit_time r) (flit_size_ r) v (slots r) (flit_id r).
Definition set_slots (v : list slot) (r : flit) : flit :=
  mk_flit (flit_valid r) (flit_time r) (flit_size_ r) (header r) v (flit_id r).
Definition set_flit_id (v : Z) (r : flit) : flit :=
  mk_flit (flit_valid r) (flit_time r) (flit_size_ r) (header r) (slots r) v.

(** Values of the members that no constructor initialises. *)
Class Indet : Type := {
  indet_msg : message;
  indet_lifetime : flit_lifetime;
  indet_hdr_type : flit_type;
  indet_ack : bool;
  indet_byte_enable : bool;
  indet_hdr_size : bool;
  indet_credit : credits;
  indet_uint : Z
}.

Section Flit.
Context `{Indet}.

(** [slot::slot()] leaves the type and the message indeterminate. *)
Definition slot_new (t : slot_type) : slot := mk_slot t [] indet_msg.

(** [message::init_time]: the last assignment to [tick_created] is 0; the
    four switch ticks are not assigned. *)
Definition init_time (t : msg_timing) : msg_timing :=
  mk_msg_timing false 0 0 0 (tick_switch_ds_rx t) (tick_switch_ds_tx t) 0 0 0 0 0 0
    (tick_switch_us_rx t) (tick_switch_us_tx t) 0 0 0 0 0.

(** [message::message(oc, addr)]: the new message and the incremented
    static counter [msg_count]. *)
Definition message_new (oc : opcode) (addr : Z) (msg_count : Z) : message * Z :=
  (set_msg_id msg_count
     (set_msg_time (init_time (msg_time indet_msg))
        (set_address addr (set_opCode oc indet_msg))),
   u64 (msg_count + 1)).

(** [flit_header::flit_header()]: [slots.resize(4)] value-initialises the
    recorded types to the enumerator 0, [m2s_req]. *)
Definition flit_header_new : flit_header :=
  mk_flit_header indet_hdr_type indet_ack indet_byte_enable indet_hdr_size
    indet_credit (replicate 4 m2s_req).

(** [flit::flit()] *)
Definition flit_new : flit :=
  mk_flit false indet_lifetime B68 flit_header_new (replicate 4 (slot_new empty)) 0.

(** [flit::copy] *)
Definition flit_copy (f : flit) : flit :=
  mk_flit (flit_valid f) (flit_time f) (flit_size_ f) (header f) (slots f) (flit_id f).

Lemma flit_copy_id f : flit_copy f = f.
Proof. by destruct f. Qed.

(** [slots[i]] *)
Definition slot_at (f : flit) (i : nat) : slot := nth i (slots f) (slot_new empty).
Definition slot_ty_at (f : flit) (i : nat) : slot_type := slot_ty (slot_at f i).

(** [slots[i] = s] *)
Definition set_slot_at (i : nat) (s : slot) (f : flit) : flit :=
  set_slots (<[i := s]> (slots f)) f.

(** [flit::get_first_address] *)
Fixpoint first_address (l : list slot) : Z :=
  match l with
  | [] => 0
  | s :: l => if slot_type_eqb (slot_ty s) empty then first_address l
              else address (slot_msg s)
  end.
Definition get_first_address (f : flit) : Z := first_address (slots f).

(** [flit::is_flit_empty] *)
Definition is_flit_empty (f : flit) : bool :=
  forallb (fun s => slot_type_eqb (slot_ty s) empty) (slots f).

(** [flit::is_flit_full] *)
Definition is_flit_full (f : flit) : bool :=
  forallb (fun s => negb (slot_type_eqb (slot_ty s) empty)) (slots f).

(** [flit::slot_count_in_flit] *)
Definition slot_count_in_flit (f : flit) (t : slot_type) : Z :=
  countb (fun s => slot_type_eqb (slot_ty s) t) (slots f).

(** [flit::are_all_slots_after_this_empty]: the loop stops at [i < 3]. *)
Definition are_all_slots_after_this_empty (f : flit) (pos : nat) : bool :=
  forallb (fun i => slot_type_eqb (slot_ty_at f i) empty) (seq (pos + 1) (3 - (pos + 1))).

(** [flit::set_time] *)
Definition set_slot_time (member : Z -> msg_timing -> msg_timing) (value : Z)
    (s : slot) : slot :=
  if slot_type_eqb (slot_ty s) empty then s
  else set_slot_msg (set_msg_tick member value (slot_msg s)) s.
Definition set_time (member : Z -> msg_timing -> msg_timing) (value : Z)
    (f : flit) : flit :=
  set_slots (map (set_slot_time member value) (slots f)) f.

(** ** Facts about the flit operations *)

Lemma slot_type_eqb_true a b : slot_type_eqb a b = true <-> a = b.
Proof. apply bool_decide_eq_true. Qed.
Lemma slot_type_eqb_false a b : slot_type_eqb a b = false <-> a <> b.
Proof. apply bool_decide_eq_false. Qed.
Lemma slot_type_eqb_refl a : slot_type_eqb a a = true.
Proof. by apply slot_type_eqb_true. Qed.

(** The types of the four slots: what the packing rules talk about. *)
Definition types (f : flit) : list slot_type := map slot_ty (slots f).

Lemma types_length f : length (types f) = length (slots f).
Proof. apply length_map. Qed.

Lemma slot_ty_at_types f i : slot_ty_at f i = nth i (types f) empty.
Proof. unfold slot_ty_at, slot_at, types. by rewrite <- (map_nth slot_ty). Qed.

Lemma types_set_slot_at i s f :
  types (set_slot_at i s f) = <[i := slot_ty s]> (types f).
Proof. unfold types; simpl. apply (list_fmap_insert slot_ty). Qed.

Lemma types_set_time member v f : types (set_time member v f) = types f.
Proof.
  unfold types, set_time; simpl. rewrite map_map. apply map_ext; intros s.
  unfold set_slot_time. by destruct (slot_type_eqb _ _).
Qed.

Lemma types_flit_new : types flit_new = replicate 4 empty.
Proof. done. Qed.

Lemma slot_count_types f t :
  slot_count_in_flit f t = countb (fun u => slot_type_eqb u t) (types f).
Proof.
  unfold slot_count_in_flit, types.
  induction (slots f) as [|s l IH]; simpl; [done | by rewrite IH].
Qed.

Lemma is_flit_empty_types f :
  is_flit_empty f = forallb (fun u => slot_type_eqb u empty) (types f).
Proof.
  unfold is_flit_empty, types.
  induction (slots f) as [|s l IH]; simpl; [done | by rewrite IH].
Qed.

Lemma is_flit_full_types f :
  is_flit_full f = forallb (fun u => negb (slot_type_eqb u empty)) (types f).
Proof.
  unfold is_flit_full, types.
  induction (slots f) as [|s l IH]; simpl; [done | by rewrite IH].
Qed.

End Flit.

#[export] Hint Rewrite @types_set_slot_at @types_set_time @types_flit_new
  @message_copy_id @flit_copy_id @types_length : cxl.
