(* ===== verification/CxlBuf.v ===== *)
(** * Simulation parameters, global counters and bounded buffers

    [include/CXLParams.h] with [CXLParams::recalculate] of [src/Misc.cpp],
    the global variables of [src/Main.cpp], and the class template
    [CXLBuf<T>] of [include/CXLBuf.h]. *)
From Stdlib Require Import ZArith Lia Bool String.
From stdpp Require Import base list gmap.
From S2P Require Import Prelude Flit.

(** ** Parameters ([include/CXLParams.h])

    The primary parameters are the ones [main] assigns.  The members of the
    second record are those [recalculate] derives by integer arithmetic;
    [bus_size], [cxl_bus_ticks_per_dequeue] and [delay_ramulator_update] are
    truncated floating-point quotients, given as arguments. *)
Record CXLParamsNs : Type := mk_CXLParamsNs {
  spec_bandwidth : Z;
  bytes_per_slot : Z;
  slots_per_flit : Z;
  bytes_per_flit : Z;
  ticks_per_ns : Z;
  ticks_per_ins : Z;
  link_width : Z;
  cxl_bus_total_latency_ns : Z;
  delay_tx_buf_to_bus_ns : Z;
  delay_rx_buf_to_unpack_ns : Z;
  delay_vc_to_pack_ns : Z;
  delay_vc_to_ramulator_ns : Z;
  delay_vc_to_retire_ns : Z;
  delay_cxl_noc_switch_ns : Z;
  delay_cxl_port_switch_ns : Z
}.

Record CXLParams : Type := mk_CXLParams {
  params_ns : CXLParamsNs;
  bus_size : Z;
  cxl_bus_total_latency : Z;
  link_bandwidth_s : Z;
  link_bandwidth : Z;
  delay_tx_buf_to_bus : Z;
  delay_rx_buf_to_unpack : Z;
  delay_vc_to_pack : Z;
  delay_ramulator_update : Z;
  delay_vc_to_ramulator : Z;
  delay_vc_to_retire : Z;
  delay_cxl_port_switch : Z;
  delay_cxl_noc_switch : Z;
  cxl_bus_ticks_per_dequeue : Z
}.

(** [CXLParams::recalculate]; [fbus], [fdeq] and [fram] are the results of
    the three conversions from [float] to an integer. *)
Definition recalculate (p : CXLParamsNs) (fbus fdeq fram : Z) : CXLParams :=
  let bw := spec_bandwidth p * link_width p in
  {| params_ns := p;
     bus_size := fbus;
     cxl_bus_total_latency := cxl_bus_total_latency_ns p * ticks_per_ns p;
     link_bandwidth_s := bw;
     link_bandwidth := Z.quot (bw * ticks_per_ns p) 1000000000;
     delay_tx_buf_to_bus := delay_tx_buf_to_bus_ns p * ticks_per_ns p;
     delay_rx_buf_to_unpack := delay_rx_buf_to_unpack_ns p * ticks_per_ns p;
     delay_vc_to_pack := delay_vc_to_pack_ns p * ticks_per_ns p;
     delay_ramulator_update := fram;
     delay_vc_to_ramulator := delay_vc_to_ramulator_ns p * ticks_per_ns p;
     delay_vc_to_retire := delay_vc_to_retire_ns p * ticks_per_ns p;
     delay_cxl_port_switch := delay_cxl_port_switch_ns p * ticks_per_ns p;
     delay_cxl_noc_switch := delay_cxl_noc_switch_ns p * ticks_per_ns p;
     cxl_bus_ticks_per_dequeue := fdeq |}.

(** The assignments of [main]. *)
Definition main_params_ns : CXLParamsNs := {|
  spec_bandwidth := Z.shiftl 4 30;
  bytes_per_slot := 16;
  slots_per_flit := 4;
  bytes_per_flit := 68;
  ticks_per_ns := 10;
  ticks_per_ins := 10;
  link_width := 16;
  cxl_bus_total_latency_ns := 15;
  delay_tx_buf_to_bus_ns := 11;
  delay_rx_buf_to_unpack_ns := 11;
  delay_vc_to_pack_ns := 2;
  delay_vc_to_ramulator_ns := 2;
  delay_vc_to_retire_ns := 2;
  delay_cxl_noc_switch_ns := 10;
  delay_cxl_port_switch_ns := 13
|}.

(** 64 GiB/s over 68-byte flits, 10 ticks per ns: a flit every 9 ticks
    (9.89 truncated); the bus holds 15 ns of traffic; [0.625 * 10] is 6. *)
Definition main_params : CXLParams := recalculate main_params_ns 15 9 6.

(** ** Global variables of [src/Main.cpp] and static counters *)
Record globals : Type := mk_globals {
  curr_tick : Z;
  flit_counter : Z;
  msg_count : Z;
  num_reqs_completed : Z;
  num_dam_reqs : Z
}.
Definition set_curr_tick (v : Z) (g : globals) : globals :=
  mk_globals v (flit_counter g) (msg_count g) (num_reqs_completed g) (num_dam_reqs g).
Definition set_flit_counter (v : Z) (g : globals) : globals :=
  mk_globals (curr_tick g) v (msg_count g) (num_reqs_completed g) (num_dam_reqs g).
Definition set_msg_count (v : Z) (g : globals) : globals :=
  mk_globals (curr_tick g) (flit_counter g) v (num_reqs_completed g) (num_dam_reqs g).
Definition set_num_reqs_completed (v : Z) (g : globals) : globals :=
  mk_globals (curr_tick g) (flit_counter g) (msg_count g) v (num_dam_reqs g).
Definition set_num_dam_reqs (v : Z) (g : globals) : globals :=
  mk_globals (curr_tick g) (flit_counter g) (msg_count g) (num_reqs_completed g) v.

(** ** The buffer template ([include/CXLBuf.h]) *)
Record CXLBuf (T : Type) : Type := mk_CXLBuf {
  size_ : Z;
  q_ : list T
}.
Arguments mk_CXLBuf {T} size_ q_.
Arguments size_ {T} _.
Arguments q_ {T} _.

Section CXLBuf.
Context {T : Type}.
Implicit Types b : CXLBuf T.

(** [CXLBuf(int size)] *)
Definition CXLBuf_new (size : Z) : CXLBuf T := mk_CXLBuf size [].

(** [q_.size() == size_]: the [int] is converted to an unsigned size. *)
Definition is_buf_full b : bool := Z.of_nat (length (q_ b)) =? u64 (size_ b).

Definition is_buf_empty b : bool :=
  match q_ b with [] => true | _ :: _ => false end.

Definition buf_occupancy b : Z := Z.of_nat (length (q_ b)).

Definition dequeue b : res (CXLBuf T) :=
  assert! negb (is_buf_empty b), "Dequeing from already empty buffer!" in
  Ok (mk_CXLBuf (size_ b) (tail (q_ b))).

Definition enqueue (f : T) b : res (CXLBuf T) :=
  assert! negb (is_buf_full b), "Adding to already full buffer!" in
  Ok (mk_CXLBuf (size_ b) (q_ b ++ [f])).

Definition get_head b : res T :=
  match q_ b with
  | [] => Abort "Fetching from empty buffer!"
  | x :: _ => Ok x
  end.

(** A buffer within its capacity, and a capacity that is a proper [int]. *)
Definition buf_ok b : Prop := 0 <= size_ b < 2 ^ 31 /\ buf_occupancy b <= size_ b.

Lemma is_buf_full_spec b : buf_ok b ->
  is_buf_full b = (buf_occupancy b =? size_ b).
Proof. intros [? _]. unfold is_buf_full. by rewrite u64_small by lia. Qed.

Lemma is_buf_full_head b : 0 < u64 (size_ b) -> is_buf_full b = true -> exists x l, q_ b = x :: l.
Proof. unfold is_buf_full. destruct (q_ b) as [|x l]; cbn; [|eauto]. intros ? ?%Z.eqb_eq. lia. Qed.

Lemma is_buf_full_false b : buf_ok b ->
  is_buf_full b = false <-> buf_occupancy b < size_ b.
Proof. intros Hb. rewrite is_buf_full_spec by done. destruct Hb. lia. Qed.

Lemma is_buf_empty_true b : is_buf_empty b = true <-> q_ b = [].
Proof. unfold is_buf_empty. by destruct (q_ b). Qed.

Lemma is_buf_empty_false b :
  is_buf_empty b = false <-> exists x l, q_ b = x :: l.
Proof.
  unfold is_buf_empty. destruct (q_ b) as [|x l].
  - split; [done | intros (? & ? & [=])].
  - split; [eauto | done].
Qed.

Lemma CXLBuf_new_ok n : 0 <= n < 2 ^ 31 -> buf_ok (CXLBuf_new n).
Proof. intros ?. unfold buf_ok, buf_occupancy. simpl. lia. Qed.

Lemma enqueue_ok f b : buf_ok b -> is_buf_full b = false ->
  exists b', enqueue f b = Ok b' /\ q_ b' = q_ b ++ [f] /\ size_ b' = size_ b /\ buf_ok b'.
Proof.
  intros Hb Hf. unfold enqueue. rewrite Hf. eexists; split; [done|].
  split; [done|]. split; [done|].
  apply is_buf_full_false in Hf; [|done]. destruct Hb.
  unfold buf_ok, buf_occupancy in *. simpl. rewrite length_app. simpl. lia.
Qed.

Lemma dequeue_ok x l b : buf_ok b -> q_ b = x :: l ->
  exists b', dequeue b = Ok b' /\ q_ b' = l /\ size_ b' = size_ b /\ buf_ok b'.
Proof.
  intros [? Ho] Hq. unfold dequeue, is_buf_empty. rewrite Hq. simpl.
  eexists; split; [done|]. split; [done|]. split; [done|].
  unfold buf_ok, buf_occupancy in *. rewrite Hq in Ho. simpl in *. lia.
Qed.

Lemma get_head_ok x l b : q_ b = x :: l -> get_head b = Ok x.
Proof. unfold get_head. by intros ->. Qed.

Lemma enqueue_inv f b b' : enqueue f b = Ok b' ->
  is_buf_full b = false /\ q_ b' = q_ b ++ [f] /\ size_ b' = size_ b.
Proof. unfold enqueue. destruct (is_buf_full b); [done|]. simpl. by intros [= <-]. Qed.

Lemma dequeue_inv b b' : dequeue b = Ok b' ->
  exists x, q_ b = x :: q_ b' /\ size_ b' = size_ b.
Proof.
  unfold dequeue, is_buf_empty. destruct (q_ b); [done|]. simpl.
  intros [= <-]. simpl. eauto.
Qed.

Lemma get_head_inv b x : get_head b = Ok x -> exists l, q_ b = x :: l.
Proof. unfold get_head. destruct (q_ b); [done|]. intros [= ->]. eauto. Qed.

(** The empty-buffer test and [get_head] agree. *)
Lemma get_head_nonempty b : is_buf_empty b = false -> exists x, get_head b = Ok x.
Proof. intros (x & l & Hq)%is_buf_empty_false. exists x. by eapply get_head_ok. Qed.

End CXLBuf.

(** [CXLBuf<flit>::latency_check_flit], used by the switch only. *)
Definition latency_check_flit (tick delay : Z) (b : CXLBuf flit) : res bool :=
  let! f := get_head b in
  Ok (delay <=? tick - time_of_receipt (flit_time f)).

(** [CXLBuf<message>::latency_check] *)
Definition latency_check (tick delay : Z) (b : CXLBuf message) : res bool :=
  let! m := get_head b in
  Ok (delay <=? tick - tick_created (msg_time m)).

#[export] Hint Resolve enqueue_ok dequeue_ok get_head_ok CXLBuf_new_ok : cxl.
