(* ===== verification/Samples.v ===== *)
(** * Sample values

    Concrete messages, parameters and members left indeterminate, with which
    the statements of the other files are evaluated. *)
From Stdlib Require Import ZArith Lia Bool String.
From stdpp Require Import base list gmap.
From S2P Require Import Prelude Flit CxlBuf.

Definition sample_timing : msg_timing := mk_msg_timing false 0 0 0 0 0 0 0 0 0 0 0 0 0 0 0 0 0 0.
Definition sample_msg (oc : opcode) (id addr : Z) : message :=
  mk_message false oc 0 0 0 0 addr 0 0 0 0 false false 0 id sample_timing.
#[export] Instance sample_indet : Indet := {|
  indet_msg := sample_msg Req 0 0;
  indet_lifetime := mk_flit_lifetime 0 0 0;
  indet_hdr_type := protocol;
  indet_ack := false;
  indet_byte_enable := false;
  indet_hdr_size := false;
  indet_credit := no_credits;
  indet_uint := 0
|}.
Definition sample_globals (tick : Z) : globals := mk_globals tick 0 0 0 0.
Definition sample_slot (t : slot_type) (oc : opcode) (id addr : Z) : slot :=
  mk_slot t [] (sample_msg oc id addr).
Definition sample_flit (time : flit_lifetime) (c : credits) (l : list slot) : flit :=
  set_flit_time time (set_header (set_credit c (header flit_new)) (set_slots l flit_new)).
