(* ===== verification/CxlBus.v ===== *)
(** * The CXL bus

    [include/CXLBus.h] and [src/CXLBus.cpp]: a queue of flits that models the
    latency and the bandwidth of one direction of a link.  [to_buf] is the
    receiving buffer of the node at the end of the bus; the pointer is
    modelled by passing that buffer to the operation and returning it. *)
From Stdlib Require Import ZArith Lia Bool String.
From stdpp Require Import base list gmap.
From S2P Require Import Prelude Flit CxlBuf.

Inductive direction : Type := UpStream | DwStream.

Inductive bus_terminals : Type :=
| host_device | device_host | host_switch | switch_host
| device_switch | switch_device.

Record CXLBus : Type := mk_CXLBus {
  bus_slots_size : Z;           (* [size] *)
  ticks_per_dequeue : Z;
  bus_latency : Z;
  flit_slots : list flit;
  dir : direction;
  time_of_last_dequeue : Z;
  bus_type : bus_terminals;
  bus_node_id : Z
}.
Definition set_flit_slots (v : list flit) (b : CXLBus) : CXLBus :=
  mk_CXLBus (bus_slots_size b) (ticks_per_dequeue b) (bus_latency b) v (dir b)
    (time_of_last_dequeue b) (bus_type b) (bus_node_id b).
Definition set_time_of_last_dequeue (v : Z) (b : CXLBus) : CXLBus :=
  mk_CXLBus (bus_slots_size b) (ticks_per_dequeue b) (bus_latency b) (flit_slots b)
    (dir b) v (bus_type b) (bus_node_id b).

(** [CXLBus::CXLBus]; [bus_type] is assigned by the system right after. *)
Definition CXLBus_new (p : CXLParams) (size node_id : Z) (d : direction)
    (t : bus_terminals) : CXLBus :=
  mk_CXLBus size (cxl_bus_ticks_per_dequeue p) (cxl_bus_total_latency p) [] d 0 t node_id.

Definition bus_occupancy (b : CXLBus) : Z := Z.of_nat (length (flit_slots b)).
Definition max_size (b : CXLBus) : Z := bus_slots_size b.
Definition is_full (b : CXLBus) : bool := bus_occupancy b =? u64 (bus_slots_size b).
Definition is_empty (b : CXLBus) : bool := bus_occupancy b =? 0.

(** [CXLBus::is_flit_stagnant] *)
Definition is_flit_stagnant (tick : Z) (b : CXLBus) : bool :=
  match flit_slots b with
  | [] => false
  | f :: _ => bus_latency b <? tick - time_of_transmission (flit_time f)
  end.

(** [CXLBus::add_to_bus] *)
Definition add_to_bus (tick : Z) (f : flit) (b : CXLBus) : res CXLBus :=
  assert! negb (is_full b), "Addding to bus when it is full" in
  let b := if is_empty b then set_time_of_last_dequeue tick b else b in
  if negb (is_full b) then Ok (set_flit_slots (flit_slots b ++ [f]) b) else Ok b.

(** The timestamp member that [send_to_node] sets, by the kind of bus. *)
Definition receipt_member (t : bus_terminals) : Z -> msg_timing -> msg_timing :=
  match t with
  | host_switch => set_tick_switch_ds_rx
  | switch_device => set_tick_received
  | device_switch => set_tick_switch_us_rx
  | switch_host => set_tick_resp_received
  | host_device => set_tick_received
  | device_host => set_tick_resp_received
  end.

(** The flit as the receiver gets it. *)
Definition received (t : bus_terminals) (tick : Z) (f : flit) : flit :=
  let f := flit_copy f in
  let f := set_flit_time (set_time_of_receipt tick (flit_time f)) f in
  set_time (receipt_member t) tick f.

(** [CXLBus::send_to_node] *)
Definition send_to_node (p : CXLParams) (tick : Z) (b : CXLBus) (to_buf : CXLBuf flit)
    : res (CXLBus * CXLBuf flit) :=
  match flit_slots b with
  | [] => Ok (b, to_buf)
  | f :: rest =>
      if cxl_bus_total_latency p <=? tick - time_of_transmission (flit_time f) then
        let! to_buf := enqueue (received (bus_type b) tick f) to_buf in
        Ok (set_time_of_last_dequeue tick (set_flit_slots rest b), to_buf)
      else Ok (b, to_buf)
  end.

(** [CXLBus::update] *)
Definition bus_update (p : CXLParams) (tick : Z) (b : CXLBus) (to_buf : CXLBuf flit)
    : res (CXLBus * CXLBuf flit) :=
  assert! (bus_occupancy b <=? u64 (bus_slots_size b)), "Bus size exceeded" in
  assert! negb (is_flit_stagnant tick b), "Stagnant flit in bus" in
  if (cxl_bus_ticks_per_dequeue p <=? tick - time_of_last_dequeue b)
     && negb (is_empty b)
  then send_to_node p tick b to_buf
  else Ok (b, to_buf).

(** [CXLBus::fill_bus] *)
Fixpoint add_all (tick : Z) (fs : list flit) (b : CXLBus) : res CXLBus :=
  match fs with
  | [] => Ok b
  | f :: fs => let! b := add_to_bus tick f b in add_all tick fs b
  end.
Definition fill_bus (tick : Z) (fs : list flit) (b : CXLBus) : res CXLBus :=
  assert! (Z.of_nat (length fs) <? u64 (max_size b - bus_occupancy b)), "Bus overflow" in
  add_all tick fs b.

(** ** One direction of a link over time

    A run interleaves the three events a bus sees.  Per tick it is updated
    exactly once, and the sender may put a flit on it before or after that
    update, provided the bus is not full and the sender keeps the bus
    bandwidth: that is the guard of [CXLHost::transmit],
    [CXLDevice::transmit] and [CXLSwitch::check_transmission].  The receiver
    takes flits out of its buffer at any time. *)
Record bus_run_state : Type := mk_brs {
  now : Z;
  updated : bool;            (* the bus was updated in this tick *)
  last_sent : Z;             (* tick of the last transmission *)
  the_bus : CXLBus;
  rx : CXLBuf flit;
  sent : list flit;          (* flits put on the bus so far *)
  delivered : list flit      (* flits handed to the receiver so far *)
}.

Section Run.
Context (p : CXLParams).

Inductive bus_event : bus_run_state -> bus_run_state -> Prop :=
| ev_tick s :
    updated s = true ->
    bus_event s (mk_brs (now s + 1) false (last_sent s) (the_bus s) (rx s) (sent s) (delivered s))
| ev_send s f b' :
    is_full (the_bus s) = false ->
    cxl_bus_ticks_per_dequeue p <= now s - last_sent s ->
    time_of_transmission (flit_time f) = now s ->
    add_to_bus (now s) f (the_bus s) = Ok b' ->
    bus_event s (mk_brs (now s) (updated s) (now s) b' (rx s) (sent s ++ [f]) (delivered s))
| ev_update s b' rx' fs :
    updated s = false ->
    bus_update p (now s) (the_bus s) (rx s) = Ok (b', rx') ->
    q_ rx' = q_ (rx s) ++ fs ->
    bus_event s (mk_brs (now s) true (last_sent s) b' rx' (sent s) (delivered s ++ fs))
| ev_receive s rx' :
    dequeue (rx s) = Ok rx' ->
    bus_event s (mk_brs (now s) (updated s) (last_sent s) (the_bus s) rx' (sent s) (delivered s)).

(** The state right after construction: nothing was sent in the last
    [cxl_bus_ticks_per_dequeue] ticks. *)
Definition bus_run_init (b : CXLBus) (r : CXLBuf flit) (t0 : Z) : bus_run_state :=
  mk_brs t0 false (t0 - cxl_bus_ticks_per_dequeue p) b r [] [].

(** Transmission times on the bus: increasing, a bandwidth gap apart. *)
Fixpoint spaced (gap : Z) (l : list flit) : Prop :=
  match l with
  | [] => True
  | f :: l =>
      match l with
      | [] => True
      | g :: _ => time_of_transmission (flit_time f) + gap <= time_of_transmission (flit_time g)
      end /\ spaced gap l
  end.

Definition last_time (l : list flit) (d : Z) : Z :=
  match last l with Some f => time_of_transmission (flit_time f) | None => d end.

Record bus_inv (s : bus_run_state) : Prop := {
  bi_latency : bus_latency (the_bus s) = cxl_bus_total_latency p;
  bi_cap : 0 <= bus_slots_size (the_bus s) < 2 ^ 31;
  bi_occ : bus_occupancy (the_bus s) <= bus_slots_size (the_bus s);
  bi_sent : last_sent s <= now s;
  bi_spaced : spaced (cxl_bus_ticks_per_dequeue p) (flit_slots (the_bus s));
  bi_last : last_time (flit_slots (the_bus s)) (last_sent s) = last_sent s;
  bi_head : forall f l, flit_slots (the_bus s) = f :: l ->
      let due := time_of_transmission (flit_time f) + cxl_bus_total_latency p in
      (if updated s then now s < due else now s <= due) /\
      time_of_last_dequeue (the_bus s) + cxl_bus_ticks_per_dequeue p <= due;
  bi_fifo : Forall2 (fun f g => g = received (bus_type (the_bus s))
                 (time_of_transmission (flit_time f) + cxl_bus_total_latency p) f)
              (take (length (delivered s)) (sent s)) (delivered s) /\
            sent s = take (length (delivered s)) (sent s) ++ flit_slots (the_bus s)
}.

Context (gap_pos : 1 <= cxl_bus_ticks_per_dequeue p).
Context (gap_latency : cxl_bus_ticks_per_dequeue p <= cxl_bus_total_latency p).

Lemma spaced_snoc gap l f :
  spaced gap l ->
  (forall g, last l = Some g ->
     time_of_transmission (flit_time g) + gap <= time_of_transmission (flit_time f)) ->
  spaced gap (l ++ [f]).
Proof.
  induction l as [|x l IH]; simpl; [done|]. intros [Hx Hl] Hlast.
  destruct l as [|y l]; simpl in *.
  - split; [by apply Hlast | done].
  - split; [done|]. by apply IH.
Qed.

Lemma is_full_false b : 0 <= bus_slots_size b < 2 ^ 31 ->
  bus_occupancy b <= bus_slots_size b ->
  is_full b = false -> bus_occupancy b < bus_slots_size b.
Proof. unfold is_full. intros. bool_prop. rewrite u64_small in * by lia. lia. Qed.

Lemma is_empty_true b : is_empty b = true <-> flit_slots b = [].
Proof.
  unfold is_empty, bus_occupancy. rewrite Z.eqb_eq.
  destruct (flit_slots b); simpl; [done|]. split; [lia | done].
Qed.

Lemma is_empty_false b f l : flit_slots b = f :: l -> is_empty b = false.
Proof. unfold is_empty, bus_occupancy. intros ->. simpl. lia. Qed.

Lemma add_to_bus_inv tick f b b' : add_to_bus tick f b = Ok b' ->
  flit_slots b' = flit_slots b ++ [f] /\
  time_of_last_dequeue b' = (if is_empty b then tick else time_of_last_dequeue b) /\
  bus_slots_size b' = bus_slots_size b /\ bus_latency b' = bus_latency b /\
  bus_type b' = bus_type b.
Proof.
  unfold add_to_bus. destruct (is_full b) eqn:Hf; [done|]. simpl.
  destruct (is_empty b) eqn:He; simpl.
  - change (is_full (set_time_of_last_dequeue tick b)) with (is_full b).
    rewrite Hf. simpl. by intros [= <-].
  - rewrite Hf. simpl. by intros [= <-].
Qed.

Lemma take_app_exact {A} (l1 l2 : list A) n : length l1 = n -> take n (l1 ++ l2) = l1.
Proof. intros <-. by rewrite take_app_length. Qed.

Lemma bus_inv_send s f b' :
  bus_inv s -> is_full (the_bus s) = false ->
  cxl_bus_ticks_per_dequeue p <= now s - last_sent s ->
  time_of_transmission (flit_time f) = now s ->
  add_to_bus (now s) f (the_bus s) = Ok b' ->
  bus_inv (mk_brs (now s) (updated s) (now s) b' (rx s) (sent s ++ [f]) (delivered s)).
Proof.
  intros [Hl Hc Ho Hs Hsp Hla Hh [Hf2 Hfifo]] Hnf Hgap Ht Ha.
  apply add_to_bus_inv in Ha. destruct Ha as (Hq & Hd & Hsz & Hlat & Hty).
  assert (Hlen : (length (delivered s) <= length (sent s))%nat).
  { apply Forall2_length in Hf2. rewrite length_take in Hf2. lia. }
  constructor; simpl; rewrite ?Hlat, ?Hsz, ?Hq, ?Hty; try done; try lia.
  - unfold bus_occupancy in *. rewrite Hq, length_app. simpl.
    apply is_full_false in Hnf; [|done..]. unfold bus_occupancy in Hnf. lia.
  - apply spaced_snoc; [done|]. intros g Hg. unfold last_time in Hla.
    rewrite Hg in Hla. lia.
  - unfold last_time. by rewrite last_snoc.
  - intros f0 l Hq0. rewrite Hd. destruct (flit_slots (the_bus s)) as [|g l'] eqn:Hfs.
    + simpl in Hq0. injection Hq0 as <- <-. rewrite (proj2 (is_empty_true _) Hfs), Ht.
      destruct (updated s); lia.
    + rewrite (is_empty_false _ _ _ Hfs). injection Hq0 as <- _. by apply (Hh _ l').
  - rewrite (take_app_le (sent s)) by done. split; [done|].
    by rewrite (app_assoc _ _ [f]), <- Hfifo.
Qed.

Lemma bus_inv_update s b' rx' fs :
  bus_inv s -> updated s = false ->
  bus_update p (now s) (the_bus s) (rx s) = Ok (b', rx') ->
  q_ rx' = q_ (rx s) ++ fs ->
  bus_inv (mk_brs (now s) true (last_sent s) b' rx' (sent s) (delivered s ++ fs)).
Proof.
  intros [Hl Hc Ho Hs Hsp Hla Hh [Hf2 Hfifo]] Hup Hu Hrx. unfold bus_update in Hu.
  res_inv. rewrite Hup in Hh.
  assert (Hstay : b' = the_bus s -> rx' = rx s ->
    (forall f l, flit_slots (the_bus s) = f :: l ->
       now s < time_of_transmission (flit_time f) + cxl_bus_total_latency p) ->
    bus_inv (mk_brs (now s) true (last_sent s) b' rx' (sent s) (delivered s ++ fs))).
  { intros -> -> Hlt. assert (fs = []) as ->.
    { apply (app_inv_head (q_ (rx s))). by rewrite app_nil_r. }
    rewrite app_nil_r. constructor; simpl; try done.
    intros f l Hq. split; [by eapply Hlt | by eapply Hh]. }
  unfold send_to_node in Hu. destruct (flit_slots (the_bus s)) as [|f l] eqn:Hq.
  - assert (Ok (the_bus s, rx s) = Ok (b', rx')) as [= <- <-] by
      (destruct (_ && _); exact Hu). by apply Hstay.
  - destruct (Hh f l eq_refl) as [Hnow Hdeq]. rewrite (is_empty_false _ _ _ Hq) in Hu.
    destruct (Z.leb_spec (cxl_bus_ticks_per_dequeue p) (now s - time_of_last_dequeue (the_bus s)))
      as [Hg|Hg]; simpl in Hu.
    2:{ injection Hu as <- <-. apply Hstay; [done..|]. intros ? ? [= <- <-]. lia. }
    destruct (Z.leb_spec (cxl_bus_total_latency p) (now s - time_of_transmission (flit_time f)))
      as [Hd|Hd].
    2:{ injection Hu as <- <-. apply Hstay; [done..|]. intros ? ? [= <- <-]. lia. }
    assert (Hdue : now s = time_of_transmission (flit_time f) + cxl_bus_total_latency p) by lia.
    res_inv. apply enqueue_inv in E1 as (_ & Hq' & _). rewrite Hrx in Hq'.
    apply app_inv_head in Hq' as ->. rewrite <- Hdue in Hdeq. clear Hstay.
    assert (Hlen : length (take (length (delivered s)) (sent s)) = length (delivered s))
      by by eapply Forall2_length.
    constructor; simpl; try done.
    + unfold bus_occupancy in *. simpl. rewrite Hq in Ho. simpl in Ho. lia.
    + by destruct Hsp.
    + unfold last_time in *. rewrite last_cons in Hla. by destruct (last l).
    + intros g l' ->. destruct Hsp as [Hsp _]. lia.
    + rewrite length_app. simpl.
      rewrite Hfifo. set (D := take (length (delivered s)) (sent s)) in *.
      rewrite cons_middle, app_assoc. rewrite take_app_exact.
      2:{ rewrite length_app, Hlen. simpl. lia. }
      split; [|done]. apply Forall2_app; [done|]. repeat constructor. by rewrite Hdue.
Qed.

(** Every event preserves the invariant. *)
Lemma bus_event_inv s s' : bus_event s s' -> bus_inv s -> bus_inv s'.
Proof.
  intros He Hi. destruct He as [s Hup|s f b' Hnf Hgap Ht Ha|s b' rx' fs Hup Hu Hq|s rx' Hd].
  - destruct Hi as [Hl Hc Ho Hs Hsp Hla Hh Hf].
    constructor; simpl; try done; [lia|]. intros f l Hq. destruct (Hh f l Hq) as [Hn Hd].
    rewrite Hup in Hn. split; [lia | done].
  - by eapply bus_inv_send.
  - by apply bus_inv_update with (1 := Hi).
  - destruct Hi. by constructor.
Qed.

Lemma bus_init_inv b r t0 :
  flit_slots b = [] -> bus_latency b = cxl_bus_total_latency p ->
  0 <= bus_slots_size b < 2 ^ 31 -> bus_inv (bus_run_init b r t0).
Proof.
  intros Hq Hl Hc. constructor; simpl; rewrite ?Hq; try done; try lia.
  unfold bus_occupancy. rewrite Hq. simpl. lia.
Qed.

Lemma bus_run_inv s s' : rtc bus_event s s' -> bus_inv s -> bus_inv s'.
Proof. induction 1; eauto using bus_event_inv. Qed.

(** An update never violates an assertion of the bus. *)
Lemma bus_inv_update_ok s : bus_inv s -> updated s = false -> is_buf_full (rx s) = false ->
  exists b' rx', bus_update p (now s) (the_bus s) (rx s) = Ok (b', rx').
Proof.
  intros Hi Hup Hrx. destruct Hi as [Hl Hc Ho Hs Hsp Hla Hh _].
  unfold bus_update. rewrite u64_small by lia. rewrite (proj2 (Z.leb_le _ _)) by done.
  assert (is_flit_stagnant (now s) (the_bus s) = false) as ->.
  { unfold is_flit_stagnant. destruct (flit_slots (the_bus s)) as [|f l]; [done|].
    destruct (Hh f l eq_refl) as [Hn _]. rewrite Hup in Hn. lia. }
  simpl. destruct (_ && _); [|by eauto]. unfold send_to_node.
  destruct (flit_slots (the_bus s)) as [|f l]; [by eauto|].
  destruct (_ <=? _); [|by eauto]. unfold enqueue. rewrite Hrx. simpl. eauto.
Qed.

End Run.

(** ** Properties of a link *)

(** C30: a link never aborts.  Whatever the interleaving of ticks, sends that
    keep the bandwidth and receptions, the bus never exceeds its size and no
    flit stays past the latency, so the two assertions of [CXLBus::update]
    hold in every reachable state and the update succeeds whenever the
    receiving buffer has room. *)
Theorem bus_never_stagnates (p : CXLParams) (b : CXLBus) (r : CXLBuf flit) (t0 : Z)
    (s : bus_run_state) :
  1 <= cxl_bus_ticks_per_dequeue p <= cxl_bus_total_latency p ->
  flit_slots b = [] -> bus_latency b = cxl_bus_total_latency p ->
  0 <= bus_slots_size b < 2 ^ 31 ->
  rtc (bus_event p) (bus_run_init p b r t0) s ->
  updated s = false -> is_buf_full (rx s) = false ->
  exists b' rx', bus_update p (now s) (the_bus s) (rx s) = Ok (b', rx').
Proof.
  intros [? ?] Hq Hl Hc Hrun. apply bus_inv_update_ok.
  eapply bus_run_inv; eauto using bus_init_inv.
Qed.

(** C15: the latency of a link is exact and it is a FIFO.  In every reachable
    state the flits handed to the receiver are the first flits that were
    sent, in order, each received exactly [cxl_bus_total_latency] ticks after
    its transmission; the others are the ones still on the bus. *)
Theorem bus_exact_latency (p : CXLParams) (b : CXLBus) (r : CXLBuf flit) (t0 : Z)
    (s : bus_run_state) :
  1 <= cxl_bus_ticks_per_dequeue p <= cxl_bus_total_latency p ->
  flit_slots b = [] -> bus_latency b = cxl_bus_total_latency p ->
  0 <= bus_slots_size b < 2 ^ 31 ->
  rtc (bus_event p) (bus_run_init p b r t0) s ->
  exists out, sent s = out ++ flit_slots (the_bus s) /\
    Forall2 (fun f g => g = received (bus_type (the_bus s))
               (time_of_transmission (flit_time f) + cxl_bus_total_latency p) f)
      out (delivered s).
Proof.
  intros [? ?] Hq Hl Hc Hrun.
  destruct (bus_run_inv p H H0 _ _ Hrun (bus_init_inv p H b r t0 Hq Hl Hc)).
  destruct bi_fifo0. eauto.
Qed.

Module BusWitness.
#[local] Instance indet0 : Indet :=
  {| indet_msg := mk_message false Req 0 0 0 0 0 0 0 0 0 false false 0 0
       (mk_msg_timing false 0 0 0 0 0 0 0 0 0 0 0 0 0 0 0 0 0 0);
     indet_lifetime := mk_flit_lifetime 0 0 0; indet_hdr_type := protocol;
     indet_ack := false; indet_byte_enable := false; indet_hdr_size := false;
     indet_credit := no_credits; indet_uint := 0 |}.
Definition p1 : CXLParams := recalculate
  {| spec_bandwidth := 4; bytes_per_slot := 16; slots_per_flit := 4; bytes_per_flit := 68;
     ticks_per_ns := 1; ticks_per_ins := 1; link_width := 16; cxl_bus_total_latency_ns := 1;
     delay_tx_buf_to_bus_ns := 1; delay_rx_buf_to_unpack_ns := 1; delay_vc_to_pack_ns := 1;
     delay_vc_to_ramulator_ns := 1; delay_vc_to_retire_ns := 1;
     delay_cxl_noc_switch_ns := 1; delay_cxl_port_switch_ns := 1 |} 15 1 6.
Definition b0 : CXLBus := CXLBus_new p1 15 4 DwStream host_switch.
Definition r0 : CXLBuf flit := CXLBuf_new 8.
Definition f0 : flit := set_flit_time (mk_flit_lifetime 0 5 0) flit_new.
Definition out0 : list flit := [received host_switch 6 f0].
Definition b1 : CXLBus := set_time_of_last_dequeue 5 (set_flit_slots [f0] b0).
Definition b2 : CXLBus := set_time_of_last_dequeue 6 (set_flit_slots [] b0).
Definition s1 : bus_run_state := mk_brs 6 false 5 b1 r0 [f0] [].
Definition s2 : bus_run_state := mk_brs 6 true 5 b2 (mk_CXLBuf 8 out0) [f0] out0.

(** Send at tick 5, advance, and deliver at tick 6. *)
Lemma run1 : rtc (bus_event p1) (bus_run_init p1 b0 r0 5) s1.
Proof.
  eapply rtc_l; [apply (ev_send p1 _ f0 b1); vm_compute; congruence|].
  eapply rtc_l; [apply (ev_update p1 _ b1 r0 []); reflexivity|].
  eapply rtc_l; [apply ev_tick; reflexivity|]. apply rtc_refl.
Defined.
Lemma run2 : rtc (bus_event p1) (bus_run_init p1 b0 r0 5) s2.
Proof.
  eapply rtc_r; [apply run1|].
  apply (ev_update p1 s1 b2 (mk_CXLBuf 8 out0) out0); reflexivity.
Defined.

Lemma bus_never_stagnates_witness :
  exists b' rx', bus_update p1 6 (the_bus s1) (rx s1) = Ok (b', rx').
Proof.
  apply (bus_never_stagnates p1 b0 r0 5 s1); try reflexivity; try exact run1;
    vm_compute; split; congruence.
Defined.

Lemma bus_exact_latency_witness :
  exists out, sent s2 = out ++ flit_slots (the_bus s2) /\
    Forall2 (fun f g => g = received host_switch
               (time_of_transmission (flit_time f) + 1) f) out out0.
Proof.
  apply (bus_exact_latency p1 b0 r0 5 s2); try reflexivity; try exact run2;
    vm_compute; split; congruence.
Defined.
End BusWitness.
