(* ===== verification/Packing.v ===== *)
(** * The flit packing protocol

    The host packs Req and RwD messages, the device NDR and DRS messages, by
    the same rules: a flit has four slots, at most two data-less messages
    (Req, NDR), at most one header of a message with data (RwD, DRS), and the
    four data chunks of a header follow it, rolling over to the next flit.
    This file states those rules on the kinds of the slots, independently of
    the two implementations:

    - [wf_flit r ks r'] says that a flit with slots [ks] is legal when [r]
      data chunks are still owed and that [r'] are owed after it;
    - [fill_set] is a specification of the slot-filling loop of
      [FLIT_packer]: the set of results it allows;
    - [consume_rollover] and [process_slots] are the two loops of
      [FLIT_unpacker], which the host and the device share up to the slot
      types and the queues. *)
From Stdlib Require Import ZArith Lia Bool String.
From stdpp Require Import base list gmap.
From S2P Require Import Prelude Flit CxlBuf.

(** [enum round_robin_state] of [include/utils.h] *)
Inductive round_robin_state : Type := rr_R | rr_r | rr_w | rr_W.
#[global] Instance rr_eq_dec : EqDecision round_robin_state.
Proof. solve_decision. Defined.

(** ** Kinds of slots *)
Inductive kind : Type := Plain | Hdr | Dat | Emp | Bad.
#[global] Instance kind_eq_dec : EqDecision kind.
Proof. solve_decision. Defined.
Definition kind_eqb (a b : kind) : bool := bool_decide (a = b).

Lemma kind_eqb_true a b : kind_eqb a b = true <-> a = b.
Proof. apply bool_decide_eq_true. Qed.

(** The message types of one direction of the link, and the opcodes of their
    messages. *)
Class Dialect : Type := {
  plain_ty : slot_type;
  hdr_ty : slot_type;
  plain_op : opcode;
  hdr_op : opcode;
  dialect_ok : plain_ty <> hdr_ty /\ plain_ty <> data /\ plain_ty <> empty /\
               hdr_ty <> data /\ hdr_ty <> empty
}.
Definition m2s_dialect : Dialect := {|
  plain_ty := m2s_req; hdr_ty := m2s_rwd_hdr; plain_op := Req; hdr_op := RwD;
  dialect_ok := ltac:(split_and!; discriminate) |}.
Definition s2m_dialect : Dialect := {|
  plain_ty := s2m_ndr; hdr_ty := s2m_drs_hdr; plain_op := NDR; hdr_op := DRS;
  dialect_ok := ltac:(split_and!; discriminate) |}.

Definition kind_of `{Dialect} (t : slot_type) : kind :=
  if slot_type_eqb t plain_ty then Plain
  else if slot_type_eqb t hdr_ty then Hdr
  else match t with data => Dat | empty => Emp | _ => Bad end.

Definition kinds `{Dialect} (f : flit) : list kind := map kind_of (types f).

Definition count_kind (k : kind) (ks : list kind) : Z := countb (fun x => kind_eqb x k) ks.

Section Kinds.
Context `{Indet} `{Dialect}.
Implicit Types f : flit.

Lemma kind_of_plain t : kind_of t = Plain <-> t = plain_ty.
Proof.
  unfold kind_of. split; [|intros ->; by rewrite slot_type_eqb_refl].
  destruct (slot_type_eqb t plain_ty) eqn:E; [by apply slot_type_eqb_true in E|].
  destruct (slot_type_eqb t hdr_ty); [done|]. by destruct t.
Qed.
Lemma kind_of_hdr t : kind_of t = Hdr <-> t = hdr_ty.
Proof.
  pose proof dialect_ok as (D1 & _). unfold kind_of. split.
  - destruct (slot_type_eqb t plain_ty); [done|].
    destruct (slot_type_eqb t hdr_ty) eqn:E; [by apply slot_type_eqb_true in E|]. by destruct t.
  - intros ->. rewrite slot_type_eqb_refl. by rewrite (proj2 (slot_type_eqb_false _ _)) by congruence.
Qed.
Lemma kind_of_dat t : kind_of t = Dat <-> t = data.
Proof.
  pose proof dialect_ok as (_ & D2 & _ & D4 & _). unfold kind_of. split.
  - destruct (slot_type_eqb t plain_ty); [done|].
    destruct (slot_type_eqb t hdr_ty); [done|]. by destruct t.
  - intros ->. by rewrite !(proj2 (slot_type_eqb_false _ _)) by congruence.
Qed.
Lemma kind_of_emp t : kind_of t = Emp <-> t = empty.
Proof.
  pose proof dialect_ok as (_ & _ & D3 & _ & D5). unfold kind_of. split.
  - destruct (slot_type_eqb t plain_ty); [done|].
    destruct (slot_type_eqb t hdr_ty); [done|]. by destruct t.
  - intros ->. by rewrite !(proj2 (slot_type_eqb_false _ _)) by congruence.
Qed.

(** Comparing kinds is comparing types, but for the types of the other
    direction. *)
Lemma kind_eqb_of t k u : (kind_of t = k <-> t = u) -> kind_eqb (kind_of t) k = slot_type_eqb t u.
Proof.
  intros Hk. destruct (slot_type_eqb t u) eqn:E.
  - apply kind_eqb_true, Hk. by apply slot_type_eqb_true.
  - apply slot_type_eqb_false in E. apply not_true_is_false. by rewrite kind_eqb_true, Hk.
Qed.

Lemma kinds_put i s f : kinds (set_slot_at i s f) = <[i := kind_of (slot_ty s)]> (kinds f).
Proof. unfold kinds. rewrite types_set_slot_at. apply (list_fmap_insert kind_of). Qed.

Lemma kinds_at f i : kind_eqb (nth i (kinds f) Emp) Emp = slot_type_eqb (slot_ty_at f i) empty.
Proof.
  rewrite slot_ty_at_types. unfold kinds. rewrite <- (kind_eqb_of _ Emp empty (kind_of_emp _)).
  rewrite <- (proj2 (kind_of_emp empty) eq_refl) at 1. by rewrite map_nth.
Qed.

Lemma kinds_count f t k : (forall u, kind_of u = k <-> u = t) ->
  slot_count_in_flit f t = count_kind k (kinds f).
Proof.
  intros Ht. rewrite slot_count_types. unfold count_kind, kinds.
  induction (types f) as [|u l IH]; simpl; [done|]. by rewrite IH, (kind_eqb_of _ _ _ (Ht u)).
Qed.

Lemma kinds_after f i : are_all_slots_after_this_empty f i =
  forallb (fun i => kind_eqb (nth i (kinds f) Emp) Emp) (seq (i + 1) (3 - (i + 1))).
Proof.
  unfold are_all_slots_after_this_empty. induction (seq _ _) as [|k l IH]; [done|].
  simpl. by rewrite IH, kinds_at.
Qed.

Lemma kinds_length f : length (kinds f) = length (slots f).
Proof. unfold kinds. by rewrite length_map, types_length. Qed.

Lemma kinds_flit_new : kinds flit_new = repeat Emp 4.
Proof. unfold kinds. simpl. by rewrite (proj2 (kind_of_emp empty) eq_refl). Qed.

Lemma kinds_set_time member v f : kinds (set_time member v f) = kinds f.
Proof. unfold kinds. by rewrite types_set_time. Qed.

Lemma is_flit_empty_kinds f : is_flit_empty f = forallb (fun k => kind_eqb k Emp) (kinds f).
Proof.
  rewrite is_flit_empty_types. unfold kinds. induction (types f) as [|t l IH]; simpl; [done|].
  by rewrite IH, (kind_eqb_of _ _ _ (kind_of_emp t)).
Qed.

Lemma is_flit_full_kinds f :
  is_flit_full f = forallb (fun k => negb (kind_eqb k Emp)) (kinds f).
Proof.
  rewrite is_flit_full_types. unfold kinds. induction (types f) as [|t l IH]; simpl; [done|].
  by rewrite IH, (kind_eqb_of _ _ _ (kind_of_emp t)).
Qed.

Lemma exists_kind f : existsb (fun k => negb (kind_eqb k Emp)) (kinds f) = true ->
  Exists (fun s => slot_ty s <> empty) (slots f).
Proof.
  unfold kinds, types. induction (slots f) as [|s l IH]; simpl; [done|].
  rewrite (kind_eqb_of _ _ _ (kind_of_emp _)), orb_true_iff, negb_true_iff, slot_type_eqb_false.
  intros [He|He]; [by left | right; by apply IH].
Qed.

End Kinds.

Lemma count_exists k ks : k <> Emp -> 0 < count_kind k ks ->
  existsb (fun k => negb (kind_eqb k Emp)) ks = true.
Proof.
  intros Hk. unfold count_kind. induction ks as [|c ks IH]; simpl; [lia|].
  destruct (kind_eqb c k) eqn:E.
  - apply kind_eqb_true in E as ->. intros _. unfold kind_eqb at 1. by rewrite bool_decide_eq_false_2.
  - intros Hc. rewrite IH by lia. apply orb_true_r.
Qed.

(** ** The messages of a flit *)

(** Messages of one type, in slot order. *)
Definition msgs_of (t : slot_type) (l : list slot) : list message :=
  map slot_msg (List.filter (fun s => slot_type_eqb (slot_ty s) t) l).
(** Messages without data, then headers. *)
Definition packed `{Dialect} (f : flit) : list message :=
  msgs_of plain_ty (slots f) ++ msgs_of hdr_ty (slots f).
Definition ids (l : list message) : list Z := map msg_id l.

Lemma msgs_of_cons t s l : msgs_of t (s :: l) =
  (if slot_type_eqb (slot_ty s) t then [slot_msg s] else []) ++ msgs_of t l.
Proof. unfold msgs_of. simpl. by destruct (slot_type_eqb (slot_ty s) t). Qed.

Lemma msgs_of_other t l :
  t <> data -> t <> empty ->
  Forall (fun s => slot_ty s = data \/ slot_ty s = empty) l -> msgs_of t l = [].
Proof.
  intros Hd He. induction 1 as [|s l Hs Hl IH]; [done|]. rewrite msgs_of_cons, IH.
  rewrite (proj2 (slot_type_eqb_false _ _)); [done|]. destruct Hs; congruence.
Qed.

Lemma msgs_of_app t l1 l2 : msgs_of t (l1 ++ l2) = msgs_of t l1 ++ msgs_of t l2.
Proof. unfold msgs_of. by rewrite List.filter_app, map_app. Qed.

Lemma msgs_of_insert t i s (l : list slot) s0 :
  l !! i = Some s0 -> slot_ty s0 <> t ->
  msgs_of t (<[i := s]> l) ≡ₚ
    (if slot_type_eqb (slot_ty s) t then [slot_msg s] else []) ++ msgs_of t l.
Proof.
  revert i. induction l as [|c l IH]; intros [|i] Hi Hne; simpl in *; simplify_eq.
  - rewrite !msgs_of_cons. by rewrite (proj2 (slot_type_eqb_false _ _) Hne).
  - rewrite !msgs_of_cons, (IH _ Hi Hne).
    destruct (slot_type_eqb (slot_ty c) t), (slot_type_eqb (slot_ty s) t); simpl; try done.
    apply perm_swap.
Qed.

Lemma msgs_of_set_time t member v l : (forall z m, msg_id (set_msg_tick member z m) = msg_id m) ->
  ids (msgs_of t (map (set_slot_time member v) l)) = ids (msgs_of t l).
Proof.
  intros Hm. induction l as [|s l IH]; simpl; [done|]. rewrite !msgs_of_cons. unfold ids in *.
  rewrite !map_app, IH. f_equal. unfold set_slot_time.
  destruct (slot_type_eqb (slot_ty s) empty); [done|]. simpl.
  destruct (slot_type_eqb (slot_ty s) t); [|done]. cbn [map slot_msg set_slot_msg]. by rewrite Hm.
Qed.

Lemma packed_set_time `{Dialect} member v f :
  (forall z m, msg_id (set_msg_tick member z m) = msg_id m) ->
  ids (packed (set_time member v f)) = ids (packed f).
Proof.
  intros Hm. unfold packed, ids. rewrite !map_app. simpl. f_equal; by apply msgs_of_set_time.
Qed.

Lemma packed_empty `{Dialect} f : is_flit_empty f = true -> packed f = [].
Proof.
  unfold is_flit_empty, packed. intros Hf. pose proof dialect_ok as (D1 & D2 & D3 & D4 & D5).
  rewrite !msgs_of_other; try done; apply Forall_forall; intros s Hs;
    rewrite forallb_forall in Hf; right; by apply slot_type_eqb_true, Hf, list_elem_of_In.
Qed.

(** *** Moving a message from a channel to a slot *)

Lemma concat_take_head (l : list (CXLBuf message)) j b m r :
  l !! j = Some b -> q_ b = m :: r ->
  concat (map q_ l) ≡ₚ m :: concat (map q_ (<[j := mk_CXLBuf (size_ b) r]> l)).
Proof.
  revert j. induction l as [|c l IH]; intros [|j] Hj Hq; simpl in *; simplify_eq.
  - by rewrite Hq.
  - rewrite (IH _ Hj Hq). by rewrite <- Permutation_middle.
Qed.

Lemma nth_insert {A} j j' (b d : A) l : (j < length l)%nat ->
  nth j' (<[j := b]> l) d = if decide (j = j') then b else nth j' l d.
Proof.
  intros Hj. rewrite !nth_lookup. case_decide as E; subst.
  - by rewrite list_lookup_insert_eq.
  - by rewrite list_lookup_insert_ne.
Qed.

Lemma nth_some {A} j (d : A) l : (j < length l)%nat -> l !! j = Some (nth j l d).
Proof. intros Hj. destruct (nth_lookup_or_length l j d); [done|lia]. Qed.

(** The head of a channel is copied into an empty slot. *)
Definition put_msg `{Indet} (i : nat) (t : slot_type) (m : message) (f : flit) : flit :=
  set_slot_at i (set_slot_msg (message_copy m) (set_slot_ty t (slot_at f i))) f.
Definition drop_head (b : CXLBuf message) : CXLBuf message := mk_CXLBuf (size_ b) (tail (q_ b)).

Lemma packed_put `{Indet} `{Dialect} i t m f :
  (i < length (slots f))%nat -> slot_ty_at f i = empty -> t = plain_ty \/ t = hdr_ty ->
  packed (put_msg i t m f) ≡ₚ m :: packed f.
Proof.
  intros Hi He Ht. pose proof dialect_ok as (D1 & D2 & D3 & D4 & D5). unfold packed. simpl.
  pose proof (nth_some i (slot_new empty) (slots f) Hi) as Hs. change (nth i _ _) with (slot_at f i) in Hs.
  change (slot_ty (slot_at f i) = empty) in He.
  rewrite !(msgs_of_insert _ _ _ _ _ Hs) by congruence. simpl. rewrite message_copy_id.
  destruct Ht as [-> | ->]; rewrite slot_type_eqb_refl, (proj2 (slot_type_eqb_false _ _)) by congruence;
    simpl; [done|]. by rewrite <- Permutation_middle.
Qed.

Lemma packed_put_data `{Indet} `{Dialect} i s f :
  (i < length (slots f))%nat -> slot_ty_at f i = empty -> slot_ty s = data ->
  packed (set_slot_at i s f) ≡ₚ packed f.
Proof.
  intros Hi He Hd. pose proof dialect_ok as (D1 & D2 & D3 & D4 & D5). unfold packed. simpl.
  pose proof (nth_some i (slot_new empty) (slots f) Hi) as Hs. change (nth i _ _) with (slot_at f i) in Hs.
  change (slot_ty (slot_at f i) = empty) in He.
  rewrite !(msgs_of_insert _ _ _ _ _ Hs) by congruence.
  by rewrite Hd, !(proj2 (slot_type_eqb_false _ _)) by congruence.
Qed.

(** *** The opcodes of the messages of a flit, and their number *)
Definition op_fits `{Dialect} (s : slot) : Prop :=
  (slot_ty s = plain_ty -> opCode (slot_msg s) = plain_op) /\ (slot_ty s = hdr_ty -> opCode (slot_msg s) = hdr_op).
Definition cargo_ok `{Dialect} (f : flit) : Prop := Forall op_fits (slots f).
Definition total (t : slot_type) (fs : list flit) : Z := foldr (fun f z => slot_count_in_flit f t + z) 0 fs.

Section Cargo.
Context `{Indet} `{Dialect}.

Lemma op_fits_other s : slot_ty s = data \/ slot_ty s = empty -> op_fits s.
Proof. intros Hs. pose proof dialect_ok as (D1 & D2 & D3 & D4 & D5). split; intros E; destruct Hs; congruence. Qed.
Lemma cargo_new : cargo_ok flit_new.
Proof. unfold cargo_ok. cbn. repeat constructor; apply op_fits_other; by right. Qed.
Lemma cargo_put i t m f : cargo_ok f -> (t = plain_ty /\ opCode m = plain_op) \/ (t = hdr_ty /\ opCode m = hdr_op) ->
  cargo_ok (put_msg i t m f).
Proof.
  intros Hf Ht. pose proof dialect_ok as (D1 & _). apply Forall_insert; [done|]. unfold op_fits. cbn. rewrite message_copy_id.
  split; intros ->; destruct Ht as [[? ?]|[? ?]]; congruence.
Qed.
Lemma cargo_put_other i s f : cargo_ok f -> slot_ty s = data \/ slot_ty s = empty -> cargo_ok (set_slot_at i s f).
Proof. intros Hf Hs. apply Forall_insert; [done|]. by apply op_fits_other. Qed.
Lemma cargo_set_time member v f : (forall z m, opCode (set_msg_tick member z m) = opCode m) -> cargo_ok f -> cargo_ok (set_time member v f).
Proof.
  intros Hm Hf. apply Forall_map. eapply Forall_impl; [exact Hf|]. intros s [H1 H2]. unfold op_fits, set_slot_time.
  destruct (slot_type_eqb (slot_ty s) empty); [done|]. cbn [slot_ty set_slot_msg slot_msg]. rewrite Hm. done.
Qed.

Lemma total_app t l1 l2 : total t (l1 ++ l2) = total t l1 + total t l2.
Proof. induction l1 as [|f l1 IH]; [done|]. unfold total in *. cbn [foldr app]. lia. Qed.
Lemma total_one t f : total t [f] = slot_count_in_flit f t.
Proof. unfold total. cbn. lia. Qed.
Lemma total_cons t f fs : total t (f :: fs) = slot_count_in_flit f t + total t fs.
Proof. done. Qed.
Lemma total_ge0 t fs : 0 <= total t fs.
Proof.
  induction fs as [|f fs IH]; [done|]. change (0 <= slot_count_in_flit f t + total t fs).
  pose proof (countb_nonneg (fun s => slot_type_eqb (slot_ty s) t) (slots f)) as Hn. unfold slot_count_in_flit. lia.
Qed.
Lemma count_set_slot t i s f : (i < length (slots f))%nat -> slot_ty_at f i = empty -> t <> empty ->
  slot_count_in_flit (set_slot_at i s f) t = slot_count_in_flit f t + (if slot_type_eqb (slot_ty s) t then 1 else 0).
Proof.
  intros Hi He Ht. unfold slot_count_in_flit. cbn. rewrite (countb_insert _ _ i _ (slot_new empty)) by done.
  change (slot_ty (nth i (slots f) (slot_new empty))) with (slot_ty_at f i). rewrite He.
  rewrite (proj2 (slot_type_eqb_false empty t)) by congruence. lia.
Qed.
Lemma count_empty t f : is_flit_empty f = true -> t <> empty -> slot_count_in_flit f t = 0.
Proof.
  unfold is_flit_empty, slot_count_in_flit. intros Hf Ht. apply countb_zero. intros s Hs. rewrite forallb_forall in Hf.
  apply Hf, slot_type_eqb_true in Hs. rewrite Hs. apply slot_type_eqb_false. congruence.
Qed.
Lemma count_types t f g : types g = types f -> slot_count_in_flit g t = slot_count_in_flit f t.
Proof. intros E. by rewrite !slot_count_types, E. Qed.
Lemma length_msgs t f : Z.of_nat (length (msgs_of t (slots f))) = slot_count_in_flit f t.
Proof.
  unfold slot_count_in_flit. induction (slots f) as [|s l IH]; [done|]. rewrite msgs_of_cons, length_app. cbn [countb]. rewrite <- IH.
  destruct (slot_type_eqb _ _); cbn; lia.
Qed.
End Cargo.

(** ** Legal flits *)

(** Free slots of a flit in which [r <= 3] data chunks are owed: those
    chunks take slots 1 to [r]. *)
Definition free_slots (r : nat) (ks : list kind) : list kind :=
  nth 0 ks Bad :: drop (r + 1) ks.

(** Chunks owed after the free slots: data follows a header only, and fills
    every slot after it. *)
Fixpoint owed_after (l : list kind) : option Z :=
  match l with
  | [] => Some 0
  | Plain :: l | Emp :: l => owed_after l
  | Hdr :: l => if forallb (fun k => kind_eqb k Dat) l
                then Some (4 - Z.of_nat (length l)) else None
  | _ => None
  end.

Definition carried (r : nat) (ks : list kind) : bool :=
  forallb (fun k => kind_eqb k Dat) (take r (drop 1 ks)).

Definition wf_flit (r : Z) (ks : list kind) (r' : Z) : bool :=
  (length ks =? 4)%nat && (count_kind Plain ks <=? 2) &&
  if r =? 4 then forallb (fun k => kind_eqb k Dat) ks && (r' =? 0)
  else (0 <=? r) && (r <=? 3) && carried (Z.to_nat r) ks &&
       bool_decide (owed_after (free_slots (Z.to_nat r) ks) = Some r').

Lemma wf_flit_inv r ks r' : wf_flit r ks r' = true ->
  length ks = 4%nat /\ count_kind Plain ks <= 2 /\
  (r = 4 /\ forallb (fun k => kind_eqb k Dat) ks = true /\ r' = 0 \/
   0 <= r <= 3 /\ carried (Z.to_nat r) ks = true /\
   owed_after (free_slots (Z.to_nat r) ks) = Some r').
Proof.
  unfold wf_flit. rewrite !andb_true_iff, Nat.eqb_eq, Z.leb_le.
  intros [[Hlen Hc] Hr]. split; [done|]. split; [done|].
  destruct (Z.eqb_spec r 4) as [->|Hne]; bool_prop.
  - by left.
  - right. apply bool_decide_eq_true in H0. auto.
Qed.

(** A legal flit respects the slot counts the packers and the unpackers
    assert.  The header count is checked on all flits. *)
Definition all_kinds : list kind := [Plain; Hdr; Dat; Emp; Bad].
Lemma all_kinds_in k : In k all_kinds.
Proof. destruct k; simpl; tauto. Qed.
Definition all_flits (P : list kind -> bool) : bool :=
  forallb (fun a => forallb (fun b => forallb (fun c => forallb (fun d => P [a; b; c; d])
    all_kinds) all_kinds) all_kinds) all_kinds.
Lemma all_flits_spec P ks : all_flits P = true -> length ks = 4%nat -> P ks = true.
Proof.
  intros C Hl. do 5 (destruct ks as [|? ks]; try done).
  assert (Hf : forall Q, forallb Q all_kinds = true -> forall x, Q x = true).
  { intros Q HQ x. rewrite forallb_forall in HQ. apply HQ, all_kinds_in. }
  exact (Hf _ (Hf _ (Hf _ (Hf _ C k) k0) k1) k2).
Qed.

Lemma wf_hdr_check :
  forallb (fun r => all_flits (fun ks =>
    (negb (forallb (fun k => kind_eqb k Dat) ks) || (count_kind Hdr ks =? 0)) &&
    match owed_after (free_slots r ks) with
    | Some r' => negb (carried r ks) || (count_kind Hdr ks =? if r' =? 0 then 0 else 1)
    | None => true
    end)) [0; 1; 2; 3]%nat = true.
Proof. vm_compute. reflexivity. Qed.

(** Chunks are owed after a flit exactly when it holds a header. *)
Lemma wf_hdr_exact r ks r' : wf_flit r ks r' = true ->
  count_kind Hdr ks = if r' =? 0 then 0 else 1.
Proof.
  intros (Hlen & _ & Hr)%wf_flit_inv. pose proof wf_hdr_check as C.
  assert (Hin : In (if r =? 4 then 0%nat else Z.to_nat r) [0; 1; 2; 3]%nat).
  { destruct (Z.eqb_spec r 4); simpl; destruct Hr as [?|?]; lia. }
  rewrite forallb_forall in C. specialize (all_flits_spec _ ks (C _ Hin) Hlen) as [C1 C2]%andb_true_iff.
  destruct Hr as [(_ & Hd & ->)|(Hr & Hc & Ho)].
  - rewrite Hd in C1. cbn [negb orb] in C1. by bool_prop.
  - rewrite (proj2 (Z.eqb_neq r 4)) in C2 by lia. rewrite Ho, Hc in C2.
    cbn [negb orb] in C2. by bool_prop.
Qed.

Lemma wf_hdr_count r ks r' : wf_flit r ks r' = true -> count_kind Hdr ks <= 1.
Proof. intros Hw. rewrite (wf_hdr_exact _ _ _ Hw). destruct (r' =? 0); lia. Qed.

(** A legal flit with no message, when no data is owed, is empty. *)
Lemma wf_empty_check :
  all_flits (fun ks =>
    negb (count_kind Plain ks =? 0) || negb (count_kind Hdr ks =? 0) || forallb (fun k => kind_eqb k Emp) ks ||
    negb (bool_decide (is_Some (owed_after (free_slots 0 ks))))) = true.
Proof. vm_compute. reflexivity. Qed.

Lemma wf_empty ks r' : wf_flit 0 ks r' = true -> count_kind Plain ks = 0 -> count_kind Hdr ks = 0 ->
  forallb (fun k => kind_eqb k Emp) ks = true.
Proof.
  intros (Hlen & _ & [(? & _)|(_ & _ & Ho)])%wf_flit_inv Hp Hh; [done|].
  pose proof (all_flits_spec _ ks wf_empty_check Hlen) as C. cbv beta in C.
  change (Z.to_nat 0) with 0%nat in Ho. rewrite Hp, Hh, Ho in C. cbn [negb orb Z.eqb] in C. by rewrite orb_false_r in C.
Qed.

(** A header leaves more chunks owed than there were before it. *)
Lemma wf_owed_check :
  forallb (fun r => all_flits (fun ks =>
    match owed_after (free_slots r ks) with
    | Some r' => negb (carried r ks) || (r' =? 0) || ((Z.of_nat r <? r') && (r' <=? 4))
    | None => true
    end)) [0; 1; 2; 3]%nat = true.
Proof. vm_compute. reflexivity. Qed.

Lemma wf_owed_grows r ks r' : wf_flit r ks r' = true -> r' = 0 \/ r < r' <= 4.
Proof.
  intros (Hlen & _ & [(_ & _ & ->)|(Hr & Hc & Ho)])%wf_flit_inv; [by left|].
  pose proof wf_owed_check as C. rewrite forallb_forall in C. specialize (C (Z.to_nat r) ltac:(simpl; lia)).
  pose proof (all_flits_spec _ ks C Hlen) as C1. cbv beta in C1. rewrite Ho, Hc in C1. clear C. rename C1 into C.
  cbn [negb orb] in C. apply orb_true_iff in C as [?|?]; bool_prop; lia.
Qed.

Lemma count_three ks :
  count_kind Plain ks + count_kind Hdr ks + count_kind Dat ks <= Z.of_nat (length ks).
Proof. unfold count_kind. induction ks as [|k ks IH]; simpl; [lia|]. destruct k; simpl; lia. Qed.

(** A sequence of flits is legal when each is, the chunks owed being carried
    from one to the next. *)
Inductive wf_stream : Z -> list (list kind) -> Z -> Prop :=
| wf_nil r : wf_stream r [] r
| wf_cons r ks r1 l r2 :
    wf_flit r ks r1 = true -> wf_stream r1 l r2 -> wf_stream r (ks :: l) r2.

Lemma wf_stream_snoc r l r1 ks r2 :
  wf_stream r l r1 -> wf_flit r1 ks r2 = true -> wf_stream r (l ++ [ks]) r2.
Proof. induction 1; simpl; eauto using wf_stream. Qed.

Lemma wf_stream_app r l1 r1 l2 r2 :
  wf_stream r l1 r1 -> wf_stream r1 l2 r2 -> wf_stream r (l1 ++ l2) r2.
Proof. induction 1; simpl; eauto using wf_stream. Qed.

(** ** The slot-filling loop, as a set of allowed results *)

(** State of the loop: the slots, the chunks owed, the round-robin state,
    and whether a header message is available for packing. *)
Record pst : Type := mk_pst { pk : list kind; roll : Z; rr : round_robin_state; hav : bool }.
#[global] Instance pst_eq_dec : EqDecision pst.
Proof. solve_decision. Defined.

Definition next_plain (s : round_robin_state) : round_robin_state :=
  match s with rr_r => rr_R | rr_R => rr_R | rr_w => rr_r | rr_W => rr_W end.

(** [are_all_slots_after_this_empty] on kinds *)
Definition after_empty (ks : list kind) (pos : nat) : bool :=
  forallb (fun i => kind_eqb (nth i ks Emp) Emp) (seq (pos + 1) (3 - (pos + 1))).

Fixpoint fill_set (ixs : list nat) (s : pst) : list pst :=
  match ixs with
  | [] => [s]
  | i :: ixs =>
      if negb (kind_eqb (nth i (pk s) Emp) Emp) then fill_set ixs s
      else if negb (roll s =? 0) && negb (i =? 0)%nat then
        fill_set ixs (mk_pst (<[i := Dat]> (pk s)) (roll s - 1) (rr s) (hav s))
      else
        s ::
        (if bool_decide (rr s = rr_R) && hav s then [] else
           if count_kind Plain (pk s) <=? 1 then
             flat_map (fun h => fill_set ixs
               (mk_pst (<[i := Plain]> (pk s)) (roll s) (next_plain (rr s)) h)) [true; false]
           else fill_set ixs (mk_pst (pk s) (roll s) (next_plain (rr s)) (hav s))) ++
        (if hav s then
           if (count_kind Hdr (pk s) =? 0) && ((i =? 0)%nat || after_empty (pk s) i) then
             flat_map (fun h => fill_set ixs (mk_pst (<[i := Hdr]> (pk s)) 4 rr_w h)) [true; false]
           else flat_map (fun h => fill_set ixs (mk_pst (pk s) (roll s) rr_w h)) [true; false]
         else [])
  end.

(** One message offered to slot [i]: what the packer may do with it. *)
Inductive fill_msg (i : nat) (s : pst) : pst -> Prop :=
| fm_plain b :
    (rr s = rr_R -> hav s = false) -> count_kind Plain (pk s) <= 1 ->
    fill_msg i s (mk_pst (<[i := Plain]> (pk s)) (roll s) (next_plain (rr s)) b)
| fm_plain_skip :
    (rr s = rr_R -> hav s = false) -> 1 < count_kind Plain (pk s) ->
    fill_msg i s (mk_pst (pk s) (roll s) (next_plain (rr s)) (hav s))
| fm_hdr b :
    hav s = true -> (count_kind Hdr (pk s) =? 0) && ((i =? 0)%nat || after_empty (pk s) i) = true ->
    fill_msg i s (mk_pst (<[i := Hdr]> (pk s)) 4 rr_w b)
| fm_hdr_skip b :
    hav s = true -> (count_kind Hdr (pk s) =? 0) && ((i =? 0)%nat || after_empty (pk s) i) = false ->
    fill_msg i s (mk_pst (pk s) (roll s) rr_w b).

Lemma in_both {A} (f : bool -> list A) b x : In x (f b) -> In x (flat_map f [true; false]).
Proof. intros Hx. apply in_flat_map. exists b. split; [destruct b; simpl; auto | done]. Qed.

Section FillStep.
Context (i : nat) (ixs : list nat) (s : pst).
Hypothesis Hempty : kind_eqb (nth i (pk s) Emp) Emp = true.
Hypothesis Hmsg : negb (roll s =? 0) && negb (i =? 0)%nat = false.

Lemma fill_set_stop : In s (fill_set (i :: ixs) s).
Proof. cbn [fill_set]. rewrite Hempty, Hmsg. by left. Qed.

Lemma fill_set_msg t x : fill_msg i s t -> In x (fill_set ixs t) -> In x (fill_set (i :: ixs) s).
Proof.
  intros Hst Hx. cbn [fill_set]. rewrite Hempty, Hmsg. cbn [negb]. right.
  apply in_or_app. destruct Hst as [b Hr Hc|Hr Hc|b Hh Hc|b Hh Hc].
  1, 2: left; replace (bool_decide (rr s = rr_R) && hav s) with false
    by (symmetry; apply andb_false_iff; rewrite bool_decide_eq_false;
        destruct (decide (rr s = rr_R)); auto).
  - rewrite (proj2 (Z.leb_le _ _)) by lia. by apply (in_both _ b).
  - by rewrite (proj2 (Z.leb_gt _ _)) by lia.
  - right. rewrite Hh, Hc. by apply (in_both _ b).
  - right. rewrite Hh, Hc. by apply (in_both (fun h => fill_set ixs (mk_pst _ _ _ h)) b).
Qed.

End FillStep.

(** Slots of a flit under construction: [r0] owed chunks, then [k] messages
    without data in the first free slots. *)
Definition layout (r0 k : nat) : list kind :=
  let free := repeat Plain k ++ repeat Emp (4 - r0 - k) in
  take 1 free ++ repeat Dat r0 ++ drop 1 free.

(** The round-robin state remembers the messages packed in this flit. *)
Definition rr_ok (k : nat) (s : round_robin_state) : bool :=
  match k, s with
  | _, rr_W => false
  | O, _ => true
  | 1%nat, (rr_R | rr_r) => true
  | 2%nat, rr_R => true
  | _, _ => false
  end.

(** A flit under construction that holds no header. *)
Definition open_flit (r0 : nat) (ks : list kind) (r : Z) (s : round_robin_state) : bool :=
  (r0 <=? 3)%nat && (r =? 0) &&
  existsb (fun k => (r0 + k <=? 4)%nat && bool_decide (ks = layout r0 k) && rr_ok k s)
    [0; 1; 2]%nat.

(** A flit that is complete: every slot is taken. *)
Definition closed_flit (r0 : nat) (ks : list kind) (r : Z) (s : round_robin_state) : bool :=
  wf_flit (Z.of_nat r0) ks r && forallb (fun k => negb (kind_eqb k Emp)) ks &&
  negb (bool_decide (s = rr_W)).

Definition flit_inv (r0 : nat) (ks : list kind) (r : Z) (s : round_robin_state) : bool :=
  open_flit r0 ks r s || closed_flit r0 ks r s.

Definition all_rr : list round_robin_state := [rr_R; rr_r; rr_w; rr_W].

(** The loop keeps the invariant: from a flit without header it ends in one
    without header or in a complete one.  The state space is finite. *)
Lemma fill_set_inv_check :
  forallb (fun r0 => forallb (fun k => forallb (fun s => forallb (fun h =>
    negb (open_flit r0 (layout r0 k) 0 s && (r0 + k <=? 4)%nat) ||
    forallb (fun t => flit_inv r0 (pk t) (roll t) (rr t))
      (fill_set [0; 1; 2; 3]%nat (mk_pst (layout r0 k) 0 s h)))
    [true; false]) all_rr) [0; 1; 2]%nat) [0; 1; 2; 3]%nat = true.
Proof. vm_compute. reflexivity. Qed.

Lemma open_flit_inv r0 ks r s : open_flit r0 ks r s = true ->
  (r0 <= 3)%nat /\ r = 0 /\ exists k, (k <= 2)%nat /\ (r0 + k <= 4)%nat /\
    ks = layout r0 k /\ rr_ok k s = true.
Proof.
  unfold open_flit. intros. bool_prop. apply Nat.leb_le in H.
  split; [done|]. split; [done|].
  apply existsb_exists in H0 as (k & Hk & Hb). bool_prop.
  apply Nat.leb_le in H0. apply bool_decide_eq_true in H3.
  exists k. split_and!; try done. destruct Hk as [<-|[<-|[<-|[]]]]; lia.
Qed.

Lemma fill_set_inv r0 s t :
  open_flit r0 (pk s) (roll s) (rr s) = true ->
  In t (fill_set [0; 1; 2; 3]%nat s) ->
  flit_inv r0 (pk t) (roll t) (rr t) = true.
Proof.
  intros Ho Ht. destruct s as [ks r st h]; simpl in *.
  pose proof (open_flit_inv _ _ _ _ Ho) as (Hr0 & -> & k & Hk & Hrk & -> & Hrr).
  pose proof fill_set_inv_check as C.
  rewrite forallb_forall in C. specialize (C r0 ltac:(simpl; lia)).
  rewrite forallb_forall in C. specialize (C k ltac:(simpl; lia)).
  rewrite forallb_forall in C. specialize (C st ltac:(destruct st; simpl; tauto)).
  rewrite forallb_forall in C. specialize (C h ltac:(destruct h; simpl; tauto)).
  rewrite Ho, (proj2 (Nat.leb_le _ _) Hrk) in C. simpl in C.
  rewrite forallb_forall in C. by apply C.
Qed.

(** A flit that satisfies the invariant may be sent as it is. *)
Lemma flit_inv_wf_check :
  forallb (fun r0 => forallb (fun k =>
    negb (r0 + k <=? 4)%nat || wf_flit (Z.of_nat r0) (layout r0 k) 0)
    [0; 1; 2]%nat) [0; 1; 2; 3]%nat = true.
Proof. vm_compute. reflexivity. Qed.

Lemma flit_inv_wf r0 ks r s : flit_inv r0 ks r s = true -> wf_flit (Z.of_nat r0) ks r = true.
Proof.
  unfold flit_inv. intros [Ho|Hc]%orb_true_iff.
  - apply open_flit_inv in Ho as (Hr0 & -> & k & Hk & Hrk & -> & _).
    pose proof flit_inv_wf_check as C.
    rewrite forallb_forall in C. specialize (C r0 ltac:(simpl; lia)).
    rewrite forallb_forall in C. specialize (C k ltac:(simpl; lia)).
    by rewrite (proj2 (Nat.leb_le _ _) Hrk) in C.
  - unfold closed_flit in Hc. by bool_prop.
Qed.

Lemma flit_inv_rr r0 ks r s : flit_inv r0 ks r s = true -> s <> rr_W.
Proof.
  unfold flit_inv. intros [Ho|Hc]%orb_true_iff ->.
  - apply open_flit_inv in Ho as (_ & _ & k & Hk & _ & _ & Hrr).
    destruct k as [|[|[|k]]]; simpl in Hrr; [done..|lia].
  - unfold closed_flit in Hc. by rewrite andb_false_r in Hc.
Qed.

(** An empty flit owes nothing. *)
Lemma flit_inv_empty r0 ks r s : flit_inv r0 ks r s = true ->
  forallb (fun k => kind_eqb k Emp) ks = true -> r0 = 0%nat /\ r = 0.
Proof.
  unfold flit_inv. intros [Ho|Hc]%orb_true_iff He.
  - apply open_flit_inv in Ho as (Hr0 & -> & k & Hk & Hrk & -> & _). split; [|done].
    destruct r0 as [|[|[|[|]]]]; [done|..|lia]; destruct k as [|[|[|]]]; try lia; done.
  - unfold closed_flit in Hc. bool_prop. apply wf_flit_inv in H as (Hlen & _).
    destruct ks as [|k ks]; [done|]. simpl in *. bool_prop. congruence.
Qed.

(** ** The loops of [FLIT_unpacker] *)

(** State the unpacker works on: the chunks still owed, the header they
    belong to, and the two receiving virtual channels. *)
Record uvc : Type := mk_uvc {
  u_roll : Z;
  u_last : message;
  u_plain : CXLBuf message;
  u_hdr : CXLBuf message
}.

Section Unpack.
Context `{Indet} `{Dialect}.
Context (member : Z -> msg_timing -> msg_timing) (tick : Z).

(** [last_hdr.time.tick = curr_tick; HDR.enqueue(last_hdr)] *)
Definition complete_hdr (u : uvc) : res uvc :=
  let m := set_msg_tick member tick (u_last u) in
  let! b := enqueue m (u_hdr u) in
  Ok (mk_uvc (u_roll u) m (u_plain u) b).

(** The loop that gives the data slots of a flit to the last header and
    marks them empty; it stops when nothing is owed any more. *)
Fixpoint consume_rollover (l : list slot) (u : uvc) : res (list slot * uvc) :=
  match l with
  | [] => Ok ([], u)
  | s :: l =>
      if negb (slot_type_eqb (slot_ty s) data) then
        let! (l, u) := consume_rollover l u in Ok (s :: l, u)
      else
        let u := mk_uvc (u_roll u - 1) (u_last u) (u_plain u) (u_hdr u) in
        let s := set_slot_ty empty s in
        if u_roll u =? 0 then let! u := complete_hdr u in Ok (s :: l, u)
        else let! (l, u) := consume_rollover l u in Ok (s :: l, u)
  end.

(** The loop over the slots that remain. *)
Definition process_slot (s : slot) (u : uvc) : res uvc :=
  if slot_type_eqb (slot_ty s) plain_ty then
    let! b := enqueue (set_msg_tick member tick (slot_msg s)) (u_plain u) in
    Ok (mk_uvc (u_roll u) (u_last u) b (u_hdr u))
  else if slot_type_eqb (slot_ty s) hdr_ty then
    assert! (u_roll u =? 0), "Received RwD header without getting previous data first!" in
    Ok (mk_uvc 4 (message_copy (slot_msg s)) (u_plain u) (u_hdr u))
  else match slot_ty s with
  | data =>
      assert! (0 <? u_roll u), "Data received when not expected!" in
      let u := mk_uvc (u_roll u - 1) (u_last u) (u_plain u) (u_hdr u) in
      if u_roll u =? 0 then complete_hdr u else Ok u
  | empty => Ok u
  | _ => Abort "Illegal message type on rx buffer"
  end.

Fixpoint process_slots (l : list slot) (u : uvc) : res uvc :=
  match l with
  | [] => Ok u
  | s :: l => let! u := process_slot s u in process_slots l u
  end.

(** Both loops, as [FLIT_unpacker] runs them. *)
Definition unpack_slots (l : list slot) (u : uvc) : res uvc :=
  let! (l, u) := if negb (u_roll u =? 0) then consume_rollover l u else Ok (l, u) in
  process_slots l u.

Definition stamp (m : message) : message := set_msg_tick member tick m.

(** *** The unpacker on a legal flit *)

Lemma process_slot_plain s u b :
  slot_ty s = plain_ty -> enqueue (stamp (slot_msg s)) (u_plain u) = Ok b ->
  process_slot s u = Ok (mk_uvc (u_roll u) (u_last u) b (u_hdr u)).
Proof. intros Ht Hb. unfold process_slot. rewrite Ht, slot_type_eqb_refl. unfold stamp in Hb. by rewrite Hb. Qed.

Lemma process_slot_empty s u : slot_ty s = empty -> process_slot s u = Ok u.
Proof.
  intros Ht. unfold process_slot. rewrite Ht. pose proof dialect_ok as (_ & _ & ? & _ & ?).
  rewrite (proj2 (slot_type_eqb_false empty plain_ty)) by congruence.
  by rewrite (proj2 (slot_type_eqb_false empty hdr_ty)) by congruence.
Qed.

Lemma process_slot_hdr s u : slot_ty s = hdr_ty -> u_roll u = 0 ->
  process_slot s u = Ok (mk_uvc 4 (slot_msg s) (u_plain u) (u_hdr u)).
Proof.
  intros Ht Hr. unfold process_slot. rewrite Ht, Hr, slot_type_eqb_refl, message_copy_id.
  pose proof dialect_ok as (? & _).
  by rewrite (proj2 (slot_type_eqb_false hdr_ty plain_ty)) by congruence.
Qed.

Lemma process_slot_data s u : slot_ty s = data -> 1 < u_roll u ->
  process_slot s u = Ok (mk_uvc (u_roll u - 1) (u_last u) (u_plain u) (u_hdr u)).
Proof.
  intros Ht Hr. unfold process_slot. rewrite Ht. pose proof dialect_ok as (_ & ? & _ & ? & _).
  rewrite (proj2 (slot_type_eqb_false data plain_ty)) by congruence.
  rewrite (proj2 (slot_type_eqb_false data hdr_ty)) by congruence.
  rewrite (proj2 (Z.ltb_lt _ _)) by lia. simpl.
  by rewrite (proj2 (Z.eqb_neq _ _)) by lia.
Qed.

(** Slots the second loop meets in a legal flit: messages and gaps, then
    possibly a header followed by gaps and fewer than four data slots. *)
Inductive second_pass : list slot -> Z -> Prop :=
| sp_nil : second_pass [] 0
| sp_plain s l r : slot_ty s = plain_ty -> second_pass l r -> second_pass (s :: l) r
| sp_empty s l r : slot_ty s = empty -> second_pass l r -> second_pass (s :: l) r
| sp_hdr s l :
    slot_ty s = hdr_ty -> Forall (fun s => slot_ty s = data \/ slot_ty s = empty) l ->
    countb (fun s => slot_type_eqb (slot_ty s) data) l <= 3 ->
    second_pass (s :: l) (4 - countb (fun s => slot_type_eqb (slot_ty s) data) l).

Lemma process_data l u :
  Forall (fun s => slot_ty s = data \/ slot_ty s = empty) l ->
  countb (fun s => slot_type_eqb (slot_ty s) data) l < u_roll u ->
  process_slots l u = Ok (mk_uvc (u_roll u - countb (fun s => slot_type_eqb (slot_ty s) data) l)
                            (u_last u) (u_plain u) (u_hdr u)).
Proof.
  intros Hl. revert u. induction Hl as [|s l Hs Hl IH]; intros u Hc; simpl in *.
  - rewrite Z.sub_0_r. by destruct u.
  - pose proof (countb_nonneg (fun s => slot_type_eqb (slot_ty s) data) l).
    destruct Hs as [Hs|Hs]; rewrite Hs in *; simpl in *.
    + change (slot_type_eqb data data) with true in *.
      rewrite process_slot_data by (simpl; lia || done). simpl.
      rewrite IH by (simpl; lia). simpl. f_equal. f_equal. lia.
    + rewrite process_slot_empty by done. simpl. rewrite IH by (simpl in *; lia). done.
Qed.

Lemma process_second_pass l r u :
  second_pass l r -> u_roll u = 0 -> buf_ok (u_plain u) ->
  buf_occupancy (u_plain u) + Z.of_nat (length (msgs_of plain_ty l)) <= size_ (u_plain u) ->
  exists u', process_slots l u = Ok u' /\ u_roll u' = r /\
    q_ (u_plain u') = q_ (u_plain u) ++ map stamp (msgs_of plain_ty l) /\
    size_ (u_plain u') = size_ (u_plain u) /\
    u_hdr u' = u_hdr u /\
    u_last u' = List.last (msgs_of hdr_ty l) (u_last u).
Proof.
  intros Hp. revert u. pose proof dialect_ok as (D1 & D2 & D3 & D4 & D5).
  induction Hp as [|s l r Hs Hp IH|s l r Hs Hp IH|s l Hs Hl Hc]; intros u Hr Hb Hocc.
  - exists u. simpl. by rewrite app_nil_r.
  - rewrite msgs_of_cons, Hs, slot_type_eqb_refl in *. rewrite msgs_of_cons, Hs.
    rewrite (proj2 (slot_type_eqb_false plain_ty hdr_ty)) by done.
    rewrite length_app in Hocc. simpl in *.
    destruct (enqueue_ok (stamp (slot_msg s)) (u_plain u)) as (b & E & Hq & Hsz & Hbo); [done| |].
    { apply is_buf_full_false; [done|]. lia. }
    rewrite (process_slot_plain _ _ _ Hs E). simpl.
    destruct (IH (mk_uvc (u_roll u) (u_last u) b (u_hdr u))) as (u' & E' & R & P & S & Hh & L);
      simpl; try done.
    { rewrite Hsz. unfold buf_occupancy in *. rewrite Hq, length_app. simpl. lia. }
    exists u'. simpl in *. split_and!; try done; [|congruence].
    by rewrite P, Hq, <- app_assoc.
  - rewrite msgs_of_cons, Hs in *. rewrite msgs_of_cons, Hs.
    rewrite (proj2 (slot_type_eqb_false empty plain_ty)) in * by congruence.
    rewrite (proj2 (slot_type_eqb_false empty hdr_ty)) by congruence.
    simpl. rewrite process_slot_empty by done. by apply IH.
  - rewrite !msgs_of_cons, Hs, slot_type_eqb_refl in *.
    rewrite (proj2 (slot_type_eqb_false hdr_ty plain_ty)) by congruence.
    rewrite !msgs_of_other by done. simpl. rewrite process_slot_hdr by done. simpl.
    rewrite process_data; simpl; [|done|lia]. eexists; split; [done|]. simpl.
    by rewrite app_nil_r.
Qed.


Lemma consume_data ds rest u b :
  Forall (fun s => slot_ty s = data) ds -> ds <> [] ->
  u_roll u = Z.of_nat (length ds) ->
  enqueue (stamp (u_last u)) (u_hdr u) = Ok b ->
  consume_rollover (ds ++ rest) u =
    Ok (map (set_slot_ty empty) ds ++ rest, mk_uvc 0 (stamp (u_last u)) (u_plain u) b).
Proof.
  intros Hd. revert u. induction Hd as [|s ds Hs Hd IH]; intros u Hne Hr Hb; [done|].
  simpl app. simpl consume_rollover. rewrite Hs. change (slot_type_eqb data data) with true. simpl.
  destruct ds as [|d ds].
  - simpl in *. rewrite (proj2 (Z.eqb_eq _ _)) by lia.
    unfold complete_hdr. simpl. unfold stamp in Hb. rewrite Hb. simpl.
    rewrite Hr. done.
  - rewrite (proj2 (Z.eqb_neq _ _)) by (simpl in *; lia).
    rewrite IH; [done|done| |done]. simpl in *. lia.
Qed.

Lemma all_dat l : forallb (fun k => kind_eqb k Dat) (map (fun s => kind_of (slot_ty s)) l) = true ->
  Forall (fun s => slot_ty s = data) l.
Proof.
  induction l as [|s l IH]; simpl; [done|]. intros. bool_prop.
  constructor; [by apply kind_of_dat, kind_eqb_true | by apply IH].
Qed.

Lemma countb_all_dat l : Forall (fun s => slot_ty s = data) l ->
  countb (fun s => slot_type_eqb (slot_ty s) data) l = Z.of_nat (length l).
Proof.
  induction 1 as [|s l Hs Hl IH]; simpl; [done|]. rewrite Hs.
  change (slot_type_eqb data data) with true. lia.
Qed.

Lemma second_pass_owed l r' :
  (length l <= 4)%nat ->
  owed_after (map (fun s => kind_of (slot_ty s)) l) = Some r' -> second_pass l r'.
Proof.
  induction l as [|s l IH]; simpl; intros Hlen Ho; [injection Ho as <-; constructor|].
  destruct (kind_of (slot_ty s)) eqn:K; try done.
  - apply kind_of_plain in K. apply sp_plain; [done|]. apply IH; [lia | done].
  - destruct (forallb _ _) eqn:F in Ho; [|done]. injection Ho as <-.
    apply all_dat in F. apply kind_of_hdr in K. rewrite length_map.
    rewrite <- (countb_all_dat l) by done. apply sp_hdr; [done| |].
    + eapply Forall_impl; [done|]. simpl. auto.
    + rewrite countb_all_dat by done. lia.
  - apply kind_of_emp in K. apply sp_empty; [done|]. apply IH; [lia | done].
Qed.

Lemma second_pass_gap s l r es :
  second_pass (s :: l) r -> Forall (fun s => slot_ty s = empty) es ->
  second_pass (s :: es ++ l) r.
Proof.
  intros Hp He. assert (Hgap : forall r, second_pass l r -> second_pass (es ++ l) r).
  { intros r0 ?. clear Hp. induction He; simpl; [done|]. by apply sp_empty. }
  inversion Hp as [|? ? ? Hs Hl|? ? ? Hs Hl|? ? Hs Hl Hc]; subst.
  - apply sp_plain; auto.
  - apply sp_empty; auto.
  - assert (E : countb (fun s => slot_type_eqb (slot_ty s) data) (es ++ l) =
                countb (fun s => slot_type_eqb (slot_ty s) data) l).
    { clear Hp Hgap. induction He as [|e es E He IH]; simpl; [done|]. by rewrite E, IH. }
    rewrite <- E. apply sp_hdr; [done| |lia]. apply Forall_app. split; [|done].
    eapply Forall_impl; [done|]. simpl. auto.
Qed.

Lemma msgs_of_consumed t ds : t <> data -> t <> empty ->
  Forall (fun s => slot_ty s = data) ds ->
  msgs_of t (map (set_slot_ty empty) ds) = msgs_of t ds.
Proof.
  intros. rewrite !msgs_of_other; try done.
  - eapply Forall_impl; [done|]. simpl. auto.
  - apply Forall_forall. intros s Hs. apply list_elem_of_In, in_map_iff in Hs.
    destruct Hs as (? & <- & _). simpl. auto.
Qed.

(** What [FLIT_unpacker] does with a legal flit: it never violates an
    assertion, the messages without data arrive in slot order, the header
    whose chunks were owed is completed, and a new header is remembered. *)
Lemma unpack_wf l u r' :
  wf_flit (u_roll u) (map (fun s => kind_of (slot_ty s)) l) r' = true ->
  buf_ok (u_plain u) -> buf_ok (u_hdr u) ->
  buf_occupancy (u_plain u) + Z.of_nat (length (msgs_of plain_ty l)) <= size_ (u_plain u) ->
  (u_roll u <> 0 -> is_buf_full (u_hdr u) = false) ->
  exists u', unpack_slots l u = Ok u' /\ u_roll u' = r' /\
    q_ (u_plain u') = q_ (u_plain u) ++ map stamp (msgs_of plain_ty l) /\
    size_ (u_plain u') = size_ (u_plain u) /\
    q_ (u_hdr u') = q_ (u_hdr u) ++ (if u_roll u =? 0 then [] else [stamp (u_last u)]) /\
    size_ (u_hdr u') = size_ (u_hdr u) /\
    u_last u' = List.last (msgs_of hdr_ty l)
                  (if u_roll u =? 0 then u_last u else stamp (u_last u)).
Proof.
  intros Hwf Hbp Hbh Hocc Hroom. pose proof dialect_ok as (D1 & D2 & D3 & D4 & D5).
  apply wf_flit_inv in Hwf as (Hlen & _ & Hwf). rewrite length_map in Hlen.
  unfold unpack_slots. destruct (Z.eqb_spec (u_roll u) 0) as [E0|E0]; simpl.
  - destruct Hwf as [[? _]|(_ & _ & Ho)]; [lia|]. rewrite E0 in Ho.
    destruct l as [|s0 l]; [done|]. simpl in Hlen, Ho. rewrite drop_0 in Ho.
    destruct (process_second_pass (s0 :: l) r' u) as (u' & E & R & P & S & Hh & L);
      [apply second_pass_owed; [simpl; lia | done]|done..|].
    exists u'. rewrite Hh, app_nil_r. done.
  - destruct (enqueue_ok (stamp (u_last u)) (u_hdr u)) as (b & E & Hq & Hsz & _);
      [done|by apply Hroom|].
    assert (Hgo : forall l1 ds rest s0, l = s0 ++ ds ++ rest ->
       Forall (fun s => slot_ty s = data) ds ->
       consume_rollover l u = Ok (l1, mk_uvc 0 (stamp (u_last u)) (u_plain u) b) ->
       l1 = s0 ++ map (set_slot_ty empty) ds ++ rest -> second_pass l1 r' ->
       exists u', bind (consume_rollover l u) (fun '(l, u) => process_slots l u) = Ok u' /\
         u_roll u' = r' /\ q_ (u_plain u') = q_ (u_plain u) ++ map stamp (msgs_of plain_ty l) /\
         size_ (u_plain u') = size_ (u_plain u) /\
         q_ (u_hdr u') = q_ (u_hdr u) ++ [stamp (u_last u)] /\
         size_ (u_hdr u') = size_ (u_hdr u) /\
         u_last u' = List.last (msgs_of hdr_ty l) (stamp (u_last u))).
    { intros l1 ds rest s0 El Hd Ec El1 Hsp. rewrite Ec. simpl.
      assert (M : forall t, t <> data -> t <> empty -> msgs_of t l1 = msgs_of t l).
      { intros t ? ?. by rewrite El1, El, !msgs_of_app, msgs_of_consumed. }
      destruct (process_second_pass l1 r' (mk_uvc 0 (stamp (u_last u)) (u_plain u) b))
        as (u' & E' & R & P & S & Hh & L); simpl; try done.
      { by rewrite M. }
      exists u'. simpl in *. rewrite M in P, L by done. rewrite Hh, Hq. done. }
    destruct Hwf as [(E4 & Hd & ->)|(Hr & Hca & Ho)].
    + apply all_dat in Hd.
      apply (Hgo (map (set_slot_ty empty) l) l [] []); simpl; rewrite ?app_nil_r; try done.
      * rewrite <- (app_nil_r l) at 1. rewrite (consume_data l [] u b); rewrite ?app_nil_r; try done.
        -- by intros ->.
        -- by rewrite E4, Hlen.
      * clear -Hlen. do 5 (destruct l as [|? l]; try done). simpl. by repeat constructor.
    + set (n := Z.to_nat (u_roll u)) in *.
      destruct l as [|s0 l]; [done|]. simpl in Hlen. unfold carried in Hca. simpl in Hca.
      rewrite drop_0, firstn_map in Hca. apply all_dat in Hca.
      unfold free_slots in Ho. rewrite Nat.add_1_r in Ho. simpl in Ho. rewrite skipn_map in Ho.
      assert (Hsp : second_pass (s0 :: drop n l) r').
      { apply second_pass_owed; [|done]. simpl. rewrite length_drop. lia. }
      assert (slot_ty s0 <> data) as Hs0.
      { intros Hd. inversion Hsp; congruence. }
      apply (Hgo (s0 :: map (set_slot_ty empty) (take n l) ++ drop n l) (take n l) (drop n l) [s0]);
        try done.
      * simpl. by rewrite take_drop.
      * simpl. rewrite (proj2 (slot_type_eqb_false _ _)) by done. simpl.
        rewrite <- (take_drop n l) at 1. rewrite (consume_data (take n l) _ u b); try done.
        -- intros Hn. apply (f_equal length) in Hn. rewrite length_take in Hn. simpl in Hn. lia.
        -- rewrite length_take. lia.
      * apply second_pass_gap; [done|]. apply Forall_forall. intros s Hs.
        apply list_elem_of_In, in_map_iff in Hs. by destruct Hs as (? & <- & _).
Qed.

End Unpack.

(** ** The slot types of a flit header

    A header lists the types of the slots.  The entries that announce a
    header of data or a data chunk are those the switch reads; the entries
    of the other slots may be stale. *)
Definition data_part (t : slot_type) : slot_type :=
  match t with s2m_drs_hdr => s2m_drs_hdr | data => data | _ => empty end.
Definition hdr_agrees (f : flit) : Prop :=
  map data_part (hdr_slots (header f)) = map data_part (types f).
