(* ===== verification/Link.v ===== *)
(** * A legal stream of flits delivers its messages

    The two directions of the link, seen from the receiver: the loops of
    [FLIT_unpacker] run over a legal stream of flits deliver exactly the
    messages the flits were packed with, in order. *)
From Stdlib Require Import ZArith Lia Bool String.
From stdpp Require Import base list gmap.
From S2P Require Import Prelude Flit CxlBuf Samples CxlBus Packing.

Section Stream.
Context `{Indet} `{Dialect}.
Context (member : Z -> msg_timing -> msg_timing) (tick : Z).
Hypothesis member_id : forall v m, msg_id (set_msg_tick member v m) = msg_id m.

(** The flits are unpacked one after the other. *)
Fixpoint unpack_stream (fs : list flit) (u : uvc) : res uvc :=
  match fs with
  | [] => Ok u
  | f :: fs => let! u := unpack_slots member tick (slots f) u in unpack_stream fs u
  end.

(** Messages delivered or remembered: those without data, and the headers,
    the one whose data is not complete included. *)
Definition got_plain (u : uvc) : list Z := ids (q_ (u_plain u)).
Definition got_hdr (u : uvc) : list Z :=
  ids (q_ (u_hdr u)) ++ (if u_roll u =? 0 then [] else [msg_id (u_last u)]).

(** The receiver has room for the messages of a flit. *)
Definition room (u : uvc) (f : flit) : Prop :=
  buf_ok (u_plain u) /\ buf_ok (u_hdr u) /\
  buf_occupancy (u_plain u) + Z.of_nat (length (msgs_of plain_ty (slots f))) <= size_ (u_plain u) /\
  Z.of_nat (length (got_hdr u)) <= size_ (u_hdr u).

Lemma length_msgs_of t k l : (forall u, kind_of u = k <-> u = t) ->
  Z.of_nat (length (msgs_of t l)) = count_kind k (map (fun s => kind_of (slot_ty s)) l).
Proof.
  intros Hk. unfold count_kind. induction l as [|s l IH]; [done|]. rewrite msgs_of_cons, length_app.
  simpl. rewrite <- IH, (kind_eqb_of _ _ _ (Hk (slot_ty s))). destruct (slot_type_eqb _ _); simpl; lia.
Qed.

Lemma ids_stamp l : ids (map (stamp member tick) l) = ids l.
Proof. unfold ids, stamp. rewrite map_map. apply map_ext. intros m. apply member_id. Qed.

(** One legal flit. *)
Lemma unpack_flit f u r' :
  wf_flit (u_roll u) (kinds f) r' = true ->
  buf_ok (u_plain u) -> buf_ok (u_hdr u) ->
  buf_occupancy (u_plain u) + Z.of_nat (length (msgs_of plain_ty (slots f))) <= size_ (u_plain u) ->
  Z.of_nat (length (got_hdr u)) <= size_ (u_hdr u) ->
  exists u', unpack_slots member tick (slots f) u = Ok u' /\ u_roll u' = r' /\
    got_plain u' = got_plain u ++ ids (msgs_of plain_ty (slots f)) /\
    got_hdr u' = got_hdr u ++ ids (msgs_of hdr_ty (slots f)) /\
    size_ (u_plain u') = size_ (u_plain u) /\ size_ (u_hdr u') = size_ (u_hdr u) /\
    buf_ok (u_plain u') /\ buf_ok (u_hdr u').
Proof.
  intros Hw Hbp Hbh Hp Hh. pose proof (wf_hdr_exact _ _ _ Hw) as Hx.
  unfold kinds, types in *. rewrite map_map in *.
  rewrite <- (length_msgs_of hdr_ty Hdr (slots f) kind_of_hdr) in Hx.
  unfold got_hdr, ids in Hh. rewrite length_app, length_map in Hh.
  destruct (unpack_wf member tick (slots f) u r') as (u' & E & R & P & S1 & Q & S2 & L);
    try done.
  { intros Hne. apply is_buf_full_false; [done|]. unfold buf_occupancy.
    rewrite (proj2 (Z.eqb_neq _ _) Hne) in Hh. simpl in Hh. lia. }
  exists u'. split; [done|]. split; [done|]. unfold got_plain, got_hdr.
  split; [rewrite P; unfold ids; rewrite map_app; by rewrite ids_stamp|].
  split.
  - rewrite Q, R. unfold ids at 1. rewrite map_app, <- !app_assoc. f_equal.
    assert (Hlast : (if r' =? 0 then [] else [msg_id (u_last u')]) = ids (msgs_of hdr_ty (slots f))).
    { rewrite L. destruct (r' =? 0); destruct (msgs_of hdr_ty (slots f)) as [|m [|]]; simpl in *; done || lia. }
    rewrite Hlast. f_equal. destruct (u_roll u =? 0); [done|]. unfold stamp. cbn [map app]. by rewrite member_id.
  - split_and!; try done; split; rewrite ?S1, ?S2; try (by destruct Hbp); try (by destruct Hbh);
      unfold buf_occupancy in *; [rewrite P|rewrite Q]; rewrite length_app.
    + rewrite length_map. lia.
    + destruct (u_roll u =? 0); simpl in *; lia.
Qed.

(** A legal flit without messages carries data that was owed, or nothing. *)
Lemma no_messages_empty f r' : wf_flit 0 (kinds f) r' = true ->
  slot_count_in_flit f plain_ty = 0 -> slot_count_in_flit f hdr_ty = 0 -> is_flit_empty f = true.
Proof.
  intros Hw Hp Hh. rewrite (kinds_count f _ _ kind_of_plain) in Hp. rewrite (kinds_count f _ _ kind_of_hdr) in Hh.
  pose proof (wf_empty _ _ Hw Hp Hh) as He. rewrite is_flit_empty_types. rewrite forallb_forall in *. intros t Ht.
  rewrite <- (kind_eqb_of _ Emp empty (kind_of_emp _)). by apply He, in_map.
Qed.
(** So when both channels of a receiver are full, the credits having made
    room for all that is on its way, its receive buffer cannot be full too. *)
Lemma no_stall u (b : CXLBuf flit) dn R :
  wf_stream (u_roll u) (map kinds (q_ b ++ dn)) R -> Forall (fun f => is_flit_empty f = false) (q_ b ++ dn) ->
  0 < u64 (size_ b) -> buf_ok (u_plain u) -> buf_ok (u_hdr u) ->
  buf_occupancy (u_plain u) + total plain_ty (q_ b) <= size_ (u_plain u) ->
  Z.of_nat (length (got_hdr u)) + total hdr_ty (q_ b) <= size_ (u_hdr u) ->
  is_buf_full b = true -> is_buf_full (u_plain u) = true -> is_buf_full (u_hdr u) = true -> False.
Proof.
  intros Hs Hf Hz B1 B2 H1 H2 Hb. rewrite !is_buf_full_spec, !Z.eqb_eq by done. intros F1 F2.
  destruct (is_buf_full_head b Hz Hb) as (f & l & Hq). rewrite Hq in *. rewrite total_cons in H1, H2.
  pose proof (total_ge0 plain_ty l). pose proof (total_ge0 hdr_ty l).
  pose proof (countb_nonneg (fun s => slot_type_eqb (slot_ty s) plain_ty) (slots f)).
  pose proof (countb_nonneg (fun s => slot_type_eqb (slot_ty s) hdr_ty) (slots f)).
  unfold got_hdr, buf_occupancy, slot_count_in_flit, ids in *. rewrite length_app, length_map in *. destruct (Z.eqb_spec (u_roll u) 0) as [E|E]; cbn [length] in *; [|lia].
  rewrite E in Hs. cbn [app map] in Hs. inversion Hs as [|? ? r1 ? ? Hw _]; subst. apply Forall_cons in Hf as [Hf _].
  rewrite (no_messages_empty _ _ Hw) in Hf; [done|unfold slot_count_in_flit; lia..].
Qed.

(** A legal stream. *)
Lemma unpack_stream_ok r fs r' u :
  wf_stream r (map kinds fs) r' -> u_roll u = r -> buf_ok (u_plain u) -> buf_ok (u_hdr u) ->
  Z.of_nat (length (got_plain u ++ ids (concat (map (fun f => msgs_of plain_ty (slots f)) fs))))
    <= size_ (u_plain u) ->
  Z.of_nat (length (got_hdr u ++ ids (concat (map (fun f => msgs_of hdr_ty (slots f)) fs))))
    <= size_ (u_hdr u) ->
  exists u', unpack_stream fs u = Ok u' /\ u_roll u' = r' /\
    got_plain u' = got_plain u ++ ids (concat (map (fun f => msgs_of plain_ty (slots f)) fs)) /\
    got_hdr u' = got_hdr u ++ ids (concat (map (fun f => msgs_of hdr_ty (slots f)) fs)).
Proof.
  revert r u. induction fs as [|f fs IH]; intros r u Hw Hr Hbp Hbh Hp Hh.
  { inversion Hw; subst. exists u. simpl. by rewrite !app_nil_r. }
  inversion Hw as [|? ? r1 ? ? Hf Hfs]; subst. simpl in Hp, Hh.
  unfold ids in Hp, Hh. rewrite map_app, app_assoc, length_app in Hp. rewrite map_app, app_assoc, length_app in Hh.
  destruct (unpack_flit f u r1) as (u1 & E & R & P & Q & S1 & S2 & B1 & B2); try done.
  { unfold buf_occupancy. rewrite length_app in Hp. unfold got_plain, ids in Hp. rewrite !length_map in Hp. lia. }
  { rewrite length_app in Hh. lia. }
  destruct (IH r1 u1) as (u' & E' & R' & P' & Q'); try done.
  { rewrite P, S1. unfold ids. rewrite length_app. lia. }
  { rewrite Q, S2. unfold ids. rewrite length_app. lia. }
  exists u'. simpl. rewrite E. simpl. split; [done|]. split; [done|]. unfold ids in *.
  rewrite P', Q', P, Q, !map_app, <- !app_assoc. done.
Qed.

End Stream.

(** ** What a receiver holds

    The messages have the opcode of their channel, and addresses in [A]. *)
Section Receiver.
Context `{Indet} `{Dialect} (A : Z -> Prop).
Context (member : Z -> msg_timing -> msg_timing) (tick : Z).

Definition msg_in (oc : opcode) (m : message) : Prop := opCode m = oc /\ A (address m).
Record holds_ok (u : uvc) : Prop := {
  ho_plain : Forall (msg_in plain_op) (q_ (u_plain u));
  ho_hdr : Forall (msg_in hdr_op) (q_ (u_hdr u));
  ho_last : u_roll u <> 0 -> msg_in hdr_op (u_last u)
}.
(** A slot whose message may be received *)
Definition slot_in (s : slot) : Prop := op_fits s /\ (slot_ty s = empty \/ A (address (slot_msg s))).

Lemma complete_hdr_ok u u' : Forall (msg_in plain_op) (q_ (u_plain u)) -> Forall (msg_in hdr_op) (q_ (u_hdr u)) ->
  msg_in hdr_op (u_last u) -> complete_hdr member tick u = Ok u' -> holds_ok u'.
Proof.
  intros Hp Hh Hl E. unfold complete_hdr in E. apply bind_ok_inv in E as (b & Eb & E). injection E as <-.
  apply enqueue_inv in Eb as (_ & Hb & _). split; cbn; [done| |done]. rewrite Hb. apply Forall_app. split; [done|]. by apply Forall_singleton.
Qed.
Lemma consume_holds l : forall u l' u', Forall slot_in l -> holds_ok u -> u_roll u <> 0 ->
  consume_rollover member tick l u = Ok (l', u') -> holds_ok u' /\ Forall slot_in l'.
Proof.
  induction l as [|s l IH]; intros u l' u' Hl Hu Hr E; cbn [consume_rollover] in E; [by injection E as <- <-|].
  apply Forall_cons in Hl as [Hs Hl].
  assert (He : slot_in (set_slot_ty empty s)).
  { split; [apply op_fits_other; by right|by left]. }
  destruct (negb _).
  - apply bind_ok_inv in E as ([l1 u1] & E1 & E). injection E as <- <-. destruct (IH _ _ _ Hl Hu Hr E1) as [? ?]. split; [done|]. by constructor.
  - cbn [u_roll] in E. destruct Hu as [H1 H2 H3]. destruct (Z.eqb_spec (u_roll u - 1) 0) as [E0|E0].
    + apply bind_ok_inv in E as (u1 & E1 & E). injection E as <- <-. split; [|by constructor].
      by eapply complete_hdr_ok; [| | |exact E1]; cbn; auto.
    + apply bind_ok_inv in E as ([l1 u1] & E1 & E). injection E as <- <-.
      assert (Hu1 : holds_ok (mk_uvc (u_roll u - 1) (u_last u) (u_plain u) (u_hdr u))) by (split; cbn; auto).
      destruct (IH _ _ _ Hl Hu1 E0 E1) as [? ?]. split; [done|]. by constructor.
Qed.
Lemma process_slot_holds s u u' : slot_in s -> holds_ok u -> process_slot member tick s u = Ok u' -> holds_ok u'.
Proof.
  intros [[F1 F2] Ha] [H1 H2 H3] E. pose proof dialect_ok as (_ & _ & D3 & _ & D5). unfold process_slot in E.
  destruct (slot_type_eqb (slot_ty s) plain_ty) eqn:E1.
  { apply slot_type_eqb_true in E1. apply bind_ok_inv in E as (b & Eb & E). injection E as <-. apply enqueue_inv in Eb as (_ & Hb & _).
    split; cbn; try done. rewrite Hb. apply Forall_app. split; [done|]. apply Forall_singleton. split; [by apply F1|].
    destruct Ha; [congruence|done]. }
  destruct (slot_type_eqb (slot_ty s) hdr_ty) eqn:E2.
  { apply slot_type_eqb_true in E2. destruct (_ =? 0); [|done]. injection E as <-. split; cbn; try done. intros _. rewrite message_copy_id.
    split; [by apply F2|]. destruct Ha; [congruence|done]. }
  destruct (slot_ty s); try done; [|by injection E as <-]. destruct (Z.ltb_spec 0 (u_roll u)); [|done]. cbn [u_roll] in E.
  destruct (_ =? 0); [by eapply complete_hdr_ok; [| | |exact E]; cbn; auto; apply H3; lia|].
  injection E as <-. split; cbn; try done. intros _. apply H3. lia.
Qed.
Lemma process_slots_holds l : forall u u', Forall slot_in l -> holds_ok u -> process_slots member tick l u = Ok u' -> holds_ok u'.
Proof.
  induction l as [|s l IH]; intros u u' Hl Hu E; cbn [process_slots] in E; [by injection E as <-|].
  apply Forall_cons in Hl as [Hs Hl]. apply bind_ok_inv in E as (u1 & E1 & E). eapply IH; [done| |exact E]. by eapply process_slot_holds.
Qed.
(** Unpacking a flit keeps that. *)
Lemma unpack_holds l u u' : Forall slot_in l -> holds_ok u -> unpack_slots member tick l u = Ok u' -> holds_ok u'.
Proof.
  intros Hl Hu E. unfold unpack_slots in E. apply bind_ok_inv in E as ([l1 u1] & E1 & E).
  destruct (Z.eqb_spec (u_roll u) 0) as [E0|E0]; cbn [negb] in E1.
  - injection E1 as <- <-. by eapply process_slots_holds.
  - destruct (consume_holds _ _ _ _ Hl Hu E0 E1) as [Hu1 Hl1]. by eapply process_slots_holds.
Qed.
End Receiver.
