(* ===== verification/CxlNode.v ===== *)
(** * What the two kinds of nodes share

    [include/CXLNode.h]: the number of virtual channels, the credit maps and
    the pieces of the flit packer and unpacker that [CXLHost] and [CXLDevice]
    have in common. *)
From Stdlib Require Import ZArith Lia Bool String.
From stdpp Require Import base list gmap.
From S2P Require Import Prelude Flit CxlBuf CxlBus Packing.

Definition NUM_VC : nat := 4.

(** The device id no real device has. *)
Definition no_device : Z := 4096.

(** [std::map<int, credits>::operator[]]: a missing entry is created with
    zero credits. *)
Definition cred_at (m : gmap Z credits) (d : Z) : credits := default no_credits (m !! d).
Definition cred_touch (m : gmap Z credits) (d : Z) : gmap Z credits := <[d := cred_at m d]> m.

(** Looking at an entry does not change the credits. *)
Lemma cred_at_touch m d d' : cred_at (cred_touch m d) d' = cred_at m d'.
Proof.
  unfold cred_touch, cred_at. rewrite lookup_insert. by case_decide; subst.
Qed.

Lemma cred_at_insert m d c d' : cred_at (<[d := c]> m) d' = if decide (d' = d) then c else cred_at m d'.
Proof. unfold cred_at. rewrite lookup_insert. by repeat case_decide; subst. Qed.

(** The search starts anywhere and visits every channel. *)
Lemma seq_residues c : forall j, (j < NUM_VC)%nat -> exists i, In i (seq c NUM_VC) /\ (i mod NUM_VC)%nat = j.
Proof.
  intros j Hj. unfold NUM_VC in *. exists (c + (j + 4 - c mod 4) mod 4)%nat.
  pose proof (Nat.mod_upper_bound c 4 ltac:(done)).
  pose proof (Nat.mod_upper_bound (j + 4 - c mod 4) 4 ltac:(done)).
  split; [apply in_seq; lia|].
  rewrite Nat.Div0.add_mod_idemp_r.
  pose proof (Nat.div_mod_eq c 4). replace (c + (j + 4 - c mod 4))%nat with (j + (c / 4 + 1) * 4)%nat by lia.
  rewrite Nat.Div0.mod_add. by apply Nat.mod_small.
Qed.

(** [packer_cur_vc == NUM_VC - 1 ? 0 : i % NUM_VC + 1], where [j] is
    [i % NUM_VC] *)
Definition next_cur_vc (cur j : nat) : nat :=
  if (cur =? NUM_VC - 1)%nat then 0%nat else (j + 1)%nat.

(** [cur == NUM_VC - 1 ? 0 : cur + 1]: the channel the next message goes to *)
Definition bump_vc (cur : nat) : nat := if (cur =? NUM_VC - 1)%nat then 0%nat else (cur + 1)%nat.

Section Node.
Context `{Indet}.

(** [slots[i].type = data], with the id and the address of the last header *)
Definition data_slot (m : message) (s : slot) : slot :=
  set_slot_msg (set_address (address m) (set_msg_id (msg_id m) (slot_msg s)))
    (set_slot_ty data s).
(** The slots that must hold data when [r] chunks are owed. *)
Definition rollover_rule (r : Z) (f : flit) : res bool :=
  let is_data i := slot_type_eqb (slot_ty_at f i) data in
  if r =? 0 then Ok true
  else if r =? 1 then Ok (is_data 1%nat)
  else if r =? 2 then Ok (is_data 1%nat && is_data 2%nat)
  else if r =? 3 then Ok (is_data 1%nat && is_data 2%nat && is_data 3%nat)
  else if r =? 4 then Ok (is_data 0%nat && is_data 1%nat && is_data 2%nat && is_data 3%nat)
  else Abort "Data rollover out of range".

(** The rules a packer checks on the flit it has packed. *)
Definition packing_violation (plain hdr dat : Z) : bool :=
  ((2 <? plain) || (plain <? 0)) || ((4 <? dat) || (dat <? 0)) ||
  ((1 <? hdr) || (hdr <? 0)) || (4 <? hdr + dat + plain).

(** ** The rules hold on legal flits *)

Lemma no_packing_violation `{Dialect} r f r' :
  wf_flit r (kinds f) r' = true ->
  packing_violation (slot_count_in_flit f plain_ty) (slot_count_in_flit f hdr_ty)
    (slot_count_in_flit f data) = false.
Proof.
  intros Hw. rewrite (kinds_count _ _ Plain kind_of_plain), (kinds_count _ _ Hdr kind_of_hdr),
    (kinds_count _ _ Dat kind_of_dat).
  pose proof (wf_hdr_count _ _ _ Hw). apply wf_flit_inv in Hw as (Hlen & Hc & _).
  pose proof (count_three (kinds f)) as Hsum. rewrite Hlen in Hsum. unfold count_kind in *.
  pose proof (fun k => countb_nonneg (fun x => kind_eqb x k) (kinds f)) as Hnn.
  pose proof (Hnn Plain). pose proof (Hnn Hdr). pose proof (Hnn Dat).
  unfold packing_violation. rewrite !(proj2 (Z.ltb_ge _ _)) by lia. done.
Qed.

Lemma rollover_rule_wf `{Dialect} r f r' :
  wf_flit r (kinds f) r' = true -> rollover_rule r f = Ok true.
Proof.
  intros (Hlen & _ & Hw)%wf_flit_inv. unfold rollover_rule.
  assert (Hd : forall i, nth i (kinds f) Emp = Dat -> slot_type_eqb (slot_ty_at f i) data = true).
  { intros i Hi. rewrite slot_ty_at_types. apply slot_type_eqb_true, kind_of_dat.
    unfold kinds in Hi. rewrite <- (proj2 (kind_of_emp empty) eq_refl) in Hi at 1.
    by rewrite map_nth in Hi. }
  assert (Hall : (r = 4 /\ forall i, (i < 4)%nat -> nth i (kinds f) Emp = Dat) \/
    (0 <= r <= 3 /\ forall i, (0 < i <= Z.to_nat r)%nat -> nth i (kinds f) Emp = Dat)).
  { destruct (kinds f) as [|a [|b [|c [|d [|]]]]]; try done.
    destruct Hw as [(-> & Ha & _)|(Hr & Hc & _)]; [left|right]; (split; [done|]).
    - simpl in Ha. bool_prop. rewrite !kind_eqb_true in *. intros [|[|[|[|]]]]; simpl; done || lia.
    - unfold carried in Hc. simpl in Hc.
      assert (Z.to_nat r = 0 \/ Z.to_nat r = 1 \/ Z.to_nat r = 2 \/ Z.to_nat r = 3)%nat as
        [E | [E | [E | E]]] by lia; rewrite E in *; simpl in Hc; bool_prop; rewrite ?kind_eqb_true in *;
        intros [|[|[|[|]]]]; simpl; done || lia. }
  destruct Hall as [[-> Ha]|[Hr Ha]].
  - simpl. by rewrite !Hd by (apply Ha; lia).
  - assert (r = 0 \/ r = 1 \/ r = 2 \/ r = 3) as [-> | [-> | [-> | ->]]] by lia; simpl; [done|..];
      by rewrite !Hd by (apply Ha; lia).
Qed.

End Node.
