(* ===== verification/CxlHost.v ===== *)
(** * The CXL host: state and operations

    [CXLNode] and [CXLHost] of [include/CXLNode.h] and [src/CXLHost.cpp].
    The flit packer, the flit unpacker, the transmitter, the retirement of
    responses and the cycle-skipping predicates, as functions on the state
    record [CXLHost] and the global counters.  The bus the host is connected
    to is an argument and a result of the operations that use it. *)
From Stdlib Require Import ZArith Lia Bool String.
From stdpp Require Import base list gmap.
From S2P Require Import Prelude Flit CxlBuf CxlBus Packing CxlNode.

(** ** State *)

Record CXLHost : Type := mk_CXLHost {
  tx_buffer : CXLBuf flit;
  rx_buffer : CXLBuf flit;
  host_node_id : Z;
  ext_creds : gmap Z credits;
  int_cred : credits;
  packer_cur_vc : nat;
  address_intervals : list (Z * (Z * Z));
  connected_devices : list Z;
  M2S_Req : list (CXLBuf message);
  cur_Req_vc : nat;
  M2S_RWD : list (CXLBuf message);
  cur_RWD_vc : nat;
  S2M_NDR : CXLBuf message;
  S2M_DRS : CXLBuf message;
  unpacker_rollover : Z;
  packer_rollover : Z;
  last_transmitted_at : Z;
  rcvd_rsp_state : round_robin_state;
  last_drs_hdr : message;
  last_rwd_hdr : message;
  is_trace_finished : bool;
  text_to_trace_buf : CXLBuf (Z * message);
  is_packer_waiting : bool;
  started_packing_at : Z;
  packer_wait_time : Z;
  flit_to_pack : flit;
  pkr2_state : round_robin_state;
  device_under_consideration : Z;
  last_text_to_trace_buf_dequeue : Z;
  messages_sent_to_device : gmap Z message;
  reqs_in_dam : gmap Z Z;
  DAM_addr : option (Z * Z);
  total_credit_checks : Z;
  int_credit_reject_ctr : Z;
  ext_credit_reject_ctr : Z;
  empty_cycle_packer : Z;
  empty_cycle_unpacker : Z;
  empty_cycle_transmit : Z;
  empty_cycle_req_completed : Z;
  skippable_cycle : Z
}.
Definition set_tx_buffer (v : CXLBuf flit) (r : CXLHost) : CXLHost :=
  mk_CXLHost v (rx_buffer r) (host_node_id r) (ext_creds r) (int_cred r) (packer_cur_vc r) (address_intervals r) (connected_devices r) (M2S_Req r) (cur_Req_vc r) (M2S_RWD r) (cur_RWD_vc r) (S2M_NDR r) (S2M_DRS r) (unpacker_rollover r) (packer_rollover r) (last_transmitted_at r) (rcvd_rsp_state r) (last_drs_hdr r) (last_rwd_hdr r) (is_trace_finished r) (text_to_trace_buf r) (is_packer_waiting r) (started_packing_at r) (packer_wait_time r) (flit_to_pack r) (pkr2_state r) (device_under_consideration r) (last_text_to_trace_buf_dequeue r) (messages_sent_to_device r) (reqs_in_dam r) (DAM_addr r) (total_credit_checks r) (int_credit_reject_ctr r) (ext_credit_reject_ctr r) (empty_cycle_packer r) (empty_cycle_unpacker r) (empty_cycle_transmit r) (empty_cycle_req_completed r) (skippable_cycle r).
Definition set_rx_buffer (v : CXLBuf flit) (r : CXLHost) : CXLHost :=
  mk_CXLHost (tx_buffer r) v (host_node_id r) (ext_creds r) (int_cred r) (packer_cur_vc r) (address_intervals r) (connected_devices r) (M2S_Req r) (cur_Req_vc r) (M2S_RWD r) (cur_RWD_vc r) (S2M_NDR r) (S2M_DRS r) (unpacker_rollover r) (packer_rollover r) (last_transmitted_at r) (rcvd_rsp_state r) (last_drs_hdr r) (last_rwd_hdr r) (is_trace_finished r) (text_to_trace_buf r) (is_packer_waiting r) (started_packing_at r) (packer_wait_time r) (flit_to_pack r) (pkr2_state r) (device_under_consideration r) (last_text_to_trace_buf_dequeue r) (messages_sent_to_device r) (reqs_in_dam r) (DAM_addr r) (total_credit_checks r) (int_credit_reject_ctr r) (ext_credit_reject_ctr r) (empty_cycle_packer r) (empty_cycle_unpacker r) (empty_cycle_transmit r) (empty_cycle_req_completed r) (skippable_cycle r).
Definition set_host_node_id (v : Z) (r : CXLHost) : CXLHost :=
  mk_CXLHost (tx_buffer r) (rx_buffer r) v (ext_creds r) (int_cred r) (packer_cur_vc r) (address_intervals r) (connected_devices r) (M2S_Req r) (cur_Req_vc r) (M2S_RWD r) (cur_RWD_vc r) (S2M_NDR r) (S2M_DRS r) (unpacker_rollover r) (packer_rollover r) (last_transmitted_at r) (rcvd_rsp_state r) (last_drs_hdr r) (last_rwd_hdr r) (is_trace_finished r) (text_to_trace_buf r) (is_packer_waiting r) (started_packing_at r) (packer_wait_time r) (flit_to_pack r) (pkr2_state r) (device_under_consideration r) (last_text_to_trace_buf_dequeue r) (messages_sent_to_device r) (reqs_in_dam r) (DAM_addr r) (total_credit_checks r) (int_credit_reject_ctr r) (ext_credit_reject_ctr r) (empty_cycle_packer r) (empty_cycle_unpacker r) (empty_cycle_transmit r) (empty_cycle_req_completed r) (skippable_cycle r).
Definition set_ext_creds (v : gmap Z credits) (r : CXLHost) : CXLHost :=
  mk_CXLHost (tx_buffer r) (rx_buffer r) (host_node_id r) v (int_cred r) (packer_cur_vc r) (address_intervals r) (connected_devices r) (M2S_Req r) (cur_Req_vc r) (M2S_RWD r) (cur_RWD_vc r) (S2M_NDR r) (S2M_DRS r) (unpacker_rollover r) (packer_rollover r) (last_transmitted_at r) (rcvd_rsp_state r) (last_drs_hdr r) (last_rwd_hdr r) (is_trace_finished r) (text_to_trace_buf r) (is_packer_waiting r) (started_packing_at r) (packer_wait_time r) (flit_to_pack r) (pkr2_state r) (device_under_consideration r) (last_text_to_trace_buf_dequeue r) (messages_sent_to_device r) (reqs_in_dam r) (DAM_addr r) (total_credit_checks r) (int_credit_reject_ctr r) (ext_credit_reject_ctr r) (empty_cycle_packer r) (empty_cycle_unpacker r) (empty_cycle_transmit r) (empty_cycle_req_completed r) (skippable_cycle r).
Definition set_int_cred (v : credits) (r : CXLHost) : CXLHost :=
  mk_CXLHost (tx_buffer r) (rx_buffer r) (host_node_id r) (ext_creds r) v (packer_cur_vc r) (address_intervals r) (connected_devices r) (M2S_Req r) (cur_Req_vc r) (M2S_RWD r) (cur_RWD_vc r) (S2M_NDR r) (S2M_DRS r) (unpacker_rollover r) (packer_rollover r) (last_transmitted_at r) (rcvd_rsp_state r) (last_drs_hdr r) (last_rwd_hdr r) (is_trace_finished r) (text_to_trace_buf r) (is_packer_waiting r) (started_packing_at r) (packer_wait_time r) (flit_to_pack r) (pkr2_state r) (device_under_consideration r) (last_text_to_trace_buf_dequeue r) (messages_sent_to_device r) (reqs_in_dam r) (DAM_addr r) (total_credit_checks r) (int_credit_reject_ctr r) (ext_credit_reject_ctr r) (empty_cycle_packer r) (empty_cycle_unpacker r) (empty_cycle_transmit r) (empty_cycle_req_completed r) (skippable_cycle r).
Definition set_packer_cur_vc (v : nat) (r : CXLHost) : CXLHost :=
  mk_CXLHost (tx_buffer r) (rx_buffer r) (host_node_id r) (ext_creds r) (int_cred r) v (address_intervals r) (connected_devices r) (M2S_Req r) (cur_Req_vc r) (M2S_RWD r) (cur_RWD_vc r) (S2M_NDR r) (S2M_DRS r) (unpacker_rollover r) (packer_rollover r) (last_transmitted_at r) (rcvd_rsp_state r) (last_drs_hdr r) (last_rwd_hdr r) (is_trace_finished r) (text_to_trace_buf r) (is_packer_waiting r) (started_packing_at r) (packer_wait_time r) (flit_to_pack r) (pkr2_state r) (device_under_consideration r) (last_text_to_trace_buf_dequeue r) (messages_sent_to_device r) (reqs_in_dam r) (DAM_addr r) (total_credit_checks r) (int_credit_reject_ctr r) (ext_credit_reject_ctr r) (empty_cycle_packer r) (empty_cycle_unpacker r) (empty_cycle_transmit r) (empty_cycle_req_completed r) (skippable_cycle r).
Definition set_address_intervals (v : list (Z * (Z * Z))) (r : CXLHost) : CXLHost :=
  mk_CXLHost (tx_buffer r) (rx_buffer r) (host_node_id r) (ext_creds r) (int_cred r) (packer_cur_vc r) v (connected_devices r) (M2S_Req r) (cur_Req_vc r) (M2S_RWD r) (cur_RWD_vc r) (S2M_NDR r) (S2M_DRS r) (unpacker_rollover r) (packer_rollover r) (last_transmitted_at r) (rcvd_rsp_state r) (last_drs_hdr r) (last_rwd_hdr r) (is_trace_finished r) (text_to_trace_buf r) (is_packer_waiting r) (started_packing_at r) (packer_wait_time r) (flit_to_pack r) (pkr2_state r) (device_under_consideration r) (last_text_to_trace_buf_dequeue r) (messages_sent_to_device r) (reqs_in_dam r) (DAM_addr r) (total_credit_checks r) (int_credit_reject_ctr r) (ext_credit_reject_ctr r) (empty_cycle_packer r) (empty_cycle_unpacker r) (empty_cycle_transmit r) (empty_cycle_req_completed r) (skippable_cycle r).
Definition set_connected_devices (v : list Z) (r : CXLHost) : CXLHost :=
  mk_CXLHost (tx_buffer r) (rx_buffer r) (host_node_id r) (ext_creds r) (int_cred r) (packer_cur_vc r) (address_intervals r) v (M2S_Req r) (cur_Req_vc r) (M2S_RWD r) (cur_RWD_vc r) (S2M_NDR r) (S2M_DRS r) (unpacker_rollover r) (packer_rollover r) (last_transmitted_at r) (rcvd_rsp_state r) (last_drs_hdr r) (last_rwd_hdr r) (is_trace_finished r) (text_to_trace_buf r) (is_packer_waiting r) (started_packing_at r) (packer_wait_time r) (flit_to_pack r) (pkr2_state r) (device_under_consideration r) (last_text_to_trace_buf_dequeue r) (messages_sent_to_device r) (reqs_in_dam r) (DAM_addr r) (total_credit_checks r) (int_credit_reject_ctr r) (ext_credit_reject_ctr r) (empty_cycle_packer r) (empty_cycle_unpacker r) (empty_cycle_transmit r) (empty_cycle_req_completed r) (skippable_cycle r).
Definition set_M2S_Req (v : list (CXLBuf message)) (r : CXLHost) : CXLHost :=
  mk_CXLHost (tx_buffer r) (rx_buffer r) (host_node_id r) (ext_creds r) (int_cred r) (packer_cur_vc r) (address_intervals r) (connected_devices r) v (cur_Req_vc r) (M2S_RWD r) (cur_RWD_vc r) (S2M_NDR r) (S2M_DRS r) (unpacker_rollover r) (packer_rollover r) (last_transmitted_at r) (rcvd_rsp_state r) (last_drs_hdr r) (last_rwd_hdr r) (is_trace_finished r) (text_to_trace_buf r) (is_packer_waiting r) (started_packing_at r) (packer_wait_time r) (flit_to_pack r) (pkr2_state r) (device_under_consideration r) (last_text_to_trace_buf_dequeue r) (messages_sent_to_device r) (reqs_in_dam r) (DAM_addr r) (total_credit_checks r) (int_credit_reject_ctr r) (ext_credit_reject_ctr r) (empty_cycle_packer r) (empty_cycle_unpacker r) (empty_cycle_transmit r) (empty_cycle_req_completed r) (skippable_cycle r).
Definition set_cur_Req_vc (v : nat) (r : CXLHost) : CXLHost :=
  mk_CXLHost (tx_buffer r) (rx_buffer r) (host_node_id r) (ext_creds r) (int_cred r) (packer_cur_vc r) (address_intervals r) (connected_devices r) (M2S_Req r) v (M2S_RWD r) (cur_RWD_vc r) (S2M_NDR r) (S2M_DRS r) (unpacker_rollover r) (packer_rollover r) (last_transmitted_at r) (rcvd_rsp_state r) (last_drs_hdr r) (last_rwd_hdr r) (is_trace_finished r) (text_to_trace_buf r) (is_packer_waiting r) (started_packing_at r) (packer_wait_time r) (flit_to_pack r) (pkr2_state r) (device_under_consideration r) (last_text_to_trace_buf_dequeue r) (messages_sent_to_device r) (reqs_in_dam r) (DAM_addr r) (total_credit_checks r) (int_credit_reject_ctr r) (ext_credit_reject_ctr r) (empty_cycle_packer r) (empty_cycle_unpacker r) (empty_cycle_transmit r) (empty_cycle_req_completed r) (skippable_cycle r).
Definition set_M2S_RWD (v : list (CXLBuf message)) (r : CXLHost) : CXLHost :=
  mk_CXLHost (tx_buffer r) (rx_buffer r) (host_node_id r) (ext_creds r) (int_cred r) (packer_cur_vc r) (address_intervals r) (connected_devices r) (M2S_Req r) (cur_Req_vc r) v (cur_RWD_vc r) (S2M_NDR r) (S2M_DRS r) (unpacker_rollover r) (packer_rollover r) (last_transmitted_at r) (rcvd_rsp_state r) (last_drs_hdr r) (last_rwd_hdr r) (is_trace_finished r) (text_to_trace_buf r) (is_packer_waiting r) (started_packing_at r) (packer_wait_time r) (flit_to_pack r) (pkr2_state r) (device_under_consideration r) (last_text_to_trace_buf_dequeue r) (messages_sent_to_device r) (reqs_in_dam r) (DAM_addr r) (total_credit_checks r) (int_credit_reject_ctr r) (ext_credit_reject_ctr r) (empty_cycle_packer r) (empty_cycle_unpacker r) (empty_cycle_transmit r) (empty_cycle_req_completed r) (skippable_cycle r).
Definition set_cur_RWD_vc (v : nat) (r : CXLHost) : CXLHost :=
  mk_CXLHost (tx_buffer r) (rx_buffer r) (host_node_id r) (ext_creds r) (int_cred r) (packer_cur_vc r) (address_intervals r) (connected_devices r) (M2S_Req r) (cur_Req_vc r) (M2S_RWD r) v (S2M_NDR r) (S2M_DRS r) (unpacker_rollover r) (packer_rollover r) (last_transmitted_at r) (rcvd_rsp_state r) (last_drs_hdr r) (last_rwd_hdr r) (is_trace_finished r) (text_to_trace_buf r) (is_packer_waiting r) (started_packing_at r) (packer_wait_time r) (flit_to_pack r) (pkr2_state r) (device_under_consideration r) (last_text_to_trace_buf_dequeue r) (messages_sent_to_device r) (reqs_in_dam r) (DAM_addr r) (total_credit_checks r) (int_credit_reject_ctr r) (ext_credit_reject_ctr r) (empty_cycle_packer r) (empty_cycle_unpacker r) (empty_cycle_transmit r) (empty_cycle_req_completed r) (skippable_cycle r).
Definition set_S2M_NDR (v : CXLBuf message) (r : CXLHost) : CXLHost :=
  mk_CXLHost (tx_buffer r) (rx_buffer r) (host_node_id r) (ext_creds r) (int_cred r) (packer_cur_vc r) (address_intervals r) (connected_devices r) (M2S_Req r) (cur_Req_vc r) (M2S_RWD r) (cur_RWD_vc r) v (S2M_DRS r) (unpacker_rollover r) (packer_rollover r) (last_transmitted_at r) (rcvd_rsp_state r) (last_drs_hdr r) (last_rwd_hdr r) (is_trace_finished r) (text_to_trace_buf r) (is_packer_waiting r) (started_packing_at r) (packer_wait_time r) (flit_to_pack r) (pkr2_state r) (device_under_consideration r) (last_text_to_trace_buf_dequeue r) (messages_sent_to_device r) (reqs_in_dam r) (DAM_addr r) (total_credit_checks r) (int_credit_reject_ctr r) (ext_credit_reject_ctr r) (empty_cycle_packer r) (empty_cycle_unpacker r) (empty_cycle_transmit r) (empty_cycle_req_completed r) (skippable_cycle r).
Definition set_S2M_DRS (v : CXLBuf message) (r : CXLHost) : CXLHost :=
  mk_CXLHost (tx_buffer r) (rx_buffer r) (host_node_id r) (ext_creds r) (int_cred r) (packer_cur_vc r) (address_intervals r) (connected_devices r) (M2S_Req r) (cur_Req_vc r) (M2S_RWD r) (cur_RWD_vc r) (S2M_NDR r) v (unpacker_rollover r) (packer_rollover r) (last_transmitted_at r) (rcvd_rsp_state r) (last_drs_hdr r) (last_rwd_hdr r) (is_trace_finished r) (text_to_trace_buf r) (is_packer_waiting r) (started_packing_at r) (packer_wait_time r) (flit_to_pack r) (pkr2_state r) (device_under_consideration r) (last_text_to_trace_buf_dequeue r) (messages_sent_to_device r) (reqs_in_dam r) (DAM_addr r) (total_credit_checks r) (int_credit_reject_ctr r) (ext_credit_reject_ctr r) (empty_cycle_packer r) (empty_cycle_unpacker r) (empty_cycle_transmit r) (empty_cycle_req_completed r) (skippable_cycle r).
Definition set_unpacker_rollover (v : Z) (r : CXLHost) : CXLHost :=
  mk_CXLHost (tx_buffer r) (rx_buffer r) (host_node_id r) (ext_creds r) (int_cred r) (packer_cur_vc r) (address_intervals r) (connected_devices r) (M2S_Req r) (cur_Req_vc r) (M2S_RWD r) (cur_RWD_vc r) (S2M_NDR r) (S2M_DRS r) v (packer_rollover r) (last_transmitted_at r) (rcvd_rsp_state r) (last_drs_hdr r) (last_rwd_hdr r) (is_trace_finished r) (text_to_trace_buf r) (is_packer_waiting r) (started_packing_at r) (packer_wait_time r) (flit_to_pack r) (pkr2_state r) (device_under_consideration r) (last_text_to_trace_buf_dequeue r) (messages_sent_to_device r) (reqs_in_dam r) (DAM_addr r) (total_credit_checks r) (int_credit_reject_ctr r) (ext_credit_reject_ctr r) (empty_cycle_packer r) (empty_cycle_unpacker r) (empty_cycle_transmit r) (empty_cycle_req_completed r) (skippable_cycle r).
Definition set_packer_rollover (v : Z) (r : CXLHost) : CXLHost :=
  mk_CXLHost (tx_buffer r) (rx_buffer r) (host_node_id r) (ext_creds r) (int_cred r) (packer_cur_vc r) (address_intervals r) (connected_devices r) (M2S_Req r) (cur_Req_vc r) (M2S_RWD r) (cur_RWD_vc r) (S2M_NDR r) (S2M_DRS r) (unpacker_rollover r) v (last_transmitted_at r) (rcvd_rsp_state r) (last_drs_hdr r) (last_rwd_hdr r) (is_trace_finished r) (text_to_trace_buf r) (is_packer_waiting r) (started_packing_at r) (packer_wait_time r) (flit_to_pack r) (pkr2_state r) (device_under_consideration r) (last_text_to_trace_buf_dequeue r) (messages_sent_to_device r) (reqs_in_dam r) (DAM_addr r) (total_credit_checks r) (int_credit_reject_ctr r) (ext_credit_reject_ctr r) (empty_cycle_packer r) (empty_cycle_unpacker r) (empty_cycle_transmit r) (empty_cycle_req_completed r) (skippable_cycle r).
Definition set_last_transmitted_at (v : Z) (r : CXLHost) : CXLHost :=
  mk_CXLHost (tx_buffer r) (rx_buffer r) (host_node_id r) (ext_creds r) (int_cred r) (packer_cur_vc r) (address_intervals r) (connected_devices r) (M2S_Req r) (cur_Req_vc r) (M2S_RWD r) (cur_RWD_vc r) (S2M_NDR r) (S2M_DRS r) (unpacker_rollover r) (packer_rollover r) v (rcvd_rsp_state r) (last_drs_hdr r) (last_rwd_hdr r) (is_trace_finished r) (text_to_trace_buf r) (is_packer_waiting r) (started_packing_at r) (packer_wait_time r) (flit_to_pack r) (pkr2_state r) (device_under_consideration r) (last_text_to_trace_buf_dequeue r) (messages_sent_to_device r) (reqs_in_dam r) (DAM_addr r) (total_credit_checks r) (int_credit_reject_ctr r) (ext_credit_reject_ctr r) (empty_cycle_packer r) (empty_cycle_unpacker r) (empty_cycle_transmit r) (empty_cycle_req_completed r) (skippable_cycle r).
Definition set_rcvd_rsp_state (v : round_robin_state) (r : CXLHost) : CXLHost :=
  mk_CXLHost (tx_buffer r) (rx_buffer r) (host_node_id r) (ext_creds r) (int_cred r) (packer_cur_vc r) (address_intervals r) (connected_devices r) (M2S_Req r) (cur_Req_vc r) (M2S_RWD r) (cur_RWD_vc r) (S2M_NDR r) (S2M_DRS r) (unpacker_rollover r) (packer_rollover r) (last_transmitted_at r) v (last_drs_hdr r) (last_rwd_hdr r) (is_trace_finished r) (text_to_trace_buf r) (is_packer_waiting r) (started_packing_at r) (packer_wait_time r) (flit_to_pack r) (pkr2_state r) (device_under_consideration r) (last_text_to_trace_buf_dequeue r) (messages_sent_to_device r) (reqs_in_dam r) (DAM_addr r) (total_credit_checks r) (int_credit_reject_ctr r) (ext_credit_reject_ctr r) (empty_cycle_packer r) (empty_cycle_unpacker r) (empty_cycle_transmit r) (empty_cycle_req_completed r) (skippable_cycle r).
Definition set_last_drs_hdr (v : message) (r : CXLHost) : CXLHost :=
  mk_CXLHost (tx_buffer r) (rx_buffer r) (host_node_id r) (ext_creds r) (int_cred r) (packer_cur_vc r) (address_intervals r) (connected_devices r) (M2S_Req r) (cur_Req_vc r) (M2S_RWD r) (cur_RWD_vc r) (S2M_NDR r) (S2M_DRS r) (unpacker_rollover r) (packer_rollover r) (last_transmitted_at r) (rcvd_rsp_state r) v (last_rwd_hdr r) (is_trace_finished r) (text_to_trace_buf r) (is_packer_waiting r) (started_packing_at r) (packer_wait_time r) (flit_to_pack r) (pkr2_state r) (device_under_consideration r) (last_text_to_trace_buf_dequeue r) (messages_sent_to_device r) (reqs_in_dam r) (DAM_addr r) (total_credit_checks r) (int_credit_reject_ctr r) (ext_credit_reject_ctr r) (empty_cycle_packer r) (empty_cycle_unpacker r) (empty_cycle_transmit r) (empty_cycle_req_completed r) (skippable_cycle r).
Definition set_last_rwd_hdr (v : message) (r : CXLHost) : CXLHost :=
  mk_CXLHost (tx_buffer r) (rx_buffer r) (host_node_id r) (ext_creds r) (int_cred r) (packer_cur_vc r) (address_intervals r) (connected_devices r) (M2S_Req r) (cur_Req_vc r) (M2S_RWD r) (cur_RWD_vc r) (S2M_NDR r) (S2M_DRS r) (unpacker_rollover r) (packer_rollover r) (last_transmitted_at r) (rcvd_rsp_state r) (last_drs_hdr r) v (is_trace_finished r) (text_to_trace_buf r) (is_packer_waiting r) (started_packing_at r) (packer_wait_time r) (flit_to_pack r) (pkr2_state r) (device_under_consideration r) (last_text_to_trace_buf_dequeue r) (messages_sent_to_device r) (reqs_in_dam r) (DAM_addr r) (total_credit_checks r) (int_credit_reject_ctr r) (ext_credit_reject_ctr r) (empty_cycle_packer r) (empty_cycle_unpacker r) (empty_cycle_transmit r) (empty_cycle_req_completed r) (skippable_cycle r).
Definition set_is_trace_finished (v : bool) (r : CXLHost) : CXLHost :=
  mk_CXLHost (tx_buffer r) (rx_buffer r) (host_node_id r) (ext_creds r) (int_cred r) (packer_cur_vc r) (address_intervals r) (connected_devices r) (M2S_Req r) (cur_Req_vc r) (M2S_RWD r) (cur_RWD_vc r) (S2M_NDR r) (S2M_DRS r) (unpacker_rollover r) (packer_rollover r) (last_transmitted_at r) (rcvd_rsp_state r) (last_drs_hdr r) (last_rwd_hdr r) v (text_to_trace_buf r) (is_packer_waiting r) (started_packing_at r) (packer_wait_time r) (flit_to_pack r) (pkr2_state r) (device_under_consideration r) (last_text_to_trace_buf_dequeue r) (messages_sent_to_device r) (reqs_in_dam r) (DAM_addr r) (total_credit_checks r) (int_credit_reject_ctr r) (ext_credit_reject_ctr r) (empty_cycle_packer r) (empty_cycle_unpacker r) (empty_cycle_transmit r) (empty_cycle_req_completed r) (skippable_cycle r).
Definition set_text_to_trace_buf (v : CXLBuf (Z * message)) (r : CXLHost) : CXLHost :=
  mk_CXLHost (tx_buffer r) (rx_buffer r) (host_node_id r) (ext_creds r) (int_cred r) (packer_cur_vc r) (address_intervals r) (connected_devices r) (M2S_Req r) (cur_Req_vc r) (M2S_RWD r) (cur_RWD_vc r) (S2M_NDR r) (S2M_DRS r) (unpacker_rollover r) (packer_rollover r) (last_transmitted_at r) (rcvd_rsp_state r) (last_drs_hdr r) (last_rwd_hdr r) (is_trace_finished r) v (is_packer_waiting r) (started_packing_at r) (packer_wait_time r) (flit_to_pack r) (pkr2_state r) (device_under_consideration r) (last_text_to_trace_buf_dequeue r) (messages_sent_to_device r) (reqs_in_dam r) (DAM_addr r) (total_credit_checks r) (int_credit_reject_ctr r) (ext_credit_reject_ctr r) (empty_cycle_packer r) (empty_cycle_unpacker r) (empty_cycle_transmit r) (empty_cycle_req_completed r) (skippable_cycle r).
Definition set_is_packer_waiting (v : bool) (r : CXLHost) : CXLHost :=
  mk_CXLHost (tx_buffer r) (rx_buffer r) (host_node_id r) (ext_creds r) (int_cred r) (packer_cur_vc r) (address_intervals r) (connected_devices r) (M2S_Req r) (cur_Req_vc r) (M2S_RWD r) (cur_RWD_vc r) (S2M_NDR r) (S2M_DRS r) (unpacker_rollover r) (packer_rollover r) (last_transmitted_at r) (rcvd_rsp_state r) (last_drs_hdr r) (last_rwd_hdr r) (is_trace_finished r) (text_to_trace_buf r) v (started_packing_at r) (packer_wait_time r) (flit_to_pack r) (pkr2_state r) (device_under_consideration r) (last_text_to_trace_buf_dequeue r) (messages_sent_to_device r) (reqs_in_dam r) (DAM_addr r) (total_credit_checks r) (int_credit_reject_ctr r) (ext_credit_reject_ctr r) (empty_cycle_packer r) (empty_cycle_unpacker r) (empty_cycle_transmit r) (empty_cycle_req_completed r) (skippable_cycle r).
Definition set_started_packing_at (v : Z) (r : CXLHost) : CXLHost :=
  mk_CXLHost (tx_buffer r) (rx_buffer r) (host_node_id r) (ext_creds r) (int_cred r) (packer_cur_vc r) (address_intervals r) (connected_devices r) (M2S_Req r) (cur_Req_vc r) (M2S_RWD r) (cur_RWD_vc r) (S2M_NDR r) (S2M_DRS r) (unpacker_rollover r) (packer_rollover r) (last_transmitted_at r) (rcvd_rsp_state r) (last_drs_hdr r) (last_rwd_hdr r) (is_trace_finished r) (text_to_trace_buf r) (is_packer_waiting r) v (packer_wait_time r) (flit_to_pack r) (pkr2_state r) (device_under_consideration r) (last_text_to_trace_buf_dequeue r) (messages_sent_to_device r) (reqs_in_dam r) (DAM_addr r) (total_credit_checks r) (int_credit_reject_ctr r) (ext_credit_reject_ctr r) (empty_cycle_packer r) (empty_cycle_unpacker r) (empty_cycle_transmit r) (empty_cycle_req_completed r) (skippable_cycle r).
Definition set_packer_wait_time (v : Z) (r : CXLHost) : CXLHost :=
  mk_CXLHost (tx_buffer r) (rx_buffer r) (host_node_id r) (ext_creds r) (int_cred r) (packer_cur_vc r) (address_intervals r) (connected_devices r) (M2S_Req r) (cur_Req_vc r) (M2S_RWD r) (cur_RWD_vc r) (S2M_NDR r) (S2M_DRS r) (unpacker_rollover r) (packer_rollover r) (last_transmitted_at r) (rcvd_rsp_state r) (last_drs_hdr r) (last_rwd_hdr r) (is_trace_finished r) (text_to_trace_buf r) (is_packer_waiting r) (started_packing_at r) v (flit_to_pack r) (pkr2_state r) (device_under_consideration r) (last_text_to_trace_buf_dequeue r) (messages_sent_to_device r) (reqs_in_dam r) (DAM_addr r) (total_credit_checks r) (int_credit_reject_ctr r) (ext_credit_reject_ctr r) (empty_cycle_packer r) (empty_cycle_unpacker r) (empty_cycle_transmit r) (empty_cycle_req_completed r) (skippable_cycle r).
Definition set_flit_to_pack (v : flit) (r : CXLHost) : CXLHost :=
  mk_CXLHost (tx_buffer r) (rx_buffer r) (host_node_id r) (ext_creds r) (int_cred r) (packer_cur_vc r) (address_intervals r) (connected_devices r) (M2S_Req r) (cur_Req_vc r) (M2S_RWD r) (cur_RWD_vc r) (S2M_NDR r) (S2M_DRS r) (unpacker_rollover r) (packer_rollover r) (last_transmitted_at r) (rcvd_rsp_state r) (last_drs_hdr r) (last_rwd_hdr r) (is_trace_finished r) (text_to_trace_buf r) (is_packer_waiting r) (started_packing_at r) (packer_wait_time r) v (pkr2_state r) (device_under_consideration r) (last_text_to_trace_buf_dequeue r) (messages_sent_to_device r) (reqs_in_dam r) (DAM_addr r) (total_credit_checks r) (int_credit_reject_ctr r) (ext_credit_reject_ctr r) (empty_cycle_packer r) (empty_cycle_unpacker r) (empty_cycle_transmit r) (empty_cycle_req_completed r) (skippable_cycle r).
Definition set_pkr2_state (v : round_robin_state) (r : CXLHost) : CXLHost :=
  mk_CXLHost (tx_buffer r) (rx_buffer r) (host_node_id r) (ext_creds r) (int_cred r) (packer_cur_vc r) (address_intervals r) (connected_devices r) (M2S_Req r) (cur_Req_vc r) (M2S_RWD r) (cur_RWD_vc r) (S2M_NDR r) (S2M_DRS r) (unpacker_rollover r) (packer_rollover r) (last_transmitted_at r) (rcvd_rsp_state r) (last_drs_hdr r) (last_rwd_hdr r) (is_trace_finished r) (text_to_trace_buf r) (is_packer_waiting r) (started_packing_at r) (packer_wait_time r) (flit_to_pack r) v (device_under_consideration r) (last_text_to_trace_buf_dequeue r) (messages_sent_to_device r) (reqs_in_dam r) (DAM_addr r) (total_credit_checks r) (int_credit_reject_ctr r) (ext_credit_reject_ctr r) (empty_cycle_packer r) (empty_cycle_unpacker r) (empty_cycle_transmit r) (empty_cycle_req_completed r) (skippable_cycle r).
Definition set_device_under_consideration (v : Z) (r : CXLHost) : CXLHost :=
  mk_CXLHost (tx_buffer r) (rx_buffer r) (host_node_id r) (ext_creds r) (int_cred r) (packer_cur_vc r) (address_intervals r) (connected_devices r) (M2S_Req r) (cur_Req_vc r) (M2S_RWD r) (cur_RWD_vc r) (S2M_NDR r) (S2M_DRS r) (unpacker_rollover r) (packer_rollover r) (last_transmitted_at r) (rcvd_rsp_state r) (last_drs_hdr r) (last_rwd_hdr r) (is_trace_finished r) (text_to_trace_buf r) (is_packer_waiting r) (started_packing_at r) (packer_wait_time r) (flit_to_pack r) (pkr2_state r) v (last_text_to_trace_buf_dequeue r) (messages_sent_to_device r) (reqs_in_dam r) (DAM_addr r) (total_credit_checks r) (int_credit_reject_ctr r) (ext_credit_reject_ctr r) (empty_cycle_packer r) (empty_cycle_unpacker r) (empty_cycle_transmit r) (empty_cycle_req_completed r) (skippable_cycle r).
Definition set_last_text_to_trace_buf_dequeue (v : Z) (r : CXLHost) : CXLHost :=
  mk_CXLHost (tx_buffer r) (rx_buffer r) (host_node_id r) (ext_creds r) (int_cred r) (packer_cur_vc r) (address_intervals r) (connected_devices r) (M2S_Req r) (cur_Req_vc r) (M2S_RWD r) (cur_RWD_vc r) (S2M_NDR r) (S2M_DRS r) (unpacker_rollover r) (packer_rollover r) (last_transmitted_at r) (rcvd_rsp_state r) (last_drs_hdr r) (last_rwd_hdr r) (is_trace_finished r) (text_to_trace_buf r) (is_packer_waiting r) (started_packing_at r) (packer_wait_time r) (flit_to_pack r) (pkr2_state r) (device_under_consideration r) v (messages_sent_to_device r) (reqs_in_dam r) (DAM_addr r) (total_credit_checks r) (int_credit_reject_ctr r) (ext_credit_reject_ctr r) (empty_cycle_packer r) (empty_cycle_unpacker r) (empty_cycle_transmit r) (empty_cycle_req_completed r) (skippable_cycle r).
Definition set_messages_sent_to_device (v : gmap Z message) (r : CXLHost) : CXLHost :=
  mk_CXLHost (tx_buffer r) (rx_buffer r) (host_node_id r) (ext_creds r) (int_cred r) (packer_cur_vc r) (address_intervals r) (connected_devices r) (M2S_Req r) (cur_Req_vc r) (M2S_RWD r) (cur_RWD_vc r) (S2M_NDR r) (S2M_DRS r) (unpacker_rollover r) (packer_rollover r) (last_transmitted_at r) (rcvd_rsp_state r) (last_drs_hdr r) (last_rwd_hdr r) (is_trace_finished r) (text_to_trace_buf r) (is_packer_waiting r) (started_packing_at r) (packer_wait_time r) (flit_to_pack r) (pkr2_state r) (device_under_consideration r) (last_text_to_trace_buf_dequeue r) v (reqs_in_dam r) (DAM_addr r) (total_credit_checks r) (int_credit_reject_ctr r) (ext_credit_reject_ctr r) (empty_cycle_packer r) (empty_cycle_unpacker r) (empty_cycle_transmit r) (empty_cycle_req_completed r) (skippable_cycle r).
Definition set_reqs_in_dam (v : gmap Z Z) (r : CXLHost) : CXLHost :=
  mk_CXLHost (tx_buffer r) (rx_buffer r) (host_node_id r) (ext_creds r) (int_cred r) (packer_cur_vc r) (address_intervals r) (connected_devices r) (M2S_Req r) (cur_Req_vc r) (M2S_RWD r) (cur_RWD_vc r) (S2M_NDR r) (S2M_DRS r) (unpacker_rollover r) (packer_rollover r) (last_transmitted_at r) (rcvd_rsp_state r) (last_drs_hdr r) (last_rwd_hdr r) (is_trace_finished r) (text_to_trace_buf r) (is_packer_waiting r) (started_packing_at r) (packer_wait_time r) (flit_to_pack r) (pkr2_state r) (device_under_consideration r) (last_text_to_trace_buf_dequeue r) (messages_sent_to_device r) v (DAM_addr r) (total_credit_checks r) (int_credit_reject_ctr r) (ext_credit_reject_ctr r) (empty_cycle_packer r) (empty_cycle_unpacker r) (empty_cycle_transmit r) (empty_cycle_req_completed r) (skippable_cycle r).
Definition set_DAM_addr (v : option (Z * Z)) (r : CXLHost) : CXLHost :=
  mk_CXLHost (tx_buffer r) (rx_buffer r) (host_node_id r) (ext_creds r) (int_cred r) (packer_cur_vc r) (address_intervals r) (connected_devices r) (M2S_Req r) (cur_Req_vc r) (M2S_RWD r) (cur_RWD_vc r) (S2M_NDR r) (S2M_DRS r) (unpacker_rollover r) (packer_rollover r) (last_transmitted_at r) (rcvd_rsp_state r) (last_drs_hdr r) (last_rwd_hdr r) (is_trace_finished r) (text_to_trace_buf r) (is_packer_waiting r) (started_packing_at r) (packer_wait_time r) (flit_to_pack r) (pkr2_state r) (device_under_consideration r) (last_text_to_trace_buf_dequeue r) (messages_sent_to_device r) (reqs_in_dam r) v (total_credit_checks r) (int_credit_reject_ctr r) (ext_credit_reject_ctr r) (empty_cycle_packer r) (empty_cycle_unpacker r) (empty_cycle_transmit r) (empty_cycle_req_completed r) (skippable_cycle r).
Definition set_total_credit_checks (v : Z) (r : CXLHost) : CXLHost :=
  mk_CXLHost (tx_buffer r) (rx_buffer r) (host_node_id r) (ext_creds r) (int_cred r) (packer_cur_vc r) (address_intervals r) (connected_devices r) (M2S_Req r) (cur_Req_vc r) (M2S_RWD r) (cur_RWD_vc r) (S2M_NDR r) (S2M_DRS r) (unpacker_rollover r) (packer_rollover r) (last_transmitted_at r) (rcvd_rsp_state r) (last_drs_hdr r) (last_rwd_hdr r) (is_trace_finished r) (text_to_trace_buf r) (is_packer_waiting r) (started_packing_at r) (packer_wait_time r) (flit_to_pack r) (pkr2_state r) (device_under_consideration r) (last_text_to_trace_buf_dequeue r) (messages_sent_to_device r) (reqs_in_dam r) (DAM_addr r) v (int_credit_reject_ctr r) (ext_credit_reject_ctr r) (empty_cycle_packer r) (empty_cycle_unpacker r) (empty_cycle_transmit r) (empty_cycle_req_completed r) (skippable_cycle r).
Definition set_int_credit_reject_ctr (v : Z) (r : CXLHost) : CXLHost :=
  mk_CXLHost (tx_buffer r) (rx_buffer r) (host_node_id r) (ext_creds r) (int_cred r) (packer_cur_vc r) (address_intervals r) (connected_devices r) (M2S_Req r) (cur_Req_vc r) (M2S_RWD r) (cur_RWD_vc r) (S2M_NDR r) (S2M_DRS r) (unpacker_rollover r) (packer_rollover r) (last_transmitted_at r) (rcvd_rsp_state r) (last_drs_hdr r) (last_rwd_hdr r) (is_trace_finished r) (text_to_trace_buf r) (is_packer_waiting r) (started_packing_at r) (packer_wait_time r) (flit_to_pack r) (pkr2_state r) (device_under_consideration r) (last_text_to_trace_buf_dequeue r) (messages_sent_to_device r) (reqs_in_dam r) (DAM_addr r) (total_credit_checks r) v (ext_credit_reject_ctr r) (empty_cycle_packer r) (empty_cycle_unpacker r) (empty_cycle_transmit r) (empty_cycle_req_completed r) (skippable_cycle r).
Definition set_ext_credit_reject_ctr (v : Z) (r : CXLHost) : CXLHost :=
  mk_CXLHost (tx_buffer r) (rx_buffer r) (host_node_id r) (ext_creds r) (int_cred r) (packer_cur_vc r) (address_intervals r) (connected_devices r) (M2S_Req r) (cur_Req_vc r) (M2S_RWD r) (cur_RWD_vc r) (S2M_NDR r) (S2M_DRS r) (unpacker_rollover r) (packer_rollover r) (last_transmitted_at r) (rcvd_rsp_state r) (last_drs_hdr r) (last_rwd_hdr r) (is_trace_finished r) (text_to_trace_buf r) (is_packer_waiting r) (started_packing_at r) (packer_wait_time r) (flit_to_pack r) (pkr2_state r) (device_under_consideration r) (last_text_to_trace_buf_dequeue r) (messages_sent_to_device r) (reqs_in_dam r) (DAM_addr r) (total_credit_checks r) (int_credit_reject_ctr r) v (empty_cycle_packer r) (empty_cycle_unpacker r) (empty_cycle_transmit r) (empty_cycle_req_completed r) (skippable_cycle r).
Definition set_empty_cycle_packer (v : Z) (r : CXLHost) : CXLHost :=
  mk_CXLHost (tx_buffer r) (rx_buffer r) (host_node_id r) (ext_creds r) (int_cred r) (packer_cur_vc r) (address_intervals r) (connected_devices r) (M2S_Req r) (cur_Req_vc r) (M2S_RWD r) (cur_RWD_vc r) (S2M_NDR r) (S2M_DRS r) (unpacker_rollover r) (packer_rollover r) (last_transmitted_at r) (rcvd_rsp_state r) (last_drs_hdr r) (last_rwd_hdr r) (is_trace_finished r) (text_to_trace_buf r) (is_packer_waiting r) (started_packing_at r) (packer_wait_time r) (flit_to_pack r) (pkr2_state r) (device_under_consideration r) (last_text_to_trace_buf_dequeue r) (messages_sent_to_device r) (reqs_in_dam r) (DAM_addr r) (total_credit_checks r) (int_credit_reject_ctr r) (ext_credit_reject_ctr r) v (empty_cycle_unpacker r) (empty_cycle_transmit r) (empty_cycle_req_completed r) (skippable_cycle r).
Definition set_empty_cycle_unpacker (v : Z) (r : CXLHost) : CXLHost :=
  mk_CXLHost (tx_buffer r) (rx_buffer r) (host_node_id r) (ext_creds r) (int_cred r) (packer_cur_vc r) (address_intervals r) (connected_devices r) (M2S_Req r) (cur_Req_vc r) (M2S_RWD r) (cur_RWD_vc r) (S2M_NDR r) (S2M_DRS r) (unpacker_rollover r) (packer_rollover r) (last_transmitted_at r) (rcvd_rsp_state r) (last_drs_hdr r) (last_rwd_hdr r) (is_trace_finished r) (text_to_trace_buf r) (is_packer_waiting r) (started_packing_at r) (packer_wait_time r) (flit_to_pack r) (pkr2_state r) (device_under_consideration r) (last_text_to_trace_buf_dequeue r) (messages_sent_to_device r) (reqs_in_dam r) (DAM_addr r) (total_credit_checks r) (int_credit_reject_ctr r) (ext_credit_reject_ctr r) (empty_cycle_packer r) v (empty_cycle_transmit r) (empty_cycle_req_completed r) (skippable_cycle r).
Definition set_empty_cycle_transmit (v : Z) (r : CXLHost) : CXLHost :=
  mk_CXLHost (tx_buffer r) (rx_buffer r) (host_node_id r) (ext_creds r) (int_cred r) (packer_cur_vc r) (address_intervals r) (connected_devices r) (M2S_Req r) (cur_Req_vc r) (M2S_RWD r) (cur_RWD_vc r) (S2M_NDR r) (S2M_DRS r) (unpacker_rollover r) (packer_rollover r) (last_transmitted_at r) (rcvd_rsp_state r) (last_drs_hdr r) (last_rwd_hdr r) (is_trace_finished r) (text_to_trace_buf r) (is_packer_waiting r) (started_packing_at r) (packer_wait_time r) (flit_to_pack r) (pkr2_state r) (device_under_consideration r) (last_text_to_trace_buf_dequeue r) (messages_sent_to_device r) (reqs_in_dam r) (DAM_addr r) (total_credit_checks r) (int_credit_reject_ctr r) (ext_credit_reject_ctr r) (empty_cycle_packer r) (empty_cycle_unpacker r) v (empty_cycle_req_completed r) (skippable_cycle r).
Definition set_empty_cycle_req_completed (v : Z) (r : CXLHost) : CXLHost :=
  mk_CXLHost (tx_buffer r) (rx_buffer r) (host_node_id r) (ext_creds r) (int_cred r) (packer_cur_vc r) (address_intervals r) (connected_devices r) (M2S_Req r) (cur_Req_vc r) (M2S_RWD r) (cur_RWD_vc r) (S2M_NDR r) (S2M_DRS r) (unpacker_rollover r) (packer_rollover r) (last_transmitted_at r) (rcvd_rsp_state r) (last_drs_hdr r) (last_rwd_hdr r) (is_trace_finished r) (text_to_trace_buf r) (is_packer_waiting r) (started_packing_at r) (packer_wait_time r) (flit_to_pack r) (pkr2_state r) (device_under_consideration r) (last_text_to_trace_buf_dequeue r) (messages_sent_to_device r) (reqs_in_dam r) (DAM_addr r) (total_credit_checks r) (int_credit_reject_ctr r) (ext_credit_reject_ctr r) (empty_cycle_packer r) (empty_cycle_unpacker r) (empty_cycle_transmit r) v (skippable_cycle r).
Definition set_skippable_cycle (v : Z) (r : CXLHost) : CXLHost :=
  mk_CXLHost (tx_buffer r) (rx_buffer r) (host_node_id r) (ext_creds r) (int_cred r) (packer_cur_vc r) (address_intervals r) (connected_devices r) (M2S_Req r) (cur_Req_vc r) (M2S_RWD r) (cur_RWD_vc r) (S2M_NDR r) (S2M_DRS r) (unpacker_rollover r) (packer_rollover r) (last_transmitted_at r) (rcvd_rsp_state r) (last_drs_hdr r) (last_rwd_hdr r) (is_trace_finished r) (text_to_trace_buf r) (is_packer_waiting r) (started_packing_at r) (packer_wait_time r) (flit_to_pack r) (pkr2_state r) (device_under_consideration r) (last_text_to_trace_buf_dequeue r) (messages_sent_to_device r) (reqs_in_dam r) (DAM_addr r) (total_credit_checks r) (int_credit_reject_ctr r) (ext_credit_reject_ctr r) (empty_cycle_packer r) (empty_cycle_unpacker r) (empty_cycle_transmit r) (empty_cycle_req_completed r) v.

Section Host.
Context `{Indet} (p : CXLParams).

(** [CXLHost::CXLHost(vc_size, buf_size, node_id)] *)
Definition CXLHost_new (vc_size buf_size node_id : Z) : CXLHost := {|
  tx_buffer := CXLBuf_new buf_size;
  rx_buffer := CXLBuf_new buf_size;
  host_node_id := node_id;
  ext_creds := ∅;
  int_cred := mk_credits 0 1024 1024;
  packer_cur_vc := 0;
  address_intervals := [];
  connected_devices := [];
  M2S_Req := replicate NUM_VC (CXLBuf_new (Z.quot vc_size 4));
  cur_Req_vc := 0;
  M2S_RWD := replicate NUM_VC (CXLBuf_new (Z.quot vc_size 4));
  cur_RWD_vc := 0;
  S2M_NDR := CXLBuf_new 1024;
  S2M_DRS := CXLBuf_new 1024;
  unpacker_rollover := 0;
  packer_rollover := 0;
  last_transmitted_at := 0;
  rcvd_rsp_state := rr_R;
  last_drs_hdr := indet_msg;
  last_rwd_hdr := indet_msg;
  is_trace_finished := false;
  text_to_trace_buf := CXLBuf_new 20;
  is_packer_waiting := false;
  started_packing_at := 0;
  packer_wait_time := 10;
  flit_to_pack := flit_new;
  pkr2_state := rr_R;
  device_under_consideration := indet_uint;
  last_text_to_trace_buf_dequeue := 0;
  messages_sent_to_device := ∅;
  reqs_in_dam := ∅;
  DAM_addr := None;
  total_credit_checks := 0;
  int_credit_reject_ctr := 0;
  ext_credit_reject_ctr := 0;
  empty_cycle_packer := 0;
  empty_cycle_unpacker := 0;
  empty_cycle_transmit := 0;
  empty_cycle_req_completed := 0;
  skippable_cycle := 0
|}.

(** [std::map<uint64_t, ...>::insert] keeps the entries in key order and
    does nothing when the key is there. *)
Fixpoint interval_insert (k : Z) (iv : Z * Z) (l : list (Z * (Z * Z))) : list (Z * (Z * Z)) :=
  match l with
  | [] => [(k, iv)]
  | (k', iv') :: l =>
      if k <? k' then (k, iv) :: (k', iv') :: l
      else if k =? k' then (k', iv') :: l
      else (k', iv') :: interval_insert k iv l
  end.

(** [CXLHost::register_device] *)
Definition register_device (device_id : Z) (addr_interval : Z * Z) (h : CXLHost) : res CXLHost :=
  assert! negb (existsb (fun i => i =? device_id) (connected_devices h)),
    "Re-registering device" in
  let h := set_connected_devices (connected_devices h ++ [device_id]) h in
  let h := set_address_intervals
             (interval_insert device_id addr_interval (address_intervals h)) h in
  Ok (set_ext_creds (match ext_creds h !! device_id with
                     | Some _ => ext_creds h
                     | None => <[device_id := mk_credits 1 0 1]> (ext_creds h)
                     end) h).

(** [CXLHost::destination_device]: the first device, in id order, whose
    interval holds the address. *)
Fixpoint find_interval (addr : Z) (l : list (Z * (Z * Z))) : option Z :=
  match l with
  | [] => None
  | (d, (lo, hi)) :: l => if (addr <? hi) && (lo <=? addr) then Some d else find_interval addr l
  end.
Definition destination_device (h : CXLHost) (addr : Z) : res Z :=
  match find_interval addr (address_intervals h) with
  | Some d => Ok d
  | None => Abort "Invalid address"
  end.

(** [CXLHost::no_active_transaction] *)
Definition no_active_transaction (h : CXLHost) : bool :=
  forallb (fun i => is_buf_empty (nth i (M2S_Req h) (CXLBuf_new 0)) &&
                    is_buf_empty (nth i (M2S_RWD h) (CXLBuf_new 0))) (seq 0 NUM_VC) &&
  is_buf_empty (S2M_DRS h) && is_buf_empty (S2M_NDR h) &&
  bool_decide (reqs_in_dam h = ∅) && bool_decide (messages_sent_to_device h = ∅).

(** ** Packing *)

(** A pointer to one of the transmitting virtual channels. *)
Inductive vc_ref : Type := ReqVC (j : nat) | RwdVC (j : nat).

Definition vc_get (h : CXLHost) (v : vc_ref) : CXLBuf message :=
  match v with
  | ReqVC j => nth j (M2S_Req h) (CXLBuf_new 0)
  | RwdVC j => nth j (M2S_RWD h) (CXLBuf_new 0)
  end.
Definition vc_set (v : vc_ref) (b : CXLBuf message) (h : CXLHost) : CXLHost :=
  match v with
  | ReqVC j => set_M2S_Req (<[j := b]> (M2S_Req h)) h
  | RwdVC j => set_M2S_RWD (<[j := b]> (M2S_RWD h)) h
  end.

(** The body of the loop of [CXLHost::check_vcs_for_packing] on the channel
    [v], the [j]-th of its array: is its head eligible for packing? *)
Definition try_vc (tick : Z) (v : vc_ref) (j : nat) (h : CXLHost) : res (bool * CXLHost) :=
  match q_ (vc_get h v) with
  | [] => Ok (false, h)
  | m :: _ =>
      if delay_vc_to_pack p <=? tick - tick_created (msg_time m) then
        let! dest := destination_device h (address m) in
        if (device_under_consideration h =? no_device) ||
           (device_under_consideration h =? dest) then
          match opCode m with
          | Req =>
              let h := set_total_credit_checks (u64 (total_credit_checks h + 1)) h in
              let h := if data_credit (int_cred h) =? 0
                       then set_int_credit_reject_ctr (u64 (int_credit_reject_ctr h + 1)) h
                       else h in
              let h := set_ext_creds (cred_touch (ext_creds h) dest) h in
              let h := if req_credit (cred_at (ext_creds h) dest) =? 0
                       then set_ext_credit_reject_ctr (u64 (ext_credit_reject_ctr h + 1)) h
                       else h in
              if negb (req_credit (cred_at (ext_creds h) dest) =? 0) &&
                 negb (data_credit (int_cred h) =? 0)
              then Ok (true, set_packer_cur_vc (next_cur_vc (packer_cur_vc h) j) h)
              else Ok (false, h)
          | RwD =>
              let h := set_ext_creds (cred_touch (ext_creds h) dest) h in
              if negb (data_credit (cred_at (ext_creds h) dest) =? 0) &&
                 negb (rsp_credit (int_cred h) =? 0)
              then Ok (true, set_packer_cur_vc (next_cur_vc (packer_cur_vc h) j) h)
              else Ok (false, h)
          | _ => Ok (false, h)
          end
        else Ok (false, h)
      else Ok (false, h)
  end.

(** The loop; [vc] makes the pointer to a channel of the array given.  The
    result is the channel found. *)
Fixpoint check_vcs_loop (tick : Z) (vc : nat -> vc_ref) (ixs : list nat) (h : CXLHost)
    : res (option vc_ref * CXLHost) :=
  match ixs with
  | [] => Ok (None, h)
  | i :: ixs =>
      let j := (i mod NUM_VC)%nat in
      let! (found, h) := try_vc tick (vc j) j h in
      if found : bool then Ok (Some (vc j), h) else check_vcs_loop tick vc ixs h
  end.

Definition check_vcs_for_packing (tick : Z) (vc : nat -> vc_ref) (h : CXLHost)
    : res (option vc_ref * CXLHost) :=
  check_vcs_loop tick vc (seq (packer_cur_vc h) NUM_VC) h.

(** [CXLHost::get_msg_from_vcs]; [None] is [valid = false]. *)
Definition get_msg_from_vcs (tick : Z) (h : CXLHost) : res (option vc_ref * CXLHost) :=
  match pkr2_state h with
  | rr_r =>
      let! (v, h) := check_vcs_for_packing tick ReqVC h in
      match v with
      | Some v => Ok (Some v, set_pkr2_state rr_R h)
      | None =>
          let! (v, h) := check_vcs_for_packing tick RwdVC h in
          match v with
          | Some v => Ok (Some v, set_pkr2_state rr_w h)
          | None => Ok (None, h)
          end
      end
  | rr_R =>
      let! (v, h) := check_vcs_for_packing tick RwdVC h in
      match v with
      | Some v => Ok (Some v, set_pkr2_state rr_w h)
      | None =>
          let! (v, h) := check_vcs_for_packing tick ReqVC h in
          match v with
          | Some v => Ok (Some v, set_pkr2_state rr_R h)
          | None => Ok (None, h)
          end
      end
  | rr_w =>
      let! (v, h) := check_vcs_for_packing tick ReqVC h in
      match v with
      | Some v => Ok (Some v, set_pkr2_state rr_r h)
      | None =>
          let! (v, h) := check_vcs_for_packing tick RwdVC h in
          match v with
          | Some v => Ok (Some v, set_pkr2_state rr_w h)
          | None => Ok (None, h)
          end
      end
  | rr_W => Abort "Illegal state in round robin"
  end.

(** [CXLHost::credit_sanity_check] *)
Definition credit_sanity_check (h : CXLHost) : res unit :=
  assert! (req_credit (int_cred h) =? 0), "Req cred of host should be 0" in
  assert! (0 <=? rsp_credit (int_cred h)) && (rsp_credit (int_cred h) <=? size_ (S2M_NDR h)),
    "Rsp cred of host out of range" in
  assert! (0 <=? data_credit (int_cred h)) && (data_credit (int_cred h) <=? size_ (S2M_DRS h)),
    "Data cred of host out of range" in
  Ok tt.

(** [CXLHost::get_Host_credits] *)
Definition get_Host_credits (h : CXLHost) : res credits :=
  let! _ := credit_sanity_check h in
  Ok (mk_credits 0 (slot_count_in_flit (flit_to_pack h) m2s_rwd_hdr)
        (slot_count_in_flit (flit_to_pack h) m2s_req)).

(** [CXLHost::add_flit_to_buf(flit_to_pack)] *)
Definition add_flit_to_buf (g : globals) (h : CXLHost) : res (globals * CXLHost) :=
  let f := flit_to_pack h in
  let f := set_flit_time (set_time_of_creation (curr_tick g) (flit_time f)) f in
  let h := set_flit_to_pack f h in
  let! crds := get_Host_credits h in
  let f := set_header (set_credit crds (header f)) f in
  let f := set_time set_tick_packed (curr_tick g) f in
  let f := set_flit_id (flit_counter g) f in
  let g := set_flit_counter (u64 (flit_counter g + 1)) g in
  let h := set_flit_to_pack f h in
  let! b := enqueue f (tx_buffer h) in
  Ok (g, set_tx_buffer b h).

Definition put_data (i : nat) (h : CXLHost) : CXLHost :=
  set_flit_to_pack
    (set_slot_at i (data_slot (last_rwd_hdr h) (slot_at (flit_to_pack h) i)) (flit_to_pack h)) h.

(** The packing of one slot from the virtual channel found. *)
Definition pack_slot (i : nat) (v : vc_ref) (h : CXLHost) : res CXLHost :=
  let! m := get_head (vc_get h v) in
  let! d := if device_under_consideration h =? no_device
            then destination_device h (address m)
            else Ok (device_under_consideration h) in
  let h := set_device_under_consideration d h in
  match opCode m with
  | Req =>
      if slot_count_in_flit (flit_to_pack h) m2s_req <=? 1 then
        let s := slot_at (flit_to_pack h) i in
        let s := set_slot_msg (message_copy m) (set_slot_ty m2s_req s) in
        let h := set_flit_to_pack (set_slot_at i s (flit_to_pack h)) h in
        let! dest := destination_device h (address m) in
        let c := cred_at (ext_creds h) dest in
        let h := set_ext_creds (<[dest := mk_credits (req_credit c - 1) (rsp_credit c)
                                            (data_credit c)]> (ext_creds h)) h in
        let! b := dequeue (vc_get h v) in
        let h := vc_set v b h in
        let c := int_cred h in
        Ok (set_int_cred (mk_credits (req_credit c) (rsp_credit c) (data_credit c - 1)) h)
      else Ok h
  | RwD =>
      if ((slot_count_in_flit (flit_to_pack h) m2s_rwd_hdr =? 0) && (i =? 0)%nat) ||
         ((slot_count_in_flit (flit_to_pack h) m2s_rwd_hdr =? 0) &&
          are_all_slots_after_this_empty (flit_to_pack h) i)
      then
        let s := set_slot_ty m2s_rwd_hdr (slot_at (flit_to_pack h) i) in
        let h := set_last_rwd_hdr (message_copy m) h in
        let s := set_slot_msg (message_copy m) s in
        let h := set_flit_to_pack (set_slot_at i s (flit_to_pack h)) h in
        let h := set_packer_rollover 4 h in
        let! dest := destination_device h (address m) in
        let c := cred_at (ext_creds h) dest in
        let h := set_ext_creds (<[dest := mk_credits (req_credit c) (rsp_credit c)
                                            (data_credit c - 1)]> (ext_creds h)) h in
        let c := int_cred h in
        let h := set_int_cred (mk_credits (req_credit c) (rsp_credit c - 1) (data_credit c)) h in
        let! b := dequeue (vc_get h v) in
        Ok (vc_set v b h)
      else Ok h
  | _ => Abort "Illegal message type"
  end.

(** The loop over the slots. *)
Fixpoint pack_loop (tick : Z) (ixs : list nat) (h : CXLHost) : res CXLHost :=
  match ixs with
  | [] => Ok h
  | i :: ixs =>
      if negb (slot_type_eqb (slot_ty_at (flit_to_pack h) i) empty) then pack_loop tick ixs h
      else if negb (packer_rollover h =? 0) && negb (i =? 0)%nat then
        let h := put_data i h in
        pack_loop tick ixs (set_packer_rollover (packer_rollover h - 1) h)
      else
        let! (v, h) := get_msg_from_vcs tick h in
        match v with
        | None => Ok h
        | Some v => let! h := pack_slot i v h in pack_loop tick ixs h
        end
  end.

(** The data slots of a new flit that are owed from the last one. *)
Definition put_rollover (h : CXLHost) : res CXLHost :=
  if packer_rollover h =? 1 then
    Ok (set_packer_rollover (packer_rollover h - 1) (put_data 1 h))
  else if packer_rollover h =? 2 then
    Ok (set_packer_rollover (packer_rollover h - 2) (put_data 2 (put_data 1 h)))
  else if packer_rollover h =? 3 then
    Ok (set_packer_rollover (packer_rollover h - 3) (put_data 3 (put_data 2 (put_data 1 h))))
  else if packer_rollover h =? 4 then
    Ok (set_packer_rollover (packer_rollover h - 4)
          (put_data 3 (put_data 2 (put_data 1 (put_data 0 h)))))
  else Abort "Illegal rollover count".

(** Hand the flit over unless the transmit buffer exerts backpressure. *)
Definition send_packed (g : globals) (h : CXLHost) : res (bool * (globals * CXLHost)) :=
  if is_buf_full (tx_buffer h) then Ok (true, (g, h))
  else
    let! (g, h) := add_flit_to_buf g h in
    Ok (true, (g, set_is_packer_waiting false h)).

(** The end of [FLIT_packer]: is the flit partially packed, and are the
    packing rules respected? *)
Definition finish_packing (g : globals) (h : CXLHost) : res (bool * (globals * CXLHost)) :=
  let active := negb (is_flit_empty (flit_to_pack h)) in
  let h := if active then set_is_packer_waiting true h else h in
  let req_count := slot_count_in_flit (flit_to_pack h) m2s_req in
  let rwd_count := slot_count_in_flit (flit_to_pack h) m2s_rwd_hdr in
  let data_count := slot_count_in_flit (flit_to_pack h) data in
  let flag := packing_violation req_count rwd_count data_count in
  assert! negb flag, "Packing rule violated on packer side" in
  Ok (active, (g, h)).

(** A packer that is not waiting starts a new flit; the device stays the
    same while data chunks are owed. *)
Definition start_flit (g : globals) (h : CXLHost) : CXLHost :=
  if negb (is_packer_waiting h) then
    set_device_under_consideration
      (if 0 <? packer_rollover h then device_under_consideration h else no_device)
      (set_started_packing_at (curr_tick g) (set_flit_to_pack flit_new h))
  else h.

(** [CXLHost::FLIT_packer] *)
Definition FLIT_packer (g : globals) (h : CXLHost) : res (bool * (globals * CXLHost)) :=
  let h := start_flit g h in
  if is_packer_waiting h && is_flit_full (flit_to_pack h) then send_packed g h
  else if is_packer_waiting h && (packer_wait_time h <? curr_tick g - started_packing_at h) &&
          negb (is_flit_empty (flit_to_pack h)) then send_packed g h
  else
  assert! (0 <=? packer_rollover h) && (packer_rollover h <=? 4),
    "Packer rollover illegal value" in
  if negb (packer_rollover h =? 0) && negb (is_packer_waiting h) then
    let all_data := packer_rollover h =? 4 in
    let! h := put_rollover h in
    if all_data then
      if is_buf_full (tx_buffer h) then Ok (true, (g, set_is_packer_waiting true h))
      else
        let! (g, h) := add_flit_to_buf g h in
        Ok (true, (g, set_is_packer_waiting false h))
    else
      let! h := pack_loop (curr_tick g) (seq 0 4) h in finish_packing g h
  else
    let! h := pack_loop (curr_tick g) (seq 0 4) h in finish_packing g h.

(** ** Unpacking *)

(** All non-empty slots of a flit come from one device. *)
Fixpoint scan_device (h : CXLHost) (device_id : Z) (l : list slot) : res Z :=
  match l with
  | [] => Ok device_id
  | s :: l =>
      if slot_type_eqb (slot_ty s) empty then scan_device h device_id l
      else
        let! d := destination_device h (address (slot_msg s)) in
        if device_id =? no_device then scan_device h d l
        else assert! (device_id =? d), "Single flit has messages from different devices" in
             scan_device h d l
  end.

Definition host_uvc (h : CXLHost) : uvc :=
  mk_uvc (unpacker_rollover h) (last_drs_hdr h) (S2M_NDR h) (S2M_DRS h).
Definition set_host_uvc (u : uvc) (h : CXLHost) : CXLHost :=
  set_unpacker_rollover (u_roll u) (set_last_drs_hdr (u_last u)
    (set_S2M_NDR (u_plain u) (set_S2M_DRS (u_hdr u) h))).

(** [CXLHost::FLIT_unpacker] *)
Definition FLIT_unpacker (tick : Z) (h : CXLHost) : res (bool * CXLHost) :=
  assert! negb (is_buf_full (rx_buffer h) && is_buf_full (S2M_DRS h) && is_buf_full (S2M_NDR h)),
    "Rx side stall!" in
  if is_buf_empty (rx_buffer h) then Ok (false, h)
  else
  let! f := get_head (rx_buffer h) in
  if tick - time_of_receipt (flit_time f) <? delay_rx_buf_to_unpack p then Ok (false, h)
  else
  let! device_id := scan_device h no_device (slots f) in
  let s2m_ndr_ctr := slot_count_in_flit f s2m_ndr in
  let s2m_drs_ctr := slot_count_in_flit f s2m_drs_hdr in
  let s2m_data_ctr := slot_count_in_flit f data in
  assert! (unpacker_rollover h <=? 4) && (0 <=? unpacker_rollover h),
    "Rollover data out of range" in
  let! rule := rollover_rule (unpacker_rollover h) f in
  assert! rule, "Data rollover rule violated" in
  assert! negb ((2 <? s2m_ndr_ctr) || (s2m_ndr_ctr <? 0)) &&
          negb ((4 <? s2m_data_ctr) || (s2m_data_ctr <? 0)) &&
          negb ((1 <? s2m_drs_ctr) || (s2m_drs_ctr <? 0)), "Packing rule violated" in
  let! u := unpack_slots (H0 := s2m_dialect) set_tick_resp_unpacked tick (slots f) (host_uvc h) in
  let h := set_host_uvc u h in
  let! b := dequeue (rx_buffer h) in
  let h := set_rx_buffer b h in
  let c := cred_at (ext_creds h) device_id in
  let fc := credit (header f) in
  Ok (true, set_ext_creds (<[device_id := mk_credits (req_credit c + req_credit fc) (rsp_credit c)
                                (data_credit c + data_credit fc)]> (ext_creds h)) h).

(** ** Transmission *)

(** [CXLHost::transmit] *)
Definition transmit (tick : Z) (h : CXLHost) (tx_bus : CXLBus) : res (bool * (CXLHost * CXLBus)) :=
  if is_buf_empty (tx_buffer h) then Ok (false, (h, tx_bus))
  else if is_full tx_bus then Ok (false, (h, tx_bus))
  else
  let! f := get_head (tx_buffer h) in
  if tick - time_of_creation (flit_time f) <? delay_tx_buf_to_bus p then Ok (false, (h, tx_bus))
  else if tick - last_transmitted_at h <? cxl_bus_ticks_per_dequeue p
  then Ok (false, (h, tx_bus))
  else
  let h := set_last_transmitted_at tick h in
  let f := flit_copy f in
  let f := set_flit_time (set_time_of_transmission tick (flit_time f)) f in
  let f := set_time set_tick_transmitted tick f in
  let! tx_bus := add_to_bus tick f tx_bus in
  let! b := dequeue (tx_buffer h) in
  Ok (true, (set_tx_buffer b h, tx_bus)).

(** ** Retirement of responses *)

Inductive rsp_vc : Type := NdrVC | DrsVC.
Definition rsp_get (h : CXLHost) (v : rsp_vc) : CXLBuf message :=
  match v with NdrVC => S2M_NDR h | DrsVC => S2M_DRS h end.
Definition rsp_set (v : rsp_vc) (b : CXLBuf message) (h : CXLHost) : CXLHost :=
  match v with NdrVC => set_S2M_NDR b h | DrsVC => set_S2M_DRS b h end.

(** [CXLHost::check_rx_vc]; the per-table latency averages, kept in
    [double]s for the final report, are not part of the model. *)
Definition check_rx_vc (g : globals) (v : rsp_vc) (h : CXLHost)
    : res (bool * (globals * CXLHost)) :=
  if is_buf_empty (rsp_get h v) then Ok (false, (g, h))
  else
  let! m := get_head (rsp_get h v) in
  if curr_tick g - tick_resp_unpacked (msg_time m) <? delay_vc_to_retire p
  then Ok (false, (g, h))
  else
  let m := set_msg_tick set_tick_req_complete (curr_tick g) m in
  assert! bool_decide (is_Some (messages_sent_to_device h !! msg_id m)),
    "Response received is for an unknown request" in
  let h := set_messages_sent_to_device (delete (msg_id m) (messages_sent_to_device h)) h in
  let g := set_num_reqs_completed (u64 (num_reqs_completed g + 1)) g in
  let c := int_cred h in
  let! h := match opCode m with
            | DRS => Ok (set_int_cred (mk_credits (req_credit c) (rsp_credit c)
                                         (data_credit c + 1)) h)
            | NDR => Ok (set_int_cred (mk_credits (req_credit c) (rsp_credit c + 1)
                                         (data_credit c)) h)
            | _ => Abort "Illegal message type received"
            end in
  let! b := dequeue (rsp_get h v) in
  Ok (true, (g, rsp_set v b h)).

(** [CXLHost::check_if_req_completed] *)
Definition check_if_req_completed (g : globals) (h : CXLHost)
    : res (bool * (globals * CXLHost)) :=
  if is_buf_empty (S2M_DRS h) && is_buf_empty (S2M_NDR h) then Ok (false, (g, h))
  else
  let try_two v1 s1 v2 s2 :=
    let! (b1, (g, h)) := check_rx_vc g v1 h in
    if b1 : bool then Ok (true, (g, set_rcvd_rsp_state s1 h))
    else
      let! (b2, (g, h)) := check_rx_vc g v2 h in
      if b2 : bool then Ok (true, (g, set_rcvd_rsp_state s2 h))
      else Ok (false, (g, h)) in
  match rcvd_rsp_state h with
  | rr_R => try_two NdrVC rr_w DrsVC rr_r
  | rr_r => try_two DrsVC rr_R NdrVC rr_w
  | rr_w => try_two DrsVC rr_R NdrVC rr_w
  | rr_W => Abort "Unknown state in round robin"
  end.

(** ** Cycle skipping *)

(** [CXLHost::skip_packer_check] *)
Definition head_ready (delay tick : Z) (b : CXLBuf message) : bool :=
  match q_ b with
  | [] => false
  | m :: _ => delay <=? tick - tick_created (msg_time m)
  end.
Definition skip_packer_check (tick : Z) (h : CXLHost) : bool :=
  if negb (packer_rollover h =? 0) || is_packer_waiting h then false
  else if forallb (fun i => is_buf_empty (nth i (M2S_Req h) (CXLBuf_new 0)) &&
                            is_buf_empty (nth i (M2S_RWD h) (CXLBuf_new 0))) (seq 0 NUM_VC)
  then true
  else negb (existsb (fun i =>
         head_ready (delay_vc_to_pack p) tick (nth i (M2S_Req h) (CXLBuf_new 0)) ||
         head_ready (delay_vc_to_pack p) tick (nth i (M2S_RWD h) (CXLBuf_new 0)))
         (seq 0 NUM_VC)).

(** [CXLHost::skip_transmit_check] *)
Definition skip_transmit_check (tick : Z) (h : CXLHost) (tx_bus : CXLBus) : bool :=
  match q_ (tx_buffer h) with
  | [] => true
  | f :: _ =>
      is_full tx_bus ||
      ((tick - time_of_creation (flit_time f) <? delay_tx_buf_to_bus p) ||
       (tick - last_transmitted_at h <? cxl_bus_ticks_per_dequeue p))
  end.

(** [CXLHost::skip_unpacker_check] *)
Definition skip_unpacker_check (tick : Z) (h : CXLHost) : bool :=
  match q_ (rx_buffer h) with
  | [] => true
  | f :: _ => tick - time_of_receipt (flit_time f) <? delay_rx_buf_to_unpack p
  end.

(** [CXLHost::skip_req_complete_check] *)
Definition rsp_ready (tick : Z) (b : CXLBuf message) : bool :=
  match q_ b with
  | [] => false
  | m :: _ => delay_vc_to_retire p <=? tick - tick_resp_unpacked (msg_time m)
  end.
Definition skip_req_complete_check (tick : Z) (h : CXLHost) : bool :=
  if is_buf_empty (S2M_DRS h) && is_buf_empty (S2M_NDR h) then true
  else if rsp_ready tick (S2M_DRS h) then false
  else if rsp_ready tick (S2M_NDR h) then false
  else true.

(** ** The tick of a host *)

(** The rest of [CXLHost::update], after [text_to_trace]; [skip] tells
    whether [SKIP_CYCLE] is defined. *)
Definition update_flits (skip : bool) (g : globals) (h : CXLHost) (tx_bus : CXLBus)
    : res (globals * CXLHost * CXLBus) :=
  let tick := curr_tick g in
  assert! (Z.of_nat (size (ext_creds h)) =? Z.of_nat (length (connected_devices h))),
    "External credits for unknown device added" in
  let packer_flag2 := negb (skip_packer_check tick h) in
  let! (packer_flag, (g, h)) :=
    if skip && negb packer_flag2 then Ok (false, (g, h)) else FLIT_packer g h in
  let h := if skip && negb packer_flag2
           then set_empty_cycle_packer (u64 (empty_cycle_packer h + 1)) h else h in
  let transmit_flag2 := negb (skip_transmit_check tick h tx_bus) in
  let! (transmit_flag, (h, tx_bus)) :=
    if skip && negb transmit_flag2 then Ok (false, (h, tx_bus)) else transmit tick h tx_bus in
  let h := if skip && negb transmit_flag2
           then set_empty_cycle_transmit (u64 (empty_cycle_transmit h + 1)) h else h in
  let unpacker_flag2 := negb (skip_unpacker_check tick h) in
  let! (unpacker_flag, h) :=
    if skip && negb unpacker_flag2 then Ok (false, h) else FLIT_unpacker tick h in
  let h := if skip && negb unpacker_flag2
           then set_empty_cycle_unpacker (u64 (empty_cycle_unpacker h + 1)) h else h in
  let complete_flag2 := negb (skip_req_complete_check tick h) in
  let! (complete_flag, (g, h)) :=
    if skip && negb complete_flag2 then Ok (false, (g, h)) else check_if_req_completed g h in
  let h := if skip && negb complete_flag2
           then set_empty_cycle_req_completed (u64 (empty_cycle_req_completed h + 1)) h else h in
  let h := if negb packer_flag2 && negb transmit_flag2 && negb unpacker_flag2 &&
              negb complete_flag2
           then set_skippable_cycle (u64 (skippable_cycle h + 1)) h else h in
  assert! negb (skip && negb packer_flag2 && packer_flag), "Packer Flag Error" in
  assert! negb (skip && negb transmit_flag2 && transmit_flag), "Transmit Flag Error" in
  assert! negb (skip && negb unpacker_flag2 && unpacker_flag), "Unpacker Flag Error" in
  assert! negb (skip && negb complete_flag2 && complete_flag), "Complete Flag Error" in
  Ok (g, h, tx_bus).

End Host.
