(* ===== verification/HostPack.v ===== *)
(** * The host's packer respects the packing protocol

    Proofs about [CXLHost::FLIT_packer]: it never violates one of its
    assertions, every flit it hands to the transmit buffer is legal
    ([Packing.wf_flit]) after the flits sent before, and no message is lost
    or duplicated on the way from the virtual channels to the buffer. *)
From Stdlib Require Import ZArith Lia Bool String.
From stdpp Require Import base list gmap.
From S2P Require Import Prelude Flit CxlBuf Samples CxlBus Packing CxlNode CxlHost.

#[local] Existing Instance m2s_dialect.

Lemma kind_req u : kind_of u = Plain <-> u = m2s_req.
Proof. exact (kind_of_plain u). Qed.
Lemma kind_rwd u : kind_of u = Hdr <-> u = m2s_rwd_hdr.
Proof. exact (kind_of_hdr u). Qed.
Section HostPack.
Context `{Indet} (p : CXLParams).

(** ** Searching the virtual channels *)

(** A search moves the round-robin cursor and the statistics counters, and
    may create entries with zero credits. *)
Definition upd (c : nat) (e : gmap Z credits) (t i x : Z) (h : CXLHost) : CXLHost :=
  set_packer_cur_vc c (set_ext_creds e (set_total_credit_checks t
    (set_int_credit_reject_ctr i (set_ext_credit_reject_ctr x h)))).
Definition searched (h h' : CXLHost) : Prop :=
  exists c e t i x, h' = upd c e t i x h /\
    forall d, cred_at e d = cred_at (ext_creds h) d.

Lemma searched_refl h : searched h h.
Proof.
  exists (packer_cur_vc h), (ext_creds h), (total_credit_checks h),
    (int_credit_reject_ctr h), (ext_credit_reject_ctr h). by destruct h.
Qed.

Lemma searched_trans h1 h2 h3 : searched h1 h2 -> searched h2 h3 -> searched h1 h3.
Proof.
  intros (c & e & t & i & x & -> & He) (c' & e' & t' & i' & x' & -> & He').
  exists c', e', t', i', x'. split; [done|]. intros d. rewrite He'. apply He.
Qed.

(** Is the message [m] at the head of a channel eligible for packing? *)
Definition credit_ok (oc : opcode) (h : CXLHost) (d : Z) : bool :=
  match oc with
  | Req => negb (req_credit (cred_at (ext_creds h) d) =? 0) && negb (data_credit (int_cred h) =? 0)
  | RwD => negb (data_credit (cred_at (ext_creds h) d) =? 0) && negb (rsp_credit (int_cred h) =? 0)
  | _ => false
  end.
Definition eligible (tick : Z) (oc : opcode) (h : CXLHost) (m : message) : bool :=
  (delay_vc_to_pack p <=? tick - tick_created (msg_time m)) &&
  match find_interval (address m) (address_intervals h) with
  | Some d => ((device_under_consideration h =? no_device) ||
               (device_under_consideration h =? d)) && credit_ok oc h d
  | None => false
  end.
Definition head_eligible (tick : Z) (oc : opcode) (h : CXLHost) (v : vc_ref) : bool :=
  match q_ (vc_get h v) with m :: _ => eligible tick oc h m | [] => false end.
Definition available (tick : Z) (oc : opcode) (vc : nat -> vc_ref) (h : CXLHost) : bool :=
  existsb (fun j => head_eligible tick oc h (vc j)) (seq 0 NUM_VC).

(** The messages of an array of channels have the expected opcode and an
    address that some device serves. *)
Definition msg_ok (oc : opcode) (h : CXLHost) (m : message) : Prop :=
  opCode m = oc /\ exists d, find_interval (address m) (address_intervals h) = Some d.
Definition vcs_ok (oc : opcode) (vc : nat -> vc_ref) (h : CXLHost) : Prop :=
  forall j, (j < NUM_VC)%nat -> Forall (msg_ok oc h) (q_ (vc_get h (vc j))).

Lemma vc_get_searched h h' v : searched h h' -> vc_get h' v = vc_get h v.
Proof. intros (c & e & t & i & x & -> & _). by destruct v. Qed.

Lemma eligible_searched tick oc h h' m : searched h h' -> eligible tick oc h' m = eligible tick oc h m.
Proof.
  intros (c & e & t & i & x & -> & He). unfold eligible, credit_ok. simpl.
  destruct (find_interval _ _); [|done]. by rewrite He.
Qed.

Lemma head_eligible_searched tick oc h h' v : searched h h' ->
  head_eligible tick oc h' v = head_eligible tick oc h v.
Proof.
  intros Hs. unfold head_eligible. rewrite (vc_get_searched _ _ _ Hs).
  destruct (q_ _); [done|]. by apply eligible_searched.
Qed.

Lemma available_searched tick oc vc h h' : searched h h' ->
  available tick oc vc h' = available tick oc vc h.
Proof.
  intros Hs. unfold available. simpl. by rewrite !(head_eligible_searched _ _ _ _ _ Hs).
Qed.

Lemma vcs_ok_searched oc vc h h' : searched h h' -> vcs_ok oc vc h -> vcs_ok oc vc h'.
Proof.
  intros Hs Hv j Hj. rewrite (vc_get_searched _ _ _ Hs). destruct Hs as (c & e & t & i & x & -> & _).
  by apply Hv.
Qed.

Lemma searched_cur c h : searched h (set_packer_cur_vc c h).
Proof.
  exists c, (ext_creds h), (total_credit_checks h), (int_credit_reject_ctr h),
    (ext_credit_reject_ctr h). by destruct h.
Qed.

Lemma searched_touch d h : searched h (set_ext_creds (cred_touch (ext_creds h) d) h).
Proof.
  exists (packer_cur_vc h), (cred_touch (ext_creds h) d), (total_credit_checks h),
    (int_credit_reject_ctr h), (ext_credit_reject_ctr h).
  split; [by destruct h|]. apply cred_at_touch.
Qed.

(** One channel is tested. *)
Lemma try_vc_spec tick oc v j h :
  oc = Req \/ oc = RwD -> Forall (msg_ok oc h) (q_ (vc_get h v)) ->
  exists h', try_vc p tick v j h = Ok (head_eligible tick oc h v, h') /\ searched h h'.
Proof.
  intros Hoc Hm. unfold try_vc, head_eligible, eligible. destruct (q_ (vc_get h v)) as [|m l].
  { eauto using searched_refl. }
  apply Forall_cons in Hm as [(Hop & d & Hd) _]. unfold destination_device. rewrite Hd, Hop.
  destruct (delay_vc_to_pack p <=? _); [|eauto using searched_refl]. simpl bind.
  destruct ((_ =? no_device) || _); [|eauto using searched_refl].
  destruct Hoc as [-> | ->]; unfold credit_ok.
  - set (h1 := set_ext_creds _ _). set (h2 := if req_credit _ =? 0 then _ else h1).
    assert (Hs2 : searched h h2).
    { unfold h2, h1. destruct (data_credit (int_cred h) =? 0), (req_credit _ =? 0);
        match goal with |- searched _ ?k =>
          exists (packer_cur_vc k), (ext_creds k), (total_credit_checks k),
            (int_credit_reject_ctr k), (ext_credit_reject_ctr k)
        end; (split; [by destruct h | intros; simpl; apply cred_at_touch]). }
    assert (E : cred_at (ext_creds h2) d = cred_at (ext_creds h) d /\ int_cred h2 = int_cred h).
    { destruct Hs2 as (c & e & t & i & x & -> & He). simpl. by rewrite He. }
    destruct E as [-> ->]. simpl andb.
    destruct (negb _ && _); eexists; (split; [reflexivity|]); [|done].
    eapply searched_trans; [exact Hs2 | apply searched_cur].
  - pose proof (searched_touch d h) as Hs2. rewrite cred_at_touch. simpl andb.
    destruct (negb _ && _); eexists; (split; [reflexivity|]); [|done].
    eapply searched_trans; [exact Hs2 | apply searched_cur].
Qed.

(** The loop finds an eligible head, or there is none. *)
Lemma check_vcs_loop_spec tick oc vc ixs h :
  oc = Req \/ oc = RwD -> vcs_ok oc vc h ->
  exists v h', check_vcs_loop p tick vc ixs h = Ok (v, h') /\ searched h h' /\
    match v with
    | Some v => exists j, (j < NUM_VC)%nat /\ v = vc j /\ head_eligible tick oc h (vc j) = true
    | None => Forall (fun i => head_eligible tick oc h (vc (i mod NUM_VC)%nat) = false) ixs
    end.
Proof.
  intros Hoc. revert h. induction ixs as [|i ixs IH]; intros h Hv.
  { exists None, h. eauto using searched_refl. }
  set (j := (i mod NUM_VC)%nat).
  assert (Hj : (j < NUM_VC)%nat) by (apply Nat.mod_upper_bound; done).
  destruct (try_vc_spec tick oc (vc j) j h Hoc (Hv j Hj)) as (h1 & E1 & Hs1).
  change (check_vcs_loop p tick vc (i :: ixs) h) with
    (let! (found, h) := try_vc p tick (vc j) j h in
     if found : bool then Ok (Some (vc j), h) else check_vcs_loop p tick vc ixs h).
  rewrite E1. simpl bind. destruct (head_eligible tick oc h (vc j)) eqn:Hel.
  { exists (Some (vc j)), h1. eauto 6. }
  destruct (IH h1) as (v & h' & E & Hs & Hr); [by eapply vcs_ok_searched|].
  exists v, h'. split; [done|]. split; [by eapply searched_trans|].
  destruct v as [v|].
  - destruct Hr as (j' & ? & ? & Hh). exists j'.
    by rewrite (head_eligible_searched _ _ _ _ _ Hs1) in Hh.
  - constructor; [done|]. eapply Forall_impl; [exact Hr|]. intros k Hk; cbv beta in *.
    by rewrite (head_eligible_searched _ _ _ _ _ Hs1) in Hk.
Qed.

Lemma check_vcs_spec tick oc vc h :
  oc = Req \/ oc = RwD -> vcs_ok oc vc h ->
  exists v h', check_vcs_for_packing p tick vc h = Ok (v, h') /\ searched h h' /\
    match v with
    | Some v => available tick oc vc h = true /\
        exists j, (j < NUM_VC)%nat /\ v = vc j /\ head_eligible tick oc h (vc j) = true
    | None => available tick oc vc h = false
    end.
Proof.
  intros Hoc Hv. destruct (check_vcs_loop_spec tick oc vc (seq (packer_cur_vc h) NUM_VC) h Hoc Hv)
    as (v & h' & E & Hs & Hr). exists v, h'. split; [done|]. split; [done|].
  destruct v as [v|].
  - destruct Hr as (j & Hj & -> & Hh). split; [|by eauto].
    apply existsb_exists. exists j. split; [apply in_seq; lia | done].
  - apply not_true_is_false. intros (j & Hj & Hh)%existsb_exists. apply in_seq in Hj.
    destruct (seq_residues (packer_cur_vc h) j ltac:(lia)) as (i & Hi & <-).
    rewrite List.Forall_forall in Hr. rewrite (Hr i Hi) in Hh. done.
Qed.


(** The same search after another one. *)
Lemma check_vcs_again tick oc vc h h1 :
  oc = Req \/ oc = RwD -> vcs_ok oc vc h -> searched h h1 ->
  exists v h', check_vcs_for_packing p tick vc h1 = Ok (v, h') /\ searched h h' /\
    match v with
    | Some v => available tick oc vc h = true /\
        exists j, (j < NUM_VC)%nat /\ v = vc j /\ head_eligible tick oc h (vc j) = true
    | None => available tick oc vc h = false
    end.
Proof.
  intros Hoc Hv Hs. destruct (check_vcs_spec tick oc vc h1 Hoc) as (v & h' & E & Hs' & R);
    [by eapply vcs_ok_searched|].
  exists v, h'. split; [done|]. split; [by eapply searched_trans|].
  rewrite (available_searched _ _ _ _ _ Hs) in R. destruct v as [v|]; [|done].
  destruct R as (Ha & j & Hj & -> & Hh). rewrite (head_eligible_searched _ _ _ _ _ Hs) in Hh. eauto.
Qed.

(** [get_msg_from_vcs] in the states it can be in. *)
Lemma get_msg_spec tick h :
  vcs_ok Req ReqVC h -> vcs_ok RwD RwdVC h -> pkr2_state h <> rr_W ->
  exists v h1 s, get_msg_from_vcs p tick h = Ok (v, set_pkr2_state s h1) /\ searched h h1 /\
    match v with
    | None => s = pkr2_state h
    | Some (ReqVC j) => (j < NUM_VC)%nat /\ head_eligible tick Req h (ReqVC j) = true /\
        s = next_plain (pkr2_state h) /\
        (pkr2_state h = rr_R -> available tick RwD RwdVC h = false)
    | Some (RwdVC j) => (j < NUM_VC)%nat /\ head_eligible tick RwD h (RwdVC j) = true /\
        s = rr_w /\ available tick RwD RwdVC h = true
    end.
Proof.
  intros Hreq Hrwd HW.
  assert (Hsame : forall h', searched h h' -> set_pkr2_state (pkr2_state h) h' = h').
  { intros h' (c & e & t & i & x & -> & _). by destruct h. }
  pose proof (fun h1 => check_vcs_again tick Req ReqVC h h1 (or_introl eq_refl) Hreq) as Creq.
  pose proof (fun h1 => check_vcs_again tick RwD RwdVC h h1 (or_intror eq_refl) Hrwd) as Crwd.
  unfold get_msg_from_vcs. destruct (pkr2_state h) eqn:Est; [| | |done].
  - destruct (Crwd h (searched_refl h)) as ([v1|] & h1 & -> & Hs1 & R1); simpl bind.
    { destruct R1 as (Ha & j & Hj & -> & Hh). by exists (Some (RwdVC j)), h1, rr_w. }
    destruct (Creq h1 Hs1) as ([v2|] & h2 & -> & Hs2 & R2); simpl bind.
    + destruct R2 as (Ha & j & Hj & -> & Hh). by exists (Some (ReqVC j)), h2, rr_R.
    + exists None, h2, rr_R. by rewrite Hsame.
  - destruct (Creq h (searched_refl h)) as ([v1|] & h1 & -> & Hs1 & R1); simpl bind.
    { destruct R1 as (Ha & j & Hj & -> & Hh). by exists (Some (ReqVC j)), h1, rr_R. }
    destruct (Crwd h1 Hs1) as ([v2|] & h2 & -> & Hs2 & R2); simpl bind.
    + destruct R2 as (Ha & j & Hj & -> & Hh). by exists (Some (RwdVC j)), h2, rr_w.
    + exists None, h2, rr_r. by rewrite Hsame.
  - destruct (Creq h (searched_refl h)) as ([v1|] & h1 & -> & Hs1 & R1); simpl bind.
    { destruct R1 as (Ha & j & Hj & -> & Hh). by exists (Some (ReqVC j)), h1, rr_r. }
    destruct (Crwd h1 Hs1) as ([v2|] & h2 & -> & Hs2 & R2); simpl bind.
    + destruct R2 as (Ha & j & Hj & -> & Hh). by exists (Some (RwdVC j)), h2, rr_w.
    + exists None, h2, rr_w. by rewrite Hsame.
Qed.

(** ** The flit under construction *)

(** Every message of a flit goes to the device under consideration, and so
    does the header whose chunks are owed. *)
Definition served (h : CXLHost) (a : Z) : Prop :=
  find_interval a (address_intervals h) = Some (device_under_consideration h).
Definition one_device (h : CXLHost) : Prop :=
  Forall (fun s => slot_ty s = empty \/ served h (address (slot_msg s))) (slots (flit_to_pack h)) /\
  (0 < packer_rollover h -> served h (address (last_rwd_hdr h))).

Record pack_inv (h : CXLHost) : Prop := {
  pi_req : vcs_ok Req ReqVC h;
  pi_rwd : vcs_ok RwD RwdVC h;
  pi_nreq : length (M2S_Req h) = NUM_VC;
  pi_nrwd : length (M2S_RWD h) = NUM_VC;
  pi_slots : length (slots (flit_to_pack h)) = 4%nat;
  pi_dev : forall a, find_interval a (address_intervals h) <> Some no_device;
  pi_cred0 : req_credit (int_cred h) = 0;
  pi_cred1 : 0 <= rsp_credit (int_cred h) <= size_ (S2M_NDR h);
  pi_cred2 : 0 <= data_credit (int_cred h) <= size_ (S2M_DRS h);
  pi_ext : forall d, 0 <= req_credit (cred_at (ext_creds h) d) /\ 0 <= data_credit (cred_at (ext_creds h) d);
  pi_cargo : cargo_ok (flit_to_pack h);
  pi_rr : pkr2_state h <> rr_W;
  pi_roll : 0 <= packer_rollover h <= 4;
  pi_one : one_device h
}.

(** The receiving side of a host, its trace and what it has sent: no part of
    the packer. *)
Definition host_rest (h : CXLHost) :=
  (rx_buffer h, (unpacker_rollover h, last_drs_hdr h, S2M_NDR h, S2M_DRS h, rcvd_rsp_state h),
   (text_to_trace_buf h, messages_sent_to_device h, reqs_in_dam h, DAM_addr h, address_intervals h),
   (cur_Req_vc h, cur_RWD_vc h)).
(** What packing does not touch. *)
Definition pack_frame (h h' : CXLHost) : Prop :=
  tx_buffer h' = tx_buffer h /\ is_packer_waiting h' = is_packer_waiting h /\
  started_packing_at h' = started_packing_at h /\ host_rest h' = host_rest h.
Lemma rest_intervals h h' : host_rest h' = host_rest h -> address_intervals h' = address_intervals h.
Proof. unfold host_rest. congruence. Qed.

(** The credits a host has left and those its flits [fs] have used, when all
    addresses belong to device [d] *)
Definition only_device (h : CXLHost) (d : Z) : Prop := forall a e, find_interval a (address_intervals h) = Some e -> e = d.
Definition accounts (d : Z) (h : CXLHost) (fs : list flit) : Z * Z * Z * Z :=
  (rsp_credit (int_cred h) + total m2s_rwd_hdr fs, data_credit (int_cred h) + total m2s_req fs,
   req_credit (cred_at (ext_creds h) d) + total m2s_req fs, data_credit (cred_at (ext_creds h) d) + total m2s_rwd_hdr fs).
Definition pays (h h' : CXLHost) : Prop := forall d, only_device h d -> accounts d h' [flit_to_pack h'] = accounts d h [flit_to_pack h].
Lemma pays_trans h1 h2 h3 : address_intervals h2 = address_intervals h1 -> pays h1 h2 -> pays h2 h3 -> pays h1 h3.
Proof. intros Ha H1 H2 d Hd. rewrite <- H1 by done. apply H2. unfold only_device in *. by rewrite Ha. Qed.

Lemma pack_frame_trans h1 h2 h3 : pack_frame h1 h2 -> pack_frame h2 h3 -> pack_frame h1 h3.
Proof. unfold pack_frame. intuition congruence. Qed.

(** The messages that wait in the channels or sit in the flit. *)
Definition waiting (h : CXLHost) : list message :=
  concat (map q_ (M2S_Req h)) ++ concat (map q_ (M2S_RWD h)).
Definition contents (h : CXLHost) : list message := waiting h ++ packed (flit_to_pack h).

(** The state of the slot-filling loop. *)
Definition abs (tick : Z) (h : CXLHost) : pst :=
  mk_pst (kinds (flit_to_pack h)) (packer_rollover h) (pkr2_state h)
    (available tick RwD RwdVC h).

Lemma pack_inv_searched h h' : searched h h' -> pack_inv h -> pack_inv h'.
Proof. intros (c & e & t & i & x & -> & He) []. constructor; try done. cbn. intros d. by rewrite He. Qed.
Lemma pays_searched h h' s : searched h h' -> pays h (set_pkr2_state s h').
Proof. intros (c & e & t & i & x & -> & He) d _. unfold accounts. cbn. by rewrite He. Qed.
Lemma pack_inv_state s h : s <> rr_W -> pack_inv h -> pack_inv (set_pkr2_state s h).
Proof. intros Hs []. by constructor. Qed.
Lemma pack_frame_searched h h' s : searched h h' -> pack_frame h (set_pkr2_state s h').
Proof. by intros (c & e & t & i & x & -> & He). Qed.
Lemma contents_searched h h' s : searched h h' -> contents (set_pkr2_state s h') = contents h.
Proof. by intros (c & e & t & i & x & -> & He). Qed.

Lemma head_eligible_inv tick oc h v : head_eligible tick oc h v = true ->
  exists m l d, q_ (vc_get h v) = m :: l /\
    find_interval (address m) (address_intervals h) = Some d /\
    (device_under_consideration h = no_device \/ device_under_consideration h = d) /\
    credit_ok oc h d = true.
Proof.
  unfold head_eligible, eligible. destruct (q_ (vc_get h v)) as [|m l]; [done|].
  destruct (find_interval _ _) as [d|] eqn:Hd; [|by rewrite andb_false_r].
  intros. bool_prop. exists m, l, d. split_and!; try done.
  apply orb_true_iff in H1 as [?|?]; bool_prop; auto.
Qed.

(** The device is settled by the first message of a flit. *)
Definition settle (d : Z) (h : CXLHost) : CXLHost := set_device_under_consideration d h.

Lemma one_device_settle d h : pack_inv h ->
  device_under_consideration h = no_device \/ device_under_consideration h = d ->
  one_device (settle d h).
Proof.
  intros [] [E|<-]; [|by destruct h]. destruct pi_one0 as [Hs Hr]. unfold served in *.
  rewrite E in *. split; simpl.
  - eapply Forall_impl; [exact Hs|]. simpl. intros s [?|Hd]; [by left|]. by apply pi_dev0 in Hd.
  - intros Hp. by apply Hr, pi_dev0 in Hp.
Qed.

Definition sub_req (c : credits) := mk_credits (req_credit c - 1) (rsp_credit c) (data_credit c).
Definition sub_rsp (c : credits) := mk_credits (req_credit c) (rsp_credit c - 1) (data_credit c).
Definition sub_data (c : credits) := mk_credits (req_credit c) (rsp_credit c) (data_credit c - 1).

Definition packed_req (i : nat) (m : message) (j : nat) (d : Z) (h : CXLHost) : CXLHost :=
  set_int_cred (sub_data (int_cred h)) (vc_set (ReqVC j) (drop_head (vc_get h (ReqVC j)))
    (set_ext_creds (<[d := sub_req (cred_at (ext_creds h) d)]> (ext_creds h))
      (set_flit_to_pack (put_msg i m2s_req m (flit_to_pack h)) (settle d h)))).

Definition packed_rwd (i : nat) (m : message) (j : nat) (d : Z) (h : CXLHost) : CXLHost :=
  vc_set (RwdVC j) (drop_head (vc_get h (RwdVC j)))
    (set_int_cred (sub_rsp (int_cred h))
      (set_ext_creds (<[d := sub_data (cred_at (ext_creds h) d)]> (ext_creds h))
        (set_packer_rollover 4
          (set_flit_to_pack (put_msg i m2s_rwd_hdr m (flit_to_pack h))
            (set_last_rwd_hdr (message_copy m) (settle d h)))))).

Lemma pack_slot_req i j m l d h :
  q_ (vc_get h (ReqVC j)) = m :: l -> opCode m = Req ->
  find_interval (address m) (address_intervals h) = Some d ->
  device_under_consideration h = no_device \/ device_under_consideration h = d ->
  pack_slot i (ReqVC j) h =
    Ok (if slot_count_in_flit (flit_to_pack h) m2s_req <=? 1
        then packed_req i m j d h else settle d h).
Proof.
  intros Hq Hop Hd Hdev. unfold pack_slot. rewrite (get_head_ok _ _ _ Hq). cbn [bind].
  assert (E : (if device_under_consideration h =? no_device
    then destination_device h (address m) else Ok (device_under_consideration h)) = Ok d).
  { unfold destination_device. rewrite Hd. destruct (Z.eqb_spec (device_under_consideration h) no_device); [done|].
    f_equal. tauto. }
  rewrite E, Hop. cbn [bind]. simpl flit_to_pack.
  destruct (slot_count_in_flit (flit_to_pack h) m2s_req <=? 1); [|done].
  unfold destination_device. simpl address_intervals. rewrite Hd. cbn [bind].
  unfold dequeue. rewrite (proj2 (is_buf_empty_false _)); [done|]. simpl. eauto.
Qed.

Lemma pack_slot_rwd i j m l d h :
  q_ (vc_get h (RwdVC j)) = m :: l -> opCode m = RwD ->
  find_interval (address m) (address_intervals h) = Some d ->
  device_under_consideration h = no_device \/ device_under_consideration h = d ->
  pack_slot i (RwdVC j) h =
    Ok (if (slot_count_in_flit (flit_to_pack h) m2s_rwd_hdr =? 0) &&
           ((i =? 0)%nat || are_all_slots_after_this_empty (flit_to_pack h) i)
        then packed_rwd i m j d h else settle d h).
Proof.
  intros Hq Hop Hd Hdev. unfold pack_slot. rewrite (get_head_ok _ _ _ Hq). cbn [bind].
  assert (E : (if device_under_consideration h =? no_device
    then destination_device h (address m) else Ok (device_under_consideration h)) = Ok d).
  { unfold destination_device. rewrite Hd. destruct (Z.eqb_spec (device_under_consideration h) no_device); [done|].
    f_equal. tauto. }
  rewrite E, Hop. cbn [bind]. simpl flit_to_pack. rewrite <- andb_orb_distrib_r.
  destruct (_ && _); [|done].
  unfold destination_device. simpl address_intervals. rewrite Hd. cbn [bind].
  unfold dequeue. rewrite (proj2 (is_buf_empty_false _)); [done|]. simpl. eauto.
Qed.

(** *** What packing a slot does to the invariant and to the messages *)

Lemma one_device_put i t m d h : one_device (settle d h) ->
  find_interval (address m) (address_intervals h) = Some d ->
  Forall (fun s => slot_ty s = empty \/ served (settle d h) (address (slot_msg s)))
    (slots (put_msg i t m (flit_to_pack h))).
Proof.
  intros [Hs _] Hd. simpl in *. apply Forall_insert; [done|]. right. simpl.
  unfold served. simpl. by rewrite ?message_copy_id.
Qed.

Lemma vcs_ok_drop oc vc h h' j :
  (forall k, (k < NUM_VC)%nat -> vc_get h' (vc k) =
     if decide (j = k) then drop_head (vc_get h (vc j)) else vc_get h (vc k)) ->
  address_intervals h' = address_intervals h -> vcs_ok oc vc h -> vcs_ok oc vc h'.
Proof.
  intros Hg Ha Hv k Hk. rewrite Hg by done. unfold msg_ok. rewrite Ha.
  case_decide; subst; [|by apply Hv]. specialize (Hv k Hk). simpl.
  destruct (q_ (vc_get h (vc k))); [done|]. simpl. by apply Forall_cons in Hv as [_ ?].
Qed.

Lemma settle_same h : settle (device_under_consideration h) h = h.
Proof. by destruct h. Qed.

Lemma settle_inv d h : pack_inv h ->
  device_under_consideration h = no_device \/ device_under_consideration h = d ->
  pack_inv (settle d h).
Proof.
  intros Hinv Hdev. pose proof (one_device_settle d h Hinv Hdev) as Ho. destruct Hinv. by constructor.
Qed.

(** A flit with a message has settled on a device. *)
Lemma settled d h : pack_inv h ->
  device_under_consideration h = no_device \/ device_under_consideration h = d ->
  Exists (fun s => slot_ty s <> empty) (slots (flit_to_pack h)) -> settle d h = h.
Proof.
  intros Hinv [E|<-] Hex; [|by apply settle_same].
  apply Exists_exists in Hex as (s & Hs & Hne). destruct (pi_one h Hinv) as [Ho _].
  rewrite Forall_forall in Ho. destruct (Ho s Hs) as [?|Hd']; [done|].
  unfold served in Hd'. rewrite E in Hd'. by apply (pi_dev h Hinv) in Hd'.
Qed.

Section Packed.
Context (tick : Z) (i j : nat) (m : message) (l : list message) (d : Z) (h : CXLHost).
Hypothesis Hinv : pack_inv h.
Hypothesis Hi : (i < 4)%nat.
Hypothesis Hj : (j < NUM_VC)%nat.
Hypothesis Hempty : slot_ty_at (flit_to_pack h) i = empty.
Hypothesis Hd : find_interval (address m) (address_intervals h) = Some d.
Hypothesis Hdev : device_under_consideration h = no_device \/ device_under_consideration h = d.

Lemma req_head : q_ (vc_get h (ReqVC j)) = m :: l -> opCode m = Req.
Proof using Hinv Hj. intros Hq. pose proof (pi_req h Hinv j Hj) as Hm. rewrite Hq in Hm. by apply Forall_cons in Hm as [[Hm _] _]. Qed.
Lemma rwd_head : q_ (vc_get h (RwdVC j)) = m :: l -> opCode m = RwD.
Proof using Hinv Hj. intros Hq. pose proof (pi_rwd h Hinv j Hj) as Hm. rewrite Hq in Hm. by apply Forall_cons in Hm as [[Hm _] _]. Qed.

Lemma packed_req_inv : q_ (vc_get h (ReqVC j)) = m :: l -> credit_ok Req h d = true ->
  pack_inv (packed_req i m j d h).
Proof.
  intros Hq Hc. unfold credit_ok in Hc. pose proof (one_device_settle d h Hinv Hdev) as Ho. pose proof (req_head Hq) as Hop.
  pose proof (one_device_put i m2s_req m d h Ho Hd) as Hp. destruct Hinv.
  constructor; simpl; try done; rewrite ?length_insert; try done.
  - eapply (vcs_ok_drop Req ReqVC h _ j); [|done..]. intros k Hk. simpl.
    rewrite nth_insert by (by rewrite pi_nreq0). by case_decide; subst.
  - bool_prop. lia.
  - intros e. unfold cred_at at 1 3. rewrite lookup_insert. case_decide as E; [subst e|apply pi_ext0].
    cbn. specialize (pi_ext0 d). bool_prop. lia.
  - apply cargo_put; [done|]. by left.
  - split; [exact Hp|]. destruct Ho as [_ Ho]. exact Ho.
Qed.

Lemma packed_rwd_inv : q_ (vc_get h (RwdVC j)) = m :: l -> credit_ok RwD h d = true ->
  pack_inv (packed_rwd i m j d h).
Proof.
  intros Hq Hc. unfold credit_ok in Hc. pose proof (one_device_settle d h Hinv Hdev) as Ho. pose proof (rwd_head Hq) as Hop.
  pose proof (one_device_put i m2s_rwd_hdr m d h Ho Hd) as Hp. destruct Hinv.
  constructor; simpl; try done; rewrite ?length_insert; try done.
  - eapply (vcs_ok_drop RwD RwdVC h _ j); [|done..]. intros k Hk. simpl.
    rewrite nth_insert by (by rewrite pi_nrwd0). by case_decide; subst.
  - bool_prop. lia.
  - intros e. unfold cred_at at 1 3. rewrite lookup_insert. case_decide as E; [subst e|apply pi_ext0].
    cbn. specialize (pi_ext0 d). bool_prop. lia.
  - apply cargo_put; [done|]. by right.
Qed.

(** A credit of each kind pays for a message. *)
Lemma packed_req_pays : pays h (packed_req i m j d h).
Proof using Hinv Hi Hj Hempty Hd.
  intros e He. rewrite <- (He _ _ Hd). unfold accounts, packed_req. rewrite !total_one.
  cbn [flit_to_pack set_int_cred vc_set set_M2S_Req set_ext_creds set_flit_to_pack int_cred ext_creds sub_data rsp_credit data_credit].
  unfold put_msg. rewrite !count_set_slot by (rewrite ?(pi_slots h Hinv); done). unfold cred_at at 1 3. rewrite lookup_insert_eq. cbn.
  rewrite slot_type_eqb_refl. change (slot_type_eqb m2s_req m2s_rwd_hdr) with false. pair_lia.
Qed.
Lemma packed_rwd_pays : pays h (packed_rwd i m j d h).
Proof using Hinv Hi Hj Hempty Hd.
  intros e He. rewrite <- (He _ _ Hd). unfold accounts, packed_rwd. rewrite !total_one.
  cbn [flit_to_pack set_int_cred vc_set set_M2S_RWD set_ext_creds set_flit_to_pack set_packer_rollover int_cred ext_creds sub_rsp rsp_credit data_credit].
  unfold put_msg. rewrite !count_set_slot by (rewrite ?(pi_slots h Hinv); done). unfold cred_at at 1 3. rewrite lookup_insert_eq. cbn.
  rewrite slot_type_eqb_refl. change (slot_type_eqb m2s_rwd_hdr m2s_req) with false. pair_lia.
Qed.

Lemma packed_req_contents : q_ (vc_get h (ReqVC j)) = m :: l ->
  contents (packed_req i m j d h) ≡ₚ contents h.
Proof.
  intros Hq. unfold contents, waiting. simpl. rewrite packed_put; [|by rewrite (pi_slots h Hinv)|done|by auto].
  rewrite (concat_take_head (M2S_Req h) j (vc_get h (ReqVC j)) m l);
    [|apply nth_some; by rewrite (pi_nreq h Hinv) | done].
  unfold drop_head. simpl in *. rewrite Hq. simpl. by rewrite <- Permutation_middle.
Qed.

Lemma packed_rwd_contents : q_ (vc_get h (RwdVC j)) = m :: l ->
  contents (packed_rwd i m j d h) ≡ₚ contents h.
Proof.
  intros Hq. unfold contents, waiting. simpl. rewrite packed_put; [|by rewrite (pi_slots h Hinv)|done|by auto].
  rewrite (concat_take_head (M2S_RWD h) j (vc_get h (RwdVC j)) m l);
    [|apply nth_some; by rewrite (pi_nrwd h Hinv) | done].
  unfold drop_head. simpl in *. rewrite Hq. simpl.
  rewrite <- !app_assoc. simpl. by rewrite <- !Permutation_middle.
Qed.

End Packed.

Lemma put_data_inv i h : pack_inv h -> 0 < packer_rollover h -> pack_inv (put_data i h).
Proof.
  intros [] Hr. constructor; simpl; try done; rewrite ?length_insert; try done.
  - apply cargo_put_other; [done|]. by left.
  - destruct pi_one0 as [Hs Ho]. split; simpl; [|done].
    apply Forall_insert; [done|]. right. unfold served. simpl. by apply Ho.
Qed.
Lemma put_data_pays i h : (i < 4)%nat -> pack_inv h -> slot_ty_at (flit_to_pack h) i = empty -> pays h (put_data i h).
Proof.
  intros Hi Hinv He d _. unfold accounts, put_data. rewrite !total_one. cbn [flit_to_pack set_flit_to_pack int_cred ext_creds].
  rewrite !count_set_slot by (rewrite ?(pi_slots h Hinv); done). cbn. by rewrite !Z.add_0_r.
Qed.

Lemma lower_roll_inv r h : pack_inv h -> 0 <= r <= packer_rollover h ->
  pack_inv (set_packer_rollover r h).
Proof.
  intros [] Hr. constructor; simpl; try done; [lia|]. destruct pi_one0 as [Hs Ho].
  split; simpl; [done|]. intros Hr0. apply Ho. lia.
Qed.

Lemma put_data_contents i h : (i < 4)%nat -> pack_inv h ->
  slot_ty_at (flit_to_pack h) i = empty -> contents (put_data i h) ≡ₚ contents h.
Proof.
  intros Hi Hinv He. unfold contents. apply Permutation_app; [done|].
  apply packed_put_data; [by rewrite (pi_slots h Hinv) | done | done].
Qed.

(** ** The slot-filling loop refines its specification *)

(** What a search leaves unchanged. *)
Lemma searched_view tick h h1 s : searched h h1 ->
  let h2 := set_pkr2_state s h1 in
  flit_to_pack h2 = flit_to_pack h /\ packer_rollover h2 = packer_rollover h /\
  available tick RwD RwdVC h2 = available tick RwD RwdVC h /\
  (forall oc v, head_eligible tick oc h2 v = head_eligible tick oc h v).
Proof.
  intros Hs h2. subst h2. split_and!; try (by destruct Hs as (? & ? & ? & ? & ? & -> & _)).
  - by rewrite <- (available_searched tick RwD RwdVC _ _ Hs).
  - intros oc w. rewrite <- (head_eligible_searched tick oc _ _ w Hs). by destruct w.
Qed.

(** One message is offered to an empty slot. *)
Lemma pack_req_step tick i j h a :
  (i < 4)%nat -> (j < NUM_VC)%nat -> pack_inv h -> slot_ty_at (flit_to_pack h) i = empty ->
  head_eligible tick Req h (ReqVC j) = true ->
  a = mk_pst (kinds (flit_to_pack h)) (packer_rollover h) (rr a) (available tick RwD RwdVC h) ->
  pkr2_state h = next_plain (rr a) -> (rr a = rr_R -> hav a = false) ->
  exists h', pack_slot i (ReqVC j) h = Ok h' /\ pack_inv h' /\ pack_frame h h' /\ pays h h' /\
    contents h' ≡ₚ contents h /\ fill_msg i a (abs tick h').
Proof.
  intros Hi Hj Hinv He Hel Ea Hrr Hh. destruct a as [ks ro st hv]; simpl in *; injection Ea as -> -> ->.
  destruct (head_eligible_inv _ _ _ _ Hel) as (m & l & d & Hq & Hd & Hdev & Hc).
  pose proof (pi_req h Hinv j Hj) as Hm. rewrite Hq in Hm. apply Forall_cons in Hm as [[Hop _] _].
  rewrite (pack_slot_req i j m l d h) by done.
  rewrite (kinds_count _ m2s_req Plain kind_req).
  destruct (count_kind Plain (kinds (flit_to_pack h)) <=? 1) eqn:Hcnt; bool_prop.
  - eexists. split; [done|]. split; [by eapply packed_req_inv|]. split; [done|].
    split; [by apply packed_req_pays|]. split; [by eapply packed_req_contents|]. unfold abs. simpl. unfold put_msg. rewrite kinds_put.
    rewrite Hrr. by apply (fm_plain i (mk_pst _ _ _ _)).
  - rewrite settled; [|done..|apply exists_kind, (count_exists Plain); [done|lia]].
    exists h. split_and!; try done. unfold abs. rewrite Hrr. by apply (fm_plain_skip i (mk_pst _ _ _ _)).
Qed.

Lemma pack_rwd_step tick i j h a :
  (i < 4)%nat -> (j < NUM_VC)%nat -> pack_inv h -> slot_ty_at (flit_to_pack h) i = empty ->
  head_eligible tick RwD h (RwdVC j) = true ->
  a = mk_pst (kinds (flit_to_pack h)) (packer_rollover h) (rr a) true ->
  pkr2_state h = rr_w ->
  exists h', pack_slot i (RwdVC j) h = Ok h' /\ pack_inv h' /\ pack_frame h h' /\ pays h h' /\
    contents h' ≡ₚ contents h /\ fill_msg i a (abs tick h').
Proof.
  intros Hi Hj Hinv He Hel Ea Hrr. destruct a as [ks ro st hv]; simpl in *; injection Ea as -> -> ->.
  destruct (head_eligible_inv _ _ _ _ Hel) as (m & l & d & Hq & Hd & Hdev & Hc).
  pose proof (pi_rwd h Hinv j Hj) as Hm. rewrite Hq in Hm. apply Forall_cons in Hm as [[Hop _] _].
  rewrite (pack_slot_rwd i j m l d h) by done.
  rewrite (kinds_count _ m2s_rwd_hdr Hdr kind_rwd), kinds_after.
  fold (after_empty (kinds (flit_to_pack h)) i).
  destruct (_ && _) eqn:Hcnt.
  - eexists. split; [done|]. split; [by eapply packed_rwd_inv|]. split; [done|].
    split; [by apply packed_rwd_pays|]. split; [by eapply packed_rwd_contents|]. unfold abs. simpl. unfold put_msg. rewrite kinds_put.
    rewrite Hrr. by apply (fm_hdr i (mk_pst _ _ _ _)).
  - exists (settle d h). split; [done|]. split; [by apply settle_inv|]. split_and!; try done.
    unfold abs. simpl. rewrite Hrr. by apply (fm_hdr_skip i (mk_pst _ _ _ _)).
Qed.

Lemma pack_loop_spec tick ixs h :
  Forall (fun i => i < 4)%nat ixs -> pack_inv h ->
  exists h', pack_loop p tick ixs h = Ok h' /\ pack_inv h' /\ pack_frame h h' /\ pays h h' /\
    contents h' ≡ₚ contents h /\ In (abs tick h') (fill_set ixs (abs tick h)).
Proof.
  intros Hixs. revert h. induction Hixs as [|i ixs Hi Hixs IH]; intros h Hinv; cbn [pack_loop].
  { exists h. split_and!; try done. by left. }
  pose proof (kinds_at (flit_to_pack h) i) as Hk.
  destruct (slot_type_eqb (slot_ty_at (flit_to_pack h) i) empty) eqn:Ee; cbn [negb].
  2:{ destruct (IH h Hinv) as (h' & ?). exists h'. cbn [fill_set]. simpl pk. by rewrite Hk. }
  apply slot_type_eqb_true in Ee.
  destruct (negb (packer_rollover h =? 0) && negb (i =? 0)%nat) eqn:Er.
  { (* an owed data chunk *)
    pose proof (pi_roll h Hinv).
    destruct (IH (set_packer_rollover (packer_rollover h - 1) (put_data i h)))
      as (h' & E' & Hinv' & Hf & Hpy & Hc & Ha); [bool_prop; apply lower_roll_inv, conj; simpl; [apply put_data_inv; [done|lia]|lia..]|].
    exists h'. split_and!; try done.
    - by eapply pays_trans; [|by apply (put_data_pays i)|].
    - rewrite Hc. by apply put_data_contents.
    - unfold abs in Ha at 2. simpl in Ha. rewrite kinds_put in Ha.
      cbn [fill_set]. simpl pk. simpl roll. rewrite Hk, Er. exact Ha. }
  (* a message *)
  destruct (get_msg_spec tick h) as (v & h1 & s & Eg & Hs & Hv); [by destruct Hinv..|].
  rewrite Eg. cbn [bind]. pose proof (searched_view tick h h1 s Hs) as (Hfl & Hro & Hav & Hhe).
  set (h2 := set_pkr2_state s h1) in *.
  assert (Hinv2 : s <> rr_W -> pack_inv h2)
    by (intros; apply pack_inv_state; [done|by apply (pack_inv_searched h)]).
  assert (Hf2 : pack_frame h h2) by (by apply pack_frame_searched).
  assert (Hc2 : contents h2 = contents h) by (by apply contents_searched).
  assert (Hy2 : pays h h2) by (by apply pays_searched). assert (Ha2 : address_intervals h2 = address_intervals h) by (by apply rest_intervals, Hf2).
  pose proof (pi_rr h Hinv) as HW.
  assert (Hgo : forall v h3, pack_slot i v h2 = Ok h3 /\ pack_inv h3 /\ pack_frame h2 h3 /\ pays h2 h3 /\
      contents h3 ≡ₚ contents h2 /\ fill_msg i (abs tick h) (abs tick h3) ->
    exists h', bind (pack_slot i v h2) (fun h => pack_loop p tick ixs h) = Ok h' /\ pack_inv h' /\
      pack_frame h h' /\ pays h h' /\ contents h' ≡ₚ contents h /\
      In (abs tick h') (fill_set (i :: ixs) (abs tick h))).
  { intros w h3 (E3 & Hi3 & Hf3 & Hy3 & Hc3 & Hst). rewrite E3. cbn [bind].
    destruct (IH h3 Hi3) as (h' & E' & Hi' & Hf' & Hy' & Hc' & Ha'). exists h'. split_and!; try done.
    - eapply pack_frame_trans; [exact Hf2|]. by eapply pack_frame_trans.
    - eapply pays_trans; [exact Ha2|exact Hy2|]. eapply pays_trans; [|exact Hy3|exact Hy']. by apply rest_intervals, Hf3.
    - by rewrite Hc', Hc3, Hc2.
    - by eapply fill_set_msg. }
  destruct v as [[j|j]|].
  - destruct Hv as (Hj & Hel & Hs' & Hh). rewrite <- Hhe in Hel. rewrite <- Hfl in Ee.
    destruct (pack_req_step tick i j h2 (abs tick h)) as (h3 & Hst); try done.
    { apply Hinv2. subst s. by destruct (pkr2_state h). }
    { unfold abs. cbn [rr]. congruence. }
    by apply Hgo in Hst.
  - destruct Hv as (Hj & Hel & Hs' & Hh). rewrite <- Hhe in Hel. rewrite <- Hfl in Ee.
    destruct (pack_rwd_step tick i j h2 (abs tick h)) as (h3 & Hst); try done.
    { apply Hinv2. by subst s. }
    { unfold abs. cbn [rr]. congruence. }
    by apply Hgo in Hst.
  - exists h2. rewrite Hc2. split_and!; try done; [apply Hinv2; by subst s|].
    replace (abs tick h2) with (abs tick h) by (unfold abs; rewrite Hfl, Hro, Hav; simpl; by rewrite Hv).
    by apply fill_set_stop.
Qed.

(** ** Handing a flit to the transmit buffer *)

(** The flit [add_flit_to_buf] appends. *)
Definition sent (g : globals) (h : CXLHost) : flit :=
  let f := flit_to_pack h in
  let f := set_flit_time (set_time_of_creation (curr_tick g) (flit_time f)) f in
  let f := set_header (set_credit
             (mk_credits 0 (slot_count_in_flit f m2s_rwd_hdr) (slot_count_in_flit f m2s_req))
             (header f)) f in
  set_flit_id (flit_counter g) (set_time set_tick_packed (curr_tick g) f).

Definition handed (g : globals) (h : CXLHost) : globals * CXLHost :=
  (set_flit_counter (u64 (flit_counter g + 1)) g,
   set_tx_buffer (mk_CXLBuf (size_ (tx_buffer h)) (q_ (tx_buffer h) ++ [sent g h]))
     (set_flit_to_pack (sent g h) h)).

Lemma add_flit_to_buf_ok g h : pack_inv h -> is_buf_full (tx_buffer h) = false ->
  add_flit_to_buf g h = Ok (handed g h).
Proof.
  intros [] Hfull. unfold add_flit_to_buf, get_Host_credits, credit_sanity_check. simpl.
  rewrite pi_cred3, (proj2 (Z.leb_le _ _) (proj1 pi_cred4)), (proj2 (Z.leb_le _ _) (proj2 pi_cred4)),
    (proj2 (Z.leb_le _ _) (proj1 pi_cred5)), (proj2 (Z.leb_le _ _) (proj2 pi_cred5)).
  simpl. unfold enqueue. simpl. by rewrite Hfull.
Qed.

Lemma kinds_sent g h : kinds (sent g h) = kinds (flit_to_pack h).
Proof. unfold kinds. f_equal. exact (types_set_time set_tick_packed (curr_tick g) (flit_to_pack h)). Qed.

Lemma ids_sent g h : ids (packed (sent g h)) = ids (packed (flit_to_pack h)).
Proof.
  unfold packed, ids, sent. rewrite !map_app. simpl.
  by rewrite !(msgs_of_set_time _ _ _ _ (fun _ _ => eq_refl)).
Qed.

Lemma cargo_sent g h : cargo_ok (flit_to_pack h) -> cargo_ok (sent g h).
Proof. intros Hc. exact (cargo_set_time set_tick_packed (curr_tick g) (flit_to_pack h) (fun _ _ => eq_refl) Hc). Qed.
Lemma total_sent t g h : total t [sent g h] = total t [flit_to_pack h].
Proof. rewrite !total_one. apply count_types. exact (types_set_time set_tick_packed (curr_tick g) (flit_to_pack h)). Qed.

(** A flit with messages, which all go to one device. *)
Definition single_dest (h : CXLHost) (f : flit) : Prop :=
  is_flit_empty f = false /\ exists d, Forall (fun s => slot_ty s = empty \/
    find_interval (address (slot_msg s)) (address_intervals h) = Some d) (slots f).

Lemma sent_one g h (P : Z -> Prop) :
  Forall (fun s => slot_ty s = empty \/ P (address (slot_msg s))) (slots (flit_to_pack h)) ->
  Forall (fun s => slot_ty s = empty \/ P (address (slot_msg s))) (slots (sent g h)).
Proof.
  simpl. intros Hs. apply Forall_fmap. eapply Forall_impl; [exact Hs|]. simpl. intros s [He|Ha];
    unfold set_slot_time; [rewrite He; by left|]. destruct (slot_type_eqb _ _); simpl; by right.
Qed.

Lemma handed_inv g h : pack_inv h -> pack_inv (snd (handed g h)).
Proof.
  intros []. constructor; simpl; try done.
  - by rewrite length_map.
  - by apply cargo_sent.
  - destruct pi_one0 as [Hs Ho]. split; [|done]. by apply sent_one.
Qed.

(** ** [FLIT_packer] *)

(** [r0] data chunks are owed when the flit under construction begins. *)
Definition building (r0 : Z) (h : CXLHost) : Prop :=
  if is_packer_waiting h
  then exists n, r0 = Z.of_nat n /\
         flit_inv n (kinds (flit_to_pack h)) (packer_rollover h) (pkr2_state h) = true
  else r0 = packer_rollover h.

(** The invariant of the packer: [R] chunks are owed to the receiver of the
    flits of the transmit buffer, which form a legal stream that the flit
    under construction continues. *)
Record packer_inv (R : Z) (h : CXLHost) : Prop := {
  pk_pack : pack_inv h;
  pk_tx : buf_ok (tx_buffer h);
  pk_stream : exists r0, wf_stream R (map kinds (q_ (tx_buffer h))) r0 /\ building r0 h;
  pk_dest : Forall (single_dest h) (q_ (tx_buffer h));
  pk_cargo : Forall cargo_ok (q_ (tx_buffer h))
}.
(** The flits of the packer *)
Definition outflits (h : CXLHost) : list flit :=
  q_ (tx_buffer h) ++ (if is_packer_waiting h then [flit_to_pack h] else []).

(** Every message id the packer holds. *)
Definition held_ids (h : CXLHost) : list Z :=
  ids (waiting h) ++ (if is_packer_waiting h then ids (packed (flit_to_pack h)) else []) ++
  ids (concat (map packed (q_ (tx_buffer h)))).

(** A result that keeps the invariant and the messages of [h]. *)
Definition packs (R : Z) (h : CXLHost) (r : res (bool * (globals * CXLHost))) : Prop :=
  exists b g' h', r = Ok (b, (g', h')) /\ packer_inv R h' /\ held_ids h' ≡ₚ held_ids h /\
    host_rest h' = host_rest h /\ (forall d, only_device h d -> accounts d h' (outflits h') = accounts d h (outflits h)).
Lemma accounts_app d h f1 f2 : accounts d h (f1 ++ f2) =
  let '(a, b, c, e) := accounts d h f2 in (a + total m2s_rwd_hdr f1, b + total m2s_req f1, c + total m2s_req f1, e + total m2s_rwd_hdr f1).
Proof. unfold accounts. rewrite !total_app. pair_lia. Qed.

Lemma handed_packs R r0 n g h :
  pack_inv h -> buf_ok (tx_buffer h) -> is_buf_full (tx_buffer h) = false ->
  wf_stream R (map kinds (q_ (tx_buffer h))) r0 -> Forall (single_dest h) (q_ (tx_buffer h)) ->
  Forall cargo_ok (q_ (tx_buffer h)) -> r0 = Z.of_nat n -> is_flit_empty (flit_to_pack h) = false ->
  flit_inv n (kinds (flit_to_pack h)) (packer_rollover h) (pkr2_state h) = true ->
  packs R (set_is_packer_waiting true h)
    (let! (g, h) := add_flit_to_buf g h in Ok (true, (g, set_is_packer_waiting false h))).
Proof.
  intros Hp Hb Hf Hs Hd Hcg -> Hne Hi. rewrite add_flit_to_buf_ok by done. cbn [bind]. unfold packs.
  simpl. do 3 eexists. split; [done|]. split; [|split; [|split; [done|]]].
  - pose proof (handed_inv g h Hp) as Hp'. constructor; simpl.
    + by destruct Hp'; constructor.
    + destruct (enqueue_ok (sent g h) (tx_buffer h) Hb Hf) as (b & E & _ & _ & Hb').
      unfold enqueue in E. rewrite Hf in E. by injection E as <-.
    + eexists. split; [|done]. rewrite map_app. simpl. rewrite kinds_sent.
      eapply wf_stream_snoc; [done|]. by eapply flit_inv_wf.
    + apply Forall_app. split; [done|]. apply Forall_singleton.
      destruct (pi_one h Hp) as [Ho _]. split; [by rewrite is_flit_empty_kinds, kinds_sent, <- is_flit_empty_kinds|]. exists (device_under_consideration h).
      by apply (sent_one g h (fun a => find_interval a _ = _)).
    + apply Forall_app. split; [done|]. apply Forall_singleton, cargo_sent, Hp.
  - unfold held_ids. simpl. rewrite map_app, concat_app. simpl. rewrite app_nil_r.
    unfold ids at 2. rewrite map_app. fold (ids (packed (sent g h))).
    rewrite ids_sent. unfold waiting. simpl. apply Permutation_app_head.
    by rewrite Permutation_app_comm.
  - intros d _. unfold outflits. cbn [is_packer_waiting set_is_packer_waiting tx_buffer set_tx_buffer q_ snd handed]. rewrite app_nil_r, !accounts_app.
    unfold accounts. cbn [int_cred ext_creds flit_to_pack]. by rewrite !total_sent.
Qed.

Lemma send_packed_packs R g h :
  packer_inv R h -> is_packer_waiting h = true -> is_flit_empty (flit_to_pack h) = false -> packs R h (send_packed g h).
Proof.
  intros Hinv Hw Hne. unfold send_packed. destruct (is_buf_full (tx_buffer h)) eqn:Hf.
  { by exists true, g, h. }
  destruct Hinv as [Hp Hb (r0 & Hs & Hbd) Hd Hcg]. unfold building in Hbd. rewrite Hw in Hbd.
  destruct Hbd as (n & En & Hi).
  replace h with (set_is_packer_waiting true h) at 1 by (rewrite <- Hw; by destruct h).
  by eapply handed_packs.
Qed.

(** A new flit starts empty. *)
Lemma start_flit_new g h : pack_inv h -> is_packer_waiting h = false ->
  let h1 := start_flit g h in
  pack_inv h1 /\ pack_frame h (set_started_packing_at (started_packing_at h) h1) /\
  flit_to_pack h1 = flit_new /\ packer_rollover h1 = packer_rollover h /\
  pkr2_state h1 = pkr2_state h /\ waiting h1 = waiting h.
Proof.
  intros [] Hw. unfold start_flit. rewrite Hw. simpl. split_and!; try done.
  constructor; simpl; try done; [exact cargo_new|]. destruct pi_one0 as [_ Ho]. split; simpl.
  - repeat constructor.
  - intros Hr. unfold served in *. simpl. rewrite (proj2 (Z.ltb_lt _ _)) by lia. by apply Ho.
Qed.

Lemma put_rollover_ok h : pack_inv h -> flit_to_pack h = flit_new -> 1 <= packer_rollover h ->
  exists h', put_rollover h = Ok h' /\ pack_inv h' /\ pack_frame h h' /\ pays h h' /\
    contents h' = contents h /\ packer_rollover h' = 0 /\ pkr2_state h' = pkr2_state h /\
    kinds (flit_to_pack h') = (if packer_rollover h =? 4 then repeat Dat 4
                               else layout (Z.to_nat (packer_rollover h)) 0).
Proof.
  intros Hp Hf Hr. pose proof (pi_roll h Hp). unfold put_rollover.
  assert (Hput : forall i k, pack_inv k -> packer_rollover k = packer_rollover h ->
    pack_inv (put_data i k) /\ packer_rollover (put_data i k) = packer_rollover h).
  { intros i k Hk Ek. split; [apply put_data_inv; [done|lia] | done]. }
  assert (Hfin : forall k n, pack_inv k -> packer_rollover k = packer_rollover h ->
    packer_rollover h = n -> pack_inv (set_packer_rollover (packer_rollover h - n) k)).
  { intros k n Hk Ek <-. apply lower_roll_inv; [done|lia]. }
  destruct (Z.eqb_spec (packer_rollover h) 1) as [E|];
  [|destruct (Z.eqb_spec (packer_rollover h) 2) as [E|];
  [|destruct (Z.eqb_spec (packer_rollover h) 3) as [E|];
  [|destruct (Z.eqb_spec (packer_rollover h) 4) as [E|]; [|lia]]]].
  all: eexists; split; [reflexivity|]; split_and!;
    [apply Hfin; try done; repeat (apply Hput; try done)|done..| | | |done|].
  all: try (intros d _; unfold accounts; cbn [int_cred ext_creds set_packer_rollover put_data set_flit_to_pack flit_to_pack]; rewrite Hf; reflexivity).
  all: try (unfold contents, waiting, packed; simpl; rewrite Hf; reflexivity).
  all: try (simpl; lia).
  all: simpl; rewrite Hf, E; reflexivity.
Qed.

(** The packing rules asserted at the end of the packer hold. *)
Lemma finish_packing_ok n g h : length (slots (flit_to_pack h)) = 4%nat ->
  flit_inv n (kinds (flit_to_pack h)) (packer_rollover h) (pkr2_state h) = true ->
  finish_packing g h = Ok (negb (is_flit_empty (flit_to_pack h)),
    (g, if is_flit_empty (flit_to_pack h) then h else set_is_packer_waiting true h)).
Proof.
  intros Hlen Hi. apply flit_inv_wf in Hi. unfold finish_packing.
  pose proof (no_packing_violation _ _ _ Hi) as Hv. simpl plain_ty in Hv. simpl hdr_ty in Hv.
  destruct (is_flit_empty (flit_to_pack h)) eqn:He; cbn [negb]; simpl flit_to_pack; by rewrite Hv.
Qed.

Lemma held_ids_waiting h : held_ids (set_is_packer_waiting true h) =
  ids (contents h) ++ ids (concat (map packed (q_ (tx_buffer h)))).
Proof. unfold held_ids, contents, ids. by rewrite map_app, <- app_assoc. Qed.

(** Filling the slots of an open flit. *)
Lemma loop_packs R n g h :
  pack_inv h -> buf_ok (tx_buffer h) ->
  wf_stream R (map kinds (q_ (tx_buffer h))) (Z.of_nat n) ->
  Forall (single_dest h) (q_ (tx_buffer h)) -> Forall cargo_ok (q_ (tx_buffer h)) ->
  open_flit n (kinds (flit_to_pack h)) (packer_rollover h) (pkr2_state h) = true ->
  packs R (set_is_packer_waiting true h)
    (let! h := pack_loop p (curr_tick g) (seq 0 4) h in finish_packing g h).
Proof.
  intros Hp Hb Hs Hd Hcg Ho.
  destruct (pack_loop_spec (curr_tick g) (seq 0 4) h) as (h1 & -> & Hp1 & (Etx & Ew & _ & Ea) & Hy & Hc & Hin);
    [repeat constructor; lia|done|]. cbn [bind].
  assert (Hi : flit_inv n (kinds (flit_to_pack h1)) (packer_rollover h1) (pkr2_state h1) = true).
  { exact (fill_set_inv n (abs (curr_tick g) h) (abs (curr_tick g) h1) Ho Hin). }
  rewrite (finish_packing_ok n) by (done || by apply pi_slots).
  set (h2 := if is_flit_empty _ then _ else _). do 3 eexists. split; [done|].
  assert (E2 : h2 = set_is_packer_waiting (is_packer_waiting h2) h1) by
    (subst h2; destruct (is_flit_empty _); by destruct h1).
  split; [|split].
  - rewrite E2. constructor; simpl; rewrite ?Etx; try done.
    + by destruct Hp1; constructor.
    + exists (Z.of_nat n). split; [done|]. unfold building. simpl. subst h2.
      destruct (is_flit_empty (flit_to_pack h1)) eqn:He; [|simpl; by exists n].
      rewrite is_flit_empty_kinds in He.
      destruct (flit_inv_empty _ _ _ _ Hi He) as [-> Er]. rewrite Er.
      destruct (is_packer_waiting h1); [|done]. exists 0%nat. by rewrite <- Er.
    + unfold single_dest. simpl. by rewrite (rest_intervals _ _ Ea).
  - assert (Hh : held_ids h2 = ids (contents h1) ++ ids (concat (map packed (q_ (tx_buffer h1))))).
    { unfold held_ids, contents, ids. rewrite map_app, <- app_assoc. subst h2.
      destruct (is_flit_empty (flit_to_pack h1)) eqn:He; [|done].
      rewrite (packed_empty _ He). by destruct (is_packer_waiting h1). }
    rewrite Hh, held_ids_waiting, Etx. by apply Permutation_app_tail, Permutation_map.
  - split; [rewrite E2; exact Ea|]. intros d Hod. specialize (Hy d Hod).
    transitivity (accounts d h1 (q_ (tx_buffer h1) ++ [flit_to_pack h1])).
    + subst h2. unfold outflits. destruct (is_flit_empty (flit_to_pack h1)) eqn:He; [|done].
      destruct (is_packer_waiting h1); [done|]. rewrite app_nil_r. unfold accounts. rewrite !total_app, !total_one.
      rewrite !(count_empty _ _ He), !Z.add_0_r by done. done.
    + unfold outflits. cbn [is_packer_waiting set_is_packer_waiting tx_buffer set_tx_buffer flit_to_pack]. rewrite !accounts_app, Etx.
      change (accounts d (set_is_packer_waiting true h)) with (accounts d h). by rewrite Hy.
Qed.

Lemma outflits_new d h h1 : is_packer_waiting h = false -> tx_buffer h1 = tx_buffer h -> int_cred h1 = int_cred h -> ext_creds h1 = ext_creds h ->
  flit_to_pack h1 = flit_new -> accounts d (set_is_packer_waiting true h1) (outflits (set_is_packer_waiting true h1)) = accounts d h (outflits h).
Proof.
  intros Hw Et Ei Ee Ef. unfold outflits. rewrite Hw. cbn [is_packer_waiting set_is_packer_waiting tx_buffer flit_to_pack]. rewrite Et, Ef, app_nil_r.
  unfold accounts. cbn [int_cred ext_creds set_is_packer_waiting]. rewrite Ei, Ee, !total_app, !total_one, !Z.add_0_r. done.
Qed.

Lemma new_flit_packs R g h : packer_inv R h -> is_packer_waiting h = false ->
  packs R h (FLIT_packer p g h).
Proof.
  intros [Hp Hb (r0 & Hs & Hbd) Hd Hcg] Hw. unfold building in Hbd. rewrite Hw in Hbd. subst r0.
  pose proof (start_flit_new g h Hp Hw) as (Hp1 & (Etx & Ew1 & _ & Ea) & Ef & Er & Est & Ewt).
  unfold FLIT_packer. set (h1 := start_flit g h) in *. simpl in Etx, Ew1. change (host_rest h1 = host_rest h) in Ea. rewrite Ew1, Hw. cbn [andb].
  pose proof (pi_roll h1 Hp1). rewrite (proj2 (Z.leb_le _ _)), (proj2 (Z.leb_le _ _)) by lia. cbn [andb].
  rewrite andb_true_r.
  (* the messages of [h] are those of the new flit and of its channels *)
  assert (Hids : forall k, contents k = contents h1 -> tx_buffer k = tx_buffer h1 ->
    held_ids (set_is_packer_waiting true k) = held_ids h).
  { intros k Ek Et. rewrite held_ids_waiting, Ek, Et, Etx. unfold held_ids, contents.
    rewrite Hw, Ef, Ewt. change (packed flit_new) with (@nil message). by rewrite app_nil_r. }
  assert (Eac : forall d, accounts d (set_is_packer_waiting true h1) (outflits (set_is_packer_waiting true h1)) = accounts d h (outflits h)).
  { intros d. apply outflits_new; try done; unfold h1, start_flit; by rewrite Hw. }
  assert (Hpk : forall k r, contents k = contents h1 -> tx_buffer k = tx_buffer h1 ->
    host_rest k = host_rest h1 -> pays h1 k ->
    packs R (set_is_packer_waiting true k) r -> packs R h r).
  { intros k r Ek Et Eak Hy (b & g' & h' & -> & Hi' & Hh' & Ea' & Hac). exists b, g', h'.
    split_and!; try done; [by rewrite Hh', Hids | rewrite Ea', <- Ea; exact Eak|]. intros d Hd1.
    assert (Hd2 : only_device h1 d) by (unfold only_device; by rewrite (rest_intervals _ _ Ea)).
    rewrite Hac, <- Eac; [|unfold only_device; cbn [address_intervals set_is_packer_waiting]; by rewrite (rest_intervals _ _ Eak)].
    unfold outflits. cbn [is_packer_waiting set_is_packer_waiting tx_buffer flit_to_pack]. rewrite Et, !accounts_app.
    specialize (Hy d Hd2). change (accounts d (set_is_packer_waiting true ?x)) with (accounts d x). by rewrite Hy. }
  assert (Hd' : forall k, address_intervals k = address_intervals h ->
    Forall (single_dest k) (q_ (tx_buffer h))) by (intros k Ek; unfold single_dest; by rewrite Ek).
  destruct (Z.eqb_spec (packer_rollover h1) 0) as [E0|E0]; cbn [negb].
  - apply (Hpk h1); [done..|]. apply (loop_packs R 0); rewrite ?Etx; auto using rest_intervals.
    + rewrite Er in E0. by rewrite E0 in Hs.
    + rewrite Ef, E0. pose proof (pi_rr h1 Hp1). by destruct (pkr2_state h1).
  - destruct (put_rollover_ok h1) as (h2 & -> & Hp2 & (Etx2 & Ew2 & _ & Ea2) & Hy2 & Ec & Er2 & Est2 & Ek2);
      [done..|lia|]. cbn [bind]. pose proof Ea2 as Ea2'. rewrite Ea in Ea2'. apply rest_intervals in Ea2'. rewrite Etx in Etx2.
    destruct (Z.eqb_spec (packer_rollover h1) 4) as [E4|E4].
    + destruct (is_buf_full (tx_buffer h2)) eqn:Hf.
      * apply (Hpk h2); [congruence..|done|]. do 3 eexists. split; [done|]. split; [|done].
        constructor; simpl; rewrite ?Etx2; auto.
        -- by destruct Hp2; constructor.
        -- eexists; split; [done|]. exists 4%nat. simpl. rewrite <- Er, E4, Ek2, Er2.
           split; [done|]. pose proof (pi_rr h2 Hp2). by destruct (pkr2_state h2).
      * apply (Hpk h2); [congruence..|done|].
        apply (handed_packs R (packer_rollover h) 4); rewrite ?Etx2; auto; [congruence|lia|by rewrite is_flit_empty_kinds, Ek2|].
        rewrite Ek2, Er2. pose proof (pi_rr h2 Hp2). by destruct (pkr2_state h2).
    + apply (Hpk h2); [congruence..|done|].
      apply (loop_packs R (Z.to_nat (packer_rollover h))); rewrite ?Etx2; auto.
      * by rewrite Z2Nat.id by lia.
      * rewrite Ek2, Er2, Er. pose proof (pi_rr h2 Hp2).
        assert (Hn : (Z.to_nat (packer_rollover h) = 1 \/ Z.to_nat (packer_rollover h) = 2 \/
          Z.to_nat (packer_rollover h) = 3)%nat) by lia.
        destruct Hn as [-> | [-> | ->]]; by destruct (pkr2_state h2).
Qed.

(** The members the invariant is about *)
Definition packer_view (h : CXLHost) :=
  ((M2S_Req h, M2S_RWD h, address_intervals h, ext_creds h), (int_cred h, size_ (S2M_NDR h), size_ (S2M_DRS h)),
   (flit_to_pack h, packer_rollover h, pkr2_state h, device_under_consideration h, last_rwd_hdr h), (tx_buffer h, is_packer_waiting h)).
Lemma packer_inv_view R h h' : packer_view h' = packer_view h -> packer_inv R h -> packer_inv R h'.
Proof.
  intros E. assert (E1 : size_ (S2M_NDR h') = size_ (S2M_NDR h)) by (unfold packer_view in E; congruence).
  assert (E2 : size_ (S2M_DRS h') = size_ (S2M_DRS h)) by (unfold packer_view in E; congruence).
  intros [[] ? ? ? ?]. destruct h, h'. unfold packer_view in E. cbn in *. injection E. intros. subst.
  split; [split; cbn; rewrite ?E1, ?E2|..]; assumption.
Qed.
Lemma held_ids_view h h' : packer_view h' = packer_view h -> held_ids h' = held_ids h /\ outflits h' = outflits h.
Proof. unfold packer_view, held_ids, outflits, waiting. intros E. injection E. by intros -> -> _ _ _ _ -> _ _ _ _ _ -> ->. Qed.

(** The packer never violates an assertion and keeps its invariant and its
    messages. *)
Lemma FLIT_packer_packs R g h : packer_inv R h -> packs R h (FLIT_packer p g h).
Proof.
  intros Hinv. destruct (is_packer_waiting h) eqn:Hw; [|by apply new_flit_packs].
  unfold FLIT_packer.
  assert (start_flit g h = h) as -> by (unfold start_flit; by rewrite Hw).
  destruct (is_packer_waiting h && is_flit_full (flit_to_pack h)) eqn:E1.
  { apply send_packed_packs; [done..|]. apply andb_true_iff in E1 as [_ E1]. pose proof (pi_slots h (pk_pack R h Hinv)) as Hl.
    unfold is_flit_full, is_flit_empty in *. destruct (slots (flit_to_pack h)) as [|s l]; [done|]. cbn in *. by destruct (slot_type_eqb _ _). }
  destruct (is_packer_waiting h && _ && _) eqn:E2.
  { apply andb_true_iff in E2 as [_ E2%negb_true_iff]. by apply send_packed_packs. }
  rewrite Hw in *. rewrite andb_false_r. simpl in E1.
  destruct Hinv as [Hp Hb (r0 & Hs & Hbd) Hd Hcg]. unfold building in Hbd. rewrite Hw in Hbd.
  destruct Hbd as (n & -> & Hi). pose proof (pi_roll h Hp).
  rewrite (proj2 (Z.leb_le _ _)), (proj2 (Z.leb_le _ _)) by lia. cbn [andb].
  replace h with (set_is_packer_waiting true h) at 1 by (rewrite <- Hw; by destruct h).
  apply (loop_packs R n); try done.
  unfold flit_inv in Hi. apply orb_true_iff in Hi as [Ho|Hcl]; [done|].
  exfalso. unfold closed_flit in Hcl. bool_prop. rewrite is_flit_full_kinds in E1. congruence.
Qed.

(** C7: [CXLHost::FLIT_packer] never violates one of its assertions, and
    whatever the channels hold, the flits it hands to the transmit buffer
    form a legal stream ([wf_stream]): at most two requests and one write
    header per flit, every header followed by its four data chunks in the
    slots the receiver expects them, and all the messages of a flit going to
    one device. *)
Theorem host_packer_safe R g h : packer_inv R h ->
  exists b g' h', FLIT_packer p g h = Ok (b, (g', h')) /\ packer_inv R h'.
Proof. intros Hinv. destruct (FLIT_packer_packs R g h Hinv) as (b & g' & h' & ? & ? & _). eauto. Qed.

(** The packer neither loses nor duplicates a message: the ids in the
    virtual channels, the flit under construction and the transmit buffer
    are the same before and after, up to order. *)
Theorem host_packer_conserves R g h b g' h' : packer_inv R h ->
  FLIT_packer p g h = Ok (b, (g', h')) -> held_ids h' ≡ₚ held_ids h.
Proof.
  intros Hinv E. destruct (FLIT_packer_packs R g h Hinv) as (b1 & g1 & h1 & E1 & _ & Hh & _).
  rewrite E in E1. by injection E1 as <- <- <-.
Qed.

(** ** Deciding the invariant of an idle packer *)
Definition msg_ok_b (oc : opcode) (h : CXLHost) (m : message) : bool :=
  bool_decide (opCode m = oc) &&
  match find_interval (address m) (address_intervals h) with Some _ => true | None => false end.
Definition idle_b (h : CXLHost) : bool :=
  forallb (fun j => forallb (msg_ok_b Req h) (q_ (vc_get h (ReqVC j))) &&
                    forallb (msg_ok_b RwD h) (q_ (vc_get h (RwdVC j)))) (seq 0 NUM_VC) &&
  ((length (M2S_Req h) =? NUM_VC)%nat && (length (M2S_RWD h) =? NUM_VC)%nat) &&
  forallb (fun e => negb (fst e =? no_device)) (address_intervals h) &&
  ((req_credit (int_cred h) =? 0) &&
   (0 <=? rsp_credit (int_cred h)) && (rsp_credit (int_cred h) <=? size_ (S2M_NDR h)) &&
   (0 <=? data_credit (int_cred h)) && (data_credit (int_cred h) <=? size_ (S2M_DRS h))) &&
  (negb (bool_decide (pkr2_state h = rr_W)) && (packer_rollover h =? 0) &&
   negb (is_packer_waiting h) && is_flit_empty (flit_to_pack h) &&
   (length (slots (flit_to_pack h)) =? 4)%nat) &&
  (is_buf_empty (tx_buffer h) && (0 <=? size_ (tx_buffer h)) && (size_ (tx_buffer h) <? 2 ^ 31)) &&
  forallb (fun e => (0 <=? req_credit (snd e)) && (0 <=? data_credit (snd e))) (map_to_list (ext_creds h)).
Lemma creds_nonneg (m : gmap Z credits) d :
  forallb (fun e => (0 <=? req_credit (snd e)) && (0 <=? data_credit (snd e))) (map_to_list m) = true ->
  0 <= req_credit (cred_at m d) /\ 0 <= data_credit (cred_at m d).
Proof.
  intros Hm. unfold cred_at. destruct (m !! d) as [c|] eqn:E; cbn; [|lia]. rewrite forallb_forall in Hm.
  apply elem_of_map_to_list, list_elem_of_In, Hm in E. cbn in E. bool_prop. lia.
Qed.

Lemma find_interval_dev a l :
  forallb (fun e : Z * (Z * Z) => negb (fst e =? no_device)) l = true ->
  find_interval a l <> Some no_device.
Proof.
  induction l as [|[d [lo hi]] l IH]; simpl; [done|]. intros. bool_prop.
  destruct (_ && _); [|by apply IH]. congruence.
Qed.

Lemma idle_packer_inv h : idle_b h = true -> packer_inv 0 h.
Proof.
  unfold idle_b. rewrite !andb_true_iff.
  intros [[[[[[Hv [Hn1 Hn2]] Hd] [[[[Hc0 Hc1] Hc2] Hc3] Hc4]] [[[[Hr Hr0] Hw] Hf] Hs]] [[Ht Ht1] Ht2]] Hx].
  rewrite forallb_forall in Hv. bool_prop.
  assert (Hvc : forall oc vc, (forall j, (j < NUM_VC)%nat ->
    forallb (msg_ok_b oc h) (q_ (vc_get h (vc j))) = true) -> vcs_ok oc vc h).
  { intros oc vc Hb j Hj. specialize (Hb j Hj). apply Forall_forall. intros m Hm.
    rewrite forallb_forall in Hb. apply list_elem_of_In in Hm. specialize (Hb m Hm).
    apply andb_true_iff in Hb as [Hoc Hi]. apply bool_decide_eq_true in Hoc. split; [done|].
    destruct (find_interval _ _); [eauto | done]. }
  apply is_buf_empty_true in Ht. apply Nat.eqb_eq in Hn1, Hn2, Hs. apply bool_decide_eq_false in Hr.
  constructor.
  - constructor; try done; try lia.
    + apply Hvc. intros j Hj. specialize (Hv j ltac:(apply in_seq; lia)). by bool_prop.
    + apply Hvc. intros j Hj. specialize (Hv j ltac:(apply in_seq; lia)). by bool_prop.
    + intros a. by apply find_interval_dev.
    + intros d. by apply creds_nonneg.
    + apply Forall_forall. intros s Hin. apply op_fits_other. right.
      unfold is_flit_empty in Hf. rewrite forallb_forall in Hf. by apply slot_type_eqb_true, Hf, list_elem_of_In.
    + split; [|lia]. apply Forall_forall. intros s Hin. left.
      unfold is_flit_empty in Hf. rewrite forallb_forall in Hf.
      by apply slot_type_eqb_true, Hf, list_elem_of_In.
  - unfold buf_ok, buf_occupancy. rewrite Ht. simpl. lia.
  - exists 0. rewrite Ht. split; [constructor|]. unfold building. by rewrite Hw, Hr0.
  - by rewrite Ht.
  - by rewrite Ht.
Qed.

End HostPack.

Module HostWitness.
(** A host with one device, a read and a write waiting in its channels. *)
Definition host0 : CXLHost :=
  let h := CXLHost_new 16 8 1 in
  let h := match register_device 3 (0, 4096) h with Ok h => h | Abort _ => h end in
  set_M2S_Req [mk_CXLBuf 4 [sample_msg Req 1 64; sample_msg Req 2 128]; CXLBuf_new 4;
               CXLBuf_new 4; CXLBuf_new 4]
    (set_M2S_RWD [CXLBuf_new 4; mk_CXLBuf 4 [sample_msg RwD 3 192]; CXLBuf_new 4;
                  CXLBuf_new 4] h).
Lemma host0_inv : packer_inv 0 host0.
Proof. apply idle_packer_inv. vm_compute. reflexivity. Defined.
Definition host1 : globals * CXLHost :=
  match FLIT_packer main_params (sample_globals 100) host0 with
  | Ok (_, r) => r
  | Abort _ => (sample_globals 100, host0)
  end.
(** The write takes the whole first flit, and its last chunk rolls
    over. *)
Example host1_flit : kinds (H := m2s_dialect) (flit_to_pack (snd host1)) = [Hdr; Dat; Dat; Dat] /\
  packer_rollover (snd host1) = 1.
Proof. vm_compute. done. Qed.

Lemma host_packer_safe_witness : exists b g' h',
  FLIT_packer main_params (sample_globals 100) host0 = Ok (b, (g', h')) /\ packer_inv 0 h'.
Proof. apply host_packer_safe. exact host0_inv. Defined.

Lemma host_packer_conserves_witness : held_ids (snd host1) ≡ₚ [1; 2; 3].
Proof.
  apply (host_packer_conserves main_params 0 (sample_globals 100) host0 true (fst host1) (snd host1)).
  - exact host0_inv.
  - vm_compute. reflexivity.
Defined.
End HostWitness.
