(* ===== verification/HostRun.v ===== *)
(** * The host's receiver and the cycles it skips

    [CXLHost::FLIT_unpacker] on legal flits, and the soundness of the
    predicates that tell when a cycle of a part of the host may be skipped:
    running the part in such a cycle changes nothing that matters. *)
From Stdlib Require Import ZArith Lia Bool String.
From stdpp Require Import base list gmap.
From S2P Require Import Prelude Flit CxlBuf Samples CxlBus Packing Link CxlNode CxlHost.

#[local] Existing Instance s2m_dialect.

Section HostRun.
Context `{Indet} (p : CXLParams).
Implicit Types h : CXLHost.

(** ** Unpacking *)

(** Every message of the flit comes from device [d]. *)
Definition from_device h (d : Z) (f : flit) : Prop :=
  Forall (fun s => slot_ty s = empty \/
    find_interval (address (slot_msg s)) (address_intervals h) = Some d) (slots f).

Lemma scan_device_ok h d l cur :
  Forall (fun s => slot_ty s = empty \/
    find_interval (address (slot_msg s)) (address_intervals h) = Some d) l ->
  cur = no_device \/ cur = d ->
  scan_device h cur l =
    Ok (if forallb (fun s => slot_type_eqb (slot_ty s) empty) l then cur else d).
Proof.
  intros Hl. revert cur. induction Hl as [|s l Hs Hl IH]; intros cur Hc; [done|].
  cbn [scan_device forallb]. destruct (slot_type_eqb (slot_ty s) empty) eqn:E; [by apply IH|].
  destruct Hs as [Hs|Hs]; [by rewrite Hs in E|]. unfold destination_device. rewrite Hs. cbn [bind andb].
  assert (Hnext : scan_device h d l = Ok d) by (rewrite IH by auto; by destruct (forallb _ l)).
  destruct (Z.eqb_spec cur no_device); [done|]. destruct Hc as [| ->]; [done|].
  by rewrite Z.eqb_refl.
Qed.

(** The state after a flit was unpacked *)
Definition unpacked (u : uvc) (b : CXLBuf flit) (d : Z) (f : flit) h : CXLHost :=
  let c := cred_at (ext_creds h) d in let fc := credit (header f) in
  set_ext_creds (<[d := mk_credits (req_credit c + req_credit fc) (rsp_credit c) (data_credit c + data_credit fc)]> (ext_creds h))
    (set_rx_buffer b (set_host_uvc u h)).

Lemma host_unpack_spec tick h f l r' d :
  q_ (rx_buffer h) = f :: l ->
  delay_rx_buf_to_unpack p <= tick - time_of_receipt (flit_time f) ->
  is_buf_full (rx_buffer h) && is_buf_full (S2M_DRS h) && is_buf_full (S2M_NDR h) = false ->
  wf_flit (unpacker_rollover h) (kinds f) r' = true ->
  from_device h d f -> is_flit_empty f = false -> room (host_uvc h) f ->
  exists u b, unpack_slots set_tick_resp_unpacked tick (slots f) (host_uvc h) = Ok u /\
    q_ b = l /\ size_ b = size_ (rx_buffer h) /\ FLIT_unpacker p tick h = Ok (true, unpacked u b d f h).
Proof.
  intros Hq Ht Hst Hw Hd Hne (Hb1 & Hb2 & Hr1 & Hr2). unfold FLIT_unpacker. rewrite Hst. cbn [negb].
  rewrite (proj2 (is_buf_empty_false _)) by eauto. rewrite (get_head_ok _ _ _ Hq). cbn [bind].
  rewrite (proj2 (Z.ltb_ge _ _)) by lia.
  rewrite (scan_device_ok h d) by auto. unfold is_flit_empty in Hne. rewrite Hne. cbn [bind].
  assert (Hr : (unpacker_rollover h <=? 4) && (0 <=? unpacker_rollover h) = true).
  { apply wf_flit_inv in Hw as (_ & _ & [(? & _)|(? & _)]); apply andb_true_iff; rewrite !Z.leb_le; lia. }
  rewrite Hr, (rollover_rule_wf _ _ _ Hw). cbn [bind].
  pose proof (no_packing_violation _ _ _ Hw) as Hv. unfold packing_violation in Hv.
  simpl plain_ty in Hv. simpl hdr_ty in Hv.
  apply orb_false_iff in Hv as [[[V1 V2]%orb_false_iff V3]%orb_false_iff _]. rewrite V1, V2, V3. cbn [negb andb].
  destruct (unpack_flit set_tick_resp_unpacked tick (fun _ _ => eq_refl) f (host_uvc h) r')
    as (u & E & _); try done.
  rewrite E. cbn [bind]. unfold dequeue at 1. simpl rx_buffer. unfold is_buf_empty. rewrite Hq. cbn [negb bind].
  by exists u, (mk_CXLBuf (size_ (rx_buffer h)) l).
Qed.

(** C17: A legal flit from one device whose latency has elapsed is unpacked
    without violating an assertion: its NDR messages reach [S2M_NDR] and its
    DRS headers [S2M_DRS] in order, a header once its four data chunks have
    arrived, the credits of the flit are added to those of the device, and
    the flit leaves the receive buffer. *)
Theorem host_unpacker_delivers tick h f l r' d :
  q_ (rx_buffer h) = f :: l ->
  delay_rx_buf_to_unpack p <= tick - time_of_receipt (flit_time f) ->
  is_buf_full (rx_buffer h) && is_buf_full (S2M_DRS h) && is_buf_full (S2M_NDR h) = false ->
  wf_flit (unpacker_rollover h) (kinds f) r' = true ->
  from_device h d f -> is_flit_empty f = false -> room (host_uvc h) f ->
  exists h', FLIT_unpacker p tick h = Ok (true, h') /\ unpacker_rollover h' = r' /\
    got_plain (host_uvc h') = got_plain (host_uvc h) ++ ids (msgs_of s2m_ndr (slots f)) /\
    got_hdr (host_uvc h') = got_hdr (host_uvc h) ++ ids (msgs_of s2m_drs_hdr (slots f)) /\
    q_ (rx_buffer h') = l /\
    req_credit (cred_at (ext_creds h') d) =
      req_credit (cred_at (ext_creds h) d) + req_credit (credit (header f)) /\
    data_credit (cred_at (ext_creds h') d) =
      data_credit (cred_at (ext_creds h) d) + data_credit (credit (header f)).
Proof.
  intros Hq Ht Hst Hw Hd Hne Hroom.
  destruct (host_unpack_spec tick h f l r' d) as (u & b & E & Hb & _ & ->); try done. destruct Hroom as (Hb1 & Hb2 & Hr1 & Hr2).
  destruct (unpack_flit set_tick_resp_unpacked tick (fun _ _ => eq_refl) f (host_uvc h) r') as (u1 & E1 & R & P & Q & _); try done.
  rewrite E in E1. injection E1 as <-. eexists. split; [done|]. unfold unpacked. simpl.
  split_and!; try done; unfold cred_at at 1; by rewrite lookup_insert_eq.
Qed.

(** ** Skipping a cycle *)

Lemma check_vcs_loop_unready tick vc ixs h :
  (forall j, (j < NUM_VC)%nat ->
     CxlHost.head_ready (delay_vc_to_pack p) tick (vc_get h (vc j)) = false) ->
  check_vcs_loop p tick vc ixs h = Ok (None, h).
Proof.
  intros Hr. induction ixs as [|i ixs IH]; [done|].
  set (j := (i mod NUM_VC)%nat).
  change (check_vcs_loop p tick vc (i :: ixs) h) with
    (let! (found, h) := try_vc p tick (vc j) j h in
     if found : bool then Ok (Some (vc j), h) else check_vcs_loop p tick vc ixs h).
  assert (Hj : (j < NUM_VC)%nat) by (apply Nat.mod_upper_bound; done).
  specialize (Hr j Hj). unfold try_vc. unfold head_ready in Hr.
  destruct (q_ (vc_get h (vc j))) as [|m l]; [exact IH|]. rewrite Hr. exact IH.
Qed.

(** A skippable cycle finds no message old enough. *)
Lemma skip_packer_unready tick h : skip_packer_check p tick h = true ->
  packer_rollover h = 0 /\ is_packer_waiting h = false /\
  forall j, (j < NUM_VC)%nat ->
    head_ready (delay_vc_to_pack p) tick (vc_get h (ReqVC j)) = false /\
    head_ready (delay_vc_to_pack p) tick (vc_get h (RwdVC j)) = false.
Proof.
  unfold skip_packer_check. destruct (_ || is_packer_waiting h) eqn:E0; [done|].
  bool_prop. intros Hs. split; [done|]. split; [done|]. intros j Hj.
  assert (Hin : In j (seq 0 NUM_VC)) by (apply in_seq; lia).
  destruct (forallb _ _) eqn:Hall in Hs.
  - rewrite forallb_forall in Hall. specialize (Hall j Hin). bool_prop.
    unfold head_ready. simpl. apply is_buf_empty_true in H2, H3. by rewrite H2, H3.
  - bool_prop. destruct (existsb _ _) eqn:Hex in Hs; [done|]. clear Hs.
    rewrite <- not_true_iff_false in Hex. simpl.
    destruct (head_ready _ _ (nth j (M2S_Req h) _)) eqn:R1;
      [exfalso; apply Hex, existsb_exists; exists j; by rewrite R1|].
    destruct (head_ready _ _ (nth j (M2S_RWD h) _)) eqn:R2;
      [exfalso; apply Hex, existsb_exists; exists j; by rewrite R2, orb_true_r|]. done.
Qed.

Lemma get_msg_unready tick h : pkr2_state h <> rr_W ->
  (forall j, (j < NUM_VC)%nat ->
    head_ready (delay_vc_to_pack p) tick (vc_get h (ReqVC j)) = false /\
    head_ready (delay_vc_to_pack p) tick (vc_get h (RwdVC j)) = false) ->
  get_msg_from_vcs p tick h = Ok (None, h).
Proof.
  intros HW Hr. unfold get_msg_from_vcs, check_vcs_for_packing.
  destruct (pkr2_state h); [..|done].
  all: do 2 (rewrite check_vcs_loop_unready by (intros; by apply Hr); cbn [bind]); done.
Qed.

(** Skipping a cycle of the packer is invisible.  When
    [skip_packer_check] allows it, [FLIT_packer] would have returned false,
    packed and sent nothing, and only prepared an empty flit; and a later
    call behaves the same whether the packer was run or skipped. *)
Lemma host_skip_packer g h :
  pkr2_state h <> rr_W -> skip_packer_check p (curr_tick g) h = true ->
  FLIT_packer p g h = Ok (false, (g, start_flit g h)) /\
  forall g', FLIT_packer p g' (start_flit g h) = FLIT_packer p g' h.
Proof.
  intros HW Hs. destruct (skip_packer_unready _ _ Hs) as (Hr & Hw & Hv). split.
  - unfold FLIT_packer. assert (Hw' : is_packer_waiting (start_flit g h) = false)
      by (unfold start_flit; by rewrite Hw).
    assert (Hr' : packer_rollover (start_flit g h) = 0) by (unfold start_flit; by rewrite Hw).
    rewrite Hw', Hr'. simpl andb. cbn [negb Z.eqb Z.leb].
    assert (Eg : get_msg_from_vcs p (curr_tick g) (start_flit g h) = Ok (None, start_flit g h)).
    { apply get_msg_unready; unfold start_flit; rewrite Hw; [done|]. exact Hv. }
    assert (El : pack_loop p (curr_tick g) (seq 0 4) (start_flit g h) = Ok (start_flit g h)).
    { simpl seq. cbn [pack_loop]. rewrite Hr'. cbn [negb Z.eqb andb].
      assert (Ef : flit_to_pack (start_flit g h) = flit_new) by (unfold start_flit; by rewrite Hw).
      rewrite Ef, Eg. done. }
    rewrite El. cbn [bind]. unfold finish_packing.
    assert (Ef : flit_to_pack (start_flit g h) = flit_new) by (unfold start_flit; by rewrite Hw).
    rewrite Ef. change (is_flit_empty flit_new) with true. cbn [negb]. rewrite Ef. reflexivity.
  - intros g'. unfold FLIT_packer.
    assert (E : start_flit g' (start_flit g h) = start_flit g' h).
    { unfold start_flit. rewrite Hw. simpl. rewrite Hw, Hr. done. }
    by rewrite E.
Qed.

(** The other three predicates are exact or sound: [transmit] is
    skipped exactly when it would have sent nothing, and the unpacker and the
    retirement of responses only when they would have done nothing. *)
Lemma host_skip_others g h bus :
  rcvd_rsp_state h <> rr_W ->
  is_buf_full (rx_buffer h) && is_buf_full (S2M_DRS h) && is_buf_full (S2M_NDR h) = false ->
  (skip_transmit_check p (curr_tick g) h bus = true <->
     transmit p (curr_tick g) h bus = Ok (false, (h, bus))) /\
  (skip_unpacker_check p (curr_tick g) h = true ->
     FLIT_unpacker p (curr_tick g) h = Ok (false, h)) /\
  (skip_req_complete_check p (curr_tick g) h = true ->
     check_if_req_completed p g h = Ok (false, (g, h))).
Proof.
  intros HW Hst. split; [|split].
  - unfold skip_transmit_check, transmit, is_buf_empty, get_head.
    destruct (q_ (tx_buffer h)) as [|f l] eqn:Hq; [done|].
    destruct (is_full bus); [done|]. cbn [bind orb].
    destruct (_ <? delay_tx_buf_to_bus p); [done|]. destruct (_ <? cxl_bus_ticks_per_dequeue p); [done|].
    split; [done|]. intros Hf. res_inv. done.
  - unfold skip_unpacker_check, FLIT_unpacker, is_buf_empty, get_head. rewrite Hst. cbn [negb].
    destruct (q_ (rx_buffer h)) as [|f l]; [done|]. cbn [bind]. by intros ->.
  - unfold skip_req_complete_check, check_if_req_completed.
    destruct (is_buf_empty (S2M_DRS h) && is_buf_empty (S2M_NDR h)); [done|].
    destruct (rsp_ready p (curr_tick g) (S2M_DRS h)) eqn:R1; [done|].
    destruct (rsp_ready p (curr_tick g) (S2M_NDR h)) eqn:R2; [done|]. intros _.
    assert (Hv : forall v, check_rx_vc p g v h = Ok (false, (g, h))).
    { intros v. unfold check_rx_vc, is_buf_empty, get_head, rsp_ready in *.
      destruct v; simpl rsp_get.
      - destruct (q_ (S2M_NDR h)); [done|]. cbn [bind]. rewrite Z.ltb_antisym, R2. done.
      - destruct (q_ (S2M_DRS h)); [done|]. cbn [bind]. rewrite Z.ltb_antisym, R1. done. }
    destruct (rcvd_rsp_state h); [..|done]; by rewrite Hv; cbn [bind]; rewrite Hv.
Qed.

(** C34: Skipping cycles of the host is invisible.  When [skip_packer_check]
    allows it, [FLIT_packer] would have returned false, packed and sent
    nothing, and only prepared an empty flit; and a later call behaves the
    same whether the packer was run or skipped.  [transmit] is skipped exactly
    when it would have sent nothing, and the unpacker and the retirement of
    responses only when they would have done nothing. *)
Theorem host_skip_sound g h bus :
  pkr2_state h <> rr_W -> rcvd_rsp_state h <> rr_W ->
  is_buf_full (rx_buffer h) && is_buf_full (S2M_DRS h) && is_buf_full (S2M_NDR h) = false ->
  (skip_packer_check p (curr_tick g) h = true ->
     FLIT_packer p g h = Ok (false, (g, start_flit g h)) /\
     forall g', FLIT_packer p g' (start_flit g h) = FLIT_packer p g' h) /\
  (skip_transmit_check p (curr_tick g) h bus = true <->
     transmit p (curr_tick g) h bus = Ok (false, (h, bus))) /\
  (skip_unpacker_check p (curr_tick g) h = true ->
     FLIT_unpacker p (curr_tick g) h = Ok (false, h)) /\
  (skip_req_complete_check p (curr_tick g) h = true ->
     check_if_req_completed p g h = Ok (false, (g, h))).
Proof. intros HW HR Hst. split; [by apply host_skip_packer|by apply host_skip_others]. Qed.

End HostRun.

Module HostRunWitness.
(** A flit with a write response and a read response whose last two chunks
    are to follow. *)
Definition rsp_flit : flit := sample_flit (mk_flit_lifetime 0 0 100) (mk_credits 2 0 3)
  [sample_slot s2m_ndr NDR 7 64; sample_slot s2m_drs_hdr DRS 8 128;
   sample_slot data DRS 8 128; sample_slot data DRS 8 128].
Definition host_rx : CXLHost :=
  let h := CXLHost_new 16 8 1 in
  let h := match register_device 3 (0, 4096) h with Ok h => h | Abort _ => h end in
  set_rx_buffer (mk_CXLBuf 8 [rsp_flit]) h.

Lemma host_unpacker_delivers_witness :
  exists h', FLIT_unpacker main_params 300 host_rx = Ok (true, h') /\ unpacker_rollover h' = 2 /\
    got_plain (host_uvc h') = got_plain (host_uvc host_rx) ++ ids (msgs_of s2m_ndr (slots rsp_flit)) /\
    got_hdr (host_uvc h') = got_hdr (host_uvc host_rx) ++ ids (msgs_of s2m_drs_hdr (slots rsp_flit)) /\
    q_ (rx_buffer h') = [] /\
    req_credit (cred_at (ext_creds h') 3) =
      req_credit (cred_at (ext_creds host_rx) 3) + req_credit (credit (header rsp_flit)) /\
    data_credit (cred_at (ext_creds h') 3) =
      data_credit (cred_at (ext_creds host_rx) 3) + data_credit (credit (header rsp_flit)).
Proof.
  apply (host_unpacker_delivers main_params 300 host_rx rsp_flit [] 2 3); try reflexivity.
  - vm_compute. discriminate.
  - repeat constructor; right; reflexivity.
  - repeat split; vm_compute; congruence.
Defined.

Definition host_idle : CXLHost :=
  set_M2S_Req [mk_CXLBuf 4 [set_msg_tick set_tick_created 50 (sample_msg Req 1 64)];
               CXLBuf_new 4; CXLBuf_new 4; CXLBuf_new 4] (CXLHost_new 16 8 1).
Lemma host_skip_sound_witness :
  let bus := CXLBus_new main_params 15 4 DwStream host_switch in
  (skip_packer_check main_params 60 host_idle = true ->
     FLIT_packer main_params (sample_globals 60) host_idle =
       Ok (false, (sample_globals 60, start_flit (sample_globals 60) host_idle)) /\
     forall g', FLIT_packer main_params g' (start_flit (sample_globals 60) host_idle) = FLIT_packer main_params g' host_idle) /\
  (skip_transmit_check main_params 60 host_idle bus = true <->
     transmit main_params 60 host_idle bus = Ok (false, (host_idle, bus))) /\
  (skip_unpacker_check main_params 60 host_idle = true ->
     FLIT_unpacker main_params 60 host_idle = Ok (false, host_idle)) /\
  (skip_req_complete_check main_params 60 host_idle = true ->
     check_if_req_completed main_params (sample_globals 60) host_idle =
       Ok (false, (sample_globals 60, host_idle))).
Proof. apply (host_skip_sound main_params (sample_globals 60)); [discriminate | discriminate | reflexivity]. Defined.
End HostRunWitness.
