(* ===== verification/CxlSwitch.v ===== *)
(** * The CXL switch

    [include/CXLSwitch.h] and [src/CXLSwitch.cpp]: one host, several devices.
    Flits from the host are routed by address; flits from the devices are
    arbitrated port by port, and a port keeps the grant while data chunks of
    its last header are still to come, so that the host sees one legal
    stream.  The buses, which belong to the system, are arguments and
    results of [update]. *)
From Stdlib Require Import ZArith Lia Bool String.
From stdpp Require Import base list gmap.
From S2P Require Import Prelude Flit CxlBuf Samples CxlBus Packing.

(** ** [std::map] with integer keys, in key order *)
Definition omap (X : Type) : Type := list (Z * X).
Fixpoint om_get {X} (k : Z) (m : omap X) : option X :=
  match m with
  | [] => None
  | (k', x) :: m => if k =? k' then Some x else om_get k m
  end.
(** [m[k] = x] *)
Fixpoint om_set {X} (k : Z) (x : X) (m : omap X) : omap X :=
  match m with
  | [] => [(k, x)]
  | (k', y) :: m =>
      if k <? k' then (k, x) :: (k', y) :: m
      else if k =? k' then (k, x) :: m
      else (k', y) :: om_set k x m
  end.
Fixpoint om_erase {X} (k : Z) (m : omap X) : omap X :=
  match m with
  | [] => []
  | (k', y) :: m => if k =? k' then m else (k', y) :: om_erase k m
  end.

(** ** State *)

Record CXLSwitch : Type := mk_CXLSwitch {
  upstream_buffer_tx : CXLBuf flit;
  upstream_buffer_rx : CXLBuf flit;
  downstream_buffers_tx : omap (CXLBuf flit);
  downstream_buffers_rx : omap (CXLBuf flit);
  sw_node_id : Z;
  previous_destination : Z;
  last_transmission : Z;
  downstream_last_transmission : omap Z;
  sw_buf_size : Z;
  num_devices : Z;
  ARB_NOC_h2d : CXLBuf flit;
  ARB_NOC_d2h : CXLBuf flit;
  sw_address_intervals : omap (Z * Z);
  curr_port : Z;
  expected_rollover : Z;
  skip_cycle : bool
}.
Definition set_upstream_buffer_tx (v : CXLBuf flit) (r : CXLSwitch) : CXLSwitch :=
  mk_CXLSwitch v (upstream_buffer_rx r) (downstream_buffers_tx r) (downstream_buffers_rx r) (sw_node_id r) (previous_destination r) (last_transmission r) (downstream_last_transmission r) (sw_buf_size r) (num_devices r) (ARB_NOC_h2d r) (ARB_NOC_d2h r) (sw_address_intervals r) (curr_port r) (expected_rollover r) (skip_cycle r).
Definition set_upstream_buffer_rx (v : CXLBuf flit) (r : CXLSwitch) : CXLSwitch :=
  mk_CXLSwitch (upstream_buffer_tx r) v (downstream_buffers_tx r) (downstream_buffers_rx r) (sw_node_id r) (previous_destination r) (last_transmission r) (downstream_last_transmission r) (sw_buf_size r) (num_devices r) (ARB_NOC_h2d r) (ARB_NOC_d2h r) (sw_address_intervals r) (curr_port r) (expected_rollover r) (skip_cycle r).
Definition set_downstream_buffers_tx (v : omap (CXLBuf flit)) (r : CXLSwitch) : CXLSwitch :=
  mk_CXLSwitch (upstream_buffer_tx r) (upstream_buffer_rx r) v (downstream_buffers_rx r) (sw_node_id r) (previous_destination r) (last_transmission r) (downstream_last_transmission r) (sw_buf_size r) (num_devices r) (ARB_NOC_h2d r) (ARB_NOC_d2h r) (sw_address_intervals r) (curr_port r) (expected_rollover r) (skip_cycle r).
Definition set_downstream_buffers_rx (v : omap (CXLBuf flit)) (r : CXLSwitch) : CXLSwitch :=
  mk_CXLSwitch (upstream_buffer_tx r) (upstream_buffer_rx r) (downstream_buffers_tx r) v (sw_node_id r) (previous_destination r) (last_transmission r) (downstream_last_transmission r) (sw_buf_size r) (num_devices r) (ARB_NOC_h2d r) (ARB_NOC_d2h r) (sw_address_intervals r) (curr_port r) (expected_rollover r) (skip_cycle r).
Definition set_sw_node_id (v : Z) (r : CXLSwitch) : CXLSwitch :=
  mk_CXLSwitch (upstream_buffer_tx r) (upstream_buffer_rx r) (downstream_buffers_tx r) (downstream_buffers_rx r) v (previous_destination r) (last_transmission r) (downstream_last_transmission r) (sw_buf_size r) (num_devices r) (ARB_NOC_h2d r) (ARB_NOC_d2h r) (sw_address_intervals r) (curr_port r) (expected_rollover r) (skip_cycle r).
Definition set_previous_destination (v : Z) (r : CXLSwitch) : CXLSwitch :=
  mk_CXLSwitch (upstream_buffer_tx r) (upstream_buffer_rx r) (downstream_buffers_tx r) (downstream_buffers_rx r) (sw_node_id r) v (last_transmission r) (downstream_last_transmission r) (sw_buf_size r) (num_devices r) (ARB_NOC_h2d r) (ARB_NOC_d2h r) (sw_address_intervals r) (curr_port r) (expected_rollover r) (skip_cycle r).
Definition set_last_transmission (v : Z) (r : CXLSwitch) : CXLSwitch :=
  mk_CXLSwitch (upstream_buffer_tx r) (upstream_buffer_rx r) (downstream_buffers_tx r) (downstream_buffers_rx r) (sw_node_id r) (previous_destination r) v (downstream_last_transmission r) (sw_buf_size r) (num_devices r) (ARB_NOC_h2d r) (ARB_NOC_d2h r) (sw_address_intervals r) (curr_port r) (expected_rollover r) (skip_cycle r).
Definition set_downstream_last_transmission (v : omap Z) (r : CXLSwitch) : CXLSwitch :=
  mk_CXLSwitch (upstream_buffer_tx r) (upstream_buffer_rx r) (downstream_buffers_tx r) (downstream_buffers_rx r) (sw_node_id r) (previous_destination r) (last_transmission r) v (sw_buf_size r) (num_devices r) (ARB_NOC_h2d r) (ARB_NOC_d2h r) (sw_address_intervals r) (curr_port r) (expected_rollover r) (skip_cycle r).
Definition set_sw_buf_size (v : Z) (r : CXLSwitch) : CXLSwitch :=
  mk_CXLSwitch (upstream_buffer_tx r) (upstream_buffer_rx r) (downstream_buffers_tx r) (downstream_buffers_rx r) (sw_node_id r) (previous_destination r) (last_transmission r) (downstream_last_transmission r) v (num_devices r) (ARB_NOC_h2d r) (ARB_NOC_d2h r) (sw_address_intervals r) (curr_port r) (expected_rollover r) (skip_cycle r).
Definition set_num_devices (v : Z) (r : CXLSwitch) : CXLSwitch :=
  mk_CXLSwitch (upstream_buffer_tx r) (upstream_buffer_rx r) (downstream_buffers_tx r) (downstream_buffers_rx r) (sw_node_id r) (previous_destination r) (last_transmission r) (downstream_last_transmission r) (sw_buf_size r) v (ARB_NOC_h2d r) (ARB_NOC_d2h r) (sw_address_intervals r) (curr_port r) (expected_rollover r) (skip_cycle r).
Definition set_ARB_NOC_h2d (v : CXLBuf flit) (r : CXLSwitch) : CXLSwitch :=
  mk_CXLSwitch (upstream_buffer_tx r) (upstream_buffer_rx r) (downstream_buffers_tx r) (downstream_buffers_rx r) (sw_node_id r) (previous_destination r) (last_transmission r) (downstream_last_transmission r) (sw_buf_size r) (num_devices r) v (ARB_NOC_d2h r) (sw_address_intervals r) (curr_port r) (expected_rollover r) (skip_cycle r).
Definition set_ARB_NOC_d2h (v : CXLBuf flit) (r : CXLSwitch) : CXLSwitch :=
  mk_CXLSwitch (upstream_buffer_tx r) (upstream_buffer_rx r) (downstream_buffers_tx r) (downstream_buffers_rx r) (sw_node_id r) (previous_destination r) (last_transmission r) (downstream_last_transmission r) (sw_buf_size r) (num_devices r) (ARB_NOC_h2d r) v (sw_address_intervals r) (curr_port r) (expected_rollover r) (skip_cycle r).
Definition set_sw_address_intervals (v : omap (Z * Z)) (r : CXLSwitch) : CXLSwitch :=
  mk_CXLSwitch (upstream_buffer_tx r) (upstream_buffer_rx r) (downstream_buffers_tx r) (downstream_buffers_rx r) (sw_node_id r) (previous_destination r) (last_transmission r) (downstream_last_transmission r) (sw_buf_size r) (num_devices r) (ARB_NOC_h2d r) (ARB_NOC_d2h r) v (curr_port r) (expected_rollover r) (skip_cycle r).
Definition set_curr_port (v : Z) (r : CXLSwitch) : CXLSwitch :=
  mk_CXLSwitch (upstream_buffer_tx r) (upstream_buffer_rx r) (downstream_buffers_tx r) (downstream_buffers_rx r) (sw_node_id r) (previous_destination r) (last_transmission r) (downstream_last_transmission r) (sw_buf_size r) (num_devices r) (ARB_NOC_h2d r) (ARB_NOC_d2h r) (sw_address_intervals r) v (expected_rollover r) (skip_cycle r).
Definition set_expected_rollover (v : Z) (r : CXLSwitch) : CXLSwitch :=
  mk_CXLSwitch (upstream_buffer_tx r) (upstream_buffer_rx r) (downstream_buffers_tx r) (downstream_buffers_rx r) (sw_node_id r) (previous_destination r) (last_transmission r) (downstream_last_transmission r) (sw_buf_size r) (num_devices r) (ARB_NOC_h2d r) (ARB_NOC_d2h r) (sw_address_intervals r) (curr_port r) v (skip_cycle r).
Definition set_skip_cycle (v : bool) (r : CXLSwitch) : CXLSwitch :=
  mk_CXLSwitch (upstream_buffer_tx r) (upstream_buffer_rx r) (downstream_buffers_tx r) (downstream_buffers_rx r) (sw_node_id r) (previous_destination r) (last_transmission r) (downstream_last_transmission r) (sw_buf_size r) (num_devices r) (ARB_NOC_h2d r) (ARB_NOC_d2h r) (sw_address_intervals r) (curr_port r) (expected_rollover r) v.

Section Switch.
Context `{Indet} (p : CXLParams).

(** [CXLSwitch::CXLSwitch(buf_size, node_id)]; the upstream buffers are
    made by [CXLBuf()], with no room, until the host is connected. *)
Definition CXLSwitch_new (buf_size node_id : Z) : CXLSwitch := {|
  upstream_buffer_tx := CXLBuf_new 0;
  upstream_buffer_rx := CXLBuf_new 0;
  downstream_buffers_tx := [];
  downstream_buffers_rx := [];
  sw_node_id := node_id;
  previous_destination := 0;
  last_transmission := 0;
  downstream_last_transmission := [];
  sw_buf_size := buf_size;
  num_devices := 0;
  ARB_NOC_h2d := CXLBuf_new buf_size;
  ARB_NOC_d2h := CXLBuf_new buf_size;
  sw_address_intervals := [];
  curr_port := 0;
  expected_rollover := 0;
  skip_cycle := false
|}.

(** [CXLSwitch::connect_upstream] *)
Definition connect_upstream (s : CXLSwitch) : CXLSwitch :=
  set_upstream_buffer_rx (CXLBuf_new (sw_buf_size s))
    (set_upstream_buffer_tx (CXLBuf_new (sw_buf_size s)) s).

(** [CXLSwitch::connect_downstream]; [connected_downstream_tx] has
    the same keys as [address_intervals]. *)
Definition connect_downstream (device_id : Z) (interval : Z * Z) (s : CXLSwitch) : res CXLSwitch :=
  assert! match om_get device_id (sw_address_intervals s) with None => true | _ => false end,
    "Already connected" in
  let s := set_sw_address_intervals (om_set device_id interval (sw_address_intervals s)) s in
  let s := set_downstream_buffers_tx
             (om_set device_id (CXLBuf_new (sw_buf_size s)) (downstream_buffers_tx s)) s in
  let s := set_downstream_buffers_rx
             (om_set device_id (CXLBuf_new (sw_buf_size s)) (downstream_buffers_rx s)) s in
  let s := set_downstream_last_transmission
             (om_set device_id 0 (downstream_last_transmission s)) s in
  Ok (set_num_devices (u64 (num_devices s + 1)) s).

(** [CXLSwitch::disconnect_downstream] *)
Definition disconnect_downstream (device_id : Z) (s : CXLSwitch) : res CXLSwitch :=
  assert! match om_get device_id (sw_address_intervals s) with None => false | _ => true end,
    "Not connected" in
  let s := set_sw_address_intervals (om_erase device_id (sw_address_intervals s)) s in
  let s := set_downstream_buffers_tx (om_erase device_id (downstream_buffers_tx s)) s in
  let s := set_downstream_buffers_rx (om_erase device_id (downstream_buffers_rx s)) s in
  Ok (set_num_devices (u64 (num_devices s - 1)) s).

(** [CXLSwitch::destination_device] *)
Fixpoint find_dest (addr : Z) (m : omap (Z * Z)) : option Z :=
  match m with
  | [] => None
  | (d, (lo, hi)) :: m => if (addr <? hi) && (lo <=? addr) then Some d else find_dest addr m
  end.
Definition switch_destination (s : CXLSwitch) (addr : Z) : res Z :=
  match find_dest addr (sw_address_intervals s) with
  | Some d => Ok d
  | None => Abort "Invalid address"
  end.

(** [CXLSwitch::check_buffer_condition]: the new flag and the condition *)
Definition check_buffer_condition (tick : Z) (b : CXLBuf flit) (delay : Z) (flag : bool)
    : res (bool * bool) :=
  let flag := flag && is_buf_empty b in
  if is_buf_empty b then Ok (flag, false)
  else let! ok := latency_check_flit tick delay b in Ok (flag, ok).

(** [CXLSwitch::check_transmission]: the difference is unsigned. *)
Definition check_transmission (tick l_t : Z) (bus : CXLBus) : bool :=
  if is_full bus then false
  else if u64 (tick - l_t) <? u64 (cxl_bus_ticks_per_dequeue p) then false
  else true.

Definition rx_buf (s : CXLSwitch) (port : Z) : CXLBuf flit :=
  default (CXLBuf_new 0) (om_get port (downstream_buffers_rx s)).
Definition tx_buf (s : CXLSwitch) (port : Z) : CXLBuf flit :=
  default (CXLBuf_new 0) (om_get port (downstream_buffers_tx s)).

(** [CXLSwitch::all_rx_buf_empty] *)
Definition all_rx_buf_empty (s : CXLSwitch) : bool :=
  forallb (fun i => is_buf_empty (rx_buf s (Z.of_nat i))) (seq 0 (Z.to_nat (num_devices s))) &&
  is_buf_empty (upstream_buffer_rx s).

Definition at_receipt (tick : Z) (f : flit) : flit :=
  set_flit_time (set_time_of_receipt tick (flit_time f)) f.
Definition at_transmission (tick : Z) (f : flit) : flit :=
  set_flit_time (set_time_of_transmission tick (flit_time f)) f.

(** ** The stages of [CXLSwitch::update] *)

(** Host to device: from the receiving port to the arbiter. *)
Definition h2d_rx (tick : Z) (flag : bool) (s : CXLSwitch) : res (bool * CXLSwitch) :=
  let! (flag, ok) := check_buffer_condition tick (upstream_buffer_rx s) (delay_cxl_port_switch p) flag in
  if ok : bool then
    let! f := get_head (upstream_buffer_rx s) in
    let! b := dequeue (upstream_buffer_rx s) in
    let s := set_upstream_buffer_rx b s in
    let! b := enqueue (at_receipt tick (flit_copy f)) (ARB_NOC_h2d s) in
    Ok (flag, set_ARB_NOC_h2d b s)
  else Ok (flag, s).

(** Host to device: from the arbiter to the port of the destination. *)
Definition h2d_noc (tick : Z) (flag : bool) (s : CXLSwitch) : res (bool * CXLSwitch) :=
  let! (flag, ok) := check_buffer_condition tick (ARB_NOC_h2d s) (delay_cxl_noc_switch p) flag in
  if ok : bool then
    let! f := get_head (ARB_NOC_h2d s) in
    let! dest := if slot_type_eqb (slot_ty_at f 0) data then Ok (previous_destination s)
                 else switch_destination s (get_first_address f) in
    let s := set_previous_destination dest s in
    let! b := dequeue (ARB_NOC_h2d s) in
    let s := set_ARB_NOC_h2d b s in
    let! b := enqueue (at_receipt tick (flit_copy f)) (tx_buf s dest) in
    Ok (flag, set_downstream_buffers_tx (om_set dest b (downstream_buffers_tx s)) s)
  else Ok (flag, s).

(** Host to device: from a port to the bus of its device. *)
Definition h2d_tx_port (tick port : Z) (flag : bool) (s : CXLSwitch) (buses : omap CXLBus)
    : res (bool * CXLSwitch * omap CXLBus) :=
  let b := tx_buf s port in
  let! (flag, ok) := check_buffer_condition tick b (delay_cxl_port_switch p) flag in
  if ok : bool then
    match om_get port buses with
    | None => Abort "null bus"
    | Some bus =>
        if check_transmission tick (default 0 (om_get port (downstream_last_transmission s))) bus then
          let! f := get_head b in
          let! b := dequeue b in
          let s := set_downstream_buffers_tx (om_set port b (downstream_buffers_tx s)) s in
          let s := set_downstream_last_transmission
                     (om_set port tick (downstream_last_transmission s)) s in
          let f := set_time set_tick_switch_ds_tx tick (at_transmission tick (flit_copy f)) in
          let! bus := add_to_bus tick f bus in
          Ok (flag, s, om_set port bus buses)
        else Ok (flag, s, buses)
    end
  else Ok (flag, s, buses).

Fixpoint h2d_tx (tick : Z) (ports : list Z) (flag : bool) (s : CXLSwitch) (buses : omap CXLBus)
    : res (bool * CXLSwitch * omap CXLBus) :=
  match ports with
  | [] => Ok (flag, s, buses)
  | port :: ports =>
      let! (flag, s, buses) := h2d_tx_port tick port flag s buses in
      h2d_tx tick ports flag s buses
  end.

(** [CXLSwitch::update_port] *)
Definition update_port (s : CXLSwitch) : CXLSwitch :=
  if expected_rollover s =? 0
  then set_curr_port (if curr_port s <? u64 (num_devices s - 1) then curr_port s + 1 else 0) s
  else s.

(** [CXLSwitch::update_rollover] *)
Definition roll_slot (r : Z) (t : slot_type) : Z :=
  match t with
  | s2m_drs_hdr => u64 (r + 4)
  | data => u64 (r - 1)
  | _ => r
  end.
Definition update_rollover (f : flit) (s : CXLSwitch) : CXLSwitch :=
  set_expected_rollover (fold_left roll_slot (hdr_slots (header f)) (expected_rollover s)) s.

(** Device to host: the first port with a flit, from the current one on. *)
Fixpoint d2h_rx (tick : Z) (n : nat) (flag : bool) (s : CXLSwitch) : res (bool * CXLSwitch) :=
  match n with
  | O => Ok (flag, s)
  | S n =>
      let b := rx_buf s (curr_port s) in
      let! (flag, ok) := check_buffer_condition tick b (delay_cxl_port_switch p) flag in
      if ok : bool then
        let! f := get_head b in
        let! b := dequeue b in
        let s := set_downstream_buffers_rx (om_set (curr_port s) b (downstream_buffers_rx s)) s in
        let f := at_receipt tick (flit_copy f) in
        let! b := enqueue f (ARB_NOC_d2h s) in
        let s := set_ARB_NOC_d2h b s in
        Ok (flag, update_port (update_rollover f s))
      else d2h_rx tick n flag (update_port s)
  end.

(** Device to host: from the arbiter to the port of the host. *)
Definition d2h_noc (tick : Z) (flag : bool) (s : CXLSwitch) : res (bool * CXLSwitch) :=
  let! (flag, ok) := check_buffer_condition tick (ARB_NOC_d2h s) (delay_cxl_noc_switch p) flag in
  if ok : bool then
    let! f := get_head (ARB_NOC_d2h s) in
    let! b := dequeue (ARB_NOC_d2h s) in
    let s := set_ARB_NOC_d2h b s in
    let! b := enqueue (at_receipt tick (flit_copy f)) (upstream_buffer_tx s) in
    Ok (flag, set_upstream_buffer_tx b s)
  else Ok (flag, s).

(** Device to host: from the port to the bus of the host. *)
Definition d2h_tx (tick : Z) (flag : bool) (s : CXLSwitch) (bus : CXLBus)
    : res (bool * CXLSwitch * CXLBus) :=
  let! (flag, ok) := check_buffer_condition tick (upstream_buffer_tx s) (delay_cxl_port_switch p) flag in
  if ok && check_transmission tick (last_transmission s) bus then
    let! f := get_head (upstream_buffer_tx s) in
    let! b := dequeue (upstream_buffer_tx s) in
    let s := set_upstream_buffer_tx b s in
    let s := set_last_transmission tick s in
    let f := set_time set_tick_switch_us_tx tick (at_transmission tick (flit_copy f)) in
    let! bus := add_to_bus tick f bus in
    Ok (flag, s, bus)
  else Ok (flag, s, bus).

(** [CXLSwitch::update]; [skip] tells whether [SKIP_CYCLE] is defined. *)
Definition switch_update (skip : bool) (tick : Z) (s : CXLSwitch) (dev_buses : omap CXLBus)
    (host_bus : CXLBus) : res (CXLSwitch * omap CXLBus * CXLBus) :=
  if skip && skip_cycle s && all_rx_buf_empty s then Ok (s, dev_buses, host_bus)
  else
  let! (flag, s) := h2d_rx tick true s in
  let! (flag, s) := h2d_noc tick flag s in
  let! (flag, s, dev_buses) := h2d_tx tick (map fst (downstream_buffers_tx s)) flag s dev_buses in
  let! (flag, s) := d2h_rx tick (Z.to_nat (num_devices s)) flag s in
  let! (flag, s) := d2h_noc tick flag s in
  let! (flag, s, host_bus) := d2h_tx tick flag s host_bus in
  Ok (if skip then set_skip_cycle flag s else s, dev_buses, host_bus).

End Switch.
