(* ===== verification/SwitchRun.v ===== *)
(** * What the switch guarantees

    Proofs about [CXLSwitch::update].  Towards the host, the flits of the
    ports are merged into one stream that is legal although each port sends
    its own legal stream: a port keeps the grant while the data of its last
    header is incomplete.  The cycles skipped under [SKIP_CYCLE] are those in
    which nothing would have happened. *)
From Stdlib Require Import ZArith Lia Bool String.
From stdpp Require Import base list gmap.
From S2P Require Import Prelude Flit CxlBuf Samples CxlBus Packing CxlSwitch.

#[local] Existing Instance s2m_dialect.

(** ** Maps *)
Lemma om_get_set {X} k k' (x : X) m :
  om_get k' (om_set k x m) = if decide (k' = k) then Some x else om_get k' m.
Proof.
  induction m as [|[k1 y] m IH]; simpl.
  { case_decide; subst; [by rewrite Z.eqb_refl | by rewrite (proj2 (Z.eqb_neq _ _))]. }
  destruct (Z.ltb_spec k k1), (Z.eqb_spec k k1); simpl; rewrite ?IH;
    repeat case_decide; subst; rewrite ?Z.eqb_refl; try done; try lia;
    rewrite ?(proj2 (Z.eqb_neq _ _)) by lia; try done;
    destruct (k' =? k1) eqn:E; bool_prop; done || lia.
Qed.

(** ** Tracking the rollover *)

(** The effect of a slot on the number of chunks owed, without wrap-around. *)
Definition roll_kind (r : Z) (k : kind) : Z :=
  match k with Hdr => r + 4 | Dat => r - 1 | _ => r end.

Definition roll_ok (r : nat) (ks : list kind) : bool :=
  match
    (if (r =? 4)%nat then if forallb (fun k => kind_eqb k Dat) ks then Some 0 else None
     else if carried r ks then owed_after (free_slots r ks) else None)
  with
  | None => true
  | Some r' => (fold_left roll_kind ks (Z.of_nat r) =? r')
  end &&
  forallb (fun n => match
    (if (r =? 4)%nat then if forallb (fun k => kind_eqb k Dat) ks then Some 0 else None
     else if carried r ks then owed_after (free_slots r ks) else None)
  with
  | None => true
  | Some _ => (0 <=? fold_left roll_kind (take n ks) (Z.of_nat r)) &&
              (fold_left roll_kind (take n ks) (Z.of_nat r) <=? 8)
  end) [0; 1; 2; 3; 4]%nat.

Lemma roll_check :
  forallb (fun r => all_flits (roll_ok r)) [0; 1; 2; 3; 4]%nat = true.
Proof. vm_compute. reflexivity. Qed.

Lemma wf_flit_range r ks r' : wf_flit r ks r' = true -> 0 <= r <= 4.
Proof. intros (_ & _ & [(-> & _)|(? & _)])%wf_flit_inv; lia. Qed.

Lemma roll_wf r ks r' : wf_flit r ks r' = true ->
  fold_left roll_kind ks r = r' /\
  forall n, (n <= 4)%nat -> 0 <= fold_left roll_kind (take n ks) r <= 8.
Proof.
  intros Hw. pose proof (wf_flit_range _ _ _ Hw) as Hr. apply wf_flit_inv in Hw as (Hlen & _ & Hw).
  pose proof roll_check as Hc. rewrite forallb_forall in Hc.
  assert (Hin : In (Z.to_nat r) [0; 1; 2; 3; 4]%nat) by (simpl; lia). specialize (all_flits_spec _ ks (Hc _ Hin) Hlen) as Hk. clear Hc. rename Hk into Hc.
  unfold roll_ok in Hc. rewrite andb_true_iff, forallb_forall in Hc.
  replace (if (Z.to_nat r =? 4)%nat then _ else _) with (Some r') in Hc.
  - rewrite Z2Nat.id in Hc by lia. destruct Hc as [H1 H2]. split; [by bool_prop|].
    intros n Hn. specialize (H2 n ltac:(simpl; lia)). bool_prop. lia.
  - destruct Hw as [(-> & Ha & ->)|(Hr3 & Hca & Hw)].
    + change (Z.to_nat 4) with 4%nat. cbn [Nat.eqb]. by rewrite Ha.
    + rewrite (proj2 (Nat.eqb_neq _ _)) by lia. by rewrite Hca.
Qed.

Lemma roll_slot_kind r t : 0 <= roll_kind r (kind_of t) <= 8 -> roll_slot r t = roll_kind r (kind_of t).
Proof.
  intros Hr. assert (Hk : kind_of s2m_drs_hdr = Hdr /\ kind_of data = Dat) by done.
  destruct Hk as [K1 K2]. destruct t; rewrite ?K1, ?K2 in *; simpl in *; try done;
    apply u64_small; lia.
Qed.

Lemma roll_slots_kinds ts : forall r,
  (forall n, (n <= length ts)%nat -> 0 <= fold_left roll_kind (take n (map kind_of ts)) r <= 8) ->
  fold_left roll_slot ts r = fold_left roll_kind (map kind_of ts) r.
Proof.
  induction ts as [|t ts IH]; intros r Hn; [done|]. simpl.
  rewrite roll_slot_kind by (apply (Hn 1%nat); simpl; lia). apply IH.
  intros n Hle. apply (Hn (S n)). simpl. lia.
Qed.

Lemma roll_slot_part ts : forall r,
  fold_left roll_slot (map data_part ts) r = fold_left roll_slot ts r.
Proof.
  induction ts as [|t ts IH]; intros r; [done|]. simpl. rewrite IH. by destruct t.
Qed.

(** The counter of the switch follows a legal flit, without wrap-around. *)
Lemma update_rollover_ok f s r' :
  hdr_agrees f -> wf_flit (expected_rollover s) (kinds f) r' = true ->
  update_rollover f s = set_expected_rollover r' s.
Proof.
  intros Ha Hw. pose proof (proj1 (wf_flit_inv _ _ _ Hw)) as Hlen.
  destruct (roll_wf _ _ _ Hw) as [Hr Hn].
  unfold update_rollover. f_equal.
  rewrite <- roll_slot_part, Ha, roll_slot_part, roll_slots_kinds; [done|].
  intros n Hle. apply Hn. unfold kinds in Hlen. rewrite length_map in Hlen. lia.
Qed.

(** ** The flits of the switch on their way to the host *)

(** Flits already granted and not yet sent, oldest first. *)
Definition granted (s : CXLSwitch) : list flit := q_ (upstream_buffer_tx s) ++ q_ (ARB_NOC_d2h s).
(** Flits waiting at a port. *)
Definition port_q `{Indet} (s : CXLSwitch) (i : Z) : list flit := q_ (rx_buf s i).
(** Chunks owed by the port [i] when the flits granted so far are received. *)
Definition port_owes (s : CXLSwitch) (i : Z) : Z :=
  if decide (i = curr_port s) then expected_rollover s else 0.

Section SwitchRun.
Context `{Indet} (p : CXLParams).
Implicit Types s : CXLSwitch.

(** The invariant of the merge: [R] chunks are owed on the bus to the host;
    the granted flits continue that stream up to the value of
    [expected_rollover]; the flits waiting at each port are a legal
    continuation of what the port was granted. *)
Record merge_inv (R : Z) s : Prop := {
  mi_devices : 0 < num_devices s < 2 ^ 31;
  mi_port : 0 <= curr_port s < num_devices s;
  mi_granted : wf_stream R (map kinds (granted s)) (expected_rollover s);
  mi_ports : forall i, 0 <= i < num_devices s ->
    exists r, wf_stream (port_owes s i) (map kinds (port_q s i)) r;
  mi_headers : forall i, 0 <= i < num_devices s -> Forall hdr_agrees (port_q s i)
}.

(** A flit is the same flit with other time stamps. *)
Definition same_flit (f g : flit) : Prop :=
  types g = types f /\ header g = header f /\ ids (packed g) = ids (packed f).

Lemma kinds_same f g : same_flit f g -> kinds g = kinds f.
Proof. unfold kinds. by intros (-> & _ & _). Qed.

Lemma same_at_receipt tick f : same_flit f (at_receipt tick (flit_copy f)).
Proof. rewrite flit_copy_id. done. Qed.

Lemma same_sent member tick f : (forall v m, msg_id (set_msg_tick member v m) = msg_id m) ->
  same_flit f (set_time member tick (at_transmission tick (flit_copy f))).
Proof.
  intros Hm. rewrite flit_copy_id. unfold same_flit. rewrite types_set_time, packed_set_time by done. done.
Qed.

Lemma update_port_fields s : exists c, update_port s = set_curr_port c s /\
  (0 <= curr_port s < num_devices s -> num_devices s < 2 ^ 31 -> 0 <= c < num_devices s) /\
  (expected_rollover s <> 0 -> c = curr_port s).
Proof.
  unfold update_port. destruct (Z.eqb_spec (expected_rollover s) 0) as [E|E].
  - eexists. split; [reflexivity|]. split; [|done]. intros Hc Hn.
    rewrite u64_small by lia. destruct (Z.ltb_spec (curr_port s) (num_devices s - 1)); lia.
  - exists (curr_port s). split; [by destruct s|]. split; done.
Qed.

(** Rotating the grant changes no debt: no port owes data then. *)
Lemma port_owes_update s i : port_owes (update_port s) i = port_owes s i.
Proof.
  destruct (update_port_fields s) as (c & -> & _ & Hk). unfold port_owes. simpl.
  destruct (Z.eq_dec (expected_rollover s) 0) as [E|E].
  - rewrite E. by repeat case_decide.
  - by rewrite (Hk E).
Qed.
Lemma update_port_inv R s : merge_inv R s -> merge_inv R (update_port s).
Proof.
  intros Hi. pose proof (port_owes_update s) as Ho.
  destruct (update_port_fields s) as (c & E & Hc & _). rewrite E in *. destruct Hi as [H1 H2 H3 H4 H5].
  constructor; simpl; try done; [apply Hc; lia|]. intros i Hr. rewrite Ho. by apply H4.
Qed.

(** The host-bound part of the state other than the merge. *)
Definition same_rest s s' : Prop :=
  num_devices s' = num_devices s /\ upstream_buffer_tx s' = upstream_buffer_tx s /\
  last_transmission s' = last_transmission s.

(** What the arbiter did: nothing, or the oldest flit of one port moved to
    the end of the granted flits. *)
Definition arbitrated s s' : Prop :=
  (q_ (ARB_NOC_d2h s') = q_ (ARB_NOC_d2h s) /\
   forall i, port_q s' i = port_q s i /\ port_owes s' i = port_owes s i) \/
  (exists i f g, 0 <= i < num_devices s /\
    port_q s i = f :: port_q s' i /\ same_flit f g /\
    q_ (ARB_NOC_d2h s') = q_ (ARB_NOC_d2h s) ++ [g] /\
    wf_flit (port_owes s i) (kinds f) (port_owes s' i) = true /\
    forall j, j <> i -> port_q s' j = port_q s j /\ port_owes s' j = port_owes s j).

Lemma arbitrated_ext s1 s1' s2 s2' :
  (forall i, port_q s1' i = port_q s1 i /\ port_owes s1' i = port_owes s1 i) ->
  (forall i, port_q s2' i = port_q s2 i /\ port_owes s2' i = port_owes s2 i) ->
  ARB_NOC_d2h s1' = ARB_NOC_d2h s1 -> ARB_NOC_d2h s2' = ARB_NOC_d2h s2 ->
  num_devices s1' = num_devices s1 -> arbitrated s1 s2 -> arbitrated s1' s2'.
Proof.
  intros H1 H2 E1 E2 En [[A1 A2]|(i & f & g & A1 & A2 & A3 & A4 & A5 & A6)]; [left|right].
  - rewrite E1, E2. split; [done|]. intros i. destruct (H1 i) as [-> ->], (H2 i) as [-> ->]. apply A2.
  - exists i, f, g. rewrite E1, E2, En. destruct (H1 i) as [-> ->], (H2 i) as [-> ->].
    do 5 (split; [done|]). intros j Hj. destruct (H1 j) as [-> ->], (H2 j) as [-> ->]. by apply A6.
Qed.

Lemma update_port_same s : (forall i, port_q (update_port s) i = port_q s i /\
    port_owes (update_port s) i = port_owes s i) /\
  ARB_NOC_d2h (update_port s) = ARB_NOC_d2h s /\ same_rest s (update_port s).
Proof.
  split_and!; try by destruct (update_port_fields s) as (c & -> & _).
  intros i. rewrite port_owes_update. by destruct (update_port_fields s) as (c & -> & _).
Qed.

Lemma check_buffer_condition_inv tick b delay flag flag' :
  check_buffer_condition tick b delay flag = Ok (flag', true) -> exists f l, q_ b = f :: l.
Proof.
  unfold check_buffer_condition, is_buf_empty. destruct (q_ b); [done | eauto].
Qed.

(** The grant of one flit at the current port. *)
Definition grant_state (f : flit) (bp ba : CXLBuf flit) s : CXLSwitch :=
  update_port (update_rollover f
    (set_ARB_NOC_d2h ba (set_downstream_buffers_rx
       (om_set (curr_port s) bp (downstream_buffers_rx s)) s))).

Lemma grant_inv R s f g l bp ba : merge_inv R s ->
  port_q s (curr_port s) = f :: l -> q_ bp = l -> same_flit f g ->
  q_ ba = q_ (ARB_NOC_d2h s) ++ [g] ->
  merge_inv R (grant_state g bp ba s) /\ arbitrated s (grant_state g bp ba s) /\
  same_rest s (grant_state g bp ba s).
Proof.
  intros [H1 H2 H3 H4 H5] Hq Hbp Hs Hba.
  destruct (H4 _ H2) as (r & Hw). pose proof (H5 _ H2) as Hh. rewrite Hq in Hw, Hh.
  apply Forall_cons in Hh as [Hf Hl]. unfold port_owes in Hw. rewrite decide_True in Hw by done.
  inversion Hw as [|? ? r1 ? ? Hfw Hlw]; simplify_eq.
  assert (Hg : hdr_agrees g) by (unfold hdr_agrees in *; destruct Hs as (-> & -> & _); done).
  unfold grant_state. rewrite (update_rollover_ok g _ r1) by (rewrite ?(kinds_same _ _ Hs); done).
  match goal with |- context [update_port ?x] => set (s1 := x) end.
  assert (Hpq : forall i, port_q s1 i = if decide (i = curr_port s) then q_ bp else port_q s i).
  { intros i. unfold port_q, rx_buf, s1. simpl. rewrite om_get_set. by case_decide. }
  assert (Hpo : forall i, i <> curr_port s -> port_owes s1 i = port_owes s i).
  { intros i Hi. unfold port_owes, s1. simpl. by rewrite !decide_False by done. }
  assert (Hi1 : merge_inv R s1).
  { constructor; try done.
    - unfold granted, s1 in *. simpl. rewrite Hba, app_assoc, map_app. simpl.
      eapply wf_stream_snoc; [exact H3|]. by rewrite (kinds_same _ _ Hs).
    - intros i Hr. rewrite Hpq. destruct (decide (i = curr_port s)) as [->|Hne].
      + exists r. unfold port_owes, s1. simpl. by rewrite decide_True.
      + rewrite Hpo by done. by apply H4.
    - intros i Hr. rewrite Hpq. case_decide; [done | by apply H5]. }
  split; [by apply update_port_inv|].
  destruct (update_port_same s1) as (U1 & U2 & U3). split; [|exact U3].
  apply (arbitrated_ext s s s1); try done. right. exists (curr_port s), f, g.
  rewrite Hpq, decide_True by done. do 4 (split; [done|]). split.
  - unfold port_owes, s1. simpl. by rewrite !decide_True.
  - intros j Hj. rewrite Hpq, decide_False by done. by rewrite Hpo.
Qed.

Lemma same_rest_trans s1 s2 s3 : same_rest s1 s2 -> same_rest s2 s3 -> same_rest s1 s3.
Proof. unfold same_rest. intuition congruence. Qed.

(** The loop over the ports. *)
Lemma d2h_rx_spec R tick n : forall flag s flag' s', merge_inv R s ->
  d2h_rx p tick n flag s = Ok (flag', s') ->
  merge_inv R s' /\ arbitrated s s' /\ same_rest s s'.
Proof.
  induction n as [|n IH]; intros flag s flag' s' Hi E; cbn [d2h_rx] in E.
  { res_inv. split; [done|]. split; [by left | done]. }
  apply bind_ok_inv in E as ([fl ok] & Ec & E). destruct ok.
  - apply check_buffer_condition_inv in Ec as (f & l & Hq).
    rewrite (get_head_ok _ _ _ Hq) in E. cbn [bind] in E. res_inv.
    apply dequeue_inv in E0 as (f' & Hf & _). rewrite Hq in Hf. injection Hf as -> Hl.
    apply enqueue_inv in E1 as (_ & Hb & _).
    by eapply grant_inv.
  - destruct (update_port_same s) as (U1 & U2 & U3).
    destruct (IH _ _ _ _ (update_port_inv _ _ Hi) E) as (I1 & I2 & I3).
    split; [done|]. split; [|by eapply same_rest_trans].
    apply (arbitrated_ext (update_port s) s s' s'); try done;
      [intros i; by destruct (U1 i) as [-> ->] | by destruct U3 as [-> _]].
Qed.

(** *** The stages that move host-bound flits onwards *)

(** The stages towards the devices do not touch the host-bound flits. *)
Definition up_same s s' : Prop :=
  num_devices s' = num_devices s /\ curr_port s' = curr_port s /\
  expected_rollover s' = expected_rollover s /\
  downstream_buffers_rx s' = downstream_buffers_rx s /\
  ARB_NOC_d2h s' = ARB_NOC_d2h s /\ upstream_buffer_tx s' = upstream_buffer_tx s /\
  last_transmission s' = last_transmission s.

Lemma up_same_refl s : up_same s s.
Proof. done. Qed.
Lemma up_same_trans s1 s2 s3 : up_same s1 s2 -> up_same s2 s3 -> up_same s1 s3.
Proof. unfold up_same. intuition congruence. Qed.

Lemma up_same_inv R s s' : up_same s s' -> merge_inv R s -> merge_inv R s' /\ arbitrated s s' /\
  same_rest s s'.
Proof.
  intros (E1 & E2 & E3 & E4 & E5 & E6 & E7) [H1 H2 H3 H4 H5].
  assert (Hq : forall i, port_q s' i = port_q s i) by (intros i; unfold port_q, rx_buf; by rewrite E4).
  assert (Ho : forall i, port_owes s' i = port_owes s i) by (intros i; unfold port_owes; by rewrite E2, E3).
  split; [|split; [left; by rewrite E5|done]].
  constructor; rewrite ?E1, ?E2, ?E3; try done.
  - unfold granted. by rewrite E5, E6.
  - intros i Hi. rewrite Hq, Ho. by apply H4.
  - intros i Hi. rewrite Hq. by apply H5.
Qed.

Lemma h2d_rx_up tick flag s flag' s' : h2d_rx p tick flag s = Ok (flag', s') -> up_same s s'.
Proof.
  unfold h2d_rx. intros E. apply bind_ok_inv in E as ([fl ok] & _ & E). destruct ok; by res_inv.
Qed.
Lemma h2d_noc_up tick flag s flag' s' : h2d_noc p tick flag s = Ok (flag', s') -> up_same s s'.
Proof.
  unfold h2d_noc. intros E. apply bind_ok_inv in E as ([fl ok] & _ & E). destruct ok; by res_inv.
Qed.
Lemma h2d_tx_up tick ports : forall flag s buses flag' s' buses',
  h2d_tx p tick ports flag s buses = Ok (flag', s', buses') -> up_same s s'.
Proof.
  induction ports as [|q ports IH]; intros flag s buses flag' s' buses' E; simpl in E; [by res_inv|].
  apply bind_ok_inv in E as ([[fl s1] b1] & E1 & E). apply IH in E.
  eapply up_same_trans; [|exact E]. unfold h2d_tx_port in E1.
  apply bind_ok_inv in E1 as ([fl' ok] & _ & E1). destruct ok; [|by res_inv].
  destruct (om_get q buses); [|done]. destruct (check_transmission _ _ _ _); by res_inv.
Qed.

(** Moving on to the port of the host keeps the granted flits in order. *)
Lemma same_refl l : Forall2 same_flit l l.
Proof. induction l; constructor; done. Qed.

Lemma d2h_noc_spec tick flag s flag' s' : d2h_noc p tick flag s = Ok (flag', s') ->
  Forall2 same_flit (granted s) (granted s') /\
  exists ba bt, s' = set_ARB_NOC_d2h ba (set_upstream_buffer_tx bt s).
Proof.
  unfold d2h_noc. intros E. apply bind_ok_inv in E as ([fl ok] & Ec & E). destruct ok.
  - apply check_buffer_condition_inv in Ec as (f & l & Hq).
    rewrite (get_head_ok _ _ _ Hq) in E. cbn [bind] in E. res_inv.
    apply dequeue_inv in E0 as (f' & Hf & _). rewrite Hq in Hf. injection Hf as <- Hl.
    apply enqueue_inv in E1 as (_ & Hb & _). split; [|by exists v, v0; destruct s].
    unfold granted. simpl in *. rewrite Hb, Hq, Hl, <- app_assoc.
    apply Forall2_app; [apply same_refl|]. constructor; [apply same_at_receipt | apply same_refl].
  - res_inv. split; [apply same_refl|]. exists (ARB_NOC_d2h s'), (upstream_buffer_tx s'). by destruct s'.
Qed.

Lemma d2h_tx_spec tick flag s bus flag' s' bus' : d2h_tx p tick flag s bus = Ok (flag', s', bus') ->
  (exists bt lt, s' = set_last_transmission lt (set_upstream_buffer_tx bt s)) /\
  exists out, flit_slots bus' = flit_slots bus ++ out /\
    Forall2 same_flit (granted s) (out ++ granted s').
Proof.
  unfold d2h_tx. intros E. apply bind_ok_inv in E as ([fl ok] & Ec & E).
  destruct (ok && check_transmission p tick (last_transmission s) bus) eqn:Hok.
  - apply andb_true_iff in Hok as [-> _]. apply check_buffer_condition_inv in Ec as (f & l & Hq).
    rewrite (get_head_ok _ _ _ Hq) in E. cbn [bind] in E. res_inv.
    apply dequeue_inv in E0 as (f' & Hf & _). rewrite Hq in Hf. injection Hf as <- Hl.
    apply add_to_bus_inv in E1 as [E1 _]. split; [by do 2 eexists|]. eexists [_]. split; [exact E1|].
    unfold granted. simpl. rewrite Hq, Hl. constructor; [by apply same_sent | apply same_refl].
  - res_inv. split; [exists (upstream_buffer_tx s'), (last_transmission s'); by destruct s'|].
    exists []. rewrite app_nil_r. split; [done | apply same_refl].
Qed.

(** ** One update, as seen from the host side *)

Definition of_port (i : Z) (mv : list (Z * flit)) : list flit :=
  map snd (List.filter (fun x => fst x =? i) mv).

(** [mv] lists the flits granted, with their ports; [out] those sent. *)
Definition merged s s' (mv : list (Z * flit)) (out : list flit) : Prop :=
  Forall2 same_flit (granted s ++ map snd mv) (out ++ granted s') /\
  forall i, port_q s i = of_port i mv ++ port_q s' i /\
    wf_stream (port_owes s i) (map kinds (of_port i mv)) (port_owes s' i).

Lemma map_kinds_same l l' : Forall2 same_flit l l' -> map kinds l' = map kinds l.
Proof. induction 1 as [|f g l l' Hf _ IH]; [done|]. simpl. by rewrite IH, (kinds_same _ _ Hf). Qed.

Lemma same_trans l1 l2 l3 : Forall2 same_flit l1 l2 -> Forall2 same_flit l2 l3 -> Forall2 same_flit l1 l3.
Proof.
  intros Ha. revert l3. induction Ha as [|f g l l' Hf _ IH]; intros l3 Hb; inversion Hb; subst; [done|].
  constructor; [|by apply IH]. unfold same_flit in *. intuition congruence.
Qed.

Lemma wf_stream_split r l1 : forall l2 r', wf_stream r (l1 ++ l2) r' ->
  exists r1, wf_stream r l1 r1 /\ wf_stream r1 l2 r'.
Proof.
  revert r. induction l1 as [|k l1 IH]; intros r l2 r' Hw; simpl in Hw.
  { exists r. split; [constructor|done]. }
  inversion Hw as [|? ? r1 ? ? Hk Hl]; subst. destruct (IH _ _ _ Hl) as (r2 & ? & ?).
  exists r2. split; [by econstructor|done].
Qed.

Lemma arbitrated_merged s s' : same_rest s s' -> arbitrated s s' ->
  exists mv, merged s s' mv [] /\ Forall (fun x => 0 <= fst x < num_devices s) mv.
Proof.
  intros (_ & Et & _) [[Hq Hp]|(i & f & g & Hi & Hq & Hs & Hb & Hw & Hj)].
  - exists []. split; [|done]. split.
    + unfold granted. rewrite Et, Hq, app_nil_r. apply same_refl.
    + intros i. destruct (Hp i) as [-> ->]. split; [done|constructor].
  - exists [(i, f)]. split; [|by constructor]. split.
    + unfold granted. rewrite Et, Hb. simpl. rewrite <- app_assoc.
      apply Forall2_app; [apply same_refl|]. apply Forall2_app; [apply same_refl|by constructor].
    + intros j. unfold of_port. simpl. destruct (Z.eqb_spec i j) as [->|Hne]; simpl.
      * split; [done|]. by econstructor; [|constructor].
      * destruct (Hj j) as [-> ->]; [done|]. split; [done|constructor].
Qed.

Lemma merged_out s s1 s2 mv out : merged s s1 mv [] ->
  Forall2 same_flit (granted s1) (out ++ granted s2) ->
  (forall i, port_q s2 i = port_q s1 i /\ port_owes s2 i = port_owes s1 i) ->
  merged s s2 mv out.
Proof.
  intros [Hg Hp] Ho Hs. split.
  - eapply same_trans; [exact Hg | exact Ho].
  - intros i. destruct (Hs i) as [-> ->]. apply Hp.
Qed.

Lemma merged_inv R s1 s2 out : merge_inv R s1 ->
  Forall2 same_flit (granted s1) (out ++ granted s2) ->
  num_devices s2 = num_devices s1 -> curr_port s2 = curr_port s1 ->
  expected_rollover s2 = expected_rollover s1 -> downstream_buffers_rx s2 = downstream_buffers_rx s1 ->
  exists R', wf_stream R (map kinds out) R' /\ merge_inv R' s2.
Proof.
  intros [H1 H2 H3 H4 H5] Hs En Ec Ee Eb. apply map_kinds_same in Hs. rewrite <- Hs, map_app in H3.
  apply wf_stream_split in H3 as (R' & Ho & Hg). exists R'. split; [done|].
  constructor; rewrite ?En, ?Ec, ?Ee; try done; intros i Hi; unfold port_q, rx_buf, port_owes;
    rewrite ?Eb, ?Ec, ?Ee; [by apply H4 | by apply H5].
Qed.

Lemma switch_update_spec R skip tick s db hb s' db' hb' : merge_inv R s ->
  switch_update p skip tick s db hb = Ok (s', db', hb') ->
  exists mv out R', flit_slots hb' = flit_slots hb ++ out /\ wf_stream R (map kinds out) R' /\
    merge_inv R' s' /\ merged s s' mv out /\ num_devices s' = num_devices s /\
    Forall (fun x => 0 <= fst x < num_devices s) mv.
Proof.
  intros Hi. unfold switch_update. destruct (skip && skip_cycle s && all_rx_buf_empty s).
  { intros [= -> -> ->]. exists [], [], R. rewrite app_nil_r. split_and!; try done; [constructor|].
    split; [rewrite app_nil_r; apply same_refl|]. intros i. split; [done|constructor]. }
  intros E. apply bind_ok_inv in E as ([f1 s1] & E1 & E). apply bind_ok_inv in E as ([f2 s2] & E2 & E).
  apply bind_ok_inv in E as ([[f3 s3] b3] & E3 & E). apply bind_ok_inv in E as ([f4 s4] & E4 & E).
  apply bind_ok_inv in E as ([f5 s5] & E5 & E). apply bind_ok_inv in E as ([[f6 s6] b6] & E6 & E).
  injection E as Hs' -> ->.
  pose proof (up_same_trans _ _ _ (h2d_rx_up _ _ _ _ _ E1)
    (up_same_trans _ _ _ (h2d_noc_up _ _ _ _ _ E2) (h2d_tx_up _ _ _ _ _ _ _ _ E3))) as Hup.
  destruct (up_same_inv R s s3 Hup Hi) as (Hi3 & Ha3 & Hr3).
  destruct (d2h_rx_spec _ _ _ _ _ _ _ Hi3 E4) as (Hi4 & Ha4 & Hr4).
  apply d2h_noc_spec in E5 as (Hg5 & ba & bt & H5). apply d2h_tx_spec in E6 as ((bt' & lt & H6) & out & Ho & Hg6).
  pose proof (same_trans _ _ _ Hg5 Hg6) as Hg. subst s6 s5.
  destruct (arbitrated_merged s s4) as (mv & Hm & Hf).
  { by eapply same_rest_trans. }
  { destruct Hup as (U1 & U2 & U3 & U4 & U5 & U6 & U7).
    apply (arbitrated_ext s3 s s4 s4); try done. intros i. unfold port_q, rx_buf, port_owes.
    by rewrite U2, U3, U4. }
  assert (Hgo : granted s' = granted (set_last_transmission lt
    (set_upstream_buffer_tx bt' (set_ARB_NOC_d2h ba (set_upstream_buffer_tx bt s4))))) by (subst; by destruct skip).
  rewrite <- Hgo in Hg.
  destruct (merged_inv R s4 s' out Hi4) as (R' & Hw & Hi'); try (subst; by destruct skip).
  exists mv, out, R'. do 3 (split; [done|]). split; [|split; [|done]].
  - eapply merged_out; [exact Hm | exact Hg|]. intros i. subst. by destruct skip.
  - destruct Hr3 as [<- _]. destruct Hr4 as [<- _]. subst. by destruct skip.
Qed.

(** ** Runs of the switch *)

(** Flits arrive at the ports at any time ([CXLBus::send_to_node] enqueues
    them) and the switch is updated at any time, with any buses.  [A] lists
    the arrivals from the devices with their ports, [O] the flits put on the
    bus to the host. *)
Inductive switch_run (s0 : CXLSwitch) : list (Z * flit) -> list flit -> CXLSwitch -> Prop :=
| run_start : switch_run s0 [] [] s0
| run_device A O s i f b : switch_run s0 A O s -> 0 <= i < num_devices s ->
    enqueue f (rx_buf s i) = Ok b ->
    switch_run s0 (A ++ [(i, f)]) O
      (set_downstream_buffers_rx (om_set i b (downstream_buffers_rx s)) s)
| run_host A O s f b : switch_run s0 A O s -> enqueue f (upstream_buffer_rx s) = Ok b ->
    switch_run s0 A O (set_upstream_buffer_rx b s)
| run_update A O s skip tick db hb s' db' hb' out : switch_run s0 A O s ->
    switch_update p skip tick s db hb = Ok (s', db', hb') ->
    flit_slots hb' = flit_slots hb ++ out -> switch_run s0 A (O ++ out) s'.

(** Nothing is on its way to the host. *)
Record quiet s : Prop := {
  qu_devices : 0 < num_devices s < 2 ^ 31;
  qu_port : curr_port s = 0;
  qu_rollover : expected_rollover s = 0;
  qu_granted : granted s = [];
  qu_ports : forall i, port_q s i = []
}.

Lemma of_port_app i l1 l2 : of_port i (l1 ++ l2) = of_port i l1 ++ of_port i l2.
Proof. unfold of_port. by rewrite List.filter_app, map_app. Qed.

Lemma wf_flit_det r ks r1 r2 : wf_flit r ks r1 = true -> wf_flit r ks r2 = true -> r1 = r2.
Proof.
  intros (_ & _ & H1)%wf_flit_inv (_ & _ & H2)%wf_flit_inv.
  destruct H1 as [(? & _ & ->)|(? & _ & E1)], H2 as [(? & _ & ->)|(? & _ & E2)]; try lia. congruence.
Qed.
Lemma wf_stream_det r l r1 : wf_stream r l r1 -> forall r2, wf_stream r l r2 -> r1 = r2.
Proof.
  induction 1 as [|r k r1 l r2 Hk Hl IH]; intros r3 Hw; inversion Hw as [|? ? r4 ? ? Hk4 Hl4]; subst; [done|].
  apply IH. by rewrite (wf_flit_det _ _ _ _ Hk Hk4).
Qed.

(** The arrivals of every port form a legal stream. *)
Definition ports_legal (A : list (Z * flit)) : Prop :=
  forall i, Forall hdr_agrees (of_port i A) /\ exists r, wf_stream 0 (map kinds (of_port i A)) r.

Lemma ports_legal_prefix A x : ports_legal (A ++ [x]) -> ports_legal A.
Proof.
  intros Hl i. destruct (Hl i) as [Hh (r & Hw)]. rewrite of_port_app in Hh, Hw.
  rewrite map_app in Hw. apply Forall_app in Hh as [Hh _].
  apply wf_stream_split in Hw as (r1 & Hw & _). eauto.
Qed.

(** [log]: the granted flits with their ports. *)
Record run_inv (A : list (Z * flit)) (O : list flit) s (log : list (Z * flit)) (R : Z) : Prop := {
  ri_merge : merge_inv R s;
  ri_out : wf_stream 0 (map kinds O) R;
  ri_log : Forall2 same_flit (map snd log) (O ++ granted s);
  ri_ports : forall i, of_port i A = of_port i log ++ port_q s i;
  ri_owes : forall i, wf_stream 0 (map kinds (of_port i log)) (port_owes s i)
}.

Lemma run_inv_start s0 : quiet s0 -> run_inv [] [] s0 [] 0.
Proof.
  intros [H1 H2 H3 H4 H5]. assert (Ho : forall i, port_owes s0 i = 0).
  { intros i. unfold port_owes. rewrite H3. by case_decide. }
  constructor.
  - constructor; rewrite ?H2, ?H3, ?H4; [done|lia|apply wf_nil|..]; intros i _; rewrite H5;
      [eexists; apply wf_nil|done].
  - apply wf_nil.
  - by rewrite H4.
  - intros i. by rewrite H5.
  - intros i. rewrite Ho. apply wf_nil.
Qed.

Lemma run_inv_device A O s log R i f b : run_inv A O s log R -> ports_legal (A ++ [(i, f)]) ->
  0 <= i < num_devices s -> enqueue f (rx_buf s i) = Ok b ->
  run_inv (A ++ [(i, f)]) O (set_downstream_buffers_rx (om_set i b (downstream_buffers_rx s)) s) log R.
Proof.
  intros [[H1 H2 H3 H4 H5] Ho Hl Hp Hw] Ha Hi Hb. apply enqueue_inv in Hb as (_ & Hb & _).
  set (s' := set_downstream_buffers_rx _ s).
  assert (Hq : forall j, of_port j (A ++ [(i, f)]) = of_port j log ++ port_q s' j).
  { intros j. rewrite of_port_app, Hp, <- app_assoc. f_equal. unfold port_q, rx_buf, s', of_port. simpl.
    rewrite om_get_set. destruct (Z.eqb_spec i j) as [->|Hne]; simpl.
    - rewrite decide_True by done. simpl. by rewrite Hb.
    - by rewrite decide_False, app_nil_r by done. }
  constructor; try done. constructor; try done.
  - intros j Hj. destruct (Ha j) as [_ (r & Hr)]. rewrite Hq, map_app in Hr.
    apply wf_stream_split in Hr as (r1 & Hr1 & Hr). exists r.
    by rewrite (wf_stream_det _ _ _ Hr1 _ (Hw j)) in Hr.
  - intros j Hj. destruct (Ha j) as [Hh _]. rewrite Hq in Hh. by apply Forall_app in Hh as [_ Hh].
Qed.

Lemma run_inv_update A O s log R s' mv out R' : run_inv A O s log R ->
  wf_stream R (map kinds out) R' -> merge_inv R' s' -> merged s s' mv out ->
  run_inv A (O ++ out) s' (log ++ mv) R'.
Proof.
  intros [Hm Ho Hl Hp Hw] Hout Hm' [Hg Hq]. constructor; try done.
  - rewrite map_app. by eapply wf_stream_app.
  - rewrite map_app, <- app_assoc. eapply same_trans; [apply Forall2_app; [exact Hl|apply same_refl]|].
    rewrite <- app_assoc. apply Forall2_app; [apply same_refl | exact Hg].
  - intros i. rewrite Hp, of_port_app, (proj1 (Hq i)). by rewrite app_assoc.
  - intros i. rewrite of_port_app, map_app. eapply wf_stream_app; [apply Hw | apply Hq].
Qed.

Lemma switch_run_inv s0 A O s : quiet s0 -> switch_run s0 A O s -> ports_legal A ->
  exists log R, run_inv A O s log R.
Proof.
  intros Hq. induction 1 as [|A O s i f b Hr IH Hi Hb|A O s f b Hr IH Hb
    |A O s skip tick db hb s' db' hb' out Hr IH E Hout]; intros Ha.
  - exists [], 0. by apply run_inv_start.
  - destruct (IH (ports_legal_prefix _ _ Ha)) as (log & R & Hi'). exists log, R. by apply run_inv_device.
  - destruct (IH Ha) as (log & R & [Hm Ho Hl Hp Hw]). exists log, R. constructor; try done.
    by destruct Hm; constructor.
  - destruct (IH Ha) as (log & R & Hi).
    destruct (switch_update_spec _ _ _ _ _ _ _ _ _ (ri_merge _ _ _ _ _ Hi) E)
      as (mv & out' & R' & Eo & Hw & Hm' & Hmm & _).
    rewrite Hout in Eo. apply app_inv_head in Eo as ->. exists (log ++ mv), R'. by eapply run_inv_update.
Qed.

(** C12: If every device sends a legal stream of flits, the switch sends the
    host one legal stream, however the flits of the devices arrive and
    whenever the switch is updated: data chunks follow their header with no
    flit of another device in between. *)
Theorem switch_merges_legally s0 A O s :
  quiet s0 -> switch_run s0 A O s -> ports_legal A -> exists R, wf_stream 0 (map kinds O) R.
Proof.
  intros Hq Hr Ha. destruct (switch_run_inv _ _ _ _ Hq Hr Ha) as (log & R & Hi).
  exists R. apply Hi.
Qed.

(** C22: The switch loses, duplicates and reorders no flit of a device: the
    flits sent to the host, then those granted, are those of the log, and for
    every port the flits of the log followed by those that wait are the
    arrivals. *)
Theorem switch_keeps_port_order s0 A O s :
  quiet s0 -> switch_run s0 A O s -> ports_legal A ->
  exists log, Forall2 same_flit (map snd log) (O ++ granted s) /\
    forall i, of_port i A = of_port i log ++ port_q s i.
Proof.
  intros Hq Hr Ha. destruct (switch_run_inv _ _ _ _ Hq Hr Ha) as (log & R & Hi).
  exists log. split; apply Hi.
Qed.

(** ** Skipped cycles *)

(** Nothing moves: every buffer behind the receiving ports is empty. *)
Definition pipes_empty s : Prop :=
  is_buf_empty (ARB_NOC_h2d s) = true /\
  Forall (fun q => is_buf_empty (tx_buf s q) = true) (map fst (downstream_buffers_tx s)) /\
  is_buf_empty (ARB_NOC_d2h s) = true /\ is_buf_empty (upstream_buffer_tx s) = true.

Lemma check_empty tick b delay flag : is_buf_empty b = true ->
  check_buffer_condition tick b delay flag = Ok (flag, false).
Proof. unfold check_buffer_condition. intros ->. by rewrite andb_true_r. Qed.

Lemma check_flag tick b delay flag ok : check_buffer_condition tick b delay flag = Ok (true, ok) ->
  flag = true /\ is_buf_empty b = true /\ ok = false.
Proof.
  unfold check_buffer_condition. destruct (is_buf_empty b).
  - rewrite andb_true_r. by intros [= -> <-].
  - rewrite andb_false_r. intros E. by res_inv.
Qed.

(** Empty buffers: the stages do nothing, the grant makes a full turn. *)
Lemma h2d_tx_idle tick ports : forall flag s buses,
  Forall (fun q => is_buf_empty (tx_buf s q) = true) ports ->
  h2d_tx p tick ports flag s buses = Ok (flag, s, buses).
Proof.
  induction ports as [|q ports IH]; intros flag s buses Hp; [done|].
  apply Forall_cons in Hp as [Hq Hp]. simpl. unfold h2d_tx_port. rewrite check_empty by done.
  cbn [bind]. by apply IH.
Qed.

Definition rx_empty s : Prop := forall i, 0 <= i < num_devices s -> is_buf_empty (rx_buf s i) = true.

Lemma turn_step c n : 0 <= c < n -> n < 2 ^ 31 ->
  (if c <? u64 (n - 1) then c + 1 else 0) = (c + 1) mod n.
Proof.
  intros Hc Hn. rewrite u64_small by lia. destruct (Z.ltb_spec c (n - 1)).
  - by rewrite Z.mod_small by lia.
  - replace (c + 1) with n by lia. by rewrite Z.mod_same by lia.
Qed.

Lemma d2h_rx_idle tick k : forall flag s, rx_empty s ->
  0 <= curr_port s < num_devices s -> num_devices s < 2 ^ 31 ->
  d2h_rx p tick k flag s = Ok (flag, set_curr_port
    (if expected_rollover s =? 0 then (curr_port s + Z.of_nat k) mod num_devices s else curr_port s) s).
Proof.
  induction k as [|k IH]; intros flag s He Hc Hn; cbn [d2h_rx].
  { rewrite Z.add_0_r, Z.mod_small by lia. destruct (_ =? 0); by destruct s. }
  rewrite check_empty by (by apply He). cbn [bind]. unfold update_port.
  destruct (expected_rollover s =? 0) eqn:E; [|rewrite IH by done; by rewrite E].
  rewrite turn_step by done. rewrite IH; simpl; [|done| |done]; rewrite ?E.
  - rewrite Zplus_mod_idemp_l. by replace (curr_port s + 1 + Z.of_nat k) with
      (curr_port s + Z.of_nat (S k)) by lia.
  - apply Z.mod_pos_bound. lia.
Qed.

Lemma all_rx_buf_empty_true s : all_rx_buf_empty s = true ->
  rx_empty s /\ is_buf_empty (upstream_buffer_rx s) = true.
Proof.
  unfold all_rx_buf_empty. rewrite andb_true_iff, forallb_forall. intros [Hr Hu]. split; [|done].
  intros i Hi. specialize (Hr (Z.to_nat i) ltac:(apply in_seq; lia)). by rewrite Z2Nat.id in Hr by lia.
Qed.

Lemma update_idle tick s db hb :
  0 <= curr_port s < num_devices s -> num_devices s < 2 ^ 31 ->
  all_rx_buf_empty s = true -> pipes_empty s ->
  switch_update p false tick s db hb = Ok (s, db, hb).
Proof.
  intros Hc Hn (Hr & Hu)%all_rx_buf_empty_true (H1 & H2 & H3 & H4). unfold switch_update. simpl.
  unfold h2d_rx. rewrite check_empty by done. cbn [bind].
  unfold h2d_noc. rewrite check_empty by done. cbn [bind].
  rewrite h2d_tx_idle by done. cbn [bind]. rewrite d2h_rx_idle by done. cbn [bind].
  replace (set_curr_port _ s) with s.
  - unfold d2h_noc. rewrite check_empty by done. cbn [bind].
    unfold d2h_tx. by rewrite check_empty.
  - rewrite Z2Nat.id, <- Z.add_mod_idemp_r, Z.mod_same, Z.add_0_r, Z.mod_small by lia.
    destruct (_ =? 0); by destruct s.
Qed.

(** A flag that is still set: the stage found its buffers empty. *)
Lemma h2d_rx_flag tick flag s s' : h2d_rx p tick flag s = Ok (true, s') -> flag = true /\ s' = s.
Proof.
  unfold h2d_rx. intros E. apply bind_ok_inv in E as ([fl ok] & Ec & E).
  destruct ok; res_inv; by apply check_flag in Ec as (-> & _ & ?).
Qed.
Lemma h2d_noc_flag tick flag s s' : h2d_noc p tick flag s = Ok (true, s') ->
  flag = true /\ s' = s /\ is_buf_empty (ARB_NOC_h2d s) = true.
Proof.
  unfold h2d_noc. intros E. apply bind_ok_inv in E as ([fl ok] & Ec & E).
  destruct ok; res_inv; by apply check_flag in Ec as (-> & ? & ?).
Qed.
Lemma h2d_tx_flag tick ports : forall flag s buses s' buses',
  h2d_tx p tick ports flag s buses = Ok (true, s', buses') ->
  flag = true /\ s' = s /\ Forall (fun q => is_buf_empty (tx_buf s q) = true) ports.
Proof.
  induction ports as [|q ports IH]; intros flag s buses s' buses' E; simpl in E; [by res_inv|].
  apply bind_ok_inv in E as ([[fl s1] b1] & E1 & E). apply IH in E as (-> & -> & Hp).
  unfold h2d_tx_port in E1. apply bind_ok_inv in E1 as ([fl' ok] & Ec & E1).
  assert (fl' = true).
  { destruct ok; [destruct (om_get q buses); [destruct (check_transmission _ _ _ _)|]|]; by res_inv. }
  subst fl'. apply check_flag in Ec as (-> & Hq & ->). res_inv. by repeat constructor.
Qed.
Lemma d2h_rx_flag tick k : forall flag s s', d2h_rx p tick k flag s = Ok (true, s') ->
  flag = true /\ exists c, s' = set_curr_port c s.
Proof.
  induction k as [|k IH]; intros flag s s' E; cbn [d2h_rx] in E.
  { res_inv. split; [done|]. exists (curr_port s'). by destruct s'. }
  apply bind_ok_inv in E as ([fl ok] & Ec & E). destruct ok.
  - apply (f_equal (fun r => match r with Ok (b, _) => b | _ => false end)) in E as Eb. res_inv.
    by apply check_flag in Ec as (_ & _ & ?).
  - apply IH in E as (-> & c & ->). apply check_flag in Ec as (-> & _).
    split; [done|]. destruct (update_port_fields s) as (c' & -> & _). by exists c.
Qed.
Lemma d2h_noc_flag tick flag s s' : d2h_noc p tick flag s = Ok (true, s') ->
  flag = true /\ s' = s /\ is_buf_empty (ARB_NOC_d2h s) = true.
Proof.
  unfold d2h_noc. intros E. apply bind_ok_inv in E as ([fl ok] & Ec & E).
  destruct ok; res_inv; by apply check_flag in Ec as (-> & ? & ?).
Qed.
Lemma d2h_tx_flag tick flag s b s' b' : d2h_tx p tick flag s b = Ok (true, s', b') ->
  flag = true /\ s' = s /\ is_buf_empty (upstream_buffer_tx s) = true.
Proof.
  unfold d2h_tx. intros E. apply bind_ok_inv in E as ([fl ok] & Ec & E).
  destruct (ok && _) eqn:Eo; res_inv; apply check_flag in Ec as (-> & ? & ->); done.
Qed.

(** The stages of an update that is not skipped; the flag is returned. *)
Definition switch_stages tick s dev_buses host_bus : res (bool * CXLSwitch * omap CXLBus * CXLBus) :=
  let! (flag, s) := h2d_rx p tick true s in
  let! (flag, s) := h2d_noc p tick flag s in
  let! (flag, s, dev_buses) := h2d_tx p tick (map fst (downstream_buffers_tx s)) flag s dev_buses in
  let! (flag, s) := d2h_rx p tick (Z.to_nat (num_devices s)) flag s in
  let! (flag, s) := d2h_noc p tick flag s in
  let! (flag, s, host_bus) := d2h_tx p tick flag s host_bus in
  Ok (flag, s, dev_buses, host_bus).

Lemma switch_update_stages skip tick s db hb : switch_update p skip tick s db hb =
  if skip && skip_cycle s && all_rx_buf_empty s then Ok (s, db, hb)
  else let! (flag, s, db, hb) := switch_stages tick s db hb in
       Ok (if skip then set_skip_cycle flag s else s, db, hb).
Proof.
  unfold switch_update, switch_stages. destruct (skip && skip_cycle s && _); [done|].
  rewrite !bind_assoc. destruct (h2d_rx p tick true s) as [[f1 s1]|]; [|done]. cbn [bind].
  rewrite !bind_assoc. destruct (h2d_noc p tick f1 s1) as [[f2 s2]|]; [|done]. cbn [bind].
  rewrite !bind_assoc. destruct (h2d_tx _ _ _ f2 s2 _) as [[[f3 s3] d3]|]; [|done]. cbn [bind].
  rewrite !bind_assoc. destruct (d2h_rx _ _ _ f3 s3) as [[f4 s4]|]; [|done]. cbn [bind].
  rewrite !bind_assoc. destruct (d2h_noc _ _ f4 s4) as [[f5 s5]|]; [|done]. cbn [bind].
  rewrite !bind_assoc. by destruct (d2h_tx _ _ f5 s5 _) as [[[f6 s6] d6]|].
Qed.

Lemma stages_flag tick s db hb s' db' hb' :
  switch_stages tick s db hb = Ok (true, s', db', hb') -> pipes_empty s'.
Proof.
  intros E. unfold switch_stages in E.
  apply bind_ok_inv in E as ([f1 s1] & E1 & E). apply bind_ok_inv in E as ([f2 s2] & E2 & E).
  apply bind_ok_inv in E as ([[f3 s3] b3] & E3 & E). apply bind_ok_inv in E as ([f4 s4] & E4 & E).
  apply bind_ok_inv in E as ([f5 s5] & E5 & E). apply bind_ok_inv in E as ([[f6 s6] b6] & E6 & E).
  injection E as -> -> -> ->. apply d2h_tx_flag in E6 as (-> & -> & H6). apply d2h_noc_flag in E5 as (-> & -> & H5).
  apply d2h_rx_flag in E4 as (-> & c & ->). apply h2d_tx_flag in E3 as (-> & -> & H3).
  apply h2d_noc_flag in E2 as (-> & -> & H2). done.
Qed.

(** The skip flag is set only when nothing is left behind the ports. *)
Definition skip_inv s : Prop := skip_cycle s = true -> pipes_empty s.

(** C33: Skipping cycles changes nothing: with and without [SKIP_CYCLE] an
    update ends the same way, with the same buses and the same state but for
    the flag itself, and the flag is set again only when every buffer behind
    the receiving ports is empty. *)
Theorem switch_skip_sound tick s db hb :
  0 <= curr_port s < num_devices s -> num_devices s < 2 ^ 31 -> skip_inv s ->
  (let! (s1, db1, hb1) := switch_update p true tick s db hb in Ok (set_skip_cycle false s1, db1, hb1)) =
  (let! (s1, db1, hb1) := switch_update p false tick s db hb in Ok (set_skip_cycle false s1, db1, hb1)) /\
  forall s1 db1 hb1, switch_update p true tick s db hb = Ok (s1, db1, hb1) -> skip_inv s1.
Proof.
  intros Hc Hn Hi. destruct (skip_cycle s && all_rx_buf_empty s) eqn:Es.
  - pose proof Es as Es'. apply andb_true_iff in Es' as [Hs He]. rewrite update_idle by auto.
    rewrite switch_update_stages. cbn [andb]. rewrite Es. split; [done|]. by intros ? ? ? [= <- _ _].
  - rewrite !switch_update_stages. cbn [andb]. rewrite Es.
    destruct (switch_stages tick s db hb) as [[[[flag s1] db1] hb1]|] eqn:E; [|done]. cbn [bind].
    split; [done|]. intros s2 db2 hb2 [= <- _ _] Hf. simpl in Hf. subst flag.
    by apply stages_flag in E.
Qed.
End SwitchRun.

Module SwitchWitness.
(** A switch with two devices, as [CXLSys] connects it. *)
Definition sw_of (r : res CXLSwitch) : CXLSwitch :=
  match r with Ok s => s | Abort _ => CXLSwitch_new 8 2 end.
Definition sw0 : CXLSwitch :=
  sw_of (let! s := connect_downstream 0 (0, 4096) (connect_upstream (CXLSwitch_new 8 2)) in
         connect_downstream 1 (4096, 8192) s).
(** A read response of device 0, in two flits, and a write response of
    device 1. *)
Definition with_slots (ts : list slot_type) (f : flit) : flit :=
  set_header (set_hdr_slots ts (header f)) f.
Definition fa : flit := with_slots [m2s_req; m2s_req; s2m_drs_hdr; data]
  (sample_flit (mk_flit_lifetime 0 0 10) no_credits
    [sample_slot empty Req 0 0; sample_slot empty Req 0 0; sample_slot s2m_drs_hdr DRS 5 64;
     sample_slot data DRS 5 64]).
Definition fb : flit := with_slots [m2s_req; data; data; data]
  (sample_flit (mk_flit_lifetime 0 0 11) no_credits
    [sample_slot empty Req 0 0; sample_slot data DRS 5 64; sample_slot data DRS 5 64;
     sample_slot data DRS 5 64]).
Definition fc : flit := with_slots [s2m_ndr; m2s_req; m2s_req; m2s_req]
  (sample_flit (mk_flit_lifetime 0 0 10) no_credits
    [sample_slot s2m_ndr NDR 9 5000; sample_slot empty Req 0 0; sample_slot empty Req 0 0;
     sample_slot empty Req 0 0]).
Definition recv (i : Z) (f : flit) (s : CXLSwitch) : CXLSwitch :=
  match enqueue f (rx_buf s i) with
  | Ok b => set_downstream_buffers_rx (om_set i b (downstream_buffers_rx s)) s
  | Abort _ => s
  end.
Definition host_bus : CXLBus := CXLBus_new main_params 15 2 UpStream switch_host.
Definition dev_buses : omap CXLBus := [(0, host_bus); (1, host_bus)].
Definition upd (tick : Z) (s : CXLSwitch) : CXLSwitch * list flit :=
  match switch_update main_params false tick s dev_buses host_bus with
  | Ok (s, _, b) => (s, flit_slots b)
  | Abort _ => (s, [])
  end.
Fixpoint upds (ticks : list Z) (s : CXLSwitch) : CXLSwitch * list flit :=
  match ticks with
  | [] => (s, [])
  | t :: ticks => let '(s, o) := upd t s in let '(s, o') := upds ticks s in (s, o ++ o')
  end.
Definition sw1 : CXLSwitch := recv 0 fb (recv 1 fc (recv 0 fa sw0)).
Definition ticks : list Z := [200; 350; 500; 650; 800; 950; 1100].
Definition arrivals : list (Z * flit) := [(0, fa); (1, fc); (0, fb)].

Lemma sw0_quiet : quiet sw0.
Proof.
  constructor; [by vm_compute|reflexivity..|]. intros i. unfold port_q, rx_buf. simpl.
  by repeat case_match.
Defined.

Lemma arrivals_legal : ports_legal arrivals.
Proof.
  assert (Ho : forall i, of_port i arrivals = [fa; fb] \/ of_port i arrivals = [fc] \/
    of_port i arrivals = []).
  { intros i. unfold of_port, arrivals. cbn [List.filter fst].
    destruct (Z.eqb_spec 0 i), (Z.eqb_spec 1 i); simpl; auto; lia. }
  intros i. destruct (Ho i) as [-> | [-> | ->]];
    (split; [repeat (apply Forall_cons; split; [reflexivity|]); by apply Forall_nil|]); exists 0.
  - apply (wf_cons _ _ 3); [reflexivity|]. apply (wf_cons _ _ 0); [reflexivity|]. apply wf_nil.
  - apply (wf_cons _ _ 0); [reflexivity|]. apply wf_nil.
  - apply wf_nil.
Defined.

Lemma upds_run l : forall A O s, switch_run main_params sw0 A O s ->
  switch_run main_params sw0 A (O ++ snd (upds l s)) (fst (upds l s)).
Proof.
  induction l as [|t l IH]; intros A O s Hr; simpl; [by rewrite app_nil_r|].
  destruct (upd t s) as [s1 o] eqn:E. destruct (upds l s1) as [s2 o2] eqn:E2. simpl.
  pose proof (IH A (O ++ o) s1) as IH1. rewrite E2, <- app_assoc in IH1. apply IH1.
  unfold upd in E. destruct (switch_update _ _ t s _ _) as [[[s' db'] hb']|] eqn:Eu.
  - injection E as <- <-. by eapply run_update.
  - injection E as <- <-. by rewrite app_nil_r.
Qed.

Lemma sw1_run : switch_run main_params sw0 arrivals [] sw1.
Proof.
  apply (run_device main_params sw0 [(0, fa); (1, fc)] [] (recv 1 fc (recv 0 fa sw0)) 0 fb
           (mk_CXLBuf 8 [fa; fb])); [|by vm_compute|reflexivity].
  apply (run_device main_params sw0 [(0, fa)] [] (recv 0 fa sw0) 1 fc (mk_CXLBuf 8 [fc]));
    [|by vm_compute|reflexivity].
  apply (run_device main_params sw0 [] [] sw0 0 fa (mk_CXLBuf 8 [fa])); [|by vm_compute|reflexivity].
  apply run_start.
Qed.

(** The two flits of device 0 leave together, then the flit of device 1. *)
Lemma switch_merges_legally_witness : quiet sw0 /\ ports_legal arrivals /\
  (exists R, wf_stream 0 (map kinds (snd (upds ticks sw1))) R) /\
  map (fun f => ids (packed f)) (snd (upds ticks sw1)) = [[5]; []; [9]].
Proof.
  split; [exact sw0_quiet|]. split; [exact arrivals_legal|]. split; [|reflexivity].
  apply (switch_merges_legally main_params sw0 arrivals ([] ++ snd (upds ticks sw1)) (fst (upds ticks sw1)));
    [exact sw0_quiet | exact (upds_run ticks _ _ _ sw1_run) | exact arrivals_legal].
Defined.

Lemma switch_keeps_port_order_witness : exists log,
  Forall2 same_flit (map snd log) (snd (upds ticks sw1) ++ granted (fst (upds ticks sw1))) /\
  forall i, of_port i arrivals = of_port i log ++ port_q (fst (upds ticks sw1)) i.
Proof.
  apply (switch_keeps_port_order main_params sw0 arrivals ([] ++ snd (upds ticks sw1)) (fst (upds ticks sw1)));
    [exact sw0_quiet | exact (upds_run ticks _ _ _ sw1_run) | exact arrivals_legal].
Defined.

(** A write for an address of device 1 has reached the arbiter. *)
Definition fw : flit := sample_flit (mk_flit_lifetime 0 0 100) no_credits
  [sample_slot m2s_rwd_hdr RwD 4 5000; sample_slot data RwD 4 5000; sample_slot data RwD 4 5000;
   sample_slot data RwD 4 5000].
Definition sw2 : CXLSwitch := set_ARB_NOC_h2d (mk_CXLBuf 8 [fw]) sw0.

Lemma switch_skip_sound_witness : skip_inv sw2 /\
  (let! (s1, db1, hb1) := switch_update main_params true 300 sw2 dev_buses host_bus in
     Ok (set_skip_cycle false s1, db1, hb1)) =
  (let! (s1, db1, hb1) := switch_update main_params false 300 sw2 dev_buses host_bus in
     Ok (set_skip_cycle false s1, db1, hb1)) /\
  forall s1 db1 hb1, switch_update main_params true 300 sw2 dev_buses host_bus = Ok (s1, db1, hb1) ->
    skip_inv s1.
Proof.
  split; [discriminate|]. apply switch_skip_sound; [by vm_compute | by vm_compute | discriminate].
Defined.
End SwitchWitness.
