(* ===== verification/RamIf.v ===== *)
(** * Requests and the buffer between CXL and the memory model

    [ramulator/src/Request.h], [ramulator/src/CXLInterface.{h,cpp}] and
    [message2ramulator_req] of [src/utils.cpp]. *)
From Stdlib Require Import ZArith Lia Bool String.
From stdpp Require Import base list gmap.
From S2P Require Import Prelude Flit.

(** [Request::Type] *)
Inductive ReqType : Type := READ | WRITE | REFRESH | POWERDOWN | SELFREFRESH | EXTENSION | REQ_MAX.
#[global] Instance ReqType_eq_dec : EqDecision ReqType.
Proof. solve_decision. Defined.
Definition ReqType_eqb (a b : ReqType) : bool := bool_decide (a = b).

(** [CXL_IF::status_type] *)
Inductive status_type : Type := VALID | EMPTY | END.
#[global] Instance status_type_eq_dec : EqDecision status_type.
Proof. solve_decision. Defined.

Record ramulator_req : Type := mk_ramulator_req {
  rr_id : Z;
  rr_status : status_type;
  rr_addr : Z;
  rr_type : ReqType
}.

(** [build_req(req_id, req_addr, req_type, stat_type)] *)
Definition build_req (req_id req_addr : Z) (req_type : ReqType) (stat : status_type)
    : ramulator_req := mk_ramulator_req req_id stat req_addr req_type.

(** ** [CXL_if_buf] *)
Record CXL_if_buf : Type := mk_CXL_if_buf {
  if_buf : list ramulator_req;
  if_size : Z
}.
Definition CXL_if_buf_new : CXL_if_buf := mk_CXL_if_buf [] 32.

Definition isEmpty (b : CXL_if_buf) : bool :=
  match if_buf b with [] => true | _ :: _ => false end.
(** [buf.size() >= size_], compared as unsigned numbers *)
Definition isFull (b : CXL_if_buf) : bool := u64 (if_size b) <=? Z.of_nat (length (if_buf b)).

Definition buf_add (r : ramulator_req) (b : CXL_if_buf) : res CXL_if_buf :=
  assert! negb (isFull b), "Overflow CXLDevice->Ramulator buffer" in
  Ok (mk_CXL_if_buf (if_buf b ++ [r]) (if_size b)).

(** The reference parameters are the second component: address, type and
    id, which keep their values ([cur]) where the source does not assign
    them. *)
Definition get_dramtrace_request (cur : Z * ReqType * Z) (b : CXL_if_buf)
    : status_type * (Z * ReqType * Z) * CXL_if_buf :=
  match if_buf b with
  | [] => (EMPTY, (0, REFRESH, snd cur), b)
  | r :: l =>
      match rr_status r with
      | END => (END, cur, b)
      | _ => (VALID, (rr_addr r, rr_type r, rr_id r), mk_CXL_if_buf l (if_size b))
      end
  end.

(** [CXL::message2ramulator_req] *)
Definition message2ramulator_req (m : message) : res ramulator_req :=
  match opCode m with
  | Req => Ok (mk_ramulator_req (msg_id m) VALID (address m) READ)
  | RwD => Ok (mk_ramulator_req (msg_id m) VALID (address m) WRITE)
  | _ => Abort "Illegal message type"
  end.

(** ** The buffer is a bounded FIFO *)

Definition if_ok (b : CXL_if_buf) : Prop :=
  0 <= if_size b < 2 ^ 31 /\ Z.of_nat (length (if_buf b)) <= if_size b.

Lemma isFull_false b : if_ok b -> isFull b = false <-> Z.of_nat (length (if_buf b)) < if_size b.
Proof. intros [? _]. unfold isFull. rewrite u64_small by lia. rewrite Z.leb_gt. lia. Qed.

Lemma buf_add_ok r b : if_ok b -> isFull b = false ->
  exists b', buf_add r b = Ok b' /\ if_buf b' = if_buf b ++ [r] /\ if_ok b'.
Proof.
  intros Hb Hf. unfold buf_add. rewrite Hf. eexists. split; [done|]. split; [done|].
  apply isFull_false in Hf; [|done]. destruct Hb. split; [done|]. simpl.
  rewrite length_app. simpl. lia.
Qed.
