(* ===== verification/CxlDevice.v ===== *)
(** * The CXL device: state and operations

    [CXLDevice] of [include/CXLNode.h] and [src/CXLDevice.cpp]: the flit
    unpacker, the hand-over of requests to the memory model and its
    completion callback, the flit packer with its credits and its sequence
    threshold, the transmitter and the cycle-skipping predicates.  Of the
    member [dram] the record holds the input buffer; the memory model itself
    is described in the files on Ramulator. *)
From Stdlib Require Import ZArith Lia Bool String.
From stdpp Require Import base list gmap.
From S2P Require Import Prelude Flit CxlBuf CxlBus Packing CxlNode RamIf.

(** ** State *)

Record CXLDevice : Type := mk_CXLDevice {
  tx_buffer : CXLBuf flit;
  rx_buffer : CXLBuf flit;
  node_id : Z;
  ext_creds : gmap Z credits;
  int_cred : credits;
  packer_cur_vc : nat;
  M2S_Req : CXLBuf message;
  M2S_RWD : CXLBuf message;
  S2M_NDR : list (CXLBuf message);
  cur_NDR_vc : nat;
  S2M_DRS : list (CXLBuf message);
  cur_DRS_vc : nat;
  inp_buf : CXL_if_buf;
  ramulator_inp_state : round_robin_state;
  unpacker_rollover : Z;
  packer_rollover : Z;
  last_ramulator_update : Z;
  last_rwd_hdr : message;
  last_drs_hdr : message;
  last_transmitted_at : Z;
  packer_seq_length : Z;
  seq_threshold : Z;
  is_packer_waiting : bool;
  started_packing_at : Z;
  packer_wait_time : Z;
  flit_to_pack : flit;
  pkr2_state : round_robin_state;
  messages_in_ramulator : gmap Z message;
  connected_hosts : list Z;
  empty_cycle_packer : Z;
  empty_cycle_unpacker : Z;
  empty_cycle_sent_to_ram : Z;
  empty_cycle_transmit : Z;
  skippable_cycle : Z;
  num_reqs : Z
}.
Definition set_tx_buffer (v : CXLBuf flit) (r : CXLDevice) : CXLDevice :=
  mk_CXLDevice v (rx_buffer r) (node_id r) (ext_creds r) (int_cred r) (packer_cur_vc r) (M2S_Req r) (M2S_RWD r) (S2M_NDR r) (cur_NDR_vc r) (S2M_DRS r) (cur_DRS_vc r) (inp_buf r) (ramulator_inp_state r) (unpacker_rollover r) (packer_rollover r) (last_ramulator_update r) (last_rwd_hdr r) (last_drs_hdr r) (last_transmitted_at r) (packer_seq_length r) (seq_threshold r) (is_packer_waiting r) (started_packing_at r) (packer_wait_time r) (flit_to_pack r) (pkr2_state r) (messages_in_ramulator r) (connected_hosts r) (empty_cycle_packer r) (empty_cycle_unpacker r) (empty_cycle_sent_to_ram r) (empty_cycle_transmit r) (skippable_cycle r) (num_reqs r).
Definition set_rx_buffer (v : CXLBuf flit) (r : CXLDevice) : CXLDevice :=
  mk_CXLDevice (tx_buffer r) v (node_id r) (ext_creds r) (int_cred r) (packer_cur_vc r) (M2S_Req r) (M2S_RWD r) (S2M_NDR r) (cur_NDR_vc r) (S2M_DRS r) (cur_DRS_vc r) (inp_buf r) (ramulator_inp_state r) (unpacker_rollover r) (packer_rollover r) (last_ramulator_update r) (last_rwd_hdr r) (last_drs_hdr r) (last_transmitted_at r) (packer_seq_length r) (seq_threshold r) (is_packer_waiting r) (started_packing_at r) (packer_wait_time r) (flit_to_pack r) (pkr2_state r) (messages_in_ramulator r) (connected_hosts r) (empty_cycle_packer r) (empty_cycle_unpacker r) (empty_cycle_sent_to_ram r) (empty_cycle_transmit r) (skippable_cycle r) (num_reqs r).
Definition set_node_id (v : Z) (r : CXLDevice) : CXLDevice :=
  mk_CXLDevice (tx_buffer r) (rx_buffer r) v (ext_creds r) (int_cred r) (packer_cur_vc r) (M2S_Req r) (M2S_RWD r) (S2M_NDR r) (cur_NDR_vc r) (S2M_DRS r) (cur_DRS_vc r) (inp_buf r) (ramulator_inp_state r) (unpacker_rollover r) (packer_rollover r) (last_ramulator_update r) (last_rwd_hdr r) (last_drs_hdr r) (last_transmitted_at r) (packer_seq_length r) (seq_threshold r) (is_packer_waiting r) (started_packing_at r) (packer_wait_time r) (flit_to_pack r) (pkr2_state r) (messages_in_ramulator r) (connected_hosts r) (empty_cycle_packer r) (empty_cycle_unpacker r) (empty_cycle_sent_to_ram r) (empty_cycle_transmit r) (skippable_cycle r) (num_reqs r).
Definition set_ext_creds (v : gmap Z credits) (r : CXLDevice) : CXLDevice :=
  mk_CXLDevice (tx_buffer r) (rx_buffer r) (node_id r) v (int_cred r) (packer_cur_vc r) (M2S_Req r) (M2S_RWD r) (S2M_NDR r) (cur_NDR_vc r) (S2M_DRS r) (cur_DRS_vc r) (inp_buf r) (ramulator_inp_state r) (unpacker_rollover r) (packer_rollover r) (last_ramulator_update r) (last_rwd_hdr r) (last_drs_hdr r) (last_transmitted_at r) (packer_seq_length r) (seq_threshold r) (is_packer_waiting r) (started_packing_at r) (packer_wait_time r) (flit_to_pack r) (pkr2_state r) (messages_in_ramulator r) (connected_hosts r) (empty_cycle_packer r) (empty_cycle_unpacker r) (empty_cycle_sent_to_ram r) (empty_cycle_transmit r) (skippable_cycle r) (num_reqs r).
Definition set_int_cred (v : credits) (r : CXLDevice) : CXLDevice :=
  mk_CXLDevice (tx_buffer r) (rx_buffer r) (node_id r) (ext_creds r) v (packer_cur_vc r) (M2S_Req r) (M2S_RWD r) (S2M_NDR r) (cur_NDR_vc r) (S2M_DRS r) (cur_DRS_vc r) (inp_buf r) (ramulator_inp_state r) (unpacker_rollover r) (packer_rollover r) (last_ramulator_update r) (last_rwd_hdr r) (last_drs_hdr r) (last_transmitted_at r) (packer_seq_length r) (seq_threshold r) (is_packer_waiting r) (started_packing_at r) (packer_wait_time r) (flit_to_pack r) (pkr2_state r) (messages_in_ramulator r) (connected_hosts r) (empty_cycle_packer r) (empty_cycle_unpacker r) (empty_cycle_sent_to_ram r) (empty_cycle_transmit r) (skippable_cycle r) (num_reqs r).
Definition set_packer_cur_vc (v : nat) (r : CXLDevice) : CXLDevice :=
  mk_CXLDevice (tx_buffer r) (rx_buffer r) (node_id r) (ext_creds r) (int_cred r) v (M2S_Req r) (M2S_RWD r) (S2M_NDR r) (cur_NDR_vc r) (S2M_DRS r) (cur_DRS_vc r) (inp_buf r) (ramulator_inp_state r) (unpacker_rollover r) (packer_rollover r) (last_ramulator_update r) (last_rwd_hdr r) (last_drs_hdr r) (last_transmitted_at r) (packer_seq_length r) (seq_threshold r) (is_packer_waiting r) (started_packing_at r) (packer_wait_time r) (flit_to_pack r) (pkr2_state r) (messages_in_ramulator r) (connected_hosts r) (empty_cycle_packer r) (empty_cycle_unpacker r) (empty_cycle_sent_to_ram r) (empty_cycle_transmit r) (skippable_cycle r) (num_reqs r).
Definition set_M2S_Req (v : CXLBuf message) (r : CXLDevice) : CXLDevice :=
  mk_CXLDevice (tx_buffer r) (rx_buffer r) (node_id r) (ext_creds r) (int_cred r) (packer_cur_vc r) v (M2S_RWD r) (S2M_NDR r) (cur_NDR_vc r) (S2M_DRS r) (cur_DRS_vc r) (inp_buf r) (ramulator_inp_state r) (unpacker_rollover r) (packer_rollover r) (last_ramulator_update r) (last_rwd_hdr r) (last_drs_hdr r) (last_transmitted_at r) (packer_seq_length r) (seq_threshold r) (is_packer_waiting r) (started_packing_at r) (packer_wait_time r) (flit_to_pack r) (pkr2_state r) (messages_in_ramulator r) (connected_hosts r) (empty_cycle_packer r) (empty_cycle_unpacker r) (empty_cycle_sent_to_ram r) (empty_cycle_transmit r) (skippable_cycle r) (num_reqs r).
Definition set_M2S_RWD (v : CXLBuf message) (r : CXLDevice) : CXLDevice :=
  mk_CXLDevice (tx_buffer r) (rx_buffer r) (node_id r) (ext_creds r) (int_cred r) (packer_cur_vc r) (M2S_Req r) v (S2M_NDR r) (cur_NDR_vc r) (S2M_DRS r) (cur_DRS_vc r) (inp_buf r) (ramulator_inp_state r) (unpacker_rollover r) (packer_rollover r) (last_ramulator_update r) (last_rwd_hdr r) (last_drs_hdr r) (last_transmitted_at r) (packer_seq_length r) (seq_threshold r) (is_packer_waiting r) (started_packing_at r) (packer_wait_time r) (flit_to_pack r) (pkr2_state r) (messages_in_ramulator r) (connected_hosts r) (empty_cycle_packer r) (empty_cycle_unpacker r) (empty_cycle_sent_to_ram r) (empty_cycle_transmit r) (skippable_cycle r) (num_reqs r).
Definition set_S2M_NDR (v : list (CXLBuf message)) (r : CXLDevice) : CXLDevice :=
  mk_CXLDevice (tx_buffer r) (rx_buffer r) (node_id r) (ext_creds r) (int_cred r) (packer_cur_vc r) (M2S_Req r) (M2S_RWD r) v (cur_NDR_vc r) (S2M_DRS r) (cur_DRS_vc r) (inp_buf r) (ramulator_inp_state r) (unpacker_rollover r) (packer_rollover r) (last_ramulator_update r) (last_rwd_hdr r) (last_drs_hdr r) (last_transmitted_at r) (packer_seq_length r) (seq_threshold r) (is_packer_waiting r) (started_packing_at r) (packer_wait_time r) (flit_to_pack r) (pkr2_state r) (messages_in_ramulator r) (connected_hosts r) (empty_cycle_packer r) (empty_cycle_unpacker r) (empty_cycle_sent_to_ram r) (empty_cycle_transmit r) (skippable_cycle r) (num_reqs r).
Definition set_cur_NDR_vc (v : nat) (r : CXLDevice) : CXLDevice :=
  mk_CXLDevice (tx_buffer r) (rx_buffer r) (node_id r) (ext_creds r) (int_cred r) (packer_cur_vc r) (M2S_Req r) (M2S_RWD r) (S2M_NDR r) v (S2M_DRS r) (cur_DRS_vc r) (inp_buf r) (ramulator_inp_state r) (unpacker_rollover r) (packer_rollover r) (last_ramulator_update r) (last_rwd_hdr r) (last_drs_hdr r) (last_transmitted_at r) (packer_seq_length r) (seq_threshold r) (is_packer_waiting r) (started_packing_at r) (packer_wait_time r) (flit_to_pack r) (pkr2_state r) (messages_in_ramulator r) (connected_hosts r) (empty_cycle_packer r) (empty_cycle_unpacker r) (empty_cycle_sent_to_ram r) (empty_cycle_transmit r) (skippable_cycle r) (num_reqs r).
Definition set_S2M_DRS (v : list (CXLBuf message)) (r : CXLDevice) : CXLDevice :=
  mk_CXLDevice (tx_buffer r) (rx_buffer r) (node_id r) (ext_creds r) (int_cred r) (packer_cur_vc r) (M2S_Req r) (M2S_RWD r) (S2M_NDR r) (cur_NDR_vc r) v (cur_DRS_vc r) (inp_buf r) (ramulator_inp_state r) (unpacker_rollover r) (packer_rollover r) (last_ramulator_update r) (last_rwd_hdr r) (last_drs_hdr r) (last_transmitted_at r) (packer_seq_length r) (seq_threshold r) (is_packer_waiting r) (started_packing_at r) (packer_wait_time r) (flit_to_pack r) (pkr2_state r) (messages_in_ramulator r) (connected_hosts r) (empty_cycle_packer r) (empty_cycle_unpacker r) (empty_cycle_sent_to_ram r) (empty_cycle_transmit r) (skippable_cycle r) (num_reqs r).
Definition set_cur_DRS_vc (v : nat) (r : CXLDevice) : CXLDevice :=
  mk_CXLDevice (tx_buffer r) (rx_buffer r) (node_id r) (ext_creds r) (int_cred r) (packer_cur_vc r) (M2S_Req r) (M2S_RWD r) (S2M_NDR r) (cur_NDR_vc r) (S2M_DRS r) v (inp_buf r) (ramulator_inp_state r) (unpacker_rollover r) (packer_rollover r) (last_ramulator_update r) (last_rwd_hdr r) (last_drs_hdr r) (last_transmitted_at r) (packer_seq_length r) (seq_threshold r) (is_packer_waiting r) (started_packing_at r) (packer_wait_time r) (flit_to_pack r) (pkr2_state r) (messages_in_ramulator r) (connected_hosts r) (empty_cycle_packer r) (empty_cycle_unpacker r) (empty_cycle_sent_to_ram r) (empty_cycle_transmit r) (skippable_cycle r) (num_reqs r).
Definition set_inp_buf (v : CXL_if_buf) (r : CXLDevice) : CXLDevice :=
  mk_CXLDevice (tx_buffer r) (rx_buffer r) (node_id r) (ext_creds r) (int_cred r) (packer_cur_vc r) (M2S_Req r) (M2S_RWD r) (S2M_NDR r) (cur_NDR_vc r) (S2M_DRS r) (cur_DRS_vc r) v (ramulator_inp_state r) (unpacker_rollover r) (packer_rollover r) (last_ramulator_update r) (last_rwd_hdr r) (last_drs_hdr r) (last_transmitted_at r) (packer_seq_length r) (seq_threshold r) (is_packer_waiting r) (started_packing_at r) (packer_wait_time r) (flit_to_pack r) (pkr2_state r) (messages_in_ramulator r) (connected_hosts r) (empty_cycle_packer r) (empty_cycle_unpacker r) (empty_cycle_sent_to_ram r) (empty_cycle_transmit r) (skippable_cycle r) (num_reqs r).
Definition set_ramulator_inp_state (v : round_robin_state) (r : CXLDevice) : CXLDevice :=
  mk_CXLDevice (tx_buffer r) (rx_buffer r) (node_id r) (ext_creds r) (int_cred r) (packer_cur_vc r) (M2S_Req r) (M2S_RWD r) (S2M_NDR r) (cur_NDR_vc r) (S2M_DRS r) (cur_DRS_vc r) (inp_buf r) v (unpacker_rollover r) (packer_rollover r) (last_ramulator_update r) (last_rwd_hdr r) (last_drs_hdr r) (last_transmitted_at r) (packer_seq_length r) (seq_threshold r) (is_packer_waiting r) (started_packing_at r) (packer_wait_time r) (flit_to_pack r) (pkr2_state r) (messages_in_ramulator r) (connected_hosts r) (empty_cycle_packer r) (empty_cycle_unpacker r) (empty_cycle_sent_to_ram r) (empty_cycle_transmit r) (skippable_cycle r) (num_reqs r).
Definition set_unpacker_rollover (v : Z) (r : CXLDevice) : CXLDevice :=
  mk_CXLDevice (tx_buffer r) (rx_buffer r) (node_id r) (ext_creds r) (int_cred r) (packer_cur_vc r) (M2S_Req r) (M2S_RWD r) (S2M_NDR r) (cur_NDR_vc r) (S2M_DRS r) (cur_DRS_vc r) (inp_buf r) (ramulator_inp_state r) v (packer_rollover r) (last_ramulator_update r) (last_rwd_hdr r) (last_drs_hdr r) (last_transmitted_at r) (packer_seq_length r) (seq_threshold r) (is_packer_waiting r) (started_packing_at r) (packer_wait_time r) (flit_to_pack r) (pkr2_state r) (messages_in_ramulator r) (connected_hosts r) (empty_cycle_packer r) (empty_cycle_unpacker r) (empty_cycle_sent_to_ram r) (empty_cycle_transmit r) (skippable_cycle r) (num_reqs r).
Definition set_packer_rollover (v : Z) (r : CXLDevice) : CXLDevice :=
  mk_CXLDevice (tx_buffer r) (rx_buffer r) (node_id r) (ext_creds r) (int_cred r) (packer_cur_vc r) (M2S_Req r) (M2S_RWD r) (S2M_NDR r) (cur_NDR_vc r) (S2M_DRS r) (cur_DRS_vc r) (inp_buf r) (ramulator_inp_state r) (unpacker_rollover r) v (last_ramulator_update r) (last_rwd_hdr r) (last_drs_hdr r) (last_transmitted_at r) (packer_seq_length r) (seq_threshold r) (is_packer_waiting r) (started_packing_at r) (packer_wait_time r) (flit_to_pack r) (pkr2_state r) (messages_in_ramulator r) (connected_hosts r) (empty_cycle_packer r) (empty_cycle_unpacker r) (empty_cycle_sent_to_ram r) (empty_cycle_transmit r) (skippable_cycle r) (num_reqs r).
Definition set_last_ramulator_update (v : Z) (r : CXLDevice) : CXLDevice :=
  mk_CXLDevice (tx_buffer r) (rx_buffer r) (node_id r) (ext_creds r) (int_cred r) (packer_cur_vc r) (M2S_Req r) (M2S_RWD r) (S2M_NDR r) (cur_NDR_vc r) (S2M_DRS r) (cur_DRS_vc r) (inp_buf r) (ramulator_inp_state r) (unpacker_rollover r) (packer_rollover r) v (last_rwd_hdr r) (last_drs_hdr r) (last_transmitted_at r) (packer_seq_length r) (seq_threshold r) (is_packer_waiting r) (started_packing_at r) (packer_wait_time r) (flit_to_pack r) (pkr2_state r) (messages_in_ramulator r) (connected_hosts r) (empty_cycle_packer r) (empty_cycle_unpacker r) (empty_cycle_sent_to_ram r) (empty_cycle_transmit r) (skippable_cycle r) (num_reqs r).
Definition set_last_rwd_hdr (v : message) (r : CXLDevice) : CXLDevice :=
  mk_CXLDevice (tx_buffer r) (rx_buffer r) (node_id r) (ext_creds r) (int_cred r) (packer_cur_vc r) (M2S_Req r) (M2S_RWD r) (S2M_NDR r) (cur_NDR_vc r) (S2M_DRS r) (cur_DRS_vc r) (inp_buf r) (ramulator_inp_state r) (unpacker_rollover r) (packer_rollover r) (last_ramulator_update r) v (last_drs_hdr r) (last_transmitted_at r) (packer_seq_length r) (seq_threshold r) (is_packer_waiting r) (started_packing_at r) (packer_wait_time r) (flit_to_pack r) (pkr2_state r) (messages_in_ramulator r) (connected_hosts r) (empty_cycle_packer r) (empty_cycle_unpacker r) (empty_cycle_sent_to_ram r) (empty_cycle_transmit r) (skippable_cycle r) (num_reqs r).
Definition set_last_drs_hdr (v : message) (r : CXLDevice) : CXLDevice :=
  mk_CXLDevice (tx_buffer r) (rx_buffer r) (node_id r) (ext_creds r) (int_cred r) (packer_cur_vc r) (M2S_Req r) (M2S_RWD r) (S2M_NDR r) (cur_NDR_vc r) (S2M_DRS r) (cur_DRS_vc r) (inp_buf r) (ramulator_inp_state r) (unpacker_rollover r) (packer_rollover r) (last_ramulator_update r) (last_rwd_hdr r) v (last_transmitted_at r) (packer_seq_length r) (seq_threshold r) (is_packer_waiting r) (started_packing_at r) (packer_wait_time r) (flit_to_pack r) (pkr2_state r) (messages_in_ramulator r) (connected_hosts r) (empty_cycle_packer r) (empty_cycle_unpacker r) (empty_cycle_sent_to_ram r) (empty_cycle_transmit r) (skippable_cycle r) (num_reqs r).
Definition set_last_transmitted_at (v : Z) (r : CXLDevice) : CXLDevice :=
  mk_CXLDevice (tx_buffer r) (rx_buffer r) (node_id r) (ext_creds r) (int_cred r) (packer_cur_vc r) (M2S_Req r) (M2S_RWD r) (S2M_NDR r) (cur_NDR_vc r) (S2M_DRS r) (cur_DRS_vc r) (inp_buf r) (ramulator_inp_state r) (unpacker_rollover r) (packer_rollover r) (last_ramulator_update r) (last_rwd_hdr r) (last_drs_hdr r) v (packer_seq_length r) (seq_threshold r) (is_packer_waiting r) (started_packing_at r) (packer_wait_time r) (flit_to_pack r) (pkr2_state r) (messages_in_ramulator r) (connected_hosts r) (empty_cycle_packer r) (empty_cycle_unpacker r) (empty_cycle_sent_to_ram r) (empty_cycle_transmit r) (skippable_cycle r) (num_reqs r).
Definition set_packer_seq_length (v : Z) (r : CXLDevice) : CXLDevice :=
  mk_CXLDevice (tx_buffer r) (rx_buffer r) (node_id r) (ext_creds r) (int_cred r) (packer_cur_vc r) (M2S_Req r) (M2S_RWD r) (S2M_NDR r) (cur_NDR_vc r) (S2M_DRS r) (cur_DRS_vc r) (inp_buf r) (ramulator_inp_state r) (unpacker_rollover r) (packer_rollover r) (last_ramulator_update r) (last_rwd_hdr r) (last_drs_hdr r) (last_transmitted_at r) v (seq_threshold r) (is_packer_waiting r) (started_packing_at r) (packer_wait_time r) (flit_to_pack r) (pkr2_state r) (messages_in_ramulator r) (connected_hosts r) (empty_cycle_packer r) (empty_cycle_unpacker r) (empty_cycle_sent_to_ram r) (empty_cycle_transmit r) (skippable_cycle r) (num_reqs r).
Definition set_seq_threshold (v : Z) (r : CXLDevice) : CXLDevice :=
  mk_CXLDevice (tx_buffer r) (rx_buffer r) (node_id r) (ext_creds r) (int_cred r) (packer_cur_vc r) (M2S_Req r) (M2S_RWD r) (S2M_NDR r) (cur_NDR_vc r) (S2M_DRS r) (cur_DRS_vc r) (inp_buf r) (ramulator_inp_state r) (unpacker_rollover r) (packer_rollover r) (last_ramulator_update r) (last_rwd_hdr r) (last_drs_hdr r) (last_transmitted_at r) (packer_seq_length r) v (is_packer_waiting r) (started_packing_at r) (packer_wait_time r) (flit_to_pack r) (pkr2_state r) (messages_in_ramulator r) (connected_hosts r) (empty_cycle_packer r) (empty_cycle_unpacker r) (empty_cycle_sent_to_ram r) (empty_cycle_transmit r) (skippable_cycle r) (num_reqs r).
Definition set_is_packer_waiting (v : bool) (r : CXLDevice) : CXLDevice :=
  mk_CXLDevice (tx_buffer r) (rx_buffer r) (node_id r) (ext_creds r) (int_cred r) (packer_cur_vc r) (M2S_Req r) (M2S_RWD r) (S2M_NDR r) (cur_NDR_vc r) (S2M_DRS r) (cur_DRS_vc r) (inp_buf r) (ramulator_inp_state r) (unpacker_rollover r) (packer_rollover r) (last_ramulator_update r) (last_rwd_hdr r) (last_drs_hdr r) (last_transmitted_at r) (packer_seq_length r) (seq_threshold r) v (started_packing_at r) (packer_wait_time r) (flit_to_pack r) (pkr2_state r) (messages_in_ramulator r) (connected_hosts r) (empty_cycle_packer r) (empty_cycle_unpacker r) (empty_cycle_sent_to_ram r) (empty_cycle_transmit r) (skippable_cycle r) (num_reqs r).
Definition set_started_packing_at (v : Z) (r : CXLDevice) : CXLDevice :=
  mk_CXLDevice (tx_buffer r) (rx_buffer r) (node_id r) (ext_creds r) (int_cred r) (packer_cur_vc r) (M2S_Req r) (M2S_RWD r) (S2M_NDR r) (cur_NDR_vc r) (S2M_DRS r) (cur_DRS_vc r) (inp_buf r) (ramulator_inp_state r) (unpacker_rollover r) (packer_rollover r) (last_ramulator_update r) (last_rwd_hdr r) (last_drs_hdr r) (last_transmitted_at r) (packer_seq_length r) (seq_threshold r) (is_packer_waiting r) v (packer_wait_time r) (flit_to_pack r) (pkr2_state r) (messages_in_ramulator r) (connected_hosts r) (empty_cycle_packer r) (empty_cycle_unpacker r) (empty_cycle_sent_to_ram r) (empty_cycle_transmit r) (skippable_cycle r) (num_reqs r).
Definition set_packer_wait_time (v : Z) (r : CXLDevice) : CXLDevice :=
  mk_CXLDevice (tx_buffer r) (rx_buffer r) (node_id r) (ext_creds r) (int_cred r) (packer_cur_vc r) (M2S_Req r) (M2S_RWD r) (S2M_NDR r) (cur_NDR_vc r) (S2M_DRS r) (cur_DRS_vc r) (inp_buf r) (ramulator_inp_state r) (unpacker_rollover r) (packer_rollover r) (last_ramulator_update r) (last_rwd_hdr r) (last_drs_hdr r) (last_transmitted_at r) (packer_seq_length r) (seq_threshold r) (is_packer_waiting r) (started_packing_at r) v (flit_to_pack r) (pkr2_state r) (messages_in_ramulator r) (connected_hosts r) (empty_cycle_packer r) (empty_cycle_unpacker r) (empty_cycle_sent_to_ram r) (empty_cycle_transmit r) (skippable_cycle r) (num_reqs r).
Definition set_flit_to_pack (v : flit) (r : CXLDevice) : CXLDevice :=
  mk_CXLDevice (tx_buffer r) (rx_buffer r) (node_id r) (ext_creds r) (int_cred r) (packer_cur_vc r) (M2S_Req r) (M2S_RWD r) (S2M_NDR r) (cur_NDR_vc r) (S2M_DRS r) (cur_DRS_vc r) (inp_buf r) (ramulator_inp_state r) (unpacker_rollover r) (packer_rollover r) (last_ramulator_update r) (last_rwd_hdr r) (last_drs_hdr r) (last_transmitted_at r) (packer_seq_length r) (seq_threshold r) (is_packer_waiting r) (started_packing_at r) (packer_wait_time r) v (pkr2_state r) (messages_in_ramulator r) (connected_hosts r) (empty_cycle_packer r) (empty_cycle_unpacker r) (empty_cycle_sent_to_ram r) (empty_cycle_transmit r) (skippable_cycle r) (num_reqs r).
Definition set_pkr2_state (v : round_robin_state) (r : CXLDevice) : CXLDevice :=
  mk_CXLDevice (tx_buffer r) (rx_buffer r) (node_id r) (ext_creds r) (int_cred r) (packer_cur_vc r) (M2S_Req r) (M2S_RWD r) (S2M_NDR r) (cur_NDR_vc r) (S2M_DRS r) (cur_DRS_vc r) (inp_buf r) (ramulator_inp_state r) (unpacker_rollover r) (packer_rollover r) (last_ramulator_update r) (last_rwd_hdr r) (last_drs_hdr r) (last_transmitted_at r) (packer_seq_length r) (seq_threshold r) (is_packer_waiting r) (started_packing_at r) (packer_wait_time r) (flit_to_pack r) v (messages_in_ramulator r) (connected_hosts r) (empty_cycle_packer r) (empty_cycle_unpacker r) (empty_cycle_sent_to_ram r) (empty_cycle_transmit r) (skippable_cycle r) (num_reqs r).
Definition set_messages_in_ramulator (v : gmap Z message) (r : CXLDevice) : CXLDevice :=
  mk_CXLDevice (tx_buffer r) (rx_buffer r) (node_id r) (ext_creds r) (int_cred r) (packer_cur_vc r) (M2S_Req r) (M2S_RWD r) (S2M_NDR r) (cur_NDR_vc r) (S2M_DRS r) (cur_DRS_vc r) (inp_buf r) (ramulator_inp_state r) (unpacker_rollover r) (packer_rollover r) (last_ramulator_update r) (last_rwd_hdr r) (last_drs_hdr r) (last_transmitted_at r) (packer_seq_length r) (seq_threshold r) (is_packer_waiting r) (started_packing_at r) (packer_wait_time r) (flit_to_pack r) (pkr2_state r) v (connected_hosts r) (empty_cycle_packer r) (empty_cycle_unpacker r) (empty_cycle_sent_to_ram r) (empty_cycle_transmit r) (skippable_cycle r) (num_reqs r).
Definition set_connected_hosts (v : list Z) (r : CXLDevice) : CXLDevice :=
  mk_CXLDevice (tx_buffer r) (rx_buffer r) (node_id r) (ext_creds r) (int_cred r) (packer_cur_vc r) (M2S_Req r) (M2S_RWD r) (S2M_NDR r) (cur_NDR_vc r) (S2M_DRS r) (cur_DRS_vc r) (inp_buf r) (ramulator_inp_state r) (unpacker_rollover r) (packer_rollover r) (last_ramulator_update r) (last_rwd_hdr r) (last_drs_hdr r) (last_transmitted_at r) (packer_seq_length r) (seq_threshold r) (is_packer_waiting r) (started_packing_at r) (packer_wait_time r) (flit_to_pack r) (pkr2_state r) (messages_in_ramulator r) v (empty_cycle_packer r) (empty_cycle_unpacker r) (empty_cycle_sent_to_ram r) (empty_cycle_transmit r) (skippable_cycle r) (num_reqs r).
Definition set_empty_cycle_packer (v : Z) (r : CXLDevice) : CXLDevice :=
  mk_CXLDevice (tx_buffer r) (rx_buffer r) (node_id r) (ext_creds r) (int_cred r) (packer_cur_vc r) (M2S_Req r) (M2S_RWD r) (S2M_NDR r) (cur_NDR_vc r) (S2M_DRS r) (cur_DRS_vc r) (inp_buf r) (ramulator_inp_state r) (unpacker_rollover r) (packer_rollover r) (last_ramulator_update r) (last_rwd_hdr r) (last_drs_hdr r) (last_transmitted_at r) (packer_seq_length r) (seq_threshold r) (is_packer_waiting r) (started_packing_at r) (packer_wait_time r) (flit_to_pack r) (pkr2_state r) (messages_in_ramulator r) (connected_hosts r) v (empty_cycle_unpacker r) (empty_cycle_sent_to_ram r) (empty_cycle_transmit r) (skippable_cycle r) (num_reqs r).
Definition set_empty_cycle_unpacker (v : Z) (r : CXLDevice) : CXLDevice :=
  mk_CXLDevice (tx_buffer r) (rx_buffer r) (node_id r) (ext_creds r) (int_cred r) (packer_cur_vc r) (M2S_Req r) (M2S_RWD r) (S2M_NDR r) (cur_NDR_vc r) (S2M_DRS r) (cur_DRS_vc r) (inp_buf r) (ramulator_inp_state r) (unpacker_rollover r) (packer_rollover r) (last_ramulator_update r) (last_rwd_hdr r) (last_drs_hdr r) (last_transmitted_at r) (packer_seq_length r) (seq_threshold r) (is_packer_waiting r) (started_packing_at r) (packer_wait_time r) (flit_to_pack r) (pkr2_state r) (messages_in_ramulator r) (connected_hosts r) (empty_cycle_packer r) v (empty_cycle_sent_to_ram r) (empty_cycle_transmit r) (skippable_cycle r) (num_reqs r).
Definition set_empty_cycle_sent_to_ram (v : Z) (r : CXLDevice) : CXLDevice :=
  mk_CXLDevice (tx_buffer r) (rx_buffer r) (node_id r) (ext_creds r) (int_cred r) (packer_cur_vc r) (M2S_Req r) (M2S_RWD r) (S2M_NDR r) (cur_NDR_vc r) (S2M_DRS r) (cur_DRS_vc r) (inp_buf r) (ramulator_inp_state r) (unpacker_rollover r) (packer_rollover r) (last_ramulator_update r) (last_rwd_hdr r) (last_drs_hdr r) (last_transmitted_at r) (packer_seq_length r) (seq_threshold r) (is_packer_waiting r) (started_packing_at r) (packer_wait_time r) (flit_to_pack r) (pkr2_state r) (messages_in_ramulator r) (connected_hosts r) (empty_cycle_packer r) (empty_cycle_unpacker r) v (empty_cycle_transmit r) (skippable_cycle r) (num_reqs r).
Definition set_empty_cycle_transmit (v : Z) (r : CXLDevice) : CXLDevice :=
  mk_CXLDevice (tx_buffer r) (rx_buffer r) (node_id r) (ext_creds r) (int_cred r) (packer_cur_vc r) (M2S_Req r) (M2S_RWD r) (S2M_NDR r) (cur_NDR_vc r) (S2M_DRS r) (cur_DRS_vc r) (inp_buf r) (ramulator_inp_state r) (unpacker_rollover r) (packer_rollover r) (last_ramulator_update r) (last_rwd_hdr r) (last_drs_hdr r) (last_transmitted_at r) (packer_seq_length r) (seq_threshold r) (is_packer_waiting r) (started_packing_at r) (packer_wait_time r) (flit_to_pack r) (pkr2_state r) (messages_in_ramulator r) (connected_hosts r) (empty_cycle_packer r) (empty_cycle_unpacker r) (empty_cycle_sent_to_ram r) v (skippable_cycle r) (num_reqs r).
Definition set_skippable_cycle (v : Z) (r : CXLDevice) : CXLDevice :=
  mk_CXLDevice (tx_buffer r) (rx_buffer r) (node_id r) (ext_creds r) (int_cred r) (packer_cur_vc r) (M2S_Req r) (M2S_RWD r) (S2M_NDR r) (cur_NDR_vc r) (S2M_DRS r) (cur_DRS_vc r) (inp_buf r) (ramulator_inp_state r) (unpacker_rollover r) (packer_rollover r) (last_ramulator_update r) (last_rwd_hdr r) (last_drs_hdr r) (last_transmitted_at r) (packer_seq_length r) (seq_threshold r) (is_packer_waiting r) (started_packing_at r) (packer_wait_time r) (flit_to_pack r) (pkr2_state r) (messages_in_ramulator r) (connected_hosts r) (empty_cycle_packer r) (empty_cycle_unpacker r) (empty_cycle_sent_to_ram r) (empty_cycle_transmit r) v (num_reqs r).
Definition set_num_reqs (v : Z) (r : CXLDevice) : CXLDevice :=
  mk_CXLDevice (tx_buffer r) (rx_buffer r) (node_id r) (ext_creds r) (int_cred r) (packer_cur_vc r) (M2S_Req r) (M2S_RWD r) (S2M_NDR r) (cur_NDR_vc r) (S2M_DRS r) (cur_DRS_vc r) (inp_buf r) (ramulator_inp_state r) (unpacker_rollover r) (packer_rollover r) (last_ramulator_update r) (last_rwd_hdr r) (last_drs_hdr r) (last_transmitted_at r) (packer_seq_length r) (seq_threshold r) (is_packer_waiting r) (started_packing_at r) (packer_wait_time r) (flit_to_pack r) (pkr2_state r) (messages_in_ramulator r) (connected_hosts r) (empty_cycle_packer r) (empty_cycle_unpacker r) (empty_cycle_sent_to_ram r) (empty_cycle_transmit r) (skippable_cycle r) v.

Section Device.
Context `{Indet} (p : CXLParams).

(** [CXLDevice::CXLDevice(vc_size, buf_size, node_id)]; [wait_time] is
    [(int64_t)(0.1 * (float)params.ticks_per_ns)]. *)
Definition CXLDevice_new (vc_size buf_size id wait_time : Z) : CXLDevice := {|
  tx_buffer := CXLBuf_new buf_size;
  rx_buffer := CXLBuf_new buf_size;
  node_id := id;
  ext_creds := {[ 0 := no_credits ]};
  int_cred := mk_credits (vc_size - 1) 0 (vc_size - 1);
  packer_cur_vc := 0;
  M2S_Req := CXLBuf_new vc_size;
  M2S_RWD := CXLBuf_new vc_size;
  S2M_NDR := replicate NUM_VC (CXLBuf_new (Z.quot vc_size 4));
  cur_NDR_vc := 0;
  S2M_DRS := replicate NUM_VC (CXLBuf_new (Z.quot vc_size 4));
  cur_DRS_vc := 0;
  inp_buf := CXL_if_buf_new;
  ramulator_inp_state := rr_R;
  unpacker_rollover := 0;
  packer_rollover := 0;
  last_ramulator_update := delay_ramulator_update p;
  last_rwd_hdr := indet_msg;
  last_drs_hdr := indet_msg;
  last_transmitted_at := 0;
  packer_seq_length := 0;
  seq_threshold := 5;
  is_packer_waiting := false;
  started_packing_at := 0;
  packer_wait_time := wait_time;
  flit_to_pack := flit_new;
  pkr2_state := rr_R;
  messages_in_ramulator := ∅;
  connected_hosts := [0];
  empty_cycle_packer := 0;
  empty_cycle_unpacker := 0;
  empty_cycle_sent_to_ram := 0;
  empty_cycle_transmit := 0;
  skippable_cycle := 0;
  num_reqs := 0
|}.

(** ** Unpacking *)

Definition dev_uvc (d : CXLDevice) : uvc :=
  mk_uvc (unpacker_rollover d) (last_rwd_hdr d) (M2S_Req d) (M2S_RWD d).
Definition set_dev_uvc (u : uvc) (d : CXLDevice) : CXLDevice :=
  set_unpacker_rollover (u_roll u) (set_last_rwd_hdr (u_last u)
    (set_M2S_Req (u_plain u) (set_M2S_RWD (u_hdr u) d))).

(** The slots of the first loop: the chunks owed are marked empty before the
    messages are counted. *)
Definition after_rollover (tick : Z) (f : flit) (d : CXLDevice) : res (list slot * uvc) :=
  if negb (unpacker_rollover d =? 0)
  then consume_rollover set_tick_unpacked tick (slots f) (dev_uvc d)
  else Ok (slots f, dev_uvc d).

(** [CXLDevice::FLIT_unpacker] *)
Definition FLIT_unpacker (tick : Z) (d : CXLDevice) : res (bool * CXLDevice) :=
  assert! negb (is_buf_full (rx_buffer d) && is_buf_full (M2S_Req d) && is_buf_full (M2S_RWD d)),
    "Rx side stall!" in
  if is_buf_empty (rx_buffer d) then Ok (false, d)
  else
  let! f := get_head (rx_buffer d) in
  if tick - time_of_receipt (flit_time f) <? delay_rx_buf_to_unpack p then Ok (false, d)
  else
  assert! (unpacker_rollover d <=? 4) && (0 <=? unpacker_rollover d),
    "Rollover data out of range" in
  let! rule := rollover_rule (unpacker_rollover d) f in
  assert! rule, "Data rollover rule violated" in
  let! (l, u) := after_rollover tick f d in
  let! u := process_slots (H0 := m2s_dialect) set_tick_unpacked tick l u in
  let ctr t := countb (fun s => slot_type_eqb (slot_ty s) t) l in
  assert! (ctr m2s_req <=? 2) && (ctr m2s_rwd_hdr <=? 1) && (ctr data <=? 4),
    "Packing rule violated" in
  let d := set_dev_uvc u d in
  let! b := dequeue (rx_buffer d) in
  let d := set_rx_buffer b d in
  let c := cred_at (ext_creds d) 0 in
  let fc := credit (header f) in
  Ok (true, set_ext_creds (<[0 := mk_credits (req_credit c) (rsp_credit c + rsp_credit fc)
                              (data_credit c + data_credit fc)]> (ext_creds d)) d).

(** ** Requests to the memory model *)

Inductive rx_vc : Type := ReqRx | RwdRx.
Definition rx_get (d : CXLDevice) (v : rx_vc) : CXLBuf message :=
  match v with ReqRx => M2S_Req d | RwdRx => M2S_RWD d end.
Definition rx_set (v : rx_vc) (b : CXLBuf message) (d : CXLDevice) : CXLDevice :=
  match v with ReqRx => set_M2S_Req b d | RwdRx => set_M2S_RWD b d end.

(** [CXLDevice::check_rx_vc]; [std::map::insert] does not replace. *)
Definition check_rx_vc (tick : Z) (v : rx_vc) (d : CXLDevice) : res (bool * CXLDevice) :=
  match q_ (rx_get d v) with
  | [] => Ok (false, d)
  | m :: _ =>
      if tick - tick_unpacked (msg_time m) <? delay_vc_to_ramulator p then Ok (false, d)
      else if isFull (inp_buf d) then Ok (false, d)
      else
        let! req := message2ramulator_req m in
        let! ib := buf_add req (inp_buf d) in
        let d := set_inp_buf ib d in
        let d := set_messages_in_ramulator
                   (match messages_in_ramulator d !! msg_id m with
                    | Some _ => messages_in_ramulator d
                    | None => <[msg_id m := m]> (messages_in_ramulator d)
                    end) d in
        let c := int_cred d in
        let! d := match opCode m with
                  | Req => Ok (set_int_cred (mk_credits (req_credit c + 1) (rsp_credit c)
                                               (data_credit c)) d)
                  | RwD => Ok d
                  | _ => Abort "Illegal message type"
                  end in
        let! b := dequeue (rx_get d v) in
        Ok (true, rx_set v b d)
  end.

(** [CXLDevice::send_to_ramulator] *)
Definition send_to_ramulator (tick : Z) (d : CXLDevice) : res (bool * CXLDevice) :=
  assert! negb (is_buf_full (M2S_Req d) && is_buf_full (M2S_RWD d) && isEmpty (inp_buf d)),
    "Ramulator side stall" in
  let try_two v1 s1 v2 s2 :=
    let! (b1, d) := check_rx_vc tick v1 d in
    if b1 : bool then Ok (true, set_ramulator_inp_state s1 d)
    else
      let! (b2, d) := check_rx_vc tick v2 d in
      if b2 : bool then Ok (true, set_ramulator_inp_state s2 d)
      else Ok (false, d) in
  match ramulator_inp_state d with
  | rr_R => try_two RwdRx rr_w ReqRx rr_r
  | rr_r => try_two ReqRx rr_R RwdRx rr_w
  | rr_w => try_two ReqRx rr_R RwdRx rr_w
  | rr_W => Abort "Unknown state in round robin"
  end.

(** [CXLDevice::ramulator_req_notification]; [clks] is the clock of the
    memory model. *)
Definition ramulator_req_notification (tick clks req_id : Z) (d : CXLDevice) : res CXLDevice :=
  match messages_in_ramulator d !! req_id with
  | None => Abort "Ramulator callback is for an unknown request"
  | Some m =>
      let m := set_msg_tick set_ramulator_clk_end clks m in
      let m := set_msg_tick set_tick_ramulator_complete tick m in
      let! d :=
        match opCode m with
        | Req =>
            let! b := enqueue (set_opCode DRS m) (nth (cur_DRS_vc d) (S2M_DRS d) (CXLBuf_new 0)) in
            let d := set_S2M_DRS (<[cur_DRS_vc d := b]> (S2M_DRS d)) d in
            Ok (set_cur_DRS_vc (bump_vc (cur_DRS_vc d)) d)
        | RwD =>
            let! b := enqueue (set_opCode NDR m) (nth (cur_NDR_vc d) (S2M_NDR d) (CXLBuf_new 0)) in
            let d := set_S2M_NDR (<[cur_NDR_vc d := b]> (S2M_NDR d)) d in
            Ok (set_cur_NDR_vc (bump_vc (cur_NDR_vc d)) d)
        | _ => Abort "Unknown input message"
        end in
      Ok (set_messages_in_ramulator (delete req_id (messages_in_ramulator d)) d)
  end.

(** ** Transmission *)

(** [CXLDevice::transmit] *)
Definition transmit (tick : Z) (d : CXLDevice) (tx_bus : CXLBus)
    : res (bool * (CXLDevice * CXLBus)) :=
  if is_buf_empty (tx_buffer d) then Ok (false, (d, tx_bus))
  else if is_full tx_bus then Ok (false, (d, tx_bus))
  else
  let! f := get_head (tx_buffer d) in
  if tick - time_of_creation (flit_time f) <? delay_tx_buf_to_bus p then Ok (false, (d, tx_bus))
  else if tick - last_transmitted_at d <? cxl_bus_ticks_per_dequeue p
  then Ok (false, (d, tx_bus))
  else
  let d := set_last_transmitted_at tick d in
  let f := flit_copy f in
  let f := set_flit_time (set_time_of_transmission tick (flit_time f)) f in
  let f := set_time set_tick_retransmitted tick f in
  let! tx_bus := add_to_bus tick f tx_bus in
  let! b := dequeue (tx_buffer d) in
  Ok (true, (set_tx_buffer b d, tx_bus)).

(** ** Packing *)

(** A pointer to one of the transmitting virtual channels. *)
Inductive tx_vc : Type := NdrTx (j : nat) | DrsTx (j : nat).

Definition vc_get (d : CXLDevice) (v : tx_vc) : CXLBuf message :=
  match v with
  | NdrTx j => nth j (S2M_NDR d) (CXLBuf_new 0)
  | DrsTx j => nth j (S2M_DRS d) (CXLBuf_new 0)
  end.
Definition vc_set (v : tx_vc) (b : CXLBuf message) (d : CXLDevice) : CXLDevice :=
  match v with
  | NdrTx j => set_S2M_NDR (<[j := b]> (S2M_NDR d)) d
  | DrsTx j => set_S2M_DRS (<[j := b]> (S2M_DRS d)) d
  end.

(** The body of the loop of [CXLDevice::check_vcs_for_packing]. *)
Definition try_vc (tick : Z) (v : tx_vc) (j : nat) (d : CXLDevice) : res (bool * CXLDevice) :=
  match q_ (vc_get d v) with
  | [] => Ok (false, d)
  | m :: _ =>
      if delay_vc_to_pack p <=? tick - tick_ramulator_complete (msg_time m) then
        match opCode m with
        | NDR =>
            let d := set_ext_creds (cred_touch (ext_creds d) 0) d in
            if negb (rsp_credit (cred_at (ext_creds d) 0) =? 0)
            then Ok (true, set_packer_cur_vc (next_cur_vc (packer_cur_vc d) j) d)
            else Ok (false, d)
        | DRS =>
            let d := set_ext_creds (cred_touch (ext_creds d) 0) d in
            if negb (data_credit (cred_at (ext_creds d) 0) =? 0) &&
               (packer_seq_length d <? seq_threshold d)
            then Ok (true, set_packer_cur_vc (next_cur_vc (packer_cur_vc d) j) d)
            else Ok (false, d)
        | _ => Abort "Illegal message type"
        end
      else Ok (false, d)
  end.

Fixpoint check_vcs_loop (tick : Z) (vc : nat -> tx_vc) (ixs : list nat) (d : CXLDevice)
    : res (option tx_vc * CXLDevice) :=
  match ixs with
  | [] => Ok (None, d)
  | i :: ixs =>
      let j := (i mod NUM_VC)%nat in
      let! (found, d) := try_vc tick (vc j) j d in
      if found : bool then Ok (Some (vc j), d) else check_vcs_loop tick vc ixs d
  end.

(** [CXLDevice::check_vcs_for_packing] *)
Definition check_vcs_for_packing (tick : Z) (vc : nat -> tx_vc) (d : CXLDevice)
    : res (option tx_vc * CXLDevice) :=
  check_vcs_loop tick vc (seq (packer_cur_vc d) NUM_VC) d.

(** [CXLDevice::get_msg_from_vcs]; [None] is [valid = false]. *)
Definition get_msg_from_vcs (tick : Z) (d : CXLDevice) : res (option tx_vc * CXLDevice) :=
  match pkr2_state d with
  | rr_r =>
      let! (v, d) := check_vcs_for_packing tick NdrTx d in
      match v with
      | Some v => Ok (Some v, set_pkr2_state rr_R d)
      | None =>
          let! (v, d) := check_vcs_for_packing tick DrsTx d in
          match v with
          | Some v => Ok (Some v, set_pkr2_state rr_w d)
          | None => Ok (None, d)
          end
      end
  | rr_R =>
      let! (v, d) := check_vcs_for_packing tick DrsTx d in
      match v with
      | Some v => Ok (Some v, set_pkr2_state rr_w d)
      | None =>
          let! (v, d) := check_vcs_for_packing tick NdrTx d in
          match v with
          | Some v => Ok (Some v, set_pkr2_state rr_R d)
          | None => Ok (None, d)
          end
      end
  | rr_w =>
      let! (v, d) := check_vcs_for_packing tick NdrTx d in
      match v with
      | Some v => Ok (Some v, set_pkr2_state rr_r d)
      | None =>
          let! (v, d) := check_vcs_for_packing tick DrsTx d in
          match v with
          | Some v => Ok (Some v, set_pkr2_state rr_w d)
          | None => Ok (None, d)
          end
      end
  | rr_W => Abort "Illegal state in round robin"
  end.

(** [CXLDevice::credit_sanity_check] *)
Definition credit_sanity_check (d : CXLDevice) : res unit :=
  assert! (rsp_credit (int_cred d) =? 0), "Rsp cred of device should be 0" in
  assert! (0 <=? req_credit (int_cred d)) && (req_credit (int_cred d) <=? size_ (M2S_Req d)),
    "Req cred of host out of range" in
  assert! (0 <=? data_credit (int_cred d)) && (data_credit (int_cred d) <=? size_ (M2S_RWD d)),
    "Data cred of host out of range" in
  Ok tt.

(** The share of [c] free credits each of [n] hosts is given. *)
Definition credit_share (c n : Z) : Z :=
  if c =? 1 then 1 else if 1 <? c then c / n else 0.

(** [CXLDevice::get_device_credits] *)
Definition get_device_credits (d : CXLDevice) : res (credits * CXLDevice) :=
  let! _ := credit_sanity_check d in
  let n := Z.of_nat (length (connected_hosts d)) in
  let c := int_cred d in
  let req := credit_share (req_credit c) n in
  let dat := credit_share (data_credit c) n in
  Ok (mk_credits req 0 dat,
      set_int_cred (mk_credits (req_credit c - req) (rsp_credit c) (data_credit c - dat)) d).

(** [CXLDevice::add_flit_to_buf(flit_to_pack)] *)
Definition add_flit_to_buf (g : globals) (d : CXLDevice) : res (globals * CXLDevice) :=
  let f := flit_to_pack d in
  let f := set_flit_time (set_time_of_creation (curr_tick g) (flit_time f)) f in
  let! (crds, d) := get_device_credits d in
  let f := set_header (set_credit crds (header f)) f in
  let f := set_time set_tick_repacked (curr_tick g) f in
  let f := set_flit_id (flit_counter g) f in
  let g := set_flit_counter (u64 (flit_counter g + 1)) g in
  let d := set_flit_to_pack f d in
  let! b := enqueue f (tx_buffer d) in
  let d := set_tx_buffer b d in
  let d := set_packer_seq_length
             (if 0 <? packer_rollover d then packer_seq_length d + 1 else 0) d in
  assert! negb ((packer_seq_length d =? seq_threshold d) && (0 <? packer_rollover d)),
    "Device pakcer sequence threshold violated" in
  Ok (g, d).

(** [header.slots[i] = t; slots[i] = s] *)
Definition put_slot (i : nat) (t : slot_type) (s : slot) (f : flit) : flit :=
  set_slot_at i s (set_header (set_hdr_slots (<[i := t]> (hdr_slots (header f))) (header f)) f).

(** A data slot with the id and the address of the last header. *)
Definition put_data (i : nat) (d : CXLDevice) : CXLDevice :=
  set_flit_to_pack
    (put_slot i data (data_slot (last_drs_hdr d) (slot_at (flit_to_pack d) i)) (flit_to_pack d)) d.

(** The packing of one slot from the virtual channel found. *)
Definition pack_slot (i : nat) (v : tx_vc) (d : CXLDevice) : res CXLDevice :=
  let! m := get_head (vc_get d v) in
  match opCode m with
  | NDR =>
      if slot_count_in_flit (flit_to_pack d) s2m_ndr <=? 1 then
        let s := set_slot_ty s2m_ndr (slot_at (flit_to_pack d) i) in
        let s := set_slot_msg (message_copy m) s in
        let d := set_flit_to_pack (put_slot i s2m_ndr s (flit_to_pack d)) d in
        let c := int_cred d in
        let d := set_int_cred (mk_credits (req_credit c) (rsp_credit c) (data_credit c + 1)) d in
        let c := cred_at (ext_creds d) 0 in
        let d := set_ext_creds (<[0 := mk_credits (req_credit c) (rsp_credit c - 1)
                                         (data_credit c)]> (ext_creds d)) d in
        let! b := dequeue (vc_get d v) in
        Ok (vc_set v b d)
      else Ok d
  | DRS =>
      if ((slot_count_in_flit (flit_to_pack d) s2m_drs_hdr =? 0) && (i =? 0)%nat) ||
         ((slot_count_in_flit (flit_to_pack d) s2m_drs_hdr =? 0) &&
          are_all_slots_after_this_empty (flit_to_pack d) i)
      then
        let s := set_slot_ty s2m_drs_hdr (slot_at (flit_to_pack d) i) in
        let d := set_last_drs_hdr (message_copy m) d in
        let s := set_slot_msg (message_copy m) s in
        let d := set_flit_to_pack (put_slot i s2m_drs_hdr s (flit_to_pack d)) d in
        let d := set_packer_rollover 4 d in
        let c := cred_at (ext_creds d) 0 in
        let d := set_ext_creds (<[0 := mk_credits (req_credit c) (rsp_credit c)
                                         (data_credit c - 1)]> (ext_creds d)) d in
        let! b := dequeue (vc_get d v) in
        Ok (vc_set v b d)
      else Ok d
  | _ => Abort "Illegal message type"
  end.

(** The loop over the slots. *)
Fixpoint pack_loop (tick : Z) (ixs : list nat) (d : CXLDevice) : res CXLDevice :=
  match ixs with
  | [] => Ok d
  | i :: ixs =>
      if negb (slot_type_eqb (slot_ty_at (flit_to_pack d) i) empty) then pack_loop tick ixs d
      else if negb (packer_rollover d =? 0) && negb (i =? 0)%nat then
        let d := put_data i d in
        pack_loop tick ixs (set_packer_rollover (packer_rollover d - 1) d)
      else
        let! (v, d) := get_msg_from_vcs tick d in
        match v with
        | None => Ok d
        | Some v => let! d := pack_slot i v d in pack_loop tick ixs d
        end
  end.

(** The data slots of a new flit that are owed from the last one. *)
Definition put_rollover (d : CXLDevice) : res CXLDevice :=
  if packer_rollover d =? 1 then
    Ok (set_packer_rollover (packer_rollover d - 1) (put_data 1 d))
  else if packer_rollover d =? 2 then
    Ok (set_packer_rollover (packer_rollover d - 2) (put_data 2 (put_data 1 d)))
  else if packer_rollover d =? 3 then
    Ok (set_packer_rollover (packer_rollover d - 3) (put_data 3 (put_data 2 (put_data 1 d))))
  else if packer_rollover d =? 4 then
    Ok (set_packer_rollover (packer_rollover d - 4)
          (put_data 3 (put_data 2 (put_data 1 (put_data 0 d)))))
  else Abort "Illegal rollover count".

(** Hand the flit over unless the transmit buffer exerts backpressure. *)
Definition send_packed (g : globals) (d : CXLDevice) : res (bool * (globals * CXLDevice)) :=
  if is_buf_full (tx_buffer d) then Ok (true, (g, d))
  else
    let! (g, d) := add_flit_to_buf g d in
    Ok (true, (g, set_is_packer_waiting false d)).

(** The end of [FLIT_packer]. *)
Definition finish_packing (g : globals) (d : CXLDevice) : res (bool * (globals * CXLDevice)) :=
  let active := negb (is_flit_empty (flit_to_pack d)) in
  let d := if active then set_is_packer_waiting true d else d in
  let drs_count := slot_count_in_flit (flit_to_pack d) s2m_drs_hdr in
  let ndr_count := slot_count_in_flit (flit_to_pack d) s2m_ndr in
  let data_count := slot_count_in_flit (flit_to_pack d) data in
  let flag := packing_violation ndr_count drs_count data_count in
  assert! negb flag, "Packing rule violated on packer side" in
  Ok (active, (g, d)).

(** A packer that is not waiting starts a new flit. *)
Definition start_flit (g : globals) (d : CXLDevice) : CXLDevice :=
  if negb (is_packer_waiting d)
  then set_started_packing_at (curr_tick g) (set_flit_to_pack flit_new d)
  else d.

(** [CXLDevice::FLIT_packer] *)
Definition FLIT_packer (g : globals) (d : CXLDevice) : res (bool * (globals * CXLDevice)) :=
  let d := start_flit g d in
  if is_packer_waiting d && is_flit_full (flit_to_pack d) then send_packed g d
  else if is_packer_waiting d && (packer_wait_time d <? curr_tick g - started_packing_at d) &&
          negb (is_flit_empty (flit_to_pack d)) then send_packed g d
  else
  assert! (0 <=? packer_rollover d) && (packer_rollover d <=? 4),
    "Packer rollover illegal value" in
  if negb (packer_rollover d =? 0) && negb (is_packer_waiting d) then
    let all_data := packer_rollover d =? 4 in
    let! d := put_rollover d in
    if all_data then
      if is_buf_full (tx_buffer d) then Ok (true, (g, set_is_packer_waiting true d))
      else
        let! (g, d) := add_flit_to_buf g d in
        Ok (true, (g, set_is_packer_waiting false d))
    else
      let! d := pack_loop (curr_tick g) (seq 0 4) d in finish_packing g d
  else
    let! d := pack_loop (curr_tick g) (seq 0 4) d in finish_packing g d.

(** ** Cycle skipping *)

Definition head_ready (delay : Z) (tick_of : msg_timing -> Z) (tick : Z) (b : CXLBuf message)
    : bool :=
  match q_ b with
  | [] => false
  | m :: _ => delay <=? tick - tick_of (msg_time m)
  end.

(** [CXLDevice::skip_packer_check]: the age of a response is counted from
    the creation of its request. *)
Definition skip_packer_check (tick : Z) (d : CXLDevice) : bool :=
  if negb (packer_rollover d =? 0) || is_packer_waiting d then false
  else if forallb (fun i => is_buf_empty (nth i (S2M_DRS d) (CXLBuf_new 0)) &&
                            is_buf_empty (nth i (S2M_NDR d) (CXLBuf_new 0))) (seq 0 NUM_VC)
  then true
  else negb (existsb (fun i =>
         head_ready (delay_vc_to_pack p) tick_created tick (nth i (S2M_DRS d) (CXLBuf_new 0)) ||
         head_ready (delay_vc_to_pack p) tick_created tick (nth i (S2M_NDR d) (CXLBuf_new 0)))
         (seq 0 NUM_VC)).

(** [CXLDevice::skip_unpacker_check] *)
Definition skip_unpacker_check (tick : Z) (d : CXLDevice) : bool :=
  match q_ (rx_buffer d) with
  | [] => true
  | f :: _ => tick - time_of_receipt (flit_time f) <? delay_rx_buf_to_unpack p
  end.

(** [CXLDevice::skip_send_to_ram_check] *)
Definition skip_send_to_ram_check (tick : Z) (d : CXLDevice) : bool :=
  if isFull (inp_buf d) then false
  else if is_buf_empty (M2S_Req d) && is_buf_empty (M2S_RWD d) then true
  else if head_ready (delay_vc_to_ramulator p) tick_unpacked tick (M2S_Req d) then false
  else if head_ready (delay_vc_to_ramulator p) tick_unpacked tick (M2S_RWD d) then false
  else true.

(** [CXLDevice::skip_transmit_check] *)
Definition skip_transmit_check (tick : Z) (d : CXLDevice) (tx_bus : CXLBus) : bool :=
  match q_ (tx_buffer d) with
  | [] => true
  | f :: _ =>
      is_full tx_bus ||
      ((tick - time_of_creation (flit_time f) <? delay_tx_buf_to_bus p) ||
       (tick - last_transmitted_at d <? cxl_bus_ticks_per_dequeue p))
  end.

(** ** The tick of a device *)

(** [CXLDevice::update], with [SKIP_CYCLE] defined or not ([skip]); [ram]
    is [access_dram()->update()] on the rest [s] of the member [dram], which
    may call [ramulator_req_notification] back. *)
Definition update {R} (skip : bool) (ram : globals -> CXLDevice -> R -> res (CXLDevice * R))
    (g : globals) (d : CXLDevice) (s : R) (tx_bus : CXLBus) : res (globals * CXLDevice * R * CXLBus) :=
  let tick := curr_tick g in
  let packer_flag2 := negb (skip_packer_check tick d) in
  let! (packer_flag, (g, d)) :=
    if skip && negb packer_flag2 then Ok (false, (g, d)) else FLIT_packer g d in
  let d := if skip && negb packer_flag2
           then set_empty_cycle_packer (u64 (empty_cycle_packer d + 1)) d else d in
  let unpacker_flag2 := negb (skip_unpacker_check tick d) in
  let! (unpacker_flag, d) :=
    if skip && negb unpacker_flag2 then Ok (false, d) else FLIT_unpacker tick d in
  let d := if skip && negb unpacker_flag2
           then set_empty_cycle_unpacker (u64 (empty_cycle_unpacker d + 1)) d else d in
  let send_to_ram_flag2 := negb (skip_send_to_ram_check tick d) in
  let! (send_to_ram_flag, d) :=
    if skip && negb send_to_ram_flag2 then Ok (false, d) else send_to_ramulator tick d in
  let d := if skip && negb send_to_ram_flag2
           then set_empty_cycle_sent_to_ram (u64 (empty_cycle_sent_to_ram d + 1)) d else d in
  let d := if send_to_ram_flag : bool then set_num_reqs (u64 (num_reqs d + 1)) d else d in
  let transmit_flag2 := negb (skip_transmit_check tick d tx_bus) in
  let! (transmit_flag, (d, tx_bus)) :=
    if skip && negb transmit_flag2 then Ok (false, (d, tx_bus)) else transmit tick d tx_bus in
  let d := if skip && negb transmit_flag2
           then set_empty_cycle_transmit (u64 (empty_cycle_transmit d + 1)) d else d in
  let! (d, s) := if Z.rem tick (delay_ramulator_update p) =? 0 then ram g d s else Ok (d, s) in
  let d := set_last_ramulator_update (last_ramulator_update d - 1) d in
  let d := if negb packer_flag2 && negb unpacker_flag2 && negb send_to_ram_flag2 &&
              negb transmit_flag2
           then set_skippable_cycle (u64 (skippable_cycle d + 1)) d else d in
  assert! negb (skip && negb packer_flag2 && packer_flag), "Packer Flag Error" in
  assert! negb (skip && negb unpacker_flag2 && unpacker_flag), "Unpacker Flag Error" in
  assert! negb (skip && negb send_to_ram_flag2 && send_to_ram_flag),
    "Send to ramualtor Flag Error" in
  assert! negb (skip && negb transmit_flag2 && transmit_flag), "Transmit Flag Error" in
  Ok (g, d, s, tx_bus).

End Device.
