(* ===== verification/DevPack.v ===== *)
(** * The device's packer respects the packing protocol

    Proofs about [CXLDevice::FLIT_packer]: it never violates one of its
    assertions, the sequence threshold included, every flit it hands to the
    transmit buffer is legal ([Packing.wf_flit]) after the flits sent
    before, and no response is lost or duplicated on the way from the
    virtual channels to the buffer. *)
From Stdlib Require Import ZArith Lia Bool String.
From stdpp Require Import base list gmap.
From S2P Require Import Prelude Flit CxlBuf Samples CxlBus Packing CxlNode RamIf CxlDevice.

#[local] Existing Instance s2m_dialect.

Lemma kind_ndr u : kind_of u = Plain <-> u = s2m_ndr.
Proof. exact (kind_of_plain u). Qed.
Lemma kind_drs u : kind_of u = Hdr <-> u = s2m_drs_hdr.
Proof. exact (kind_of_hdr u). Qed.

Section DevPack.
Context `{Indet} (p : CXLParams).
Implicit Types d : CXLDevice.

(** ** Searching the virtual channels *)

(** A search moves the round-robin cursor, and may create the entry of the
    host with zero credits. *)
Definition searched d d' : Prop :=
  exists c e, d' = set_packer_cur_vc c (set_ext_creds e d) /\
    forall k, cred_at e k = cred_at (ext_creds d) k.

Lemma dev_searched_refl d : searched d d.
Proof. exists (packer_cur_vc d), (ext_creds d). by destruct d. Qed.

Lemma dev_searched_trans d1 d2 d3 : searched d1 d2 -> searched d2 d3 -> searched d1 d3.
Proof.
  intros (c & e & -> & He) (c' & e' & -> & He'). exists c', e'. split; [done|].
  intros k. rewrite He'. apply He.
Qed.

(** Is the message [m] at the head of a channel eligible for packing? *)
Definition credit_ok (oc : opcode) d : bool :=
  match oc with
  | NDR => negb (rsp_credit (cred_at (ext_creds d) 0) =? 0)
  | DRS => negb (data_credit (cred_at (ext_creds d) 0) =? 0) &&
           (packer_seq_length d <? seq_threshold d)
  | _ => false
  end.
Definition head_eligible (tick : Z) (oc : opcode) d (v : tx_vc) : bool :=
  match q_ (vc_get d v) with
  | m :: _ => (delay_vc_to_pack p <=? tick - tick_ramulator_complete (msg_time m)) && credit_ok oc d
  | [] => false
  end.
Definition available (tick : Z) (oc : opcode) (vc : nat -> tx_vc) d : bool :=
  existsb (fun j => head_eligible tick oc d (vc j)) (seq 0 NUM_VC).

(** The messages of an array of channels have the expected opcode. *)
Definition vcs_ok (oc : opcode) (vc : nat -> tx_vc) d : Prop :=
  forall j, (j < NUM_VC)%nat -> Forall (fun m => opCode m = oc) (q_ (vc_get d (vc j))).

Lemma dev_vc_get_searched d d' v : searched d d' -> vc_get d' v = vc_get d v.
Proof. intros (c & e & -> & _). by destruct v. Qed.

Lemma dev_head_eligible_searched tick oc d d' v : searched d d' ->
  head_eligible tick oc d' v = head_eligible tick oc d v.
Proof.
  intros Hs. unfold head_eligible. rewrite (dev_vc_get_searched _ _ _ Hs).
  destruct Hs as (c & e & -> & He). unfold credit_ok. simpl. by rewrite !He.
Qed.

Lemma dev_available_searched tick oc vc d d' : searched d d' ->
  available tick oc vc d' = available tick oc vc d.
Proof.
  intros Hs. unfold available. simpl. by rewrite !(dev_head_eligible_searched _ _ _ _ _ Hs).
Qed.

Lemma dev_vcs_ok_searched oc vc d d' : searched d d' -> vcs_ok oc vc d -> vcs_ok oc vc d'.
Proof. intros Hs Hv j Hj. rewrite (dev_vc_get_searched _ _ _ Hs). by apply Hv. Qed.

Lemma dev_searched_cur c d : searched d (set_packer_cur_vc c d).
Proof. exists c, (ext_creds d). by destruct d. Qed.

Lemma dev_searched_touch k d : searched d (set_ext_creds (cred_touch (ext_creds d) k) d).
Proof.
  exists (packer_cur_vc d), (cred_touch (ext_creds d) k).
  split; [by destruct d | apply cred_at_touch].
Qed.

(** One channel is tested. *)
Lemma dev_try_vc_spec tick oc v j d :
  oc = NDR \/ oc = DRS -> Forall (fun m => opCode m = oc) (q_ (vc_get d v)) ->
  exists d', try_vc p tick v j d = Ok (head_eligible tick oc d v, d') /\ searched d d'.
Proof.
  intros Hoc Hm. unfold try_vc, head_eligible. destruct (q_ (vc_get d v)) as [|m l].
  { eauto using dev_searched_refl. }
  apply Forall_cons in Hm as [Hop _]. rewrite Hop.
  destruct (delay_vc_to_pack p <=? _); [|eauto using dev_searched_refl].
  pose proof (dev_searched_touch 0 d) as Hs.
  destruct Hoc as [-> | ->]; unfold credit_ok; simpl; rewrite cred_at_touch;
    match goal with |- context [if ?b then Ok _ else _] => destruct b end;
    (eexists; split; [reflexivity|]); try done;
    (eapply dev_searched_trans; [exact Hs | apply dev_searched_cur]).
Qed.

(** The loop finds an eligible head, or there is none. *)
Lemma dev_check_vcs_loop_spec tick oc vc ixs d :
  oc = NDR \/ oc = DRS -> vcs_ok oc vc d ->
  exists v d', check_vcs_loop p tick vc ixs d = Ok (v, d') /\ searched d d' /\
    match v with
    | Some v => exists j, (j < NUM_VC)%nat /\ v = vc j /\ head_eligible tick oc d (vc j) = true
    | None => Forall (fun i => head_eligible tick oc d (vc (i mod NUM_VC)%nat) = false) ixs
    end.
Proof.
  intros Hoc. revert d. induction ixs as [|i ixs IH]; intros d Hv.
  { exists None, d. eauto using dev_searched_refl. }
  set (j := (i mod NUM_VC)%nat).
  assert (Hj : (j < NUM_VC)%nat) by (apply Nat.mod_upper_bound; done).
  destruct (dev_try_vc_spec tick oc (vc j) j d Hoc (Hv j Hj)) as (d1 & E1 & Hs1).
  change (check_vcs_loop p tick vc (i :: ixs) d) with
    (let! (found, d) := try_vc p tick (vc j) j d in
     if found : bool then Ok (Some (vc j), d) else check_vcs_loop p tick vc ixs d).
  rewrite E1. simpl bind. destruct (head_eligible tick oc d (vc j)) eqn:Hel.
  { exists (Some (vc j)), d1. eauto 6. }
  destruct (IH d1) as (v & d' & E & Hs & Hr); [by eapply dev_vcs_ok_searched|].
  exists v, d'. split; [done|]. split; [by eapply dev_searched_trans|].
  destruct v as [v|].
  - destruct Hr as (j' & ? & ? & Hh). exists j'.
    by rewrite (dev_head_eligible_searched _ _ _ _ _ Hs1) in Hh.
  - constructor; [done|]. eapply Forall_impl; [exact Hr|]. intros k Hk; cbv beta in *.
    by rewrite (dev_head_eligible_searched _ _ _ _ _ Hs1) in Hk.
Qed.

(** A search after another one. *)
Lemma dev_check_vcs_spec tick oc vc d d1 :
  oc = NDR \/ oc = DRS -> vcs_ok oc vc d -> searched d d1 ->
  exists v d', check_vcs_for_packing p tick vc d1 = Ok (v, d') /\ searched d d' /\
    match v with
    | Some v => available tick oc vc d = true /\
        exists j, (j < NUM_VC)%nat /\ v = vc j /\ head_eligible tick oc d (vc j) = true
    | None => available tick oc vc d = false
    end.
Proof.
  intros Hoc Hv Hs1.
  destruct (dev_check_vcs_loop_spec tick oc vc (seq (packer_cur_vc d1) NUM_VC) d1 Hoc)
    as (v & d' & E & Hs & Hr); [by eapply dev_vcs_ok_searched|].
  exists v, d'. split; [done|]. split; [by eapply dev_searched_trans|].
  destruct v as [v|].
  - destruct Hr as (j & Hj & -> & Hh). rewrite (dev_head_eligible_searched _ _ _ _ _ Hs1) in Hh.
    split; [|by eauto]. apply existsb_exists. exists j. split; [apply in_seq; lia | done].
  - apply not_true_is_false. intros (j & Hj & Hh)%existsb_exists. apply in_seq in Hj.
    destruct (seq_residues (packer_cur_vc d1) j ltac:(lia)) as (i & Hi & <-).
    rewrite List.Forall_forall in Hr. specialize (Hr i Hi). cbv beta in Hr.
    rewrite (dev_head_eligible_searched _ _ _ _ _ Hs1) in Hr. congruence.
Qed.

(** [get_msg_from_vcs] in the states it can be in. *)
Lemma dev_get_msg_spec tick d :
  vcs_ok NDR NdrTx d -> vcs_ok DRS DrsTx d -> pkr2_state d <> rr_W ->
  exists v d1 s, get_msg_from_vcs p tick d = Ok (v, set_pkr2_state s d1) /\ searched d d1 /\
    match v with
    | None => s = pkr2_state d
    | Some (NdrTx j) => (j < NUM_VC)%nat /\ head_eligible tick NDR d (NdrTx j) = true /\
        s = next_plain (pkr2_state d) /\
        (pkr2_state d = rr_R -> available tick DRS DrsTx d = false)
    | Some (DrsTx j) => (j < NUM_VC)%nat /\ head_eligible tick DRS d (DrsTx j) = true /\
        s = rr_w /\ available tick DRS DrsTx d = true
    end.
Proof.
  intros Hreq Hrwd HW.
  assert (Hsame : forall d', searched d d' -> set_pkr2_state (pkr2_state d) d' = d').
  { intros d' (c & e & -> & _). by destruct d. }
  pose proof (fun d1 => dev_check_vcs_spec tick NDR NdrTx d d1 (or_introl eq_refl) Hreq) as Cndr.
  pose proof (fun d1 => dev_check_vcs_spec tick DRS DrsTx d d1 (or_intror eq_refl) Hrwd) as Cdrs.
  unfold get_msg_from_vcs. destruct (pkr2_state d) eqn:Est; [| | |done].
  - destruct (Cdrs d (dev_searched_refl d)) as ([v1|] & d1 & -> & Hs1 & R1); simpl bind.
    { destruct R1 as (Ha & j & Hj & -> & Hh). by exists (Some (DrsTx j)), d1, rr_w. }
    destruct (Cndr d1 Hs1) as ([v2|] & d2 & -> & Hs2 & R2); simpl bind.
    + destruct R2 as (Ha & j & Hj & -> & Hh). by exists (Some (NdrTx j)), d2, rr_R.
    + exists None, d2, rr_R. by rewrite Hsame.
  - destruct (Cndr d (dev_searched_refl d)) as ([v1|] & d1 & -> & Hs1 & R1); simpl bind.
    { destruct R1 as (Ha & j & Hj & -> & Hh). by exists (Some (NdrTx j)), d1, rr_R. }
    destruct (Cdrs d1 Hs1) as ([v2|] & d2 & -> & Hs2 & R2); simpl bind.
    + destruct R2 as (Ha & j & Hj & -> & Hh). by exists (Some (DrsTx j)), d2, rr_w.
    + exists None, d2, rr_r. by rewrite Hsame.
  - destruct (Cndr d (dev_searched_refl d)) as ([v1|] & d1 & -> & Hs1 & R1); simpl bind.
    { destruct R1 as (Ha & j & Hj & -> & Hh). by exists (Some (NdrTx j)), d1, rr_r. }
    destruct (Cdrs d1 Hs1) as ([v2|] & d2 & -> & Hs2 & R2); simpl bind.
    + destruct R2 as (Ha & j & Hj & -> & Hh). by exists (Some (DrsTx j)), d2, rr_w.
    + exists None, d2, rr_w. by rewrite Hsame.
Qed.

(** ** The flit under construction *)

(** Write responses that wait to be packed. *)
Definition pending_ndr d : Z := Z.of_nat (length (concat (map q_ (S2M_NDR d)))).

Record pack_inv d : Prop := {
  pi_ndr : vcs_ok NDR NdrTx d;
  pi_drs : vcs_ok DRS DrsTx d;
  pi_nndr : length (S2M_NDR d) = NUM_VC;
  pi_ndrs : length (S2M_DRS d) = NUM_VC;
  pi_slots : length (slots (flit_to_pack d)) = 4%nat;
  pi_cred0 : rsp_credit (int_cred d) = 0;
  pi_cred1 : 0 <= req_credit (int_cred d) <= size_ (M2S_Req d);
  pi_cred2 : 0 <= data_credit (int_cred d) /\
             data_credit (int_cred d) + pending_ndr d <= size_ (M2S_RWD d);
  pi_cargo : cargo_ok (flit_to_pack d);
  pi_hosts : connected_hosts d <> [];
  pi_rr : pkr2_state d <> rr_W;
  pi_roll : 0 <= packer_rollover d <= 4;
  pi_seq : 0 <= packer_seq_length d;
  pi_thr : seq_threshold d = 5
}.

(** The receiving side of a device and its requests in the memory: no part of
    the packer. *)
Definition dev_rest d :=
  (rx_buffer d, (unpacker_rollover d, last_rwd_hdr d, M2S_Req d, M2S_RWD d),
   (inp_buf d, ramulator_inp_state d, messages_in_ramulator d), (cur_DRS_vc d, cur_NDR_vc d, connected_hosts d)).
(** What packing does not touch. *)
Definition pack_frame d d' : Prop :=
  tx_buffer d' = tx_buffer d /\ is_packer_waiting d' = is_packer_waiting d /\
  (started_packing_at d' = started_packing_at d /\ dev_rest d' = dev_rest d) /\ packer_seq_length d' = packer_seq_length d.

(** The credits a device has to give, those its flits [fs] return, and the
    responses that wait or are in the flits [gs] *)
Definition pending_drs d : Z := Z.of_nat (length (concat (map q_ (S2M_DRS d)))).
Definition credit_sum (fs : list flit) : Z * Z :=
  (foldr (fun f z => req_credit (credit (header f)) + z) 0 fs, foldr (fun f z => data_credit (credit (header f)) + z) 0 fs).
Definition accounts d (fs gs : list flit) : Z * Z * Z * Z :=
  (req_credit (int_cred d) + fst (credit_sum fs), data_credit (int_cred d) + pending_ndr d + snd (credit_sum fs),
   pending_ndr d + total s2m_ndr gs, pending_drs d + total s2m_drs_hdr gs).
Definition pays d d' : Prop := accounts d' [] [flit_to_pack d'] = accounts d [] [flit_to_pack d].
Lemma credit_sum_app l1 l2 :
  credit_sum (l1 ++ l2) = (fst (credit_sum l1) + fst (credit_sum l2), snd (credit_sum l1) + snd (credit_sum l2)).
Proof. induction l1 as [|f l1 IH]; [done|]. unfold credit_sum in *. cbn [app foldr fst snd] in *. injection IH as -> ->. f_equal; lia. Qed.
Lemma dev_accounts_app d fs gs hs : accounts d fs (gs ++ hs) =
  let '(a, b, c, e) := accounts d [] hs in (a + fst (credit_sum fs), b + snd (credit_sum fs), c + total s2m_ndr gs, e + total s2m_drs_hdr gs).
Proof. unfold accounts. rewrite !total_app. cbn. pair_lia. Qed.

Lemma dev_pack_frame_trans d1 d2 d3 : pack_frame d1 d2 -> pack_frame d2 d3 -> pack_frame d1 d3.
Proof. unfold pack_frame. intuition congruence. Qed.

(** The messages that wait in the channels or sit in the flit. *)
Definition waiting d : list message :=
  concat (map q_ (S2M_NDR d)) ++ concat (map q_ (S2M_DRS d)).
Definition contents d : list message := waiting d ++ packed (flit_to_pack d).

(** The state of the slot-filling loop. *)
Definition abs (tick : Z) d : pst :=
  mk_pst (kinds (flit_to_pack d)) (packer_rollover d) (pkr2_state d) (available tick DRS DrsTx d).

Lemma dev_pack_inv_searched d d' : searched d d' -> pack_inv d -> pack_inv d'.
Proof. intros (c & e & -> & He) []. by constructor. Qed.
Lemma dev_pack_inv_state s d : s <> rr_W -> pack_inv d -> pack_inv (set_pkr2_state s d).
Proof. intros Hs []. by constructor. Qed.
Lemma dev_pack_frame_searched d d' s : searched d d' -> pack_frame d (set_pkr2_state s d').
Proof. by intros (c & e & -> & He). Qed.
Lemma dev_pays_searched d d' s : searched d d' -> pays d (set_pkr2_state s d').
Proof. by intros (c & e & -> & He). Qed.
Lemma dev_contents_searched d d' s : searched d d' -> contents (set_pkr2_state s d') = contents d.
Proof. by intros (c & e & -> & He). Qed.

Lemma dev_searched_view tick d d1 s : searched d d1 ->
  let d2 := set_pkr2_state s d1 in
  flit_to_pack d2 = flit_to_pack d /\ packer_rollover d2 = packer_rollover d /\
  available tick DRS DrsTx d2 = available tick DRS DrsTx d /\
  (forall oc v, head_eligible tick oc d2 v = head_eligible tick oc d v).
Proof.
  intros Hs d2. subst d2. split_and!; try (by destruct Hs as (? & ? & -> & _)).
  - by rewrite <- (dev_available_searched tick DRS DrsTx _ _ Hs).
  - intros oc w. rewrite <- (dev_head_eligible_searched tick oc _ _ w Hs). by destruct w.
Qed.

Lemma kinds_put_slot i t s f : kinds (put_slot i t s f) = <[i := kind_of (slot_ty s)]> (kinds f).
Proof. unfold put_slot. by rewrite kinds_put. Qed.

(** The slot and its record in the header. *)
Definition put_resp (i : nat) (t : slot_type) (m : message) (f : flit) : flit :=
  put_slot i t (set_slot_msg (message_copy m) (set_slot_ty t (slot_at f i))) f.

Lemma packed_put_resp i t m f : (i < length (slots f))%nat -> slot_ty_at f i = empty ->
  t = plain_ty \/ t = hdr_ty -> packed (put_resp i t m f) ≡ₚ m :: packed f.
Proof. apply (packed_put i t m f). Qed.

Lemma count_put_resp i k m f t : (i < length (slots f))%nat -> slot_ty_at f i = empty -> t <> empty ->
  slot_count_in_flit (put_resp i k m f) t = slot_count_in_flit f t + (if slot_type_eqb k t then 1 else 0).
Proof. exact (count_set_slot t i (set_slot_msg (message_copy m) (set_slot_ty k (slot_at f i))) f). Qed.
Lemma count_put_slot i s f t k : (i < length (slots f))%nat -> slot_ty_at f i = empty -> t <> empty ->
  slot_count_in_flit (put_slot i k s f) t = slot_count_in_flit f t + (if slot_type_eqb (slot_ty s) t then 1 else 0).
Proof. exact (count_set_slot t i s f). Qed.

Definition add_data (c : credits) := mk_credits (req_credit c) (rsp_credit c) (data_credit c + 1).
Definition sub_rsp (c : credits) := mk_credits (req_credit c) (rsp_credit c - 1) (data_credit c).
Definition sub_data (c : credits) := mk_credits (req_credit c) (rsp_credit c) (data_credit c - 1).

Definition packed_ndr (i : nat) (m : message) (j : nat) d : CXLDevice :=
  vc_set (NdrTx j) (drop_head (vc_get d (NdrTx j)))
    (set_ext_creds (<[0 := sub_rsp (cred_at (ext_creds d) 0)]> (ext_creds d))
      (set_int_cred (add_data (int_cred d))
        (set_flit_to_pack (put_resp i s2m_ndr m (flit_to_pack d)) d))).

Definition packed_drs (i : nat) (m : message) (j : nat) d : CXLDevice :=
  vc_set (DrsTx j) (drop_head (vc_get d (DrsTx j)))
    (set_ext_creds (<[0 := sub_data (cred_at (ext_creds d) 0)]> (ext_creds d))
      (set_packer_rollover 4
        (set_flit_to_pack (put_resp i s2m_drs_hdr m (flit_to_pack d))
          (set_last_drs_hdr (message_copy m) d)))).

Lemma pack_slot_ndr i j m l d :
  q_ (vc_get d (NdrTx j)) = m :: l -> opCode m = NDR ->
  pack_slot i (NdrTx j) d =
    Ok (if slot_count_in_flit (flit_to_pack d) s2m_ndr <=? 1 then packed_ndr i m j d else d).
Proof.
  intros Hq Hop. unfold pack_slot. rewrite (get_head_ok _ _ _ Hq). cbn [bind]. rewrite Hop.
  destruct (slot_count_in_flit _ _ <=? 1); [|done].
  unfold dequeue. rewrite (proj2 (is_buf_empty_false _)); [done|]. simpl. eauto.
Qed.

Lemma pack_slot_drs i j m l d :
  q_ (vc_get d (DrsTx j)) = m :: l -> opCode m = DRS ->
  pack_slot i (DrsTx j) d =
    Ok (if (slot_count_in_flit (flit_to_pack d) s2m_drs_hdr =? 0) &&
           ((i =? 0)%nat || are_all_slots_after_this_empty (flit_to_pack d) i)
        then packed_drs i m j d else d).
Proof.
  intros Hq Hop. unfold pack_slot. rewrite (get_head_ok _ _ _ Hq). cbn [bind]. rewrite Hop.
  rewrite <- andb_orb_distrib_r. destruct (_ && _); [|done].
  unfold dequeue. rewrite (proj2 (is_buf_empty_false _)); [done|]. simpl. eauto.
Qed.

Lemma dev_head_eligible_inv tick oc d v : head_eligible tick oc d v = true ->
  exists m l, q_ (vc_get d v) = m :: l.
Proof. unfold head_eligible. destruct (q_ (vc_get d v)) as [|m l]; [done | eauto]. Qed.

Lemma dev_vcs_ok_drop oc vc d d' j :
  (forall k, (k < NUM_VC)%nat -> vc_get d' (vc k) =
     if decide (j = k) then drop_head (vc_get d (vc j)) else vc_get d (vc k)) ->
  vcs_ok oc vc d -> vcs_ok oc vc d'.
Proof.
  intros Hg Hv k Hk. rewrite Hg by done.
  case_decide; subst; [|by apply Hv]. specialize (Hv k Hk). simpl.
  destruct (q_ (vc_get d (vc k))); [done|]. simpl. by apply Forall_cons in Hv as [_ ?].
Qed.

Section Packed.
Context (tick : Z) (i j : nat) (m : message) (l : list message) (d : CXLDevice).
Hypothesis Hinv : pack_inv d.
Hypothesis Hi : (i < 4)%nat.
Hypothesis Hj : (j < NUM_VC)%nat.
Hypothesis Hempty : slot_ty_at (flit_to_pack d) i = empty.

Lemma ndr_head : q_ (vc_get d (NdrTx j)) = m :: l ->
  concat (map q_ (S2M_NDR d)) ≡ₚ
    m :: concat (map q_ (<[j := drop_head (vc_get d (NdrTx j))]> (S2M_NDR d))).
Proof.
  intros Hq. rewrite (concat_take_head (S2M_NDR d) j (vc_get d (NdrTx j)) m l);
    [|apply nth_some; by rewrite (pi_nndr d Hinv) | done].
  unfold drop_head. simpl in *. by rewrite Hq.
Qed.

Lemma drs_head : q_ (vc_get d (DrsTx j)) = m :: l ->
  concat (map q_ (S2M_DRS d)) ≡ₚ
    m :: concat (map q_ (<[j := drop_head (vc_get d (DrsTx j))]> (S2M_DRS d))).
Proof.
  intros Hq. rewrite (concat_take_head (S2M_DRS d) j (vc_get d (DrsTx j)) m l);
    [|apply nth_some; by rewrite (pi_ndrs d Hinv) | done].
  unfold drop_head. simpl in *. by rewrite Hq.
Qed.

Lemma packed_ndr_inv : q_ (vc_get d (NdrTx j)) = m :: l -> pack_inv (packed_ndr i m j d).
Proof.
  intros Hq. pose proof (ndr_head Hq) as Hh. apply Permutation_length in Hh.
  pose proof (pi_ndr d Hinv j Hj) as Hop. rewrite Hq in Hop. apply Forall_cons in Hop as [Hop _]. destruct Hinv.
  constructor; simpl; try done; rewrite ?length_insert; try done.
  - eapply (dev_vcs_ok_drop NDR NdrTx d _ j); [|done]. intros k Hk. simpl.
    rewrite nth_insert by (by rewrite pi_nndr0). by case_decide; subst.
  - unfold pending_ndr in *. simpl in *. lia.
  - apply (cargo_put i s2m_ndr m (flit_to_pack d)); [done|]. by left.
Qed.

Lemma packed_drs_inv : q_ (vc_get d (DrsTx j)) = m :: l -> pack_inv (packed_drs i m j d).
Proof.
  intros Hq. pose proof (pi_drs d Hinv j Hj) as Hop. rewrite Hq in Hop. apply Forall_cons in Hop as [Hop _].
  destruct Hinv. constructor; simpl; try done; rewrite ?length_insert; try done.
  - eapply (dev_vcs_ok_drop DRS DrsTx d _ j); [|done]. intros k Hk. simpl.
    rewrite nth_insert by (by rewrite pi_ndrs0). by case_decide; subst.
  - apply (cargo_put i s2m_drs_hdr m (flit_to_pack d)); [done|]. by right.
Qed.

(** A credit for the next write is free when a write response is packed. *)
Lemma packed_ndr_pays : q_ (vc_get d (NdrTx j)) = m :: l -> pays d (packed_ndr i m j d).
Proof.
  intros Hq. pose proof (ndr_head Hq) as Hh. apply Permutation_length in Hh. cbn [length] in Hh.
  unfold pays, accounts, pending_ndr, pending_drs, packed_ndr. rewrite !total_one.
  cbn [flit_to_pack vc_set set_S2M_NDR set_ext_creds set_int_cred set_flit_to_pack S2M_NDR S2M_DRS int_cred add_data req_credit data_credit].
  rewrite !count_put_resp by (rewrite ?(pi_slots d Hinv); done). rewrite slot_type_eqb_refl. change (slot_type_eqb s2m_ndr s2m_drs_hdr) with false.
  pair_lia.
Qed.
Lemma packed_drs_pays : q_ (vc_get d (DrsTx j)) = m :: l -> pays d (packed_drs i m j d).
Proof.
  intros Hq. pose proof (drs_head Hq) as Hh. apply Permutation_length in Hh. cbn [length] in Hh.
  unfold pays, accounts, pending_ndr, pending_drs, packed_drs. rewrite !total_one.
  cbn [flit_to_pack vc_set set_S2M_DRS set_ext_creds set_packer_rollover set_flit_to_pack set_last_drs_hdr S2M_NDR S2M_DRS int_cred req_credit data_credit].
  rewrite !count_put_resp by (rewrite ?(pi_slots d Hinv); done). rewrite slot_type_eqb_refl. change (slot_type_eqb s2m_drs_hdr s2m_ndr) with false.
  pair_lia.
Qed.

Lemma packed_ndr_contents : q_ (vc_get d (NdrTx j)) = m :: l ->
  contents (packed_ndr i m j d) ≡ₚ contents d.
Proof.
  intros Hq. unfold contents, waiting. simpl.
  rewrite packed_put_resp; [|by rewrite (pi_slots d Hinv)|done|by auto].
  rewrite (ndr_head Hq). simpl. by rewrite <- Permutation_middle.
Qed.

Lemma packed_drs_contents : q_ (vc_get d (DrsTx j)) = m :: l ->
  contents (packed_drs i m j d) ≡ₚ contents d.
Proof.
  intros Hq. unfold contents, waiting. simpl.
  rewrite packed_put_resp; [|by rewrite (pi_slots d Hinv)|done|by auto].
  rewrite (drs_head Hq). simpl. rewrite <- !app_assoc. simpl. by rewrite <- !Permutation_middle.
Qed.

End Packed.

(** One message is offered to an empty slot. *)
Lemma pack_ndr_step tick i j d a :
  (i < 4)%nat -> (j < NUM_VC)%nat -> pack_inv d -> slot_ty_at (flit_to_pack d) i = empty ->
  head_eligible tick NDR d (NdrTx j) = true ->
  a = mk_pst (kinds (flit_to_pack d)) (packer_rollover d) (rr a) (available tick DRS DrsTx d) ->
  pkr2_state d = next_plain (rr a) -> (rr a = rr_R -> hav a = false) ->
  exists d', pack_slot i (NdrTx j) d = Ok d' /\ pack_inv d' /\ pack_frame d d' /\ pays d d' /\
    contents d' ≡ₚ contents d /\ fill_msg i a (abs tick d').
Proof.
  intros Hi Hj Hinv He Hel Ea Hrr Hh. destruct a as [ks ro st hv]; simpl in *; injection Ea as -> -> ->.
  destruct (dev_head_eligible_inv _ _ _ _ Hel) as (m & l & Hq).
  pose proof (pi_ndr d Hinv j Hj) as Hm. rewrite Hq in Hm. apply Forall_cons in Hm as [Hop _].
  rewrite (pack_slot_ndr i j m l d) by done.
  rewrite (kinds_count _ s2m_ndr Plain kind_ndr).
  destruct (count_kind Plain (kinds (flit_to_pack d)) <=? 1) eqn:Hcnt; bool_prop.
  - eexists. split; [done|]. split; [by eapply packed_ndr_inv|]. split; [done|]. split; [by eapply packed_ndr_pays|].
    split; [by eapply packed_ndr_contents|].
    unfold abs. simpl. unfold put_resp. rewrite kinds_put_slot, Hrr.
    by apply (fm_plain i (mk_pst _ _ _ _)).
  - exists d. split_and!; try done. unfold abs. rewrite Hrr. by apply (fm_plain_skip i (mk_pst _ _ _ _)).
Qed.

Lemma pack_drs_step tick i j d a :
  (i < 4)%nat -> (j < NUM_VC)%nat -> pack_inv d -> slot_ty_at (flit_to_pack d) i = empty ->
  head_eligible tick DRS d (DrsTx j) = true ->
  a = mk_pst (kinds (flit_to_pack d)) (packer_rollover d) (rr a) true ->
  pkr2_state d = rr_w ->
  exists d', pack_slot i (DrsTx j) d = Ok d' /\ pack_inv d' /\ pack_frame d d' /\ pays d d' /\
    contents d' ≡ₚ contents d /\ fill_msg i a (abs tick d').
Proof.
  intros Hi Hj Hinv He Hel Ea Hrr. destruct a as [ks ro st hv]; simpl in *; injection Ea as -> -> ->.
  destruct (dev_head_eligible_inv _ _ _ _ Hel) as (m & l & Hq).
  pose proof (pi_drs d Hinv j Hj) as Hm. rewrite Hq in Hm. apply Forall_cons in Hm as [Hop _].
  rewrite (pack_slot_drs i j m l d) by done.
  rewrite (kinds_count _ s2m_drs_hdr Hdr kind_drs), kinds_after.
  fold (after_empty (kinds (flit_to_pack d)) i).
  destruct (_ && _) eqn:Hcnt.
  - eexists. split; [done|]. split; [by eapply packed_drs_inv|]. split; [done|]. split; [by eapply packed_drs_pays|].
    split; [by eapply packed_drs_contents|].
    unfold abs. simpl. unfold put_resp. rewrite kinds_put_slot, Hrr.
    by apply (fm_hdr i (mk_pst _ _ _ _)).
  - exists d. split_and!; try done. unfold abs. rewrite Hrr. by apply (fm_hdr_skip i (mk_pst _ _ _ _)).
Qed.

Lemma dev_put_data_inv i d : pack_inv d -> pack_inv (put_data i d).
Proof.
  intros []. constructor; simpl; try done; [by rewrite length_insert|].
  apply (cargo_put_other i _ (flit_to_pack d)); [done|]. by left.
Qed.
Lemma dev_put_data_pays i d : (i < 4)%nat -> pack_inv d -> slot_ty_at (flit_to_pack d) i = empty -> pays d (put_data i d).
Proof.
  intros Hi Hinv He. unfold pays, accounts, put_data. rewrite !total_one.
  cbn [flit_to_pack set_flit_to_pack int_cred]. rewrite !count_put_slot by (rewrite ?(pi_slots d Hinv); done).
  cbn. by rewrite !Z.add_0_r.
Qed.

Lemma dev_lower_roll_inv r d : pack_inv d -> 0 <= r <= 4 -> pack_inv (set_packer_rollover r d).
Proof. intros [] Hr. by constructor. Qed.

Lemma dev_put_data_contents i d : (i < 4)%nat -> pack_inv d ->
  slot_ty_at (flit_to_pack d) i = empty -> contents (put_data i d) ≡ₚ contents d.
Proof.
  intros Hi Hinv He. unfold contents. apply Permutation_app; [done|].
  apply (packed_put_data i _ (flit_to_pack d)); [by rewrite (pi_slots d Hinv) | done | done].
Qed.

(** ** The slot-filling loop refines its specification *)
Lemma dev_pack_loop_spec tick ixs d :
  Forall (fun i => i < 4)%nat ixs -> pack_inv d ->
  exists d', pack_loop p tick ixs d = Ok d' /\ pack_inv d' /\ pack_frame d d' /\ pays d d' /\
    contents d' ≡ₚ contents d /\ In (abs tick d') (fill_set ixs (abs tick d)).
Proof.
  intros Hixs. revert d. induction Hixs as [|i ixs Hi Hixs IH]; intros d Hinv; cbn [pack_loop].
  { exists d. split_and!; try done. by left. }
  pose proof (kinds_at (flit_to_pack d) i) as Hk.
  destruct (slot_type_eqb (slot_ty_at (flit_to_pack d) i) empty) eqn:Ee; cbn [negb].
  2:{ destruct (IH d Hinv) as (d' & ?). exists d'. cbn [fill_set]. simpl pk. by rewrite Hk. }
  apply slot_type_eqb_true in Ee.
  destruct (negb (packer_rollover d =? 0) && negb (i =? 0)%nat) eqn:Er.
  { (* an owed data chunk *)
    pose proof (pi_roll d Hinv).
    destruct (IH (set_packer_rollover (packer_rollover d - 1) (put_data i d)))
      as (d' & E' & Hinv' & Hf & Hy & Hc & Ha);
      [bool_prop; apply dev_lower_roll_inv; [by apply dev_put_data_inv | lia]|].
    exists d'. split_and!; try done.
    - etransitivity; [exact Hy|]. by apply (dev_put_data_pays i).
    - rewrite Hc. by apply dev_put_data_contents.
    - unfold abs in Ha at 2. simpl in Ha. rewrite kinds_put_slot in Ha.
      cbn [fill_set]. simpl pk. simpl roll. rewrite Hk, Er. exact Ha. }
  (* a message *)
  destruct (dev_get_msg_spec tick d) as (v & d1 & s & Eg & Hs & Hv); [by destruct Hinv..|].
  rewrite Eg. cbn [bind]. pose proof (dev_searched_view tick d d1 s Hs) as (Hfl & Hro & Hav & Hhe).
  set (d2 := set_pkr2_state s d1) in *.
  assert (Hinv2 : s <> rr_W -> pack_inv d2)
    by (intros; apply dev_pack_inv_state; [done|by apply (dev_pack_inv_searched d)]).
  assert (Hf2 : pack_frame d d2) by (by apply dev_pack_frame_searched).
  assert (Hc2 : contents d2 = contents d) by (by apply dev_contents_searched).
  assert (Hy2 : pays d d2) by (by apply dev_pays_searched).
  pose proof (pi_rr d Hinv) as HW.
  assert (Hgo : forall v d3, pack_slot i v d2 = Ok d3 /\ pack_inv d3 /\ pack_frame d2 d3 /\ pays d2 d3 /\
      contents d3 ≡ₚ contents d2 /\ fill_msg i (abs tick d) (abs tick d3) ->
    exists d', bind (pack_slot i v d2) (fun d => pack_loop p tick ixs d) = Ok d' /\ pack_inv d' /\
      pack_frame d d' /\ pays d d' /\ contents d' ≡ₚ contents d /\
      In (abs tick d') (fill_set (i :: ixs) (abs tick d))).
  { intros w d3 (E3 & Hi3 & Hf3 & Hy3 & Hc3 & Hst). rewrite E3. cbn [bind].
    destruct (IH d3 Hi3) as (d' & E' & Hi' & Hf' & Hy' & Hc' & Ha'). exists d'. split_and!; try done.
    - eapply dev_pack_frame_trans; [exact Hf2|]. by eapply dev_pack_frame_trans.
    - etransitivity; [exact Hy'|]. by etransitivity.
    - by rewrite Hc', Hc3, Hc2.
    - by eapply fill_set_msg. }
  destruct v as [[j|j]|].
  - destruct Hv as (Hj & Hel & Hs' & Hh). rewrite <- Hhe in Hel. rewrite <- Hfl in Ee.
    destruct (pack_ndr_step tick i j d2 (abs tick d)) as (d3 & Hst); try done.
    { apply Hinv2. subst s. by destruct (pkr2_state d). }
    { unfold abs. cbn [rr]. congruence. }
    by apply Hgo in Hst.
  - destruct Hv as (Hj & Hel & Hs' & Hh). rewrite <- Hhe in Hel. rewrite <- Hfl in Ee.
    destruct (pack_drs_step tick i j d2 (abs tick d)) as (d3 & Hst); try done.
    { apply Hinv2. by subst s. }
    { unfold abs. cbn [rr]. congruence. }
    by apply Hgo in Hst.
  - exists d2. rewrite Hc2. split_and!; try done; [apply Hinv2; by subst s|].
    replace (abs tick d2) with (abs tick d)
      by (unfold abs; rewrite Hfl, Hro, Hav; simpl; by rewrite Hv).
    by apply fill_set_stop.
Qed.

(** ** Handing a flit to the transmit buffer *)

Definition given d : credits :=
  let n := Z.of_nat (length (connected_hosts d)) in
  mk_credits (credit_share (req_credit (int_cred d)) n) 0
    (credit_share (data_credit (int_cred d)) n).

(** The flit [add_flit_to_buf] appends. *)
Definition sent (g : globals) d : flit :=
  let f := flit_to_pack d in
  let f := set_flit_time (set_time_of_creation (curr_tick g) (flit_time f)) f in
  let f := set_header (set_credit (given d) (header f)) f in
  set_flit_id (flit_counter g) (set_time set_tick_repacked (curr_tick g) f).

Definition next_seq d : Z := if 0 <? packer_rollover d then packer_seq_length d + 1 else 0.

Definition handed (g : globals) d : globals * CXLDevice :=
  (set_flit_counter (u64 (flit_counter g + 1)) g,
   set_packer_seq_length (next_seq d)
     (set_tx_buffer (mk_CXLBuf (size_ (tx_buffer d)) (q_ (tx_buffer d) ++ [sent g d]))
       (set_flit_to_pack (sent g d)
         (set_int_cred (mk_credits (req_credit (int_cred d) - req_credit (given d))
                          (rsp_credit (int_cred d))
                          (data_credit (int_cred d) - data_credit (given d))) d)))).

Lemma dev_add_flit_to_buf_ok g d : pack_inv d -> is_buf_full (tx_buffer d) = false ->
  (0 < packer_rollover d -> packer_seq_length d < 4) ->
  add_flit_to_buf g d = Ok (handed g d).
Proof.
  intros [] Hfull Hseq. unfold add_flit_to_buf, get_device_credits, credit_sanity_check.
  assert (0 <= pending_ndr d) by (unfold pending_ndr; lia).
  rewrite pi_cred3, (proj2 (Z.leb_le _ _) (proj1 pi_cred4)), (proj2 (Z.leb_le _ _) (proj2 pi_cred4)),
    (proj2 (Z.leb_le _ _) (proj1 pi_cred5)), (proj2 (Z.leb_le (data_credit _) _)) by lia.
  simpl. unfold enqueue. simpl. rewrite Hfull. simpl. rewrite pi_thr0.
  destruct (Z.ltb_spec 0 (packer_rollover d)); [|by rewrite andb_false_r; unfold handed, next_seq;
    rewrite (proj2 (Z.ltb_ge _ _)), pi_cred3 by lia].
  rewrite (proj2 (Z.eqb_neq _ _)) by lia. simpl. unfold handed, next_seq.
  by rewrite (proj2 (Z.ltb_lt _ _)), pi_cred3 by lia.
Qed.

Lemma credit_share_bounds c n : 1 <= n -> 0 <= c -> 0 <= credit_share c n <= c.
Proof.
  intros Hn Hc. unfold credit_share. destruct (Z.eqb_spec c 1); [lia|].
  destruct (Z.ltb_spec 1 c); [|lia]. split; [apply Z.div_pos; lia|].
  apply Z.div_le_upper_bound; nia.
Qed.

Lemma given_bounds d : pack_inv d ->
  0 <= req_credit (given d) <= req_credit (int_cred d) /\ 0 <= data_credit (given d) <= data_credit (int_cred d).
Proof.
  intros []. assert (Hn : 1 <= Z.of_nat (length (connected_hosts d))).
  { destruct (connected_hosts d); [done|]. simpl. lia. }
  split; apply credit_share_bounds; lia.
Qed.
Lemma dev_cargo_sent g d : cargo_ok (flit_to_pack d) -> cargo_ok (sent g d).
Proof. intros Hc. exact (cargo_set_time set_tick_repacked (curr_tick g) (flit_to_pack d) (fun _ _ => eq_refl) Hc). Qed.
Lemma dev_total_sent t g d : total t [sent g d] = total t [flit_to_pack d].
Proof. rewrite !total_one. apply count_types. exact (types_set_time set_tick_repacked (curr_tick g) (flit_to_pack d)). Qed.

Lemma dev_handed_inv g d : pack_inv d -> pack_inv (snd (handed g d)).
Proof.
  intros Hp. pose proof (given_bounds d Hp) as [[G1 G2] [G3 G4]]. destruct Hp. constructor; simpl; try done.
  - by rewrite length_map.
  - simpl in *. lia.
  - unfold pending_ndr in *. simpl in *. lia.
  - by apply dev_cargo_sent.
  - unfold next_seq. destruct (0 <? packer_rollover d); lia.
Qed.

Lemma dev_kinds_sent g d : kinds (sent g d) = kinds (flit_to_pack d).
Proof. exact (kinds_set_time set_tick_repacked (curr_tick g) (flit_to_pack d)). Qed.

Lemma dev_ids_sent g d : ids (packed (sent g d)) = ids (packed (flit_to_pack d)).
Proof. exact (packed_set_time set_tick_repacked (curr_tick g) (flit_to_pack d) (fun _ _ => eq_refl)). Qed.

(** ** [FLIT_packer] *)

(** [r0] data chunks are owed when the flit under construction begins; the
    length of the current sequence of dependent flits is bounded by them. *)
Definition building (r0 : Z) d : Prop :=
  packer_seq_length d <= r0 /\
  if is_packer_waiting d
  then exists n, r0 = Z.of_nat n /\
         flit_inv n (kinds (flit_to_pack d)) (packer_rollover d) (pkr2_state d) = true
  else r0 = packer_rollover d.

(** A flit with responses in its slots that returns credits *)
Definition sendable (f : flit) : Prop :=
  cargo_ok f /\ 0 <= req_credit (credit (header f)) /\ 0 <= data_credit (credit (header f)).
(** The invariant of the packer: [R] chunks are owed to the receiver of the
    flits of the transmit buffer, which form a legal stream that the flit
    under construction continues. *)
Record packer_inv (R : Z) d : Prop := {
  pk_pack : pack_inv d;
  pk_tx : buf_ok (tx_buffer d);
  pk_stream : exists r0, wf_stream R (map kinds (q_ (tx_buffer d))) r0 /\ building r0 d;
  pk_cargo : Forall sendable (q_ (tx_buffer d))
}.
(** The flits of the packer *)
Definition outflits d : list flit :=
  q_ (tx_buffer d) ++ (if is_packer_waiting d then [flit_to_pack d] else []).

(** Every message id the packer holds. *)
Definition held_ids d : list Z :=
  ids (waiting d) ++ (if is_packer_waiting d then ids (packed (flit_to_pack d)) else []) ++
  ids (concat (map packed (q_ (tx_buffer d)))).

Lemma dev_held_ids_waiting d : held_ids (set_is_packer_waiting true d) =
  ids (contents d) ++ ids (concat (map packed (q_ (tx_buffer d)))).
Proof. unfold held_ids, contents, ids. by rewrite map_app, <- app_assoc. Qed.

(** A result that keeps the invariant and the messages of [d]. *)
Definition packs (R : Z) d (r : res (bool * (globals * CXLDevice))) : Prop :=
  exists b g' d', r = Ok (b, (g', d')) /\ packer_inv R d' /\ held_ids d' ≡ₚ held_ids d /\
    dev_rest d' = dev_rest d /\
    accounts d' (q_ (tx_buffer d')) (outflits d') = accounts d (q_ (tx_buffer d)) (outflits d).

Lemma dev_handed_packs R n g d :
  pack_inv d -> buf_ok (tx_buffer d) -> is_buf_full (tx_buffer d) = false ->
  wf_stream R (map kinds (q_ (tx_buffer d))) (Z.of_nat n) ->
  packer_seq_length d <= Z.of_nat n -> Forall sendable (q_ (tx_buffer d)) ->
  flit_inv n (kinds (flit_to_pack d)) (packer_rollover d) (pkr2_state d) = true ->
  packs R (set_is_packer_waiting true d)
    (let! (g, d) := add_flit_to_buf g d in Ok (true, (g, set_is_packer_waiting false d))).
Proof.
  intros Hp Hb Hf Hs Hq Hcg Hi. apply flit_inv_wf in Hi.
  pose proof (wf_owed_grows _ _ _ Hi) as Hg.
  rewrite dev_add_flit_to_buf_ok by (done || lia). cbn [bind]. unfold packs.
  simpl. do 3 eexists. split; [done|]. split; [|split; [|split; [done|]]].
  - pose proof (dev_handed_inv g d Hp) as Hp'. constructor; simpl.
    + by destruct Hp'; constructor.
    + destruct (enqueue_ok (sent g d) (tx_buffer d) Hb Hf) as (b & E & _ & _ & Hb').
      unfold enqueue in E. rewrite Hf in E. by injection E as <-.
    + exists (packer_rollover d). rewrite map_app. simpl. rewrite dev_kinds_sent. split.
      * by eapply wf_stream_snoc.
      * split; [|done]. simpl. unfold next_seq. destruct (Z.ltb_spec 0 (packer_rollover d)); lia.
    + apply Forall_app. split; [done|]. apply Forall_singleton. pose proof (given_bounds d Hp).
      split; [apply dev_cargo_sent, Hp|]. cbn. cbn in *. lia.
  - unfold held_ids. simpl. rewrite map_app, concat_app. simpl. rewrite app_nil_r.
    unfold ids at 2. rewrite map_app. fold (ids (packed (sent g d))).
    rewrite dev_ids_sent. unfold waiting. simpl. apply Permutation_app_head.
    by rewrite Permutation_app_comm.
  - unfold outflits. cbn [is_packer_waiting set_is_packer_waiting tx_buffer set_tx_buffer q_ snd handed set_packer_seq_length].
    rewrite app_nil_r. unfold accounts, pending_ndr, pending_drs. rewrite !total_app, !dev_total_sent, credit_sum_app. cbn. pair_lia.
Qed.

Lemma dev_send_packed_packs R g d :
  packer_inv R d -> is_packer_waiting d = true -> packs R d (send_packed g d).
Proof.
  intros Hinv Hw. unfold send_packed. destruct (is_buf_full (tx_buffer d)) eqn:Hf.
  { by exists true, g, d. }
  destruct Hinv as [Hp Hb (r0 & Hs & Hq & Hbd) Hcg]. rewrite Hw in Hbd.
  destruct Hbd as (n & -> & Hi).
  replace d with (set_is_packer_waiting true d) at 1 by (rewrite <- Hw; by destruct d).
  by eapply dev_handed_packs.
Qed.

Lemma dev_put_rollover_ok d : pack_inv d -> flit_to_pack d = flit_new -> 1 <= packer_rollover d ->
  exists d', put_rollover d = Ok d' /\ pack_inv d' /\ pack_frame d d' /\ pays d d' /\
    contents d' = contents d /\ packer_rollover d' = 0 /\ pkr2_state d' = pkr2_state d /\
    kinds (flit_to_pack d') = (if packer_rollover d =? 4 then repeat Dat 4
                               else layout (Z.to_nat (packer_rollover d)) 0).
Proof.
  intros Hp Hf Hr. pose proof (pi_roll d Hp). unfold put_rollover.
  destruct (Z.eqb_spec (packer_rollover d) 1) as [E|];
  [|destruct (Z.eqb_spec (packer_rollover d) 2) as [E|];
  [|destruct (Z.eqb_spec (packer_rollover d) 3) as [E|];
  [|destruct (Z.eqb_spec (packer_rollover d) 4) as [E|]; [|lia]]]].
  all: eexists; split; [reflexivity|]; split_and!;
    [apply dev_lower_roll_inv; [|simpl; lia]; repeat apply dev_put_data_inv; done|done..| | | |done|].
  all: try (unfold pays, accounts; cbn [int_cred set_packer_rollover put_data set_flit_to_pack flit_to_pack]; rewrite Hf; reflexivity).
  all: try (unfold contents, waiting, packed; simpl; rewrite Hf; reflexivity).
  all: try (simpl; lia).
  all: simpl; rewrite Hf, E; reflexivity.
Qed.

(** The packing rules asserted at the end of the packer hold. *)
Lemma dev_finish_packing_ok n g d :
  flit_inv n (kinds (flit_to_pack d)) (packer_rollover d) (pkr2_state d) = true ->
  finish_packing g d = Ok (negb (is_flit_empty (flit_to_pack d)),
    (g, if is_flit_empty (flit_to_pack d) then d else set_is_packer_waiting true d)).
Proof.
  intros Hi. apply flit_inv_wf in Hi. unfold finish_packing.
  pose proof (no_packing_violation _ _ _ Hi) as Hv. simpl plain_ty in Hv. simpl hdr_ty in Hv.
  destruct (is_flit_empty (flit_to_pack d)) eqn:He; cbn [negb]; simpl flit_to_pack; by rewrite Hv.
Qed.

(** Filling the slots of an open flit. *)
Lemma dev_loop_packs R n g d :
  pack_inv d -> buf_ok (tx_buffer d) ->
  wf_stream R (map kinds (q_ (tx_buffer d))) (Z.of_nat n) ->
  packer_seq_length d <= Z.of_nat n -> Forall sendable (q_ (tx_buffer d)) ->
  open_flit n (kinds (flit_to_pack d)) (packer_rollover d) (pkr2_state d) = true ->
  packs R (set_is_packer_waiting true d)
    (let! d := pack_loop p (curr_tick g) (seq 0 4) d in finish_packing g d).
Proof.
  intros Hp Hb Hs Hq Hcg Ho.
  destruct (dev_pack_loop_spec (curr_tick g) (seq 0 4) d)
    as (d1 & -> & Hp1 & (Etx & Ew & [_ Ea] & Es) & Hy & Hc & Hin); [repeat constructor; lia|done|]. cbn [bind].
  assert (Hi : flit_inv n (kinds (flit_to_pack d1)) (packer_rollover d1) (pkr2_state d1) = true).
  { exact (fill_set_inv n (abs (curr_tick g) d) (abs (curr_tick g) d1) Ho Hin). }
  rewrite (dev_finish_packing_ok n) by done.
  set (d2 := if is_flit_empty _ then _ else _). do 3 eexists. split; [done|].
  assert (E2 : d2 = set_is_packer_waiting (is_packer_waiting d2) d1) by
    (subst d2; destruct (is_flit_empty _); by destruct d1).
  split; [|split].
  - rewrite E2. constructor; simpl; rewrite ?Etx; try done.
    + by destruct Hp1; constructor.
    + exists (Z.of_nat n). split; [done|]. unfold building. simpl. rewrite Es. split; [done|]. subst d2.
      destruct (is_flit_empty (flit_to_pack d1)) eqn:He; [|simpl; by exists n].
      rewrite is_flit_empty_kinds in He.
      destruct (flit_inv_empty _ _ _ _ Hi He) as [-> Er]. rewrite Er.
      destruct (is_packer_waiting d1); [|done]. exists 0%nat. by rewrite <- Er.
  - assert (Hh : held_ids d2 = ids (contents d1) ++ ids (concat (map packed (q_ (tx_buffer d1))))).
    { unfold held_ids, contents, ids. rewrite map_app, <- app_assoc. subst d2.
      destruct (is_flit_empty (flit_to_pack d1)) eqn:He; [|done].
      rewrite (packed_empty _ He). by destruct (is_packer_waiting d1). }
    rewrite Hh, dev_held_ids_waiting, Etx. by apply Permutation_app_tail, Permutation_map.
  - split; [rewrite E2; exact Ea|].
    transitivity (accounts d1 (q_ (tx_buffer d1)) (q_ (tx_buffer d1) ++ [flit_to_pack d1])).
    + subst d2. unfold outflits. destruct (is_flit_empty (flit_to_pack d1)) eqn:He; [|done].
      destruct (is_packer_waiting d1); [done|]. rewrite app_nil_r. unfold accounts. rewrite !total_app, !total_one.
      rewrite !(count_empty _ _ He), !Z.add_0_r by done. done.
    + unfold outflits. cbn [is_packer_waiting set_is_packer_waiting tx_buffer set_tx_buffer flit_to_pack]. rewrite !dev_accounts_app, Etx.
      change (accounts (set_is_packer_waiting true d)) with (accounts d). unfold pays in Hy. by rewrite Hy.
Qed.

Lemma dev_outflits_new d d1 : is_packer_waiting d = false -> tx_buffer d1 = tx_buffer d -> int_cred d1 = int_cred d -> flit_to_pack d1 = flit_new ->
  S2M_NDR d1 = S2M_NDR d -> S2M_DRS d1 = S2M_DRS d ->
  let k := set_is_packer_waiting true d1 in accounts k (q_ (tx_buffer k)) (outflits k) = accounts d (q_ (tx_buffer d)) (outflits d).
Proof.
  intros Hw Et Ei Ef E1 E2. unfold outflits. rewrite Hw. cbn [is_packer_waiting set_is_packer_waiting tx_buffer flit_to_pack]. rewrite Et, Ef, app_nil_r.
  unfold accounts, pending_ndr, pending_drs. cbn [int_cred S2M_NDR S2M_DRS set_is_packer_waiting].
  rewrite Ei, E1, E2, !total_app, !total_one, !Z.add_0_r. done.
Qed.

Lemma dev_start_flit_new g d : pack_inv d -> is_packer_waiting d = false ->
  let d1 := start_flit g d in
  pack_inv d1 /\ tx_buffer d1 = tx_buffer d /\ is_packer_waiting d1 = false /\
  packer_seq_length d1 = packer_seq_length d /\
  flit_to_pack d1 = flit_new /\ packer_rollover d1 = packer_rollover d /\
  pkr2_state d1 = pkr2_state d /\ waiting d1 = waiting d /\ dev_rest d1 = dev_rest d.
Proof.
  intros [] Hw. unfold start_flit. rewrite Hw. simpl. split_and!; try done. constructor; try done. exact cargo_new.
Qed.

Lemma dev_new_flit_packs R g d : packer_inv R d -> is_packer_waiting d = false ->
  packs R d (FLIT_packer p g d).
Proof.
  intros [Hp Hb (r0 & Hs & Hq & Hbd) Hcg] Hw. rewrite Hw in Hbd. subst r0.
  pose proof (dev_start_flit_new g d Hp Hw) as (Hp1 & Etx & Ew1 & Eq & Ef & Er & Est & Ewt & Ea).
  unfold FLIT_packer. set (d1 := start_flit g d) in *. rewrite Ew1. cbn [andb].
  pose proof (pi_roll d1 Hp1). rewrite (proj2 (Z.leb_le _ _)), (proj2 (Z.leb_le _ _)) by lia.
  cbn [andb negb]. rewrite andb_true_r.
  (* the messages of [d] are those of the new flit and of its channels *)
  assert (Hids : forall k, contents k = contents d1 -> tx_buffer k = tx_buffer d1 ->
    held_ids (set_is_packer_waiting true k) = held_ids d).
  { intros k Ek Et. rewrite dev_held_ids_waiting, Ek, Et, Etx. unfold held_ids, contents.
    rewrite Hw, Ef, Ewt. change (packed flit_new) with (@nil message). by rewrite app_nil_r. }
  assert (Eac : let k := set_is_packer_waiting true d1 in accounts k (q_ (tx_buffer k)) (outflits k) = accounts d (q_ (tx_buffer d)) (outflits d)).
  { apply dev_outflits_new; try done; unfold d1, start_flit; by rewrite Hw. }
  assert (Hpk : forall k r, contents k = contents d1 -> tx_buffer k = tx_buffer d1 -> dev_rest k = dev_rest d1 -> pays d1 k ->
    packs R (set_is_packer_waiting true k) r -> packs R d r).
  { intros k r Ek Et Eak Hy (b & g' & d' & -> & Hi' & Hh' & Ea' & Hac). exists b, g', d'.
    split_and!; try done; [by rewrite Hh', Hids | rewrite Ea', <- Ea; exact Eak|]. cbv zeta in Eac. rewrite Hac, <- Eac.
    unfold outflits. cbn [is_packer_waiting set_is_packer_waiting tx_buffer flit_to_pack]. rewrite Et, !dev_accounts_app.
    change (accounts (set_is_packer_waiting true ?x)) with (accounts x). unfold pays in Hy. by rewrite Hy. }
  destruct (Z.eqb_spec (packer_rollover d1) 0) as [E0|E0]; cbn [negb].
  - apply (Hpk d1); [done..|]. apply (dev_loop_packs R 0); rewrite ?Etx; try done.
    + rewrite Er in E0. by rewrite E0 in Hs.
    + simpl. lia.
    + rewrite Ef, E0. pose proof (pi_rr d1 Hp1). by destruct (pkr2_state d1).
  - destruct (dev_put_rollover_ok d1) as (d2 & -> & Hp2 & (Etx2 & Ew2 & [_ Ea2] & Es2) & Hy2 & Ec & Er2 & Est2 & Ek2);
      [done..|lia|]. cbn [bind].
    destruct (Z.eqb_spec (packer_rollover d1) 4) as [E4|E4].
    + destruct (is_buf_full (tx_buffer d2)) eqn:Hf.
      * apply (Hpk d2); [congruence..|done|]. do 3 eexists. split; [done|]. split; [|done].
        constructor; simpl; rewrite ?Etx2, ?Etx; try done.
        -- by destruct Hp2; constructor.
        -- eexists; split; [done|]. split; [simpl; lia|]. exists 4%nat. simpl.
           rewrite <- Er, E4, Ek2, Er2.
           split; [done|]. pose proof (pi_rr d2 Hp2). by destruct (pkr2_state d2).
      * apply (Hpk d2); [congruence..|done|].
        apply (dev_handed_packs R 4); rewrite ?Etx2, ?Etx; try done.
        -- congruence.
        -- replace (Z.of_nat 4) with (packer_rollover d) by lia. done.
        -- lia.
        -- rewrite Ek2, Er2. pose proof (pi_rr d2 Hp2). by destruct (pkr2_state d2).
    + apply (Hpk d2); [congruence..|done|].
      apply (dev_loop_packs R (Z.to_nat (packer_rollover d))); rewrite ?Etx2, ?Etx; try done.
      * by rewrite Z2Nat.id by lia.
      * lia.
      * rewrite Ek2, Er2, Er. pose proof (pi_rr d2 Hp2).
        assert (Hn : (Z.to_nat (packer_rollover d) = 1 \/ Z.to_nat (packer_rollover d) = 2 \/
          Z.to_nat (packer_rollover d) = 3)%nat) by lia.
        destruct Hn as [-> | [-> | ->]]; by destruct (pkr2_state d2).
Qed.

(** The members the invariant is about *)
Definition packer_view d :=
  ((S2M_NDR d, S2M_DRS d, connected_hosts d), (int_cred d, size_ (M2S_Req d), size_ (M2S_RWD d)),
   (flit_to_pack d, packer_rollover d, pkr2_state d, packer_seq_length d, seq_threshold d), (tx_buffer d, is_packer_waiting d)).
Lemma dev_packer_inv_view R d d' : packer_view d' = packer_view d -> packer_inv R d -> packer_inv R d'.
Proof.
  intros E. assert (E1 : size_ (M2S_Req d') = size_ (M2S_Req d)) by (unfold packer_view in E; congruence).
  assert (E2 : size_ (M2S_RWD d') = size_ (M2S_RWD d)) by (unfold packer_view in E; congruence).
  intros [[] ? ? ?]. destruct d, d'. unfold packer_view in E. cbn in *. injection E. intros. subst.
  split; [split; cbn; rewrite ?E1, ?E2|..]; assumption || done.
Qed.

(** The packer never violates an assertion and keeps its invariant and its
    messages. *)
Lemma dev_FLIT_packer_packs R g d : packer_inv R d -> packs R d (FLIT_packer p g d).
Proof.
  intros Hinv. destruct (is_packer_waiting d) eqn:Hw; [|by apply dev_new_flit_packs].
  unfold FLIT_packer.
  assert (start_flit g d = d) as -> by (unfold start_flit; by rewrite Hw).
  destruct (is_packer_waiting d && is_flit_full (flit_to_pack d)) eqn:E1.
  { by apply dev_send_packed_packs. }
  destruct (is_packer_waiting d && _ && _) eqn:E2; [by apply dev_send_packed_packs|].
  rewrite Hw in *. rewrite andb_false_r. simpl in E1.
  destruct Hinv as [Hp Hb (r0 & Hs & Hq & Hbd) Hcg]. rewrite Hw in Hbd.
  destruct Hbd as (n & -> & Hi). pose proof (pi_roll d Hp).
  rewrite (proj2 (Z.leb_le _ _)), (proj2 (Z.leb_le _ _)) by lia. cbn [andb].
  replace d with (set_is_packer_waiting true d) at 1 by (rewrite <- Hw; by destruct d).
  apply (dev_loop_packs R n); try done.
  unfold flit_inv in Hi. apply orb_true_iff in Hi as [Ho|Hcl]; [done|].
  exfalso. unfold closed_flit in Hcl. bool_prop. rewrite is_flit_full_kinds in E1. congruence.
Qed.

(** C8: [CXLDevice::FLIT_packer] never violates one of its assertions: the
    flits it hands over form a legal stream, the credits it returns are
    those it has, and a sequence of flits chained by rolled-over data never
    reaches the threshold of five flits. *)
Theorem device_packer_safe R g d : packer_inv R d ->
  exists b g' d', FLIT_packer p g d = Ok (b, (g', d')) /\ packer_inv R d'.
Proof. intros Hinv. destruct (dev_FLIT_packer_packs R g d Hinv) as (b & g' & d' & ? & ? & _). eauto. Qed.

(** The device's packer neither loses nor duplicates a response: the ids
    in the virtual channels, the flit under construction and the transmit
    buffer are the same before and after, up to order. *)
Theorem device_packer_conserves R g d b g' d' : packer_inv R d ->
  FLIT_packer p g d = Ok (b, (g', d')) -> held_ids d' ≡ₚ held_ids d.
Proof.
  intros Hinv E. destruct (dev_FLIT_packer_packs R g d Hinv) as (b1 & g1 & d1 & E1 & _ & Hh & _).
  rewrite E in E1. by injection E1 as <- <- <-.
Qed.

(** ** Deciding the invariant of an idle packer *)
Definition idle_b d : bool :=
  forallb (fun j => forallb (fun m => bool_decide (opCode m = NDR)) (q_ (vc_get d (NdrTx j))) &&
                    forallb (fun m => bool_decide (opCode m = DRS)) (q_ (vc_get d (DrsTx j))))
    (seq 0 NUM_VC) &&
  ((length (S2M_NDR d) =? NUM_VC)%nat && (length (S2M_DRS d) =? NUM_VC)%nat) &&
  ((rsp_credit (int_cred d) =? 0) &&
   (0 <=? req_credit (int_cred d)) && (req_credit (int_cred d) <=? size_ (M2S_Req d)) &&
   (0 <=? data_credit (int_cred d)) &&
   (data_credit (int_cred d) + pending_ndr d <=? size_ (M2S_RWD d))) &&
  (negb (bool_decide (pkr2_state d = rr_W)) && (packer_rollover d =? 0) &&
   negb (is_packer_waiting d) && is_flit_empty (flit_to_pack d) && (length (slots (flit_to_pack d)) =? 4)%nat &&
   (packer_seq_length d =? 0) && (seq_threshold d =? 5) &&
   negb (bool_decide (connected_hosts d = []))) &&
  (is_buf_empty (tx_buffer d) && (0 <=? size_ (tx_buffer d)) && (size_ (tx_buffer d) <? 2 ^ 31)).

Lemma dev_idle_packer_inv d : idle_b d = true -> packer_inv 0 d.
Proof.
  unfold idle_b. rewrite !andb_true_iff.
  intros [[[[Hv [Hn1 Hn2]] [[[[Hc0 Hc1] Hc2] Hc3] Hc4]] [[[[[[[Hr Hr0] Hw] Hf] Hs] Hq] Ht] Hh]] [[Hx Hx1] Hx2]].
  rewrite forallb_forall in Hv. bool_prop.
  assert (Hvc : forall oc vc, (forall j, (j < NUM_VC)%nat ->
    forallb (fun m => bool_decide (opCode m = oc)) (q_ (vc_get d (vc j))) = true) -> vcs_ok oc vc d).
  { intros oc vc Hb j Hj. specialize (Hb j Hj). apply Forall_forall. intros m Hm.
    rewrite forallb_forall in Hb. apply list_elem_of_In in Hm.
    by apply (bool_decide_eq_true_1 _ (Hb m Hm)). }
  apply is_buf_empty_true in Hx. apply Nat.eqb_eq in Hn1, Hn2, Hs.
  apply bool_decide_eq_false in Hr, Hh.
  constructor.
  - constructor; try done; try lia.
    + apply Hvc. intros j Hj. specialize (Hv j ltac:(apply in_seq; lia)). by bool_prop.
    + apply Hvc. intros j Hj. specialize (Hv j ltac:(apply in_seq; lia)). by bool_prop.
    + apply Forall_forall. intros s Hin. apply op_fits_other. right.
      unfold is_flit_empty in Hf. rewrite forallb_forall in Hf. by apply slot_type_eqb_true, Hf, list_elem_of_In.
  - unfold buf_ok, buf_occupancy. rewrite Hx. simpl. lia.
  - exists 0. rewrite Hx. split; [constructor|]. unfold building. rewrite Hw, Hr0. split; lia.
  - by rewrite Hx.
Qed.

End DevPack.

Module DevWitness.
(** A device with two write responses and a read response to pack. *)
Definition dev0 : CXLDevice :=
  let d := CXLDevice_new main_params 16 8 3 1 in
  set_int_cred (mk_credits 0 0 4)
    (set_ext_creds {[ 0 := mk_credits 0 2 1 ]}
      (set_S2M_NDR [mk_CXLBuf 4 [sample_msg NDR 1 64; sample_msg NDR 2 128]; CXLBuf_new 4;
                    CXLBuf_new 4; CXLBuf_new 4]
        (set_S2M_DRS [CXLBuf_new 4; mk_CXLBuf 4 [sample_msg DRS 3 192]; CXLBuf_new 4;
                      CXLBuf_new 4] d))).
Lemma dev0_inv : packer_inv 0 dev0.
Proof. apply dev_idle_packer_inv. vm_compute. reflexivity. Defined.
Definition dev1 : globals * CXLDevice :=
  match FLIT_packer main_params (sample_globals 100) dev0 with
  | Ok (_, r) => r
  | Abort _ => (sample_globals 100, dev0)
  end.

Lemma device_packer_safe_witness : exists b g' d',
  FLIT_packer main_params (sample_globals 100) dev0 = Ok (b, (g', d')) /\ packer_inv 0 d'.
Proof. apply device_packer_safe. exact dev0_inv. Defined.

Lemma device_packer_conserves_witness : held_ids (snd dev1) ≡ₚ [1; 2; 3].
Proof.
  apply (device_packer_conserves main_params 0 (sample_globals 100) dev0 true (fst dev1) (snd dev1)).
  - exact dev0_inv.
  - vm_compute. reflexivity.
Defined.
End DevWitness.
