(* ===== verification/DevRun.v ===== *)
(** * The device's receiver, its requests to memory and the cycles it skips

    [CXLDevice::FLIT_unpacker] on legal flits, [send_to_ramulator] and
    [ramulator_req_notification], and the soundness of the cycle-skipping
    predicates. *)
From Stdlib Require Import ZArith Lia Bool String.
From stdpp Require Import base list gmap.
From S2P Require Import Prelude Flit CxlBuf Samples CxlBus Packing Link CxlNode RamIf CxlDevice.

#[local] Existing Instance m2s_dialect.

Section DevRun.
Context `{Indet} (p : CXLParams).
Implicit Types d : CXLDevice.

(** ** Unpacking *)

Lemma consume_counts member tick l u l' u' :
  consume_rollover member tick l u = Ok (l', u') ->
  (forall t, t <> data -> t <> empty ->
     countb (fun s => slot_type_eqb (slot_ty s) t) l' = countb (fun s => slot_type_eqb (slot_ty s) t) l) /\
  length l' = length l.
Proof.
  revert u l' u'. induction l as [|s l IH]; intros u l' u' Hc; cbn [consume_rollover] in Hc.
  { by injection Hc as <- <-. }
  destruct (slot_type_eqb (slot_ty s) data) eqn:Ed; cbn [negb] in Hc.
  - apply slot_type_eqb_true in Ed.
    assert (Hs : forall t, t <> data -> t <> empty ->
      slot_type_eqb empty t = false /\ slot_type_eqb (slot_ty s) t = false).
    { intros t Ht1 Ht2. rewrite Ed. split; apply slot_type_eqb_false; congruence. }
    destruct (_ =? 0) in Hc.
    + res_inv. split; [|done]. intros t Ht1 Ht2. simpl. by destruct (Hs t Ht1 Ht2) as [-> ->].
    + apply bind_ok_inv in Hc as ([l1 u1] & Hc & E). injection E as <- <-.
      destruct (IH _ _ _ Hc) as [IH1 IH2]. split; [|simpl; congruence].
      intros t Ht1 Ht2. simpl. rewrite IH1 by done. by destruct (Hs t Ht1 Ht2) as [-> ->].
  - apply bind_ok_inv in Hc as ([l1 u1] & Hc & E). injection E as <- <-.
    destruct (IH _ _ _ Hc) as [IH1 IH2]. split; [|simpl; congruence].
    intros t Ht1 Ht2. simpl. by rewrite IH1.
Qed.

(** The counts the device takes after the first loop are within the rules. *)
Lemma counts_after_rollover tick f d r' l u :
  wf_flit (unpacker_rollover d) (kinds f) r' = true -> after_rollover tick f d = Ok (l, u) ->
  (countb (fun s => slot_type_eqb (slot_ty s) m2s_req) l <=? 2) &&
  (countb (fun s => slot_type_eqb (slot_ty s) m2s_rwd_hdr) l <=? 1) &&
  (countb (fun s => slot_type_eqb (slot_ty s) data) l <=? 4) = true.
Proof.
  intros Hw Ha.
  assert (Hc : (forall t, t <> data -> t <> empty ->
     countb (fun s => slot_type_eqb (slot_ty s) t) l =
     countb (fun s => slot_type_eqb (slot_ty s) t) (slots f)) /\ length l = length (slots f)).
  { unfold after_rollover in Ha. destruct (negb _); [by eapply consume_counts|]. by injection Ha as <- <-. }
  destruct Hc as [Hc Hlen]. rewrite !Hc by done.
  pose proof (no_packing_violation _ _ _ Hw) as Hv. unfold packing_violation, slot_count_in_flit in Hv.
  simpl plain_ty in Hv. simpl hdr_ty in Hv. bool_prop.
  pose proof (countb_length (fun s => slot_type_eqb (slot_ty s) data) l) as Hl.
  apply wf_flit_inv in Hw as (Hn4 & _). rewrite kinds_length in Hn4. rewrite Hlen, Hn4 in Hl.
  rewrite !andb_true_iff, !Z.leb_le. lia.
Qed.

(** The state after a flit was unpacked *)
Definition dev_unpacked (u : uvc) (b : CXLBuf flit) (f : flit) d : CXLDevice :=
  let c := cred_at (ext_creds d) 0 in let fc := credit (header f) in
  set_ext_creds (<[0 := mk_credits (req_credit c) (rsp_credit c + rsp_credit fc) (data_credit c + data_credit fc)]> (ext_creds d))
    (set_rx_buffer b (set_dev_uvc u d)).

Lemma dev_unpack_spec tick d f l r' :
  q_ (rx_buffer d) = f :: l ->
  delay_rx_buf_to_unpack p <= tick - time_of_receipt (flit_time f) ->
  is_buf_full (rx_buffer d) && is_buf_full (M2S_Req d) && is_buf_full (M2S_RWD d) = false ->
  wf_flit (unpacker_rollover d) (kinds f) r' = true -> room (dev_uvc d) f ->
  exists u b, unpack_slots set_tick_unpacked tick (slots f) (dev_uvc d) = Ok u /\
    q_ b = l /\ size_ b = size_ (rx_buffer d) /\ FLIT_unpacker p tick d = Ok (true, dev_unpacked u b f d).
Proof.
  intros Hq Ht Hst Hw (Hb1 & Hb2 & Hr1 & Hr2). unfold FLIT_unpacker. rewrite Hst. cbn [negb].
  rewrite (proj2 (is_buf_empty_false _)) by eauto. rewrite (get_head_ok _ _ _ Hq). cbn [bind].
  rewrite (proj2 (Z.ltb_ge _ _)) by lia.
  assert (Hr : (unpacker_rollover d <=? 4) && (0 <=? unpacker_rollover d) = true).
  { apply wf_flit_inv in Hw as (_ & _ & [(? & _)|(? & _)]); apply andb_true_iff; rewrite !Z.leb_le; lia. }
  rewrite Hr, (rollover_rule_wf _ _ _ Hw). cbn [bind].
  destruct (unpack_flit set_tick_unpacked tick (fun _ _ => eq_refl) f (dev_uvc d) r')
    as (u & E & _); try done.
  assert (E' : exists l1 u1, after_rollover tick f d = Ok (l1, u1) /\
    process_slots set_tick_unpacked tick l1 u1 = Ok u).
  { unfold unpack_slots in E. apply bind_ok_inv in E as ([l1 u1] & Ea & Eb). by exists l1, u1. }
  destruct E' as (l1 & u1 & Ea & Eb). pose proof (counts_after_rollover _ _ _ _ _ _ Hw Ea) as Hcnt.
  rewrite Ea. cbn [bind]. rewrite Eb. cbn [bind]. rewrite Hcnt.
  unfold dequeue at 1. simpl rx_buffer. unfold is_buf_empty. rewrite Hq. cbn [negb bind].
  by exists u, (mk_CXLBuf (size_ (rx_buffer d)) l).
Qed.

(** C16: A legal flit whose latency has elapsed is unpacked without
    violating an assertion: its requests reach [M2S_Req] and its write
    headers [M2S_RWD] in order, a header once its four data chunks have
    arrived, the credits of the flit are added to those of the host, and the
    flit leaves the receive buffer. *)
Theorem device_unpacker_delivers tick d f l r' :
  q_ (rx_buffer d) = f :: l ->
  delay_rx_buf_to_unpack p <= tick - time_of_receipt (flit_time f) ->
  is_buf_full (rx_buffer d) && is_buf_full (M2S_Req d) && is_buf_full (M2S_RWD d) = false ->
  wf_flit (unpacker_rollover d) (kinds f) r' = true -> room (dev_uvc d) f ->
  exists d', FLIT_unpacker p tick d = Ok (true, d') /\ unpacker_rollover d' = r' /\
    got_plain (dev_uvc d') = got_plain (dev_uvc d) ++ ids (msgs_of m2s_req (slots f)) /\
    got_hdr (dev_uvc d') = got_hdr (dev_uvc d) ++ ids (msgs_of m2s_rwd_hdr (slots f)) /\
    q_ (rx_buffer d') = l /\
    rsp_credit (cred_at (ext_creds d') 0) =
      rsp_credit (cred_at (ext_creds d) 0) + rsp_credit (credit (header f)) /\
    data_credit (cred_at (ext_creds d') 0) =
      data_credit (cred_at (ext_creds d) 0) + data_credit (credit (header f)).
Proof.
  intros Hq Ht Hst Hw Hroom.
  destruct (dev_unpack_spec tick d f l r') as (u & b & E & Hb & _ & ->); try done. destruct Hroom as (Hb1 & Hb2 & Hr1 & Hr2).
  destruct (unpack_flit set_tick_unpacked tick (fun _ _ => eq_refl) f (dev_uvc d) r') as (u1 & E1 & R & P & Q & _); try done.
  rewrite E in E1. injection E1 as <-. eexists. split; [done|]. unfold dev_unpacked. simpl.
  split_and!; try done; unfold cred_at at 1; by rewrite lookup_insert_eq.
Qed.

(** ** Requests to the memory model *)

(** The requests wait in the channels with their opcode, and the buffer is
    within its bounds. *)
Record ram_inv d : Prop := {
  ri_req : Forall (fun m => opCode m = Req) (q_ (M2S_Req d));
  ri_rwd : Forall (fun m => opCode m = RwD) (q_ (M2S_RWD d));
  ri_buf : if_ok (inp_buf d);
  ri_rr : ramulator_inp_state d <> rr_W
}.

Definition vc_op (v : rx_vc) : opcode := match v with ReqRx => Req | RwdRx => RwD end.
Definition vc_type (v : rx_vc) : ReqType := match v with ReqRx => READ | RwdRx => WRITE end.
Definition ready tick d (v : rx_vc) : bool :=
  head_ready (delay_vc_to_ramulator p) tick_unpacked tick (rx_get d v) && negb (isFull (inp_buf d)).

(** The transmitting side of a device *)
Definition same_tx d d' : Prop :=
  S2M_DRS d' = S2M_DRS d /\ S2M_NDR d' = S2M_NDR d /\ cur_DRS_vc d' = cur_DRS_vc d /\ cur_NDR_vc d' = cur_NDR_vc d.
Definition other_vc (v : rx_vc) : rx_vc := match v with ReqRx => RwdRx | RwdRx => ReqRx end.

(** The head of channel [v] moves to the input buffer of the memory, and the
    other channels stay as they are. *)
Definition moves (v : rx_vc) d d' : Prop :=
  exists m l, q_ (rx_get d v) = m :: l /\ q_ (rx_get d' v) = l /\
    if_buf (inp_buf d') = if_buf (inp_buf d) ++ [mk_ramulator_req (msg_id m) VALID (address m) (vc_type v)] /\
    (messages_in_ramulator d !! msg_id m = None -> messages_in_ramulator d' !! msg_id m = Some m) /\
    (forall k, k <> msg_id m -> messages_in_ramulator d' !! k = messages_in_ramulator d !! k) /\
    req_credit (int_cred d') = req_credit (int_cred d) + (match v with ReqRx => 1 | RwdRx => 0 end) /\
    rx_get d' (other_vc v) = rx_get d (other_vc v) /\ same_tx d d'.

Lemma ram_inv_vc d v : ram_inv d -> Forall (fun m => opCode m = vc_op v) (q_ (rx_get d v)).
Proof. intros []. by destruct v. Qed.

Lemma check_rx_vc_spec tick v d : ram_inv d ->
  exists b d', check_rx_vc p tick v d = Ok (b, d') /\ b = ready tick d v /\
    if b : bool then moves v d d' /\ ram_inv d' else d' = d.
Proof.
  intros Hinv. pose proof (ram_inv_vc d v Hinv) as Hm. unfold check_rx_vc, ready, head_ready.
  destruct (q_ (rx_get d v)) as [|m l] eqn:Hq; [by exists false, d|].
  apply Forall_cons in Hm as [Hop Hm]. rewrite Z.ltb_antisym.
  destruct (_ <=? _); cbn [negb andb]; [|by exists false, d].
  destruct (isFull (inp_buf d)) eqn:Hf; cbn [negb]; [by exists false, d|].
  destruct (buf_add_ok (mk_ramulator_req (msg_id m) VALID (address m) (vc_type v)) (inp_buf d) (ri_buf d Hinv) Hf)
    as (ib & Eb & Hb & Hbok).
  assert (Er : message2ramulator_req m = Ok (mk_ramulator_req (msg_id m) VALID (address m) (vc_type v))).
  { unfold message2ramulator_req. rewrite Hop. by destruct v. }
  rewrite Er. cbn [bind]. rewrite Eb. cbn [bind]. rewrite Hop.
  destruct Hinv. destruct v; simpl in *; unfold dequeue, is_buf_empty; simpl; rewrite Hq; simpl;
    (do 2 eexists; split; [done|]; split; [done|]; split;
     [ exists m, l; simpl; split_and!; try done; try (by rewrite Hb); try (by rewrite Hq)
     | constructor; simpl; by rewrite ?Hq ]).
  all: try (intros Hn; rewrite Hn; by rewrite lookup_insert_eq).
  all: try (intros k Hk; destruct (messages_in_ramulator d !! msg_id m); [done|]; by rewrite lookup_insert_ne).
  all: lia.
Qed.

Lemma send_to_ramulator_spec tick d : ram_inv d ->
  is_buf_full (M2S_Req d) && is_buf_full (M2S_RWD d) && isEmpty (inp_buf d) = false ->
  exists b d', send_to_ramulator p tick d = Ok (b, d') /\
    b = ready tick d ReqRx || ready tick d RwdRx /\
    if b : bool then (exists v, moves v d d') /\ ram_inv d' else d' = d.
Proof.
  intros Hinv Hst. unfold send_to_ramulator. rewrite Hst. cbn [negb].
  assert (Htwo : forall v1 s1 v2 s2, s1 <> rr_W -> s2 <> rr_W ->
    exists b d', (let! (b1, d) := check_rx_vc p tick v1 d in
      if b1 : bool then Ok (true, set_ramulator_inp_state s1 d)
      else let! (b2, d) := check_rx_vc p tick v2 d in
           if b2 : bool then Ok (true, set_ramulator_inp_state s2 d) else Ok (false, d)) = Ok (b, d') /\
      b = ready tick d v1 || ready tick d v2 /\
      if b : bool then (exists v, moves v d d') /\ ram_inv d' else d' = d).
  { intros v1 s1 v2 s2 Hs1 Hs2.
    destruct (check_rx_vc_spec tick v1 d Hinv) as (b1 & d1 & -> & -> & H1). cbn [bind].
    destruct (ready tick d v1) eqn:R1.
    - destruct H1 as [Hmv Hi]. exists true, (set_ramulator_inp_state s1 d1). split; [done|]. split; [done|].
      split; [|by destruct Hi; constructor]. exists v1. by destruct v1.
    - subst d1. destruct (check_rx_vc_spec tick v2 d Hinv) as (b2 & d2 & -> & -> & H2). cbn [bind orb].
      destruct (ready tick d v2).
      + destruct H2 as [Hmv Hi]. exists true, (set_ramulator_inp_state s2 d2). split; [done|]. split; [done|].
        split; [|by destruct Hi; constructor]. exists v2. by destruct v2.
      + subst d2. by exists false, d. }
  pose proof (ri_rr d Hinv) as HW. destruct (ramulator_inp_state d).
  - rewrite orb_comm. by apply Htwo.
  - by apply Htwo.
  - by apply Htwo.
  - done.
Qed.

(** A completion of the memory is answered once: the recorded request
    becomes a response with its id and address (DRS for a read, NDR for a
    write) at the end of the current virtual channel, the record is erased
    and the next response goes to the next channel.  A completion without a
    record is an assertion failure. *)
Lemma device_answers tick clks id d :
  (cur_DRS_vc d < length (S2M_DRS d))%nat -> (cur_NDR_vc d < length (S2M_NDR d))%nat ->
  match messages_in_ramulator d !! id with
  | None => exists s, ramulator_req_notification tick clks id d = Abort s
  | Some m =>
      let drs := vc_get d (DrsTx (cur_DRS_vc d)) in
      let ndr := vc_get d (NdrTx (cur_NDR_vc d)) in
      (opCode m = Req -> is_buf_full drs = false ->
       exists d' r, ramulator_req_notification tick clks id d = Ok d' /\
         q_ (vc_get d' (DrsTx (cur_DRS_vc d))) = q_ drs ++ [r] /\
         opCode r = DRS /\ msg_id r = msg_id m /\ address r = address m /\
         tick_ramulator_complete (msg_time r) = tick /\
         messages_in_ramulator d' = delete id (messages_in_ramulator d) /\
         cur_DRS_vc d' = bump_vc (cur_DRS_vc d) /\ S2M_NDR d' = S2M_NDR d) /\
      (opCode m = RwD -> is_buf_full ndr = false ->
       exists d' r, ramulator_req_notification tick clks id d = Ok d' /\
         q_ (vc_get d' (NdrTx (cur_NDR_vc d))) = q_ ndr ++ [r] /\
         opCode r = NDR /\ msg_id r = msg_id m /\ address r = address m /\
         tick_ramulator_complete (msg_time r) = tick /\
         messages_in_ramulator d' = delete id (messages_in_ramulator d) /\
         cur_NDR_vc d' = bump_vc (cur_NDR_vc d) /\ S2M_DRS d' = S2M_DRS d)
  end.
Proof.
  intros Hd Hn. unfold ramulator_req_notification.
  destruct (messages_in_ramulator d !! id) as [m|]; [|by eexists].
  simpl vc_get. split; intros Hop Hf.
  - simpl opCode. rewrite Hop. unfold enqueue. simpl in Hf. rewrite Hf. cbn [negb bind].
    do 2 eexists. split; [done|]. simpl. rewrite nth_insert by done.
    rewrite decide_True by done. simpl. split_and!; done.
  - simpl opCode. rewrite Hop. unfold enqueue. simpl in Hf. rewrite Hf. cbn [negb bind].
    do 2 eexists. split; [done|]. simpl. rewrite nth_insert by done.
    rewrite decide_True by done. simpl. split_and!; done.
Qed.

(** ** Skipping a cycle *)

(** A response waits at least from the creation of its request. *)
Definition aged (b : CXLBuf message) : Prop :=
  Forall (fun m => tick_created (msg_time m) <= tick_ramulator_complete (msg_time m)) (q_ b).

Lemma dev_check_vcs_loop_unready tick vc ixs d :
  (forall j, (j < NUM_VC)%nat -> aged (vc_get d (vc j)) /\
     head_ready (delay_vc_to_pack p) tick_created tick (vc_get d (vc j)) = false) ->
  check_vcs_loop p tick vc ixs d = Ok (None, d).
Proof.
  intros Hr. induction ixs as [|i ixs IH]; [done|].
  set (j := (i mod NUM_VC)%nat).
  change (check_vcs_loop p tick vc (i :: ixs) d) with
    (let! (found, d) := try_vc p tick (vc j) j d in
     if found : bool then Ok (Some (vc j), d) else check_vcs_loop p tick vc ixs d).
  assert (Hj : (j < NUM_VC)%nat) by (apply Nat.mod_upper_bound; done).
  destruct (Hr j Hj) as [Ha Hh]. unfold aged, try_vc, head_ready in *.
  destruct (q_ (vc_get d (vc j))) as [|m l]; [exact IH|]. apply Forall_cons in Ha as [Ha _].
  bool_prop. rewrite (proj2 (Z.leb_gt _ _)) by lia. exact IH.
Qed.

Lemma dev_skip_packer_unready tick d : skip_packer_check p tick d = true ->
  packer_rollover d = 0 /\ is_packer_waiting d = false /\
  forall j, (j < NUM_VC)%nat ->
    head_ready (delay_vc_to_pack p) tick_created tick (vc_get d (NdrTx j)) = false /\
    head_ready (delay_vc_to_pack p) tick_created tick (vc_get d (DrsTx j)) = false.
Proof.
  unfold skip_packer_check. destruct (_ || is_packer_waiting d) eqn:E0; [done|].
  bool_prop. intros Hs. split; [done|]. split; [done|]. intros j Hj.
  assert (Hin : In j (seq 0 NUM_VC)) by (apply in_seq; lia).
  destruct (forallb _ _) eqn:Hall in Hs.
  - rewrite forallb_forall in Hall. specialize (Hall j Hin). bool_prop.
    unfold head_ready. simpl. apply is_buf_empty_true in H2, H3. by rewrite H2, H3.
  - bool_prop. destruct (existsb _ _) eqn:Hex in Hs; [done|]. clear Hs.
    rewrite <- not_true_iff_false in Hex. simpl.
    destruct (head_ready _ _ _ (nth j (S2M_DRS d) _)) eqn:R1;
      [exfalso; apply Hex, existsb_exists; exists j; by rewrite R1|].
    destruct (head_ready _ _ _ (nth j (S2M_NDR d) _)) eqn:R2;
      [exfalso; apply Hex, existsb_exists; exists j; by rewrite R2, orb_true_r|]. done.
Qed.

(** Skipping a cycle of the device's packer is invisible, although the
    predicate measures the age of a response from the creation of its
    request and the packer from its completion: nothing would have been
    packed, and a later call behaves the same. *)
Lemma device_skip_packer g d :
  pkr2_state d <> rr_W ->
  (forall j, (j < NUM_VC)%nat -> aged (vc_get d (NdrTx j)) /\ aged (vc_get d (DrsTx j))) ->
  skip_packer_check p (curr_tick g) d = true ->
  FLIT_packer p g d = Ok (false, (g, start_flit g d)) /\
  forall g', FLIT_packer p g' (start_flit g d) = FLIT_packer p g' d.
Proof.
  intros HW Hage Hs. destruct (dev_skip_packer_unready _ _ Hs) as (Hr & Hw & Hv).
  assert (Hst : forall g', start_flit g' d = set_started_packing_at (curr_tick g') (set_flit_to_pack flit_new d))
    by (intros; unfold start_flit; by rewrite Hw). split.
  - unfold FLIT_packer. rewrite Hst. set (d1 := set_started_packing_at _ _).
    assert (Eg : get_msg_from_vcs p (curr_tick g) d1 = Ok (None, d1)).
    { unfold get_msg_from_vcs, check_vcs_for_packing. change (pkr2_state d1) with (pkr2_state d).
      assert (Hl : forall vc ixs, vc = NdrTx \/ vc = DrsTx ->
        check_vcs_loop p (curr_tick g) vc ixs d1 = Ok (None, d1)).
      { intros vc ixs Hvc. apply dev_check_vcs_loop_unready. intros j Hj. destruct (Hage j Hj), (Hv j Hj).
        by destruct Hvc as [-> | ->]. }
      destruct (pkr2_state d); [..|done]; by rewrite Hl by auto; cbn [bind]; rewrite Hl by auto. }
    change (is_packer_waiting d1) with (is_packer_waiting d).
    change (packer_rollover d1) with (packer_rollover d). rewrite Hw, Hr. simpl andb. cbn [negb Z.eqb Z.leb].
    simpl seq. cbn [pack_loop]. change (packer_rollover d1) with (packer_rollover d). rewrite Hr.
    cbn [negb Z.eqb andb]. change (slot_ty_at (flit_to_pack d1) 0) with empty.
    change (slot_type_eqb empty empty) with true. cbn [negb]. rewrite Eg. done.
  - intros g'. unfold FLIT_packer.
    assert (E : start_flit g' (start_flit g d) = start_flit g' d).
    { rewrite (Hst g). unfold start_flit. simpl. by rewrite Hw. }
    by rewrite E.
Qed.

(** The device's other predicates: [transmit] is skipped exactly when
    it would have sent nothing, the unpacker and [send_to_ramulator] only
    when they would have done nothing. *)
Lemma device_skip_others tick d bus :
  ramulator_inp_state d <> rr_W ->
  is_buf_full (rx_buffer d) && is_buf_full (M2S_Req d) && is_buf_full (M2S_RWD d) = false ->
  is_buf_full (M2S_Req d) && is_buf_full (M2S_RWD d) && isEmpty (inp_buf d) = false ->
  (skip_transmit_check p tick d bus = true <-> transmit p tick d bus = Ok (false, (d, bus))) /\
  (skip_unpacker_check p tick d = true -> FLIT_unpacker p tick d = Ok (false, d)) /\
  (skip_send_to_ram_check p tick d = true -> send_to_ramulator p tick d = Ok (false, d)).
Proof.
  intros HW Hst Hst2. split; [|split].
  - unfold skip_transmit_check, transmit, is_buf_empty, get_head.
    destruct (q_ (tx_buffer d)) as [|f l] eqn:Hq; [done|].
    destruct (is_full bus); [done|]. cbn [bind orb].
    destruct (_ <? delay_tx_buf_to_bus p); [done|]. destruct (_ <? cxl_bus_ticks_per_dequeue p); [done|].
    split; [done|]. intros Hf. res_inv. done.
  - unfold skip_unpacker_check, FLIT_unpacker, is_buf_empty, get_head. rewrite Hst. cbn [negb].
    destruct (q_ (rx_buffer d)) as [|f l]; [done|]. cbn [bind]. by intros ->.
  - unfold skip_send_to_ram_check, send_to_ramulator. rewrite Hst2. cbn [negb].
    destruct (isFull (inp_buf d)) eqn:Hf; [done|]. intros Hs.
    assert (Hv : forall v, check_rx_vc p tick v d = Ok (false, d)).
    { assert (Hu : forall v, head_ready (delay_vc_to_ramulator p) tick_unpacked tick (rx_get d v) = false).
      { destruct (is_buf_empty (M2S_Req d) && is_buf_empty (M2S_RWD d)) eqn:He.
        - bool_prop. apply is_buf_empty_true in H0, H1. unfold head_ready.
          intros []; simpl; [by rewrite H0 | by rewrite H1].
        - destruct (head_ready _ _ _ (M2S_Req d)) eqn:R1; [done|].
          destruct (head_ready _ _ _ (M2S_RWD d)) eqn:R2; [done|]. by intros []. }
      intros v. specialize (Hu v). unfold check_rx_vc, head_ready in *.
      destruct (q_ (rx_get d v)); [done|]. by rewrite Z.ltb_antisym, Hu. }
    destruct (ramulator_inp_state d); [..|done]; by rewrite Hv; cbn [bind]; rewrite Hv.
Qed.

(** C35: Skipping cycles of a device is invisible.  When [skip_packer_check]
    allows it nothing would have been packed and a later call of the packer
    behaves the same, although the predicate measures the age of a response
    from the creation of its request and the packer from its completion.
    [transmit] is skipped exactly when it would have sent nothing, the
    unpacker and [send_to_ramulator] only when they would have done
    nothing. *)
Theorem device_skip_sound g d bus :
  pkr2_state d <> rr_W -> ramulator_inp_state d <> rr_W ->
  (forall j, (j < NUM_VC)%nat -> aged (vc_get d (NdrTx j)) /\ aged (vc_get d (DrsTx j))) ->
  is_buf_full (rx_buffer d) && is_buf_full (M2S_Req d) && is_buf_full (M2S_RWD d) = false ->
  is_buf_full (M2S_Req d) && is_buf_full (M2S_RWD d) && isEmpty (inp_buf d) = false ->
  let tick := curr_tick g in
  (skip_packer_check p tick d = true ->
     FLIT_packer p g d = Ok (false, (g, start_flit g d)) /\
     forall g', FLIT_packer p g' (start_flit g d) = FLIT_packer p g' d) /\
  (skip_transmit_check p tick d bus = true <-> transmit p tick d bus = Ok (false, (d, bus))) /\
  (skip_unpacker_check p tick d = true -> FLIT_unpacker p tick d = Ok (false, d)) /\
  (skip_send_to_ram_check p tick d = true -> send_to_ramulator p tick d = Ok (false, d)).
Proof. intros HW HR Ha Hs1 Hs2. split; [by apply device_skip_packer|by apply device_skip_others]. Qed.

End DevRun.

Module DevRunWitness.
Definition req_flit : flit := sample_flit (mk_flit_lifetime 0 0 100) (mk_credits 0 2 3)
  [sample_slot m2s_req Req 7 64; sample_slot m2s_rwd_hdr RwD 8 128;
   sample_slot data RwD 8 128; sample_slot data RwD 8 128].
Definition dev_rx : CXLDevice :=
  set_rx_buffer (mk_CXLBuf 8 [req_flit]) (CXLDevice_new main_params 16 8 3 1).
Lemma device_unpacker_delivers_witness :
  exists d', FLIT_unpacker main_params 300 dev_rx = Ok (true, d') /\ unpacker_rollover d' = 2 /\
    got_plain (dev_uvc d') = got_plain (dev_uvc dev_rx) ++ ids (msgs_of m2s_req (slots req_flit)) /\
    got_hdr (dev_uvc d') = got_hdr (dev_uvc dev_rx) ++ ids (msgs_of m2s_rwd_hdr (slots req_flit)) /\
    q_ (rx_buffer d') = [] /\
    rsp_credit (cred_at (ext_creds d') 0) =
      rsp_credit (cred_at (ext_creds dev_rx) 0) + rsp_credit (credit (header req_flit)) /\
    data_credit (cred_at (ext_creds d') 0) =
      data_credit (cred_at (ext_creds dev_rx) 0) + data_credit (credit (header req_flit)).
Proof.
  apply (device_unpacker_delivers main_params 300 dev_rx req_flit [] 2); try reflexivity.
  - vm_compute. discriminate.
  - repeat split; vm_compute; congruence.
Defined.

Definition dev_wait : CXLDevice :=
  set_messages_in_ramulator {[ 1 := sample_msg Req 1 64; 2 := sample_msg RwD 2 128 ]}
    (CXLDevice_new main_params 16 8 3 1).
Lemma device_answers_witness :
  exists d' r, ramulator_req_notification 50 8 1 dev_wait = Ok d' /\
    q_ (vc_get d' (DrsTx 0)) = [] ++ [r] /\ opCode r = DRS /\ msg_id r = 1.
Proof.
  pose proof (device_answers 50 8 1 dev_wait ltac:(simpl; lia) ltac:(simpl; lia)) as Hx.
  destruct (proj1 Hx eq_refl eq_refl) as (d' & r & E & Q & O & I & _).
  exists d', r. exact (conj E (conj Q (conj O I))).
Defined.

Definition dev_young : CXLDevice :=
  set_S2M_NDR [mk_CXLBuf 4 [set_msg_tick set_tick_ramulator_complete 55
                              (set_msg_tick set_tick_created 50 (sample_msg NDR 1 64))];
               CXLBuf_new 4; CXLBuf_new 4; CXLBuf_new 4] (CXLDevice_new main_params 16 8 3 1).
Lemma device_skip_sound_witness :
  let bus := CXLBus_new main_params 15 4 UpStream device_switch in
  (skip_packer_check main_params 60 dev_young = true ->
     FLIT_packer main_params (sample_globals 60) dev_young =
       Ok (false, (sample_globals 60, start_flit (sample_globals 60) dev_young)) /\
     forall g', FLIT_packer main_params g' (start_flit (sample_globals 60) dev_young) = FLIT_packer main_params g' dev_young) /\
  (skip_transmit_check main_params 60 dev_young bus = true <->
     transmit main_params 60 dev_young bus = Ok (false, (dev_young, bus))) /\
  (skip_unpacker_check main_params 60 dev_young = true ->
     FLIT_unpacker main_params 60 dev_young = Ok (false, dev_young)) /\
  (skip_send_to_ram_check main_params 60 dev_young = true ->
     send_to_ramulator main_params 60 dev_young = Ok (false, dev_young)).
Proof.
  apply (device_skip_sound main_params (sample_globals 60)); [discriminate|discriminate| |reflexivity|reflexivity].
  intros j Hj. do 4 (destruct j as [|j]; [split; repeat constructor; vm_compute; congruence|]).
  exfalso. unfold NUM_VC in Hj. lia.
Defined.
End DevRunWitness.
