(* ===== verification/LinkRun.v ===== *)
(** * Both ends of a link together

    The interface between a packer and the link: a packer hands over a legal
    stream of flits and holds every message it was given until then.  The
    host and the device are its two instances.  What the unpacker at the
    other end delivers from that stream, whatever time stamps the buses and
    the switch put on it, is every message exactly once. *)
From Stdlib Require Import ZArith Lia Bool String.
From stdpp Require Import base list gmap.
From S2P Require Import Prelude Flit CxlBuf Samples CxlBus Packing Link CxlNode CxlHost HostPack RamIf CxlDevice DevPack.

(** ** What a link may change *)

(** The same slots with other time stamps. *)
Definition retimed (f g : flit) : Prop :=
  types g = types f /\
  map (fun x => msg_id (slot_msg x)) (slots g) = map (fun x => msg_id (slot_msg x)) (slots f).

Lemma msgs_of_pairs t l :
  ids (msgs_of t l) = map snd (List.filter (fun x => slot_type_eqb (fst x) t)
    (zip (map slot_ty l) (map (fun x => msg_id (slot_msg x)) l))).
Proof.
  induction l as [|x l IH]; [done|]. rewrite msgs_of_cons. unfold ids in *. rewrite map_app, IH. simpl.
  by destruct (slot_type_eqb (slot_ty x) t).
Qed.

Lemma retimed_msgs t f g : retimed f g -> ids (msgs_of t (slots g)) = ids (msgs_of t (slots f)).
Proof. intros [Ht Hm]. rewrite !msgs_of_pairs. unfold types in Ht. by rewrite Ht, Hm. Qed.

Lemma retimed_stream t fs gs : Forall2 retimed fs gs ->
  ids (concat (map (fun f => msgs_of t (slots f)) gs)) =
  ids (concat (map (fun f => msgs_of t (slots f)) fs)).
Proof.
  induction 1 as [|f g fs gs Hf _ IH]; [done|]. simpl. unfold ids in *. rewrite !map_app, IH. f_equal.
  by apply retimed_msgs.
Qed.

Lemma retimed_kinds `{Dialect} fs gs : Forall2 retimed fs gs -> map kinds gs = map kinds fs.
Proof.
  induction 1 as [|f g fs gs [Hf _] _ IH]; [done|]. simpl. rewrite IH. unfold kinds. by rewrite Hf.
Qed.

(** What the bus hands to the node at its end is such a flit. *)
Lemma received_retimed t tick f : retimed f (received t tick f).
Proof.
  unfold received. rewrite flit_copy_id. split; [by rewrite types_set_time|].
  unfold set_time. simpl. rewrite map_map. apply map_ext. intros x. unfold set_slot_time.
  by destruct (slot_type_eqb (slot_ty x) empty), t.
Qed.

(** ** The interface of a packer *)
Class Packer (S : Type) (D : Dialect) : Type := {
  pack : globals -> S -> res (bool * (globals * S));
  pack_invariant : Z -> S -> Prop;
  outgoing : S -> list flit;
  pending : S -> list Z;
  pack_total R g s : pack_invariant R s ->
    exists b g' s', pack g s = Ok (b, (g', s')) /\ pack_invariant R s' /\
      pending s' ++ ids (concat (map packed (outgoing s'))) ≡ₚ
      pending s ++ ids (concat (map packed (outgoing s)));
  outgoing_legal R s : pack_invariant R s -> exists r, wf_stream R (map kinds (outgoing s)) r
}.

(** Messages not yet handed over: in the channels and in the flit under
    construction. *)
Definition host_pending (h : CXLHost) : list Z :=
  ids (HostPack.waiting h) ++
  (if CxlHost.is_packer_waiting h then ids (packed (H := m2s_dialect) (CxlHost.flit_to_pack h)) else []).
Definition device_pending (d : CXLDevice) : list Z :=
  ids (DevPack.waiting d) ++
  (if CxlDevice.is_packer_waiting d then ids (packed (H := s2m_dialect) (CxlDevice.flit_to_pack d)) else []).

#[export, refine] Instance host_packer `{Indet} (p : CXLParams) : Packer CXLHost m2s_dialect := {
  pack := CxlHost.FLIT_packer p;
  pack_invariant := HostPack.packer_inv;
  outgoing h := q_ (CxlHost.tx_buffer h);
  pending := host_pending
}.
Proof.
  - intros R g h Hi. destruct (FLIT_packer_packs p R g h Hi) as (b & g' & h' & E & Hi' & Hh & _).
    exists b, g', h'. split; [done|]. split; [done|]. unfold host_pending. rewrite <- !app_assoc. exact Hh.
  - intros R h [_ _ (r & Hs & _) _ _]. eauto.
Defined.

#[export, refine] Instance device_packer `{Indet} (p : CXLParams) : Packer CXLDevice s2m_dialect := {
  pack := CxlDevice.FLIT_packer p;
  pack_invariant := DevPack.packer_inv;
  outgoing d := q_ (CxlDevice.tx_buffer d);
  pending := device_pending
}.
Proof.
  - intros R g d Hi. destruct (dev_FLIT_packer_packs p R g d Hi) as (b & g' & d' & E & Hi' & Hh & _).
    exists b, g', d'. split; [done|]. split; [done|]. unfold device_pending. rewrite <- !app_assoc. exact Hh.
  - intros R d [_ _ (r & Hs & _) _]. eauto.
Defined.

(** ** Running a packer, then the unpacker at the other end *)
Section LinkRun.
Context `{Indet} {S : Type} {D : Dialect} `{!Packer S D}.
Context (member : Z -> msg_timing -> msg_timing) (tick : Z).
Hypothesis member_id : forall v m, msg_id (set_msg_tick member v m) = msg_id m.

(** The packer runs at the given ticks. *)
Fixpoint pack_run (ticks : list Z) (g : globals) (s : S) : res (globals * S) :=
  match ticks with
  | [] => Ok (g, s)
  | t :: ticks => let! (_, (g, s)) := pack (set_curr_tick t g) s in pack_run ticks g s
  end.

Definition all_ids (s : S) : list Z := pending s ++ ids (concat (map packed (outgoing s))).

Lemma pack_run_total R ticks : forall g s, pack_invariant R s ->
  exists g' s', pack_run ticks g s = Ok (g', s') /\ pack_invariant R s' /\ all_ids s' ≡ₚ all_ids s.
Proof.
  induction ticks as [|t ticks IH]; intros g s Hi; simpl; [by exists g, s|].
  destruct (pack_total R (set_curr_tick t g) s Hi) as (b & g1 & s1 & -> & Hi1 & Hp). cbn [bind].
  destruct (IH g1 s1 Hi1) as (g2 & s2 & -> & Hi2 & Hp2). exists g2, s2. split_and!; try done.
  by rewrite Hp2.
Qed.

Lemma packed_split l : ids (concat (map packed l)) ≡ₚ
  ids (concat (map (fun f => msgs_of plain_ty (slots f)) l)) ++
  ids (concat (map (fun f => msgs_of hdr_ty (slots f)) l)).
Proof.
  unfold ids. rewrite <- map_app. apply Permutation_map. induction l as [|f l IH]; [done|]. simpl.
  rewrite IH. unfold packed. rewrite <- !app_assoc. apply Permutation_app_head.
  rewrite !app_assoc. apply Permutation_app_tail, Permutation_app_comm.
Qed.

Lemma link_delivers R ticks g s g' s' fs u :
  pack_invariant R s -> pack_run ticks g s = Ok (g', s') -> Forall2 retimed (outgoing s') fs ->
  u_roll u = R -> buf_ok (u_plain u) -> buf_ok (u_hdr u) ->
  Z.of_nat (length (got_plain u ++ all_ids s)) <= size_ (u_plain u) ->
  Z.of_nat (length (got_hdr u ++ all_ids s)) <= size_ (u_hdr u) ->
  exists u', unpack_stream member tick fs u = Ok u' /\
    got_plain u' ++ got_hdr u' ++ pending s' ≡ₚ got_plain u ++ got_hdr u ++ all_ids s.
Proof.
  intros Hi Hr Hf Hu Hb1 Hb2 H1 H2.
  destruct (pack_run_total R ticks g s Hi) as (g2 & s2 & E & Hi2 & Hp). rewrite E in Hr.
  injection Hr as <- <-. destruct (outgoing_legal R s2 Hi2) as (r & Hw).
  pose proof (packed_split (outgoing s2)) as Hs. rewrite <- !(retimed_stream _ _ _ Hf) in Hs.
  assert (Hl : Z.of_nat (length (ids (concat (map packed (outgoing s2))))) <= Z.of_nat (length (all_ids s))).
  { rewrite <- (Permutation_length Hp). unfold all_ids. rewrite length_app. lia. }
  rewrite (Permutation_length Hs), length_app in Hl. rewrite length_app in H1, H2.
  destruct (unpack_stream_ok member tick member_id R fs r u) as (u' & Eu & _ & Hgp & Hgh); try done.
  { by rewrite (retimed_kinds _ _ Hf). }
  { rewrite length_app. lia. }
  { rewrite length_app. lia. }
  exists u'. split; [done|]. rewrite Hgp, Hgh, <- Hp. unfold all_ids. rewrite Hs.
  rewrite <- !app_assoc. apply Permutation_app_head.
  rewrite Permutation_app_comm, <- !app_assoc. apply Permutation_app_head.
  by rewrite Permutation_app_comm, <- app_assoc.
Qed.
End LinkRun.

Section Links.
Context `{Indet} (p : CXLParams).

(** C13: The link from the host to a device loses, duplicates and invents no
    request: the host's packer runs at any ticks without failing, and when
    the flits it handed over are unpacked by the loops of the device's
    unpacker, with room in its channels, every id is received or still held
    by the host exactly once. *)
Theorem host_to_device_link R ticks g h u tick :
  HostPack.packer_inv R h -> u_roll u = R -> buf_ok (u_plain u) -> buf_ok (u_hdr u) ->
  Z.of_nat (length (got_plain u ++ HostPack.held_ids h)) <= size_ (u_plain u) ->
  Z.of_nat (length (got_hdr u ++ HostPack.held_ids h)) <= size_ (u_hdr u) ->
  exists g' h', pack_run (Packer0 := host_packer p) ticks g h = Ok (g', h') /\
    forall fs, Forall2 retimed (q_ (CxlHost.tx_buffer h')) fs ->
      exists u', unpack_stream (H0 := m2s_dialect) set_tick_unpacked tick fs u = Ok u' /\
        got_plain u' ++ got_hdr u' ++ host_pending h' ≡ₚ got_plain u ++ got_hdr u ++ HostPack.held_ids h.
Proof.
  intros Hi Hu Hb1 Hb2 H1 H2.
  assert (Ha : HostPack.held_ids h = all_ids (Packer0 := host_packer p) h).
  { unfold HostPack.held_ids, all_ids. simpl. unfold host_pending. by rewrite <- app_assoc. }
  rewrite Ha in *. destruct (pack_run_total (Packer0 := host_packer p) R ticks g h Hi) as (g' & h' & E & _).
  exists g', h'. split; [done|]. intros fs Hf. by eapply (link_delivers (Packer0 := host_packer p)).
Qed.

(** C14: The link from a device to the host loses, duplicates and invents no
    response. *)
Theorem device_to_host_link R ticks g d u tick :
  DevPack.packer_inv R d -> u_roll u = R -> buf_ok (u_plain u) -> buf_ok (u_hdr u) ->
  Z.of_nat (length (got_plain u ++ DevPack.held_ids d)) <= size_ (u_plain u) ->
  Z.of_nat (length (got_hdr u ++ DevPack.held_ids d)) <= size_ (u_hdr u) ->
  exists g' d', pack_run (Packer0 := device_packer p) ticks g d = Ok (g', d') /\
    forall fs, Forall2 retimed (q_ (CxlDevice.tx_buffer d')) fs ->
      exists u', unpack_stream (H0 := s2m_dialect) set_tick_resp_unpacked tick fs u = Ok u' /\
        got_plain u' ++ got_hdr u' ++ device_pending d' ≡ₚ got_plain u ++ got_hdr u ++ DevPack.held_ids d.
Proof.
  intros Hi Hu Hb1 Hb2 H1 H2.
  assert (Ha : DevPack.held_ids d = all_ids (Packer0 := device_packer p) d).
  { unfold DevPack.held_ids, all_ids. simpl. unfold device_pending. by rewrite <- app_assoc. }
  rewrite Ha in *. destruct (pack_run_total (Packer0 := device_packer p) R ticks g d Hi) as (g' & d' & E & _).
  exists g', d'. split; [done|]. intros fs Hf. by eapply (link_delivers (Packer0 := device_packer p)).
Qed.
End Links.

Module LinkWitness.
(** An empty receiver. *)
Definition u0 : uvc := mk_uvc 0 (sample_msg Req 0 0) (CXLBuf_new 8) (CXLBuf_new 8).

Lemma host_to_device_link_witness : exists g' h',
  pack_run (Packer0 := host_packer main_params) [100; 140; 200; 260] (sample_globals 0) HostWitness.host0
    = Ok (g', h') /\
  forall fs, Forall2 retimed (q_ (CxlHost.tx_buffer h')) fs ->
    exists u', unpack_stream (H0 := m2s_dialect) set_tick_unpacked 500 fs u0 = Ok u' /\
      got_plain u' ++ got_hdr u' ++ host_pending h' ≡ₚ [1; 2; 3].
Proof.
  apply (host_to_device_link main_params 0 [100; 140; 200; 260] (sample_globals 0) HostWitness.host0 u0 500);
    first [exact HostWitness.host0_inv | reflexivity | by vm_compute].
Defined.

Lemma device_to_host_link_witness : exists g' d',
  pack_run (Packer0 := device_packer main_params) [100; 140; 200; 260] (sample_globals 0) DevWitness.dev0
    = Ok (g', d') /\
  forall fs, Forall2 retimed (q_ (CxlDevice.tx_buffer d')) fs ->
    exists u', unpack_stream (H0 := s2m_dialect) set_tick_resp_unpacked 500 fs u0 = Ok u' /\
      got_plain u' ++ got_hdr u' ++ device_pending d' ≡ₚ [1; 2; 3].
Proof.
  apply (device_to_host_link main_params 0 [100; 140; 200; 260] (sample_globals 0) DevWitness.dev0 u0 500);
    first [exact DevWitness.dev0_inv | reflexivity | by vm_compute].
Defined.
End LinkWitness.
