(* ===== verification/Wire.v ===== *)
(** * Flits on their way

    Buses and a switch with one port change nothing in a flit but its time
    stamps, and keep the order of the flits: the wire from one end to the
    other is a queue. *)
From Stdlib Require Import ZArith Lia Bool String.
From stdpp Require Import base list gmap.
From S2P Require Import Prelude Flit CxlBuf Samples CxlBus Packing Link CxlNode CxlHost RamIf CxlDevice DevPack.
From S2P Require Import CxlSwitch SwitchRun.

(** ** The same flit but for its time stamps *)
Definition slot_view (s : slot) : slot_type * (Z * opcode * Z) :=
  (slot_ty s, (msg_id (slot_msg s), opCode (slot_msg s), address (slot_msg s))).
Definition same_cargo (f g : flit) : Prop :=
  credit (header g) = credit (header f) /\ map slot_view (slots g) = map slot_view (slots f).
Abbreviation same_wire := (Forall2 same_cargo).

#[export] Instance same_cargo_equiv : Equivalence same_cargo.
Proof.
  split; unfold same_cargo; [done|by intros f g [-> ->]|]. intros f g k [E1 E2] [E3 E4]. split; congruence.
Qed.

Lemma same_set_time member v f : same_cargo f (set_time member v f).
Proof.
  split; [done|]. cbn. rewrite map_map. apply map_ext. intros s. unfold set_slot_time.
  by destruct (slot_type_eqb (slot_ty s) empty).
Qed.
Lemma same_received t tick f : same_cargo f (received t tick f).
Proof. unfold received. rewrite flit_copy_id. exact (same_set_time (receipt_member t) tick (set_flit_time _ f)). Qed.
Lemma same_receipt tick f : same_cargo f (at_receipt tick (flit_copy f)).
Proof. by rewrite flit_copy_id. Qed.
Lemma same_transmission member tick f : same_cargo f (set_time member tick (at_transmission tick (flit_copy f))).
Proof. rewrite flit_copy_id. exact (same_set_time member tick (at_transmission tick f)). Qed.

(** What depends on the slots and the credits only *)
Lemma slot_views f g {X} (k : slot -> X) (k' : slot_type * (Z * opcode * Z) -> X) : (forall s, k s = k' (slot_view s)) ->
  same_cargo f g -> map k (slots g) = map k (slots f).
Proof.
  intros Hk [_ Hv]. transitivity (map k' (map slot_view (slots g))); [rewrite map_map; apply map_ext; done|].
  rewrite Hv, map_map. symmetry. by apply map_ext.
Qed.
#[export] Instance types_proper : Proper (same_cargo ==> eq) types.
Proof. intros f g Hs. symmetry. by apply (slot_views f g slot_ty fst). Qed.
#[export] Instance kinds_proper `{Dialect} : Proper (same_cargo ==> eq) kinds.
Proof. intros f g Hs. unfold kinds. by rewrite Hs. Qed.
#[export] Instance count_proper : Proper (same_cargo ==> eq ==> eq) slot_count_in_flit.
Proof. intros f g Hs t _ <-. symmetry. apply count_types. by rewrite Hs. Qed.
#[export] Instance empty_proper : Proper (same_cargo ==> eq) is_flit_empty.
Proof.
  intros f g Hs. unfold is_flit_empty. pose proof (slot_views f g slot_ty fst (fun _ => eq_refl) Hs) as E.
  assert (Hm : forall l, forallb (fun s => slot_type_eqb (slot_ty s) empty) l = forallb (fun t => slot_type_eqb t empty) (map slot_ty l)).
  { induction l as [|s l IH]; [done|]. cbn. by rewrite IH. }
  by rewrite !Hm, E.
Qed.
Lemma forall_views (P : slot_type * (Z * opcode * Z) -> Prop) f g : same_cargo f g ->
  Forall (fun s => P (slot_view s)) (slots f) <-> Forall (fun s => P (slot_view s)) (slots g).
Proof. intros [_ Hv]. by rewrite <- (List.Forall_map slot_view P (slots f)), <- (List.Forall_map slot_view P (slots g)), Hv. Qed.

(** The messages of a flit have addresses in [A]. *)
Definition slots_in (A : Z -> Prop) (f : flit) : Prop :=
  Forall (fun s => slot_ty s = empty \/ A (address (slot_msg s))) (slots f).
#[export] Instance slots_in_proper A : Proper (same_cargo ==> iff) (slots_in A).
Proof. intros f g Hs. exact (forall_views (fun v => fst v = empty \/ A (snd (snd v))) f g Hs). Qed.
#[export] Instance cargo_proper `{Dialect} : Proper (same_cargo ==> iff) cargo_ok.
Proof.
  intros f g Hs. exact (forall_views (fun v => (fst v = plain_ty -> snd (fst (snd v)) = plain_op) /\
    (fst v = hdr_ty -> snd (fst (snd v)) = hdr_op)) f g Hs).
Qed.

#[export] Instance sendable_proper : Proper (same_cargo ==> iff) sendable.
Proof.
  intros f g Hs. pose proof (cargo_proper (H := s2m_dialect) f g Hs) as Hc. unfold sendable. destruct Hs as [-> _]. by rewrite Hc.
Qed.

Lemma views_ids t l : ids (msgs_of t l) = map (fun v => fst (fst (snd v))) (List.filter (fun v => slot_type_eqb (fst v) t) (map slot_view l)).
Proof.
  induction l as [|s l IH]; [done|]. rewrite msgs_of_cons. unfold ids in *. rewrite map_app, IH. cbn.
  by destruct (slot_type_eqb (slot_ty s) t).
Qed.
Lemma same_ids t f g : same_cargo f g -> ids (msgs_of t (slots g)) = ids (msgs_of t (slots f)).
Proof. intros [_ Hv]. by rewrite !views_ids, Hv. Qed.

(** ** Wires *)
Lemma wire_kinds `{Dialect} fs gs : same_wire fs gs -> map kinds gs = map kinds fs.
Proof. induction 1 as [|f g fs gs Hf _ IH]; [done|]. cbn. by rewrite IH, Hf. Qed.
Lemma wire_total t fs gs : same_wire fs gs -> total t gs = total t fs.
Proof. induction 1 as [|f g fs gs Hf _ IH]; [done|]. unfold total in *. cbn. by rewrite IH, Hf. Qed.
Lemma wire_forall P `{!Proper (same_cargo ==> iff) P} fs gs : same_wire fs gs -> Forall P fs -> Forall P gs.
Proof. induction 1 as [|f g fs gs Hf _ IH]; [done|]. intros [? ?]%Forall_cons. constructor; [by rewrite <- Hf|auto]. Qed.
Lemma wire_credits fs gs : same_wire fs gs -> credit_sum gs = credit_sum fs.
Proof.
  induction 1 as [|f g fs gs [Hc _] _ IH]; [done|]. unfold credit_sum in *. cbn. injection IH as -> ->. by rewrite Hc.
Qed.
Lemma wire_total_app t l fs gs : same_wire fs gs -> total t (l ++ gs) = total t (l ++ fs).
Proof. intros W. by rewrite !total_app, (wire_total t fs gs W). Qed.
Lemma wire_credits_app l fs gs : same_wire fs gs -> credit_sum (l ++ gs) = credit_sum (l ++ fs).
Proof. intros W. by rewrite !credit_sum_app, (wire_credits fs gs W). Qed.
(** The ids on a wire *)
Definition wire_ids `{Dialect} (fs : list flit) : list Z := ids (concat (map packed fs)).
Lemma wire_ids_app `{Dialect} l1 l2 : wire_ids (l1 ++ l2) = wire_ids l1 ++ wire_ids l2.
Proof. unfold wire_ids, ids. by rewrite map_app, concat_app, map_app. Qed.
Lemma wire_same_ids `{Dialect} fs gs : same_wire fs gs -> wire_ids gs = wire_ids fs.
Proof.
  induction 1 as [|f g fs gs Hf _ IH]; [done|]. unfold wire_ids, ids in *. cbn [map concat]. rewrite !map_app, IH. f_equal.
  unfold packed. rewrite !map_app. fold (ids (msgs_of plain_ty (slots g))) (ids (msgs_of hdr_ty (slots g))).
  by rewrite !(same_ids _ f g Hf).
Qed.

(** A flit goes from the head of a queue to the end of the next one. *)
Lemma same_wire_refl l : same_wire l l.
Proof. induction l; by constructor. Qed.
Lemma wire_move a f g l c : same_cargo f g -> same_wire (a ++ (f :: l) ++ c) ((a ++ [g]) ++ l ++ c).
Proof. intros Hf. rewrite <- app_assoc. apply Forall2_app; [apply same_wire_refl|]. constructor; [done|apply same_wire_refl]. Qed.
Lemma wire_trans l1 l2 l3 : same_wire l1 l2 -> same_wire l2 l3 -> same_wire l1 l3.
Proof. intros H. revert l3. induction H; intros l3 H3; inversion H3; subst; constructor; [by etransitivity|auto]. Qed.
Lemma wire_app l1 l2 k1 k2 : same_wire l1 k1 -> same_wire l2 k2 -> same_wire (l1 ++ l2) (k1 ++ k2).
Proof. apply Forall2_app. Qed.
#[export] Hint Resolve same_wire_refl same_received same_receipt same_transmission : core.

(** A bus and the buffer at its end *)
Lemma add_to_bus_wire tick f b b' : add_to_bus tick f b = Ok b' -> flit_slots b' = flit_slots b ++ [f].
Proof.
  unfold add_to_bus. destruct (is_full b) eqn:Hf; [done|]. cbn [negb]. destruct (is_empty b); cbn; [|rewrite Hf; by intros [= <-]].
  change (is_full (set_time_of_last_dequeue tick b)) with (is_full b). rewrite Hf. by intros [= <-].
Qed.
Lemma bus_wire p tick b buf b' buf' : bus_update p tick b buf = Ok (b', buf') ->
  same_wire (q_ buf ++ flit_slots b) (q_ buf' ++ flit_slots b') /\ size_ buf' = size_ buf.
Proof.
  unfold bus_update. intros E. destruct (_ <=? u64 _); [|done]. destruct (negb (is_flit_stagnant tick b)); [|done].
  destruct (_ && _); [|injection E as <- <-; auto]. unfold send_to_node in E.
  destruct (flit_slots b) as [|f rest] eqn:Eb; [injection E as <- <-; rewrite Eb; auto|].
  destruct (_ <=? _); [|injection E as <- <-; rewrite Eb; auto].
  apply bind_ok_inv in E as (bb & Ee & E). injection E as <- <-. apply enqueue_inv in Ee as (_ & -> & ->). split; [|done].
  cbn [flit_slots set_flit_slots set_time_of_last_dequeue].
  pose proof (wire_move (q_ buf) f (received (bus_type b) tick f) rest [] ltac:(auto)) as W. by rewrite !app_nil_r in W.
Qed.

(** ** A switch with one device *)
Section Switch.
Context `{Indet} (p : CXLParams).
Implicit Types s : CXLSwitch.

Record one_port s : Prop := {
  op_devices : num_devices s = 1;
  op_port : curr_port s = 0;
  op_prev : previous_destination s = 0;
  op_tx : map fst (downstream_buffers_tx s) = [0];
  op_ivs : map fst (sw_address_intervals s) = [0]
}.
(** The flits in it, oldest first *)
Definition sw_down s : list flit := q_ (tx_buf s 0) ++ q_ (ARB_NOC_h2d s) ++ q_ (upstream_buffer_rx s).
Definition sw_up s : list flit := q_ (upstream_buffer_tx s) ++ q_ (ARB_NOC_d2h s) ++ q_ (rx_buf s 0).

(** What a stage does to both directions *)
Definition carries s s' : Prop := one_port s' /\ same_wire (sw_down s) (sw_down s') /\ same_wire (sw_up s) (sw_up s').
Lemma carries_refl s : one_port s -> carries s s.
Proof. intros Ho. by split_and!. Qed.

Lemma h2d_rx_wire tick flag s flag' s' : one_port s -> h2d_rx p tick flag s = Ok (flag', s') -> carries s s'.
Proof.
  unfold h2d_rx. intros Ho E. apply bind_ok_inv in E as ([fl ok] & _ & E). destruct ok; [|res_inv; by apply carries_refl].
  apply bind_ok_inv in E as (f & E1 & E). apply get_head_inv in E1 as [l Hf]. apply bind_ok_inv in E as (b & E2 & E).
  apply dequeue_inv in E2 as (f' & Hf' & _). apply bind_ok_inv in E as (b2 & E3 & E). apply enqueue_inv in E3 as (_ & Hq & _).
  injection E as <- <-. split; [by destruct Ho|]. split; [|done]. unfold sw_down, tx_buf. cbn in *. rewrite Hf in Hf'.
  injection Hf' as <- <-. rewrite Hq, Hf. apply wire_app; [done|].
  pose proof (wire_move (q_ (ARB_NOC_h2d s)) f (at_receipt tick (flit_copy f)) l [] ltac:(auto)) as W. by rewrite !app_nil_r in W.
Qed.

Lemma find_dest_one a (m : omap (Z * Z)) d : map fst m = [0] -> find_dest a m = Some d -> d = 0.
Proof. destruct m as [|[k [lo hi]] [|]]; cbn; try done. intros [= ->]. destruct (_ && _); congruence. Qed.
Lemma om_set_one {X} (m : omap X) x : map fst m = [0] -> om_set 0 x m = [(0, x)].
Proof. destruct m as [|[k y] [|]]; cbn; try done. by intros [= ->]. Qed.

Lemma h2d_noc_wire tick flag s flag' s' : one_port s -> h2d_noc p tick flag s = Ok (flag', s') -> carries s s'.
Proof.
  unfold h2d_noc. intros Ho E. apply bind_ok_inv in E as ([fl ok] & _ & E). destruct ok; [|res_inv; by apply carries_refl].
  apply bind_ok_inv in E as (f & E1 & E). apply get_head_inv in E1 as [l Hf]. apply bind_ok_inv in E as (dest & Ed & E).
  assert (dest = 0) as ->.
  { destruct (slot_type_eqb _ _); [injection Ed as <-; apply Ho|]. unfold switch_destination in Ed.
    destruct (find_dest _ _) as [d|] eqn:Ef; [|done]. injection Ed as <-. by eapply find_dest_one; [apply Ho|]. }
  apply bind_ok_inv in E as (b & E2 & E). apply dequeue_inv in E2 as (f' & Hf' & _).
  apply bind_ok_inv in E as (b2 & E3 & E). apply enqueue_inv in E3 as (_ & Hq & _). injection E as <- <-.
  destruct Ho as [O1 O2 O3 O4 O5]. cbn in *. split.
  { split; cbn; try done. by rewrite om_set_one. }
  split; [|done]. unfold sw_down, tx_buf in *. cbn [downstream_buffers_tx set_downstream_buffers_tx set_ARB_NOC_h2d ARB_NOC_h2d upstream_buffer_rx
    set_previous_destination] in *. rewrite om_set_one by done. cbn [om_get Z.eqb default from_option id].
  rewrite Hf in Hf'. injection Hf' as <- <-. rewrite Hq, Hf. by apply wire_move.
Qed.

Lemma h2d_tx_wire tick flag s b flag' s' bs : one_port s ->
  h2d_tx p tick (map fst (downstream_buffers_tx s)) flag s [(0, b)] = Ok (flag', s', bs) ->
  exists b', bs = [(0, b')] /\ one_port s' /\ same_wire (flit_slots b ++ sw_down s) (flit_slots b' ++ sw_down s') /\ sw_up s' = sw_up s.
Proof.
  intros Ho. rewrite (op_tx s Ho). cbn [h2d_tx]. intros E. apply bind_ok_inv in E as ([[fl s1] bs1] & E & E').
  injection E' as <- <- <-. unfold h2d_tx_port in E. apply bind_ok_inv in E as ([fl2 ok] & _ & E).
  assert (Hno : exists b', [(0, b)] = [(0, b')] /\ one_port s /\ same_wire (flit_slots b ++ sw_down s) (flit_slots b' ++ sw_down s) /\ sw_up s = sw_up s)
    by (exists b; by split_and!).
  destruct ok; [|res_inv; done]. cbn [om_get Z.eqb] in E. destruct (check_transmission _ _ _ _); [|res_inv; done].
  apply bind_ok_inv in E as (f & E1 & E). apply get_head_inv in E1 as [l Hf]. apply bind_ok_inv in E as (b1 & E2 & E).
  apply dequeue_inv in E2 as (f' & Hf' & _). rewrite Hf in Hf'. injection Hf' as <- ->.
  apply bind_ok_inv in E as (b2 & E3 & E). apply add_to_bus_wire in E3. injection E as <- <- <-. cbn [om_set Z.ltb Z.eqb Z.compare].
  exists b2. split; [done|]. destruct Ho as [O1 O2 O3 O4 O5]. split; [split; cbn; try done; by rewrite om_set_one|].
  split; [|done]. unfold sw_down. unfold tx_buf at 2.
  cbn [downstream_buffers_tx set_downstream_buffers_tx set_downstream_last_transmission ARB_NOC_h2d upstream_buffer_rx].
  rewrite om_set_one by done. cbn [om_get Z.eqb default from_option id]. rewrite E3, Hf. by apply wire_move.
Qed.

Lemma d2h_rx_wire tick n flag s flag' s' : one_port s -> d2h_rx p tick n flag s = Ok (flag', s') ->
  one_port s' /\ sw_down s' = sw_down s /\ same_wire (sw_up s) (sw_up s').
Proof.
  intros Ho. assert (Hp : forall k, one_port k -> one_port (update_port k) /\ sw_down (update_port k) = sw_down k /\ sw_up (update_port k) = sw_up k).
  { intros k [O1 O2 O3 O4 O5]. unfold update_port. destruct (_ =? 0); [|done]. rewrite O1, O2. done. }
  revert flag s Ho. induction n as [|n IH]; intros flag s Ho E; cbn [d2h_rx] in E; [by res_inv|].
  apply bind_ok_inv in E as ([fl ok] & _ & E). destruct ok.
  - apply bind_ok_inv in E as (f & E1 & E). apply get_head_inv in E1 as [l Hf]. apply bind_ok_inv in E as (b & E2 & E).
    apply dequeue_inv in E2 as (f' & Hf' & _). rewrite Hf in Hf'. injection Hf' as <- ->.
    apply bind_ok_inv in E as (b2 & E3 & E). apply enqueue_inv in E3 as (_ & Hq & _). injection E as <- <-.
    match goal with |- one_port (update_port ?k) /\ _ => set (k1 := k) end.
    assert (O1 : one_port k1) by (by destruct Ho). destruct (Hp k1 O1) as (P1 & P2 & P3). rewrite P2, P3.
    split; [done|]. split; [done|]. unfold sw_up, rx_buf, k1 in *. rewrite (op_port s Ho) in *. cbn in *. rewrite om_get_set, decide_True by done.
    cbn. apply wire_app; [done|]. rewrite Hq, Hf.
    pose proof (wire_move (q_ (ARB_NOC_d2h s)) f (at_receipt tick (flit_copy f)) (q_ b) [] ltac:(auto)) as W. by rewrite !app_nil_r in W.
  - destruct (Hp s Ho) as (P1 & P2 & P3). destruct (IH _ _ P1 E) as (I1 & I2 & I3). rewrite P2 in I2. rewrite P3 in I3. done.
Qed.

Lemma d2h_noc_wire tick flag s flag' s' : one_port s -> d2h_noc p tick flag s = Ok (flag', s') -> carries s s'.
Proof.
  unfold d2h_noc. intros Ho E. apply bind_ok_inv in E as ([fl ok] & _ & E). destruct ok; [|res_inv; by apply carries_refl].
  apply bind_ok_inv in E as (f & E1 & E). apply get_head_inv in E1 as [l Hf]. apply bind_ok_inv in E as (b & E2 & E).
  apply dequeue_inv in E2 as (f' & Hf' & _). rewrite Hf in Hf'. injection Hf' as <- ->.
  apply bind_ok_inv in E as (b2 & E3 & E). apply enqueue_inv in E3 as (_ & Hq & _). injection E as <- <-.
  split; [by destruct Ho|]. split; [done|]. unfold sw_up, rx_buf. cbn in *. rewrite Hq, Hf. by apply wire_move.
Qed.
Lemma d2h_tx_wire tick flag s b flag' s' b' : one_port s -> d2h_tx p tick flag s b = Ok (flag', s', b') ->
  one_port s' /\ sw_down s' = sw_down s /\ same_wire (flit_slots b ++ sw_up s) (flit_slots b' ++ sw_up s').
Proof.
  unfold d2h_tx. intros Ho E. apply bind_ok_inv in E as ([fl ok] & _ & E). destruct (_ && _); [|res_inv; by split_and!].
  apply bind_ok_inv in E as (f & E1 & E). apply get_head_inv in E1 as [l Hf]. apply bind_ok_inv in E as (b1 & E2 & E).
  apply dequeue_inv in E2 as (f' & Hf' & _). rewrite Hf in Hf'. injection Hf' as <- ->.
  apply bind_ok_inv in E as (b2 & E3 & E). apply add_to_bus_wire in E3. injection E as <- <- <-.
  split; [by destruct Ho|]. split; [done|]. unfold sw_up, rx_buf. cbn in *. rewrite E3, Hf. by apply wire_move.
Qed.

(** An update carries the flits onwards in both directions. *)
Lemma switch_wire skip tick s b hb s' bs hb' : one_port s -> switch_update p skip tick s [(0, b)] hb = Ok (s', bs, hb') ->
  exists b', bs = [(0, b')] /\ one_port s' /\
    same_wire (flit_slots b ++ sw_down s) (flit_slots b' ++ sw_down s') /\
    same_wire (flit_slots hb ++ sw_up s) (flit_slots hb' ++ sw_up s').
Proof.
  intros Ho E. unfold switch_update in E. destruct (_ && _); [injection E as <- <- <-; exists b; by split_and!|].
  apply bind_ok_inv in E as ([f1 s1] & E1 & E). apply h2d_rx_wire in E1 as (O1 & D1 & U1); [|done].
  apply bind_ok_inv in E as ([f2 s2] & E2 & E). apply h2d_noc_wire in E2 as (O2 & D2 & U2); [|done].
  apply bind_ok_inv in E as ([[f3 s3] bs3] & E3 & E). apply h2d_tx_wire in E3 as (b' & -> & O3 & D3 & U3); [|done].
  apply bind_ok_inv in E as ([f4 s4] & E4 & E). apply d2h_rx_wire in E4 as (O4 & D4 & U4); [|done].
  apply bind_ok_inv in E as ([f5 s5] & E5 & E). apply d2h_noc_wire in E5 as (O5 & D5 & U5); [|done].
  apply bind_ok_inv in E as ([[f6 s6] hb6] & E6 & E). apply d2h_tx_wire in E6 as (O6 & D6 & U6); [|done].
  injection E as <- <- <-. exists b'. split; [done|]. rewrite U3 in U4. rewrite <- D6 in D5. rewrite D4 in D5.
  assert (Hs : one_port (if skip then set_skip_cycle f6 s6 else s6) /\ sw_down (if skip then set_skip_cycle f6 s6 else s6) = sw_down s6 /\
    sw_up (if skip then set_skip_cycle f6 s6 else s6) = sw_up s6) by (destruct skip; [split; [by destruct O6|done]|done]).
  destruct Hs as (O7 & -> & ->). split; [done|]. split.
  - eapply wire_trans; [apply wire_app; [apply same_wire_refl|eapply wire_trans; [exact D1|exact D2]]|].
    eapply wire_trans; [exact D3|]. by apply wire_app.
  - eapply wire_trans; [|exact U6]. apply wire_app; [done|].
    eapply wire_trans; [exact U1|]. eapply wire_trans; [exact U2|]. eapply wire_trans; [exact U4|exact U5].
Qed.
End Switch.
