(* ===== verification/SwitchRoute.v ===== *)
(** * Routing towards the devices

    The switch sends a flit from the host to the device that owns its
    addresses, and a flit that starts with rolled-over data after the flit
    before it.  [routed] says this of a stream of flits, without the switch;
    the runs of [down_run] interleave arrivals and updates in any way. *)
From Stdlib Require Import ZArith Lia Bool String.
From stdpp Require Import base list.
From S2P Require Import Prelude Flit CxlBuf Samples CxlBus CxlSwitch SwitchRun Wire.

(** ** Where a stream of flits goes *)
Section Routed.
Context `{Indet} (ivs : omap (Z * Z)).

(** Every slot in use carries an address of the device [d], and there is one. *)
Definition bound_for (d : Z) (f : flit) : Prop :=
  Forall (fun x => slot_ty x <> empty -> find_dest (address (slot_msg x)) ivs = Some d) (slots f) /\
  is_flit_empty f = false.

(** A flit that starts with data follows the flit before it, whatever its
    addresses are; [prev] is where the one before the first went. *)
Inductive routed : Z -> list flit -> list (Z * flit) -> Prop :=
| routed_nil prev : routed prev [] []
| routed_own prev d f l m : slot_ty_at f 0 <> data -> bound_for d f -> routed d l m ->
    routed prev (f :: l) ((d, f) :: m)
| routed_follow prev f l m : slot_ty_at f 0 = data -> routed prev l m ->
    routed prev (f :: l) ((prev, f) :: m).

(** The last device *)
Definition last_dest (prev : Z) (m : list (Z * flit)) : Z := List.last (map fst m) prev.

Lemma last_dest_cons prev d f m : last_dest prev ((d, f) :: m) = last_dest d m.
Proof.
  unfold last_dest. cbn [map fst List.last]. destruct m as [|[e g] m]; [done|]. cbn [map fst]. clear.
  revert e. induction m as [|[k h] m IH]; intros e; [done|]. apply (IH k).
Qed.
Lemma last_dest_snoc prev m d f : last_dest prev (m ++ [(d, f)]) = d.
Proof. unfold last_dest. rewrite map_app. apply last_last. Qed.
Lemma routed_flits prev l m : routed prev l m -> map snd m = l.
Proof. induction 1; cbn; congruence. Qed.

(** One flit of the stream *)
Lemma routed_at prev l m1 d f m2 : routed prev l (m1 ++ (d, f) :: m2) ->
  if slot_type_eqb (slot_ty_at f 0) data then d = last_dest prev m1 else bound_for d f.
Proof.
  revert prev l. induction m1 as [|[e g] m1 IH]; intros prev l Hr; cbn [app] in Hr.
  - inversion Hr as [|? ? ? ? ? Hd Hb|? ? ? ? Hd]; subst; [|by rewrite Hd, slot_type_eqb_refl].
    by rewrite (proj2 (slot_type_eqb_false _ _) Hd).
  - rewrite last_dest_cons. inversion Hr; subst; by eapply IH.
Qed.
(** A prefix of the stream *)
Lemma routed_snoc prev l f m : routed prev (l ++ [f]) m -> exists m1 d, m = m1 ++ [(d, f)] /\ routed prev l m1.
Proof.
  revert prev m. induction l as [|g l IH]; intros prev m Hr; cbn [app] in Hr.
  - assert (m = [(fst (hd (0, f) m), f)]) as ->.
    { inversion Hr as [|? ? ? ? ? _ _ Hn|? ? ? ? _ Hn]; subst; by inversion Hn. }
    eexists [], _. split; [done|constructor].
  - inversion Hr as [|? d ? ? m0 Hd Hb Hl|? ? ? m0 Hd Hl]; subst; destruct (IH _ _ Hl) as (m1 & e & -> & H1);
      (eexists (_ :: m1), e; split; [done|by constructor]).
Qed.

Lemma first_address_in l : forallb (fun x => slot_type_eqb (slot_ty x) empty) l = false ->
  exists x, In x l /\ slot_ty x <> empty /\ first_address l = address (slot_msg x).
Proof.
  induction l as [|x l IH]; simpl; [done|]. destruct (slot_type_eqb (slot_ty x) empty) eqn:E; simpl.
  - intros (y & Hy & He & Ha)%IH. eauto.
  - intros _. exists x. split; [by left|]. by apply slot_type_eqb_false in E.
Qed.
Lemma bound_dest d f : bound_for d f -> find_dest (get_first_address f) ivs = Some d.
Proof.
  intros [Hb He]. unfold get_first_address. destruct (first_address_in _ He) as (x & Hin & Hne & ->).
  rewrite Forall_forall in Hb. by apply (Hb x); [apply list_elem_of_In|].
Qed.
#[export] Instance bound_proper d : Proper (same_cargo ==> iff) (bound_for d).
Proof.
  intros f g Hs. unfold bound_for. rewrite (empty_proper f g Hs). apply and_iff_compat_r.
  exact (forall_views (fun v => fst v <> empty -> find_dest (snd (snd v)) ivs = Some d) f g Hs).
Qed.
Lemma slot_ty_cargo f g i : same_cargo f g -> slot_ty_at g i = slot_ty_at f i.
Proof. intros Hs. by rewrite !slot_ty_at_types, Hs. Qed.
End Routed.

Section SwitchRoute.
Context `{Indet} (p : CXLParams).
Implicit Types s : CXLSwitch.

(** ** Runs *)

(** The flits that an update put on the bus of the device [d] *)
Definition put_on (d : Z) (db db' : omap CXLBus) (l : list flit) : Prop :=
  match om_get d db, om_get d db' with
  | Some b, Some b' => flit_slots b' = flit_slots b ++ l
  | None, None => l = []
  | _, _ => False
  end.

(** [A] lists the flits that arrived from the host, [O] those put on the
    buses of the devices. *)
Inductive down_run (s0 : CXLSwitch) : list flit -> list (Z * flit) -> CXLSwitch -> Prop :=
| down_start : down_run s0 [] [] s0
| down_host A O s f b : down_run s0 A O s -> enqueue f (upstream_buffer_rx s) = Ok b ->
    down_run s0 (A ++ [f]) O (set_upstream_buffer_rx b s)
| down_device A O s i f b : down_run s0 A O s -> enqueue f (rx_buf s i) = Ok b ->
    down_run s0 A O (set_downstream_buffers_rx (om_set i b (downstream_buffers_rx s)) s)
| down_update A O s skip tick db hb s' db' hb' out : down_run s0 A O s ->
    switch_update p skip tick s db hb = Ok (s', db', hb') ->
    (forall d, put_on d db db' (of_port d out)) -> down_run s0 A (O ++ out) s'.

(** Nothing is on its way to the devices. *)
Record quiet_down s : Prop := {
  qd_arb : q_ (ARB_NOC_h2d s) = [];
  qd_rx : q_ (upstream_buffer_rx s) = [];
  qd_ports : forall d, q_ (tx_buf s d) = []
}.

(** ** The stages *)

(** What routing is about *)
Definition down_view s :=
  (upstream_buffer_rx s, ARB_NOC_h2d s, downstream_buffers_tx s, previous_destination s, sw_address_intervals s).

Lemma h2d_rx_down tick flag s flag' s' : h2d_rx p tick flag s = Ok (flag', s') ->
  same_wire (q_ (ARB_NOC_h2d s) ++ q_ (upstream_buffer_rx s)) (q_ (ARB_NOC_h2d s') ++ q_ (upstream_buffer_rx s')) /\
  downstream_buffers_tx s' = downstream_buffers_tx s /\ previous_destination s' = previous_destination s /\
  sw_address_intervals s' = sw_address_intervals s.
Proof.
  unfold h2d_rx. intros E. apply bind_ok_inv in E as ([fl ok] & _ & E). destruct ok; [|by res_inv].
  apply bind_ok_inv in E as (f & E1 & E). apply get_head_inv in E1 as [l Hf]. apply bind_ok_inv in E as (b & E2 & E).
  apply dequeue_inv in E2 as (f' & Hf' & _). rewrite Hf in Hf'. injection Hf' as <- ->.
  apply bind_ok_inv in E as (b2 & E3 & E). apply enqueue_inv in E3 as (_ & Hq & _). injection E as <- <-. split; [|done].
  cbn in *. rewrite Hq, Hf. pose proof (wire_move (q_ (ARB_NOC_h2d s)) f (at_receipt tick (flit_copy f)) (q_ b) [] ltac:(auto)) as W.
  by rewrite !app_nil_r in W.
Qed.

(** The head of the arbiter goes to a port, or nothing does. *)
Lemma h2d_noc_down tick flag s flag' s' : h2d_noc p tick flag s = Ok (flag', s') ->
  down_view s' = down_view s \/
  exists f g d, q_ (ARB_NOC_h2d s) = f :: q_ (ARB_NOC_h2d s') /\ same_cargo f g /\ previous_destination s' = d /\
    (if slot_type_eqb (slot_ty_at f 0) data then d = previous_destination s
     else find_dest (get_first_address f) (sw_address_intervals s) = Some d) /\
    (forall j, q_ (tx_buf s' j) = q_ (tx_buf s j) ++ of_port j [(d, g)]) /\
    upstream_buffer_rx s' = upstream_buffer_rx s /\ sw_address_intervals s' = sw_address_intervals s.
Proof.
  unfold h2d_noc. intros E. apply bind_ok_inv in E as ([fl ok] & _ & E). destruct ok; [right|left; by res_inv].
  apply bind_ok_inv in E as (f & E1 & E). apply get_head_inv in E1 as [l Hf]. apply bind_ok_inv in E as (d & Ed & E).
  apply bind_ok_inv in E as (b & E2 & E). apply dequeue_inv in E2 as (f' & Hf' & _). cbn in Hf'. rewrite Hf in Hf'. injection Hf' as <- ->.
  apply bind_ok_inv in E as (b2 & E3 & E). apply enqueue_inv in E3 as (_ & Hq & _). injection E as <- <-.
  exists f, (at_receipt tick (flit_copy f)), d. cbn. split; [done|]. split; [auto|]. split; [done|]. split; [|split; [|done]].
  - destruct (slot_type_eqb _ _); [by injection Ed as <-|]. unfold switch_destination in Ed.
    destruct (find_dest _ _); [by injection Ed as <-|done].
  - intros j. unfold tx_buf at 1. cbn. rewrite om_get_set, Z.eqb_sym. case_decide as Hj.
    + subst j. rewrite Z.eqb_refl. exact Hq.
    + rewrite (proj2 (Z.eqb_neq _ _) Hj). by rewrite app_nil_r.
Qed.

(** The flits [out] leave the ports for their buses. *)
Definition leaves s s' (db db' : omap CXLBus) (out : list (Z * flit)) : Prop :=
  (forall d, put_on d db db' (of_port d out)) /\
  (forall d, same_wire (q_ (tx_buf s d)) (of_port d out ++ q_ (tx_buf s' d))) /\
  (upstream_buffer_rx s', ARB_NOC_h2d s', previous_destination s', sw_address_intervals s') =
  (upstream_buffer_rx s, ARB_NOC_h2d s, previous_destination s, sw_address_intervals s).

Lemma put_on_same d db : put_on d db db [].
Proof. unfold put_on. destruct (om_get d db); [by rewrite app_nil_r|done]. Qed.
Lemma put_on_trans d b1 b2 b3 l k : put_on d b1 b2 l -> put_on d b2 b3 k -> put_on d b1 b3 (l ++ k).
Proof.
  unfold put_on. destruct (om_get d b1), (om_get d b2), (om_get d b3); try done; [|by intros -> ->].
  intros -> ->. by rewrite app_assoc.
Qed.
Lemma put_on_det d b1 b2 l k : put_on d b1 b2 l -> put_on d b1 b2 k -> l = k.
Proof.
  unfold put_on. destruct (om_get d b1), (om_get d b2); try done; [|by intros -> ->]. intros -> E. by apply app_inv_head in E.
Qed.
Lemma leaves_refl s db : leaves s s db db [].
Proof. split; [intros d; apply put_on_same|]. by split. Qed.

Lemma h2d_tx_port_down tick port flag s db flag' s' db' : h2d_tx_port p tick port flag s db = Ok (flag', s', db') ->
  exists out, leaves s s' db db' out.
Proof.
  unfold h2d_tx_port. intros E. apply bind_ok_inv in E as ([fl ok] & _ & E).
  assert (Hno : exists out, leaves s s db db out) by (exists []; apply leaves_refl).
  destruct ok; [|by res_inv]. destruct (om_get port db) as [bus|] eqn:Eb; [|done]. destruct (check_transmission _ _ _ _); [|by res_inv].
  apply bind_ok_inv in E as (f & E1 & E). apply get_head_inv in E1 as [l Hf]. apply bind_ok_inv in E as (b & E2 & E).
  apply dequeue_inv in E2 as (f' & Hf' & _). rewrite Hf in Hf'. injection Hf' as <- ->.
  apply bind_ok_inv in E as (bus' & E3 & E). apply add_to_bus_wire in E3. injection E as _ <- <-.
  match type of E3 with _ = _ ++ [?g] => set (g2 := g) in * end. assert (Hg : same_cargo f g2) by apply same_transmission. clearbody g2.
  exists [(port, g2)]. split; [|split; [|done]]; intros d; unfold of_port; cbn [List.filter map fst]; rewrite (Z.eqb_sym port d).
  - unfold put_on. rewrite om_get_set. case_decide as Hd; [|rewrite (proj2 (Z.eqb_neq _ _) Hd); apply put_on_same].
    subst d. by rewrite Eb, Z.eqb_refl.
  - unfold tx_buf at 2. cbn. rewrite om_get_set. case_decide as Hd; [|by rewrite (proj2 (Z.eqb_neq _ _) Hd)].
    subst d. rewrite Z.eqb_refl, Hf. cbn. by constructor.
Qed.
Lemma h2d_tx_down tick ports : forall flag s db flag' s' db', h2d_tx p tick ports flag s db = Ok (flag', s', db') ->
  exists out, leaves s s' db db' out.
Proof.
  induction ports as [|port ports IH]; intros flag s db flag' s' db' E; cbn [h2d_tx] in E.
  { injection E as _ <- <-. exists []. apply leaves_refl. }
  apply bind_ok_inv in E as ([[fl s1] db1] & E1 & E). apply h2d_tx_port_down in E1 as (o1 & P1 & W1 & V1).
  apply IH in E as (o2 & P2 & W2 & V2). exists (o1 ++ o2). split; [|split; [|congruence]]; intros d; rewrite of_port_app.
  - by eapply put_on_trans.
  - eapply wire_trans; [apply W1|]. rewrite <- app_assoc. apply wire_app; [done|apply W2].
Qed.

(** The stages towards the host *)
Lemma d2h_down tick n flag s flag' s' : d2h_rx p tick n flag s = Ok (flag', s') -> down_view s' = down_view s.
Proof.
  assert (Hp : forall k, down_view (update_port k) = down_view k) by (intros k; unfold update_port; by destruct (_ =? 0)).
  revert flag s. induction n as [|n IH]; intros flag s E; cbn [d2h_rx] in E; [by res_inv|].
  apply bind_ok_inv in E as ([fl ok] & _ & E). destruct ok; [|by rewrite (IH _ _ E)].
  apply bind_ok_inv in E as (f & _ & E). apply bind_ok_inv in E as (b & _ & E). apply bind_ok_inv in E as (b2 & _ & E).
  injection E as _ <-. by rewrite Hp.
Qed.
Lemma d2h_noc_down tick flag s flag' s' : d2h_noc p tick flag s = Ok (flag', s') -> down_view s' = down_view s.
Proof. unfold d2h_noc. intros E. apply bind_ok_inv in E as ([fl ok] & _ & E). destruct ok; by res_inv. Qed.
Lemma d2h_tx_down tick flag s b flag' s' b' : d2h_tx p tick flag s b = Ok (flag', s', b') -> down_view s' = down_view s.
Proof. unfold d2h_tx. intros E. apply bind_ok_inv in E as ([fl ok] & _ & E). destruct (_ && _); by res_inv. Qed.

(** ** The invariant

    Of the stream [m], the flits of [m1] have reached their ports, in order,
    and those of [m2] are still to come. *)
Record down_inv (ivs : omap (Z * Z)) (prev : Z) (m : list (Z * flit)) (O : list (Z * flit)) s (m1 m2 : list (Z * flit)) : Prop := {
  dn_split : m = m1 ++ m2;
  dn_ivs : sw_address_intervals s = ivs;
  dn_prev : previous_destination s = last_dest prev m1;
  dn_ports d : same_wire (of_port d m1) (of_port d O ++ q_ (tx_buf s d));
  dn_rest : same_wire (map snd m2) (q_ (ARB_NOC_h2d s) ++ q_ (upstream_buffer_rx s))
}.
Lemma down_inv_view ivs prev m O s s' m1 m2 : down_view s' = down_view s -> down_inv ivs prev m O s m1 m2 -> down_inv ivs prev m O s' m1 m2.
Proof.
  unfold down_view. intros E [D1 D2 D3 D4 D5]. injection E as E1 E2 E3 E4 E5.
  split; unfold tx_buf in *; rewrite ?E1, ?E2, ?E3, ?E4, ?E5; done.
Qed.
Lemma wire_cons_inv a f l : same_wire a (f :: l) -> exists g k, a = g :: k /\ same_cargo g f /\ same_wire k l.
Proof. intros W. inversion W; subst; eauto. Qed.

(** The route that the arbiter computes is that of the stream. *)
Lemma dest_routed ivs prev A m m1 d f m2 g e : routed ivs prev A m -> m = m1 ++ (d, f) :: m2 -> same_cargo f g ->
  (if slot_type_eqb (slot_ty_at g 0) data then e = last_dest prev m1 else find_dest (get_first_address g) ivs = Some e) -> e = d.
Proof.
  intros Hr -> Hs He. apply routed_at in Hr. rewrite (slot_ty_cargo _ _ 0 Hs) in He. destruct (slot_type_eqb _ _); [congruence|].
  rewrite (bound_proper ivs d f g Hs) in Hr. rewrite (bound_dest _ _ _ Hr) in He. congruence.
Qed.

Lemma down_inv_rx ivs prev m O s m1 m2 tick flag flag' s' : down_inv ivs prev m O s m1 m2 -> h2d_rx p tick flag s = Ok (flag', s') ->
  down_inv ivs prev m O s' m1 m2.
Proof.
  intros [D1 D2 D3 D4 D5] E. apply h2d_rx_down in E as (W & E1 & E2 & E3). split; unfold tx_buf in *; rewrite ?E1, ?E2, ?E3; try done.
  by eapply wire_trans.
Qed.
Lemma down_inv_noc ivs prev A m O s m1 m2 tick flag flag' s' : routed ivs prev A m -> down_inv ivs prev m O s m1 m2 ->
  h2d_noc p tick flag s = Ok (flag', s') -> exists m1 m2, down_inv ivs prev m O s' m1 m2.
Proof.
  intros Hr D E. apply h2d_noc_down in E as [E|(f & g & e & Hq & Hs & Hp & He & Ht & Hx & Hi)]; [exists m1, m2; by eapply down_inv_view|].
  destruct D as [D1 D2 D3 D4 D5]. rewrite Hq in D5. cbn [app] in D5. apply wire_cons_inv in D5 as (f0 & k & Ek & Hf & Wk).
  destruct m2 as [|[d f1] m2]; [done|]. cbn [map snd] in Ek. injection Ek as -> <-.
  rewrite D2, D3 in He. assert (e = d) as -> by (by eapply dest_routed). exists (m1 ++ [(d, f0)]), m2. split.
  - by rewrite <- app_assoc.
  - congruence.
  - rewrite last_dest_snoc. exact Hp.
  - intros j. rewrite Ht, of_port_app, app_assoc. apply wire_app; [apply D4|]. unfold of_port. cbn [List.filter map fst].
    destruct (d =? j); constructor; [|constructor]. by transitivity f.
  - by rewrite Hx.
Qed.
Lemma down_inv_leaves ivs prev m O s m1 m2 s' db db' out : down_inv ivs prev m O s m1 m2 -> leaves s s' db db' out ->
  down_inv ivs prev m (O ++ out) s' m1 m2.
Proof.
  intros [D1 D2 D3 D4 D5] (_ & W & V). injection V as V1 V2 V3 V4. split; rewrite ?V1, ?V2, ?V3, ?V4; try done.
  intros d. rewrite of_port_app, <- app_assoc. eapply wire_trans; [apply D4|]. apply wire_app; [done|apply W].
Qed.
Lemma down_inv_out ivs prev m O out out' s m1 m2 : (forall d, of_port d out = of_port d out') ->
  down_inv ivs prev m (O ++ out) s m1 m2 -> down_inv ivs prev m (O ++ out') s m1 m2.
Proof. intros Ho [D1 D2 D3 D4 D5]. split; try done. intros d. specialize (D4 d). rewrite of_port_app in *. by rewrite <- Ho. Qed.

Lemma down_inv_update ivs prev A m O s m1 m2 skip tick db hb s' db' hb' out : routed ivs prev A m -> down_inv ivs prev m O s m1 m2 ->
  switch_update p skip tick s db hb = Ok (s', db', hb') -> (forall d, put_on d db db' (of_port d out)) ->
  exists m1 m2, down_inv ivs prev m (O ++ out) s' m1 m2.
Proof.
  intros Hr D E Ho. unfold switch_update in E. destruct (_ && _).
  { injection E as <- <- _. exists m1, m2. apply (down_inv_out _ _ _ _ []); [|by rewrite app_nil_r].
    intros d. eapply put_on_det; [apply put_on_same|apply Ho]. }
  apply bind_ok_inv in E as ([f1 s1] & E1 & E). apply (down_inv_rx _ _ _ _ _ _ _ _ _ _ _ D) in E1 as D1.
  apply bind_ok_inv in E as ([f2 s2] & E2 & E). destruct (down_inv_noc _ _ _ _ _ _ _ _ _ _ _ _ Hr D1 E2) as (k1 & k2 & D2).
  apply bind_ok_inv in E as ([[f3 s3] db3] & E3 & E). apply h2d_tx_down in E3 as (out' & L).
  apply (down_inv_leaves _ _ _ _ _ _ _ _ _ _ _ D2) in L as D3. apply bind_ok_inv in E as ([f4 s4] & E4 & E).
  apply d2h_down in E4. apply bind_ok_inv in E as ([f5 s5] & E5 & E). apply d2h_noc_down in E5.
  apply bind_ok_inv in E as ([[f6 s6] hb6] & E6 & E). apply d2h_tx_down in E6. injection E as <- <- _. exists k1, k2.
  apply (down_inv_out _ _ _ _ out'); [intros d; eapply put_on_det; [apply L|apply Ho]|].
  apply (down_inv_view _ _ _ _ s3); [|done]. transitivity (down_view s6); [by destruct skip|congruence].
Qed.

Lemma down_run_inv s0 A O s : quiet_down s0 -> down_run s0 A O s ->
  forall m, routed (sw_address_intervals s0) (previous_destination s0) A m ->
  exists m1 m2, down_inv (sw_address_intervals s0) (previous_destination s0) m O s m1 m2.
Proof.
  intros [Q1 Q2 Q3] Hr. induction Hr as [|A O s f b Hr IH Eb|A O s i f b Hr IH Eb|A O s skip tick db hb s' db' hb' out Hr IH E Ho]; intros m Hm.
  - inversion Hm; subst. exists [], []. split; try done; [intros d; by rewrite Q3|by rewrite Q1, Q2].
  - apply routed_snoc in Hm as (m' & d & -> & Hm). destruct (IH _ Hm) as (m1 & m2 & [D1 D2 D3 D4 D5]). exists m1, (m2 ++ [(d, f)]).
    apply enqueue_inv in Eb as (_ & Hq & _). split; try done; [by rewrite D1, <- app_assoc|]. rewrite map_app.
    cbn [upstream_buffer_rx set_upstream_buffer_rx ARB_NOC_h2d]. rewrite Hq, app_assoc. by apply wire_app.
  - destruct (IH _ Hm) as (m1 & m2 & D). exists m1, m2. by apply (down_inv_view _ _ _ _ s).
  - destruct (IH _ Hm) as (m1 & m2 & D). by eapply down_inv_update.
Qed.

(** ** No flit is unroutable *)
Definition avoids {X} (e : string) (m : res X) : Prop := match m with Ok _ => True | Abort e' => e' <> e end.
Lemma avoids_bind {X Y} e (m : res X) (k : X -> res Y) : avoids e m -> (forall x, m = Ok x -> avoids e (k x)) -> avoids e (bind m k).
Proof. destruct m; cbn; auto. Qed.
(** A computation without the assertion *)
Ltac avoid := repeat first
  [ done
  | match goal with
    | |- avoids _ (bind _ _) => apply avoids_bind; [|intros ? _]
    | |- avoids _ (enqueue _ _) => unfold enqueue
    | |- avoids _ (dequeue _) => unfold dequeue
    | |- avoids _ (get_head _) => unfold get_head
    | |- avoids _ (add_to_bus _ _ _) => unfold add_to_bus
    | |- avoids _ (check_buffer_condition _ _ _ _) => unfold check_buffer_condition, latency_check_flit
    | |- avoids _ (let '(_, _) := ?x in _) => destruct x
    | |- avoids _ (if ?b then _ else _) => destruct b
    | |- avoids _ (match ?x with _ => _ end) => destruct x
    end ].
#[local] Abbreviation routable m := (avoids "Invalid address"%string m).

Lemma h2d_tx_avoids tick ports : forall flag s db, routable (h2d_tx p tick ports flag s db).
Proof.
  induction ports as [|port ports IH]; intros flag s db; cbn [h2d_tx]; [done|]. unfold h2d_tx_port. cbv zeta. avoid; apply IH.
Qed.
Lemma d2h_rx_avoids tick n : forall flag s, routable (d2h_rx p tick n flag s).
Proof. induction n as [|n IH]; intros flag s; cbn [d2h_rx]; [done|]. cbv zeta. avoid; apply IH. Qed.
Lemma h2d_noc_avoids ivs prev A m O s m1 m2 tick flag : routed ivs prev A m -> down_inv ivs prev m O s m1 m2 -> routable (h2d_noc p tick flag s).
Proof.
  intros Hr [D1 D2 D3 D4 D5]. unfold h2d_noc. apply avoids_bind; [avoid|]. intros [fl ok] _. destruct ok; [|done].
  apply avoids_bind; [avoid|]. intros g [l Hq]%get_head_inv. apply avoids_bind; [|intros d _; avoid].
  rewrite Hq in D5. cbn [app] in D5. apply wire_cons_inv in D5 as (f & k & Ek & Hf & _). destruct m2 as [|[d f1] m2]; [done|].
  cbn [map snd] in Ek. injection Ek as -> _. subst m. apply routed_at in Hr. rewrite (slot_ty_cargo _ _ 0 Hf).
  destruct (slot_type_eqb _ _); [done|]. rewrite (bound_proper ivs d f g Hf) in Hr. unfold switch_destination.
  by rewrite D2, (bound_dest _ _ _ Hr).
Qed.
Lemma update_avoids ivs prev A m O s m1 m2 skip tick db hb : routed ivs prev A m -> down_inv ivs prev m O s m1 m2 ->
  routable (switch_update p skip tick s db hb).
Proof.
  intros Hr D. unfold switch_update. destruct (_ && _); [done|]. apply avoids_bind; [unfold h2d_rx; avoid|]. intros [f1 s1] E1.
  apply (down_inv_rx _ _ _ _ _ _ _ _ _ _ _ D) in E1. apply avoids_bind; [by eapply h2d_noc_avoids|]. intros [f2 s2] _.
  apply avoids_bind; [apply h2d_tx_avoids|]. intros [[f3 s3] db3] _. apply avoids_bind; [apply d2h_rx_avoids|]. intros [f4 s4] _.
  unfold d2h_noc, d2h_tx. avoid.
Qed.

(** C23: the switch routes every flit.  Let the flits [A] arrive from the
    host and [m] say where they belong: a flit that starts with data, which
    is rolled over from the flit before, to the device of that flit, whatever
    addresses it carries; any other flit, to the device that owns all its
    addresses.  Then after any interleaving of arrivals and updates each port
    has passed to its bus, and holds, exactly the first flits of [m] that
    belong to its device, unchanged and in order; the other flits of [m] wait
    in the arbiter and the receive buffer, in order; and no update fails for
    a flit without a destination. *)
Theorem switch_routes s0 A O s m :
  quiet_down s0 -> routed (sw_address_intervals s0) (previous_destination s0) A m -> down_run s0 A O s ->
  (exists m1 m2, m = m1 ++ m2 /\
    (forall d, same_wire (of_port d m1) (of_port d O ++ q_ (tx_buf s d))) /\
    same_wire (map snd m2) (q_ (ARB_NOC_h2d s) ++ q_ (upstream_buffer_rx s))) /\
  forall skip tick db hb, switch_update p skip tick s db hb <> Abort "Invalid address".
Proof.
  intros Hq Hm Hr. destruct (down_run_inv _ _ _ _ Hq Hr _ Hm) as (m1 & m2 & D). split.
  - exists m1, m2. by destruct D.
  - intros skip tick db hb E. pose proof (update_avoids _ _ _ _ _ _ _ _ skip tick db hb Hm D) as V. by rewrite E in V.
Qed.
End SwitchRoute.

Module RouteWitness.
Import SwitchWitness.

(** A read and a write for device 1; the data of the write fills the next
    flit, here with an address of device 0; then a read for device 0. *)
Definition g1 : flit := sample_flit (mk_flit_lifetime 0 0 10) no_credits
  [sample_slot m2s_req Req 3 5000; sample_slot empty Req 0 0; sample_slot empty Req 0 0; sample_slot m2s_rwd_hdr RwD 4 5064].
Definition g2 : flit := sample_flit (mk_flit_lifetime 0 0 11) no_credits
  [sample_slot data RwD 4 64; sample_slot data RwD 4 64; sample_slot data RwD 4 64; sample_slot data RwD 4 64].
Definition g3 : flit := sample_flit (mk_flit_lifetime 0 0 12) no_credits
  [sample_slot m2s_req Req 6 64; sample_slot empty Req 0 0; sample_slot empty Req 0 0; sample_slot empty Req 0 0].
Definition from_host (f : flit) (s : CXLSwitch) : CXLSwitch :=
  match enqueue f (upstream_buffer_rx s) with Ok b => set_upstream_buffer_rx b s | Abort _ => s end.
Definition sw_g : CXLSwitch := from_host g3 (from_host g2 (from_host g1 sw0)).

(** Updates with empty buses: the flits on them afterwards *)
Definition outs (b0 b1 : CXLBus) : list (Z * flit) := map (pair 0) (flit_slots b0) ++ map (pair 1) (flit_slots b1).
Definition upd_down (tick : Z) (s : CXLSwitch) : CXLSwitch * list (Z * flit) :=
  match switch_update main_params false tick s dev_buses host_bus with
  | Ok (s', [(k0, b0); (k1, b1)], _) => if (k0 =? 0) && (k1 =? 1) then (s', outs b0 b1) else (s, [])
  | _ => (s, [])
  end.
Fixpoint upds_down (l : list Z) (s : CXLSwitch) : CXLSwitch * list (Z * flit) :=
  match l with
  | [] => (s, [])
  | t :: l => let '(s, o) := upd_down t s in let '(s, o') := upds_down l s in (s, o ++ o')
  end.

Lemma of_port_pair i j l : of_port i (map (pair j) l) = if j =? i then l else [].
Proof. unfold of_port. induction l as [|f l IH]; cbn; [by destruct (j =? i)|]. destruct (j =? i); cbn; [by rewrite IH|done]. Qed.
Lemma put_on_two b0 b1 d : put_on d dev_buses [(0, b0); (1, b1)] (of_port d (outs b0 b1)).
Proof.
  unfold outs. rewrite of_port_app, !of_port_pair. unfold put_on, dev_buses. cbn [om_get]. rewrite !(Z.eqb_sym d).
  destruct (Z.eqb_spec 0 d) as [<-|]; [by rewrite app_nil_r|]. by destruct (1 =? d).
Qed.
Lemma upds_down_run l : forall A O s, down_run main_params sw0 A O s ->
  down_run main_params sw0 A (O ++ snd (upds_down l s)) (fst (upds_down l s)).
Proof.
  induction l as [|t l IH]; intros A O s Hr; cbn [upds_down]; [by rewrite app_nil_r|].
  destruct (upd_down t s) as [s1 o] eqn:E. destruct (upds_down l s1) as [s2 o2] eqn:E2. cbn [fst snd].
  specialize (IH A (O ++ o) s1). rewrite E2, <- app_assoc in IH. apply IH. unfold upd_down in E.
  destruct (switch_update _ _ t s _ _) as [[[s' db'] hb']|] eqn:Eu; [|injection E as <- <-; by rewrite app_nil_r].
  destruct db' as [|[k0 b0] [|[k1 b1] [|]]]; try (injection E as <- <-; by rewrite app_nil_r).
  destruct (Z.eqb_spec k0 0) as [->|], (Z.eqb_spec k1 1) as [->|]; cbn in E; injection E as <- <-; rewrite ?app_nil_r; try done.
  eapply down_update; [done|exact Eu|]. apply put_on_two.
Qed.
Lemma sw_g_run : down_run main_params sw0 [g1; g2; g3] [] sw_g.
Proof.
  apply (down_host main_params sw0 [g1; g2] [] (from_host g2 (from_host g1 sw0)) g3 (mk_CXLBuf 8 [g1; g2; g3])); [|by vm_compute].
  apply (down_host main_params sw0 [g1] [] (from_host g1 sw0) g2 (mk_CXLBuf 8 [g1; g2])); [|by vm_compute].
  apply (down_host main_params sw0 [] [] sw0 g1 (mk_CXLBuf 8 [g1])); [|by vm_compute]. apply down_start.
Qed.
Lemma sw0_quiet_down : quiet_down sw0.
Proof. constructor; [reflexivity..|]. intros d. unfold tx_buf. simpl. by repeat case_match. Qed.
Lemma routed_g : routed (sw_address_intervals sw0) (previous_destination sw0) [g1; g2; g3] [(1, g1); (1, g2); (0, g3)].
Proof.
  assert (Hb : forall d f, forallb (fun x => slot_type_eqb (slot_ty x) empty ||
      bool_decide (find_dest (address (slot_msg x)) (sw_address_intervals sw0) = Some d)) (slots f) = true ->
    is_flit_empty f = false -> bound_for (sw_address_intervals sw0) d f).
  { intros d f Hf He. split; [|done]. rewrite forallb_forall in Hf. apply Forall_forall. intros x Hx%list_elem_of_In Hne.
    specialize (Hf x Hx). apply orb_true_iff in Hf as [Hf|Hf]; [by apply slot_type_eqb_true in Hf|by apply bool_decide_eq_true in Hf]. }
  apply routed_own; [done|by apply Hb|]. apply routed_follow; [done|]. apply routed_own; [done|by apply Hb|]. constructor.
Qed.

(** The flit of data leaves for device 1, as the flit before it did. *)
Lemma switch_routes_witness : quiet_down sw0 /\
  routed (sw_address_intervals sw0) (previous_destination sw0) [g1; g2; g3] [(1, g1); (1, g2); (0, g3)] /\
  map (fun x => (fst x, types (snd x))) (snd (upds_down ticks sw_g)) =
    [(1, types g1); (1, types g2); (0, types g3)] /\
  (exists m1 m2, [(1, g1); (1, g2); (0, g3)] = m1 ++ m2 /\
    (forall d, same_wire (of_port d m1) (of_port d (snd (upds_down ticks sw_g)) ++ q_ (tx_buf (fst (upds_down ticks sw_g)) d))) /\
    same_wire (map snd m2) (q_ (ARB_NOC_h2d (fst (upds_down ticks sw_g))) ++ q_ (upstream_buffer_rx (fst (upds_down ticks sw_g))))) /\
  forall skip tick db hb, switch_update main_params skip tick (fst (upds_down ticks sw_g)) db hb <> Abort "Invalid address".
Proof.
  split; [exact sw0_quiet_down|]. split; [exact routed_g|]. split; [vm_compute; reflexivity|].
  apply (switch_routes main_params sw0 [g1; g2; g3] ([] ++ snd (upds_down ticks sw_g)) (fst (upds_down ticks sw_g)) [(1, g1); (1, g2); (0, g3)]);
    [exact sw0_quiet_down|exact routed_g|exact (upds_down_run ticks _ _ _ sw_g_run)].
Defined.
End RouteWitness.
