(* ===== verification/DevHeaders.v ===== *)
(** * The flits of a device

    [CXLDevice::FLIT_packer] writes the type of a slot twice: in the slot and
    in the header, from which the switch reads how many data chunks are still
    to come.  The two agree on every flit it hands over.  The flits have
    messages in them, with the addresses of the responses that were in the
    virtual channels, which is how the host knows where a flit comes from. *)
From Stdlib Require Import ZArith Lia Bool String.
From stdpp Require Import base list gmap.
From S2P Require Import Prelude Flit CxlBuf Samples CxlBus Packing CxlNode RamIf CxlDevice DevPack Wire.

(** ** Properties the packer keeps

    A property that each step of the packer keeps: searching a channel, a
    new flit, a data chunk, a response, handing the flit over. *)
Class PackClosed `{Indet} (P : CXLDevice -> Prop) : Prop := {
  pc_search c e d : P d -> P (set_packer_cur_vc c (set_ext_creds e d));
  pc_state s d : P d -> P (set_pkr2_state s d);
  pc_start t d : P d -> P (set_started_packing_at t (set_flit_to_pack flit_new d));
  pc_data i d : P d -> packer_rollover d <> 0 -> P (put_data i d);
  pc_roll r d : P d -> packer_rollover d <> 0 -> P (set_packer_rollover r d);
  pc_pack i v d d' : P d -> pack_slot i v d = Ok d' -> P d';
  pc_wait b d : P d -> P (set_is_packer_waiting b d);
  pc_send g d g' d' : P d -> is_flit_empty (flit_to_pack d) = false \/ slots (flit_to_pack d) = [] ->
    add_flit_to_buf g d = Ok (g', d') -> P d'
}.

Section PackClosed.
Context `{Indet} (p : CXLParams) (P : CXLDevice -> Prop) `{!PackClosed P}.
Implicit Types d : CXLDevice.

Lemma try_vc_closed tick v j d found d' : P d -> try_vc p tick v j d = Ok (found, d') -> P d'.
Proof.
  intros Hd. assert (Hs : forall c e, P (set_packer_cur_vc c (set_ext_creds e d))) by (intros; by apply pc_search).
  assert (Ht : forall e, P (set_ext_creds e d)) by (intros e; specialize (Hs (packer_cur_vc d) e); by destruct d).
  unfold try_vc. destruct (q_ (vc_get d v)); [by intros [= _ <-]|]. destruct (_ <=? _); [|by intros [= _ <-]].
  destruct (opCode m); try done; (match goal with |- context [if ?b then _ else _] => destruct b end);
    intros [= _ <-]; by apply Hs || apply Ht.
Qed.
Lemma check_vcs_closed tick vc ixs : forall d v d', P d -> check_vcs_loop p tick vc ixs d = Ok (v, d') -> P d'.
Proof.
  induction ixs as [|i ixs IH]; intros d v d' Hd E; cbn [check_vcs_loop] in E; [by res_inv|].
  apply bind_ok_inv in E as ([found d1] & E1 & E). apply try_vc_closed in E1; [|done].
  destruct found; [by res_inv|]. by eapply IH.
Qed.
Lemma get_msg_closed tick d v d' : P d -> get_msg_from_vcs p tick d = Ok (v, d') -> P d'.
Proof.
  unfold get_msg_from_vcs, check_vcs_for_packing. intros Hd E. destruct (pkr2_state d); [..|done];
    apply bind_ok_inv in E as ([v1 d1] & E1 & E); apply check_vcs_closed in E1; try done;
    (destruct v1; [res_inv; by apply pc_state|]); apply bind_ok_inv in E as ([v2 d2] & E2 & E);
    apply check_vcs_closed in E2; try done; destruct v2; res_inv; try done; by apply pc_state.
Qed.
Lemma pack_loop_closed tick ixs : forall d d', P d -> pack_loop p tick ixs d = Ok d' -> P d'.
Proof.
  induction ixs as [|i ixs IH]; intros d d' Hd E; cbn [pack_loop] in E; [by res_inv|].
  destruct (negb (slot_type_eqb _ _)); [by eapply IH|]. destruct (negb _ && negb _) eqn:Er.
  { bool_prop. eapply IH; [|exact E]. apply pc_roll; [by apply pc_data|done]. }
  apply bind_ok_inv in E as ([v d1] & E1 & E). apply get_msg_closed in E1; [|done]. destruct v as [v|]; [|by res_inv].
  apply bind_ok_inv in E as (d2 & E2 & E). eapply IH; [|exact E]. by eapply pc_pack.
Qed.
Lemma put_rollover_closed d d' : P d -> put_rollover d = Ok d' -> P d'.
Proof.
  unfold put_rollover. intros Hd E. repeat case_match; res_inv; bool_prop;
    (apply pc_roll; [repeat (apply pc_data; [|cbn; lia])|cbn; lia]); done.
Qed.
Lemma finish_closed g d b g' d' : P d -> finish_packing g d = Ok (b, (g', d')) -> P d'.
Proof. unfold finish_packing. intros Hd E. res_inv. destruct (negb (is_flit_empty _)); [by apply pc_wait|done]. Qed.
Lemma send_closed g d b g' d' : P d -> is_flit_empty (flit_to_pack d) = false \/ slots (flit_to_pack d) = [] ->
  (let! (g, d) := add_flit_to_buf g d in Ok (true, (g, set_is_packer_waiting false d))) = Ok (b, (g', d')) -> P d'.
Proof.
  intros Hd Hn E. apply bind_ok_inv in E as ([g1 d1] & E1 & E). injection E as _ _ <-. apply pc_wait. by eapply pc_send.
Qed.
Lemma full_not_empty f : is_flit_full f = true -> is_flit_empty f = false \/ slots f = [].
Proof.
  unfold is_flit_full, is_flit_empty. destruct (slots f) as [|s l]; [by right|]. cbn. intros [Hs _]%andb_true_iff. left.
  by rewrite (proj1 (negb_true_iff _) Hs).
Qed.

Lemma packer_closed g d b g' d' : P d -> FLIT_packer p g d = Ok (b, (g', d')) -> P d'.
Proof.
  intros Hd E. unfold FLIT_packer in E. set (d1 := start_flit g d) in *.
  assert (H1 : P d1) by (unfold d1, start_flit; destruct (negb (is_packer_waiting d)); [by apply pc_start|done]).
  assert (Hf : is_packer_waiting d1 = false -> flit_to_pack d1 = flit_new).
  { unfold d1, start_flit. destruct (is_packer_waiting d) eqn:Ew; cbn; congruence. }
  assert (Hs : is_flit_empty (flit_to_pack d1) = false \/ slots (flit_to_pack d1) = [] -> send_packed g d1 = Ok (b, (g', d')) -> P d').
  { unfold send_packed. intros Hn. destruct (is_buf_full _); [intros [= _ _ <-]; done|by apply send_closed]. }
  destruct (is_packer_waiting d1 && is_flit_full _) eqn:E1; [bool_prop; apply Hs; [by apply full_not_empty|done]|].
  destruct (is_packer_waiting d1 && _ && negb _) eqn:E2; [bool_prop; apply Hs; [by left|done]|].
  match type of E with (if ?b then _ else _) = _ => destruct b; [|done] end.
  destruct (negb _ && negb _) eqn:E3.
  - apply bind_ok_inv in E as (d2 & E4 & E). pose proof (put_rollover_closed _ _ H1 E4) as H2.
    destruct (packer_rollover d1 =? 4) eqn:E5.
    + bool_prop. unfold put_rollover in E4. rewrite E5 in E4. injection E4 as <-.
      destruct (is_buf_full _); [injection E as _ _ <-; by apply pc_wait|].
      eapply send_closed; [exact H2| |exact E]. left. cbn. by rewrite Hf.
    + apply bind_ok_inv in E as (d3 & E6 & E). eapply finish_closed; [|exact E]. by eapply pack_loop_closed.
  - apply bind_ok_inv in E as (d3 & E6 & E). eapply finish_closed; [|exact E]. by eapply pack_loop_closed.
Qed.
End PackClosed.

(** The flit that is handed over *)
Lemma add_flit_to_buf_inv `{Indet} g d g' d' : add_flit_to_buf g d = Ok (g', d') ->
  exists c e n, q_ (tx_buffer d') = q_ (tx_buffer d) ++ [flit_to_pack d'] /\ size_ (tx_buffer d') = size_ (tx_buffer d) /\
    d' = set_packer_seq_length n (set_tx_buffer (tx_buffer d') (set_flit_to_pack (flit_to_pack d') (set_int_cred e d))) /\
    hdr_slots (header (flit_to_pack d')) = hdr_slots (header (flit_to_pack d)) /\
    same_cargo (set_header (set_credit c (header (flit_to_pack d))) (flit_to_pack d)) (flit_to_pack d').
Proof.
  unfold add_flit_to_buf. intros E. apply bind_ok_inv in E as ([crds d1] & E1 & E).
  assert (Hd : exists e, d1 = set_int_cred e d) by (unfold get_device_credits in E1; res_inv; eauto). destruct Hd as [e ->].
  apply bind_ok_inv in E as (b & E2 & E). apply enqueue_inv in E2 as (_ & Hb & Hs). res_inv. cbn in *.
  exists crds, e. eexists. split; [exact Hb|]. split; [exact Hs|]. split; [reflexivity|]. split; [done|].
  exact (same_set_time set_tick_repacked (curr_tick g) (set_header (set_credit crds (header (flit_to_pack d))) (flit_to_pack d))).
Qed.

(** ** Headers *)
Section DevHeaders.
Context `{Indet} (p : CXLParams).
Implicit Types d : CXLDevice.

(** The flit under construction and the flits handed over. *)
Definition headers_agree d : Prop :=
  hdr_agrees (flit_to_pack d) /\ Forall hdr_agrees (q_ (tx_buffer d)).

Lemma put_slot_agrees i t s f : slot_ty s = t -> hdr_agrees f -> hdr_agrees (put_slot i t s f).
Proof.
  unfold hdr_agrees, put_slot. intros Ht Ha. rewrite types_set_slot_at. cbn.
  rewrite Ht. rewrite !(list_fmap_insert data_part). by f_equal.
Qed.
#[export] Instance headers_closed : PackClosed headers_agree.
Proof.
  split; try done.
  - intros t d [_ Hq]. by split.
  - intros i d [Ha Hq] _. split; [|done]. by apply put_slot_agrees.
  - intros i v d d' [Ha Hq] E. unfold pack_slot in E. apply bind_ok_inv in E as (m & _ & E).
    assert (Hv : forall b k, headers_agree k -> headers_agree (vc_set v b k)) by (intros b k; by destruct v).
    destruct (opCode m); try done; (match type of E with (if ?b then _ else _) = _ => destruct b; [|by res_inv] end);
      res_inv; apply Hv; (split; [by apply put_slot_agrees|done]).
  - intros g d g' d' [Ha Hq] _ E. apply add_flit_to_buf_inv in E as (c & e & n & Hb & _ & _ & Hh & Hs).
    assert (Hf : hdr_agrees (flit_to_pack d')).
    { unfold hdr_agrees in *. rewrite Hh, <- Hs. exact Ha. }
    split; [done|]. rewrite Hb. apply Forall_app. split; [done|]. by apply Forall_singleton.
Qed.

(** C32: On every flit the device's packer hands to the transmit buffer, and
    on the flit under construction, the header announces exactly the data
    headers and the data chunks that are in the slots, which is what the
    switch counts. *)
Theorem device_headers_agree g d b g' d' : headers_agree d ->
  FLIT_packer p g d = Ok (b, (g', d')) -> headers_agree d'.
Proof. apply (packer_closed p headers_agree). Qed.
End DevHeaders.

(** ** Addresses *)
Section DevAddresses.
Context `{Indet} (p : CXLParams) (A : Z -> Prop).
Implicit Types d : CXLDevice.

(** The addresses of the responses are in [A], and those of the flits, which
    have a message in them. *)
Definition vcs_in (l : list (CXLBuf message)) : Prop := Forall (fun b => Forall (fun m => A (address m)) (q_ b)) l.
Definition flit_in (f : flit) : Prop := slots_in A f /\ is_flit_empty f = false.
Record addresses_in d : Prop := {
  ad_flit : slots_in A (flit_to_pack d);
  ad_slots : slots (flit_to_pack d) <> [];
  ad_tx : Forall flit_in (q_ (tx_buffer d));
  ad_ndr : vcs_in (S2M_NDR d);
  ad_drs : vcs_in (S2M_DRS d);
  ad_last : packer_rollover d <> 0 -> A (address (last_drs_hdr d))
}.

#[export] Instance flit_in_proper : Proper (same_cargo ==> iff) flit_in.
Proof. intros f g Hs. unfold flit_in. by rewrite Hs. Qed.
Lemma put_slot_in i t s f : slots_in A f -> slot_ty s = empty \/ A (address (slot_msg s)) -> slots_in A (put_slot i t s f).
Proof. intros Hf Hs. by apply Forall_insert. Qed.
Lemma put_slot_slots i t s f : slots f <> [] -> slots (put_slot i t s f) <> [].
Proof. cbn. destruct (slots f), i; done. Qed.
Lemma vcs_head l j m k : vcs_in l -> q_ (nth j l (CXLBuf_new 0)) = m :: k -> A (address m).
Proof.
  intros Hl Hq. destruct (le_lt_dec (length l) j) as [Hj|Hj]; [by rewrite nth_overflow in Hq|].
  pose proof (nth_some j (CXLBuf_new 0) l Hj) as Hn. pose proof (Forall_lookup_1 _ _ _ _ Hl Hn) as Hb. cbn in Hb.
  rewrite Hq in Hb. by apply Forall_cons in Hb as [? _].
Qed.
Lemma vcs_drop l j b m : vcs_in l -> q_ (nth j l (CXLBuf_new 0)) = m :: q_ b -> vcs_in (<[j := b]> l).
Proof.
  intros Hl Hq. apply Forall_insert; [done|]. destruct (le_lt_dec (length l) j) as [Hj|Hj]; [by rewrite nth_overflow in Hq|].
  pose proof (nth_some j (CXLBuf_new 0) l Hj) as Hn. pose proof (Forall_lookup_1 _ _ _ _ Hl Hn) as Hb. cbn in Hb.
  rewrite Hq in Hb. by apply Forall_cons in Hb as [_ ?].
Qed.

Lemma pack_slot_in i v d d' : addresses_in d -> pack_slot i v d = Ok d' -> addresses_in d'.
Proof.
  intros [H1 H2 H3 H4 H5 H6] E. unfold pack_slot in E. apply bind_ok_inv in E as (m & Em & E). apply get_head_inv in Em as [l Hq].
  assert (Hm : A (address m)) by (destruct v; cbn in Hq; [exact (vcs_head _ _ _ _ H4 Hq)|exact (vcs_head _ _ _ _ H5 Hq)]).
  destruct (opCode m); try done; (match type of E with (if ?b then _ else _) = _ => destruct b; [|by res_inv] end);
    apply bind_ok_inv in E as (b & Eb & E); injection E as <-; apply dequeue_inv in Eb as (x & Hx & _); destruct v; cbn in *;
    (split; cbn; [apply (put_slot_in i _ _ (flit_to_pack d)); [done|by right]|
      by apply (put_slot_slots i empty _ (flit_to_pack d))|done|done || by eapply vcs_drop|done || by eapply vcs_drop|done]).
Qed.
#[export] Instance addresses_closed : PackClosed addresses_in.
Proof.
  split; try (intros; match goal with Hx : addresses_in _ |- _ => by destruct Hx end).
  - intros t d [H1 H2 H3 H4 H5 H6]. split; try done. cbn. repeat constructor.
  - intros i d [H1 H2 H3 H4 H5 H6] Hr. split; try done; cbn.
    + apply (put_slot_in i data _ (flit_to_pack d)); [done|]. right. exact (H6 Hr).
    + by apply (put_slot_slots i data _ (flit_to_pack d)).
  - intros r d [H1 H2 H3 H4 H5 H6] Hr. split; try done. intros _. exact (H6 Hr).
  - apply pack_slot_in.
  - intros g d g' d' [H1 H2 H3 H4 H5 H6] Hn E. apply add_flit_to_buf_inv in E as (c & e & n & Hb & _ & Ed & _ & Hs).
    destruct Hn as [Hn|?]; [|done].
    assert (Hf : flit_in (flit_to_pack d')) by (rewrite <- Hs; by split).
    split; [apply Hf| |rewrite Hb; apply Forall_app; split; [done|by apply Forall_singleton]|rewrite Ed; done..].
    intros E0. destruct Hf as [_ Hf]. unfold is_flit_empty in Hf. by rewrite E0 in Hf.
Qed.
End DevAddresses.

Module HeadersWitness.
Import DevWitness.
Lemma device_headers_agree_witness : headers_agree dev0 /\ headers_agree (snd dev1) /\
  hdr_slots (header (flit_to_pack (snd dev1))) = [s2m_drs_hdr; data; data; data].
Proof.
  split; [by split|]. split; [|vm_compute; reflexivity].
  apply (device_headers_agree main_params (sample_globals 100) dev0 true (fst dev1)); [by split|].
  vm_compute. reflexivity.
Defined.
End HeadersWitness.
