(* ===== verification/Dram.v ===== *)
(** * The DRAM device model

    [ramulator/src/DRAM.h]: the tree Channel, Rank, ..., Bank of a memory
    channel.  Every node keeps a state, the rows open below it, and for each
    command the earliest clock at which it may be issued, which is derived
    from the history of the commands issued and the timing entries of the
    standard.  The standard (the template argument [T]) is the record
    [Spec]. *)
From Stdlib Require Import ZArith Lia Bool String.
From stdpp Require Import base list gmap.
From S2P Require Import Prelude.

(** ** The nodes *)

(** Members for the statistics of serving and refreshing; the counters are
    floating-point numbers that hold integers. *)
Record serving : Type := mk_serving {
  cur_serving_requests : Z;
  begin_of_serving : Z;
  end_of_serving : Z;
  begin_of_cur_reqcnt : Z;
  begin_of_refreshing : Z;
  end_of_refreshing : Z;
  refresh_intervals : list (Z * Z);
  active_cycles : Z;
  refresh_cycles : Z;
  active_refresh_overlap_cycles : Z;
  serving_requests : Z
}.
Definition serving_new : serving := mk_serving 0 (-1) (-1) (-1) (-1) (-1) [] 0 0 0 0.

Inductive DRAM (C S : Type) : Type := mk_DRAM {
  level : nat;
  id : Z;
  state : S;
  row_state : gmap Z S;
  cur_clk : Z;
  next : C -> Z;
  prev : C -> list Z;
  stats : serving;
  children : list (DRAM C S)
}.
Arguments mk_DRAM {C S}.
Arguments level {C S} _.
Arguments id {C S} _.
Arguments state {C S} _.
Arguments row_state {C S} _.
Arguments cur_clk {C S} _.
Arguments next {C S} _ _.
Arguments prev {C S} _ _.
Arguments stats {C S} _.
Arguments children {C S} _.

(** A timing parameter: after [te_dist] commands of the indexing kind, the
    command [te_cmd] must wait [te_val] cycles after the first of them. *)
Record TimingEntry (C : Type) : Type := mk_te {
  te_cmd : C;
  te_dist : Z;
  te_val : Z;
  te_sibling : bool
}.
Arguments mk_te {C}.
Arguments te_cmd {C} _.
Arguments te_dist {C} _.
Arguments te_val {C} _.
Arguments te_sibling {C} _.

(** ** A standard

    The tables of function objects are indexed by level and command; an empty
    entry is [None].  [Command::MAX], the answer "no prerequisite", is
    [None] as a result of [prereq]. *)
Record Spec (C S : Type) : Type := mk_Spec {
  scope : C -> nat;
  start : nat -> S;
  row_level : nat;
  bank_level : nat;
  count : nat -> Z;
  timing : nat -> C -> list (TimingEntry C);
  prereq : nat -> C -> option (DRAM C S -> C -> Z -> res (option C));
  rowhit : nat -> C -> option (DRAM C S -> C -> Z -> res bool);
  rowopen : nat -> C -> option (DRAM C S -> C -> Z -> res bool);
  lambda : nat -> C -> option (DRAM C S -> Z -> DRAM C S);
  is_opening : C -> bool;
  is_accessing : C -> bool;
  is_closing : C -> bool;
  is_refreshing : C -> bool
}.
Arguments scope {C S} _ _.
Arguments start {C S} _ _.
Arguments row_level {C S} _.
Arguments bank_level {C S} _.
Arguments count {C S} _ _.
Arguments timing {C S} _ _ _.
Arguments prereq {C S} _ _ _.
Arguments rowhit {C S} _ _ _.
Arguments rowopen {C S} _ _ _.
Arguments lambda {C S} _ _ _.
Arguments is_opening {C S} _ _.
Arguments is_accessing {C S} _ _.
Arguments is_closing {C S} _ _.
Arguments is_refreshing {C S} _ _.

Definition set_state {C S} (v : S) (n : DRAM C S) : DRAM C S :=
  mk_DRAM (level n) (id n) v (row_state n) (cur_clk n) (next n) (prev n) (stats n) (children n).
Definition set_row_state {C S} (v : gmap Z S) (n : DRAM C S) : DRAM C S :=
  mk_DRAM (level n) (id n) (state n) v (cur_clk n) (next n) (prev n) (stats n) (children n).
Definition set_cur_clk {C S} (v : Z) (n : DRAM C S) : DRAM C S :=
  mk_DRAM (level n) (id n) (state n) (row_state n) v (next n) (prev n) (stats n) (children n).
Definition set_next {C S} (v : C -> Z) (n : DRAM C S) : DRAM C S :=
  mk_DRAM (level n) (id n) (state n) (row_state n) (cur_clk n) v (prev n) (stats n) (children n).
Definition set_prev {C S} (v : C -> list Z) (n : DRAM C S) : DRAM C S :=
  mk_DRAM (level n) (id n) (state n) (row_state n) (cur_clk n) (next n) v (stats n) (children n).
Definition set_stats {C S} (v : serving) (n : DRAM C S) : DRAM C S :=
  mk_DRAM (level n) (id n) (state n) (row_state n) (cur_clk n) (next n) (prev n) v (children n).
Definition set_children {C S} (v : list (DRAM C S)) (n : DRAM C S) : DRAM C S :=
  mk_DRAM (level n) (id n) (state n) (row_state n) (cur_clk n) (next n) (prev n) (stats n) v.
Definition set_node_id {C S} (v : Z) (n : DRAM C S) : DRAM C S :=
  mk_DRAM (level n) v (state n) (row_state n) (cur_clk n) (next n) (prev n) (stats n) (children n).

Section Dram.
Context {C S : Type} `{EqDecision C} (spec : Spec C S).
#[local] Abbreviation DRAM := (DRAM C S).
#[local] Abbreviation TimingEntry := (TimingEntry C).

Definition fn_set {X} (f : C -> X) (c : C) (x : X) : C -> X := fun c' => if decide (c' = c) then x else f c'.

(** ** Construction *)

(** [prev[cmd].resize(dist, -1)] with the largest distance of the entries *)
Definition history_size (l : list TimingEntry) : Z :=
  fold_left (fun d t => Z.max d (te_dist t)) l 0.
Definition leaf (lvl : nat) (i : Z) : DRAM :=
  mk_DRAM lvl i (start spec lvl) ∅ 0 (fun _ => -1)
    (fun c => replicate (Z.to_nat (history_size (timing spec lvl c))) (-1)) serving_new [].

(** [DRAM<T>::DRAM(spec, level)]; rows are not nodes, so [fuel] is the number
    of levels above them. *)
Fixpoint build (fuel lvl : nat) (i : Z) : DRAM :=
  match fuel with
  | O => leaf lvl i
  | Datatypes.S fuel =>
      let child_level := Datatypes.S lvl in
      if (child_level =? row_level spec)%nat then leaf lvl i
      else set_children
             (map (fun k => build fuel child_level (Z.of_nat k))
                (seq 0 (Z.to_nat (count spec child_level)))) (leaf lvl i)
  end.
Definition DRAM_new (lvl : nat) : DRAM := build (row_level spec) lvl 0.

(** [DRAM<T>::insert] *)
Definition insert_child (child : DRAM) (n : DRAM) : DRAM :=
  set_children (children n ++ [set_node_id (Z.of_nat (length (children n))) child]) n.

(** ** Walking down the tree *)

(** [addr[int(level)+1]]: an address has an entry for every level. *)
Definition child_id (addr : list Z) (n : DRAM) : Z := nth (Datatypes.S (level n)) addr (-1).
Definition no_children (n : DRAM) : bool := match children n with [] => true | _ => false end.

(** [children[i]->f()]; an index out of range is undefined behaviour. *)
Definition at_child {X} (f : DRAM -> res X) : list DRAM -> nat -> res X :=
  fix go l i :=
    match l, i with
    | c :: _, O => f c
    | _ :: l, Datatypes.S i => go l i
    | [], _ => Abort "no such child"
    end.
Definition on_child (f : DRAM -> res DRAM) : list DRAM -> nat -> res (list DRAM) :=
  fix go l i :=
    match l, i with
    | c :: l, O => let! c := f c in Ok (c :: l)
    | c :: l, Datatypes.S i => let! l := go l i in Ok (c :: l)
    | [], _ => Abort "no such child"
    end.

(** [DRAM<T>::decode] *)
Fixpoint decode (cmd : C) (addr : list Z) (n : DRAM) : res C :=
  let child_id := child_id addr n in
  let! found := match prereq spec (level n) cmd with
                | Some f => f n cmd child_id
                | None => Ok None
                end in
  match found with
  | Some prereq_cmd => Ok prereq_cmd
  | None =>
      if (child_id <? 0) || no_children n then Ok cmd
      else at_child (decode cmd addr) (children n) (Z.to_nat child_id)
  end.

(** [DRAM<T>::check] *)
Fixpoint check (cmd : C) (addr : list Z) (clk : Z) (n : DRAM) : res bool :=
  if negb (next n cmd =? -1) && (clk <? next n cmd) then Ok false
  else
    let child_id := child_id addr n in
    if (child_id <? 0) || (level n =? scope spec cmd)%nat || no_children n then Ok true
    else at_child (check cmd addr clk) (children n) (Z.to_nat child_id).

(** [DRAM<T>::check_row_hit] and [DRAM<T>::check_row_open] *)
Fixpoint check_row_hit (cmd : C) (addr : list Z) (n : DRAM) : res bool :=
  let child_id := child_id addr n in
  match rowhit spec (level n) cmd with
  | Some f => f n cmd child_id
  | None =>
      if (child_id <? 0) || no_children n then Ok false
      else at_child (check_row_hit cmd addr) (children n) (Z.to_nat child_id)
  end.
Fixpoint check_row_open (cmd : C) (addr : list Z) (n : DRAM) : res bool :=
  let child_id := child_id addr n in
  match rowopen spec (level n) cmd with
  | Some f => f n cmd child_id
  | None =>
      if (child_id <? 0) || no_children n then Ok false
      else at_child (check_row_open cmd addr) (children n) (Z.to_nat child_id)
  end.

(** [DRAM<T>::get_next]: the loop from [l], [next_clk] on the node reached *)
Fixpoint next_loop (cmd : C) (addr : list Z) (l : nat) (next_clk : Z) (n : DRAM) : res Z :=
  if (l <? scope spec cmd)%nat && negb (no_children n) && (0 <=? nth (Datatypes.S l) addr (-1))
  then at_child (fun c => next_loop cmd addr (Datatypes.S l) (Z.max next_clk (next c cmd)) c)
         (children n) (Z.to_nat (nth (Datatypes.S l) addr (-1)))
  else Ok next_clk.
Definition get_next (cmd : C) (addr : list Z) (n : DRAM) : res Z :=
  next_loop cmd addr (level n) (Z.max (cur_clk n) (next n cmd)) n.

(** ** Issuing a command *)

(** [DRAM<T>::update_state]; the lambda of a level may change the children
    the recursion then visits, so the recursion is on the height of the
    tree. *)
Fixpoint update_state_at (fuel : nat) (cmd : C) (addr : list Z) (n : DRAM) : res DRAM :=
  match fuel with
  | O => Abort "tree too deep"
  | Datatypes.S fuel =>
      let child_id := child_id addr n in
      let n := match lambda spec (level n) cmd with Some f => f n child_id | None => n end in
      if (level n =? scope spec cmd)%nat || no_children n then Ok n
      else if child_id <? 0 then Abort "no such child"
      else let! l := on_child (update_state_at fuel cmd addr) (children n) (Z.to_nat child_id) in
           Ok (set_children l n)
  end.
Definition update_state (cmd : C) (addr : list Z) (n : DRAM) : res DRAM :=
  update_state_at (row_level spec) cmd addr n.

(** [next[t.cmd] = max(next[t.cmd], future)] *)
Definition raise_next (c : C) (future : Z) (n : DRAM) : DRAM :=
  set_next (fn_set (next n) c (Z.max (next n c) future)) n.

(** The statistics of a refresh. *)
Definition note_refresh (clk until : Z) (v : serving) : serving :=
  let e := Z.max (end_of_refreshing v) until in
  mk_serving (cur_serving_requests v) (begin_of_serving v) (end_of_serving v) (begin_of_cur_reqcnt v)
    clk e
    (if 0 <? cur_serving_requests v then refresh_intervals v ++ [(clk, e)] else refresh_intervals v)
    (active_cycles v) (refresh_cycles v + (e - clk)) (active_refresh_overlap_cycles v) (serving_requests v).

(** One timing entry at a sibling of the target, and at the target. *)
Definition sibling_entry (clk : Z) (t : TimingEntry) (n : DRAM) : res DRAM :=
  if negb (te_sibling t) then Ok n
  else assert! (te_dist t =? 1), "t.dist == 1" in
       Ok (raise_next (te_cmd t) (clk + te_val t) n).
Definition target_entry (cmd : C) (clk : Z) (t : TimingEntry) (n : DRAM) : res DRAM :=
  if te_sibling t then Ok n
  else
    match prev n cmd !! Z.to_nat (te_dist t - 1) with
    | None => Abort "no such history"
    | Some past =>
        if past <? 0 then Ok n
        else
          let n := raise_next (te_cmd t) (past + te_val t) n in
          if is_refreshing spec cmd && is_opening spec (te_cmd t) then
            assert! (past =? clk), "past == clk" in
            Ok (set_stats (note_refresh clk (next n (te_cmd t)) (stats n)) n)
          else Ok n
    end.
Fixpoint entries (f : TimingEntry -> DRAM -> res DRAM) (l : list TimingEntry) (n : DRAM) : res DRAM :=
  match l with
  | [] => Ok n
  | t :: l => let! n := f t n in entries f l n
  end.

(** [prev[cmd].pop_back(); prev[cmd].push_front(clk)] *)
Definition push_history (cmd : C) (clk : Z) (n : DRAM) : DRAM :=
  match prev n cmd with
  | [] => n
  | h => set_prev (fn_set (prev n) cmd (clk :: removelast h)) n
  end.

(** [f] on every element *)
Definition on_all (f : DRAM -> res DRAM) : list DRAM -> res (list DRAM) :=
  fix go l := match l with
              | [] => Ok []
              | c :: l => let! c := f c in let! l := go l in Ok (c :: l)
              end.

(** [DRAM<T>::update_timing] *)
Fixpoint update_timing (cmd : C) (addr : list Z) (clk : Z) (n : DRAM) : res DRAM :=
  if negb (id n =? nth (level n) addr (-1)) then
    entries (sibling_entry clk) (timing spec (level n) cmd) n
  else
    let! n' := entries (target_entry cmd clk) (timing spec (level n) cmd) (push_history cmd clk n) in
    let! l := on_all (update_timing cmd addr clk) (children n) in
    Ok (set_children l n').

(** [DRAM<T>::update] *)
Definition update (cmd : C) (addr : list Z) (clk : Z) (n : DRAM) : res DRAM :=
  let! n := update_state cmd addr (set_cur_clk clk n) in
  update_timing cmd addr clk n.

(** ** Statistics of the requests served *)

(** The members of one node, [DRAM<T>::update_serving_requests] *)
Definition serve_here (delta clk : Z) (v : serving) : res serving :=
  assert! (delta =? 1) || (delta =? -1), "delta == 1 || delta == -1" in
  let counting := negb (begin_of_cur_reqcnt v =? -1) && (0 <? cur_serving_requests v) in
  let span := clk - begin_of_cur_reqcnt v in
  let total := if counting then serving_requests v + span * cur_serving_requests v else serving_requests v in
  let active := if counting then active_cycles v + span else active_cycles v in
  let cur := cur_serving_requests v + delta in
  assert! (0 <=? cur), "cur_serving_requests >= 0" in
  if (delta =? 1) && (cur =? 1) then
    Ok (mk_serving cur clk (end_of_serving v) clk (begin_of_refreshing v) (end_of_refreshing v)
          (refresh_intervals v) active (refresh_cycles v)
          (if clk <? end_of_refreshing v
           then active_refresh_overlap_cycles v + (end_of_refreshing v - clk)
           else active_refresh_overlap_cycles v) total)
  else if cur =? 0 then
    assert! negb (begin_of_serving v =? -1), "begin_of_serving != -1" in
    assert! (delta =? -1), "delta == -1" in
    Ok (mk_serving cur (begin_of_serving v) clk clk (begin_of_refreshing v) (end_of_refreshing v)
          [] (active + (clk - clk)) (refresh_cycles v)
          (fold_left (fun o r => o + (Z.min clk (snd r) - fst r)) (refresh_intervals v)
             (active_refresh_overlap_cycles v)) total)
  else
    Ok (mk_serving cur (begin_of_serving v) (end_of_serving v) clk (begin_of_refreshing v)
          (end_of_refreshing v) (refresh_intervals v) active (refresh_cycles v)
          (active_refresh_overlap_cycles v) total).

Fixpoint update_serving_requests (addr : list Z) (delta clk : Z) (n : DRAM) : res DRAM :=
  assert! (id n =? nth (level n) addr (-1)), "id == addr[int(level)]" in
  let! v := serve_here delta clk (stats n) in
  let child_id := child_id addr n in
  if (child_id <? 0) || no_children n || (bank_level spec <? level n)%nat then Ok (set_stats v n)
  else let! l := on_child (update_serving_requests addr delta clk) (children n) (Z.to_nat child_id) in
       Ok (set_children l (set_stats v n)).

End Dram.
