(* ===== verification/DramTiming.v ===== *)
(** * The timing checks of the DRAM model are exact

    A declarative reading of the timing tables: a command may be issued at a
    clock when, for every node on its way down to its scope and every timing
    entry of that node, the entry's delay has passed since the command it
    refers to.  [DRAM::check] answers exactly this for the commands issued so
    far, however many there were, with its bounded histories and its table of
    earliest clocks. *)
From Stdlib Require Import ZArith Lia Bool String.
From stdpp Require Import base list gmap.
From S2P Require Import Prelude Dram.

(** ** The part of a standard the proofs rely on *)
Section Timing.
Context {C S : Type} `{EqDecision C} (spec : Spec C S).
#[local] Abbreviation DRAM := (DRAM C S).
#[local] Abbreviation TimingEntry := (TimingEntry C).

(** Same levels, ids and timing data, at every node. *)
Inductive same_timing : DRAM -> DRAM -> Prop :=
| same_timing_node n n' :
    level n' = level n -> id n' = id n -> next n' = next n -> prev n' = prev n ->
    Forall2 same_timing (children n) (children n') -> same_timing n n'.

Class TimingOk : Prop := {
  dist_pos l c t : In t (timing spec l c) -> 1 <= te_dist t;
  dist_sibling l c t : In t (timing spec l c) -> te_sibling t = true -> te_dist t = 1;
  dist_refresh l c t : In t (timing spec l c) -> te_sibling t = false ->
    is_refreshing spec c = true -> is_opening spec (te_cmd t) = true -> te_dist t = 1;
  lambda_same l c f n i : lambda spec l c = Some f -> same_timing n (f n i)
}.

(** ** Events and their history at a node *)
Record event : Type := mk_ev { ev_cmd : C; ev_addr : list Z; ev_clk : Z }.

Inductive role : Type := Target | Sibling | Far.
#[global] Instance role_eq_dec : EqDecision role.
Proof. solve_decision. Defined.

(** What a command with address [addr] is for the node reached by [path] from
    a node of level [lvl] and id [i]. *)
Fixpoint role_of (addr : list Z) (lvl : nat) (i : Z) (path : list nat) : role :=
  if i =? nth lvl addr (-1) then
    match path with
    | [] => Target
    | j :: path => role_of addr (Datatypes.S lvl) (Z.of_nat j) path
    end
  else match path with [] => Sibling | _ => Far end.

(** The clocks of the commands [c] that targeted the node, newest first. *)
Definition hist (tr : list event) (lvl : nat) (i : Z) (path : list nat) (c : C) : list Z :=
  map ev_clk (List.filter (fun e => bool_decide (ev_cmd e = c) &&
    bool_decide (role_of (ev_addr e) lvl i path = Target)) tr).

(** Every delay that concerns [c2] at the node has passed at [clk]. *)
Definition may_issue (tr : list event) (lvl : nat) (i : Z) (path : list nat) (c2 : C) (clk : Z) : Prop :=
  (forall c1 t k t0, In t (timing spec (lvl + length path) c1) -> te_sibling t = false -> te_cmd t = c2 ->
     hist tr lvl i path c1 !! (k + Z.to_nat (te_dist t - 1))%nat = Some t0 -> t0 + te_val t <= clk) /\
  (forall e t, In e tr -> role_of (ev_addr e) lvl i path = Sibling ->
     In t (timing spec (lvl + length path) (ev_cmd e)) -> te_sibling t = true -> te_cmd t = c2 ->
     ev_clk e + te_val t <= clk).

(** ** One node *)

(** The recorded history is the beginning of the real one. *)
Definition prev_ok (size : nat) (h l : list Z) : Prop :=
  length l = size /\ forall j, (j < size)%nat -> l !! j = Some (default (-1) (h !! j)).

Lemma prev_ok_push size h l clk : prev_ok size h l -> l <> [] ->
  prev_ok size (clk :: h) (clk :: removelast l).
Proof.
  intros [Hl Hj] Hne. assert (0 < size)%nat by (subst; destruct l; simpl; [done|lia]).
  rewrite removelast_firstn_len, Hl. split.
  - simpl. rewrite length_take. lia.
  - intros [|j] Hlt; [done|]. simpl. rewrite lookup_take, decide_True by lia. apply Hj. lia.
Qed.

Lemma history_size_ge (l : list TimingEntry) t : In t l -> te_dist t <= history_size l.
Proof.
  unfold history_size. assert (Hm : forall (l : list TimingEntry) d,
    d <= fold_left (fun d t => Z.max d (te_dist t)) l d).
  { clear. induction l as [|a l IH]; intros d; simpl; [lia|]. specialize (IH (Z.max d (te_dist a))). lia. }
  generalize 0. induction l as [|a l IH]; intros d Hin; [done|]. simpl. destruct Hin as [->|Hin].
  - specialize (Hm l (Z.max d (te_dist t))). lia.
  - by apply IH.
Qed.

(** The entries raise the earliest clocks by exactly the delays they state. *)
Definition target_new (h : list Z) (l : list TimingEntry) (c2 : C) (x : Z) : Prop :=
  forall t t0, In t l -> te_sibling t = false -> te_cmd t = c2 ->
    h !! Z.to_nat (te_dist t - 1) = Some t0 -> t0 + te_val t <= x.

Definition timing_eq (n n' : DRAM) : Prop :=
  level n' = level n /\ id n' = id n /\ prev n' = prev n /\ children n' = children n.

Lemma raise_next_le c f (n : DRAM) c2 x :
  next (raise_next c f n) c2 <= x <-> next n c2 <= x /\ (c = c2 -> f <= x).
Proof.
  unfold raise_next, fn_set. simpl. case_decide; subst.
  - split; [intros; split; [|intros _]; lia | intros [H1 H2]; specialize (H2 eq_refl); lia].
  - split; [|tauto]. intros. split; [done|congruence].
Qed.

Lemma target_entry_ok cmd clk t (n : DRAM) h :
  prev n cmd !! Z.to_nat (te_dist t - 1) = Some (default (-1) (h !! Z.to_nat (te_dist t - 1))) ->
  Forall (fun x => 0 <= x) h ->
  (te_sibling t = false -> is_refreshing spec cmd = true -> is_opening spec (te_cmd t) = true ->
     h !! Z.to_nat (te_dist t - 1) = Some clk) ->
  exists n', target_entry spec cmd clk t n = Ok n' /\ timing_eq n n' /\
    forall c2 x, next n' c2 <= x <-> next n c2 <= x /\
      (te_sibling t = false -> te_cmd t = c2 -> forall t0,
         h !! Z.to_nat (te_dist t - 1) = Some t0 -> t0 + te_val t <= x).
Proof.
  intros Hp Hh Hr. unfold target_entry. destruct (te_sibling t) eqn:Es.
  { exists n. split; [done|]. split; [done|]. intros c2 x. split; [|tauto]. intros ?. by split. }
  rewrite Hp. destruct (h !! _) as [t0|] eqn:Eh; simpl.
  - rewrite Forall_forall in Hh. pose proof (Hh t0 ltac:(by eapply list_elem_of_lookup_2)).
    rewrite (proj2 (Z.ltb_ge _ _)) by done.
    assert (Hx : forall c2 x, next (raise_next (te_cmd t) (t0 + te_val t) n) c2 <= x <-> next n c2 <= x /\
      (false = false -> te_cmd t = c2 -> forall t1, Some t0 = Some t1 -> t1 + te_val t <= x)).
    { intros c2 x. rewrite raise_next_le. split; intros [H1 H2]; split; try done.
      - intros _ He t1 [= <-]. by apply H2.
      - intros He. by apply H2. }
    destruct (is_refreshing spec cmd && _) eqn:E2; [|eexists; split; [done|]; by split].
    apply andb_true_iff in E2 as [E2 E3]. specialize (Hr eq_refl E2 E3) as [= ->].
    rewrite Z.eqb_refl. eexists; split; [done|]. by split.
  - exists n. split; [done|]. split; [done|]. intros c2 x. split; [|tauto]. intros ?. by split.
Qed.

Lemma entries_target_ok cmd clk h (l : list TimingEntry) : forall n : DRAM,
  (forall t, In t l -> prev n cmd !! Z.to_nat (te_dist t - 1) =
     Some (default (-1) (h !! Z.to_nat (te_dist t - 1)))) ->
  Forall (fun x => 0 <= x) h ->
  (forall t, In t l -> te_sibling t = false -> is_refreshing spec cmd = true ->
     is_opening spec (te_cmd t) = true -> h !! Z.to_nat (te_dist t - 1) = Some clk) ->
  exists n', entries (target_entry spec cmd clk) l n = Ok n' /\ timing_eq n n' /\
    forall c2 x, next n' c2 <= x <-> next n c2 <= x /\ target_new h l c2 x.
Proof.
  induction l as [|t l IH]; intros n Hp Hh Hr; simpl.
  { exists n. split; [done|]. split; [done|]. intros c2 x. split; [|tauto]. by split; [|intros ? ? []]. }
  destruct (target_entry_ok cmd clk t n h) as (n1 & -> & (E1 & E2 & E3 & E4) & Hx).
  { apply Hp. by left. } { done. } { intros. by apply Hr; [left|..]. }
  cbn [bind]. destruct (IH n1) as (n2 & E & (F1 & F2 & F3 & F4) & Hy).
  { rewrite E3. intros t' Ht. apply Hp. by right. } { done. } { intros. by apply Hr; [right|..]. }
  exists n2. split; [done|]. split; [unfold timing_eq; intuition congruence|]. intros c2 x. rewrite Hy, Hx.
  split.
  - intros [[H1 H2] H3]. split; [done|]. intros t' t0 [<-|Hin] Hs Hc Ht0; [by eapply H2|by eapply H3].
  - intros [H1 H2]. split; [split; [done|]|].
    + intros Hs Hc t0 Ht0. by apply (H2 t t0); [left|..].
    + intros t' t0 Hin. apply H2. by right.
Qed.

Lemma entries_sibling_ok clk (l : list TimingEntry) : forall n : DRAM,
  (forall t, In t l -> te_sibling t = true -> te_dist t = 1) ->
  exists n', entries (sibling_entry clk) l n = Ok n' /\ timing_eq n n' /\
    forall c2 x, next n' c2 <= x <-> next n c2 <= x /\
      forall t, In t l -> te_sibling t = true -> te_cmd t = c2 -> clk + te_val t <= x.
Proof.
  induction l as [|t l IH]; intros n Hd; simpl.
  { exists n. split; [done|]. split; [done|]. intros c2 x. split; [|tauto]. by split. }
  unfold sibling_entry at 1. destruct (te_sibling t) eqn:Es; simpl.
  - rewrite (Hd t (or_introl eq_refl) Es). cbn [bind Z.eqb Pos.eqb].
    destruct (IH (raise_next (te_cmd t) (clk + te_val t) n)) as (n2 & E & F & Hy); [by intros ? ?; apply Hd; right|].
    exists n2. split; [done|]. split; [done|]. intros c2 x. rewrite Hy, raise_next_le. split.
    + intros [[H1 H2] H3]. split; [done|]. intros t' [<-|Hin]; auto.
    + intros [H1 H2]. split; [split; auto|auto].
  - destruct (IH n) as (n2 & E & F & Hy); [by intros ? ?; apply Hd; right|].
    exists n2. split; [done|]. split; [done|]. intros c2 x. rewrite Hy. split.
    + intros [H1 H2]. split; [done|]. intros t' [<-|Hin]; [congruence|auto].
    + intros [H1 H2]. auto.
Qed.

(** ** The tree *)
Lemma DRAM_ind_nested (P : DRAM -> Prop) :
  (forall n, Forall P (children n) -> P n) -> forall n, P n.
Proof.
  intros Hn. fix IH 1. intros n. apply Hn. destruct n as [l i st rs ck nx pv sv ch]. simpl.
  induction ch as [|c ch IHc]; constructor; [apply IH | exact IHc].
Qed.

Fixpoint node_at (n : DRAM) (path : list nat) : option DRAM :=
  match path with
  | [] => Some n
  | j :: path => match children n !! j with Some c => node_at c path | None => None end
  end.

(** Levels and ids are what the constructor gives them. *)
Definition tree_ok (n : DRAM) : Prop :=
  forall path m j c, node_at n path = Some m -> children m !! j = Some c ->
    level c = Datatypes.S (level m) /\ id c = Z.of_nat j.

Lemma tree_ok_child n j c : tree_ok n -> children n !! j = Some c -> tree_ok c.
Proof. intros Ht Hc path m k d Hm Hd. apply (Ht (j :: path)) with (m := m); [|done]. simpl. by rewrite Hc. Qed.

(** Two optional nodes, both present or both absent. *)
Definition both {X} (R : X -> X -> Prop) (a b : option X) : Prop :=
  match a, b with Some x, Some y => R x y | None, None => True | _, _ => False end.

Lemma on_all_ok (f : DRAM -> res DRAM) (R : nat -> DRAM -> DRAM -> Prop) l :
  (forall j c, l !! j = Some c -> exists c', f c = Ok c' /\ R j c c') ->
  exists l', on_all f l = Ok l' /\ forall j, both (R j) (l !! j) (l' !! j).
Proof.
  revert R. induction l as [|c l IH]; intros R Hf; [by exists []|]. simpl.
  destruct (Hf 0%nat c eq_refl) as (c' & -> & Hc). cbn [bind].
  destruct (IH (fun j => R (Datatypes.S j))) as (l' & El & Hl).
  { intros j d Hd. by apply (Hf (Datatypes.S j)). }
  change ((fix go l := match l with [] => Ok [] | c :: l => let! c := f c in let! l := go l in Ok (c :: l) end) l)
    with (on_all f l). rewrite El. cbn [bind]. exists (c' :: l'). split; [done|]. intros [|j]; [done|]. apply Hl.
Qed.

(** What issuing a command does to one node, given the history [h] its
    [prev] records. *)
Definition stepped (r : role) (cmd : C) (clk : Z) (h : C -> list Z) (m m' : DRAM) : Prop :=
  level m' = level m /\ id m' = id m /\
  match r with
  | Target =>
      (forall c, prev_ok (Z.to_nat (history_size (timing spec (level m) c)))
                   (if decide (c = cmd) then clk :: h c else h c) (prev m' c)) /\
      forall c2 x, next m' c2 <= x <-> next m c2 <= x /\
        target_new (clk :: h cmd) (timing spec (level m) cmd) c2 x
  | Sibling =>
      prev m' = prev m /\
      forall c2 x, next m' c2 <= x <-> next m c2 <= x /\
        forall t, In t (timing spec (level m) cmd) -> te_sibling t = true -> te_cmd t = c2 ->
          clk + te_val t <= x
  | Far => prev m' = prev m /\ next m' = next m
  end.

Definition recorded (n : DRAM) (h : C -> list Z) : Prop :=
  forall c, prev_ok (Z.to_nat (history_size (timing spec (level n) c))) (h c) (prev n c) /\
            Forall (fun x => 0 <= x) (h c).

Context `{TimingOk}.

(** The target node. *)
Lemma push_recorded n h cmd clk : recorded n h -> 0 <= clk ->
  next (push_history cmd clk n) = next n /\
  level (push_history cmd clk n) = level n /\ id (push_history cmd clk n) = id n /\
  children (push_history cmd clk n) = children n /\
  recorded (push_history cmd clk n) (fun c => if decide (c = cmd) then clk :: h c else h c).
Proof.
  intros Hr Hclk. unfold push_history. destruct (prev n cmd) as [|x l] eqn:Ep.
  - split_and!; try done. intros c. destruct (Hr c) as [Hp Hf]. split; [|case_decide; by auto].
    case_decide as E; [subst|done]. rewrite Ep in *. destruct Hp as [Hl _]. simpl in Hl.
    split; [done|]. lia.
  - split_and!; try done. intros c. destruct (Hr c) as [Hp Hf]. simpl. unfold fn_set.
    case_decide as E; [subst|done]. split; [|by constructor]. rewrite Ep in Hp.
    by apply (prev_ok_push _ _ (x :: l)).
Qed.

Lemma target_node_ok cmd clk n h : recorded n h -> 0 <= clk ->
  exists n', entries (target_entry spec cmd clk) (timing spec (level n) cmd) (push_history cmd clk n) = Ok n' /\
    children n' = children n /\ stepped Target cmd clk h n n'.
Proof.
  intros Hr Hclk. destruct (push_recorded n h cmd clk Hr Hclk) as (En & El & Ei & Ec & Hr').
  set (n1 := push_history cmd clk n) in *. destruct (Hr' cmd) as [[Hlen Hp] Hf].
  rewrite decide_True in Hp, Hf by done. rewrite El in Hlen, Hp.
  destruct (entries_target_ok cmd clk (clk :: h cmd) (timing spec (level n) cmd) n1)
    as (n' & E & (F1 & F2 & F3 & F4) & Hx).
  - intros t Ht. apply Hp. pose proof (dist_pos _ _ _ Ht). pose proof (history_size_ge _ _ Ht). lia.
  - done.
  - intros t Ht Hs H1 H2. by rewrite (dist_refresh _ _ _ Ht Hs H1 H2).
  - exists n'. split; [done|]. split; [congruence|]. split; [congruence|]. split; [congruence|]. split.
    + intros c. rewrite F3, <- El. apply Hr'.
    + intros c2 x. rewrite Hx, En. done.
Qed.

Lemma both_refl {X} (R : X -> X -> Prop) a : (forall x, a = Some x -> R x x) -> both R a a.
Proof. destruct a; simpl; auto. Qed.

Lemma update_timing_eq cmd addr clk n : update_timing spec cmd addr clk n =
  if negb (id n =? nth (level n) addr (-1)) then
    entries (sibling_entry clk) (timing spec (level n) cmd) n
  else
    let! n' := entries (target_entry spec cmd clk) (timing spec (level n) cmd) (push_history cmd clk n) in
    let! l := on_all (update_timing spec cmd addr clk) (children n) in
    Ok (set_children l n').
Proof. by destruct n. Qed.

(** [update_timing] never fails, and acts on every node by its role. *)
Lemma update_timing_ok cmd addr clk : 0 <= clk -> forall n (hs : list nat -> C -> list Z),
  tree_ok n -> (forall path m, node_at n path = Some m -> recorded m (hs path)) ->
  exists n', update_timing spec cmd addr clk n = Ok n' /\
    forall path, both (stepped (role_of addr (level n) (id n) path) cmd clk (hs path))
                   (node_at n path) (node_at n' path).
Proof.
  intros Hclk. apply (DRAM_ind_nested (fun n => forall hs, tree_ok n ->
    (forall path m, node_at n path = Some m -> recorded m (hs path)) -> exists n', _ = Ok n' /\ _)).
  intros n IH hs Ht Hr. rewrite update_timing_eq. rewrite Forall_lookup in IH.
  destruct (id n =? nth (level n) addr (-1)) eqn:Eid; cbn [negb].
  - destruct (target_node_ok cmd clk n (hs []) (Hr [] n eq_refl) Hclk) as (n1 & -> & Ec & Hs). cbn [bind].
    destruct (on_all_ok (update_timing spec cmd addr clk) (fun j c c' => forall path,
      both (stepped (role_of addr (level c) (id c) path) cmd clk (hs (j :: path)))
        (node_at c path) (node_at c' path)) (children n)) as (l & -> & Hl).
    { intros j c Hc. apply (IH j c Hc (fun path => hs (j :: path))); [by eapply tree_ok_child|].
      intros path m Hm. apply (Hr (j :: path)). simpl. by rewrite Hc. }
    cbn [bind]. eexists. split; [done|]. intros [|j path]; simpl; rewrite Eid; [exact Hs|].
    specialize (Hl j). destruct (children n !! j) as [c|] eqn:Hc, (l !! j) as [c'|]; try done.
    destruct (Ht [] n j c eq_refl Hc) as [El Ei]. specialize (Hl path). by rewrite El, Ei in Hl.
  - destruct (entries_sibling_ok clk (timing spec (level n) cmd) n) as (n' & -> & (F1 & F2 & F3 & F4) & Hx).
    { intros t Hin Hs. by eapply dist_sibling. }
    exists n'. split; [done|]. intros [|j path]; simpl; rewrite Eid; [done|]. rewrite F4.
    apply both_refl. by intros.
Qed.

(** ** The invariant of a run *)
Definition node_ok (tr : list event) (lvl : nat) (i : Z) (path : list nat) (m : DRAM) : Prop :=
  level m = (lvl + length path)%nat /\ recorded m (hist tr lvl i path) /\
  forall c2 x, -1 <= x -> next m c2 <= x <-> may_issue tr lvl i path c2 x.

Definition tree_inv (tr : list event) (n : DRAM) : Prop :=
  tree_ok n /\ forall path m, node_at n path = Some m -> node_ok tr (level n) (id n) path m.

Lemma hist_cons e tr lvl i path c : hist (e :: tr) lvl i path c =
  if bool_decide (ev_cmd e = c) && bool_decide (role_of (ev_addr e) lvl i path = Target)
  then ev_clk e :: hist tr lvl i path c else hist tr lvl i path c.
Proof. unfold hist. simpl. by destruct (_ && _). Qed.

(** The declarative condition after one more command. *)
Lemma may_issue_target e tr lvl i path c2 x : role_of (ev_addr e) lvl i path = Target ->
  may_issue (e :: tr) lvl i path c2 x <-> may_issue tr lvl i path c2 x /\
    target_new (ev_clk e :: hist tr lvl i path (ev_cmd e)) (timing spec (lvl + length path) (ev_cmd e)) c2 x.
Proof.
  intros Hr. unfold may_issue, target_new. split.
  - intros [H1 H2]. split; [split|].
    + intros c1 t k t0 Hin Hs Hc Ht. destruct (decide (ev_cmd e = c1)) as [<-|Hne].
      * apply (H1 (ev_cmd e) t (Datatypes.S k)); try done. rewrite hist_cons, !bool_decide_eq_true_2 by done. done.
      * apply (H1 c1 t k); try done. by rewrite hist_cons, bool_decide_eq_false_2.
    + intros e' t Hin. apply H2. by right.
    + intros t t0 Hin Hs Hc Ht. apply (H1 (ev_cmd e) t 0%nat); try done.
      by rewrite hist_cons, !bool_decide_eq_true_2.
  - intros [[H1 H2] H3]. split.
    + intros c1 t k t0 Hin Hs Hc Ht. rewrite hist_cons in Ht.
      destruct (decide (ev_cmd e = c1)) as [<-|Hne].
      * rewrite !bool_decide_eq_true_2 in Ht by done. destruct k as [|k]; [by eapply H3|].
        by apply (H1 (ev_cmd e) t k).
      * rewrite bool_decide_eq_false_2 in Ht by done. by apply (H1 c1 t k).
    + intros e' t [<-|Hin] Hr'; [congruence|by apply H2].
Qed.

Lemma hist_not_target e tr lvl i path c : role_of (ev_addr e) lvl i path <> Target ->
  hist (e :: tr) lvl i path c = hist tr lvl i path c.
Proof. intros Hr. by rewrite hist_cons, (bool_decide_eq_false_2 (role_of _ _ _ _ = _)), andb_false_r. Qed.

Lemma may_issue_sibling e tr lvl i path c2 x : role_of (ev_addr e) lvl i path = Sibling ->
  may_issue (e :: tr) lvl i path c2 x <-> may_issue tr lvl i path c2 x /\
    forall t, In t (timing spec (lvl + length path) (ev_cmd e)) -> te_sibling t = true -> te_cmd t = c2 ->
      ev_clk e + te_val t <= x.
Proof.
  intros Hr. unfold may_issue. split.
  - intros [H1 H2]. split; [split|].
    + intros c1 t k t0 Hin Hs Hc Ht. apply (H1 c1 t k); try done. by rewrite hist_not_target by congruence.
    + intros e' t Hin. apply H2. by right.
    + intros t. apply H2; [by left|done].
  - intros [[H1 H2] H3]. split.
    + intros c1 t k t0 Hin Hs Hc Ht. rewrite hist_not_target in Ht by congruence. by apply (H1 c1 t k).
    + intros e' t [<-|Hin] Hr'; [by apply H3|by apply H2].
Qed.

Lemma may_issue_far e tr lvl i path c2 x : role_of (ev_addr e) lvl i path = Far ->
  may_issue (e :: tr) lvl i path c2 x <-> may_issue tr lvl i path c2 x.
Proof.
  intros Hr. unfold may_issue. split; intros [H1 H2]; (split; [intros c1 t k t0 Hin Hs Hc Ht|]).
  - apply (H1 c1 t k); try done. by rewrite hist_not_target by congruence.
  - intros e' t Hin. apply H2. by right.
  - rewrite hist_not_target in Ht by congruence. by apply (H1 c1 t k).
  - intros e' t [<-|Hin] Hr'; [congruence|by apply H2].
Qed.

Lemma node_ok_step cmd addr clk tr lvl i path m m' : 0 <= clk -> node_ok tr lvl i path m ->
  stepped (role_of addr lvl i path) cmd clk (hist tr lvl i path) m m' ->
  node_ok (mk_ev cmd addr clk :: tr) lvl i path m'.
Proof.
  intros Hclk (Hl & Hr & Hn) (El & Ei & Hs). split; [congruence|].
  destruct (role_of addr lvl i path) eqn:Er.
  - destruct Hs as [Hp Hx]. split.
    + intros c. destruct (Hr c) as [Hp1 Hf]. rewrite El, hist_cons. simpl. rewrite Er.
      rewrite (bool_decide_eq_true_2 (Target = Target)), andb_true_r by done. specialize (Hp c).
      destruct (decide (c = cmd)) as [->|Hne]; [rewrite bool_decide_eq_true_2 by done; by split; [|constructor]|].
      by rewrite bool_decide_eq_false_2 by congruence.
    + intros c2 x Hx1. rewrite Hx, may_issue_target by done. rewrite Hn by done. by rewrite Hl.
  - destruct Hs as [Hp Hx]. split.
    + intros c. rewrite El, Hp, hist_not_target by (simpl; congruence). apply Hr.
    + intros c2 x Hx1. rewrite Hx, may_issue_sibling by done. rewrite Hn by done. by rewrite Hl.
  - destruct Hs as [Hp Hx]. split.
    + intros c. rewrite El, Hp, hist_not_target by (simpl; congruence). apply Hr.
    + intros c2 x Hx1. rewrite Hx, may_issue_far by done. by apply Hn.
Qed.

Lemma node_at_snoc n path j : node_at n (path ++ [j]) =
  match node_at n path with Some m => children m !! j | None => None end.
Proof.
  revert n. induction path as [|k path IH]; intros n; simpl.
  - by destruct (children n !! j).
  - destruct (children n !! k); [apply IH | done].
Qed.

(** Trees whose nodes have the same levels and ids. *)
Lemma tree_ok_like n n' : tree_ok n ->
  (forall path, both (fun m m' => level m' = level m /\ id m' = id m) (node_at n path) (node_at n' path)) ->
  tree_ok n'.
Proof.
  intros Ht Hb path m' j c' Hm Hc. pose proof (Hb (path ++ [j])) as Hj. specialize (Hb path).
  rewrite !node_at_snoc, Hm, Hc in Hj. rewrite Hm in Hb. destruct (node_at n path) as [m|] eqn:Em; [|done].
  destruct (children m !! j) as [c|] eqn:Ec; [|done]. simpl in Hb, Hj.
  destruct Hb as [-> _], Hj as [-> ->]. by apply (Ht path).
Qed.

Lemma both_impl {X} (R1 R2 : X -> X -> Prop) a b : (forall x y, R1 x y -> R2 x y) -> both R1 a b -> both R2 a b.
Proof. destruct a, b; simpl; auto. Qed.

Lemma tree_inv_timing cmd addr clk tr n : tree_inv tr n -> 0 <= clk ->
  exists n', update_timing spec cmd addr clk n = Ok n' /\ tree_inv (mk_ev cmd addr clk :: tr) n' /\
    level n' = level n /\ id n' = id n.
Proof.
  intros [Ht Hn] Hclk.
  destruct (update_timing_ok cmd addr clk Hclk n (hist tr (level n) (id n)) Ht) as (n' & E & Hs).
  { intros path m Hm. by apply (Hn path m Hm). }
  destruct (Hs []) as (El & Ei & _). exists n'. split; [done|]. split; [|done]. split.
  - eapply tree_ok_like; [exact Ht|]. intros path. eapply both_impl; [|apply Hs]. by intros m m' (? & ? & _).
  - intros path m' Hm'. specialize (Hs path). rewrite Hm' in Hs. rewrite El, Ei.
    destruct (node_at n path) as [m|] eqn:Em; [|done]. simpl in Hs.
    by apply node_ok_step with (m := m); [|apply Hn|].
Qed.

(** Changes of state do not matter to the timing. *)
Lemma same_timing_refl n : same_timing n n.
Proof.
  induction n as [n IH] using DRAM_ind_nested. constructor; try done.
  induction IH; constructor; auto.
Qed.

Lemma same_timing_at path : forall n n', same_timing n n' ->
  both (fun m m' => level m' = level m /\ id m' = id m /\ next m' = next m /\ prev m' = prev m)
    (node_at n path) (node_at n' path).
Proof.
  induction path as [|j path IH]; intros n n' Hs; destruct Hs as [n n' E1 E2 E3 E4 Hc]; simpl; [done|].
  destruct (children n !! j) as [c|] eqn:Ej.
  - destruct (Forall2_lookup_l _ _ _ _ _ Hc Ej) as (c' & -> & Hcc). by apply IH.
  - rewrite lookup_ge_None in Ej. rewrite (Forall2_length _ _ _ Hc), <- lookup_ge_None in Ej. by rewrite Ej.
Qed.

Lemma tree_inv_same tr n n' : same_timing n n' -> tree_inv tr n -> tree_inv tr n'.
Proof.
  intros Hs [Ht Hn]. assert (Hb := fun path => same_timing_at path _ _ Hs). split.
  - eapply tree_ok_like; [exact Ht|]. intros path. eapply both_impl; [|apply Hb]. by intros m m' (? & ? & _).
  - intros path m' Hm'. pose proof (Hb path) as Hp. rewrite Hm' in Hp.
    destruct (node_at n path) as [m|] eqn:Em; [|done]. destruct Hp as (E1 & E2 & E3 & E4).
    destruct (Hb []) as (F1 & F2 & _). rewrite F1, F2. destruct (Hn _ _ Em) as (G1 & G2 & G3).
    split; [congruence|]. split.
    + intros c. rewrite E1, E4. apply G2.
    + intros c2 x Hx. rewrite E3. by apply G3.
Qed.

Lemma same_timing_trans n1 n2 n3 : same_timing n1 n2 -> same_timing n2 n3 -> same_timing n1 n3.
Proof.
  revert n2 n3. induction n1 as [n1 IH] using DRAM_ind_nested. intros n2 n3 H1 H2.
  destruct H1 as [a b A1 A2 A3 A4 A5]. inversion H2 as [c d B1 B2 B3 B4 B5]; subst.
  constructor; try congruence. clear - IH A5 B5.
  revert IH A5 B5. generalize (children a), (children b), (children n3). intros la lb lc IH A5.
  revert lc. induction A5 as [|x y la lb Hxy _ IHl]; intros lc B5; inversion B5; subst; [constructor|].
  apply Forall_cons in IH as [Hx IH]. constructor; eauto.
Qed.

Lemma on_child_same f l : forall j l', (forall c c', In c l -> f c = Ok c' -> same_timing c c') ->
  on_child f l j = Ok l' -> Forall2 same_timing l l'.
Proof.
  induction l as [|c l IH]; intros [|j] l' Hf E; simpl in E; try done.
  - apply bind_ok_inv in E as (c' & Ec & [= <-]). constructor; [by apply Hf; [left|]|].
    clear. induction l; constructor; auto using same_timing_refl.
  - apply bind_ok_inv in E as (l1 & El & [= <-]). constructor; [apply same_timing_refl|].
    eapply IH; [|exact El]. intros ? ? Hin. apply Hf. by right.
Qed.

Lemma update_state_same cmd addr fuel : forall n n',
  update_state_at spec fuel cmd addr n = Ok n' -> same_timing n n'.
Proof.
  induction fuel as [|fuel IH]; intros n n' E; [done|]. cbn [update_state_at] in E.
  set (n1 := match lambda spec (level n) cmd with Some f => _ | None => n end) in E.
  assert (H1 : same_timing n n1).
  { unfold n1. destruct (lambda spec (level n) cmd) eqn:El; [by eapply lambda_same|apply same_timing_refl]. }
  destruct ((level n1 =? _)%nat || no_children n1); [by injection E as <-|].
  destruct (_ <? 0); [done|]. apply bind_ok_inv in E as (l & El & [= <-]).
  eapply same_timing_trans; [exact H1|]. constructor; try done. simpl. eapply on_child_same; [|exact El].
  intros c c' _. apply IH.
Qed.

(** ** Runs *)

(** Commands are issued one after the other, newest first in the trace. *)
Inductive issued (root : DRAM) : list event -> DRAM -> Prop :=
| issued_nil : issued root [] root
| issued_cons tr n cmd addr clk n' : issued root tr n -> 0 <= clk ->
    update spec cmd addr clk n = Ok n' -> issued root (mk_ev cmd addr clk :: tr) n'.

Lemma build_at fuel : forall lvl i path m, node_at (build spec fuel lvl i) path = Some m ->
  exists j, m = build spec (fuel - length path) (lvl + length path) j /\ (path = [] -> j = i) /\
    forall k, last path = Some k -> j = Z.of_nat k.
Proof.
  induction fuel as [|fuel IH]; intros lvl i [|j path] m Hm; cbn [build node_at] in Hm.
  - injection Hm as <-. exists i. by rewrite Nat.add_0_r.
  - done.
  - injection Hm as <-. exists i. by rewrite Nat.add_0_r.
  - destruct (Datatypes.S lvl =? row_level spec)%nat; simpl in Hm; [done|].
    destruct (map _ _ !! j) as [c|] eqn:Ec; [|done].
    rewrite list_lookup_fmap in Ec. apply fmap_Some in Ec as (k & Ek & ->).
    apply lookup_seq in Ek as [-> _]. apply IH in Hm as (j' & -> & H1 & H2). exists j'. simpl.
    rewrite Nat.add_succ_r. split; [done|]. split; [done|]. intros k Hk. rewrite last_cons in Hk.
    destruct (last path) eqn:El; [injection Hk as ->; by apply H2|].
    injection Hk as <-. apply H1. by apply last_None.
Qed.

Lemma leaf_ok lvl i : recorded (leaf spec lvl i) (fun _ => []).
Proof.
  intros c. split; [|done]. simpl. split; [apply length_replicate|]. intros j Hj.
  by apply lookup_replicate_2.
Qed.

Lemma build_leaf fuel lvl i : level (build spec fuel lvl i) = lvl /\ id (build spec fuel lvl i) = i /\
  next (build spec fuel lvl i) = (fun _ => -1) /\ recorded (build spec fuel lvl i) (fun _ => []).
Proof.
  pose proof (leaf_ok lvl i). destruct fuel as [|fuel]; cbn [build]; [done|].
  by destruct (Datatypes.S lvl =? row_level spec)%nat.
Qed.

Lemma build_inv fuel lvl i : tree_inv [] (build spec fuel lvl i).
Proof.
  destruct (build_leaf fuel lvl i) as (El & Ei & _). split.
  - intros path m j c Hm Hc. apply build_at in Hm as Hb. destruct Hb as (k & -> & _).
    assert (Hj : node_at (build spec fuel lvl i) (path ++ [j]) = Some c) by (by rewrite node_at_snoc, Hm).
    apply build_at in Hj as (k' & -> & _ & Hk). rewrite length_app. simpl.
    destruct (build_leaf (fuel - (length path + 1)) (lvl + (length path + 1)) k') as (-> & -> & _).
    destruct (build_leaf (fuel - length path) (lvl + length path) k) as (-> & _).
    split; [lia|]. apply Hk. by rewrite last_snoc.
  - intros path m Hm. apply build_at in Hm as (k & -> & _).
    destruct (build_leaf (fuel - length path) (lvl + length path) k) as (E1 & _ & E2 & Hr).
    split; [by rewrite E1, El|]. split; [exact Hr|]. intros c2 x Hx. rewrite E2. split; [|intros _; exact Hx].
    intros _. split; [|done]. intros ? ? ? ? _ _ _ Hh. change (hist [] _ _ _ _) with (@nil Z) in Hh. by rewrite lookup_nil in Hh.
Qed.

Lemma issued_inv root tr n : tree_inv [] root -> issued root tr n ->
  tree_inv tr n /\ level n = level root /\ id n = id root.
Proof.
  intros H0. induction 1 as [|tr n cmd addr clk n' Hr (IH & IHl & IHi) Hclk E]; [done|].
  unfold update in E. apply bind_ok_inv in E as (n1 & E1 & E).
  assert (Hs : same_timing n n1).
  { eapply same_timing_trans; [|by eapply update_state_same]. constructor; try done.
    simpl. clear. induction (children n); constructor; auto using same_timing_refl. }
  pose proof (tree_inv_same _ _ _ Hs IH) as Hi1. destruct Hs.
  destruct (tree_inv_timing cmd addr clk tr _ Hi1 Hclk) as (n2 & E2 & Hi2 & El & Ei).
  rewrite E in E2. injection E2 as <-. split; [done|]. split; congruence.
Qed.

(** ** The check *)

(** The nodes [check] visits: those of the path of the address, down to the
    scope of the command. *)
Definition visited (cmd : C) (addr : list Z) (n : DRAM) (path : list nat) : Prop :=
  is_Some (node_at n path) /\ (level n + length path <= scope spec cmd)%nat /\
  forall k j, path !! k = Some j -> nth (Datatypes.S (level n + k)) addr (-1) = Z.of_nat j.

(** The indices of an address that are used are in range. *)
Definition in_range (addr : list Z) (n : DRAM) : Prop :=
  forall path m, node_at n path = Some m -> children m <> [] ->
    child_id addr m < Z.of_nat (length (children m)).

Lemma in_range_child addr n j c : in_range addr n -> children n !! j = Some c -> in_range addr c.
Proof. intros Hr Hc path m Hm. apply (Hr (j :: path)). simpl. by rewrite Hc. Qed.

Lemma at_child_lookup {X} (f : DRAM -> res X) l : forall j c, l !! j = Some c -> at_child f l j = f c.
Proof. induction l as [|d l IH]; intros [|j] c E; simpl in *; [done..|by injection E as -> | by apply IH]. Qed.

Lemma check_eq cmd addr clk n : check spec cmd addr clk n =
  if negb (next n cmd =? -1) && (clk <? next n cmd) then Ok false
  else if (child_id addr n <? 0) || (level n =? scope spec cmd)%nat || no_children n then Ok true
  else at_child (check spec cmd addr clk) (children n) (Z.to_nat (child_id addr n)).
Proof. by destruct n. Qed.

Lemma visited_nil cmd addr n : (level n <= scope spec cmd)%nat -> visited cmd addr n [].
Proof. intros Hl. split; [done|]. split; [simpl; lia|]. intros k j Hk. by rewrite lookup_nil in Hk. Qed.

Lemma visited_cons cmd addr n j path c : children n !! j = Some c -> level c = Datatypes.S (level n) ->
  visited cmd addr n (j :: path) <-> child_id addr n = Z.of_nat j /\ visited cmd addr c path.
Proof.
  intros Hc Hl. unfold visited, child_id. cbn [node_at length]. rewrite Hc, Hl. split.
  - intros (H1 & H2 & H3). split; [|split; [done|split; [lia|]]].
    + rewrite <- (H3 0%nat j eq_refl). do 2 f_equal. lia.
    + intros k i Hk. rewrite <- (H3 (Datatypes.S k) i Hk). f_equal. lia.
  - intros (H0 & H1 & H2 & H3). split; [done|]. split; [lia|]. intros [|k] i Hk; simpl in Hk.
    + injection Hk as <-. rewrite <- H0. f_equal. lia.
    + rewrite <- (H3 k i Hk). f_equal. lia.
Qed.

(** The check passes when no node it visits has a later earliest clock. *)
Lemma check_visited cmd addr clk : 0 <= clk -> forall n,
  tree_ok n -> in_range addr n -> (level n <= scope spec cmd)%nat ->
  exists b, check spec cmd addr clk n = Ok b /\
    (b = true <-> forall path m, visited cmd addr n path -> node_at n path = Some m -> next m cmd <= clk).
Proof.
  intros Hclk. apply (DRAM_ind_nested (fun n => tree_ok n -> in_range addr n -> _ -> exists b, _ /\ _)).
  intros n IH Ht Hr Hl. rewrite check_eq. rewrite Forall_lookup in IH.
  destruct (negb (next n cmd =? -1) && (clk <? next n cmd)) eqn:E1.
  { exists false. split; [done|]. split; [done|]. intros Ha. bool_prop.
    specialize (Ha [] n (visited_nil _ _ _ Hl) eq_refl). lia. }
  assert (Hhere : next n cmd <= clk).
  { apply andb_false_iff in E1 as [E1|E1]; bool_prop; lia. }
  (* without further nodes *)
  assert (Hstop : (forall j path c, children n !! j = Some c -> ~ visited cmd addr n (j :: path)) ->
    forall path m, visited cmd addr n path -> node_at n path = Some m -> next m cmd <= clk).
  { intros Hno [|j path] m Hv Hm; [by injection Hm as <-|]. simpl in Hm.
    destruct (children n !! j) as [c|] eqn:Hc; [|done]. by destruct (Hno j path c Hc). }
  destruct ((child_id addr n <? 0) || (level n =? scope spec cmd)%nat || no_children n) eqn:E2.
  { exists true. split; [done|]. split; [|done]. intros _. apply Hstop. intros j path c Hc Hv.
    destruct (proj1 (visited_cons _ _ _ _ _ _ Hc (proj1 (Ht [] n j c eq_refl Hc))) Hv) as [Hj (_ & Hs & _)].
    destruct (Ht [] n j c eq_refl Hc) as [Elc _]. apply orb_true_iff in E2 as [E2|E2].
    - apply orb_true_iff in E2 as [E2|E2]; [bool_prop; lia|]. apply Nat.eqb_eq in E2. lia.
    - unfold no_children in E2. by destruct (children n). }
  apply orb_false_iff in E2 as [E2 E4]. apply orb_false_iff in E2 as [E2 E3]. bool_prop. apply Nat.eqb_neq in E3.
  assert (Hne : children n <> []) by (unfold no_children in E4; by destruct (children n)).
  pose proof (Hr [] n eq_refl Hne) as Hlt. set (j := Z.to_nat (child_id addr n)).
  destruct (lookup_lt_is_Some_2 (children n) j) as [c Hc]; [unfold j; lia|].
  rewrite (at_child_lookup _ _ _ _ Hc). destruct (Ht [] n j c eq_refl Hc) as [Elc _].
  destruct (IH j c Hc) as (b & -> & Hb); [by eapply tree_ok_child|by eapply in_range_child|lia|].
  exists b. split; [done|]. rewrite Hb. split.
  - intros Ha [|j' path] m Hv Hm; [by injection Hm as <-|]. simpl in Hm.
    destruct (children n !! j') as [c'|] eqn:Hc'; [|done].
    destruct (proj1 (visited_cons _ _ _ _ _ _ Hc' (proj1 (Ht [] n j' c' eq_refl Hc'))) Hv) as [Hj Hv'].
    assert (j' = j) by (unfold j; lia). subst j'. rewrite Hc in Hc'. injection Hc' as <-. by eapply Ha.
  - intros Ha path m Hv Hm. apply (Ha (j :: path)); [|simpl; by rewrite Hc].
    apply (visited_cons _ _ _ _ _ _ Hc); [done|]. split; [unfold j; lia|done].
Qed.

(** A channel, as the memory is built: the constructor, then the id. *)
Definition channel (i : Z) : DRAM := set_node_id i (DRAM_new spec 0).

Lemma channel_build i : channel i = build spec (row_level spec) 0 i.
Proof.
  unfold channel, DRAM_new. destruct (row_level spec) as [|[|r]] eqn:E; cbn [build]; rewrite ?E; done.
Qed.

Lemma channel_inv i tr n : issued (channel i) tr n -> tree_inv tr n /\ level n = 0%nat /\ id n = i.
Proof.
  rewrite channel_build. intros Hr. destruct (issued_inv _ _ _ (build_inv _ _ _) Hr) as (Hi & -> & ->).
  destruct (build_leaf (row_level spec) 0 i) as (-> & -> & _). done.
Qed.

Lemma check_may_issue i tr n cmd addr clk : issued (channel i) tr n -> in_range addr n -> 0 <= clk ->
  exists b, check spec cmd addr clk n = Ok b /\
    (b = true <-> forall path, visited cmd addr n path -> may_issue tr 0 i path cmd clk).
Proof.
  intros Hr Ha Hclk. destruct (channel_inv _ _ _ Hr) as ([Ht Hn] & El & Ei).
  destruct (check_visited cmd addr clk Hclk n Ht Ha) as (b & E & Hb); [lia|].
  exists b. split; [done|]. rewrite Hb. rewrite El, Ei in Hn. split.
  - intros Hx path Hv. destruct Hv as [[m Hm] Hv']. apply (Hn path m Hm); [lia|].
    apply (Hx path m); [|done]. by split; [exists m|].
  - intros Hx path m Hv Hm. apply (Hn path m Hm); [lia|]. by apply Hx.
Qed.

(** C11: [DRAM::check] is exact: whatever commands were issued before, it
    accepts a command at a clock exactly when every delay of the timing
    tables has passed, at every node from the channel down to the scope of
    the command, since the commands the delays refer to, windows of several
    commands and delays between siblings included; and it never fails on an
    address that is in range. *)
Theorem dram_check_exact i tr n cmd addr clk :
  issued (channel i) tr n -> in_range addr n -> 0 <= clk ->
  exists b, check spec cmd addr clk n = Ok b /\
    (b = true <-> forall path, visited cmd addr n path -> may_issue tr 0 i path cmd clk).
Proof. apply check_may_issue. Qed.

(** ** The earliest clock *)

Lemma next_loop_visited cmd addr : forall n l acc, tree_ok n -> in_range addr n -> l = level n ->
  exists x, next_loop spec cmd addr l acc n = Ok x /\
    forall y, x <= y <-> acc <= y /\ forall j path m, visited cmd addr n (j :: path) ->
      node_at n (j :: path) = Some m -> next m cmd <= y.
Proof.
  apply (DRAM_ind_nested (fun n => forall l acc, tree_ok n -> in_range addr n -> _ -> exists x, _ /\ _)).
  intros n IH l acc Ht Hr ->. rewrite Forall_lookup in IH.
  assert (Heq : next_loop spec cmd addr (level n) acc n =
    if (level n <? scope spec cmd)%nat && negb (no_children n) && (0 <=? child_id addr n)
    then at_child (fun c => next_loop spec cmd addr (Datatypes.S (level n)) (Z.max acc (next c cmd)) c)
           (children n) (Z.to_nat (child_id addr n))
    else Ok acc) by (by destruct n).
  rewrite Heq. clear Heq.
  destruct ((level n <? scope spec cmd)%nat && negb (no_children n) && (0 <=? child_id addr n)) eqn:E.
  - apply andb_true_iff in E as [E E3]. apply andb_true_iff in E as [E1 E2]. apply Nat.ltb_lt in E1. bool_prop.
    assert (Hne : children n <> []) by (unfold no_children in E2; by destruct (children n)).
    pose proof (Hr [] n eq_refl Hne) as Hlt. set (j := Z.to_nat (child_id addr n)).
    destruct (lookup_lt_is_Some_2 (children n) j) as [c Hc]; [unfold j; lia|].
    rewrite (at_child_lookup _ _ _ _ Hc). destruct (Ht [] n j c eq_refl Hc) as [Elc _].
    destruct (IH j c Hc (Datatypes.S (level n)) (Z.max acc (next c cmd))) as (x & -> & Hx);
      [by eapply tree_ok_child|by eapply in_range_child|done|].
    exists x. split; [done|]. intros y. rewrite Hx. split.
    + intros [Hy Ha]. split; [lia|]. intros j' path m Hv Hm. cbn [node_at] in Hm.
      destruct (children n !! j') as [c'|] eqn:Hc'; [|done].
      destruct (proj1 (visited_cons _ _ _ _ _ _ Hc' (proj1 (Ht [] n j' c' eq_refl Hc'))) Hv) as [Hj Hv'].
      assert (j' = j) by (unfold j; lia). subst j'. rewrite Hc in Hc'. injection Hc' as <-.
      destruct path as [|k path]; [injection Hm as <-; lia|]. by eapply Ha.
    + intros [Hy Ha]. assert (Hv : forall path, visited cmd addr c path -> visited cmd addr n (j :: path)).
      { intros path Hv. apply (visited_cons _ _ _ _ _ _ Hc); [done|]. split; [unfold j; lia|done]. }
      split.
      * specialize (Ha j [] c). cbn [node_at] in Ha. rewrite Hc in Ha.
        specialize (Ha (Hv [] ltac:(apply visited_nil; lia)) eq_refl). lia.
      * intros k path m Hk Hm. apply (Ha j (k :: path)); [by apply Hv|]. cbn [node_at] in *. by rewrite Hc.
  - exists acc. split; [done|]. intros y. split; [|tauto]. intros Hy. split; [done|]. intros j path m Hv Hm.
    exfalso. cbn [node_at] in Hm. destruct (children n !! j) as [c|] eqn:Hc; [|done].
    destruct (Ht [] n j c eq_refl Hc) as [Elc _].
    destruct (proj1 (visited_cons _ _ _ _ _ _ Hc Elc) Hv) as [Hj (_ & Hs & _)].
    apply andb_false_iff in E as [E|E]; [apply andb_false_iff in E as [E|E]|].
    + apply Nat.ltb_ge in E. lia.
    + unfold no_children in E. by destruct (children n).
    + bool_prop. lia.
Qed.

(** C31: [DRAM::get_next] is the first clock, from the current one on, at
    which [DRAM::check] accepts the command. *)
Theorem dram_next_is_first i tr n cmd addr :
  issued (channel i) tr n -> in_range addr n ->
  exists x, get_next spec cmd addr n = Ok x /\ cur_clk n <= x /\
    forall clk, 0 <= clk -> cur_clk n <= clk -> check spec cmd addr clk n = Ok (x <=? clk).
Proof.
  intros Hr Ha. destruct (channel_inv _ _ _ Hr) as ([Ht Hn] & El & Ei).
  destruct (next_loop_visited cmd addr n (level n) (Z.max (cur_clk n) (next n cmd)) Ht Ha eq_refl)
    as (x & E & Hx). exists x. split; [done|]. split; [specialize (Hx x); lia|].
  intros clk Hclk Hcur. destruct (check_visited cmd addr clk Hclk n Ht Ha) as (b & -> & Hb); [lia|].
  f_equal. apply Bool.eq_iff_eq_true. rewrite Hb, Z.leb_le, Hx. split.
  - intros Hv. split; [|intros; by eapply Hv]. assert (Hl : (level n <= scope spec cmd)%nat) by lia.
    specialize (Hv [] n (visited_nil _ _ _ Hl) eq_refl). lia.
  - intros [Hc Hv] [|j path] m Hp Hm; [injection Hm as <-; lia|by eapply Hv].
Qed.

(** ** Runs in which every command was ready when it was issued *)
Inductive ready_run (root : DRAM) : list event -> DRAM -> Prop :=
| ready_nil : ready_run root [] root
| ready_cons tr n cmd addr clk n' : ready_run root tr n -> 0 <= clk -> in_range addr n ->
    check spec cmd addr clk n = Ok true -> update spec cmd addr clk n = Ok n' ->
    ready_run root (mk_ev cmd addr clk :: tr) n'.

Lemma ready_issued root tr n : ready_run root tr n -> issued root tr n.
Proof. induction 1; econstructor; eauto. Qed.

Lemma ready_prefix root tr2 : forall e tr1 n, ready_run root (tr2 ++ e :: tr1) n ->
  exists n1, ready_run root tr1 n1 /\ 0 <= ev_clk e /\ in_range (ev_addr e) n1 /\
    check spec (ev_cmd e) (ev_addr e) (ev_clk e) n1 = Ok true.
Proof.
  induction tr2 as [|e2 tr2 IH]; intros e tr1 n Hr; simpl in Hr.
  - inversion Hr; subst; simpl. eauto 6.
  - inversion Hr; subst. eauto.
Qed.

(** The shape of the tree never changes. *)
Lemma issued_shape root tr n : issued root tr n -> tree_inv [] root -> forall path,
  is_Some (node_at n path) <-> is_Some (node_at root path).
Proof.
  intros Hr H0. induction Hr as [|tr n cmd addr clk n' Hr IH Hclk E]; [done|]. intros path.
  rewrite <- (IH path). destruct (issued_inv _ _ _ H0 Hr) as ([Ht Hn] & _).
  unfold update in E. apply bind_ok_inv in E as (n1 & E1 & E).
  apply update_state_same in E1 as Hs. pose proof (same_timing_at path _ _ Hs) as Hp.
  assert (Hi1 : tree_inv tr n1).
  { apply (tree_inv_same tr (set_cur_clk clk n)); [done|]. apply (tree_inv_same tr n); [|by split].
    constructor; try done. simpl. clear. induction (children n); constructor; auto using same_timing_refl. }
  destruct Hi1 as [Ht1 Hn1].
  destruct (update_timing_ok cmd addr clk Hclk n1 (hist tr (level n1) (id n1)) Ht1) as (n2 & E2 & Hs2).
  { intros q m Hm. by apply (Hn1 q m Hm). }
  rewrite E in E2. injection E2 as <-. specialize (Hs2 path).
  assert (Hc : node_at (set_cur_clk clk n) path = None <-> node_at n path = None) by (by destruct path).
  destruct (node_at n path) eqn:En, (node_at (set_cur_clk clk n) path), (node_at n1 path), (node_at n' path);
    simpl in *; try done; try (by destruct (proj1 Hc)); try (by destruct (proj2 Hc));
    split; intros [? ?]; done || eauto.
Qed.

(** Every command of such a run respects every delay, at every node of the
    channel it targets within its scope. *)
Lemma ready_run_respects i tr2 e tr1 n path :
  ready_run (channel i) (tr2 ++ e :: tr1) n -> is_Some (node_at (channel i) path) ->
  (length path <= scope spec (ev_cmd e))%nat -> role_of (ev_addr e) 0 i path = Target ->
  may_issue tr1 0 i path (ev_cmd e) (ev_clk e).
Proof.
  intros Hr Hp Hl Ht. apply ready_prefix in Hr as (n1 & Hr & Hclk & Hrg & Hc).
  apply ready_issued in Hr. destruct (channel_inv _ _ _ Hr) as (_ & El & _).
  destruct (check_may_issue i tr1 n1 (ev_cmd e) _ _ Hr Hrg Hclk) as (b & Hb & Hiff).
  rewrite Hc in Hb. injection Hb as <-. apply (proj1 Hiff eq_refl). unfold visited. rewrite El. split; [|split; [simpl; lia|]].
  - apply (issued_shape _ _ _ Hr); [|done]. rewrite channel_build. apply build_inv.
  - clear - Ht. revert Ht. generalize 0%nat, i. induction path as [|j path IH]; intros l x Ht k q Hk; [done|].
    simpl in Ht. destruct (x =? _); [|done]. destruct k as [|k]; simpl in Hk.
    + injection Hk as <-. destruct path; simpl in Ht; destruct (Z.eqb_spec (Z.of_nat j) (nth (Datatypes.S l) (ev_addr e) (-1))) as [Hj|]; try done;
        rewrite Nat.add_0_r; congruence.
    + rewrite <- (IH _ _ Ht k q Hk). f_equal. lia.
Qed.

(** A command in the history of a node splits the trace. *)
Lemma hist_split lvl i path c tr : forall k t1, hist tr lvl i path c !! k = Some t1 ->
  exists tr2 e tr1, tr = tr2 ++ e :: tr1 /\ ev_cmd e = c /\ role_of (ev_addr e) lvl i path = Target /\
    ev_clk e = t1 /\ forall j, hist tr lvl i path c !! (k + Datatypes.S j)%nat = hist tr1 lvl i path c !! j.
Proof.
  induction tr as [|e tr IH]; intros k t1 Hk; [done|]. rewrite hist_cons in Hk.
  destruct (bool_decide (ev_cmd e = c) && bool_decide (role_of (ev_addr e) lvl i path = Target)) eqn:E.
  - pose proof E as E'. apply andb_true_iff in E' as [Ec Er].
    apply bool_decide_eq_true in Ec, Er. destruct k as [|k]; simpl in Hk.
    + injection Hk as <-. exists [], e, tr. split_and!; try done. intros j. rewrite hist_cons, E. done.
    + destruct (IH k t1 Hk) as (tr2 & e' & tr1 & -> & H1 & H2 & H3 & H4).
      exists (e :: tr2), e', tr1. split_and!; try done. intros j. rewrite hist_cons, E. simpl. apply H4.
  - destruct (IH k t1 Hk) as (tr2 & e' & tr1 & -> & H1 & H2 & H3 & H4).
    exists (e :: tr2), e', tr1. split_and!; try done. intros j. rewrite hist_cons, E. apply H4.
Qed.

(** Two commands of the same kind at a node, [te_dist] apart. *)
Lemma ready_run_window i tr n path c t k t0 t1 :
  ready_run (channel i) tr n -> is_Some (node_at (channel i) path) -> (length path <= scope spec c)%nat ->
  In t (timing spec (length path) c) -> te_sibling t = false -> te_cmd t = c ->
  hist tr 0 i path c !! k = Some t1 -> hist tr 0 i path c !! (k + Z.to_nat (te_dist t))%nat = Some t0 ->
  t0 + te_val t <= t1.
Proof.
  intros Hr Hp Hl Hin Hs Hc H1 H0. destruct (hist_split _ _ _ _ _ _ _ H1) as (tr2 & e & tr1 & -> & <- & Ht & <- & Hj).
  destruct (ready_run_respects i tr2 e tr1 n path Hr Hp Hl Ht) as [Hm _].
  apply (Hm (ev_cmd e) t 0%nat); try done. rewrite <- Hj, <- H0. f_equal.
  pose proof (dist_pos _ _ _ Hin). simpl. lia.
Qed.

(** An address within the organisation is in range. *)
Lemma build_children fuel lvl i j c : children (build spec fuel lvl i) !! j = Some c ->
  forall k, (k < Z.to_nat (count spec (Datatypes.S lvl)))%nat ->
  is_Some (children (build spec fuel lvl i) !! k).
Proof.
  destruct fuel as [|fuel]; cbn [build]; [done|].
  destruct (Datatypes.S lvl =? row_level spec)%nat; [done|]. intros _ k Hk. simpl.
  apply lookup_lt_is_Some_2. by rewrite length_map, length_seq.
Qed.

Lemma channel_in_range i tr n addr : issued (channel i) tr n ->
  (forall l, (0 < l < row_level spec)%nat -> nth l addr (-1) < count spec l) -> in_range addr n.
Proof.
  intros Hr Ha path m Hm Hne. destruct (channel_inv _ _ _ Hr) as ([Ht Hn] & El & _).
  destruct (Hn _ _ Hm) as [Hlm _]. rewrite El in Hlm. simpl in Hlm.
  assert (Hsh := issued_shape _ _ _ Hr ltac:(rewrite channel_build; apply build_inv)).
  rewrite channel_build in Hsh. destruct (children m) as [|c0 l] eqn:Ec; [done|].
  destruct (proj1 (Hsh (path ++ [0%nat]))) as [d0 Hd0]; [rewrite node_at_snoc, Hm, Ec; eauto|].
  rewrite node_at_snoc in Hd0. destruct (node_at (build spec _ 0 i) path) as [m0|] eqn:Em0; [|done].
  apply build_at in Em0 as Hb. destruct Hb as (j & Hb & _). simpl in Hb.
  assert (Hlv : (Datatypes.S (length path) < row_level spec)%nat).
  { rewrite Hb in Hd0. destruct (row_level spec - length path)%nat as [|f] eqn:Ef; [done|]. cbn [build] in Hd0.
    destruct (Nat.eqb_spec (Datatypes.S (length path)) (row_level spec)); [done|lia]. }
  destruct (Z.lt_ge_cases (child_id addr m) 0) as [Hc|Hc]; [simpl; lia|].
  unfold child_id in *. rewrite Hlm in *. specialize (Ha (Datatypes.S (length path)) ltac:(lia)).
  rewrite Hb in Hd0. set (k := Z.to_nat (nth (Datatypes.S (length path)) addr (-1))).
  destruct (build_children _ _ _ _ _ Hd0 k) as [d Hd]; [unfold k; lia|].
  destruct (proj2 (Hsh (path ++ [k]))) as [e He].
  { rewrite node_at_snoc, Em0, Hb. eauto. }
  rewrite node_at_snoc, Hm, Ec in He. apply lookup_lt_Some in He. unfold k in He. lia.
Qed.
End Timing.
