(* ===== verification/DramState.v ===== *)
(** * State changes in the DRAM tree

    The state of a node changes only by the lambda of the standard at that
    node: [update_timing] leaves states alone, and [update_state] applies one
    lambda at the end of the path of the address. *)
From Stdlib Require Import ZArith Lia Bool String.
From stdpp Require Import base list gmap.
From S2P Require Import Prelude Dram DramTiming.

Section DramState.
Context {C S : Type} `{EqDecision C} (spec : Spec C S).
#[local] Abbreviation DRAM := (DRAM C S).
Implicit Types n m : DRAM.

(** ** Timing does not touch the state *)
Definition same_state m m' : Prop :=
  state m' = state m /\ row_state m' = row_state m /\ level m' = level m /\ id m' = id m.

Lemma same_state_refl m : same_state m m.
Proof. done. Qed.
Lemma same_state_trans m1 m2 m3 : same_state m1 m2 -> same_state m2 m3 -> same_state m1 m3.
Proof. unfold same_state. intuition congruence. Qed.

(** A relation between nodes that neither the timing data nor the statistics
    of refreshes nor the children matter to. *)
Class Untouched (R : DRAM -> DRAM -> Prop) : Prop := {
  un_refl m : R m m;
  un_trans m1 m2 m3 : R m1 m2 -> R m2 m3 -> R m1 m3;
  un_next m v : R m (set_next v m);
  un_prev m v : R m (set_prev v m);
  un_refresh m clk until : R m (set_stats (note_refresh clk until (stats m)) m);
  un_children m l : R m (set_children l m)
}.
#[global] Instance same_state_untouched : Untouched same_state.
Proof. split; try done. apply same_state_trans. Qed.

Section Untouched.
Context (R : DRAM -> DRAM -> Prop) `{!Untouched R}.

Lemma entries_state f l : (forall t n n', f t n = Ok n' -> R n n' /\ children n' = children n) ->
  forall n n', entries f l n = Ok n' -> R n n' /\ children n' = children n.
Proof.
  intros Hf. induction l as [|t l IH]; intros n n' E; simpl in E; [injection E as <-; split; [apply un_refl|done]|].
  apply bind_ok_inv in E as (n1 & E1 & E). apply Hf in E1 as [H1 H2]. apply IH in E as [H3 H4].
  split; [by eapply un_trans|congruence].
Qed.

Lemma target_entry_state cmd clk t n n' : target_entry spec cmd clk t n = Ok n' ->
  R n n' /\ children n' = children n.
Proof.
  unfold target_entry. destruct (te_sibling t); [intros [= <-]; split; [apply un_refl|done]|].
  destruct (_ !! _) as [past|]; [|done]. destruct (_ <? 0); [intros [= <-]; split; [apply un_refl|done]|].
  destruct (_ && _); [|intros [= <-]; split; [apply un_next|done]]. destruct (_ =? _); [|done]. intros [= <-].
  split; [|done]. eapply un_trans; [apply un_next|]. exact (un_refresh (raise_next (te_cmd t) (past + te_val t) n) clk _).
Qed.
Lemma sibling_entry_state clk t n n' : sibling_entry clk t n = Ok n' ->
  R n n' /\ children n' = children n.
Proof.
  unfold sibling_entry. destruct (negb (te_sibling t)); [intros [= <-]; split; [apply un_refl|done]|].
  destruct (_ =? _); [|done]. intros [= <-]. split; [apply un_next|done].
Qed.

Lemma on_all_inv (f : DRAM -> res DRAM) l : forall l', on_all f l = Ok l' ->
  Forall2 (fun c c' => f c = Ok c') l l'.
Proof.
  induction l as [|c l IH]; intros l' E; simpl in E; [injection E as <-; constructor|].
  apply bind_ok_inv in E as (c' & Ec & E). apply bind_ok_inv in E as (l1 & El & E).
  injection E as <-. constructor; [done|]. by apply IH.
Qed.

Lemma push_history_state cmd clk n : R n (push_history cmd clk n).
Proof. unfold push_history. destruct (prev n cmd); [apply un_refl|apply un_prev]. Qed.

Lemma update_timing_untouched cmd addr clk path : forall n n',
  update_timing spec cmd addr clk n = Ok n' -> both R (node_at n path) (node_at n' path).
Proof.
  induction path as [|j path IH]; intros n n' E; rewrite update_timing_eq in E;
    destruct (negb (id n =? _)).
  - apply entries_state in E as [Hs _]; [done|]. intros ? ? ?. apply sibling_entry_state.
  - apply bind_ok_inv in E as (n1 & E1 & E). apply bind_ok_inv in E as (l & El & E). injection E as <-.
    apply entries_state in E1 as [Hs _]; [|intros ? ? ?; apply target_entry_state].
    simpl. eapply un_trans; [apply push_history_state|]. eapply un_trans; [exact Hs|]. apply un_children.
  - apply entries_state in E as [_ Hc]; [|intros ? ? ?; apply sibling_entry_state].
    simpl. rewrite Hc. apply both_refl. intros. apply un_refl.
  - apply bind_ok_inv in E as (n1 & E1 & E). apply bind_ok_inv in E as (l & El & E). injection E as <-.
    apply on_all_inv in El. simpl. destruct (children n !! j) as [c|] eqn:Hc.
    + destruct (Forall2_lookup_l _ _ _ _ _ El Hc) as (c' & -> & Hcc). by apply IH.
    + rewrite lookup_ge_None in Hc. rewrite (Forall2_length _ _ _ El), <- lookup_ge_None in Hc. by rewrite Hc.
Qed.
End Untouched.

Lemma update_timing_state cmd addr clk path n n' :
  update_timing spec cmd addr clk n = Ok n' -> both same_state (node_at n path) (node_at n' path).
Proof. apply update_timing_untouched, _. Qed.

(** ** Changing one node *)
Fixpoint alter_at (path : list nat) (f : DRAM -> DRAM) (n : DRAM) : DRAM :=
  match path with
  | [] => f n
  | j :: path => set_children (alter (alter_at path f) j (children n)) n
  end.

Lemma on_child_lookup (f : DRAM -> res DRAM) l : forall j c c', l !! j = Some c -> f c = Ok c' ->
  on_child f l j = Ok (<[j := c']> l).
Proof.
  induction l as [|d l IH]; intros [|j] c c' Hj Hf; simpl in *; try done.
  - injection Hj as ->. by rewrite Hf.
  - by rewrite (IH j c c' Hj Hf).
Qed.

Lemma alter_insert (g : DRAM -> DRAM) (l : list DRAM) j c : l !! j = Some c -> alter g j l = <[j := g c]> l.
Proof. revert j. induction l as [|d l IH]; intros [|j] Hj; simpl in *; simplify_eq; [done|]. f_equal. by apply IH. Qed.

Lemma node_at_alter_eq path f n m : node_at n path = Some m -> node_at (alter_at path f n) path = Some (f m).
Proof.
  revert n. induction path as [|j path IH]; intros n Hm; simpl in *; [by injection Hm as ->|].
  destruct (children n !! j) as [c|] eqn:Hc; [|done]. rewrite list_lookup_alter_eq, Hc. simpl. by apply IH.
Qed.

(** Nodes that are not below the changed one keep state and rows. *)
Lemma node_at_alter_other path f : forall n q, ~ path `prefix_of` q ->
  both same_state (node_at n q) (node_at (alter_at path f n) q).
Proof.
  induction path as [|j path IH]; intros n q Hq; [by destruct Hq; apply prefix_nil|].
  destruct q as [|k q]; simpl; [done|].
  destruct (decide (j = k)) as [->|Hne].
  - rewrite list_lookup_alter_eq. destruct (children n !! k) as [c|]; simpl; [|done].
    apply IH. intros Hp. by apply Hq, prefix_cons.
  - rewrite list_lookup_alter_ne by done. apply both_refl. done.
Qed.

(** ** [update_state] changes the node its command acts on *)

(** The lambda of [cmd] at the end of the path, none before. *)
Lemma update_state_path cmd addr f path : forall fuel n m,
  (length path < fuel)%nat -> tree_ok n -> node_at n path = Some m ->
  (forall k, (k < length path)%nat -> lambda spec (level n + k) cmd = None /\ (level n + k <> scope spec cmd)%nat) ->
  (forall k j, path !! k = Some j -> nth (Datatypes.S (level n + k)) addr (-1) = Z.of_nat j) ->
  lambda spec (level n + length path) cmd = Some f ->
  level (f m (child_id addr m)) = level m ->
  (level m =? scope spec cmd)%nat || no_children (f m (child_id addr m)) = true ->
  update_state_at spec fuel cmd addr n = Ok (alter_at path (fun m => f m (child_id addr m)) n).
Proof.
  induction path as [|j path IH]; intros [|fuel] n m Hfuel Ht Hm Hl Ha Hf Hlv Hend; simpl in Hfuel; try lia;
    cbn [update_state_at alter_at node_at] in *.
  - injection Hm as <-. rewrite Nat.add_0_r in Hf. rewrite Hf, Hlv, Hend. done.
  - destruct (children n !! j) as [c|] eqn:Hc; [|done]. destruct (Hl 0%nat ltac:(simpl; lia)) as [Hl0 Hs0].
    rewrite Nat.add_0_r in Hl0, Hs0. rewrite Hl0. rewrite (proj2 (Nat.eqb_neq _ _) Hs0).
    assert (Hnc : no_children n = false) by (unfold no_children; by destruct (children n)).
    rewrite Hnc. cbn [orb]. destruct (Ht [] n j c eq_refl Hc) as [Elc _].
    assert (Hj : child_id addr n = Z.of_nat j).
    { unfold child_id. rewrite <- (Ha 0%nat j eq_refl). do 2 f_equal. lia. }
    rewrite Hj, (proj2 (Z.ltb_ge _ _)), Nat2Z.id by lia.
    erewrite on_child_lookup; [|exact Hc|].
    + cbn [bind]. by rewrite (alter_insert _ _ _ _ Hc).
    + apply (IH fuel c m); try done; rewrite ?Elc; try lia; [by eapply tree_ok_child|..].
      * intros k Hk. replace (Datatypes.S (level n) + k)%nat with (level n + Datatypes.S k)%nat by lia.
        apply Hl. simpl. lia.
      * intros k i Hk. rewrite <- (Ha (Datatypes.S k) i Hk). f_equal. lia.
      * rewrite <- Hf. f_equal. simpl. lia.
Qed.

End DramState.
