(* ===== verification/DramServe.v ===== *)
(** * The counts of requests being served

    [DRAM::update_serving_requests] counts the requests in service at every
    node on the way to a bank.  Its assertions hold when the counts are those
    of the requests in service, and no other operation changes the counts. *)
From Stdlib Require Import ZArith Lia Bool String.
From stdpp Require Import base list gmap.
From S2P Require Import Prelude Dram DramTiming DramState.

Section DramServe.
Context {C S : Type} `{EqDecision C} (spec : Spec C S).
#[local] Abbreviation DRAM := (DRAM C S).
Implicit Types n m : DRAM.

(** ** One node *)
Definition serving_wf (v : serving) : Prop :=
  0 <= cur_serving_requests v /\ (0 < cur_serving_requests v -> begin_of_serving v <> -1).

Lemma serve_here_ok delta clk v : delta = 1 \/ delta = -1 -> 0 <= clk -> serving_wf v ->
  0 <= cur_serving_requests v + delta ->
  exists v', serve_here delta clk v = Ok v' /\ cur_serving_requests v' = cur_serving_requests v + delta /\ serving_wf v'.
Proof.
  intros Hd Hclk [Hc Hb] Hn. unfold serve_here.
  replace ((delta =? 1) || (delta =? -1)) with true by (destruct Hd as [-> | ->]; done). cbv iota zeta.
  rewrite (proj2 (Z.leb_le _ _) Hn).
  destruct ((delta =? 1) && (cur_serving_requests v + delta =? 1)) eqn:E1.
  { eexists. split; [reflexivity|]. split; [done|]. split; cbn; lia. }
  destruct (Z.eqb_spec (cur_serving_requests v + delta) 0) as [E0|E0].
  - assert (delta = -1) as -> by lia. specialize (Hb ltac:(lia)). apply Z.eqb_neq in Hb. rewrite Hb.
    eexists. split; [reflexivity|]. split; [done|]. split; cbn; lia.
  - eexists. split; [reflexivity|]. split; [done|]. split; cbn; [lia|]. intros _. apply Hb.
    destruct Hd as [-> | ->]; [|lia]. cbn in E1. apply Z.eqb_neq in E1. lia.
Qed.

(** ** The nodes on a path *)

(** Nothing but the statistics and the children differ. *)
Definition same_node m m' : Prop :=
  same_state m m' /\ next m' = next m /\ prev m' = prev m /\ cur_clk m' = cur_clk m.
(** What serving does to the node at [q], for a request of the bank at
    [path]. *)
Definition served_at (delta clk : Z) (path q : list nat) m m' : Prop :=
  same_node m m' /\
  (q `prefix_of` path -> serve_here delta clk (stats m) = Ok (stats m')) /\
  (~ q `prefix_of` path -> stats m' = stats m).

Lemma served_at_off delta clk path q m : ~ q `prefix_of` path -> served_at delta clk path q m m.
Proof. intros Hq. by split; [|split]. Qed.
Lemma served_at_cons delta clk j path q m m' : served_at delta clk path q m m' ->
  served_at delta clk (j :: path) (j :: q) m m'.
Proof.
  intros (H1 & H2 & H3). split; [done|]. split; intros Hp.
  - apply H2. by apply prefix_cons_inv_2 in Hp.
  - apply H3. intros Hq. by apply Hp, prefix_cons.
Qed.

Lemma update_serving_eq addr delta clk n : update_serving_requests spec addr delta clk n =
  assert! (id n =? nth (level n) addr (-1)), "id == addr[int(level)]" in
  let! v := serve_here delta clk (stats n) in
  if (child_id addr n <? 0) || no_children n || (bank_level spec <? level n)%nat then Ok (set_stats v n)
  else let! l := on_child (update_serving_requests spec addr delta clk) (children n) (Z.to_nat (child_id addr n)) in
       Ok (set_children l (set_stats v n)).
Proof. by destruct n. Qed.

Lemma update_serving_ok addr delta clk path : forall n m, tree_ok n -> node_at n path = Some m -> children m = [] ->
  id n = nth (level n) addr (-1) -> (level n + length path <= bank_level spec)%nat ->
  (forall k j, path !! k = Some j -> nth (Datatypes.S (level n + k)) addr (-1) = Z.of_nat j) ->
  (forall q x, q `prefix_of` path -> node_at n q = Some x -> exists v, serve_here delta clk (stats x) = Ok v) ->
  exists n', update_serving_requests spec addr delta clk n = Ok n' /\
    forall q, both (served_at delta clk path q) (node_at n q) (node_at n' q).
Proof.
  induction path as [|j path IH]; intros n m Ht Hm Hc Hid Hlv Ha Hs;
    rewrite update_serving_eq, (proj2 (Z.eqb_eq _ _) Hid);
    destruct (Hs [] n (prefix_nil _) eq_refl) as (v & Ev); rewrite Ev; cbn [bind].
  - injection Hm as ->. unfold no_children. rewrite Hc, orb_true_r. cbn [orb]. eexists. split; [reflexivity|].
    intros [|k q]; cbn; [|by rewrite Hc]. split; [done|]. split; [done|]. intros Hp. by destruct Hp.
  - cbn [node_at] in Hm. destruct (children n !! j) as [c|] eqn:Ec; [|done].
    destruct (Ht [] n j c eq_refl Ec) as [Elc Eic]. cbn [length] in Hlv.
    assert (Hj : child_id addr n = Z.of_nat j).
    { unfold child_id. rewrite <- (Ha 0%nat j eq_refl). do 2 f_equal. lia. }
    assert (Hnc : no_children n = false) by (unfold no_children; by destruct (children n)).
    rewrite Hj, Hnc, (proj2 (Z.ltb_ge (Z.of_nat j) 0)), (proj2 (Nat.ltb_ge _ _)), Nat2Z.id by lia. cbn [orb].
    destruct (IH c m) as (c' & E' & Hq); [by eapply tree_ok_child|done|done|..].
    { rewrite Elc, Eic. rewrite <- (Ha 0%nat j eq_refl). do 2 f_equal. lia. }
    { lia. }
    { intros k i Hk. rewrite <- (Ha (Datatypes.S k) i Hk). f_equal. lia. }
    { intros q x Hp Hx. apply (Hs (j :: q)); [by apply prefix_cons|]. cbn. by rewrite Ec. }
    rewrite (on_child_lookup _ _ j c c' Ec E'). cbn [bind]. eexists. split; [reflexivity|].
    intros [|k q]; cbn [node_at].
    + split; [done|]. split; [done|]. intros Hp. destruct Hp. apply prefix_nil.
    + cbn [children set_children]. destruct (decide (j = k)) as [->|Hne].
      * rewrite list_lookup_insert_eq, Ec by (by eapply lookup_lt_Some). specialize (Hq q).
        destruct (node_at c q), (node_at c' q); try done. by apply served_at_cons.
      * rewrite list_lookup_insert_ne by done. apply both_refl. intros x _. apply served_at_off.
        intros Hp. by apply prefix_cons_inv_1 in Hp.
Qed.

(** ** No other operation changes the counts *)
Definition same_serv m m' : Prop :=
  cur_serving_requests (stats m') = cur_serving_requests (stats m) /\
  begin_of_serving (stats m') = begin_of_serving (stats m).
#[global] Instance same_serv_untouched : Untouched same_serv.
Proof. split; try done. unfold same_serv. intuition congruence. Qed.

Lemma same_serv_wf m m' : same_serv m m' -> serving_wf (stats m) -> serving_wf (stats m').
Proof. unfold serving_wf. by intros [-> ->]. Qed.

Lemma alter_serv path f : (forall m q, both same_serv (node_at m q) (node_at (f m) q)) ->
  forall n q, both same_serv (node_at n q) (node_at (alter_at path f n) q).
Proof.
  intros Hf. induction path as [|j path IH]; intros n q; [apply Hf|]. destruct q as [|k q]; cbn; [done|].
  destruct (decide (j = k)) as [->|Hne].
  - rewrite list_lookup_alter_eq. destruct (children n !! k); [apply IH|done].
  - rewrite list_lookup_alter_ne by done. apply both_refl. done.
Qed.

(** ** Nodes that differ in their statistics only *)
Lemma same_nodes_timing n : forall n', (forall q, both same_node (node_at n q) (node_at n' q)) -> same_timing n n'.
Proof.
  induction n as [n IH] using DRAM_ind_nested. intros n' Hq.
  destruct (Hq []) as ((_ & _ & E1 & E2) & E3 & E4 & _). constructor; try done.
  apply Forall2_same_length_lookup. rewrite Forall_lookup in IH.
  assert (Hsome : forall k, is_Some (children n !! k) <-> is_Some (children n' !! k)).
  { intros k. specialize (Hq [k]). cbn in Hq. by destruct (children n !! k), (children n' !! k). }
  split.
  - apply Nat.le_antisymm; apply Nat.nlt_ge; intros Hlt; apply lookup_lt_is_Some_2, Hsome, lookup_lt_is_Some_1 in Hlt; lia.
  - intros k x y Hx Hy. apply (IH k x Hx). intros q. specialize (Hq (k :: q)). cbn in Hq. by rewrite Hx, Hy in Hq.
Qed.

(** [check] reads the timing data only. *)
Lemma check_same cmd addr clk n n' : same_timing n n' -> check spec cmd addr clk n' = check spec cmd addr clk n.
Proof.
  revert n'. induction n as [n IH] using DRAM_ind_nested. intros n' Hs. destruct Hs as [n n' E1 E2 E3 E4 Hc].
  rewrite !check_eq, E3, E1. replace (child_id addr n') with (child_id addr n) by (unfold child_id; by rewrite E1).
  replace (no_children n') with (no_children n) by (unfold no_children; by destruct Hc).
  destruct (_ && _); [done|]. destruct (_ || _); [done|]. generalize (Z.to_nat (child_id addr n)). intros j.
  clear -IH Hc. revert j. induction Hc as [|x y l l' Hxy Hl IHl]; intros j; [done|].
  inversion IH as [|? ? Hx Hrest]; subst. destruct j as [|j]; cbn; [by apply Hx|by apply IHl].
Qed.
End DramServe.
