(* ===== verification/Ddr4.v ===== *)
(** * The DDR4 standard

    [ramulator/src/DDR4.h] and [ramulator/src/DDR4.cpp]: commands, levels,
    organisations, speeds, the tables of prerequisites, row hits and state
    changes, and the timing tables, as an instance of [Dram.Spec]. *)
From Stdlib Require Import ZArith Lia Bool String.
From stdpp Require Import base list gmap.
From S2P Require Import Prelude Flit RamIf Dram.

Module DDR4.

(** [enum class Level] *)
Definition Channel : nat := 0.
Definition Rank : nat := 1.
Definition BankGroup : nat := 2.
Definition Bank : nat := 3.
Definition Row : nat := 4.
Definition Column : nat := 5.

(** [enum class Command] without [MAX] *)
Inductive Command : Type := ACT | PRE | PREA | RD | WR | RDA | WRA | REF | PDE | PDX | SRE | SRX.
#[global] Instance Command_eq_dec : EqDecision Command.
Proof. solve_decision. Defined.
Definition all_commands : list Command := [ACT; PRE; PREA; RD; WR; RDA; WRA; REF; PDE; PDX; SRE; SRX].
Lemma all_commands_in c : In c all_commands.
Proof. destruct c; simpl; tauto. Qed.

Definition scope (c : Command) : nat :=
  match c with
  | ACT => Row | PRE => Bank | PREA => Rank
  | RD => Column | WR => Column | RDA => Column | WRA => Column
  | REF => Rank | PDE => Rank | PDX => Rank | SRE => Rank | SRX => Rank
  end.

Definition is_opening (c : Command) : bool := match c with ACT => true | _ => false end.
Definition is_accessing (c : Command) : bool :=
  match c with RD | WR | RDA | WRA => true | _ => false end.
Definition is_closing (c : Command) : bool :=
  match c with RDA | WRA | PRE | PREA => true | _ => false end.
Definition is_refreshing (c : Command) : bool := match c with REF => true | _ => false end.

(** [enum class State] *)
Inductive State : Type :=
  Opened | Closed | PowerUp | ActPowerDown | PrePowerDown | SelfRefresh | MAX.
#[global] Instance State_eq_dec : EqDecision State.
Proof. solve_decision. Defined.
Definition start (lvl : nat) : State := nth lvl [MAX; PowerUp; MAX; Closed; Closed; MAX] MAX.

(** [translate]; the entry without an initialiser is the first command. *)
Definition translate (t : ReqType) : Command :=
  match t with
  | READ => RD | WRITE => WR | REFRESH => REF | POWERDOWN => PDE | SELFREFRESH => SRE
  | _ => ACT
  end.

(** ** Organisation *)
Inductive Org : Type := DDR4_2Gb_x4 | DDR4_2Gb_x8 | DDR4_2Gb_x16 | DDR4_4Gb_x4 | DDR4_4Gb_x8 | DDR4_4Gb_x16 | DDR4_8Gb_x4 | DDR4_8Gb_x8 | DDR4_8Gb_x16.
Record OrgEntry : Type := mk_OrgEntry { size : Z; dq : Z; count : list Z }.
Definition org_table (o : Org) : OrgEntry :=
  match o with
  | DDR4_2Gb_x4 => mk_OrgEntry (Z.shiftl 2 10) 4 [0; 0; 4; 4; Z.shiftl 1 15; Z.shiftl 1 10]
  | DDR4_2Gb_x8 => mk_OrgEntry (Z.shiftl 2 10) 8 [0; 0; 4; 4; Z.shiftl 1 14; Z.shiftl 1 10]
  | DDR4_2Gb_x16 => mk_OrgEntry (Z.shiftl 2 10) 16 [0; 0; 2; 4; Z.shiftl 1 14; Z.shiftl 1 10]
  | DDR4_4Gb_x4 => mk_OrgEntry (Z.shiftl 4 10) 4 [0; 0; 4; 4; Z.shiftl 1 16; Z.shiftl 1 10]
  | DDR4_4Gb_x8 => mk_OrgEntry (Z.shiftl 4 10) 8 [0; 0; 4; 4; Z.shiftl 1 15; Z.shiftl 1 10]
  | DDR4_4Gb_x16 => mk_OrgEntry (Z.shiftl 4 10) 16 [0; 0; 2; 4; Z.shiftl 1 15; Z.shiftl 1 10]
  | DDR4_8Gb_x4 => mk_OrgEntry (Z.shiftl 8 10) 4 [0; 0; 4; 4; Z.shiftl 1 17; Z.shiftl 1 10]
  | DDR4_8Gb_x8 => mk_OrgEntry (Z.shiftl 8 10) 8 [0; 0; 4; 4; Z.shiftl 1 16; Z.shiftl 1 10]
  | DDR4_8Gb_x16 => mk_OrgEntry (Z.shiftl 8 10) 16 [0; 0; 2; 4; Z.shiftl 1 16; Z.shiftl 1 10]
  end.
Definition set_channel_number (channel : Z) (e : OrgEntry) : OrgEntry :=
  mk_OrgEntry (size e) (dq e) (<[Channel := channel]> (count e)).
Definition set_rank_number (rank : Z) (e : OrgEntry) : OrgEntry :=
  mk_OrgEntry (size e) (dq e) (<[Rank := rank]> (count e)).

(** ** Speed *)
Inductive Speed : Type := DDR4_1600K | DDR4_1600L | DDR4_1866M | DDR4_1866N | DDR4_2133P | DDR4_2133R | DDR4_2400R | DDR4_2400U | DDR4_3200.
Inductive RefreshMode : Type := Refresh_1X | Refresh_2X | Refresh_4X.
Definition mode_index (m : RefreshMode) : nat :=
  match m with Refresh_1X => 0 | Refresh_2X => 1 | Refresh_4X => 2 end.
Definition prefetch_size : Z := 8.
Definition channel_width : Z := 64.
(** [SpeedEntry] without the floating-point members [freq] and [tCK] *)
Record SpeedEntry : Type := mk_SpeedEntry {
  rate : Z;
  nBL : Z;
  nCCDS : Z;
  nCCDL : Z;
  nRTRS : Z;
  nCL : Z;
  nRCD : Z;
  nRP : Z;
  nCWL : Z;
  nRAS : Z;
  nRC : Z;
  nRTP : Z;
  nWTRS : Z;
  nWTRL : Z;
  nWR : Z;
  nRRDS : Z;
  nRRDL : Z;
  nFAW : Z;
  nRFC : Z;
  nREFI : Z;
  nPD : Z;
  nXP : Z;
  nXPDLL : Z;
  nCKESR : Z;
  nXS : Z;
  nXSDLL : Z
}.
Definition speed_table (v : Speed) : SpeedEntry :=
  match v with
  | DDR4_1600K => mk_SpeedEntry 1600 4 4 5 2 11 11 11 9 28 39 6 2 6 12 0 0 0 0 0 4 5 0 5 0 0
  | DDR4_1600L => mk_SpeedEntry 1600 4 4 5 2 12 12 12 9 28 40 6 2 6 12 0 0 0 0 0 4 5 0 5 0 0
  | DDR4_1866M => mk_SpeedEntry 1866 4 4 5 2 13 13 13 10 32 45 7 3 7 14 0 0 0 0 0 5 6 0 6 0 0
  | DDR4_1866N => mk_SpeedEntry 1866 4 4 5 2 14 14 14 10 32 46 7 3 7 14 0 0 0 0 0 5 6 0 6 0 0
  | DDR4_2133P => mk_SpeedEntry 2133 4 4 6 2 15 15 15 11 36 51 8 3 8 16 0 0 0 0 0 6 7 0 7 0 0
  | DDR4_2133R => mk_SpeedEntry 2133 4 4 6 2 16 16 16 11 36 52 8 3 8 16 0 0 0 0 0 6 7 0 7 0 0
  | DDR4_2400R => mk_SpeedEntry 2400 4 4 6 2 16 16 16 12 39 55 9 3 9 18 0 0 0 0 0 6 8 0 7 0 0
  | DDR4_2400U => mk_SpeedEntry 2400 4 4 6 2 18 18 18 12 39 57 9 3 9 18 0 0 0 0 0 6 8 0 7 0 0
  | DDR4_3200 => mk_SpeedEntry 3200 (prefetch_size / 2) 4 10 2 22 22 22 16 56 78 12 4 12 24 8 10 40 0 0 8 10 0 8 0 0
  end.

Definition RRDS_TABLE := [ [4; 4; 4; 4; 4]; [5; 5; 6; 7; 9] ].
Definition RRDL_TABLE := [ [5; 5; 6; 6; 8]; [6; 6; 7; 8; 11] ].
Definition FAW_TABLE := [ [16; 16; 16; 16; 16]; [20; 22; 23; 26; 34]; [28; 28; 32; 36; 48] ].
Definition RFC_TABLE := [[ [128; 150; 171; 192; 256]; [208; 243; 278; 312; 416]; [280; 327; 374; 420; 560] ];[ [88; 103; 118; 132; 176]; [128; 150; 171; 192; 256]; [208; 243; 278; 312; 416] ];[ [72; 84; 96; 108; 144]; [88; 103; 118; 132; 176]; [128; 150; 171; 192; 256] ] ].
Definition REFI_TABLE := [ 6240; 7280; 8320; 9360; 12480 ].
Definition XS_TABLE := [ [136; 159; 182; 204; 272]; [216; 252; 288; 324; 432]; [288; 336; 384; 432; 576] ].

Definition ix2 (l : list (list Z)) (i j : nat) : Z := nth j (nth i l []) 0.
Definition speed_index (rate : Z) : res nat :=
  if rate =? 1600 then Ok 0%nat else if rate =? 1866 then Ok 1%nat
  else if rate =? 2133 then Ok 2%nat else if rate =? 2400 then Ok 3%nat
  else if rate =? 3200 then Ok 4%nat else Abort "false".
Definition density_index (sz : Z) : res nat :=
  let d := Z.shiftr sz 10 in
  if d =? 2 then Ok 0%nat else if d =? 4 then Ok 1%nat else if d =? 8 then Ok 2%nat
  else Abort "false".

Definition with_derived (vnRRDS vnRRDL vnFAW vnRFC vnREFI vnXS : Z) (s : SpeedEntry) : SpeedEntry :=
  mk_SpeedEntry (rate s) (nBL s) (nCCDS s) (nCCDL s) (nRTRS s) (nCL s) (nRCD s) (nRP s) (nCWL s) (nRAS s) (nRC s) (nRTP s) (nWTRS s) (nWTRL s) (nWR s) vnRRDS vnRRDL vnFAW vnRFC vnREFI (nPD s) (nXP s) (nXPDLL s) (nCKESR s) vnXS (nXSDLL s).
(** [DDR4::init_speed] *)
Definition init_speed (mode : RefreshMode) (org : OrgEntry) (s : SpeedEntry) : res SpeedEntry :=
  let! speed := speed_index (rate s) in
  let! density := density_index (size org) in
  let wide := if dq org =? 16 then 1%nat else 0%nat in
  Ok (with_derived
        (ix2 RRDS_TABLE wide speed)
        (ix2 RRDL_TABLE wide speed)
        (ix2 FAW_TABLE (if dq org =? 4 then 0%nat else if dq org =? 8 then 1%nat else 2%nat) speed)
        (ix2 (nth (mode_index mode) RFC_TABLE []) density speed)
        (Z.shiftr (nth speed REFI_TABLE 0) (Z.of_nat (mode_index mode)))
        (ix2 XS_TABLE density speed) s).
Definition read_latency (s : SpeedEntry) : Z := nCL s + nBL s.

(** ** Prerequisites *)
Abbreviation Node := (DRAM Command State).

Definition rank_RD (node : Node) (cmd : Command) (id : Z) : res (option Command) :=
  match state node with
  | PowerUp => Ok None
  | ActPowerDown => Ok (Some PDX)
  | PrePowerDown => Ok (Some PDX)
  | SelfRefresh => Ok (Some SRX)
  | _ => Abort "false"
  end.
Definition bank_RD (node : Node) (cmd : Command) (id : Z) : res (option Command) :=
  match state node with
  | Closed => Ok (Some ACT)
  | Opened => match row_state node !! id with Some _ => Ok (Some cmd) | None => Ok (Some PRE) end
  | _ => Abort "false"
  end.
(** Are all banks below a rank closed? *)
Definition banks_closed (node : Node) : bool :=
  forallb (fun bg => forallb (fun bank => bool_decide (state bank = Closed)) (children bg)) (children node).
Definition rank_REF (node : Node) (cmd : Command) (id : Z) : res (option Command) :=
  if banks_closed node then Ok (Some REF) else Ok (Some PREA).
Definition rank_PDE (node : Node) (cmd : Command) (id : Z) : res (option Command) :=
  match state node with
  | PowerUp => Ok (Some PDE)
  | ActPowerDown => Ok (Some PDE)
  | PrePowerDown => Ok (Some PDE)
  | SelfRefresh => Ok (Some SRX)
  | _ => Abort "false"
  end.
Definition rank_SRE (node : Node) (cmd : Command) (id : Z) : res (option Command) :=
  match state node with
  | PowerUp => Ok (Some SRE)
  | ActPowerDown => Ok (Some PDX)
  | PrePowerDown => Ok (Some PDX)
  | SelfRefresh => Ok (Some SRE)
  | _ => Abort "false"
  end.
(** [DDR4::init_prereq] *)
Definition prereq (lvl : nat) (c : Command) : option (Node -> Command -> Z -> res (option Command)) :=
  match lvl, c with
  | 1%nat, RD => Some rank_RD
  | 3%nat, RD => Some bank_RD
  | 1%nat, WR => Some rank_RD
  | 3%nat, WR => Some bank_RD
  | 1%nat, REF => Some rank_REF
  | 1%nat, PDE => Some rank_PDE
  | 1%nat, SRE => Some rank_SRE
  | _, _ => None
  end.

(** ** Row hits *)
Definition bank_hit (node : Node) (cmd : Command) (id : Z) : res bool :=
  match state node with
  | Closed => Ok false
  | Opened => match row_state node !! id with Some _ => Ok true | None => Ok false end
  | _ => Abort "false"
  end.
Definition bank_open (node : Node) (cmd : Command) (id : Z) : res bool :=
  match state node with
  | Closed => Ok false
  | Opened => Ok true
  | _ => Abort "false"
  end.
(** [DDR4::init_rowhit] and [DDR4::init_rowopen] *)
Definition rowhit (lvl : nat) (c : Command) : option (Node -> Command -> Z -> res bool) :=
  match lvl, c with 3%nat, RD => Some bank_hit | 3%nat, WR => Some bank_hit | _, _ => None end.
Definition rowopen (lvl : nat) (c : Command) : option (Node -> Command -> Z -> res bool) :=
  match lvl, c with 3%nat, RD => Some bank_open | 3%nat, WR => Some bank_open | _, _ => None end.

(** ** State changes *)
Definition open_row (node : Node) (id : Z) : Node :=
  set_row_state (<[id := Opened]> (row_state node)) (set_state Opened node).
Definition close_bank (node : Node) : Node := set_row_state ∅ (set_state Closed node).
Definition close_all (node : Node) : Node :=
  set_children (map (fun bg => set_children (map close_bank (children bg)) bg) (children node)) node.
(** [DDR4::init_lambda] *)
Definition lambda (lvl : nat) (c : Command) : option (Node -> Z -> Node) :=
  match lvl, c with
  | 3%nat, ACT => Some open_row
  | 3%nat, PRE => Some (fun node _ => close_bank node)
  | 1%nat, PREA => Some (fun node _ => close_all node)
  | 1%nat, REF => Some (fun node _ => node)
  | 3%nat, RD => Some (fun node _ => node)
  | 3%nat, WR => Some (fun node _ => node)
  | 3%nat, RDA => Some (fun node _ => close_bank node)
  | 3%nat, WRA => Some (fun node _ => close_bank node)
  | 1%nat, PDE => Some (fun node _ =>
      set_state (if banks_closed node then PrePowerDown else ActPowerDown) node)
  | 1%nat, PDX => Some (fun node _ => set_state PowerUp node)
  | 1%nat, SRE => Some (fun node _ => set_state SelfRefresh node)
  | 1%nat, SRX => Some (fun node _ => set_state PowerUp node)
  | _, _ => None
  end.

(** ** Timing ([DDR4::init_timing]) *)
Definition timing_Channel (s : SpeedEntry) (c : Command) : list (TimingEntry Command) :=
  match c with
  | RD =>
      [mk_te RD 1 (nBL s) false;
       mk_te RDA 1 (nBL s) false]
  | WR =>
      [mk_te WR 1 (nBL s) false;
       mk_te WRA 1 (nBL s) false]
  | RDA =>
      [mk_te RD 1 (nBL s) false;
       mk_te RDA 1 (nBL s) false]
  | WRA =>
      [mk_te WR 1 (nBL s) false;
       mk_te WRA 1 (nBL s) false]
  | _ => []
  end.
Definition timing_Rank (s : SpeedEntry) (c : Command) : list (TimingEntry Command) :=
  match c with
  | ACT =>
      [mk_te ACT 1 (nRRDS s) false;
       mk_te ACT 4 (nFAW s) false;
       mk_te PREA 1 (nRAS s) false;
       mk_te REF 1 (nRC s) false;
       mk_te PDE 1 (1) false]
  | PRE =>
      [mk_te REF 1 (nRP s) false;
       mk_te SRE 1 (nRP s) false]
  | PREA =>
      [mk_te ACT 1 (nRP s) false;
       mk_te REF 1 (nRP s) false;
       mk_te SRE 1 (nRP s) false]
  | RD =>
      [mk_te RD 1 (nCCDS s) false;
       mk_te RDA 1 (nCCDS s) false;
       mk_te WR 1 (nCL s + nBL s + 2 - nCWL s) false;
       mk_te WRA 1 (nCL s + nBL s + 2 - nCWL s) false;
       mk_te RD 1 (nBL s + nRTRS s) true;
       mk_te RDA 1 (nBL s + nRTRS s) true;
       mk_te WR 1 (nBL s + nRTRS s) true;
       mk_te WRA 1 (nBL s + nRTRS s) true;
       mk_te WR 1 (nCL s + nBL s + nRTRS s - nCWL s) true;
       mk_te WRA 1 (nCL s + nBL s + nRTRS s - nCWL s) true;
       mk_te PREA 1 (nRTP s) false;
       mk_te PDE 1 (nCL s + nBL s + 1) false]
  | WR =>
      [mk_te WR 1 (nCCDS s) false;
       mk_te WRA 1 (nCCDS s) false;
       mk_te RD 1 (nCWL s + nBL s + nWTRS s) false;
       mk_te RDA 1 (nCWL s + nBL s + nWTRS s) false;
       mk_te RD 1 (nCWL s + nBL s + nRTRS s - nCL s) true;
       mk_te RDA 1 (nCWL s + nBL s + nRTRS s - nCL s) true;
       mk_te PREA 1 (nCWL s + nBL s + nWR s) false;
       mk_te PDE 1 (nCWL s + nBL s + nWR s) false]
  | RDA =>
      [mk_te RD 1 (nCCDS s) false;
       mk_te RDA 1 (nCCDS s) false;
       mk_te WR 1 (nCL s + nBL s + 2 - nCWL s) false;
       mk_te WRA 1 (nCL s + nBL s + 2 - nCWL s) false;
       mk_te RD 1 (nBL s + nRTRS s) true;
       mk_te RDA 1 (nBL s + nRTRS s) true;
       mk_te WR 1 (nBL s + nRTRS s) true;
       mk_te WRA 1 (nBL s + nRTRS s) true;
       mk_te WR 1 (nCL s + nBL s + nRTRS s - nCWL s) true;
       mk_te WRA 1 (nCL s + nBL s + nRTRS s - nCWL s) true;
       mk_te PDE 1 (nCL s + nBL s + 1) false;
       mk_te REF 1 (nRTP s + nRP s) false]
  | WRA =>
      [mk_te WR 1 (nCCDS s) false;
       mk_te WRA 1 (nCCDS s) false;
       mk_te RD 1 (nCWL s + nBL s + nWTRS s) false;
       mk_te RDA 1 (nCWL s + nBL s + nWTRS s) false;
       mk_te RD 1 (nCWL s + nBL s + nRTRS s - nCL s) true;
       mk_te RDA 1 (nCWL s + nBL s + nRTRS s - nCL s) true;
       mk_te PDE 1 (nCWL s + nBL s + nWR s + 1) false;
       mk_te REF 1 (nCWL s + nBL s + nWR s + nRP s) false]
  | REF =>
      [mk_te ACT 1 (nRFC s) false;
       mk_te REF 1 (nRFC s) false;
       mk_te PDE 1 (1) false]
  | PDE =>
      [mk_te PDX 1 (nPD s) false]
  | PDX =>
      [mk_te RD 1 (nXP s) false;
       mk_te RDA 1 (nXP s) false;
       mk_te WR 1 (nXP s) false;
       mk_te WRA 1 (nXP s) false;
       mk_te ACT 1 (nXP s) false;
       mk_te PRE 1 (nXP s) false;
       mk_te PREA 1 (nXP s) false;
       mk_te REF 1 (nXP s) false;
       mk_te PDE 1 (nXP s) false;
       mk_te SRE 1 (nXP s) false]
  | SRE =>
      [mk_te SRX 1 (nCKESR s) false]
  | SRX =>
      [mk_te ACT 1 (nXS s) false;
       mk_te REF 1 (nXS s) false;
       mk_te PDE 1 (nXS s) false;
       mk_te SRE 1 (nXS s) false]
  end.
Definition timing_BankGroup (s : SpeedEntry) (c : Command) : list (TimingEntry Command) :=
  match c with
  | ACT =>
      [mk_te ACT 1 (nRRDL s) false]
  | RD =>
      [mk_te RD 1 (nCCDL s) false;
       mk_te RDA 1 (nCCDL s) false]
  | WR =>
      [mk_te WR 1 (nCCDL s) false;
       mk_te WRA 1 (nCCDL s) false;
       mk_te RD 1 (nCWL s + nBL s + nWTRL s) false;
       mk_te RDA 1 (nCWL s + nBL s + nWTRL s) false]
  | RDA =>
      [mk_te RD 1 (nCCDL s) false;
       mk_te RDA 1 (nCCDL s) false]
  | WRA =>
      [mk_te WR 1 (nCCDL s) false;
       mk_te WRA 1 (nCCDL s) false;
       mk_te RD 1 (nCWL s + nBL s + nWTRL s) false;
       mk_te RDA 1 (nCWL s + nBL s + nWTRL s) false]
  | _ => []
  end.
Definition timing_Bank (s : SpeedEntry) (c : Command) : list (TimingEntry Command) :=
  match c with
  | ACT =>
      [mk_te RD 1 (nRCD s) false;
       mk_te RDA 1 (nRCD s) false;
       mk_te WR 1 (nRCD s) false;
       mk_te WRA 1 (nRCD s) false;
       mk_te ACT 1 (nRC s) false;
       mk_te PRE 1 (nRAS s) false]
  | PRE =>
      [mk_te ACT 1 (nRP s) false]
  | RD =>
      [mk_te PRE 1 (nRTP s) false]
  | WR =>
      [mk_te PRE 1 (nCWL s + nBL s + nWR s) false]
  | RDA =>
      [mk_te ACT 1 (nRTP s + nRP s) false]
  | WRA =>
      [mk_te ACT 1 (nCWL s + nBL s + nWR s + nRP s) false]
  | _ => []
  end.

Definition timing (s : SpeedEntry) (lvl : nat) (c : Command) : list (TimingEntry Command) :=
  match lvl with
  | 0%nat => timing_Channel s c
  | 1%nat => timing_Rank s c
  | 2%nat => timing_BankGroup s c
  | 3%nat => timing_Bank s c
  | _ => []
  end.

(** ** The constructor [DDR4::DDR4(org, speed)] *)
Definition spec_of (org : OrgEntry) (s : SpeedEntry) : Spec Command State := {|
  Dram.scope := scope;
  Dram.start := start;
  row_level := Row;
  bank_level := Bank;
  Dram.count := fun l => nth l (count org) 0;
  Dram.timing := timing s;
  Dram.prereq := prereq;
  Dram.rowhit := rowhit;
  Dram.rowopen := rowopen;
  Dram.lambda := lambda;
  Dram.is_opening := is_opening;
  Dram.is_accessing := is_accessing;
  Dram.is_closing := is_closing;
  Dram.is_refreshing := is_refreshing
|}.
Definition new (org : Org) (speed : Speed) : res (OrgEntry * SpeedEntry) :=
  let org := org_table org in
  let! s := init_speed Refresh_1X org (speed_table speed) in
  Ok (org, s).

End DDR4.
