(* ===== verification/Ddr4Run.v ===== *)
(** * What holds of DDR4 memory

    The DDR4 tables satisfy what the proofs about [Dram] rely on; the banks
    keep at most one row open; a request needs at most four commands. *)
From Stdlib Require Import ZArith Lia Bool String.
From stdpp Require Import base list gmap.
From S2P Require Import Prelude Flit RamIf Dram DramTiming DramState Ddr4.
Import DDR4.

Section Ddr4.
Context (org : OrgEntry) (s : SpeedEntry).
#[local] Abbreviation spec := (spec_of org s).
Implicit Types n m : Node.

(** ** The tables *)

(** A property of all entries, checked on the tables. *)
Lemma timing_forall (P : nat -> Command -> TimingEntry Command -> Prop) :
  (forall l c, In l [0; 1; 2; 3]%nat -> Forall (P l c) (timing s l c)) ->
  forall l c t, In t (timing s l c) -> P l c t.
Proof.
  intros Hf l c t Hin. destruct (decide (l <= 3)%nat) as [Hl|Hl].
  - specialize (Hf l c ltac:(simpl; lia)). rewrite Forall_forall in Hf. by apply Hf, list_elem_of_In.
  - destruct l as [|[|[|[|]]]]; try lia. done.
Qed.

Lemma close_bank_same n : same_timing n (close_bank n).
Proof.
  constructor; try done. simpl. induction (children n); constructor; auto using same_timing_refl.
Qed.
Lemma map_same (f : Node -> Node) l : (forall n, same_timing n (f n)) -> Forall2 same_timing l (map f l).
Proof. intros Hf. induction l; simpl; constructor; auto. Qed.

#[global] Instance ddr4_timing_ok : TimingOk spec.
Proof.
  constructor.
  - apply (timing_forall (fun _ _ t => 1 <= te_dist t)). intros l c Hl.
    simpl in Hl. repeat destruct Hl as [<-|Hl]; try done; destruct c; repeat constructor; simpl; lia.
  - apply (timing_forall (fun _ _ t => te_sibling t = true -> te_dist t = 1)). intros l c Hl.
    simpl in Hl. repeat destruct Hl as [<-|Hl]; try done; destruct c; repeat constructor; simpl; done.
  - apply (timing_forall (fun _ c t => te_sibling t = false -> is_refreshing c = true ->
      is_opening (te_cmd t) = true -> te_dist t = 1)). intros l c Hl.
    simpl in Hl. repeat destruct Hl as [<-|Hl]; try done; destruct c; repeat constructor; simpl; done.
  - intros l c f n i Hf. simpl in Hf.
    assert (Hrefl : Forall2 same_timing (children n) (children n)).
    { induction (children n); constructor; auto using same_timing_refl. }
    destruct l as [|[|[|[|]]]]; destruct c; try done; injection Hf as <-;
      try (by constructor); try apply same_timing_refl; try apply close_bank_same.
    constructor; try done. apply map_same. intros bg. constructor; try done. apply map_same, close_bank_same.
Qed.

(** C24: In any run of commands of which each was ready when it was issued,
    a rank of a DDR4 channel is never activated more than four times within
    [nFAW] cycles, two activates of a rank are [nRRDS] apart, and a bank is
    activated again only after [nRC]. *)
Theorem ddr4_activate_windows i tr n r g b t0 t1 k :
  ready_run spec (channel spec i) tr n -> is_Some (node_at (channel spec i) [r; g; b]) ->
  (hist tr 0 i [r] ACT !! k = Some t1 -> hist tr 0 i [r] ACT !! (k + 4)%nat = Some t0 -> t0 + nFAW s <= t1) /\
  (hist tr 0 i [r] ACT !! k = Some t1 -> hist tr 0 i [r] ACT !! (k + 1)%nat = Some t0 -> t0 + nRRDS s <= t1) /\
  (hist tr 0 i [r; g; b] ACT !! k = Some t1 -> hist tr 0 i [r; g; b] ACT !! (k + 1)%nat = Some t0 ->
     t0 + nRC s <= t1).
Proof.
  intros Hr Hp. assert (Hp1 : is_Some (node_at (channel spec i) [r])).
  { destruct Hp as [m Hm]. cbn [node_at] in *. destruct (children (channel spec i) !! r); [eauto|done]. }
  split_and!; intros H1 H0.
  - apply (ready_run_window spec i tr n [r] ACT (mk_te ACT 4 (nFAW s) false) k t0 t1); try done.
    + simpl. unfold Row. lia.
    + simpl. auto.
  - apply (ready_run_window spec i tr n [r] ACT (mk_te ACT 1 (nRRDS s) false) k t0 t1); try done.
    + simpl. unfold Row. lia.
    + simpl. auto.
  - apply (ready_run_window spec i tr n [r; g; b] ACT (mk_te ACT 1 (nRC s) false) k t0 t1); try done.
    + simpl. unfold Row. lia.
    + simpl. tauto.
Qed.

(** ** The states of banks and ranks *)

(** A closed bank has no open row, an opened one exactly one. *)
Definition bank_ok m : Prop :=
  (state m = Closed /\ row_state m = ∅) \/
  (state m = Opened /\ exists r, row_state m = {[ r := Opened ]}).
Definition rank_ok m : Prop :=
  state m = PowerUp \/ state m = ActPowerDown \/ state m = PrePowerDown \/ state m = SelfRefresh.

Record ddr4_ok n : Prop := {
  do_tree : tree_ok n;
  do_level : level n = 0%nat;
  do_rank r m : node_at n [r] = Some m -> rank_ok m;
  do_bank r g b m : node_at n [r; g; b] = Some m -> bank_ok m /\ children m = []
}.

Lemma channel_ddr4_ok i : ddr4_ok (channel spec i).
Proof.
  rewrite channel_build. destruct (build_inv spec (row_level spec) 0 i) as [Ht _].
  constructor; [exact Ht|apply build_leaf|..].
  - intros r m (j & -> & _)%build_at. by left.
  - intros r g b m (j & -> & _)%build_at. split; [by left|done].
Qed.

(** The level whose lambda a command runs. *)
Definition cmd_level (c : Command) : nat :=
  match c with ACT | PRE | RD | WR | RDA | WRA => Bank | _ => Rank end.
Definition act (c : Command) (m : Node) (i : Z) : Node :=
  match c with
  | ACT => open_row m i
  | PRE | RDA | WRA => close_bank m
  | PREA => close_all m
  | PDE => set_state (if banks_closed m then PrePowerDown else ActPowerDown) m
  | PDX | SRX => set_state PowerUp m
  | SRE => set_state SelfRefresh m
  | _ => m
  end.
Lemma lambda_act c : exists f, lambda (cmd_level c) c = Some f /\ forall m i, f m i = act c m i.
Proof. destruct c; eexists; split; reflexivity. Qed.

(** The node a command acts on. *)
Definition acts_at (c : Command) (addr : list Z) (path : list nat) : Prop :=
  length path = cmd_level c /\ forall k j, path !! k = Some j -> nth (S k) addr (-1) = Z.of_nat j.

Lemma act_level c m i : level (act c m i) = level m.
Proof. by destruct c. Qed.

Lemma update_ddr4 c addr clk n path m : ddr4_ok n -> acts_at c addr path -> node_at n path = Some m ->
  0 <= clk -> exists n', update_state spec c addr (set_cur_clk clk n) = Ok n' /\
    n' = alter_at path (fun m => act c m (child_id addr m)) (set_cur_clk clk n).
Proof.
  intros [Ht Hl Hrk Hbk] [Hlen Ha] Hm Hclk. destruct (lambda_act c) as (f & Hf & Hact).
  set (n0 := set_cur_clk clk n). eexists. split; [|reflexivity].
  assert (Ht0 : tree_ok n0).
  { intros q x j d Hq. destruct q as [|k q]; [injection Hq as <-|]; [by apply (Ht [] n)|by apply (Ht (k :: q) x)]. }
  assert (Hm0 : exists m0, node_at n0 path = Some m0 /\ children m0 = children m /\ level m0 = level m).
  { destruct path; [by destruct c|]. by exists m. }
  destruct Hm0 as (m0 & Hm0 & Hc0 & Hl0).
  assert (Elv : level m = cmd_level c).
  { rewrite <- Hlen. clear - Ht Hl Hm. revert Hm. assert (Hg : forall q x, node_at n q = Some x -> level x = length q).
    { induction q as [|j q IH] using rev_ind; intros x Hx; [by injection Hx as <-|].
      rewrite node_at_snoc in Hx. destruct (node_at n q) as [y|] eqn:Ey; [|done].
      destruct (Ht q y j x Ey Hx) as [-> _]. rewrite (IH y eq_refl), length_app. simpl. lia. }
    apply Hg. }
  unfold update_state.
  rewrite (update_state_path spec c addr f path (row_level spec) n0 m0); try done.
  - f_equal. clearbody n0. clear - Hact. revert n0. induction path as [|j q IH]; intros n0; simpl; [by rewrite Hact|].
    f_equal. apply list_eq. intros k. destruct (decide (k = j)) as [->|Hne].
    + rewrite !list_lookup_alter_eq. destruct (children n0 !! j); simpl; [by rewrite IH|done].
    + by rewrite !list_lookup_alter_ne by done.
  - rewrite Hlen. destruct c; simpl; unfold Row, Bank, Rank; lia.
  - simpl. rewrite Hl. intros k Hk. rewrite Hlen in Hk.
    destruct c; simpl in *; unfold Bank, Rank, Row, Column in *; (destruct k as [|[|[|]]]; try lia; split; done || lia).
  - intros k j Hk. simpl. rewrite Hl. by apply Ha.
  - simpl. rewrite Hl, Hlen. exact Hf.
  - rewrite Hact. apply act_level.
  - rewrite Hact, Hl0, Elv.
    assert (Hd : cmd_level c = Bank -> children m0 = []).
    { intros E. rewrite Hc0. rewrite E in Hlen. destruct path as [|r [|g [|b [|]]]]; try done. by apply (Hbk r g b). }
    destruct c; simpl in *; try done; unfold no_children, act; simpl; by rewrite Hd.
Qed.

Lemma update_total c addr clk tr n path m : tree_inv spec tr n -> ddr4_ok n ->
  acts_at c addr path -> node_at n path = Some m -> 0 <= clk ->
  exists n', update spec c addr clk n = Ok n' /\ tree_inv spec (mk_ev c addr clk :: tr) n' /\
    level n' = level n /\ id n' = id n /\
    (forall q, is_Some (node_at n' q) <-> is_Some (node_at n q)) /\
    forall q, both same_state
      (node_at (alter_at path (fun m => act c m (child_id addr m)) (set_cur_clk clk n)) q) (node_at n' q).
Proof.
  intros Hi Hd Ha Hm Hclk. destruct (update_ddr4 c addr clk n path m Hd Ha Hm Hclk) as (n1 & E1 & En1).
  assert (Hs0 : same_timing n (set_cur_clk clk n)).
  { constructor; try done. simpl. induction (children n); constructor; auto using same_timing_refl. }
  pose proof (update_state_same spec _ _ _ _ _ E1) as Hs1.
  pose proof (tree_inv_same spec tr _ _ (same_timing_trans _ _ _ Hs0 Hs1) Hi) as Hi1.
  destruct (tree_inv_timing spec c addr clk tr n1 Hi1 Hclk) as (n2 & E2 & Hi2 & El & Ei).
  exists n2. unfold update. rewrite E1. cbn [bind]. split; [done|]. split; [done|].
  split; [|split; [|split]].
  - rewrite El. by inversion Hs1.
  - rewrite Ei. by inversion Hs1.
  - intros q. pose proof (same_timing_at q _ _ (same_timing_trans _ _ _ Hs0 Hs1)) as Hb1.
    pose proof (update_timing_state spec _ _ _ q _ _ E2) as Hb2.
    destruct (node_at n q), (node_at n1 q), (node_at n2 q); simpl in *; try done;
      split; intros [? ?]; done || eauto.
  - intros q. rewrite <- En1. by apply update_timing_state with (1 := E2).
Qed.

(** States of the nodes after a command. *)
Lemma close_all_bank rk g b m : node_at rk [g; b] = Some m ->
  node_at (close_all rk) [g; b] = Some (close_bank m).
Proof.
  simpl. rewrite list_lookup_fmap. destruct (children rk !! g) as [bg|]; [|done]. simpl.
  rewrite list_lookup_fmap. destruct (children bg !! b) as [bk|]; [|done]. simpl. by intros [= ->].
Qed.

Lemma act_rank_bank c rk i g b m : cmd_level c = Rank -> node_at rk [g; b] = Some m ->
  exists m', node_at (act c rk i) [g; b] = Some m' /\ (m' = m \/ m' = close_bank m).
Proof.
  intros Hc Hm. destruct c; try done; try (exists m; by auto).
  exists (close_bank m). split; [|by right]. by apply close_all_bank.
Qed.

Lemma node_at_app n p q : node_at n (p ++ q) = match node_at n p with Some m => node_at m q | None => None end.
Proof. revert n. induction p as [|j p IH]; intros n; simpl; [done|]. destruct (children n !! j); [apply IH|done]. Qed.

Lemma node_at_cur_clk clk n j q : node_at (set_cur_clk clk n) (j :: q) = node_at n (j :: q).
Proof. done. Qed.

(** An activate needs a closed bank. *)
Definition fits (c : Command) m : Prop := c = ACT -> state m = Closed.

Lemma act_bank_ok c m i : cmd_level c = Bank -> bank_ok m -> fits c m -> bank_ok (act c m i).
Proof.
  intros Hc Hb Hf. destruct c; try done; try (by left).
  right. split; [done|]. specialize (Hf eq_refl). exists i. simpl.
  destruct Hb as [[_ ->]|[E _]]; [done|congruence].
Qed.

Lemma bank_ok_state m m' : same_state m m' -> bank_ok m -> bank_ok m'.
Proof. intros (E1 & E2 & _). unfold bank_ok. by rewrite E1, E2. Qed.
Lemma rank_ok_state m m' : same_state m m' -> rank_ok m -> rank_ok m'.
Proof. intros (E1 & _). unfold rank_ok. by rewrite E1. Qed.

(** The nodes in the tree changed by the lambda. *)
Lemma changed_rank c addr clk n path m r x : ddr4_ok n -> acts_at c addr path -> node_at n path = Some m ->
  node_at (alter_at path (fun m => act c m (child_id addr m)) (set_cur_clk clk n)) [r] = Some x -> rank_ok x.
Proof.
  intros [Ht Hl Hrk Hbk] [Hlen _] Hm Hx.
  destruct (decide (path = [r])) as [->|Hne].
  - rewrite (node_at_alter_eq _ _ _ m) in Hx by done. injection Hx as <-. specialize (Hrk r m Hm).
    destruct c; try done; simpl; unfold rank_ok; simpl; auto. destruct (banks_closed m); auto.
  - pose proof (node_at_alter_other path (fun m => act c m (child_id addr m)) (set_cur_clk clk n) [r]) as Ho.
    assert (Hp : ~ path `prefix_of` [r]).
    { intros [q Hq]. destruct path as [|j [|k path]]; simpl in *; [by destruct c| |done].
      injection Hq as <- _. done. }
    specialize (Ho Hp). rewrite Hx in Ho. rewrite node_at_cur_clk in Ho.
    destruct (node_at n [r]) as [y|] eqn:Ey; [|done]. by apply (rank_ok_state y), (Hrk r y).
Qed.

Lemma changed_bank c addr clk n path m r g b x : ddr4_ok n -> acts_at c addr path -> node_at n path = Some m ->
  fits c m -> node_at (alter_at path (fun m => act c m (child_id addr m)) (set_cur_clk clk n)) [r; g; b] = Some x ->
  bank_ok x.
Proof.
  intros [Ht Hl Hrk Hbk] [Hlen _] Hm Hfit Hx.
  destruct (decide (path `prefix_of` [r; g; b])) as [[q Hq]|Hp].
  - destruct path as [|j [|k [|l [|]]]]; try (by destruct c); simpl in Hq.
    + injection Hq as -> _. assert (Hc : cmd_level c = Rank) by done. simpl in Hx, Hm.
      rewrite list_lookup_alter_eq in Hx. destruct (children n !! j) as [rk|] eqn:Hj; [|done].
      simpl in Hx. injection Hm as <-.
      destruct (node_at rk [g; b]) as [y|] eqn:Ey.
      * destruct (act_rank_bank c rk (child_id addr rk) g b y Hc Ey) as (x' & Ex & Hor).
        change (node_at (act c rk (child_id addr rk)) [g; b] = Some x) in Hx.
        rewrite Ex in Hx. injection Hx as <-. destruct (Hbk j g b y) as [Hb _].
        { simpl. rewrite Hj. exact Ey. }
        destruct Hor as [->| ->]; [done|by left].
      * exfalso. clear - Hx Ey Hc. simpl in Ey. destruct c; try done; simpl in Hx;
          try (by rewrite Hx in Ey).
        rewrite list_lookup_fmap in Hx. destruct (children rk !! g); [|done]. simpl in Hx.
        rewrite list_lookup_fmap in Hx. by destruct (children _ !! b).
    + injection Hq as -> -> -> _. rewrite (node_at_alter_eq [j; k; l] _ _ m) in Hx by done. injection Hx as <-.
      apply act_bank_ok; try done. by apply (Hbk j k l m).
  - pose proof (node_at_alter_other path (fun m => act c m (child_id addr m)) (set_cur_clk clk n) _ Hp) as Ho.
    rewrite Hx, node_at_cur_clk in Ho. destruct (node_at n [r; g; b]) as [y|] eqn:Ey; [|done].
    by apply (bank_ok_state y), (Hbk r g b y).
Qed.

Lemma ddr4_ok_update c addr clk tr n path m n' : tree_inv spec tr n -> ddr4_ok n ->
  acts_at c addr path -> node_at n path = Some m -> 0 <= clk -> fits c m ->
  update spec c addr clk n = Ok n' -> ddr4_ok n'.
Proof.
  intros Hi Hd Ha Hm Hclk Hf E.
  destruct (update_total c addr clk tr n path m Hi Hd Ha Hm Hclk) as (n2 & E2 & [Ht2 _] & El & _ & Hsh & Hq).
  rewrite E in E2. injection E2 as <-. constructor; [done|by rewrite El; apply Hd|..].
  - intros r x Hx. specialize (Hq [r]). rewrite Hx in Hq.
    destruct (node_at (alter_at _ _ _) [r]) as [y|] eqn:Ey; [|done].
    by apply (rank_ok_state y), (changed_rank c addr clk n path m r y).
  - intros r g b x Hx. pose proof (Hq [r; g; b]) as Hb. rewrite Hx in Hb.
    destruct (node_at (alter_at _ _ _) [r; g; b]) as [y|] eqn:Ey; [|done]. split.
    + by apply (bank_ok_state y), (changed_bank c addr clk n path m r g b y).
    + destruct (children x) as [|d l] eqn:Ec; [done|].
      destruct (proj1 (Hsh [r; g; b; 0%nat])) as [z Hz].
      { change [r; g; b; 0%nat] with ([r; g; b] ++ [0%nat]). rewrite node_at_snoc, Hx, Ec. by eexists. }
      change [r; g; b; 0%nat] with ([r; g; b] ++ [0%nat]) in Hz. rewrite node_at_snoc in Hz.
      destruct (node_at n [r; g; b]) as [w|] eqn:Ew; [|done]. destruct (do_bank _ Hd r g b w Ew) as [_ Hw].
      by rewrite Hw in Hz.
Qed.

(** ** Decoding *)

(** The address of a row, its rank and its bank. *)
Record located (addr : list Z) n (r g b : nat) (row : Z) (rk bk : Node) : Prop := {
  lo_rank : nth 1 addr (-1) = Z.of_nat r;
  lo_group : nth 2 addr (-1) = Z.of_nat g;
  lo_bank : nth 3 addr (-1) = Z.of_nat b;
  lo_row : nth 4 addr (-1) = row;
  lo_rk : node_at n [r] = Some rk;
  lo_bk : node_at n [r; g; b] = Some bk
}.

(** What to do for an access, from the states of the rank and the bank. *)
Definition next_cmd (c : Command) (row : Z) (rk bk : Node) : Command :=
  match state rk with
  | ActPowerDown | PrePowerDown => PDX
  | SelfRefresh => SRX
  | _ => match state bk with
         | Opened => match row_state bk !! row with Some _ => c | None => PRE end
         | _ => ACT
         end
  end.

Lemma decode_eq c addr n : decode spec c addr n =
  let! found := match prereq (level n) c with
                | Some f => f n c (child_id addr n)
                | None => Ok None
                end in
  match found with
  | Some d => Ok d
  | None => if (child_id addr n <? 0) || no_children n then Ok c
            else at_child (decode spec c addr) (children n) (Z.to_nat (child_id addr n))
  end.
Proof. by destruct n. Qed.

(** One step down the tree. *)
Lemma walk_down {X} (F : Node -> res X) (e : res X) addr n l j c : level n = l -> children n !! j = Some c ->
  nth (S l) addr (-1) = Z.of_nat j ->
  (if (child_id addr n <? 0) || no_children n then e
   else at_child F (children n) (Z.to_nat (child_id addr n))) = F c.
Proof.
  intros <- Hc Hj. unfold child_id. rewrite Hj, (proj2 (Z.ltb_ge _ _)), Nat2Z.id by lia.
  replace (no_children n) with false by (unfold no_children; by destruct (children n)).
  by apply at_child_lookup.
Qed.

(** The nodes on the way to a bank. *)
Lemma located_path addr n r g b row rk bk : ddr4_ok n -> located addr n r g b row rk bk ->
  exists bg, children n !! r = Some rk /\ children rk !! g = Some bg /\ children bg !! b = Some bk /\
    level rk = 1%nat /\ level bg = 2%nat /\ level bk = 3%nat /\ rank_ok rk /\ bank_ok bk.
Proof.
  intros Hd [H1 H2 H3 H4 Hrk Hbk]. pose proof (do_tree _ Hd) as Ht.
  pose proof (do_rank _ Hd r rk Hrk) as Kr. destruct (do_bank _ Hd r g b bk Hbk) as [Kb _].
  simpl in Hrk, Hbk. destruct (children n !! r) as [c|] eqn:E1; [|done]. injection Hrk as ->.
  destruct (children rk !! g) as [bg|] eqn:E2; [|done]. destruct (children bg !! b) as [c|] eqn:E3; [|done].
  injection Hbk as ->. exists bg. do 3 (split; [done|]).
  destruct (Ht [] n r rk eq_refl E1) as [L1 _]. rewrite (do_level _ Hd) in L1.
  assert (N1 : node_at n [r] = Some rk) by (simpl; by rewrite E1).
  assert (N2 : node_at n [r; g] = Some bg) by (simpl; by rewrite E1, E2).
  destruct (Ht [r] rk g bg N1 E2) as [L2 _]. destruct (Ht [r; g] bg b bk N2 E3) as [L3 _].
  split_and!; congruence || done.
Qed.

Lemma decode_access c addr n r g b row rk bk : c = RD \/ c = WR -> ddr4_ok n ->
  located addr n r g b row rk bk -> decode spec c addr n = Ok (next_cmd c row rk bk).
Proof.
  intros Hc Hd Hl. destruct (located_path _ _ _ _ _ _ _ _ Hd Hl) as (bg & E1 & E2 & E3 & L1 & L2 & L3 & Kr & Kb).
  destruct Hl as [H1 H2 H3 H4 _ _].
  rewrite decode_eq, (do_level _ Hd). replace (prereq 0 c) with (@None (Node -> Command -> Z -> res (option Command)))
    by (by destruct Hc; subst). cbn [bind].
  rewrite (walk_down _ _ addr n 0 r rk (do_level _ Hd) E1 H1), decode_eq, L1.
  replace (prereq 1 c) with (Some rank_RD) by (by destruct Hc; subst).
  unfold rank_RD, next_cmd. destruct Kr as [K | [K | [K | K]]]; rewrite K; cbn [bind]; try done.
  rewrite (walk_down _ _ addr rk 1 g bg L1 E2 H2), decode_eq, L2.
  replace (prereq 2 c) with (@None (Node -> Command -> Z -> res (option Command))) by (by destruct Hc; subst).
  cbn [bind]. rewrite (walk_down _ _ addr bg 2 b bk L2 E3 H3), decode_eq, L3.
  replace (prereq 3 c) with (Some bank_RD) by (by destruct Hc; subst).
  unfold bank_RD, child_id. rewrite L3, H4.
  destruct Kb as [[K1 _]|[K1 _]]; rewrite K1; [done|]. by destruct (row_state bk !! row).
Qed.

(** ** A request needs at most four commands *)

(** Commands still needed before the access itself. *)
Definition need (row : Z) (rk bk : Node) : nat :=
  (match state rk with PowerUp => 0 | _ => 1 end +
   match state bk with
   | Opened => match row_state bk !! row with Some _ => 0 | None => 2 end
   | _ => 1
   end)%nat.

Lemma acts_rank c addr n r g b row rk bk : located addr n r g b row rk bk -> cmd_level c = Rank ->
  acts_at c addr [r].
Proof.
  intros Hl Hc. split; [by rewrite Hc|]. intros [|[|k]] j Hk; simplify_eq/=. apply (lo_rank _ _ _ _ _ _ _ _ Hl).
Qed.
Lemma acts_bank c addr n r g b row rk bk : located addr n r g b row rk bk -> cmd_level c = Bank ->
  acts_at c addr [r; g; b].
Proof.
  intros [H1 H2 H3 _ _ _] Hc. split; [by rewrite Hc|].
  intros [|[|[|[|k]]]] j Hk; simplify_eq/=; done.
Qed.

(** A command on the rank changes the rank's state only. *)
Lemma issue_rank c addr clk tr n r g b row rk bk : tree_inv spec tr n -> ddr4_ok n ->
  located addr n r g b row rk bk -> 0 <= clk -> c = PDX \/ c = SRX ->
  exists n' rk' bk', update spec c addr clk n = Ok n' /\ ddr4_ok n' /\
    tree_inv spec (mk_ev c addr clk :: tr) n' /\ located addr n' r g b row rk' bk' /\
    state rk' = PowerUp /\ same_state bk bk'.
Proof.
  intros Hi Hd Hl Hclk Hc. assert (Hlv : cmd_level c = Rank) by (by destruct Hc; subst).
  pose proof (acts_rank c _ _ _ _ _ _ _ _ Hl Hlv) as Ha. pose proof (lo_rk _ _ _ _ _ _ _ _ Hl) as Hrk.
  destruct (update_total c addr clk tr n [r] rk Hi Hd Ha Hrk Hclk) as (n' & E & Hi' & El & Ei & Hsh & Hq).
  assert (Hd' : ddr4_ok n').
  { apply (ddr4_ok_update c addr clk tr n [r] rk n'); try done. intros ->. by destruct Hc. }
  pose proof (Hq [r]) as Hr. rewrite (node_at_alter_eq _ _ _ rk) in Hr by done.
  destruct (node_at n' [r]) as [rk'|] eqn:Er; [|done].
  pose proof (Hq [r; g; b]) as Hb. pose proof (lo_bk _ _ _ _ _ _ _ _ Hl) as Hbk. simpl in Hb, Hbk, Hrk.
  rewrite list_lookup_alter_eq in Hb. destruct (children n !! r) as [x|] eqn:Ex; [|done]. injection Hrk as ->.
  simpl in Hb. replace (children (act c rk (child_id addr rk))) with (children rk) in Hb
    by (by destruct Hc; subst). rewrite Hbk in Hb.
  change (match children n' !! r with Some c => _ | None => None end) with (node_at n' [r; g; b]) in Hb.
  destruct (node_at n' [r; g; b]) as [bk'|] eqn:Eb; [|done].
  exists n', rk', bk'. do 3 (split; [done|]). split; [by destruct Hl; constructor|].
  split; [|done]. destruct Hr as (-> & _). by destruct Hc; subst.
Qed.

(** A command on the bank changes that bank only. *)
Lemma issue_bank c addr clk tr n r g b row rk bk : tree_inv spec tr n -> ddr4_ok n ->
  located addr n r g b row rk bk -> 0 <= clk -> cmd_level c = Bank -> fits c bk ->
  exists n' rk' bk', update spec c addr clk n = Ok n' /\ ddr4_ok n' /\
    tree_inv spec (mk_ev c addr clk :: tr) n' /\ located addr n' r g b row rk' bk' /\
    same_state rk rk' /\ same_state (act c bk row) bk'.
Proof.
  intros Hi Hd Hl Hclk Hlv Hf. pose proof (acts_bank c _ _ _ _ _ _ _ _ Hl Hlv) as Ha.
  pose proof (lo_bk _ _ _ _ _ _ _ _ Hl) as Hbk.
  destruct (located_path _ _ _ _ _ _ _ _ Hd Hl) as (bg & _ & _ & _ & _ & _ & L3 & _).
  destruct (update_total c addr clk tr n [r; g; b] bk Hi Hd Ha Hbk Hclk) as (n' & E & Hi' & El & Ei & Hsh & Hq).
  assert (Hd' : ddr4_ok n') by (by apply (ddr4_ok_update c addr clk tr n [r; g; b] bk n')).
  pose proof (Hq [r; g; b]) as Hb. rewrite (node_at_alter_eq _ _ _ bk) in Hb by done.
  destruct (node_at n' [r; g; b]) as [bk'|] eqn:Eb; [|done].
  assert (Hr : both same_state (node_at n [r]) (node_at n' [r])).
  { pose proof (node_at_alter_other [r; g; b] (fun m => act c m (child_id addr m)) (set_cur_clk clk n) [r]) as Ho.
    specialize (Ho ltac:(intros [q Hp]; done)). rewrite node_at_cur_clk in Ho. specialize (Hq [r]).
    destruct (node_at n [r]), (node_at (alter_at _ _ _) [r]), (node_at n' [r]); try done.
    by eapply same_state_trans. }
  rewrite (lo_rk _ _ _ _ _ _ _ _ Hl) in Hr. destruct (node_at n' [r]) as [rk'|] eqn:Er; [|done].
  exists n', rk', bk'. do 3 (split; [done|]). split; [by destruct Hl; constructor|]. split; [done|].
  unfold child_id in Hb. rewrite L3, (lo_row _ _ _ _ _ _ _ _ Hl) in Hb. exact Hb.
Qed.

Lemma need_state row rk bk rk' bk' : same_state rk rk' -> same_state bk bk' -> need row rk' bk' = need row rk bk.
Proof. unfold need. by intros (-> & _) (-> & -> & _). Qed.

(** Every command but the last brings the access one step closer. *)
Lemma access_step c addr clk tr n r g b row rk bk : c = RD \/ c = WR -> tree_inv spec tr n -> ddr4_ok n ->
  located addr n r g b row rk bk -> 0 <= clk ->
  (next_cmd c row rk bk = c /\ need row rk bk = 0%nat) \/
  exists n' rk' bk', next_cmd c row rk bk <> c /\ update spec (next_cmd c row rk bk) addr clk n = Ok n' /\
    ddr4_ok n' /\ tree_inv spec (mk_ev (next_cmd c row rk bk) addr clk :: tr) n' /\
    located addr n' r g b row rk' bk' /\ need row rk bk = S (need row rk' bk').
Proof.
  intros Hc Hi Hd Hl Hclk.
  destruct (located_path _ _ _ _ _ _ _ _ Hd Hl) as (bg & _ & _ & _ & _ & _ & _ & Kr & Kb).
  destruct (decide (state rk = PowerUp)) as [Kp|Kp].
  - destruct Kb as [[K1 K2]|[K1 (q & K2)]].
    + assert (En : next_cmd c row rk bk = ACT) by (unfold next_cmd; by rewrite Kp, K1).
      destruct (issue_bank ACT addr clk tr n r g b row rk bk) as (n' & rk' & bk' & E & Hd' & Hi' & Hl' & S1 & S2);
        try done; [by intros _|].
      right. exists n', rk', bk'. rewrite En. split; [by destruct Hc; subst|]. do 4 (split; [done|]).
      rewrite (need_state row rk (act ACT bk row) rk' bk') by done. unfold need. simpl.
      rewrite K1, lookup_insert_eq. lia.
    + destruct (row_state bk !! row) as [x|] eqn:Ex.
      * left. unfold next_cmd, need. by rewrite Kp, K1, Ex.
      * assert (En : next_cmd c row rk bk = PRE) by (unfold next_cmd; by rewrite Kp, K1, Ex).
        destruct (issue_bank PRE addr clk tr n r g b row rk bk) as (n' & rk' & bk' & E & Hd' & Hi' & Hl' & S1 & S2);
          try done. right. exists n', rk', bk'. rewrite En. split; [by destruct Hc; subst|]. do 4 (split; [done|]).
        rewrite (need_state row rk (act PRE bk row) rk' bk') by done. unfold need. simpl.
        rewrite K1, Ex. lia.
  - assert (En : next_cmd c row rk bk = PDX \/ next_cmd c row rk bk = SRX).
    { unfold next_cmd. destruct Kr as [K | [K | [K | K]]]; rewrite K; auto. done. }
    destruct (issue_rank (next_cmd c row rk bk) addr clk tr n r g b row rk bk)
      as (n' & rk' & bk' & E & Hd' & Hi' & Hl' & S1 & (S2 & S3 & _)); try done.
    right. exists n', rk', bk'. split; [by destruct Hc, En; congruence|]. do 4 (split; [done|]).
    unfold need. rewrite S1, S2, S3. destruct (state rk); try done; lia.
Qed.

(** Issue what [decode] asks for until it asks for the command itself. *)
Fixpoint serve (fuel : nat) (c : Command) (addr : list Z) (clk : Z) n : res (list Command * Node) :=
  match fuel with
  | O => Abort "out of fuel"
  | S fuel =>
      let! d := decode spec c addr n in
      if bool_decide (d = c) then Ok ([c], n)
      else let! n := update spec d addr clk n in
           let! (l, n) := serve fuel c addr clk n in Ok (d :: l, n)
  end.

Lemma serve_ok c addr clk fuel : forall tr n r g b row rk bk, c = RD \/ c = WR -> tree_inv spec tr n ->
  ddr4_ok n -> located addr n r g b row rk bk -> 0 <= clk -> (need row rk bk < fuel)%nat ->
  exists l n', serve fuel c addr clk n = Ok (l ++ [c], n') /\ length l = need row rk bk /\ ddr4_ok n'.
Proof.
  induction fuel as [|fuel IH]; intros tr n r g b row rk bk Hc Hi Hd Hl Hclk Hn; [lia|]. cbn [serve].
  rewrite (decode_access _ _ _ _ _ _ _ _ _ Hc Hd Hl). cbn [bind].
  destruct (access_step c addr clk tr n r g b row rk bk) as [[E En]|(n' & rk' & bk' & Hne & E & Hd' & Hi' & Hl' & En)];
    try done.
  - rewrite E, bool_decide_eq_true_2 by done. exists [], n. by rewrite En.
  - rewrite bool_decide_eq_false_2, E by done. cbn [bind].
    destruct (IH _ n' r g b row rk' bk' Hc Hi' Hd' Hl' Hclk ltac:(lia)) as (l & n2 & -> & Hlen & Hd2). cbn [bind].
    exists (next_cmd c row rk bk :: l), n2. split; [done|]. simpl. split; [lia|done].
Qed.

Lemma need_le row rk bk : (need row rk bk <= 3)%nat.
Proof. unfold need. destruct (state rk), (state bk), (row_state bk !! row); lia. Qed.

(** C21: Whatever was issued before, a read or a write needs at most four
    commands: when a channel is driven by what [decode] asks for, at most
    three commands (leaving power-down or self-refresh, a precharge, an
    activate) come before the access itself, none fails, and [decode] never
    asks for anything else. *)
Theorem ddr4_request_in_four i tr n c addr clk r g b row rk bk :
  issued spec (channel spec i) tr n -> ddr4_ok n -> c = RD \/ c = WR -> 0 <= clk ->
  located addr n r g b row rk bk ->
  exists l n', serve 4 c addr clk n = Ok (l ++ [c], n') /\ (length l <= 3)%nat /\ ddr4_ok n'.
Proof.
  intros Hr Hd Hc Hclk Hl. destruct (channel_inv spec _ _ _ Hr) as (Hi & _).
  pose proof (need_le row rk bk).
  destruct (serve_ok c addr clk 4 tr n r g b row rk bk) as (l & n' & E & Hlen & Hd'); try done; [lia|].
  exists l, n'. split; [done|]. split; [lia|done].
Qed.

(** ** Channels driven by decode *)

(** The types of request the controller makes. *)
Definition memory_requests : list ReqType := [READ; WRITE; REFRESH; POWERDOWN; SELFREFRESH].

Inductive served (i : Z) : list (event (C := Command)) -> Node -> Prop :=
| served_nil : served i [] (channel spec i)
| served_cons tr n ty addr c clk path n' : served i tr n -> In ty memory_requests ->
    decode spec (translate ty) addr n = Ok c -> acts_at c addr path -> is_Some (node_at n path) ->
    0 <= clk -> update spec c addr clk n = Ok n' -> served i (mk_ev c addr clk :: tr) n'.

Lemma at_child_inv {X} (F : Node -> res X) l : forall j x, at_child F l j = Ok x ->
  exists c, l !! j = Some c /\ F c = Ok x.
Proof. induction l as [|d l IH]; intros [|j] x E; simpl in *; [done..|eauto|by apply IH]. Qed.

(** Requests for a rank are decoded at the rank. *)
Lemma decode_rank c addr n d f : ddr4_ok n -> prereq 0 c = None -> prereq 1 c = Some f ->
  decode spec c addr n = Ok d -> d = c \/ exists rk x, rank_ok rk /\ f rk c x = Ok (Some d) \/
    exists r rk x, node_at n [r] = Some rk /\ f rk c x = Ok None.
Proof.
  intros Hd H0 H1 E. rewrite decode_eq, (do_level _ Hd), H0 in E. cbn [bind] in E.
  destruct (_ || _); [injection E as <-; by left|]. apply at_child_inv in E as (rk & Hrk & E).
  set (r := Z.to_nat (child_id addr n)) in *.
  assert (N : node_at n [r] = Some rk) by (simpl; by rewrite Hrk).
  destruct (do_tree _ Hd [] n r rk eq_refl Hrk) as [L _]. rewrite (do_level _ Hd) in L.
  rewrite decode_eq, L, H1 in E. apply bind_ok_inv in E as ([e|] & Ef & E).
  - injection E as <-. right. exists rk, (child_id addr rk). left. split; [by apply (do_rank _ Hd r)|done].
  - right. exists rk, 0. right. eauto.
Qed.

Lemma decode_no_act ty addr n : ddr4_ok n -> In ty [REFRESH; POWERDOWN; SELFREFRESH] ->
  decode spec (translate ty) addr n <> Ok ACT.
Proof.
  intros Hd Hty E. simpl in Hty. destruct Hty as [<- | [<- | [<- | []]]];
    (eapply decode_rank in E; [|done|reflexivity|reflexivity]);
    (destruct E as [E|(rk & x & [[Kr E]|(r & rk' & x' & Hk & E)])]; [done|..]).
  - unfold rank_REF in E. by destruct (banks_closed rk).
  - unfold rank_REF in E. by destruct (banks_closed rk').
  - unfold rank_PDE in E. by destruct Kr as [K | [K | [K | K]]]; rewrite K in E.
  - apply (do_rank _ Hd) in Hk. unfold rank_PDE in E. by destruct Hk as [K | [K | [K | K]]]; rewrite K in E.
  - unfold rank_SRE in E. by destruct Kr as [K | [K | [K | K]]]; rewrite K in E.
  - apply (do_rank _ Hd) in Hk. unfold rank_SRE in E. by destruct Hk as [K | [K | [K | K]]]; rewrite K in E.
Qed.

Lemma decode_fits ty addr n c path m : ddr4_ok n -> In ty memory_requests ->
  decode spec (translate ty) addr n = Ok c -> acts_at c addr path -> node_at n path = Some m -> fits c m.
Proof.
  intros Hd Hty E [Hlen Ha] Hm ->. simpl in Hlen. destruct path as [|r [|g [|b [|]]]]; try done.
  assert (Hty' : ty = READ \/ ty = WRITE).
  { simpl in Hty. destruct Hty as [<- | [<- | Hty]]; auto. exfalso.
    by apply (decode_no_act ty addr n Hd Hty). }
  assert (Hrk : exists rk, node_at n [r] = Some rk).
  { simpl in Hm. destruct (children n !! r) as [rk|] eqn:Er; [|done]. exists rk. simpl. by rewrite Er. }
  destruct Hrk as [rk Hrk].
  assert (Hl : located addr n r g b (nth 4 addr (-1)) rk m).
  { constructor; try done; [by apply (Ha 0%nat)|by apply (Ha 1%nat)|by apply (Ha 2%nat)]. }
  rewrite (decode_access (translate ty) _ _ _ _ _ _ _ _) in E by (done || destruct Hty'; subst; auto).
  destruct (do_bank _ Hd r g b m Hm) as [[[K _]|[K _]] _]; [done|].
  injection E as E. unfold next_cmd in E. rewrite K in E.
  destruct (state rk), (row_state m !! nth 4 addr (-1)); destruct Hty'; subst; done.
Qed.

Lemma served_inv i tr n : served i tr n -> tree_inv spec tr n /\ ddr4_ok n.
Proof.
  induction 1 as [|tr n ty addr c clk path n' Hs [IH1 IH2] Hty Hdec Ha [m Hm] Hclk E].
  - split; [rewrite channel_build; apply build_inv | apply channel_ddr4_ok].
  - split.
    + destruct (update_total c addr clk tr n path m IH1 IH2 Ha Hm Hclk) as (n2 & E2 & Hi & _).
      rewrite E in E2. by injection E2 as <-.
    + eapply ddr4_ok_update; try done. by eapply decode_fits.
Qed.

(** C18: In a DDR4 channel driven by what [decode] asks for, requests of all
    types in any order, a bank is opened exactly when one row of it is open,
    never two, and closed exactly when none is; and a rank is powered up,
    powered down or refreshing itself. *)
Theorem ddr4_one_open_row i tr n : served i tr n ->
  (forall r g b m, node_at n [r; g; b] = Some m -> bank_ok m) /\
  (forall r m, node_at n [r] = Some m -> rank_ok m).
Proof.
  intros [_ Hd]%served_inv. split; [|apply Hd]. intros r g b m Hm. by apply (do_bank _ Hd r g b).
Qed.

(** ** Row hits *)
Lemma row_check_eq (tbl : nat -> Command -> option (Node -> Command -> Z -> res bool))
    (F : Node -> res bool) c addr n r g b row rk bk v :
  (forall n, F n = match tbl (level n) c with
                   | Some f => f n c (child_id addr n)
                   | None => if (child_id addr n <? 0) || no_children n then Ok false
                             else at_child F (children n) (Z.to_nat (child_id addr n))
                   end) ->
  (forall l, (l < 3)%nat -> tbl l c = None) -> tbl 3%nat c = Some v -> ddr4_ok n ->
  located addr n r g b row rk bk -> F n = v bk c row.
Proof.
  intros HF H0 H3 Hd Hl. destruct (located_path _ _ _ _ _ _ _ _ Hd Hl) as (bg & E1 & E2 & E3 & L1 & L2 & L3 & _).
  destruct Hl as [A1 A2 A3 A4 _ _].
  rewrite HF, (do_level _ Hd), H0 by lia. rewrite (walk_down F _ addr n 0 r rk (do_level _ Hd) E1 A1).
  rewrite HF, L1, H0 by lia. rewrite (walk_down F _ addr rk 1 g bg L1 E2 A2).
  rewrite HF, L2, H0 by lia. rewrite (walk_down F _ addr bg 2 b bk L2 E3 A3).
  rewrite HF, L3, H3. unfold child_id. by rewrite L3, A4.
Qed.

(** A row hit is what it should be: with the rank powered up,
    [check_row_hit] holds exactly when [decode] asks for the access itself,
    and [check_row_open] without a hit exactly when it asks for a
    precharge. *)
Theorem ddr4_row_hit c addr n r g b row rk bk :
  c = RD \/ c = WR -> ddr4_ok n -> located addr n r g b row rk bk -> state rk = PowerUp ->
  exists hit opn d, check_row_hit spec c addr n = Ok hit /\ check_row_open spec c addr n = Ok opn /\
    decode spec c addr n = Ok d /\ (hit = true <-> d = c) /\ (opn = true /\ hit = false <-> d = PRE) /\
    (opn = false <-> d = ACT).
Proof.
  intros Hc Hd Hl Kp.
  rewrite (row_check_eq rowhit (check_row_hit spec c addr) c addr n r g b row rk bk bank_hit);
    [|by intros []|by intros [|[|[|]]]; destruct Hc; subst; try lia|by destruct Hc; subst|done..].
  rewrite (row_check_eq rowopen (check_row_open spec c addr) c addr n r g b row rk bk bank_open);
    [|by intros []|by intros [|[|[|]]]; destruct Hc; subst; try lia|by destruct Hc; subst|done..].
  rewrite (decode_access _ _ _ _ _ _ _ _ _ Hc Hd Hl). unfold next_cmd. rewrite Kp.
  destruct (do_bank _ Hd r g b bk (lo_bk _ _ _ _ _ _ _ _ Hl)) as [[[K _]|[K _]] _];
    unfold bank_hit, bank_open; rewrite K; [|destruct (row_state bk !! row)];
    do 3 eexists; do 3 (split; [reflexivity|]); destruct Hc; subst; intuition congruence.
Qed.
End Ddr4.

Module Ddr4Witness.
(** Two ranks of 8Gb x8 devices at 3200 MT/s. *)
Definition made : OrgEntry * SpeedEntry :=
  match DDR4.new DDR4_8Gb_x8 DDR4_3200 with Ok p => p | Abort _ => (org_table DDR4_8Gb_x8, speed_table DDR4_3200) end.
Definition org0 : OrgEntry := set_rank_number 2 (fst made).
Definition s0 : SpeedEntry := snd made.
Definition spec0 : Spec Command State := spec_of org0 s0.
Definition ch0 : Node := channel spec0 0.
Example derived : nFAW s0 = 34 /\ nRRDS s0 = 4 /\ nRRDL s0 = 8 /\ nRFC s0 = 560 /\ nREFI s0 = 12480.
Proof. vm_compute. done. Qed.

Definition upd (e : event) (n : Node) : Node :=
  match update spec0 (ev_cmd e) (ev_addr e) (ev_clk e) n with Ok n' => n' | Abort _ => n end.
Fixpoint node_after (tr : list event) : Node :=
  match tr with [] => ch0 | e :: tr => upd e (node_after tr) end.

Lemma upd_ok e n : is_ok (update spec0 (ev_cmd e) (ev_addr e) (ev_clk e) n) = true ->
  update spec0 (ev_cmd e) (ev_addr e) (ev_clk e) n = Ok (upd e n).
Proof. unfold upd. by destruct (update _ _ _ _ _). Qed.

(** An event that is ready after the others. *)
Definition ready_b (tr : list event) (e : event) : bool :=
  (0 <=? ev_clk e) &&
  forallb (fun l => nth l (ev_addr e) (-1) <? Dram.count spec0 l) [1; 2; 3]%nat &&
  match check spec0 (ev_cmd e) (ev_addr e) (ev_clk e) (node_after tr) with Ok b => b | Abort _ => false end &&
  is_ok (update spec0 (ev_cmd e) (ev_addr e) (ev_clk e) (node_after tr)).

Lemma range_b tr e : issued spec0 ch0 tr (node_after tr) -> ready_b tr e = true ->
  in_range (ev_addr e) (node_after tr).
Proof.
  intros Hi Hb. unfold ready_b in Hb. rewrite !andb_true_iff, forallb_forall in Hb.
  destruct Hb as [[[_ Hb] _] _]. apply (channel_in_range spec0 0 tr); [done|]. intros l Hl.
  apply Z.ltb_lt, Hb. change (0 < l < 4)%nat in Hl. simpl. lia.
Qed.

Lemma ready_extend tr e : ready_run spec0 ch0 tr (node_after tr) -> ready_b tr e = true ->
  ready_run spec0 ch0 (e :: tr) (node_after (e :: tr)).
Proof.
  intros Hr Hb. pose proof (range_b tr e (ready_issued spec0 _ _ _ Hr) Hb) as Hg. destruct e as [c a k].
  unfold ready_b in Hb. rewrite !andb_true_iff in Hb. destruct Hb as [[[H1 _] H2] H3].
  apply (ready_cons spec0 ch0 tr (node_after tr)); simpl in *; [done|by apply Z.leb_le|done| |by apply (upd_ok (mk_ev c a k))].
  destruct (check spec0 c a k (node_after tr)) as [[|]|]; done.
Qed.

(** Five activates of a rank, then a read. *)
Definition act_ev (g b clk : Z) : event := mk_ev ACT [0; 1; g; b; 7; 0] clk.
Definition tr0 : list event :=
  [act_ev 0 1 34; act_ev 3 0 12; act_ev 2 0 8; act_ev 1 0 4; act_ev 0 0 0].
Lemma run0 : ready_run spec0 ch0 tr0 (node_after tr0).
Proof. do 5 (apply ready_extend; [|vm_compute; reflexivity]). apply ready_nil. Defined.

Lemma run0_issued : issued spec0 ch0 tr0 (node_after tr0).
Proof. apply ready_issued, run0. Defined.

Definition rd_addr : list Z := [0; 1; 2; 0; 7; 3].
Lemma rd_in_range : in_range rd_addr (node_after tr0).
Proof.
  apply (channel_in_range spec0 0 tr0); [exact run0_issued|]. intros l Hl.
  change (0 < l < 4)%nat in Hl. destruct l as [|[|[|[|]]]]; try lia; vm_compute; reflexivity.
Defined.

(** A read of the third bank is allowed from 8 + 22 on. *)
Lemma dram_check_exact_witness :
  (exists b, check spec0 RD rd_addr 30 (node_after tr0) = Ok b /\
    (b = true <-> forall path, visited spec0 RD rd_addr (node_after tr0) path ->
       may_issue spec0 tr0 0 0 path RD 30)) /\
  check spec0 RD rd_addr 30 (node_after tr0) = Ok true /\
  check spec0 RD rd_addr 29 (node_after tr0) = Ok false.
Proof.
  split; [|vm_compute; done].
  apply (dram_check_exact spec0 0 tr0); [exact run0_issued | exact rd_in_range | lia].
Defined.

Lemma dram_next_is_first_witness : exists x, get_next spec0 RD rd_addr (node_after tr0) = Ok x /\
  cur_clk (node_after tr0) <= x /\
  forall clk, 0 <= clk -> cur_clk (node_after tr0) <= clk ->
    check spec0 RD rd_addr clk (node_after tr0) = Ok (x <=? clk).
Proof. apply (dram_next_is_first spec0 0 tr0); [exact run0_issued | exact rd_in_range]. Defined.

Lemma ddr4_activate_windows_witness : 0 + nFAW s0 <= 34.
Proof.
  apply (ddr4_activate_windows org0 s0 0 tr0 (node_after tr0) 1 0 0 0 34 0).
  - exact run0.
  - vm_compute. eauto.
  - reflexivity.
  - reflexivity.
Defined.

(** The same run, as reads decoded to activates. *)
Definition asked (ty : ReqType) (tr : list event) (e : event) : bool :=
  match decode spec0 (translate ty) (ev_addr e) (node_after tr) with
  | Ok c => bool_decide (c = ev_cmd e)
  | Abort _ => false
  end && (0 <=? ev_clk e) && is_ok (update spec0 (ev_cmd e) (ev_addr e) (ev_clk e) (node_after tr)).
Lemma served_extend ty tr e path : served org0 s0 0 tr (node_after tr) -> In ty memory_requests ->
  acts_at (ev_cmd e) (ev_addr e) path -> is_Some (node_at (node_after tr) path) -> asked ty tr e = true ->
  served org0 s0 0 (e :: tr) (node_after (e :: tr)).
Proof.
  intros Hs Hty Ha Hp Hb. destruct e as [c a k]. unfold asked in Hb. simpl in *.
  rewrite !andb_true_iff in Hb. destruct Hb as [[H1 H2] H3].
  destruct (decode spec0 (translate ty) a (node_after tr)) as [d|] eqn:E; [|done].
  apply bool_decide_eq_true in H1 as ->.
  apply (served_cons org0 s0 0 tr (node_after tr) ty a c k path); try done; [by apply Z.leb_le|].
  by apply (upd_ok (mk_ev c a k)).
Qed.
Lemma run0_served : served org0 s0 0 tr0 (node_after tr0).
Proof.
  assert (Ha : forall g b clk, acts_at ACT (ev_addr (act_ev (Z.of_nat g) (Z.of_nat b) clk)) [1%nat; g; b]).
  { intros g b clk. split; [done|]. intros [|[|[|k]]] j Hk; simplify_eq/=; done. }
  apply (served_extend READ _ (act_ev 0 1 34) [1; 0; 1]%nat);
    [|by left|apply (Ha 0 1)%nat|vm_compute; eauto|vm_compute; reflexivity].
  apply (served_extend READ _ (act_ev 3 0 12) [1; 3; 0]%nat);
    [|by left|apply (Ha 3 0)%nat|vm_compute; eauto|vm_compute; reflexivity].
  apply (served_extend READ _ (act_ev 2 0 8) [1; 2; 0]%nat);
    [|by left|apply (Ha 2 0)%nat|vm_compute; eauto|vm_compute; reflexivity].
  apply (served_extend READ _ (act_ev 1 0 4) [1; 1; 0]%nat);
    [|by left|apply (Ha 1 0)%nat|vm_compute; eauto|vm_compute; reflexivity].
  apply (served_extend READ _ (act_ev 0 0 0) [1; 0; 0]%nat);
    [|by left|apply (Ha 0 0)%nat|vm_compute; eauto|vm_compute; reflexivity].
  apply served_nil.
Defined.
Lemma run0_ok : ddr4_ok (node_after tr0).
Proof. apply (served_inv org0 s0 0 tr0), run0_served. Defined.

Lemma ddr4_one_open_row_witness :
  ((forall r g b m, node_at (node_after tr0) [r; g; b] = Some m -> bank_ok m) /\
   (forall r m, node_at (node_after tr0) [r] = Some m -> rank_ok m)) /\
  fmap state (node_at (node_after tr0) [1; 2; 0]%nat) = Some Opened.
Proof.
  split; [|vm_compute; reflexivity]. apply (ddr4_one_open_row org0 s0 0 tr0). exact run0_served.
Defined.

Definition here (path : list nat) : Node := default ch0 (node_at (node_after tr0) path).
Lemma here_some path : match node_at (node_after tr0) path with Some _ => true | None => false end = true ->
  node_at (node_after tr0) path = Some (here path).
Proof. unfold here. by destruct (node_at _ path). Qed.
Lemma located0 (row : Z) : located [0; 1; 2; 0; row; 3] (node_after tr0) 1 2 0 row (here [1]%nat) (here [1; 2; 0]%nat).
Proof.
  constructor; [reflexivity..| |]; apply here_some; vm_compute; reflexivity.
Defined.

(** Another row of an open bank: precharge, activate, read. *)
Lemma ddr4_request_in_four_witness :
  (exists l n', serve org0 s0 4 RD [0; 1; 2; 0; 9; 3] 100 (node_after tr0) = Ok (l ++ [RD], n') /\
     (length l <= 3)%nat /\ ddr4_ok n') /\
  match serve org0 s0 4 RD [0; 1; 2; 0; 9; 3] 100 (node_after tr0) with
  | Ok (l, _) => l = [PRE; ACT; RD]
  | Abort _ => False
  end.
Proof.
  split; [|vm_compute; reflexivity].
  apply (ddr4_request_in_four org0 s0 0 tr0 (node_after tr0) RD [0; 1; 2; 0; 9; 3] 100 1 2 0 9
           (here [1]%nat) (here [1; 2; 0]%nat)).
  - exact run0_issued.
  - exact run0_ok.
  - by left.
  - lia.
  - exact (located0 9).
Defined.

Lemma ddr4_row_hit_witness : exists hit opn d,
  check_row_hit spec0 RD [0; 1; 2; 0; 7; 3] (node_after tr0) = Ok hit /\
  check_row_open spec0 RD [0; 1; 2; 0; 7; 3] (node_after tr0) = Ok opn /\
  decode spec0 RD [0; 1; 2; 0; 7; 3] (node_after tr0) = Ok d /\ (hit = true <-> d = RD) /\
  (opn = true /\ hit = false <-> d = PRE) /\ (opn = false <-> d = ACT).
Proof.
  apply (ddr4_row_hit org0 s0 RD [0; 1; 2; 0; 7; 3] (node_after tr0) 1 2 0 7 (here [1]%nat) (here [1; 2; 0]%nat)).
  - by left.
  - exact run0_ok.
  - exact (located0 7).
  - vm_compute. reflexivity.
Defined.
End Ddr4Witness.
