(* ===== verification/AddrMap.v ===== *)
(** * The address mapping of the memory

    [ramulator/src/Memory.h]: the bits of an address that select the channel,
    the rank, ..., the column of a transaction.  [Memory::send] slices them
    off one component at a time, in one of two orders. *)
From Stdlib Require Import ZArith Lia Bool String.
From stdpp Require Import base list gmap.
From S2P Require Import Prelude Ddr4.

(** [Memory::calc_log2]: the loop, for an [int] *)
Fixpoint log2_loop (fuel : nat) (val n : Z) : Z :=
  match fuel with
  | O => n
  | S fuel => let val := Z.shiftr val 1 in if val =? 0 then n else log2_loop fuel val (n + 1)
  end.
Definition calc_log2 (val : Z) : Z := log2_loop 32 val 0.

(** [Memory::slice_lower_bits] *)
Definition slice_lower_bits (addr bits : Z) : Z * Z :=
  (Z.land addr (Z.shiftl 1 bits - 1), Z.shiftr addr bits).
(** [Memory::clear_lower_bits] *)
Definition clear_lower_bits (addr bits : Z) : Z := Z.shiftr addr bits.
(** [Memory::get_bit_at] *)
Definition get_bit_at (addr bit : Z) : bool := Z.land (Z.shiftr addr bit) 1 =? 1.

(** [Memory::Type] *)
Inductive MapType : Type := ChRaBaRoCo | RoBaRaCoCh.

(** The components in the order in which they are sliced off, for [n] levels
    of which [row] is the level of rows. *)
Definition slice_order (t : MapType) (n row : nat) : list nat :=
  match t with
  | ChRaBaRoCo => rev (seq 0 n)
  | RoBaRaCoCh => 0%nat :: (n - 1)%nat :: seq 1 row
  end.
Fixpoint slices (addr_bits : list Z) (order : list nat) (addr : Z) (vec : list Z) : list Z * Z :=
  match order with
  | [] => (vec, addr)
  | i :: order =>
      let '(v, addr) := slice_lower_bits addr (nth i addr_bits 0) in
      slices addr_bits order addr (<[i := v]> vec)
  end.
(** The address vector [Memory::send] computes. *)
Definition addr_vec_of (t : MapType) (addr_bits : list Z) (row : nat) (tx_bits addr : Z) : list Z :=
  let addr := clear_lower_bits addr tx_bits in
  fst (slices addr_bits (slice_order t (length addr_bits) row) addr (replicate (length addr_bits) 0)).

(** The part of the constructor [Memory::Memory] that sets up the mapping:
    the number of bits of each level and of a transaction. *)
Definition power_of_2 (z : Z) : bool := Z.land z (z - 1) =? 0.
Definition mapping_bits (sz : list Z) (prefetch_size channel_width : Z) : res (list Z * Z) :=
  assert! power_of_2 (nth 0 sz 0), "channels" in
  assert! power_of_2 (nth 1 sz 0), "ranks" in
  let tx := Z.quot (prefetch_size * channel_width) 8 in
  let tx_bits := calc_log2 tx in
  assert! (Z.shiftl 1 tx_bits =? tx), "size of a transaction" in
  let bits := map calc_log2 sz in
  let last := (length sz - 1)%nat in
  Ok (<[last := nth last bits 0 - calc_log2 prefetch_size]> bits, tx_bits).

(** [max_address]: the capacity in bytes. *)
Definition max_address (sz : list Z) (channel_width : Z) : Z :=
  fold_left Z.mul sz (Z.quot channel_width 8).

(** ** The logarithm *)
Lemma log2_loop_ok fuel : forall val n, 0 < val < 2 ^ Z.of_nat fuel -> log2_loop fuel val n = n + Z.log2 val.
Proof.
  induction fuel as [|fuel IH]; intros val n Hv; [simpl in Hv; lia|]. cbn [log2_loop].
  assert (Hs : Z.shiftr val 1 = val / 2) by (by rewrite Z.shiftr_div_pow2 by lia). rewrite Hs.
  pose proof (Z.div_mod val 2 ltac:(lia)). pose proof (Z.mod_pos_bound val 2 ltac:(lia)).
  destruct (Z.eqb_spec (val / 2) 0) as [E|E].
  - replace val with 1 by lia. rewrite Z.log2_1. lia.
  - rewrite IH.
    + replace (Z.log2 val) with (Z.succ (Z.log2 (val / 2))); [lia|].
      rewrite <- Hs, Z.log2_shiftr by lia. pose proof (Z.log2_le_mono 2 val ltac:(lia)).
      change (Z.log2 2) with 1 in *. lia.
    + split; [lia|]. apply Z.div_lt_upper_bound; [lia|].
      replace (Z.of_nat (S fuel)) with (1 + Z.of_nat fuel) in Hv by lia. rewrite Z.pow_add_r in Hv by lia. lia.
Qed.

(** [calc_log2] of a positive [int] is its binary logarithm. *)
Lemma calc_log2_ok val : 0 < val < 2 ^ 32 -> calc_log2 val = Z.log2 val.
Proof. intros Hv. unfold calc_log2. by rewrite log2_loop_ok. Qed.

(** ** Slicing *)
Lemma slice_ok addr bits : 0 <= bits ->
  slice_lower_bits addr bits = (addr mod 2 ^ bits, addr / 2 ^ bits).
Proof.
  intros Hb. unfold slice_lower_bits. rewrite Z.shiftl_1_l, Z.shiftr_div_pow2 by done.
  replace (2 ^ bits - 1) with (Z.ones bits) by (by rewrite Z.ones_equiv, Z.sub_1_r).
  by rewrite Z.land_ones.
Qed.

(** The address put together again, lowest component first. *)
Fixpoint unslice (addr_bits : list Z) (order : list nat) (vec : list Z) (rest : Z) : Z :=
  match order with
  | [] => rest
  | i :: order => nth i vec 0 + 2 ^ nth i addr_bits 0 * unslice addr_bits order vec rest
  end.

Lemma slices_keep addr_bits order : forall addr vec i, ~ In i order ->
  nth i (fst (slices addr_bits order addr vec)) 0 = nth i vec 0.
Proof.
  induction order as [|j order IH]; intros addr vec i Hi; simpl; [done|].
  rewrite IH by (intros ?; apply Hi; by right).
  rewrite !nth_lookup, list_lookup_insert_ne; [done|]. intros ->. apply Hi. by left.
Qed.

Lemma slices_length addr_bits order : forall addr vec,
  length (fst (slices addr_bits order addr vec)) = length vec.
Proof.
  induction order as [|j order IH]; intros addr vec; simpl; [done|]. by rewrite IH, length_insert.
Qed.

Lemma unslice_ext addr_bits order v1 v2 r : (forall i, In i order -> nth i v1 0 = nth i v2 0) ->
  unslice addr_bits order v1 r = unslice addr_bits order v2 r.
Proof.
  induction order as [|i order IH]; intros He; simpl; [done|]. rewrite He by (by left).
  rewrite IH; [done|]. intros j Hj. apply He. by right.
Qed.

Lemma nth_insert_eq (vec : list Z) i v : (i < length vec)%nat -> nth i (<[i := v]> vec) 0 = v.
Proof. intros Hi. by rewrite nth_lookup, list_lookup_insert_eq. Qed.

(** Slicing loses nothing. *)
Lemma unslice_slices addr_bits order : Forall (fun b => 0 <= b) addr_bits -> NoDup order ->
  forall addr vec, Forall (fun i => (i < length vec)%nat) order ->
  unslice addr_bits order (fst (slices addr_bits order addr vec)) (snd (slices addr_bits order addr vec)) = addr.
Proof.
  intros Hb. induction 1 as [|i order Hi Hnd IH]; intros addr vec Hl; [done|].
  apply Forall_cons in Hl as [Hil Hl].
  assert (Hbi : 0 <= nth i addr_bits 0).
  { destruct (nth_in_or_default i addr_bits 0) as [Hin| ->]; [|done].
    rewrite Forall_forall in Hb. by apply Hb, list_elem_of_In. }
  cbn [slices unslice]. rewrite slice_ok by done.
  set (vec' := <[i := addr mod 2 ^ nth i addr_bits 0]> vec).
  rewrite slices_keep by (by rewrite <- list_elem_of_In).
  replace (nth i vec' 0) with (addr mod 2 ^ nth i addr_bits 0) by (unfold vec'; by rewrite nth_insert_eq).
  rewrite IH by (unfold vec'; by rewrite length_insert).
  pose proof (Z.div_mod addr (2 ^ nth i addr_bits 0) ltac:(lia)). lia.
Qed.

Definition total_bits (addr_bits : list Z) (order : list nat) : Z :=
  fold_right (fun i n => nth i addr_bits 0 + n) 0 order.

Section Slices.
Context (addr_bits : list Z).
Hypothesis bits_nonneg : Forall (fun b => 0 <= b) addr_bits.

Lemma bit_nonneg i : 0 <= nth i addr_bits 0.
Proof.
  destruct (nth_in_or_default i addr_bits 0) as [Hin| ->]; [|done].
  rewrite Forall_forall in bits_nonneg. by apply bits_nonneg, list_elem_of_In.
Qed.
Lemma total_nonneg order : 0 <= total_bits addr_bits order.
Proof. induction order as [|i order IH]; simpl; [lia|]. pose proof (bit_nonneg i). lia. Qed.

(** Equal remainders split. *)
Lemma mod_split a b x y : 0 < x -> 0 < y ->
  a mod (x * y) = b mod (x * y) <-> a mod x = b mod x /\ (a / x) mod y = (b / x) mod y.
Proof.
  intros Hx Hy. rewrite !Z.rem_mul_r by lia.
  pose proof (Z.mod_pos_bound a x Hx). pose proof (Z.mod_pos_bound b x Hx). split; [|by intros [-> ->]].
  intros E. destruct (Z.div_mod_unique x ((a / x) mod y) ((b / x) mod y) (a mod x) (b mod x)) as [-> ->]; lia.
Qed.

(** The components are determined by the low bits of the address. *)
Lemma slices_mod order : forall a b vec, a mod 2 ^ total_bits addr_bits order = b mod 2 ^ total_bits addr_bits order ->
  fst (slices addr_bits order a vec) = fst (slices addr_bits order b vec).
Proof.
  induction order as [|i order IH]; intros a b vec E; [done|]. cbn [slices total_bits fold_right] in *.
  pose proof (bit_nonneg i). pose proof (total_nonneg order). rewrite !slice_ok by done.
  fold (total_bits addr_bits order) in E. rewrite Z.pow_add_r in E by lia.
  apply mod_split in E as [-> E]; [by apply IH|lia|lia].
Qed.

(** And they determine them. *)
Lemma unslice_rest order vec r : unslice addr_bits order vec r =
  unslice addr_bits order vec 0 + 2 ^ total_bits addr_bits order * r.
Proof.
  induction order as [|i order IH]; [simpl; lia|]. cbn [unslice total_bits fold_right].
  fold (total_bits addr_bits order). rewrite IH. pose proof (bit_nonneg i). pose proof (total_nonneg order).
  rewrite Z.pow_add_r by lia. ring.
Qed.
Lemma slices_rest order : forall a vec,
  snd (slices addr_bits order a vec) = a / 2 ^ total_bits addr_bits order.
Proof.
  induction order as [|i order IH]; intros a vec; [simpl; by rewrite Z.div_1_r|].
  cbn [slices total_bits fold_right]. fold (total_bits addr_bits order).
  pose proof (bit_nonneg i). pose proof (total_nonneg order). rewrite slice_ok, IH by done.
  rewrite Z.pow_add_r by lia. by rewrite Z.div_div by lia.
Qed.
Lemma unslice_mod order a vec : NoDup order -> Forall (fun i => (i < length vec)%nat) order ->
  unslice addr_bits order (fst (slices addr_bits order a vec)) 0 = a mod 2 ^ total_bits addr_bits order.
Proof.
  intros Hnd Hl. pose proof (unslice_slices addr_bits order bits_nonneg Hnd a vec Hl) as E.
  rewrite unslice_rest, slices_rest in E.
  pose proof (Z.div_mod a (2 ^ total_bits addr_bits order) ltac:(pose proof (total_nonneg order); lia)). lia.
Qed.

(** A component is within its bits. *)
Lemma slices_range order : forall a vec i, NoDup order -> In i order -> (i < length vec)%nat ->
  0 <= nth i (fst (slices addr_bits order a vec)) 0 < 2 ^ nth i addr_bits 0.
Proof.
  induction order as [|j order IH]; intros a vec i Hnd Hin Hl; [done|]. apply NoDup_cons in Hnd as [Hj Hnd].
  pose proof (bit_nonneg j). cbn [slices]. rewrite slice_ok by done. destruct (decide (i = j)) as [->|Hne].
  - rewrite slices_keep by (by rewrite <- list_elem_of_In).
    rewrite nth_insert_eq by done. apply Z.mod_pos_bound. lia.
  - destruct Hin as [->|Hin]; [done|]. apply IH; try done. by rewrite length_insert.
Qed.
End Slices.

(** Both orders slice every level once. *)
Lemma slice_order_perm t n row : (t = RoBaRaCoCh -> n = (row + 2)%nat) -> slice_order t n row ≡ₚ seq 0 n.
Proof.
  intros Hn. destruct t; cbn [slice_order].
  - symmetry. apply Permutation_rev.
  - rewrite (Hn eq_refl). replace (row + 2 - 1)%nat with (1 + row)%nat by lia.
    replace (row + 2)%nat with (S (row + 1)) by lia. cbn [seq]. rewrite seq_app. constructor.
    cbn [seq]. by rewrite Permutation_cons_append.
Qed.

Lemma total_bits_perm addr_bits o1 o2 : o1 ≡ₚ o2 -> total_bits addr_bits o1 = total_bits addr_bits o2.
Proof. induction 1; simpl; lia. Qed.
Lemma total_bits_seq addr_bits : total_bits addr_bits (seq 0 (length addr_bits)) = foldr Z.add 0 addr_bits.
Proof.
  induction addr_bits as [|b l IH]; [done|]. cbn [length seq total_bits fold_right nth foldr].
  rewrite <- IH, <- seq_shift. f_equal. unfold total_bits. generalize (seq 0 (length l)). intros o.
  induction o as [|i o IHo]; [done|]. cbn [map fold_right]. by rewrite IHo.
Qed.

(** ** The slices of an address put together from components *)
Lemma slices_unslice addr_bits order v : Forall (fun b => 0 <= b) addr_bits -> NoDup order ->
  (forall i, In i order -> 0 <= nth i v 0 < 2 ^ nth i addr_bits 0) ->
  forall w i, In i order -> (i < length w)%nat ->
  nth i (fst (slices addr_bits order (unslice addr_bits order v 0) w)) 0 = nth i v 0.
Proof.
  intros Hb. induction 1 as [|j order Hj Hnd IH]; intros Hv w i Hi Hl; [done|]. cbn [slices unslice].
  pose proof (bit_nonneg _ Hb j). rewrite slice_ok by done. set (u := unslice _ _ _ _).
  pose proof (Hv j ltac:(by left)) as Hvj.
  replace ((nth j v 0 + 2 ^ nth j addr_bits 0 * u) mod 2 ^ nth j addr_bits 0) with (nth j v 0)
    by (rewrite Z.mul_comm, Z_mod_plus_full, Z.mod_small; lia).
  replace ((nth j v 0 + 2 ^ nth j addr_bits 0 * u) / 2 ^ nth j addr_bits 0) with u
    by (rewrite Z.mul_comm, Z.div_add, Z.div_small; lia).
  destruct (decide (i = j)) as [->|Hne].
  - rewrite slices_keep by (by rewrite <- list_elem_of_In). by apply nth_insert_eq.
  - destruct Hi as [->|Hi]; [done|]. apply IH; [|done|by rewrite length_insert].
    intros k Hk. apply Hv. by right.
Qed.

(** ** The mapping of a memory *)
Section Mapping.
Context (t : MapType) (addr_bits : list Z) (row : nat) (tx_bits : Z).
Hypothesis bits_nonneg : Forall (fun b => 0 <= b) addr_bits.
Hypothesis tx_nonneg : 0 <= tx_bits.
Hypothesis row_last : t = RoBaRaCoCh -> length addr_bits = (row + 2)%nat.
Let order := slice_order t (length addr_bits) row.
Let all_bits := foldr Z.add 0 addr_bits.

Lemma order_perm : order ≡ₚ seq 0 (length addr_bits).
Proof. by apply slice_order_perm. Qed.
Lemma order_nodup : NoDup order.
Proof. rewrite order_perm. apply NoDup_ListNoDup, seq_NoDup. Qed.
Lemma order_in i : In i order <-> (i < length addr_bits)%nat.
Proof.
  rewrite <- list_elem_of_In, order_perm, list_elem_of_In, in_seq. lia.
Qed.
Lemma order_total : total_bits addr_bits order = all_bits.
Proof. rewrite (total_bits_perm _ _ _ order_perm). apply total_bits_seq. Qed.
Lemma all_bits_nonneg : 0 <= all_bits.
Proof. rewrite <- order_total. by apply total_nonneg. Qed.
Lemma order_bounded : Forall (fun i => (i < length (replicate (length addr_bits) 0%Z))%nat) order.
Proof. apply Forall_forall. intros i Hi. rewrite length_replicate. by apply order_in, list_elem_of_In. Qed.

Lemma vec_length a : length (addr_vec_of t addr_bits row tx_bits a) = length addr_bits.
Proof. unfold addr_vec_of. by rewrite slices_length, length_replicate. Qed.

Lemma vec_range a i : (i < length addr_bits)%nat ->
  0 <= nth i (addr_vec_of t addr_bits row tx_bits a) 0 < 2 ^ nth i addr_bits 0.
Proof.
  intros Hi. apply slices_range; [done|apply order_nodup|by apply order_in|by rewrite length_replicate].
Qed.

(** Two addresses have the same vector when they agree on the bits between
    the offset within the transaction and the capacity. *)
Lemma vec_same a b : addr_vec_of t addr_bits row tx_bits a = addr_vec_of t addr_bits row tx_bits b <->
  (a / 2 ^ tx_bits) mod 2 ^ all_bits = (b / 2 ^ tx_bits) mod 2 ^ all_bits.
Proof.
  unfold addr_vec_of, clear_lower_bits. rewrite !Z.shiftr_div_pow2 by done. fold order.
  rewrite <- order_total. split; [|by apply slices_mod].
  intros E. pose proof (fun x => unslice_mod _ bits_nonneg order x _ order_nodup order_bounded) as U.
  by rewrite <- (U (a / 2 ^ tx_bits)), E, U.
Qed.

(** Every vector of components in range is the vector of an address below
    the capacity. *)
Lemma vec_onto v : length v = length addr_bits ->
  (forall i, (i < length addr_bits)%nat -> 0 <= nth i v 0 < 2 ^ nth i addr_bits 0) ->
  exists a, 0 <= a < 2 ^ (tx_bits + all_bits) /\ addr_vec_of t addr_bits row tx_bits a = v.
Proof.
  intros Hl Hv. set (u := unslice addr_bits order v 0).
  assert (E : fst (slices addr_bits order u (replicate (length addr_bits) 0)) = v).
  { apply (nth_ext _ _ 0 0); [by rewrite slices_length, length_replicate|].
    intros i. rewrite slices_length, length_replicate. intros Hi.
    apply slices_unslice; [done|apply order_nodup| |by apply order_in|by rewrite length_replicate].
    intros j Hj. by apply Hv, order_in. }
  assert (Hu : u = u mod 2 ^ all_bits).
  { rewrite <- order_total, <- (unslice_mod _ bits_nonneg order u (replicate (length addr_bits) 0)), E; [done|..];
      [apply order_nodup|apply order_bounded]. }
  pose proof all_bits_nonneg. pose proof (Z.mod_pos_bound u (2 ^ all_bits) ltac:(lia)).
  exists (2 ^ tx_bits * u). rewrite Z.pow_add_r by lia. split.
  - assert (0 < 2 ^ tx_bits) by lia. nia.
  - unfold addr_vec_of, clear_lower_bits. rewrite Z.shiftr_div_pow2 by done.
    rewrite (Z.mul_comm (2 ^ tx_bits)), Z.div_mul by lia. exact E.
Qed.
End Mapping.

(** ** The mapping the constructor sets up *)
Definition is_pow2 (z : Z) : Prop := exists k, 0 <= k < 31 /\ z = 2 ^ k.

Lemma pow2_log2 z : is_pow2 z -> 0 <= calc_log2 z /\ 2 ^ calc_log2 z = z.
Proof.
  intros (k & Hk & ->). rewrite calc_log2_ok; [rewrite Z.log2_pow2 by lia; split; [lia|done]|].
  split; [lia|]. apply Z.pow_lt_mono_r; lia.
Qed.
Lemma log2_loop_nonneg fuel : forall val n, 0 <= n -> 0 <= log2_loop fuel val n.
Proof.
  induction fuel as [|fuel IH]; intros val n Hn; [done|]. cbn [log2_loop].
  destruct (Z.shiftr val 1 =? 0); [done|]. apply IH. lia.
Qed.
Lemma pow2_nonneg sz : Forall is_pow2 sz -> Forall (fun b => 0 <= b) (map calc_log2 sz).
Proof. intros Hs. apply Forall_map. eapply Forall_impl; [exact Hs|]. intros z Hz. by apply pow2_log2. Qed.

Lemma fold_mul sz : forall w, fold_left Z.mul sz w = w * fold_left Z.mul sz 1.
Proof.
  induction sz as [|z sz IH]; intros w; cbn [fold_left]; [lia|]. rewrite (IH (w * z)), (IH (1 * z)). ring.
Qed.
Lemma prod_pow2 sz : Forall is_pow2 sz -> fold_left Z.mul sz 1 = 2 ^ foldr Z.add 0 (map calc_log2 sz).
Proof.
  induction 1 as [|z sz Hz Hs IH]; [done|]. cbn [fold_left map foldr]. rewrite fold_mul, IH.
  destruct (pow2_log2 z Hz) as [H0 E].
  assert (0 <= foldr Z.add 0 (map calc_log2 sz)).
  { apply pow2_nonneg in Hs. clear -Hs. induction Hs; simpl; lia. }
  rewrite Z.pow_add_r, E by lia. ring.
Qed.
Lemma sum_insert (l : list Z) : forall i v, (i < length l)%nat ->
  foldr Z.add 0 (<[i := v]> l) = foldr Z.add 0 l - nth i l 0 + v.
Proof.
  induction l as [|x l IH]; intros [|i] v Hi; simpl in *; try lia. rewrite IH by lia. lia.
Qed.

Lemma sum_nonneg l : Forall (fun b => 0 <= b) l -> 0 <= foldr Z.add 0 l.
Proof. induction 1; simpl; lia. Qed.

(** What the bits of a level are worth. *)
Lemma level_bits sz prefetch : Forall is_pow2 sz -> is_pow2 prefetch ->
  let last := (length sz - 1)%nat in
  prefetch <= nth last sz 0 ->
  let bits := <[last := nth last (map calc_log2 sz) 0 - calc_log2 prefetch]> (map calc_log2 sz) in
  (last < length sz)%nat /\ Forall (fun b => 0 <= b) bits /\
  forall i, (i < length sz)%nat -> 2 ^ nth i bits 0 = nth i (<[last := nth last sz 0 / prefetch]> sz) 0.
Proof.
  intros Hs Hp last Hle bits. destruct (pow2_log2 _ Hp) as [Hp0 Hpe].
  assert (Hl : (last < length sz)%nat).
  { destruct sz; [|subst last; simpl; lia]. simpl in Hle. destruct Hp as (k & Hk & ->). lia. }
  assert (Hn : forall i, (i < length sz)%nat -> nth i (map calc_log2 sz) 0 = calc_log2 (nth i sz 0)).
  { intros i Hi. rewrite (nth_indep _ 0 (calc_log2 0)) by (by rewrite length_map). apply map_nth. }
  assert (Hpn : forall i, (i < length sz)%nat -> is_pow2 (nth i sz 0)).
  { intros i Hi. rewrite Forall_forall in Hs. apply Hs, list_elem_of_In, nth_In, Hi. }
  destruct (pow2_log2 _ (Hpn _ Hl)) as [Hl0 Hle0].
  assert (calc_log2 prefetch <= calc_log2 (nth last sz 0)).
  { apply (Z.pow_le_mono_r_iff 2); lia. }
  split_and!; [done| |].
  - apply Forall_insert; [by apply pow2_nonneg|]. rewrite Hn by done. lia.
  - intros i Hi. unfold bits. destruct (decide (i = last)) as [->|Hne].
    + rewrite !nth_insert_eq, Hn, Z.pow_sub_r by (rewrite ?length_map; lia). by rewrite Hle0, Hpe.
    + rewrite !nth_lookup, !list_lookup_insert_ne, <- !nth_lookup by done. rewrite Hn by done. by apply pow2_log2, Hpn.
Qed.

(** The bits cover the capacity. *)
Lemma mapping_ok sz prefetch width bits tx_bits :
  mapping_bits sz prefetch width = Ok (bits, tx_bits) ->
  Forall is_pow2 sz -> is_pow2 prefetch -> prefetch <= nth (length sz - 1) sz 0 -> width mod 8 = 0 ->
  0 <= tx_bits /\ bits = <[(length sz - 1)%nat := nth (length sz - 1) (map calc_log2 sz) 0 - calc_log2 prefetch]>
    (map calc_log2 sz) /\ 2 ^ (tx_bits + foldr Z.add 0 bits) = max_address sz width.
Proof.
  intros E Hs Hp Hle Hw. unfold mapping_bits in E. cbv zeta in E. res_inv. bool_prop.
  destruct (level_bits sz prefetch Hs Hp Hle) as (Hl & Hnn & _). destruct (pow2_log2 _ Hp) as [Hp0 Hpe].
  assert (Htx : 0 <= calc_log2 (Z.quot (prefetch * width) 8)) by (by apply log2_loop_nonneg).
  split_and!; [done|done|]. match goal with H : Z.shiftl 1 _ = _ |- _ => rewrite Z.shiftl_1_l in H; rename H into Etx end.
  set (tb := calc_log2 (Z.quot (prefetch * width) 8)) in *.
  pose proof (sum_nonneg _ Hnn) as Hsum. rewrite Z.pow_add_r by done. unfold max_address.
  rewrite fold_mul, prod_pow2 by done. pose proof (sum_nonneg _ (pow2_nonneg _ Hs)) as Hsum0.
  rewrite sum_insert in * by (by rewrite length_map).
  apply Z.mod_divide in Hw as [w ->]; [|lia]. rewrite Z.mul_assoc, Z.quot_mul in Etx by lia.
  rewrite Z.quot_mul by lia. rewrite Etx.
  set (b := foldr Z.add 0 (map calc_log2 sz)) in *. set (x := nth _ (map calc_log2 sz) 0) in *.
  replace (b - x + (x - calc_log2 prefetch)) with (b - calc_log2 prefetch) in * by lia.
  replace (2 ^ b) with (2 ^ (b - calc_log2 prefetch) * prefetch); [ring|].
  rewrite <- Hpe at 2. rewrite <- Z.pow_add_r by lia. f_equal. lia.
Qed.

(** C36: the mapping [Memory::send] applies is a bijection between the
    transactions of the memory and the vectors of coordinates: a vector has
    one component per level, each below the size of its level (columns
    counted in bursts), two addresses below the capacity have the same vector
    exactly when they lie in the same transaction, and every vector in range
    is that of an address below the capacity.  Both orders of slicing. *)
Theorem address_map_bijective t row sz prefetch width bits tx_bits :
  mapping_bits sz prefetch width = Ok (bits, tx_bits) ->
  Forall is_pow2 sz -> is_pow2 prefetch -> prefetch <= nth (length sz - 1) sz 0 -> width mod 8 = 0 ->
  (t = RoBaRaCoCh -> length sz = (row + 2)%nat) ->
  let vec := addr_vec_of t bits row tx_bits in
  let sizes := <[(length sz - 1)%nat := nth (length sz - 1) sz 0 / prefetch]> sz in
  let in_range := fun v => length v = length sz /\ forall i, (i < length sz)%nat -> 0 <= nth i v 0 < nth i sizes 0 in
  (forall a, in_range (vec a)) /\
  (forall a b, 0 <= a < max_address sz width -> 0 <= b < max_address sz width ->
    vec a = vec b <-> a / 2 ^ tx_bits = b / 2 ^ tx_bits) /\
  (forall v, in_range v -> exists a, 0 <= a < max_address sz width /\ vec a = v).
Proof.
  intros E Hs Hp Hle Hw Hrow vec sizes in_range.
  destruct (mapping_ok _ _ _ _ _ E Hs Hp Hle Hw) as (Htx & Hbits & Hmax).
  destruct (level_bits sz prefetch Hs Hp Hle) as (Hl & Hnn & Hlev). rewrite <- Hbits in Hnn, Hlev.
  assert (Hlen : length bits = length sz) by (by rewrite Hbits, length_insert, length_map).
  pose proof (sum_nonneg _ Hnn) as Hsum. rewrite <- Hlen in Hrow.
  split_and!.
  - intros a. split; [by unfold vec; rewrite vec_length|]. intros i Hi. unfold sizes. rewrite <- Hlev by done.
    apply vec_range; [done|done|by rewrite Hlen].
  - assert (Hsm : forall a, 0 <= a < max_address sz width -> (a / 2 ^ tx_bits) mod 2 ^ foldr Z.add 0 bits = a / 2 ^ tx_bits).
    { intros a Ha. rewrite <- Hmax, Z.pow_add_r in Ha by done. apply Z.mod_small.
      split; [apply Z.div_pos; lia|apply Z.div_lt_upper_bound; lia]. }
    intros a b Ha Hb. unfold vec. rewrite vec_same by done. by rewrite !Hsm.
  - intros v [Hvl Hv]. rewrite <- Hmax. apply vec_onto; try done; [by rewrite Hlen|].
    intros i Hi. rewrite Hlen in Hi. rewrite Hlev by done. by apply Hv.
Qed.

(** Four channels of sixteen ranks of 8Gb x4 DDR4 chips. *)
Module AddrMapWitness.
Import DDR4.
Definition sz : list Z := count (set_rank_number 16 (set_channel_number 4 (org_table DDR4_8Gb_x4))).

Lemma sz_pow2 : Forall is_pow2 sz.
Proof. repeat constructor; [exists 2|exists 4|exists 2|exists 2|exists 17|exists 10]; split; try lia; reflexivity. Qed.

Lemma address_map_bijective_witness :
  mapping_bits sz prefetch_size channel_width = Ok ([2; 4; 2; 2; 17; 7], 6) /\
  forall a b, 0 <= a < 2 ^ 40 -> 0 <= b < 2 ^ 40 ->
  addr_vec_of RoBaRaCoCh [2; 4; 2; 2; 17; 7] Row 6 a = addr_vec_of RoBaRaCoCh [2; 4; 2; 2; 17; 7] Row 6 b <->
  a / 2 ^ 6 = b / 2 ^ 6.
Proof.
  split; [reflexivity|].
  change (2 ^ 40) with (max_address sz channel_width).
  refine (proj1 (proj2 (address_map_bijective RoBaRaCoCh Row sz prefetch_size channel_width _ 6 eq_refl sz_pow2 _ _ _ _))).
  - exists 3. split; [lia|reflexivity].
  - discriminate.
  - reflexivity.
  - reflexivity.
Defined.
End AddrMapWitness.
