(* ===== verification/PageAlloc.v ===== *)
(** * Translation of virtual pages

    [ramulator/src/Memory.h], [page_allocator]: with [translation = Random]
    a page of a core is given a physical page when it is first touched, the
    first free one at or after a random position.  The random number is an
    argument of the model. *)
From Stdlib Require Import ZArith Lia Bool String.
From stdpp Require Import base list gmap.
From S2P Require Import Prelude.

Inductive Translation : Type := None_translation | Random.

(** The members of [Memory] that concern pages *)
Record Pages : Type := mk_Pages {
  translation : Translation;
  free_physical_pages : list Z;
  free_physical_pages_remaining : Z;
  page_translation : gmap (Z * Z) Z;
  physical_page_replacement : Z
}.

(** The constructor: pages of 4KB. *)
Definition Pages_new (t : Translation) (max_address : Z) : Pages :=
  match t with
  | None_translation => mk_Pages t [] 0 ∅ 0
  | Random => let n := Z.shiftr max_address 12 in mk_Pages t (replicate (Z.to_nat n) (-1)) n ∅ 0
  end.

Definition page_at (pages : list Z) (p : Z) : Z := nth (Z.to_nat p) pages 0.
Arguments page_at : simpl never.

(** The [do ... while] loop: its body runs at most once per page. *)
Fixpoint search_page (fuel : nat) (pages : list Z) (start p : Z) : Z :=
  match fuel with
  | O => p
  | S fuel =>
      let p := (p + 1) mod Z.of_nat (length pages) in
      if negb (p =? start) && negb (page_at pages p =? -1) then search_page fuel pages start p else p
  end.

(** The assignment of a page to a pair of core and virtual page. *)
Definition assign_page (m : Pages) (target : Z * Z) (rand : Z) : res Pages :=
  let pages := free_physical_pages m in
  let n := Z.of_nat (length pages) in
  assert! negb (n =? 0), "division by zero" in
  let p := rand mod n in
  if free_physical_pages_remaining m =? 0 then
    assert! negb (page_at pages p =? -1), "page free" in
    Ok (mk_Pages (translation m) pages (free_physical_pages_remaining m)
      (<[target := p]> (page_translation m)) (physical_page_replacement m + 1))
  else
    let p := if negb (page_at pages p =? -1) then search_page (length pages) pages p p else p in
    assert! (page_at pages p =? -1), "page not free" in
    Ok (mk_Pages (translation m) (<[Z.to_nat p := fst target]> pages) (free_physical_pages_remaining m - 1)
      (<[target := p]> (page_translation m)) (physical_page_replacement m)).

(** [Memory::page_allocator] *)
Definition page_allocator (m : Pages) (addr coreid rand : Z) : res (Z * Pages) :=
  let virtual_page_number := Z.shiftr addr 12 in
  match translation m with
  | None_translation => Ok (addr, m)
  | Random =>
      let target := (coreid, virtual_page_number) in
      let! m := match page_translation m !! target with
                | None => assign_page m target rand
                | Some _ => Ok m
                end in
      Ok (Z.lor (Z.shiftl (default 0 (page_translation m !! target)) 12) (Z.land addr (Z.shiftl 1 12 - 1)), m)
  end.

(** A sequence of calls: address, core and random number of each. *)
Fixpoint allocs (m : Pages) (calls : list (Z * Z * Z)) : res (list Z * Pages) :=
  match calls with
  | [] => Ok ([], m)
  | (addr, coreid, rand) :: calls =>
      let! (a, m) := page_allocator m addr coreid rand in
      let! (l, m) := allocs m calls in
      Ok (a :: l, m)
  end.

(** ** The search *)
Lemma mod_ring a b n : 0 < n -> ((a + b) mod n + 1) mod n = (a + (b + 1)) mod n.
Proof. intros Hn. rewrite Zplus_mod_idemp_l. f_equal. lia. Qed.

Lemma step_moves s d n : 0 <= s < n -> 0 < d < n -> (s + d) mod n <> s.
Proof.
  intros Hs Hd E. destruct (Z.lt_ge_cases (s + d) n).
  - rewrite Z.mod_small in E; lia.
  - replace (s + d) with (s + d - n + 1 * n) in E by lia. rewrite Z_mod_plus_full, Z.mod_small in E; lia.
Qed.

(** A free page is found before the search is back at its start. *)
Lemma search_finds pages s d : let n := Z.of_nat (length pages) in
  0 <= s < n -> d < n -> page_at pages ((s + d) mod n) = -1 ->
  forall fuel k, 0 <= k < d -> d - k <= Z.of_nat fuel ->
  let p := search_page fuel pages s ((s + k) mod n) in 0 <= p < n /\ page_at pages p = -1.
Proof.
  intros n Hs Hd Hf. induction fuel as [|fuel IH]; intros k Hk Hfuel; [lia|]. cbn [search_page].
  fold n. rewrite mod_ring by lia.
  destruct (Z.eqb_spec ((s + (k + 1)) mod n) s) as [E|E]; [by apply step_moves in E; lia|].
  pose proof (Z.mod_pos_bound (s + (k + 1)) n ltac:(lia)).
  destruct (Z.eqb_spec (page_at pages ((s + (k + 1)) mod n)) (-1)) as [Ep|Ep]; cbn [negb andb]; [done|].
  apply IH; [|lia]. split; [lia|]. destruct (decide (k + 1 = d)) as [<-|]; [done|lia].
Qed.

Lemma search_free pages s q : let n := Z.of_nat (length pages) in
  0 <= s < n -> 0 <= q < n -> page_at pages s <> -1 -> page_at pages q = -1 ->
  let p := search_page (length pages) pages s s in 0 <= p < n /\ page_at pages p = -1.
Proof.
  intros n Hs Hq Hns Hf.
  assert (Hsq : s <> q) by congruence. assert (E : (s + (q - s) mod n) mod n = q).
  { rewrite Zplus_mod_idemp_r. replace (s + (q - s)) with q by lia. by apply Z.mod_small. }
  pose proof (Z.mod_pos_bound (q - s) n ltac:(lia)) as Hd.
  assert ((q - s) mod n <> 0) by (intros E0; rewrite E0, Z.add_0_r, Z.mod_small in E; lia).
  pose proof (search_finds pages s ((q - s) mod n) Hs ltac:(lia) ltac:(by fold n; rewrite E)
    (length pages) 0 ltac:(lia) ltac:(fold n; lia)) as R.
  fold n in R. by rewrite Z.add_0_r, (Z.mod_small s) in R by done.
Qed.

(** ** The invariant

    The count of free pages, pages in use are marked, and while no page has
    been replaced no two pages of cores share a physical page. *)
Record PagesOk (m : Pages) : Prop := mk_PagesOk {
  ok_random : translation m = Random;
  ok_some : free_physical_pages m <> [];
  ok_count : free_physical_pages_remaining m = countb (fun c => c =? -1) (free_physical_pages m);
  ok_used : forall k p, page_translation m !! k = Some p ->
    0 <= p < Z.of_nat (length (free_physical_pages m)) /\ page_at (free_physical_pages m) p <> -1;
  ok_distinct : physical_page_replacement m = 0 ->
    forall k1 k2 p, page_translation m !! k1 = Some p -> page_translation m !! k2 = Some p -> k1 = k2;
  ok_size : physical_page_replacement m = 0 ->
    Z.of_nat (size (page_translation m)) + free_physical_pages_remaining m = Z.of_nat (length (free_physical_pages m));
  ok_full : 0 <= physical_page_replacement m;
  ok_replaced : 0 < physical_page_replacement m ->
    Z.of_nat (length (free_physical_pages m)) < Z.of_nat (size (page_translation m))
}.

Lemma page_at_insert pages p q c : 0 <= p < Z.of_nat (length pages) -> 0 <= q ->
  page_at (<[Z.to_nat p := c]> pages) q = if decide (p = q) then c else page_at pages q.
Proof.
  intros Hp Hq. unfold page_at. destruct (decide (p = q)) as [<-|Hne].
  - rewrite nth_lookup, list_lookup_insert_eq by lia. done.
  - rewrite !nth_lookup, list_lookup_insert_ne by lia. done.
Qed.

(** A page is there to be found while the count is not zero. *)
Lemma free_page pages : countb (fun c => c =? -1) pages <> 0 ->
  exists q, 0 <= q < Z.of_nat (length pages) /\ page_at pages q = -1.
Proof.
  intros Hc. destruct (decide (Exists (fun c => c = -1) pages)) as [He|He].
  - apply Exists_exists in He as (c & Hc' & ->). apply list_elem_of_lookup_1 in Hc' as (i & Hi).
    exists (Z.of_nat i). pose proof (lookup_lt_Some _ _ _ Hi). split; [lia|]. unfold page_at.
    by rewrite Nat2Z.id, nth_lookup, Hi.
  - exfalso. apply Hc, countb_zero. intros x Hx. apply Z.eqb_neq. intros ->. apply He, Exists_exists.
    exists (-1). by rewrite list_elem_of_In.
Qed.

(** Replacing a page: only when every page is in use. *)
Lemma assign_replaces m target rand : PagesOk m -> page_translation m !! target = None ->
  free_physical_pages_remaining m = 0 ->
  exists m', assign_page m target rand = Ok m' /\ PagesOk m' /\
    (exists p, page_translation m' = <[target := p]> (page_translation m)) /\
    length (free_physical_pages m') = length (free_physical_pages m).
Proof.
  intros [Hr Hs Hc Hu Hd Hz Hf Hrep] Ht Hrem. unfold assign_page.
  set (pages := free_physical_pages m) in *. assert (Hn : (length pages <> 0)%nat) by (by destruct pages).
  destruct (Z.eqb_spec (Z.of_nat (length pages)) 0) as [|_]; [lia|]. cbn [negb].
  pose proof (Z.mod_pos_bound rand (Z.of_nat (length pages)) ltac:(lia)) as Hp.
  assert (Hused : forall q, 0 <= q < Z.of_nat (length pages) -> page_at pages q <> -1).
  { intros q Hq. apply Z.eqb_neq. rewrite Hrem in Hc.
    apply (proj1 (countb_zero (fun c => c =? -1) pages)); [done|]. apply nth_In. lia. }
  rewrite (proj2 (Z.eqb_eq _ _) Hrem), (proj2 (Z.eqb_neq _ _) (Hused _ Hp)). cbn [negb].
  eexists. split; [reflexivity|]. split; [|split; [by eexists|done]].
  split; cbn; try done; try lia.
  - intros k p. rewrite lookup_insert. case_decide; [|by apply Hu]. intros [= <-]. split; [done|by apply Hused].
  - intros _. rewrite map_size_insert_None by done.
    destruct (decide (physical_page_replacement m = 0)) as [E|E]; [specialize (Hz E); lia|].
    specialize (Hrep ltac:(lia)). lia.
Qed.

(** Taking a free page. *)
Lemma assign_takes m target rand : PagesOk m -> page_translation m !! target = None ->
  free_physical_pages_remaining m <> 0 -> fst target <> -1 ->
  exists m', assign_page m target rand = Ok m' /\ PagesOk m' /\
    (exists p, page_translation m' = <[target := p]> (page_translation m)) /\
    length (free_physical_pages m') = length (free_physical_pages m).
Proof.
  intros [Hr Hs Hc Hu Hd Hz Hf Hrep] Ht Hrem Hcore. unfold assign_page.
  set (pages := free_physical_pages m) in *. assert (Hn : (length pages <> 0)%nat) by (by destruct pages).
  destruct (Z.eqb_spec (Z.of_nat (length pages)) 0) as [|_]; [lia|]. cbn [negb].
  pose proof (Z.mod_pos_bound rand (Z.of_nat (length pages)) ltac:(lia)) as Hp.
  rewrite (proj2 (Z.eqb_neq _ _) Hrem). set (p0 := rand mod _) in *.
  set (p := if negb (page_at pages p0 =? -1) then search_page (length pages) pages p0 p0 else p0).
  assert (Hpf : 0 <= p < Z.of_nat (length pages) /\ page_at pages p = -1).
  { subst p. destruct (Z.eqb_spec (page_at pages p0) (-1)) as [E|E]; cbn [negb]; [done|].
    destruct (free_page pages ltac:(lia)) as (q & Hq & Hqf). by apply (search_free pages p0 q). }
  clearbody p. destruct Hpf as [Hpr Hpf]. rewrite (proj2 (Z.eqb_eq _ _) Hpf).
  eexists. split; [reflexivity|]. split; [|split; [by eexists|cbn; by rewrite length_insert]].
  assert (Hnew : forall k, page_translation m !! k <> Some p) by (intros k E; by apply Hu in E as []).
  split; cbn; try done.
  - intros E. apply (f_equal length) in E. rewrite length_insert in E. done.
  - rewrite (countb_insert _ _ _ _ 0) by lia. unfold page_at in Hpf. rewrite Hpf.
    rewrite (proj2 (Z.eqb_neq (fst target) (-1)) Hcore). cbn. lia.
  - intros k q. rewrite length_insert, lookup_insert. case_decide.
    + intros [= <-]. rewrite page_at_insert, decide_True by lia. done.
    + intros E. destruct (Hu _ _ E). rewrite page_at_insert by lia. split; [done|]. by case_decide.
  - intros E k1 k2 q. rewrite !lookup_insert. do 2 case_decide; subst; [done| | |by apply Hd].
    + intros [= <-] E2. by apply Hnew in E2.
    + intros E1 [= <-]. by apply Hnew in E1.
  - intros E. specialize (Hz E). rewrite length_insert, map_size_insert_None by done. lia.
  - intros E. specialize (Hrep E). rewrite length_insert, map_size_insert_None by done. lia.
Qed.

(** A call: no assertion fails, and what was translated stays. *)
Lemma page_allocator_ok m addr coreid rand : PagesOk m -> coreid <> -1 ->
  let k := (coreid, Z.shiftr addr 12) in
  exists m' p, page_allocator m addr coreid rand = Ok (Z.lor (Z.shiftl p 12) (Z.land addr 4095), m') /\
    PagesOk m' /\ page_translation m' !! k = Some p /\ page_translation m ⊆ page_translation m' /\
    length (free_physical_pages m') = length (free_physical_pages m) /\
    dom (page_translation m') = {[k]} ∪ dom (page_translation m).
Proof.
  intros Hm Hc k. unfold page_allocator. rewrite (ok_random _ Hm). fold k.
  destruct (page_translation m !! k) as [p|] eqn:Ek.
  { exists m, p. cbn [bind]. rewrite Ek. split_and!; try done. symmetry. apply subseteq_union_1_L, singleton_subseteq_l. by apply elem_of_dom_2 in Ek. }
  assert (exists m', assign_page m k rand = Ok m' /\ PagesOk m' /\
    (exists p, page_translation m' = <[k := p]> (page_translation m)) /\
    length (free_physical_pages m') = length (free_physical_pages m)) as (m' & E & Hm' & (p & Ep) & El).
  { destruct (decide (free_physical_pages_remaining m = 0)); [by apply assign_replaces|by apply assign_takes]. }
  exists m', p. rewrite E. cbn [bind]. rewrite Ep, lookup_insert_eq. split_and!; try done.
  - by apply insert_subseteq.
  - by rewrite dom_insert_L.
Qed.

Definition key_of (call : Z * Z * Z) : Z * Z := let '(addr, coreid, _) := call in (coreid, Z.shiftr addr 12).
Definition addr_of (call : Z * Z * Z) : Z := fst (fst call).
Definition core_of (call : Z * Z * Z) : Z := snd (fst call).

Lemma allocs_ok calls : Forall (fun c => core_of c <> -1) calls -> forall m, PagesOk m ->
  exists outs m', allocs m calls = Ok (outs, m') /\ PagesOk m' /\ page_translation m ⊆ page_translation m' /\
    length (free_physical_pages m') = length (free_physical_pages m) /\
    dom (page_translation m') = list_to_set (map key_of calls) ∪ dom (page_translation m) /\
    Forall2 (fun c o => exists p, page_translation m' !! key_of c = Some p /\
      o = Z.lor (Z.shiftl p 12) (Z.land (addr_of c) 4095)) calls outs.
Proof.
  induction 1 as [|[[addr coreid] rand] calls Hc Hcs IH]; intros m Hm.
  { exists [], m. split_and!; try done. symmetry. apply (left_id_L ∅ (∪)). }
  destruct (page_allocator_ok m addr coreid rand Hm Hc) as (m1 & p & E1 & Hm1 & Hk & Hsub & Hl & Hdom).
  destruct (IH m1 Hm1) as (outs & m2 & E2 & Hm2 & Hsub2 & Hl2 & Hdom2 & HF).
  eexists _, m2. cbn [allocs]. rewrite E1. cbn [bind]. rewrite E2. cbn [bind].
  split; [reflexivity|]. split_and!; [done|by transitivity (page_translation m1)|congruence| |].
  - rewrite Hdom2, Hdom. cbn [map list_to_set key_of]. rewrite !(assoc_L (∪)). f_equal. apply (comm_L (∪)).
  - constructor; [|done]. exists p. split; [|done]. by apply (lookup_weaken _ _ _ _ Hk).
Qed.

Lemma Pages_new_ok max_address : 4096 <= max_address -> PagesOk (Pages_new Random max_address).
Proof.
  intros Hm. assert (Hn : 1 <= Z.shiftr max_address 12).
  { rewrite Z.shiftr_div_pow2 by lia. change (2 ^ 12) with 4096. apply Z.div_le_lower_bound; lia. }
  assert (Hc : forall n, countb (fun c => c =? -1) (replicate n (-1)) = Z.of_nat n).
  { intros n. induction n as [|n IH]; [done|]. cbn [replicate countb]. rewrite IH. cbn. lia. }
  split; cbn; try done; try (rewrite ?Hc, ?length_replicate; lia).
  - intros E. apply (f_equal length) in E. rewrite length_replicate in E. cbn in E. lia.
  - intros _. rewrite map_size_empty, length_replicate. lia.
Qed.

(** An address of a page. *)
Lemma page_address p a : Z.lor (Z.shiftl p 12) (Z.land a 4095) = p * 4096 + a mod 4096.
Proof.
  change 4095 with (Z.ones 12). rewrite Z.land_ones by lia. rewrite Z.shiftl_mul_pow2 by lia.
  change (2 ^ 12) with 4096. rewrite <- Z.lxor_lor, <- Z.add_nocarry_lxor; [done|..];
    change 4096 with (2 ^ 12); rewrite <- Z.land_ones, <- Z.shiftl_mul_pow2 by lia;
    apply Z.bits_inj'; intros i Hi; rewrite !Z.land_spec, Z.bits_0, Z.testbit_ones_nonneg, Z.shiftl_spec by lia;
    destruct (Z.ltb_spec i 12); rewrite ?andb_false_r, ?(Z.testbit_neg_r p) by lia; done.
Qed.

(** C37: with random translation no assertion of [page_allocator] fails and
    its search ends, whatever the random numbers; the offset within the page
    is kept and the address is one of the memory; and as long as the calls
    touch no more pages than the memory has, two calls are given the same
    address exactly when they are for the same address of the same core.  (A
    core is not numbered -1, which marks a free page.) *)
Theorem page_translation_injective max_address calls :
  4096 <= max_address -> Forall (fun c => core_of c <> -1) calls ->
  exists outs m, allocs (Pages_new Random max_address) calls = Ok (outs, m) /\
    Forall2 (fun c o => 0 <= o < max_address /\ o mod 4096 = addr_of c mod 4096) calls outs /\
    (Z.of_nat (size (list_to_set (map key_of calls) : gset (Z * Z))) <= max_address / 4096 ->
     forall i j ci cj oi oj, calls !! i = Some ci -> calls !! j = Some cj -> outs !! i = Some oi -> outs !! j = Some oj ->
     oi = oj <-> core_of ci = core_of cj /\ addr_of ci = addr_of cj).
Proof.
  intros Hmax Hcs. pose proof (Pages_new_ok _ Hmax) as Hnew.
  destruct (allocs_ok calls Hcs _ Hnew) as (outs & m & E & Hm & _ & Hl & Hdom & HF).
  assert (Hn : Z.of_nat (length (free_physical_pages m)) = max_address / 4096).
  { rewrite Hl. cbn. rewrite length_replicate, Z.shiftr_div_pow2 by lia. change (2 ^ 12) with 4096.
    rewrite Z2Nat.id; [done|]. apply Z.div_pos; lia. }
  exists outs, m. split; [done|]. split.
  - eapply Forall2_impl; [exact HF|]. intros c o (p & Hp & ->). rewrite page_address.
    pose proof (Z.mod_pos_bound (addr_of c) 4096 ltac:(lia)). destruct (ok_used _ Hm _ _ Hp) as [Hr _].
    pose proof (Z.mul_div_le max_address 4096 ltac:(lia)). split; [lia|].
    rewrite Z.add_comm, Z_mod_plus_full, Z.mod_mod by lia. done.
  - intros Hsz i j ci cj oi oj Hci Hcj Hoi Hoj.
    assert (Hrep : physical_page_replacement m = 0).
    { pose proof (ok_full _ Hm). pose proof (ok_replaced _ Hm) as Hr. rewrite <- size_dom, Hdom in Hr.
      cbn [page_translation Pages_new] in Hr. rewrite dom_empty_L, union_empty_r_L in Hr. lia. }
    destruct (Forall2_lookup_lr _ _ _ _ _ _ HF Hci Hoi) as (pi & Hpi & ->).
    destruct (Forall2_lookup_lr _ _ _ _ _ _ HF Hcj Hoj) as (pj & Hpj & ->). rewrite !page_address.
    destruct ci as [[ai coi] ri], cj as [[aj coj] rj]; unfold addr_of, core_of, key_of in *; cbn [fst snd] in *.
    pose proof (Z.mod_pos_bound ai 4096 ltac:(lia)). pose proof (Z.mod_pos_bound aj 4096 ltac:(lia)). split.
    + intros Eo. assert (pi = pj) as -> by lia. pose proof (ok_distinct _ Hm Hrep _ _ _ Hpi Hpj) as [= -> Es].
      split; [done|]. rewrite !Z.shiftr_div_pow2 in Es by lia. change (2 ^ 12) with 4096 in Es.
      pose proof (Z.div_mod ai 4096 ltac:(lia)). pose proof (Z.div_mod aj 4096 ltac:(lia)). lia.
    + intros [-> ->]. rewrite Hpi in Hpj. by injection Hpj as ->.
Qed.

(** Two pages and three calls, the last two of the same page. *)
Module PageWitness.
Lemma page_translation_injective_witness :
  (exists outs m, allocs (Pages_new Random 8192) [(16, 0, 5); (20, 1, 7); (4116, 1, 7); (17, 0, 3)] = Ok (outs, m)) /\
  exists outs m, allocs (Pages_new Random 8192) [(16, 0, 5); (20, 1, 7); (21, 1, 2)] = Ok (outs, m) /\
    (forall i j ci cj oi oj, [(16, 0, 5); (20, 1, 7); (21, 1, 2)] !! i = Some ci ->
      [(16, 0, 5); (20, 1, 7); (21, 1, 2)] !! j = Some cj -> outs !! i = Some oi -> outs !! j = Some oj ->
      oi = oj <-> core_of ci = core_of cj /\ addr_of ci = addr_of cj).
Proof.
  split; [by vm_compute; eauto|].
  destruct (page_translation_injective 8192 [(16, 0, 5); (20, 1, 7); (21, 1, 2)]) as (outs & m & E & _ & H).
  - lia.
  - repeat constructor; discriminate.
  - exists outs, m. split; [exact E|]. apply H. vm_compute. discriminate.
Defined.
End PageWitness.
