(* ===== verification/Sched.v ===== *)
(** * Requests, the row table and the scheduler of a channel

    [ramulator/src/Request.h] and [ramulator/src/Scheduler.h]: requests, the
    table of open rows ([RowTable]), the choice of the request to serve
    ([Scheduler]) and of the row to close speculatively ([RowPolicy]). *)
From Stdlib Require Import ZArith Lia Bool String.
From stdpp Require Import base list gmap sorting.
From S2P Require Import Prelude RamIf Dram.

(** [Request]: the members the memory system reads; the callback is the list
    of completed requests that [tick] returns. *)
Record Request : Type := mk_Request {
  rq_first : bool;
  rq_addr : Z;
  rq_addr_vec : list Z;
  rq_coreid : Z;
  rq_id : Z;
  rq_type : ReqType;
  rq_arrive : Z;
  rq_depart : Z
}.
Definition Request_new (addr : Z) (type : ReqType) (req_id coreid : Z) : Request :=
  mk_Request true addr [] coreid req_id type (-1) (-1).
(** [Request(addr_vec, type, callback)] leaves [addr] and [req_id]
    uninitialised; nothing reads them. *)
Definition Request_vec (vec : list Z) (type : ReqType) : Request :=
  mk_Request true 0 vec 0 0 type (-1) (-1).
Definition set_first (b : bool) (r : Request) : Request :=
  mk_Request b (rq_addr r) (rq_addr_vec r) (rq_coreid r) (rq_id r) (rq_type r) (rq_arrive r) (rq_depart r).
Definition set_addr_vec (v : list Z) (r : Request) : Request :=
  mk_Request (rq_first r) (rq_addr r) v (rq_coreid r) (rq_id r) (rq_type r) (rq_arrive r) (rq_depart r).
Definition set_arrive (t : Z) (r : Request) : Request :=
  mk_Request (rq_first r) (rq_addr r) (rq_addr_vec r) (rq_coreid r) (rq_id r) (rq_type r) t (rq_depart r).
Definition set_depart (t : Z) (r : Request) : Request :=
  mk_Request (rq_first r) (rq_addr r) (rq_addr_vec r) (rq_coreid r) (rq_id r) (rq_type r) (rq_arrive r) t.

(** What a controller uses of its standard beyond the device model: the
    commands it names itself, the command of a request, and numbers. *)
Record Std (C S : Type) : Type := mk_Std {
  sp : Spec C S;
  translate : ReqType -> C;
  cPRE : C; cRD : C; cRDA : C; cWR : C; cWRA : C;
  read_latency : Z;
  nREFI : Z;
  prefetch_size : Z;
  channel_width : Z
}.
Arguments sp {C S} _.
Arguments translate {C S} _ _.
Arguments cPRE {C S} _.
Arguments cRD {C S} _.
Arguments cRDA {C S} _.
Arguments cWR {C S} _.
Arguments cWRA {C S} _.
Arguments read_latency {C S} _.
Arguments nREFI {C S} _.
Arguments prefetch_size {C S} _.
Arguments channel_width {C S} _.

(** ** The row table *)
Record Entry : Type := mk_Entry { en_row : Z; en_hits : Z; en_timestamp : Z }.
Abbreviation RowTable := (gmap (list Z) Entry).

(** [Scheduler::Type] and [RowPolicy::Type] *)
Inductive SchedType : Type := FCFS | FRFCFS | FRFCFS_Cap | FRFCFS_PriorHit.
Inductive PolicyType : Type := PClosed | PClosedAP | POpened | PTimeout.
#[global] Instance PolicyType_eq_dec : EqDecision PolicyType.
Proof. solve_decision. Defined.

(** The order of the keys of [map<vector<int>, Entry>] *)
Fixpoint lex_leb (a b : list Z) : bool :=
  match a, b with
  | [], _ => true
  | _ :: _, [] => false
  | x :: a, y :: b => (x <? y) || ((x =? y) && lex_leb a b)
  end.
Definition lex_le (a b : list Z) : Prop := Is_true (lex_leb a b).
#[global] Instance lex_le_dec : RelDecision lex_le.
Proof. intros a b. unfold lex_le. apply _. Defined.

Section Sched.
Context {C S : Type} `{EqDecision C} (std : Std C S).
#[local] Abbreviation DRAM := (DRAM C S).

(** ** Questions to the channel, [Controller.h] *)
Definition get_first_cmd (ch : DRAM) (r : Request) : res C :=
  decode (sp std) (translate std (rq_type r)) (rq_addr_vec r) ch.
Definition is_ready_cmd (ch : DRAM) (clk : Z) (cmd : C) (vec : list Z) : res bool :=
  check (sp std) cmd vec clk ch.
Definition is_ready (ch : DRAM) (clk : Z) (r : Request) : res bool :=
  let! cmd := get_first_cmd ch r in is_ready_cmd ch clk cmd (rq_addr_vec r).
Definition is_row_hit (ch : DRAM) (r : Request) : res bool :=
  check_row_hit (sp std) (translate std (rq_type r)) (rq_addr_vec r) ch.
Definition is_row_open (ch : DRAM) (r : Request) : res bool :=
  check_row_open (sp std) (translate std (rq_type r)) (rq_addr_vec r) ch.

(** ** [RowTable] *)
Definition rowgroup (vec : list Z) : list Z := take (row_level (sp std)) vec.
Definition row_in (vec : list Z) : Z := nth (row_level (sp std)) vec (-1).

Definition open_entry (vec : list Z) (clk : Z) (t : RowTable) : RowTable :=
  match t !! rowgroup vec with
  | Some _ => t
  | None => <[rowgroup vec := mk_Entry (row_in vec) 0 clk]> t
  end.
Definition access_entry (vec : list Z) (clk : Z) (t : RowTable) : res RowTable :=
  match t !! rowgroup vec with
  | None => Abort "match != table.end()"
  | Some e =>
      assert! (en_row e =? row_in vec), "match->second.row == row" in
      Ok (<[rowgroup vec := mk_Entry (en_row e) (en_hits e + 1) clk]> t)
  end.
(** The rows a closing command removes: those below the same node. *)
Definition close_scope (cmd : C) : nat :=
  if is_accessing (sp std) cmd then (row_level (sp std) - 1)%nat else scope (sp std) cmd.
Definition below (cmd : C) (vec key : list Z) : Prop :=
  take (close_scope cmd + 1) vec = take (close_scope cmd + 1) key.
#[global] Instance below_dec cmd vec key : Decision (below cmd vec key).
Proof. unfold below. apply _. Defined.
Definition close_entries (cmd : C) (vec : list Z) (t : RowTable) : res RowTable :=
  let n_rm := size (filter (fun kv => below cmd vec (fst kv)) t) in
  assert! (0 <? Z.of_nat n_rm), "n_rm > 0" in
  Ok (filter (fun kv => ~ below cmd vec (fst kv)) t).
(** [RowTable::update] *)
Definition table_update (cmd : C) (vec : list Z) (clk : Z) (t : RowTable) : res RowTable :=
  let t := if is_opening (sp std) cmd then open_entry vec clk t else t in
  let! t := if is_accessing (sp std) cmd then access_entry vec clk t else Ok t in
  if is_closing (sp std) cmd then close_entries cmd vec t else Ok t.

(** [RowTable::get_hits] and [RowTable::get_open_row] *)
Definition get_hits (t : RowTable) (vec : list Z) (to_opened_row : bool) : Z :=
  match t !! rowgroup vec with
  | None => 0
  | Some e => if negb to_opened_row && negb (en_row e =? row_in vec) then 0 else en_hits e
  end.
Definition get_open_row (t : RowTable) (vec : list Z) : Z :=
  match t !! rowgroup vec with None => -1 | Some e => en_row e end.

(** ** [Scheduler] *)
Definition cap : Z := 16.

(** What the policies prefer, and their comparison: [true] keeps the first. *)
Definition prefer (ty : SchedType) (ch : DRAM) (clk : Z) (t : RowTable) (r : Request) : res bool :=
  match ty with
  | FCFS => Ok false
  | FRFCFS => is_ready ch clk r
  | FRFCFS_Cap =>
      let! b := is_ready ch clk r in Ok (b && (get_hits t (rq_addr_vec r) false <=? cap))
  | FRFCFS_PriorHit =>
      let! b := is_ready ch clk r in if b then is_row_hit ch r else Ok false
  end.
Definition compare (p : Request -> res bool) (r1 r2 : Request) : res bool :=
  let! ready1 := p r1 in
  let! ready2 := p r2 in
  if xorb ready1 ready2 then Ok ready1 else Ok (rq_arrive r1 <=? rq_arrive r2).

(** The loop over the queue: [head] is the best so far, [i] the position of
    the first of [q]. *)
Fixpoint best (p : Request -> res bool) (head : nat * Request) (i : nat) (q : list Request)
    : res (nat * Request) :=
  match q with
  | [] => Ok head
  | r :: q =>
      let! keep := compare p (snd head) r in
      best p (if keep then head else (i, r)) (Datatypes.S i) q
  end.

(** The groups of rows that the requests of the queue hit. *)
Definition pre_group (vec : list Z) : list Z := take (scope (sp std) (cPRE std) + 1) vec.
Fixpoint hit_groups (ch : DRAM) (q : list Request) : res (list (list Z)) :=
  match q with
  | [] => Ok []
  | r :: q =>
      let! b := is_row_hit ch r in
      let! l := hit_groups ch q in
      Ok (if b then pre_group (rq_addr_vec r) :: l else l)
  end.
(** Serving the request would close a row that another one hits. *)
Definition violates (ch : DRAM) (hits : list (list Z)) (r : Request) : res bool :=
  let! hit := is_row_hit ch r in
  if hit then Ok false
  else let! opn := is_row_open ch r in
       Ok (opn && bool_decide (pre_group (rq_addr_vec r) ∈ hits)).
Fixpoint best_kind (ch : DRAM) (p : Request -> res bool) (hits : list (list Z))
    (head : option (nat * Request)) (i : nat) (q : list Request) : res (option (nat * Request)) :=
  match q with
  | [] => Ok head
  | r :: q =>
      let! v := violates ch hits r in
      if v then best_kind ch p hits head (Datatypes.S i) q
      else
        match head with
        | None => best_kind ch p hits (Some (i, r)) (Datatypes.S i) q
        | Some h =>
            let! keep := compare p (snd h) r in
            best_kind ch p hits (Some (if keep then h else (i, r))) (Datatypes.S i) q
        end
  end.

(** [Scheduler::get_head]: the position of the request, [None] for the end
    of the queue. *)
Definition get_head (ty : SchedType) (ch : DRAM) (clk : Z) (t : RowTable) (q : list Request)
    : res (option nat) :=
  match q with
  | [] => Ok None
  | r :: q' =>
      let! head := best (prefer ty ch clk t) (0%nat, r) 1 q' in
      match ty with
      | FRFCFS_PriorHit =>
          let! good := prefer FRFCFS_PriorHit ch clk t (snd head) in
          if good then Ok (Some (fst head))
          else
            let! hits := hit_groups ch q in
            let! h := best_kind ch (prefer FRFCFS ch clk t) hits None 0 q in
            Ok (option_map fst h)
      | _ => Ok (Some (fst head))
      end
  end.

(** ** [RowPolicy] *)
Definition timeout : Z := 50.

Definition keys_in_order (t : RowTable) : list (list Z) := merge_sort lex_le (map fst (map_to_list t)).
Fixpoint first_victim (ok : list Z -> res bool) (keys : list (list Z)) : res (list Z) :=
  match keys with
  | [] => Ok []
  | k :: keys => let! b := ok k in if b then Ok k else first_victim ok keys
  end.
(** [RowPolicy::get_victim]; the empty vector is "no victim". *)
Definition get_victim (ty : PolicyType) (ch : DRAM) (clk : Z) (t : RowTable) (cmd : C) : res (list Z) :=
  match ty with
  | PClosed | PClosedAP => first_victim (is_ready_cmd ch clk cmd) (keys_in_order t)
  | POpened => Ok []
  | PTimeout =>
      first_victim
        (fun k => if clk - en_timestamp (default (mk_Entry 0 0 0) (t !! k)) <? timeout then Ok false
                  else is_ready_cmd ch clk cmd k) (keys_in_order t)
  end.

End Sched.

(** ** What the scheduler chooses *)
Section Choice.
Context (p : Request -> res bool) (f : Request -> bool).

(** [r] is better than [r'] or as good: preferred, then older. *)
Definition no_worse (r r' : Request) : Prop :=
  (f r = true /\ f r' = false) \/ (f r = f r' /\ rq_arrive r <= rq_arrive r').
(** A preorder in which position decides ties. *)
Definition beats (i : nat) (r : Request) (j : nat) (r' : Request) : Prop :=
  no_worse r r' /\ (no_worse r' r -> (i <= j)%nat).

Lemma no_worse_trans r1 r2 r3 : no_worse r1 r2 -> no_worse r2 r3 -> no_worse r1 r3.
Proof. unfold no_worse. intros [[]|[]] [[]|[]]; try (left; split; congruence); right; split; [congruence|lia]. Qed.
Lemma no_worse_total r1 r2 : no_worse r1 r2 \/ no_worse r2 r1.
Proof. unfold no_worse. destruct (f r1), (f r2); try tauto; lia. Qed.
#[global] Instance no_worse_dec r1 r2 : Decision (no_worse r1 r2).
Proof. unfold no_worse. apply _. Defined.

Lemma compare_ok r1 r2 : p r1 = Ok (f r1) -> p r2 = Ok (f r2) ->
  compare p r1 r2 = Ok (bool_decide (no_worse r1 r2)).
Proof.
  intros E1 E2. unfold compare. rewrite E1, E2. cbn [bind].
  case_bool_decide as Hd; unfold no_worse in Hd; destruct (f r1), (f r2); cbn [xorb]; f_equal;
    try (apply Z.leb_le || apply Z.leb_gt); intuition (congruence || lia).
Qed.

Lemma beats_refl i r : beats i r i r.
Proof. split; [right; split; [done|lia]|done]. Qed.
Lemma beats_trans i a j b k c : beats i a j b -> beats j b k c -> beats i a k c.
Proof.
  intros [H1 H2] [H3 H4]. split; [by apply (no_worse_trans a b c)|].
  intros Hca. etransitivity; [apply H2|apply H4]; eauto using no_worse_trans.
Qed.

(** One comparison of the loop. *)
Lemma keep_beats (h : nat * Request) i r : (fst h < i)%nat ->
  let h' := if bool_decide (no_worse (snd h) r) then h else (i, r) in
  beats (fst h') (snd h') (fst h) (snd h) /\ beats (fst h') (snd h') i r.
Proof.
  intros Hi. case_bool_decide as Hd; cbn.
  - split; [apply beats_refl|]. split; [done|lia].
  - split; [|apply beats_refl]. split; [|done]. by destruct (no_worse_total (snd h) r).
Qed.

(** The loop finds the best request. *)
Lemma best_ok q : forall (h : nat * Request) i, (fst h < i)%nat -> p (snd h) = Ok (f (snd h)) ->
  (forall r, In r q -> p r = Ok (f r)) ->
  exists k r, best p h i q = Ok (k, r) /\ ((k, r) = h \/ (i <= k)%nat /\ q !! (k - i)%nat = Some r) /\
    beats k r (fst h) (snd h) /\ forall j r', q !! j = Some r' -> beats k r (i + j) r'.
Proof.
  induction q as [|r0 q IH]; intros h i Hi Hp Hq.
  { exists (fst h), (snd h). destruct h as [k r]. split_and!; [done|by left|apply beats_refl|done]. }
  cbn [best]. rewrite (compare_ok (snd h) r0) by auto using in_eq. cbn [bind].
  destruct (keep_beats h i r0 Hi) as [K1 K2]. set (h' := if bool_decide _ then h else (i, r0)) in *.
  assert (Hp' : p (snd h') = Ok (f (snd h'))) by (subst h'; case_bool_decide; cbn; auto using in_eq).
  assert (Hi' : (fst h' < S i)%nat) by (subst h'; case_bool_decide; cbn; lia).
  destruct (IH h' (S i) Hi' Hp' ltac:(auto using in_cons)) as (k & r & E & Hk & B & Bq).
  exists k, r. split; [exact E|]. split_and!.
  - destruct Hk as [Hk|[Hk El]].
    + subst h'. case_bool_decide; [by left|]. injection Hk as -> ->. right. by rewrite Nat.sub_diag.
    + right. split; [lia|]. by replace (k - i)%nat with (S (k - S i)) by lia.
  - eapply beats_trans; eauto.
  - intros [|j] r' Hr; cbn in Hr.
    + injection Hr as <-. rewrite Nat.add_0_r. eapply beats_trans; eauto.
    + rewrite Nat.add_succ_r. by apply (Bq j r').
Qed.

(** Over a whole queue. *)
Lemma best_of_queue r0 q : (forall r, In r (r0 :: q) -> p r = Ok (f r)) ->
  exists k r, best p (0%nat, r0) 1 q = Ok (k, r) /\ (r0 :: q) !! k = Some r /\
    forall j r', (r0 :: q) !! j = Some r' -> beats k r j r'.
Proof.
  intros Hp. destruct (best_ok q (0%nat, r0) 1 ltac:(cbn; lia)) as (k & r & E & Hk & B & Bq);
    [apply Hp, in_eq|intros r Hr; by apply Hp, in_cons|].
  exists k, r. split; [done|]. split.
  - destruct Hk as [[= -> ->]|[Hk El]]; [done|]. by replace k with (S (k - 1)) by lia.
  - intros [|j] r' Hr; [by injection Hr as <-|]. by apply (Bq j r').
Qed.

(** The second loop of [FRFCFS_PriorHit]: the best of those that do not
    violate. *)
Context {C St : Type} `{EqDecision C} (std : Std C St).

(** One round with a request that does not violate. *)
Lemma kind_step ch hits h i r q : (forall x, h = Some x -> (fst x < i)%nat /\ p (snd x) = Ok (f (snd x))) ->
  p r = Ok (f r) -> violates std ch hits r = Ok false ->
  exists h', best_kind std ch p hits h i (r :: q) = best_kind std ch p hits (Some h') (S i) q /\
    (Some h' = h \/ h' = (i, r)) /\ (forall x, h = Some x -> beats (fst h') (snd h') (fst x) (snd x)) /\
    beats (fst h') (snd h') i r.
Proof.
  intros Hh Hp Hv. cbn [best_kind]. rewrite Hv. cbn [bind]. destruct h as [h|].
  - destruct (Hh h eq_refl) as [Hi Hph]. rewrite (compare_ok (snd h) r) by done. cbn [bind].
    destruct (keep_beats h i r Hi) as [K1 K2]. eexists. split; [reflexivity|]. split_and!; [|by intros x [= <-]|done].
    case_bool_decide; auto.
  - exists (i, r). split_and!; [done|by right|done|apply beats_refl].
Qed.

Lemma best_kind_ok ch hits v q : forall (h : option (nat * Request)) i,
  (forall x, h = Some x -> (fst x < i)%nat /\ p (snd x) = Ok (f (snd x))) ->
  (forall r, In r q -> p r = Ok (f r) /\ violates std ch hits r = Ok (v r)) ->
  exists o, best_kind std ch p hits h i q = Ok o /\
    (forall k r, o = Some (k, r) ->
       (h = Some (k, r) \/ (i <= k)%nat /\ q !! (k - i)%nat = Some r /\ v r = false) /\
       (forall x, h = Some x -> beats k r (fst x) (snd x)) /\
       forall j r', q !! j = Some r' -> v r' = false -> beats k r (i + j) r') /\
    (o = None -> h = None /\ forall r, In r q -> v r = true).
Proof.
  induction q as [|r0 q IH]; intros h i Hh Hq.
  { exists h. split; [done|]. split; [|done]. intros k r ->. split_and!; [by left| |done].
    intros x [= <-]. apply beats_refl. }
  destruct (Hq r0 (in_eq _ _)) as [Hp0 Hv0].
  assert (Hq' : forall r, In r q -> p r = Ok (f r) /\ violates std ch hits r = Ok (v r)) by auto using in_cons.
  assert (Hs : forall k r : _, (S i <= k)%nat /\ q !! (k - S i)%nat = Some r /\ v r = false ->
    (i <= k)%nat /\ (r0 :: q) !! (k - i)%nat = Some r /\ v r = false).
  { intros k r (Hk & E & Ev). split_and!; [lia| |done]. by replace (k - i)%nat with (S (k - S i)) by lia. }
  destruct (v r0) eqn:Ev.
  - destruct (IH h (S i)) as (o & E & Ho & Hn); [intros x ->; destruct (Hh x eq_refl); split; [lia|done]|done|].
    exists o. cbn [best_kind]. rewrite Hv0. cbn [bind]. split; [done|]. split.
    + intros k r ->. destruct (Ho k r eq_refl) as (H1 & H2 & H3). split_and!; [|done|].
      * destruct H1 as [H1|H1]; [by left|right; by apply Hs].
      * intros [|j] r' Hr Hv; cbn in Hr; [congruence|]. rewrite Nat.add_succ_r. by apply (H3 j r').
    + intros ->. destruct (Hn eq_refl) as [-> Hall]. split; [done|]. intros r [<-|Hr]; auto.
  - destruct (kind_step ch hits h i r0 q Hh Hp0 Hv0) as (h' & E0 & K0 & K1 & K2).
    destruct (IH (Some h') (S i)) as (o & E & Ho & Hn); [|done|].
    { intros x [= <-]. destruct K0 as [<-| ->]; cbn; [destruct (Hh _ eq_refl)|]; split; (lia || done). }
    exists o. rewrite E0. split; [done|]. split; [|intros ->; by destruct (Hn eq_refl)].
    intros k r ->. destruct (Ho k r eq_refl) as (H1 & H2 & H3). specialize (H2 h' eq_refl). split_and!.
    + destruct H1 as [[= ->]|H1]; [|right; by apply Hs]. destruct K0 as [<-|[= -> ->]]; [by left|right].
      by rewrite Nat.sub_diag.
    + intros x Hx. eapply beats_trans; eauto.
    + intros [|j] r' Hr Hv; cbn in Hr; [injection Hr as <-; rewrite Nat.add_0_r; eapply beats_trans; eauto|].
      rewrite Nat.add_succ_r. by apply (H3 j r').
Qed.
End Choice.

Section Scheduler.
Context {C St : Type} `{EqDecision C} (std : Std C St) (ch : DRAM C St) (clk : Z) (t : RowTable).

(** The request at position [i] of [q] goes before every other: it is
    preferred, or as much preferred and older, or as old and ahead. *)
Definition chosen (f : Request -> bool) (q : list Request) (i : nat) (r : Request) : Prop :=
  q !! i = Some r /\ forall j r', q !! j = Some r' -> i <> j ->
    (f r = true /\ f r' = false) \/
    (f r = f r' /\ (rq_arrive r < rq_arrive r' \/ rq_arrive r = rq_arrive r' /\ (i < j)%nat)).

Lemma beats_chosen f i r j r' : beats f i r j r' -> i <> j ->
  (f r = true /\ f r' = false) \/
  (f r = f r' /\ (rq_arrive r < rq_arrive r' \/ rq_arrive r = rq_arrive r' /\ (i < j)%nat)).
Proof.
  intros [Hn Hp] Hij. destruct Hn as [Hn|[Hf Ha]]; [by left|right]. split; [done|].
  destruct (decide (rq_arrive r = rq_arrive r')) as [E|E]; [|lia]. right. split; [done|].
  enough (i <= j)%nat by lia. apply Hp. right. split; [done|lia].
Qed.

(** C38: [Scheduler::get_head] under FCFS, FR-FCFS and FR-FCFS with a cap: on
    an empty queue there is no request, otherwise it returns the one request
    that goes before all others, preferring what the policy prefers (nothing,
    ready requests, ready requests of rows below the cap), then the oldest,
    then the first in the queue. *)
Theorem scheduler_best ty f q : ty <> FRFCFS_PriorHit ->
  (forall r, In r q -> prefer std ty ch clk t r = Ok (f r)) ->
  (q = [] /\ get_head std ty ch clk t q = Ok None) \/
  exists i r, get_head std ty ch clk t q = Ok (Some i) /\ chosen f q i r.
Proof.
  intros Hty Hp. destruct q as [|r0 q]; [by left|right].
  destruct (best_of_queue _ f r0 q Hp) as (i & r & E & Hr & Hb).
  exists i, r. unfold get_head. rewrite E. cbn [bind fst]. split; [by destruct ty|].
  split; [done|]. intros j r' Hj Hij. by apply beats_chosen, Hij; apply Hb.
Qed.

Section PriorHit.
Context (q : list Request) (ready hit opn : Request -> bool).
Hypothesis ready_ok : forall r, In r q -> is_ready std ch clk r = Ok (ready r).
Hypothesis hit_ok : forall r, In r q -> is_row_hit std ch r = Ok (hit r).
Hypothesis opn_ok : forall r, In r q -> is_row_open std ch r = Ok (opn r).

(** A request whose service would close a row that some request hits. *)
Definition closes_hit (r : Request) : Prop :=
  hit r = false /\ opn r = true /\
  exists r', In r' q /\ hit r' = true /\ pre_group std (rq_addr_vec r') = pre_group std (rq_addr_vec r).

Lemma hit_groups_ok l : (forall r, In r l -> In r q) ->
  exists g, hit_groups std ch l = Ok g /\
    forall x, x ∈ g <-> exists r, In r l /\ hit r = true /\ pre_group std (rq_addr_vec r) = x.
Proof.
  induction l as [|r l IH]; intros Hl; [exists []; split; [done|]; intros x; split; [by intros ?%elem_of_nil|by intros (? & [] & _)]|].
  destruct IH as (g & E & Hg); [auto using in_cons|]. cbn [hit_groups].
  rewrite hit_ok by auto using in_eq. cbn [bind]. rewrite E. cbn [bind]. eexists. split; [reflexivity|].
  intros x. destruct (hit r) eqn:Eh.
  - rewrite elem_of_cons, Hg. split.
    + intros [-> |(r' & Hr & ?)]; [exists r|exists r']; auto using in_eq, in_cons.
    + intros (r' & [<-|Hr] & Hh & <-); [by left|right; eauto].
  - rewrite Hg. split; intros (r' & Hr & Hh & <-).
    + exists r'. auto using in_cons.
    + destruct Hr as [<-|Hr]; [congruence|eauto].
Qed.

Definition good (r : Request) : bool := ready r && hit r.
Lemma good_ok r : In r q -> prefer std FRFCFS_PriorHit ch clk t r = Ok (good r).
Proof.
  intros Hr. cbn [prefer]. rewrite ready_ok by done. cbn [bind]. unfold good.
  destruct (ready r); [by rewrite hit_ok|done].
Qed.

Lemma violates_ok g r : In r q ->
  (forall x, x ∈ g <-> exists r, In r q /\ hit r = true /\ pre_group std (rq_addr_vec r) = x) ->
  exists v, violates std ch g r = Ok v /\ (v = true <-> closes_hit r).
Proof.
  intros Hr Hg. unfold violates. rewrite hit_ok, opn_ok by done. unfold closes_hit. cbn [bind].
  destruct (hit r); [exists false; split; [done|]; split; [done|by intros [? _]]|].
  eexists. split; [reflexivity|]. rewrite andb_true_iff, bool_decide_eq_true, Hg. tauto.
Qed.

(** The whole function. *)
Lemma prior_head : q <> [] -> exists i r, q !! i = Some r /\
  (forall j r', q !! j = Some r' -> beats good i r j r') /\
  exists g, hit_groups std ch q = Ok g /\
   (forall x, x ∈ g <-> exists r, In r q /\ hit r = true /\ pre_group std (rq_addr_vec r) = x) /\
   get_head std FRFCFS_PriorHit ch clk t q =
     if good r then Ok (Some i)
     else let! h := best_kind std ch (prefer std FRFCFS ch clk t) g None 0 q in Ok (option_map fst h).
Proof.
  intros Hne. destruct (hit_groups_ok q ltac:(done)) as (g & Eg & Hg).
  pose proof good_ok as Hgood. unfold get_head. destruct q as [|r0 q'] eqn:Eq; [done|].
  destruct (best_of_queue _ good r0 q' Hgood) as (i & r & E & Hr & Hb).
  exists i, r. split; [done|]. split; [done|]. exists g. split; [done|]. split; [done|].
  rewrite E. cbn [bind fst snd]. rewrite Hgood by (by apply list_elem_of_In, (list_elem_of_lookup_2 _ i)).
  cbn [bind]. by rewrite Eg.
Qed.

(** [Scheduler::get_head] under FR-FCFS that gives priority to row hits:
    when a ready request hits an open row the oldest such request is chosen.
    Otherwise a request whose service would close a row that a queued request
    hits is never chosen; of the remaining ones it is the one FR-FCFS would
    choose, and none is chosen only when none remains. *)
Theorem prior_hit_keeps_rows :
  exists o, get_head std FRFCFS_PriorHit ch clk t q = Ok o /\
  ((exists i r, o = Some i /\ ready r = true /\ hit r = true /\ chosen (fun r => ready r && hit r) q i r) \/
   ((forall r, In r q -> ready r && hit r = false) /\
    match o with
    | Some i => exists r, q !! i = Some r /\ ~ closes_hit r /\
        forall j r', q !! j = Some r' -> ~ closes_hit r' -> i <> j ->
          (ready r = true /\ ready r' = false) \/
          (ready r = ready r' /\ (rq_arrive r < rq_arrive r' \/ rq_arrive r = rq_arrive r' /\ (i < j)%nat))
    | None => forall r, In r q -> closes_hit r
    end)).
Proof.
  destruct (decide (q = [])) as [Hnil|Hne]; [rewrite Hnil; exists None; split; [done|]; right; by split|].
  destruct (prior_head Hne) as (i & r & Hr & Hb & g & _ & Hg & ->). destruct (good r) eqn:Egood.
  { exists (Some i). split; [done|]. left. exists i, r. pose proof (andb_prop _ _ Egood) as [? ?].
    do 4 (split; [done|]). intros j r' Hj Hij. by apply (beats_chosen good), Hij; apply Hb. }
  set (v := fun r => match violates std ch g r with Ok b => b | Abort _ => false end).
  assert (Hv : forall r, In r q -> violates std ch g r = Ok (v r) /\ (v r = true <-> closes_hit r)).
  { intros x Hx. unfold v. by destruct (violates_ok g x Hx Hg) as (b & -> & ?). }
  destruct (best_kind_ok (prefer std FRFCFS ch clk t) ready std ch g v q None 0 ltac:(done)
    (fun x Hx => conj (ready_ok x Hx) (proj1 (Hv x Hx)))) as (o & Eo & Ho & Hn).
  rewrite Eo. cbn [bind]. eexists. split; [reflexivity|]. right. split.
  { intros r' Hr'. apply list_elem_of_In, list_elem_of_lookup_1 in Hr' as (j & Hj).
    destruct (Hb j r' Hj) as [[[? _]|[Hx _]] _]; [congruence|]. fold (good r'). congruence. }
  assert (Hin : forall j x, q !! j = Some x -> In x q) by (intros j x Hx; by apply list_elem_of_In, (list_elem_of_lookup_2 _ j)).
  destruct o as [[k x]|]; cbn [option_map fst].
  - destruct (Ho k x eq_refl) as ([?|(_ & Hk & Hx)] & _ & Hbest); [done|]. rewrite Nat.sub_0_r in Hk.
    exists x. split; [done|]. split; [rewrite <- (proj2 (Hv x (Hin _ _ Hk))); congruence|]. intros j r' Hj Hc Hij.
    apply beats_chosen, Hij. apply (Hbest j r' Hj). rewrite <- (proj2 (Hv r' (Hin _ _ Hj))) in Hc. by destruct (v r').
  - intros x Hx. apply (Hv x Hx). by apply (Hn eq_refl).
Qed.
End PriorHit.

(** When the questions it asks can be answered, [get_head] answers, with a
    position of the queue. *)
Definition answer (m : res bool) : bool := match m with Ok b => b | Abort _ => false end.
Lemma answer_ok m : is_ok m = true -> m = Ok (answer m).
Proof. by destruct m. Qed.

Lemma get_head_total ty q : (forall r, In r q -> is_ok (is_ready std ch clk r) = true /\
    is_ok (is_row_hit std ch r) = true /\ is_ok (is_row_open std ch r) = true) ->
  exists o, get_head std ty ch clk t q = Ok o /\ forall i, o = Some i -> is_Some (q !! i).
Proof.
  intros Hq. set (ready := fun r => answer (is_ready std ch clk r)). set (hit := fun r => answer (is_row_hit std ch r)).
  set (opn := fun r => answer (is_row_open std ch r)).
  assert (H1 : forall r, In r q -> is_ready std ch clk r = Ok (ready r)) by (intros r Hr; by apply answer_ok, Hq).
  assert (H2 : forall r, In r q -> is_row_hit std ch r = Ok (hit r)) by (intros r Hr; by apply answer_ok, Hq).
  assert (H3 : forall r, In r q -> is_row_open std ch r = Ok (opn r)) by (intros r Hr; by apply answer_ok, Hq).
  destruct (decide (q = [])) as [->|Hne]; [exists None; by split|].
  assert (Hplain : forall f, ty <> FRFCFS_PriorHit -> (forall r, In r q -> prefer std ty ch clk t r = Ok (f r)) ->
    exists o, get_head std ty ch clk t q = Ok o /\ forall i, o = Some i -> is_Some (q !! i)).
  { intros f Hty Hf. destruct q as [|r0 q']; [done|]. destruct (best_of_queue _ f r0 q' Hf) as (i & r & E & Hr & _).
    exists (Some i). unfold get_head. rewrite E. split; [by destruct ty|]. intros j [= <-]. eauto. }
  destruct ty.
  - by apply (Hplain (fun _ => false)).
  - by apply (Hplain ready).
  - apply (Hplain (fun r => ready r && (get_hits std t (rq_addr_vec r) false <=? cap))); [done|].
    intros r Hr. cbn [prefer]. by rewrite H1.
  - destruct (prior_head q ready hit opn H1 H2 H3 Hne) as (i & r & Hr & _ & g & _ & Hg & ->).
    destruct (good ready hit r); [exists (Some i); split; [done|]; intros j [= <-]; eauto|].
    set (v := fun r => answer (violates std ch g r)).
    assert (Hv : forall r, In r q -> violates std ch g r = Ok (v r)).
    { intros x Hx. unfold v. by destruct (violates_ok q hit opn H2 H3 g x Hx Hg) as (b & -> & _). }
    destruct (best_kind_ok (prefer std FRFCFS ch clk t) ready std ch g v q None 0 ltac:(done)
      (fun x Hx => conj (H1 x Hx) (Hv x Hx))) as (o & -> & Ho & _).
    cbn [bind]. eexists. split; [reflexivity|]. intros j Hj. destruct o as [[k x]|]; [|done]. injection Hj as <-.
    destruct (Ho k x eq_refl) as ([?|(_ & Hk & _)] & _); [done|]. rewrite Nat.sub_0_r in Hk. eauto.
Qed.
End Scheduler.
