(* ===== verification/Cache.v ===== *)
(** * The caches

    [ramulator/src/Cache.h] and [Cache.cpp]: sets of lines in the order of
    their last use, miss registers, and a tree of caches in which a cache
    invalidates the caches above it and asks the one below it. *)
From Stdlib Require Import ZArith Lia Bool String.
From stdpp Require Import base list gmap.
From S2P Require Import Prelude RamIf Sched AddrMap.

(** [Cache::Level] *)
Inductive Level : Type := L1 | L2 | L3 | LMAX.
#[global] Instance Level_eq_dec : EqDecision Level.
Proof. solve_decision. Defined.

(** [latency] and [latency_each] *)
Definition latency (l : Level) : Z := match l with L1 => 4 | L2 => 4 + 12 | L3 => 4 + 12 + 31 | LMAX => 0 end.
Definition latency_each (l : Level) : Z := match l with L1 => 4 | L2 => 12 | L3 => 31 | LMAX => 0 end.

(** [Cache::Line]; [ln_node] stands for the address of its node in the list,
    which is what an iterator holds. *)
Record Line : Type := mk_Line {
  ln_addr : Z;
  ln_tag : Z;
  ln_lock : bool;
  ln_dirty : bool;
  ln_node : Z
}.
Definition set_lock (b : bool) (l : Line) : Line := mk_Line (ln_addr l) (ln_tag l) b (ln_dirty l) (ln_node l).
Definition set_dirty (b : bool) (l : Line) : Line := mk_Line (ln_addr l) (ln_tag l) (ln_lock l) b (ln_node l).

(** The counters of a cache *)
Inductive stat : Type :=
| cache_read_miss | cache_write_miss | cache_total_miss | cache_eviction | cache_read_access | cache_write_access
| cache_total_access | cache_mshr_hit | cache_mshr_unavailable | cache_set_unavailable.
#[global] Instance stat_eq_dec : EqDecision stat.
Proof. solve_decision. Defined.

(** The members that do not change once the hierarchy is built; caches are
    known by their position. *)
Record shape : Type := mk_shape {
  level : Level;
  is_first_level : bool;
  is_last_level : bool;
  csize : Z;
  assoc : Z;
  block_num : Z;
  index_mask : Z;
  block_size : Z;
  index_offset : Z;
  tag_offset : Z;
  mshr_entry_num : Z;
  higher_cache : list nat;
  lower_cache : option nat
}.
Record Cache : Type := mk_Cache {
  cshape : shape;
  mshr_entries : list (Z * Z);
  retry_list : list Request;
  cache_lines : gmap Z (list Line);
  cstats : stat -> Z
}.
#[global] Coercion cshape : Cache >-> shape.
Definition set_mshr (l : list (Z * Z)) (c : Cache) : Cache := mk_Cache (cshape c) l (retry_list c) (cache_lines c) (cstats c).
Definition set_retry (l : list Request) (c : Cache) : Cache := mk_Cache (cshape c) (mshr_entries c) l (cache_lines c) (cstats c).
Definition set_lines (m : gmap Z (list Line)) (c : Cache) : Cache := mk_Cache (cshape c) (mshr_entries c) (retry_list c) m (cstats c).
Definition bump (x : stat) (c : Cache) : Cache :=
  mk_Cache (cshape c) (mshr_entries c) (retry_list c) (cache_lines c) (fun y => if decide (x = y) then cstats c y + 1 else cstats c y).
Definition set_higher (l : list nat) (s : shape) : shape :=
  mk_shape (level s) (is_first_level s) (is_last_level s) (csize s) (assoc s) (block_num s) (index_mask s) (block_size s)
    (index_offset s) (tag_offset s) (mshr_entry_num s) l (lower_cache s).
Definition set_lower (j : option nat) (s : shape) : shape :=
  mk_shape (level s) (is_first_level s) (is_last_level s) (csize s) (assoc s) (block_num s) (index_mask s) (block_size s)
    (index_offset s) (tag_offset s) (mshr_entry_num s) (higher_cache s) j.
Definition set_shape (s : shape) (c : Cache) : Cache := mk_Cache s (mshr_entries c) (retry_list c) (cache_lines c) (cstats c).

(** The constructor; [unsigned int] members are 32 bits wide. *)
Definition Cache_new (size assoc block_size mshr_entry_num : Z) (level first last : Level) : res Cache :=
  assert! (Z.land size (size - 1) =? 0), "size is not a power of two" in
  assert! (Z.land block_size (block_size - 1) =? 0), "block_size is not a power of two" in
  assert! (Z.land assoc (assoc - 1) =? 0), "assoc is not a power of two" in
  assert! (block_size <=? size), "size >= block_size" in
  let block_num := Z.quot size (block_size * assoc) in
  let index_offset := calc_log2 block_size in
  Ok (mk_Cache (mk_shape level (bool_decide (level = first)) (bool_decide (level = last)) size assoc block_num (u32 (block_num - 1)) block_size
                  index_offset (calc_log2 block_num + index_offset) mshr_entry_num [] None)
        [] [] ∅ (fun _ => 0)).

Definition get_index (s : shape) (addr : Z) : Z := s32 (Z.land (Z.shiftr addr (index_offset s)) (index_mask s)).
Definition get_tag (s : shape) (addr : Z) : Z := Z.shiftr addr (tag_offset s).
Definition align (s : shape) (addr : Z) : Z := Z.land addr (Z.lnot (block_size s - 1)).

(** ** One set *)
Definition find_tag (tag : Z) (lines : list Line) : option Line := List.find (fun l => ln_tag l =? tag) lines.
Definition erase (n : Z) (lines : list Line) : list Line := List.filter (fun l => negb (ln_node l =? n)) lines.
Definition all_sets_locked (s : shape) (lines : list Line) : bool :=
  if Z.of_nat (length lines) <? assoc s then false else forallb ln_lock lines.
Definition need_eviction (s : shape) (lines : list Line) (addr : Z) : res bool :=
  match find_tag (get_tag s addr) lines with
  | Some _ => Abort "need_eviction"
  | None => Ok (negb (Z.of_nat (length lines) <? assoc s))
  end.
(** [is_hit]: the line found, if it is not locked *)
Definition is_hit (s : shape) (lines : list Line) (addr : Z) : option Line :=
  match find_tag (get_tag s addr) lines with
  | Some l => if ln_lock l then None else Some l
  | None => None
  end.

(** ** One cache *)
Definition lines_of (c : Cache) (addr : Z) : list Line := default [] (cache_lines c !! get_index c addr).
(** [get_lines] creates the set. *)
Definition get_lines (addr : Z) (c : Cache) : Cache := set_lines (<[get_index c addr := lines_of c addr]> (cache_lines c)) c.
Definition put_set (addr : Z) (lines : list Line) (c : Cache) : Cache := set_lines (<[get_index c addr := lines]> (cache_lines c)) c.
Definition hit_mshr (c : Cache) (addr : Z) : option (Z * Z) :=
  List.find (fun e => align c (fst e) =? align c addr) (mshr_entries c).
(** Writing through an iterator: its node has to be in a list. *)
Definition has_node (n : Z) (c : Cache) : bool :=
  existsb (fun e => existsb (fun l => ln_node l =? n) (snd e)) (map_to_list (cache_lines c)).
Definition map_node (n : Z) (f : Line -> Line) (c : Cache) : Cache :=
  set_lines ((fun ls => map (fun l => if ln_node l =? n then f l else l) ls) <$> cache_lines c) c.
Definition write_node (n : Z) (f : Line -> Line) (c : Cache) : res Cache :=
  if has_node n c then Ok (map_node n f c) else Abort "dangling iterator".

(** ** The hierarchy

    [CacheSystem] with its caches, and the nodes that were allocated *)
Record Caches : Type := mk_Caches {
  cclk : Z;
  wait_list : list (Z * Request);
  hit_list : list (Z * Request);
  caches : list Cache;
  next_node : Z
}.
Definition set_caches (l : list Cache) (s : Caches) : Caches := mk_Caches (cclk s) (wait_list s) (hit_list s) l (next_node s).
Definition set_wait (l : list (Z * Request)) (s : Caches) : Caches := mk_Caches (cclk s) l (hit_list s) (caches s) (next_node s).
Definition set_hit (l : list (Z * Request)) (s : Caches) : Caches := mk_Caches (cclk s) (wait_list s) l (caches s) (next_node s).
Definition set_cclk (t : Z) (s : Caches) : Caches := mk_Caches t (wait_list s) (hit_list s) (caches s) (next_node s).
(** A new node *)
Definition bump_node (s : Caches) : Caches := mk_Caches (cclk s) (wait_list s) (hit_list s) (caches s) (next_node s + 1).

Definition cget (i : nat) (s : Caches) : res Cache :=
  match caches s !! i with Some c => Ok c | None => Abort "null cache" end.
Definition cput (i : nat) (c : Cache) (s : Caches) : Caches := set_caches (<[i := c]> (caches s)) s.

(** [concatlower] *)
Definition concatlower (i j : nat) (s : Caches) : res Caches :=
  let! c := cget i s in
  let s := cput i (set_shape (set_lower (Some j) c) c) s in
  let! d := cget j s in
  Ok (cput j (set_shape (set_higher (higher_cache d ++ [i]) d) d) s).

(** A line is replaced by a new one at the end of its set: it was used. *)
Definition use_line (addr : Z) (dirty : bool) (l : Line) (i : nat) (c : Cache) (s : Caches) : Caches :=
  let lines := erase (ln_node l) (lines_of c addr ++ [mk_Line addr (get_tag c addr) false dirty (next_node s)]) in
  bump_node (cput i (put_set addr lines c) s).

Section Cache.
(** What the memory of a line reads as once its node has been freed:
    [invalidate] looks at a line that it has erased. *)
Context (freed : Line -> Line).

(** The loop over the higher caches that stops at a locked line *)
Fixpoint all_higher (f : nat -> res bool) (l : list nat) (check : bool) : res bool :=
  match l with
  | [] => Ok check
  | h :: l => if negb check then Ok check else let! b := f h in all_higher f l (check && b)
  end.
(** [check_unlock] *)
Fixpoint check_unlock (fuel : nat) (i : nat) (addr : Z) (s : Caches) : res bool :=
  match fuel with
  | O => Abort "depth"
  | S fuel =>
      let! c := cget i s in
      match cache_lines c !! get_index c addr with
      | None => Ok true
      | Some lines =>
          match find_tag (get_tag c addr) lines with
          | None => Ok true
          | Some line =>
              let check := negb (ln_lock line) in
              if is_first_level c then Ok check
              else all_higher (fun h => check_unlock fuel h (ln_addr line) s) (higher_cache c) check
          end
      end
  end.

(** A loop over the higher caches that changes them *)
Fixpoint each_higher {X} (f : nat -> X -> Caches -> res (X * Caches)) (l : list nat) (x : X) (s : Caches) : res (X * Caches) :=
  match l with
  | [] => Ok (x, s)
  | h :: l => let! (x, s) := f h x s in each_higher f l x s
  end.
(** [invalidate]: the latency and whether the value was changed *)
Fixpoint invalidate (fuel : nat) (i : nat) (addr : Z) (s : Caches) : res ((Z * bool) * Caches) :=
  match fuel with
  | O => Abort "depth"
  | S fuel =>
      let! c := cget i s in
      let delay := latency_each (level c) in
      let c := get_lines addr c in
      let s := cput i c s in
      match lines_of c addr with
      | [] => Ok ((0, false), s)
      | _ :: _ =>
          match find_tag (get_tag c addr) (lines_of c addr) with
          | None => Ok ((delay, false), s)
          | Some line =>
              assert! negb (ln_lock line), "invalidate locked line" in
              let s := cput i (put_set addr (erase (ln_node line) (lines_of c addr)) c) s in
              let line := freed line in
              match higher_cache c with
              | [] => Ok ((delay, ln_dirty line), s)
              | _ :: _ =>
                  each_higher (fun h x s =>
                    let '(max_delay, dirty) := x in
                    let! (r, s) := invalidate fuel h addr s in
                    let max_delay := Z.max max_delay (if snd r : bool then delay + fst r * 2 else delay + fst r) in
                    Ok ((max_delay, dirty || ln_dirty line || snd r), s)) (higher_cache c) (delay, false) s
              end
          end
      end
  end.

(** [evictline] *)
Definition evictline (i : nat) (addr : Z) (dirty : bool) (s : Caches) : res Caches :=
  let! c := cget i s in
  match cache_lines c !! get_index c addr with
  | None => Abort "inclusive cache"
  | Some lines =>
      match find_tag (get_tag c addr) lines with
      | None => Abort "inclusive cache"
      | Some line => Ok (use_line addr (dirty || ln_dirty line) line i c s)
      end
  end.

(** [evict]: the victim is in the set of [addr] of cache [i]. *)
Definition evict (fuel : nat) (i : nat) (addr : Z) (victim : Line) (s : Caches) : res Caches :=
  let! c := cget i s in
  let s := cput i (bump cache_eviction c) s in
  let! ((time, dirty), s) :=
    each_higher (fun h x s =>
      let '(time, dirty) := x in
      let! (r, s) := invalidate fuel h (ln_addr victim) s in
      Ok ((Z.max time (fst r + (if snd r : bool then latency_each (level c) else 0)), dirty || snd r || ln_dirty victim), s))
      (higher_cache c) (0, ln_dirty victim) s in
  let! s :=
    if negb (is_last_level c) then
      match lower_cache c with
      | None => Abort "lower_cache"
      | Some j => evictline j (ln_addr victim) dirty s
      end
    else
      Ok (if dirty : bool
          then set_wait (wait_list s ++ [(cclk s + time + latency (level c), Request_new (ln_addr victim) WRITE 0 0)]) s
          else s) in
  let! c := cget i s in
  Ok (cput i (put_set addr (erase (ln_node victim) (lines_of c addr)) c) s).

(** The victim: the first line that is locked in no cache *)
Fixpoint find_victim (fuel : nat) (c : Cache) (s : Caches) (lines : list Line) : res (option Line) :=
  match lines with
  | [] => Ok None
  | l :: lines =>
      let check := negb (ln_lock l) in
      let! ok := if negb (is_first_level c) then all_higher (fun h => check_unlock fuel h (ln_addr l) s) (higher_cache c) check
                 else Ok check in
      if ok : bool then Ok (Some l) else find_victim fuel c s lines
  end.
(** [allocate_line]: the node of the new line, which is locked and clean *)
Definition allocate_line (fuel : nat) (i : nat) (addr : Z) (s : Caches) : res (option Z * Caches) :=
  let! c := cget i s in
  let! need := need_eviction c (lines_of c addr) addr in
  let! (go, s) :=
    if need : bool then
      let! v := find_victim fuel c s (lines_of c addr) in
      match v with
      | None => Ok (false, s)
      | Some v => let! s := evict fuel i addr v s in Ok (true, s)
      end
    else Ok (true, s) in
  if go : bool then
    let! c := cget i s in
    let n := next_node s in
    Ok (Some n, bump_node (cput i (put_set addr (lines_of c addr ++ [mk_Line addr (get_tag c addr) true false n]) c) s))
  else Ok (None, s).

Definition set_type (t : ReqType) (r : Request) : Request :=
  mk_Request (rq_first r) (rq_addr r) (rq_addr_vec r) (rq_coreid r) (rq_id r) t (rq_arrive r) (rq_depart r).

(** [send] on a miss, up to the request to the level below: [None] when the
    answer is known *)
Definition miss (fuel : nat) (i : nat) (req : Request) (s : Caches) : res (option bool * Caches) :=
  let dirty := ReqType_eqb (rq_type req) WRITE in
  let addr := rq_addr req in
  let! c := cget i s in
  match hit_mshr c addr with
  | Some (_, n) =>
      let c := bump cache_mshr_hit c in
      let! c := write_node n (fun l => set_dirty (dirty || ln_dirty l) l) c in
      Ok (Some true, cput i c s)
  | None =>
      if Z.of_nat (length (mshr_entries c)) =? mshr_entry_num c then Ok (Some false, cput i (bump cache_mshr_unavailable c) s)
      else if all_sets_locked c (lines_of c addr) then Ok (Some false, cput i (bump cache_set_unavailable c) s)
      else
        let! (newline, s) := allocate_line fuel i addr s in
        match newline with
        | None => Ok (Some false, s)
        | Some n =>
            let! c := cget i s in
            let! c := write_node n (set_dirty dirty) c in
            Ok (None, cput i (set_mshr (mshr_entries c ++ [(addr, n)]) c) s)
        end
  end.
(** [send] *)
Fixpoint send (fuel : nat) (i : nat) (req : Request) (s : Caches) : res (bool * Caches) :=
  match fuel with
  | O => Abort "depth"
  | S fuel =>
      let addr := rq_addr req in
      let write := ReqType_eqb (rq_type req) WRITE in
      let! c := cget i s in
      let c := bump cache_total_access c in
      assert! write || ReqType_eqb (rq_type req) READ, "type of a request to a cache" in
      let c := bump (if write then cache_write_access else cache_read_access) c in
      let c := get_lines addr c in
      match is_hit c (lines_of c addr) addr with
      | Some line =>
          let s := use_line addr (ln_dirty line || write) line i c s in
          Ok (true, set_hit (hit_list s ++ [(cclk s + latency (level c), req)]) s)
      | None =>
          let c := bump (if write then cache_write_miss else cache_read_miss) (bump cache_total_miss c) in
          let! (known, s) := miss (S fuel) i req (cput i c s) in
          match known with
          | Some b => Ok (b, s)
          | None =>
              let req := set_type READ req in
              if negb (is_last_level c) then
                match lower_cache c with
                | None => Abort "null cache"
                | Some j =>
                    let! (b, s) := send fuel j req s in
                    if b : bool then Ok (true, s)
                    else
                      let! c := cget i s in
                      Ok (true, cput i (set_retry (retry_list c ++ [req]) c) s)
                end
              else Ok (true, set_wait (wait_list s ++ [(cclk s + latency (level c), req)]) s)
          end
      end
  end.

(** [mshr_entries.erase(hit_mshr(addr))] *)
Fixpoint erase_mshr (s : shape) (addr : Z) (l : list (Z * Z)) : list (Z * Z) :=
  match l with
  | [] => []
  | e :: l => if align s (fst e) =? align s addr then l else e :: erase_mshr s addr l
  end.
(** [callback], up to the loop over the higher caches *)
Definition unlock (addr : Z) (c : Cache) : res Cache :=
  match hit_mshr c addr with
  | None => Ok c
  | Some (_, n) =>
      let! c := write_node n (set_lock false) c in
      Ok (set_mshr (erase_mshr c addr (mshr_entries c)) c)
  end.
(** [callback] *)
Fixpoint callback (fuel : nat) (i : nat) (addr : Z) (s : Caches) : res Caches :=
  match fuel with
  | O => Abort "depth"
  | S fuel =>
      let! c := cget i s in
      let! c := unlock addr c in
      let! (_, s) := each_higher (fun h x s => let! s := callback fuel h addr s in Ok (x, s)) (higher_cache c) tt (cput i c s) in
      Ok s
  end.

(** The loop of [tick] over the requests that the cache below has refused,
    from position [p] on, of which [n] are left; erasing steps over the next
    one, and over the end of the list when the last one is erased. *)
Fixpoint retry_loop (fuel : nat) (i j : nat) (n p : nat) (s : Caches) : res Caches :=
  match n with
  | O => Ok s
  | S n =>
      let! c := cget i s in
      match retry_list c !! p with
      | None => Ok s
      | Some r =>
          let! (b, s) := send fuel j r s in
          if b : bool then
            let! c := cget i s in
            let l := delete p (retry_list c) in
            let s := cput i (set_retry l c) s in
            if (p =? length l)%nat then Abort "iterator past the end" else retry_loop fuel i j n (S p) s
          else retry_loop fuel i j n (S p) s
      end
  end.
(** [Cache::tick] *)
Fixpoint tick (fuel : nat) (i : nat) (s : Caches) : res Caches :=
  match fuel with
  | O => Abort "depth"
  | S fuel =>
      let! c := cget i s in
      match lower_cache c with
      | None => Abort "null cache"
      | Some j =>
          let! d := cget j s in
          let! s := if negb (is_last_level d) then tick fuel j s else Ok s in
          let! c := cget i s in
          retry_loop (S fuel) i j (length (retry_list c)) 0 s
      end
  end.

(** ** [CacheSystem] and [Processor]

    The last-level caches [roots] get the callbacks of [Processor::receive]. *)
Definition receive (fuel : nat) (roots : list nat) (addr : Z) (s : Caches) : res Caches :=
  let! (_, s) := each_higher (fun r x s => let! s := callback fuel r addr s in Ok (x, s)) roots tt s in
  Ok s.

(** [CacheSystem::tick]: the requests that are due go to the memory until one
    is not due; one that the memory refuses stays. *)
Fixpoint send_due {M} (send_memory : Request -> M -> res (bool * M)) (clk : Z) (l : list (Z * Request)) (m : M)
  : res (list (Z * Request) * M) :=
  match l with
  | [] => Ok ([], m)
  | (t, r) :: l' =>
      if t <=? clk then
        let! (b, m) := send_memory r m in
        let! (k, m) := send_due send_memory clk l' m in
        Ok (if b : bool then k else (t, r) :: k, m)
      else Ok (l, m)
  end.
(** The hits that are due are called back. *)
Fixpoint call_hits (fuel : nat) (roots : list nat) (l kept : list (Z * Request)) (s : Caches) : res Caches :=
  match l with
  | [] => Ok (set_hit kept s)
  | (t, r) :: l =>
      if t <=? cclk s then let! s := receive fuel roots (rq_addr r) s in call_hits fuel roots l kept s
      else call_hits fuel roots l (kept ++ [(t, r)]) s
  end.
Definition CacheSystem_tick {M} (send_memory : Request -> M -> res (bool * M)) (fuel : nat) (roots : list nat) (s : Caches) (m : M)
  : res (Caches * M) :=
  let s := set_cclk (cclk s + 1) s in
  let! (l, m) := send_due send_memory (cclk s) (wait_list s) m in
  let! s := call_hits fuel roots (hit_list s) [] (set_wait l s) in
  Ok (s, m).
End Cache.

(** [CacheSystem::CacheSystem]: the first and the last level; [uninit] is
    what [first_level] holds when there are no caches. *)
Definition CacheSystem_new (has_core_caches has_l3_cache : bool) (uninit : Level) : Level * Level :=
  (if has_core_caches then L1 else if has_l3_cache then L3 else uninit,
   if has_l3_cache then L3 else if has_core_caches then L2 else LMAX).

(** The caches of [Core::Core]: the last two caches of the list *)
Definition Core_caches (levels : Level * Level) (llc : option nat) (s : Caches) : res Caches :=
  let! l2 := Cache_new (2 ^ 18) (2 ^ 3) (2 ^ 6) 16 L2 (fst levels) (snd levels) in
  let! l1 := Cache_new (2 ^ 15) (2 ^ 3) (2 ^ 6) 16 L1 (fst levels) (snd levels) in
  let n := length (caches s) in
  let s := set_caches (caches s ++ [l2; l1]) s in
  let! s := match llc with Some j => concatlower n j s | None => Ok s end in
  concatlower (S n) n s.
Fixpoint Cores_caches (levels : Level * Level) (llc : option nat) (cores : nat) (s : Caches) : res Caches :=
  match cores with
  | O => Ok s
  | S cores => let! s := Core_caches levels llc s in Cores_caches levels llc cores s
  end.
(** [Processor::Processor]: cache 0 is [llc]. *)
Definition Processor_caches (has_core_caches has_l3_cache : bool) (uninit : Level) (cores : nat) : res Caches :=
  let levels := CacheSystem_new has_core_caches has_l3_cache uninit in
  let! llc := Cache_new (2 ^ 23) (2 ^ 3) (2 ^ 6) (16 * Z.of_nat cores) L3 (fst levels) (snd levels) in
  let s := mk_Caches 0 [] [] [llc] 0 in
  if has_core_caches then Cores_caches levels (if has_l3_cache then Some 0%nat else None) cores s else Ok s.
(** The caches that [Processor::receive] calls *)
Definition Processor_roots (has_core_caches has_l3_cache : bool) (cores : nat) : list nat :=
  if has_l3_cache then [0%nat] else if has_core_caches then (fun k => 1 + 2 * k)%nat <$> seq 0 cores else [].
