(* ===== verification/CacheSet.v ===== *)
(** * One cache

    The lines a cache holds and its miss registers: what is kept by every
    operation on one cache, and what each of them does to the blocks the
    cache holds. *)
From Stdlib Require Import ZArith Lia Bool String.
From stdpp Require Import base list gmap.
From S2P Require Import Prelude RamIf Sched AddrMap Cache.

(** ** Blocks

    Two addresses are of the same block when they differ in the offset only. *)
Definition block (o a : Z) : Z := Z.shiftr a o.

(** What the constructor makes of sizes that are powers of two *)
Record geom (o : Z) (s : shape) : Prop := {
  g_offset : index_offset s = o;
  g_nonneg : 0 <= o;
  g_block : block_size s = 2 ^ o;
  g_bits : exists k, 0 <= k <= 31 /\ index_mask s = 2 ^ k - 1 /\ tag_offset s = k + o;
  g_assoc : 0 < assoc s
}.

Section Geometry.
Context (o : Z) (s : shape) (G : geom o s).

Lemma index_block : exists k, 0 <= k /\ forall a, get_index s a = block o a mod 2 ^ k /\ get_tag s a = block o a / 2 ^ k.
Proof.
  destruct G as [Ho Hp _ (k & Hk & Hm & Ht) _]. exists k. split; [lia|]. intros a. unfold get_index, get_tag, block.
  rewrite Ho, Hm, Ht. split.
  - replace (2 ^ k - 1) with (Z.ones k) by (rewrite Z.ones_equiv; lia). rewrite Z.land_ones by lia. apply s32_small.
    pose proof (Z.mod_pos_bound (Z.shiftr a o) (2 ^ k) ltac:(lia)). pose proof (Z.pow_le_mono_r 2 k 31 ltac:(lia) ltac:(lia)). lia.
  - rewrite Z.add_comm, <- Z.shiftr_shiftr, (Z.shiftr_div_pow2 (Z.shiftr a o)) by lia. done.
Qed.
(** Index and tag make up the block, *)
Lemma index_tag a b : get_index s a = get_index s b /\ get_tag s a = get_tag s b <-> block o a = block o b.
Proof.
  destruct index_block as (k & Hk & H). destruct (H a) as [-> ->], (H b) as [-> ->]. split; [|by intros ->].
  intros [Hm Hd]. by rewrite (Z.div_mod (block o a) (2 ^ k)), (Z.div_mod (block o b) (2 ^ k)), Hm, Hd by lia.
Qed.
Lemma index_of a b : block o a = block o b -> get_index s a = get_index s b.
Proof. by intros [? _]%index_tag. Qed.
Lemma tag_of a b : block o a = block o b -> get_tag s a = get_tag s b.
Proof. by intros [_ ?]%index_tag. Qed.
(** and so does the aligned address. *)
Lemma align_block a b : align s a = align s b <-> block o a = block o b.
Proof.
  destruct G as [_ Hp Hb _ _]. unfold align. rewrite Hb.
  assert (Ha : forall x, Z.land x (Z.lnot (2 ^ o - 1)) = Z.shiftl (block o x) o).
  { intros x. replace (2 ^ o - 1) with (Z.ones o) by (rewrite Z.ones_equiv; lia). by rewrite <- Z.ldiff_land, Z.ldiff_ones_r. }
  rewrite !Ha. split; [|by intros ->]. intros H. apply (f_equal (fun z => Z.shiftr z o)) in H.
  by rewrite !Z.shiftr_shiftl_l, !Z.sub_diag, !Z.shiftl_0_r in H by lia.
Qed.
End Geometry.

(** ** The lines of a cache *)
Definition holds (c : Cache) (l : Line) : Prop := l ∈ lines_of c (ln_addr l).
Definition line_at (c : Cache) (a : Z) : option Line := find_tag (get_tag c a) (lines_of c a).
(** Whether the block of [a] is there, and locked *)
Definition lock_at (c : Cache) (a : Z) : option bool := ln_lock <$> line_at c a.

(** Lines are in the set of their index with their tag, no two with the same
    tag, at most as many as the cache has ways; a node is that of one line. *)
Record lines_ok (o n : Z) (c : Cache) : Prop := {
  lo_geom : geom o c;
  lo_set : forall i ls l, cache_lines c !! i = Some ls -> l ∈ ls -> i = get_index c (ln_addr l) /\ ln_tag l = get_tag c (ln_addr l) /\ ln_node l < n;
  lo_tags : forall i ls, cache_lines c !! i = Some ls -> NoDup (ln_tag <$> ls) /\ Z.of_nat (length ls) <= assoc c;
  lo_nodes : forall l l', holds c l -> holds c l' -> ln_node l = ln_node l' -> l = l'
}.

Lemma find_tag_some t ls l : find_tag t ls = Some l -> l ∈ ls /\ ln_tag l = t.
Proof. intros H. apply find_some in H as [H1 H2]. split; [by apply list_elem_of_In|]. by apply Z.eqb_eq in H2. Qed.
Lemma find_tag_none t ls l : find_tag t ls = None -> l ∈ ls -> ln_tag l <> t.
Proof. intros H Hl. apply list_elem_of_In in Hl. pose proof (find_none _ _ H _ Hl). by apply Z.eqb_neq. Qed.
Lemma find_tag_in t ls l : NoDup (ln_tag <$> ls) -> l ∈ ls -> ln_tag l = t -> find_tag t ls = Some l.
Proof.
  induction ls as [|x ls IH]; cbn; [by intros _ ?%elem_of_nil|].
  intros [Hx Hn]%NoDup_cons Hl Ht. apply elem_of_cons in Hl as [-> | Hl].
  - by rewrite Ht, Z.eqb_refl.
  - case_eq (ln_tag x =? t); [|auto]. intros E%Z.eqb_eq. destruct Hx. rewrite E, <- Ht. by apply list_elem_of_fmap_2.
Qed.

Section Lines.
Context (o n : Z) (c : Cache) (K : lines_ok o n c).

Lemma lines_of_in a l : l ∈ lines_of c a -> holds c l /\ get_index c a = get_index c (ln_addr l) /\ ln_tag l = get_tag c (ln_addr l) /\ ln_node l < n.
Proof.
  unfold holds, lines_of. destruct (cache_lines c !! get_index c a) as [ls|] eqn:E; cbn; [|by intros ?%elem_of_nil].
  intros Hl. destruct (lo_set _ _ _ K _ _ _ E Hl) as (Hi & Ht & Hn). by rewrite <- Hi, E.
Qed.
Lemma lines_of_tags a : NoDup (ln_tag <$> lines_of c a) /\ Z.of_nat (length (lines_of c a)) <= assoc c.
Proof.
  unfold lines_of. destruct (cache_lines c !! get_index c a) as [ls|] eqn:E; cbn; [by eapply lo_tags|].
  split; [constructor|]. pose proof (g_assoc _ _ (lo_geom _ _ _ K)). lia.
Qed.
(** The line at an address is the line of its block. *)
Lemma line_at_some a l : line_at c a = Some l <-> holds c l /\ block o (ln_addr l) = block o a.
Proof.
  pose proof (lo_geom _ _ _ K) as G. split.
  - intros [Hl Ht]%find_tag_some. destruct (lines_of_in _ _ Hl) as (Hh & Hi & Ht' & _). split; [done|].
    apply (index_tag _ _ G). by rewrite <- Hi, <- Ht'.
  - intros [Hl Hb]. unfold holds in Hl. destruct (lines_of_in _ _ Hl) as (_ & _ & Ht & _). unfold line_at.
    assert (Hs : lines_of c (ln_addr l) = lines_of c a) by (unfold lines_of; by rewrite (index_of _ _ G _ _ Hb)).
    rewrite Hs in Hl. apply find_tag_in; [apply lines_of_tags|done|]. by rewrite Ht, (tag_of _ _ G _ _ Hb).
Qed.
Lemma line_at_none a l : line_at c a = None -> holds c l -> block o (ln_addr l) <> block o a.
Proof. intros Hn Hl Hb. pose proof (proj2 (line_at_some a l) (conj Hl Hb)). congruence. Qed.
Lemma lock_at_some a b : lock_at c a = Some b <-> exists l, holds c l /\ block o (ln_addr l) = block o a /\ ln_lock l = b.
Proof.
  unfold lock_at. rewrite fmap_Some. split.
  - intros (l & [Hh Hb]%line_at_some & ->). by exists l.
  - intros (l & Hh & Hb & <-). exists l. split; [by apply line_at_some|done].
Qed.
Lemma lock_at_block a b : block o a = block o b -> lock_at c a = lock_at c b.
Proof.
  intros H. pose proof (lo_geom _ _ _ K) as G. unfold lock_at, line_at, lines_of.
  by rewrite (index_of _ _ G _ _ H), (tag_of _ _ G _ _ H).
Qed.
End Lines.

(** Caches of the same shape whose lines correspond hold the same blocks. *)
Lemma lock_at_ext o n c n' c' a a' (K : lines_ok o n c) (K' : lines_ok o n' c') :
  (forall b, (exists l, holds c l /\ block o (ln_addr l) = block o a /\ ln_lock l = b) <->
             (exists l, holds c' l /\ block o (ln_addr l) = block o a' /\ ln_lock l = b)) ->
  lock_at c a = lock_at c' a'.
Proof.
  intros H. apply option_eq. intros b. by rewrite (lock_at_some _ _ _ K), (lock_at_some _ _ _ K').
Qed.

(** ** Changing a set *)
Lemma put_set_holds a ls c l : holds (put_set a ls c) l <-> if decide (get_index c (ln_addr l) = get_index c a) then l ∈ ls else holds c l.
Proof.
  unfold holds, lines_of, put_set. cbn. case_decide as H.
  - by rewrite H, lookup_insert_eq.
  - by rewrite lookup_insert_ne by congruence.
Qed.
Lemma put_set_ok o n n' a ls c : lines_ok o n c -> n <= n' ->
  (forall l, l ∈ ls -> get_index c (ln_addr l) = get_index c a /\ ln_tag l = get_tag c (ln_addr l) /\ ln_node l < n') ->
  NoDup (ln_tag <$> ls) -> Z.of_nat (length ls) <= assoc c ->
  (forall l l', holds (put_set a ls c) l -> holds (put_set a ls c) l' -> ln_node l = ln_node l' -> l = l') ->
  lines_ok o n' (put_set a ls c).
Proof.
  intros K Hn Hl Ht Hs Hx. split; [apply (lo_geom _ _ _ K)|..|done]; cbn.
  - intros i ls' l Hi Hin. apply lookup_insert_Some in Hi as [[<- <-]|[_ Hi]]; [destruct (Hl l Hin) as (? & ? & ?); done|].
    destruct (lo_set _ _ _ K _ _ _ Hi Hin) as (? & ? & ?). repeat split; [done..|lia].
  - intros i ls' Hi. apply lookup_insert_Some in Hi as [[<- <-]|[_ Hi]]; [done|by eapply lo_tags].
Qed.

Lemma erase_in n ls l : l ∈ erase n ls <-> l ∈ ls /\ ln_node l <> n.
Proof.
  unfold erase. rewrite !list_elem_of_In, filter_In. split; intros [H1 H2]; (split; [done|]).
  - by apply negb_true_iff, Z.eqb_neq in H2.
  - by apply negb_true_iff, Z.eqb_neq.
Qed.
Lemma erase_sublist n ls : sublist (erase n ls) ls.
Proof. induction ls as [|x ls IH]; cbn; [constructor|]. if_goal; by constructor. Qed.
Lemma erase_length n ls l : l ∈ ls -> ln_node l = n -> (length (erase n ls) < length ls)%nat.
Proof.
  intros Hl Hn. induction ls as [|x ls IH]; [by apply elem_of_nil in Hl|]. cbn.
  pose proof (sublist_length _ _ (erase_sublist n ls)). unfold erase in *.
  apply elem_of_cons in Hl as [-> | Hl]; [rewrite Hn, Z.eqb_refl; cbn; lia|]. if_goal; cbn; [apply IH in Hl|]; lia.
Qed.
Lemma erase_push n ls l : ln_node l <> n -> erase n (ls ++ [l]) = erase n ls ++ [l].
Proof. intros H. unfold erase. rewrite List.filter_app. cbn. by apply Z.eqb_neq in H as ->. Qed.

Section Change.
Context (o n : Z) (c : Cache) (K : lines_ok o n c).

(** A line is taken out, *)
Lemma erase_holds a v l : v ∈ lines_of c a ->
  holds (put_set a (erase (ln_node v) (lines_of c a)) c) l <-> holds c l /\ ln_node l <> ln_node v.
Proof.
  intros Hv. rewrite put_set_holds. case_decide as H.
  - rewrite erase_in. unfold holds, lines_of. by rewrite H.
  - split; [|by intros [? _]]. intros Hl. split; [done|]. intros E. destruct H.
    destruct (lines_of_in _ _ _ K _ _ Hv) as (Hh & Hi & _). by rewrite (lo_nodes _ _ _ K _ _ Hl Hh E).
Qed.
Lemma erase_ok a v : v ∈ lines_of c a -> lines_ok o n (put_set a (erase (ln_node v) (lines_of c a)) c).
Proof.
  intros Hv. destruct (lines_of_tags _ _ _ K a) as [Ht Hs]. pose proof (erase_sublist (ln_node v) (lines_of c a)) as Hsub.
  apply (put_set_ok o n); [done|lia|..].
  - intros l [Hl _]%erase_in. by destruct (lines_of_in _ _ _ K _ _ Hl) as (_ & -> & ? & ?).
  - eapply sublist_NoDup; [exact Ht|by apply fmap_sublist].
  - apply sublist_length in Hsub. lia.
  - intros l l' [H _]%erase_holds [H' _]%erase_holds; [|done..]. by apply (lo_nodes _ _ _ K).
Qed.
(** and a line is appended that was not there. *)
Lemma push_holds a x l : ln_addr x = a ->
  holds (put_set a (lines_of c a ++ [x]) c) l <-> holds c l \/ l = x.
Proof.
  intros Hx. rewrite put_set_holds. case_decide as H.
  - rewrite elem_of_app, list_elem_of_singleton. unfold holds, lines_of. by rewrite H.
  - split; [auto|]. intros [? | ->]; [done|congruence].
Qed.
Lemma push_ok a x : ln_addr x = a -> ln_tag x = get_tag c a -> ln_node x = n ->
  line_at c a = None -> Z.of_nat (length (lines_of c a)) < assoc c ->
  lines_ok o (n + 1) (put_set a (lines_of c a ++ [x]) c).
Proof.
  intros Hx Ht Hn Ha Hr. destruct (lines_of_tags _ _ _ K a) as [Hd Hs].
  assert (Hf : forall l, holds c l -> ln_node l < n) by (intros l Hl; apply (lines_of_in _ _ _ K _ _ Hl)).
  apply (put_set_ok o n); [done|lia|..].
  - intros l. rewrite elem_of_app, list_elem_of_singleton. intros [Hl| ->].
    + destruct (lines_of_in _ _ _ K _ _ Hl) as (_ & -> & ? & ?). repeat split; [done|lia].
    + rewrite Hx, Hn. repeat split; [done|lia].
  - rewrite fmap_app. apply NoDup_app. split; [done|]. split; [|cbn; by apply NoDup_singleton].
    intros t Hin%list_elem_of_fmap Ht'. destruct Hin as (l & -> & Hl). cbn in Ht'. apply list_elem_of_singleton in Ht'.
    apply (find_tag_none _ _ l Ha Hl). congruence.
  - rewrite length_app. cbn. lia.
  - intros l l' H H'. apply push_holds in H; [|done]. apply push_holds in H'; [|done].
    destruct H as [H| ->], H' as [H'| ->]; [by apply (lo_nodes _ _ _ K)|..|done]; intros E; apply Hf in H || apply Hf in H'; lia.
Qed.
(** Lines of one node are changed, but neither moved nor renamed. *)
Lemma map_node_lines m f a : lines_of (map_node m f c) a = (fun l => if ln_node l =? m then f l else l) <$> lines_of c a.
Proof. unfold lines_of, map_node. cbn. rewrite lookup_fmap. by destruct (cache_lines c !! get_index c a). Qed.
End Change.

Section MapNode.
Context (o n : Z) (c : Cache) (K : lines_ok o n c) (m : Z) (f : Line -> Line).
Hypothesis Hf : forall l, ln_addr (f l) = ln_addr l /\ ln_tag (f l) = ln_tag l /\ ln_node (f l) = ln_node l.
Let g (l : Line) : Line := if ln_node l =? m then f l else l.

Lemma g_same l : ln_addr (g l) = ln_addr l /\ ln_tag (g l) = ln_tag l /\ ln_node (g l) = ln_node l.
Proof. unfold g. if_goal; [apply Hf|done]. Qed.
Lemma map_holds l' : holds (map_node m f c) l' <-> exists l, l' = g l /\ holds c l.
Proof.
  unfold holds. rewrite map_node_lines, list_elem_of_fmap. split; intros (l & -> & Hl); exists l; (split; [done|]);
    pose proof (proj1 (g_same l)) as E; unfold g in *; rewrite E in *; done.
Qed.
Lemma map_ok : lines_ok o n (map_node m f c).
Proof.
  split; [apply (lo_geom _ _ _ K)|..].
  - intros i ls l' Hi Hl. unfold map_node in Hi. cbn in Hi. apply lookup_fmap_Some in Hi as (ls0 & <- & Hi).
    apply list_elem_of_fmap in Hl as (l & -> & Hl). destruct (g_same l) as (Ha & Ht & Hn). unfold g in *.
    rewrite Ha, Ht, Hn. apply (lo_set _ _ _ K _ _ _ Hi Hl).
  - intros i ls Hi. unfold map_node in Hi. cbn in Hi. apply lookup_fmap_Some in Hi as (ls0 & <- & Hi).
    rewrite length_map. change (map ?h ls0) with (h <$> ls0). rewrite <- list_fmap_compose.
    rewrite (list_fmap_ext _ ln_tag ls0); [exact (lo_tags _ _ _ K _ _ Hi)|]. intros _ l _. apply g_same.
  - intros l l' (x & -> & Hx)%map_holds (y & -> & Hy)%map_holds. destruct (g_same x) as (_ & _ & ->), (g_same y) as (_ & _ & ->).
    intros E. by rewrite (lo_nodes _ _ _ K _ _ Hx Hy E).
Qed.
End MapNode.

(** What becomes of the blocks when only those of one block change *)
Lemma lock_at_upd o n c n' c' a x (K : lines_ok o n c) (K' : lines_ok o n' c') :
  (forall l, block o (ln_addr l) <> block o a -> holds c' l <-> holds c l) ->
  (forall b, x = Some b <-> exists l, holds c' l /\ block o (ln_addr l) = block o a /\ ln_lock l = b) ->
  forall a', lock_at c' a' = if decide (block o a' = block o a) then x else lock_at c a'.
Proof.
  intros Hne Heq a'. apply option_eq. intros b. rewrite (lock_at_some _ _ _ K'). case_decide as E.
  - rewrite Heq, E. done.
  - rewrite (lock_at_some _ _ _ K). split; intros (l & Hl & Hb & Hk); exists l; (split; [apply Hne; [congruence|done]|done]).
Qed.

(** ** The miss registers

    They are for different blocks and hold the locked lines. *)
Record cache_ok (o n : Z) (c : Cache) : Prop := {
  ck_lines : lines_ok o n c;
  ck_entry : forall a m, (a, m) ∈ mshr_entries c -> exists l, holds c l /\ block o (ln_addr l) = block o a /\ ln_node l = m /\ ln_lock l = true;
  ck_locked : forall l, holds c l -> ln_lock l = true -> exists a, (a, ln_node l) ∈ mshr_entries c;
  ck_distinct : NoDup ((fun e => block o (fst e)) <$> mshr_entries c);
  ck_bound : Z.of_nat (length (mshr_entries c)) <= mshr_entry_num c
}.

Lemma lines_ok_mono o n n' c : lines_ok o n c -> n <= n' -> lines_ok o n' c.
Proof.
  intros [G S T N] Hn. split; [done| |done..]. intros i ls l Hi Hl. destruct (S i ls l Hi Hl) as (? & ? & ?). repeat split; [done..|lia].
Qed.
Lemma cache_ok_mono o n n' c : cache_ok o n c -> n <= n' -> cache_ok o n' c.
Proof. intros [K E L D B] Hn. split; [by eapply lines_ok_mono|done..]. Qed.

(** Counters and the list of refused requests play no part. *)
Lemma bump_ok o n x c : cache_ok o n c -> cache_ok o n (bump x c).
Proof. intros [[G S T N] E L D B]. split; [split; [exact G|exact S|exact T|exact N]|exact E|exact L|exact D|exact B]. Qed.
Lemma set_retry_ok o n l c : cache_ok o n c -> cache_ok o n (set_retry l c).
Proof. intros [[G S T N] E L D B]. split; [split; [exact G|exact S|exact T|exact N]|exact E|exact L|exact D|exact B]. Qed.

Section Cache_ok.
Context (o n : Z) (c : Cache) (K : cache_ok o n c).
Let KL : lines_ok o n c := ck_lines _ _ _ K.

(** The set is created. *)
Lemma get_lines_holds a l : holds (get_lines a c) l <-> holds c l.
Proof. change (get_lines a c) with (put_set a (lines_of c a) c). rewrite (put_set_holds a (lines_of c a)). case_decide as H; [|done]. unfold holds, lines_of. by rewrite H. Qed.
Lemma get_lines_of a a' : lines_of (get_lines a c) a' = lines_of c a'.
Proof.
  unfold lines_of, get_lines. cbn. destruct (decide (get_index c a' = get_index c a)) as [H|H].
  - by rewrite H, lookup_insert_eq.
  - by rewrite lookup_insert_ne by congruence.
Qed.
Lemma get_lines_lock a a' : lock_at (get_lines a c) a' = lock_at c a'.
Proof. unfold lock_at, line_at. by rewrite get_lines_of. Qed.
Lemma get_lines_ok a : cache_ok o n (get_lines a c).
Proof.
  destruct (lines_of_tags _ _ _ KL a) as [Ht Hs]. split; try apply K.
  - apply (put_set_ok o n); [apply KL|lia| |done..|].
    + intros l Hl. by destruct (lines_of_in _ _ _ KL _ _ Hl) as (_ & -> & ? & ?).
    + intros l l' H H'. apply (lo_nodes _ _ _ KL); by apply (get_lines_holds a).
  - intros a' m H. destruct (ck_entry _ _ _ K _ _ H) as (l & Hl & Hr). exists l. split; [by apply get_lines_holds|done].
  - intros l Hl. apply (ck_locked _ _ _ K). by apply (get_lines_holds a).
Qed.

(** Finding a register *)
Lemma hit_mshr_some a a' m : hit_mshr c a = Some (a', m) -> (a', m) ∈ mshr_entries c /\ block o a' = block o a.
Proof.
  intros H. apply find_some in H as [H E]. split; [by apply list_elem_of_In|]. apply Z.eqb_eq in E.
  by apply (align_block _ _ (lo_geom _ _ _ KL)) in E.
Qed.
Lemma hit_mshr_line a a' m : hit_mshr c a = Some (a', m) -> exists l, holds c l /\ block o (ln_addr l) = block o a /\ ln_node l = m /\ ln_lock l = true.
Proof. intros [H <-]%hit_mshr_some. by apply (ck_entry _ _ _ K). Qed.
(** A line that is locked has a register. *)
Lemma hit_mshr_none a : hit_mshr c a = None -> lock_at c a <> Some true.
Proof.
  intros Hn (l & Hl & Hb & Hk)%(lock_at_some _ _ _ KL). destruct (ck_locked _ _ _ K _ Hl Hk) as (a' & Ha).
  destruct (ck_entry _ _ _ K _ _ Ha) as (l' & Hl' & Hb' & Hn' & _).
  pose proof (lo_nodes _ _ _ KL _ _ Hl' Hl Hn') as ->. apply list_elem_of_In in Ha.
  pose proof (find_none _ _ Hn _ Ha) as E. apply Z.eqb_neq in E. destruct E.
  apply (align_block _ _ (lo_geom _ _ _ KL)). cbn. congruence.
Qed.
Lemma holds_node l : holds c l -> has_node (ln_node l) c = true.
Proof.
  unfold holds, lines_of. destruct (cache_lines c !! get_index c (ln_addr l)) as [ls|] eqn:E; cbn; [|by intros ?%elem_of_nil].
  intros Hl. apply existsb_exists. exists (get_index c (ln_addr l), ls). split; [by apply list_elem_of_In, elem_of_map_to_list|].
  apply existsb_exists. exists l. split; [by apply list_elem_of_In|apply Z.eqb_refl].
Qed.

(** An unlocked line is taken out, *)
Lemma drop_ok a v : v ∈ lines_of c a -> ln_lock v = false -> cache_ok o n (put_set a (erase (ln_node v) (lines_of c a)) c).
Proof.
  intros Hv Hk. pose proof (erase_holds _ _ _ KL a v) as Hh. split; try apply K.
  - by apply erase_ok; [apply KL|].
  - intros a' m H. destruct (ck_entry _ _ _ K _ _ H) as (l & Hl & Hb & Hm & Hr). exists l. split; [|done]. apply Hh; [done|].
    split; [done|]. intros E. destruct (lines_of_in _ _ _ KL _ _ Hv) as (Hv' & _).
    pose proof (lo_nodes _ _ _ KL _ _ Hl Hv' E). congruence.
  - intros l [Hl _]%Hh; [|done]. by apply (ck_locked _ _ _ K).
Qed.
Lemma drop_lock a v : v ∈ lines_of c a -> forall b,
  lock_at (put_set a (erase (ln_node v) (lines_of c a)) c) b = if decide (block o b = block o (ln_addr v)) then None else lock_at c b.
Proof.
  intros Hv. pose proof (erase_holds _ _ _ KL a v) as Hh. destruct (lines_of_in _ _ _ KL _ _ Hv) as (Hv' & _).
  apply (lock_at_upd o n c n); [apply KL|by apply erase_ok; [apply KL|]|..].
  - intros l Hb. rewrite Hh by done. split; [by intros [? _]|]. intros Hl. split; [done|]. intros E.
    by rewrite (lo_nodes _ _ _ KL _ _ Hl Hv' E) in Hb.
  - intros b. split; [done|]. intros (l & [Hl Hn]%Hh & Hb & _); [|done]. destruct Hn. f_equal.
    assert (H1 : line_at c (ln_addr v) = Some l) by (by apply (line_at_some _ _ _ KL)).
    assert (H2 : line_at c (ln_addr v) = Some v) by (by apply (line_at_some _ _ _ KL)). congruence.
Qed.

(** and a line is appended, *)
Lemma push_lock a x : ln_addr x = a -> ln_tag x = get_tag c a -> ln_node x = n ->
  line_at c a = None -> Z.of_nat (length (lines_of c a)) < assoc c -> forall b,
  lock_at (put_set a (lines_of c a ++ [x]) c) b = if decide (block o b = block o a) then Some (ln_lock x) else lock_at c b.
Proof.
  intros Hx Ht Hn Ha Hr. apply (lock_at_upd o n c (n + 1)); [apply KL|by apply push_ok; [apply KL|..]|..].
  - intros l Hb. rewrite push_holds by done. split; [|by left]. intros [? | ->]; [done|congruence].
  - intros b. split.
    + intros [= <-]. exists x. split; [by apply push_holds; [|right]|]. by rewrite Hx.
    + intros (l & Hl & Hb & <-). apply push_holds in Hl as [Hl | ->]; [|done..].
      by destruct (line_at_none _ _ _ KL _ _ Ha Hl).
Qed.
(** unlocked *)
Lemma push_unlocked a x : ln_addr x = a -> ln_tag x = get_tag c a -> ln_node x = n -> ln_lock x = false ->
  line_at c a = None -> Z.of_nat (length (lines_of c a)) < assoc c -> cache_ok o (n + 1) (put_set a (lines_of c a ++ [x]) c).
Proof.
  intros Hx Ht Hn Hk Ha Hr. split; try apply K.
  - by apply push_ok; [apply KL|..].
  - intros a' m H. destruct (ck_entry _ _ _ K _ _ H) as (l & Hl & Hb). exists l. split; [|done]. by apply push_holds; [|left].
  - intros l Hl. apply push_holds in Hl as [Hl | ->]; [|congruence|done]. by apply (ck_locked _ _ _ K).
Qed.
(** or locked, with a new register. *)
Lemma push_locked a x : ln_addr x = a -> ln_tag x = get_tag c a -> ln_node x = n -> ln_lock x = true ->
  line_at c a = None -> Z.of_nat (length (lines_of c a)) < assoc c -> Z.of_nat (length (mshr_entries c)) < mshr_entry_num c ->
  cache_ok o (n + 1) (set_mshr (mshr_entries c ++ [(a, n)]) (put_set a (lines_of c a ++ [x]) c)).
Proof.
  intros Hx Ht Hn Hk Ha Hr Hm. set (c1 := put_set a (lines_of c a ++ [x]) c).
  assert (K1 : lines_ok o (n + 1) c1) by (by apply push_ok; [apply KL|..]). split.
  - destruct K1 as [G S T N]. split; [exact G|exact S|exact T|exact N].
  - intros a' m. cbn. rewrite elem_of_app, list_elem_of_singleton. intros [H | [= -> ->]].
    + destruct (ck_entry _ _ _ K _ _ H) as (l & Hl & Hb). exists l. split; [|done]. by apply (push_holds c a x); [|left].
    + exists x. split; [by apply (push_holds c a x); [|right]|]. by rewrite Hx.
  - intros l Hl Hk'. cbn. setoid_rewrite elem_of_app. setoid_rewrite list_elem_of_singleton.
    apply (push_holds c a x) in Hl as [Hl | ->]; [| |done].
    + destruct (ck_locked _ _ _ K _ Hl Hk') as [a' ?]. exists a'. by left.
    + exists a. right. by rewrite Hn.
  - cbn. rewrite fmap_app. apply NoDup_app. split; [apply K|]. split; [|apply NoDup_singleton].
    intros b ([a' m] & -> & H)%list_elem_of_fmap Hb%list_elem_of_singleton. cbn in Hb.
    destruct (ck_entry _ _ _ K _ _ H) as (l & Hl & Hb' & _). apply (line_at_none _ _ _ KL _ _ Ha Hl). congruence.
  - cbn. rewrite length_app. cbn. lia.
Qed.
End Cache_ok.

(** An unlocked line is used: it moves to the end of its set. *)
Definition used (n a : Z) (d : bool) (v : Line) (c : Cache) : Cache :=
  put_set a (erase (ln_node v) (lines_of c a ++ [mk_Line a (get_tag c a) false d n])) c.
Lemma put_set_lines a ls c : lines_of (put_set a ls c) a = ls.
Proof. unfold lines_of. cbn. by rewrite lookup_insert_eq. Qed.
Lemma put_set_set a ls ls' c : put_set a ls' (put_set a ls c) = put_set a ls' c.
Proof. unfold put_set, set_lines. cbn. by rewrite insert_insert_eq. Qed.

Section Used.
Context (o n : Z) (c : Cache) (K : cache_ok o n c) (a : Z) (d : bool) (v : Line).
Hypothesis Hv : line_at c a = Some v.
Hypothesis Hk : ln_lock v = false.
Let KL : lines_ok o n c := ck_lines _ _ _ K.
Let c1 : Cache := put_set a (erase (ln_node v) (lines_of c a)) c.
Let x : Line := mk_Line a (get_tag c a) false d n.

Lemma used_in : v ∈ lines_of c a /\ block o (ln_addr v) = block o a /\ ln_node v < n.
Proof.
  pose proof Hv as [Hh Hb]%(line_at_some _ _ _ KL). apply find_tag_some in Hv as [Hin _].
  repeat split; [done..|]. by destruct (lines_of_in _ _ _ KL _ _ Hin) as (_ & _ & _ & ?).
Qed.
Lemma used_push : used n a d v c = put_set a (lines_of c1 a ++ [x]) c1.
Proof.
  destruct used_in as (Hin & _ & Hn). unfold used, c1, x. rewrite erase_push by (cbn; lia).
  by rewrite put_set_lines, put_set_set.
Qed.
Lemma used_room : cache_ok o n c1 /\ line_at c1 a = None /\ Z.of_nat (length (lines_of c1 a)) < assoc c1.
Proof.
  destruct used_in as (Hin & Hb & Hn). assert (K1 : cache_ok o n c1) by (by apply drop_ok). split; [done|split].
  - pose proof (drop_lock _ _ _ K _ _ Hin a) as H. rewrite decide_True in H by done. by apply fmap_None in H.
  - unfold c1. rewrite put_set_lines. pose proof (erase_length _ _ _ Hin eq_refl).
    pose proof (lines_of_tags _ _ _ KL a) as [_ ?]. cbn. lia.
Qed.
Lemma used_ok : cache_ok o (n + 1) (used n a d v c).
Proof. destruct used_room as (K1 & Hn & Hr). rewrite used_push. by apply push_unlocked. Qed.
Lemma used_lock b : lock_at (used n a d v c) b = if decide (block o b = block o a) then Some false else lock_at c b.
Proof.
  destruct used_room as (K1 & Hn & Hr), used_in as (Hin & Hb & _). rewrite used_push, (push_lock _ _ _ K1) by done.
  case_decide; [done|]. unfold c1. rewrite (drop_lock _ _ _ K) by done. by rewrite decide_False by congruence.
Qed.
End Used.

(** Writing through an iterator *)
Section Write.
Context (o n : Z) (c : Cache) (K : cache_ok o n c).
Let KL : lines_ok o n c := ck_lines _ _ _ K.

(** Only the dirty bit of a line changes, *)
Lemma dirty_ok m (d : Line -> bool) : cache_ok o n (map_node m (fun l => set_dirty (d l) l) c).
Proof.
  pose proof (map_holds c m (fun l => set_dirty (d l) l) ltac:(done)) as Hh. split; try apply K.
  - by apply map_ok.
  - intros a m' H. destruct (ck_entry _ _ _ K _ _ H) as (l & Hl & Hb & Hm & Hk).
    eexists. split; [apply Hh; by exists l|]. by if_goal.
  - intros l' (l & -> & Hl)%Hh Hk. destruct (ck_locked _ _ _ K l Hl) as [a Ha]; [by destruct (ln_node l =? m)|]. exists a. by if_goal.
Qed.
Lemma dirty_lock m (d : Line -> bool) b : lock_at (map_node m (fun l => set_dirty (d l) l) c) b = lock_at c b.
Proof.
  unfold lock_at, line_at. rewrite map_node_lines. cbn. generalize (lines_of c b) as ls. induction ls as [|l ls IH]; cbn; [done|].
  destruct (ln_node l =? m); cbn; destruct (ln_tag l =? _); cbn; done.
Qed.
(** and a register is given up. *)
Lemma erase_mshr_in a e : hit_mshr c a <> None ->
  e ∈ erase_mshr c a (mshr_entries c) <-> e ∈ mshr_entries c /\ block o (fst e) <> block o a.
Proof.
  pose proof (lo_geom _ _ _ KL) as G. pose proof (ck_distinct _ _ _ K) as D. unfold hit_mshr.
  induction (mshr_entries c) as [|x l IH]; [done|]. cbn in D |- *. apply NoDup_cons in D as [Dx D].
  destruct (Z.eqb_spec (align c (fst x)) (align c a)) as [E|E]; intros H.
  - apply (align_block _ _ G) in E. rewrite elem_of_cons. split.
    + intros He. split; [by right|]. intros Hb. destruct Dx. rewrite E, <- Hb. by apply (list_elem_of_fmap_2 (fun e => block o (fst e))).
    + intros [[-> | He] Hb]; [congruence|done].
  - rewrite !elem_of_cons, IH by done. split; [|tauto]. intros [-> | He]; [|tauto]. split; [by left|].
    intros Hb. by apply E, (align_block _ _ G).
Qed.
Lemma erase_mshr_sublist a l : sublist (erase_mshr c a l) l.
Proof. induction l as [|x l IH]; cbn; [constructor|]. if_goal; by constructor. Qed.
End Write.

Section Unlock.
Context (o n : Z) (c : Cache) (K : cache_ok o n c) (a a' m : Z).
Hypothesis Hm : hit_mshr c a = Some (a', m).
Let KL : lines_ok o n c := ck_lines _ _ _ K.
Let c' : Cache := set_mshr (erase_mshr c a (mshr_entries c)) (map_node m (set_lock false) c).

Lemma unlock_holds l' : holds c' l' <-> exists l, l' = (if ln_node l =? m then set_lock false l else l) /\ holds c l.
Proof. apply (map_holds c m (set_lock false)). done. Qed.
Lemma unlock_lines : lines_ok o n c'.
Proof. destruct (map_ok o n c KL m (set_lock false) ltac:(done)) as [G S T N]. split; [exact G|exact S|exact T|exact N]. Qed.
(** The node is that of the line of the block. *)
Lemma unlock_node l : holds c l -> ln_node l = m <-> block o (ln_addr l) = block o a.
Proof.
  intros Hl. destruct (hit_mshr_line _ _ _ K _ _ _ Hm) as (x & Hx & Hb & Hn & _). split.
  - intros E. rewrite (lo_nodes _ _ _ KL l x Hl Hx) by congruence. done.
  - intros E. assert (H1 : line_at c a = Some l) by (by apply (line_at_some _ _ _ KL)).
    assert (H2 : line_at c a = Some x) by (by apply (line_at_some _ _ _ KL)). congruence.
Qed.
Lemma unlock_ok : cache_ok o n c'.
Proof.
  assert (Hn : hit_mshr c a <> None) by congruence. split; [apply unlock_lines|..].
  - intros b k H. apply (erase_mshr_in _ _ _ K) in H as [H Hb]; [|done]. destruct (ck_entry _ _ _ K _ _ H) as (l & Hl & Hb' & Hk & Hr).
    exists l. split; [|done]. apply unlock_holds. exists l. split; [|done].
    destruct (Z.eqb_spec (ln_node l) m) as [E|E]; [|done]. apply unlock_node in E; [|done]. destruct Hb. cbn. congruence.
  - intros l' (l & -> & Hl)%unlock_holds. destruct (Z.eqb_spec (ln_node l) m) as [E|E]; [done|]. intros Hk.
    destruct (ck_locked _ _ _ K _ Hl Hk) as [b Hb]. exists b. apply (erase_mshr_in _ _ _ K); [done|]. split; [done|]. cbn.
    intros Ha. apply E, unlock_node; [done|]. destruct (ck_entry _ _ _ K _ _ Hb) as (x & Hx & Hbx & Hnx & _).
    rewrite (lo_nodes _ _ _ KL _ _ Hl Hx) by done. congruence.
  - eapply sublist_NoDup; [apply (ck_distinct _ _ _ K)|]. apply fmap_sublist, erase_mshr_sublist.
  - pose proof (ck_bound _ _ _ K). pose proof (sublist_length _ _ (erase_mshr_sublist c a (mshr_entries c))). cbn. lia.
Qed.
Lemma unlock_lock b : lock_at c' b = if decide (block o b = block o a) then Some false else lock_at c b.
Proof.
  revert b. apply (lock_at_upd o n c n); [apply KL|apply unlock_lines|..].
  - intros l Hb. rewrite unlock_holds. split.
    + intros (x & -> & Hx). destruct (Z.eqb_spec (ln_node x) m) as [E|E]; [|done]. apply unlock_node in E; [|done]. done.
    + intros Hl. exists l. split; [|done]. destruct (Z.eqb_spec (ln_node l) m) as [E|E]; [|done]. by apply unlock_node in E.
  - intros b. destruct (hit_mshr_line _ _ _ K _ _ _ Hm) as (x & Hx & Hb & Hn & _). split.
    + intros [= <-]. exists (set_lock false x). split; [|done]. apply unlock_holds. exists x. by rewrite Hn, Z.eqb_refl.
    + intros (l' & (l & -> & Hl)%unlock_holds & Hbl & <-). destruct (Z.eqb_spec (ln_node l) m) as [E|E]; [done|].
      destruct E. by apply unlock_node.
Qed.
End Unlock.

(** [callback] on one cache: the block is not locked any more. *)
Lemma unlock_spec o n c a : cache_ok o n c -> returns (unlock a c) (fun c' =>
  cache_ok o n c' /\ cshape c' = cshape c /\ retry_list c' = retry_list c /\
  forall b, lock_at c' b = if decide (block o b = block o a) then (fun _ => false) <$> lock_at c b else lock_at c b).
Proof.
  intros K. unfold unlock. destruct (hit_mshr c a) as [[a' m]|] eqn:H.
  - destruct (hit_mshr_line _ _ _ K _ _ _ H) as (x & Hx & Hb & Hn & _). unfold write_node.
    rewrite <- Hn, (holds_node _ _ Hx), Hn. cbn. split; [by eapply unlock_ok|]. split; [done|split; [done|]].
    intros b. rewrite (unlock_lock _ _ _ K _ _ _ H). case_decide as E; [|done].
    assert (exists y, lock_at c b = Some y) as [y ->]; [|done]. exists (ln_lock x).
    apply (lock_at_some _ _ _ (ck_lines _ _ _ K)). exists x. by rewrite E.
  - cbn. split; [done|split; [done|split; [done|]]]. intros b. case_decide as E; [|done].
    pose proof (hit_mshr_none _ _ _ K _ H) as Hl. rewrite <- (lock_at_block _ _ _ (ck_lines _ _ _ K) _ _ E) in Hl.
    by destruct (lock_at c b) as [[]|].
Qed.
