(* ===== verification/CacheRun.v ===== *)
(** * The tree of caches

    What the caches of a hierarchy keep among them: a cache is inclusive of
    the caches above it.  Every operation keeps it and none of the assertions
    of [Cache.cpp] fails. *)
From Stdlib Require Import ZArith Lia Bool String.
From stdpp Require Import base list gmap.
From S2P Require Import Prelude RamIf Sched AddrMap Cache CacheSet.

(** ** Views of the hierarchy *)
Definition shape_of (s : Caches) (k : nat) : option shape := cshape <$> caches s !! k.
(** Whether a cache has a block, and locked *)
Definition lock (s : Caches) (k : nat) (a : Z) : option bool := caches s !! k ≫= fun c => lock_at c a.
Definition retries (s : Caches) (k : nat) : list Request := default [] (retry_list <$> caches s !! k).
Definition above (s : Caches) (k h : nat) : Prop := exists sh, shape_of s k = Some sh /\ h ∈ higher_cache sh.

Definition lvl (l : Level) : nat := match l with L1 => 0 | L2 => 1 | L3 => 2 | LMAX => 3 end.
Definition lvl_of (s : Caches) (k : nat) : nat := match shape_of s k with Some sh => lvl (level sh) | None => 0 end.

(** A cache that sends its misses somewhere *)
Definition connected (sh : shape) : Prop := is_last_level sh = true \/ lower_cache sh <> None.
(** The links of [concatlower]: up and down agree, and go from level to level. *)
Record topo (S : nat -> option shape) : Prop := {
  tp_low : forall i sh j, S i = Some sh -> lower_cache sh = Some j ->
    exists sj, S j = Some sj /\ i ∈ higher_cache sj /\ (lvl (level sh) < lvl (level sj))%nat /\ connected sj /\ is_last_level sh = false;
  tp_high : forall i sh h, S i = Some sh -> h ∈ higher_cache sh -> exists sh', S h = Some sh' /\ lower_cache sh' = Some i;
  tp_first : forall i sh, S i = Some sh -> is_first_level sh = true -> higher_cache sh = []
}.

Section Run.
Context (freed : Line -> Line) (o : Z).

(** Each cache is consistent, and waits for the blocks of the requests that were refused. *)
Record sane (s : Caches) : Prop := {
  sn_ok : forall k c, caches s !! k = Some c -> cache_ok o (next_node s) c;
  sn_topo : topo (shape_of s);
  sn_retry : forall k r, r ∈ retries s k -> lock s k (rq_addr r) = Some true /\ rq_type r = READ
}.

(** A block that is there and valid is valid in the cache below; one that is
    awaited is there too, unless the request was refused. *)
Definition retried (s : Caches) (k : nat) (a : Z) : Prop := exists r, r ∈ retries s k /\ block o (rq_addr r) = block o a.
Definition edge (ex : nat -> Z -> Prop) (s : Caches) (i j : nat) (a : Z) : Prop :=
  match lock s i a with
  | None => True
  | Some false => lock s j a = Some false
  | Some true => retried s i a \/ lock s j a <> None \/ ex i a
  end.
(** Inclusion, but for requests [ex] on their way *)
Definition inclusive (ex : nat -> Z -> Prop) (s : Caches) : Prop :=
  forall i sh j a, shape_of s i = Some sh -> lower_cache sh = Some j -> edge ex s i j a.
Definition nothing (_ : nat) (_ : Z) : Prop := False.

(** ** Basic facts *)
Lemma lock_eq s k c a : caches s !! k = Some c -> lock s k a = lock_at c a.
Proof. intros H. unfold lock. by rewrite H. Qed.
Lemma lock_block s k a b : sane s -> block o a = block o b -> lock s k a = lock s k b.
Proof.
  intros N H. unfold lock. destruct (caches s !! k) as [c|] eqn:E; [|done]. cbn.
  by apply (lock_at_block _ _ _ (ck_lines _ _ _ (sn_ok _ N _ _ E))).
Qed.
Lemma shape_eq s k (c : Cache) : caches s !! k = Some c -> shape_of s k = Some (cshape c).
Proof. intros H. unfold shape_of. by rewrite H. Qed.
Lemma lvl_eq s k (c : Cache) : caches s !! k = Some c -> lvl_of s k = lvl (level c).
Proof. intros H. unfold lvl_of. by rewrite (shape_eq _ _ _ H). Qed.
Lemma retries_eq s k c : caches s !! k = Some c -> retries s k = retry_list c.
Proof. intros H. unfold retries. by rewrite H. Qed.
Lemma cget_eq s k c : caches s !! k = Some c -> cget k s = Ok c.
Proof. intros H. unfold cget. by rewrite H. Qed.
Lemma shape_some s k sh : shape_of s k = Some sh -> exists c, caches s !! k = Some c /\ sh = cshape c.
Proof. unfold shape_of. destruct (caches s !! k) as [c|]; [|done]. intros [= <-]. by exists c. Qed.

(** The cache above is there, and on a lower level. *)
Lemma above_some s k (c : Cache) h : sane s -> caches s !! k = Some c -> h ∈ higher_cache c ->
  exists d : Cache, caches s !! h = Some d /\ lower_cache d = Some k /\ (lvl_of s h < lvl_of s k)%nat /\ above s k h.
Proof.
  intros N Hk Hh. pose proof (shape_eq _ _ _ Hk) as Sk. destruct (tp_high _ (sn_topo _ N) _ _ _ Sk Hh) as (sh & Sh & Hl).
  destruct (tp_low _ (sn_topo _ N) _ _ _ Sh Hl) as (sk & Sk' & _ & Hlv & _). simplify_eq/=.
  destruct (shape_some _ _ _ Sh) as (d & Hd & ->). exists d. repeat split; [done..| |by exists c].
  unfold lvl_of. by rewrite Sk, Sh.
Qed.
Lemma above_higher s k (c : Cache) h : caches s !! k = Some c -> above s k h <-> h ∈ higher_cache c.
Proof. intros H. unfold above. rewrite (shape_eq _ _ _ H). split; [by intros (sh & [= <-] & ?)|by exists c]. Qed.
Lemma below_above s i sh j : sane s -> shape_of s i = Some sh -> lower_cache sh = Some j -> above s j i.
Proof. intros N Si Hl. destruct (tp_low _ (sn_topo _ N) _ _ _ Si Hl) as (sj & Sj & Hin & _). by exists sj. Qed.

(** ** One cache is replaced. *)
Record replaced (i : nat) (c' : Cache) (s s' : Caches) : Prop := {
  rp_caches : caches s' = <[i := c']> (caches s);
  rp_node : next_node s <= next_node s'
}.
Section Replaced.
Context (s s' : Caches) (i : nat) (c c' : Cache) (R : replaced i c' s s').
Hypothesis Hi : caches s !! i = Some c.
Hypothesis Hc : cshape c' = cshape c.

Lemma rp_at : caches s' !! i = Some c'.
Proof. rewrite (rp_caches _ _ _ _ R). apply list_lookup_insert_eq. by apply lookup_lt_Some in Hi. Qed.
Lemma rp_ne k : k <> i -> caches s' !! k = caches s !! k.
Proof. intros H. rewrite (rp_caches _ _ _ _ R). by apply list_lookup_insert_ne. Qed.
Lemma rp_shape k : shape_of s' k = shape_of s k.
Proof.
  destruct (decide (k = i)) as [-> | H]; [by rewrite (shape_eq _ _ _ rp_at), (shape_eq _ _ _ Hi), Hc|].
  unfold shape_of. by rewrite rp_ne.
Qed.
Lemma rp_lock k a : lock s' k a = if decide (k = i) then lock_at c' a else lock s k a.
Proof. case_decide as H; [subst; apply lock_eq, rp_at|]. unfold lock. by rewrite rp_ne. Qed.
Lemma rp_retries k : retries s' k = if decide (k = i) then retry_list c' else retries s k.
Proof. case_decide as H; [subst; apply retries_eq, rp_at|]. unfold retries. by rewrite rp_ne. Qed.
Lemma rp_sane : sane s -> cache_ok o (next_node s') c' ->
  (forall r, r ∈ retry_list c' -> lock_at c' (rq_addr r) = Some true /\ rq_type r = READ) -> sane s'.
Proof.
  intros N K Hr. split.
  - intros k d Hd. destruct (decide (k = i)) as [-> | H]; [rewrite rp_at in Hd; by injection Hd as <-|].
    rewrite rp_ne in Hd by done. eapply cache_ok_mono; [apply (sn_ok _ N _ _ Hd)|apply R].
  - destruct (sn_topo _ N) as [Lo Up Fi]. split; [|intros i' sh h|intros i' sh]; setoid_rewrite rp_shape; [|apply Up|apply Fi].
    intros i' sh j. apply Lo.
  - intros k r. rewrite rp_retries, rp_lock. case_decide; [apply Hr|apply (sn_retry _ N)].
Qed.
End Replaced.

(** ** Blocks that go

    A valid block [v] is taken out of caches below level [L], together with
    its copies above. *)
Record shrunk (L : nat) (v : Z) (s s' : Caches) : Prop := {
  sk_shape : forall k, shape_of s' k = shape_of s k;
  sk_retry : forall k, retries s' k = retries s k;
  sk_lock : forall k a, lock s' k a = lock s k a \/
    block o a = block o v /\ lock s k a = Some false /\ lock s' k a = None /\ (lvl_of s k < L)%nat /\
    forall h, above s k h -> lock s' h a = None
}.

Lemma sk_above L v s s' k h : shrunk L v s s' -> above s' k h <-> above s k h.
Proof. intros H. unfold above. by rewrite (sk_shape _ _ _ _ H). Qed.
Lemma sk_lvl L v s s' k : shrunk L v s s' -> lvl_of s' k = lvl_of s k.
Proof. intros H. unfold lvl_of. by rewrite (sk_shape _ _ _ _ H). Qed.
Lemma sk_none L v s s' k a : shrunk L v s s' -> lock s k a = None -> lock s' k a = None.
Proof. intros H Hn. destruct (sk_lock _ _ _ _ H k a) as [-> | (_ & ? & _)]; [done|congruence]. Qed.
Lemma sk_true L v s s' k a : shrunk L v s s' -> lock s k a = Some true -> lock s' k a = Some true.
Proof. intros H Hn. destruct (sk_lock _ _ _ _ H k a) as [-> | (_ & ? & _)]; [done|congruence]. Qed.
Lemma sk_refl L v s : shrunk L v s s.
Proof. split; auto. Qed.
Lemma sk_mono L L' v s s' : (L <= L')%nat -> shrunk L v s s' -> shrunk L' v s s'.
Proof.
  intros HL [S R K]. split; [done..|]. intros k a. destruct (K k a) as [? | (? & ? & ? & ? & ?)]; [by left|right].
  repeat split; [done..|lia|done].
Qed.
Lemma sk_trans L v s s1 s2 : shrunk L v s s1 -> shrunk L v s1 s2 -> shrunk L v s s2.
Proof.
  intros H1 H2. split.
  - intros k. by rewrite (sk_shape _ _ _ _ H2), (sk_shape _ _ _ _ H1).
  - intros k. by rewrite (sk_retry _ _ _ _ H2), (sk_retry _ _ _ _ H1).
  - intros k a. destruct (sk_lock _ _ _ _ H1 k a) as [E1 | (Hb & Hf & Hn & Hl & Hh)].
    + destruct (sk_lock _ _ _ _ H2 k a) as [E2 | (Hb & Hf & Hn & Hl & Hh)]; [left; congruence|right].
      rewrite (sk_lvl _ _ _ _ _ H1) in Hl. setoid_rewrite (sk_above _ _ _ _ _ _ H1) in Hh. by rewrite <- E1.
    + right. split; [done|split; [done|split; [by eapply sk_none|split; [done|]]]]. intros h Hh'. eapply sk_none; [done|by apply Hh].
Qed.
(** Inclusion is kept, *)
Lemma shrunk_inclusive ex L v s s' : sane s -> shrunk L v s s' -> inclusive ex s -> inclusive ex s'.
Proof.
  intros N H I i sh j a Hi Hl. rewrite (sk_shape _ _ _ _ H) in Hi. pose proof (below_above _ _ _ _ N Hi Hl) as Ha.
  pose proof (I i sh j a Hi Hl) as E. unfold edge, retried in *. rewrite (sk_retry _ _ _ _ H).
  destruct (sk_lock _ _ _ _ H j a) as [Ej | (_ & _ & _ & _ & Hh)]; [|by rewrite (Hh i Ha)].
  rewrite Ej. destruct (sk_lock _ _ _ _ H i a) as [-> | (_ & _ & -> & _)]; [exact E|done].
Qed.
(** and a cache that only loses a valid line stays consistent. *)
Lemma shrunk_retry L v s s' : shrunk L v s s' -> (forall k r, r ∈ retries s k -> lock s k (rq_addr r) = Some true /\ rq_type r = READ) ->
  forall k r, r ∈ retries s' k -> lock s' k (rq_addr r) = Some true /\ rq_type r = READ.
Proof. intros H Hr k r Hin. rewrite (sk_retry _ _ _ _ H) in Hin. destruct (Hr k r Hin). split; [by eapply sk_true|done]. Qed.

(** ** [check_unlock]

    No copy of a block is awaited, as far as [invalidate] goes. *)
Inductive clear (s : Caches) : nat -> Z -> Prop :=
| clear_absent k a : lock s k a = None -> clear s k a
| clear_line k a : lock s k a = Some false -> (forall h, above s k h -> clear s h a) -> clear s k a.

Lemma clear_block s k a b : sane s -> block o a = block o b -> clear s k a -> clear s k b.
Proof.
  intros N Hb H. revert b Hb. induction H as [k a H|k a H _ IH]; intros b Hb; rewrite (lock_block _ _ _ _ N Hb) in H.
  - by apply clear_absent.
  - apply clear_line; [done|]. intros h Hh. by apply IH.
Qed.
Lemma clear_mono s s' k a : (forall k, shape_of s' k = shape_of s k) -> (forall k a, lock s' k a = lock s k a \/ lock s' k a = None) ->
  clear s k a -> clear s' k a.
Proof.
  intros Hs Hl. induction 1 as [k a H|k a H _ IH].
  - apply clear_absent. destruct (Hl k a); congruence.
  - destruct (Hl k a) as [E|E]; [|by apply clear_absent]. apply clear_line; [congruence|]. intros h Hh. apply IH.
    unfold above in *. by rewrite <- Hs.
Qed.
Lemma clear_shrunk L v s s' k a : shrunk L v s s' -> clear s k a -> clear s' k a.
Proof.
  intros H. apply clear_mono; [apply H|]. intros k' a'. destruct (sk_lock _ _ _ _ H k' a') as [? | (_ & _ & ? & _)]; auto.
Qed.

Lemma all_higher_spec f l check (P : nat -> Prop) : (forall h, h ∈ l -> returns (f h) (fun b => b = true -> P h)) ->
  returns (all_higher f l check) (fun b => b = true -> check = true /\ forall h, h ∈ l -> P h).
Proof.
  revert check. induction l as [|h l IH]; intros check H; cbn.
  - intros ->. split; [done|]. by intros h ?%elem_of_nil.
  - destruct check; cbn; [|done]. eapply returns_bind; [apply H; left|]. intros b Hb.
    eapply returns_weak; [apply IH; intros h' ?; apply H; by right|]. cbn. intros b' H'  E. destruct (H' E) as [-> Hl].
    split; [done|]. intros h' [-> | ?]%elem_of_cons; auto.
Qed.
(** The line at an address, as the code looks for it *)
Lemma line_at_find c a : line_at c a = match cache_lines c !! get_index c a with Some ls => find_tag (get_tag c a) ls | None => None end.
Proof. unfold line_at, lines_of. by destruct (cache_lines c !! get_index c a). Qed.

Lemma check_unlock_spec fuel : forall k a s c, sane s -> caches s !! k = Some c -> (lvl_of s k < fuel)%nat ->
  returns (check_unlock fuel k a s) (fun b => b = true -> clear s k a).
Proof.
  induction fuel as [|fuel IH]; intros k a s c N Hk Hf; [lia|]. cbn. rewrite (cget_eq _ _ _ Hk). cbn.
  pose proof (line_at_find c a) as E. pose proof (lock_eq _ _ _ a Hk) as El. unfold lock_at in El.
  destruct (cache_lines c !! get_index c a) as [ls|]; [|rewrite E in El; intros _; by apply clear_absent].
  destruct (find_tag (get_tag c a) ls) as [l|]; [|rewrite E in El; intros _; by apply clear_absent].
  rewrite E in El. cbn in El. pose proof (sn_ok _ N _ _ Hk) as K.
  assert (Hb : block o (ln_addr l) = block o a) by (by apply (line_at_some _ _ _ (ck_lines _ _ _ K))).
  assert (Hcl : negb (ln_lock l) = true -> (forall h, h ∈ higher_cache c -> clear s h (ln_addr l)) -> clear s k a).
  { intros Hn%negb_true_iff Hh. apply clear_line; [congruence|]. intros h Ha%(above_higher _ _ _ _ Hk).
    eapply clear_block; [done|exact Hb|by apply Hh]. }
  destruct (is_first_level c) eqn:Ef.
  - cbn. intros Hn. apply Hcl; [done|]. rewrite (tp_first _ (sn_topo _ N) _ _ (shape_eq _ _ _ Hk) Ef). by intros h ?%elem_of_nil.
  - eapply returns_weak; [apply (all_higher_spec _ _ _ (fun h => clear s h (ln_addr l)))|cbn; intros b Hb' Et; destruct (Hb' Et); auto].
    intros h Hh. destruct (above_some _ _ _ _ N Hk Hh) as (d & Hd & _ & Hlv & _). apply (IH _ _ _ _ N Hd). lia.
Qed.

(** ** [invalidate] *)

(** The loops over the higher caches *)
Lemma each_higher_spec {X} (f : nat -> X -> Caches -> res (X * Caches)) (I : list nat -> Caches -> Prop) l : forall pre x s,
  I pre s -> (forall h seen x s, h ∈ l -> I seen s -> returns (f h x s) (fun y => I (seen ++ [h]) (snd y))) ->
  returns (each_higher f l x s) (fun y => I (pre ++ l) (snd y)).
Proof.
  induction l as [|h l IH]; intros pre x s Hs Hf; cbn; [by rewrite app_nil_r|].
  eapply returns_bind; [apply Hf; [left|done]|]. intros [x' s'] Hs'. cbn in Hs'.
  replace (pre ++ h :: l) with ((pre ++ [h]) ++ l) by (by rewrite <- app_assoc). apply IH; [done|].
  intros h' seen x'' s'' Hin. apply Hf. by right.
Qed.

(** What invalidating does: it stays below level [L]. *)
Record emptied (L : nat) (v : Z) (s s' : Caches) : Prop := {
  em_sane : sane s';
  em_shrunk : shrunk L v s s';
  em_node : next_node s' = next_node s;
  em_lower : forall k, (L <= lvl_of s k)%nat -> caches s' !! k = caches s !! k
}.
Lemma em_trans L v s s1 s2 : emptied L v s s1 -> emptied L v s1 s2 -> emptied L v s s2.
Proof.
  intros [N1 S1 K1 D1] [N2 S2 K2 D2]. split; [done|by eapply sk_trans|congruence|].
  intros k Hk. rewrite D2, D1; [done..|]. by rewrite (sk_lvl _ _ _ _ _ S1).
Qed.
Lemma em_mono L L' v s s' : (L <= L')%nat -> emptied L v s s' -> emptied L' v s s'.
Proof. intros HL [N1 S1 K1 D1]. split; [done|by eapply sk_mono|done|]. intros k Hk. apply D1. lia. Qed.

(** A cache that is replaced by one with the same blocks, *)
Lemma same_shrunk s s' i c c' L v : replaced i c' s s' -> caches s !! i = Some c -> cshape c' = cshape c ->
  retry_list c' = retry_list c -> (forall a, lock_at c' a = lock_at c a) -> shrunk L v s s'.
Proof.
  intros R Hi Hc Hr Hl. split.
  - by apply (rp_shape _ _ _ _ _ R Hi).
  - intros k. rewrite (rp_retries _ _ _ _ _ R Hi). case_decide; [|done]. subst. by rewrite Hr, (retries_eq _ _ _ Hi).
  - intros k a. left. rewrite (rp_lock _ _ _ _ _ R Hi). case_decide; [|done]. subst. by rewrite Hl, (lock_eq _ _ _ _ Hi).
Qed.
Lemma same_sane s s' i c c' : sane s -> replaced i c' s s' -> caches s !! i = Some c -> cshape c' = cshape c ->
  retry_list c' = retry_list c -> (forall a, lock_at c' a = lock_at c a) -> cache_ok o (next_node s') c' -> sane s'.
Proof.
  intros N R Hi Hc Hr Hl K. apply (rp_sane s s' i c c' R Hi Hc N K). intros r. rewrite Hr, Hl, <- (retries_eq _ _ _ Hi), <- (lock_eq _ _ _ _ Hi).
  apply (sn_retry _ N).
Qed.
Lemma same_emptied s s' i c c' v : sane s -> replaced i c' s s' -> next_node s' = next_node s -> caches s !! i = Some c -> cshape c' = cshape c ->
  retry_list c' = retry_list c -> (forall a, lock_at c' a = lock_at c a) -> cache_ok o (next_node s') c' -> emptied (S (lvl_of s i)) v s s'.
Proof.
  intros N R Hn Hi Hc Hr Hl K. split; [by eapply same_sane|by eapply same_shrunk|done|].
  intros k Hk. apply (rp_ne _ _ _ _ R). intros ->. lia.
Qed.

(** A valid block is taken out of one cache, and then of those above. *)
Lemma drop_emptied s s1 s2 i c c' v : sane s -> replaced i c' s s1 -> caches s !! i = Some c -> cshape c' = cshape c ->
  retry_list c' = retry_list c -> lock_at c v = Some false -> next_node s1 = next_node s ->
  (forall a, lock_at c' a = if decide (block o a = block o v) then None else lock_at c a) ->
  emptied (lvl_of s i) v s1 s2 -> (forall h, above s i h -> lock s2 h v = None) ->
  emptied (S (lvl_of s i)) v s s2 /\ lock s2 i v = None.
Proof.
  intros N R Hi Hc Hr Hf Hn Hl E Hh. pose proof (em_shrunk _ _ _ _ E) as S.
  assert (H1 : forall k a, lock s1 k a = if decide (k = i) then (if decide (block o a = block o v) then None else lock s k a) else lock s k a).
  { intros k a. rewrite (rp_lock _ _ _ _ _ R Hi). case_decide; [|done]. subst. by rewrite Hl, (lock_eq _ _ _ _ Hi). }
  assert (Hsh : forall k, shape_of s1 k = shape_of s k) by (by apply (rp_shape _ _ _ _ _ R Hi)).
  assert (Hlv : forall k, lvl_of s1 k = lvl_of s k) by (intros k; unfold lvl_of; by rewrite Hsh).
  split; [|eapply sk_none; [exact S|]; rewrite H1; by rewrite !decide_True].
  split; [apply E| |by rewrite (em_node _ _ _ _ E)|].
  - split.
    + intros k. by rewrite (sk_shape _ _ _ _ S).
    + intros k. rewrite (sk_retry _ _ _ _ S), (rp_retries _ _ _ _ _ R Hi). case_decide; [|done]. subst. by rewrite Hr, (retries_eq _ _ _ Hi).
    + intros k a. destruct (decide (k = i /\ block o a = block o v)) as [[-> Hb]|Hne].
      * right. assert (Hi1 : lock s1 i a = None) by (rewrite H1; by rewrite !decide_True).
        rewrite (lock_block _ _ _ _ N Hb), (lock_eq _ _ _ _ Hi). split; [done|split; [done|split; [by eapply sk_none|split; [lia|]]]].
        intros h Ha. rewrite (lock_block s2 h _ _ (em_sane _ _ _ _ E) Hb). by apply Hh.
      * assert (Hk : lock s1 k a = lock s k a) by (rewrite H1; repeat case_decide; tauto).
        destruct (sk_lock _ _ _ _ S k a) as [? | (Hb & Hfa & Hna & Hla & Hha)]; [left; congruence|right].
        rewrite Hk in Hfa. rewrite Hlv in Hla. unfold above in Hha. setoid_rewrite Hsh in Hha. repeat split; [done..|lia|done].
  - intros k Hk. destruct (decide (k = i)) as [-> | Hne]; [lia|].
    rewrite (em_lower _ _ _ _ E) by (rewrite Hlv; lia). by apply (rp_ne _ _ _ _ R).
Qed.

Lemma cput_replaced i c s : replaced i c s (cput i c s).
Proof. split; [done|cbn; lia]. Qed.
Lemma cput_cput i c c' s : cput i c' (cput i c s) = cput i c' s.
Proof. unfold cput, set_caches. cbn. by rewrite list_insert_insert_eq. Qed.

(** The state in which a cache has lost a valid line *)
Lemma dropped_sane s i c a l : sane s -> caches s !! i = Some c -> l ∈ lines_of c a -> ln_lock l = false ->
  let c' := put_set a (erase (ln_node l) (lines_of c a)) c in
  sane (cput i c' s) /\ lock_at c (ln_addr l) = Some false /\
  (forall b, lock_at c' b = if decide (block o b = block o (ln_addr l)) then None else lock_at c b).
Proof.
  intros N Hi Hin Hk c'. pose proof (sn_ok _ N _ _ Hi) as K. pose proof (drop_lock _ _ _ K _ _ Hin) as Hd.
  assert (HF : lock_at c (ln_addr l) = Some false).
  { apply (lock_at_some _ _ _ (ck_lines _ _ _ K)). exists l. by destruct (lines_of_in _ _ _ (ck_lines _ _ _ K) _ _ Hin). }
  split; [|done]. apply (rp_sane s _ i c c' (cput_replaced _ _ _) Hi); [done..|by apply drop_ok|]. intros r Hr.
  assert (Hr' : r ∈ retries s i) by (by rewrite (retries_eq _ _ _ Hi)). destruct (sn_retry _ N _ _ Hr') as [Ht ?]. split; [|done].
  unfold c'. rewrite Hd. rewrite (lock_eq _ _ _ _ Hi) in Ht. case_decide as E; [|done].
  rewrite (lock_at_block _ _ _ (ck_lines _ _ _ K) _ (ln_addr l)) in Ht by congruence. congruence.
Qed.
Lemma get_lines_put a ls c : put_set a ls (get_lines a c) = put_set a ls c.
Proof. apply put_set_set. Qed.

(** The loop of [invalidate] *)
Lemma invalidate_above {X} (f : nat -> X -> Caches -> res (X * Caches)) fuel v s1 k (c1 : Cache) x : sane s1 -> caches s1 !! k = Some c1 -> (lvl_of s1 k <= fuel)%nat ->
  (forall h, h ∈ higher_cache c1 -> clear s1 h v) ->
  (forall h s d, sane s -> caches s !! h = Some d -> clear s h v -> (lvl_of s h < fuel)%nat ->
     returns (invalidate freed fuel h v s) (fun y => emptied (S (lvl_of s h)) v s (snd y) /\ lock (snd y) h v = None)) ->
  (forall h x s, exists g, f h x s = let! (r, s) := invalidate freed fuel h v s in Ok (g r, s)) ->
  returns (each_higher f (higher_cache c1) x s1)
    (fun y => emptied (lvl_of s1 k) v s1 (snd y) /\ forall h, h ∈ higher_cache c1 -> lock (snd y) h v = None).
Proof.
  intros N1 Hk Hf Hcl IH Hg.
  apply (each_higher_spec _ (fun seen s => emptied (lvl_of s1 k) v s1 s /\ forall h, h ∈ seen -> lock s h v = None) _ [] x s1).
  - split; [|by intros h ?%elem_of_nil]. split; [done|apply sk_refl|done..].
  - intros h seen x' s Hh [E Hs]. destruct (above_some _ _ _ _ N1 Hk Hh) as (d & Hd & _ & Hlv & _).
    pose proof (em_shrunk _ _ _ _ E) as S. pose proof (sk_shape _ _ _ _ S h) as Hsh. rewrite (shape_eq _ _ _ Hd) in Hsh.
    destruct (shape_some _ _ _ Hsh) as (d' & Hd' & _).
    destruct (Hg h x' s) as [g ->]. eapply returns_bind; [apply (IH h s d'); [apply E|done|eapply clear_shrunk; [done|by apply Hcl]|rewrite (sk_lvl _ _ _ _ _ S); lia]|].
    intros [r s'] [E' Hn]. cbn in *. rewrite (sk_lvl _ _ _ _ _ S) in E'. split.
    + eapply em_trans; [done|]. eapply em_mono; [|done]. lia.
    + intros h' [Hs'| ->%list_elem_of_singleton]%elem_of_app; [|done]. eapply sk_none; [apply E'|by apply Hs].
Qed.

Lemma invalidate_spec fuel : forall k v s c, sane s -> caches s !! k = Some c -> clear s k v -> (lvl_of s k < fuel)%nat ->
  returns (invalidate freed fuel k v s) (fun y => emptied (S (lvl_of s k)) v s (snd y) /\ lock (snd y) k v = None).
Proof.
  induction fuel as [|fuel IH]; intros k v s c N Hk Hcl Hf; [lia|]. cbn [invalidate]. rewrite (cget_eq _ _ _ Hk). cbn [bind].
  pose proof (sn_ok _ N _ _ Hk) as K. rewrite !get_lines_of.
  assert (E0 : emptied (S (lvl_of s k)) v s (cput k (get_lines v c) s)).
  { apply (same_emptied s _ k c (get_lines v c)); try done; [apply get_lines_lock|by apply get_lines_ok]. }
  assert (L0 : lock (cput k (get_lines v c) s) k v = ln_lock <$> line_at c v).
  { rewrite (rp_lock _ _ _ _ _ (cput_replaced k _ s) Hk), decide_True by done. apply get_lines_lock. }
  pose proof (lock_eq _ _ _ v Hk) as Lk. unfold lock_at in Lk.
  change (get_tag (get_lines v c) v) with (get_tag c v). unfold line_at in L0, Lk. cbn [higher_cache get_lines set_lines cshape].
  destruct (lines_of c v) as [|y ls] eqn:El; [by split|]. rewrite <- El in *. clear El.
  destruct (find_tag (get_tag c v) (lines_of c v)) as [l|] eqn:Ft; [|by split].
  assert (ln_lock l = false /\ forall h, above s k h -> clear s h v) as [Hl Hh].
  { inversion Hcl as [? ? H|? ? H ?]; rewrite H in Lk; [done|]. by injection Lk. }
  rewrite Hl, cput_cput, get_lines_put. cbn [negb].
  pose proof (proj1 (find_tag_some _ _ _ Ft)) as Hin. pose proof Ft as [_ Hb]%(line_at_some _ _ _ (ck_lines _ _ _ K)).
  destruct (dropped_sane _ _ _ _ _ N Hk Hin Hl) as (N1 & _ & Hd). rewrite Hb in Hd.
  set (c1 := put_set v (erase (ln_node l) (lines_of c v)) c) in *. set (s1 := cput k c1 s) in *.
  assert (R1 : replaced k c1 s s1) by apply cput_replaced. pose proof (rp_at _ _ _ _ _ R1 Hk) as Hk1.
  assert (Hlv : lvl_of s1 k = lvl_of s k) by (by rewrite (lvl_eq _ _ _ Hk1), (lvl_eq _ _ _ Hk)).
  assert (Hf1 : lock_at c v = Some false) by (unfold lock_at, line_at; rewrite Ft; cbn; by rewrite Hl).
  assert (Hend : forall s2, emptied (lvl_of s1 k) v s1 s2 -> (forall h, h ∈ higher_cache c1 -> lock s2 h v = None) ->
    emptied (S (lvl_of s k)) v s s2 /\ lock s2 k v = None).
  { intros s2 E2 Hn. rewrite Hlv in E2. eapply (drop_emptied s s1 s2 k c c1); try done. intros h Ha%(above_higher _ _ _ _ Hk). by apply Hn. }
  change (higher_cache c) with (higher_cache c1). destruct (higher_cache c1) as [|h0 hs] eqn:Eh; [|rewrite <- Eh in *].
  { cbn. apply Hend; [|by intros h ?%elem_of_nil]. split; [done|apply sk_refl|done..]. }
  eapply returns_weak; [|intros z Hz; exact (Hend (snd z) (proj1 Hz) (proj2 Hz))].
  apply invalidate_above with (fuel := fuel); [done|done|lia|..].
  - intros h Hh'. eapply (clear_mono s); [by apply (rp_shape _ _ _ _ _ R1 Hk)|..|by apply Hh, (above_higher _ _ _ _ Hk)].
    intros k' a. rewrite (rp_lock _ _ _ _ _ R1 Hk). case_decide; [subst|by left]. rewrite Hd, (lock_eq _ _ _ _ Hk). case_decide; auto.
  - intros h s' d. apply IH.
  - intros h [m d] s'. by eexists.
Qed.

(** ** [evictline] and [evict] *)

(** The line is there and valid, as inclusion has it. *)
Lemma evictline_spec j a dirty s d : sane s -> caches s !! j = Some d -> lock_at d a = Some false ->
  returns (evictline j a dirty s) (fun s' => sane s' /\ (forall L v, shrunk L v s s') /\ forall k, k <> j -> caches s' !! k = caches s !! k).
Proof.
  intros N Hj Hf. pose proof (sn_ok _ N _ _ Hj) as K. unfold evictline. rewrite (cget_eq _ _ _ Hj). cbn.
  unfold lock_at in Hf. apply fmap_Some in Hf as (l & Hl & Hk). symmetry in Hk. pose proof Hl as Hl'. rewrite line_at_find in Hl'.
  destruct (cache_lines d !! get_index d a) as [ls|]; [|done]. rewrite Hl'. cbn.
  set (d' := used (next_node s) a (dirty || ln_dirty l) l d). set (s' := use_line _ _ _ _ _ _).
  assert (R : replaced j d' s s') by (split; [done|cbn; lia]).
  assert (Hsame : forall b, lock_at d' b = lock_at d b).
  { intros b. unfold d'. rewrite (used_lock _ _ _ K) by done. case_decide as E; [|done].
    rewrite (lock_at_block _ _ _ (ck_lines _ _ _ K) _ _ E). unfold lock_at. rewrite Hl. cbn. by rewrite Hk. }
  split; [eapply same_sane; [done|exact R|done..|by apply used_ok]|]. split; [intros L v; by eapply same_shrunk|].
  intros k. apply (rp_ne _ _ _ _ R).
Qed.

Lemma same_caches s s' : caches s' = caches s -> next_node s <= next_node s' -> sane s ->
  sane s' /\ (forall L v, shrunk L v s s').
Proof.
  intros Hc Hn N. assert (Hs : forall k, shape_of s' k = shape_of s k) by (intros k; unfold shape_of; by rewrite Hc).
  assert (Hl : forall k a, lock s' k a = lock s k a) by (intros k a; unfold lock; by rewrite Hc).
  assert (Hr : forall k, retries s' k = retries s k) by (intros k; unfold retries; by rewrite Hc). split; [|intros L v; split; auto].
  split.
  - intros k c. rewrite Hc. intros H. eapply cache_ok_mono; [exact (sn_ok _ N _ _ H)|done].
  - destruct (sn_topo _ N) as [Lo Up Fi]. split; [intros i sh j|intros i sh h|intros i sh]; setoid_rewrite Hs; [apply Lo|apply Up|apply Fi].
  - intros k r. rewrite Hr, Hl. apply (sn_retry _ N).
Qed.

Section Evict.
Context (fuel : nat) (ex : nat -> Z -> Prop) (i : nat) (a : Z) (v : Line) (s : Caches) (c : Cache).
Hypothesis N : sane s.
Hypothesis I : inclusive ex s.
Hypothesis Hi : caches s !! i = Some c.
Hypothesis Hc : connected c.
Hypothesis Hv : v ∈ lines_of c a.
Hypothesis Hk : ln_lock v = false.
Hypothesis Hh : forall h, h ∈ higher_cache c -> clear s h (ln_addr v).
Hypothesis Hf : (lvl_of s i <= fuel)%nat.
Let c0 : Cache := bump cache_eviction c.
Let s0 : Caches := cput i c0 s.

Lemma evict_start : emptied (S (lvl_of s i)) (ln_addr v) s s0 /\ caches s0 !! i = Some c0.
Proof.
  assert (R : replaced i c0 s s0) by apply cput_replaced. split; [|by apply (rp_at _ _ _ _ _ R Hi)].
  apply (same_emptied s s0 i c c0); try done. apply bump_ok. exact (sn_ok _ N _ _ Hi).
Qed.
(** After the invalidations the victim goes. *)
Lemma evict_end s1 s2 : emptied (lvl_of s i) (ln_addr v) s0 s1 -> (forall h, h ∈ higher_cache c -> lock s1 h (ln_addr v) = None) ->
  sane s2 -> (forall L w, shrunk L w s1 s2) -> caches s2 !! i = Some c0 ->
  let s3 := cput i (put_set a (erase (ln_node v) (lines_of c0 a)) c0) s2 in
  sane s3 /\ shrunk (S (lvl_of s i)) (ln_addr v) s s3 /\ caches s3 !! i = Some (put_set a (erase (ln_node v) (lines_of c a)) c0).
Proof.
  intros E1 Hn N2 S2 H2 s3. destruct evict_start as [E0 _].
  destruct (dropped_sane _ _ _ _ _ N2 H2 Hv Hk) as (N3 & HF & Hd). fold s3 in N3.
  set (c3 := put_set a (erase (ln_node v) (lines_of c0 a)) c0) in *.
  assert (R : replaced i c3 s2 s3) by apply cput_replaced.
  assert (S02 : shrunk (S (lvl_of s i)) (ln_addr v) s s2).
  { eapply sk_trans; [apply E0|]. eapply sk_trans; [|apply S2]. eapply sk_mono; [|apply E1]. lia. }
  assert (Hlv : lvl_of s2 i = lvl_of s i) by apply (sk_lvl _ _ _ _ _ S02).
  destruct (drop_emptied s2 s3 s3 i c0 c3 (ln_addr v)) as [[_ S3 _ _] _]; try done.
  - split; [done|apply sk_refl|done..].
  - intros h Ha%(above_higher _ _ _ _ H2). destruct (above_some _ _ _ _ N2 H2 Ha) as (d & _ & _ & Hl & _).
    rewrite (rp_lock _ _ _ _ _ R H2), decide_False by (intros ->; lia). eapply sk_none; [apply (S2 0%nat 0)|by apply Hn].
  - split; [done|]. split; [|by apply (rp_at _ _ _ _ _ R H2)]. rewrite Hlv in S3. by eapply sk_trans.
Qed.
Lemma evict_spec : returns (evict freed fuel i a v s) (fun s' =>
  sane s' /\ shrunk (S (lvl_of s i)) (ln_addr v) s s' /\ caches s' !! i = Some (put_set a (erase (ln_node v) (lines_of c a)) c0)).
Proof.
  destruct evict_start as [E0 H0]. unfold evict. rewrite (cget_eq _ _ _ Hi). cbn [bind]. fold c0 s0.
  assert (Hlv : lvl_of s0 i = lvl_of s i) by apply (sk_lvl _ _ _ _ _ (em_shrunk _ _ _ _ E0)).
  eapply returns_bind.
  { change (higher_cache c) with (higher_cache c0). apply invalidate_above with (fuel := fuel) (v := ln_addr v) (k := i); [apply E0|done|lia|..].
    - intros h Hin. eapply clear_shrunk; [apply E0|by apply Hh].
    - intros h s' d. apply invalidate_spec.
    - intros h [m d] s'. by eexists. }
  intros [[time dirty] s1] [E1 Hn]. cbn [snd] in E1, Hn. rewrite Hlv in E1.
  assert (H1 : caches s1 !! i = Some c0) by (rewrite (em_lower _ _ _ _ E1); [done|lia]).
  eapply (returns_bind _ _ (fun s2 => sane s2 /\ (forall L w, shrunk L w s1 s2) /\ caches s2 !! i = Some c0)).
  - pose proof (em_sane _ _ _ _ E1) as N1. destruct (is_last_level c) eqn:El; cbn [negb].
    { assert (Hw : forall w, sane (set_wait w s1) /\ forall L v', shrunk L v' s1 (set_wait w s1))
        by (intros w; apply same_caches; [done|cbn; lia|done]).
      destruct dirty; [|by split; [|split; [intros; apply sk_refl|]]]. destruct (Hw (wait_list s1 ++ [(cclk s1 + time + latency (level c), Request_new (ln_addr v) WRITE 0 0)])). cbn. done. }
    destruct (lower_cache c) as [j|] eqn:Ej; [|destruct Hc; congruence].
    pose proof (shape_eq _ _ _ Hi) as Si. destruct (tp_low _ (sn_topo _ N) _ _ _ Si Ej) as (sj & Sj & _ & Hl & _).
    destruct (shape_some _ _ _ Sj) as (d & Hd & ->).
    assert (Hji : i <> j) by (intros ->; rewrite Hd in Hi; injection Hi as ->; lia).
    assert (Hlj : (lvl_of s i < lvl_of s j)%nat) by (unfold lvl_of; by rewrite Si, Sj).
    assert (Hd1 : caches s1 !! j = Some d).
    { rewrite (em_lower _ _ _ _ E1) by (rewrite (sk_lvl _ _ _ _ _ (em_shrunk _ _ _ _ E0)); lia).
      by rewrite (rp_ne _ _ _ _ (cput_replaced i c0 s)). }
    assert (Hi1 : lock s i (ln_addr v) = Some false) by (rewrite (lock_eq _ _ _ _ Hi); by destruct (dropped_sane _ _ _ _ _ N Hi Hv Hk) as (_ & ? & _)).
    pose proof (I i _ j (ln_addr v) Si Ej) as He. unfold edge in He. rewrite Hi1, (lock_eq _ _ _ _ Hd) in He.
    eapply returns_weak; [by apply (evictline_spec _ _ dirty _ _ N1 Hd1)|]. intros s2 (N2 & S2 & Hne). by rewrite Hne.
  - intros s2 (N2 & S2 & H2). rewrite (cget_eq _ _ _ H2). cbn [bind returns]. by apply (evict_end s1).
Qed.
End Evict.

(** ** [allocate_line] *)
Lemma find_victim_spec fuel i (c : Cache) s : sane s -> caches s !! i = Some c -> (lvl_of s i <= fuel)%nat -> forall lines,
  returns (find_victim fuel c s lines) (fun r => forall v, r = Some v ->
    v ∈ lines /\ ln_lock v = false /\ forall h, h ∈ higher_cache c -> clear s h (ln_addr v)).
Proof.
  intros N Hi Hf. induction lines as [|l lines IH]; cbn; [done|].
  eapply (returns_bind _ _ (fun b => b = true -> negb (ln_lock l) = true /\ forall h, h ∈ higher_cache c -> clear s h (ln_addr l))).
  - destruct (is_first_level c) eqn:Ef; cbn.
    + intros Hk. split; [done|]. rewrite (tp_first _ (sn_topo _ N) _ _ (shape_eq _ _ _ Hi) Ef). by intros h ?%elem_of_nil.
    + apply all_higher_spec. intros h Hh. destruct (above_some _ _ _ _ N Hi Hh) as (d & Hd & _ & Hlv & _).
      eapply check_unlock_spec; [done..|lia].
  - intros [] Hb; cbn.
    + intros v [= <-]. destruct (Hb eq_refl) as [Hk%negb_true_iff Hc]. split; [left|done].
    + eapply returns_weak; [apply IH|]. cbn. intros r Hr v Hv. destruct (Hr v Hv) as (? & ? & ?). split; [by right|done].
Qed.

(** A cache with room for one more line in the set of [a], which has no line
    for it *)
Record roomy (i : nat) (a : Z) (s s1 : Caches) (c c1 : Cache) : Prop := {
  rm_sane : sane s1;
  rm_shrunk : exists w, shrunk (S (lvl_of s i)) w s s1;
  rm_at : caches s1 !! i = Some c1;
  rm_shape : cshape c1 = cshape c;
  rm_mshr : mshr_entries c1 = mshr_entries c;
  rm_none : line_at c1 a = None;
  rm_room : Z.of_nat (length (lines_of c1 a)) < assoc c1
}.
Lemma allocate_spec fuel ex i a s (c : Cache) : sane s -> inclusive ex s -> caches s !! i = Some c -> connected c ->
  line_at c a = None -> (lvl_of s i <= fuel)%nat ->
  returns (allocate_line freed fuel i a s) (fun y =>
    match fst y with
    | None => snd y = s
    | Some n => exists s1 c1, roomy i a s s1 c c1 /\ n = next_node s1 /\
        snd y = bump_node (cput i (put_set a (lines_of c1 a ++ [mk_Line a (get_tag c1 a) true false n]) c1) s1)
    end).
Proof.
  intros N I Hi Hc Hn Hf. pose proof (sn_ok _ N _ _ Hi) as K. unfold allocate_line. rewrite (cget_eq _ _ _ Hi). cbn [bind].
  unfold need_eviction. unfold line_at in Hn. rewrite Hn. cbn [bind].
  eapply (returns_bind _ _ (fun y : bool * Caches => if fst y then exists c1, roomy i a s (snd y) c c1 else snd y = s)).
  - destruct (Z.ltb_spec (Z.of_nat (length (lines_of c a))) (assoc c)) as [Hr|Hr]; cbn [negb].
    { exists c. split; [done|exists 0; apply sk_refl|done..]. }
    eapply returns_bind; [by apply (find_victim_spec _ i)|]. intros [v|] Hv; [|done].
    destruct (Hv v eq_refl) as (Hin & Hk & Hcl). eapply returns_bind; [by eapply (evict_spec fuel ex i a v s c)|].
    intros s1 (N1 & S1 & H1). cbn. eexists. split; [done|by eexists|exact H1|done..| |].
    + assert (H : lock s1 i a = None).
      { eapply sk_none; [exact S1|]. rewrite (lock_eq _ _ _ _ Hi). unfold lock_at, line_at. by rewrite Hn. }
      rewrite (lock_eq _ _ _ _ H1) in H. by apply fmap_None in H.
    + rewrite put_set_lines. pose proof (erase_length _ _ _ Hin eq_refl). pose proof (lines_of_tags _ _ _ (ck_lines _ _ _ K) a) as [_ ?].
      cbn in *. lia.
  - intros [[] s1] H; cbn in H; [|done]. destruct H as (c1 & H). rewrite (cget_eq _ _ _ (rm_at _ _ _ _ _ _ H)). cbn. by exists s1, c1.
Qed.

(** ** What a request leaves alone *)
Record kept (L : nat) (s s' : Caches) : Prop := {
  kp_shape : forall k, shape_of s' k = shape_of s k;
  kp_retry : forall k, (lvl_of s k < L)%nat -> retries s' k = retries s k;
  kp_true : forall k a, (lvl_of s k < L)%nat -> lock s k a = Some true -> lock s' k a = Some true
}.
Lemma kp_lvl L s s' k : kept L s s' -> lvl_of s' k = lvl_of s k.
Proof. intros H. unfold lvl_of. by rewrite (kp_shape _ _ _ H). Qed.
Lemma kp_trans L s s1 s2 : kept L s s1 -> kept L s1 s2 -> kept L s s2.
Proof.
  intros H1 H2. split.
  - intros k. by rewrite (kp_shape _ _ _ H2), (kp_shape _ _ _ H1).
  - intros k Hk. rewrite (kp_retry _ _ _ H2) by (by rewrite (kp_lvl _ _ _ _ H1)). by apply (kp_retry _ _ _ H1).
  - intros k a Hk Ht. apply (kp_true _ _ _ H2); [by rewrite (kp_lvl _ _ _ _ H1)|]. by apply (kp_true _ _ _ H1).
Qed.
Lemma kp_mono L L' s s' : (L' <= L)%nat -> kept L s s' -> kept L' s s'.
Proof. intros HL [S R T]. split; [done|intros k Hk; apply R; lia|intros k a Hk; apply T; lia]. Qed.
Lemma sk_kept L L' w s s' : shrunk L w s s' -> kept L' s s'.
Proof. intros H. split; [apply H|intros k _; apply H|]. intros k a _. by apply (sk_true _ _ _ _ _ _ H). Qed.
Lemma rp_kept i (c c' : Cache) s s' : replaced i c' s s' -> caches s !! i = Some c -> cshape c' = cshape c -> kept (lvl_of s i) s s'.
Proof.
  intros R Hi Hc. split; [by apply (rp_shape _ _ _ _ _ R Hi)|..].
  - intros k Hk. rewrite (rp_retries _ _ _ _ _ R Hi), decide_False; [done|]. intros ->. lia.
  - intros k a Hk. rewrite (rp_lock _ _ _ _ _ R Hi), decide_False; [done|]. intros ->. lia.
Qed.

(** ** [send] *)

(** Requests for the block of [a] on their way from cache [i] *)
Definition pending (i : nat) (a : Z) (ex : nat -> Z -> Prop) : nat -> Z -> Prop := fun k b => ex k b \/ k = i /\ block o b = block o a.

Lemma inclusive_weak (ex ex' : nat -> Z -> Prop) s : inclusive ex s ->
  (forall k sh j b, shape_of s k = Some sh -> lower_cache sh = Some j -> ex k b -> lock s j b <> None \/ ex' k b) -> inclusive ex' s.
Proof.
  intros I H k sh j b Hk Hl. pose proof (I k sh j b Hk Hl) as E. unfold edge in *. destruct (lock s k b) as [[]|]; [|done..].
  destruct E as [? | [? | Hx]]; [by left|by right; left|]. right. by eapply H.
Qed.

(** The line and the register of a request *)
Section Install.
Context (ex : nat -> Z -> Prop) (i : nat) (a : Z) (d : bool) (s s1 : Caches) (c c1 : Cache).
Hypothesis R : roomy i a s s1 c c1.
Hypothesis Hm : Z.of_nat (length (mshr_entries c)) < mshr_entry_num c.
Hypothesis Hi : caches s !! i = Some c.
Let n : Z := next_node s1.
Let c2 : Cache := put_set a (lines_of c1 a ++ [mk_Line a (get_tag c1 a) true false n]) c1.
Let c3 : Cache := set_mshr (mshr_entries c2 ++ [(a, n)]) (map_node n (set_dirty d) c2).
Let s3 : Caches := cput i c3 (bump_node (cput i c2 s1)).
Let H1 : caches s1 !! i = Some c1 := rm_at _ _ _ _ _ _ R.
Let N1 : sane s1 := rm_sane _ _ _ _ _ _ R.
Let K1 : cache_ok o n c1 := sn_ok _ N1 _ _ H1.

Lemma install_cache : cache_ok o (n + 1) c3 /\ (forall b, lock_at c3 b = if decide (block o b = block o a) then Some true else lock_at c1 b).
Proof.
  pose proof (rm_none _ _ _ _ _ _ R) as Hn. pose proof (rm_room _ _ _ _ _ _ R) as Hr. split.
  - apply (dirty_ok o (n + 1) (set_mshr (mshr_entries c2 ++ [(a, n)]) c2)). change (mshr_entries c2) with (mshr_entries c1).
    apply (push_locked o n c1 K1 a (mk_Line a (get_tag c1 a) true false n)); [done..|]. rewrite (rm_mshr _ _ _ _ _ _ R). rewrite (f_equal mshr_entry_num (rm_shape _ _ _ _ _ _ R)). done.
  - intros b. rewrite <- (push_lock o n c1 K1 a (mk_Line a (get_tag c1 a) true false n)) by done. fold c2.
    apply (dirty_lock (set_mshr (mshr_entries c2 ++ [(a, n)]) c2)).
Qed.
Lemma install_node : has_node n c2 = true.
Proof. change n with (ln_node (mk_Line a (get_tag c1 a) true false n)) at 1. apply holds_node, push_holds; [done|by right]. Qed.
Lemma install_replaced : replaced i c3 s1 s3.
Proof. split; [|cbn; lia]. unfold s3, cput, bump_node, set_caches. cbn. by rewrite list_insert_insert_eq. Qed.
Lemma install_lock k b : lock s3 k b = if decide (k = i) then (if decide (block o b = block o a) then Some true else lock s1 k b) else lock s1 k b.
Proof.
  rewrite (rp_lock _ _ _ _ _ install_replaced H1). case_decide; [|done]. subst. rewrite (proj2 install_cache). by rewrite (lock_eq _ _ _ _ H1).
Qed.
Lemma install_retries k : retries s3 k = retries s1 k.
Proof. rewrite (rp_retries _ _ _ _ _ install_replaced H1). case_decide; [|done]. subst. by rewrite (retries_eq _ _ _ H1). Qed.
Lemma install_none b : block o b = block o a -> lock s1 i b = None.
Proof.
  intros Hb. rewrite (lock_block _ _ _ _ N1 Hb), (lock_eq _ _ _ _ H1). unfold lock_at. by rewrite (rm_none _ _ _ _ _ _ R).
Qed.
Lemma install_sane : sane s3.
Proof.
  apply (rp_sane s1 s3 i c1 c3 install_replaced H1); [done..|apply install_cache|]. intros r Hr.
  rewrite <- (lock_eq s3 i c3) by (apply (rp_at _ _ _ _ _ install_replaced H1)). rewrite install_lock, decide_True by done.
  assert (Hr' : r ∈ retries s1 i) by (by rewrite (retries_eq _ _ _ H1)). destruct (sn_retry _ N1 _ _ Hr'). by case_decide.
Qed.
Lemma install_inclusive : sane s -> inclusive ex s -> inclusive (pending i a ex) s3.
Proof.
  intros N I. destruct (rm_shrunk _ _ _ _ _ _ R) as [w S]. pose proof (shrunk_inclusive _ _ _ _ _ N S I) as I1.
  intros k sh j b Hk Hl. rewrite (rp_shape _ _ _ _ _ install_replaced H1) in Hk by done. pose proof (I1 k sh j b Hk Hl) as E. unfold edge, retried, pending in *.
  rewrite install_retries, !install_lock. destruct (decide (block o b = block o a)) as [Hb|Hb]; [|repeat case_decide; destruct (lock s1 k b) as [[]|]; tauto].
  pose proof (install_none b Hb) as Hn. destruct (decide (k = i)) as [-> | Hki]; [tauto|].
  destruct (decide (j = i)) as [-> | Hji]; [|destruct (lock s1 k b) as [[]|]; tauto].
  rewrite Hn in E. destruct (lock s1 k b) as [[]|]; [right; by left|done..].
Qed.
End Install.

(** What is known after a miss was looked up *)
Definition missed (ex : nat -> Z -> Prop) (i : nat) (a : Z) (r : option bool) (s' : Caches) : Prop :=
  match r with
  | Some true => lock s' i a <> None /\ inclusive ex s'
  | Some false => inclusive ex s'
  | None => lock s' i a = Some true /\ inclusive (pending i a ex) s'
  end.
(** The cache changes its counters or a dirty bit. *)
Lemma miss_same ex i s c c' : sane s -> inclusive ex s -> caches s !! i = Some c -> cshape c' = cshape c -> retry_list c' = retry_list c ->
  (forall a, lock_at c' a = lock_at c a) -> cache_ok o (next_node s) c' ->
  sane (cput i c' s) /\ kept (lvl_of s i) s (cput i c' s) /\ inclusive ex (cput i c' s) /\ forall a, lock (cput i c' s) i a = lock s i a.
Proof.
  intros N I Hi Hc Hr Hl K. pose proof (cput_replaced i c' s) as R. split; [by eapply same_sane|]. split; [by eapply rp_kept|].
  split; [eapply (shrunk_inclusive _ 0%nat 0); [done|by eapply same_shrunk|done]|].
  intros a. rewrite (rp_lock _ _ _ _ _ R Hi), decide_True by done. by rewrite Hl, (lock_eq _ _ _ _ Hi).
Qed.

Lemma miss_spec fuel ex i req s (c : Cache) : sane s -> inclusive ex s -> caches s !! i = Some c -> connected c ->
  lock s i (rq_addr req) <> Some false -> (lvl_of s i <= fuel)%nat ->
  returns (miss freed fuel i req s) (fun y => sane (snd y) /\ kept (lvl_of s i) s (snd y) /\ missed ex i (rq_addr req) (fst y) (snd y)).
Proof.
  intros N I Hi Hc Hnf Hf. pose proof (sn_ok _ N _ _ Hi) as K. unfold miss. rewrite (cget_eq _ _ _ Hi). cbn [bind].
  pose proof (fun c' Hs Hr Hl Hk => miss_same ex i s c c' N I Hi Hs Hr Hl Hk) as Same.
  rewrite (lock_eq _ _ _ _ Hi) in Hnf. destruct (hit_mshr c (rq_addr req)) as [[a n]|] eqn:Hm.
  { destruct (hit_mshr_line _ _ _ K _ _ _ Hm) as (l & Hl & Hb & Hn & Hk). unfold write_node.
    rewrite <- Hn, (holds_node (bump cache_mshr_hit c) l Hl). cbn [bind returns fst snd].
    destruct (Same (map_node (ln_node l) (fun x => set_dirty (ReqType_eqb (rq_type req) WRITE || ln_dirty x) x) (bump cache_mshr_hit c))) as (N' & Kp & I' & Lk);
      [done..|intros b; apply (dirty_lock (bump cache_mshr_hit c))|apply dirty_ok; by apply bump_ok|].
    split; [done|split; [done|split; [|done]]]. rewrite Lk, (lock_eq _ _ _ _ Hi).
    assert (H : lock_at c (rq_addr req) = Some true) by (apply (lock_at_some _ _ _ (ck_lines _ _ _ K)); by exists l). by rewrite H. }
  assert (Hn : line_at c (rq_addr req) = None).
  { pose proof (hit_mshr_none _ _ _ K _ Hm) as Ht. unfold lock_at in *. destruct (line_at c (rq_addr req)) as [l|]; [|done].
    cbn in *. by destruct (ln_lock l). }
  destruct (Z.eqb_spec (Z.of_nat (length (mshr_entries c))) (mshr_entry_num c)) as [Hq|Hq].
  { destruct (Same (bump cache_mshr_unavailable c)) as (N' & Kp & I' & _); [done..|by apply bump_ok|done]. }
  destruct (all_sets_locked c (lines_of c (rq_addr req))).
  { destruct (Same (bump cache_set_unavailable c)) as (N' & Kp & I' & _); [done..|by apply bump_ok|done]. }
  eapply returns_bind; [by apply (allocate_spec fuel ex i (rq_addr req) s c)|]. intros [[n|] s2]; cbn [fst snd].
  2:{ intros ->. cbn. split; [done|split; [by apply (sk_kept 0 _ 0), sk_refl|done]]. }
  intros (s1 & c1 & R & -> & ->). pose proof (ck_bound _ _ _ K) as Hbd.
  assert (Hi2 : forall c2, caches (bump_node (cput i c2 s1)) !! i = Some c2).
  { intros c2. apply (rp_at s1 _ i c1 c2); [split; [done|cbn; lia]|apply R]. }
  rewrite (cget_eq _ _ _ (Hi2 _)). cbn [bind]. unfold write_node. rewrite (install_node (rq_addr req) s1 c1). cbn [bind returns fst snd].
  assert (Hroom : Z.of_nat (length (mshr_entries c)) < mshr_entry_num c) by lia.
  split; [by eapply install_sane|]. split; [|split; [|by eapply install_inclusive]].
  - destruct (rm_shrunk _ _ _ _ _ _ R) as [w S]. eapply kp_trans; [by eapply sk_kept|].
    rewrite <- (sk_lvl _ _ _ _ _ S). eapply rp_kept; [apply (install_replaced i _ _ _ c)|apply R|done].
  - rewrite (install_lock i (rq_addr req) _ s s1 c c1) by done. by rewrite !decide_True.
Qed.
End Run.
