(* ===== verification/CacheSafe.v ===== *)
(** * Requests, callbacks and retries in a tree of caches

    [Cache::send], [Cache::callback] and [Cache::tick] in a hierarchy that is
    inclusive: they leave it inclusive, and none of the assertions they pass
    fails. *)
From Stdlib Require Import ZArith Lia Bool String.
From stdpp Require Import base list gmap.
From S2P Require Import Prelude RamIf Sched AddrMap Cache CacheSet CacheRun.

Section Safe.
Context (freed : Line -> Line) (o : Z).

(** ** [send] *)

(** Requests [ex] for the block of [a] are on their way to cache [i]. *)
Definition towards (s : Caches) (i : nat) (a : Z) (ex : nat -> Z -> Prop) : Prop :=
  forall k sh j b, shape_of s k = Some sh -> lower_cache sh = Some j -> ex k b -> j = i /\ block o b = block o a.
Definition sent (ex : nat -> Z -> Prop) (i : nat) (a : Z) (b : bool) (s' : Caches) : Prop :=
  if b then lock s' i a <> None /\ inclusive o nothing s' else inclusive o ex s'.

(** Once the block is there nothing is on its way. *)
Lemma arrived s i a ex : sane o s -> inclusive o ex s -> towards s i a ex -> lock s i a <> None -> inclusive o nothing s.
Proof.
  intros N I T H. eapply inclusive_weak; [exact I|]. intros k sh j b Hk Hl Hx. left.
  destruct (T k sh j b Hk Hl Hx) as [-> Hb]. by rewrite (lock_block _ _ _ _ _ N Hb).
Qed.
(** The next cache down gets the request of [i]. *)
Lemma passed_on s i sh a ex j : sane o s -> inclusive o (pending o i a ex) s -> towards s i a ex -> shape_of s i = Some sh -> lower_cache sh = j ->
  lock s i a <> None -> inclusive o (fun k b => j <> None /\ k = i /\ block o b = block o a) s.
Proof.
  intros N I T Hi Hj H. eapply inclusive_weak; [exact I|]. intros k sh' j' b Hk Hl [Hx|[-> Hb]].
  - left. destruct (T k sh' j' b Hk Hl Hx) as [-> Hb]. by rewrite (lock_block _ _ _ _ _ N Hb).
  - right. split; [congruence|done].
Qed.

(** A hit *)
Lemma hit_sent s i c a d l f : sane o s -> inclusive o nothing s \/ (exists ex, inclusive o ex s /\ towards s i a ex) ->
  caches s !! i = Some c -> forall c', cshape c' = cshape c -> retry_list c' = retry_list c -> (forall b, lock_at c' b = lock_at c b) ->
  cache_ok o (next_node s) c' -> line_at c' a = Some l -> ln_lock l = false ->
  let s' := set_hit f (use_line a d l i c' s) in
  sane o s' /\ kept (lvl_of s i) s s' /\ lock s' i a <> None /\ inclusive o nothing s'.
Proof.
  intros N I Hi c' Hc Hr Hl K Hln Hk s'. set (c2 := used (next_node s) a d l c').
  assert (R : replaced i c2 s s') by (split; [done|cbn; lia]).
  assert (H2 : forall b, lock_at c2 b = lock_at c b).
  { intros b. unfold c2. rewrite (used_lock o _ _ K) by done. rewrite <- Hl. case_decide as E; [|done].
    rewrite (lock_at_block _ _ _ (ck_lines _ _ _ K) _ _ E). unfold lock_at. rewrite Hln. cbn. by rewrite Hk. }
  assert (N' : sane o s') by (eapply same_sane; [exact N|exact R|exact Hi|done..|by apply used_ok]).
  assert (S' : shrunk o 0 0 s s') by (by eapply same_shrunk).
  assert (Ha : lock s' i a <> None).
  { rewrite (rp_lock _ _ _ _ _ R Hi), decide_True by done. unfold c2. rewrite (used_lock o _ _ K) by done. by rewrite decide_True. }
  split; [done|]. split; [by eapply sk_kept|]. split; [done|]. destruct I as [I | (ex & I & T)].
  - exact (shrunk_inclusive o _ 0 0 s s' N S' I).
  - eapply (arrived _ i a ex); [done|exact (shrunk_inclusive o _ 0 0 s s' N S' I)| |done]. intros k sh j b Hk'. rewrite (sk_shape _ _ _ _ _ S') in Hk'. by apply T.
Qed.

(** A request that was refused is kept for later. *)
Lemma refused s i c req : sane o s -> inclusive o (fun k b => k = i /\ block o b = block o (rq_addr req)) s -> caches s !! i = Some c ->
  lock s i (rq_addr req) = Some true -> rq_type req = READ ->
  let s' := cput i (set_retry (retry_list c ++ [req]) c) s in
  sane o s' /\ kept (lvl_of s i) s s' /\ lock s' i (rq_addr req) <> None /\ inclusive o nothing s'.
Proof.
  intros N I Hi Hl Ht s'. set (c' := set_retry (retry_list c ++ [req]) c). pose proof (cput_replaced i c' s) as R. fold s' in R.
  assert (Hk : forall k a, lock s' k a = lock s k a).
  { intros k a. rewrite (rp_lock _ _ _ _ _ R Hi). case_decide; [|done]. subst. by rewrite (lock_eq _ _ _ _ Hi). }
  assert (Hr : forall k, retries s' k = if decide (k = i) then retries s i ++ [req] else retries s k).
  { intros k. rewrite (rp_retries _ _ _ _ _ R Hi). case_decide; [|done]. by rewrite (retries_eq _ _ _ Hi). }
  split; [|split; [by eapply rp_kept|split; [by rewrite Hk, Hl|]]].
  - apply (rp_sane o s s' i c c' R Hi); [done|done|apply set_retry_ok; exact (sn_ok _ _ N _ _ Hi)|].
    intros r Hin. rewrite <- (lock_eq s' i c') by (by apply (rp_at _ _ _ _ _ R Hi)). rewrite Hk.
    cbn in Hin. apply elem_of_app in Hin as [Hin | ->%list_elem_of_singleton]; [|done]. apply (sn_retry _ _ N). by rewrite (retries_eq _ _ _ Hi).
  - intros k sh j b Hks Hlk. rewrite (rp_shape _ _ _ _ _ R Hi) in Hks by done. pose proof (I k sh j b Hks Hlk) as E.
    unfold edge, retried in *. rewrite !Hk, Hr. destruct (lock s k b) as [[]|]; [|done..]. destruct E as [(r & Hin & Hb)|[E|[-> Hb]]].
    + left. exists r. split; [|done]. case_decide; [subst; apply elem_of_app; by left|done].
    + by right; left.
    + left. exists req. rewrite decide_True by done. split; [apply elem_of_app; right; by apply list_elem_of_singleton|done].
Qed.

(** The request waits for the memory. *)
Lemma last_sent ex s i sh a w : sane o s -> inclusive o (pending o i a ex) s -> towards s i a ex -> shape_of s i = Some sh ->
  is_last_level sh = true -> lock s i a = Some true ->
  let s' := set_wait w s in sane o s' /\ (forall L, kept L s s') /\ lock s' i a <> None /\ inclusive o nothing s'.
Proof.
  intros N I T Hi El Hl s'. destruct (same_caches o s s') as [N' S']; [done|cbn; lia|done|].
  eapply (passed_on _ _ _ _ _ (lower_cache sh)) in I; [|done|done|done|done|by rewrite Hl].
  assert (Hn : lower_cache sh = None).
  { destruct (lower_cache sh) as [j|] eqn:Ej; [|done]. destruct (tp_low _ (sn_topo _ _ N) _ _ _ Hi Ej) as (_ & _ & _ & _ & _ & E). congruence. }
  split; [done|]. split; [intros L; by eapply (sk_kept o 0 _ 0)|]. split; [intros H; change (lock s i a = None) in H; congruence|].
  apply (shrunk_inclusive o _ 0 0 s s' N (S' _ _)). eapply inclusive_weak; [exact I|]. intros k sh' j b _ _ [H _]. by rewrite Hn in H.
Qed.
(** The request goes to the cache below, and is kept if that refuses it. *)
Lemma down_sent fuel ex s i j sh req : sane o s -> shape_of s i = Some sh -> (lvl_of s i < lvl_of s j)%nat ->
  lock s i (rq_addr req) = Some true -> rq_type req = READ ->
  returns (send freed fuel j req s) (fun y => sane o (snd y) /\ kept (lvl_of s j) s (snd y) /\
    sent (fun k b => k = i /\ block o b = block o (rq_addr req)) j (rq_addr req) (fst y) (snd y)) ->
  returns (let! (b, s) := send freed fuel j req s in
           if b : bool then Ok (true, s) else let! c := cget i s in Ok (true, cput i (set_retry (retry_list c ++ [req]) c) s))
    (fun y => sane o (snd y) /\ kept (lvl_of s i) s (snd y) /\ sent ex i (rq_addr req) (fst y) (snd y)).
Proof.
  intros N Hi Hlv Hl Ht H. eapply returns_bind; [exact H|]. intros [b s'] (N' & Kp & St). cbn [fst snd] in *.
  assert (Hl' : lock s' i (rq_addr req) = Some true) by (by apply (kp_true _ _ _ Kp)).
  assert (Kp' : kept (lvl_of s i) s s') by (eapply kp_mono; [|done]; lia).
  destruct b; [cbn; split; [done|split; [done|split; [congruence|apply St]]]|].
  rewrite <- (kp_shape _ _ _ Kp) in Hi. destruct (shape_some _ _ _ Hi) as (c & Hc & ->). rewrite (cget_eq _ _ _ Hc). cbn [bind returns fst snd].
  destruct (refused s' i c req N' St Hc Hl' Ht) as (N2 & Kp2 & L2 & I2). split; [done|]. split; [|done].
  eapply kp_trans; [done|]. by rewrite (kp_lvl _ _ _ i Kp) in Kp2.
Qed.
(** A miss has been looked up. *)
Lemma after_miss fuel ex s i (c : Cache) req r w : sane o s -> missed o ex i (rq_addr req) r s -> towards s i (rq_addr req) ex ->
  shape_of s i = Some (cshape c) -> connected c -> rq_type req = READ ->
  (forall j (d : Cache) ex, caches s !! j = Some d -> connected d -> (lvl_of s i < lvl_of s j)%nat -> inclusive o ex s -> towards s j (rq_addr req) ex ->
     returns (send freed fuel j req s) (fun y => sane o (snd y) /\ kept (lvl_of s j) s (snd y) /\ sent ex j (rq_addr req) (fst y) (snd y))) ->
  returns (match r with
           | Some b => Ok (b, s)
           | None =>
               if negb (is_last_level c) then
                 match lower_cache c with
                 | None => Abort "null cache"
                 | Some j =>
                     let! (b, s) := send freed fuel j req s in
                     if b : bool then Ok (true, s) else let! c := cget i s in Ok (true, cput i (set_retry (retry_list c ++ [req]) c) s)
                 end
               else Ok (true, set_wait w s)
           end)
    (fun y => sane o (snd y) /\ kept (lvl_of s i) s (snd y) /\ sent ex i (rq_addr req) (fst y) (snd y)).
Proof.
  intros N M T Si Hc Ht IH. assert (Kr : kept (lvl_of s i) s s) by apply (sk_kept o 0 _ 0), sk_refl.
  destruct r as [[]|]; cbn [missed] in M; [destruct M; split; [done|split; [done|split; [done|by eapply arrived]]]|done|].
  destruct M as [M1 M2]. destruct (is_last_level c) eqn:El; cbn [negb].
  { destruct (last_sent ex s i c (rq_addr req) w) as (N' & Kp & L' & I'); [done..|]. by split; [|split; [apply Kp|split]]. }
  destruct (lower_cache c) as [j|] eqn:Ej; [|destruct Hc; congruence].
  eapply (passed_on _ _ _ _ _ (lower_cache c)) in M2; [|done|done|done|done|by rewrite M1].
  destruct (tp_low _ (sn_topo _ _ N) _ _ _ Si Ej) as (sj & Sj & _ & Hlj & Hcj & _). destruct (shape_some _ _ _ Sj) as (d & Hd & ->).
  assert (Hlv : (lvl_of s i < lvl_of s j)%nat) by (unfold lvl_of; by rewrite Si, Sj).
  eapply down_sent; [done..|]. apply (IH j d); [done..| |].
  - eapply inclusive_weak; [exact M2|]. intros k sh j' b _ _ (_ & ? & ?). by right.
  - intros k sh j' b Hk Hlk [-> Hb]. split; [|done]. rewrite Si in Hk. injection Hk as <-. congruence.
Qed.

Lemma send_spec fuel : forall i req s (c : Cache) ex, sane o s -> inclusive o ex s -> towards s i (rq_addr req) ex ->
  caches s !! i = Some c -> connected c -> (rq_type req = READ \/ rq_type req = WRITE) -> (6 <= fuel + lvl_of s i)%nat ->
  returns (send freed fuel i req s) (fun y => sane o (snd y) /\ kept (lvl_of s i) s (snd y) /\ sent ex i (rq_addr req) (fst y) (snd y)).
Proof.
  induction fuel as [|fuel IH]; intros i req s c ex N I T Hi Hc Ht Hf;
    (assert (Hlv : (lvl_of s i <= 3)%nat) by (rewrite (lvl_eq _ _ _ Hi); destruct (level c); cbn; lia)); [lia|].
  cbn [send]. rewrite (cget_eq _ _ _ Hi). cbn [bind].
  assert (ReqType_eqb (rq_type req) WRITE || ReqType_eqb (rq_type req) READ = true)%bool as -> by (destruct Ht as [-> | ->]; done).
  pose proof (sn_ok _ _ N _ _ Hi) as K. set (c1 := get_lines _ _).
  assert (K1 : cache_ok o (next_node s) c1) by (apply get_lines_ok, bump_ok, bump_ok, K).
  assert (L1 : forall b, lock_at c1 b = lock_at c b) by (intros b; unfold c1; by rewrite get_lines_lock).
  unfold is_hit. change (find_tag (get_tag c1 (rq_addr req)) (lines_of c1 (rq_addr req))) with (line_at c1 (rq_addr req)).
  destruct (match line_at c1 (rq_addr req) with Some l => if ln_lock l then None else Some l | None => None end) as [l|] eqn:Eh.
  { destruct (line_at c1 (rq_addr req)) as [l'|] eqn:El; [|done]. destruct (ln_lock l') eqn:Ek; [done|]. injection Eh as ->.
    cbn [returns fst snd]. eapply (hit_sent s i c (rq_addr req)) with (c' := c1); [done|right; by exists ex|done..]. }
  set (c2 := bump _ (bump _ c1)). destruct (miss_same o ex i s c c2) as (N2 & Kp2 & I2 & Hl2); [done..|apply bump_ok, bump_ok, K1|].
  pose proof (cput_replaced i c2 s) as R2. set (s2 := cput i c2 s) in *. pose proof (rp_at _ _ _ _ _ R2 Hi) as Hi2.
  pose proof (kp_lvl _ _ _ i Kp2) as Hlv2. eapply returns_bind.
  { apply (miss_spec freed o (S fuel) ex i req s2 c2); [done..| |lia]. rewrite Hl2, (lock_eq _ _ _ _ Hi), <- L1. unfold lock_at.
    destruct (line_at c1 (rq_addr req)) as [l|]; [|done]. cbn in *. by destruct (ln_lock l). }
  rewrite Hlv2. intros [r s3] (N3 & Kp3 & M). cbn [fst snd] in *.
  assert (Kp : kept (lvl_of s i) s s3) by (by eapply kp_trans). pose proof (kp_lvl _ _ _ i Kp) as Hlv3.
  eapply returns_weak; [apply (after_miss fuel ex s3 i c (set_type READ req)); [done|done| | |done|done|]|].
  - intros k sh j b Hk. rewrite (kp_shape _ _ _ Kp) in Hk. by apply T.
  - rewrite (kp_shape _ _ _ Kp). by apply shape_eq.
  - intros j d ex' Hd Hcd Hld I' T'. apply (IH j _ s3 d ex'); [done..|by left|lia].
  - intros y (Ny & Ky & Sy). split; [done|]. split; [|done]. rewrite Hlv3 in Ky. by eapply kp_trans.
Qed.

(** ** [callback] *)

(** No request for the block waits to be sent again. *)
Definition quiet (s : Caches) (a : Z) : Prop := forall k, ~ retried o s k a.
(** The caches from [k] up *)
Inductive under (s : Caches) : nat -> nat -> Prop :=
| under_self k : under s k k
| under_up k h k' : above s k h -> under s h k' -> under s k k'.

(** Copies of the block of [a] become valid. *)
Record opened (a : Z) (s s' : Caches) : Prop := {
  op_shape : forall k, shape_of s' k = shape_of s k;
  op_retry : forall k, retries s' k = retries s k;
  op_lock : forall k b, lock s' k b = lock s k b \/ block o b = block o a /\ lock s k b = Some true /\ lock s' k b = Some false;
  op_rest : s' = set_caches (caches s') s
}.
Lemma op_refl a s : opened a s s.
Proof. split; auto. by destruct s. Qed.
Lemma op_trans a s s1 s2 : opened a s s1 -> opened a s1 s2 -> opened a s s2.
Proof.
  intros H1 H2. split.
  - intros k. by rewrite (op_shape _ _ _ H2), (op_shape _ _ _ H1).
  - intros k. by rewrite (op_retry _ _ _ H2), (op_retry _ _ _ H1).
  - intros k b. destruct (op_lock _ _ _ H1 k b) as [E1 | (? & ? & ?)], (op_lock _ _ _ H2 k b) as [E2 | (? & ? & ?)];
      [left; congruence|right; repeat split; congruence|right; repeat split; congruence|congruence].
  - rewrite (op_rest _ _ _ H2) at 1. by rewrite (op_rest _ _ _ H1).
Qed.
Lemma op_not_true a s s' k b : opened a s s' -> lock s k b <> Some true -> lock s' k b <> Some true.
Proof. intros H Hn. destruct (op_lock _ _ _ H k b) as [-> | (_ & _ & ->)]; done. Qed.
Lemma op_quiet a s s' b : opened a s s' -> quiet s b -> quiet s' b.
Proof. intros H Q k (r & Hr & Hb). rewrite (op_retry _ _ _ H) in Hr. apply (Q k). by exists r. Qed.
Lemma op_lvl a s s' k : opened a s s' -> lvl_of s' k = lvl_of s k.
Proof. intros H. unfold lvl_of. by rewrite (op_shape _ _ _ H). Qed.
Lemma op_under a s s' k k' : opened a s s' -> under s k k' -> under s' k k'.
Proof.
  intros H. induction 1 as [k|k h k' Ha _ IH]; [constructor|]. eapply under_up; [|done]. unfold above. by rewrite (op_shape _ _ _ H).
Qed.

(** The block is unlocked in one cache: it is there and valid below. *)
Lemma unlock_step k a s (c c1 : Cache) : sane o s -> inclusive o nothing s -> quiet s a -> caches s !! k = Some c ->
  (forall j, lower_cache c = Some j -> lock s j a <> Some true) ->
  cache_ok o (next_node s) c1 -> cshape c1 = cshape c -> retry_list c1 = retry_list c ->
  (forall b, lock_at c1 b = if decide (block o b = block o a) then (fun _ => false) <$> lock_at c b else lock_at c b) ->
  let s1 := cput k c1 s in sane o s1 /\ inclusive o nothing s1 /\ opened a s s1 /\ lock s1 k a <> Some true.
Proof.
  intros N I Q Hk Hlow K1 Hs Hr Hl s1. pose proof (cput_replaced k c1 s) as R. fold s1 in R.
  assert (Hlk : forall k' b, lock s1 k' b = if decide (k' = k /\ block o b = block o a) then (fun _ => false) <$> lock s k' b else lock s k' b).
  { intros k' b. rewrite (rp_lock _ _ _ _ _ R Hk). destruct (decide (k' = k)) as [-> | Hne].
    - rewrite Hl, (lock_eq _ _ _ _ Hk). repeat case_decide; tauto.
    - rewrite decide_False; tauto. }
  assert (Hre : forall k', retries s1 k' = retries s k').
  { intros k'. rewrite (rp_retries _ _ _ _ _ R Hk). case_decide; [|done]. subst. by rewrite Hr, (retries_eq _ _ _ Hk). }
  assert (O : opened a s s1).
  { split; [by apply (rp_shape _ _ _ _ _ R Hk)|done| |done]. intros k' b. rewrite Hlk. case_decide as E; [|by left].
    destruct (lock s k' b) as [[]|]; [right; by repeat split; try apply E|by left..]. }
  split; [|split; [|split; [done|rewrite Hlk, decide_True by done; by destruct (lock s k a) as [[]|]]]].
  - apply (rp_sane o s s1 k c c1 R Hk Hs N K1). intros r Hin. rewrite Hr, <- (retries_eq _ _ _ Hk) in Hin.
    destruct (sn_retry _ _ N _ _ Hin) as [Ht ?]. split; [|done]. rewrite Hl, decide_False; [by rewrite <- (lock_eq _ _ _ _ Hk)|].
    intros E. apply (Q k). by exists r.
  - intros i sh j b Hi Hlo. rewrite (op_shape _ _ _ O) in Hi. pose proof (I i sh j b Hi Hlo) as E. unfold edge, retried, nothing in *.
    rewrite !Hlk, Hre. destruct (decide (block o b = block o a)) as [Hb|Hb].
    2:{ rewrite !decide_False by tauto. exact E. }
    assert (Hnr : ~ (exists r, r ∈ retries s i /\ block o (rq_addr r) = block o b)).
    { intros (r & Hr1 & Hr2). apply (Q i). exists r. split; [done|congruence]. }
    destruct (decide (i = k)) as [-> | Hik].
    + rewrite (shape_eq _ _ _ Hk) in Hi. injection Hi as <-. specialize (Hlow j Hlo). rewrite <- (lock_block _ _ _ _ _ N Hb) in Hlow.
      rewrite decide_True by tauto. destruct (lock s k b) as [[]|], (lock s j b) as [[]|] eqn:Ej; cbn; repeat case_decide; cbn; tauto.
    + rewrite (decide_False (P := i = k /\ _)) by tauto. destruct (lock s i b) as [[]|]; [|case_decide; [by rewrite E|done]|done].
      destruct E as [E | [E | E]]; [by left| |done]. right. left. case_decide; [|done]. by destruct (lock s j b) as [[]|].
Qed.

Lemma callback_spec fuel : forall k a s (c : Cache), sane o s -> inclusive o nothing s -> quiet s a -> caches s !! k = Some c ->
  (lvl_of s k < fuel)%nat -> (forall j, lower_cache c = Some j -> lock s j a <> Some true) ->
  returns (callback fuel k a s) (fun s' => sane o s' /\ inclusive o nothing s' /\ opened a s s' /\
    forall k', under s k k' -> lock s' k' a <> Some true).
Proof.
  induction fuel as [|fuel IH]; intros k a s c N I Q Hk Hf Hlow; [lia|]. cbn [callback]. rewrite (cget_eq _ _ _ Hk). cbn [bind].
  eapply returns_bind; [apply (unlock_spec o _ _ a (sn_ok _ _ N _ _ Hk))|]. intros c1 (K1 & Hs & Hr & Hl).
  destruct (unlock_step k a s c c1) as (N1 & I1 & O1 & H1); [done..|]. set (s1 := cput k c1 s) in *.
  assert (Hk1 : caches s1 !! k = Some c1) by (eapply rp_at; [apply cput_replaced|done]).
  eapply (returns_bind _ _ (fun y => sane o (snd y) /\ inclusive o nothing (snd y) /\ opened a s1 (snd y) /\
    forall h, h ∈ higher_cache c1 -> forall k', under s h k' -> lock (snd y) k' a <> Some true)).
  - apply (each_higher_spec _ (fun seen s' => sane o s' /\ inclusive o nothing s' /\ opened a s1 s' /\
      forall h, h ∈ seen -> forall k', under s h k' -> lock s' k' a <> Some true) _ [] tt s1).
    { split; [done|split; [done|split; [apply op_refl|by intros h ?%elem_of_nil]]]. }
    intros h seen x s2 Hh (N2 & I2 & O2 & S2). destruct (above_some o _ _ _ _ N1 Hk1 Hh) as (d & Hd & Hdl & Hlv & _).
    pose proof (op_shape _ _ _ O2 h) as Hsh. rewrite (shape_eq _ _ _ Hd) in Hsh. destruct (shape_some _ _ _ Hsh) as (d2 & Hd2 & Hs2).
    pose proof (op_trans _ _ _ _ O1 O2) as O02. eapply returns_bind.
    { apply (IH h a s2 d2 N2 I2); [exact (op_quiet _ _ _ _ O02 Q)|done|rewrite (op_lvl _ _ _ _ O2); rewrite (op_lvl _ _ _ k O1) in Hlv; lia|].
      intros j. rewrite <- Hs2, Hdl. intros [= <-]. exact (op_not_true _ _ _ _ _ O2 H1). }
    intros s3 (N3 & I3 & O3 & U3). cbn. split; [done|split; [done|split; [by eapply op_trans|]]].
    intros h' [Hin | ->%list_elem_of_singleton]%elem_of_app k' Hu; [exact (op_not_true _ _ _ _ _ O3 (S2 h' Hin k' Hu))|].
    apply U3. exact (op_under _ _ _ _ _ O02 Hu).
  - intros [[] s2] (N2 & I2 & O2 & S2). cbn in *. split; [done|split; [done|split; [by eapply op_trans|]]].
    intros k' Hu. inversion Hu as [|? h ? Ha Hu']; subst; [exact (op_not_true _ _ _ _ _ O2 H1)|].
    apply (S2 h); [|done]. apply (above_higher _ _ _ _ Hk) in Ha. by rewrite Hs.
Qed.
End Safe.
