(* ===== verification/CacheTick.v ===== *)
(** * Ticks of the caches

    [Cache::tick], which sends the requests again that were refused, and
    [CacheSystem::tick]. *)
From Stdlib Require Import ZArith Lia Bool String.
From stdpp Require Import base list gmap.
From S2P Require Import Prelude RamIf Sched AddrMap Cache CacheSet CacheRun CacheSafe.

(** A computation that ends as [P] says, or steps its iterator past the end
    of the list of refused requests *)
Definition steps {X} (m : res X) (P : X -> Prop) : Prop :=
  match m with Ok x => P x | Abort e => e = "iterator past the end"%string end.
Lemma steps_bind {X Y} (m : res X) (k : X -> res Y) P Q : steps m P -> (forall x, P x -> steps (k x) Q) -> steps (bind m k) Q.
Proof. destruct m; cbn; auto. Qed.
Lemma returns_steps {X} (m : res X) P : returns m P -> steps m P.
Proof. by destruct m. Qed.

Section Tick.
Context (freed : Line -> Line) (o : Z).

(** A hierarchy in which every request has been answered *)
Record settled (s : Caches) : Prop := {
  st_sane : sane o s;
  st_inclusive : inclusive o nothing s
}.
Definition same_shapes (s s' : Caches) : Prop := forall k, shape_of s' k = shape_of s k.

Lemma same_shapes_lvl s s' k : same_shapes s s' -> lvl_of s' k = lvl_of s k.
Proof. intros H. unfold lvl_of. by rewrite H. Qed.

(** ** [Cache::tick] *)

(** A request that the cache below has taken is forgotten. *)
Lemma forget i j p (c : Cache) r s : settled s -> caches s !! i = Some c -> lower_cache c = Some j -> retry_list c !! p = Some r ->
  lock s j (rq_addr r) <> None -> settled (cput i (set_retry (delete p (retry_list c)) c) s).
Proof.
  intros [N I] Hi Hj Hp Hl. set (c' := set_retry _ c). pose proof (cput_replaced i c' s) as R. set (s' := cput i c' s) in *.
  pose proof (delete_Permutation _ _ _ Hp) as Perm.
  assert (Hlk : forall k a, lock s' k a = lock s k a).
  { intros k a. rewrite (rp_lock _ _ _ _ _ R Hi). case_decide; [|done]. subst. by rewrite (lock_eq _ _ _ _ Hi). }
  split.
  - apply (rp_sane o s s' i c c' R Hi); [done|done|apply set_retry_ok; exact (sn_ok _ _ N _ _ Hi)|]. intros q Hq.
    rewrite <- (lock_eq s' i c') by (by apply (rp_at _ _ _ _ _ R Hi)). rewrite Hlk. apply (sn_retry _ _ N). rewrite (retries_eq _ _ _ Hi), Perm. by right.
  - intros k sh j' b Hk Hlo. rewrite (rp_shape _ _ _ _ _ R Hi) in Hk by done. pose proof (I k sh j' b Hk Hlo) as E. unfold edge, retried in *.
    rewrite !Hlk, (rp_retries _ _ _ _ _ R Hi). destruct (lock s k b) as [[]|]; [|done..].
    destruct E as [(q & Hq & Hb) | E]; [|by right]. case_decide as Ek; [subst|left; by exists q].
    rewrite (shape_eq _ _ _ Hi) in Hk. injection Hk as <-. rewrite Hj in Hlo. injection Hlo as <-.
    rewrite (retries_eq _ _ _ Hi), Perm in Hq. apply elem_of_cons in Hq as [-> | Hq]; [|left; by exists q].
    right. left. by rewrite <- (lock_block _ _ _ _ _ N Hb).
Qed.

Lemma retry_loop_spec fuel i j n : forall p s (c : Cache), settled s -> caches s !! i = Some c -> lower_cache c = Some j ->
  (6 <= fuel + lvl_of s j)%nat -> steps (retry_loop freed fuel i j n p s) (fun s' => settled s' /\ same_shapes s s').
Proof.
  induction n as [|n IH]; intros p s c St Hi Hj Hf; [done|]. cbn [retry_loop]. rewrite (cget_eq _ _ _ Hi). cbn [bind].
  destruct (retry_list c !! p) as [r|] eqn:Hp; [|done]. destruct St as [N I].
  pose proof (shape_eq _ _ _ Hi) as Si. destruct (tp_low _ (sn_topo _ _ N) _ _ _ Si Hj) as (sj & Sj & _ & Hl & Hc & _).
  destruct (shape_some _ _ _ Sj) as (cj & Hcj & ->).
  assert (Hr : r ∈ retries s i) by (rewrite (retries_eq _ _ _ Hi); by eapply list_elem_of_lookup_2).
  destruct (sn_retry _ _ N _ _ Hr) as [_ Ht].
  eapply steps_bind; [apply returns_steps, (send_spec freed o fuel j r s cj nothing N I); [done..|by left|done]|].
  intros [b s1] (N1 & Kp & Sd). cbn [fst snd] in *.
  assert (Hlv : (lvl_of s i < lvl_of s j)%nat) by (unfold lvl_of; by rewrite Si, Sj).
  assert (St1 : settled s1) by (split; [done|]; destruct b; [apply Sd|exact Sd]).
  assert (Sh1 : same_shapes s s1) by (intros k; apply (kp_shape _ _ _ Kp)).
  assert (Si1 : shape_of s1 i = Some (cshape c)) by (by rewrite Sh1). destruct (shape_some _ _ _ Si1) as (c1 & Hc1 & Hs1).
  assert (Hr1 : retry_list c1 = retry_list c) by (rewrite <- (retries_eq _ _ _ Hc1), (kp_retry _ _ _ Kp) by done; by apply retries_eq).
  assert (Hj1 : lower_cache c1 = Some j) by (by rewrite <- Hs1).
  assert (Hgo : forall s2 c2, settled s2 -> caches s2 !! i = Some c2 -> cshape c2 = cshape c1 -> same_shapes s1 s2 ->
    steps (retry_loop freed fuel i j n (S p) s2) (fun s' => settled s' /\ same_shapes s s')).
  { intros s2 c2 St2 H2 Hs2 Sh2. assert (Sh : same_shapes s s2) by (intros k; by rewrite Sh2, Sh1).
    assert (Hlast := IH (S p) s2 c2 St2 H2). rewrite Hs2 in Hlast. rewrite (same_shapes_lvl _ _ _ Sh) in Hlast. specialize (Hlast Hj1 Hf).
    destruct (retry_loop _ _ _ _ _ _ _); [|done]. cbn in *. destruct Hlast as [? Hsh]. split; [done|]. intros k. by rewrite Hsh, Sh. }
  destruct b; [|by eapply Hgo].
  rewrite (cget_eq _ _ _ Hc1). cbn [bind]. destruct ((p =? length (delete p (retry_list c1)))%nat); [done|].
  eapply Hgo; [eapply forget; [done..|by rewrite Hr1|apply Sd]|eapply rp_at; [apply cput_replaced|done]|done|].
  intros k. by apply (rp_shape _ _ _ _ _ (cput_replaced i _ s1) Hc1).
Qed.

Lemma tick_spec fuel : forall i s (c : Cache), settled s -> caches s !! i = Some c -> lower_cache c <> None -> (6 <= fuel + lvl_of s i)%nat ->
  steps (tick freed fuel i s) (fun s' => settled s' /\ same_shapes s s').
Proof.
  induction fuel as [|fuel IH]; intros i s c St Hi Hl Hf;
    (assert (Hlv : (lvl_of s i <= 3)%nat) by (rewrite (lvl_eq _ _ _ Hi); destruct (level c); cbn; lia)); [lia|].
  cbn [tick]. rewrite (cget_eq _ _ _ Hi). cbn [bind]. destruct (lower_cache c) as [j|] eqn:Hj; [|done].
  pose proof (shape_eq _ _ _ Hi) as Si. destruct (tp_low _ (sn_topo _ _ (st_sane _ St)) _ _ _ Si Hj) as (sj & Sj & _ & Hlj & Hc & _).
  destruct (shape_some _ _ _ Sj) as (cj & Hcj & ->). rewrite (cget_eq _ _ _ Hcj). cbn [bind].
  assert (Hij : (lvl_of s i < lvl_of s j)%nat) by (unfold lvl_of; by rewrite Si, Sj).
  eapply (steps_bind _ _ (fun s' => settled s' /\ same_shapes s s')).
  { destruct (is_last_level cj) eqn:El; cbn [negb]; [by split|]. apply (IH j s cj); [done..| |lia]. destruct Hc; congruence. }
  intros s1 [St1 Sh1]. assert (Si1 : shape_of s1 i = Some (cshape c)) by (by rewrite Sh1).
  destruct (shape_some _ _ _ Si1) as (c1 & Hc1 & Hs1). rewrite (cget_eq _ _ _ Hc1). cbn [bind].
  assert (Hlast := retry_loop_spec (S fuel) i j (length (retry_list c1)) 0 s1 c1 St1 Hc1).
  rewrite <- Hs1, (same_shapes_lvl _ _ _ Sh1) in Hlast. specialize (Hlast Hj ltac:(lia)).
  destruct (retry_loop _ _ _ _ _ _ _); [|done]. cbn in *. destruct Hlast as [? Hsh]. split; [done|]. intros k. by rewrite Hsh, Sh1.
Qed.

(** ** Answers

    The last-level caches of the tree *)
Definition roots_of (s : Caches) (roots : list nat) : Prop :=
  forall r, r ∈ roots -> exists sh, shape_of s r = Some sh /\ lower_cache sh = None.

Lemma lvl_small s k : (lvl_of s k < 6)%nat.
Proof. unfold lvl_of. destruct (shape_of s k) as [sh|]; [destruct (level sh)|]; cbn; lia. Qed.

Lemma receive_spec roots a s : settled s -> quiet o s a -> roots_of s roots ->
  returns (receive 6 roots a s) (fun s' => settled s' /\ opened o a s s' /\
    forall r, r ∈ roots -> forall k, under s r k -> lock s' k a <> Some true).
Proof.
  intros St Q Hr. unfold receive. eapply (returns_bind _ _ (fun y => settled (snd y) /\ opened o a s (snd y) /\
    forall r, r ∈ roots -> forall k, under s r k -> lock (snd y) k a <> Some true)); [|by intros [[] s']].
  apply (each_higher_spec _ (fun seen s' => settled s' /\ opened o a s s' /\
    forall r, r ∈ seen -> forall k, under s r k -> lock s' k a <> Some true) _ [] tt s).
  { split; [done|split; [apply op_refl|by intros r ?%elem_of_nil]]. }
  intros r seen x s1 Hin ([N1 I1] & O1 & S1). destruct (Hr r Hin) as (sh & Sr & Hl). rewrite <- (op_shape _ _ _ _ O1) in Sr.
  destruct (shape_some _ _ _ Sr) as (c & Hc & ->). eapply returns_bind.
  { apply (callback_spec o 6 r a s1 c N1 I1 (op_quiet _ _ _ _ _ O1 Q) Hc (lvl_small _ _)). intros j. by rewrite Hl. }
  intros s2 (N2 & I2 & O2 & U2). cbn. split; [by split|]. split; [by eapply op_trans|].
  intros r' [Hs | ->%list_elem_of_singleton]%elem_of_app k Hu; [exact (op_not_true _ _ _ _ _ _ O2 (S1 _ Hs _ Hu))|].
  apply U2. exact (op_under _ _ _ _ _ _ O1 Hu).
Qed.

(** ** [CacheSystem::tick] *)
Definition due (clk : Z) (l : list (Z * Request)) : list (Z * Request) := filter (fun e => fst e <= clk) l.
Definition later (clk : Z) (l : list (Z * Request)) : list (Z * Request) := filter (fun e => ~ fst e <= clk) l.

Lemma call_hits_spec roots l : forall kept s, settled s -> roots_of s roots -> (forall e, e ∈ due (cclk s) l -> quiet o s (rq_addr (snd e))) ->
  returns (call_hits 6 roots l kept s) (fun s' => settled s' /\ same_shapes s s' /\ cclk s' = cclk s /\ wait_list s' = wait_list s /\
    hit_list s' = kept ++ later (cclk s) l).
Proof.
  induction l as [|[t r] l IH]; intros kept s St Hr Hq; cbn [call_hits].
  { cbn. destruct (same_caches o s (set_hit kept s)) as [N' S']; [done|cbn; lia|apply St|]. split; [|by rewrite app_nil_r].
    split; [done|]. exact (shrunk_inclusive o _ 0 0 _ _ (st_sane _ St) (S' _ _) (st_inclusive _ St)). }
  unfold due, later in *. destruct (Z.leb_spec t (cclk s)) as [Ht|Ht].
  - rewrite filter_cons_True in Hq by (cbn; lia). rewrite filter_cons_False by (cbn; lia).
    eapply returns_bind; [apply (receive_spec roots (rq_addr r) s St); [apply (Hq (t, r)); left|done]|].
    intros s1 (St1 & O1 & _). pose proof (op_rest _ _ _ _ O1) as Er.
    assert (Ec : cclk s1 = cclk s) by (by rewrite Er). assert (Ew : wait_list s1 = wait_list s) by (by rewrite Er).
    eapply returns_weak; [apply (IH kept s1 St1)|].
    + intros r' H'. destruct (Hr r' H') as (sh & ? & ?). exists sh. by rewrite (op_shape _ _ _ _ O1).
    + intros e He. rewrite Ec in He. eapply op_quiet; [done|]. apply Hq. by right.
    + intros s2 (St2 & Sh2 & Hc2 & Hw2 & Hh2). rewrite Ec in Hc2, Hh2. split; [done|]. split; [|split; [done|split; [congruence|done]]].
      intros k. by rewrite Sh2, (op_shape _ _ _ _ O1).
  - rewrite filter_cons_False in Hq by (cbn; lia). rewrite filter_cons_True by (cbn; lia).
    eapply returns_weak; [by apply (IH (kept ++ [(t, r)]) s St)|]. intros s2. by rewrite <- app_assoc.
Qed.

Lemma CacheSystem_tick_spec {M} (send_memory : Request -> M -> res (bool * M)) roots s m l m' : settled s -> roots_of s roots ->
  (forall e, e ∈ due (cclk s + 1) (hit_list s) -> quiet o s (rq_addr (snd e))) ->
  send_due send_memory (cclk s + 1) (wait_list s) m = Ok (l, m') ->
  returns (CacheSystem_tick send_memory 6 roots s m) (fun y => settled (fst y) /\ same_shapes s (fst y) /\ cclk (fst y) = cclk s + 1 /\
    wait_list (fst y) = l /\ hit_list (fst y) = later (cclk s + 1) (hit_list s) /\ snd y = m').
Proof.
  intros St Hr Hq Hm. unfold CacheSystem_tick. cbn [cclk set_cclk wait_list]. rewrite Hm. cbn [bind].
  set (s1 := set_wait l (set_cclk (cclk s + 1) s)). destruct (same_caches o s s1) as [N' S']; [done|cbn; lia|apply St|].
  eapply returns_bind; [apply (call_hits_spec roots (hit_list s) [] s1)|].
  - split; [done|]. exact (shrunk_inclusive o _ 0 0 _ _ (st_sane _ St) (S' _ _) (st_inclusive _ St)).
  - done.
  - intros e He. apply (Hq e He).
  - intros s2 (St2 & Sh2 & Hc2 & Hw2 & Hh2). cbn. split; [done|]. split; [|done]. intros k. by rewrite Sh2.
Qed.
End Tick.
