(* ===== verification/CacheTree.v ===== *)
(** * The caches of a processor

    The hierarchies that [Processor::Processor] builds, every state they
    reach by requests, answers and ticks, and what holds there. *)
From Stdlib Require Import ZArith Lia Bool String.
From stdpp Require Import base list gmap.
From S2P Require Import Prelude RamIf Sched AddrMap Cache CacheSet CacheRun CacheSafe CacheTick.

(** ** New caches *)
Record fresh_cache (c : Cache) : Prop := {
  fc_lines : cache_lines c = ∅;
  fc_mshr : mshr_entries c = [];
  fc_retry : retry_list c = [];
  fc_geom : geom 6 c;
  fc_num : 0 <= mshr_entry_num c
}.

Lemma fresh_lock c a : fresh_cache c -> lock_at c a = None.
Proof. intros F. unfold lock_at, line_at, lines_of. by rewrite (fc_lines _ F), lookup_empty. Qed.
Lemma fresh_ok c n : fresh_cache c -> cache_ok 6 n c.
Proof.
  intros [L M R G P]. assert (Hh : forall l, ~ holds c l) by (intros l; unfold holds, lines_of; rewrite L, lookup_empty; apply not_elem_of_nil).
  split; [split; [done|..]|..].
  - intros i ls l H. by rewrite L, lookup_empty in H.
  - intros i ls H. by rewrite L, lookup_empty in H.
  - intros l l' H. by destruct (Hh l).
  - intros a m H. rewrite M in H. by apply elem_of_nil in H.
  - intros l H. by destruct (Hh l).
  - rewrite M. constructor.
  - by rewrite M.
Qed.
Lemma fresh_settled s : (forall k c, caches s !! k = Some c -> fresh_cache c) -> topo (shape_of s) -> settled 6 s.
Proof.
  intros F T. assert (Hl : forall k a, lock s k a = None).
  { intros k a. unfold lock. destruct (caches s !! k) as [c|] eqn:E; [|done]. cbn. by apply fresh_lock, (F k). }
  split; [split|].
  - intros k c Hk. by apply fresh_ok, (F k).
  - done.
  - intros k r. unfold retries. destruct (caches s !! k) as [c|] eqn:E; cbn; [rewrite (fc_retry _ (F k c E))|]; by intros ?%elem_of_nil.
  - intros i sh j a _ _. unfold edge. by rewrite Hl.
Qed.

(** The caches of the constructor *)
Definition core_cache (l : Level) (size blocks tag : Z) (levels : Level * Level) (higher : list nat) (lower : option nat) : Cache :=
  mk_Cache (mk_shape l (bool_decide (l = fst levels)) (bool_decide (l = snd levels)) size 8 blocks (blocks - 1) 64 6 tag 16 higher lower) [] [] ∅ (fun _ => 0).
Definition l2_cache := core_cache L2 (2 ^ 18) 512 15.
Definition l1_cache := core_cache L1 (2 ^ 15) 64 12.
Definition llc_cache (cores : nat) (levels : Level * Level) : Cache :=
  mk_Cache (mk_shape L3 (bool_decide (L3 = fst levels)) (bool_decide (L3 = snd levels)) (2 ^ 23) 8 16384 16383 64 6 20 (16 * Z.of_nat cores) [] None) [] [] ∅ (fun _ => 0).

Lemma new_l2 levels : Cache_new (2 ^ 18) (2 ^ 3) (2 ^ 6) 16 L2 (fst levels) (snd levels) = Ok (l2_cache levels [] None).
Proof. reflexivity. Qed.
Lemma new_l1 levels : Cache_new (2 ^ 15) (2 ^ 3) (2 ^ 6) 16 L1 (fst levels) (snd levels) = Ok (l1_cache levels [] None).
Proof. reflexivity. Qed.
Lemma new_llc cores levels : Cache_new (2 ^ 23) (2 ^ 3) (2 ^ 6) (16 * Z.of_nat cores) L3 (fst levels) (snd levels) = Ok (llc_cache cores levels).
Proof. reflexivity. Qed.

Ltac fresh_tac k := split; [done..|split; [done|lia|done|exists k; cbn; lia|done]|cbn; lia].
Lemma l2_fresh levels h l : fresh_cache (l2_cache levels h l).
Proof. fresh_tac 9. Qed.
Lemma l1_fresh levels h l : fresh_cache (l1_cache levels h l).
Proof. fresh_tac 6. Qed.
Lemma llc_fresh cores levels : fresh_cache (llc_cache cores levels).
Proof. fresh_tac 14. Qed.
Lemma shape_fresh c sh : fresh_cache c -> geom 6 sh -> mshr_entry_num sh = mshr_entry_num c -> fresh_cache (set_shape sh c).
Proof. intros [L M R G P] Hg Hn. split; [done..|]. cbn. lia. Qed.

(** ** The caches of a core are added. *)
Record building (levels : Level * Level) (llc : option nat) (s : Caches) : Prop := {
  bd_first : fst levels = L1;
  bd_fresh : forall k c, caches s !! k = Some c -> fresh_cache c;
  bd_topo : topo (shape_of s);
  bd_llc : match llc with
           | Some j => snd levels = L3 /\ exists c : Cache, caches s !! j = Some c /\ level c = L3 /\ is_first_level c = false /\ is_last_level c = true /\ lower_cache c = None
           | None => snd levels = L2
           end
}.
Definition with_higher (h : nat) (c : Cache) : Cache := set_shape (set_higher (higher_cache c ++ [h]) c) c.

(** [concatlower] changes both ends of the link. *)
Lemma concatlower_spec i j s (c d : Cache) : i <> j -> caches s !! i = Some c -> caches s !! j = Some d ->
  returns (concatlower i j s) (fun s' => length (caches s') = length (caches s) /\ forall k,
    caches s' !! k = if decide (k = j) then Some (with_higher i d) else if decide (k = i) then Some (set_shape (set_lower (Some j) c) c) else caches s !! k).
Proof.
  intros Hij Hi Hj. unfold concatlower. rewrite (cget_eq _ _ _ Hi). cbn [bind]. set (c' := set_shape _ c).
  pose proof (cput_replaced i c' s) as R. assert (Hj' : caches (cput i c' s) !! j = Some d) by (by rewrite (rp_ne _ _ _ _ R)).
  rewrite (cget_eq _ _ _ Hj'). cbn [bind returns]. split; [cbn; by rewrite !length_insert|]. intros k.
  repeat case_decide; subst; [eapply rp_at; [apply cput_replaced|done]|..].
  - rewrite (rp_ne _ _ _ _ (cput_replaced j _ _)) by done. by eapply rp_at.
  - rewrite (rp_ne _ _ _ _ (cput_replaced j _ _)) by done. by rewrite (rp_ne _ _ _ _ R).
Qed.

(** What [Core::Core] adds *)
Definition core_added (levels : Level * Level) (llc : option nat) (s s' : Caches) : Prop :=
  let n := length (caches s) in
  length (caches s') = S (S n) /\ forall k,
  caches s' !! k =
    if decide (k = n) then Some (l2_cache levels [S n] llc)
    else if decide (k = S n) then Some (l1_cache levels [] (Some n))
    else if decide (llc = Some k) then with_higher n <$> caches s !! k else caches s !! k.

Lemma Core_caches_spec levels llc s : building levels llc s -> returns (Core_caches levels llc s) (core_added levels llc s).
Proof.
  intros B. unfold Core_caches. rewrite new_l2, new_l1. cbn [bind]. set (n := length (caches s)).
  set (l2 := l2_cache levels [] None). set (l1 := l1_cache levels [] None). set (s1 := set_caches _ s).
  assert (H1 : forall k, caches s1 !! k = if decide (k = n) then Some l2 else if decide (k = S n) then Some l1 else caches s !! k).
  { intros k. unfold s1. cbn. repeat case_decide; subst; [by rewrite lookup_app_r, Nat.sub_diag by lia|..].
    - rewrite lookup_app_r by lia. by replace (S n - length (caches s))%nat with 1%nat by lia.
    - destruct (decide (k < n)%nat); [by rewrite lookup_app_l by lia|]. rewrite lookup_app_r, (lookup_ge_None_2 (caches s)) by lia.
      apply lookup_ge_None_2. cbn. lia. }
  assert (Hlen : length (caches s1) = S (S n)) by (unfold s1; cbn; rewrite length_app; cbn; lia).
  eapply (returns_bind _ _ (fun s2 => length (caches s2) = S (S n) /\ forall k, caches s2 !! k =
    if decide (k = n) then Some (l2_cache levels [] llc) else if decide (k = S n) then Some l1
    else if decide (llc = Some k) then with_higher n <$> caches s !! k else caches s !! k)).
  - pose proof (bd_llc _ _ _ B) as HL. destruct llc as [j|].
    2:{ split; [done|]. intros k. rewrite H1. by repeat case_decide. }
    destruct HL as (_ & cj & Hj & _). assert (Hjn : (j < n)%nat) by (by eapply lookup_lt_Some).
    eapply returns_weak; [apply (concatlower_spec n j s1 l2 cj)|]; [lia|by rewrite H1, decide_True|by rewrite H1, !decide_False by lia|].
    intros s2 [Hl2 H2]. split; [congruence|]. intros k. rewrite H2, H1. repeat case_decide; simplify_eq; try lia; [by rewrite Hj|done..].
  - intros s2 [Hl2 H2]. eapply returns_weak; [apply (concatlower_spec (S n) n s2 l1 (l2_cache levels [] llc))|]; [lia|by rewrite H2, decide_False, decide_True by lia|by rewrite H2, decide_True|].
    intros s3 [Hl3 H3]. split; [lia|]. fold n. intros k. rewrite H3, H2. repeat case_decide; try lia; done.
Qed.

Section Added.
Context (levels : Level * Level) (llc : option nat) (s s' : Caches).
Hypothesis B : building levels llc s.
Hypothesis H : core_added levels llc s s'.
#[local] Abbreviation n := (length (caches s)).
#[local] Abbreviation l2 := (l2_cache levels [S n] llc).
#[local] Abbreviation l1 := (l1_cache levels [] (Some n)).

Lemma added_shape k : shape_of s' k =
  if decide (k = n) then Some (cshape l2) else if decide (k = S n) then Some (cshape l1)
  else if decide (llc = Some k) then (fun sh => set_higher (higher_cache sh ++ [n]) sh) <$> shape_of s k else shape_of s k.
Proof. unfold shape_of. rewrite (proj2 H). repeat case_decide; try done. by destruct (caches s !! k). Qed.
(** A cache that was there keeps all but its higher caches. *)
Lemma added_old k sh : shape_of s k = Some sh -> exists l, shape_of s' k = Some (set_higher (higher_cache sh ++ l) sh) /\
  (l = [] \/ l = [n] /\ llc = Some k).
Proof.
  intros Hk. pose proof Hk as (c & Hc & _)%shape_some. apply lookup_lt_Some in Hc.
  rewrite added_shape, Hk. rewrite !decide_False by lia. case_decide as E.
  - exists [n]. split; [done|by right].
  - exists []. rewrite app_nil_r. split; [by destruct sh|by left].
Qed.
Lemma added_llc j : llc = Some j -> exists sh, shape_of s j = Some sh /\ level sh = L3 /\ is_first_level sh = false /\ is_last_level sh = true /\
  lower_cache sh = None /\ shape_of s' j = Some (set_higher (higher_cache sh ++ [n]) sh).
Proof.
  intros Hj. pose proof (bd_llc _ _ _ B) as HL. rewrite Hj in HL. destruct HL as (_ & c & Hc & Hlv & Hf & Hl & Hn).
  exists (cshape c). pose proof (shape_eq _ _ _ Hc) as Sc. apply lookup_lt_Some in Hc.
  repeat split; try done. rewrite added_shape, Sc, !decide_False by lia. by rewrite decide_True.
Qed.
Lemma added_last : is_last_level l1 = false /\ (is_last_level l2 = true \/ llc <> None) /\ (llc <> None -> is_last_level l2 = false) /\ is_first_level l2 = false.
Proof.
  pose proof (bd_llc _ _ _ B) as HL. pose proof (bd_first _ _ _ B) as HF. cbn. rewrite HF. destruct llc as [j|].
  - destruct HL as (-> & _). split; [done|split; [by right|done]].
  - rewrite HL. split; [done|split; [by left|done]].
Qed.
Lemma added_topo : topo (shape_of s').
Proof.
  destruct (bd_topo _ _ _ B) as [Lo Up Fi], added_last as (Hl1 & Hc2 & Hl2 & Hf2).
  pose proof added_llc as HL. pose proof added_old as HO. pose proof added_shape as HS. clear H. split.
  - intros i sh j Hi Hj. rewrite HS in Hi. repeat case_decide; simplify_eq/=.
    + destruct (HL j eq_refl) as (sj & _ & Hlv & _ & Hla & _ & Sj). eexists. split; [exact Sj|]. cbn. rewrite Hlv.
      split; [apply elem_of_app; right; by apply list_elem_of_singleton|]. split; [cbn; lia|]. split; [by left|]. by apply Hl2.
    + exists (cshape l2). rewrite HS, decide_True by done. split; [done|]. cbn. split; [by left|]. split; [lia|]. by split.
    + destruct (HL i) as (si & Si & _ & _ & _ & Hn & _); [done|]. rewrite Si in Hi. cbn in Hi. simplify_eq/=.
    + destruct (Lo i sh j Hi Hj) as (sj & Sj & Hin & Hlv & Hc & Hla). destruct (HO j sj Sj) as (l & Sj' & _).
      eexists. split; [exact Sj'|]. cbn. split; [apply elem_of_app; by left|done].
  - intros i sh h Hi Hh. assert (Hold : forall sh0, shape_of s i = Some sh0 -> h ∈ higher_cache sh0 -> exists sh', shape_of s' h = Some sh' /\ lower_cache sh' = Some i).
    { intros sh0 Hi0 Hh0. destruct (Up i sh0 h Hi0 Hh0) as (shh & Sh & Hl). destruct (HO h shh Sh) as (l & Sh' & _). by eexists. }
    rewrite HS in Hi. repeat case_decide; simplify_eq/=.
    + apply list_elem_of_singleton in Hh as ->. exists (cshape l1). by rewrite HS, decide_False, decide_True by lia.
    + by apply elem_of_nil in Hh.
    + apply fmap_Some in Hi as (sh0 & Hi0 & ->). cbn in Hh. apply elem_of_app in Hh as [Hh | ->%list_elem_of_singleton]; [by eapply Hold|].
      eexists. rewrite HS, decide_True by done. by split.
    + by eapply Hold.
  - intros i sh Hi Hfi. rewrite HS in Hi. repeat case_decide; simplify_eq/=.
    + cbn in *. congruence.
    + done.
    + destruct (HL i) as (si & Si & _ & Hn & _); [done|]. rewrite Si in Hi. cbn in Hi. simplify_eq/=. congruence.
    + by apply (Fi i).
Qed.
Lemma core_building : building levels llc s'.
Proof.
  split; [apply B| |apply added_topo|].
  - intros k c. rewrite (proj2 H). repeat case_decide; [intros [= <-]; apply l2_fresh|intros [= <-]; apply l1_fresh| |by apply (bd_fresh _ _ _ B)].
    intros (d & Hd & ->)%fmap_Some. pose proof (bd_fresh _ _ _ B k d Hd) as F. apply shape_fresh; [done| |done]. destruct (fc_geom _ F). by split.
  - pose proof (bd_llc _ _ _ B) as HL. pose proof added_llc as HA. clear H. destruct llc as [j|]; [|done]. destruct HL as [HL _]. split; [done|].
    destruct (HA j eq_refl) as (sh & _ & Hlv & Hf & Hl & Hn & Sj). apply shape_some in Sj as (c & Hc & Hs). exists c. rewrite <- Hs. done.
Qed.
End Added.

Lemma Cores_caches_spec levels llc cores : forall s, building levels llc s -> returns (Cores_caches levels llc cores s) (building levels llc).
Proof.
  induction cores as [|cores IH]; intros s B; cbn; [done|]. eapply returns_bind; [by apply Core_caches_spec|].
  intros s' H. apply IH. by eapply core_building.
Qed.
(** Every hierarchy is built, and settled. *)
Lemma Processor_caches_spec core l3 uninit cores : returns (Processor_caches core l3 uninit cores) (settled 6).
Proof.
  unfold Processor_caches. rewrite new_llc. cbn [bind]. set (levels := CacheSystem_new core l3 uninit). set (s := mk_Caches _ _ _ _ _).
  assert (Fr : forall k c, caches s !! k = Some c -> fresh_cache c).
  { intros [|k] c; [|done]. intros [= <-]. apply llc_fresh. }
  assert (T : topo (shape_of s)).
  { split; [intros [|i] sh j|intros [|i] sh h|intros [|i] sh]; try done; intros [= <-]; cbn; [done|by intros ?%elem_of_nil|done]. }
  destruct core; [|by apply fresh_settled].
  eapply returns_weak; [apply Cores_caches_spec|].
  - split; [done..|]. destruct l3; [|done]. split; [done|]. by exists (llc_cache cores levels).
  - intros s' B. apply fresh_settled; apply B.
Qed.

(** ** The roots of the tree *)
Definition numbered (levels : Level * Level) (llc : option nat) (m : nat) (s : Caches) : Prop :=
  building levels llc s /\ length (caches s) = (1 + 2 * m)%nat /\
  (llc = None -> forall k, (k < m)%nat -> exists sh, shape_of s (1 + 2 * k) = Some sh /\ lower_cache sh = None).

Lemma core_numbered levels llc m s s' : numbered levels llc m s -> core_added levels llc s s' -> numbered levels llc (S m) s'.
Proof.
  intros (B & Hl & Hr) H. split; [by eapply core_building|]. split; [destruct H; lia|]. intros -> k Hk. rewrite (added_shape _ _ _ _ H), Hl.
  case_decide; [by eexists|]. rewrite !decide_False by (lia || done). apply Hr; [done|lia].
Qed.
Lemma Cores_caches_numbered levels llc cores : forall m s, numbered levels llc m s ->
  returns (Cores_caches levels llc cores s) (numbered levels llc (m + cores)).
Proof.
  induction cores as [|cores IH]; intros m s H; cbn; [by rewrite Nat.add_0_r|]. eapply returns_bind; [apply Core_caches_spec, H|].
  intros s' Ha. rewrite <- Nat.add_succ_comm. apply IH. by eapply core_numbered.
Qed.
Lemma Processor_roots_spec core l3 uninit cores s : Processor_caches core l3 uninit cores = Ok s -> roots_of s (Processor_roots core l3 cores).
Proof.
  unfold Processor_caches. rewrite new_llc. cbn [bind]. set (levels := CacheSystem_new core l3 uninit). set (s0 := mk_Caches _ _ _ _ _).
  intros H r Hr. unfold Processor_roots in Hr. destruct core.
  - assert (N0 : numbered levels (if l3 then Some 0%nat else None) 0 s0).
    { split; [|split; [done|lia]]. split; [done|..].
      - intros [|k] c; [|done]. intros [= <-]. apply llc_fresh.
      - split; [intros [|i] sh j|intros [|i] sh h|intros [|i] sh]; try done; intros [= <-]; cbn; [done|by intros ?%elem_of_nil|done].
      - destruct l3; [|done]. split; [done|]. by exists (llc_cache cores levels). }
    apply (Cores_caches_numbered _ _ cores) in N0. rewrite H in N0. destruct N0 as (B & _ & Hk). destruct l3.
    + apply list_elem_of_singleton in Hr as ->. destruct (bd_llc _ _ _ B) as (_ & c & Hc & _ & _ & _ & Hn). exists (cshape c). split; [by apply shape_eq|done].
    + apply list_elem_of_fmap in Hr as (k & -> & Hin). apply elem_of_seq in Hin. apply Hk; [done|lia].
  - destruct l3; [|by apply elem_of_nil in Hr]. apply list_elem_of_singleton in Hr as ->. injection H as <-. by eexists.
Qed.

(** ** Runs

    A cache that is [connected] gets a request; the front end ticks a cache or
    [CacheSystem]; the memory answers, or a hit is called back, for a block
    no request for which waits to be sent again. *)
Inductive cache_step (freed : Line -> Line) (roots : list nat) : Caches -> Caches -> Prop :=
| step_send i (c : Cache) req b s s' : caches s !! i = Some c -> connected c -> rq_type req = READ \/ rq_type req = WRITE ->
    send freed 6 i req s = Ok (b, s') -> cache_step freed roots s s'
| step_tick i s s' : tick freed 6 i s = Ok s' -> cache_step freed roots s s'
| step_answer a s s' : quiet 6 s a -> receive 6 roots a s = Ok s' -> cache_step freed roots s s'
| step_system (M : Type) (send_memory : Request -> M -> res (bool * M)) m m' s s' :
    (forall e, e ∈ due (cclk s + 1) (hit_list s) -> quiet 6 s (rq_addr (snd e))) ->
    CacheSystem_tick send_memory 6 roots s m = Ok (s', m') -> cache_step freed roots s s'.

Lemma step_settled freed roots s s' : cache_step freed roots s s' -> settled 6 s -> roots_of s roots -> settled 6 s' /\ roots_of s' roots.
Proof.
  intros St Se Hr. assert (settled 6 s' /\ same_shapes s s') as [? Sh].
  - destruct St as [i c req b s s' Hi Hc Ht E|i s s' E|a s s' Q E|M f m m' s s' Q E].
    + destruct Se as [N I]. pose proof (send_spec freed 6 6 i req s c nothing N I) as H. rewrite E in H.
      destruct H as (N' & Kp & Sd); [done..|lia|]. cbn in *. split; [split; [done|by destruct b; [apply Sd|]]|exact (kp_shape _ _ _ Kp)].
    + pose proof E as Ec. cbn [tick] in Ec. unfold cget in Ec. destruct (caches s !! i) as [c|] eqn:Hc; [|done]. cbn in Ec.
      pose proof (tick_spec freed 6 6 i s c Se Hc) as H. rewrite E in H. apply H; [by destruct (lower_cache c)|lia].
    + pose proof (receive_spec 6 roots a s Se Q Hr) as H. rewrite E in H. destruct H as (Se' & O & _). split; [done|]. exact (op_shape _ _ _ _ O).
    + destruct (send_due f (cclk s + 1) (wait_list s) m) as [[l m1]|] eqn:Ed; [|by unfold CacheSystem_tick in E; cbn in E; rewrite Ed in E].
      pose proof (CacheSystem_tick_spec 6 f roots s m l m1 Se Hr Q Ed) as H. rewrite E in H. by destruct H as (? & ? & _).
  - split; [done|]. intros r Hin. destruct (Hr r Hin) as (sh & ? & ?). exists sh. by rewrite Sh.
Qed.
(** What a hierarchy and its runs keep *)
Lemma run_settled freed core l3 uninit cores s0 s : Processor_caches core l3 uninit cores = Ok s0 ->
  rtc (cache_step freed (Processor_roots core l3 cores)) s0 s -> settled 6 s /\ roots_of s (Processor_roots core l3 cores).
Proof.
  intros E R. assert (H : settled 6 s0 /\ roots_of s0 (Processor_roots core l3 cores)).
  { split; [|by eapply Processor_roots_spec]. pose proof (Processor_caches_spec core l3 uninit cores) as H. by rewrite E in H. }
  clear E. induction R as [|s0 s1 s2 St _ IH]; [done|]. destruct H. apply IH. by eapply step_settled.
Qed.

(** ** What holds in every run *)
Section Runs.
Context (freed : Line -> Line) (core l3 : bool) (uninit : Level) (cores : nat) (s0 s : Caches).
Hypothesis Hs0 : Processor_caches core l3 uninit cores = Ok s0.
Hypothesis Hrun : rtc (cache_step freed (Processor_roots core l3 cores)) s0 s.

(** C25: the hierarchy stays inclusive.  Whatever requests, answers and ticks
    the caches get, a block that is valid in a cache is valid in the cache
    below it; a block that is awaited is in the cache below, or its request
    waits in the list of refused requests. *)
Theorem caches_inclusive i j (c d : Cache) a : caches s !! i = Some c -> lower_cache c = Some j -> caches s !! j = Some d ->
  (lock_at c a = Some false -> lock_at d a = Some false) /\
  (lock_at c a = Some true -> (exists r, r ∈ retry_list c /\ align c (rq_addr r) = align c a) \/ lock_at d a <> None).
Proof.
  intros Hi Hl Hj. destruct (run_settled _ _ _ _ _ _ _ Hs0 Hrun) as [[N I] _].
  pose proof (I i _ j a (shape_eq _ _ _ Hi) Hl) as E. unfold edge in E. rewrite (lock_eq _ _ _ _ Hi), (lock_eq _ _ _ _ Hj) in E.
  split; intros Ha; rewrite Ha in E; [done|]. destruct E as [(r & Hr & Hb) | [E | []]]; [left|by right].
  rewrite (retries_eq _ _ _ Hi) in Hr. exists r. split; [done|]. apply (align_block 6); [|done]. apply (lo_geom _ _ _ (ck_lines _ _ _ (sn_ok _ _ N _ _ Hi))).
Qed.

(** C26: requests are served.  None of the assertions of [send] and of what it
    calls ([need_eviction], [invalidate], [evictline], [lower_cache]) fails;
    a request that is taken has its block in the cache.  [Cache::tick] can
    only fail by stepping its iterator past the end of the list. *)
Theorem cache_calls_answered i (c : Cache) : caches s !! i = Some c ->
  (forall req, connected c -> rq_type req = READ \/ rq_type req = WRITE ->
     exists b s', send freed 6 i req s = Ok (b, s') /\ (b = true -> lock s' i (rq_addr req) <> None)) /\
  (lower_cache c <> None -> forall e, tick freed 6 i s = Abort e -> e = "iterator past the end"%string).
Proof.
  intros Hi. destruct (run_settled _ _ _ _ _ _ _ Hs0 Hrun) as [St _]. split.
  - intros req Hc Ht. destruct St as [N I].
    destruct (proj1 (returns_ok _ _) (send_spec freed 6 6 i req s c nothing N I ltac:(done) Hi Hc Ht ltac:(lia))) as ([b s'] & E & _ & _ & Sd).
    exists b, s'. split; [done|]. intros ->. apply Sd.
  - intros Hl e E. pose proof (tick_spec freed 6 6 i s c St Hi Hl ltac:(lia)) as H. by rewrite E in H.
Qed.

(** C28: an answer reaches every cache that waits for it.  [receive] leaves no
    copy of the block locked in the caches above the last level, makes every
    copy that was there valid, and does nothing to other blocks. *)
Theorem answer_wakes_waiters a : quiet 6 s a -> exists s', receive 6 (Processor_roots core l3 cores) a s = Ok s' /\
  forall r k, r ∈ Processor_roots core l3 cores -> under s r k ->
    (lock s k a <> None -> lock s' k a = Some false) /\
    forall b, block 6 b <> block 6 a -> lock s' k b = lock s k b.
Proof.
  intros Q. destruct (run_settled _ _ _ _ _ _ _ Hs0 Hrun) as [St Hr].
  destruct (proj1 (returns_ok _ _) (receive_spec 6 _ a s St Q Hr)) as (s' & E & _ & O & U). exists s'. split; [done|].
  intros r k Hin Hu. split.
  - intros Hn. specialize (U r Hin k Hu). destruct (op_lock _ _ _ _ O k a) as [E' | (_ & _ & E')]; [|done].
    rewrite E' in *. by destruct (lock s k a) as [[]|].
  - intros b Hb. by destruct (op_lock _ _ _ _ O k b) as [? | (? & _)].
Qed.

(** C29: the bounds of a cache.  A set has at most as many lines as the cache
    has ways, with different tags; there are at most [mshr_entry_num] miss
    registers, for different blocks, and the iterator of each of them points
    to the locked line of its block. *)
Theorem cache_bounds i (c : Cache) : caches s !! i = Some c ->
  (forall a, Z.of_nat (length (lines_of c a)) <= assoc c /\ NoDup (ln_tag <$> lines_of c a)) /\
  Z.of_nat (length (mshr_entries c)) <= mshr_entry_num c /\ NoDup (align c ∘ fst <$> mshr_entries c) /\
  forall a n, (a, n) ∈ mshr_entries c -> exists l, line_at c a = Some l /\ ln_node l = n /\ ln_lock l = true.
Proof.
  intros Hi. destruct (run_settled _ _ _ _ _ _ _ Hs0 Hrun) as [[N _] _]. pose proof (sn_ok _ _ N _ _ Hi) as K.
  pose proof (ck_lines _ _ _ K) as KL. pose proof (lo_geom _ _ _ KL) as G. split; [|split; [apply K|split]].
  - intros a. by destruct (lines_of_tags _ _ _ KL a).
  - pose proof (ck_distinct _ _ _ K) as D. apply (NoDup_fmap_1 (block 6)). rewrite <- list_fmap_compose.
    rewrite (list_fmap_ext _ (fun e => block 6 (fst e)) (mshr_entries c)); [done|]. intros _ e _. cbn.
    apply (align_block 6 _ G). unfold align. by rewrite <- Z.land_assoc, Z.land_diag.
  - intros a n H. destruct (ck_entry _ _ _ K _ _ H) as (l & Hl & Hb & ? & ?). exists l. split; [by apply (line_at_some _ _ _ KL)|done].
Qed.
End Runs.
