(* ===== verification/CacheLru.v ===== *)
(** * A cache is a least-recently-used write-back cache

    The reference: sets of blocks in the order of their last use, and the
    requests that go to the memory.  A cache that is the only level, each of
    whose misses is answered before the next request, implements it. *)
From Stdlib Require Import ZArith Lia Bool String.
From stdpp Require Import base list gmap.
From S2P Require Import Prelude RamIf Sched AddrMap Cache CacheSet CacheRun CacheSafe CacheTick.

(** ** The reference

    A set: addresses with their dirty bits, least recently used first *)
Definition lru_set : Type := list (Z * bool).
Inductive mem_op : Type := Fetch (a : Z) | WriteBack (a : Z).

Section Reference.
Context (ways : Z) (tag : Z -> Z).

Definition lru_find (a : Z) (l : lru_set) : option (Z * bool) := List.find (fun e => tag (fst e) =? tag a) l.
Definition lru_access (a : Z) (w : bool) (l : lru_set) : lru_set * list mem_op :=
  match lru_find a l with
  | Some (_, d) => (List.filter (fun e => negb (tag (fst e) =? tag a)) l ++ [(a, d || w)], [])
  | None =>
      if Z.of_nat (length l) <? ways then (l ++ [(a, w)], [Fetch a])
      else match l with
           | [] => ([], [])
           | (v, d) :: l => (l ++ [(a, w)], (if d : bool then [WriteBack v] else []) ++ [Fetch a])
           end
  end.
(** All sets, by their index *)
Definition lru_step (index : Z -> Z) (x : Z * bool) (m : Z -> lru_set) : (Z -> lru_set) * list mem_op :=
  let (l, ops) := lru_access (fst x) (snd x) (m (index (fst x))) in
  (fun i => if i =? index (fst x) then l else m i, ops).
Fixpoint lru_run (index : Z -> Z) (xs : list (Z * bool)) (m : Z -> lru_set) : (Z -> lru_set) * list mem_op :=
  match xs with
  | [] => (m, [])
  | x :: xs => let (m, ops) := lru_step index x m in let (m, ops') := lru_run index xs m in (m, ops ++ ops')
  end.
End Reference.

(** ** The cache *)

(** A request, and the answer to it *)
Definition access (freed : Line -> Line) (x : Z * bool) (s : Caches) : res Caches :=
  let! (b, s) := send freed 6 0 (Request_new (fst x) (if snd x then WRITE else READ) 0 0) s in
  receive 6 [0%nat] (fst x) s.
Fixpoint accesses (freed : Line -> Line) (xs : list (Z * bool)) (s : Caches) : res Caches :=
  match xs with
  | [] => Ok s
  | x :: xs => let! s := access freed x s in accesses freed xs s
  end.
(** The entry of [wait_list] for a request to the memory *)
Definition mem_entry (t : Z) (o : mem_op) (r : Z * Request) : Prop :=
  fst r = t /\ match o with
               | Fetch a => rq_type (snd r) = READ /\ rq_addr (snd r) = a
               | WriteBack a => rq_type (snd r) = WRITE /\ rq_addr (snd r) = a
               end.

(** The only cache, with nothing under way *)
Record lone (o : Z) (s : Caches) (c : Cache) : Prop := {
  ln_settled : settled o s;
  ln_caches : caches s = [c];
  ln_last : is_last_level c = true;
  ln_higher : higher_cache c = [];
  ln_mshr : mshr_entries c = [];
  ln_retry : retry_list c = [];
  ln_num : 0 < mshr_entry_num c
}.
Definition contents (c : Cache) (a : Z) : lru_set := (fun l => (ln_addr l, ln_dirty l)) <$> lines_of c a.

Section Lone.
Context (o : Z) (freed : Line -> Line) (s : Caches) (c : Cache) (L : lone o s c).

Lemma lone_at : caches s !! 0%nat = Some c.
Proof. by rewrite (ln_caches _ _ _ L). Qed.
Lemma lone_ok : cache_ok o (next_node s) c.
Proof. apply (sn_ok _ _ (st_sane _ _ (ln_settled _ _ _ L)) _ _ lone_at). Qed.
Let KL : lines_ok o (next_node s) c := ck_lines _ _ _ lone_ok.
(** Every line is valid. *)
Lemma lone_unlocked a l : l ∈ lines_of c a -> ln_lock l = false.
Proof.
  intros Hl. destruct (ln_lock l) eqn:E; [|done]. destruct (lines_of_in _ _ _ KL _ _ Hl) as (Hh & _).
  destruct (ck_locked _ _ _ lone_ok _ Hh E) as (b & Hb). rewrite (ln_mshr _ _ _ L) in Hb. by apply elem_of_nil in Hb.
Qed.
(** The set of an address holds the tag of its line, *)
Lemma find_contents a : lru_find (get_tag c) a (contents c a) = (fun l => (ln_addr l, ln_dirty l)) <$> line_at c a.
Proof.
  unfold lru_find, contents, line_at, find_tag.
  assert (H : forall l, l ∈ lines_of c a -> ln_tag l = get_tag c (ln_addr l)) by (intros l Hl; by destruct (lines_of_in _ _ _ KL _ _ Hl) as (_ & _ & ? & _)).
  induction (lines_of c a) as [|l ls IH]; [done|]. cbn. rewrite <- H by left. destruct (ln_tag l =? get_tag c a); [done|].
  apply IH. intros l' Hl'. apply H. by right.
Qed.
(** and losing a node is losing its tag. *)
Lemma erase_contents a v : line_at c a = Some v ->
  (fun l => (ln_addr l, ln_dirty l)) <$> erase (ln_node v) (lines_of c a) =
  List.filter (fun e => negb (get_tag c (fst e) =? get_tag c a)) (contents c a).
Proof.
  intros Hv. pose proof Hv as [Hh _]%(line_at_some _ _ _ KL). apply find_tag_some in Hv as [Hin Ht]. unfold contents, erase.
  assert (H : forall l, l ∈ lines_of c a -> get_tag c (ln_addr l) = ln_tag l /\ (ln_node l = ln_node v <-> ln_tag l = get_tag c a)).
  { intros l Hl. destruct (lines_of_in _ _ _ KL _ _ Hl) as (Hhl & _ & ? & _). split; [done|]. split.
    - intros E. by rewrite (lo_nodes _ _ _ KL _ _ Hhl Hh E).
    - intros E. f_equal. destruct (lines_of_tags _ _ _ KL a) as [D _].
      pose proof (find_tag_in _ _ _ D Hl E). pose proof (find_tag_in _ _ _ D Hin Ht). congruence. }
  clear Hin. induction (lines_of c a) as [|l ls IH]; [done|]. cbn. destruct (H l) as [Ha Hn]; [left|]. rewrite Ha.
  assert ((ln_node l =? ln_node v) = (ln_tag l =? get_tag c a)) as ->.
  { destruct (Z.eqb_spec (ln_node l) (ln_node v)), (Z.eqb_spec (ln_tag l) (get_tag c a)); tauto. }
  destruct (ln_tag l =? get_tag c a); cbn; [|f_equal]; apply IH; intros l' Hl'; apply H; by right.
Qed.
(** The first line of a set is the only one with its node. *)
Lemma erase_first a v ls : lines_of c a = v :: ls -> erase (ln_node v) (lines_of c a) = ls.
Proof.
  intros E. destruct (lines_of_tags _ _ _ KL a) as [D _]. rewrite E in *. cbn. rewrite Z.eqb_refl. cbn. cbn in D.
  apply NoDup_cons in D as [Hv _]. assert (Hl : forall l, l ∈ ls -> ln_node l <> ln_node v).
  { intros l Hl En. destruct Hv. assert (Hv' : v ∈ lines_of c a) by (rewrite E; left). assert (Hl' : l ∈ lines_of c a) by (rewrite E; by right).
    destruct (lines_of_in _ _ _ KL _ _ Hv') as (Hhv & _), (lines_of_in _ _ _ KL _ _ Hl') as (Hhl & _).
    rewrite <- (lo_nodes _ _ _ KL _ _ Hhl Hhv En). by apply list_elem_of_fmap_2. }
  clear - Hl. induction ls as [|l ls IH]; [done|]. cbn. rewrite (proj2 (Z.eqb_neq _ _)) by (apply Hl; left). cbn. f_equal. apply IH.
  intros l' Hl'. apply Hl. by right.
Qed.

(** Counters and the creation of a set change nothing. *)
Lemma lone_same c' : cshape c' = cshape c -> mshr_entries c' = mshr_entries c -> retry_list c' = retry_list c ->
  (forall a, lock_at c' a = lock_at c a) -> cache_ok o (next_node s) c' -> lone o (cput 0 c' s) c'.
Proof.
  intros Hs Hm Hr Hl K. destruct (ln_settled _ _ _ L) as [N I].
  destruct (miss_same o nothing 0 s c c' N I lone_at Hs Hr Hl K) as (N' & _ & I' & _). split; [by split| |..].
  - cbn. by rewrite (ln_caches _ _ _ L).
  - rewrite Hs. apply L.
  - rewrite Hs. apply L.
  - rewrite Hm. apply L.
  - rewrite Hr. apply L.
  - rewrite Hs. apply L.
Qed.

Lemma lone_eq : s = mk_Caches (cclk s) (wait_list s) (hit_list s) [c] (next_node s).
Proof.
  assert (H : forall x, caches x = [c] -> x = mk_Caches (cclk x) (wait_list x) (hit_list x) [c] (next_node x)) by (intros []; cbn; by intros ->).
  apply H, L.
Qed.

(** [allocate_line]: the least recently used line goes when the set is full. *)
Definition kept_lines (a : Z) : list Line := if Z.of_nat (length (lines_of c a)) <? assoc c then lines_of c a else tail (lines_of c a).
Definition written (a : Z) : list (Z * Request) :=
  if Z.of_nat (length (lines_of c a)) <? assoc c then []
  else match lines_of c a with
       | v :: _ => if ln_dirty v then [(cclk s + latency (level c), Request_new (ln_addr v) WRITE 0 0)] else []
       | [] => []
       end.
Lemma lone_allocate a : line_at c a = None -> exists c1,
  allocate_line freed 6 0 a s = Ok (Some (next_node s),
    mk_Caches (cclk s) (wait_list s ++ written a) (hit_list s)
      [put_set a (kept_lines a ++ [mk_Line a (get_tag c a) true false (next_node s)]) c1] (next_node s + 1)) /\
  cshape c1 = cshape c /\ mshr_entries c1 = [] /\ retry_list c1 = [] /\
  forall b, get_index c b <> get_index c a -> lines_of c1 b = lines_of c b.
Proof.
  intros Hn. unfold allocate_line, written, kept_lines. rewrite (cget_eq _ _ _ lone_at). cbn [bind].
  unfold need_eviction. unfold line_at in Hn. rewrite Hn. cbn [bind]. destruct (Z.ltb_spec (Z.of_nat (length (lines_of c a))) (assoc c)) as [Hr|Hr]; cbn [negb].
  { exists c. cbn [bind]. rewrite (cget_eq _ _ _ lone_at). cbn [bind]. split; [|split; [done|split; [apply L|split; [apply L|done]]]].
    unfold cput, bump_node, set_caches. cbn. by rewrite app_nil_r, (ln_caches _ _ _ L). }
  destruct (lines_of c a) as [|v ls] eqn:El; [pose proof (g_assoc _ _ (lo_geom _ _ _ KL)); cbn in Hr; lia|].
  assert (Hv : ln_lock v = false) by (apply (lone_unlocked a); rewrite El; left).
  cbn [find_victim]. rewrite Hv, (ln_higher _ _ _ L). cbn [negb all_higher].
  assert ((if negb (is_first_level c) then Ok true else Ok true) = Ok true) as -> by (by destruct (is_first_level c)). cbn [bind].
  set (c0 := bump cache_eviction c). exists c0. unfold evict. rewrite (cget_eq _ _ _ lone_at). cbn [bind].
  change (higher_cache c0) with (higher_cache c). rewrite (ln_higher _ _ _ L), (ln_last _ _ _ L). cbn [each_higher bind negb].
  pose proof (erase_first a v ls El) as Ee. rewrite El in Ee.
  split; [|split; [done|split; [apply L|split; [apply L|done]]]].
  - rewrite lone_eq. generalize (cclk s) (wait_list s) (hit_list s) (next_node s). intros clk w h n.
    destruct (ln_dirty v); cbn -[erase lines_of put_set]; change (lines_of (bump cache_eviction c) a) with (lines_of c a); rewrite El, Ee;
      cbn -[erase lines_of put_set]; rewrite put_set_set, put_set_lines, ?app_nil_r, ?Z.add_0_r; done.
Qed.

(** ** A request and its answer *)
Context (a : Z) (w : bool).
#[local] Abbreviation n := (next_node s).
#[local] Abbreviation req := (Request_new a (if w then WRITE else READ) 0 0).
#[local] Abbreviation due_at := (cclk s + latency (level c)).

(** A hit: the line moves to the end of its set. *)
Lemma lone_hit l : line_at c a = Some l -> exists c0, cshape c0 = cshape c /\ mshr_entries c0 = [] /\ retry_list c0 = [] /\
  (forall b, lines_of c0 b = lines_of c b) /\
  send freed 6 0 req s = Ok (true, mk_Caches (cclk s) (wait_list s) (hit_list s ++ [(due_at, req)])
    [put_set a (erase (ln_node l) (lines_of c a) ++ [mk_Line a (get_tag c a) false (ln_dirty l || w) n]) c0] (n + 1)).
Proof.
  intros Hl. set (c0 := bump (if w then cache_write_access else cache_read_access) (bump cache_total_access c)). exists c0.
  split; [done|split; [apply L|split; [apply L|split; [done|]]]].
  pose proof (proj1 (find_tag_some _ _ _ Hl)) as Hin. destruct (lines_of_in _ _ _ KL _ _ Hin) as (_ & _ & _ & Hn).
  pose proof (lone_unlocked a l Hin) as Hk. cbn [send]. rewrite (cget_eq _ _ _ lone_at). cbn [bind].
  assert (ReqType_eqb (rq_type req) WRITE = w) as -> by (by destruct w).
  assert (w || ReqType_eqb (rq_type req) READ = true)%bool as -> by (by destruct w). change (rq_addr req) with a. fold c0.
  unfold is_hit. rewrite get_lines_of. change (find_tag (get_tag (get_lines a c0) a) (lines_of c0 a)) with (line_at c a). rewrite Hl, Hk.
  unfold use_line. rewrite get_lines_of. change (lines_of c0 a) with (lines_of c a). rewrite erase_push by (cbn; lia). rewrite get_lines_put.
  rewrite lone_eq. done.
Qed.
(** A miss: a locked line and a register *)
Lemma lone_miss : line_at c a = None -> exists c1, cshape c1 = cshape c /\ retry_list c1 = [] /\
  (forall b, get_index c b <> get_index c a -> lines_of c1 b = lines_of c b) /\
  miss freed 6 0 req s = Ok (None, mk_Caches (cclk s) (wait_list s ++ written a) (hit_list s)
    [set_mshr [(a, n)] (map_node n (set_dirty w) (put_set a (kept_lines a ++ [mk_Line a (get_tag c a) true false n]) c1))] (n + 1)).
Proof.
  intros Hn. destruct (lone_allocate a Hn) as (c1 & Ea & Hs & Hm & Hr & Ho). exists c1. split; [done|split; [done|split; [done|]]].
  unfold miss. rewrite (cget_eq _ _ _ lone_at). cbn [bind]. change (rq_addr req) with a.
  assert (ReqType_eqb (rq_type req) WRITE = w) as -> by (by destruct w).
  unfold hit_mshr. rewrite (ln_mshr _ _ _ L). cbn [List.find length]. pose proof (ln_num _ _ _ L).
  rewrite (proj2 (Z.eqb_neq _ _)) by (cbn; lia).
  assert (all_sets_locked c (lines_of c a) = false) as ->.
  { unfold all_sets_locked. destruct (Z.ltb_spec (Z.of_nat (length (lines_of c a))) (assoc c)) as [Hr'|Hr']; [done|].
    destruct (lines_of c a) as [|v ls] eqn:El; [pose proof (g_assoc _ _ (lo_geom _ _ _ KL)); cbn in Hr'; lia|].
    cbn. rewrite (lone_unlocked a v); [done|]. rewrite El. left. }
  rewrite Ea. cbn [bind]. set (c2 := put_set _ _ c1). assert (Hin : has_node n c2 = true).
  { set (x := mk_Line a (get_tag c a) true false n). change n with (ln_node x). apply holds_node. unfold holds. cbn.
    unfold c2. rewrite put_set_lines. apply elem_of_app. right. by apply list_elem_of_singleton. }
  rewrite (cget_eq _ 0 c2) by done. cbn [bind]. unfold write_node. rewrite Hin. cbn [bind].
  change (mshr_entries (map_node n (set_dirty w) c2)) with (mshr_entries c1). by rewrite Hm.
Qed.
End Lone.

Lemma quiet_single o s c a : caches s = [c] -> retry_list c = [] -> quiet o s a.
Proof. intros Hc Hr [|k] (r & H & _); unfold retries in H; rewrite Hc in H; cbn in H; [rewrite Hr in H|]; by apply elem_of_nil in H. Qed.

(** [send] on a miss *)
Lemma lone_send_miss o freed s (c : Cache) a (w : bool) : lone o s c -> line_at c a = None -> let req := Request_new a (if w then WRITE else READ) 0 0 in
  exists c1, cshape c1 = cshape c /\ retry_list c1 = [] /\
  (forall b, get_index c b <> get_index c a -> lines_of c1 b = lines_of c b) /\
  send freed 6 0 req s = Ok (true, mk_Caches (cclk s) (wait_list s ++ written s c a ++ [(cclk s + latency (level c), set_type READ req)]) (hit_list s)
    [set_mshr [(a, next_node s)] (map_node (next_node s) (set_dirty w) (put_set a (kept_lines c a ++ [mk_Line a (get_tag c a) true false (next_node s)]) c1))]
    (next_node s + 1)).
Proof.
  intros L Hl req. set (c0 := bump (if w then cache_write_access else cache_read_access) (bump cache_total_access c)).
  set (c2 := bump (if w then cache_write_miss else cache_read_miss) (bump cache_total_miss (get_lines a c0))).
  assert (Hlines : forall b, lines_of c2 b = lines_of c b) by (intros b; apply (get_lines_of c0)).
  assert (L2 : lone o (cput 0 c2 s) c2).
  { apply (lone_same o s c L); [done..|intros b; apply (get_lines_lock c0)|]. apply bump_ok, bump_ok, get_lines_ok, bump_ok, bump_ok, (lone_ok _ _ _ L). }
  destruct (lone_miss o freed (cput 0 c2 s) c2 L2 a w) as (c1 & Hs & Hr & Ho & Em); [unfold line_at; by rewrite Hlines|].
  exists c1. split; [done|split; [done|split; [intros b Hb; by rewrite <- Hlines, Ho|]]].
  cbn [send]. rewrite (cget_eq _ _ _ (lone_at _ _ _ L)). cbn [bind].
  assert (ReqType_eqb (rq_type req) WRITE = w) as Hw by (by destruct w). rewrite Hw.
  assert (w || ReqType_eqb (rq_type req) READ = true)%bool as -> by (by destruct w). change (rq_addr req) with a. fold c0.
  unfold is_hit. rewrite get_lines_of. change (find_tag (get_tag (get_lines a c0) a) (lines_of c0 a)) with (line_at c a). rewrite Hl. fold c2.
  fold req in Em. rewrite Em. cbn [bind]. rewrite (ln_last _ _ _ L2). cbn [negb].
  assert (kept_lines c2 a = kept_lines c a) as -> by (unfold kept_lines; by rewrite Hlines).
  assert (written (cput 0 c2 s) c2 a = written s c a) as -> by (unfold written; by rewrite Hlines).
  unfold set_wait. cbn [wait_list cclk hit_list caches next_node cput set_caches]. by rewrite <- app_assoc.
Qed.

(** ** The refinement of one access *)
Lemma put_set_other a ls (c : Cache) b : get_index c b <> get_index c a -> lines_of (put_set a ls c) b = lines_of c b.
Proof. intros H. unfold lines_of. cbn. by rewrite lookup_insert_ne. Qed.
(** Nodes that are not in a list are not changed. *)
Lemma map_fresh m (f : Line -> Line) (ls : list Line) : (forall l, l ∈ ls -> ln_node l <> m) -> (fun l => if ln_node l =? m then f l else l) <$> ls = ls.
Proof.
  induction ls as [|l ls IH]; intros H; [done|]. cbn. rewrite (proj2 (Z.eqb_neq _ _)) by (apply H; left). f_equal.
  apply IH. intros l' Hl'. apply H. by right.
Qed.

(** Nothing is under way when a lone cache has been answered. *)
Lemma lone_roots o s c : lone o s c -> roots_of s [0%nat].
Proof.
  intros L r ->%list_elem_of_singleton. exists (cshape c). pose proof (shape_eq _ _ _ (lone_at _ _ _ L)) as Sc. split; [done|].
  destruct (lower_cache c) as [j|] eqn:E; [|done].
  destruct (tp_low _ (sn_topo _ _ (st_sane _ _ (ln_settled _ _ _ L))) _ _ _ Sc E) as (_ & _ & _ & _ & _ & H). by rewrite (ln_last _ _ _ L) in H.
Qed.
Lemma answered o freed s (c : Cache) a w b s1 (c1 : Cache) s2 (c2 : Cache) : lone o s c -> let req := Request_new a (if w : bool then WRITE else READ) 0 0 in
  send freed 6 0 req s = Ok (b, s1) -> caches s1 = [c1] -> retry_list c1 = [] ->
  receive 6 [0%nat] a s1 = Ok s2 -> caches s2 = [c2] -> cshape c2 = cshape c -> mshr_entries c2 = [] -> retry_list c2 = [] ->
  lone o s2 c2.
Proof.
  intros L req E1 H1 R1 E2 H2 Hs Hm Hr. destruct (ln_settled _ _ _ L) as [N I].
  assert (S1 : settled o s1 /\ same_shapes s s1).
  { assert (T : towards o s 0 (rq_addr req) nothing) by done.
    pose proof (send_spec freed o 6 0 req s c nothing N I T (lone_at _ _ _ L)) as H. rewrite E1 in H.
    destruct H as (N' & Kp & Sd); [left; apply L|by destruct w; auto|lia|]. cbn in *.
    split; [split; [done|by destruct b; [apply Sd|]]|exact (kp_shape _ _ _ Kp)]. }
  destruct S1 as [S1 Sh]. split; try done.
  - pose proof (receive_spec o [0%nat] a s1 S1 (quiet_single _ _ _ _ H1 R1)) as H. rewrite E2 in H. apply H.
    intros r Hin. destruct (lone_roots _ _ _ L r Hin) as (sh & ? & ?). exists sh. by rewrite Sh.
  - rewrite Hs. apply L.
  - rewrite Hs. apply L.
  - rewrite Hs. apply L.
Qed.
(** [receive] with one cache *)
Lemma receive_one a s (c c' : Cache) : caches s = [c] -> unlock a c = Ok c' -> higher_cache c' = [] -> receive 6 [0%nat] a s = Ok (cput 0 c' s).
Proof.
  intros Hc Hu Hh. unfold receive. cbn [each_higher callback]. rewrite (cget_eq _ 0 c) by (by rewrite Hc). cbn [bind]. rewrite Hu. cbn [bind].
  by rewrite Hh.
Qed.

(** What an access does: [l] is the new set, [ops] go to the memory. *)
Definition accessed (o a : Z) (l : lru_set) (ops : list mem_op) (s : Caches) (c : Cache) (s' : Caches) : Prop :=
  exists (c' : Cache) rs, lone o s' c' /\ cshape c' = cshape c /\ cclk s' = cclk s /\
    wait_list s' = wait_list s ++ rs /\ Forall2 (mem_entry (cclk s + latency (level c))) ops rs /\
    contents c' a = l /\ forall b, get_index c b <> get_index c a -> contents c' b = contents c b.

Lemma access_hit o freed s (c : Cache) a w l : lone o s c -> line_at c a = Some l ->
  returns (access freed (a, w) s) (accessed o a (List.filter (fun e => negb (get_tag c (fst e) =? get_tag c a)) (contents c a) ++ [(a, ln_dirty l || w)]) [] s c).
Proof.
  intros L Hl. destruct (lone_hit o freed s c L a w l Hl) as (c0 & Hs & Hm & Hr & Hlines & E). unfold access. cbn [fst snd]. rewrite E. cbn [bind].
  set (s1 := mk_Caches _ _ _ _ _) in *. set (c1 := put_set _ _ c0) in *.
  assert (Hu : unlock a c1 = Ok c1) by (unfold unlock, hit_mshr; by change (mshr_entries c1) with (mshr_entries c0); rewrite Hm).
  assert (E2 := receive_one a s1 c1 c1 eq_refl Hu). change (cshape c1) with (cshape c0) in E2. rewrite Hs in E2. specialize (E2 (ln_higher _ _ _ L)).
  rewrite E2. cbn [returns]. exists c1, []. split; [by eapply answered|]. split; [done|split; [done|split; [by rewrite app_nil_r|split; [constructor|]]]]. split.
  - unfold contents at 1, c1. rewrite put_set_lines, fmap_app. cbn. by erewrite erase_contents.
  - intros b Hb. unfold contents, c1. rewrite put_set_other by (by rewrite Hs). by rewrite Hlines.
Qed.

(** The set after a miss, and what goes to the memory *)
Definition missed_set (c : Cache) (a : Z) (w : bool) : lru_set := ((fun l => (ln_addr l, ln_dirty l)) <$> kept_lines c a) ++ [(a, w)].
Lemma kept_in c a l : l ∈ kept_lines c a -> l ∈ lines_of c a.
Proof. unfold kept_lines. if_goal; [done|]. destruct (lines_of c a); [done|]. by right. Qed.
Lemma access_miss o freed s (c : Cache) a w : lone o s c -> line_at c a = None -> forall ops,
  Forall2 (mem_entry (cclk s + latency (level c))) ops (written s c a) ->
  returns (access freed (a, w) s) (accessed o a (missed_set c a w) (ops ++ [Fetch a]) s c).
Proof.
  intros L Hl ops Hops. destruct (lone_send_miss o freed s c a w L Hl) as (c1 & Hs & Hr & Ho & E). unfold access. cbn [fst snd]. rewrite E. cbn [bind].
  set (n := next_node s) in *. set (x := mk_Line a (get_tag c a) true false n) in *. set (c2 := put_set a (kept_lines c a ++ [x]) c1) in *.
  set (c3 := set_mshr [(a, n)] (map_node n (set_dirty w) c2)) in *. set (s1 := mk_Caches _ _ _ _ _) in *.
  set (c4 := set_mshr [] (map_node n (set_lock false) c3)).
  assert (Hin : ln_node (set_dirty w x) = n /\ holds c3 (set_dirty w x)).
  { split; [done|]. unfold holds. change (lines_of c3 (ln_addr (set_dirty w x))) with (lines_of (map_node n (set_dirty w) c2) a).
    rewrite map_node_lines. unfold c2. rewrite put_set_lines, fmap_app. apply elem_of_app. right. cbn. rewrite Z.eqb_refl. by apply list_elem_of_singleton. }
  assert (Hu : unlock a c3 = Ok c4).
  { unfold unlock, hit_mshr. change (mshr_entries c3) with [(a, n)]. cbn -[align write_node erase_mshr c3]. rewrite Z.eqb_refl. unfold write_node.
    destruct Hin as [Hn Hh]. pose proof (holds_node c3 _ Hh) as Hx. rewrite Hn in Hx. rewrite Hx. cbn [bind].
    change (mshr_entries (map_node n (set_lock false) c3)) with [(a, n)]. cbn [erase_mshr fst]. by rewrite Z.eqb_refl. }
  assert (E2 := receive_one a s1 c3 c4 eq_refl Hu). change (cshape c4) with (cshape c1) in E2. rewrite Hs in E2. specialize (E2 (ln_higher _ _ _ L)).
  assert (Hnew : forall l, l ∈ kept_lines c a -> ln_node l <> n).
  { intros l Hl'%kept_in. destruct (lines_of_in _ _ _ (ck_lines _ _ _ (lone_ok _ _ _ L)) _ _ Hl') as (_ & _ & _ & ?). unfold n. lia. }
  assert (Hmap : forall b, lines_of c4 b = (fun l => if ln_node l =? n then set_lock false l else l) <$> ((fun l => if ln_node l =? n then set_dirty w l else l) <$> lines_of c2 b)).
  { intros b. change (lines_of c4 b) with (lines_of (map_node n (set_lock false) (map_node n (set_dirty w) c2)) b). by rewrite !map_node_lines. }
  rewrite E2. cbn [returns]. exists c4, (written s c a ++ [(cclk s + latency (level c), set_type READ (Request_new a (if w then WRITE else READ) 0 0))]).
  split; [by eapply answered|]. split; [done|split; [done|split; [done|split]]].
  - apply Forall2_app; [done|]. constructor; [done|constructor].
  - split.
    + unfold contents. rewrite Hmap. unfold c2. rewrite put_set_lines, !fmap_app.
      rewrite (map_fresh n (set_dirty w) (kept_lines c a)), (map_fresh n (set_lock false) (kept_lines c a)) by done. cbn. rewrite Z.eqb_refl. cbn. by rewrite Z.eqb_refl.
    + intros b Hb. unfold contents. rewrite Hmap. unfold c2. rewrite put_set_other by (by rewrite Hs). rewrite Ho by done.
      assert (Hob : forall l, l ∈ lines_of c b -> ln_node l <> n).
      { intros l Hl'. destruct (lines_of_in _ _ _ (ck_lines _ _ _ (lone_ok _ _ _ L)) _ _ Hl') as (_ & _ & _ & ?). unfold n. lia. }
      by rewrite (map_fresh n (set_dirty w) (lines_of c b)), (map_fresh n (set_lock false) (lines_of c b)) by done.
Qed.

Lemma lone_access o freed s (c : Cache) a w : lone o s c ->
  let y := lru_access (assoc c) (get_tag c) a w (contents c a) in
  returns (access freed (a, w) s) (accessed o a (fst y) (snd y) s c).
Proof.
  intros L. unfold lru_access. rewrite (find_contents o s c L). destruct (line_at c a) as [l|] eqn:Hl; cbn; [by apply access_hit|].
  pose proof (fun ops H => access_miss o freed s c a w L Hl ops H) as M. unfold missed_set, kept_lines, written in M.
  unfold contents. rewrite length_fmap. destruct (Z.of_nat (length (lines_of c a)) <? assoc c) eqn:Er; [apply (M []); constructor|].
  destruct (lines_of c a) as [|v ls] eqn:El; cbn in *.
  { pose proof (g_assoc _ _ (lo_geom _ _ _ (ck_lines _ _ _ (lone_ok _ _ _ L)))). apply Z.ltb_ge in Er. lia. }
  apply (M (if ln_dirty v then [WriteBack (ln_addr v)] else [])). destruct (ln_dirty v); constructor; [done|constructor].
Qed.

(** A lone cache holds the blocks of the reference. *)
Definition lru_rel (o : Z) (sh : shape) (m : Z -> lru_set) (s : Caches) : Prop :=
  exists c : Cache, lone o s c /\ cshape c = sh /\ forall a, contents c a = m (get_index sh a).

(** C27: a cache refines the least-recently-used write-back cache.  If it is
    the only level and each request is answered before the next, it holds
    after any sequence of reads and writes the blocks and dirty bits of the
    reference, in the same order, and has sent the memory the same fetches and
    write-backs in the same order. *)
Theorem cache_refines_lru freed o sh m xs s : lru_rel o sh m s -> exists s' rs,
  accesses freed xs s = Ok s' /\ lru_rel o sh (fst (lru_run (assoc sh) (get_tag sh) (get_index sh) xs m)) s' /\
  wait_list s' = wait_list s ++ rs /\
  Forall2 (mem_entry (cclk s + latency (level sh))) (snd (lru_run (assoc sh) (get_tag sh) (get_index sh) xs m)) rs.
Proof.
  revert m s. induction xs as [|[a w] xs IH]; intros m s (c & L & <- & Hm); cbn [accesses lru_run].
  { exists s, []. rewrite app_nil_r. split; [done|]. split; [by exists c|]. split; [done|constructor]. }
  pose proof (proj1 (returns_ok _ _) (lone_access o freed s c a w L)) as (s1 & E & c1 & rs1 & L1 & Hs & Hk & Hw & Hops & Ha & Ho).
  unfold lru_step. cbn [fst snd]. rewrite (Hm a) in *. destruct (lru_access _ _ a w _) as [l ops] eqn:Ey. cbn [fst snd] in *.
  set (m1 := fun i => if i =? get_index c a then l else m i).
  destruct (IH m1 s1) as (s2 & rs2 & E2 & R2 & Hw2 & Hops2).
  { exists c1. split; [done|split; [done|]]. intros b. unfold m1. destruct (Z.eqb_spec (get_index c b) (get_index c a)) as [Eb|Eb]; [|by rewrite Ho].
    rewrite <- Ha. unfold contents, lines_of. by rewrite Hs, Eb. }
  exists s2, (rs1 ++ rs2). rewrite E. cbn [bind]. destruct (lru_run _ _ _ xs m1) as [m2 ops2]. cbn [fst snd] in *.
  rewrite Hk in Hops2. split; [done|split; [done|split]]; [by rewrite Hw2, Hw, app_assoc|by apply Forall2_app].
Qed.
