(* ===== verification/CacheWitness.v ===== *)
(** * Runs of the caches

    Concrete hierarchies: the witnesses of the theorems on the caches, and two
    runs in which the code does what it does not mean to. *)
From Stdlib Require Import ZArith Lia Bool String.
From stdpp Require Import base list gmap.
From S2P Require Import Prelude RamIf Sched AddrMap Cache CacheSet CacheRun CacheSafe CacheTick CacheTree CacheLru.

(** What the front end does to the caches of two cores: 0 is the last level,
    1 and 2 are L2 and L1 of core 0, 3 and 4 those of core 1. *)
Inductive op : Type := Read (i : nat) (a : Z) | Write (i : nat) (a : Z) | Answer (a : Z) | Cycles (n : nat).
Definition take_all (_ : Request) (m : unit) : res (bool * unit) := Ok (true, m).
Fixpoint cycles (n : nat) (s : Caches) : res Caches :=
  match n with
  | O => Ok s
  | S n => let! (s, _) := CacheSystem_tick take_all 6 [0%nat] s tt in cycles n s
  end.
Definition run_op (freed : Line -> Line) (x : op) (s : Caches) : res Caches :=
  match x with
  | Read i a => let! (_, s) := send freed 6 i (Request_new a READ 0 0) s in Ok s
  | Write i a => let! (_, s) := send freed 6 i (Request_new a WRITE 0 0) s in Ok s
  | Answer a => receive 6 [0%nat] a s
  | Cycles n => cycles n s
  end.
Fixpoint run_ops (freed : Line -> Line) (xs : list op) (s : Caches) : res Caches :=
  match xs with
  | [] => Ok s
  | x :: xs => let! s := run_op freed x s in run_ops freed xs s
  end.
Definition on_two_cores (freed : Line -> Line) (xs : list op) : res Caches :=
  let! s := Processor_caches true true L1 2 in run_ops freed xs s.
Definition blocks (stride : Z) (from n : nat) : list Z := (fun k => stride * Z.of_nat k) <$> seq from n.

(** A hit is called back as if the memory had answered.  Core 1 hits block 0
    in its L1; before the callback, core 0 drives the block out of the last
    level, and core 1 asks for it again and is refused.  The callback then
    makes the awaited lines valid although the last level has no line, and
    when L2 evicts the line the assertion of [evictline] fails. *)
Definition early_answer : list op :=
  [Read 4 0; Answer 0] ++ (Read 2 <$> blocks (2 ^ 20) 1 7) ++ [Read 4 0] ++ (Read 2 <$> blocks (2 ^ 20) 8 1) ++ [Read 4 0; Cycles 4] ++
  flat_map (fun a => [Read 4 a; Answer a]) (blocks (2 ^ 15) 1 16).
Example early_answer_fails : on_two_cores (fun l => l) early_answer = Abort "inclusive cache".
Proof. vm_compute. reflexivity. Qed.

(** [invalidate] reads the dirty bit of a line that it has erased: whether a
    dirty block is written back depends on what the freed memory holds. *)
Definition writes (r : res Caches) : list Z :=
  match r with
  | Ok s => map (fun e => rq_addr (snd e)) (List.filter (fun e => ReqType_eqb (rq_type (snd e)) WRITE) (wait_list s))
  | Abort _ => []
  end.
Definition dirty_victim : list op := [Write 2 64; Answer 64] ++ (Read 4 <$> map (fun a => a + 64) (blocks (2 ^ 20) 1 8)).
Example write_back_depends_on_freed :
  writes (on_two_cores (fun l => l) dirty_victim) = [64] /\ writes (on_two_cores (set_dirty false) dirty_victim) = [].
Proof. vm_compute. split; reflexivity. Qed.

(** Erasing the last refused request steps the iterator past the end. *)
Definition refused_once : list op :=
  (Read 2 <$> blocks (2 ^ 20) 1 8) ++ [Read 4 0] ++ (Answer <$> blocks (2 ^ 20) 1 8).
Example retry_steps_past_end :
  (let! s := on_two_cores (fun l => l) refused_once in tick (fun l => l) 6 4 s) = Abort "iterator past the end".
Proof. vm_compute. reflexivity. Qed.

(** ** Witnesses *)
Definition the (r : res Caches) : Caches := match r with Ok s => s | Abort _ => mk_Caches 0 [] [] [] 0 end.
Definition cache_of (k : nat) (s : Caches) : Cache := default (llc_cache 0 (L1, L1)) (caches s !! k).
Definition start : Caches := the (Processor_caches true true L1 2).
(** Core 0 reads block 64. *)
Definition asked : Caches := the (run_ops (fun l => l) [Read 2 4096] start).

Lemma start_built : Processor_caches true true L1 2 = Ok start.
Proof. vm_compute. reflexivity. Qed.
Lemma asked_run : rtc (cache_step (fun l => l) (Processor_roots true true 2)) start asked.
Proof.
  apply rtc_once. eapply (step_send _ _ 2 (cache_of 2 start) (Request_new 4096 READ 0 0) true); [vm_compute; reflexivity|right; vm_compute; discriminate|by left|].
  vm_compute. reflexivity.
Qed.

Lemma asked_at : caches asked = [cache_of 0 asked; cache_of 1 asked; cache_of 2 asked; cache_of 3 asked; cache_of 4 asked].
Proof. vm_compute. reflexivity. Qed.
Lemma asked_cache k : (k < 5)%nat -> caches asked !! k = Some (cache_of k asked).
Proof.
  intros Hk. destruct (lookup_lt_is_Some_2 (caches asked) k) as [c Hc]; [rewrite asked_at; exact Hk|].
  unfold cache_of. rewrite Hc. reflexivity.
Qed.
Lemma asked_l1 : lock asked 2 4096 = Some true /\ lock_at (cache_of 2 asked) 4100 = Some true /\ lower_cache (cache_of 2 asked) = Some 1%nat /\
  lower_cache (cache_of 4 asked) = Some 3%nat.
Proof. vm_compute. done. Qed.
Lemma asked_above : above asked 0 1 /\ above asked 1 2.
Proof.
  split; [exists (cshape (cache_of 0 asked))|exists (cshape (cache_of 1 asked))]; (split; [by apply shape_eq, asked_cache; lia|]);
    vm_compute; by left.
Qed.
Lemma asked_mshr : (4096, 2) ∈ mshr_entries (cache_of 0 asked).
Proof. apply list_elem_of_singleton. vm_compute. reflexivity. Qed.

Lemma caches_inclusive_witness : caches asked !! 2%nat = Some (cache_of 2 asked) /\ lock_at (cache_of 2 asked) 4100 = Some true /\
  ((exists r, r ∈ retry_list (cache_of 2 asked) /\ align (cache_of 2 asked) (rq_addr r) = align (cache_of 2 asked) 4100) \/ lock_at (cache_of 1 asked) 4100 <> None).
Proof.
  pose proof asked_l1 as (_ & L & Lo & _). split; [by apply asked_cache; lia|]. split; [exact L|].
  apply (caches_inclusive (fun l => l) true true L1 2 start asked start_built asked_run 2 1 (cache_of 2 asked) (cache_of 1 asked) 4100);
    [apply asked_cache; lia|exact Lo|apply asked_cache; lia|exact L].
Defined.

Lemma cache_calls_answered_witness :
  exists b s', send (fun l => l) 6 4 (Request_new 4096 WRITE 1 0) asked = Ok (b, s') /\ (b = true -> lock s' 4 4096 <> None).
Proof.
  pose proof asked_l1 as (_ & _ & _ & Lo).
  apply (cache_calls_answered (fun l => l) true true L1 2 start asked start_built asked_run 4 (cache_of 4 asked));
    [apply asked_cache; lia|right; rewrite Lo; discriminate|by right].
Defined.

Lemma asked_quiet : quiet 6 asked 4096.
Proof. intros k (r & Hr & _). unfold retries in Hr. rewrite asked_at in Hr. do 5 (destruct k as [|k]; [vm_compute in Hr; by apply elem_of_nil in Hr|]). by apply elem_of_nil in Hr. Qed.
Lemma answer_wakes_waiters_witness : lock asked 2 4096 = Some true /\ exists s', receive 6 [0%nat] 4096 asked = Ok s' /\ lock s' 2 4096 = Some false.
Proof.
  pose proof asked_l1 as (L & _). pose proof asked_above as [A0 A1]. split; [exact L|].
  destruct (answer_wakes_waiters (fun l => l) true true L1 2 start asked start_built asked_run 4096 asked_quiet) as (s' & E & H).
  exists s'. split; [exact E|]. refine (proj1 (H 0%nat 2%nat _ _) _); [by left| |rewrite L; discriminate].
  apply (under_up _ 0 1 2 A0), (under_up _ 1 2 2 A1), under_self.
Defined.

Lemma cache_bounds_witness : caches asked !! 0%nat = Some (cache_of 0 asked) /\
  exists l, line_at (cache_of 0 asked) 4096 = Some l /\ ln_node l = 2 /\ ln_lock l = true.
Proof.
  assert (H0 : caches asked !! 0%nat = Some (cache_of 0 asked)) by (apply asked_cache; lia). split; [exact H0|].
  destruct (cache_bounds (fun l => l) true true L1 2 start asked start_built asked_run 0 (cache_of 0 asked) H0) as (_ & _ & _ & H).
  exact (H 4096 2 asked_mshr).
Defined.

(** One core with the last level only: nine writes to a set with eight ways *)
Definition only_llc : Caches := the (Processor_caches false true L1 1).
Lemma only_llc_rel : lru_rel 6 (cshape (cache_of 0 only_llc)) (fun _ => []) only_llc.
Proof.
  exists (cache_of 0 only_llc). split; [|done].
  split; [exact (Processor_caches_spec false true L1 1)|vm_compute; reflexivity..].
Qed.
Definition nine_writes : list (Z * bool) := map (fun a => (a, true)) (blocks (2 ^ 20) 0 9).
Lemma cache_refines_lru_witness :
  snd (lru_run 8 (get_tag (cache_of 0 only_llc)) (get_index (cache_of 0 only_llc)) nine_writes (fun _ => [])) =
    (Fetch <$> blocks (2 ^ 20) 0 8) ++ [WriteBack 0; Fetch (2 ^ 23)] /\
  exists s' rs, accesses (fun l => l) nine_writes only_llc = Ok s' /\ wait_list s' = rs /\
    Forall2 (mem_entry 47) ((Fetch <$> blocks (2 ^ 20) 0 8) ++ [WriteBack 0; Fetch (2 ^ 23)]) rs.
Proof.
  split; [vm_compute; reflexivity|].
  destruct (cache_refines_lru (fun l => l) 6 _ (fun _ => []) nine_writes only_llc only_llc_rel) as (s' & rs & E & _ & W & F).
  exists s', rs. split; [exact E|]. split; [exact W|]. exact F.
Defined.
