(* ===== verification/Controller.v ===== *)
(** * The memory controller of a channel

    [ramulator/src/Controller.h] and [ramulator/src/Refresh.h]: the queues,
    the acceptance of requests, the refresh scheduler and the tick, which
    completes reads, chooses a request and issues one command for it.  The
    callbacks of a tick are the requests it returns, in the order of the
    calls. *)
From Stdlib Require Import ZArith Lia Bool String.
From stdpp Require Import base list gmap.
From S2P Require Import Prelude RamIf Dram Sched.

(** ** State *)

(** Statistics; the counters are floating-point numbers that hold integers.
    Those of a core are functions of its number. *)

Record cstats : Type := mk_cstats {
  read_transaction_bytes : Z;
  write_transaction_bytes : Z;
  row_hits : Z;
  row_misses : Z;
  row_conflicts : Z;
  read_row_hits : Z -> Z;
  read_row_misses : Z -> Z;
  read_row_conflicts : Z -> Z;
  write_row_hits : Z -> Z;
  write_row_misses : Z -> Z;
  write_row_conflicts : Z -> Z;
  useless_activates : Z;
  read_latency_sum : Z;
  req_queue_length_sum : Z;
  read_req_queue_length_sum : Z;
  write_req_queue_length_sum : Z
}.
Definition set_read_transaction_bytes (v : Z) (r : cstats) : cstats :=
  mk_cstats v (write_transaction_bytes r) (row_hits r) (row_misses r) (row_conflicts r) (read_row_hits r) (read_row_misses r) (read_row_conflicts r) (write_row_hits r) (write_row_misses r) (write_row_conflicts r) (useless_activates r) (read_latency_sum r) (req_queue_length_sum r) (read_req_queue_length_sum r) (write_req_queue_length_sum r).
Definition set_write_transaction_bytes (v : Z) (r : cstats) : cstats :=
  mk_cstats (read_transaction_bytes r) v (row_hits r) (row_misses r) (row_conflicts r) (read_row_hits r) (read_row_misses r) (read_row_conflicts r) (write_row_hits r) (write_row_misses r) (write_row_conflicts r) (useless_activates r) (read_latency_sum r) (req_queue_length_sum r) (read_req_queue_length_sum r) (write_req_queue_length_sum r).
Definition set_row_hits (v : Z) (r : cstats) : cstats :=
  mk_cstats (read_transaction_bytes r) (write_transaction_bytes r) v (row_misses r) (row_conflicts r) (read_row_hits r) (read_row_misses r) (read_row_conflicts r) (write_row_hits r) (write_row_misses r) (write_row_conflicts r) (useless_activates r) (read_latency_sum r) (req_queue_length_sum r) (read_req_queue_length_sum r) (write_req_queue_length_sum r).
Definition set_row_misses (v : Z) (r : cstats) : cstats :=
  mk_cstats (read_transaction_bytes r) (write_transaction_bytes r) (row_hits r) v (row_conflicts r) (read_row_hits r) (read_row_misses r) (read_row_conflicts r) (write_row_hits r) (write_row_misses r) (write_row_conflicts r) (useless_activates r) (read_latency_sum r) (req_queue_length_sum r) (read_req_queue_length_sum r) (write_req_queue_length_sum r).
Definition set_row_conflicts (v : Z) (r : cstats) : cstats :=
  mk_cstats (read_transaction_bytes r) (write_transaction_bytes r) (row_hits r) (row_misses r) v (read_row_hits r) (read_row_misses r) (read_row_conflicts r) (write_row_hits r) (write_row_misses r) (write_row_conflicts r) (useless_activates r) (read_latency_sum r) (req_queue_length_sum r) (read_req_queue_length_sum r) (write_req_queue_length_sum r).
Definition set_read_row_hits (v : Z -> Z) (r : cstats) : cstats :=
  mk_cstats (read_transaction_bytes r) (write_transaction_bytes r) (row_hits r) (row_misses r) (row_conflicts r) v (read_row_misses r) (read_row_conflicts r) (write_row_hits r) (write_row_misses r) (write_row_conflicts r) (useless_activates r) (read_latency_sum r) (req_queue_length_sum r) (read_req_queue_length_sum r) (write_req_queue_length_sum r).
Definition set_read_row_misses (v : Z -> Z) (r : cstats) : cstats :=
  mk_cstats (read_transaction_bytes r) (write_transaction_bytes r) (row_hits r) (row_misses r) (row_conflicts r) (read_row_hits r) v (read_row_conflicts r) (write_row_hits r) (write_row_misses r) (write_row_conflicts r) (useless_activates r) (read_latency_sum r) (req_queue_length_sum r) (read_req_queue_length_sum r) (write_req_queue_length_sum r).
Definition set_read_row_conflicts (v : Z -> Z) (r : cstats) : cstats :=
  mk_cstats (read_transaction_bytes r) (write_transaction_bytes r) (row_hits r) (row_misses r) (row_conflicts r) (read_row_hits r) (read_row_misses r) v (write_row_hits r) (write_row_misses r) (write_row_conflicts r) (useless_activates r) (read_latency_sum r) (req_queue_length_sum r) (read_req_queue_length_sum r) (write_req_queue_length_sum r).
Definition set_write_row_hits (v : Z -> Z) (r : cstats) : cstats :=
  mk_cstats (read_transaction_bytes r) (write_transaction_bytes r) (row_hits r) (row_misses r) (row_conflicts r) (read_row_hits r) (read_row_misses r) (read_row_conflicts r) v (write_row_misses r) (write_row_conflicts r) (useless_activates r) (read_latency_sum r) (req_queue_length_sum r) (read_req_queue_length_sum r) (write_req_queue_length_sum r).
Definition set_write_row_misses (v : Z -> Z) (r : cstats) : cstats :=
  mk_cstats (read_transaction_bytes r) (write_transaction_bytes r) (row_hits r) (row_misses r) (row_conflicts r) (read_row_hits r) (read_row_misses r) (read_row_conflicts r) (write_row_hits r) v (write_row_conflicts r) (useless_activates r) (read_latency_sum r) (req_queue_length_sum r) (read_req_queue_length_sum r) (write_req_queue_length_sum r).
Definition set_write_row_conflicts (v : Z -> Z) (r : cstats) : cstats :=
  mk_cstats (read_transaction_bytes r) (write_transaction_bytes r) (row_hits r) (row_misses r) (row_conflicts r) (read_row_hits r) (read_row_misses r) (read_row_conflicts r) (write_row_hits r) (write_row_misses r) v (useless_activates r) (read_latency_sum r) (req_queue_length_sum r) (read_req_queue_length_sum r) (write_req_queue_length_sum r).
Definition set_useless_activates (v : Z) (r : cstats) : cstats :=
  mk_cstats (read_transaction_bytes r) (write_transaction_bytes r) (row_hits r) (row_misses r) (row_conflicts r) (read_row_hits r) (read_row_misses r) (read_row_conflicts r) (write_row_hits r) (write_row_misses r) (write_row_conflicts r) v (read_latency_sum r) (req_queue_length_sum r) (read_req_queue_length_sum r) (write_req_queue_length_sum r).
Definition set_read_latency_sum (v : Z) (r : cstats) : cstats :=
  mk_cstats (read_transaction_bytes r) (write_transaction_bytes r) (row_hits r) (row_misses r) (row_conflicts r) (read_row_hits r) (read_row_misses r) (read_row_conflicts r) (write_row_hits r) (write_row_misses r) (write_row_conflicts r) (useless_activates r) v (req_queue_length_sum r) (read_req_queue_length_sum r) (write_req_queue_length_sum r).
Definition set_req_queue_length_sum (v : Z) (r : cstats) : cstats :=
  mk_cstats (read_transaction_bytes r) (write_transaction_bytes r) (row_hits r) (row_misses r) (row_conflicts r) (read_row_hits r) (read_row_misses r) (read_row_conflicts r) (write_row_hits r) (write_row_misses r) (write_row_conflicts r) (useless_activates r) (read_latency_sum r) v (read_req_queue_length_sum r) (write_req_queue_length_sum r).
Definition set_read_req_queue_length_sum (v : Z) (r : cstats) : cstats :=
  mk_cstats (read_transaction_bytes r) (write_transaction_bytes r) (row_hits r) (row_misses r) (row_conflicts r) (read_row_hits r) (read_row_misses r) (read_row_conflicts r) (write_row_hits r) (write_row_misses r) (write_row_conflicts r) (useless_activates r) (read_latency_sum r) (req_queue_length_sum r) v (write_req_queue_length_sum r).
Definition set_write_req_queue_length_sum (v : Z) (r : cstats) : cstats :=
  mk_cstats (read_transaction_bytes r) (write_transaction_bytes r) (row_hits r) (row_misses r) (row_conflicts r) (read_row_hits r) (read_row_misses r) (read_row_conflicts r) (write_row_hits r) (write_row_misses r) (write_row_conflicts r) (useless_activates r) (read_latency_sum r) (req_queue_length_sum r) (read_req_queue_length_sum r) v.
Definition cstats_new : cstats :=
  mk_cstats 0 0 0 0 0 (fun _ => 0) (fun _ => 0) (fun _ => 0) (fun _ => 0) (fun _ => 0) (fun _ => 0) 0 0 0 0 0.
Definition tally (core : Z) (f : Z -> Z) : Z -> Z := fun c => if c =? core then f c + 1 else f c.

(** [Controller<T>] with its [Refresh<T>].  The watermarks are kept as the
    lengths [int(watermark * writeq.max)] they stand for: the products are
    computed in floating point. *)
Record Ctrl (C S : Type) : Type := mk_Ctrl {
  c_clk : Z;
  channel_of : DRAM C S;
  rowtable : RowTable;
  ref_clk : Z;
  refreshed : Z;
  readq : list Request;
  writeq : list Request;
  actq : list Request;
  otherq : list Request;
  pending : list Request;
  write_mode : bool;
  high_mark : Z;
  low_mark : Z;
  sched_type : SchedType;
  policy : PolicyType;
  c_stats : cstats
}.
Arguments mk_Ctrl {C S}.
Arguments c_clk {C S} _.
Arguments channel_of {C S} _.
Arguments rowtable {C S} _.
Arguments ref_clk {C S} _.
Arguments refreshed {C S} _.
Arguments readq {C S} _.
Arguments writeq {C S} _.
Arguments actq {C S} _.
Arguments otherq {C S} _.
Arguments pending {C S} _.
Arguments write_mode {C S} _.
Arguments high_mark {C S} _.
Arguments low_mark {C S} _.
Arguments sched_type {C S} _.
Arguments policy {C S} _.
Arguments c_stats {C S} _.

Section Setters.
Context {C S : Type}.
Definition put_c_clk (v : Z) (r : Ctrl C S) : Ctrl C S :=
  mk_Ctrl v (channel_of r) (rowtable r) (ref_clk r) (refreshed r) (readq r) (writeq r) (actq r) (otherq r) (pending r) (write_mode r) (high_mark r) (low_mark r) (sched_type r) (policy r) (c_stats r).
Definition put_channel_of (v : DRAM C S) (r : Ctrl C S) : Ctrl C S :=
  mk_Ctrl (c_clk r) v (rowtable r) (ref_clk r) (refreshed r) (readq r) (writeq r) (actq r) (otherq r) (pending r) (write_mode r) (high_mark r) (low_mark r) (sched_type r) (policy r) (c_stats r).
Definition put_rowtable (v : RowTable) (r : Ctrl C S) : Ctrl C S :=
  mk_Ctrl (c_clk r) (channel_of r) v (ref_clk r) (refreshed r) (readq r) (writeq r) (actq r) (otherq r) (pending r) (write_mode r) (high_mark r) (low_mark r) (sched_type r) (policy r) (c_stats r).
Definition put_ref_clk (v : Z) (r : Ctrl C S) : Ctrl C S :=
  mk_Ctrl (c_clk r) (channel_of r) (rowtable r) v (refreshed r) (readq r) (writeq r) (actq r) (otherq r) (pending r) (write_mode r) (high_mark r) (low_mark r) (sched_type r) (policy r) (c_stats r).
Definition put_refreshed (v : Z) (r : Ctrl C S) : Ctrl C S :=
  mk_Ctrl (c_clk r) (channel_of r) (rowtable r) (ref_clk r) v (readq r) (writeq r) (actq r) (otherq r) (pending r) (write_mode r) (high_mark r) (low_mark r) (sched_type r) (policy r) (c_stats r).
Definition put_readq (v : list Request) (r : Ctrl C S) : Ctrl C S :=
  mk_Ctrl (c_clk r) (channel_of r) (rowtable r) (ref_clk r) (refreshed r) v (writeq r) (actq r) (otherq r) (pending r) (write_mode r) (high_mark r) (low_mark r) (sched_type r) (policy r) (c_stats r).
Definition put_writeq (v : list Request) (r : Ctrl C S) : Ctrl C S :=
  mk_Ctrl (c_clk r) (channel_of r) (rowtable r) (ref_clk r) (refreshed r) (readq r) v (actq r) (otherq r) (pending r) (write_mode r) (high_mark r) (low_mark r) (sched_type r) (policy r) (c_stats r).
Definition put_actq (v : list Request) (r : Ctrl C S) : Ctrl C S :=
  mk_Ctrl (c_clk r) (channel_of r) (rowtable r) (ref_clk r) (refreshed r) (readq r) (writeq r) v (otherq r) (pending r) (write_mode r) (high_mark r) (low_mark r) (sched_type r) (policy r) (c_stats r).
Definition put_otherq (v : list Request) (r : Ctrl C S) : Ctrl C S :=
  mk_Ctrl (c_clk r) (channel_of r) (rowtable r) (ref_clk r) (refreshed r) (readq r) (writeq r) (actq r) v (pending r) (write_mode r) (high_mark r) (low_mark r) (sched_type r) (policy r) (c_stats r).
Definition put_pending (v : list Request) (r : Ctrl C S) : Ctrl C S :=
  mk_Ctrl (c_clk r) (channel_of r) (rowtable r) (ref_clk r) (refreshed r) (readq r) (writeq r) (actq r) (otherq r) v (write_mode r) (high_mark r) (low_mark r) (sched_type r) (policy r) (c_stats r).
Definition put_write_mode (v : bool) (r : Ctrl C S) : Ctrl C S :=
  mk_Ctrl (c_clk r) (channel_of r) (rowtable r) (ref_clk r) (refreshed r) (readq r) (writeq r) (actq r) (otherq r) (pending r) v (high_mark r) (low_mark r) (sched_type r) (policy r) (c_stats r).
Definition put_high_mark (v : Z) (r : Ctrl C S) : Ctrl C S :=
  mk_Ctrl (c_clk r) (channel_of r) (rowtable r) (ref_clk r) (refreshed r) (readq r) (writeq r) (actq r) (otherq r) (pending r) (write_mode r) v (low_mark r) (sched_type r) (policy r) (c_stats r).
Definition put_low_mark (v : Z) (r : Ctrl C S) : Ctrl C S :=
  mk_Ctrl (c_clk r) (channel_of r) (rowtable r) (ref_clk r) (refreshed r) (readq r) (writeq r) (actq r) (otherq r) (pending r) (write_mode r) (high_mark r) v (sched_type r) (policy r) (c_stats r).
Definition put_sched_type (v : SchedType) (r : Ctrl C S) : Ctrl C S :=
  mk_Ctrl (c_clk r) (channel_of r) (rowtable r) (ref_clk r) (refreshed r) (readq r) (writeq r) (actq r) (otherq r) (pending r) (write_mode r) (high_mark r) (low_mark r) v (policy r) (c_stats r).
Definition put_policy (v : PolicyType) (r : Ctrl C S) : Ctrl C S :=
  mk_Ctrl (c_clk r) (channel_of r) (rowtable r) (ref_clk r) (refreshed r) (readq r) (writeq r) (actq r) (otherq r) (pending r) (write_mode r) (high_mark r) (low_mark r) (sched_type r) v (c_stats r).
Definition put_c_stats (v : cstats) (r : Ctrl C S) : Ctrl C S :=
  mk_Ctrl (c_clk r) (channel_of r) (rowtable r) (ref_clk r) (refreshed r) (readq r) (writeq r) (actq r) (otherq r) (pending r) (write_mode r) (high_mark r) (low_mark r) (sched_type r) (policy r) v.
End Setters.

(** [Queue::max] *)
Definition queue_max : nat := 32.

Inductive queue_name : Type := ReadQ | WriteQ | ActQ | OtherQ.
#[global] Instance queue_name_eq_dec : EqDecision queue_name.
Proof. solve_decision. Defined.

Section Controller.
Context {C S : Type} `{EqDecision C} (std : Std C S).
#[local] Abbreviation DRAM := (DRAM C S).
#[local] Abbreviation Ctrl := (Ctrl C S).

(** The constructor: watermarks 0.8 and 0.2 of 32. *)
Definition Ctrl_new (ch : DRAM) : Ctrl :=
  mk_Ctrl 0 ch ∅ 0 0 [] [] [] [] [] false 25 6 FRFCFS_Cap POpened cstats_new.

(** ** Queues *)
Definition get_q (k : queue_name) (c : Ctrl) : list Request :=
  match k with ReadQ => readq c | WriteQ => writeq c | ActQ => actq c | OtherQ => otherq c end.
Definition put_q (k : queue_name) (q : list Request) (c : Ctrl) : Ctrl :=
  match k with
  | ReadQ => put_readq q c | WriteQ => put_writeq q c | ActQ => put_actq q c | OtherQ => put_otherq q c
  end.
(** [get_queue(type)] *)
Definition get_queue (t : ReqType) : queue_name :=
  match t with READ => ReadQ | WRITE => WriteQ | _ => OtherQ end.

(** [enqueue(req)]: [false] when the queue is full.  A read of an address
    with a queued write is answered from the queue. *)
Definition enqueue (r : Request) (c : Ctrl) : bool * Ctrl :=
  let k := get_queue (rq_type r) in
  if (length (get_q k c) =? queue_max)%nat then (false, c)
  else
    let r := set_arrive (c_clk c) r in
    if ReqType_eqb (rq_type r) READ && existsb (fun w => rq_addr r =? rq_addr w) (writeq c)
    then (true, put_pending (pending c ++ [set_depart (c_clk c + 1) r]) c)
    else (true, put_q k (get_q k c ++ [r]) c).

(** ** Refresh *)

(** [refresh_target(ctrl, rank, bank, sa)] for a standard of [n] levels *)
Definition refresh_vec (n : nat) (chan rank bank sa : Z) : list Z :=
  <[3%nat := sa]> (<[2%nat := bank]> (<[1%nat := rank]> (<[0%nat := chan]> (replicate n (-1))))).
Definition levels : nat := (row_level (sp std) + 2)%nat.
Definition refresh_target (rank bank sa : Z) (c : Ctrl) : res Ctrl :=
  let r := Request_vec (refresh_vec levels (id (channel_of c)) rank bank sa) REFRESH in
  let '(ok, c) := enqueue r c in
  assert! ok, "res" in Ok c.
Fixpoint refresh_ranks (ranks : list DRAM) (c : Ctrl) : res Ctrl :=
  match ranks with
  | [] => Ok c
  | rank :: ranks => let! c := refresh_target (id rank) (-1) (-1) c in refresh_ranks ranks c
  end.
(** [inject_refresh(true)] *)
Definition inject_refresh (c : Ctrl) : res Ctrl :=
  let! c := refresh_ranks (children (channel_of c)) c in
  Ok (put_refreshed (ref_clk c) c).
(** [tick_ref()]; [update_temp] does nothing but for ALDRAM. *)
Definition tick_ref (c : Ctrl) : res Ctrl :=
  let c := put_ref_clk (ref_clk c + 1) c in
  if nREFI std <=? ref_clk c - refreshed c then inject_refresh c else Ok c.

(** ** Issuing a command *)

(** The requests of a queue that hit the row of [vec]. *)
Definition same_row (vec vec2 : list Z) : bool :=
  bool_decide (take (row_level (sp std) + 1) vec = take (row_level (sp std) + 1) vec2).
Fixpoint count_hits (ch : DRAM) (vec : list Z) (q : list Request) : res Z :=
  match q with
  | [] => Ok 0
  | r :: q =>
      let! b := is_row_hit std ch r in
      let! n := count_hits ch vec q in
      Ok (if b && same_row vec (rq_addr_vec r) then n + 1 else n)
  end.
(** [cmd_issue_autoprecharge]: the command to issue *)
Definition cmd_issue_autoprecharge (cmd : C) (vec : list Z) (c : Ctrl) : res C :=
  if is_accessing (sp std) cmd && bool_decide (policy c = PClosedAP) then
    let! n := count_hits (channel_of c) vec (if write_mode c then writeq c else readq c) in
    let! n := if n =? 0 then count_hits (channel_of c) vec (actq c) else Ok n in
    assert! (0 <? n), "num_row_hits > 0" in
    if n =? 1 then
      if decide (cmd = cRD std) then Ok (cRDA std)
      else if decide (cmd = cWR std) then Ok (cWRA std)
      else Abort "Unimplemented command type."
    else Ok cmd
  else Ok cmd.

(** [issue_cmd(cmd, addr_vec)] *)
Definition issue_cmd (cmd : C) (vec : list Z) (c : Ctrl) : res Ctrl :=
  let! cmd := cmd_issue_autoprecharge cmd vec c in
  let! ready := is_ready_cmd std (channel_of c) (c_clk c) cmd vec in
  assert! ready, "is_ready(cmd, addr_vec)" in
  let! ch := update (sp std) cmd vec (c_clk c) (channel_of c) in
  let c := put_channel_of ch c in
  let c := if decide (cmd = cPRE std) then
             if get_hits std (rowtable c) vec true =? 0
             then put_c_stats (set_useless_activates (useless_activates (c_stats c) + 1) (c_stats c)) c
             else c
           else c in
  let! t := table_update std cmd vec (c_clk c) (rowtable c) in
  Ok (put_rowtable t c).

(** ** The parts of [tick] *)

Definition tally_queues (c : Ctrl) : Ctrl :=
  let s := c_stats c in
  let rd := Z.of_nat (length (readq c)) in
  let wr := Z.of_nat (length (writeq c)) in
  let pe := Z.of_nat (length (pending c)) in
  put_c_stats
    (set_req_queue_length_sum (req_queue_length_sum s + (rd + wr + pe))
      (set_read_req_queue_length_sum (read_req_queue_length_sum s + (rd + pe))
        (set_write_req_queue_length_sum (write_req_queue_length_sum s + wr) s))) c.

(** 1. Serve completed reads *)
Definition serve_completed (c : Ctrl) : res (Ctrl * list Request) :=
  match pending c with
  | [] => Ok (c, [])
  | r :: l =>
      if rq_depart r <=? c_clk c then
        let! c :=
          if 1 <? rq_depart r - rq_arrive r then
            let! ch := update_serving_requests (sp std) (rq_addr_vec r) (-1) (c_clk c) (channel_of c) in
            let s := c_stats c in
            Ok (put_channel_of ch
              (put_c_stats (set_read_latency_sum (read_latency_sum s + (rq_depart r - rq_arrive r)) s) c))
          else Ok c in
        Ok (put_pending l c, [r])
      else Ok (c, [])
  end.

(** 3. Should we schedule writes? *)
Definition schedule_writes (c : Ctrl) : Ctrl :=
  let wr := Z.of_nat (length (writeq c)) in
  let no_reads := match readq c with [] => true | _ => false end in
  if negb (write_mode c) then
    if (high_mark c <? wr) || no_reads then put_write_mode true c else c
  else if (wr <? low_mark c) && negb no_reads then put_write_mode false c else c.

(** 4. The request at the head of a queue, with its first command, when it
    is ready. *)
Definition candidate (k : queue_name) (c : Ctrl) : res (option (queue_name * nat * Request * C)) :=
  let! h := get_head std (sched_type c) (channel_of c) (c_clk c) (rowtable c) (get_q k c) in
  match h with
  | None => Ok None
  | Some i =>
      match get_q k c !! i with
      | None => Abort "no such request"
      | Some r =>
          let! cmd := get_first_cmd std (channel_of c) r in
          let! ready := is_ready_cmd std (channel_of c) (c_clk c) cmd (rq_addr_vec r) in
          Ok (if ready then Some (k, i, r, cmd) else None)
      end
  end.
(** The queue looked at after [actq] *)
Definition next_queue (c : Ctrl) : queue_name :=
  match otherq c with [] => if write_mode c then WriteQ else ReadQ | _ => OtherQ end.
Definition choose (c : Ctrl) : res (option (queue_name * nat * Request * C)) :=
  let! o := candidate ActQ c in
  match o with
  | Some x => Ok (Some x)
  | None => candidate (next_queue c) c
  end.

(** Speculative precharge *)
Definition speculate (c : Ctrl) : res Ctrl :=
  let! victim := get_victim std (policy c) (channel_of c) (c_clk c) (rowtable c) (cPRE std) in
  match victim with [] => Ok c | _ => issue_cmd (cPRE std) victim c end.

(** The statistics of the first command of a request. *)
Definition count_row (r : Request) (hit opn : bool) (s : cstats) : cstats :=
  let k := rq_coreid r in
  let tx := Z.quot (prefetch_size std * channel_width std) 8 in
  match rq_type r with
  | READ =>
      set_read_transaction_bytes (read_transaction_bytes s + tx)
        (if hit then set_read_row_hits (tally k (read_row_hits s)) (set_row_hits (row_hits s + 1) s)
         else if opn then
           set_read_row_conflicts (tally k (read_row_conflicts s)) (set_row_conflicts (row_conflicts s + 1) s)
         else set_read_row_misses (tally k (read_row_misses s)) (set_row_misses (row_misses s + 1) s))
  | WRITE =>
      set_write_transaction_bytes (write_transaction_bytes s + tx)
        (if hit then set_write_row_hits (tally k (write_row_hits s)) (set_row_hits (row_hits s + 1) s)
         else if opn then
           set_write_row_conflicts (tally k (write_row_conflicts s)) (set_row_conflicts (row_conflicts s + 1) s)
         else set_write_row_misses (tally k (write_row_misses s)) (set_row_misses (row_misses s + 1) s))
  | _ => s
  end.
Definition is_rw (r : Request) : bool := ReqType_eqb (rq_type r) READ || ReqType_eqb (rq_type r) WRITE.
Definition first_command (k : queue_name) (i : nat) (r : Request) (c : Ctrl) : res Ctrl :=
  if rq_first r then
    let c := put_q k (<[i := set_first false r]> (get_q k c)) c in
    if is_rw r then
      let! ch := update_serving_requests (sp std) (rq_addr_vec r) 1 (c_clk c) (channel_of c) in
      let c := put_channel_of ch c in
      let! hit := is_row_hit std ch r in
      let! opn := if hit then Ok false else is_row_open std ch r in
      Ok (put_c_stats (count_row r hit opn (c_stats c)) c)
    else Ok c
  else Ok c.

(** After the command: the request moves to [actq], stays, or is done. *)
Definition finish_cmd (k : queue_name) (i : nat) (r : Request) (cmd : C) (c : Ctrl)
    : res (Ctrl * list Request) :=
  if decide (cmd <> translate std (rq_type r)) then
    if is_opening (sp std) cmd then
      let c := put_actq (actq c ++ [r]) c in
      Ok (put_q k (delete i (get_q k c)) c, [])
    else Ok (c, [])
  else
    let c := match rq_type r with
             | READ => put_pending (pending c ++ [set_depart (c_clk c + read_latency std) r]) c
             | _ => c
             end in
    let! (c, done) :=
      match rq_type r with
      | WRITE =>
          let! ch := update_serving_requests (sp std) (rq_addr_vec r) (-1) (c_clk c) (channel_of c) in
          Ok (put_channel_of ch c, [r])
      | _ => Ok (c, [])
      end in
    Ok (put_q k (delete i (get_q k c)) c, done).

(** The command of a request that was chosen *)
Definition serve_request (k : queue_name) (i : nat) (r : Request) (cmd : C) (c : Ctrl)
    : res (Ctrl * list Request) :=
  let! c := first_command k i r c in
  let! c := issue_cmd cmd (rq_addr_vec r) c in
  finish_cmd k i (set_first false r) cmd c.

(** [tick()] *)
Definition tick (c : Ctrl) : res (Ctrl * list Request) :=
  let c := tally_queues (put_c_clk (c_clk c + 1) c) in
  let! (c, reads) := serve_completed c in
  let! c := tick_ref c in
  let c := schedule_writes c in
  let! o := choose c in
  match o with
  | None => let! c := speculate c in Ok (c, reads)
  | Some (k, i, r, cmd) =>
      let! (c, writes) := serve_request k i r cmd c in
      Ok (c, reads ++ writes)
  end.

(** [is_active()] and [is_refresh()] *)
Definition is_active (c : Ctrl) : bool := 0 <? cur_serving_requests (stats (channel_of c)).
Definition is_refresh (c : Ctrl) : bool := c_clk c <=? end_of_refreshing (stats (channel_of c)).

End Controller.
