(* ===== verification/CtrlRun.v ===== *)
(** * Runs of the memory controller

    What holds of [Controller.v] for every standard: requests are neither
    lost nor duplicated, the queues keep their bounds and their types,
    refreshes are injected on time and completed reads leave in order and on
    time. *)
From Stdlib Require Import ZArith Lia Bool String.
From stdpp Require Import base list gmap.
From S2P Require Import Prelude RamIf Dram Sched Controller.

Section CtrlRun.
Context {C S : Type} `{EqDecision C} (std : Std C S).
#[local] Abbreviation Ctrl := (Ctrl C S).
Implicit Types c : Ctrl.

(** A sequence of calls: requests sent, of which the accepted ones are
    collected, and ticks, whose completed requests are collected. *)
Inductive op : Type := Send (r : Request) | Tick.
Definition step (o : op) c : res (Ctrl * list Request * list Request) :=
  match o with
  | Send r => let '(ok, c) := enqueue r c in Ok (c, if ok then [r] else [], [])
  | Tick => let! (c, done) := tick std c in Ok (c, [], done)
  end.
Fixpoint run (ops : list op) c : res (Ctrl * list Request * list Request) :=
  match ops with
  | [] => Ok (c, [], [])
  | o :: ops =>
      let! (c, acc, done) := step o c in
      let! (c, acc', done') := run ops c in
      Ok (c, acc ++ acc', done ++ done')
  end.

(** An invariant of the steps holds after a run. *)
Lemma run_inv (I : Ctrl -> Prop) ops : (forall o c c' a d, In o ops -> I c -> step o c = Ok (c', a, d) -> I c') ->
  forall c c' a d, I c -> run ops c = Ok (c', a, d) -> I c'.
Proof.
  induction ops as [|o ops IH]; intros Hs c c' a d Hc E; cbn [run] in E; [by simplify_eq|].
  destruct (step o c) as [[[c1 a1] d1]|] eqn:E1; [|done]. cbn [bind] in E.
  destruct (run ops c1) as [[[c2 a2] d2]|] eqn:E2; [|done]. cbn [bind] in E. simplify_eq.
  eapply IH; [|by eapply Hs; [apply in_eq|exact Hc|exact E1]|exact E2]. intros; eapply Hs; eauto using in_cons.
Qed.

(** Decide the equality of two given types of requests. *)
Ltac eval_types :=
  repeat match goal with
    | |- context [ReqType_eqb ?a ?b] =>
        let v := eval vm_compute in (ReqType_eqb a b) in change (ReqType_eqb a b) with v
    end; cbv iota.

(** ** Frames: what a part of a tick leaves as it is *)

(** Everything but the channel, the row table and the statistics *)
Definition frame c c' : Prop :=
  c' = put_channel_of (channel_of c') (put_rowtable (rowtable c') (put_c_stats (c_stats c') c)).

Lemma frame_refl c : frame c c.
Proof. by destruct c. Qed.
Lemma frame_trans c1 c2 c3 : frame c1 c2 -> frame c2 c3 -> frame c1 c3.
Proof. unfold frame. intros E1 E2. rewrite E2, E1. by destruct c1. Qed.
Lemma frame_stats c s : frame c (put_c_stats s c).
Proof. by destruct c. Qed.
Lemma frame_channel c h : frame c (put_channel_of h c).
Proof. by destruct c. Qed.
Lemma frame_table c t : frame c (put_rowtable t c).
Proof. by destruct c. Qed.

Lemma frame_q c c' : frame c c' -> (forall k, get_q k c' = get_q k c) /\ pending c' = pending c /\
  c_clk c' = c_clk c /\ ref_clk c' = ref_clk c /\ refreshed c' = refreshed c /\ sched_type c' = sched_type c /\
  policy c' = policy c /\ write_mode c' = write_mode c.
Proof. intros ->. split; [by intros []|done]. Qed.

Lemma issue_frame cmd vec c c' : issue_cmd std cmd vec c = Ok c' -> frame c c'.
Proof.
  unfold issue_cmd. intros E. res_inv. cbv zeta in *. res_inv.
  eapply frame_trans; [|apply frame_table]. eapply frame_trans; [apply (frame_channel c)|].
  repeat case_match; auto using frame_refl, frame_stats.
Qed.

Lemma speculate_frame c c' : speculate std c = Ok c' -> frame c c'.
Proof.
  unfold speculate. intros E. res_inv. destruct v; [by simplify_eq; apply frame_refl|]. by apply issue_frame in E.
Qed.

(** The first part of a tick takes the head of [pending]. *)
Lemma serve_completed_ok c c' done : serve_completed std c = Ok (c', done) ->
  exists c1, frame c c1 /\ c' = put_pending (pending c') c1 /\ pending c = done ++ pending c' /\ (length done <= 1)%nat /\
    (done = [] <-> match pending c with [] => True | r :: _ => c_clk c < rq_depart r end).
Proof.
  unfold serve_completed. destruct (pending c) as [|r l] eqn:Ep.
  { intros [= <- <-]. exists c. split_and!; [apply frame_refl|by destruct c|by rewrite Ep|cbn; lia|done]. }
  destruct (Z.leb_spec (rq_depart r) (c_clk c)) as [Hd|Hd].
  2:{ intros [= <- <-]. exists c. split_and!; [apply frame_refl|by destruct c|by rewrite Ep|cbn; lia|done]. }
  intros E. res_inv. exists v. split_and!; [|done|done|cbn; lia|split; [done|lia]].
  case_match; res_inv; [|apply frame_refl]. cbv zeta in *. res_inv.
  eapply frame_trans; [apply frame_stats|apply frame_channel].
Qed.

(** Refreshes go to the end of [otherq]. *)
Lemma refresh_target_ok rank bank sa c c' : refresh_target std rank bank sa c = Ok c' ->
  (length (otherq c) <> queue_max)%nat /\
  c' = put_otherq (otherq c ++ [set_arrive (c_clk c)
    (Request_vec (refresh_vec (levels std) (id (channel_of c)) rank bank sa) REFRESH)]) c.
Proof.
  unfold refresh_target, enqueue. cbn [Request_vec rq_type get_queue get_q].
  destruct (Nat.eqb_spec (length (otherq c)) queue_max) as [E|E]; [done|]. cbn. intros [= <-]. by split.
Qed.
Lemma refresh_ranks_ok ranks : forall c c', refresh_ranks std ranks c = Ok c' ->
  exists l, c' = put_otherq (otherq c ++ l) c /\ Forall (fun r => rq_type r = REFRESH) l /\
    map rq_addr_vec l = map (fun rk => refresh_vec (levels std) (id (channel_of c)) (id rk) (-1) (-1)) ranks /\
    ((length (otherq c) <= queue_max)%nat -> (length (otherq c ++ l) <= queue_max)%nat).
Proof.
  induction ranks as [|rk ranks IH]; intros c c' E; cbn [refresh_ranks] in E.
  { simplify_eq. exists []. rewrite app_nil_r. split_and!; try done. by destruct c'. }
  res_inv. apply refresh_target_ok in E0 as [Hne ->]. apply IH in E as (l & -> & Ht & Hv & Hl).
  eexists (_ :: l). cbn [put_otherq otherq c_clk channel_of] in *. split_and!.
  - cbn. rewrite <- app_assoc. done.
  - by constructor.
  - cbn [map]. by rewrite Hv.
  - intros Hle. specialize (Hl ltac:(rewrite length_app; cbn; lia)). by rewrite <- app_assoc in Hl.
Qed.

(** ** The parts of a tick *)

(** The state in which a request is chosen: [reads] have completed and the
    refreshes [l] have been injected. *)
Record prepared (c m : Ctrl) (reads l : list Request) : Prop := {
  pr_pending : pending c = reads ++ pending m;
  pr_reads : (length reads <= 1)%nat;
  pr_head : reads = [] <-> match pending c with [] => True | r :: _ => c_clk c + 1 < rq_depart r end;
  pr_readq : readq m = readq c;
  pr_writeq : writeq m = writeq c;
  pr_actq : actq m = actq c;
  pr_otherq : otherq m = otherq c ++ l;
  pr_clk : c_clk m = c_clk c + 1;
  pr_ref : ref_clk m = ref_clk c + 1;
  pr_sched : sched_type m = sched_type c;
  pr_policy : policy m = policy c;
  pr_refresh : if nREFI std <=? ref_clk c + 1 - refreshed c
    then refreshed m = ref_clk c + 1 /\ map rq_addr_vec l = map (fun rk => refresh_vec (levels std)
           (id (channel_of m)) (id rk) (-1) (-1)) (children (channel_of m))
    else refreshed m = refreshed c /\ l = [];
  pr_types : Forall (fun r => rq_type r = REFRESH) l;
  pr_room : (length (otherq c) <= queue_max)%nat -> (length (otherq m) <= queue_max)%nat
}.

Lemma schedule_writes_eq c : exists b, schedule_writes c = put_write_mode b c.
Proof.
  unfold schedule_writes. repeat case_match; eauto; exists (write_mode c); by destruct c.
Qed.

(** The state before the choice, as [tick] computes it *)
Definition prepare c : res (Ctrl * list Request) :=
  let! (c, reads) := serve_completed std (tally_queues (put_c_clk (c_clk c + 1) c)) in
  let! c := tick_ref std c in
  Ok (schedule_writes c, reads).
Lemma tick_eq c : tick std c =
  let! (m, reads) := prepare c in
  let! o := choose std m in
  match o with
  | None => let! c := speculate std m in Ok (c, reads)
  | Some (k, i, r, cmd) => let! (c, writes) := serve_request std k i r cmd m in Ok (c, reads ++ writes)
  end.
Proof.
  unfold tick, prepare. rewrite bind_assoc. destruct (serve_completed std _) as [[c1 reads]|]; [|done].
  cbn [bind]. rewrite bind_assoc. by destruct (tick_ref std c1).
Qed.

Lemma prepare_ok c m reads : prepare c = Ok (m, reads) -> exists l, prepared c m reads l.
Proof.
  unfold prepare. intros E. apply bind_ok_inv in E as ([c1 rd] & E1 & E). apply bind_ok_inv in E as (c2 & E2 & E).
  injection E as <- <-. apply serve_completed_ok in E1 as (c0 & Hf & E1 & Hp & Hl & Hd).
  apply frame_q in Hf as (Hq & _ & Hclk & Href & Hrd & Hsc & Hpo & _).
  assert (Hq1 : forall k, get_q k c1 = get_q k c) by (intros k; rewrite E1; by destruct k; [apply (Hq ReadQ)|apply (Hq WriteQ)|apply (Hq ActQ)|apply (Hq OtherQ)]).
  cbn in Hclk, Href, Hrd, Hsc, Hpo, Hp, Hd.
  assert (Hc1 : c_clk c1 = c_clk c + 1 /\ ref_clk c1 = ref_clk c /\ refreshed c1 = refreshed c /\ sched_type c1 = sched_type c /\ policy c1 = policy c).
  { rewrite E1. cbn. done. }
  destruct Hc1 as (Kc & Kr & Kf & Ks & Kp). destruct (schedule_writes_eq c2) as [b Eb]. rewrite Eb.
  unfold tick_ref in E2. cbn [put_ref_clk ref_clk refreshed] in E2. rewrite Kr, Kf in E2.
  pose proof (Hq1 ReadQ) as Qr. pose proof (Hq1 WriteQ) as Qw. pose proof (Hq1 ActQ) as Qa. pose proof (Hq1 OtherQ) as Qo.
  cbn [get_q] in Qr, Qw, Qa, Qo.
  destruct (nREFI std <=? ref_clk c + 1 - refreshed c) eqn:En.
  - unfold inject_refresh in E2. res_inv. apply refresh_ranks_ok in E as (l & -> & Ht & Hv & Hroom).
    exists l. cbn in Hroom |- *. rewrite Qo in Hroom.
    split; cbn; rewrite ?En, ?Qo, ?Kr; done.
  - injection E2 as <-. exists []. split; cbn; rewrite ?En, ?Kr, ?app_nil_r; try done. by rewrite Qo.
Qed.

(** A request that was chosen is in its queue, and its command is ready. *)
Lemma candidate_ok k m k' i r cmd : candidate std k m = Ok (Some (k', i, r, cmd)) ->
  k' = k /\ get_q k m !! i = Some r /\ get_first_cmd std (channel_of m) r = Ok cmd /\
  is_ready_cmd std (channel_of m) (c_clk m) cmd (rq_addr_vec r) = Ok true.
Proof.
  unfold candidate. intros E. apply bind_ok_inv in E as (h & _ & E). destruct h as [j|]; [|done].
  destruct (get_q k m !! j) as [r'|] eqn:Ej; [|done]. res_inv. destruct v0; [|done]. by simplify_eq.
Qed.
Lemma choose_ok m k i r cmd : choose std m = Ok (Some (k, i, r, cmd)) ->
  (k = ActQ \/ k = next_queue m) /\ get_q k m !! i = Some r /\ get_first_cmd std (channel_of m) r = Ok cmd /\
  is_ready_cmd std (channel_of m) (c_clk m) cmd (rq_addr_vec r) = Ok true.
Proof.
  unfold choose. intros E. apply bind_ok_inv in E as (o & E1 & E). destruct o as [x|].
  - injection E as ->. apply candidate_ok in E1 as (-> & ?). auto.
  - apply candidate_ok in E as (-> & ?). auto.
Qed.

Lemma put_q_frame k q c c' : frame (put_q k q c) c' ->
  exists c1, frame c c1 /\ c' = put_q k q c1 /\ channel_of c1 = channel_of c' /\ rowtable c1 = rowtable c'.
Proof.
  intros ->. exists (put_channel_of (channel_of c') (put_rowtable (rowtable c') (put_c_stats (c_stats c') c))).
  split; [by destruct c|]. by destruct k.
Qed.

Lemma first_command_ok k i r m c : get_q k m !! i = Some r -> first_command std k i r m = Ok c ->
  frame (put_q k (<[i := set_first false r]> (get_q k m)) m) c.
Proof.
  unfold first_command. intros Hi E. destruct (rq_first r) eqn:Ef.
  - destruct (is_rw r); [|injection E as <-; apply frame_refl]. cbv zeta in E. res_inv.
    eapply frame_trans; [apply frame_channel|apply frame_stats].
  - injection E as <-. replace (set_first false r) with r by (destruct r; cbn in *; by subst).
    rewrite list_insert_id by done. by destruct k, m.
Qed.

(** The last command of a request *)
Lemma finish_done k i r cmd x c' w : cmd = translate std (rq_type r) -> finish_cmd std k i r cmd x = Ok (c', w) ->
  w = (if ReqType_eqb (rq_type r) WRITE then [r] else []) /\
  exists x1, frame x x1 /\ c' = put_q k (delete i (get_q k x)) (put_pending (pending x ++
    (if ReqType_eqb (rq_type r) READ then [set_depart (c_clk x + read_latency std) r] else [])) x1).
Proof.
  intros Hc E. unfold finish_cmd in E. rewrite decide_False in E by (by intros ?). cbv zeta in E.
  assert (Hid : forall x : Ctrl, put_pending (pending x ++ []) x = x) by (intros y; rewrite app_nil_r; by destruct y).
  destruct (rq_type r) eqn:Ety; cbn [bind] in E.
  3-7: injection E as <- <-; split; [done|]; exists x; split; [apply frame_refl|]; cbn; by rewrite Hid.
  - injection E as <- <-. split; [done|]. exists x. split; [apply frame_refl|]. by destruct k.
  - apply bind_ok_inv in E as ([c1 d] & E1 & E). apply bind_ok_inv in E1 as (h & Eh & E1). injection E1 as <- <-.
    injection E as <- <-. split; [done|]. exists (put_channel_of h x). split; [apply frame_channel|].
    cbn. rewrite app_nil_r. by destruct k, x.
Qed.

(** What serving a request does to the queues.  [cmd] is its first command:
    an activate sends it to [actq], the command of its type ends it. *)
Lemma serve_request_ok k i r cmd m c' w : get_q k m !! i = Some r -> serve_request std k i r cmd m = Ok (c', w) ->
  let r' := set_first false r in
  exists m1, frame m m1 /\
  ((cmd <> translate std (rq_type r) /\ is_opening (sp std) cmd = false /\ w = [] /\
      c' = put_q k (<[i := r']> (get_q k m)) m1) \/
   (cmd <> translate std (rq_type r) /\ is_opening (sp std) cmd = true /\ w = [] /\
      let c2 := put_q k (<[i := r']> (get_q k m)) m1 in
      let c3 := put_actq (actq c2 ++ [r']) c2 in c' = put_q k (delete i (get_q k c3)) c3) \/
   (cmd = translate std (rq_type r) /\ w = (if ReqType_eqb (rq_type r) WRITE then [r'] else []) /\
      let q := delete i (<[i := r']> (get_q k m)) in
      c' = put_q k q (put_pending (pending m ++ (if ReqType_eqb (rq_type r) READ
                                   then [set_depart (c_clk m + read_latency std) r'] else [])) m1))).
Proof.
  intros Hi E r'. unfold serve_request in E. fold r' in E. apply bind_ok_inv in E as (c1 & E1 & E). apply bind_ok_inv in E as (c2 & E2 & E).
  apply first_command_ok in E1; [|done]. apply issue_frame in E2. pose proof (frame_trans _ _ _ E1 E2) as F.
  apply put_q_frame in F as (m1 & Fm & -> & _ & _). fold r' in E |- *.
  pose proof (frame_q _ _ Fm) as (Hq & Hp & Hc & _).
  destruct (decide (cmd = translate std (rq_type r))) as [Hcmd|Hcmd].
  - apply finish_done in E as (-> & x1 & Fx & ->); [|done]. apply put_q_frame in Fx as (m2 & Fm2 & -> & _ & _).
    exists m2. split; [by eapply frame_trans|]. right; right. split; [done|]. split; [done|].
    rewrite <- Hp, <- Hc. by destruct k.
  - unfold finish_cmd in E. rewrite decide_True in E by done. exists m1. split; [done|].
    destruct (is_opening (sp std) cmd) eqn:Eo; injection E as <- <-; [right; left|left]; done.
Qed.

(** ** No request is lost or answered twice *)

(** A request apart from the members the controller writes *)
Definition ident (r : Request) : Z * list Z * Z * Z * ReqType :=
  (rq_addr r, rq_addr_vec r, rq_coreid r, rq_id r, rq_type r).
(** How often a list holds the read or write [x] *)
Definition count_of (x : Z * list Z * Z * Z * ReqType) (l : list Request) : Z :=
  countb (fun r => is_rw r && bool_decide (ident r = x)) l.
Arguments count_of : simpl never.
Definition in_flight c : list Request := readq c ++ writeq c ++ actq c ++ otherq c ++ pending c.

Lemma count_of_app x l1 l2 : count_of x (l1 ++ l2) = count_of x l1 + count_of x l2.
Proof. apply countb_app. Qed.
Lemma count_flight x c : count_of x (in_flight c) =
  count_of x (readq c) + count_of x (writeq c) + count_of x (actq c) + count_of x (otherq c) + count_of x (pending c).
Proof. unfold in_flight. rewrite !count_of_app. lia. Qed.
Lemma count_put x k q c : count_of x (in_flight (put_q k q c)) =
  count_of x (in_flight c) - count_of x (get_q k c) + count_of x q.
Proof. rewrite !count_flight. destruct k; cbn; lia. Qed.
Lemma count_same x r r' : ident r = ident r' -> is_rw r = is_rw r' -> count_of x [r] = count_of x [r'].
Proof. intros E1 E2. unfold count_of. cbn. by rewrite E1, E2. Qed.
Lemma count_refresh x l : Forall (fun r => rq_type r = REFRESH) l -> count_of x l = 0.
Proof.
  intros Hl. apply countb_zero. intros r Hr. rewrite Forall_forall in Hl.
  unfold is_rw. rewrite (Hl r) by (by apply list_elem_of_In). done.
Qed.
Lemma count_frame x c c' : frame c c' -> count_of x (in_flight c') = count_of x (in_flight c).
Proof. intros ->. done. Qed.

Lemma prepared_count x c m reads l : prepared c m reads l ->
  count_of x (in_flight c) = count_of x (in_flight m) + count_of x reads.
Proof.
  intros [Hp _ _ Hr Hw Ha Ho _ _ _ _ _ Ht _]. rewrite !count_flight, Hp, Hr, Hw, Ha, Ho, !count_of_app.
  rewrite (count_refresh x l Ht). lia.
Qed.

Lemma serve_count x k i r cmd m c' w : get_q k m !! i = Some r -> serve_request std k i r cmd m = Ok (c', w) ->
  count_of x (in_flight m) = count_of x (in_flight c') + count_of x w.
Proof.
  intros Hi E. apply serve_request_ok in E as (m1 & F & H); [|done].
  pose proof (frame_q _ _ F) as (Hq & Hp & _). pose proof (count_frame x _ _ F) as Hf.
  assert (Hu : count_of x (<[i := set_first false r]> (get_q k m)) = count_of x (get_q k m)).
  { unfold count_of. rewrite (countb_update _ _ _ _ _ Hi). unfold is_rw, ident. cbn [set_first rq_type rq_addr rq_addr_vec rq_coreid rq_id]. lia. }
  assert (Hi' : <[i := set_first false r]> (get_q k m) !! i = Some (set_first false r))
    by (apply list_lookup_insert_eq; by eapply lookup_lt_Some).
  set (q := <[i := set_first false r]> (get_q k m)) in *.
  assert (Hd : forall l, count_of x (delete i (q ++ l)) = count_of x (q ++ l) - count_of x [set_first false r]).
  { intros l. unfold count_of. rewrite (countb_delete _ _ i (set_first false r)) by (by apply lookup_app_l_Some).
    cbn. lia. }
  destruct H as [(_ & _ & -> & ->)|[(_ & _ & -> & ->)|(_ & -> & ->)]].
  - rewrite count_put, Hq, Hu. change (count_of x []) with 0. lia.
  - cbv zeta. rewrite count_put. set (c2 := put_q k q m1).
    assert (Hc2 : count_of x (in_flight c2) = count_of x (in_flight m)) by (unfold c2; rewrite count_put, Hq, Hu; lia).
    assert (Hc3 : count_of x (in_flight (put_actq (actq c2 ++ [set_first false r]) c2)) =
      count_of x (in_flight c2) + count_of x [set_first false r]).
    { rewrite !count_flight. cbn [readq writeq actq otherq pending put_actq]. rewrite count_of_app. lia. }
    assert (exists l, get_q k (put_actq (actq c2 ++ [set_first false r]) c2) = q ++ l) as [l ->]
      by (unfold c2; destruct k; cbn; [exists []|exists []|exists [set_first false r]|exists []]; by rewrite ?app_nil_r).
    rewrite Hd, Hc3. change (count_of x []) with 0. lia.
  - cbv zeta. rewrite count_put. specialize (Hd []). rewrite app_nil_r in Hd.
    replace (get_q k (put_pending _ m1)) with (get_q k m1) by (by destruct k). rewrite Hq, Hd, Hu.
    rewrite (count_flight x (put_pending _ m1)). rewrite (count_flight x m1) in Hf.
    cbn [readq writeq actq otherq pending put_pending]. rewrite <- Hp, count_of_app.
    assert (count_of x [set_first false r] =
      count_of x (if ReqType_eqb (rq_type r) READ then [set_depart (c_clk m + read_latency std) (set_first false r)] else []) +
      count_of x (if ReqType_eqb (rq_type r) WRITE then [set_first false r] else [])); [|lia].
    destruct (rq_type r) eqn:Ety; eval_types; change (count_of x []) with 0.
    3-7: (unfold count_of, is_rw; cbn [countb set_first rq_type]; rewrite Ety; done).
    + rewrite <- (count_same x (set_first false r) (set_depart (c_clk m + read_latency std) (set_first false r))); [lia|done..].
    + lia.
Qed.

Lemma tick_cases c c' done : tick std c = Ok (c', done) -> exists m reads l, prepare c = Ok (m, reads) /\ prepared c m reads l /\
  ((choose std m = Ok None /\ speculate std m = Ok c' /\ done = reads) \/
   exists k i r cmd w, choose std m = Ok (Some (k, i, r, cmd)) /\ get_q k m !! i = Some r /\
     serve_request std k i r cmd m = Ok (c', w) /\ done = reads ++ w).
Proof.
  rewrite tick_eq. intros E. apply bind_ok_inv in E as ([m reads] & Em & E). apply bind_ok_inv in E as (o & Eo & E).
  destruct (prepare_ok _ _ _ Em) as [l Hl]. exists m, reads, l. split; [done|]. split; [done|]. destruct o as [[[[k i] r] cmd]|].
  - right. apply bind_ok_inv in E as ([c1 w] & Es & E). injection E as <- <-. exists k, i, r, cmd, w.
    pose proof (choose_ok _ _ _ _ _ Eo) as (_ & Hi & _). done.
  - left. apply bind_ok_inv in E as (c1 & Es & E). by injection E as <- <-.
Qed.

(** The three outcomes of [enqueue] *)
Lemma enqueue_cases r c ok c' : enqueue r c = (ok, c') ->
  let k := get_queue (rq_type r) in let r' := set_arrive (c_clk c) r in
  (ok = false /\ c' = c /\ length (get_q k c) = queue_max) \/
  (ok = true /\ length (get_q k c) <> queue_max /\
   ((rq_type r = READ /\ (exists w, In w (writeq c) /\ rq_addr w = rq_addr r) /\
       c' = put_pending (pending c ++ [set_depart (c_clk c + 1) r']) c) \/
    ((rq_type r = READ -> forall w, In w (writeq c) -> rq_addr w <> rq_addr r) /\
       c' = put_q k (get_q k c ++ [r']) c))).
Proof.
  intros E k r'. unfold enqueue in E. fold k in E. destruct (Nat.eqb_spec (length (get_q k c)) queue_max) as [|Hn];
    [injection E as <- <-; by left|]. right. cbv zeta in E. fold r' in E.
  replace (rq_type r') with (rq_type r) in E by done.
  destruct (_ && _) eqn:Ef in E; injection E as <- <-; (split; [done|]); (split; [done|]); [left|right].
  - apply andb_true_iff in Ef as [Et Ex]. apply bool_decide_eq_true in Et. apply existsb_exists in Ex as (w & Hw & Ex).
    apply Z.eqb_eq in Ex. split_and!; [done| |done]. exists w. by split.
  - split; [|done]. intros Et w Hw Hx. unfold ReqType_eqb in Ef. rewrite bool_decide_true in Ef by done. cbn [andb] in Ef.
    apply not_true_iff_false in Ef. apply Ef, existsb_exists. exists w. split; [done|]. by apply Z.eqb_eq.
Qed.

Lemma step_count x o c c' a d : step o c = Ok (c', a, d) ->
  count_of x (in_flight c) + count_of x a = count_of x (in_flight c') + count_of x d.
Proof.
  destruct o as [r|]; cbn [step]; intros E.
  - destruct (enqueue r c) as [ok c1] eqn:Eq. injection E as <- <- <-.
    assert (Hr : forall r', ident r' = ident r -> rq_type r' = rq_type r -> count_of x [r'] = count_of x [r]).
    { intros r' E1 E2. apply count_same; [done|]. unfold is_rw. by rewrite E2. }
    apply enqueue_cases in Eq as [(-> & -> & _)|(-> & _ & [(_ & _ & ->)|(_ & ->)])]; change (count_of x []) with 0; [lia|..].
    + rewrite !count_flight. cbn [readq writeq actq otherq pending put_pending].
      rewrite count_of_app, (Hr (set_depart _ _)) by done. lia.
    + rewrite count_put, count_of_app, (Hr (set_arrive _ _)) by done. lia.
  - apply bind_ok_inv in E as ([c1 done] & E & E'). injection E' as <- <- <-. change (count_of x []) with 0.
    apply tick_cases in E as (m & reads & l & _ & Hp & [(_ & E & ->)|(k & i & r & cmd & w & _ & Hi & E & ->)]);
      rewrite (prepared_count x _ _ _ _ Hp).
    + apply speculate_frame, (count_frame x) in E. lia.
    + rewrite (serve_count x _ _ _ _ _ _ _ Hi E), count_of_app. lia.
Qed.
Lemma run_count x ops : forall c c' a d, run ops c = Ok (c', a, d) ->
  count_of x (in_flight c) + count_of x a = count_of x (in_flight c') + count_of x d.
Proof.
  induction ops as [|o ops IH]; intros c c' a d E; cbn [run] in E; [by simplify_eq|].
  apply bind_ok_inv in E as ([[c1 a1] d1] & E1 & E). apply bind_ok_inv in E as ([[c2 a2] d2] & E2 & E).
  injection E as <- <- <-. apply (step_count x) in E1. apply IH in E2. rewrite !count_of_app. lia.
Qed.

(** C19: from a new controller, after any sequence of requests and ticks,
    every read and every write that was accepted is either still in exactly
    one queue of the controller or has been called back, exactly as often as
    it was accepted: none is lost, none is answered twice, none is invented.
    A request keeps its address, its coordinates, its core and its number. *)
Theorem controller_conserves ch ops c acc done x : run ops (Ctrl_new ch) = Ok (c, acc, done) ->
  count_of x acc = count_of x (in_flight c) + count_of x done.
Proof. intros E. apply (run_count x) in E. cbn in E. unfold count_of at 1 in E. cbn in E. lia. Qed.

(** ** Bounds and types of the queues *)
Record queues_ok c : Prop := {
  qk_read : Forall (fun r => rq_type r = READ) (readq c);
  qk_write : Forall (fun r => rq_type r = WRITE) (writeq c);
  qk_other : Forall (fun r => is_rw r = false) (otherq c);
  qk_pending : Forall (fun r => rq_type r = READ) (pending c);
  qk_nread : (length (readq c) <= queue_max)%nat;
  qk_nwrite : (length (writeq c) <= queue_max)%nat;
  qk_nother : (length (otherq c) <= queue_max)%nat
}.

Lemma queues_frame c c' : frame c c' -> queues_ok c -> queues_ok c'.
Proof. intros ->. intros []. by split. Qed.

Lemma queues_enqueue r c ok c' : enqueue r c = (ok, c') -> queues_ok c -> queues_ok c'.
Proof.
  intros E [H1 H2 H3 H4 H5 H6 H7]. apply enqueue_cases in E as [(_ & -> & _)|(_ & Hn & [(Et & _ & ->)|(_ & ->)])].
  - by split.
  - split; cbn; try done. apply Forall_app. split; [done|]. by repeat constructor.
  - destruct (rq_type r) eqn:Et; cbn [get_queue get_q put_q] in *; split; cbn; try done;
      try (apply Forall_app; split; [done|]; repeat constructor; unfold is_rw; cbn; by rewrite Et); rewrite length_app; cbn; lia.
Qed.

Lemma queues_prepared c m reads l : prepared c m reads l -> queues_ok c -> queues_ok m.
Proof.
  intros [Hp _ _ Hr Hw _ Ho _ _ _ _ _ Ht Hroom] [H1 H2 H3 H4 H5 H6 H7]. rewrite Hp in H4. apply Forall_app in H4 as [_ H4].
  split; rewrite ?Hr, ?Hw; auto. rewrite Ho. apply Forall_app. split; [done|].
  eapply Forall_impl; [exact Ht|]. intros r E. unfold is_rw. by rewrite E.
Qed.

(** The requests a queue may hold *)
Definition q_ok (k : queue_name) (r : Request) : Prop :=
  match k with
  | ReadQ => rq_type r = READ | WriteQ => rq_type r = WRITE | OtherQ => is_rw r = false | ActQ => True
  end.
Lemma queues_put k q c : queues_ok c -> Forall (q_ok k) q -> (k = ActQ \/ (length q <= queue_max)%nat) ->
  queues_ok (put_q k q c).
Proof. intros [] Hq Hl. destruct k; split; cbn; try done; by destruct Hl. Qed.
Lemma queues_get k c : queues_ok c -> Forall (q_ok k) (get_q k c) /\ (k = ActQ \/ (length (get_q k c) <= queue_max)%nat).
Proof. intros []. destruct k; cbn; auto. split; [by apply Forall_true|by left]. Qed.

Lemma queues_serve k i r cmd m c' w : get_q k m !! i = Some r -> serve_request std k i r cmd m = Ok (c', w) ->
  queues_ok m -> queues_ok c'.
Proof.
  intros Hi E Hm. apply serve_request_ok in E as (m1 & F & H); [|done].
  pose proof (queues_frame _ _ F Hm) as Hm1. pose proof (frame_q _ _ F) as (Hq & Hp & _).
  destruct (queues_get k _ Hm) as [Hf Hl]. pose proof (Forall_lookup_1 _ _ _ _ Hf Hi) as Hr.
  assert (Hr' : q_ok k (set_first false r)) by (by destruct k).
  pose proof (Forall_insert _ _ i _ Hf Hr') as Hf'. set (q := <[i := set_first false r]> (get_q k m)) in *.
  assert (Hlq : k = ActQ \/ (length q <= queue_max)%nat) by (unfold q; by rewrite length_insert).
  assert (Hld : k = ActQ \/ (length (delete i q) <= queue_max)%nat).
  { destruct Hlq as [|Hlq]; [by left|right]. rewrite length_delete; [lia|]. apply lookup_lt_is_Some. unfold q. rewrite length_insert. by eapply lookup_lt_Some. }
  destruct H as [(_ & _ & _ & ->)|[(_ & _ & _ & ->)|(_ & _ & ->)]].
  - by apply queues_put.
  - cbv zeta. set (c2 := put_q k q m1). assert (H2 : queues_ok c2) by (by apply queues_put).
    assert (H3 : queues_ok (put_actq (actq c2 ++ [set_first false r]) c2)) by (destruct H2; by split).
    apply queues_put; [done|by apply Forall_delete, queues_get|]. destruct k; [right|right|by left|right]; cbn in *;
      destruct Hld as [|Hld]; done.
  - cbv zeta. apply queues_put; [|by apply Forall_delete|done]. destruct Hm1 as [H1 H2 H3 H4 H5 H6 H7].
    split; cbn; try done. rewrite <- Hp. apply Forall_app. split; [done|].
    destruct (rq_type r) eqn:Et; eval_types; by repeat constructor.
Qed.

Lemma queues_step o c c' a d : queues_ok c -> step o c = Ok (c', a, d) -> queues_ok c'.
Proof.
  intros Hc. destruct o as [r|]; cbn [step]; intros E.
  - destruct (enqueue r c) as [ok c1] eqn:Eq. injection E as <- _ _. by apply queues_enqueue in Eq.
  - apply bind_ok_inv in E as ([c1 done] & E & E'). injection E' as <- _ _.
    apply tick_cases in E as (m & reads & l & _ & Hp & [(_ & E & _)|(k & i & r & cmd & w & _ & Hi & E & _)]);
      pose proof (queues_prepared _ _ _ _ Hp Hc) as Hm.
    + apply speculate_frame in E. by eapply queues_frame.
    + by eapply queues_serve.
Qed.

(** After any sequence of requests and ticks the read queue holds only
    reads, the write queue only writes, the other queue neither, the reads
    waiting for their data are reads, and none of the three queues is longer
    than its 32 entries. *)
Theorem controller_queues_typed ch ops c acc done : run ops (Ctrl_new ch) = Ok (c, acc, done) -> queues_ok c.
Proof.
  apply (run_inv queues_ok); [intros; by eapply queues_step|]. split; cbn; try constructor; lia.
Qed.

(** ** Refreshes *)
Definition ticks (ops : list op) : Z := countb (fun o => match o with Tick => true | _ => false end) ops.

Definition clock_ok (n : Z) c : Prop :=
  c_clk c = n /\ ref_clk c = n /\ refreshed c = nREFI std * (n / nREFI std).

Lemma serve_clock k i r cmd m c' w : get_q k m !! i = Some r -> serve_request std k i r cmd m = Ok (c', w) ->
  c_clk c' = c_clk m /\ ref_clk c' = ref_clk m /\ refreshed c' = refreshed m.
Proof.
  intros Hi E. apply serve_request_ok in E as (m1 & F & H); [|done]. apply frame_q in F as (_ & _ & <- & <- & <- & _).
  destruct H as [(_ & _ & _ & ->)|[(_ & _ & _ & ->)|(_ & _ & ->)]]; by destruct k.
Qed.

Lemma clock_step n o c c' a d : 0 < nREFI std -> 0 <= n -> clock_ok n c -> step o c = Ok (c', a, d) ->
  clock_ok (n + (match o with Tick => 1 | _ => 0 end)) c'.
Proof.
  intros Hn Hn0 (H1 & H2 & H3). destruct o as [r|]; cbn [step]; intros E.
  - destruct (enqueue r c) as [ok c1] eqn:Eq. injection E as <- _ _. rewrite Z.add_0_r.
    apply enqueue_cases in Eq as [(_ & -> & _)|(_ & _ & [(_ & _ & ->)|(_ & ->)])]; try done. by destruct (get_queue _).
  - apply bind_ok_inv in E as ([c1 done] & E & E'). injection E' as <- _ _.
    apply tick_cases in E as (m & reads & l & _ & Hp & Hc).
    assert (Hm : clock_ok (n + 1) m).
    { destruct Hp as [_ _ _ _ _ _ _ Hclk Href _ _ Hr _ _]. rewrite H2, H3 in Hr. split_and!; [lia|lia|].
      pose proof (Z.div_mod n (nREFI std) ltac:(lia)). pose proof (Z.mod_pos_bound n (nREFI std) ltac:(lia)).
      destruct (Z.leb_spec (nREFI std) (n + 1 - nREFI std * (n / nREFI std))); destruct Hr as [-> _].
      - assert (Hx : n + 1 = (n / nREFI std + 1) * nREFI std) by lia. rewrite Hx at 2. rewrite Z.div_mul by lia. lia.
      - f_equal. apply (Z.div_unique _ _ _ (n + 1 - nREFI std * (n / nREFI std))); lia. }
    destruct Hc as [(_ & E & _)|(k & i & r & cmd & w & _ & Hi & E & _)].
    + apply speculate_frame, frame_q in E as (_ & _ & E1 & E2 & E3 & _). unfold clock_ok. by rewrite E1, E2, E3.
    + apply serve_clock in E as (E1 & E2 & E3); [|done]. unfold clock_ok. by rewrite E1, E2, E3.
Qed.
Lemma clock_run ops : 0 < nREFI std -> forall n c c' a d, 0 <= n -> clock_ok n c -> run ops c = Ok (c', a, d) ->
  clock_ok (n + ticks ops) c'.
Proof.
  intros Hn. induction ops as [|o ops IH]; intros n c c' a d H0 Hc E; cbn [run] in E.
  { injection E as <- _ _. unfold ticks. cbn. by rewrite Z.add_0_r. }
  apply bind_ok_inv in E as ([[c1 a1] d1] & E1 & E). apply bind_ok_inv in E as ([[c2 a2] d2] & E2 & E).
  injection E as <- _ _. apply (clock_step n) in E1; [|done..].
  apply (IH (n + match o with Tick => 1 | _ => 0 end)) in E2; [|destruct o; lia|done].
  replace (n + ticks (o :: ops)) with (n + match o with Tick => 1 | _ => 0 end + ticks ops); [done|].
  unfold ticks. destruct o; cbn; lia.
Qed.

(** C39: refreshes are injected on time.  After [n] ticks since its creation
    the controller's clock is [n]; the next tick injects refreshes exactly
    when [n + 1] is a multiple of the refresh interval, one for each rank, in
    order, at the end of the queue of other requests; otherwise that queue is
    left alone. *)
Theorem refresh_on_time ch ops c acc done m reads : 0 < nREFI std ->
  run ops (Ctrl_new ch) = Ok (c, acc, done) -> prepare c = Ok (m, reads) ->
  let n := ticks ops in
  c_clk c = n /\
  (if (n + 1) mod nREFI std =? 0
   then exists l, otherq m = otherq c ++ l /\ Forall (fun r => rq_type r = REFRESH) l /\
     map rq_addr_vec l = map (fun rk => refresh_vec (levels std) (id (channel_of m)) (id rk) (-1) (-1))
                           (children (channel_of m))
   else otherq m = otherq c).
Proof.
  intros Hn E Em n. assert (Hc : clock_ok n c).
  { apply (clock_run ops Hn 0) in E; [done|lia|]. split_and!; try done. rewrite Z.div_0_l by lia. cbn. lia. }
  destruct Hc as (H1 & H2 & H3). split; [done|]. apply prepare_ok in Em as [l [_ _ _ _ _ _ Ho _ _ _ _ Hr Ht _]].
  rewrite H2, H3 in Hr. pose proof (Z.div_mod n (nREFI std) ltac:(lia)). pose proof (Z.mod_pos_bound n (nREFI std) ltac:(lia)).
  destruct (Z.leb_spec (nREFI std) (n + 1 - nREFI std * (n / nREFI std))); destruct Hr as [_ Hr].
  - replace (n + 1) with ((n / nREFI std + 1) * nREFI std) by lia. rewrite Z.mod_mul by lia. cbn. by exists l.
  - rewrite <- (Z.mod_unique (n + 1) (nREFI std) (n / nREFI std) (n + 1 - nREFI std * (n / nREFI std))) by lia.
    destruct (Z.eqb_spec (n + 1 - nREFI std * (n / nREFI std)) 0); [lia|]. by rewrite Ho, Hr, app_nil_r.
Qed.

(** ** Completed reads leave in order and on time *)

(** A tick takes the head of [pending] when it is due, and adds at the
    end. *)
Lemma tick_pending c c' done : tick std c = Ok (c', done) -> c_clk c' = c_clk c + 1 /\
  exists l, match pending c with
            | [] => pending c' = l
            | r :: p => if c_clk c + 1 <? rq_depart r then pending c' = pending c ++ l
                        else pending c' = p ++ l /\ In r done
            end.
Proof.
  intros E. apply tick_cases in E as (m & reads & l & _ & Hp & Hc).
  destruct Hp as [Hpe Hl Hh _ _ _ _ Hclk _ _ _ _ _ _].
  assert (Hx : c_clk c' = c_clk m /\ exists l, pending c' = pending m ++ l).
  { destruct Hc as [(_ & E & _)|(k & i & r & cmd & w & _ & Hi & E & _)].
    - apply speculate_frame, frame_q in E as (_ & -> & -> & _). split; [done|]. exists []. by rewrite app_nil_r.
    - split; [by apply serve_clock in E as (-> & _)|]. apply serve_request_ok in E as (m1 & F & H); [|done].
      apply frame_q in F as (_ & Hpm & _). destruct H as [(_ & _ & _ & ->)|[(_ & _ & _ & ->)|(_ & _ & ->)]];
        [exists []; rewrite app_nil_r; by destruct k|exists []; rewrite app_nil_r; by destruct k|eexists; by destruct k]. }
  destruct Hx as [-> [l' Hl']]. split; [done|]. exists l'.
  assert (Hd : forall r, In r reads -> In r done).
  { intros r Hr. destruct Hc as [(_ & _ & ->)|(? & ? & ? & ? & ? & _ & _ & _ & ->)]; [done|apply in_or_app; by left]. }
  rewrite Hl'. destruct (pending c) as [|r p] eqn:Epe.
  - symmetry in Hpe. apply app_eq_nil in Hpe as [_ ->]. done.
  - destruct (Z.ltb_spec (c_clk c + 1) (rq_depart r)) as [Hlt|Hge].
    + rewrite (proj2 Hh Hlt) in Hpe. cbn in Hpe. by rewrite Hpe.
    + destruct reads as [|r0 [|]]; cbn in *; [|injection Hpe as <- <-; auto|lia]. exfalso. pose proof (proj1 Hh eq_refl). lia.
Qed.

Lemma pending_served_gen D ops : forall c c' a d k r, run ops c = Ok (c', a, d) -> pending c !! k = Some r ->
  Forall (fun r => rq_depart r <= D) (take (Datatypes.S k) (pending c)) ->
  Z.max 1 (D - c_clk c) + Z.of_nat k <= ticks ops -> In r d.
Proof.
  induction ops as [|o ops IH]; intros c c' a d k r E Hk HD Ht; [unfold ticks in Ht; cbn in Ht; lia|].
  cbn [run] in E. apply bind_ok_inv in E as ([[c1 a1] d1] & E1 & E). apply bind_ok_inv in E as ([[c2 a2] d2] & E2 & E).
  injection E as _ _ <-. apply in_or_app. pose proof (lookup_lt_Some _ _ _ Hk) as Hlt.
  assert (Happ : forall l, (pending c ++ l) !! k = Some r /\
    Forall (fun r => rq_depart r <= D) (take (Datatypes.S k) (pending c ++ l))).
  { intros l. rewrite lookup_app_l, take_app_le by lia. done. }
  destruct o as [x|]; cbn [step] in E1.
  - destruct (enqueue x c) as [ok c3] eqn:Eq. injection E1 as <- _ _. right.
    assert (exists l, pending c3 = pending c ++ l /\ c_clk c3 = c_clk c) as (l & Hl & Hc).
    { apply enqueue_cases in Eq as [(_ & -> & _)|(_ & _ & [(_ & _ & ->)|(_ & ->)])];
        [exists []; by rewrite app_nil_r|by eexists|exists []; rewrite app_nil_r; by destruct (get_queue _)]. }
    apply (IH _ _ _ _ k r E2); rewrite ?Hl, ?Hc; [by apply Happ..|]. unfold ticks in *. cbn in Ht. lia.
  - apply bind_ok_inv in E1 as ([c3 dn] & E1 & E'). injection E' as <- _ <-.
    apply tick_pending in E1 as (Hc & l & Hl). assert (Ht' : Z.max 1 (D - c_clk c) + Z.of_nat k <= 1 + ticks ops)
      by (unfold ticks in *; cbn in Ht; lia).
    destruct (pending c) as [|r0 p] eqn:Ep; [done|]. cbn [take] in HD. apply Forall_cons in HD as [Hd0 HD].
    destruct (Z.ltb_spec (c_clk c + 1) (rq_depart r0)) as [Hlt0|Hge].
    + right. apply (IH _ _ _ _ k r E2); rewrite ?Hl, ?Hc; [by apply Happ..|]. lia.
    + destruct Hl as [Hl Hin]. destruct k as [|k]; [cbn in Hk; injection Hk as ->; by left|right]. cbn in Hk, Hlt.
      apply (IH _ _ _ _ k r E2); rewrite ?Hl, ?Hc.
      * rewrite lookup_app_l by lia. done.
      * rewrite take_app_le by lia. done.
      * lia.
Qed.

(** C40: a read that waits for its data is answered within a bounded time:
    when it is at position [k] of the waiting reads and no read up to it
    departs later than [D], it has been called back after
    [max 1 (D - clk) + k] ticks, whatever else is sent meanwhile.  This
    covers reads answered from the write queue, which wait behind earlier
    reads. *)
Theorem pending_read_served D ops c c' acc done k r :
  run ops c = Ok (c', acc, done) -> pending c !! k = Some r ->
  Forall (fun r => rq_depart r <= D) (take (Datatypes.S k) (pending c)) ->
  Z.max 1 (D - c_clk c) + Z.of_nat k <= ticks ops -> In r done.
Proof. apply pending_served_gen. Qed.

(** A read of an address that a queued write has is answered from the
    queue: it waits for the next tick only and no command is issued for
    it. *)
Lemma read_forwarded r c c' : rq_type r = READ -> (exists w, In w (writeq c) /\ rq_addr w = rq_addr r) ->
  enqueue r c = (true, c') -> pending c' = pending c ++ [set_depart (c_clk c + 1) (set_arrive (c_clk c) r)] /\
  forall k, get_q k c' = get_q k c.
Proof.
  intros Et (w & Hw & Ea) E. apply enqueue_cases in E as [(? & _)|(_ & _ & [(_ & _ & ->)|(Hno & _)])]; [done| |].
  - split; [done|]. by intros [].
  - by destruct (Hno Et w Hw).
Qed.
End CtrlRun.
