(* ===== verification/Ddr4Ctrl.v ===== *)
(** * The controller of a DDR4 channel

    The controller with the default row policy, on DDR4: the invariant of a
    run (the row table mirrors the open banks, the counts of requests in
    service are right, queued requests are well formed), and that no
    assertion fails but the one on room for refreshes. *)
From Stdlib Require Import ZArith Lia Bool String.
From stdpp Require Import base list gmap.
From S2P Require Import Prelude RamIf Dram DramTiming DramState DramServe Ddr4 Ddr4Run Sched Controller CtrlRun.
Import DDR4.

(** What [Controller<DDR4>] uses of [DDR4] *)
Definition ddr4_std (org : OrgEntry) (s : SpeedEntry) : Std Command State := {|
  sp := spec_of org s;
  Sched.translate := DDR4.translate;
  cPRE := PRE; cRD := RD; cRDA := RDA; cWR := WR; cWRA := WRA;
  Sched.read_latency := DDR4.read_latency s;
  Sched.nREFI := DDR4.nREFI s;
  Sched.prefetch_size := DDR4.prefetch_size;
  Sched.channel_width := DDR4.channel_width
|}.

Section Ddr4Ctrl.
Context (org : OrgEntry) (s : SpeedEntry) (i : Z).
#[local] Abbreviation spec := (spec_of org s).
#[local] Abbreviation std := (ddr4_std org s).
#[local] Abbreviation Ctrl := (Ctrl Command State).
Implicit Types (c : Ctrl) (n ch : Node).

(** ** Addresses *)
Definition cnt (l : nat) : nat := Z.to_nat (Dram.count spec l).

(** The coordinates of a row of the channel, and of a rank *)
Record coords (vec : list Z) (r g b : nat) (row : Z) : Prop := {
  co_vec : exists col, vec = [i; Z.of_nat r; Z.of_nat g; Z.of_nat b; row; col];
  co_r : (r < cnt Rank)%nat;
  co_g : (g < cnt BankGroup)%nat;
  co_b : (b < cnt Bank)%nat
}.
Definition rank_vec (r : nat) : list Z := [i; Z.of_nat r; -1; -1; -1; -1].

Lemma build_child fuel lvl j k : (Datatypes.S lvl <> row_level spec) -> (k < cnt (Datatypes.S lvl))%nat ->
  children (build spec (Datatypes.S fuel) lvl j) !! k = Some (build spec fuel (Datatypes.S lvl) (Z.of_nat k)).
Proof.
  intros Hl Hk. cbn [build]. rewrite (proj2 (Nat.eqb_neq _ _) Hl). cbn [children set_children].
  rewrite list_lookup_fmap, lookup_seq_lt by done. done.
Qed.

Lemma channel_rank r : (r < cnt Rank)%nat -> is_Some (node_at (channel spec i) [r]).
Proof. intros Hr. rewrite channel_build. cbn [node_at]. by rewrite (build_child 3 0) by done. Qed.
Lemma channel_bank r g b : (r < cnt Rank)%nat -> (g < cnt BankGroup)%nat -> (b < cnt Bank)%nat ->
  is_Some (node_at (channel spec i) [r; g; b]).
Proof.
  intros Hr Hg Hb. rewrite channel_build. cbn [node_at]. rewrite (build_child 3 0), (build_child 2 1), (build_child 1 2) by done.
  done.
Qed.

(** Nodes of the same tree *)
Definition shape n n' : Prop :=
  forall q, both (fun m m' => level m' = level m /\ id m' = id m) (node_at n q) (node_at n' q).

Lemma shape_children n n' q x y : shape n n' -> node_at n q = Some x -> node_at n' q = Some y ->
  length (children y) = length (children x).
Proof.
  intros Hs Hx Hy. assert (Hk : forall k, is_Some (children x !! k) <-> is_Some (children y !! k)).
  { intros k. specialize (Hs (q ++ [k])). rewrite !node_at_snoc, Hx, Hy in Hs.
    by destruct (children x !! k), (children y !! k). }
  apply Nat.le_antisymm; apply Nat.nlt_ge; intros Hlt; apply lookup_lt_is_Some_2, Hk, lookup_lt_is_Some_1 in Hlt; lia.
Qed.
Lemma in_range_shape addr n n' : shape n n' -> in_range addr n -> in_range addr n'.
Proof.
  intros Hs Hr path m' Hm' Hne. pose proof (Hs path) as Hp. rewrite Hm' in Hp.
  destruct (node_at n path) as [x|] eqn:Ex; [|done]. destruct Hp as [El _].
  pose proof (shape_children _ _ _ _ _ Hs Ex Hm') as Hlen. rewrite Hlen. unfold child_id. rewrite El.
  apply (Hr path x Ex). intros E. rewrite E in Hlen. by destruct (children m').
Qed.

Lemma channel_range vec : (forall l, (0 < l < 4)%nat -> nth l vec (-1) < Dram.count spec l) -> in_range vec (channel spec i).
Proof. apply (channel_in_range spec i []). apply issued_nil. Qed.
Lemma coords_range vec r g b row : coords vec r g b row -> in_range vec (channel spec i).
Proof.
  intros [[col ->] Hr Hg Hb]. apply channel_range. unfold cnt in *. intros l Hl.
  destruct l as [|[|[|[|]]]]; try lia; cbn [nth]; unfold Rank, BankGroup, Bank in *; lia.
Qed.
Lemma rank_range r : (r < cnt Rank)%nat -> in_range (rank_vec r) (channel spec i).
Proof.
  intros Hr path x Hx Hne. pose proof Hx as Hb. rewrite channel_build in Hb. apply build_at in Hb as (j & Hb & Hj).
  assert (El : level x = length path) by (rewrite Hb; apply build_leaf).
  assert (Hlen : (0 < length (children x))%nat) by (destruct (children x); [done|cbn; lia]).
  unfold child_id, rank_vec. rewrite El. destruct path as [|k path]; [|cbn [length]; destruct (length path) as [|[|[|[|[|]]]]]; cbn; lia].
  injection Hx as <-. rewrite channel_build. cbn [nth length].
  pose proof (build_child 3 0 i r ltac:(done) Hr) as Hc. apply lookup_lt_Some in Hc. exact (proj1 (Nat2Z.inj_lt _ _) Hc).
Qed.

(** ** The channel *)
Record chan_ok ch : Prop := {
  ck_inv : exists tr, tree_inv spec tr ch;
  ck_ddr4 : ddr4_ok ch;
  ck_shape : shape (channel spec i) ch;
  ck_up r rk : node_at ch [r] = Some rk -> state rk = PowerUp
}.

Lemma shape_refl n : shape n n.
Proof. intros q. apply both_refl. done. Qed.
Lemma chan_new : chan_ok (channel spec i).
Proof.
  split; [exists []; rewrite channel_build; apply build_inv|apply channel_ddr4_ok|apply shape_refl|].
  intros r rk. rewrite channel_build. intros (j & -> & _)%build_at. done.
Qed.
Lemma chan_id ch : chan_ok ch -> id ch = i /\ level ch = 0%nat.
Proof. intros H. destruct (ck_shape _ H []) as [-> ->]. done. Qed.
Lemma chan_some ch q : chan_ok ch -> is_Some (node_at ch q) <-> is_Some (node_at (channel spec i) q).
Proof.
  intros H. pose proof (ck_shape _ H q). destruct (node_at (channel spec i) q), (node_at ch q); try done;
    split; intros [? ?]; done || eauto.
Qed.

Lemma coords_located ch vec r g b row : chan_ok ch -> coords vec r g b row ->
  exists rk bk, located vec ch r g b row rk bk.
Proof.
  intros H [[col ->] Hr Hg Hb].
  destruct (proj2 (chan_some ch [r] H) (channel_rank r Hr)) as [rk Hrk].
  destruct (proj2 (chan_some ch [r; g; b] H) (channel_bank r g b Hr Hg Hb)) as [bk Hbk].
  by exists rk, bk.
Qed.

Lemma check_total ch cmd vec clk : chan_ok ch -> in_range vec (channel spec i) -> 0 <= clk ->
  exists v, check spec cmd vec clk ch = Ok v.
Proof.
  intros H Hr Hclk. destruct (check_visited spec cmd vec clk Hclk ch) as (v & E & _); [|by eapply in_range_shape; [apply H|]| |eauto].
  - apply (do_tree _ (ck_ddr4 _ H)).
  - rewrite (proj2 (chan_id _ H)). lia.
Qed.

(** A tree with the same nodes apart from statistics *)
Lemma chan_same ch ch' : chan_ok ch -> (forall q, both same_node (node_at ch q) (node_at ch' q)) -> chan_ok ch'.
Proof.
  intros [[tr Hi] [Ht Hl Hrk Hbk] Hs Hu] Hq. pose proof (same_nodes_timing _ _ Hq) as Hst.
  pose proof (tree_inv_same spec tr _ _ Hst Hi) as Hi'.
  assert (Hsh : shape ch ch').
  { intros q. eapply both_impl; [|apply Hq]. intros x y ((_ & _ & ? & ?) & _). done. }
  assert (Hback : forall q y, node_at ch' q = Some y -> exists x, node_at ch q = Some x /\ same_state x y).
  { intros q y Hy. specialize (Hq q). rewrite Hy in Hq. destruct (node_at ch q) as [x|]; [|done]. exists x. by destruct Hq. }
  split; [by exists tr|split|..].
  - apply Hi'.
  - by destruct (Hq []) as ((_ & _ & -> & _) & _).
  - intros r y (x & Hx & Hxy)%Hback. eapply rank_ok_state; eauto.
  - intros r g b y Hy. destruct (Hback _ _ Hy) as (x & Hx & Hxy). destruct (Hbk r g b x Hx) as [Hb Hc].
    split; [by eapply bank_ok_state|]. pose proof (shape_children _ _ _ _ _ Hsh Hx Hy) as Hlen. rewrite Hc in Hlen.
    by destruct (children y).
  - intros q. specialize (Hs q). specialize (Hsh q).
    destruct (node_at (channel spec i) q), (node_at ch q), (node_at ch' q); try done.
    destruct Hs, Hsh. split; congruence.
  - intros r y (x & Hx & (-> & _))%Hback. by apply (Hu r).
Qed.

(** ** Commands *)

(** What a command addressed to [path] does to the bank at [r; g; b] *)
Definition bank_effect (cmd : Command) (row : Z) (path : list nat) (r g b : nat) (x y : Node) : Prop :=
  if decide (path `prefix_of` [r; g; b]) then
    match cmd with
    | ACT => same_state (open_row x row) y
    | PRE | PREA => same_state (close_bank x) y
    | _ => same_state x y
    end
  else same_state x y.

Definition ctrl_cmd (cmd : Command) : Prop := In cmd [ACT; PRE; PREA; RD; WR; REF].

Lemma act_serv cmd x q j : both same_serv (node_at x q) (node_at (act cmd x j) q).
Proof.
  assert (Hself : forall y, stats y = stats x -> children y = children x -> both same_serv (node_at x q) (node_at y q)).
  { intros y Hy Hc. destruct q as [|k q]; cbn; [unfold same_serv; by rewrite Hy|]. rewrite Hc. apply both_refl. done. }
  destruct cmd; try (by apply Hself). cbn [act]. unfold close_all.
  destruct q as [|k q]; cbn; [done|]. rewrite list_lookup_fmap. destruct (children x !! k) as [bg|]; cbn; [|done].
  destruct q as [|l q]; cbn; [done|]. rewrite list_lookup_fmap. destruct (children bg !! l) as [bk|]; cbn; [|done].
  destruct q as [|? q]; cbn; [done|]. apply both_refl. done.
Qed.

(** Trees built alike have the same levels and ids. *)
Lemma tree_shape n n' : tree_ok n -> tree_ok n' -> level n' = level n -> id n' = id n ->
  (forall q, is_Some (node_at n' q) <-> is_Some (node_at n q)) -> shape n n'.
Proof.
  intros Ht Ht' El Ei Hs q. induction q as [|k q IH] using rev_ind; [done|].
  specialize (Hs (q ++ [k])). rewrite !node_at_snoc in *. destruct (node_at n q) as [x|] eqn:Ex, (node_at n' q) as [y|] eqn:Ey; try done.
  destruct (children x !! k) as [x'|] eqn:Ex', (children y !! k) as [y'|] eqn:Ey'; cbn; try done.
  - destruct (Ht q x k x' Ex Ex') as [-> ->]. destruct (Ht' q y k y' Ey Ey') as [-> ->]. by destruct IH as [-> _].
  - by destruct (proj2 Hs ltac:(eauto)).
  - by destruct (proj1 Hs ltac:(eauto)).
Qed.

(** The nodes after the state change of a command *)
Lemma changed_bank_effect cmd vec clk ch path x row r g b : ddr4_ok ch -> ctrl_cmd cmd -> acts_at cmd vec path ->
  node_at ch path = Some x -> nth 4 vec (-1) = row ->
  both (bank_effect cmd row path r g b) (node_at ch [r; g; b])
    (node_at (alter_at path (fun m => act cmd m (child_id vec m)) (set_cur_clk clk ch)) [r; g; b]).
Proof.
  intros Hd Hcmd [Hlen Ha] Hx Hrow. unfold bank_effect. destruct (decide (path `prefix_of` [r; g; b])) as [Hp|Hp].
  2:{ pose proof (node_at_alter_other path (fun m => act cmd m (child_id vec m)) (set_cur_clk clk ch) _ Hp) as Ho.
      by rewrite node_at_cur_clk in Ho. }
  assert (Hlv : cmd_level cmd = Bank \/ cmd_level cmd = Rank) by (destruct cmd; auto).
  destruct Hp as [q Hq]. destruct path as [|j [|k [|l [|]]]]; try (by destruct cmd); cbn in Hq.
  - injection Hq as <- _. cbn [alter_at node_at children set_children set_cur_clk] in *. rewrite list_lookup_alter_eq.
    destruct (children ch !! r) as [rk|] eqn:Er; [|done]. injection Hx as <-. cbn [fmap option_fmap option_map].
    assert (Hc : cmd = PREA \/ cmd = REF).
    { unfold ctrl_cmd in Hcmd. cbn in Hcmd. by destruct cmd; try (by left); try (by right); try done; intuition congruence. }
    destruct Hc as [-> | ->]; [|cbn [act]; apply both_refl; intros ? _; apply same_state_refl].
    cbn [act]. unfold close_all. cbn [children set_children]. rewrite list_lookup_fmap.
    destruct (children rk !! g) as [bg|]; cbn [fmap option_fmap option_map]; [|done]. cbn [children set_children].
    rewrite list_lookup_fmap. by destruct (children bg !! b).
  - injection Hq as <- <- <- _. rewrite (node_at_alter_eq [r; g; b] _ _ x) by done. rewrite Hx. cbn [both].
    assert (L3 : level x = 3%nat).
    { cbn in Hx. destruct (children ch !! r) as [rk|] eqn:E1; [|done]. destruct (children rk !! g) as [bg|] eqn:E2; [|done].
      destruct (children bg !! b) as [bk|] eqn:E3; [|done]. injection Hx as ->. pose proof (do_tree _ Hd) as Ht.
      destruct (Ht [] ch r rk eq_refl E1) as [F1 _]. rewrite (do_level _ Hd) in F1.
      destruct (Ht [r] rk g bg ltac:(cbn; by rewrite E1) E2) as [F2 _].
      destruct (Ht [r; g] bg b x ltac:(cbn; by rewrite E1, E2) E3) as [-> _]. congruence. }
    unfold child_id. rewrite L3, Hrow. unfold ctrl_cmd in Hcmd. cbn in Hcmd.
    destruct cmd; cbn in *; try done; intuition congruence.
Qed.

Lemma changed_rank_up cmd vec clk ch path x r y : chan_ok ch -> ctrl_cmd cmd -> acts_at cmd vec path ->
  node_at ch path = Some x ->
  node_at (alter_at path (fun m => act cmd m (child_id vec m)) (set_cur_clk clk ch)) [r] = Some y -> state y = PowerUp.
Proof.
  intros H Hcmd [Hlen _] Hx Hy. destruct (decide (path = [r])) as [->|Hne].
  - rewrite (node_at_alter_eq _ _ _ x) in Hy by done. injection Hy as <-. pose proof (ck_up _ H r x Hx) as Hup.
    unfold ctrl_cmd in Hcmd. cbn in Hcmd. destruct cmd; cbn in *; try done; intuition congruence.
  - pose proof (node_at_alter_other path (fun m => act cmd m (child_id vec m)) (set_cur_clk clk ch) [r]) as Ho.
    assert (Hp : ~ path `prefix_of` [r]).
    { intros [q Hq]. destruct path as [|j [|k path]]; cbn in *; [by destruct cmd| |done]. injection Hq as <- _. done. }
    specialize (Ho Hp). rewrite Hy, node_at_cur_clk in Ho. destruct (node_at ch [r]) as [z|] eqn:Ez; [|done].
    destruct Ho as (-> & _). by apply (ck_up _ H r).
Qed.

(** A command of the controller: the channel stays well formed, the banks
    change as they should and the counts of requests do not change. *)
Lemma issue_ok cmd vec clk ch path x row : chan_ok ch -> ctrl_cmd cmd -> acts_at cmd vec path ->
  node_at ch path = Some x -> nth 4 vec (-1) = row -> 0 <= clk -> fits cmd x ->
  exists ch', update spec cmd vec clk ch = Ok ch' /\ chan_ok ch' /\
    (forall r g b, both (bank_effect cmd row path r g b) (node_at ch [r; g; b]) (node_at ch' [r; g; b])) /\
    (forall q, both same_serv (node_at ch q) (node_at ch' q)).
Proof.
  intros H Hcmd Ha Hx Hrow Hclk Hf. destruct H as [[tr Hi] Hd Hs Hu] eqn:EH. clear EH.
  destruct (update_total org s cmd vec clk tr ch path x Hi Hd Ha Hx Hclk) as (ch' & E & Hi' & El & Ei & Hsh & Hq).
  pose proof (ddr4_ok_update org s cmd vec clk tr ch path x ch' Hi Hd Ha Hx Hclk Hf E) as Hd'.
  exists ch'. split; [done|]. split; [split; [by eexists|done|..]|split].
  - intros q. pose proof (tree_shape ch ch' (do_tree _ Hd) (do_tree _ Hd') El Ei Hsh q) as Hsq. specialize (Hs q).
    destruct (node_at (channel spec i) q), (node_at ch q), (node_at ch' q); try done. destruct Hs, Hsq. split; congruence.
  - intros r y Hy. specialize (Hq [r]). rewrite Hy in Hq. destruct (node_at (alter_at _ _ _) [r]) as [z|] eqn:Ez; [|done].
    destruct Hq as (-> & _). eapply changed_rank_up; eauto.
  - intros r g b. specialize (Hq [r; g; b]).
    pose proof (changed_bank_effect cmd vec clk ch path x row r g b Hd Hcmd Ha Hx Hrow) as Hb.
    destruct (node_at ch [r; g; b]) as [u|], (node_at (alter_at _ _ _) [r; g; b]) as [v|], (node_at ch' [r; g; b]) as [w|]; try done.
    cbn in *. unfold bank_effect in *. destruct (decide _); [destruct cmd|]; by eapply same_state_trans.
  - destruct (update_ddr4 org s cmd vec clk ch path x Hd Ha Hx Hclk) as (n1 & E1 & En1).
    unfold update in E. rewrite E1 in E. cbn [bind] in E. intros q.
    pose proof (update_timing_untouched spec same_serv cmd vec clk q _ _ E) as Hb.
    pose proof (alter_serv path (fun m => act cmd m (child_id vec m)) ltac:(intros; apply act_serv) (set_cur_clk clk ch) q) as Hc.
    rewrite <- En1 in Hc. replace (node_at (set_cur_clk clk ch) q) with (match q with [] => Some (set_cur_clk clk ch) | _ => node_at ch q end) in Hc by (by destruct q).
    destruct q as [|k q]; [exact (un_trans _ _ _ Hc Hb)|].
    destruct (node_at ch (k :: q)), (node_at n1 (k :: q)), (node_at ch' (k :: q)); try done. exact (un_trans _ _ _ Hc Hb).
Qed.

(** ** The row table mirrors the open banks *)
Definition key_of_bank (r g b : nat) : list Z := [i; Z.of_nat r; Z.of_nat g; Z.of_nat b].
Record mirror (t : RowTable) ch : Prop := {
  mi_entry key e : t !! key = Some e -> exists r g b x, key = key_of_bank r g b /\
    node_at ch [r; g; b] = Some x /\ state x = Opened /\ row_state x = {[en_row e := Opened]};
  mi_open r g b x : node_at ch [r; g; b] = Some x -> state x = Opened -> is_Some (t !! key_of_bank r g b)
}.

Lemma key_inj r g b r' g' b' : key_of_bank r g b = key_of_bank r' g' b' -> r = r' /\ g = g' /\ b = b'.
Proof. unfold key_of_bank. intros [= H1 H2 H3]. lia. Qed.

(** The effect on the banks, read backwards and forwards *)
Section Effect.
Context (cmd : Command) (row : Z) (path : list nat) (ch ch' : Node).
Hypothesis eff : forall r g b, both (bank_effect cmd row path r g b) (node_at ch [r; g; b]) (node_at ch' [r; g; b]).

Lemma eff_back r g b y : node_at ch' [r; g; b] = Some y ->
  exists x, node_at ch [r; g; b] = Some x /\ bank_effect cmd row path r g b x y.
Proof. intros Hy. pose proof (eff r g b) as E. rewrite Hy in E. destruct (node_at ch [r; g; b]); [eauto|done]. Qed.
Lemma eff_forth r g b x : node_at ch [r; g; b] = Some x ->
  exists y, node_at ch' [r; g; b] = Some y /\ bank_effect cmd row path r g b x y.
Proof. intros Hx. pose proof (eff r g b) as E. rewrite Hx in E. destruct (node_at ch' [r; g; b]); [eauto|done]. Qed.
End Effect.

Lemma effect_off cmd row path r g b x y : ~ path `prefix_of` [r; g; b] -> bank_effect cmd row path r g b x y -> same_state x y.
Proof. unfold bank_effect. intros Hp. by rewrite decide_False. Qed.
Lemma effect_on cmd row path r g b x y : path `prefix_of` [r; g; b] -> bank_effect cmd row path r g b x y ->
  match cmd with ACT => same_state (open_row x row) y | PRE | PREA => same_state (close_bank x) y | _ => same_state x y end.
Proof. unfold bank_effect. intros Hp. by rewrite decide_True. Qed.
Lemma prefix_bank (r g b r' g' b' : nat) : [r; g; b] `prefix_of` [r'; g'; b'] <-> r = r' /\ g = g' /\ b = b'.
Proof.
  split; [|by intros (-> & -> & ->)]. intros [q Hq]. destruct q; cbn in Hq; by simplify_eq.
Qed.
Lemma prefix_rank (r r' g' b' : nat) : [r] `prefix_of` [r'; g'; b'] <-> r = r'.
Proof. split; [by intros [q [= <- _]]|intros ->; by exists [g'; b']]. Qed.

Section Tables.
Context (t : RowTable) (ch ch' : Node) (vec : list Z) (clk row : Z).
Hypothesis Hm : mirror t ch.

(** Commands that open and close nothing *)
Lemma mirror_same cmd (path : list nat) : ctrl_cmd cmd -> is_opening cmd = false -> is_closing cmd = false ->
  (forall r g b, both (bank_effect cmd row path r g b) (node_at ch [r; g; b]) (node_at ch' [r; g; b])) ->
  mirror t ch'.
Proof.
  intros Hc Ho Hcl Heff. assert (Hss : forall r g b x y, bank_effect cmd row path r g b x y -> same_state x y).
  { intros r g b x y. unfold bank_effect. unfold ctrl_cmd in Hc. cbn in Hc. destruct (decide _); [|done].
    destruct cmd; try done. }
  split.
  - intros key e (r & g & b & x & -> & Hx & Hs & Hr)%(mi_entry _ _ Hm).
    destruct (eff_forth _ _ _ _ _ Heff _ _ _ _ Hx) as (y & Hy & (E1 & E2 & _)%Hss).
    exists r, g, b, y. rewrite E1, E2. done.
  - intros r g b y Hy Hs. destruct (eff_back _ _ _ _ _ Heff _ _ _ _ Hy) as (x & Hx & (E1 & E2 & _)%Hss).
    rewrite E1 in Hs. by apply (mi_open _ _ Hm r g b x).
Qed.

Lemma table_activate r g b x : coords vec r g b row -> node_at ch [r; g; b] = Some x -> state x = Closed -> row_state x = ∅ ->
  (forall r' g' b', both (bank_effect ACT row [r; g; b] r' g' b') (node_at ch [r'; g'; b']) (node_at ch' [r'; g'; b'])) ->
  exists t', table_update std ACT vec clk t = Ok t' /\ mirror t' ch'.
Proof.
  intros [[col ->] _ _ _] Hx Hs Hrs Heff. set (v := [i; Z.of_nat r; Z.of_nat g; Z.of_nat b; row; col]).
  change (table_update std ACT v clk t) with (Ok (open_entry std v clk t)). unfold open_entry.
  change (rowgroup std v) with (key_of_bank r g b). change (row_in std v) with row.
  destruct (t !! key_of_bank r g b) as [e|] eqn:Ee.
  { apply (mi_entry _ _ Hm) in Ee as (r' & g' & b' & z & (-> & -> & ->)%key_inj & Hz & Ho & _). congruence. }
  eexists. split; [reflexivity|]. split.
  - intros key e. rewrite lookup_insert. case_decide as Hk.
    + intros [= <-]. subst key. destruct (eff_forth _ _ _ _ _ Heff _ _ _ _ Hx) as (y & Hy & Hxy).
      apply effect_on in Hxy; [|done]. destruct Hxy as (E1 & E2 & _). exists r, g, b, y. split; [done|]. split; [done|].
      split; [done|]. rewrite E2. cbn. rewrite Hrs. done.
    + intros (r' & g' & b' & z & -> & Hz & Ho & Hr)%(mi_entry _ _ Hm).
      destruct (eff_forth _ _ _ _ _ Heff _ _ _ _ Hz) as (y & Hy & Hzy).
      apply effect_off in Hzy as (E1 & E2 & _); [|intros (-> & -> & ->)%prefix_bank; done].
      exists r', g', b', y. rewrite E1, E2. done.
  - intros r' g' b' y Hy Ho. destruct (decide (key_of_bank r g b = key_of_bank r' g' b')) as [<-|Hne];
      [rewrite lookup_insert_eq; eauto|]. rewrite lookup_insert_ne by done.
    destruct (eff_back _ _ _ _ _ Heff _ _ _ _ Hy) as (z & Hz & Hzy).
    apply effect_off in Hzy as (E1 & _); [|intros (-> & -> & ->)%prefix_bank; done].
    apply (mi_open _ _ Hm r' g' b' z); congruence.
Qed.

Lemma table_access cmd r g b x : cmd = RD \/ cmd = WR -> coords vec r g b row -> node_at ch [r; g; b] = Some x ->
  state x = Opened -> is_Some (row_state x !! row) ->
  (forall r' g' b', both (bank_effect cmd row [r; g; b] r' g' b') (node_at ch [r'; g'; b']) (node_at ch' [r'; g'; b'])) ->
  exists t', table_update std cmd vec clk t = Ok t' /\ mirror t' ch'.
Proof.
  intros Hc [[col ->] _ _ _] Hx Hs [v Hv] Heff.
  assert (Hm' : mirror t ch') by (by apply (mirror_same cmd [r; g; b]); [destruct Hc; subst; cbn; unfold ctrl_cmd; cbn; auto 10|destruct Hc; subst..|]).
  destruct (mi_open _ _ Hm r g b x Hx Hs) as [e He].
  pose proof (mi_entry _ _ Hm _ _ He) as (r' & g' & b' & z & (<- & <- & <-)%key_inj & Hz & _ & Hr).
  rewrite Hx in Hz. injection Hz as <-. rewrite Hr in Hv. apply lookup_singleton_Some in Hv as [Hrow _].
  assert (E : table_update std cmd [i; Z.of_nat r; Z.of_nat g; Z.of_nat b; row; col] clk t =
    Ok (<[key_of_bank r g b := mk_Entry (en_row e) (en_hits e + 1) clk]> t)).
  { set (v' := [i; Z.of_nat r; Z.of_nat g; Z.of_nat b; row; col]).
    assert (E0 : table_update std cmd v' clk t = let! t := access_entry std v' clk t in Ok t) by (by destruct Hc; subst).
    rewrite E0. unfold access_entry. change (rowgroup std v') with (key_of_bank r g b). change (row_in std v') with row.
    by rewrite He, Hrow, Z.eqb_refl. }
  eexists. split; [exact E|]. split.
  - intros key e'. rewrite lookup_insert. case_decide as Hk; [|apply (mi_entry _ _ Hm')].
    intros [= <-]. subst key. destruct (mi_entry _ _ Hm' _ _ He) as (r' & g' & b' & y & Hk & ?). exists r', g', b', y. done.
  - intros r' g' b' y Hy Ho. rewrite lookup_insert. case_decide; [eauto|]. by apply (mi_open _ _ Hm' r' g' b' y).
Qed.

(** Closing: the keys below the node lose their entries. *)
Lemma table_close cmd (path : list nat) r g b x : cmd = PRE \/ cmd = PREA ->
  (forall r' g' b', below std cmd vec (key_of_bank r' g' b') <-> path `prefix_of` [r'; g'; b']) ->
  path `prefix_of` [r; g; b] -> node_at ch [r; g; b] = Some x -> state x = Opened ->
  (forall r' g' b', both (bank_effect cmd row path r' g' b') (node_at ch [r'; g'; b']) (node_at ch' [r'; g'; b'])) ->
  exists t', table_update std cmd vec clk t = Ok t' /\ mirror t' ch'.
Proof.
  intros Hc Hbelow Hp Hx Hs Heff.
  assert (E : table_update std cmd vec clk t = close_entries std cmd vec t) by (by destruct Hc; subst).
  rewrite E. unfold close_entries. destruct (mi_open _ _ Hm r g b x Hx Hs) as [e He].
  destruct (Z.ltb_spec 0 (Z.of_nat (base.size (filter (fun kv : list Z * Entry => below std cmd vec (fst kv)) t)))) as [_|Hle].
  2:{ exfalso. assert (Hz : base.size (filter (fun kv : list Z * Entry => below std cmd vec (fst kv)) t) = 0%nat) by lia.
      apply map_size_empty_iff in Hz. apply (map_filter_empty_not_lookup _ _ (key_of_bank r g b) e) in Hz; [done|]. by apply Hbelow. }
  eexists. split; [reflexivity|]. split.
  - intros key e' [Hk Hnb]%map_lookup_filter_Some. apply (mi_entry _ _ Hm) in Hk as (r' & g' & b' & z & -> & Hz & Ho & Hr).
    cbn in Hnb. rewrite Hbelow in Hnb. destruct (eff_forth _ _ _ _ _ Heff _ _ _ _ Hz) as (y & Hy & Hzy).
    apply effect_off in Hzy as (E1 & E2 & _); [|done]. exists r', g', b', y. rewrite E1, E2. done.
  - intros r' g' b' y Hy Ho. destruct (eff_back _ _ _ _ _ Heff _ _ _ _ Hy) as (z & Hz & Hzy).
    destruct (decide (path `prefix_of` [r'; g'; b'])) as [Hp'|Hp'].
    + apply effect_on in Hzy; [|done]. exfalso. assert (same_state (close_bank z) y) as (E1 & _) by (by destruct Hc; subst).
      rewrite E1 in Ho. done.
    + apply effect_off in Hzy as (E1 & _); [|done]. destruct (mi_open _ _ Hm r' g' b' z Hz ltac:(congruence)) as [e' He'].
      exists e'. apply map_lookup_filter_Some. split; [done|]. cbn. by rewrite Hbelow.
Qed.
End Tables.
End Ddr4Ctrl.
