(* ===== verification/Ddr4Safe.v ===== *)
(** * A DDR4 controller fails no assertion

    The invariant of a run of the controller of a DDR4 channel and its
    preservation by every part of a tick. *)
From Stdlib Require Import ZArith Lia Bool String.
From stdpp Require Import base list gmap.
From S2P Require Import Prelude RamIf Dram DramTiming DramState DramServe Ddr4 Ddr4Run Sched Controller CtrlRun Ddr4Ctrl.
Import DDR4.

Section Ddr4Safe.
Context (org : OrgEntry) (s : SpeedEntry) (i : Z).
#[local] Abbreviation spec := (spec_of org s).
#[local] Abbreviation std := (ddr4_std org s).
#[local] Abbreviation Ctrl := (Ctrl Command State).
#[local] Abbreviation coords := (coords org s i).
#[local] Abbreviation chan_ok := (chan_ok org s i).
#[local] Abbreviation mirror := (mirror i).
#[local] Abbreviation cnt := (cnt org s).
#[local] Abbreviation rank_vec := (rank_vec i).
Implicit Types (c : Ctrl) (n ch : Node) (r : Request).

(** ** Well-formed requests *)

(** Reads and writes of the channel that arrived by [t], and refreshes *)
Definition rw_ok (t : Z) r : Prop :=
  is_rw r = true /\ (exists a g b row, coords (rq_addr_vec r) a g b row) /\ rq_arrive r <= t.
Definition ref_ok r : Prop :=
  rq_type r = REFRESH /\ exists k, rq_addr_vec r = rank_vec k /\ (k < cnt Rank)%nat.

Lemma rw_ok_weaken t t' r : t <= t' -> rw_ok t r -> rw_ok t' r.
Proof. intros Ht (H1 & H2 & H3). split_and!; [done|done|lia]. Qed.
Lemma rw_access r : is_rw r = true -> DDR4.translate (rq_type r) = RD \/ DDR4.translate (rq_type r) = WR.
Proof. unfold is_rw, ReqType_eqb. destruct (rq_type r); cbn; auto; intros [=]. Qed.

(** The first command of a read or a write *)
Lemma rw_first ch t r : chan_ok ch -> rw_ok t r -> exists a g b row rk bk,
  coords (rq_addr_vec r) a g b row /\ located (rq_addr_vec r) ch a g b row rk bk /\ state rk = PowerUp /\
  get_first_cmd std ch r = Ok (next_cmd (DDR4.translate (rq_type r)) row rk bk).
Proof.
  intros H (Hrw & (a & g & b & row & Hco) & _). destruct (coords_located org s i ch _ a g b row H Hco) as (rk & bk & Hl).
  exists a, g, b, row, rk, bk. split_and!; [done|done|by apply (ck_up _ _ _ _ H a), (lo_rk _ _ _ _ _ _ _ _ Hl)|].
  unfold get_first_cmd. apply decode_access with (r := a) (g := g) (b := b); [by apply rw_access|apply H|done].
Qed.

Lemma rw_answers ch clk t r : chan_ok ch -> 0 <= clk -> rw_ok t r ->
  is_ok (is_ready std ch clk r) = true /\ is_ok (is_row_hit std ch r) = true /\ is_ok (is_row_open std ch r) = true.
Proof.
  intros H Hclk Hr. destruct (rw_first ch t r H Hr) as (a & g & b & row & rk & bk & Hco & Hl & Hup & E).
  destruct Hr as (Hrw & _ & _). pose proof (rw_access r Hrw) as Hc. pose proof (ck_ddr4 _ _ _ _ H) as Hd.
  destruct (do_bank _ Hd a g b bk (lo_bk _ _ _ _ _ _ _ _ Hl)) as [Hb _]. split_and!.
  - unfold is_ready. rewrite E. cbn [bind]. unfold is_ready_cmd. cbn [sp Sched.translate ddr4_std].
    destruct (check_total org s i ch (next_cmd (DDR4.translate (rq_type r)) row rk bk) (rq_addr_vec r) clk H) as (v & ->); try done.
    by eapply coords_range.
  - unfold is_row_hit. cbn [sp Sched.translate ddr4_std].
    rewrite (row_check_eq rowhit (check_row_hit spec (DDR4.translate (rq_type r)) (rq_addr_vec r)) (DDR4.translate (rq_type r))
      (rq_addr_vec r) ch a g b row rk bk bank_hit); [|by intros []|by intros [|[|[|]]]; destruct Hc as [-> | ->]; try lia|by destruct Hc as [-> | ->]|done..].
    unfold bank_hit. by destruct Hb as [[-> _]|[-> _]]; [|destruct (row_state bk !! row)].
  - unfold is_row_open. cbn [sp Sched.translate ddr4_std].
    rewrite (row_check_eq rowopen (check_row_open spec (DDR4.translate (rq_type r)) (rq_addr_vec r)) (DDR4.translate (rq_type r))
      (rq_addr_vec r) ch a g b row rk bk bank_open); [|by intros []|by intros [|[|[|]]]; destruct Hc as [-> | ->]; try lia|by destruct Hc as [-> | ->]|done..].
    unfold bank_open. by destruct Hb as [[-> _]|[-> _]].
Qed.

(** Refreshes *)
Lemma ref_walk ch k rk {X} (F : Node -> res X) e : chan_ok ch -> node_at ch [k] = Some rk ->
  (if (child_id (rank_vec k) ch <? 0) || no_children ch then e
   else at_child F (children ch) (Z.to_nat (child_id (rank_vec k) ch))) = F rk /\ level rk = 1%nat.
Proof.
  intros H Hk. destruct (chan_id _ _ _ _ H) as [_ Hlv]. cbn in Hk. destruct (children ch !! k) as [x|] eqn:Ex; [|done].
  injection Hk as ->. split; [by apply (walk_down F e (rank_vec k) ch 0 k rk)|].
  destruct (do_tree _ (ck_ddr4 _ _ _ _ H) [] ch k rk eq_refl Ex) as [-> _]. by rewrite Hlv.
Qed.

Lemma ref_first ch r : chan_ok ch -> ref_ok r -> exists k rk, rq_addr_vec r = rank_vec k /\ (k < cnt Rank)%nat /\
  node_at ch [k] = Some rk /\ get_first_cmd std ch r = Ok (if banks_closed rk then REF else PREA).
Proof.
  intros H (Ht & k & Hv & Hk). destruct (proj2 (chan_some org s i ch [k] H) (channel_rank org s i k Hk)) as [rk Hrk].
  exists k, rk. split_and!; try done. unfold get_first_cmd. rewrite Ht, Hv. cbn [sp Sched.translate ddr4_std DDR4.translate].
  rewrite decode_eq, (proj2 (chan_id _ _ _ _ H)). cbn [prereq bind].
  destruct (ref_walk ch k rk (decode spec REF (rank_vec k)) (Ok REF) H Hrk) as [-> Hl].
  rewrite decode_eq, Hl. cbn [prereq]. unfold rank_REF. by destruct (banks_closed rk).
Qed.

(** The questions about rows, at a level without an entry in the tables *)
Lemma hit_eq cmd addr n : rowhit (level n) cmd = None -> check_row_hit spec cmd addr n =
  if (child_id addr n <? 0) || no_children n then Ok false
  else at_child (check_row_hit spec cmd addr) (children n) (Z.to_nat (child_id addr n)).
Proof. intros E. destruct n. cbn in *. by rewrite E. Qed.
Lemma open_eq cmd addr n : rowopen (level n) cmd = None -> check_row_open spec cmd addr n =
  if (child_id addr n <? 0) || no_children n then Ok false
  else at_child (check_row_open spec cmd addr) (children n) (Z.to_nat (child_id addr n)).
Proof. intros E. destruct n. cbn in *. by rewrite E. Qed.

Lemma ref_answers ch clk r : chan_ok ch -> 0 <= clk -> ref_ok r ->
  is_ok (is_ready std ch clk r) = true /\ is_ok (is_row_hit std ch r) = true /\ is_ok (is_row_open std ch r) = true.
Proof.
  intros H Hclk Hr. destruct (ref_first ch r H Hr) as (k & rk & Hv & Hk & Hrk & E). destruct Hr as (Ht & _).
  split_and!.
  - unfold is_ready. rewrite E. cbn [bind]. unfold is_ready_cmd. cbn [sp Sched.translate ddr4_std]. rewrite Hv.
    destruct (check_total org s i ch (if banks_closed rk then REF else PREA) (rank_vec k) clk H) as (v & ->); try done.
    by apply rank_range.
  - unfold is_row_hit. rewrite Ht, Hv. cbn [sp Sched.translate ddr4_std DDR4.translate].
    pose proof (ref_walk ch k rk (check_row_hit spec REF (rank_vec k)) (Ok false) H Hrk) as [E1 Hl].
    rewrite hit_eq, E1, hit_eq by (by rewrite ?Hl, ?(proj2 (chan_id _ _ _ _ H))). unfold child_id. by rewrite Hl.
  - unfold is_row_open. rewrite Ht, Hv. cbn [sp Sched.translate ddr4_std DDR4.translate].
    pose proof (ref_walk ch k rk (check_row_open spec REF (rank_vec k)) (Ok false) H Hrk) as [E1 Hl].
    rewrite open_eq, E1, open_eq by (by rewrite ?Hl, ?(proj2 (chan_id _ _ _ _ H))). unfold child_id. by rewrite Hl.
Qed.

(** ** Counts of requests in service *)
Definition under (q : list nat) (vec : list Z) : bool :=
  bool_decide (take (length q) (tail vec) = map Z.of_nat q).

Lemma chan_depth ch q : chan_ok ch -> is_Some (node_at ch q) -> (length q <= 3)%nat.
Proof.
  intros H Hq. destruct q as [|a [|g [|b [|k q]]]]; cbn; try lia. exfalso.
  change (a :: g :: b :: k :: q) with ([a; g; b] ++ k :: q) in Hq. rewrite node_at_app in Hq.
  destruct (node_at ch [a; g; b]) as [x|] eqn:Ex; [|by destruct Hq].
  destruct (do_bank _ (ck_ddr4 _ _ _ _ H) a g b x Ex) as [_ Hc]. cbn in Hq. rewrite Hc in Hq. by destruct Hq.
Qed.
Lemma under_prefix vec a g b row q : coords vec a g b row -> (length q <= 3)%nat ->
  under q vec = true <-> q `prefix_of` [a; g; b].
Proof.
  intros [[col ->] _ _ _] Hl. unfold under. rewrite bool_decide_eq_true. cbn [tail].
  assert (Hn : forall x y : nat, Z.of_nat x = Z.of_nat y <-> y = x) by (intros; lia).
  destruct q as [|x [|y [|z [|]]]]; cbn [take length map] in *; try lia; split; intros E.
  - apply prefix_nil.
  - done.
  - injection E as E. apply Hn in E as ->. by exists [g; b].
  - destruct E as [q [= -> _]]. done.
  - injection E as E1 E2. apply Hn in E1 as ->. apply Hn in E2 as ->. by exists [b].
  - destruct E as [q [= -> -> _]]. done.
  - injection E as E1 E2 E3. apply Hn in E1 as ->. apply Hn in E2 as ->. apply Hn in E3 as ->. done.
  - destruct E as [q [= -> -> -> _]]. done.
Qed.

Definition counts_ok ch (N : list nat -> Z) : Prop :=
  forall q x, node_at ch q = Some x -> cur_serving_requests (stats x) = N q /\ serving_wf (stats x).

Lemma counts_same ch ch' N : (forall q, both same_serv (node_at ch q) (node_at ch' q)) -> counts_ok ch N -> counts_ok ch' N.
Proof.
  intros Hq Hc q y Hy. specialize (Hq q). rewrite Hy in Hq. destruct (node_at ch q) as [x|] eqn:Ex; [|done].
  destruct (Hc q x Ex) as [E Hw]. split; [by destruct Hq as [-> _]|by eapply same_serv_wf].
Qed.

(** A request enters or leaves service: the counts on its way change. *)
Lemma serve_ok_ddr4 ch vec a g b row delta clk N : chan_ok ch -> coords vec a g b row -> delta = 1 \/ delta = -1 ->
  0 <= clk -> counts_ok ch N -> (forall q, is_Some (node_at ch q) -> under q vec = true -> 0 <= N q + delta) ->
  exists ch', update_serving_requests spec vec delta clk ch = Ok ch' /\ chan_ok ch' /\
    (forall q, both same_node (node_at ch q) (node_at ch' q)) /\
    counts_ok ch' (fun q => N q + (if under q vec then delta else 0)).
Proof.
  intros H Hco Hdel Hclk HN Hge. destruct (coords_located org s i ch vec a g b row H Hco) as (rk & bk & Hl).
  destruct (chan_id _ _ _ _ H) as [Hid Hlv]. pose proof (lo_bk _ _ _ _ _ _ _ _ Hl) as Hbk.
  destruct (update_serving_ok spec vec delta clk [a; g; b] ch bk) as (ch' & E & Hq).
  - apply (do_tree _ (ck_ddr4 _ _ _ _ H)).
  - done.
  - by apply (do_bank _ (ck_ddr4 _ _ _ _ H) a g b).
  - rewrite Hid, Hlv. by destruct (co_vec _ _ _ _ _ _ _ _ Hco) as [col ->].
  - rewrite Hlv. cbn. unfold Bank. lia.
  - rewrite Hlv. destruct Hl as [A1 A2 A3 _ _ _]. intros [|[|[|]]] j Hj; cbn in Hj; simplify_eq; done.
  - intros q x Hp Hx. destruct (HN q x Hx) as [En Hw].
    assert (Hu : under q vec = true) by (apply (under_prefix vec a g b row); [done|eapply chan_depth; eauto|done]).
    specialize (Hge q ltac:(eauto) Hu). destruct (serve_here_ok delta clk (stats x) Hdel Hclk Hw ltac:(lia)) as (v & -> & _). eauto.
  - assert (Hsn : forall q, both same_node (node_at ch q) (node_at ch' q)).
    { intros q. eapply both_impl; [|apply Hq]. by intros x y [? _]. }
    exists ch'. split; [done|]. split; [by eapply chan_same|]. split; [done|].
    intros q y Hy. specialize (Hq q). rewrite Hy in Hq. destruct (node_at ch q) as [x|] eqn:Ex; [|done].
    destruct Hq as (_ & Hon & Hoff). destruct (HN q x Ex) as [En Hw].
    assert (Hup := under_prefix vec a g b row q Hco (chan_depth ch q H ltac:(eauto))).
    destruct (under q vec) eqn:Eu.
    + specialize (Hge q ltac:(eauto) Eu). specialize (Hon (proj1 Hup eq_refl)).
      destruct (serve_here_ok delta clk (stats x) Hdel Hclk Hw ltac:(lia)) as (v & Ev & Ec & Hwv).
      rewrite Hon in Ev. injection Ev as ->. split; [lia|done].
    + rewrite Hoff by (intros Hp; by apply Hup in Hp). split; [lia|done].
Qed.

(** The requests in service: those whose first command was issued, and the
    reads that wait for their data. *)
Definition serves (q : list nat) r : bool := negb (rq_first r) && under q (rq_addr_vec r).
Definition awaits (q : list nat) r : bool := (1 <? rq_depart r - rq_arrive r) && under q (rq_addr_vec r).
Definition in_service c (q : list nat) : Z :=
  countb (serves q) (readq c) + countb (serves q) (writeq c) + countb (serves q) (actq c) + countb (awaits q) (pending c).

(** ** The invariant; [d] is 1 within a tick, where all requests are older
    than the clock. *)
Record ctrl_ok (d : Z) c : Prop := {
  cc_chan : chan_ok (channel_of c);
  cc_mirror : mirror (rowtable c) (channel_of c);
  cc_serv : counts_ok (channel_of c) (in_service c);
  cc_queues : queues_ok c;
  cc_rw k : k <> OtherQ -> Forall (rw_ok (c_clk c - d)) (get_q k c);
  cc_pending : Forall (rw_ok (c_clk c - d)) (pending c);
  cc_ref : Forall ref_ok (otherq c);
  cc_clk : 0 <= c_clk c;
  cc_policy : policy c = POpened
}.

Lemma ctrl_weaken c : ctrl_ok 1 c -> ctrl_ok 0 c.
Proof.
  intros []. split; try done.
  - intros k Hk. eapply Forall_impl; [by apply cc_rw0|]. intros r. apply rw_ok_weaken. lia.
  - eapply Forall_impl; [done|]. intros r. apply rw_ok_weaken. lia.
Qed.

Lemma ctrl_new ty : ctrl_ok 0 (put_sched_type ty (Ctrl_new (channel spec i))).
Proof.
  split; cbn; try done.
  - apply chan_new.
  - split; [done|]. intros r g b x Hx Ho. rewrite channel_build in Hx. apply build_at in Hx as (j & -> & _). done.
  - intros q x Hx. rewrite channel_build in Hx. apply build_at in Hx as (j & -> & _).
    assert (Hb : stats (build spec (4 - length q) (length q) j) = serving_new).
    { destruct (4 - length q)%nat; cbn [build]; [done|]. by destruct (_ =? _)%nat. }
    change (row_level spec) with 4%nat. cbn [Nat.add] in *. rewrite Hb. split; [done|]. split; cbn; lia.
  - split; cbn; try constructor; lia.
  - intros []; constructor.
Qed.

(** ** Sending *)
Definition valid_send r : Prop := is_rw r = true /\ rq_first r = true /\ exists a g b row, coords (rq_addr_vec r) a g b row.

Lemma send_ok r c ok c' : valid_send r -> ctrl_ok 0 c -> enqueue r c = (ok, c') -> ctrl_ok 0 c'.
Proof.
  intros (Hrw & Hf & Hco) Hc E. pose proof (queues_enqueue _ _ _ _ E (cc_queues _ _ Hc)) as Hq.
  destruct Hc as [H1 H2 H3 _ H5 H6 H7 H8 H9].
  assert (Hr : rw_ok (c_clk c - 0) (set_arrive (c_clk c) r)) by (split_and!; [done|done|cbn; lia]).
  apply enqueue_cases in E as [(_ & -> & _)|(_ & _ & [(Ht & _ & ->)|(_ & ->)])]; [by split|..].
  - split; cbn; try done.
    + intros q x Hx. destruct (H3 q x Hx) as [E Hw]. split; [|done]. rewrite E. unfold in_service. cbn. rewrite countb_app. cbn.
      unfold awaits at 3. cbn. destruct (Z.ltb_spec 1 (c_clk c + 1 - c_clk c)); [lia|]. cbn. lia.
    + apply Forall_app. split; [done|]. apply Forall_singleton. exact Hr.
  - assert (Hk : get_queue (rq_type r) = ReadQ \/ get_queue (rq_type r) = WriteQ).
    { unfold is_rw, ReqType_eqb in Hrw. destruct (rq_type r); cbn; auto; done. }
    assert (Hs : forall q, serves q (set_arrive (c_clk c) r) = false) by (intros q; unfold serves; cbn; by rewrite Hf).
    pose proof (H5 ReadQ ltac:(done)) as HR. pose proof (H5 WriteQ ltac:(done)) as HW. pose proof (H5 ActQ ltac:(done)) as HA.
    destruct Hk as [Hk|Hk]; rewrite Hk in *; split; cbn; try done.
    all: try (intros q x Hx; destruct (H3 q x Hx) as [E Hw]; split; [|done]; rewrite E; unfold in_service; cbn;
      rewrite countb_app; cbn; rewrite Hs; lia).
    all: intros []; cbn in *; try done; intros _; apply Forall_app; split; [done|]; apply Forall_singleton; exact Hr.
Qed.

(** ** The parts of a tick *)

(** A computation that yields a good result, or fails the assertion on room
    for refreshes. *)
Definition fine {X} (m : res X) (P : X -> Prop) : Prop :=
  match m with Ok x => P x | Abort e => e = "res"%string end.
Lemma fine_bind {X Y} (m : res X) (k : X -> res Y) P Q : fine m P -> (forall x, P x -> fine (k x) Q) -> fine (bind m k) Q.
Proof. destruct m; cbn; auto. Qed.

Lemma counts_ext ch N N' : (forall q, N q = N' q) -> counts_ok ch N -> counts_ok ch N'.
Proof. intros E H q x Hx. rewrite <- E. by apply H. Qed.
Lemma mirror_node t ch ch' : (forall q, both same_node (node_at ch q) (node_at ch' q)) -> mirror t ch -> mirror t ch'.
Proof.
  intros Hq Hm. split.
  - intros key e (r & g & b & x & -> & Hx & Hs & Hr)%(mi_entry _ _ _ Hm). specialize (Hq [r; g; b]). rewrite Hx in Hq.
    destruct (node_at ch' [r; g; b]) as [y|] eqn:Ey; [|done]. destruct Hq as ((E1 & E2 & _) & _). exists r, g, b, y. by rewrite E1, E2.
  - intros r g b y Hy Ho. specialize (Hq [r; g; b]). rewrite Hy in Hq. destruct (node_at ch [r; g; b]) as [x|] eqn:Ex; [|done].
    destruct Hq as ((E1 & _) & _). apply (mi_open _ _ _ Hm r g b x); congruence.
Qed.

(** The clock advances. *)
Lemma start_ok c : ctrl_ok 0 c -> ctrl_ok 1 (tally_queues (put_c_clk (c_clk c + 1) c)).
Proof.
  intros [H1 H2 H3 H4 H5 H6 H7 H8 H9]. assert (E : c_clk c + 1 - 1 = c_clk c - 0) by lia.
  destruct H4. split; cbn; try done; rewrite ?E; try done; try lia.
Qed.

(** 1. A read completes. *)
Lemma completed_ok c : ctrl_ok 1 c -> exists c' l, serve_completed std c = Ok (c', l) /\ ctrl_ok 1 c'.
Proof.
  intros Hc. unfold serve_completed. destruct (pending c) as [|r l] eqn:Ep; [eauto|].
  destruct (rq_depart r <=? c_clk c); [|eauto]. destruct Hc as [H1 H2 H3 H4 H5 H6 H7 H8 H9]. rewrite Ep in H6.
  apply Forall_cons in H6 as [(Hrw & (a & g & b & row & Hco) & _) H6].
  assert (Hq' : queues_ok (put_pending l c)) by (destruct H4; split; cbn; try done; rewrite Ep in *; by eapply Forall_inv_tail).
  assert (Hn : forall q, in_service c q = in_service (put_pending l c) q + (if awaits q r then 1 else 0)).
  { intros q. unfold in_service. cbn. rewrite Ep. cbn. lia. }
  destruct (1 <? rq_depart r - rq_arrive r) eqn:Ew.
  - destruct (serve_ok_ddr4 (channel_of c) (rq_addr_vec r) a g b row (-1) (c_clk c) (in_service c))
      as (ch' & E & Hch & Hsn & Hcnt); try done; [by right|..].
    { intros q _ Hu. rewrite Hn. unfold awaits. rewrite Ew, Hu. unfold in_service. cbn.
      pose proof (countb_nonneg (serves q)) as P1. pose proof (countb_nonneg (awaits q)) as P2.
      pose proof (P1 (readq c)). pose proof (P1 (writeq c)). pose proof (P1 (actq c)). pose proof (P2 l). lia. }
    cbn [sp ddr4_std]. rewrite E. cbn [bind]. do 2 eexists. split; [reflexivity|]. destruct Hq'. split; cbn; try done.
    + by eapply mirror_node.
    + eapply counts_ext; [|exact Hcnt]. intros q. cbn. rewrite Hn. unfold awaits. rewrite Ew. cbn.
      change (in_service (put_pending l c) q) with (in_service (put_pending l (put_channel_of ch' (put_c_stats (set_read_latency_sum (read_latency_sum (c_stats c) + (rq_depart r - rq_arrive r)) (c_stats c)) c))) q).
      destruct (under q (rq_addr_vec r)); lia.
  - cbn [bind]. do 2 eexists. split; [reflexivity|]. destruct Hq'. split; cbn; try done.
    + eapply counts_ext; [|exact H3]. intros q. rewrite Hn. unfold awaits. rewrite Ew. cbn. lia.
Qed.

(** 2. Refreshes *)
Lemma channel_rank_inv k : is_Some (node_at (channel spec i) [k]) -> (k < cnt Rank)%nat.
Proof.
  rewrite channel_build. intros [x Hx]. cbn in Hx. rewrite list_lookup_fmap in Hx.
  destruct (seq 0 _ !! k) as [y|] eqn:Ey; [|done]. apply lookup_seq in Ey as [_ Hk]. exact Hk.
Qed.

Lemma refresh_target_fine k c : ctrl_ok 1 c -> (k < cnt Rank)%nat ->
  fine (refresh_target std (Z.of_nat k) (-1) (-1) c) (fun c' => ctrl_ok 1 c').
Proof.
  intros Hc Hk. unfold refresh_target. destruct (enqueue _ c) as [ok c'] eqn:E.
  pose proof (queues_enqueue _ _ _ _ E (cc_queues _ _ Hc)) as Hq.
  apply enqueue_cases in E as [(-> & -> & _)|(-> & _ & [(? & _)|(_ & ->)])]; cbn [fine]; [done|done|].
  destruct Hc as [H1 H2 H3 H4 H5 H6 H7 H8 H9]. split; cbn; try done.
  - intros [] Hk'; [exact (H5 _ Hk')..|done].
  - apply Forall_app. split; [done|]. apply Forall_singleton. split; [done|]. exists k. split; [|done].
    cbn. by rewrite (proj1 (chan_id _ _ _ _ H1)).
Qed.
Lemma refresh_ranks_fine ranks : forall c, ctrl_ok 1 c -> Forall (fun rk : Node => exists k, id rk = Z.of_nat k /\ (k < cnt Rank)%nat) ranks ->
  fine (refresh_ranks std ranks c) (fun c' => ctrl_ok 1 c').
Proof.
  induction ranks as [|rk ranks IH]; intros c Hc Hr; cbn [refresh_ranks]; [done|].
  apply Forall_cons in Hr as [(k & -> & Hk) Hr]. eapply fine_bind; [by apply refresh_target_fine|]. intros c' Hc'. by apply IH.
Qed.
Lemma tick_ref_fine c : ctrl_ok 1 c -> fine (tick_ref std c) (fun c' => ctrl_ok 1 c').
Proof.
  intros Hc. unfold tick_ref. assert (Hc' : ctrl_ok 1 (put_ref_clk (ref_clk c + 1) c)).
  { destruct Hc as [? ? ? [] H5 ? ? ? ?]. split;cbn; try done. }
  destruct (_ <=? _); [|done]. unfold inject_refresh. eapply fine_bind; [apply refresh_ranks_fine; [done|]|].
  - apply Forall_lookup. intros k rk Hk. cbn in Hk. pose proof (cc_chan _ _ Hc) as Hch. exists k.
    split; [by apply (do_tree _ (ck_ddr4 _ _ _ _ Hch) [] (channel_of c) k rk eq_refl)|].
    apply channel_rank_inv, (chan_some org s i (channel_of c) [k] Hch). cbn. by rewrite Hk.
  - intros c1 [? ? ? [] H5 ? ? ? ?]. cbn. split;cbn; try done.
Qed.
Lemma prepare_fine c : ctrl_ok 0 c -> fine (prepare std c) (fun x => ctrl_ok 1 (fst x)).
Proof.
  intros Hc. unfold prepare. destruct (completed_ok _ (start_ok c Hc)) as (c1 & l & -> & Hc1). cbn [bind].
  eapply fine_bind; [by apply tick_ref_fine|]. intros c2 Hc2. cbn. destruct (schedule_writes_eq c2) as [w ->].
  destruct Hc2 as [? ? ? [] H5 ? ? ? ?]. split;cbn; try done.
Qed.

(** 4. The choice *)
Lemma queue_answers k c r : ctrl_ok 1 c -> In r (get_q k c) ->
  is_ok (is_ready std (channel_of c) (c_clk c) r) = true /\ is_ok (is_row_hit std (channel_of c) r) = true /\
  is_ok (is_row_open std (channel_of c) r) = true.
Proof.
  intros [H1 _ _ _ H5 _ H7 H8 _] Hr. rewrite <- list_elem_of_In in Hr. destruct (decide (k = OtherQ)) as [->|Hk].
  - apply ref_answers; [done|done|]. cbn in Hr. rewrite Forall_forall in H7. by apply H7.
  - specialize (H5 k Hk). rewrite Forall_forall in H5. eapply rw_answers; [done|done|by apply H5].
Qed.
Lemma candidate_total k c : ctrl_ok 1 c -> exists o, candidate std k c = Ok o.
Proof.
  intros Hc. unfold candidate.
  destruct (get_head_total std (channel_of c) (c_clk c) (rowtable c) (sched_type c) (get_q k c)) as (o & -> & Ho);
    [intros r Hr; by apply (queue_answers k)|]. cbn [bind].
  destruct o as [j|]; [|eauto]. destruct (Ho j eq_refl) as [r Hr]. rewrite Hr.
  assert (Hin : In r (get_q k c)) by (by apply list_elem_of_In, (list_elem_of_lookup_2 _ j)).
  destruct (queue_answers k c r Hc Hin) as (E & _). unfold is_ready in E.
  destruct (get_first_cmd std (channel_of c) r) as [cmd|]; [|done]. cbn [bind] in *.
  destruct (is_ready_cmd std (channel_of c) (c_clk c) cmd (rq_addr_vec r)) as [v|]; [|done]. cbn [bind]. eauto.
Qed.
Lemma choose_total c : ctrl_ok 1 c -> exists o, choose std c = Ok o.
Proof.
  intros Hc. unfold choose. destruct (candidate_total ActQ c Hc) as [[x|] ->]; cbn [bind]; [eauto|by apply candidate_total].
Qed.

(** Counts when a queue is replaced *)
Definition svc (k : queue_name) (x : list nat) (l : list Request) : Z :=
  match k with OtherQ => 0 | _ => countb (serves x) l end.
Lemma in_service_put k q c x : in_service (put_q k q c) x = in_service c x - svc k x (get_q k c) + svc k x q.
Proof. unfold in_service. destruct k; cbn [put_q svc get_q readq writeq actq otherq pending put_readq put_writeq put_actq put_otherq]; lia. Qed.
Lemma svc_update k x l j r : l !! j = Some r ->
  svc k x (<[j := set_first false r]> l) = svc k x l + (if rq_first r && under x (rq_addr_vec r) then svc k x [set_first false r] else 0).
Proof.
  intros Hj. destruct k; cbn [svc]; try (destruct (_ && _); lia);
    rewrite (countb_update _ _ _ _ _ Hj); cbn [countb]; unfold serves; cbn [set_first rq_first rq_addr_vec negb andb];
    destruct (rq_first r), (under x (rq_addr_vec r)); cbn; lia.
Qed.

(** Requests of a queue *)
Definition member_ok (k : queue_name) (t : Z) r : Prop := match k with OtherQ => ref_ok r | _ => rw_ok t r end.
Lemma member_get d k c : ctrl_ok d c -> Forall (member_ok k (c_clk c - d)) (get_q k c).
Proof. intros [_ _ _ _ H5 _ H7 _ _]. destruct k; [by apply (H5 ReadQ)|by apply (H5 WriteQ)|by apply (H5 ActQ)|done]. Qed.

(** Replacing a queue, with the counts that go with it *)
Lemma ctrl_put d k q c ch' t' : ctrl_ok d c -> Forall (member_ok k (c_clk c - d)) q -> queues_ok (put_q k q c) ->
  chan_ok ch' -> mirror t' ch' -> counts_ok ch' (in_service (put_q k q c)) ->
  forall st, ctrl_ok d (put_c_stats st (put_rowtable t' (put_channel_of ch' (put_q k q c)))).
Proof.
  intros [H1 H2 H3 H4 H5 H6 H7 H8 H9] Hq Hqs Hch Hm Hn st.
  pose proof (H5 ReadQ ltac:(done)) as HR. pose proof (H5 WriteQ ltac:(done)) as HW. pose proof (H5 ActQ ltac:(done)) as HA.
  destruct Hqs. destruct k; split; cbn in *; try done; intros [] Hk; done.
Qed.

(** The first command of a request: it enters service. *)
Lemma first_fine k j r c : ctrl_ok 1 c -> get_q k c !! j = Some r ->
  exists c1, first_command std k j r c = Ok c1 /\ ctrl_ok 1 c1 /\
    (forall q, both same_node (node_at (channel_of c) q) (node_at (channel_of c1) q)).
Proof.
  intros Hc Hj. unfold first_command. destruct (rq_first r) eqn:Ef.
  2:{ exists c. split; [done|]. split; [done|]. intros q. apply both_refl. done. }
  pose proof (member_get 1 k c Hc) as Hmem. pose proof (Forall_lookup_1 _ _ _ _ Hmem Hj) as Hr.
  set (q' := <[j := set_first false r]> (get_q k c)). set (c0 := put_q k q' c).
  assert (Hmem' : Forall (member_ok k (c_clk c - 1)) q') by (apply Forall_insert; [done|]; by destruct k).
  assert (Hqs : queues_ok c0).
  { destruct (queues_get k c (cc_queues _ _ Hc)) as [Hf Hl]. apply queues_put; [apply Hc| |].
    - apply Forall_insert; [done|]. pose proof (Forall_lookup_1 _ _ _ _ Hf Hj). by destruct k.
    - unfold q'. by rewrite length_insert. }
  assert (Hsvc : forall x, in_service c0 x = in_service c x + (if under x (rq_addr_vec r) then svc k x [set_first false r] else 0)).
  { intros x. unfold c0. rewrite in_service_put. unfold q'. rewrite (svc_update _ _ _ _ _ Hj), Ef. cbn [andb]. lia. }
  assert (Hbase : forall ch' t st, chan_ok ch' -> mirror t ch' -> counts_ok ch' (in_service c0) ->
    ctrl_ok 1 (put_c_stats st (put_rowtable t (put_channel_of ch' c0)))) by (intros; by apply ctrl_put).
  assert (Hsame : forall ch' st, put_c_stats st (put_channel_of ch' c0) = put_c_stats st (put_rowtable (rowtable c) (put_channel_of ch' c0)))
    by (intros; unfold c0; by destruct k).
  destruct (is_rw r) eqn:Erw.
  - assert (Hk : k <> OtherQ) by (intros ->; destruct Hr as [Ht _]; unfold is_rw in Erw; by rewrite Ht in Erw).
    assert (Hrw : rw_ok (c_clk c - 1) r) by (by destruct k). pose proof Hrw as (_ & (a & g & b & row & Hco) & _).
    destruct (serve_ok_ddr4 (channel_of c) (rq_addr_vec r) a g b row 1 (c_clk c) (in_service c)) as (ch' & E & Hch & Hsn & Hcnt);
      try done; [apply Hc|by left|apply Hc|apply Hc|..].
    { intros q _ _. unfold in_service. pose proof (countb_nonneg (serves q)) as P1. pose proof (countb_nonneg (awaits q)) as P2.
      pose proof (P1 (readq c)). pose proof (P1 (writeq c)). pose proof (P1 (actq c)). pose proof (P2 (pending c)). lia. }
    replace (channel_of c0) with (channel_of c) by (by destruct k). replace (c_clk c0) with (c_clk c) by (by destruct k).
    cbn [sp ddr4_std]. rewrite E. cbn [bind].
    destruct (rw_answers ch' (c_clk c) (c_clk c - 1) r Hch (cc_clk _ _ Hc) Hrw) as (_ & Eh & Eo).
    destruct (is_row_hit std ch' r) as [hit|]; [|done]. cbn [bind].
    assert (exists opn, (if hit then Ok false else is_row_open std ch' r) = Ok opn) as [opn ->]
      by (destruct hit; [eauto|]; destruct (is_row_open std ch' r); [eauto|done]). cbn [bind].
    eexists. split; [reflexivity|]. rewrite Hsame. split; [|by destruct k].
    apply Hbase; [done|by eapply mirror_node; [|apply Hc]|]. eapply counts_ext; [|exact Hcnt]. intros q. cbn.
    rewrite Hsvc. destruct k; cbn [svc countb]; unfold serves; cbn [set_first rq_first rq_addr_vec negb andb]; try done;
      destruct (under q (rq_addr_vec r)); lia.
  - assert (Hk : k = OtherQ) by (destruct k; try done; destruct Hr as (? & _); congruence). subst k.
    exists c0. split; [done|]. split; [|intros q; apply both_refl; done].
    destruct Hc as [H1 H2 H3 H4 H5 H6 H7 H8 H9]. unfold c0. split; cbn; try done. intros [] Hk; [exact (H5 _ Hk)..|done].
Qed.

(** 5. The command *)
Lemma coords_inj vec a g b row a' g' b' row' : coords vec a g b row -> coords vec a' g' b' row' ->
  a = a' /\ g = g' /\ b = b' /\ row = row'.
Proof. intros [[col ->] _ _ _] [[col' E] _ _ _]. injection E as E1 E2 E3 E4 _. lia. Qed.

Lemma banks_closed_spec ch k rk : node_at ch [k] = Some rk ->
  banks_closed rk = true <-> forall g b x, node_at ch [k; g; b] = Some x -> state x = Closed.
Proof.
  intros Hk. cbn in Hk. destruct (children ch !! k) as [y|] eqn:Ey; [|done]. injection Hk as ->.
  unfold banks_closed. rewrite forallb_forall. split.
  - intros H g b x Hx. cbn in Hx. rewrite Ey in Hx. destruct (children rk !! g) as [bg|] eqn:Eg; [|done].
    specialize (H bg ltac:(by apply list_elem_of_In, (list_elem_of_lookup_2 _ g))). rewrite forallb_forall in H.
    destruct (children bg !! b) as [bk|] eqn:Eb; [|done]. injection Hx as ->.
    specialize (H x ltac:(by apply list_elem_of_In, (list_elem_of_lookup_2 _ b))). by apply bool_decide_eq_true in H.
  - intros H bg Hbg. apply forallb_forall. intros bk Hbk. apply bool_decide_eq_true.
    apply list_elem_of_In, list_elem_of_lookup_1 in Hbg as (g & Hg). apply list_elem_of_In, list_elem_of_lookup_1 in Hbk as (b & Hb).
    apply (H g b). cbn. by rewrite Ey, Hg, Hb.
Qed.

Lemma first_cmd_same ch ch' k t r : chan_ok ch -> chan_ok ch' -> (forall q, both same_node (node_at ch q) (node_at ch' q)) ->
  member_ok k t r -> get_first_cmd std ch' r = get_first_cmd std ch r.
Proof.
  intros H H' Hq Hr. assert (Hst : forall q x x', node_at ch q = Some x -> node_at ch' q = Some x' -> same_state x x').
  { intros q x x' Hx Hx'. specialize (Hq q). rewrite Hx, Hx' in Hq. by destruct Hq. }
  destruct (decide (k = OtherQ)) as [->|Hk].
  - destruct (ref_first ch r H Hr) as (j & rk & Hv & Hj & Hrk & ->). destruct (ref_first ch' r H' Hr) as (j' & rk' & Hv' & _ & Hrk' & ->).
    rewrite Hv in Hv'. injection Hv' as Hjj. assert (j' = j) as -> by lia.
    replace (banks_closed rk') with (banks_closed rk); [done|]. apply eq_true_iff_eq.
    rewrite (banks_closed_spec ch j rk Hrk), (banks_closed_spec ch' j rk' Hrk').
    split; intros Hall g b x Hx; specialize (Hq [j; g; b]); rewrite Hx in Hq.
    + destruct (node_at ch [j; g; b]) as [y|] eqn:Ey; [|done]. destruct Hq as ((-> & _) & _). by apply (Hall g b).
    + destruct (node_at ch' [j; g; b]) as [y|] eqn:Ey; [|done]. destruct Hq as ((<- & _) & _). by apply (Hall g b).
  - assert (Hrw : rw_ok t r) by (by destruct k).
    destruct (rw_first ch t r H Hrw) as (a & g & b & row & rk & bk & Hco & Hl & _ & ->).
    destruct (rw_first ch' t r H' Hrw) as (a' & g' & b' & row' & rk' & bk' & Hco' & Hl' & _ & ->).
    destruct (coords_inj _ _ _ _ _ _ _ _ _ Hco Hco') as (<- & <- & <- & <-).
    destruct (Hst _ _ _ (lo_rk _ _ _ _ _ _ _ _ Hl) (lo_rk _ _ _ _ _ _ _ _ Hl')) as (E1 & _).
    destruct (Hst _ _ _ (lo_bk _ _ _ _ _ _ _ _ Hl) (lo_bk _ _ _ _ _ _ _ _ Hl')) as (E2 & E3 & _).
    unfold next_cmd. by rewrite E1, E2, E3.
Qed.

Lemma open_bank ch k rk : chan_ok ch -> node_at ch [k] = Some rk -> banks_closed rk = false ->
  exists g b x, node_at ch [k; g; b] = Some x /\ state x = Opened.
Proof.
  intros H Hrk Hcl. unfold banks_closed in Hcl.
  destruct (decide (Exists (fun bg => Exists (fun bk => state bk <> Closed) (children bg)) (children rk))) as [Hex|Hex].
  - apply Exists_exists in Hex as (bg & Hbg & Hex). apply Exists_exists in Hex as (bk & Hbk & Ho).
    apply list_elem_of_lookup_1 in Hbg as (g & Hg). apply list_elem_of_lookup_1 in Hbk as (b & Hb).
    assert (Hn : node_at ch [k; g; b] = Some bk)
      by (cbn in Hrk |- *; destruct (children ch !! k); [|done]; injection Hrk as ->; by rewrite Hg, Hb).
    exists g, b, bk. split; [done|]. by destruct (do_bank _ (ck_ddr4 _ _ _ _ H) k g b bk Hn) as [[[? _]|[? _]] _].
  - exfalso. apply not_true_iff_false in Hcl. apply Hcl, forallb_forall. intros bg Hbg. apply forallb_forall. intros bk Hbk.
    apply bool_decide_eq_true. destruct (decide (state bk = Closed)) as [|Hn]; [done|]. exfalso. apply Hex.
    apply Exists_exists. exists bg. split; [by apply list_elem_of_In|]. apply Exists_exists. exists bk.
    split; [by apply list_elem_of_In|done].
Qed.

(** What issuing the first command of a request does to the channel and to
    the row table *)
Definition issued_ok (cmd : Command) r (clk : Z) ch (tab : RowTable) (ch' : Node) (tab' : RowTable) : Prop :=
  update spec cmd (rq_addr_vec r) clk ch = Ok ch' /\ table_update std cmd (rq_addr_vec r) clk tab = Ok tab' /\
  chan_ok ch' /\ mirror tab' ch' /\ (forall q, both same_serv (node_at ch q) (node_at ch' q)).

Lemma issue_ref r cmd ch tab clk : chan_ok ch -> mirror tab ch -> 0 <= clk -> ref_ok r -> get_first_cmd std ch r = Ok cmd ->
  is_opening cmd = false /\ exists ch' tab', issued_ok cmd r clk ch tab ch' tab'.
Proof.
  intros H Hm Hclk Hr E. destruct (ref_first ch r H Hr) as (j & rk & Hv & Hj & Hrk & E'). rewrite E in E'. injection E' as ->.
  unfold issued_ok. rewrite Hv. set (cmd := if banks_closed rk then REF else PREA).
  assert (Hc : cmd = REF \/ cmd = PREA /\ banks_closed rk = false) by (unfold cmd; destruct (banks_closed rk); auto).
  clearbody cmd. split; [by destruct Hc as [-> |[-> _]]|].
  destruct (issue_ok org s i cmd (rank_vec j) clk ch [j] rk (-1)) as (ch' & Eu & Hch & Heff & Hserv); try done.
  { destruct Hc as [-> |[-> _]]; unfold ctrl_cmd; cbn; auto 10. }
  { split; [by destruct Hc as [-> |[-> _]]|]. intros [|[]] x Hx; cbn in Hx; simplify_eq; done. }
  { intros ->. by destruct Hc as [|[? _]]. }
  destruct Hc as [-> |[-> Hcl]].
  - exists ch', tab. split_and!; try done. apply (mirror_same i tab ch ch' (-1) Hm REF [j]); try done. unfold ctrl_cmd. cbn. auto 10.
  - destruct (open_bank ch j rk H Hrk Hcl) as (g & b & x & Hx & Ho).
    destruct (table_close org s i tab ch ch' (rank_vec j) clk (-1) Hm PREA [j] j g b x) as (tab' & Et & Hm'); try done.
    + by right.
    + intros r' g' b'. rewrite prefix_rank. unfold below, close_scope. cbn. split; [intros [= Hx']; lia|by intros ->].
    + by apply prefix_rank.
    + by exists ch', tab'.
Qed.

Lemma issue_rw t r cmd ch tab clk : chan_ok ch -> mirror tab ch -> 0 <= clk -> rw_ok t r -> get_first_cmd std ch r = Ok cmd ->
  exists ch' tab', issued_ok cmd r clk ch tab ch' tab'.
Proof.
  intros H Hm Hclk Hr E. destruct (rw_first ch t r H Hr) as (a & g & b & row & rk & bk & Hco & Hl & Hup & E').
  rewrite E in E'. injection E' as ->. destruct Hr as (Hrw & _). pose proof (rw_access r Hrw) as Hacc.
  pose proof (lo_bk _ _ _ _ _ _ _ _ Hl) as Hbk. destruct (do_bank _ (ck_ddr4 _ _ _ _ H) a g b bk Hbk) as [Hb _].
  set (cmd := next_cmd (DDR4.translate (rq_type r)) row rk bk).
  assert (Hcase : (cmd = ACT /\ state bk = Closed /\ row_state bk = ∅) \/ (cmd = PRE /\ state bk = Opened) \/
    ((cmd = RD \/ cmd = WR) /\ state bk = Opened /\ is_Some (row_state bk !! row))).
  { unfold cmd, next_cmd. rewrite Hup. destruct Hb as [[-> ->]|[-> _]]; [auto|].
    destruct (row_state bk !! row) eqn:Er; [right; right; split; [done|]; eauto|auto]. }
  clearbody cmd. assert (Hlv : cmd_level cmd = Bank) by (by destruct Hcase as [[-> _]|[[-> _]|[[-> | ->] _]]]).
  destruct (issue_ok org s i cmd (rq_addr_vec r) clk ch [a; g; b] bk row) as (ch' & Eu & Hch & Heff & Hserv); try done.
  { destruct Hcase as [[-> _]|[[-> _]|[[-> | ->] _]]]; unfold ctrl_cmd; cbn; auto 10. }
  { by eapply acts_bank. }
  { apply Hl. }
  { intros ->. by destruct Hcase as [(_ & ? & _)|[[? _]|[[?|?] _]]]. }
  assert (Htab : exists tab', table_update std cmd (rq_addr_vec r) clk tab = Ok tab' /\ mirror tab' ch').
  { destruct Hcase as [(-> & Hs & Hrs)|[[-> Hs]|[Hx [Hs Hrs]]]].
    - by eapply table_activate.
    - apply (table_close org s i tab ch ch' (rq_addr_vec r) clk row Hm PRE [a; g; b] a g b bk); try done; [by left|].
      intros r' g' b'. rewrite prefix_bank. destruct (co_vec _ _ _ _ _ _ _ _ Hco) as [col ->]. unfold below, close_scope. cbn.
      split; [intros [= E1 E2 E3]; lia|by intros (-> & -> & ->)].
    - by eapply table_access. }
  destruct Htab as (tab' & Et & Hm'). by exists ch', tab'.
Qed.

(** A part that changes the channel, the row table and the statistics only *)
Lemma ctrl_frame d c c' : ctrl_ok d c -> frame c c' -> chan_ok (channel_of c') -> mirror (rowtable c') (channel_of c') ->
  counts_ok (channel_of c') (in_service c) -> ctrl_ok d c'.
Proof.
  intros Hc F H1 H2 H3. pose proof (queues_frame _ _ F (cc_queues _ _ Hc)) as Hq. pose proof (frame_q _ _ F) as (Eq & Ep & Ec & _ & _ & _ & Epol & _).
  destruct Hc as [_ _ _ _ H5 H6 H7 H8 H9]. split; try done.
  - eapply counts_ext; [|exact H3]. intros q. unfold in_service. rewrite Ep.
    by rewrite <- (Eq ReadQ : readq c' = readq c), <- (Eq WriteQ : writeq c' = writeq c), <- (Eq ActQ : actq c' = actq c).
  - intros k Hk. rewrite Ec, Eq. by apply H5.
  - by rewrite Ec, Ep.
  - by rewrite (Eq OtherQ : otherq c' = otherq c).
  - by rewrite Ec.
  - by rewrite Epol.
Qed.

Lemma issue_cmd_fine k r cmd c ch0 : ctrl_ok 1 c -> member_ok k (c_clk c - 1) r -> chan_ok ch0 ->
  (forall q, both same_node (node_at ch0 q) (node_at (channel_of c) q)) ->
  get_first_cmd std ch0 r = Ok cmd -> is_ready_cmd std ch0 (c_clk c) cmd (rq_addr_vec r) = Ok true ->
  (is_opening cmd = true -> k <> OtherQ) /\ exists c', issue_cmd std cmd (rq_addr_vec r) c = Ok c' /\ ctrl_ok 1 c'.
Proof.
  intros Hc Hr H0 Hsn E Hready. pose proof Hc as [H1 H2 H3 _ _ _ _ H8 H9].
  rewrite <- (first_cmd_same ch0 (channel_of c) k _ r H0 H1 Hsn Hr) in E.
  assert (Hi : (is_opening cmd = true -> k <> OtherQ) /\
    exists ch' tab', issued_ok cmd r (c_clk c) (channel_of c) (rowtable c) ch' tab').
  { destruct (decide (k = OtherQ)) as [->|Hk].
    - destruct (issue_ref r cmd _ _ _ H1 H2 H8 Hr E) as [-> Hi]. done.
    - split; [done|]. apply (issue_rw (c_clk c - 1) r cmd _ _ _ H1 H2 H8); [by destruct k|done]. }
  destruct Hi as (Hop & ch' & tab' & Eu & Et & Hch & Hm & Hserv). split; [done|].
  unfold issue_cmd, cmd_issue_autoprecharge. rewrite H9, (bool_decide_false (POpened = PClosedAP)), andb_false_r by done. cbn [bind].
  assert (Hrd : is_ready_cmd std (channel_of c) (c_clk c) cmd (rq_addr_vec r) = Ok true).
  { rewrite <- Hready. unfold is_ready_cmd. apply check_same. by apply same_nodes_timing. }
  rewrite Hrd. cbn [bind]. cbn [sp ddr4_std]. rewrite Eu. cbn [bind]. cbv zeta.
  set (c1 := if decide (cmd = cPRE std) then _ else _).
  assert (Hc1 : frame c c1 /\ channel_of c1 = ch' /\ rowtable c1 = rowtable c /\ c_clk c1 = c_clk c).
  { subst c1. destruct (decide _); [destruct (_ =? 0)|]; (split; [|done]); destruct c; done. }
  destruct Hc1 as (F & E1 & E2 & E3). rewrite E2, E3, Et. cbn [bind]. eexists. split; [reflexivity|].
  apply (ctrl_frame 1 c); [done|eapply frame_trans; [exact F|apply frame_table]|..]; cbn; rewrite E1; try done.
  by eapply counts_same.
Qed.

Hypothesis latency_pos : 0 < DDR4.read_latency s.

(** What the last command does to the counts of requests in service *)
Section Finish.
Context (k : queue_name) (j : nat) (r : Request) (c : Ctrl).
Hypothesis Hc : ctrl_ok 1 c.
Hypothesis Hj : get_q k c !! j = Some r.
Hypothesis Hf : rq_first r = false.

Lemma finish_member : member_ok k (c_clk c - 1) r.
Proof. exact (Forall_lookup_1 _ _ _ _ (member_get 1 k c Hc) Hj). Qed.
Lemma finish_rw : k <> OtherQ -> rw_ok (c_clk c - 1) r.
Proof. intros Hk. pose proof finish_member. by destruct k. Qed.
Lemma serves_first x : serves x r = under x (rq_addr_vec r).
Proof. unfold serves. by rewrite Hf. Qed.
Lemma drop_count x l : l !! j = Some r ->
  countb (serves x) (delete j l) = countb (serves x) l - (if under x (rq_addr_vec r) then 1 else 0).
Proof. intros Hl. rewrite (countb_delete _ _ _ _ Hl), serves_first. done. Qed.

(** The request leaves its queue; [p] and [a] are what is added to [pending]
    and to [actq]. *)
Definition dropped (ch' : Node) (a p : list Request) : Ctrl :=
  let c3 := put_pending (pending c ++ p) (put_channel_of ch' (put_actq (actq c ++ a) c)) in
  put_q k (delete j (get_q k c3)) c3.

Lemma dropped_ok ch' a p : k <> OtherQ -> queues_ok (dropped ch' a p) -> chan_ok ch' -> mirror (rowtable c) ch' ->
  Forall (rw_ok (c_clk c - 1)) a -> Forall (rw_ok (c_clk c - 1)) p ->
  counts_ok ch' (fun x => in_service c x - (if under x (rq_addr_vec r) then 1 else 0) + countb (serves x) a + countb (awaits x) p) ->
  ctrl_ok 1 (dropped ch' a p).
Proof.
  intros Hk Hq Hch Hm Ha Hp Hn. pose proof Hc as [_ _ _ _ H5 H6 H7 H8 H9]. pose proof (member_get 1 k c Hc) as Hmem.
  pose proof (H5 ReadQ ltac:(done)) as HR. pose proof (H5 WriteQ ltac:(done)) as HW.
  pose proof (Forall_app_2 _ _ _ (H5 ActQ ltac:(done)) Ha) as HA. pose proof (Forall_app_2 _ _ _ H6 Hp) as HP.
  assert (Hj' : k = ActQ -> (actq c ++ a) !! j = Some r) by (intros ->; by apply lookup_app_l_Some).
  unfold dropped in *. destruct k; try done; cbn in *; split; cbn; try done;
    try (eapply counts_ext; [|exact Hn]; intros x; cbn; unfold in_service; cbn; rewrite drop_count by auto;
         rewrite ?countb_app; lia);
    intros [] Hk'; cbn; done || by apply Forall_delete.
Qed.

Lemma dropped_id : k <> OtherQ -> dropped (channel_of c) [] [] = put_q k (delete j (get_q k c)) c.
Proof. intros Hk. unfold dropped. rewrite !app_nil_r. destruct c, k; done. Qed.

Lemma finish_fine cmd : (is_opening cmd = true -> k <> OtherQ) ->
  exists c' w, finish_cmd std k j r cmd c = Ok (c', w) /\ (queues_ok c' -> ctrl_ok 1 c').
Proof.
  intros Hop. pose proof Hc as [H1 H2 H3 H4 H5 H6 H7 H8 H9].
  unfold finish_cmd. cbn [sp Sched.translate ddr4_std Dram.is_opening spec_of]. case_decide as Hcmd.
  { destruct (is_opening cmd) eqn:Eo; [|eauto]. specialize (Hop eq_refl). do 2 eexists. split; [reflexivity|].
    replace (put_q k _ _) with (dropped (channel_of c) [r] []) by (unfold dropped; rewrite app_nil_r; by destruct c, k).
    intros Hq. apply dropped_ok; try done; [by apply Forall_singleton, finish_rw|].
    eapply counts_ext; [|exact H3]. intros x. cbn. rewrite serves_first. destruct (under x (rq_addr_vec r)); lia. }
  destruct (decide (k = OtherQ)) as [Ek|Hk].
  { pose proof finish_member as Hr. rewrite Ek in *. destruct Hr as [Ht _]. rewrite Ht. cbn [bind]. do 2 eexists. split; [reflexivity|].
    intros Hq. pose proof (Forall_delete _ _ j H7). split; cbn; try done. intros [] Hk'; [exact (H5 _ Hk')..|done]. }
  pose proof (finish_rw Hk) as Hrw. pose proof Hrw as (Hisrw & (a & g & b & row & Hco) & Harr).
  assert (Hty : rq_type r = READ \/ rq_type r = WRITE) by (unfold is_rw, ReqType_eqb in Hisrw; destruct (rq_type r); auto; done).
  destruct Hty as [Ht|Ht]; rewrite Ht; cbn [bind].
  - do 2 eexists. split; [reflexivity|]. set (r1 := set_depart _ r).
    replace (put_q k _ _) with (dropped (channel_of c) [] [r1]) by (unfold dropped; rewrite app_nil_r; by destruct c, k).
    intros Hq. apply dropped_ok; try done; [by apply Forall_singleton|]. eapply counts_ext; [|exact H3]. intros x. cbn.
    unfold awaits, r1. cbn. destruct (Z.ltb_spec 1 (c_clk c + DDR4.read_latency s - rq_arrive r)); [|lia].
    cbn. destruct (under x (rq_addr_vec r)); lia.
  - destruct (serve_ok_ddr4 (channel_of c) (rq_addr_vec r) a g b row (-1) (c_clk c) (in_service c))
      as (ch' & E & Hch & Hsn & Hcnt); try done; [by right|..].
    { intros x _ Hu. pose proof (drop_count x _ Hj) as Hx. rewrite Hu in Hx. unfold in_service.
      pose proof (countb_nonneg (serves x)) as P1. pose proof (P1 (readq c)). pose proof (P1 (writeq c)). pose proof (P1 (actq c)).
      pose proof (P1 (delete j (get_q k c))). pose proof (countb_nonneg (awaits x) (pending c)). destruct k; cbn in *; try done; lia. }
    rewrite E. cbn [bind]. do 2 eexists. split; [reflexivity|].
    replace (put_q k _ _) with (dropped ch' [] []) by (unfold dropped; rewrite !app_nil_r; by destruct c, k).
    intros Hq. apply dropped_ok; try done; [by eapply mirror_node|]. eapply counts_ext; [|exact Hcnt]. intros x. cbn.
    destruct (under x (rq_addr_vec r)); lia.
Qed.
End Finish.

(** A request that was chosen is served. *)
Lemma serve_fine k j r cmd c : ctrl_ok 1 c -> choose std c = Ok (Some (k, j, r, cmd)) ->
  exists c' w, serve_request std k j r cmd c = Ok (c', w) /\ ctrl_ok 1 c'.
Proof.
  intros Hc E. apply choose_ok in E as (_ & Hj & Hcmd & Hready).
  destruct (first_fine k j r c Hc Hj) as (c1 & E1 & Hc1 & Hsn). pose proof (first_command_ok _ _ _ _ _ _ Hj E1) as F1.
  pose proof (Forall_lookup_1 _ _ _ _ (member_get 1 k c Hc) Hj) as Hr.
  assert (Hclk : c_clk c1 = c_clk c) by (apply frame_q in F1 as (_ & _ & -> & _); by destruct k).
  destruct (issue_cmd_fine k r cmd c1 (channel_of c)) as (Hop & c2 & E2 & Hc2); try done; [by rewrite Hclk|apply Hc|by rewrite Hclk|].
  assert (Hj2 : get_q k c2 !! j = Some (set_first false r)).
  { pose proof (frame_trans _ _ _ F1 (issue_frame _ _ _ _ _ E2)) as F. apply frame_q in F as (-> & _).
    replace (get_q k (put_q k _ c)) with (<[j := set_first false r]> (get_q k c)) by (by destruct k).
    apply list_lookup_insert_eq. by eapply lookup_lt_Some. }
  destruct (finish_fine k j (set_first false r) c2 Hc2 Hj2 eq_refl cmd Hop) as (c3 & w & E3 & Hc3).
  assert (Es : serve_request std k j r cmd c = Ok (c3, w)).
  { unfold serve_request. rewrite E1. cbn [bind]. rewrite E2. cbn [bind]. exact E3. }
  exists c3, w. split; [done|]. apply Hc3. eapply queues_serve; [exact Hj|exact Es|apply Hc].
Qed.

Lemma tick_fine c : ctrl_ok 0 c -> fine (tick std c) (fun x => ctrl_ok 0 (fst x)).
Proof.
  intros Hc. rewrite tick_eq. eapply fine_bind; [by apply prepare_fine|]. intros [m reads] Hm. cbn [fst] in Hm.
  destruct (choose_total m Hm) as [o Eo]. rewrite Eo. cbn [bind]. destruct o as [[[[k j] r] cmd]|].
  - destruct (serve_fine k j r cmd m Hm Eo) as (c' & w & -> & Hc'). cbn. by apply ctrl_weaken.
  - unfold speculate. rewrite (cc_policy _ _ Hm). cbn. by apply ctrl_weaken.
Qed.

Lemma run_fine ops : Forall (fun o => match o with Send r => valid_send r | Tick => True end) ops ->
  forall c, ctrl_ok 0 c -> fine (run std ops c) (fun x => ctrl_ok 0 (fst (fst x))).
Proof.
  induction 1 as [|o ops Ho Hops IH]; intros c Hc; cbn [run]; [done|].
  eapply (fine_bind _ _ (fun x => ctrl_ok 0 (fst (fst x)))).
  - destruct o as [r|]; cbn [step].
    + destruct (enqueue r c) as [ok c'] eqn:E. cbn. by eapply send_ok.
    + eapply fine_bind; [by apply tick_fine|]. intros [c' l] Hc'. exact Hc'.
  - intros [[c' a] d] Hc'. cbn in Hc'. eapply fine_bind; [by apply IH|]. intros [[c2 a2] d2] Hc2. exact Hc2.
Qed.

(** C10: the controller of a DDR4 channel, under any of the four schedulers
    and the default row policy: whatever reads and writes of the channel are
    sent and however many ticks are run, no assertion of the controller, of
    the row table or of the device model fails, but possibly the one that
    the queue of other requests has room for a refresh of every rank.  When
    it does not, the row table mirrors the device: it has an entry for a bank
    exactly when the bank is open, with the row that is open; every rank is
    powered up, and the count of requests in service at every node is that of
    the requests of the controller in service below it. *)
Theorem ddr4_controller_safe ty ops :
  Forall (fun o => match o with Send r => valid_send r | Tick => True end) ops ->
  match run std ops (put_sched_type ty (Ctrl_new (channel spec i))) with
  | Abort e => e = "res"%string
  | Ok (c, _, _) => mirror (rowtable c) (channel_of c) /\
      (forall k rk, node_at (channel_of c) [k] = Some rk -> state rk = PowerUp) /\
      (forall q x, node_at (channel_of c) q = Some x -> cur_serving_requests (stats x) = in_service c q)
  end.
Proof.
  intros Hops. pose proof (run_fine ops Hops _ (ctrl_new ty)) as H. destruct (run std ops _) as [[[c a] d]|]; [|done].
  destruct H as [H1 H2 H3 _ _ _ _ _ _]. split; [done|]. split; [apply H1|]. intros q x Hx. by apply H3.
Qed.
End Ddr4Safe.
