(* ===== verification/CtrlWitness.v ===== *)
(** * Runs of the controller on concrete inputs

    The theorems about the scheduler and the controller at a DDR4 channel of
    two ranks. *)
From Stdlib Require Import ZArith Lia Bool String.
From stdpp Require Import base list gmap.
From S2P Require Import Prelude RamIf Dram DramTiming DramState DramServe Ddr4 Ddr4Run Sched Controller CtrlRun Ddr4Ctrl Ddr4Safe.
Import DDR4 Ddr4Witness.

Module CtrlWitness.
Definition std0 : Std Command State := ddr4_std org0 s0.
(** The same with a refresh every third cycle *)
Definition std3 : Std Command State :=
  mk_Std _ _ (sp std0) DDR4.translate PRE RD RDA WR WRA (DDR4.read_latency s0) 3 8 64.

Definition req (addr : Z) (vec : list Z) (ty : ReqType) (n : Z) : Request := set_addr_vec vec (Request_new addr ty n 0).
Definition rd1 : Request := req 64 [0; 1; 2; 0; 7; 0] READ 1.
Definition wr2 : Request := req 128 [0; 0; 1; 3; 9; 1] WRITE 2.
Definition rd3 : Request := req 128 [0; 0; 1; 3; 9; 1] READ 3.
Definition ops0 : list op := [Send rd1; Send wr2; Tick; Send rd3] ++ repeat Tick 60.

(** A run that succeeds *)
Lemma run_some (std : Std Command State) ops c : is_ok (run std ops c) = true ->
  exists c' a d, run std ops c = Ok (c', a, d).
Proof. destruct (run std ops c) as [[[c' a] d]|]; [eauto|done]. Defined.

Definition done_ids (std : Std Command State) (ops : list op) (c : Ctrl Command State) : list Z :=
  match run std ops c with Ok (_, _, d) => map rq_id d | Abort _ => [] end.
(** The read answered from the write queue comes first, then the write and
    the other read. *)
Example order0 : done_ids std0 ops0 (Ctrl_new ch0) = [3; 2; 1].
Proof. vm_compute. reflexivity. Qed.

Lemma controller_conserves_witness : exists c acc done, run std0 ops0 (Ctrl_new ch0) = Ok (c, acc, done) /\
  count_of (ident rd1) acc = count_of (ident rd1) (in_flight c) + count_of (ident rd1) done.
Proof.
  destruct (run_some std0 ops0 (Ctrl_new ch0)) as (c & a & d & E); [vm_compute; reflexivity|].
  exists c, a, d. split; [exact E|]. exact (controller_conserves std0 ch0 ops0 c a d (ident rd1) E).
Defined.

Lemma controller_queues_typed_witness : exists c acc done, run std0 ops0 (Ctrl_new ch0) = Ok (c, acc, done) /\ queues_ok c.
Proof.
  destruct (run_some std0 ops0 (Ctrl_new ch0)) as (c & a & d & E); [vm_compute; reflexivity|].
  exists c, a, d. split; [exact E|]. exact (controller_queues_typed std0 ch0 ops0 c a d E).
Defined.

Definition ops3 : list op := [Send rd1; Tick; Tick].
Lemma prepare_some (std : Std Command State) ops c :
  match run std ops c with Ok (c', _, _) => is_ok (prepare std c') | Abort _ => false end = true ->
  exists c' a d m l, run std ops c = Ok (c', a, d) /\ prepare std c' = Ok (m, l).
Proof.
  destruct (run std ops c) as [[[c' a] d]|]; [|done]. destruct (prepare std c') as [[m l]|] eqn:E; [|done].
  intros _. by exists c', a, d, m, l.
Defined.
Lemma refresh_on_time_witness : exists c acc done m reads l, run std3 ops3 (Ctrl_new ch0) = Ok (c, acc, done) /\
  prepare std3 c = Ok (m, reads) /\ c_clk c = 2 /\ otherq m = otherq c ++ l /\
  map rq_addr_vec l = map (fun rk => refresh_vec 6 (id (channel_of m)) (id rk) (-1) (-1)) (children (channel_of m)).
Proof.
  destruct (prepare_some std3 ops3 (Ctrl_new ch0)) as (c & a & d & m & l & E & Em); [vm_compute; reflexivity|].
  destruct (refresh_on_time std3 ch0 ops3 c a d m l ltac:(reflexivity) E Em) as [Hc (x & Hx & _ & Hv)].
  exists c, a, d, m, l, x. split; [exact E|]. split; [exact Em|]. split; [exact Hc|]. split; [exact Hx|]. exact Hv.
Defined.

(** A read that waits for its data behind another one *)
Definition waiting (n depart : Z) : Request := set_depart depart (set_arrive 0 (set_first false (req 64 [0; 1; 2; 0; 7; 0] READ n))).
Definition c_wait : Ctrl Command State :=
  put_pending [set_arrive 1 (waiting 1 2); set_arrive 2 (waiting 2 3)] (put_c_clk 1 (Ctrl_new ch0)).
Lemma pending_read_served_witness :
  exists c acc done, run std0 [Tick; Send wr2; Tick; Tick] c_wait = Ok (c, acc, done) /\ In (set_arrive 2 (waiting 2 3)) done.
Proof.
  destruct (run_some std0 [Tick; Send wr2; Tick; Tick] c_wait) as (c & a & d & E); [vm_compute; reflexivity|].
  exists c, a, d. split; [exact E|].
  apply (pending_read_served std0 3 [Tick; Send wr2; Tick; Tick] c_wait c a d 1 (set_arrive 2 (waiting 2 3)) E).
  - reflexivity.
  - repeat constructor; cbn; lia.
  - vm_compute. discriminate.
Defined.

(** The scheduler: the older of two ready requests, wherever it is *)
Definition q0 : list Request := [set_arrive 5 rd1; set_arrive 3 wr2].
Lemma scheduler_best_witness : get_head std0 FRFCFS ch0 10 ∅ q0 = Ok (Some 1%nat) /\
  exists j r, get_head std0 FRFCFS ch0 10 ∅ q0 = Ok (Some j) /\ chosen (fun _ => true) q0 j r.
Proof.
  split; [vm_compute; reflexivity|].
  destruct (scheduler_best std0 ch0 10 ∅ FRFCFS (fun _ => true) q0) as [[? _]|H]; [discriminate| |discriminate|exact H].
  intros r [<-|[<-|[]]]; vm_compute; reflexivity.
Defined.

(** A request that would close a row with a hit waits, although it is older
    and the hit is not ready. *)
Definition ch1 : Node := node_after tr0.
Definition qh : list Request :=
  [set_arrive 1 (req 0 [0; 1; 0; 1; 9; 0] READ 1); set_arrive 2 (req 64 [0; 1; 0; 1; 7; 0] READ 2)].
Definition row_is (v : Z) (r : Request) : bool := nth 4 (rq_addr_vec r) (-1) =? v.
Lemma prior_hit_keeps_rows_witness : get_head std0 FRFCFS_PriorHit ch1 40 ∅ qh = Ok (Some 1%nat) /\
  exists o, get_head std0 FRFCFS_PriorHit ch1 40 ∅ qh = Ok o /\
  ((exists j r, o = Some j /\ false = true /\ row_is 7 r = true /\ chosen (fun r => false && row_is 7 r) qh j r) \/
   ((forall r, In r qh -> false && row_is 7 r = false) /\
    match o with
    | Some j => exists r, qh !! j = Some r /\ ~ closes_hit std0 qh (row_is 7) (fun _ => true) r /\
        forall j' r', qh !! j' = Some r' -> ~ closes_hit std0 qh (row_is 7) (fun _ => true) r' -> j <> j' ->
          (false = true /\ false = false) \/
          (false = false /\ (rq_arrive r < rq_arrive r' \/ rq_arrive r = rq_arrive r' /\ (j < j')%nat))
    | None => forall r, In r qh -> closes_hit std0 qh (row_is 7) (fun _ => true) r
    end)).
Proof.
  split; [vm_compute; reflexivity|].
  apply (prior_hit_keeps_rows std0 ch1 40 ∅ qh (fun _ => false) (row_is 7) (fun _ => true));
    intros r [<-|[<-|[]]]; vm_compute; reflexivity.
Defined.

Lemma coords_rd1 : coords org0 s0 0 (rq_addr_vec rd1) 1 2 0 7.
Proof. split; [by exists 0|vm_compute; lia..]. Defined.
Lemma coords_wr2 : coords org0 s0 0 (rq_addr_vec wr2) 0 1 3 9.
Proof. split; [by exists 1|vm_compute; lia..]. Defined.
Lemma ddr4_controller_safe_witness : is_ok (run std0 ops0 (put_sched_type FRFCFS_Cap (Ctrl_new ch0))) = true /\
  match run std0 ops0 (put_sched_type FRFCFS_Cap (Ctrl_new ch0)) with
  | Abort e => e = "res"%string
  | Ok (c, _, _) => mirror 0 (rowtable c) (channel_of c) /\
      (forall k rk, node_at (channel_of c) [k] = Some rk -> state rk = PowerUp) /\
      (forall q x, node_at (channel_of c) q = Some x -> cur_serving_requests (stats x) = in_service c q)
  end.
Proof.
  split; [vm_compute; reflexivity|].
  apply (ddr4_controller_safe org0 s0 0 ltac:(reflexivity) FRFCFS_Cap ops0).
  assert (H1 : valid_send org0 s0 0 rd1) by (split; [reflexivity|]; split; [reflexivity|]; do 4 eexists; exact coords_rd1).
  assert (H2 : valid_send org0 s0 0 wr2) by (split; [reflexivity|]; split; [reflexivity|]; do 4 eexists; exact coords_wr2).
  assert (H3 : valid_send org0 s0 0 rd3) by (split; [reflexivity|]; split; [reflexivity|]; do 4 eexists; exact coords_wr2).
  unfold ops0. cbn [app]. constructor; [exact H1|]. constructor; [exact H2|]. constructor; [exact I|]. constructor; [exact H3|].
  apply Forall_forall. intros o Ho. apply list_elem_of_In, repeat_spec in Ho. by rewrite Ho.
Defined.
End CtrlWitness.
