(* ===== verification/Memory.v ===== *)
(** * The memory: channels behind an address mapping

    [ramulator/src/Memory.h]: [Memory<T, Controller>] maps the address of a
    request to its coordinates, hands it to the controller of its channel and
    ticks the controllers in their order.  A run of the memory is, on every
    channel, a run of that channel's controller. *)
From Stdlib Require Import ZArith Lia Bool String.
From stdpp Require Import base list gmap.
From S2P Require Import Prelude RamIf Dram Sched Controller CtrlRun AddrMap.

(** ** State *)

(** The statistics, numbers of requests and cycles; those of a core or of a
    channel are functions of its number. *)
Record mstats : Type := mk_mstats {
  num_dram_cycles : Z;
  num_incoming_requests : Z;
  num_read_requests : Z -> Z;
  num_write_requests : Z -> Z;
  incoming_requests_per_channel : Z -> Z;
  incoming_read_reqs_per_channel : Z -> Z;
  ramulator_active_cycles : Z;
  in_queue_req_num_sum : Z;
  in_queue_read_req_num_sum : Z;
  in_queue_write_req_num_sum : Z
}.
Definition set_num_dram_cycles (v : Z) (r : mstats) : mstats :=
  mk_mstats v (num_incoming_requests r) (num_read_requests r) (num_write_requests r) (incoming_requests_per_channel r) (incoming_read_reqs_per_channel r) (ramulator_active_cycles r) (in_queue_req_num_sum r) (in_queue_read_req_num_sum r) (in_queue_write_req_num_sum r).
Definition set_num_incoming_requests (v : Z) (r : mstats) : mstats :=
  mk_mstats (num_dram_cycles r) v (num_read_requests r) (num_write_requests r) (incoming_requests_per_channel r) (incoming_read_reqs_per_channel r) (ramulator_active_cycles r) (in_queue_req_num_sum r) (in_queue_read_req_num_sum r) (in_queue_write_req_num_sum r).
Definition set_num_read_requests (v : Z -> Z) (r : mstats) : mstats :=
  mk_mstats (num_dram_cycles r) (num_incoming_requests r) v (num_write_requests r) (incoming_requests_per_channel r) (incoming_read_reqs_per_channel r) (ramulator_active_cycles r) (in_queue_req_num_sum r) (in_queue_read_req_num_sum r) (in_queue_write_req_num_sum r).
Definition set_num_write_requests (v : Z -> Z) (r : mstats) : mstats :=
  mk_mstats (num_dram_cycles r) (num_incoming_requests r) (num_read_requests r) v (incoming_requests_per_channel r) (incoming_read_reqs_per_channel r) (ramulator_active_cycles r) (in_queue_req_num_sum r) (in_queue_read_req_num_sum r) (in_queue_write_req_num_sum r).
Definition set_incoming_requests_per_channel (v : Z -> Z) (r : mstats) : mstats :=
  mk_mstats (num_dram_cycles r) (num_incoming_requests r) (num_read_requests r) (num_write_requests r) v (incoming_read_reqs_per_channel r) (ramulator_active_cycles r) (in_queue_req_num_sum r) (in_queue_read_req_num_sum r) (in_queue_write_req_num_sum r).
Definition set_incoming_read_reqs_per_channel (v : Z -> Z) (r : mstats) : mstats :=
  mk_mstats (num_dram_cycles r) (num_incoming_requests r) (num_read_requests r) (num_write_requests r) (incoming_requests_per_channel r) v (ramulator_active_cycles r) (in_queue_req_num_sum r) (in_queue_read_req_num_sum r) (in_queue_write_req_num_sum r).
Definition set_ramulator_active_cycles (v : Z) (r : mstats) : mstats :=
  mk_mstats (num_dram_cycles r) (num_incoming_requests r) (num_read_requests r) (num_write_requests r) (incoming_requests_per_channel r) (incoming_read_reqs_per_channel r) v (in_queue_req_num_sum r) (in_queue_read_req_num_sum r) (in_queue_write_req_num_sum r).
Definition set_in_queue_req_num_sum (v : Z) (r : mstats) : mstats :=
  mk_mstats (num_dram_cycles r) (num_incoming_requests r) (num_read_requests r) (num_write_requests r) (incoming_requests_per_channel r) (incoming_read_reqs_per_channel r) (ramulator_active_cycles r) v (in_queue_read_req_num_sum r) (in_queue_write_req_num_sum r).
Definition set_in_queue_read_req_num_sum (v : Z) (r : mstats) : mstats :=
  mk_mstats (num_dram_cycles r) (num_incoming_requests r) (num_read_requests r) (num_write_requests r) (incoming_requests_per_channel r) (incoming_read_reqs_per_channel r) (ramulator_active_cycles r) (in_queue_req_num_sum r) v (in_queue_write_req_num_sum r).
Definition set_in_queue_write_req_num_sum (v : Z) (r : mstats) : mstats :=
  mk_mstats (num_dram_cycles r) (num_incoming_requests r) (num_read_requests r) (num_write_requests r) (incoming_requests_per_channel r) (incoming_read_reqs_per_channel r) (ramulator_active_cycles r) (in_queue_req_num_sum r) (in_queue_read_req_num_sum r) v.
Definition mstats_new : mstats :=
  mk_mstats 0 0 (fun _ => 0) (fun _ => 0) (fun _ => 0) (fun _ => 0) 0 0 0 0.

(** A mapping is one of the two orders of slicing, or the scheme of a mapping
    file: the source bits of each bit of each level
    ([mapping_scheme[level][bit]], empty where the file names none). *)
Inductive Mapping : Type := Sliced (t : MapType) | FromFile (scheme : nat -> nat -> list Z).

Record Mem (C S : Type) : Type := mk_Mem {
  ctrls : list (Ctrl C S);
  addr_bits : list Z;
  tx_bits : Z;
  mapping : Mapping;
  m_stats : mstats
}.
Arguments mk_Mem {C S}.
Arguments ctrls {C S} _.
Arguments addr_bits {C S} _.
Arguments tx_bits {C S} _.
Arguments mapping {C S} _.
Arguments m_stats {C S} _.

Section Setters.
Context {C S : Type}.
Definition put_ctrls (v : list (Ctrl C S)) (r : Mem C S) : Mem C S :=
  mk_Mem v (addr_bits r) (tx_bits r) (mapping r) (m_stats r).
Definition put_m_stats (v : mstats) (r : Mem C S) : Mem C S :=
  mk_Mem (ctrls r) (addr_bits r) (tx_bits r) (mapping r) v.
End Setters.

(** ** The mapping of a file *)

Definition xor_bits (addr : Z) (src : list Z) : bool :=
  fold_left (fun v b => xorb v (get_bit_at addr b)) src false.
(** The bits of a level, lowest first, or-ed into an [int] *)
Definition bits_of_level (addr : Z) (src : nat -> list Z) (n : nat) : Z :=
  fold_left (fun v b => Z.lor v (s32 (Z.shiftl (Z.b2z (xor_bits addr (src b))) (Z.of_nat b)))) (seq 0 n) 0.
(** The number of bits of each level; [sizeof(addr_vec)] is that of a
    [std::vector], 24 bytes. *)
Definition file_bits (sz : list Z) (row : nat) : list Z :=
  let total := 24 * 8 - foldr Z.add 0 (imap (fun i n => if (i =? row)%nat then 0 else calc_log2 n) sz) in
  <[row := Z.min 32 (Z.max total (calc_log2 (nth row sz 0)))]> (map calc_log2 sz).
(** [apply_mapping(addr, addr_vec)] *)
Definition apply_mapping (sz : list Z) (row : nat) (scheme : nat -> nat -> list Z) (addr : Z) : list Z :=
  imap (fun lvl n => bits_of_level addr (scheme lvl) (Z.to_nat n)) (file_bits sz row).

Section Memory.
Context {C S : Type} `{EqDecision C} (std : Std C S).
#[local] Abbreviation Ctrl := (Ctrl C S).
#[local] Abbreviation Mem := (Mem C S).

(** The sizes of the levels, [spec->org_entry.count] *)
Definition level_sizes : list Z := map (count (sp std)) (seq 0 (levels std)).

(** The constructor: the mapping of addresses of [ctrls] *)
Definition Memory_new (mp : Mapping) (cs : list Ctrl) : res Mem :=
  let! (bits, tx) := mapping_bits level_sizes (prefetch_size std) (channel_width std) in
  Ok (mk_Mem cs bits tx mp mstats_new).

(** ** Sending *)

(** The coordinates of an address *)
Definition locate (m : Mem) (addr : Z) : list Z :=
  match mapping m with
  | Sliced t => addr_vec_of t (addr_bits m) (row_level (sp std)) (tx_bits m) addr
  | FromFile scheme => apply_mapping level_sizes (row_level (sp std)) scheme (clear_lower_bits addr (tx_bits m))
  end.

Definition tally_send (r : Request) (s : mstats) : mstats :=
  let ch := nth 0 (rq_addr_vec r) 0 in
  let s := set_num_incoming_requests (num_incoming_requests s + 1) s in
  let s := if ReqType_eqb (rq_type r) READ then
             set_incoming_read_reqs_per_channel (tally ch (incoming_read_reqs_per_channel s))
               (set_num_read_requests (tally (rq_coreid r) (num_read_requests s)) s)
           else s in
  let s := if ReqType_eqb (rq_type r) WRITE then
             set_num_write_requests (tally (rq_coreid r) (num_write_requests s)) s
           else s in
  set_incoming_requests_per_channel (tally ch (incoming_requests_per_channel s)) s.

(** [send(req)]; a channel that is not there is an access out of range. *)
Definition send (r : Request) (m : Mem) : res (bool * Mem) :=
  let r := set_addr_vec (locate m (rq_addr r)) r in
  let k := Z.to_nat (nth 0 (rq_addr_vec r) 0) in
  match ctrls m !! k with
  | None => Abort "ctrls[req.addr_vec[0]]"
  | Some c =>
      let '(ok, c) := enqueue r c in
      let m := put_ctrls (<[k := c]> (ctrls m)) m in
      Ok (ok, if ok then put_m_stats (tally_send r (m_stats m)) m else m)
  end.

(** ** Ticking *)

(** The lengths of the queues of the channels *)
Definition sum_of (f : Ctrl -> nat) (l : list Ctrl) : Z := foldr (fun c n => Z.of_nat (f c) + n) 0 l.
Definition tally_tick (m : Mem) : Mem :=
  let s := m_stats m in
  let len (f : Ctrl -> list Request) := sum_of (fun c => length (f c)) (ctrls m) in
  let rd := len readq + len pending in
  let wr := len writeq in
  put_m_stats
    (set_num_dram_cycles (num_dram_cycles s + 1)
      (set_in_queue_req_num_sum (in_queue_req_num_sum s + (rd + wr))
        (set_in_queue_read_req_num_sum (in_queue_read_req_num_sum s + rd)
          (set_in_queue_write_req_num_sum (in_queue_write_req_num_sum s + wr) s)))) m.

(** The controllers in their order: whether one was active before its tick,
    and what they completed *)
Fixpoint tick_ctrls (l : list Ctrl) : res (bool * list Ctrl * list Request) :=
  match l with
  | [] => Ok (false, [], [])
  | c :: l =>
      let act := is_active c in
      let! (c, d) := tick std c in
      let! (act', l, d') := tick_ctrls l in
      Ok (act || act', c :: l, d ++ d')
  end.

(** [tick()] *)
Definition mem_tick (m : Mem) : res (Mem * list Request) :=
  let m := tally_tick m in
  let! (act, l, done) := tick_ctrls (ctrls m) in
  let m := put_ctrls l m in
  let s := m_stats m in
  Ok (if (act : bool) then put_m_stats (set_ramulator_active_cycles (ramulator_active_cycles s + 1) s) m else m, done).

(** [pending_requests()] *)
Definition pending_requests (m : Mem) : Z :=
  sum_of (fun c => length (readq c) + length (writeq c) + length (otherq c) + length (actq c) + length (pending c))%nat (ctrls m).

(** [set_high_writeq_watermark(watermark)] and [set_low_writeq_watermark]:
    the marks of [Ctrl] are lengths. *)
Definition set_high_writeq_watermark (mark : Z) (m : Mem) : Mem := put_ctrls (map (put_high_mark mark) (ctrls m)) m.
Definition set_low_writeq_watermark (mark : Z) (m : Mem) : Mem := put_ctrls (map (put_low_mark mark) (ctrls m)) m.

(** ** Runs

    Requests sent, of which the accepted ones are collected with their
    coordinates, and ticks, whose completed requests are collected. *)
Implicit Types m : Mem.
Inductive mop : Type := MSend (r : Request) | MTick.
Definition mstep (o : mop) m : res (Mem * list Request * list Request) :=
  match o with
  | MSend r =>
      let! (ok, m') := send r m in
      Ok (m', if (ok : bool) then [set_addr_vec (locate m (rq_addr r)) r] else [], [])
  | MTick => let! (m, done) := mem_tick m in Ok (m, [], done)
  end.
Fixpoint mrun (ops : list mop) m : res (Mem * list Request * list Request) :=
  match ops with
  | [] => Ok (m, [], [])
  | o :: ops =>
      let! (m, acc, done) := mstep o m in
      let! (m, acc', done') := mrun ops m in
      Ok (m, acc ++ acc', done ++ done')
  end.

(** ** The channels of a run *)

(** The channel of a request with its coordinates *)
Definition chan (r : Request) : nat := Z.to_nat (nth 0 (rq_addr_vec r) 0).
(** What the controller of channel [k] is asked, [loc] being the mapping *)
Definition project_op (loc : Z -> list Z) (k : nat) (o : mop) : list op :=
  match o with
  | MSend r => let r := set_addr_vec (loc (rq_addr r)) r in if (chan r =? k)%nat then [Send r] else []
  | MTick => [Tick]
  end.
Definition project (loc : Z -> list Z) (k : nat) (ops : list mop) : list op := flat_map (project_op loc k) ops.

Lemma run_app ops1 ops2 (c : Ctrl) : run std (ops1 ++ ops2) c =
  let! (c, a, d) := run std ops1 c in
  let! (c, a', d') := run std ops2 c in Ok (c, a ++ a', d ++ d').
Proof.
  revert c. induction ops1 as [|o ops1 IH]; intros c; cbn [app run bind].
  - by destruct (run std ops2 c) as [[[? ?] ?]|].
  - destruct (step std o c) as [[[c1 a1] d1]|]; cbn [bind]; [|done]. rewrite IH.
    destruct (run std ops1 c1) as [[[c2 a2] d2]|]; cbn [bind]; [|done].
    destruct (run std ops2 c2) as [[[c3 a3] d3]|]; cbn [bind]; [|done]. by rewrite !app_assoc.
Qed.

(** The mapping of a memory does not change. *)
Definition same_map m m' : Prop := mapping m' = mapping m /\ addr_bits m' = addr_bits m /\ tx_bits m' = tx_bits m.
Lemma locate_same m m' addr : same_map m m' -> locate m' addr = locate m addr.
Proof. intros (E1 & E2 & E3). unfold locate. by rewrite E1, E2, E3. Qed.

Lemma tick_ctrls_ok l : forall act l' d, tick_ctrls l = Ok (act, l', d) -> exists ds : nat -> list Request,
  length l' = length l /\ d = concat (map ds (seq 0 (length l))) /\
  forall k c, l !! k = Some c -> exists c', l' !! k = Some c' /\ tick std c = Ok (c', ds k).
Proof.
  induction l as [|c l IH]; intros act l' d E; cbn [tick_ctrls] in E.
  { injection E as <- <- <-. by exists (fun _ => []). }
  apply bind_ok_inv in E as ([c1 d1] & Ec & E). apply bind_ok_inv in E as ([[a2 l2] d2] & El & E). injection E as <- <- <-.
  destruct (IH _ _ _ El) as (ds & Hl & -> & Hds).
  exists (fun k => match k with O => d1 | Datatypes.S k => ds k end). split; [cbn; lia|]. split.
  - cbn [length seq map concat]. by rewrite <- seq_shift, map_map.
  - intros [|k] x Hx; cbn in Hx; [|by apply Hds]. injection Hx as <-. by exists c1.
Qed.
Lemma tick_ctrls_abort l e : tick_ctrls l = Abort e -> exists k c, l !! k = Some c /\ tick std c = Abort e.
Proof.
  induction l as [|c l IH]; cbn [tick_ctrls]; [done|].
  destruct (tick std c) as [[c1 d1]|e1] eqn:Ec; cbn [bind]; [|intros [= <-]; by exists 0%nat, c].
  destruct (tick_ctrls l) as [[[a2 l2] d2]|e2]; cbn [bind]; [done|]. intros E. injection E as <-.
  destruct (IH eq_refl) as (k & x & Hk & Ex). by exists (Datatypes.S k), x.
Qed.

(** Lists of lists, one per channel *)
Lemma concat_none {A} (l : list nat) : concat (map (fun _ => @nil A) l) = [].
Proof. by induction l. Qed.
Lemma concat_both {A} (f g : nat -> list A) l :
  concat (map (fun k => f k ++ g k) l) ≡ₚ concat (map f l) ++ concat (map g l).
Proof.
  induction l as [|k l IH]; cbn [map concat]; [done|]. rewrite IH, <- !app_assoc. f_equiv.
  rewrite !app_assoc. f_equiv. apply Permutation_app_comm.
Qed.
Lemma sublist_concat {A} (f : nat -> list A) k l : In k l -> f k `sublist_of` concat (map f l).
Proof.
  induction l as [|j l IH]; [done|]. cbn [map concat]. intros [->|Hk]; [by apply sublist_inserts_r|by apply sublist_inserts_l, IH].
Qed.

(** What a part of the memory's run is on the channels *)
Record projected (os : nat -> list op) m m' (acc done : list Request) : Prop := {
  pr_map : same_map m m';
  pr_len : length (ctrls m') = length (ctrls m);
  pr_run : exists ds : nat -> list Request,
    done ≡ₚ concat (map ds (seq 0 (length (ctrls m)))) /\
    (forall k, (k < length (ctrls m))%nat -> ds k `sublist_of` done) /\
    forall k c, ctrls m !! k = Some c ->
      exists c', ctrls m' !! k = Some c' /\ run std (os k) c = Ok (c', filter (fun r => chan r = k) acc, ds k)
}.

Lemma mstep_project o m m' acc done : mstep o m = Ok (m', acc, done) ->
  projected (fun k => project_op (locate m) k o) m m' acc done.
Proof.
  destruct o as [r|]; cbn [mstep]; intros E.
  - apply bind_ok_inv in E as ([ok m1] & E & E'). injection E' as <- <- <-. unfold send in E. cbv zeta in E.
    set (r' := set_addr_vec (locate m (rq_addr r)) r) in *. fold (chan r') in E.
    destruct (ctrls m !! chan r') as [c|] eqn:Ec; [|done]. destruct (enqueue r' c) as [ok1 c1] eqn:Eq. injection E as <- <-.
    assert (Hm : forall b s, same_map m (if (b : bool) then put_m_stats s (put_ctrls (<[chan r' := c1]> (ctrls m)) m) else put_ctrls (<[chan r' := c1]> (ctrls m)) m) /\
      ctrls (if b then put_m_stats s (put_ctrls (<[chan r' := c1]> (ctrls m)) m) else put_ctrls (<[chan r' := c1]> (ctrls m)) m) = <[chan r' := c1]> (ctrls m)) by (by intros []).
    destruct (Hm ok1 (tally_send r' (m_stats m))) as [Hm1 Hm2]. split; [exact Hm1|by rewrite Hm2, length_insert|]. rewrite Hm2.
    exists (fun _ => []). split; [by rewrite concat_none|]. split; [done|]. intros k x Hx. cbn [project_op]. fold r'.
    destruct (Nat.eqb_spec (chan r') k) as [<-|Hk].
    + rewrite Ec in Hx. injection Hx as <-. exists c1. rewrite list_lookup_insert_eq by (by eapply lookup_lt_Some).
      split; [done|]. cbn [run step]. rewrite Eq. cbn [bind]. rewrite !app_nil_r. destruct ok1; [|done].
      by rewrite filter_cons_True.
    + exists x. rewrite list_lookup_insert_ne by done. split; [done|]. cbn [run]. destruct ok1; [|done].
      by rewrite filter_cons_False.
  - apply bind_ok_inv in E as ([m1 d] & E & E'). injection E' as <- <- <-. unfold mem_tick in E.
    apply bind_ok_inv in E as ([[act l] d1] & E & E'). injection E' as <- <-. change (ctrls (tally_tick m)) with (ctrls m) in E.
    apply tick_ctrls_ok in E as (ds & Hl & -> & Hds).
    split; [by destruct act|by destruct act|]. exists ds. split; [done|]. split.
    + intros k Hk. apply sublist_concat, in_seq. lia.
    + intros k c Hc. destruct (Hds k c Hc) as (c' & Hc' & Et). exists c'. split; [by destruct act|].
      cbn [project_op run step]. rewrite Et. cbn [bind]. by rewrite !app_nil_r.
Qed.

Lemma project_same m m' k ops : same_map m m' -> project (locate m') k ops = project (locate m) k ops.
Proof.
  intros Hm. unfold project. induction ops as [|o ops IH]; [done|]. cbn [flat_map]. rewrite IH. f_equal.
  destruct o as [r|]; [|done]. cbn [project_op]. by rewrite (locate_same m m').
Qed.

Lemma mrun_project ops : forall m m' acc done, mrun ops m = Ok (m', acc, done) ->
  projected (fun k => project (locate m) k ops) m m' acc done.
Proof.
  induction ops as [|o ops IH]; intros m m' acc done E; cbn [mrun] in E.
  { injection E as <- <- <-. split; [done|done|]. exists (fun _ => []). rewrite concat_none. split_and!; try done. eauto. }
  apply bind_ok_inv in E as ([[m1 a1] d1] & E1 & E). apply bind_ok_inv in E as ([[m2 a2] d2] & E2 & E). injection E as <- <- <-.
  destruct (mstep_project _ _ _ _ _ E1) as [Hm1 Hl1 (ds1 & Hp1 & Hs1 & Hr1)].
  destruct (IH _ _ _ _ E2) as [Hm2 Hl2 (ds2 & Hp2 & Hs2 & Hr2)]. rewrite Hl1 in *.
  split; [by unfold same_map in *; intuition congruence|congruence|]. exists (fun k => ds1 k ++ ds2 k). split_and!.
  - by rewrite concat_both, Hp1, Hp2.
  - intros k Hk. apply sublist_app; auto.
  - intros k c Hc. destruct (Hr1 k c Hc) as (c1 & Hc1 & Er1). destruct (Hr2 k c1 Hc1) as (c2 & Hc2 & Er2).
    rewrite (project_same m m1) in Er2 by done.
    exists c2. split; [done|]. change (project (locate m) k (o :: ops)) with (project_op (locate m) k o ++ project (locate m) k ops).
    rewrite run_app, Er1. cbn [bind]. rewrite Er2. cbn [bind]. by rewrite filter_app.
Qed.

(** An assertion that fails fails on a channel, or the address has none. *)
Lemma mstep_abort o m e : mstep o m = Abort e ->
  (exists k c, ctrls m !! k = Some c /\ run std (project_op (locate m) k o) c = Abort e) \/
  (exists r, o = MSend r /\ (length (ctrls m) <= chan (set_addr_vec (locate m (rq_addr r)) r))%nat).
Proof.
  destruct o as [r|]; cbn [mstep]; intros E.
  - right. exists r. split; [done|]. unfold send in E. cbv zeta in E. set (r' := set_addr_vec _ r) in *. fold (chan r') in E.
    destruct (ctrls m !! chan r') as [c|] eqn:Ec; [by destruct (enqueue r' c)|]. by apply lookup_ge_None_1.
  - left. unfold mem_tick in E. change (ctrls (tally_tick m)) with (ctrls m) in E.
    destruct (tick_ctrls (ctrls m)) as [[[a l] d]|e1] eqn:Et; cbn [bind] in E; [done|]. injection E as ->.
    apply tick_ctrls_abort in Et as (k & c & Hk & Ec). exists k, c. split; [done|]. cbn [project_op run step]. by rewrite Ec.
Qed.

Lemma mrun_abort ops : forall m e, mrun ops m = Abort e ->
  (exists k c, ctrls m !! k = Some c /\ run std (project (locate m) k ops) c = Abort e) \/
  (exists r, In (MSend r) ops /\ (length (ctrls m) <= chan (set_addr_vec (locate m (rq_addr r)) r))%nat).
Proof.
  induction ops as [|o ops IH]; intros m e E; [done|]. cbn [mrun] in E.
  assert (Hcons : forall k, project (locate m) k (o :: ops) = project_op (locate m) k o ++ project (locate m) k ops) by done.
  destruct (mstep o m) as [[[m1 a1] d1]|e1] eqn:E1; cbn [bind] in E.
  - destruct (mstep_project _ _ _ _ _ E1) as [Hm1 Hl1 (ds & _ & _ & Hr)].
    destruct (mrun ops m1) as [[[m2 a2] d2]|e2] eqn:E2; cbn [bind] in E; [done|]. injection E as ->.
    destruct (IH _ _ E2) as [(k & c1 & Hk & Ek)|(r & Hr' & Hlen)].
    + left. destruct (lookup_lt_is_Some_2 (ctrls m) k) as [c Hc]; [by rewrite <- Hl1; eapply lookup_lt_Some|].
      destruct (Hr k c Hc) as (c1' & Hc1 & Er). rewrite Hk in Hc1. injection Hc1 as <-.
      exists k, c. split; [done|]. rewrite Hcons, run_app, Er. cbn [bind]. by rewrite <- (project_same m m1), Ek.
    + right. exists r. split; [by right|]. by rewrite <- Hl1, <- (locate_same m m1).
  - injection E as ->. apply mstep_abort in E1 as [(k & c & Hk & Ek)|(r & -> & Hr)].
    + left. exists k, c. split; [done|]. by rewrite Hcons, run_app, Ek.
    + right. exists r. split; [by left|done].
Qed.

(** C20: the memory is its channels.  Whatever requests are sent and however
    often it is ticked, the memory does on every channel exactly what that
    channel's controller does with the requests whose address maps to the
    channel and with all the ticks: the controller ends in the same state,
    has accepted the requests the memory accepted for it, and completes what
    the memory completes for it, in the same order; nothing else is
    completed.  When an assertion fails, it fails in such a run of one
    channel, or a request was sent to an address that maps to no channel. *)
Theorem memory_refines_channels ops m :
  match mrun ops m with
  | Ok (m', acc, done) =>
      length (ctrls m') = length (ctrls m) /\
      exists ds : nat -> list Request,
        done ≡ₚ concat (map ds (seq 0 (length (ctrls m)))) /\
        forall k c, ctrls m !! k = Some c -> ds k `sublist_of` done /\
          exists c', ctrls m' !! k = Some c' /\
            run std (project (locate m) k ops) c = Ok (c', filter (fun r => chan r = k) acc, ds k)
  | Abort e =>
      (exists k c, ctrls m !! k = Some c /\ run std (project (locate m) k ops) c = Abort e) \/
      (exists r, In (MSend r) ops /\ (length (ctrls m) <= chan (set_addr_vec (locate m (rq_addr r)) r))%nat)
  end.
Proof.
  destruct (mrun ops m) as [[[m' acc] done]|e] eqn:E; [|by apply mrun_abort].
  apply mrun_project in E as [_ Hl (ds & Hp & Hs & Hr)]. split; [done|]. exists ds. split; [done|].
  intros k c Hc. split; [by eapply Hs, lookup_lt_Some|by apply Hr].
Qed.
End Memory.
