(* ===== verification/Ddr4Memory.v ===== *)
(** * The DDR4 memory of the simulator

    [RamDevice::ramulator_init] and [DirectAttached::ramulator_init]: the
    memory both kinds of device build, and that no address makes one of its
    assertions fail. *)
From Stdlib Require Import ZArith Lia Bool String.
From stdpp Require Import base list gmap.
From S2P Require Import Prelude RamIf Dram DramTiming DramState Ddr4 Ddr4Run AddrMap Sched Controller CtrlRun Ddr4Ctrl Ddr4Safe Memory.
Import DDR4.

(** [ramulator_init()] up to the names of files: the standard and the memory
    of [channels] channels of [ranks] ranks. *)
Definition ramulator_init (channels ranks : Z) (org : Org) (speed : Speed)
    : res (Std Command State * Mem Command State) :=
  let! (o, s) := DDR4.new org speed in
  let o := set_rank_number ranks (set_channel_number channels o) in
  let std := ddr4_std o s in
  let cs := map (fun k => Ctrl_new (channel (spec_of o s) (Z.of_nat k))) (seq 0 (Z.to_nat channels)) in
  let! m := Memory_new std (Sliced RoBaRaCoCh) cs in
  Ok (std, m).

(** ** The configurations *)

Lemma power_of_2_ok z : 0 < z < 2 ^ 31 -> power_of_2 z = true -> is_pow2 z.
Proof.
  intros Hz E. apply Z.eqb_eq in E. exists (Z.log2 z). pose proof (Z.log2_spec z ltac:(lia)) as Hl.
  pose proof (Z.log2_nonneg z). pose proof (Z.pow_pos_nonneg 2 (Z.log2 z)). split.
  { split; [done|]. apply (Z.log2_lt_pow2 z 31); lia. }
  destruct (Z.eq_dec z (2 ^ Z.log2 z)) as [|Hne]; [done|]. exfalso.
  assert (Hk : Z.log2 (z - 1) = Z.log2 z) by (apply Z.log2_unique; lia).
  apply (f_equal (fun x => Z.testbit x (Z.log2 z))) in E. rewrite Z.land_spec, Z.bits_0, Z.bit_log2 in E by lia.
  rewrite <- Hk, Z.bit_log2 in E by lia. done.
Qed.

(** The sizes of a memory: the channels, the ranks and the table's entry *)
Lemma new_sizes org speed o s : DDR4.new org speed = Ok (o, s) ->
  0 < read_latency s /\ exists g b r c, count o = [0; 0; g; b; r; c] /\ Forall is_pow2 [g; b; r; c] /\ prefetch_size <= c.
Proof.
  assert (P : forall k, 0 <= k < 31 -> is_pow2 (2 ^ k)) by (intros k Hk; by exists k).
  intros E. destruct org, speed; vm_compute in E; injection E as <- <-; (split; [reflexivity|]);
    do 4 eexists; (split; [reflexivity|]); (split; [|discriminate]); repeat constructor;
    match goal with |- is_pow2 ?z => let k := eval vm_compute in (Z.log2 z) in change z with (2 ^ k) end;
    apply P; lia.
Qed.

Section Safe.
Context (channels ranks : Z) (org : Org) (speed : Speed) (std : Std Command State) (m : Mem Command State).
Hypothesis channels_ok : 0 < channels < 2 ^ 31.
Hypothesis ranks_ok : 0 < ranks < 2 ^ 31.
Hypothesis init_ok : ramulator_init channels ranks org speed = Ok (std, m).

(** The memory that is built *)
Record built (o : OrgEntry) (s : SpeedEntry) : Prop := {
  bt_std : std = ddr4_std o s;
  bt_ctrls : ctrls m = map (fun k => Ctrl_new (channel (spec_of o s) (Z.of_nat k))) (seq 0 (Z.to_nat channels));
  bt_latency : 0 < read_latency s;
  bt_mapping : mapping m = Sliced RoBaRaCoCh;
  bt_len : length (addr_bits m) = 6%nat;
  bt_pos : Forall (fun b => 0 <= b) (addr_bits m);
  bt_chan : 2 ^ nth 0 (addr_bits m) 0 = channels;
  bt_count l : (0 < l < 4)%nat -> 2 ^ nth l (addr_bits m) 0 = nth l (count o) 0
}.
Lemma memory_built : exists o s, built o s.
Proof.
  unfold ramulator_init in init_ok. apply bind_ok_inv in init_ok as ([o s] & Eo & E).
  apply bind_ok_inv in E as (m1 & E & E'). injection E' as Es Em.
  unfold Memory_new in E. apply bind_ok_inv in E as ([bits tx] & Eb & E). injection E as <-.
  apply new_sizes in Eo as (Hlat & g & b & r & c & Ho & Hpow & Hc).
  exists (set_rank_number ranks (set_channel_number channels o)), s.
  assert (Hsz : level_sizes (ddr4_std (set_rank_number ranks (set_channel_number channels o)) s) = [channels; ranks; g; b; r; c]).
  { unfold level_sizes, levels. cbn. by rewrite Ho. }
  rewrite Hsz in Eb. cbn [prefetch_size channel_width ddr4_std Sched.prefetch_size Sched.channel_width] in Eb.
  assert (Hp : Forall is_pow2 [channels; ranks; g; b; r; c]).
  { unfold mapping_bits in Eb. cbn [nth] in Eb.
    destruct (power_of_2 channels) eqn:E1; [|done]. destruct (power_of_2 ranks) eqn:E2; [|done].
    constructor; [by apply power_of_2_ok|]. constructor; [by apply power_of_2_ok|done]. }
  assert (Hpre : is_pow2 prefetch_size) by (exists 3; split; [lia|reflexivity]).
  destruct (mapping_ok _ _ _ _ _ Eb Hp Hpre Hc eq_refl) as (_ & -> & _).
  destruct (level_bits _ _ Hp Hpre Hc) as (_ & Hpos & Hlev).
  split; rewrite <- ?Em; try done.
  - exact (Hlev 0%nat ltac:(cbn; lia)).
  - intros l Hl. etransitivity; [exact (Hlev l ltac:(cbn; lia))|]. cbn [count set_rank_number set_channel_number]. rewrite Ho.
    destruct l as [|[|[|[|]]]]; try lia; reflexivity.
Qed.

(** The coordinates of an address are those of a row of its channel. *)
Lemma located_coords o s addr : built o s -> let v := locate std m addr in
  0 <= nth 0 v 0 < channels /\ exists a g b row, coords o s (nth 0 v 0) v a g b row.
Proof using Type.
  intros H v. assert (Hv : forall l, (l < 6)%nat -> 0 <= nth l v 0 < 2 ^ nth l (addr_bits m) 0).
  { intros l Hl. subst v. unfold locate. rewrite (bt_mapping _ _ H), (bt_std _ _ H).
    apply vec_range; [apply H|by rewrite (bt_len _ _ H)|by rewrite (bt_len _ _ H)]. }
  assert (Hl : length v = 6%nat).
  { subst v. unfold locate. rewrite (bt_mapping _ _ H), vec_length. apply H. }
  pose proof (Hv 0%nat ltac:(lia)) as H0. rewrite (bt_chan _ _ H) in H0. split; [done|].
  pose proof (Hv 1%nat ltac:(lia)) as H1. pose proof (Hv 2%nat ltac:(lia)) as H2. pose proof (Hv 3%nat ltac:(lia)) as H3.
  rewrite (bt_count _ _ H) in H1, H2, H3 by lia.
  exists (Z.to_nat (nth 1 v 0)), (Z.to_nat (nth 2 v 0)), (Z.to_nat (nth 3 v 0)), (nth 4 v 0). split.
  - exists (nth 5 v 0). clear Hv. destruct v as [|v0 [|v1 [|v2 [|v3 [|v4 [|v5 [|]]]]]]]; try done. cbn [nth] in *.
    by rewrite !Z2Nat.id by lia.
  - unfold cnt, Rank. cbn [Dram.count spec_of]. lia.
  - unfold cnt, BankGroup. cbn [Dram.count spec_of]. lia.
  - unfold cnt, Bank. cbn [Dram.count spec_of]. lia.
Qed.

(** A read or a write as a device makes it *)
Definition fresh_rw (o : mop) : Prop := match o with MSend r => is_rw r = true /\ rq_first r = true | MTick => True end.

(** The memory after calls: the mapping is that of the constructor and every
    channel keeps the invariant of its controller. *)
Record mem_ok (o : OrgEntry) (s : SpeedEntry) (m1 : Mem Command State) : Prop := {
  mo_map : same_map m m1;
  mo_len : length (ctrls m1) = Z.to_nat channels;
  mo_ctrl k c : ctrls m1 !! k = Some c -> ctrl_ok o s (Z.of_nat k) 0 c
}.

Lemma mem_new_ok o s : built o s -> mem_ok o s m.
Proof using Type.
  intros H. split; [done|by rewrite (bt_ctrls _ _ H), length_map, length_seq|]. intros k c.
  rewrite (bt_ctrls _ _ H), list_lookup_fmap. intros (j & Hj & ->)%fmap_Some.
  apply lookup_seq in Hj as [-> _]. exact (ctrl_new o s (Z.of_nat k) FRFCFS_Cap).
Qed.
Lemma mark_ok o s z m1 : mem_ok o s m1 -> mem_ok o s (set_high_writeq_watermark z m1).
Proof using Type.
  intros [H1 H2 H3]. split; [done|by cbn; rewrite length_map|]. cbn. intros k c. rewrite list_lookup_fmap.
  intros (c1 & Hc & ->)%fmap_Some. destruct (H3 k c1 Hc) as [G1 G2 G3 [] G5 G6 G7 G8 G9]. split; done || by split.
Qed.

Lemma project_valid o s k ops m1 : built o s -> same_map m m1 -> Forall fresh_rw ops ->
  Forall (fun x => match x with Send r => valid_send o s (Z.of_nat k) r | Tick => True end) (project (locate std m1) k ops).
Proof using Type.
  intros H Hm. rewrite (project_same std m m1) by done.
  induction 1 as [|op ops Hop Hops IH]; [constructor|]. unfold project. cbn [flat_map]. apply Forall_app. split; [|exact IH].
  destruct op as [r|]; cbn [project_op]; [|by constructor]. set (r' := set_addr_vec _ r).
  destruct (Nat.eqb_spec (chan r') k) as [<-|]; [|constructor]. apply Forall_singleton.
  destruct (located_coords o s (rq_addr r) H) as [Hch Hco]. destruct Hop as [Hrw Hf].
  split; [exact Hrw|]. split; [exact Hf|]. unfold chan. rewrite Z2Nat.id by apply Hch. exact Hco.
Qed.

(** A run keeps the invariant, or fails the assertion on refreshes. *)
Lemma mrun_fine o s ops m1 : built o s -> Forall fresh_rw ops -> mem_ok o s m1 ->
  fine (mrun std ops m1) (fun x => mem_ok o s (fst (fst x))).
Proof using Type.
  intros H Hops Hm. clear channels_ok ranks_ok init_ok. assert (Hrun : forall k c, ctrls m1 !! k = Some c ->
    fine (run std (project (locate std m1) k ops) c) (fun x => ctrl_ok o s (Z.of_nat k) 0 (fst (fst x)))).
  { intros k c Hc. rewrite (bt_std _ _ H) at 1.
    apply run_fine; [apply H|apply project_valid; [done|apply Hm|done]|by apply (mo_ctrl _ _ _ Hm)]. }
  destruct (mrun std ops m1) as [[[m' acc] d]|e] eqn:E; cbn.
  - apply mrun_project in E as [Hs Hl (ds & _ & _ & Hr)]. destruct Hm as [Hm1 Hm2 Hm3].
    split; [unfold same_map in *; intuition congruence|congruence|]. intros k c' Hc'.
    destruct (lookup_lt_is_Some_2 (ctrls m1) k) as [c Hc]; [by rewrite <- Hl; eapply lookup_lt_Some|].
    destruct (Hr k c Hc) as (c2 & Hc2 & Er). rewrite Hc' in Hc2. injection Hc2 as <-.
    specialize (Hrun k c Hc). by rewrite Er in Hrun.
  - apply mrun_abort in E as [(k & c & Hk & Ek)|(r & _ & Hlen)].
    + specialize (Hrun k c Hk). by rewrite Ek in Hrun.
    + exfalso. destruct (located_coords o s (rq_addr r) H) as [Hch _].
      rewrite (mo_len _ _ _ Hm), (locate_same std m m1) in Hlen by apply Hm. unfold chan in Hlen. cbn in Hlen. lia.
Qed.

(** A call *)
Lemma send_fine o s r m1 : built o s -> mem_ok o s m1 -> is_rw r = true -> rq_first r = true ->
  fine (send std r m1) (fun x => mem_ok o s (snd x)).
Proof using Type.
  intros H Hm H1 H2. pose proof (mrun_fine o s [MSend r] m1 H ltac:(by repeat constructor) Hm) as F.
  cbn [mrun mstep] in F. by destruct (send std r m1) as [[ok m2]|].
Qed.
Lemma mem_tick_fine o s m1 : built o s -> mem_ok o s m1 -> fine (mem_tick std m1) (fun x => mem_ok o s (fst x)).
Proof using Type.
  intros H Hm. pose proof (mrun_fine o s [MTick] m1 H ltac:(by repeat constructor) Hm) as F.
  cbn [mrun mstep] in F. by destruct (mem_tick std m1) as [[m2 d]|].
Qed.

(** C9: the DDR4 memory a device of the simulator builds, for every
    organisation and speed of the tables and every number of channels and
    ranks the constructor accepts: whatever addresses are read and written,
    negative ones and those past the capacity included, and however often the
    memory is ticked, every request goes to a controller that exists and no
    assertion of the mapping, of a controller, of its row table or of its
    device fails, but possibly the one that the queue of other requests has
    room for the refreshes of every rank; and on every channel the row table
    mirrors the device, all ranks are powered up and the counts of requests
    in service are right. *)
Theorem memory_safe ops : Forall fresh_rw ops ->
  match mrun std ops m with
  | Abort e => e = "res"%string
  | Ok (m', _, _) => length (ctrls m') = Z.to_nat channels /\
      forall k c, ctrls m' !! k = Some c ->
        mirror (Z.of_nat k) (rowtable c) (channel_of c) /\
        (forall j rk, node_at (channel_of c) [j] = Some rk -> state rk = PowerUp) /\
        (forall q x, node_at (channel_of c) q = Some x -> cur_serving_requests (stats x) = in_service c q)
  end.
Proof.
  intros Hops. destruct memory_built as (o & s & H). pose proof (mrun_fine o s ops m H Hops (mem_new_ok o s H)) as F.
  destruct (mrun std ops m) as [[[m' acc] d]|e]; [|done]. split; [apply F|].
  intros k c Hc. destruct (mo_ctrl _ _ _ F k c Hc) as [H1 H2 H3 _ _ _ _ _ _]. split; [done|]. split; [apply H1|].
  intros q x Hx. by apply H3.
Qed.
End Safe.
