(* ===== verification/MemRun.v ===== *)
(** * What a memory does with the requests of a device

    The reads and writes in a memory, as a multiset of what identifies them:
    an accepted request joins it, a tick moves what it completes out of it,
    and nothing else changes it. *)
From Stdlib Require Import ZArith Lia Bool String.
From stdpp Require Import base list gmap.
From S2P Require Import Prelude RamIf Dram Sched Controller CtrlRun AddrMap Memory.

(** The reads and writes of a list, by what identifies them *)
Definition rws (l : list Request) : list (Z * list Z * Z * Z * ReqType) :=
  map ident (filter (fun r => is_rw r = true) l).

Lemma rws_app l1 l2 : rws (l1 ++ l2) = rws l1 ++ rws l2.
Proof. unfold rws. by rewrite filter_app, map_app. Qed.
Lemma rws_cons r l : rws (r :: l) = (if is_rw r then [ident r] else []) ++ rws l.
Proof. unfold rws. rewrite filter_cons. by destruct (is_rw r). Qed.

(** Equal numbers of every request make equal multisets. *)
Lemma count_of_occ x l : count_of x l = Z.of_nat (count_occ (fun a b => decide (a = b)) (rws l) x).
Proof.
  induction l as [|r l IH]; [done|]. change (count_of x (r :: l)) with
    ((if is_rw r && bool_decide (ident r = x) then 1 else 0) + count_of x l). rewrite rws_cons, IH.
  destruct (is_rw r); cbn [andb app]; [|lia]. cbn [count_occ]. case_bool_decide; case_decide; try done; lia.
Qed.
Lemma rws_perm l1 l2 : (forall x, count_of x l1 = count_of x l2) -> rws l1 ≡ₚ rws l2.
Proof.
  intros H. apply (Permutation_count_occ (fun a b => decide (a = b))). intros x. apply Nat2Z.inj. by rewrite <- !count_of_occ.
Qed.

Section MemRun.
Context {C S : Type} `{EqDecision C} (std : Std C S).
#[local] Abbreviation Ctrl := (Ctrl C S).
#[local] Abbreviation Mem := (Mem C S).
Implicit Types m : Mem.

(** The requests of the memory *)
Definition flight m : list Request := flat_map in_flight (ctrls m).
Definition mem_rws m : list (Z * list Z * Z * Z * ReqType) := rws (flight m).

Lemma count_flat x (l : list Ctrl) k c c' : l !! k = Some c ->
  count_of x (flat_map in_flight (<[k := c']> l)) =
  count_of x (flat_map in_flight l) - count_of x (in_flight c) + count_of x (in_flight c').
Proof.
  revert k. induction l as [|y l IH]; intros [|k] Hk; try done; cbn in Hk.
  - injection Hk as ->. cbn [insert list_insert flat_map]. rewrite !count_of_app. lia.
  - change (<[Datatypes.S k := c']> (y :: l)) with (y :: <[k := c']> l). cbn [flat_map]. rewrite !count_of_app, (IH k) by done. lia.
Qed.

(** Sending: an accepted request joins the memory. *)
Lemma send_rws r m ok m' : send std r m = Ok (ok, m') ->
  mem_rws m' ≡ₚ (if ok then rws [set_addr_vec (locate std m (rq_addr r)) r] else []) ++ mem_rws m.
Proof.
  intros E. unfold send in E. cbv zeta in E. set (r' := set_addr_vec _ r) in *. destruct (ctrls m !! _) as [c|] eqn:Ec; [|done].
  destruct (enqueue r' c) as [ok1 c1] eqn:Eq. injection E as <- <-.
  assert (Hs : step std (Send r') c = Ok (c1, if ok1 then [r'] else [], [])) by (cbn [step]; by rewrite Eq).
  unfold mem_rws. replace (if ok1 then rws [r'] else []) with (rws (if ok1 then [r'] else [])) by (by destruct ok1).
  rewrite <- rws_app. apply rws_perm. intros x. apply (step_count std x) in Hs. change (count_of x []) with 0 in Hs.
  replace (flight (if ok1 then _ else _)) with (flat_map in_flight (<[Z.to_nat (nth 0 (rq_addr_vec r') 0) := c1]> (ctrls m)))
    by (by destruct ok1).
  rewrite count_of_app, (count_flat x _ _ c c1 Ec). unfold flight. lia.
Qed.

(** Ticking: what is completed leaves the memory. *)
Lemma tick_ctrls_count x l : forall act l' d, tick_ctrls std l = Ok (act, l', d) ->
  count_of x (flat_map in_flight l) = count_of x (flat_map in_flight l') + count_of x d.
Proof.
  induction l as [|c l IH]; intros act l' d E; cbn [tick_ctrls] in E; [by injection E as <- <- <-|].
  apply bind_ok_inv in E as ([c1 d1] & Ec & E). apply bind_ok_inv in E as ([[a2 l2] d2] & El & E). injection E as <- <- <-.
  assert (Hs : step std Tick c = Ok (c1, [], d1)) by (cbn [step]; by rewrite Ec).
  apply (step_count std x) in Hs. change (count_of x []) with 0 in Hs. apply IH in El.
  cbn [flat_map]. rewrite !count_of_app. lia.
Qed.
Lemma tick_rws m m' d : mem_tick std m = Ok (m', d) -> mem_rws m ≡ₚ rws d ++ mem_rws m'.
Proof.
  intros E. unfold mem_tick in E. apply bind_ok_inv in E as ([[act l] d1] & E & E'). injection E' as <- <-.
  change (ctrls (tally_tick m)) with (ctrls m) in E. unfold mem_rws. rewrite <- rws_app. apply rws_perm. intros x.
  apply (tick_ctrls_count x) in E. rewrite count_of_app. unfold flight. rewrite E.
  replace (ctrls (if act then _ else _)) with l by (by destruct act). lia.
Qed.

(** ** The queues of every channel *)
Definition mem_queues m : Prop := Forall queues_ok (ctrls m).

Lemma send_queues r m ok m' : send std r m = Ok (ok, m') -> mem_queues m -> mem_queues m'.
Proof.
  intros E Hm. unfold send in E. cbv zeta in E. destruct (ctrls m !! _) as [c|] eqn:Ec; [|done].
  destruct (enqueue _ c) as [ok1 c1] eqn:Eq. injection E as <- <-. unfold mem_queues.
  replace (ctrls (if ok1 then _ else _)) with (<[Z.to_nat (nth 0 (locate std m (rq_addr r)) 0) := c1]> (ctrls m)) by (by destruct ok1).
  apply Forall_insert; [done|]. eapply queues_enqueue; [exact Eq|]. by eapply Forall_lookup_1.
Qed.

(** What a controller completes are reads and writes. *)
Lemma tick_completes c c' d : tick std c = Ok (c', d) -> queues_ok c -> queues_ok c' /\ Forall (fun r => is_rw r = true) d.
Proof.
  intros E Hc. split; [by eapply (queues_step std Tick); [|cbn [step]; by rewrite E]|].
  apply tick_cases in E as (m & reads & l & _ & Hp & H).
  assert (Hr : Forall (fun r => is_rw r = true) reads).
  { pose proof (qk_pending _ Hc) as Hq. rewrite (pr_pending _ _ _ _ _ Hp) in Hq. apply Forall_app in Hq as [Hq _].
    eapply Forall_impl; [exact Hq|]. intros r E. unfold is_rw. by rewrite E. }
  destruct H as [(_ & _ & ->)|(k & i & r & cmd & w & _ & Hi & E & ->)]; [done|]. apply Forall_app. split; [done|].
  apply serve_request_ok in E as (m1 & _ & [(_ & _ & -> & _)|[(_ & _ & -> & _)|(_ & -> & _)]]); [constructor|constructor| |done].
  destruct (rq_type r) eqn:Et; try (by constructor). apply Forall_singleton. unfold is_rw. cbn. by rewrite Et.
Qed.
Lemma tick_queues m m' d : mem_tick std m = Ok (m', d) -> mem_queues m -> mem_queues m' /\ Forall (fun r => is_rw r = true) d.
Proof.
  intros E Hm. unfold mem_tick in E. apply bind_ok_inv in E as ([[act l] d1] & E & E'). injection E' as <- <-.
  change (ctrls (tally_tick m)) with (ctrls m) in E. unfold mem_queues in *.
  replace (ctrls (if act then _ else _)) with l by (by destruct act). clear -E Hm.
  revert act l d1 E. induction Hm as [|c cs Hc Hcs IH]; intros act l d1 E; cbn [tick_ctrls] in E.
  { injection E as <- <- <-. by split. }
  apply bind_ok_inv in E as ([c1 d2] & Ec & E). apply bind_ok_inv in E as ([[a2 l2] d3] & El & E). injection E as <- <- <-.
  apply IH in El as [Hl Hd]. apply tick_completes in Ec as [Hc1 Hd2]; [|done]. split; [by constructor|by apply Forall_app].
Qed.

(** The watermark changes neither. *)
Lemma mark_rws z m : mem_rws (set_high_writeq_watermark z m) = mem_rws m.
Proof.
  unfold mem_rws, flight. cbn [ctrls set_high_writeq_watermark put_ctrls]. f_equal. induction (ctrls m) as [|c l IH]; [done|].
  cbn [map flat_map]. by rewrite IH.
Qed.
Lemma mark_queues z m : mem_queues m -> mem_queues (set_high_writeq_watermark z m).
Proof. intros Hm. apply Forall_map. eapply Forall_impl; [exact Hm|]. intros c []. by split. Qed.
End MemRun.
