(* ===== verification/RamDevice.v ===== *)
(** * The memory device of a client

    [ramulator/src/RamDevice.{h,cpp}] and [ramulator/src/DirectAttached.cpp]:
    [update] takes requests from the input buffer one at a time, retries a
    request the memory did not accept, and ticks the memory.  The code is the
    same for the memory of a CXL device and for the direct-attached memory of
    a host but for what happens when a request is accepted and when it is
    completed; the class [MemClient] is that difference. *)
From Stdlib Require Import ZArith Lia Bool String.
From stdpp Require Import base list gmap.
From S2P Require Import Prelude RamIf Dram Sched Controller Memory.

(** [dramtrace_state], the memory, and the members that hold the request
    being sent.  ([end], [idle] and [is_sim_finished] are not read.) *)
Record RamState (C S : Type) : Type := mk_RamState {
  memory : Mem C S;
  cur : Z * ReqType * Z;
  stall : bool;
  reads : Z;
  writes : Z;
  clks : Z;
  status : status_type
}.
Arguments mk_RamState {C S}.
Arguments memory {C S} _.
Arguments cur {C S} _.
Arguments stall {C S} _.
Arguments reads {C S} _.
Arguments writes {C S} _.
Arguments clks {C S} _.
Arguments status {C S} _.

(** A client of a memory: its input buffer, what it does when request [id] is
    accepted and when a request is completed, at clock [clks] of the
    memory. *)
Class MemClient (D : Type) : Type := {
  client_buf : D -> CXL_if_buf;
  set_client_buf : CXL_if_buf -> D -> D;
  accepted (clks id : Z) : D -> res D;
  completed (clks : Z) (r : Request) : D -> res D
}.

Section RamDevice.
Context {C S : Type} `{EqDecision C} (std : Std C S) {D : Type} `{MemClient D}.
#[local] Abbreviation RamState := (RamState C S).
Implicit Types (s : RamState) (d : D).

(** [initialize_state()] and the end of [ramulator_init()] *)
Definition RamState_new (m : Mem C S) : RamState := mk_RamState m (0, READ, 0) false 0 0 0 VALID.

(** The request taken from the buffer, unless one is being retried *)
Definition fetch d s : D * RamState :=
  if negb (bool_decide (status s = END)) && negb (stall s) then
    let '(st, c, b) := get_dramtrace_request (cur s) (client_buf d) in
    (set_client_buf b d, mk_RamState (memory s) c (stall s) (reads s) (writes s) (clks s) st)
  else (d, s).

(** The request is offered to the memory. *)
Definition offer d s : res (D * RamState) :=
  let '(addr, type, req_id) := cur s in
  let! (ok, m) := send std (Request_new addr type req_id 0) (memory s) in
  let! d := if (ok : bool) then accepted (clks s) req_id d else Ok d in
  let rd := if ok && ReqType_eqb type READ then reads s + 1 else reads s in
  let wr := if ok && negb (ReqType_eqb type READ) && ReqType_eqb type WRITE then writes s + 1 else writes s in
  Ok (d, mk_RamState m (cur s) (negb ok) rd wr (clks s) (status s)).

Definition put_memory (m : Mem C S) s : RamState :=
  mk_RamState m (cur s) (stall s) (reads s) (writes s) (clks s) (status s).

(** The callbacks of a tick *)
Fixpoint complete_all (clk : Z) (l : list Request) d : res D :=
  match l with
  | [] => Ok d
  | r :: l => let! d := completed clk r d in complete_all clk l d
  end.

(** [RamDevice::update()] and [DirectAttached::update()]: [true] when the
    trace has ended and the memory is empty *)
Definition ram_update d s : res (bool * D * RamState) :=
  if negb (bool_decide (status s = END)) || negb (pending_requests (memory s) =? 0) then
    let '(d, s) := fetch d s in
    let! (d, s) :=
      match status s with
      | END => Ok (d, put_memory (set_high_writeq_watermark 0 (memory s)) s)
      | EMPTY => Ok (d, s)
      | VALID => offer d s
      end in
    let! (m, done) := mem_tick std (memory s) in
    let! d := complete_all (clks s) done d in
    Ok (false, d, mk_RamState m (cur s) (stall s) (reads s) (writes s) (clks s + 1) (status s))
  else Ok (true, d, s).
End RamDevice.
