(* ===== verification/RamRun.v ===== *)
(** * What an update of a memory device does

    For every client: requests go from the buffer to the memory in order,
    none twice and none skipped, whether or not the memory accepts them at
    the first attempt, and what the memory completes is called back. *)
From Stdlib Require Import ZArith Lia Bool String.
From stdpp Require Import base list gmap.
From S2P Require Import Prelude RamIf Dram Sched Controller CtrlRun Memory MemRun RamDevice.

(** Requests by number and type: in the buffer, waiting to be retried, in a
    memory, and completed *)
Definition is_rw_type (t : ReqType) : bool := ReqType_eqb t READ || ReqType_eqb t WRITE.
Definition buf_tags (b : CXL_if_buf) : list (Z * ReqType) := map (fun r => (rr_id r, rr_type r)) (if_buf b).
Definition valid_req (r : ramulator_req) : Prop := rr_status r = VALID /\ is_rw_type (rr_type r) = true.
Definition valid_buf (b : CXL_if_buf) : Prop := Forall valid_req (if_buf b).
Definition req_tag (r : Request) : Z * ReqType := (rq_id r, rq_type r).
Definition tag (x : Z * list Z * Z * Z * ReqType) : Z * ReqType := (snd (fst x), snd x).

(** What a client promises: its buffer is a member, which the acceptance and
    the completion of a request leave alone. *)
Class ClientLaws (D : Type) `{MemClient D} : Prop := {
  buf_set b d : client_buf (set_client_buf b d) = b;
  set_buf d : set_client_buf (client_buf d) d = d;
  buf_accepted clk id d d' : accepted clk id d = Ok d' -> client_buf d' = client_buf d;
  buf_completed clk r d d' : completed clk r d = Ok d' -> client_buf d' = client_buf d
}.

Lemma tag_rws l : Forall (fun r => is_rw r = true) l -> map tag (rws l) = map req_tag l.
Proof. induction 1 as [|r l Hr Hl IH]; [done|]. rewrite rws_cons, Hr. cbn. by rewrite IH. Qed.

Section RamRun.
Context {C S : Type} `{EqDecision C} (std : Std C S) {D : Type} `{ClientLaws D}.
#[local] Abbreviation RamState := (RamState C S).
Implicit Types (s : RamState) (d : D).

Definition held s : list (Z * ReqType) := if stall s then [(snd (cur s), snd (fst (cur s)))] else [].
Definition mem_tags s : list (Z * ReqType) := map tag (mem_rws (memory s)).

Record ram_ok s : Prop := {
  rk_status : status s <> END;
  rk_stall : stall s = true -> status s = VALID /\ is_rw_type (snd (fst (cur s))) = true;
  rk_queues : mem_queues (memory s)
}.

(** A buffer from which nothing or the head was taken *)
Definition shrinks (b b' : CXL_if_buf) : Prop := if_size b' = if_size b /\ (length (if_buf b') <= length (if_buf b))%nat.

(** The request to offer: the one being retried, or the next one *)
Lemma fetch_ok d s : valid_buf (client_buf d) -> ram_ok s ->
  let '(d1, s1) := fetch d s in
  d1 = set_client_buf (client_buf d1) d /\ valid_buf (client_buf d1) /\ shrinks (client_buf d) (client_buf d1) /\
  memory s1 = memory s /\ clks s1 = clks s /\
  ((status s1 = EMPTY /\ stall s1 = false /\ held s ++ buf_tags (client_buf d) = [] /\ buf_tags (client_buf d1) = []) \/
   (status s1 = VALID /\ is_rw_type (snd (fst (cur s1))) = true /\
    held s ++ buf_tags (client_buf d) = (snd (cur s1), snd (fst (cur s1))) :: buf_tags (client_buf d1))).
Proof.
  intros Hb [H1 H2 H3]. unfold fetch. rewrite bool_decide_false by done. cbn [negb andb].
  destruct (stall s) eqn:Es; cbn [negb].
  { destruct (H2 eq_refl) as [E2 E3]. split_and!; try done; [by rewrite set_buf|]. right. split_and!; [done|done|].
    unfold held. by rewrite Es. }
  unfold get_dramtrace_request, held, valid_buf, buf_tags in *. rewrite Es. destruct (if_buf (client_buf d)) as [|r l] eqn:Eb.
  - rewrite !buf_set. rewrite Eb. split_and!; try done. by left.
  - apply Forall_cons in Hb as [[Hv Hrw] Hl]. rewrite Hv, !buf_set. split_and!; try done; [split; [done|rewrite Eb; cbn; lia]|by right].
Qed.

(** An update up to the callbacks of the tick *)
Definition cycle d s : res (D * RamState * list Request) :=
  let '(d, s) := fetch d s in
  let! (d, s) := match status s with VALID => offer std d s | _ => Ok (d, s) end in
  let! (m, done) := mem_tick std (memory s) in
  Ok (d, mk_RamState m (cur s) (stall s) (reads s) (writes s) (clks s + 1) (status s), done).

Lemma ram_update_eq d s : valid_buf (client_buf d) -> ram_ok s ->
  ram_update std d s =
  let! (d, s', done) := cycle d s in
  let! d := complete_all (clks s) done d in Ok (false, d, s').
Proof.
  intros Hb Hs. pose proof (fetch_ok d s Hb Hs) as F. unfold ram_update, cycle. rewrite bool_decide_false by apply Hs.
  cbn [negb orb]. destruct (fetch d s) as [d1 s1]. destruct F as (_ & _ & _ & _ & Hk & F).
  assert (Hoff : forall d2 s2, offer std d1 s1 = Ok (d2, s2) -> clks s2 = clks s1).
  { intros d2 s2 E. unfold offer in E. destruct (cur s1) as [[? ?] ?]. apply bind_ok_inv in E as ([? ?] & _ & E).
    apply bind_ok_inv in E as (? & _ & E). by injection E as _ <-. }
  destruct F as [(-> & _)|(-> & _)]; cbn [bind].
  - destruct (mem_tick std (memory s1)) as [[m dn]|]; cbn [bind]; [|done]. by rewrite Hk.
  - destruct (offer std d1 s1) as [[d2 s2]|] eqn:Eo; cbn [bind]; [|done].
    destruct (mem_tick std (memory s2)) as [[m dn]|]; cbn [bind]; [|done]. by rewrite (Hoff d2 s2 eq_refl), Hk.
Qed.

(** What it did: [acc] was accepted and [done] completed. *)
Record updated d s d' s' (acc : list (Z * ReqType)) (done : list Request) : Prop := {
  up_order : held s ++ buf_tags (client_buf d) = acc ++ held s' ++ buf_tags (client_buf d');
  up_mem : mem_tags s ++ acc ≡ₚ map req_tag done ++ mem_tags s';
  up_client : let d1 := set_client_buf (client_buf d') d in
    (acc = [] /\ d' = d1) \/ (exists x, acc = [x] /\ accepted (clks s) (fst x) d1 = Ok d');
  up_clk : clks s' = clks s + 1;
  up_ok : ram_ok s';
  up_buf : valid_buf (client_buf d') /\ shrinks (client_buf d) (client_buf d')
}.

Lemma cycle_ok d s d' s' dn : valid_buf (client_buf d) -> ram_ok s -> cycle d s = Ok (d', s', dn) ->
  exists acc, updated d s d' s' acc dn.
Proof.
  intros Hb Hs E. unfold cycle in E. pose proof (fetch_ok d s Hb Hs) as F. destruct (fetch d s) as [d1 s1].
  destruct F as (Hd1 & Hb1 & Hsh & Hm1 & Hk1 & F). apply bind_ok_inv in E as ([d2 s2] & Eo & E).
  apply bind_ok_inv in E as ([m dn'] & Et & E). injection E as <- <- <-.
  destruct F as [(Est & Es & E1 & E2)|(Est & Hty & E1)]; rewrite Est in Eo.
  - injection Eo as <- <-. destruct (tick_queues std _ _ _ Et) as [Hq Hrw]; [rewrite Hm1; apply Hs|].
    exists []. split; cbn [clks stall status memory cur]; [by unfold held at 2; cbn [stall]; rewrite Es, E1, E2| | |by rewrite Hk1| |done].
    + rewrite app_nil_r. unfold mem_tags. cbn [memory]. rewrite <- Hm1, <- tag_rws, <- map_app by done.
      apply Permutation_map. by eapply tick_rws.
    + by left.
    + split; cbn; [congruence|congruence|done].
  - unfold offer in Eo. destruct (cur s1) as [[addr ty] id] eqn:Ecur. cbn [fst snd] in *.
    apply bind_ok_inv in Eo as ([ok m1] & Esend & Eo). apply bind_ok_inv in Eo as (d3 & Ea & Eo). injection Eo as -> <-.
    cbn [stall memory clks cur status] in *. set (r := Request_new addr ty id 0) in *.
    pose proof (send_rws std _ _ _ _ Esend) as Hrws. pose proof (send_queues std _ _ _ _ Esend) as Hqs.
    destruct (tick_queues std _ _ _ Et) as [Hq Hrw]; [apply Hqs; rewrite Hm1; apply Hs|].
    apply tick_rws in Et. rewrite Hrws in Et. apply (Permutation_map tag) in Et. rewrite !map_app, (tag_rws dn') in Et by done.
    assert (Hb2 : client_buf d2 = client_buf d1) by (destruct ok; [by apply buf_accepted in Ea|by injection Ea as <-]).
    exists (if ok then [(id, ty)] else []). split; cbn [clks status].
    + rewrite E1, Hb2. unfold held. cbn [stall cur fst snd]. by destruct ok.
    + unfold mem_tags. cbn [memory]. rewrite <- Et, <- Hm1. destruct ok; [|by rewrite app_nil_r].
      rewrite Permutation_app_comm. rewrite tag_rws; [done|]. by apply Forall_singleton.
    + cbv zeta. rewrite Hb2, <- Hd1, <- Hk1. destruct ok; [right; by exists (id, ty)|left; by injection Ea as <-].
    + by rewrite Hk1.
    + split; cbn; [congruence| |done]. intros _. split; congruence.
    + by rewrite Hb2.
Qed.

(** What the three operations of a client keep, an update keeps. *)
Lemma ram_update_keeps (I : D -> Prop) d s b d' s' :
  (forall c d, I d -> I (set_client_buf c d)) -> (forall clk id d d', accepted clk id d = Ok d' -> I d -> I d') ->
  (forall clk r d d', completed clk r d = Ok d' -> I d -> I d') -> ram_update std d s = Ok (b, d', s') -> I d -> I d'.
Proof.
  intros Hb Ha Hc E Hd. unfold ram_update in E. destruct (_ || _); [|by injection E as _ <- _].
  assert (Hf : I (fst (fetch d s))).
  { unfold fetch. destruct (_ && _); [|done]. destruct (get_dramtrace_request _ _) as [[? ?] ?]. by apply Hb. }
  destruct (fetch d s) as [d1 s1]. cbn [fst] in Hf. apply bind_ok_inv in E as ([d2 s2] & E1 & E).
  assert (H2 : I d2).
  { destruct (status s1); [|by injection E1 as <- _|by injection E1 as <- _]. unfold offer in E1. destruct (cur s1) as [[? ?] ?].
    apply bind_ok_inv in E1 as ([ok m] & _ & E1). apply bind_ok_inv in E1 as (d3 & E2 & E1). injection E1 as <- _.
    destruct ok; [by eapply Ha|by injection E2 as <-]. }
  apply bind_ok_inv in E as ([m dn] & _ & E). apply bind_ok_inv in E as (d3 & E3 & E). injection E as _ <- _.
  clear -Hc H2 E3. revert d2 H2 E3. induction dn as [|r dn IH]; intros d2 H2 E3; cbn [complete_all] in E3; [by injection E3 as <-|].
  apply bind_ok_inv in E3 as (d4 & E4 & E3). eapply IH; [|exact E3]. by eapply Hc.
Qed.

(** ** The clock of the memory

    Unless the end of a trace is in the buffer, every update is a cycle. *)
Definition no_end (b : CXL_if_buf) : Prop := Forall (fun r => rr_status r <> END) (if_buf b).
Lemma complete_all_buf clk l : forall d d', complete_all clk l d = Ok d' -> client_buf d' = client_buf d.
Proof.
  induction l as [|r l IH]; intros d d' E; cbn [complete_all] in E; [by injection E as <-|].
  apply bind_ok_inv in E as (d1 & E1 & E). apply IH in E. apply buf_completed in E1. congruence.
Qed.
Lemma fetch_no_end d s : no_end (client_buf d) -> status s <> END ->
  let '(d1, s1) := fetch d s in no_end (client_buf d1) /\ status s1 <> END /\ clks s1 = clks s.
Proof.
  intros Hb Hs. unfold fetch. destruct (_ && _); [|done]. unfold get_dramtrace_request, no_end in *.
  destruct (if_buf (client_buf d)) as [|r l] eqn:El; [by rewrite buf_set, El|]. apply Forall_cons in Hb as [Hr Hl].
  destruct (rr_status r) eqn:Er; try done; by rewrite buf_set.
Qed.
Lemma offer_no_end d s d' s' : offer std d s = Ok (d', s') -> client_buf d' = client_buf d /\ status s' = status s /\ clks s' = clks s.
Proof.
  unfold offer. destruct (cur s) as [[addr ty] id]. intros E. apply bind_ok_inv in E as ([ok m] & _ & E).
  apply bind_ok_inv in E as (d1 & Ea & E). injection E as -> <-. split; [|done].
  destruct ok; [by apply buf_accepted in Ea|by injection Ea as <-].
Qed.
Lemma ram_update_clks d s b d' s' : no_end (client_buf d) -> status s <> END -> ram_update std d s = Ok (b, d', s') ->
  no_end (client_buf d') /\ status s' <> END /\ clks s' = clks s + 1.
Proof.
  intros Hb Hs E. unfold ram_update in E. rewrite bool_decide_false in E by done. cbn [negb orb] in E.
  pose proof (fetch_no_end d s Hb Hs) as F. destruct (fetch d s) as [d1 s1]. destruct F as (F1 & F2 & F3).
  apply bind_ok_inv in E as ([d2 s2] & E2 & E). apply bind_ok_inv in E as ([m dn] & _ & E).
  apply bind_ok_inv in E as (d3 & Ec & E). injection E as _ <- <-. apply complete_all_buf in Ec. rewrite Ec.
  assert (H2 : client_buf d2 = client_buf d1 /\ status s2 = status s1 /\ clks s2 = clks s1).
  { destruct (status s1) eqn:Es; [|by injection E2 as <- <-|done]. apply offer_no_end in E2. by rewrite <- Es. }
  destruct H2 as (-> & H2 & H3). cbn [status clks]. rewrite H2, H3, F3. done.
Qed.
End RamRun.
