(* ===== verification/DevRam.v ===== *)
(** * A CXL device and its memory

    [CXLDevice] with its member [dram]: [send_to_ramulator], which hands
    requests to the memory, and [RamDevice::update], which calls
    [ramulator_req_notification] back.  Every request is answered once, in
    whatever order the two run. *)
From Stdlib Require Import ZArith Lia Bool String.
From stdpp Require Import base list gmap.
From S2P Require Import Prelude RamIf Dram Sched Controller CtrlRun Ddr4 Ddr4Safe Memory Ddr4Memory MemRun RamDevice RamRun.
From S2P Require Import Flit CxlBuf Samples CxlBus CxlNode CxlDevice DevRun.
Import DDR4.

(** ** The device as a client of its memory *)

(** The part of [RamDevice::update] after a request was accepted, and
    [ramulator_req_complete] *)
Definition dev_client (tick : Z) : MemClient CXLDevice := {|
  client_buf := inp_buf;
  set_client_buf := set_inp_buf;
  accepted clk id d :=
    match messages_in_ramulator d !! id with
    | None => Abort "Trying to send req to ramulator for message that does not exist in messages_in_ramulator"
    | Some m =>
        let m := set_msg_tick set_ramulator_clk_start clk (set_msg_tick set_tick_at_ramulator tick m) in
        Ok (set_messages_in_ramulator (<[id := m]> (messages_in_ramulator d)) d)
    end;
  completed clk r d := ramulator_req_notification tick clk (rq_id r) d
|}.

Section Device.
Context `{Indet} (p : CXLParams) (std : Std Command State).
#[local] Abbreviation RamState := (RamState Command State).

(** [CXLDevice::update] with its memory *)
Definition device_update (skip : bool) (g : globals) (d : CXLDevice) (s : RamState) (tx_bus : CXLBus)
    : res (globals * CXLDevice * RamState * CXLBus) :=
  CxlDevice.update p skip
    (fun g d s => let! (_, d, s) := ram_update (H := dev_client (curr_tick g)) std d s in Ok (d, s)) g d s tx_bus.

(** The steps of a device that move a request: forwarding it to the memory,
    and a cycle of the memory, at a time *)
Inductive ram_step : Type := Forward (tick : Z) | Cycle (tick : Z).
Definition do_step (o : ram_step) (d : CXLDevice) (s : RamState) : res (CXLDevice * RamState) :=
  match o with
  | Forward tick => let! (_, d) := send_to_ramulator p tick d in Ok (d, s)
  | Cycle tick => let! (_, d, s) := ram_update (H := dev_client tick) std d s in Ok (d, s)
  end.
Fixpoint do_steps (l : list ram_step) (d : CXLDevice) (s : RamState) : res (CXLDevice * RamState) :=
  match l with
  | [] => Ok (d, s)
  | o :: l => let! (d, s) := do_step o d s in do_steps l d s
  end.
End Device.

#[export] Instance dev_laws tick : ClientLaws CXLDevice (H := dev_client tick).
Proof.
  split; cbn.
  - done.
  - by intros [].
  - intros clk id d d' E. destruct (messages_in_ramulator d !! id); [|done]. by injection E as <-.
  - intros clk r d d' E. unfold ramulator_req_notification in E. destruct (_ !! _) as [m|]; [|done].
    apply bind_ok_inv in E as (d1 & E1 & E). injection E as <-. cbn.
    destruct (opCode _); try done; apply bind_ok_inv in E1 as (b & _ & E1); by injection E1 as <-.
Qed.

(** ** Where a request is

    By number and type: in a receiving channel, recorded for the memory, or
    answered in a transmitting channel. *)
Definition op_type (o : opcode) : ReqType := match o with Req => READ | _ => WRITE end.
Definition vc_tags (t : ReqType) (b : CXLBuf message) : list (Z * ReqType) := map (fun m => (msg_id m, t)) (q_ b).
Definition in_ram (d : CXLDevice) : list (Z * ReqType) :=
  map (fun km => (fst km, op_type (opCode (snd km)))) (map_to_list (messages_in_ramulator d)).
Definition in_rx (d : CXLDevice) : list (Z * ReqType) := vc_tags READ (M2S_Req d) ++ vc_tags WRITE (M2S_RWD d).
Definition answered (d : CXLDevice) : list (Z * ReqType) :=
  flat_map (vc_tags READ) (S2M_DRS d) ++ flat_map (vc_tags WRITE) (S2M_NDR d).
Definition pipeline (d : CXLDevice) : list (Z * ReqType) := in_rx d ++ in_ram d ++ answered d.

(** The map of recorded requests *)
Lemma in_ram_insert d k m : messages_in_ramulator d !! k = None ->
  map (fun km => (fst km, op_type (opCode (snd km)))) (map_to_list (<[k := m]> (messages_in_ramulator d))) ≡ₚ
  (k, op_type (opCode m)) :: in_ram d.
Proof. intros Hk. by rewrite map_to_list_insert. Qed.
Lemma in_ram_delete d k m : messages_in_ramulator d !! k = Some m ->
  in_ram d ≡ₚ (k, op_type (opCode m)) ::
    map (fun km => (fst km, op_type (opCode (snd km)))) (map_to_list (delete k (messages_in_ramulator d))).
Proof. intros Hk. unfold in_ram. by rewrite <- (map_to_list_delete (messages_in_ramulator d) k m). Qed.
Lemma in_ram_update d k m m' : messages_in_ramulator d !! k = Some m -> opCode m' = opCode m ->
  in_ram (set_messages_in_ramulator (<[k := m']> (messages_in_ramulator d)) d) ≡ₚ in_ram d.
Proof.
  intros Hk Ho. rewrite (in_ram_delete d k m Hk). unfold in_ram. cbn [messages_in_ramulator set_messages_in_ramulator].
  rewrite <- insert_delete_eq, map_to_list_insert by apply lookup_delete_eq. cbn. by rewrite Ho.
Qed.
Lemma in_ram_keys d : NoDup (map fst (in_ram d)).
Proof. unfold in_ram. rewrite map_map. apply NoDup_fst_map_to_list. Qed.
Lemma in_ram_lookup d k t : In (k, t) (in_ram d) -> exists m, messages_in_ramulator d !! k = Some m /\ t = op_type (opCode m).
Proof.
  unfold in_ram. intros ((k' & m) & [= -> <-] & Hin)%in_map_iff. exists m. split; [|done].
  by apply elem_of_map_to_list, list_elem_of_In.
Qed.

(** ** The invariant *)

(** Recorded requests and the round robin over the transmitting channels *)
Record side_ok (d : CXLDevice) : Prop := {
  so_msgs k m : messages_in_ramulator d !! k = Some m -> msg_id m = k /\ (opCode m = Req \/ opCode m = RwD);
  so_drs : (cur_DRS_vc d < NUM_VC)%nat /\ length (S2M_DRS d) = NUM_VC;
  so_ndr : (cur_NDR_vc d < NUM_VC)%nat /\ length (S2M_NDR d) = NUM_VC
}.
(** What waits for the memory is what is recorded. *)
Record dev_ok {C S} (d : CXLDevice) (s : RamState C S) : Prop := {
  dk_rx : ram_inv d;
  dk_buf : valid_buf (inp_buf d);
  dk_state : ram_ok s;
  dk_side : side_ok d;
  dk_link : in_ram d ≡ₚ held s ++ buf_tags (inp_buf d) ++ mem_tags s;
  dk_ids : NoDup (map fst (in_rx d ++ in_ram d))
}.

(** ** A completion *)
Definition rx_same (d d' : CXLDevice) : Prop :=
  M2S_Req d' = M2S_Req d /\ M2S_RWD d' = M2S_RWD d /\ inp_buf d' = inp_buf d /\ ramulator_inp_state d' = ramulator_inp_state d.

Lemma flat_tags_insert t (l : list (CXLBuf message)) i m : (i < length l)%nat ->
  flat_map (vc_tags t) (<[i := mk_CXLBuf (size_ (nth i l (CXLBuf_new 0))) (q_ (nth i l (CXLBuf_new 0)) ++ [m])]> l) ≡ₚ
  (msg_id m, t) :: flat_map (vc_tags t) l.
Proof.
  revert i. induction l as [|b l IH]; intros [|i] Hi; cbn [length] in Hi; try lia; cbn [insert list_insert nth flat_map].
  - unfold vc_tags at 1. cbn [q_]. rewrite map_app. cbn [map]. fold (vc_tags t b). rewrite <- app_assoc. cbn [app].
    by rewrite Permutation_middle.
  - change (list_insert i ?x l) with (<[i := x]> l). rewrite IH by lia. by rewrite Permutation_middle.
Qed.
Lemma bump_vc_lt k : (k < NUM_VC)%nat -> (bump_vc k < NUM_VC)%nat.
Proof. unfold bump_vc, NUM_VC. intros Hk. destruct (Nat.eqb_spec k (4 - 1)); lia. Qed.

(** A completion answers its request, or the channel of the answer is full. *)
Lemma notify_ok tick clk k t d rest : side_ok d -> in_ram d ≡ₚ (k, t) :: rest ->
  match ramulator_req_notification tick clk k d with
  | Abort e => e = "Adding to already full buffer!"%string
  | Ok d' => side_ok d' /\ rx_same d d' /\ in_ram d' ≡ₚ rest /\ answered d' ≡ₚ (k, t) :: answered d
  end.
Proof.
  intros [Hm [Hd1 Hd2] [Hn1 Hn2]] Hin.
  destruct (in_ram_lookup d k t) as (m & Hk & ->); [apply list_elem_of_In; rewrite Hin; apply list_elem_of_here|].
  pose proof (in_ram_delete d k m Hk) as Hdel. rewrite Hin in Hdel. apply Permutation_cons_inv in Hdel.
  destruct (Hm k m Hk) as [Hid Hop]. unfold ramulator_req_notification. rewrite Hk.
  assert (Hms : forall k' m', delete k (messages_in_ramulator d) !! k' = Some m' -> msg_id m' = k' /\ (opCode m' = Req \/ opCode m' = RwD)).
  { intros k' m' (_ & E)%lookup_delete_Some. by apply Hm. }
  assert (Ho2 : forall f v f' v', opCode (set_msg_tick f v (set_msg_tick f' v' m)) = opCode m) by done.
  destruct Hop as [Hop|Hop]; rewrite Ho2, Hop; unfold CxlBuf.enqueue.
  - destruct (is_buf_full (nth (cur_DRS_vc d) (S2M_DRS d) (CXLBuf_new 0))); cbn; [done|].
    split; [split; cbn; [done|split; [by apply bump_vc_lt|by rewrite length_insert]|done]|]. split; [done|]. split; [by symmetry|].
    unfold answered. cbn [S2M_DRS S2M_NDR set_messages_in_ramulator set_cur_DRS_vc set_S2M_DRS].
    rewrite flat_tags_insert by lia. cbn. by rewrite Hid.
  - destruct (is_buf_full (nth (cur_NDR_vc d) (S2M_NDR d) (CXLBuf_new 0))); cbn; [done|].
    split; [split; cbn; [done|done|split; [by apply bump_vc_lt|by rewrite length_insert]]|]. split; [done|]. split; [by symmetry|].
    unfold answered. cbn [S2M_DRS S2M_NDR set_messages_in_ramulator set_cur_NDR_vc set_S2M_NDR].
    rewrite flat_tags_insert by lia. cbn. rewrite Hid. by rewrite Permutation_middle.
Qed.

Lemma rx_same_trans d1 d2 d3 : rx_same d1 d2 -> rx_same d2 d3 -> rx_same d1 d3.
Proof. unfold rx_same. intuition congruence. Qed.

Lemma complete_all_ok tick clk dn : forall d rest, side_ok d -> in_ram d ≡ₚ map req_tag dn ++ rest ->
  match complete_all (H := dev_client tick) clk dn d with
  | Abort e => e = "Adding to already full buffer!"%string
  | Ok d' => side_ok d' /\ rx_same d d' /\ in_ram d' ≡ₚ rest /\ answered d' ≡ₚ map req_tag dn ++ answered d
  end.
Proof.
  induction dn as [|r dn IH]; intros d rest Hs Hin; cbn [complete_all map app] in *; [done|].
  pose proof (notify_ok tick clk _ _ d _ Hs Hin) as Hn. cbn [completed dev_client].
  destruct (ramulator_req_notification _ _ _ d) as [d1|e]; cbn [bind]; [|done]. destruct Hn as (Hs1 & Hr1 & Hi1 & Ha1).
  specialize (IH d1 rest Hs1 Hi1). destruct (complete_all _ _ d1) as [d2|e]; [|done]. destruct IH as (Hs2 & Hr2 & Hi2 & Ha2).
  split_and!; [done|by eapply rx_same_trans|done|]. rewrite Ha2, Ha1. by rewrite Permutation_middle.
Qed.

(** ** Forwarding a request *)
Section Steps.
Context `{Indet} (p : CXLParams) {C S : Type}.
Implicit Types (d : CXLDevice) (s : RamState C S).

(** The channels by which requests arrive *)
Lemma in_rx_head v d d' m l : q_ (rx_get d v) = m :: l -> q_ (rx_get d' v) = l -> rx_get d' (other_vc v) = rx_get d (other_vc v) ->
  in_rx d ≡ₚ (msg_id m, vc_type v) :: in_rx d'.
Proof.
  intros Hq Hq' Ho. unfold in_rx, vc_tags. destruct v; cbn [rx_get other_vc vc_type] in *; rewrite Ho, Hq, Hq'; cbn [map app]; [done|].
  by rewrite Permutation_middle.
Qed.

Lemma forward_ok tick d s : dev_ok d s ->
  match send_to_ramulator p tick d with
  | Abort e => e = "Ramulator side stall"%string
  | Ok (_, d') => dev_ok d' s /\ pipeline d' ≡ₚ pipeline d
  end.
Proof.
  intros [Hrx Hb Hs [Hm Hd Hn] Hl Hid].
  destruct (is_buf_full (M2S_Req d) && is_buf_full (M2S_RWD d) && isEmpty (inp_buf d)) eqn:Est.
  { unfold send_to_ramulator. by rewrite Est. }
  destruct (send_to_ramulator_spec p tick d Hrx Est) as (b & d' & -> & _ & Hd').
  destruct b; [|subst d'; by split]. destruct Hd' as [(v & m & l & Hq & Hq' & Hbuf & Hnew & Hold & _ & Hov & Htx) Hrx'].
  destruct Htx as (T1 & T2 & T3 & T4). pose proof (in_rx_head v d d' m l Hq Hq' Hov) as Hrec.
  pose proof (ram_inv_vc d v Hrx) as Hop. rewrite Hq in Hop. apply Forall_cons in Hop as [Hop _].
  assert (Hty : op_type (opCode m) = vc_type v) by (rewrite Hop; by destruct v).
  assert (Hnone : messages_in_ramulator d !! msg_id m = None).
  { destruct (messages_in_ramulator d !! msg_id m) as [x|] eqn:Ex; [exfalso|done].
    rewrite map_app, Hrec in Hid. cbn [map app fst] in Hid. apply NoDup_cons in Hid as [Hid _]. apply Hid.
    apply elem_of_app. right. rewrite (in_ram_delete d _ x Ex). cbn. apply list_elem_of_here. }
  assert (Hmsg : messages_in_ramulator d' = <[msg_id m := m]> (messages_in_ramulator d)).
  { apply map_eq. intros k. destruct (decide (k = msg_id m)) as [->|Hk]; [by rewrite lookup_insert_eq, Hnew|].
    by rewrite lookup_insert_ne, Hold. }
  assert (Hin : in_ram d' ≡ₚ (msg_id m, vc_type v) :: in_ram d).
  { unfold in_ram at 1. rewrite Hmsg, (in_ram_insert d _ m Hnone). by rewrite Hty. }
  assert (Hmov : in_rx d' ++ in_ram d' ≡ₚ in_rx d ++ in_ram d) by (by rewrite Hin, Hrec, <- Permutation_middle).
  split.
  - split; [done| |done| | |by rewrite Hmov].
    + unfold valid_buf. rewrite Hbuf. apply Forall_app. split; [done|]. apply Forall_singleton. split; [done|by destruct v].
    + split; [|by rewrite T1, T3|by rewrite T2, T4]. intros k x. rewrite Hmsg. intros [[<- <-]|[_ E]]%lookup_insert_Some; [|by apply Hm].
      split; [done|]. rewrite Hop. destruct v; [by left|by right].
    + rewrite Hin, Hl. unfold buf_tags. rewrite Hbuf, map_app. cbn [map rr_id rr_type]. rewrite <- app_assoc. cbn [app].
      by rewrite !app_assoc, <- Permutation_middle.
  - unfold pipeline. rewrite !app_assoc, Hmov. f_equiv. unfold answered. by rewrite T1, T2.
Qed.
End Steps.

(** ** A cycle of the memory *)
Section Cycle.
Context (channels : Z) (std : Std Command State) (m0 : Mem Command State) (o : OrgEntry) (sp : SpeedEntry).
Hypothesis Hbuilt : built channels std m0 o sp.
#[local] Abbreviation mem_ok := (mem_ok channels m0 o sp).
#[local] Abbreviation RamState := (RamState Command State).
Implicit Types (d : CXLDevice) (s : RamState).

(** Up to the callbacks nothing fails but the room for refreshes, if the
    client knows the request that is accepted. *)
Lemma client_cycle_fine {D} `{ClientLaws D} (d : D) s : valid_buf (client_buf d) -> ram_ok s -> mem_ok (memory s) ->
  (forall clk b x, x ∈ held s ++ buf_tags (client_buf d) -> is_ok (accepted clk (fst x) (set_client_buf b d)) = true) ->
  fine (cycle std d s) (fun x => mem_ok (memory (snd (fst x)))).
Proof.
  intros Hb Hs Hm Hk. pose proof (fetch_ok d s Hb Hs) as F.
  unfold cycle. destruct (fetch d s) as [d1 s1]. destruct F as (Hd1 & _ & _ & Hm1 & _ & F). rewrite <- Hm1 in Hm.
  eapply (fine_bind _ _ (fun x => mem_ok (memory (snd x)))).
  - destruct F as [(-> & _)|(-> & Hty & E)]; [exact Hm|]. unfold offer. destruct (cur s1) as [[addr ty] id]. cbn [fst snd] in *.
    set (r := Request_new addr ty id 0). pose proof (send_fine channels std m0 o sp r (memory s1) Hbuilt Hm Hty eq_refl) as Fs.
    eapply fine_bind; [exact Fs|]. intros [ok m] Hm2. cbn [snd] in Hm2. destruct ok; [|exact Hm2].
    specialize (Hk (clks s1) (client_buf d1) (id, ty)). rewrite E, <- Hd1 in Hk. specialize (Hk (list_elem_of_here _ _)). cbn [fst] in Hk.
    by destruct (accepted (clks s1) id d1).
  - intros [d2 s2] Hm2. eapply fine_bind; [by apply (mem_tick_fine channels std m0 o sp)|].
    by intros [m dn] Hm3.
Qed.
(** A device knows it: it is recorded. *)
Lemma cycle_fine tick d s : dev_ok d s -> mem_ok (memory s) ->
  fine (cycle (H := dev_client tick) std d s) (fun x => mem_ok (memory (snd (fst x)))).
Proof.
  intros Hd Hm. apply (client_cycle_fine (H := dev_client tick)); [apply Hd|apply Hd|done|]. intros clk b [id ty] Hx.
  destruct (in_ram_lookup d id ty) as (x & E & _).
  { apply list_elem_of_In. rewrite (dk_link _ _ Hd), app_assoc. apply elem_of_app. by left. }
  cbn. by rewrite E.
Qed.

(** The recorded requests when one is accepted *)
Lemma accepted_ok tick clk id d d' : accepted (MemClient := dev_client tick) clk id d = Ok d' -> side_ok d ->
  side_ok d' /\ rx_same d d' /\ in_ram d' ≡ₚ in_ram d /\ answered d' = answered d.
Proof.
  cbn. intros E [Hm Hd Hn]. destruct (messages_in_ramulator d !! id) as [x|] eqn:Ex; [|done]. injection E as <-.
  split; [|split; [done|split; [by eapply in_ram_update|done]]]. split; [|done|done]. cbn. intros k y.
  intros [[<- <-]|[_ Hy]]%lookup_insert_Some; [|by apply Hm]. exact (Hm id x Ex).
Qed.

(** What an update leaves for the callbacks *)
Lemma cycle_links tick d s d2 s' dn : dev_ok d s -> cycle (H := dev_client tick) std d s = Ok (d2, s', dn) ->
  ram_ok s' /\ valid_buf (inp_buf d2) /\ side_ok d2 /\ ram_inv d2 /\ in_rx d2 = in_rx d /\ answered d2 = answered d /\
  in_ram d2 ≡ₚ in_ram d /\ in_ram d2 ≡ₚ map req_tag dn ++ held s' ++ buf_tags (inp_buf d2) ++ mem_tags s'.
Proof.
  intros [Hrx Hb Hs Hsd Hl Hid] E.
  destruct (cycle_ok (H := dev_client tick) std d s d2 s' dn Hb Hs E) as (acc & [U1 U2 U3 _ U5 U6]). cbn [client_buf dev_client] in *.
  set (d1 := set_client_buf (inp_buf d2) d) in *.
  assert (Hd1 : side_ok d1) by (destruct Hsd; by split).
  assert (H2 : side_ok d2 /\ rx_same d1 d2 /\ in_ram d2 ≡ₚ in_ram d1 /\ answered d2 = answered d1).
  { destruct U3 as [[_ Ed]|(x & _ & Ea)]; [|exact (accepted_ok tick _ _ _ _ Ea Hd1)]. clear E. revert Ed. clearbody d1. by intros ->. }
  destruct H2 as (H2 & (R1 & R2 & R3 & R4) & R5 & R6).
  destruct U6 as [U6 [Z1 Z2]]. destruct Hrx as [X1 X2 [X3 X4] X5].
  split_and!; [done|done|done| | |done|done|].
  - split; rewrite ?R1, ?R2, ?R4; [done|done| |done]. split; [by rewrite Z1|]. rewrite Z1. lia.
  - unfold in_rx. by rewrite R1, R2.
  - rewrite R5. change (in_ram d1) with (in_ram d). rewrite Hl, app_assoc, U1. set (w := held s' ++ buf_tags (inp_buf d2)).
    transitivity (w ++ mem_tags s ++ acc).
    { rewrite <- app_assoc, (Permutation_app_comm acc). by rewrite <- app_assoc. }
    rewrite U2, app_assoc, (Permutation_app_comm w), <- app_assoc. subst w. by rewrite <- app_assoc.
Qed.

(** An update keeps the invariant and moves requests to the answered ones. *)
Lemma update_links tick d s b d' s' : dev_ok d s -> ram_update (H := dev_client tick) std d s = Ok (b, d', s') ->
  dev_ok d' s' /\ pipeline d' ≡ₚ pipeline d.
Proof.
  intros Hd E0. rewrite (ram_update_eq (H := dev_client tick) std d s) in E0 by apply Hd.
  destruct (cycle std d s) as [[[d2 s2] dn]|e] eqn:E; [|done]. cbn [bind] in E0.
  destruct (cycle_links tick d s d2 s2 dn Hd E) as (H1 & H2 & H3 & H4 & H5 & H6 & H7 & H8).
  pose proof (complete_all_ok tick (clks s) dn d2 _ H3 H8) as Hc.
  destruct (complete_all (clks s) dn d2) as [d3|e]; [|done]. cbn [bind] in E0. injection E0 as <- <- <-.
  destruct Hc as (C1 & (C2 & C3 & C4 & C5) & C6 & C7).
  assert (Hr : in_rx d3 = in_rx d) by (unfold in_rx in *; by rewrite C2, C3).
  assert (Hp : in_ram d ≡ₚ map req_tag dn ++ in_ram d3) by (by rewrite <- H7, H8, C6).
  split.
  - split; [|by rewrite C4|done|done|by rewrite C6, C4|].
    + destruct H4. split; by rewrite ?C2, ?C3, ?C4, ?C5.
    + pose proof (dk_ids _ _ Hd) as Hid. rewrite Hp, Hr in *. revert Hid. rewrite !map_app.
      rewrite (app_assoc _ _ (map fst (in_ram d3))), (Permutation_app_comm (map fst (in_rx d))), <- app_assoc.
      by intros (_ & _ & Hid)%NoDup_app.
  - unfold pipeline. rewrite Hr, C7, H6. f_equiv. rewrite !app_assoc. f_equiv. by rewrite Permutation_app_comm, <- Hp.
Qed.

(** It fails one of two assertions only. *)
Lemma update_ok tick d s : dev_ok d s -> mem_ok (memory s) ->
  match ram_update (H := dev_client tick) std d s with
  | Abort e => e = "res"%string \/ e = "Adding to already full buffer!"%string
  | Ok (_, d', s') => dev_ok d' s' /\ mem_ok (memory s') /\ pipeline d' ≡ₚ pipeline d
  end.
Proof.
  intros Hd Hm. pose proof (update_links tick d s) as L. rewrite (ram_update_eq (H := dev_client tick) std d s) in * by apply Hd.
  pose proof (cycle_fine tick d s Hd Hm) as F.
  destruct (cycle std d s) as [[[d2 s'] dn]|e] eqn:E; cbn [bind] in *; [|by left]. cbn [fine fst snd] in F.
  destruct (cycle_links tick d s d2 s' dn Hd E) as (_ & _ & H3 & _ & _ & _ & _ & H8).
  pose proof (complete_all_ok tick (clks s) dn d2 _ H3 H8) as Hc.
  destruct (complete_all (clks s) dn d2) as [d'|e]; cbn [bind] in *; [|by right].
  destruct (L false d' s' Hd eq_refl). done.
Qed.

Lemma steps_ok `{Indet} p l : forall d s, dev_ok d s -> mem_ok (memory s) ->
  match do_steps p std l d s with
  | Abort e => e = "res"%string \/ e = "Adding to already full buffer!"%string \/ e = "Ramulator side stall"%string
  | Ok (d', s') => dev_ok d' s' /\ pipeline d' ≡ₚ pipeline d
  end.
Proof.
  induction l as [|o1 l IH]; intros d s Hd Hm; cbn [do_steps]; [done|]. destruct o1 as [tick|tick]; cbn [do_step].
  - pose proof (forward_ok p tick d s Hd) as F. destruct (send_to_ramulator p tick d) as [[b d1]|e]; cbn [bind]; [|auto].
    destruct F as [Hd1 Hp]. specialize (IH d1 s Hd1 Hm). destruct (do_steps p std l d1 s) as [[d2 s2]|e]; [|done].
    destruct IH as [Hd2 Hp2]. split; [done|by rewrite Hp2].
  - pose proof (update_ok tick d s Hd Hm) as F. destruct (ram_update std d s) as [[[b d1] s1]|e]; cbn [bind]; [|by destruct F; auto].
    destruct F as (Hd1 & Hm1 & Hp). specialize (IH d1 s1 Hd1 Hm1). destruct (do_steps p std l d1 s1) as [[d2 s2]|e]; [|done].
    destruct IH as [Hd2 Hp2]. split; [done|by rewrite Hp2].
Qed.
End Cycle.

(** A new memory holds nothing. *)
Lemma new_ram channels ranks org speed std m : 0 < channels < 2 ^ 31 -> 0 < ranks < 2 ^ 31 -> ramulator_init channels ranks org speed = Ok (std, m) ->
  ram_ok (RamState_new m) /\ mem_tags (RamState_new m) = [].
Proof.
  intros Hc Hr Hi. destruct (memory_built channels ranks org speed std m Hc Hr Hi) as (o & sp & Hbt). pose proof (mem_new_ok channels std m o sp Hbt) as Hmo.
  split.
  - split; [done|done|]. apply Forall_forall. intros c [k Hk]%list_elem_of_lookup_1. by apply (mo_ctrl _ _ _ _ _ Hmo k).
  - unfold mem_tags, mem_rws, flight. cbn [memory RamState_new]. rewrite (bt_ctrls _ _ _ _ _ Hbt). induction (seq 0 _) as [|k ks IH]; [done|]. exact IH.
Qed.

(** C5: every request a CXL device receives is answered once.  Take a device
    with a DDR4 memory of any size, organisation and speed, and any requests
    with distinct numbers in its receiving channels.  However often and in
    whatever order requests are forwarded and the memory is run, every
    request is in exactly one place: still in its channel, recorded as being
    with the memory, or answered, a read by one [DRS] and a write by one
    [NDR] with its number, although the memory refuses requests when its
    queues are full and completes them out of order.  The recorded requests
    are exactly those in the memory's buffer, being retried, or in a queue of
    the memory.  No assertion fails but those on room: for refreshes, for
    answers in the transmitting channels, and the one on full receiving
    channels. *)
Theorem device_answers_once `{Indet} p channels ranks org speed std m d l :
  0 < channels < 2 ^ 31 -> 0 < ranks < 2 ^ 31 -> ramulator_init channels ranks org speed = Ok (std, m) ->
  ram_inv d -> side_ok d -> if_buf (inp_buf d) = [] -> messages_in_ramulator d = ∅ -> NoDup (map fst (in_rx d)) ->
  match do_steps p std l d (RamState_new m) with
  | Abort e => e = "res"%string \/ e = "Adding to already full buffer!"%string \/ e = "Ramulator side stall"%string
  | Ok (d', s') =>
      in_rx d ++ answered d ≡ₚ in_rx d' ++ in_ram d' ++ answered d' /\
      in_ram d' ≡ₚ held s' ++ buf_tags (inp_buf d') ++ mem_tags s'
  end.
Proof.
  intros Hc Hr Hi Hrx Hs Hb Hm Hid. destruct (new_ram channels ranks org speed std m Hc Hr Hi) as [Hro Hfl].
  destruct (memory_built channels ranks org speed std m Hc Hr Hi) as (o & sp & Hbt). pose proof (mem_new_ok channels std m o sp Hbt) as Hmo.
  assert (Hin : in_ram d = []) by (unfold in_ram; by rewrite Hm, map_to_list_empty).
  assert (Hd : dev_ok d (RamState_new m)).
  { split; try done; [by unfold valid_buf; rewrite Hb|by rewrite Hin, Hfl; unfold held, buf_tags; cbn; rewrite Hb|].
    by rewrite Hin, app_nil_r. }
  pose proof (steps_ok channels std m o sp Hbt p l d (RamState_new m) Hd Hmo) as F.
  destruct (do_steps p std l d (RamState_new m)) as [[d' s']|e]; [|done]. destruct F as [[_ _ _ _ Hl _] Hp].
  split; [|done]. unfold pipeline in Hp. by rewrite Hin in Hp.
Qed.
