(* ===== verification/MemWitness.v ===== *)
(** * Concrete memories and devices

    The theorems on the DDR4 memory and on a device with its memory, at
    concrete inputs. *)
From Stdlib Require Import ZArith Lia Bool String.
From stdpp Require Import base list gmap.
From S2P Require Import Prelude RamIf Dram DramTiming DramState Sched Controller CtrlRun Ddr4 Ddr4Run Ddr4Ctrl Ddr4Safe Memory Ddr4Memory MemRun RamDevice RamRun.
From S2P Require Import Flit CxlBuf Samples CxlBus CxlNode CxlDevice DevRun DevRam.
Import DDR4.

Module MemWitness.

(** Reads and writes of two channels, a negative address and one past the
    capacity among them *)
Definition ops0 : list mop :=
  [MSend (Request_new 64 READ 1 0); MSend (Request_new 0 WRITE 2 0); MSend (Request_new (-64) READ 3 0);
   MSend (Request_new (2 ^ 50) READ 4 0)] ++ repeat MTick 80.
Definition completes (n : nat) (x : res (Std Command State * Mem Command State)) : bool :=
  match x with
  | Ok (std, m) => match mrun std ops0 m with Ok (_, acc, done) => (length acc =? n)%nat && (length done =? n)%nat | Abort _ => false end
  | Abort _ => false
  end.
Lemma memory_safe_witness :
  exists std m, ramulator_init 2 2 DDR4_2Gb_x8 DDR4_1600K = Ok (std, m) /\
  completes 4 (Ok (std, m)) = true /\
  match mrun std ops0 m with
  | Abort e => e = "res"%string
  | Ok (m', _, _) => length (ctrls m') = Z.to_nat 2 /\
      forall k c, ctrls m' !! k = Some c ->
        mirror (Z.of_nat k) (rowtable c) (channel_of c) /\
        (forall j rk, node_at (channel_of c) [j] = Some rk -> state rk = PowerUp) /\
        (forall q x, node_at (channel_of c) q = Some x -> cur_serving_requests (stats x) = in_service c q)
  end.
Proof.
  assert (B : completes 4 (ramulator_init 2 2 DDR4_2Gb_x8 DDR4_1600K) = true) by (vm_compute; reflexivity).
  destruct (ramulator_init 2 2 DDR4_2Gb_x8 DDR4_1600K) as [[std m]|e] eqn:E; [|discriminate].
  exists std, m. split; [reflexivity|]. split; [exact B|].
  apply (memory_safe 2 2 DDR4_2Gb_x8 DDR4_1600K std m ltac:(lia) ltac:(lia) E ops0).
  unfold ops0. cbn [app]. do 4 (constructor; [split; reflexivity|]). cbn [repeat]. repeat constructor.
Defined.

(** A read and a write, forwarded and then answered by the memory *)
Definition dev2 : CXLDevice :=
  set_M2S_Req (mk_CXLBuf 16 [sample_msg Req 1 64; sample_msg Req 3 (2 ^ 20)])
    (set_M2S_RWD (mk_CXLBuf 16 [sample_msg RwD 2 128]) (CXLDevice_new main_params 16 8 3 1)).
Definition steps0 : list ram_step := [Forward 300; Forward 301; Cycle 301; Forward 302] ++ repeat (Cycle 303) 80.
Definition answers (x : res (Std Command State * Mem Command State)) : bool :=
  match x with
  | Ok (std, m) =>
      match do_steps main_params std steps0 dev2 (RamState_new m) with
      | Ok (d, _) => bool_decide (answered d = [(1, READ); (3, READ); (2, WRITE)]) && bool_decide (in_rx d = [])
      | Abort _ => false
      end
  | Abort _ => false
  end.
Lemma device_answers_once_witness :
  exists std m, ramulator_init 2 2 DDR4_2Gb_x8 DDR4_1600K = Ok (std, m) /\
  answers (Ok (std, m)) = true /\
  match do_steps main_params std steps0 dev2 (RamState_new m) with
  | Abort e => e = "res"%string \/ e = "Adding to already full buffer!"%string \/ e = "Ramulator side stall"%string
  | Ok (d', s') =>
      in_rx dev2 ++ answered dev2 ≡ₚ in_rx d' ++ in_ram d' ++ answered d' /\
      in_ram d' ≡ₚ held s' ++ buf_tags (inp_buf d') ++ mem_tags s'
  end.
Proof.
  assert (B : answers (ramulator_init 2 2 DDR4_2Gb_x8 DDR4_1600K) = true) by (vm_compute; reflexivity).
  destruct (ramulator_init 2 2 DDR4_2Gb_x8 DDR4_1600K) as [[std m]|e] eqn:E; [|discriminate].
  exists std, m. split; [reflexivity|]. split; [exact B|].
  apply (device_answers_once main_params 2 2 DDR4_2Gb_x8 DDR4_1600K std m dev2 steps0 ltac:(lia) ltac:(lia) E).
  - constructor; try discriminate; [by repeat constructor..|]. vm_compute. split; [split|]; congruence.
  - split; [intros k x Hk; discriminate|split; [cbn; unfold NUM_VC; lia|reflexivity]..].
  - reflexivity.
  - reflexivity.
  - apply (bool_decide_unpack _). vm_compute. exact I.
Defined.
End MemWitness.
