(* ===== verification/HostTrace.v ===== *)
(** * The trace of the host

    [CXLHost::text_to_trace] of [src/CXLHost.cpp] but for the jump over idle
    time: the lines of the trace file become messages, which wait in
    [text_to_trace_buf] until they are due and then go to a virtual channel
    or to the direct-attached memory. *)
From Stdlib Require Import ZArith Lia Bool String Ascii.
From stdpp Require Import base list gmap.
From S2P Require Import Prelude Flit CxlBuf CxlBus CxlNode RamIf CxlHost.

(** ** Words and numbers *)

(** [split(s, delim)]: [getline] ends at a delimiter or at the end, and fails
    when nothing is left. *)
Fixpoint split_loop (delim : ascii) (s item : string) : list string :=
  match s with
  | EmptyString => [item]
  | String c s =>
      if Ascii.eqb c delim then
        item :: match s with EmptyString => [] | String _ _ => split_loop delim s EmptyString end
      else split_loop delim s (item ++ String c EmptyString)
  end.
Definition split (s : string) (delim : ascii) : list string :=
  match s with EmptyString => [] | _ => split_loop delim s EmptyString end.

(** The value of a character as a digit *)
Definition digit (c : ascii) : option Z :=
  let n := Z.of_N (N_of_ascii c) in
  if (48 <=? n) && (n <=? 57) then Some (n - 48)
  else if (97 <=? n) && (n <=? 122) then Some (n - 87)
  else if (65 <=? n) && (n <=? 90) then Some (n - 55)
  else None.
Definition is_digit (base : Z) (c : ascii) : bool :=
  match digit c with Some v => v <? base | None => false end.
Fixpoint digits (base : Z) (s : string) (acc : Z) : Z :=
  match s with
  | EmptyString => acc
  | String c s =>
      match digit c with
      | Some v => if v <? base then digits base s (acc * base + v) else acc
      | None => acc
      end
  end.
Definition is_space (c : ascii) : bool :=
  let n := Z.of_N (N_of_ascii c) in (n =? 32) || ((9 <=? n) && (n <=? 13)).
Fixpoint skip_spaces (s : string) : string :=
  match s with String c s' => if is_space c then skip_spaces s' else s | EmptyString => s end.

(** [stoul(s, NULL, 0)]: the base is that of the prefix, what follows the
    digits is ignored, and a missing number or one that does not fit is an
    exception. *)
Definition unsigned_part (s : string) : res Z :=
  let number base s :=
    match s with
    | String c _ => if is_digit base c then Ok (digits base s 0) else Abort "invalid_argument"
    | EmptyString => Abort "invalid_argument"
    end in
  match s with
  | String "0" (String x (String c s')) =>
      if (Ascii.eqb x "x" || Ascii.eqb x "X") && is_digit 16 c then number 16 (String c s') else number 8 s
  | String "0" _ => number 8 s
  | _ => number 10 s
  end.
Definition stoul (s : string) : res Z :=
  let s := skip_spaces s in
  let '(neg, s) := match s with
                   | String "-" s => (true, s)
                   | String "+" s => (false, s)
                   | _ => (false, s)
                   end in
  let! v := unsigned_part s in
  if 2 ^ 64 <=? v then Abort "out_of_range" else Ok (if neg : bool then u64 (- v) else v).

(** A line: an address, [R] or [W], and the number of instructions before the
    access *)
Definition parse_line (s : string) : res (Z * opcode * Z) :=
  match split s " " with
  | [w0; w1; w2] =>
      let! addr := stoul w0 in
      let! oc := if String.eqb w1 "R" then Ok Req else if String.eqb w1 "W" then Ok RwD else Abort "Illegal opcode" in
      let! gap := stoul w2 in
      Ok (addr, oc, gap)
  | _ => Abort "Incorrect string splitting"
  end.

Section Trace.
Context `{Indet} (p : CXLParams).
Implicit Types h : CXLHost.

(** The ticks of a gap, unsigned *)
Definition gap_ticks (gap : Z) : Z := u64 (gap * ticks_per_ins (params_ns p)).

(** ** Reading a line *)

(** The end of [text_to_trace]: [false] when the file has ended *)
Definition read_trace (g : globals) h (lines : list string) : res (bool * globals * CXLHost * list string) :=
  if is_buf_full (text_to_trace_buf h) then Ok (true, g, h, lines)
  else
    match lines with
    | [] => Ok (false, g, h, lines)
    | s :: lines =>
        let! (addr, oc, gap) := parse_line s in
        let '(m, n) := message_new oc addr (msg_count g) in
        let! b := enqueue (gap, m) (text_to_trace_buf h) in
        Ok (true, set_msg_count n g, set_text_to_trace_buf b h, lines)
    end.

(** ** Issuing a message *)

Definition to_dam (t : message) h (dam : option CXL_if_buf) : bool :=
  match dam, DAM_addr h with
  | Some _, Some (lo, hi) => (lo <=? address t) && (address t <? hi)
  | _, _ => false
  end.

(** The head of [text_to_trace_buf] goes to the direct-attached memory. *)
Definition issue_dam (tick : Z) (t : message) h (b : CXL_if_buf) : res (CXLHost * CXL_if_buf) :=
  if isFull b then Ok (h, b)
  else
    let! req := message2ramulator_req t in
    let! b := buf_add req b in
    let h := set_reqs_in_dam (match reqs_in_dam h !! rr_id req with
                              | Some _ => reqs_in_dam h
                              | None => <[rr_id req := tick]> (reqs_in_dam h)
                              end) h in
    let! q := dequeue (text_to_trace_buf h) in
    Ok (set_text_to_trace_buf q h, b).

(** Or to the current virtual channel of its type; [true] when the channel is
    full, where [text_to_trace] returns. *)
Definition issue_vc (tick : Z) (t : message) h : res (bool * CXLHost) :=
  let temp := set_msg_time (set_tick_created tick (msg_time t)) (message_copy t) in
  let done temp h :=
    let! q := dequeue (text_to_trace_buf h) in
    let h := set_text_to_trace_buf q h in
    Ok (false, set_messages_sent_to_device (match messages_sent_to_device h !! msg_id temp with
                                            | Some _ => messages_sent_to_device h
                                            | None => <[msg_id temp := temp]> (messages_sent_to_device h)
                                            end) h) in
  match opCode temp with
  | Req =>
      let vc := nth (cur_Req_vc h) (M2S_Req h) (CXLBuf_new 0) in
      if is_buf_full vc then Ok (true, h)
      else
        let temp := set_msg_time (set_read_write false (msg_time temp)) temp in
        let! vc := enqueue temp vc in
        done temp (set_cur_Req_vc (bump_vc (cur_Req_vc h)) (set_M2S_Req (<[cur_Req_vc h := vc]> (M2S_Req h)) h))
  | RwD =>
      let vc := nth (cur_RWD_vc h) (M2S_RWD h) (CXLBuf_new 0) in
      if is_buf_full vc then Ok (true, h)
      else
        let temp := set_msg_time (set_read_write true (msg_time temp)) temp in
        let! vc := enqueue temp vc in
        done temp (set_cur_RWD_vc (bump_vc (cur_RWD_vc h)) (set_M2S_RWD (<[cur_RWD_vc h := vc]> (M2S_RWD h)) h))
  | _ => Abort "Illegal message type"
  end.

(** The head is issued when its gap has passed since the last one. *)
Definition issue (tick : Z) h (dam : option CXL_if_buf) : res (bool * CXLHost * option CXL_if_buf) :=
  match q_ (text_to_trace_buf h) with
  | [] => Ok (false, h, dam)
  | (gap, t) :: _ =>
      if u64 (tick - last_text_to_trace_buf_dequeue h) <? gap_ticks gap then Ok (false, h, dam)
      else
        let h := set_last_text_to_trace_buf_dequeue tick h in
        match dam with
        | Some b =>
            if to_dam t h dam then let! (h, b) := issue_dam tick t h b in Ok (false, h, Some b)
            else let! (full, h) := issue_vc tick t h in Ok (full, h, dam)
        | None => let! (full, h) := issue_vc tick t h in Ok (full, h, dam)
        end
  end.
End Trace.

(** The parser on concrete lines *)
Example parse_hex : parse_line "0xb00000000000040 W 12" = Ok (792633534417207360, RwD, 12).
Proof. reflexivity. Qed.
Example parse_dec : parse_line "4096 R 010" = Ok (4096, Req, 8).
Proof. reflexivity. Qed.
Example parse_bad : parse_line "4096 R" = Abort "Incorrect string splitting".
Proof. reflexivity. Qed.
