(* ===== verification/SysFrame.v ===== *)
(** * What a tick of a node leaves alone

    The operations of a device other than [send_to_ramulator] and the memory
    do not touch the memory's input buffer, and no operation of a host or of
    a device changes the global clock. *)
From Stdlib Require Import ZArith Lia Bool String.
From stdpp Require Import base list gmap.
From S2P Require Import Prelude RamIf Dram Sched Controller Memory RamDevice RamRun Ddr4 DevRam.
From S2P Require Import Flit CxlBuf Samples CxlBus CxlNode CxlDevice CxlHost.

Section Device.
Context `{Indet} (p : CXLParams).
Implicit Types d : CXLDevice.
Definition same_dev d d' : Prop := inp_buf d' = inp_buf d.

Lemma try_vc_frame tick v j d : ensures (CxlDevice.try_vc p tick v j d) (fun x => same_dev d (snd x)).
Proof. unfold CxlDevice.try_vc, same_dev. frame_tac. Qed.
#[local] Hint Resolve try_vc_frame : frame.
Lemma check_vcs_loop_frame tick vc ixs : forall d, ensures (CxlDevice.check_vcs_loop p tick vc ixs d) (fun x => same_dev d (snd x)).
Proof.
  induction ixs as [|i ixs IH]; intros d; cbn [CxlDevice.check_vcs_loop]; [done|].
  eapply ensures_bind; [apply try_vc_frame|]. intros [b d1] H1. cbn in H1. destruct b; [done|].
  specialize (IH d1). destruct (CxlDevice.check_vcs_loop _ _ _ _ d1) as [[? ?]|]; cbn in *; [|done]. unfold same_dev in *. congruence.
Qed.
Lemma check_vcs_frame tick vc d : ensures (CxlDevice.check_vcs_for_packing p tick vc d) (fun x => same_dev d (snd x)).
Proof. apply check_vcs_loop_frame. Qed.
#[local] Hint Resolve check_vcs_frame : frame.
Lemma get_msg_frame tick d : ensures (CxlDevice.get_msg_from_vcs p tick d) (fun x => same_dev d (snd x)).
Proof. unfold CxlDevice.get_msg_from_vcs. unfold same_dev. frame_tac. Qed.
Lemma pack_slot_frame i v d : ensures (CxlDevice.pack_slot i v d) (same_dev d).
Proof. unfold CxlDevice.pack_slot, same_dev, CxlDevice.vc_set. frame_tac. Qed.
#[local] Hint Resolve get_msg_frame pack_slot_frame : frame.
Lemma pack_loop_frame tick ixs : forall d, ensures (CxlDevice.pack_loop p tick ixs d) (same_dev d).
Proof.
  induction ixs as [|i ixs IH]; intros d; cbn [CxlDevice.pack_loop]; [done|].
  destruct (negb _); [apply IH|]. destruct (_ && _).
  { specialize (IH (CxlDevice.set_packer_rollover (CxlDevice.packer_rollover d - 1) (CxlDevice.put_data i d))). exact IH. }
  eapply ensures_bind; [apply get_msg_frame|]. intros [v d1] H1. cbn in H1. destruct v as [v|]; [|done].
  eapply ensures_bind; [apply pack_slot_frame|]. intros d2 H2. specialize (IH d2).
  destruct (CxlDevice.pack_loop _ _ _ d2); cbn in *; [|done]. unfold same_dev in *. congruence.
Qed.
Lemma put_rollover_frame d : ensures (CxlDevice.put_rollover d) (same_dev d).
Proof. unfold CxlDevice.put_rollover, same_dev. frame_tac. Qed.
Lemma credits_frame d : ensures (CxlDevice.get_device_credits d) (fun x => same_dev d (snd x)).
Proof. unfold CxlDevice.get_device_credits, same_dev. frame_tac. Qed.
#[local] Hint Resolve pack_loop_frame put_rollover_frame credits_frame : frame.

(** Of the global variables the packer changes the flit counter. *)
Definition same_tick (g g' : globals) : Prop := curr_tick g' = curr_tick g.
Definition same_globals (g g' : globals) : Prop := set_flit_counter 0 g' = set_flit_counter 0 g.
Lemma same_globals_tick g g' : same_globals g g' -> same_tick g g'.
Proof. intros E. exact (f_equal curr_tick E). Qed.
Lemma add_flit_frame g d : ensures (CxlDevice.add_flit_to_buf g d) (fun x => same_globals g (fst x) /\ same_dev d (snd x)).
Proof. unfold CxlDevice.add_flit_to_buf, same_dev, same_globals. frame_tac. Qed.
#[local] Hint Resolve add_flit_frame : frame.
Lemma send_packed_frame g d : ensures (CxlDevice.send_packed g d) (fun x => same_globals g (fst (snd x)) /\ same_dev d (snd (snd x))).
Proof. unfold CxlDevice.send_packed, same_dev, same_globals. frame_tac. Qed.
Lemma finish_frame g d : ensures (CxlDevice.finish_packing g d) (fun x => same_globals g (fst (snd x)) /\ same_dev d (snd (snd x))).
Proof. unfold CxlDevice.finish_packing, same_dev, same_globals. frame_tac. Qed.
#[local] Hint Resolve send_packed_frame finish_frame : frame.

Lemma pack_finish_frame g d : ensures (let! d := CxlDevice.pack_loop p (curr_tick g) (seq 0 4) d in CxlDevice.finish_packing g d)
  (fun x => same_globals g (fst (snd x)) /\ same_dev d (snd (snd x))).
Proof.
  eapply ensures_bind; [apply pack_loop_frame|]. intros d2 H2. pose proof (finish_frame g d2) as H3.
  destruct (CxlDevice.finish_packing g d2) as [x|]; cbn in *; [|done]. unfold same_dev in *. intuition congruence.
Qed.
Lemma after_frame g d d1 (m : res (bool * (globals * CXLDevice))) : same_dev d d1 ->
  ensures m (fun x => same_globals g (fst (snd x)) /\ same_dev d1 (snd (snd x))) ->
  ensures m (fun x => same_globals g (fst (snd x)) /\ same_dev d (snd (snd x))).
Proof. destruct m as [x|]; cbn; [|done]. unfold same_dev in *. intuition congruence. Qed.

Lemma dev_packer_frame g d : ensures (CxlDevice.FLIT_packer p g d) (fun x => same_globals g (fst (snd x)) /\ same_dev d (snd (snd x))).
Proof.
  unfold CxlDevice.FLIT_packer. set (d0 := CxlDevice.start_flit g d). assert (H0 : same_dev d d0).
  { unfold d0, CxlDevice.start_flit, same_dev. by destruct (negb _). }
  apply (after_frame g d d0 _ H0). clearbody d0. clear d H0. cbv zeta.
  destruct (_ && is_flit_full _); [apply send_packed_frame|]. destruct (_ && _); [apply send_packed_frame|].
  destruct (_ && _); [|exact I]. destruct (_ && _); [|apply pack_finish_frame].
  eapply ensures_bind; [apply put_rollover_frame|]. intros d1 H1. apply (after_frame g d0 d1 _ H1).
  destruct (_ =? 4); [|apply pack_finish_frame]. unfold same_dev, same_globals in *. frame_tac.
Qed.
Lemma dev_transmit_frame tick d bus : ensures (CxlDevice.transmit p tick d bus) (fun x => same_dev d (fst (snd x))).
Proof. unfold CxlDevice.transmit, same_dev. frame_tac. Qed.
Lemma dev_unpacker_frame tick d : ensures (CxlDevice.FLIT_unpacker p tick d) (fun x => same_dev d (snd x)).
Proof. unfold CxlDevice.FLIT_unpacker, same_dev. frame_tac. Qed.

(** Forwarding adds valid requests. *)
Lemma check_rx_frame tick v d : no_end (inp_buf d) -> ensures (CxlDevice.check_rx_vc p tick v d) (fun x => no_end (inp_buf (snd x))).
Proof.
  intros Hd. unfold CxlDevice.check_rx_vc. destruct (q_ _) as [|m l]; [done|]. destruct (_ <? _); [done|]. destruct (isFull _); [done|].
  destruct (message2ramulator_req m) as [r|] eqn:Er; [|done]. cbn [bind].
  assert (Hr : rr_status r <> END) by (unfold message2ramulator_req in Er; destruct (opCode m); try done; by injection Er as <-).
  destruct (buf_add r (inp_buf d)) as [b|] eqn:Eb; [|done]. cbn [bind].
  assert (Hb : no_end b).
  { unfold buf_add in Eb. destruct (negb _); [|done]. injection Eb as <-. apply Forall_app. split; [done|]. by apply Forall_singleton. }
  eapply (ensures_bind _ _ (fun d => no_end (inp_buf d))); [by destruct (opCode m)|]. intros d1 H1.
  destruct (dequeue _); cbn; [|done]. by destruct v.
Qed.
Lemma send_frame tick d : no_end (inp_buf d) -> ensures (CxlDevice.send_to_ramulator p tick d) (fun x => no_end (inp_buf (snd x))).
Proof.
  intros Hd. unfold CxlDevice.send_to_ramulator. destruct (negb _); [|done].
  assert (Htwo : forall v1 s1 v2 s2, ensures (let! (b1, d) := CxlDevice.check_rx_vc p tick v1 d in
      if b1 : bool then Ok (true, set_ramulator_inp_state s1 d)
      else let! (b2, d) := CxlDevice.check_rx_vc p tick v2 d in
           if b2 : bool then Ok (true, set_ramulator_inp_state s2 d) else Ok (false, d)) (fun x => no_end (inp_buf (snd x)))).
  { intros v1 s1 v2 s2. eapply ensures_bind; [by apply check_rx_frame|]. intros [b1 d1] H1. destruct b1; [done|].
    eapply ensures_bind; [by apply check_rx_frame|]. intros [b2 d2] H2. by destruct b2. }
  destruct (ramulator_inp_state d); done || apply Htwo.
Qed.
End Device.

Section Host.
Context `{Indet} (p : CXLParams).
Implicit Types h : CXLHost.

Lemma host_add_flit_globals g h : ensures (CxlHost.add_flit_to_buf g h) (fun x => same_globals g (fst x)).
Proof. unfold CxlHost.add_flit_to_buf, same_globals. frame_tac. Qed.
#[local] Hint Resolve host_add_flit_globals : frame.
Lemma host_send_packed_globals g h : ensures (CxlHost.send_packed g h) (fun x => same_globals g (fst (snd x))).
Proof. unfold CxlHost.send_packed, same_globals. frame_tac. Qed.
Lemma host_finish_globals g h : ensures (CxlHost.finish_packing g h) (fun x => same_globals g (fst (snd x))).
Proof. unfold CxlHost.finish_packing, same_globals. frame_tac. Qed.
Lemma host_packer_globals g h : ensures (CxlHost.FLIT_packer p g h) (fun x => same_globals g (fst (snd x))).
Proof.
  unfold CxlHost.FLIT_packer. set (h0 := CxlHost.start_flit g h). clearbody h0. cbv zeta.
  assert (Hf : forall h1, ensures (let! h := CxlHost.pack_loop p (curr_tick g) (seq 0 4) h1 in CxlHost.finish_packing g h)
    (fun x => same_globals g (fst (snd x)))).
  { intros h1. eapply ensures_bind; [apply ensures_any|]. intros h2 _. apply host_finish_globals. }
  destruct (_ && is_flit_full _); [apply host_send_packed_globals|]. destruct (_ && _); [apply host_send_packed_globals|].
  destruct (_ && _); [|exact I]. destruct (_ && _); [|apply Hf].
  eapply ensures_bind; [apply ensures_any|]. intros h1 _. destruct (_ =? 4); [|apply Hf]. unfold same_globals in *. frame_tac.
Qed.
Lemma host_packer_tick g h : ensures (CxlHost.FLIT_packer p g h) (fun x => same_tick g (fst (snd x))).
Proof.
  pose proof (host_packer_globals g h) as F. destruct (CxlHost.FLIT_packer p g h); [|done]. cbn in *. by apply same_globals_tick.
Qed.
Lemma host_check_rx_tick g v h : ensures (CxlHost.check_rx_vc p g v h) (fun x => same_tick g (fst (snd x))).
Proof. unfold CxlHost.check_rx_vc, same_tick. frame_tac. Qed.
#[local] Hint Resolve host_packer_tick host_check_rx_tick : frame.
Lemma host_completed_tick g h : ensures (check_if_req_completed p g h) (fun x => same_tick g (fst (snd x))).
Proof. unfold check_if_req_completed, same_tick in *. frame_tac. Qed.
#[local] Hint Resolve host_completed_tick : frame.
Lemma update_flits_tick skip g h bus : ensures (update_flits p skip g h bus) (fun x => same_tick g (fst (fst x))).
Proof.
  unfold update_flits. cbv zeta. destruct (_ =? _); [|exact I].
  eapply (ensures_bind _ _ (fun x => same_tick g (fst (snd x)))); [destruct (_ && _); [done|apply host_packer_tick]|]. intros [b1 [g1 h1]] H1.
  eapply ensures_bind; [apply ensures_any|]. intros [b2 [h2 bus2]] _. eapply ensures_bind; [apply ensures_any|]. intros [b3 h3] _.
  eapply (ensures_bind _ _ (fun x => same_tick g1 (fst (snd x)))); [destruct (_ && _); [done|apply host_completed_tick]|].
  intros [b4 [g4 h4]] H4. cbn in H1, H4. repeat (destruct (negb _); [|exact I]). cbn. unfold same_tick in *. congruence.
Qed.
End Host.
