(* ===== verification/Flow.v ===== *)
(** * The flow of requests between a host and its device

    One host and one device: a message that the host has sent is in exactly
    one place on the way to the memory and back, and each credit of the flow
    control is held by one side, on its way to the other, or in use by such
    a message.  So a receiving channel never overflows. *)
From Stdlib Require Import ZArith Lia Bool String.
From stdpp Require Import base list gmap.
From S2P Require Import Prelude RamIf Dram Sched Controller Memory RamDevice RamRun DevRam.
From S2P Require Import Flit CxlBuf Samples CxlBus Packing Link CxlNode CxlHost HostPack HostRun CxlDevice DevPack DevRun Wire DevHeaders.

Abbreviation hrx := CxlHost.rx_buffer.
Abbreviation htx := CxlHost.tx_buffer.
Abbreviation drx := CxlDevice.rx_buffer.
Abbreviation dtx := CxlDevice.tx_buffer.
Abbreviation kinds_down := (kinds (H := m2s_dialect)).
Abbreviation kinds_up := (kinds (H := s2m_dialect)).
Abbreviation ids_down := (wire_ids (H := m2s_dialect)).
Abbreviation ids_up := (wire_ids (H := s2m_dialect)).

(** ** Where the messages are *)

(** A write header whose data has not all arrived *)
Definition part_hdr (u : uvc) : list Z := if u_roll u =? 0 then [] else [msg_id (u_last u)].
(** The flits of a device *)
Definition dev_out (d : CXLDevice) : list Z :=
  (if CxlDevice.is_packer_waiting d then ids (packed (H := s2m_dialect) (CxlDevice.flit_to_pack d)) else []) ++ ids_up (q_ (dtx d)).
(** From the channels of the host to the memory of the device and back, with
    flits [dn] and [un] on the wires *)
Definition path_ids (h : CXLHost) (d : CXLDevice) (dn un : list flit) : list Z :=
  HostPack.held_ids h ++ ids_down (q_ (drx d) ++ dn) ++ part_hdr (dev_uvc d) ++ map fst (pipeline d) ++ dev_out d ++
  ids_up (q_ (hrx h) ++ un) ++ got_plain (host_uvc h) ++ got_hdr (host_uvc h).
Definition sent_ids (h : CXLHost) : list Z := map fst (map_to_list (messages_sent_to_device h)).
(** Requests of a type *)
Definition tagged (t : ReqType) (l : list (Z * ReqType)) : Z := countb (fun x => ReqType_eqb (snd x) t) l.
Definition len {X} (l : list X) : Z := Z.of_nat (length l).

Lemma len_app {X} (l1 l2 : list X) : len (l1 ++ l2) = len l1 + len l2.
Proof. unfold len. rewrite length_app. lia. Qed.
Lemma len_ids l : len (ids l) = Z.of_nat (length l).
Proof. unfold len, ids. by rewrite length_map. Qed.

(** ** The credits

    The room of each receiving channel: what its owner has not promised, what
    the other side may use, and what is in use. *)
Record credits_ok (h : CXLHost) (d : CXLDevice) (dn un : list flit) : Prop := {
  cr_drs : data_credit (CxlHost.int_cred h) + total m2s_req (HostPack.outflits h ++ q_ (drx d) ++ dn) + tagged READ (pipeline d) +
    total s2m_drs_hdr (DevPack.outflits d ++ q_ (hrx h) ++ un) + len (got_hdr (host_uvc h)) = size_ (CxlHost.S2M_DRS h);
  cr_ndr : rsp_credit (CxlHost.int_cred h) + total m2s_rwd_hdr (HostPack.outflits h ++ q_ (drx d) ++ dn) + len (part_hdr (dev_uvc d)) +
    tagged WRITE (pipeline d) + total s2m_ndr (DevPack.outflits d ++ q_ (hrx h) ++ un) + len (got_plain (host_uvc h)) = size_ (CxlHost.S2M_NDR h);
  cr_req : req_credit (cred_at (CxlHost.ext_creds h) 0) + total m2s_req (HostPack.outflits h ++ q_ (drx d) ++ dn) + len (q_ (CxlDevice.M2S_Req d)) +
    req_credit (CxlDevice.int_cred d) + fst (credit_sum (q_ (dtx d) ++ q_ (hrx h) ++ un)) = size_ (CxlDevice.M2S_Req d);
  cr_rwd : data_credit (cred_at (CxlHost.ext_creds h) 0) + total m2s_rwd_hdr (HostPack.outflits h ++ q_ (drx d) ++ dn) + len (part_hdr (dev_uvc d)) +
    tagged WRITE (pipeline d) + data_credit (CxlDevice.int_cred d) + snd (credit_sum (q_ (dtx d) ++ q_ (hrx h) ++ un)) = size_ (CxlDevice.M2S_RWD d)
}.

Section Flow.
Context `{Indet} (p : CXLParams) (iv : Z * Z) {C S : Type}.
Implicit Types (h : CXLHost) (d : CXLDevice) (r : RamState C S) (dn un : list flit).

(** An address of the device *)
Definition in_iv (a : Z) : Prop := find_interval a [(0, iv)] = Some 0.

Definition down_ok (f : flit) : Prop := cargo_ok (H := m2s_dialect) f /\ flit_in in_iv f.
Definition up_ok (f : flit) : Prop := sendable f /\ flit_in in_iv f.
#[export] Instance down_ok_proper : Proper (same_cargo ==> iff) down_ok.
Proof. intros f g Hs. unfold down_ok. by rewrite Hs. Qed.
#[export] Instance up_ok_proper : Proper (same_cargo ==> iff) up_ok.
Proof. intros f g Hs. unfold up_ok. by rewrite Hs. Qed.

(** ** The invariant *)
Record flow h d r dn un : Prop := {
  fw_ivs : address_intervals h = [(0, iv)];
  fw_vcs : (cur_Req_vc h < NUM_VC)%nat /\ (cur_RWD_vc h < NUM_VC)%nat;
  fw_down : exists R, wf_stream (CxlDevice.unpacker_rollover d) (map kinds_down (q_ (drx d) ++ dn)) R /\ HostPack.packer_inv R h;
  fw_up : exists R, wf_stream (CxlHost.unpacker_rollover h) (map kinds_up (q_ (hrx h) ++ un)) R /\ DevPack.packer_inv R d;
  fw_dflits : Forall down_ok (q_ (drx d) ++ dn);
  fw_uflits : Forall up_ok (q_ (hrx h) ++ un);
  fw_addr : addresses_in in_iv d;
  fw_drecv : holds_ok (H0 := m2s_dialect) in_iv (dev_uvc d);
  fw_hrecv : holds_ok (H0 := s2m_dialect) (fun _ => True) (host_uvc h);
  fw_dbufs : buf_ok (CxlDevice.M2S_Req d) /\ buf_ok (CxlDevice.M2S_RWD d) /\ 0 < u64 (size_ (drx d));
  fw_hbufs : buf_ok (CxlHost.S2M_NDR h) /\ buf_ok (CxlHost.S2M_DRS h) /\ 0 < u64 (size_ (hrx h));
  fw_ram k m : messages_in_ramulator d !! k = Some m -> in_iv (address m);
  fw_dev : dev_ok d r;
  fw_ids : sent_ids h ≡ₚ path_ids h d dn un;
  fw_credits : credits_ok h d dn un
}.

(** What the requests of a device are recorded in *)
Definition ram_view d :=
  ((CxlDevice.M2S_Req d, CxlDevice.M2S_RWD d), (inp_buf d, ramulator_inp_state d, messages_in_ramulator d),
   (cur_DRS_vc d, cur_NDR_vc d), (length (CxlDevice.S2M_DRS d), length (CxlDevice.S2M_NDR d))).
Lemma dev_ok_view d d' r : ram_view d' = ram_view d -> dev_ok d r -> dev_ok d' r.
Proof.
  unfold ram_view. intros E. injection E as E1 E2 E3 E4 E5 E6 E7 E8 E9. intros [[] ? ? [] ? ?].
  split; [split| | |split| |]; unfold in_ram, in_rx in *; by rewrite ?E1, ?E2, ?E3, ?E4, ?E5, ?E6, ?E7, ?E8, ?E9.
Qed.

(** ** Wires *)
Lemma wire_flow h d r dn un dn' un' bd bh :
  same_wire (q_ (drx d) ++ dn) (q_ bd ++ dn') -> same_wire (q_ (hrx h) ++ un) (q_ bh ++ un') -> size_ bd = size_ (drx d) -> size_ bh = size_ (hrx h) ->
  flow h d r dn un -> flow (CxlHost.set_rx_buffer bh h) (CxlDevice.set_rx_buffer bd d) r dn' un'.
Proof.
  intros Wd Wu Zd Zu F. destruct F as [F1 F2 (R1 & S1 & P1) (R2 & S2 & P2) F5 F6 F7 F8 F9 F10 F11 F12 F13 F14 F15].
  split; try done.
  - exists R1. cbn. rewrite (wire_kinds _ _ Wd). split; [done|]. by apply (packer_inv_view R1 h).
  - exists R2. cbn. rewrite (wire_kinds _ _ Wu). split; [done|]. by apply (dev_packer_inv_view R2 d).
  - exact (wire_forall down_ok _ _ Wd F5).
  - exact (wire_forall up_ok _ _ Wu F6).
  - destruct F7. by split.
  - cbn. by rewrite Zd.
  - cbn. by rewrite Zu.
  - by apply (dev_ok_view d).
  - unfold path_ids in *. cbn [CxlHost.rx_buffer CxlDevice.rx_buffer CxlHost.set_rx_buffer CxlDevice.set_rx_buffer].
    by rewrite (wire_same_ids _ _ Wd), (wire_same_ids _ _ Wu).
  - destruct F15 as [C1 C2 C3 C4]. split; cbn [CxlHost.rx_buffer CxlDevice.rx_buffer CxlHost.set_rx_buffer CxlDevice.set_rx_buffer].
    all: rewrite ?(wire_total_app _ _ _ _ Wd), ?(wire_total_app _ _ _ _ Wu), ?(wire_credits_app _ _ _ Wu); done.
Qed.

(** The members the invariant is about *)
Definition host_view h :=
  (HostPack.packer_view h, hrx h, host_uvc h, (cur_Req_vc h, cur_RWD_vc h), messages_sent_to_device h).
Definition dev_view d := (DevPack.packer_view d, drx d, dev_uvc d, ram_view d, CxlDevice.last_drs_hdr d).
Lemma flow_host_view h h' d r dn un : host_view h' = host_view h -> flow h d r dn un -> flow h' d r dn un.
Proof.
  intros E F. assert (V : HostPack.packer_view h' = HostPack.packer_view h) by (unfold host_view in E; congruence).
  destruct (fw_down _ _ _ _ _ F) as (R & Sd & P). apply (packer_inv_view R h h' V) in P.
  destruct h, h'. unfold host_view, HostPack.packer_view, host_uvc in E. cbn in E. injection E. intros. subst.
  destruct F as [F1 F2 F3 F4 F5 F6 F7 F8 F9 F10 F11 F12 F13 F14 [C1 C2 C3 C4]]. split; try assumption; [by exists R|]. split; assumption.
Qed.
Lemma flow_dev_view h d d' r dn un : dev_view d' = dev_view d -> flow h d r dn un -> flow h d' r dn un.
Proof.
  intros E F. assert (V : DevPack.packer_view d' = DevPack.packer_view d) by (unfold dev_view in E; congruence).
  assert (V2 : ram_view d' = ram_view d) by (unfold dev_view in E; congruence).
  destruct (fw_up _ _ _ _ _ F) as (R & Sd & P). apply (dev_packer_inv_view R d d' V) in P.
  pose proof (dev_ok_view d d' r V2 (fw_dev _ _ _ _ _ F)) as Hd.
  destruct d, d'. unfold dev_view, DevPack.packer_view, ram_view, dev_uvc in E. cbn in E. injection E. intros. subst.
  destruct F as [F1 F2 F3 F4 F5 F6 [] F8 F9 F10 F11 F12 F13 F14 [C1 C2 C3 C4]]. split; try assumption; [by exists R| |]; split; assumption.
Qed.
End Flow.
