(* ===== verification/HostFlow.v ===== *)
(** * The host in the flow of requests

    Packing, transmitting, unpacking, retiring and issuing keep the
    invariant [Flow.flow]. *)
From Stdlib Require Import ZArith Lia Bool String.
From stdpp Require Import base list gmap.
From S2P Require Import Prelude RamIf Dram Sched Controller Memory RamDevice RamRun DevRam.
From S2P Require Import Flit CxlBuf Samples CxlBus Packing Link CxlNode CxlDevice DevPack DevRun Wire DevHeaders CxlHost HostPack HostRun HostTrace SysFrame Flow.

Section HostFlow.
Context `{Indet} (p : CXLParams) (iv : Z * Z) {C S : Type}.
Implicit Types (h : CXLHost) (d : CXLDevice) (r : RamState C S) (dn un : list flit).
#[local] Abbreviation flow := (flow iv).

(** What the receiving side of a host is made of *)
Lemma host_rest_eqs h h' : host_rest h' = host_rest h ->
  rx_buffer h' = rx_buffer h /\ host_uvc h' = host_uvc h /\ address_intervals h' = address_intervals h /\
  (cur_Req_vc h' = cur_Req_vc h /\ cur_RWD_vc h' = cur_RWD_vc h) /\ sent_ids h' = sent_ids h.
Proof.
  unfold host_rest, host_uvc, sent_ids. intros E. injection E as E1 E2 E3 E4 E5 E6 E7 E8 E9 E10 E11 E12 E13.
  by rewrite E1, E2, E3, E4, E5, E8, E11, E12, E13.
Qed.

(** ** Packing *)
Lemma host_pack_flow g h d r dn un b g' h' : flow h d r dn un -> FLIT_packer p g h = Ok (b, (g', h')) ->
  flow h' d r dn un /\ host_rest h' = host_rest h.
Proof.
  intros F E. destruct F as [F1 F2 (R & Sd & P) F4 F5 F6 F7 F8 F9 F10 F11 F12 F13 F14 [C1 C2 C3 C4]].
  destruct (FLIT_packer_packs p R g h P) as (b1 & g1 & h1 & E1 & P' & Hh & Hr & Ha). rewrite E in E1. injection E1 as <- <- <-.
  split; [|done]. destruct (host_rest_eqs _ _ Hr) as (Q1 & Q2 & Q3 & [Q4 Q4'] & Q5).
  assert (Q6 : unpacker_rollover h' = unpacker_rollover h) by exact (f_equal u_roll Q2).
  assert (Q7 : S2M_NDR h' = S2M_NDR h) by exact (f_equal u_plain Q2). assert (Q8 : S2M_DRS h' = S2M_DRS h) by exact (f_equal u_hdr Q2).
  assert (Hd : only_device h 0). { intros a e. rewrite F1. cbn. destruct iv. destruct (_ && _); congruence. }
  specialize (Ha 0 Hd). unfold HostPack.accounts in Ha. injection Ha as A1 A2 A3 A4.
  split; rewrite ?Q1, ?Q2, ?Q3, ?Q4, ?Q4', ?Q6, ?Q7, ?Q8; try done; [by exists R| |].
  - rewrite Q5, F14. unfold path_ids. rewrite Q1, Q2. by rewrite Hh.
  - split; rewrite ?Q1, ?Q2, ?Q7, ?Q8; rewrite !total_app in *; lia.
Qed.

(** ** Transmitting *)

(** The oldest flit leaves the transmit buffer. *)
Lemma packer_inv_tail R h f l b : packer_inv R h -> q_ (tx_buffer h) = f :: l -> q_ b = l -> size_ b = size_ (tx_buffer h) ->
  (exists R1, wf_flit R (kinds_down f) R1 = true /\ packer_inv R1 (set_tx_buffer b h)) /\ cargo_ok (H := m2s_dialect) f /\ single_dest h f.
Proof.
  intros [[] Hb (r0 & Hs & Hbd) Hd Hc] Hq <- Hz. rewrite Hq in *. apply Forall_cons in Hd as [Hd Hd'], Hc as [Hc Hc'].
  split; [|done]. inversion Hs as [|? ? R1 ? ? Hf Hfs]; subst. exists R1. split; [done|].
  split; cbn; [by split| |by exists r0|done|done].
  destruct Hb as [B1 B2]. split; [by rewrite Hz|]. rewrite Hz. unfold buf_occupancy in *. rewrite Hq in B2. cbn in B2. lia.
Qed.
Lemma host_transmit_flow tick h d r pre un bus b h' bus' : flow h d r (pre ++ flit_slots bus) un ->
  transmit p tick h bus = Ok (b, (h', bus')) -> flow h' d r (pre ++ flit_slots bus') un /\ host_rest h' = host_rest h.
Proof.
  intros F E. unfold transmit in E. destruct (is_buf_empty (tx_buffer h)); [by res_inv|]. destruct (is_full bus); [by res_inv|].
  apply bind_ok_inv in E as (f & Ef & E). apply get_head_inv in Ef as [l Hq]. destruct (_ <? _); [by res_inv|]. destruct (_ <? _); [by res_inv|].
  apply bind_ok_inv in E as (bus1 & Ea & E). apply add_to_bus_wire in Ea. apply bind_ok_inv in E as (tx & Et & E). injection E as <- <- <-.
  apply dequeue_inv in Et as (f1 & Hq1 & Hz). cbn in Hq1, Hz. rewrite Hq in Hq1. injection Hq1 as <- Hl. split; [|done].
  set (f2 := set_time _ _ _) in Ea. assert (Hf2 : same_cargo f f2) by apply same_transmission. clearbody f2.
  destruct F as [F1 F2 (R & Sd & P) F4 F5 F6 F7 F8 F9 F10 F11 F12 F13 F14 [C1 C2 C3 C4]].
  destruct (packer_inv_tail R h f l tx P Hq (eq_sym Hl) Hz) as ((R1 & Hw & P1) & Hcg & Hne & e & Hsd).
  assert (Hf : down_ok iv f2).
  { rewrite <- Hf2. split; [done|]. split; [|done]. eapply Forall_impl; [exact Hsd|]. cbn. rewrite F1. intros s [?|Hs]; [by left|right].
    unfold in_iv. rewrite Hs. f_equal. cbn in Hs. destruct iv. destruct (_ && _); congruence. }
  assert (Hw2 : q_ (drx d) ++ pre ++ flit_slots bus1 = (q_ (drx d) ++ pre ++ flit_slots bus) ++ [f2]) by (by rewrite Ea, !app_assoc).
  assert (Ho : outflits h = f :: outflits (set_tx_buffer tx (set_last_transmitted_at tick h))).
  { unfold outflits. cbn. by rewrite Hq, Hl. }
  split; rewrite ?Hw2; try done.
  - exists R1. rewrite map_app. cbn [map]. split; [|by apply (packer_inv_view R1 (set_tx_buffer tx h))].
    eapply wf_stream_snoc; [exact Sd|]. by rewrite <- Hf2.
  - apply Forall_app. split; [done|]. by apply Forall_singleton.
  - change (sent_ids (set_tx_buffer _ _)) with (sent_ids h). rewrite F14. unfold path_ids. rewrite Hw2, (wire_ids_app _ [f2]).
    assert (Hh : held_ids h ≡ₚ held_ids (set_tx_buffer tx (set_last_transmitted_at tick h)) ++ ids_down [f2]).
    { rewrite (wire_same_ids [f] [f2]) by (by constructor). unfold held_ids, wire_ids. rewrite Hq.
      change (waiting (set_tx_buffer _ _)) with (waiting h).
      cbn [tx_buffer set_tx_buffer set_last_transmitted_at is_packer_waiting flit_to_pack map concat]. rewrite <- Hl.
      unfold ids. rewrite !map_app, app_nil_r. rewrite <- !app_assoc. do 2 f_equiv. apply Permutation_app_comm. }
    rewrite Hh. rewrite <- !app_assoc. f_equiv. rewrite app_assoc, (Permutation_app_comm (ids_down [f2])), <- app_assoc. done.
  - assert (T : forall t, total t (outflits (set_tx_buffer tx (set_last_transmitted_at tick h)) ++ q_ (drx d) ++ pre ++ flit_slots bus1) =
      total t (outflits h ++ q_ (drx d) ++ pre ++ flit_slots bus)).
    { intros t. rewrite Hw2, Ho, !total_app, (wire_total t [f] [f2]) by (by constructor). rewrite !total_cons. change (total t []) with 0. lia. }
    by split; rewrite T.
Qed.

(** ** Unpacking *)
Lemma packer_inv_creds R h e : packer_inv R h -> (forall k, 0 <= req_credit (cred_at e k) /\ 0 <= data_credit (cred_at e k)) ->
  packer_inv R (set_ext_creds e h).
Proof. intros [[] ? ? ? ?] He. split; [by split|done..]. Qed.
Lemma credit_sum_nonneg l : Forall sendable l -> 0 <= fst (credit_sum l) /\ 0 <= snd (credit_sum l).
Proof.
  induction 1 as [|f l (_ & H1 & H2) _ IH]; [done|]. unfold credit_sum in *. cbn in *. lia.
Qed.
Lemma len_nonneg {X} (l : list X) : 0 <= len l.
Proof. unfold len. lia. Qed.
Lemma tagged_nonneg t l : 0 <= tagged t l.
Proof. apply countb_nonneg. Qed.

(** The credits make room for every flit on the wire. *)
Lemma host_room h d r dn un f l : flow h d r dn un -> q_ (rx_buffer h) = f :: l -> room (H0 := s2m_dialect) (host_uvc h) f.
Proof.
  intros F Hq. destruct F as [_ _ (R & _ & P) _ _ _ _ _ _ _ (B1 & B2 & _) _ _ _ [C1 C2 _ _]]. rewrite Hq in *. destruct P as [P _ _ _ _].
  pose proof (pi_cred1 h P). pose proof (pi_cred2 h P). rewrite ?total_app, ?total_cons in *.
  repeat match goal with Hx : context [total ?t ?l] |- _ => pose proof (total_ge0 t l); generalize dependent (total t l); intros end.
  split; [done|]. split; [done|]. pose proof (tagged_nonneg READ (pipeline d)). pose proof (tagged_nonneg WRITE (pipeline d)).
  pose proof (len_nonneg (part_hdr (dev_uvc d))). pose proof (length_msgs s2m_ndr f). pose proof (length_msgs s2m_drs_hdr f).
  unfold got_plain, ids, len, buf_occupancy in *. rewrite length_map in *. cbn in *. lia.
Qed.

(** So the host does not stall. *)
Lemma host_no_stall h d r dn un : flow h d r dn un -> is_buf_full (rx_buffer h) && is_buf_full (S2M_DRS h) && is_buf_full (S2M_NDR h) = false.
Proof.
  intros F. apply not_true_is_false. intros [[H1 H2]%andb_prop H3]%andb_prop.
  destruct F as [_ _ (R & _ & P) (R2 & Su & _) _ F6 _ _ _ _ (B1 & B2 & B0) _ _ _ [C1 C2 _ _]]. destruct P as [P _ _ _ _].
  pose proof (pi_cred1 h P). pose proof (pi_cred2 h P). rewrite !total_app in C1, C2.
  refine (no_stall (H0 := s2m_dialect) (host_uvc h) (rx_buffer h) un R2 Su _ B0 B1 B2 _ _ H1 H3 H2).
  { eapply Forall_impl; [exact F6|]. by intros f [_ [_ ?]]. }
  all: change (plain_ty (Dialect := s2m_dialect)) with s2m_ndr; change (hdr_ty (Dialect := s2m_dialect)) with s2m_drs_hdr.
  all: repeat match goal with Hx : context [total ?t ?l] |- _ =>
    lazymatch l with q_ (rx_buffer _) => fail | _ => pose proof (total_ge0 t l); generalize dependent (total t l); intros end end.
  all: pose proof (tagged_nonneg READ (pipeline d)); pose proof (tagged_nonneg WRITE (pipeline d)); pose proof (len_nonneg (part_hdr (dev_uvc d))).
  all: unfold got_plain, ids, len, buf_occupancy in *; rewrite ?length_map in *; cbn [u_plain u_hdr host_uvc] in *; lia.
Qed.

(** What the host knows of its requests *)
Definition host_books h := (text_to_trace_buf h, messages_sent_to_device h, reqs_in_dam h, DAM_addr h).

Lemma ids_up_cons f l : ids_up (f :: l) = ids (msgs_of s2m_ndr (slots f)) ++ ids (msgs_of s2m_drs_hdr (slots f)) ++ ids_up l.
Proof. unfold wire_ids, ids. cbn [map concat]. unfold packed. cbn. by rewrite !map_app, <- app_assoc. Qed.

Lemma up_slots f : up_ok iv f -> Forall (slot_in (H0 := s2m_dialect) (fun _ => True)) (slots f).
Proof. intros [[Hc _] _]. eapply Forall_impl; [exact Hc|]. intros s Hs. split; [done|by right]. Qed.

Lemma host_unpacked_flow tick h d r dn un f l u b : flow h d r dn un -> q_ (rx_buffer h) = f :: l ->
  unpack_slots (H0 := s2m_dialect) set_tick_resp_unpacked tick (slots f) (host_uvc h) = Ok u -> q_ b = l -> size_ b = size_ (rx_buffer h) ->
  flow (unpacked u b 0 f h) d r dn un.
Proof.
  intros F Hq Eu <- Hz. destruct (host_room _ _ _ _ _ _ _ F Hq) as (B1 & B2 & Hr1 & Hr2).
  destruct F as [F1 F2 (R & Sd & P) (R2 & Su & P2) F5 F6 F7 F8 F9 F10 F11 F12 F13 F14 [C1 C2 C3 C4]]. rewrite Hq in *.
  inversion Su as [|? ? r' ? ? Hw Hfs]; subst.
  destruct (unpack_flit (H0 := s2m_dialect) set_tick_resp_unpacked tick (fun _ _ => eq_refl) f (host_uvc h) r' Hw B1 B2 Hr1 Hr2)
    as (u1 & Eu1 & U1 & U2 & U3 & U4 & U5 & U6 & U7). rewrite Eu in Eu1. injection Eu1 as <-.
  cbn [plain_ty hdr_ty s2m_dialect] in U2, U3. apply Forall_cons in F6 as [Hf F6]. pose proof Hf as [(_ & G1 & G2) _]. pose proof (pi_ext h (pk_pack R h P)) as Hx.
  assert (Hu : host_uvc (unpacked u b 0 f h) = u) by (by destruct u).
  split; try done; cbn [rx_buffer unpacked set_ext_creds set_rx_buffer]; rewrite ?Hu; try done.
  - exists R. split; [done|]. apply (packer_inv_view R (set_ext_creds (ext_creds (unpacked u b 0 f h)) h)).
    { unfold packer_view. cbn. by rewrite U4, U5. }
    apply packer_inv_creds; [exact P|]. intros k. specialize (Hx k). unfold unpacked. cbn [ext_creds set_ext_creds].
    rewrite cred_at_insert. case_decide; [subst k; cbn [req_credit data_credit]|]; lia.
  - exists R2. split; [|done]. change (unpacker_rollover (unpacked _ _ _ _ _)) with (u_roll u). by rewrite U1.
  - eapply unpack_holds; [by apply up_slots|exact F9|exact Eu].
  - split; [exact U6|]. split; [exact U7|]. rewrite Hz. apply F11.
  - change (sent_ids (unpacked _ _ _ _ _)) with (sent_ids h). rewrite F14. unfold path_ids. rewrite Hu, Hq. cbn [rx_buffer unpacked set_ext_creds set_rx_buffer].
    rewrite U2, U3, <- app_comm_cons, ids_up_cons.
    change (held_ids (unpacked _ _ _ _ _)) with (held_ids h). clear. perm_lia.
  - assert (Ho : forall t, total t (DevPack.outflits d ++ (f :: q_ b) ++ un) = slot_count_in_flit f t + total t (DevPack.outflits d ++ q_ b ++ un)).
    { intros t. rewrite !total_app, total_cons. lia. }
    assert (Hs : credit_sum (q_ (dtx d) ++ (f :: q_ b) ++ un) = (req_credit (credit (header f)) + fst (credit_sum (q_ (dtx d) ++ q_ b ++ un)),
      data_credit (credit (header f)) + snd (credit_sum (q_ (dtx d) ++ q_ b ++ un)))).
    { rewrite !credit_sum_app. unfold credit_sum. cbn. pair_lia. }
    rewrite Ho, <- (length_msgs s2m_drs_hdr) in C1. rewrite Ho, <- (length_msgs s2m_ndr) in C2. rewrite Hs in C3, C4. cbn [fst snd] in C3, C4.
    assert (Hc : cred_at (ext_creds (unpacked u b 0 f h)) 0 = mk_credits (req_credit (cred_at (ext_creds h) 0) + req_credit (credit (header f)))
      (rsp_credit (cred_at (ext_creds h) 0)) (data_credit (cred_at (ext_creds h) 0) + data_credit (credit (header f)))).
    { unfold unpacked. cbn [ext_creds set_ext_creds]. by rewrite cred_at_insert, decide_True. }
    change (size_ (S2M_DRS h)) with (size_ (u_hdr (host_uvc h))) in C1. change (size_ (S2M_NDR h)) with (size_ (u_plain (host_uvc h))) in C2.
    rewrite <- U5 in C1. rewrite <- U4 in C2. split; rewrite ?Hc, ?Hu, ?U2, ?U3, ?len_app, ?len_ids; cbn [req_credit data_credit];
      change (int_cred (unpacked u b 0 f h)) with (int_cred h); change (outflits (unpacked u b 0 f h)) with (outflits h);
      change (rx_buffer (unpacked u b 0 f h)) with b; change (S2M_DRS (unpacked u b 0 f h)) with (u_hdr u);
      change (S2M_NDR (unpacked u b 0 f h)) with (u_plain u); lia.
Qed.

Lemma host_unpack_cases tick h d r dn un : flow h d r dn un ->
  FLIT_unpacker p tick h = Ok (false, h) \/
  exists f l u b, q_ (rx_buffer h) = f :: l /\ unpack_slots (H0 := s2m_dialect) set_tick_resp_unpacked tick (slots f) (host_uvc h) = Ok u /\
    q_ b = l /\ size_ b = size_ (rx_buffer h) /\ FLIT_unpacker p tick h = Ok (true, unpacked u b 0 f h).
Proof.
  intros F. pose proof (host_no_stall _ _ _ _ _ F) as Hst. destruct (q_ (rx_buffer h)) as [|f l] eqn:Hq.
  { left. unfold FLIT_unpacker, is_buf_empty. by rewrite Hst, Hq. }
  destruct (Z.ltb_spec (tick - time_of_receipt (flit_time f)) (delay_rx_buf_to_unpack p)) as [Ht|Ht].
  { left. unfold FLIT_unpacker, is_buf_empty, get_head. rewrite Hst, Hq. cbn [negb bind]. by rewrite (proj2 (Z.ltb_lt _ _) Ht). }
  right. pose proof (fw_uflits _ _ _ _ _ _ F) as Hu. pose proof (fw_up _ _ _ _ _ _ F) as (R2 & Su & _). rewrite Hq in Hu, Su.
  apply Forall_cons in Hu as [[_ [Hin Hne]] _]. inversion Su as [|? ? r' ? ? Hw _]; subst.
  destruct (host_unpack_spec p tick h f l r' 0) as (u & b1 & Eu & Hb & Hz & E1); try done.
  { unfold from_device. rewrite (fw_ivs _ _ _ _ _ _ F). exact Hin. }
  { by eapply host_room. }
  by exists f, l, u, b1.
Qed.
Lemma host_unpack_flow tick h d r dn un b h' : flow h d r dn un -> FLIT_unpacker p tick h = Ok (b, h') ->
  flow h' d r dn un /\ host_books h' = host_books h.
Proof.
  intros F E. destruct (host_unpack_cases tick h d r dn un F) as [E1|(f & l & u & b1 & Hq & Eu & Hb & Hz & E1)]; rewrite E in E1; injection E1 as -> ->; [done|].
  split; [|done]. by eapply host_unpacked_flow.
Qed.

(** ** Retiring *)

(** The response at the head of a channel *)
Definition retired (v : rsp_vc) (m : message) (b : CXLBuf message) h : CXLHost :=
  let c := int_cred h in
  rsp_set v b (set_int_cred (match v with
    | NdrVC => mk_credits (req_credit c) (rsp_credit c + 1) (data_credit c)
    | DrsVC => mk_credits (req_credit c) (rsp_credit c) (data_credit c + 1)
    end) (set_messages_sent_to_device (delete (msg_id m) (messages_sent_to_device h)) h)).

Lemma packer_inv_int R h c : packer_inv R h -> req_credit c = 0 -> 0 <= rsp_credit c <= size_ (S2M_NDR h) -> 0 <= data_credit c <= size_ (S2M_DRS h) ->
  packer_inv R (set_int_cred c h).
Proof. intros [[] ? ? ? ?] H1 H2 H3. split; [by split|done..]. Qed.

Lemma host_credit_bound h d dn un : credits_ok h d dn un ->
  rsp_credit (int_cred h) <= size_ (S2M_NDR h) /\ data_credit (int_cred h) <= size_ (S2M_DRS h).
Proof.
  intros [C1 C2 _ _]. pose proof (total_ge0 m2s_req (outflits h ++ q_ (drx d) ++ dn)).
  pose proof (total_ge0 m2s_rwd_hdr (outflits h ++ q_ (drx d) ++ dn)). pose proof (tagged_nonneg READ (pipeline d)).
  pose proof (tagged_nonneg WRITE (pipeline d)). pose proof (total_ge0 s2m_drs_hdr (DevPack.outflits d ++ q_ (hrx h) ++ un)).
  pose proof (total_ge0 s2m_ndr (DevPack.outflits d ++ q_ (hrx h) ++ un)). pose proof (len_nonneg (got_hdr (host_uvc h))).
  pose proof (len_nonneg (got_plain (host_uvc h))). pose proof (len_nonneg (part_hdr (dev_uvc d))). lia.
Qed.
Lemma retired_flow v m b h d r dn un : flow h d r dn un -> q_ (rsp_get h v) = m :: q_ b -> size_ b = size_ (rsp_get h v) ->
  is_Some (messages_sent_to_device h !! msg_id m) ->
  flow (retired v m b h) d r dn un /\ sent_ids h ≡ₚ msg_id m :: sent_ids (retired v m b h).
Proof.
  intros F Hq Hz [x Hx]. destruct F as [F1 F2 (R & Sd & P) F4 F5 F6 F7 F8 [F9 F9' F9''] F10 (B1 & B2 & B0) F12 F13 F14 [C1 C2 C3 C4]].
  assert (Hs : sent_ids h ≡ₚ msg_id m :: sent_ids (retired v m b h)).
  { unfold sent_ids. rewrite <- (map_to_list_delete (messages_sent_to_device h) _ x Hx). by destruct v. }
  split; [|exact Hs]. set (h' := retired v m b h) in *.
  assert (Hb : buf_ok (rsp_get h v) -> buf_ok b).
  { intros [Z1 Z2]. split; rewrite Hz; [done|]. unfold buf_occupancy in *. rewrite Hq in Z2. cbn in Z2. lia. }
  assert (Hg : got_plain (host_uvc h) ++ got_hdr (host_uvc h) ≡ₚ [msg_id m] ++ got_plain (host_uvc h') ++ got_hdr (host_uvc h')).
  { unfold got_plain, got_hdr, ids. destruct v; cbn in *; rewrite Hq; cbn; [done|]. symmetry. apply Permutation_middle. }
  assert (Hl : len (got_plain (host_uvc h)) = len (got_plain (host_uvc h')) + (match v with NdrVC => 1 | DrsVC => 0 end) /\
    len (got_hdr (host_uvc h)) = len (got_hdr (host_uvc h')) + (match v with NdrVC => 0 | DrsVC => 1 end)).
  { unfold got_plain, got_hdr. rewrite !len_app, !len_ids. destruct v; cbn in *; rewrite Hq; cbn; lia. }
  pose proof (pk_pack R h P) as Pk. pose proof (pi_cred0 h Pk). pose proof (pi_cred1 h Pk). pose proof (pi_cred2 h Pk).
  assert (Hzs : size_ (S2M_NDR h') = size_ (S2M_NDR h) /\ size_ (S2M_DRS h') = size_ (S2M_DRS h)) by (by destruct v; cbn in *; rewrite ?Hz).
  assert (Hc : int_cred h' = mk_credits 0 (rsp_credit (int_cred h) + (match v with NdrVC => 1 | DrsVC => 0 end))
    (data_credit (int_cred h) + (match v with NdrVC => 0 | DrsVC => 1 end))).
  { destruct v; cbn; f_equal; lia. }
  assert (C' : credits_ok h' d dn un).
  { destruct Hzs as [Z1 Z2], Hl as [L1 L2]. split; rewrite ?Z1, ?Z2, ?Hc; cbn [rsp_credit data_credit];
      destruct v; change (outflits h') with (outflits h); change (rx_buffer h') with (rx_buffer h); change (ext_creds h') with (ext_creds h); lia. }
  split; try done; try (by destruct v).
  - exists R. split; [done|]. apply (packer_inv_view R (set_int_cred (int_cred h') h)).
    { unfold packer_view. destruct Hzs as [-> ->]. by destruct v. }
    pose proof (host_credit_bound _ _ _ _ C') as [K1 K2]. destruct Hzs as [Z1 Z2]. rewrite Z1 in K1. rewrite Z2 in K2. rewrite Hc in *.
    cbn [rsp_credit data_credit] in *. apply packer_inv_int; cbn; try done; destruct v; lia.
  - destruct v; cbn in *; rewrite Hq in *; [apply Forall_cons in F9 as [_ F9]|apply Forall_cons in F9' as [_ F9']]; by split.
  - destruct v; cbn in *; auto.
  - apply (Permutation_cons_inv (a := msg_id m)). rewrite <- Hs, F14. unfold path_ids.
    assert (held_ids h' = held_ids h /\ rx_buffer h' = rx_buffer h) as [-> ->] by (by destruct v).
    match goal with |- _ ≡ₚ msg_id m :: ?l => change (msg_id m :: l) with ([msg_id m] ++ l) end. clear -Hg. perm_lia.
Qed.

(** Requests completed: [n] more are counted. *)
Definition counted (n : Z) (g g' : globals) : Prop :=
  msg_count g' = msg_count g /\ forall k, num_reqs_completed g = u64 k -> num_reqs_completed g' = u64 (k + n).
Lemma counted_0 g : counted 0 g g.
Proof. split; [done|]. intros k ->. by rewrite Z.add_0_r. Qed.
Lemma counted_step g g' : msg_count g' = msg_count g -> num_reqs_completed g' = u64 (num_reqs_completed g + 1) -> counted 1 g g'.
Proof. intros Hm Hn. split; [done|]. intros k Hk. rewrite Hn, Hk. unfold u64. by rewrite Zplus_mod_idemp_l. Qed.

(** The messages retired leave the books. *)
Definition retires h h' (l : list Z) : Prop :=
  sent_ids h ≡ₚ l ++ sent_ids h' /\ text_to_trace_buf h' = text_to_trace_buf h /\ reqs_in_dam h' = reqs_in_dam h /\ DAM_addr h' = DAM_addr h.
Lemma books_retires h h' : host_books h' = host_books h -> retires h h' [].
Proof. unfold host_books, retires, sent_ids. intros E. injection E as -> -> -> ->. done. Qed.
Lemma retires_trans h1 h2 h3 l k : retires h1 h2 l -> retires h2 h3 k -> retires h1 h3 (l ++ k).
Proof.
  intros (A1 & A2 & A3 & A4) (B1 & B2 & B3 & B4). split_and!; [|congruence..]. by rewrite A1, B1, <- app_assoc.
Qed.

Lemma check_rx_vc_flow g v h d r dn un b g' h' : flow h d r dn un -> CxlHost.check_rx_vc p g v h = Ok (b, (g', h')) ->
  flow h' d r dn un /\ if b then exists k, retires h h' [k] /\ counted 1 g g' else g' = g /\ h' = h.
Proof.
  intros F E. unfold CxlHost.check_rx_vc in E. destruct (is_buf_empty (rsp_get h v)); [by res_inv|].
  apply bind_ok_inv in E as (m & Em & E). apply get_head_inv in Em as [l Hq]. destruct (_ <? _); [by res_inv|].
  destruct (bool_decide _) eqn:Hs; [|done]. apply bool_decide_eq_true in Hs. cbv zeta in E. apply bind_ok_inv in E as (h1 & E1 & E).
  apply bind_ok_inv in E as (bb & Eb & E). injection E as <- <- <-.
  assert (Hop : opCode m = match v with NdrVC => NDR | DrsVC => DRS end).
  { destruct (fw_hrecv _ _ _ _ _ _ F) as [H1 H2 _]. destruct v; cbn in *; rewrite Hq in *;
      [by apply Forall_cons in H1 as [[? _] _]|by apply Forall_cons in H2 as [[? _] _]]. }
  change (opCode (set_msg_tick set_tick_req_complete (curr_tick g) m)) with (opCode m) in E1. rewrite Hop in E1.
  assert (Hh1 : rsp_get h1 v = rsp_get h v /\ rsp_set v bb h1 = retired v m bb h) by (destruct v; by injection E1 as <-).
  destruct Hh1 as [Hg Hr]. rewrite Hg in Eb. apply dequeue_inv in Eb as (m1 & Hq1 & Hz). rewrite Hq in Hq1. injection Hq1 as <- Hl.
  rewrite Hr. rewrite Hl in Hq. destruct (retired_flow v m bb h d r dn un F Hq Hz Hs) as [F' Hi]. split; [done|].
  exists (msg_id m). split; [split; [exact Hi|by destruct v]|]. by apply counted_step.
Qed.
Lemma host_retire_flow g h d r dn un b g' h' : flow h d r dn un -> check_if_req_completed p g h = Ok (b, (g', h')) ->
  flow h' d r dn un /\ exists l, retires h h' l /\ counted (len l) g g'.
Proof.
  intros F E. assert (Hno : exists l, retires h h l /\ counted (len l) g g) by (exists []; split; [by split|apply counted_0]).
  unfold check_if_req_completed in E. destruct (_ && _); [by res_inv|].
  assert (Htwo : forall v1 s1 v2 s2, (let! (b1, (g, h)) := CxlHost.check_rx_vc p g v1 h in
      if b1 : bool then Ok (true, (g, set_rcvd_rsp_state s1 h))
      else let! (b2, (g, h)) := CxlHost.check_rx_vc p g v2 h in
           if b2 : bool then Ok (true, (g, set_rcvd_rsp_state s2 h)) else Ok (false, (g, h))) = Ok (b, (g', h')) ->
    flow h' d r dn un /\ exists l, retires h h' l /\ counted (len l) g g').
  { intros v1 s1 v2 s2 E1. apply bind_ok_inv in E1 as ([b1 [g1 h1]] & E1 & E2). apply (check_rx_vc_flow g v1 h d r dn un) in E1 as [F1 K1]; [|done].
    destruct b1.
    { injection E2 as <- <- <-. destruct K1 as (k & K1 & K2). split; [by apply (flow_host_view iv h1)|]. by exists [k]. }
    destruct K1 as [-> ->]. apply bind_ok_inv in E2 as ([b2 [g2 h2]] & E2 & E3). apply (check_rx_vc_flow g v2 h d r dn un) in E2 as [F2 K2]; [|done].
    destruct b2; injection E3 as <- <- <-.
    - destruct K2 as (k & K1 & K2). split; [by apply (flow_host_view iv h2)|]. by exists [k].
    - destruct K2 as [-> ->]. done. }
  destruct (rcvd_rsp_state h); [by eapply Htwo..|done].
Qed.

(** ** Issuing *)

(** A message is added to a virtual channel. *)
Definition push_vc (oc : opcode) (b : CXLBuf message) h : CXLHost :=
  match oc with
  | Req => set_cur_Req_vc (bump_vc (cur_Req_vc h)) (set_M2S_Req (<[cur_Req_vc h := b]> (M2S_Req h)) h)
  | _ => set_cur_RWD_vc (bump_vc (cur_RWD_vc h)) (set_M2S_RWD (<[cur_RWD_vc h := b]> (M2S_RWD h)) h)
  end.
Definition cur_vc (oc : opcode) h : CXLBuf message :=
  match oc with
  | Req => nth (cur_Req_vc h) (M2S_Req h) (CXLBuf_new 0)
  | _ => nth (cur_RWD_vc h) (M2S_RWD h) (CXLBuf_new 0)
  end.

Lemma concat_push (l : list (CXLBuf message)) i b m : (i < length l)%nat -> q_ b = q_ (nth i l (CXLBuf_new 0)) ++ [m] ->
  concat (map q_ (<[i := b]> l)) ≡ₚ m :: concat (map q_ l).
Proof.
  revert i. induction l as [|c l IH]; intros [|i] Hi Hb; cbn [length] in Hi; try lia; cbn [insert list_insert nth map concat] in *.
  - rewrite Hb, <- app_assoc. cbn. by rewrite Permutation_middle.
  - change (list_insert i b l) with (<[i := b]> l). rewrite IH by (done || lia). by rewrite Permutation_middle.
Qed.
Lemma vcs_ok_push oc vc h h' j b m : (j < NUM_VC)%nat -> address_intervals h' = address_intervals h ->
  (forall k, (k < NUM_VC)%nat -> vc_get h' (vc k) = if decide (j = k) then b else vc_get h (vc k)) ->
  q_ b = q_ (vc_get h (vc j)) ++ [m] -> msg_ok oc h m -> vcs_ok oc vc h -> vcs_ok oc vc h'.
Proof.
  intros Hj Ha Hg Hb Hm Hv k Hk. rewrite Hg by done. assert (Hi : forall l, Forall (msg_ok oc h) l -> Forall (msg_ok oc h') l).
  { intros l Hl. eapply Forall_impl; [exact Hl|]. intros x. unfold msg_ok. by rewrite Ha. }
  apply Hi. case_decide; subst; [|by apply Hv]. rewrite Hb. apply Forall_app. split; [by apply Hv|]. by apply Forall_singleton.
Qed.
Lemma push_vc_inv oc R b m h : oc = Req \/ oc = RwD -> (cur_Req_vc h < NUM_VC)%nat /\ (cur_RWD_vc h < NUM_VC)%nat -> packer_inv R h ->
  q_ b = q_ (cur_vc oc h) ++ [m] -> msg_ok oc h m -> packer_inv R (push_vc oc b h) /\ waiting (push_vc oc b h) ≡ₚ m :: waiting h.
Proof.
  intros Hoc [Hc1 Hc2] [Pk ? ? ? ?] Hb Hm. pose proof (pi_nreq h Pk) as Hn1. pose proof (pi_nrwd h Pk) as Hn2. destruct Pk. destruct Hoc as [-> | ->]; cbn in Hb.
  - split; [|unfold waiting; cbn; by rewrite (concat_push _ _ _ m) by (done || by rewrite Hn1)].
    split; [split; try done|done..]; [|by cbn; rewrite length_insert].
    eapply (vcs_ok_push Req ReqVC h _ (cur_Req_vc h) b m); try done. intros k Hk. cbn.
    rewrite nth_insert by (by rewrite Hn1). by case_decide; subst.
  - split; [|unfold waiting; cbn; rewrite (concat_push _ _ _ m) by (done || by rewrite Hn2); by rewrite Permutation_middle].
    split; [split; try done|done..]; [|by cbn; rewrite length_insert].
    eapply (vcs_ok_push RwD RwdVC h _ (cur_RWD_vc h) b m); try done. intros k Hk. cbn.
    rewrite nth_insert by (by rewrite Hn2). by case_decide; subst.
Qed.

(** The host records what it sends. *)
Lemma push_flow oc b m x h d r dn un q : flow h d r dn un -> oc = Req \/ oc = RwD -> q_ b = q_ (cur_vc oc h) ++ [m] ->
  opCode m = oc -> in_iv iv (address m) -> messages_sent_to_device h !! msg_id m = None ->
  let h' := set_messages_sent_to_device (<[msg_id m := x]> (messages_sent_to_device h)) (set_text_to_trace_buf q (push_vc oc b h)) in
  flow h' d r dn un /\ sent_ids h' ≡ₚ msg_id m :: sent_ids h.
Proof.
  intros F Hoc Hb Hop Ha Hx h'. destruct F as [F1 F2 (R & Sd & P) F4 F5 F6 F7 F8 F9 F10 F11 F12 F13 F14 F15].
  assert (Hm : msg_ok oc h m) by (split; [done|]; exists 0; by rewrite F1).
  destruct (push_vc_inv oc R b m h Hoc F2 P Hb Hm) as [P' Hw].
  assert (Hs : sent_ids h' ≡ₚ msg_id m :: sent_ids h) by (unfold sent_ids, h'; cbn; by rewrite map_to_list_insert).
  split; [|done]. split; try (by destruct Hoc as [-> | ->]).
  - unfold h'. destruct F2. destruct Hoc as [-> | ->]; cbn; auto using bump_vc_lt.
  - exists R. split; [done|]. apply (packer_inv_view R (push_vc oc b h)); [done|exact P'].
  - rewrite Hs, F14. unfold path_ids. change (msg_id m :: ?l) with ([msg_id m] ++ l).
    assert (Hh : held_ids h' ≡ₚ [msg_id m] ++ held_ids h).
    { unfold held_ids. change (waiting h') with (waiting (push_vc oc b h)). unfold ids at 1. rewrite Hw. cbn [map app]. by destruct Hoc as [-> | ->]. }
    assert (rx_buffer h' = rx_buffer h /\ host_uvc h' = host_uvc h) as [-> ->] by (by destruct Hoc as [-> | ->]).
    clear -Hh. perm_lia.
  - destruct F15 as [C1 C2 C3 C4]. by destruct Hoc as [-> | ->].
Qed.

Lemma issue_vc_flow tick x t l h d r dn un full h' : flow h d r dn un -> q_ (text_to_trace_buf h) = (x, t) :: l ->
  opCode t = Req \/ opCode t = RwD -> in_iv iv (address t) -> messages_sent_to_device h !! msg_id t = None ->
  issue_vc tick t h = Ok (full, h') ->
  flow h' d r dn un /\ (h' = h \/ (q_ (text_to_trace_buf h') = l /\ sent_ids h' ≡ₚ msg_id t :: sent_ids h /\
    reqs_in_dam h' = reqs_in_dam h /\ DAM_addr h' = DAM_addr h)).
Proof.
  intros F Ht Hoc Ha Hx E. unfold issue_vc in E. rewrite message_copy_id in E. set (t1 := set_msg_time _ t) in E.
  change (opCode t1) with (opCode t) in E.
  assert (Hgo : forall oc b q m, oc = opCode t -> opCode m = opCode t -> msg_id m = msg_id t -> address m = address t ->
    enqueue m (cur_vc oc h) = Ok b -> dequeue (text_to_trace_buf h) = Ok q ->
    let h' := set_messages_sent_to_device (<[msg_id m := m]> (messages_sent_to_device h)) (set_text_to_trace_buf q (push_vc oc b h)) in
    flow h' d r dn un /\ (h' = h \/ (q_ (text_to_trace_buf h') = l /\ sent_ids h' ≡ₚ msg_id t :: sent_ids h /\
      reqs_in_dam h' = reqs_in_dam h /\ DAM_addr h' = DAM_addr h))).
  { intros oc b q m -> Hm1 Hm2 Hm3 Hb Hq. apply enqueue_inv in Hb as (_ & Hb & _). apply dequeue_inv in Hq as (y & Hq & _).
    rewrite Ht in Hq. injection Hq as _ Hq. destruct (push_flow (opCode t) b m m h d r dn un q F Hoc Hb Hm1) as [F' Hs].
    { by rewrite Hm3. } { by rewrite Hm2. } rewrite Hm2 in *. split; [exact F'|]. right. split; [done|]. split; [exact Hs|].
    by destruct Hoc as [-> | ->]. }
  destruct Hoc as [Hop|Hop]; rewrite Hop in E, Hgo.
  - destruct (is_buf_full _); [injection E as <- <-; by auto|]. apply bind_ok_inv in E as (b & Eb & E). apply bind_ok_inv in E as (q & Eq & E).
    injection E as <- <-. specialize (Hgo Req b q (set_msg_time (set_read_write false (msg_time t1)) t1) eq_refl Hop eq_refl eq_refl Eb Eq). cbn in Hgo |- *. by rewrite Hx in *.
  - destruct (is_buf_full _); [injection E as <- <-; by auto|]. apply bind_ok_inv in E as (b & Eb & E). apply bind_ok_inv in E as (q & Eq & E).
    injection E as <- <-. specialize (Hgo RwD b q (set_msg_time (set_read_write true (msg_time t1)) t1) eq_refl Hop eq_refl eq_refl Eb Eq). cbn in Hgo |- *. by rewrite Hx in *.
Qed.

(** ** The tick of the host after the trace *)
Lemma counted_globals g g' : same_globals g g' -> counted 0 g g'.
Proof.
  intros E. split; [exact (f_equal msg_count E)|]. intros k Hk. rewrite Z.add_0_r, <- Hk. exact (f_equal num_reqs_completed E).
Qed.
Lemma counted_trans n m g1 g2 g3 : counted n g1 g2 -> counted m g2 g3 -> counted (n + m) g1 g3.
Proof. intros [A1 A2] [B1 B2]. split; [congruence|]. intros k Hk. rewrite (B2 _ (A2 _ Hk)). f_equal. lia. Qed.
Lemma rest_books h h' : host_rest h' = host_rest h -> host_books h' = host_books h.
Proof. unfold host_rest, host_books. congruence. Qed.

Lemma host_flits_flow skip g h d r pre un bus g' h' bus' : flow h d r (pre ++ flit_slots bus) un ->
  update_flits p skip g h bus = Ok (g', h', bus') ->
  flow h' d r (pre ++ flit_slots bus') un /\ exists l, retires h h' l /\ counted (len l) g g'.
Proof.
  intros F E. unfold update_flits in E. cbv zeta in E. if_in E; [|done].
  apply bind_ok_inv in E as ([b1 [g1 h1]] & E1 & E).
  assert (S1 : flow h1 d r (pre ++ flit_slots bus) un /\ host_books h1 = host_books h /\ counted 0 g g1).
  { if_in E1; [injection E1 as <- <- <-; auto using counted_0|]. pose proof (ensures_ok _ _ _ (host_packer_globals p g h) E1) as Hg.
    destruct (host_pack_flow g h d r _ un _ _ _ F E1) as [F1 R1]. auto using rest_books, counted_globals. }
  destruct S1 as (F1 & K1 & G1). match type of E with bind ?m _ = _ => destruct m as [[b2 [h2 bus2]]|] eqn:E2; [|done] end. cbn [bind] in E.
  set (h1' := if skip && _ then _ else h1) in *. assert (F1' : flow h1' d r (pre ++ flit_slots bus) un) by (unfold h1'; if_goal; [by apply (flow_host_view iv h1)|done]).
  assert (K1' : host_books h1' = host_books h) by (unfold h1'; by if_goal). clearbody h1'. clear F1 K1.
  assert (S2 : flow h2 d r (pre ++ flit_slots bus2) un /\ host_books h2 = host_books h).
  { if_in E2; [by injection E2 as <- <- <-|]. destruct (host_transmit_flow (curr_tick g) h1' d r pre un _ _ _ _ F1' E2) as [F2 R2].
    split; [done|]. by rewrite (rest_books _ _ R2). }
  destruct S2 as (F2 & K2). set (h2' := if skip && _ then _ else h2) in *.
  assert (F2' : flow h2' d r (pre ++ flit_slots bus2) un) by (unfold h2'; if_goal; [by apply (flow_host_view iv h2)|done]).
  assert (K2' : host_books h2' = host_books h) by (unfold h2'; by if_goal). clearbody h2'. clear F2 K2 E2.
  match type of E with bind ?m _ = _ => destruct m as [[b3 h3]|] eqn:E3; [|done] end. cbn [bind] in E.
  assert (S3 : flow h3 d r (pre ++ flit_slots bus2) un /\ host_books h3 = host_books h).
  { if_in E3; [by injection E3 as <- <-|]. destruct (host_unpack_flow (curr_tick g) h2' d r _ un _ _ F2' E3) as [F3 R3]. by rewrite R3. }
  destruct S3 as (F3 & K3). set (h3' := if skip && _ then _ else h3) in *.
  assert (F3' : flow h3' d r (pre ++ flit_slots bus2) un) by (unfold h3'; if_goal; [by apply (flow_host_view iv h3)|done]).
  assert (K3' : host_books h3' = host_books h) by (unfold h3'; by if_goal). clearbody h3'. clear F3 K3 E3.
  match type of E with bind ?m _ = _ => destruct m as [[b4 [g4 h4]]|] eqn:E4; [|done] end. cbn [bind] in E.
  assert (S4 : flow h4 d r (pre ++ flit_slots bus2) un /\ exists l, retires h3' h4 l /\ counted (len l) g1 g4).
  { if_in E4; [injection E4 as <- <- <-; split; [done|]; exists []; split; [by split|apply counted_0]|].
    exact (host_retire_flow g1 h3' d r _ un _ _ _ F3' E4). }
  destruct S4 as (F4 & l & R4 & G4). do 4 (if_in E; [|done]). injection E as <- <- <-.
  match goal with |- flow ?x _ _ _ _ /\ _ => set (h5 := x) end.
  assert (V : host_view h5 = host_view h4 /\ host_books h5 = host_books h4).
  { unfold h5. by repeat if_goal. }
  clearbody h5. destruct V as [V1 V2]. split; [by apply (flow_host_view iv h4)|]. exists l. split.
  - replace l with ([] ++ l ++ []) by (by rewrite app_nil_r). eapply retires_trans; [apply books_retires; exact K3'|].
    eapply retires_trans; [exact R4|]. by apply books_retires.
  - by apply (counted_trans 0 (len l) g g1).
Qed.
End HostFlow.
