(* ===== verification/HostSafe.v ===== *)
(** * Which assertions of a host can fail

    In the flow of requests with its device the host fails no assertion
    but one of [run_errors]: the credits and the books make sure of the
    others. *)
From Stdlib Require Import ZArith Lia Bool String.
From stdpp Require Import base list gmap.
From S2P Require Import Prelude RamIf Dram Sched Controller Memory RamDevice RamRun DevRam.
From S2P Require Import Flit CxlBuf Samples CxlBus Packing Link CxlNode CxlDevice DevPack DevRun Wire DevHeaders CxlHost HostPack HostRun HostTrace SysFrame Flow HostFlow.

(** ** The assertions a run may fail

    On the trace, on room in a buffer or a queue, and on the time a flit
    spends on a bus *)
Definition run_errors : list string :=
  ["Incorrect string splitting"; "Illegal opcode"; "invalid_argument"; "out_of_range";
   "Adding to already full buffer!"; "Ramulator side stall"; "res";
   "Stagnant flit in bus"]%string.
(** A computation that fails one of these, or yields a result with [P] *)
Definition runs {X} (m : res X) (P : X -> Prop) : Prop := match m with Ok x => P x | Abort e => e ∈ run_errors end.

Lemma runs_bind {X Y} (m : res X) (k : X -> res Y) P Q : runs m P -> (forall x, m = Ok x -> P x -> runs (k x) Q) -> runs (bind m k) Q.
Proof. destruct m; cbn; auto. Qed.
(** What is known of a result *)
Lemma runs_eq {X} (m : res X) (P Q : X -> Prop) : runs m P -> (forall x, m = Ok x -> P x -> Q x) -> runs m Q.
Proof. destruct m; cbn; auto. Qed.
Lemma runs_ensures {X} (m : res X) (P Q : X -> Prop) : runs m P -> ensures m Q -> runs m (fun x => P x /\ Q x).
Proof. by destruct m. Qed.
(** A part that is skipped when [c] says so *)
Lemma runs_guard {X} (c : bool) (x : X) m (Q : X -> Prop) : Q x -> runs m (fun y => Q (snd y)) ->
  runs (if c then Ok (false, x) else m) (fun y => negb (c && fst y) = true /\ Q (snd y)).
Proof. intros Hx Hm. destruct c; [done|]. eapply runs_eq; [exact Hm|]. by intros y _ Hy. Qed.
Ltac known_error := cbn; unfold run_errors; set_solver.

Lemma enqueue_runs {X} (x : X) b : runs (enqueue x b) (fun _ => True).
Proof. unfold enqueue. destruct (is_buf_full b); [known_error|done]. Qed.
(** A bus holds no more than it may. *)
Definition fits (b : CXLBus) : Prop := bus_occupancy b <= u64 (bus_slots_size b).
Lemma add_to_bus_runs tick f b : is_full b = false -> exists b', add_to_bus tick f b = Ok b' /\ (fits b -> fits b').
Proof.
  intros Hf. assert (E : exists b', add_to_bus tick f b = Ok b').
  { unfold add_to_bus. rewrite Hf. cbn [negb]. destruct (is_empty b); cbn; [|rewrite Hf; eauto].
    change (is_full (set_time_of_last_dequeue tick b)) with (is_full b). rewrite Hf. eauto. }
  destruct E as [b' E]. exists b'. split; [done|]. apply add_to_bus_inv in E as (E1 & _ & E2 & _). unfold fits, is_full, bus_occupancy in *.
  rewrite E1, E2, length_app. cbn [length]. lia.
Qed.

Section HostSafe.
Context `{Indet} (p : CXLParams) (iv : Z * Z) {C S : Type}.
Implicit Types (h : CXLHost) (d : CXLDevice) (r : RamState C S) (dn un : list flit).
#[local] Abbreviation flow := (flow iv).

(** ** The credits of the host are kept per device. *)
Record keyed h : Prop := {
  ky_devices : connected_devices h = [0];
  ky_ivs : address_intervals h = [(0, iv)];
  ky_creds : dom (ext_creds h) = ({[0]} : gset Z)
}.
Lemma keyed_view h h' : (connected_devices h', address_intervals h', ext_creds h') = (connected_devices h, address_intervals h, ext_creds h) ->
  keyed h -> keyed h'.
Proof. intros E. injection E as E1 E2 E3. intros []. split; by rewrite ?E1, ?E2, ?E3. Qed.
Lemma keyed_insert c h : keyed h -> keyed (set_ext_creds (<[0 := c]> (ext_creds h)) h).
Proof. intros [K1 K2 K3]. split; [done|done|]. cbn. rewrite dom_insert_L, K3. set_solver. Qed.
Lemma keyed_dest a h : keyed h -> ensures (destination_device h a) (fun e => e = 0).
Proof. intros [_ K _]. unfold destination_device. rewrite K. cbn. destruct iv. by destruct (_ && _). Qed.

(** Members that are not looked at *)
Ltac keyed_tac k := repeat if_goal; by apply (keyed_view k).

Lemma try_vc_keyed tick v j h : keyed h -> ensures (CxlHost.try_vc p tick v j h) (fun x => keyed (snd x)).
Proof.
  intros K. unfold CxlHost.try_vc. destruct (q_ _) as [|m l]; [done|]. destruct (_ <=? _); [|done].
  eapply ensures_bind; [by apply keyed_dest|]. intros dest ->. destruct (_ || _); [|done]. unfold cred_touch.
  destruct (opCode m); try done; cbv zeta.
  - set (h1 := if data_credit _ =? 0 then _ else _). assert (K1 : keyed h1) by (unfold h1; keyed_tac h). clearbody h1.
    apply (keyed_insert (cred_at (ext_creds h1) 0)) in K1. set (h2 := set_ext_creds _ h1) in *. clearbody h2. keyed_tac h2.
  - apply (keyed_insert (cred_at (ext_creds h) 0)) in K. set (h2 := set_ext_creds _ h) in *. clearbody h2. keyed_tac h2.
Qed.
Lemma check_vcs_keyed tick vc ixs : forall h, keyed h -> ensures (CxlHost.check_vcs_loop p tick vc ixs h) (fun x => keyed (snd x)).
Proof.
  induction ixs as [|i ixs IH]; intros h K; cbn [CxlHost.check_vcs_loop]; [done|].
  eapply ensures_bind; [by apply try_vc_keyed|]. intros [b h1] K1. destruct b; [done|by apply IH].
Qed.
Lemma get_msg_keyed tick h : keyed h -> ensures (CxlHost.get_msg_from_vcs p tick h) (fun x => keyed (snd x)).
Proof.
  intros K. unfold CxlHost.get_msg_from_vcs, CxlHost.check_vcs_for_packing.
  destruct (pkr2_state h); try done; (eapply ensures_bind; [by apply check_vcs_keyed|]; intros [[v|] h1] K1; [by apply (keyed_view h1)|];
    eapply ensures_bind; [by apply check_vcs_keyed|]; intros [[v|] h2] K2; [by apply (keyed_view h2)|done]).
Qed.
Lemma pack_slot_keyed i v h : keyed h -> ensures (CxlHost.pack_slot i v h) keyed.
Proof.
  intros K. unfold CxlHost.pack_slot. eapply ensures_bind; [apply ensures_any|]. intros m _. eapply ensures_bind; [apply ensures_any|]. intros e _. cbv zeta.
  destruct (opCode m); try done; (destruct (_ : bool); [|by apply (keyed_view h)]).
  - eapply ensures_bind; [apply keyed_dest; by apply (keyed_view h)|]. intros dest ->. eapply ensures_bind; [apply ensures_any|]. intros b _.
    match goal with |- context [<[0 := ?c]> (ext_creds _)] => apply (keyed_insert c) in K end. destruct v; revert K; by apply keyed_view.
  - eapply ensures_bind; [apply keyed_dest; by apply (keyed_view h)|]. intros dest ->. eapply ensures_bind; [apply ensures_any|]. intros b _.
    match goal with |- context [<[0 := ?c]> (ext_creds _)] => apply (keyed_insert c) in K end. destruct v; revert K; by apply keyed_view.
Qed.
Lemma pack_loop_keyed tick ixs : forall h, keyed h -> ensures (CxlHost.pack_loop p tick ixs h) keyed.
Proof.
  induction ixs as [|i ixs IH]; intros h K; cbn [CxlHost.pack_loop]; [done|]. destruct (negb _); [by apply IH|].
  destruct (_ && _); [apply IH; by apply (keyed_view h)|]. eapply ensures_bind; [by apply get_msg_keyed|]. intros [[v|] h1] K1; [|done].
  eapply ensures_bind; [by apply pack_slot_keyed|]. intros h2 K2. by apply IH.
Qed.
Lemma add_flit_keyed g h : keyed h -> ensures (CxlHost.add_flit_to_buf g h) (fun x => keyed (snd x)).
Proof.
  intros K. unfold CxlHost.add_flit_to_buf. eapply ensures_bind; [apply ensures_any|]. intros c _. eapply ensures_bind; [apply ensures_any|].
  intros b _. by apply (keyed_view h).
Qed.
Lemma send_packed_keyed g h : keyed h -> ensures (CxlHost.send_packed g h) (fun x => keyed (snd (snd x))).
Proof.
  intros K. unfold CxlHost.send_packed. destruct (is_buf_full _); [done|]. eapply ensures_bind; [by apply add_flit_keyed|]. intros [g1 h1] K1.
  by apply (keyed_view h1).
Qed.
Lemma packer_keyed g h : keyed h -> ensures (CxlHost.FLIT_packer p g h) (fun x => keyed (snd (snd x))).
Proof.
  intros K. unfold CxlHost.FLIT_packer. set (h0 := CxlHost.start_flit g h). assert (K0 : keyed h0) by (unfold h0, CxlHost.start_flit; keyed_tac h).
  clearbody h0. clear h K. cbv zeta. assert (Hf : forall h1, keyed h1 -> ensures (let! h := CxlHost.pack_loop p (curr_tick g) (seq 0 4) h1 in CxlHost.finish_packing g h)
    (fun x => keyed (snd (snd x)))).
  { intros h1 K1. eapply ensures_bind; [by apply pack_loop_keyed|]. intros h2 K2. unfold CxlHost.finish_packing. cbv zeta. destruct (negb (packing_violation _ _ _)); [|done].
    cbn. keyed_tac h2. }
  destruct (_ && is_flit_full _); [by apply send_packed_keyed|]. destruct (_ && _); [by apply send_packed_keyed|]. destruct (_ && _); [|done].
  destruct (_ && _); [|by apply Hf]. eapply (ensures_bind _ _ keyed).
  { unfold CxlHost.put_rollover. repeat if_goal; try done; by apply (keyed_view h0). }
  intros h1 K1. destruct (_ =? 4); [|by apply Hf]. destruct (is_buf_full _); [by apply (keyed_view h1)|].
  eapply ensures_bind; [by apply add_flit_keyed|]. intros [g2 h2] K2. by apply (keyed_view h2).
Qed.

(** ** The operations of a tick *)
Record host_safe h d r dn un : Prop := {
  hs_flow : flow h d r dn un;
  hs_keyed : keyed h;
  hs_rr : rcvd_rsp_state h <> rr_W
}.
Lemma host_safe_view h h' d r dn un :
  (host_view h', (connected_devices h', rcvd_rsp_state h')) = (host_view h, (connected_devices h, rcvd_rsp_state h)) ->
  host_safe h d r dn un -> host_safe h' d r dn un.
Proof.
  intros [E1 [E2 E3]%pair_equal_spec]%pair_equal_spec [F K R]. split; [by apply (flow_host_view iv h)| |by rewrite E3].
  apply (keyed_view h); [|done]. unfold host_view, HostPack.packer_view in E1. congruence.
Qed.

Lemma pack_runs g h d r dn un : host_safe h d r dn un -> runs (CxlHost.FLIT_packer p g h) (fun y => host_safe (snd (snd y)) d r dn un).
Proof.
  intros [F K R]. pose proof F as [_ _ (r0 & _ & P) _ _ _ _ _ _ _ _ _ _ _ _]. destruct (FLIT_packer_packs p r0 g h P) as (b & g' & h' & E & _).
  rewrite E. cbn. destruct (host_pack_flow p iv g h d r dn un b g' h' F E) as [F' Q]. split; [done|exact (ensures_ok _ _ _ (packer_keyed g h K) E)|].
  unfold host_rest in Q. congruence.
Qed.
Lemma transmit_runs tick h d r pre un bus : host_safe h d r (pre ++ flit_slots bus) un -> fits bus ->
  runs (CxlHost.transmit p tick h bus) (fun y => host_safe (fst (snd y)) d r (pre ++ flit_slots (snd (snd y))) un /\ fits (snd (snd y))).
Proof.
  intros [F K R] Hb. apply (runs_eq _ (fun y => keyed (fst (snd y)) /\ fits (snd (snd y)))).
  - unfold CxlHost.transmit, is_buf_empty. destruct (q_ (htx h)) as [|f l] eqn:Hq; [done|]. destruct (is_full bus) eqn:Hf; [done|].
    rewrite (get_head_ok _ _ _ Hq). cbn [bind]. if_goal; [done|]. if_goal; [done|].
    edestruct add_to_bus_runs as (b' & Eb & Hb'); [exact Hf|]. rewrite Eb. cbn [bind]. unfold dequeue, is_buf_empty.
    cbn [CxlHost.tx_buffer set_last_transmitted_at]. rewrite Hq. cbn. split; [by apply (keyed_view h)|auto].
  - intros [b [h' bus']] E [K' Hb']. destruct (host_transmit_flow p iv tick h d r pre un bus b h' bus' F E) as [F' Q]. split; [|done]. split; [done|done|].
    unfold host_rest in Q. cbn. congruence.
Qed.
Lemma unpack_runs tick h d r dn un : host_safe h d r dn un -> runs (CxlHost.FLIT_unpacker p tick h) (fun y => host_safe (snd y) d r dn un).
Proof.
  intros [F K R]. destruct (host_unpack_cases p iv tick h d r dn un F) as [E1|(f & l & u & b1 & Hq & Eu & Hb & Hz & E1)]; rewrite E1; [by split|].
  destruct (host_unpack_flow p iv tick h d r dn un _ _ F E1) as [F' _]. split; [exact F'| |exact R].
  eapply (keyed_insert _ _) in K. revert K. apply keyed_view. reflexivity.
Qed.

(** The response at the head of a channel is for a request on record. *)
Lemma response_known v m l h d r dn un : flow h d r dn un -> q_ (rsp_get h v) = m :: l -> is_Some (messages_sent_to_device h !! msg_id m).
Proof.
  intros F Hq. assert (Hm : msg_id m ∈ sent_ids h).
  { rewrite (fw_ids _ _ _ _ _ _ F). unfold path_ids. rewrite !elem_of_app. right. right. right. right. right. right.
    destruct v; cbn in Hq; [left|right]; unfold got_plain, got_hdr, ids; cbn [u_plain u_hdr host_uvc]; rewrite Hq; [apply list_elem_of_here|].
    apply elem_of_app. left. apply list_elem_of_here. }
  unfold sent_ids in Hm. apply list_elem_of_fmap in Hm as ([k x] & -> & Hx). apply elem_of_map_to_list in Hx. by exists x.
Qed.
Lemma check_rx_runs g v h d r dn un : host_safe h d r dn un ->
  runs (CxlHost.check_rx_vc p g v h) (fun y => host_safe (snd (snd y)) d r dn un /\ (fst y = false -> snd y = (g, h))).
Proof.
  intros [F K R]. apply (runs_eq _ (fun y => keyed (snd (snd y)) /\ rcvd_rsp_state (snd (snd y)) = rcvd_rsp_state h)).
  - unfold CxlHost.check_rx_vc, is_buf_empty. destruct (q_ (rsp_get h v)) as [|m l] eqn:Hq; [done|]. rewrite (get_head_ok _ _ _ Hq). cbn [bind].
    if_goal; [done|]. rewrite bool_decide_true by exact (response_known v m l h d r dn un F Hq). cbv zeta.
    assert (Hop : opCode m = match v with NdrVC => NDR | DrsVC => DRS end).
    { destruct (fw_hrecv _ _ _ _ _ _ F) as [H1 H2 _]. destruct v; cbn in *; rewrite Hq in *;
        [by apply Forall_cons in H1 as [[? _] _]|by apply Forall_cons in H2 as [[? _] _]]. }
    change (opCode (set_msg_tick set_tick_req_complete (curr_tick g) m)) with (opCode m). rewrite Hop. unfold dequeue, is_buf_empty.
    destruct v; cbn in *; rewrite Hq; cbn; (split; [by apply (keyed_view h)|done]).
  - intros [b [g' h']] E [K' R']. cbn in *. destruct (check_rx_vc_flow p iv g v h d r dn un b g' h' F E) as [F' Hb].
    split; [split; [done|done|congruence]|]. intros ->. by destruct Hb as [-> ->].
Qed.
Lemma retire_runs g h d r dn un : host_safe h d r dn un ->
  runs (check_if_req_completed p g h) (fun y => host_safe (snd (snd y)) d r dn un).
Proof.
  intros Hs. unfold check_if_req_completed. destruct (_ && _); [done|].
  assert (Htwo : forall v1 s1 v2 s2, s1 <> rr_W -> s2 <> rr_W -> runs (let! (b1, (g, h)) := CxlHost.check_rx_vc p g v1 h in
      if b1 : bool then Ok (true, (g, set_rcvd_rsp_state s1 h))
      else let! (b2, (g, h)) := CxlHost.check_rx_vc p g v2 h in
           if b2 : bool then Ok (true, (g, set_rcvd_rsp_state s2 h)) else Ok (false, (g, h))) (fun y => host_safe (snd (snd y)) d r dn un)).
  { intros v1 s1 v2 s2 N1 N2. assert (Hset : forall s k, s <> rr_W -> host_safe k d r dn un -> host_safe (set_rcvd_rsp_state s k) d r dn un).
    { intros s k N [F K R]. split; [by apply (flow_host_view iv k)|by apply (keyed_view k)|done]. }
    eapply runs_bind; [by apply check_rx_runs|]. intros [[] [g1 h1]] _ [H1 H1']; [by apply Hset|].
    eapply runs_bind; [by apply check_rx_runs|]. intros [[] [g2 h2]] _ [H2 _]; [by apply Hset|done]. }
  pose proof (hs_rr _ _ _ _ _ Hs). destruct (rcvd_rsp_state h); [by apply Htwo..|done].
Qed.

(** The tick after the trace *)
Lemma update_flits_runs skip g h d r pre un bus : host_safe h d r (pre ++ flit_slots bus) un -> fits bus ->
  runs (update_flits p skip g h bus) (fun y => host_safe (snd (fst y)) d r (pre ++ flit_slots (snd y)) un /\ fits (snd y)).
Proof.
  intros Hs Hb. unfold update_flits. cbv zeta. destruct (hs_keyed _ _ _ _ _ Hs) as [K1 _ K3].
  assert (Hn : size (ext_creds h) = 1%nat) by (by rewrite <- size_dom, K3, size_singleton). rewrite Hn, K1. cbn [length Z.of_nat Z.eqb Pos.eqb Pos.of_succ_nat].
  eapply runs_bind; [apply (runs_guard _ (g, h) _ (fun y => host_safe (snd y) d r (pre ++ flit_slots bus) un)); [done|by apply pack_runs]|].
  intros [b1 [g1 h1]] _ [G1 H1]. cbn [fst snd] in G1, H1. set (c1 := skip && _) in *. clearbody c1.
  set (h1' := if c1 then _ else h1). assert (H1' : host_safe h1' d r (pre ++ flit_slots bus) un) by (unfold h1'; if_goal; [by apply (host_safe_view h1)|done]).
  clearbody h1'. clear H1 Hs.
  eapply runs_bind; [apply (runs_guard _ (h1', bus) _ (fun y => host_safe (fst y) d r (pre ++ flit_slots (snd y)) un /\ fits (snd y))); [done|by apply transmit_runs]|].
  intros [b2 [h2 bus2]] _ [G2 [H2 Hb2]]. cbn [fst snd] in G2, H2. set (c2 := skip && _) in *.
  set (h2' := if c2 then _ else h2). assert (H2' : host_safe h2' d r (pre ++ flit_slots bus2) un) by (unfold h2'; if_goal; [by apply (host_safe_view h2)|done]).
  clearbody h2' c2. clear H2 H1'.
  eapply runs_bind; [apply (runs_guard _ h2' _ (fun y => host_safe y d r (pre ++ flit_slots bus2) un)); [done|by apply unpack_runs]|].
  intros [b3 h3] _ [G3 H3]. cbn [fst snd] in G3, H3. set (c3 := skip && _) in *.
  set (h3' := if c3 then _ else h3). assert (H3' : host_safe h3' d r (pre ++ flit_slots bus2) un) by (unfold h3'; if_goal; [by apply (host_safe_view h3)|done]).
  clearbody h3' c3. clear H3 H2'.
  eapply runs_bind; [apply (runs_guard _ (g1, h3') _ (fun y => host_safe (snd y) d r (pre ++ flit_slots bus2) un)); [done|by apply retire_runs]|].
  intros [b4 [g4 h4]] _ [G4 H4]. cbn [fst snd] in G4, H4. rewrite G1, G2, G3, G4. cbn. split; [|done]. apply (host_safe_view h4); [|done]. by repeat if_goal.
Qed.
End HostSafe.
