(* ===== verification/DevFlow.v ===== *)
(** * The device in the flow of requests

    Packing, unpacking, forwarding to the memory, transmitting and a cycle of
    the memory keep the invariant [Flow.flow]. *)
From Stdlib Require Import ZArith Lia Bool String.
From stdpp Require Import base list gmap.
From S2P Require Import Prelude RamIf Dram Sched Controller Memory RamDevice RamRun Ddr4 DevRam.
From S2P Require Import Flit CxlBuf Samples CxlBus Packing Link CxlNode CxlHost HostPack HostRun Wire DevHeaders SysFrame Flow HostFlow.
From S2P Require Import CxlDevice DevPack DevRun.

Lemma perm_eq {X} (l k : list X) : l = k -> l ≡ₚ k.
Proof. by intros ->. Qed.
(** The tags of a device, counted *)
Lemma tagged_app t l1 l2 : tagged t (l1 ++ l2) = tagged t l1 + tagged t l2.
Proof. apply countb_app. Qed.
Lemma tagged_perm t l1 l2 : l1 ≡ₚ l2 -> tagged t l1 = tagged t l2.
Proof. apply countb_perm. Qed.
Lemma tagged_vc t t' b : tagged t (vc_tags t' b) = if ReqType_eqb t' t then len (q_ b) else 0.
Proof.
  unfold tagged, vc_tags, len. induction (q_ b) as [|m l IH]; cbn; [by destruct (ReqType_eqb _ _)|]. rewrite IH. destruct (ReqType_eqb _ _); lia.
Qed.
Lemma tagged_vcs t t' l : tagged t (flat_map (vc_tags t') l) = if ReqType_eqb t' t then len (concat (map q_ l)) else 0.
Proof.
  induction l as [|b l IH]; cbn [flat_map map concat]; [by destruct (ReqType_eqb _ _)|]. rewrite tagged_app, tagged_vc, IH, len_app. by destruct (ReqType_eqb _ _).
Qed.
Lemma tagged_reads d : tagged READ (pipeline d) = len (q_ (M2S_Req d)) + tagged READ (in_ram d) + pending_drs d.
Proof. unfold pipeline, in_rx, answered. rewrite !tagged_app, !tagged_vc, !tagged_vcs.
  change (ReqType_eqb READ READ) with true. change (ReqType_eqb WRITE READ) with false. unfold pending_drs, len. lia. Qed.
Lemma tagged_writes d : tagged WRITE (pipeline d) = len (q_ (M2S_RWD d)) + tagged WRITE (in_ram d) + pending_ndr d.
Proof. unfold pipeline, in_rx, answered. rewrite !tagged_app, !tagged_vc, !tagged_vcs.
  change (ReqType_eqb WRITE WRITE) with true. change (ReqType_eqb READ WRITE) with false. unfold pending_ndr, len. lia. Qed.

Lemma tags_ids t b : map fst (vc_tags t b) = ids (q_ b).
Proof. unfold vc_tags, ids. rewrite map_map. by apply map_ext. Qed.
Lemma vcs_ids t l : map fst (flat_map (vc_tags t) l) = ids (concat (map q_ l)).
Proof. induction l as [|b l IH]; [done|]. cbn. rewrite map_app, tags_ids, IH. unfold ids. by rewrite map_app. Qed.
Lemma answered_ids d : map fst (answered d) ≡ₚ ids (waiting d).
Proof. unfold answered, waiting. rewrite map_app, !vcs_ids. unfold ids. rewrite map_app. apply Permutation_app_comm. Qed.
Lemma pipeline_ids d : map fst (pipeline d) ≡ₚ ids (q_ (M2S_Req d)) ++ ids (q_ (M2S_RWD d)) ++ map fst (in_ram d) ++ ids (waiting d).
Proof. unfold pipeline, in_rx. rewrite !map_app, !tags_ids, answered_ids. by rewrite <- !app_assoc. Qed.

Section DevFlow.
Context `{Indet} (p : CXLParams) (iv : Z * Z) {C S : Type}.
Implicit Types (h : CXLHost) (d : CXLDevice) (r : RamState C S) (dn un : list flit).
#[local] Abbreviation flow := (flow iv).

Lemma dev_rest_eqs d d' : dev_rest d' = dev_rest d ->
  rx_buffer d' = rx_buffer d /\ dev_uvc d' = dev_uvc d /\ in_ram d' = in_ram d /\
  (inp_buf d', ramulator_inp_state d', messages_in_ramulator d') = (inp_buf d, ramulator_inp_state d, messages_in_ramulator d) /\
  (cur_DRS_vc d', cur_NDR_vc d') = (cur_DRS_vc d, cur_NDR_vc d).
Proof.
  unfold dev_rest, dev_uvc, in_ram. intros E. injection E as E1 E2 E3 E4 E5 E6 E7 E8 E9 E10 E11.
  by rewrite E1, E2, E3, E4, E5, E6, E7, E8, E9, E10.
Qed.

(** ** Packing *)
Lemma dev_pack_flow g h d r dn un b g' d' : flow h d r dn un -> FLIT_packer p g d = Ok (b, (g', d')) -> flow h d' r dn un.
Proof.
  intros F E. destruct F as [F1 F2 F3 (R & Su & P) F5 F6 F7 F8 F9 F10 F11 F12 F13 F14 [C1 C2 C3 C4]].
  destruct (dev_FLIT_packer_packs p R g d P) as (b1 & g1 & d1 & E1 & P' & Hh & Hr & Ha). pose proof (packer_closed p (addresses_in (in_iv iv)) _ _ _ _ _ F7 E) as F7'.
  rewrite E in E1. injection E1 as <- <- <-. destruct (dev_rest_eqs _ _ Hr) as (Q1 & Q2 & Q3 & Q4 & Q5). injection Q4 as Q4 Q4' Q4''. injection Q5 as Q5 Q5'.
  assert (Q6 : unpacker_rollover d' = unpacker_rollover d) by exact (f_equal u_roll Q2).
  assert (Q7 : M2S_Req d' = M2S_Req d) by exact (f_equal u_plain Q2). assert (Q8 : M2S_RWD d' = M2S_RWD d) by exact (f_equal u_hdr Q2).
  unfold accounts in Ha. apply pair_equal_spec in Ha as [[[A1 A2]%pair_equal_spec A3]%pair_equal_spec A4].
  assert (Hp : map fst (pipeline d') ++ dev_out d' ≡ₚ map fst (pipeline d) ++ dev_out d).
  { change (held_ids d') with (ids (waiting d') ++ dev_out d') in Hh. change (held_ids d) with (ids (waiting d) ++ dev_out d) in Hh.
    rewrite !pipeline_ids, Q3, Q7, Q8. rewrite <- !app_assoc. by rewrite Hh. }
  assert (Tr : tagged READ (pipeline d') - pending_drs d' = tagged READ (pipeline d) - pending_drs d) by (rewrite !tagged_reads, Q3, Q7; lia).
  assert (Tw : tagged WRITE (pipeline d') - pending_ndr d' = tagged WRITE (pipeline d) - pending_ndr d) by (rewrite !tagged_writes, Q3, Q8; lia).
  split; rewrite ?Q1, ?Q2, ?Q6, ?Q7, ?Q8; try done.
  - by exists R.
  - by rewrite Q4''.
  - apply (dev_ok_view d); [|done]. unfold ram_view. rewrite Q4, Q4', Q4'', Q5, Q5', Q7, Q8.
    destruct P as [[] _ _ _], P' as [[] _ _ _]. congruence.
  - rewrite F14. unfold path_ids. rewrite Q1, Q2. clear -Hp. perm_lia.
  - split; rewrite ?Q1, ?Q2, ?Q7, ?Q8; rewrite ?credit_sum_app, !total_app in *; cbn [fst snd] in *; lia.
Qed.

(** ** Transmitting *)
Lemma dev_packer_inv_tail R d f l b : packer_inv R d -> q_ (tx_buffer d) = f :: l -> q_ b = l -> size_ b = size_ (tx_buffer d) ->
  (exists R1, wf_flit R (kinds_up f) R1 = true /\ packer_inv R1 (set_tx_buffer b d)) /\ sendable f.
Proof.
  intros [[] Hb (r0 & Hs & Hbd) Hc] Hq <- Hz. rewrite Hq in *. apply Forall_cons in Hc as [Hc Hc'].
  split; [|done]. inversion Hs as [|? ? R1 ? ? Hf Hfs]; subst. exists R1. split; [done|].
  split; cbn; [by split| |by exists r0|done].
  destruct Hb as [B1 B2]. split; [by rewrite Hz|]. rewrite Hz. unfold buf_occupancy in *. rewrite Hq in B2. cbn in B2. lia.
Qed.
Lemma dev_transmit_flow tick h d r dn pre bus b d' bus' : flow h d r dn (pre ++ flit_slots bus) ->
  transmit p tick d bus = Ok (b, (d', bus')) -> flow h d' r dn (pre ++ flit_slots bus').
Proof.
  intros F E. unfold transmit in E. destruct (is_buf_empty (tx_buffer d)); [by res_inv|]. destruct (is_full bus); [by res_inv|].
  apply bind_ok_inv in E as (f & Ef & E). apply get_head_inv in Ef as [l Hq]. if_in E; [by res_inv|]. if_in E; [by res_inv|].
  apply bind_ok_inv in E as (bus1 & Ea & E). apply add_to_bus_wire in Ea. apply bind_ok_inv in E as (tx & Et & E). injection E as <- <- <-.
  apply dequeue_inv in Et as (f1 & Hq1 & Hz). cbn in Hq1, Hz. rewrite Hq in Hq1. injection Hq1 as <- Hl.
  set (f2 := set_time _ _ _) in Ea. assert (Hf2 : same_cargo f f2) by apply same_transmission. clearbody f2.
  destruct F as [F1 F2 F3 (R & Su & P) F5 F6 F7 F8 F9 F10 F11 F12 F13 F14 [C1 C2 C3 C4]].
  destruct (dev_packer_inv_tail R d f l tx P Hq (eq_sym Hl) Hz) as ((R1 & Hw & P1) & Hsd).
  destruct F7 as [A1 A2 A3 A4 A5 A6]. pose proof A3 as A3'. rewrite Hq in A3'. apply Forall_cons in A3' as [Af Al].
  assert (Hf : up_ok iv f2) by (by rewrite <- Hf2; split).
  assert (Hw2 : q_ (hrx h) ++ pre ++ flit_slots bus1 = (q_ (hrx h) ++ pre ++ flit_slots bus) ++ [f2]) by (by rewrite Ea, !app_assoc).
  assert (Ho : outflits d = f :: outflits (set_tx_buffer tx (set_last_transmitted_at tick d))) by (unfold outflits; cbn; by rewrite Hq, Hl).
  split; rewrite ?Hw2; try done.
  - exists R1. rewrite map_app. cbn [map]. split; [|by apply (dev_packer_inv_view R1 (set_tx_buffer tx d))].
    eapply wf_stream_snoc; [exact Su|]. by rewrite <- Hf2.
  - apply Forall_app. split; [done|]. by apply Forall_singleton.
  - split; try done. cbn. by rewrite <- Hl.
  - by apply (dev_ok_view d).
  - rewrite F14. unfold path_ids. rewrite Hw2, (wire_ids_app _ [f2]), (wire_same_ids [f] [f2]) by (by constructor).
    assert (Hh : dev_out d ≡ₚ dev_out (set_tx_buffer tx (set_last_transmitted_at tick d)) ++ ids_up [f]).
    { unfold dev_out. cbn [tx_buffer set_tx_buffer set_last_transmitted_at is_packer_waiting flit_to_pack]. rewrite Hq, <- Hl.
      change (f :: l) with ([f] ++ l). rewrite wire_ids_app, <- app_assoc. f_equiv. apply Permutation_app_comm. }
    change (pipeline (set_tx_buffer _ _)) with (pipeline d). change (rx_buffer (set_tx_buffer _ _)) with (rx_buffer d).
    change (dev_uvc (set_tx_buffer _ _)) with (dev_uvc d). clear -Hh. perm_lia.
  - assert (T : forall t, total t (outflits (set_tx_buffer tx (set_last_transmitted_at tick d)) ++ q_ (hrx h) ++ pre ++ flit_slots bus1) =
      total t (outflits d ++ q_ (hrx h) ++ pre ++ flit_slots bus)).
    { intros t. rewrite Hw2, Ho, !total_app, (wire_total t [f] [f2]) by (by constructor). rewrite !total_cons. change (total t []) with 0. lia. }
    assert (K : credit_sum (q_ tx ++ q_ (hrx h) ++ pre ++ flit_slots bus1) = credit_sum (q_ (tx_buffer d) ++ q_ (hrx h) ++ pre ++ flit_slots bus)).
    { rewrite Hw2, Hq, <- Hl. change (f :: l) with ([f] ++ l). rewrite !credit_sum_app, (wire_credits [f] [f2]) by (by constructor).
      cbn [fst snd]. pair_lia. }
    split; rewrite ?T; cbn [tx_buffer set_tx_buffer]; rewrite ?K; done.
Qed.

(** ** Unpacking *)
Lemma down_slots f : down_ok iv f -> Forall (slot_in (H0 := m2s_dialect) (in_iv iv)) (slots f).
Proof.
  intros [Hc [Hs _]]. unfold cargo_ok, slots_in in *. rewrite Forall_forall in *. intros s Hin. split; [by apply Hc|by apply Hs].
Qed.
Lemma got_part u : got_hdr u = ids (q_ (u_hdr u)) ++ part_hdr u.
Proof. done. Qed.
Lemma ids_down_cons f l : ids_down (f :: l) = ids (msgs_of m2s_req (slots f)) ++ ids (msgs_of m2s_rwd_hdr (slots f)) ++ ids_down l.
Proof. unfold wire_ids, ids. cbn [map concat]. unfold packed. cbn. by rewrite !map_app, <- app_assoc. Qed.

(** The credits make room for every flit on the wire. *)
Lemma dev_room h d r dn un f l : flow h d r dn un -> q_ (rx_buffer d) = f :: l -> room (H0 := m2s_dialect) (dev_uvc d) f.
Proof.
  intros F Hq. destruct F as [_ _ (R & _ & Ph) (R2 & _ & P) _ F6 _ _ _ (B1 & B2 & _) _ _ _ _ [_ _ C3 C4]]. rewrite Hq in *.
  pose proof (HostPack.pi_ext h (HostPack.pk_pack R h Ph) 0) as [X1 X2]. destruct P as [P _ _ Pc].
  assert (K : Forall sendable (q_ (tx_buffer d) ++ q_ (hrx h) ++ un)).
  { apply Forall_app. split; [done|]. eapply Forall_impl; [exact F6|]. by intros ? []. }
  apply credit_sum_nonneg in K as [K1 K2]. pose proof (pi_cred1 d P). pose proof (pi_cred2 d P).
  rewrite tagged_writes in C4. rewrite !total_app, !total_cons in C3, C4.
  pose proof (total_ge0 m2s_req (HostPack.outflits h)). pose proof (total_ge0 m2s_rwd_hdr (HostPack.outflits h)).
  pose proof (total_ge0 m2s_req l). pose proof (total_ge0 m2s_rwd_hdr l). pose proof (total_ge0 m2s_req dn). pose proof (total_ge0 m2s_rwd_hdr dn).
  pose proof (tagged_nonneg WRITE (in_ram d)). pose proof (length_msgs m2s_req f) as L1. pose proof (length_msgs m2s_rwd_hdr f) as L2.
  assert (0 <= pending_ndr d) by (unfold pending_ndr; lia).
  split; [done|]. split; [done|]. rewrite got_part. change (u_plain (dev_uvc d)) with (M2S_Req d). change (u_hdr (dev_uvc d)) with (M2S_RWD d).
  change plain_ty with m2s_req. rewrite length_app. unfold buf_occupancy, ids, len in *. rewrite length_map. lia.
Qed.

(** So the device does not stall. *)
Lemma dev_no_stall h d r dn un : flow h d r dn un -> is_buf_full (rx_buffer d) && is_buf_full (M2S_Req d) && is_buf_full (M2S_RWD d) = false.
Proof.
  intros F. apply not_true_is_false. intros [[H1 H2]%andb_prop H3]%andb_prop.
  destruct F as [_ _ (R & Sd & Ph) (R2 & _ & P) F5 F6 _ _ _ (B1 & B2 & B0) _ _ _ _ [_ _ C3 C4]].
  pose proof (HostPack.pi_ext h (HostPack.pk_pack R h Ph) 0) as [X1 X2]. destruct P as [P _ _ Pc].
  assert (K : Forall sendable (q_ (tx_buffer d) ++ q_ (hrx h) ++ un)).
  { apply Forall_app. split; [done|]. eapply Forall_impl; [exact F6|]. by intros ? []. }
  apply credit_sum_nonneg in K as [K1 K2]. pose proof (pi_cred1 d P). pose proof (pi_cred2 d P).
  rewrite tagged_writes in C4. rewrite !total_app in C3, C4.
  pose proof (total_ge0 m2s_req (HostPack.outflits h)). pose proof (total_ge0 m2s_rwd_hdr (HostPack.outflits h)).
  pose proof (total_ge0 m2s_req dn). pose proof (total_ge0 m2s_rwd_hdr dn). pose proof (tagged_nonneg WRITE (in_ram d)).
  assert (0 <= pending_ndr d) by (unfold pending_ndr; lia).
  refine (no_stall (H0 := m2s_dialect) (dev_uvc d) (rx_buffer d) dn R Sd _ B0 B1 B2 _ _ H1 H2 H3).
  - eapply Forall_impl; [exact F5|]. by intros f [_ [_ ?]].
  - change plain_ty with m2s_req. unfold buf_occupancy, len in *. cbn [u_plain dev_uvc]. lia.
  - change hdr_ty with m2s_rwd_hdr. rewrite got_part, length_app. unfold ids, len in *. rewrite length_map. cbn [u_hdr dev_uvc] in *. lia.
Qed.

(** The ids are distinct. *)
Lemma sent_nodup h : NoDup (sent_ids h).
Proof. apply NoDup_fst_map_to_list. Qed.

Lemma path_nodup h d dn un : sent_ids h ≡ₚ path_ids h d dn un -> NoDup (map fst (in_rx d ++ in_ram d)).
Proof.
  intros E. pose proof (sent_nodup h) as Nd. rewrite E in Nd. unfold path_ids in Nd. do 3 (apply NoDup_app in Nd as (_ & _ & Nd)).
  apply NoDup_app in Nd as (Nd & _). unfold pipeline in Nd. rewrite app_assoc, map_app in Nd. by apply NoDup_app in Nd as (Nd & _).
Qed.

Lemma dev_unpacked_flow tick h d r dn un f l u b : flow h d r dn un -> q_ (rx_buffer d) = f :: l ->
  unpack_slots (H0 := m2s_dialect) set_tick_unpacked tick (slots f) (dev_uvc d) = Ok u -> q_ b = l -> size_ b = size_ (rx_buffer d) ->
  flow h (dev_unpacked u b f d) r dn un.
Proof.
  intros F Hq Eu <- Hz. destruct (dev_room _ _ _ _ _ _ _ F Hq) as (B1 & B2 & Hr1 & Hr2).
  destruct F as [F1 F2 (R & Sd & P) (R2 & Su & P2) F5 F6 F7 F8 F9 F10 F11 F12 F13 F14 [C1 C2 C3 C4]]. rewrite Hq in *.
  inversion Sd as [|? ? r' ? ? Hw Hfs]; subst.
  destruct (unpack_flit (H0 := m2s_dialect) set_tick_unpacked tick (fun _ _ => eq_refl) f (dev_uvc d) r' Hw B1 B2 Hr1 Hr2)
    as (u1 & Eu1 & U1 & U2 & U3 & U4 & U5 & U6 & U7). rewrite Eu in Eu1. injection Eu1 as <-. cbn [plain_ty hdr_ty m2s_dialect] in U2, U3.
  apply Forall_cons in F5 as [Hf F5]. pose proof (unpack_holds _ _ _ _ _ _ (down_slots f Hf) F8 Eu) as Hho.
  set (d' := dev_unpacked u b f d). assert (Hu : dev_uvc d' = u) by (by destruct u).
  assert (Hi : sent_ids h ≡ₚ path_ids h d' dn un).
  { rewrite F14. unfold path_ids. rewrite Hq, Hu. change (rx_buffer d') with b. rewrite <- app_comm_cons, ids_down_cons, !pipeline_ids.
    change (dev_out d') with (dev_out d). change (in_ram d') with (in_ram d). change (waiting d') with (waiting d).
    change (q_ (M2S_Req d)) with (q_ (u_plain (dev_uvc d))). change (q_ (M2S_Req d')) with (q_ (u_plain u)).
    change (q_ (M2S_RWD d)) with (q_ (u_hdr (dev_uvc d))). change (q_ (M2S_RWD d')) with (q_ (u_hdr u)).
    rewrite !got_part in U3. unfold got_plain in U2. apply perm_eq in U2, U3. clear -U2 U3. perm_lia. }
  assert (Hl1 : len (q_ (u_plain u)) = len (q_ (M2S_Req d)) + slot_count_in_flit f m2s_req).
  { apply (f_equal len) in U2. unfold got_plain in U2. rewrite len_app, !len_ids in U2. rewrite <- length_msgs. exact U2. }
  assert (Hl2 : len (q_ (u_hdr u)) + len (part_hdr u) = len (q_ (M2S_RWD d)) + len (part_hdr (dev_uvc d)) + slot_count_in_flit f m2s_rwd_hdr).
  { apply (f_equal len) in U3. rewrite !got_part, !len_app, !len_ids in U3. rewrite <- length_msgs. exact U3. }
  split; try done; rewrite ?Hu; try done.
  - exists R. split; [|done]. change (unpacker_rollover d') with (u_roll u). by rewrite U1.
  - exists R2. split; [done|]. apply (dev_packer_inv_view R2 d); [|done]. unfold packer_view. cbn. by rewrite U4, U5.
  - destruct F7. by split.
  - split; [exact U6|]. split; [exact U7|]. change (rx_buffer d') with b. rewrite Hz. apply F10.
  - destruct F13 as [[_ _ I1 I2] D2 D3 [S1 S2 S3] D5 _]. destruct Hho as [H1 H2 _]. split; try done.
    + split; try done; [eapply Forall_impl; [exact H1|]|eapply Forall_impl; [exact H2|]]; by intros ? [].
    + by eapply path_nodup.
  - assert (Tr : tagged READ (pipeline d') = tagged READ (pipeline d) + slot_count_in_flit f m2s_req).
    { rewrite !tagged_reads. change (q_ (M2S_Req d')) with (q_ (u_plain u)). rewrite Hl1. change (in_ram d') with (in_ram d).
      change (pending_drs d') with (pending_drs d). lia. }
    assert (Tw : len (part_hdr u) + tagged WRITE (pipeline d') = len (part_hdr (dev_uvc d)) + tagged WRITE (pipeline d) + slot_count_in_flit f m2s_rwd_hdr).
    { rewrite !tagged_writes. change (q_ (M2S_RWD d')) with (q_ (u_hdr u)). change (in_ram d') with (in_ram d).
      change (pending_ndr d') with (pending_ndr d). lia. }
    assert (Ho : forall t, total t (HostPack.outflits h ++ (f :: q_ b) ++ dn) = slot_count_in_flit f t + total t (HostPack.outflits h ++ q_ b ++ dn)).
    { intros t. rewrite !total_app, total_cons. lia. }
    rewrite Ho in C1, C2, C3, C4. change (size_ (M2S_Req d)) with (size_ (u_plain (dev_uvc d))) in C3.
    change (size_ (M2S_RWD d)) with (size_ (u_hdr (dev_uvc d))) in C4. rewrite <- U4 in C3. rewrite <- U5 in C4.
    split; rewrite ?Hu; change (outflits d') with (outflits d); change (int_cred d') with (int_cred d); change (tx_buffer d') with (tx_buffer d);
      change (rx_buffer d') with b; change (M2S_Req d') with (u_plain u); change (M2S_RWD d') with (u_hdr u); lia.
Qed.

Lemma dev_unpack_cases tick h d r dn un : flow h d r dn un ->
  FLIT_unpacker p tick d = Ok (false, d) \/
  exists f l u b, q_ (rx_buffer d) = f :: l /\ unpack_slots (H0 := m2s_dialect) set_tick_unpacked tick (slots f) (dev_uvc d) = Ok u /\
    q_ b = l /\ size_ b = size_ (rx_buffer d) /\ FLIT_unpacker p tick d = Ok (true, dev_unpacked u b f d).
Proof.
  intros F. pose proof (dev_no_stall _ _ _ _ _ F) as Hst. destruct (q_ (rx_buffer d)) as [|f l] eqn:Hq.
  { left. unfold FLIT_unpacker, is_buf_empty. by rewrite Hst, Hq. }
  destruct (Z.ltb_spec (tick - time_of_receipt (flit_time f)) (delay_rx_buf_to_unpack p)) as [Ht|Ht].
  { left. unfold FLIT_unpacker, is_buf_empty, get_head. rewrite Hst, Hq. cbn [negb bind]. by rewrite (proj2 (Z.ltb_lt _ _) Ht). }
  right. pose proof (fw_down _ _ _ _ _ _ F) as (R2 & Sd & _). rewrite Hq in Sd. inversion Sd as [|? ? r' ? ? Hw _]; subst.
  destruct (dev_unpack_spec p tick d f l r') as (u & b1 & Eu & Hb & Hz & E1); try done; [by eapply dev_room|]. by exists f, l, u, b1.
Qed.
Lemma dev_unpack_flow tick h d r dn un b d' : flow h d r dn un -> FLIT_unpacker p tick d = Ok (b, d') -> flow h d' r dn un.
Proof.
  intros F E. destruct (dev_unpack_cases tick h d r dn un F) as [E1|(f & l & u & b1 & Hq & Eu & Hb & Hz & E1)]; rewrite E in E1; injection E1 as -> ->; [done|].
  by eapply dev_unpacked_flow.
Qed.

(** ** Forwarding *)

(** What forwarding leaves alone *)
Definition kept d :=
  ((rx_buffer d, tx_buffer d, ext_creds d), (flit_to_pack d, packer_rollover d, pkr2_state d, packer_seq_length d, seq_threshold d, is_packer_waiting d),
   (unpacker_rollover d, last_rwd_hdr d, last_drs_hdr d, connected_hosts d), (S2M_NDR d, S2M_DRS d),
   (size_ (M2S_Req d), size_ (M2S_RWD d)), (rsp_credit (int_cred d), data_credit (int_cred d))).
Lemma check_rx_kept tick v d : ensures (check_rx_vc p tick v d) (fun x => kept (snd x) = kept d).
Proof.
  unfold check_rx_vc. destruct (q_ (rx_get d v)) as [|m l] eqn:Hq; [done|]. destruct (_ <? _); [done|]. destruct (isFull _); [done|].
  eapply ensures_bind; [apply ensures_any|]. intros req _. eapply ensures_bind; [apply ensures_any|]. intros ib _. cbv zeta.
  destruct (opCode m); cbn [bind]; try done; destruct v; cbn [rx_get] in Hq; unfold dequeue, is_buf_empty; cbn; rewrite Hq; done.
Qed.
Lemma send_kept tick d : ensures (send_to_ramulator p tick d) (fun x => kept (snd x) = kept d).
Proof.
  unfold send_to_ramulator. destruct (negb _); [|done].
  assert (Htwo : forall v1 s1 v2 s2, ensures (let! (b1, d) := check_rx_vc p tick v1 d in
      if b1 : bool then Ok (true, set_ramulator_inp_state s1 d)
      else let! (b2, d) := check_rx_vc p tick v2 d in
           if b2 : bool then Ok (true, set_ramulator_inp_state s2 d) else Ok (false, d)) (fun x => kept (snd x) = kept d)).
  { intros v1 s1 v2 s2. eapply ensures_bind; [apply check_rx_kept|]. intros [b1 d1] H1. cbn in H1. destruct b1; [done|].
    eapply ensures_bind; [apply check_rx_kept|]. intros [b2 d2] H2. cbn in H2. destruct b2; exact (eq_trans H2 H1). }
  destruct (ramulator_inp_state d); done || apply Htwo.
Qed.

Lemma dev_packer_inv_int R d c : packer_inv R d -> rsp_credit c = rsp_credit (int_cred d) -> data_credit c = data_credit (int_cred d) ->
  0 <= req_credit c <= size_ (M2S_Req d) -> packer_inv R (set_int_cred c d).
Proof.
  intros [[] ? ? ?] H1 H2 H3. split; [split; cbn; rewrite ?H1, ?H2|..]; done.
Qed.
Lemma kept_eqs d d' : kept d' = kept d ->
  rx_buffer d' = rx_buffer d /\ tx_buffer d' = tx_buffer d /\ unpacker_rollover d' = unpacker_rollover d /\ outflits d' = outflits d /\ dev_out d' = dev_out d /\
  part_hdr (dev_uvc d') = part_hdr (dev_uvc d) /\ last_rwd_hdr d' = last_rwd_hdr d /\
  (size_ (M2S_Req d') = size_ (M2S_Req d) /\ size_ (M2S_RWD d') = size_ (M2S_RWD d)) /\
  (rsp_credit (int_cred d') = rsp_credit (int_cred d) /\ data_credit (int_cred d') = data_credit (int_cred d)).
Proof.
  unfold kept, outflits, dev_out, part_hdr, dev_uvc. intros E. injection E as E1 E2 E3 E4 E5 E6 E7 E8 E9 E10 E11 E12 E13 E14 E15 E16 E17 E18 E19.
  cbn. by rewrite E1, E2, E4, E9, E10, E11, E16, E17, E18, E19.
Qed.
Lemma kept_packer d d' : kept d' = kept d -> packer_view d' = packer_view (set_int_cred (int_cred d') d) /\ (forall A, addresses_in A d -> addresses_in A d').
Proof.
  unfold kept, packer_view. intros E. injection E as E1 E2 E3 E4 E5 E6 E7 E8 E9 E10 E11 E12 E13 E14 E15 E16 E17 E18 E19. cbn.
  split; [by rewrite E2, E4, E5, E6, E7, E8, E9, E13, E14, E15, E16, E17|]. intros A []. split; by rewrite ?E2, ?E4, ?E5, ?E12, ?E14, ?E15.
Qed.

Lemma moves_holds v d d' A : moves v d d' -> last_rwd_hdr d' = last_rwd_hdr d -> unpacker_rollover d' = unpacker_rollover d ->
  holds_ok (H0 := m2s_dialect) A (dev_uvc d) -> holds_ok (H0 := m2s_dialect) A (dev_uvc d') /\
  exists m, q_ (rx_get d v) = m :: q_ (rx_get d' v) /\ msg_in A (vc_op v) m.
Proof.
  intros (m & l & Hq & Hq' & _ & _ & _ & _ & Ho & _) El Er [H1 H2 H3]. rewrite <- Hq' in Hq. cbn in H1, H2.
  destruct v; cbn in *; rewrite Hq in *; [apply Forall_cons in H1 as [Hm H1]|apply Forall_cons in H2 as [Hm H2]];
    (split; [split; cbn; rewrite ?Ho, ?El, ?Er; done|by exists m]).
Qed.
Lemma buf_ok_shrink {X} (b b' : CXLBuf X) : buf_ok b -> size_ b' = size_ b -> (length (q_ b') <= length (q_ b))%nat -> buf_ok b'.
Proof. intros [B1 B2] Hz Hl. split; rewrite Hz; [done|]. unfold buf_occupancy in *. lia. Qed.
Lemma rx_not_in_ram v d m l : NoDup (map fst (in_rx d ++ in_ram d)) -> q_ (rx_get d v) = m :: l -> messages_in_ramulator d !! msg_id m = None.
Proof.
  intros Nd Hq. destruct (messages_in_ramulator d !! msg_id m) as [x|] eqn:Ex; [exfalso|done]. rewrite map_app in Nd.
  apply NoDup_app in Nd as (_ & Nd & _). apply (Nd (msg_id m)).
  - unfold in_rx. rewrite map_app, !tags_ids. apply elem_of_app. unfold ids. destruct v; cbn in Hq; rewrite Hq; [left|right]; apply list_elem_of_here.
  - rewrite (in_ram_delete d _ x Ex). apply list_elem_of_here.
Qed.
Lemma dev_credit_bound h d dn un : credits_ok h d dn un -> 0 <= req_credit (cred_at (CxlHost.ext_creds h) 0) /\ 0 <= data_credit (cred_at (CxlHost.ext_creds h) 0) ->
  Forall sendable (q_ (tx_buffer d) ++ q_ (hrx h) ++ un) ->
  req_credit (int_cred d) <= size_ (M2S_Req d) /\ data_credit (int_cred d) + pending_ndr d <= size_ (M2S_RWD d).
Proof.
  intros [_ _ C3 C4] [X1 X2] [K1 K2]%credit_sum_nonneg. rewrite tagged_writes in C4. pose proof (total_ge0 m2s_req (HostPack.outflits h ++ q_ (drx d) ++ dn)).
  pose proof (total_ge0 m2s_rwd_hdr (HostPack.outflits h ++ q_ (drx d) ++ dn)). pose proof (tagged_nonneg WRITE (in_ram d)).
  pose proof (len_nonneg (part_hdr (dev_uvc d))). pose proof (len_nonneg (q_ (M2S_RWD d))). pose proof (len_nonneg (q_ (M2S_Req d))). lia.
Qed.
Lemma dev_send_flow tick h d r dn un b d' : flow h d r dn un -> send_to_ramulator p tick d = Ok (b, d') -> flow h d' r dn un.
Proof.
  intros F E. pose proof (ensures_ok _ _ _ (send_kept tick d) E) as K. cbn in K.
  destruct F as [F1 F2 F3 (R & Su & P) F5 F6 F7 F8 F9 (B1 & B2 & B0) F11 F12 F13 F14 [C1 C2 C3 C4]].
  pose proof (forward_ok p tick d r F13) as Fo. destruct (is_buf_full (M2S_Req d) && is_buf_full (M2S_RWD d) && isEmpty (inp_buf d)) eqn:Hst.
  { unfold send_to_ramulator in E. by rewrite Hst in E. }
  destruct (send_to_ramulator_spec p tick d (dk_rx _ _ F13) Hst) as (b1 & d1 & E1 & _ & Hm). rewrite E in E1, Fo. injection E1 as <- <-.
  destruct Fo as [Hd Hp]. destruct b; [|subst d'; by split; eauto]. destruct Hm as [[v Hm] _].
  destruct (kept_eqs _ _ K) as (K1 & K2 & K3 & K4 & K5 & K6 & K7 & [K8 K9] & K10 & K11). destruct (kept_packer _ _ K) as [K12 K13].
  destruct (moves_holds v d d' (in_iv iv) Hm K7 K3 F8) as (Hh & m0 & Hq0 & [_ Ha]).
  destruct Hm as (m & l & Hq & Hq' & _ & Hnew & Hold & Hc & Ho & _). rewrite Hq in Hq0. injection Hq0 as <- _.
  assert (Hl : len (q_ (M2S_Req d')) + req_credit (int_cred d') = len (q_ (M2S_Req d)) + req_credit (int_cred d)).
  { destruct v; cbn in *; [rewrite Hq, Hq'; unfold len; cbn; lia|rewrite Ho; lia]. }
  rewrite <- !(tagged_perm _ _ _ Hp) in *. assert (C' : credits_ok h d' dn un) by (split; rewrite ?K1, ?K2, ?K4, ?K6, ?K8, ?K9, ?K11; lia).
  split; rewrite ?K1, ?K3; auto.
  - exists R. split; [done|]. apply (dev_packer_inv_view R (set_int_cred (int_cred d') d)); [exact K12|].
    assert (X : 0 <= req_credit (int_cred d')). { pose proof (pi_cred1 d (pk_pack R d P)). rewrite Hc. destruct v; lia. }
    pose proof (dev_credit_bound h d' dn un) as Y. rewrite K2, K8 in Y. apply dev_packer_inv_int; try done. split; [done|]. apply Y; [done|..].
    + destruct F3 as (R3 & _ & P3). apply (HostPack.pi_ext h (HostPack.pk_pack R3 h P3) 0).
    + apply Forall_app. split; [apply P|]. eapply Forall_impl; [exact F6|]. by intros ? [].
  - assert (Hs : (length (q_ (rx_get d' v)) <= length (q_ (rx_get d v)))%nat) by (rewrite Hq, Hq'; cbn; lia).
    split_and!; [apply (buf_ok_shrink (M2S_Req d))|apply (buf_ok_shrink (M2S_RWD d))|]; try done; destruct v; cbn in *; rewrite ?Ho; done.
  - intros k x. destruct (decide (k = msg_id m)) as [->|Hk]; [|rewrite Hold by done; apply F12].
    rewrite Hnew by (by eapply rx_not_in_ram; [eapply path_nodup|]). by intros [= <-].
  - rewrite F14. unfold path_ids. rewrite K1, K5, K6. by rewrite Hp.
Qed.

(** ** A cycle of the memory *)

(** What it leaves alone *)
Definition ram_kept d :=
  ((rx_buffer d, tx_buffer d, int_cred d), (flit_to_pack d, packer_rollover d, pkr2_state d, packer_seq_length d, seq_threshold d, is_packer_waiting d),
   (unpacker_rollover d, last_rwd_hdr d, last_drs_hdr d, connected_hosts d), (M2S_Req d, M2S_RWD d), (length (S2M_NDR d), length (S2M_DRS d))).
(** Responses have the opcode of their channel and the address of their
    request. *)
Definition typed_vcs (oc : opcode) (l : list (CXLBuf message)) : Prop := forall j, Forall (fun m => opCode m = oc) (q_ (nth j l (CXLBuf_new 0))).
Record responses_in (A : Z -> Prop) d : Prop := {
  ro_ndr : typed_vcs NDR (S2M_NDR d);
  ro_drs : typed_vcs DRS (S2M_DRS d);
  ro_andr : vcs_in A (S2M_NDR d);
  ro_adrs : vcs_in A (S2M_DRS d);
  ro_ram k m : messages_in_ramulator d !! k = Some m -> A (address m)
}.
Lemma typed_push oc l i b m : typed_vcs oc l -> opCode m = oc -> q_ b = q_ (nth i l (CXLBuf_new 0)) ++ [m] -> typed_vcs oc (<[i := b]> l).
Proof.
  intros Hl Hm Hb j. destruct (le_lt_dec (length l) i) as [Hi|Hi]; [by rewrite list_insert_ge|]. rewrite nth_insert by done.
  case_decide; [|apply Hl]. rewrite Hb. apply Forall_app. split; [apply Hl|by apply Forall_singleton].
Qed.
Lemma vcs_push A l i b m : vcs_in A l -> A (address m) -> q_ b = q_ (nth i l (CXLBuf_new 0)) ++ [m] -> vcs_in A (<[i := b]> l).
Proof.
  intros Hl Hm Hb. apply Forall_insert; [done|]. rewrite Hb. apply Forall_app. split; [|by apply Forall_singleton].
  destruct (le_lt_dec (length l) i) as [Hi|Hi]; [by rewrite nth_overflow|]. exact (Forall_lookup_1 _ _ _ _ Hl (nth_some i (CXLBuf_new 0) l Hi)).
Qed.
Lemma notify_keeps A tick clk k d d' : ramulator_req_notification tick clk k d = Ok d' -> responses_in A d ->
  responses_in A d' /\ ram_kept d' = ram_kept d.
Proof.
  intros E [H1 H2 H3 H4 H5]. unfold ramulator_req_notification in E. destruct (_ !! _) as [m|] eqn:Em; [|done]. cbv zeta in E.
  pose proof (H5 _ _ Em) as Ha. assert (H5' : forall j x, delete k (messages_in_ramulator d) !! j = Some x -> A (address x)).
  { intros j x (_ & Hx)%lookup_delete_Some. by eapply H5. }
  apply bind_ok_inv in E as (d1 & E1 & E). injection E as <-. destruct (opCode _) in E1; try done;
    apply bind_ok_inv in E1 as (b & Eb & E1); injection E1 as <-; apply enqueue_inv in Eb as (_ & Hb & _).
  - split; [|unfold ram_kept; cbn; by rewrite length_insert]. split; cbn; try done; [eapply typed_push; [done| |exact Hb]|eapply vcs_push; [done| |exact Hb]]; done.
  - split; [|unfold ram_kept; cbn; by rewrite length_insert]. split; cbn; try done; [eapply typed_push; [done| |exact Hb]|eapply vcs_push; [done| |exact Hb]]; done.
Qed.
Lemma cycle_keeps A tick (std : Std DDR4.Command DDR4.State) d s b d' s' : ram_update (H := dev_client tick) std d s = Ok (b, d', s') -> responses_in A d ->
  responses_in A d' /\ ram_kept d' = ram_kept d.
Proof.
  intros E Hd. apply (ram_update_keeps (H := dev_client tick) std (fun x => responses_in A x /\ ram_kept x = ram_kept d) d s b d' s'); try done.
  - intros c x [[] Hk]. done.
  - intros clk id x x' Ea [[R1 R2 R3 R4 R5] Hk]. cbn in Ea. destruct (_ !! id) as [m|] eqn:Em; [|done]. injection Ea as <-. split; [|done].
    split; try done. cbn. intros k y [[<- <-]|[_ Hy]]%lookup_insert_Some; [exact (R5 _ _ Em)|by eapply R5].
  - intros clk q x x' Ec [Hx Hk]. destruct (notify_keeps A tick clk _ _ _ Ec Hx) as [? E1]. split; [done|]. by rewrite E1.
Qed.

Lemma ram_kept_packer R d d' : ram_kept d' = ram_kept d -> typed_vcs NDR (S2M_NDR d') -> typed_vcs DRS (S2M_DRS d') ->
  data_credit (int_cred d') + pending_ndr d' <= size_ (M2S_RWD d') -> packer_inv R d -> packer_inv R d'.
Proof.
  intros E T1 T2 Hn [[] ? ? ?]. assert (V1 : vcs_ok NDR NdrTx d') by (intros j _; apply T1). assert (V2 : vcs_ok DRS DrsTx d') by (intros j _; apply T2).
  destruct d, d'. unfold ram_kept in E. cbn in *. injection E. intros. subst. split; [split; cbn in *; assumption || congruence || done || idtac|assumption..].
  split; [lia|exact Hn].
Qed.
Lemma ram_kept_eqs d d' : ram_kept d' = ram_kept d ->
  rx_buffer d' = rx_buffer d /\ tx_buffer d' = tx_buffer d /\ dev_uvc d' = dev_uvc d /\ outflits d' = outflits d /\ dev_out d' = dev_out d /\
  int_cred d' = int_cred d /\ (flit_to_pack d', packer_rollover d', last_drs_hdr d') = (flit_to_pack d, packer_rollover d, last_drs_hdr d).
Proof.
  unfold ram_kept, outflits, dev_out, dev_uvc. intros E. injection E as E1 E2 E3 E4 E5 E6 E7 E8 E9 E10 E11 E12 E13 E14 E15 E16 E17.
  by rewrite E1, E2, E3, E4, E5, E9, E10, E11, E12, E14, E15.
Qed.
Lemma typed_of_ok oc vc d l : vcs_ok oc vc d -> length l = NUM_VC -> (forall j, vc_get d (vc j) = nth j l (CXLBuf_new 0)) -> typed_vcs oc l.
Proof.
  intros Hv Hl Hg j. destruct (le_lt_dec NUM_VC j) as [Hj|Hj]; [rewrite nth_overflow by lia; done|]. rewrite <- Hg. by apply Hv.
Qed.
End DevFlow.

Section DevCycle.
Context `{Indet} (p : CXLParams) (iv : Z * Z) (std : Std DDR4.Command DDR4.State).
Implicit Types (h : CXLHost) (d : CXLDevice) (r : RamState DDR4.Command DDR4.State) (dn un : list flit).
#[local] Abbreviation flow := (flow iv).

Lemma dev_cycle_flow tick h d r dn un b d' r' : flow h d r dn un -> ram_update (H := dev_client tick) std d r = Ok (b, d', r') -> flow h d' r' dn un.
Proof.
  intros F E. destruct F as [F1 F2 F3 (R & Su & P) F5 F6 F7 F8 F9 F10 F11 F12 F13 F14 [C1 C2 C3 C4]].
  pose proof (pk_pack R d P) as Pk. destruct (update_links std tick d r b d' r' F13 E) as [Hd Hp].
  assert (Hr : responses_in (in_iv iv) d).
  { split; try apply F7; [| |done]; (eapply typed_of_ok; [apply Pk|apply Pk|done]). }
  destruct (cycle_keeps (in_iv iv) tick std d r b d' r' E Hr) as [[R1 R2 R3 R4 R5] K].
  destruct (ram_kept_eqs d d' K) as (K1 & K2 & K3 & K4 & K5 & K6 & K7). injection K7 as K7 K8 K9.
  assert (K10 : unpacker_rollover d' = unpacker_rollover d) by exact (f_equal u_roll K3).
  assert (K11 : M2S_Req d' = M2S_Req d) by exact (f_equal u_plain K3). assert (K12 : M2S_RWD d' = M2S_RWD d) by exact (f_equal u_hdr K3).
  rewrite <- !(tagged_perm _ _ _ Hp) in *.
  assert (C' : credits_ok h d' dn un) by (by split; rewrite ?K1, ?K2, ?K3, ?K4, ?K6, ?K11, ?K12).
  split; rewrite ?K1, ?K3, ?K10, ?K11, ?K12; auto.
  - exists R. split; [done|]. apply (ram_kept_packer R d d' K R1 R2); [|done]. apply (dev_credit_bound h d' dn un C').
    + destruct F3 as (R0 & _ & P0). apply (HostPack.pi_ext h (HostPack.pk_pack R0 h P0) 0).
    + rewrite K2. apply Forall_app. split; [apply P|]. eapply Forall_impl; [exact F6|]. by intros ? [].
  - destruct F7. split; by rewrite ?K2, ?K7, ?K8, ?K9.
  - rewrite F14. unfold path_ids. rewrite K1, K3, K5. by rewrite Hp.
Qed.

(** ** A tick of the device *)
Lemma dev_update_flow skip g h d r dn pre bus g' d' r' bus' : flow h d r dn (pre ++ flit_slots bus) ->
  device_update p std skip g d r bus = Ok (g', d', r', bus') -> flow h d' r' dn (pre ++ flit_slots bus') /\ counted 0 g g'.
Proof.
  intros F E. unfold device_update, CxlDevice.update in E. cbv zeta in E. set (un := pre ++ flit_slots bus) in *.
  apply bind_ok_inv in E as ([b1 [g1 d1]] & E1 & E). assert (S1 : flow h d1 r dn un /\ counted 0 g g1).
  { if_in E1; [injection E1 as <- <- <-; auto using counted_0|]. destruct (ensures_ok _ _ _ (dev_packer_frame p g d) E1) as [Hg _].
    split; [by eapply dev_pack_flow|by apply counted_globals]. }
  destruct S1 as [F1 G1]. set (d1' := if skip && _ then _ else d1) in *.
  assert (F1' : flow h d1' r dn un) by (unfold d1'; if_goal; [by apply (flow_dev_view iv h d1)|done]). clearbody d1'. clear F1 E1.
  apply bind_ok_inv in E as ([b2 d2] & E2 & E).
  assert (F2 : flow h d2 r dn un) by (if_in E2; [by injection E2 as <- <-|by eapply dev_unpack_flow]).
  set (d2' := if skip && _ then _ else d2) in *.
  assert (F2' : flow h d2' r dn un) by (unfold d2'; if_goal; [by apply (flow_dev_view iv h d2)|done]). clearbody d2'. clear F2 E2 F1'.
  apply bind_ok_inv in E as ([b3 d3] & E3 & E).
  assert (F3 : flow h d3 r dn un) by (if_in E3; [by injection E3 as <- <-|by eapply dev_send_flow]).
  set (d3' := if b3 then _ else _) in *.
  assert (F3' : flow h d3' r dn un) by (apply (flow_dev_view iv h d3); [unfold d3'; by repeat if_goal|done]). clearbody d3'. clear F3 E3 F2'.
  apply bind_ok_inv in E as ([b4 [d4 bus4]] & E4 & E).
  assert (F4 : flow h d4 r dn (pre ++ flit_slots bus4)) by (if_in E4; [by injection E4 as <- <- <-|by eapply dev_transmit_flow]).
  set (d4' := if skip && _ then _ else d4) in *.
  assert (F4' : flow h d4' r dn (pre ++ flit_slots bus4)) by (unfold d4'; if_goal; [by apply (flow_dev_view iv h d4)|done]). clearbody d4'. clear F4 E4 F3'.
  apply bind_ok_inv in E as ([d5 r5] & E5 & E). assert (F5 : flow h d5 r5 dn (pre ++ flit_slots bus4)).
  { if_in E5; [|by injection E5 as <- <-]. apply bind_ok_inv in E5 as ([[b6 d6] r6] & E6 & E5). injection E5 as <- <-. by eapply dev_cycle_flow. }
  do 4 (if_in E; [|done]). injection E as <- <- <- <-. split; [|done]. apply (flow_dev_view iv h d5); [by if_goal|done].
Qed.
End DevCycle.
