(* ===== verification/DevSafe.v ===== *)
(** * Which assertions of a device can fail

    In the flow of requests a device and its DDR4 memory fail no assertion
    but those on room. *)
From Stdlib Require Import ZArith Lia Bool String.
From stdpp Require Import base list gmap.
From S2P Require Import Prelude RamIf Dram Sched Controller Memory RamDevice RamRun Ddr4 Ddr4Safe Ddr4Memory DevRam.
From S2P Require Import Flit CxlBuf Samples CxlBus Packing Link CxlNode CxlHost HostPack HostRun Wire DevHeaders SysFrame Flow HostFlow DevFlow HostSafe.
From S2P Require Import CxlDevice DevPack DevRun.
Import DDR4.

Section DevSafe.
Context `{Indet} (p : CXLParams) (iv : Z * Z) (channels : Z) (std : Std Command State) (m0 : Mem Command State) (o : OrgEntry) (sp : SpeedEntry).
Hypothesis Hbuilt : built channels std m0 o sp.
Implicit Types (h : CXLHost) (d : CXLDevice) (r : RamState Command State) (dn un : list flit).
#[local] Abbreviation flow := (flow iv).
#[local] Abbreviation mem_ok := (mem_ok channels m0 o sp).

Lemma dev_pack_runs g h d r dn un : flow h d r dn un -> runs (FLIT_packer p g d) (fun y => flow h (snd (snd y)) r dn un).
Proof.
  intros F. destruct (fw_up _ _ _ _ _ _ F) as (R & _ & P). destruct (dev_FLIT_packer_packs p R g d P) as (b & g' & d' & E & _).
  rewrite E. cbn. by eapply dev_pack_flow.
Qed.
Lemma dev_transmit_runs tick h d r dn pre bus : flow h d r dn (pre ++ flit_slots bus) -> fits bus ->
  runs (transmit p tick d bus) (fun y => flow h (fst (snd y)) r dn (pre ++ flit_slots (snd (snd y))) /\ fits (snd (snd y))).
Proof.
  intros F Hb. apply (runs_eq _ (fun y => fits (snd (snd y)))); [|intros [b [d' bus']] E Hb'; split; [by eapply dev_transmit_flow|done]].
  unfold transmit, is_buf_empty. destruct (q_ (tx_buffer d)) as [|f l] eqn:Hq; [done|]. destruct (is_full bus) eqn:Hf; [done|].
  rewrite (get_head_ok _ _ _ Hq). cbn [bind]. if_goal; [done|]. if_goal; [done|].
  edestruct add_to_bus_runs as (b' & Eb & Hb'); [exact Hf|]. rewrite Eb. cbn [bind]. unfold dequeue, is_buf_empty.
  cbn [tx_buffer set_last_transmitted_at]. rewrite Hq. cbn. auto.
Qed.
Lemma dev_unpack_runs tick h d r dn un : flow h d r dn un -> runs (FLIT_unpacker p tick d) (fun y => flow h (snd y) r dn un).
Proof.
  intros F. apply (runs_eq _ (fun _ => True)); [|intros [b d'] E _; by eapply dev_unpack_flow].
  destruct (dev_unpack_cases p iv tick h d r dn un F) as [E1|(f & l & u & b1 & Hq & Eu & Hb & Hz & E1)]; by rewrite E1.
Qed.
Lemma dev_send_runs tick h d r dn un : flow h d r dn un -> runs (send_to_ramulator p tick d) (fun y => flow h (snd y) r dn un).
Proof.
  intros F. apply (runs_eq _ (fun _ => True)); [|intros [b d'] E _; by eapply dev_send_flow].
  pose proof (forward_ok p tick d r (fw_dev _ _ _ _ _ _ F)) as Fo. destruct (send_to_ramulator p tick d) as [[b d']|e]; [done|]. rewrite Fo. known_error.
Qed.
Lemma dev_cycle_runs tick h d r dn un : flow h d r dn un -> mem_ok (memory r) ->
  runs (ram_update (H := dev_client tick) std d r) (fun y => flow h (snd (fst y)) (snd y) dn un /\ mem_ok (memory (snd y))).
Proof.
  intros F M. pose proof (update_ok channels std m0 o sp Hbuilt tick d r (fw_dev _ _ _ _ _ _ F) M) as U.
  destruct (ram_update std d r) as [[[b d'] r']|e] eqn:E; [|cbn; destruct U as [-> | ->]; known_error].
  destruct U as (_ & M' & _). split; [by eapply dev_cycle_flow|done].
Qed.

(** A tick *)
Lemma dev_update_runs skip g h d r dn pre bus : flow h d r dn (pre ++ flit_slots bus) -> mem_ok (memory r) -> fits bus ->
  runs (device_update p std skip g d r bus) (fun y => flow h (snd (fst (fst y))) (snd (fst y)) dn (pre ++ flit_slots (snd y)) /\
    mem_ok (memory (snd (fst y))) /\ fits (snd y)).
Proof.
  intros F M Hb. unfold device_update, CxlDevice.update. cbv zeta. set (un := pre ++ flit_slots bus) in *.
  eapply runs_bind; [apply (runs_guard _ (g, d) _ (fun y => flow h (snd y) r dn un)); [done|by apply dev_pack_runs]|].
  intros [b1 [g1 d1]] _ [G1 F1]. cbn [fst snd] in G1, F1. set (c1 := skip && _) in *.
  set (d1' := if c1 then _ else d1). assert (F1' : flow h d1' r dn un) by (unfold d1'; if_goal; [by apply (flow_dev_view iv h d1)|done]).
  clearbody d1' c1. clear F1 F.
  eapply runs_bind; [apply (runs_guard _ d1' _ (fun y => flow h y r dn un)); [done|by apply dev_unpack_runs]|].
  intros [b2 d2] _ [G2 F2]. cbn [fst snd] in G2, F2. set (c2 := skip && _) in *.
  set (d2' := if c2 then _ else d2). assert (F2' : flow h d2' r dn un) by (unfold d2'; if_goal; [by apply (flow_dev_view iv h d2)|done]).
  clearbody d2' c2. clear F2 F1'.
  eapply runs_bind; [apply (runs_guard _ d2' _ (fun y => flow h y r dn un)); [done|by apply dev_send_runs]|].
  intros [b3 d3] _ [G3 F3]. cbn [fst snd] in G3, F3. set (c3 := skip && _) in *.
  set (d3' := if b3 then _ else _). assert (F3' : flow h d3' r dn un) by (apply (flow_dev_view iv h d3); [unfold d3'; by repeat if_goal|done]).
  clearbody d3' c3. clear F3 F2'.
  eapply runs_bind; [apply (runs_guard _ (d3', bus) _ (fun y => flow h (fst y) r dn (pre ++ flit_slots (snd y)) /\ fits (snd y))); [done|by apply dev_transmit_runs]|].
  intros [b4 [d4 bus4]] _ [G4 [F4 Hb4]]. cbn [fst snd] in G4, F4. set (c4 := skip && _) in *.
  set (d4' := if c4 then _ else d4). assert (F4' : flow h d4' r dn (pre ++ flit_slots bus4)) by (unfold d4'; if_goal; [by apply (flow_dev_view iv h d4)|done]).
  clearbody d4' c4. clear F4 F3'.
  eapply (runs_bind _ _ (fun y => flow h (fst y) (snd y) dn (pre ++ flit_slots bus4) /\ mem_ok (memory (snd y)))).
  { if_goal; [|done]. eapply runs_bind; [by apply dev_cycle_runs|]. by intros [[b d5] r5] _ H5. }
  intros [d5 r5] _ [F5 M5]. cbn [fst snd] in F5, M5. rewrite G1, G2, G3, G4. cbn. split; [|done]. apply (flow_dev_view iv h d5); [by repeat if_goal|done].
Qed.
End DevSafe.
