(* ===== verification/CxlSys.v ===== *)
(** * The system

    [src/CXLSys.cpp] with the jump over idle time of
    [CXLHost::text_to_trace] and the loop of [src/Main.cpp]: one host with
    its direct-attached memory, a switch, and devices with their memories,
    connected by buses.  (The switch has one host; so has [main].) *)
From Stdlib Require Import ZArith Lia Bool String.
From stdpp Require Import base list gmap.
From S2P Require Import Prelude Flit CxlBuf Samples CxlBus CxlNode RamIf CxlSwitch.
From S2P Require Import Dram Sched Controller Memory RamDevice.
From S2P Require Import Ddr4 Ddr4Memory DevRam CxlDevice CxlHost HostTrace.
Import DDR4.

(** A number as an [int64_t] *)
Definition s64 (z : Z) : Z := (z + 2 ^ 63) mod 2 ^ 64 - 2 ^ 63.

(** ** The direct-attached memory *)

(** Its input buffer and the state of its memory *)
Record DirectAttached : Type := mk_DirectAttached {
  dam_buf : CXL_if_buf;
  dam_ram : RamState Command State
}.

(** [DirectAttached] as a client of its memory, with [direct_attached_req_complete]
    on acceptance and completion: [reqs_in_ramulator] has no entries, and the
    averages per table are floating-point numbers. *)
Definition dam_client : MemClient (globals * CXLHost * CXL_if_buf) := {|
  client_buf := snd;
  set_client_buf b d := (fst d, b);
  accepted clk id d := Ok d;
  completed clk r d :=
    let '(g, h, b) := d in
    let g := set_num_dam_reqs (u64 (num_dam_reqs g + 1)) (set_num_reqs_completed (u64 (num_reqs_completed g + 1)) g) in
    Ok (g, set_reqs_in_dam (delete (rq_id r) (reqs_in_dam h)) h, b)
|}.

(** ** The system *)
Record CXLSystem : Type := mk_CXLSystem {
  sys_g : globals;
  sys_host : CXLHost;
  sys_lines : list string;
  sys_dam : option DirectAttached;
  sys_devices : list (CXLDevice * RamState Command State);
  sys_switch : CXLSwitch;
  bus_to_host : CXLBus;
  bus_from_host : CXLBus;
  buses_to_device : omap CXLBus;
  buses_from_device : list CXLBus
}.
Definition with_host (g : globals) (h : CXLHost) (s : CXLSystem) : CXLSystem :=
  mk_CXLSystem g h (sys_lines s) (sys_dam s) (sys_devices s) (sys_switch s) (bus_to_host s) (bus_from_host s)
    (buses_to_device s) (buses_from_device s).
Definition with_lines (l : list string) (s : CXLSystem) : CXLSystem :=
  mk_CXLSystem (sys_g s) (sys_host s) l (sys_dam s) (sys_devices s) (sys_switch s) (bus_to_host s) (bus_from_host s)
    (buses_to_device s) (buses_from_device s).
Definition with_dam (dam : option DirectAttached) (s : CXLSystem) : CXLSystem :=
  mk_CXLSystem (sys_g s) (sys_host s) (sys_lines s) dam (sys_devices s) (sys_switch s) (bus_to_host s) (bus_from_host s)
    (buses_to_device s) (buses_from_device s).
Definition with_devices (l : list (CXLDevice * RamState Command State)) (s : CXLSystem) : CXLSystem :=
  mk_CXLSystem (sys_g s) (sys_host s) (sys_lines s) (sys_dam s) l (sys_switch s) (bus_to_host s) (bus_from_host s)
    (buses_to_device s) (buses_from_device s).
Definition with_switch (sw : CXLSwitch) (b1 b2 : CXLBus) (s : CXLSystem) : CXLSystem :=
  mk_CXLSystem (sys_g s) (sys_host s) (sys_lines s) (sys_dam s) (sys_devices s) sw b1 b2
    (buses_to_device s) (buses_from_device s).
Definition with_dev_buses (down : omap CXLBus) (up : list CXLBus) (s : CXLSystem) : CXLSystem :=
  mk_CXLSystem (sys_g s) (sys_host s) (sys_lines s) (sys_dam s) (sys_devices s) (sys_switch s) (bus_to_host s) (bus_from_host s)
    down up.

Section System.
Context `{Indet} (p : CXLParams) (std : Std Command State).

(** ** The constructor *)
Fixpoint register_all (i : Z) (ivs : list (Z * Z)) (h : CXLHost) : res CXLHost :=
  match ivs with
  | [] => Ok h
  | iv :: ivs => let! h := register_device i iv h in register_all (i + 1) ivs h
  end.
Fixpoint connect_all (i : Z) (ivs : list (Z * Z)) (sw : CXLSwitch) : res CXLSwitch :=
  match ivs with
  | [] => Ok sw
  | iv :: ivs => let! sw := connect_downstream i iv sw in connect_all (i + 1) ivs sw
  end.
(** [CXLSystem(1, intervals.size(), true, {dam_iv}, intervals, {0, ...})]
    for memories [m], with the trace [lines]; [wait] is the packer wait time
    of a device. *)
Definition CXLSystem_new (m : Mem Command State) (wait : Z) (dam_iv : Z * Z) (intervals : list (Z * Z)) (lines : list string)
    : res CXLSystem :=
  let n := Z.of_nat (length intervals) in
  let sw := CXLSwitch_new 4096 0 in
  let h := CXLHost_new 1024 2048 1 in
  let dev i := (CXLDevice_new p 1024 2048 (2 + Z.of_nat i) wait, RamState_new m) in
  let! h := register_all 0 intervals h in
  let! sw := connect_all 0 intervals (connect_upstream sw) in
  let bus i d t := CXLBus_new p 15 (n + 2 + i) d t in
  let h := set_DAM_addr (Some dam_iv) h in
  Ok (mk_CXLSystem (mk_globals 0 0 0 0 0) h lines (Some (mk_DirectAttached CXL_if_buf_new (RamState_new m)))
        (map dev (seq 0 (length intervals))) sw (bus 0 UpStream switch_host) (bus 1 DwStream host_switch)
        (map (fun i => (Z.of_nat i, bus (2 + 2 * Z.of_nat i) DwStream switch_device)) (seq 0 (length intervals)))
        (map (fun i => bus (3 + 2 * Z.of_nat i) UpStream device_switch) (seq 0 (length intervals)))).

(** The address ranges of [main]: the direct-attached memory and its one
    device *)
Definition main_dam_interval : Z * Z := (0x000000000000000, 0xaffffffffffffff).
Definition main_interval : Z * Z := (0xb00000000000000, 0xcffffffffffffff).

(** ** Memory cycles *)

(** [DAMs[0]->update()] *)
Definition dam_update (s : CXLSystem) : res CXLSystem :=
  match sys_dam s with
  | None => Ok s
  | Some dam =>
      let! (_, (g, h, b), r) := ram_update (H := dam_client) std (sys_g s, sys_host s, dam_buf dam) (dam_ram dam) in
      Ok (with_dam (Some (mk_DirectAttached b r)) (with_host g h s))
  end.
(** [ram_ptr->update()] for the memories of the devices *)
Fixpoint rams_update (tick : Z) (l : list (CXLDevice * RamState Command State))
    : res (list (CXLDevice * RamState Command State)) :=
  match l with
  | [] => Ok []
  | (d, r) :: l =>
      let! (_, d, r) := ram_update (H := dev_client tick) std d r in
      let! l := rams_update tick l in
      Ok ((d, r) :: l)
  end.

(** ** The host *)

(** The loop that makes up for the cycles of the memories, [n] being at least
    the number of its rounds *)
Fixpoint catch_up (n : nat) (i now : Z) (s : CXLSystem) : res CXLSystem :=
  match n with
  | O => Ok s
  | Datatypes.S n =>
      if i <=? now then
        let! s := if negb (i =? now)
                  then match sys_dam s with None => Abort "null DAM" | Some _ => dam_update s end
                  else Ok s in
        let! l := rams_update now (sys_devices s) in
        catch_up n (i + 6) now (with_devices l s)
      else Ok s
  end.
(** The first part of [text_to_trace]: when nothing is under way, the clock
    jumps to the time of the next message. *)
Definition skip_idle (s : CXLSystem) : res CXLSystem :=
  let h := sys_host s in
  match q_ (text_to_trace_buf h) with
  | [] => Ok s
  | (gap, _) :: _ =>
      if no_active_transaction h then
        let before := curr_tick (sys_g s) in
        let now := s64 (before + u64 (gap_ticks p gap - (before - last_text_to_trace_buf_dequeue h))) in
        let start := (Z.quot before 6 + 1) * 6 in
        catch_up (Z.to_nat (Z.quot now 6 + 1)) start now (with_host (set_curr_tick now (sys_g s)) h s)
      else Ok s
  end.
(** [CXLHost::text_to_trace] *)
Definition text_to_trace (s : CXLSystem) : res (bool * CXLSystem) :=
  let! s := skip_idle s in
  let! (full, h, b) := issue p (curr_tick (sys_g s)) (sys_host s) (dam_buf <$> sys_dam s) in
  let dam := match sys_dam s, b with Some dam, Some b => Some (mk_DirectAttached b (dam_ram dam)) | dam, _ => dam end in
  let s := with_dam dam (with_host (sys_g s) h s) in
  if full : bool then Ok (true, s)
  else
    let! (more, g, h, lines) := read_trace (sys_g s) h (sys_lines s) in
    Ok (more, with_lines lines (with_host g h s)).
(** [CXLHost::update] *)
Definition host_update (skip : bool) (s : CXLSystem) : res CXLSystem :=
  let h := sys_host s in
  let! s := if negb (is_trace_finished h) || negb (is_buf_empty (text_to_trace_buf h)) then
              let! (more, s) := text_to_trace s in
              Ok (if more : bool then s else with_host (sys_g s) (set_is_trace_finished true (sys_host s)) s)
            else Ok s in
  let! (g, h, bus) := update_flits p skip (sys_g s) (sys_host s) (bus_from_host s) in
  Ok (with_switch (sys_switch s) (bus_to_host s) bus (with_host g h s)).

(** ** A tick of the system *)

(** The buses of the host and the switch *)
Definition host_side (skip : bool) (s : CXLSystem) : res CXLSystem :=
  let tick := curr_tick (sys_g s) in
  let! (b1, rx) := bus_update p tick (bus_to_host s) (CxlHost.rx_buffer (sys_host s)) in
  let! (b2, us) := bus_update p tick (bus_from_host s) (upstream_buffer_rx (sys_switch s)) in
  let s := with_host (sys_g s) (CxlHost.set_rx_buffer rx (sys_host s)) s in
  let! (sw, down, b1) := switch_update p skip tick (set_upstream_buffer_rx us (sys_switch s)) (buses_to_device s) b1 in
  Ok (with_dev_buses down (buses_from_device s) (with_switch sw b1 b2 s)).

(** The buses of the devices, from device [i] on *)
Fixpoint device_buses (tick i : Z) (l : list (CXLDevice * RamState Command State)) (up : list CXLBus) (down : omap CXLBus) (sw : CXLSwitch)
    : res (list (CXLDevice * RamState Command State) * list CXLBus * omap CXLBus * CXLSwitch) :=
  match l, up with
  | (d, r) :: l, b2 :: up =>
      match om_get i down with
      | None => Abort "null bus"
      | Some b1 =>
          let! (b1, rx) := bus_update p tick b1 (CxlDevice.rx_buffer d) in
          let! (b2, ds) := bus_update p tick b2 (rx_buf sw i) in
          let sw := set_downstream_buffers_rx (om_set i ds (downstream_buffers_rx sw)) sw in
          let! (l, up, down, sw) := device_buses tick (i + 1) l up (om_set i b1 down) sw in
          Ok ((CxlDevice.set_rx_buffer rx d, r) :: l, b2 :: up, down, sw)
      end
  | l, up => Ok (l, up, down, sw)
  end.

(** The devices *)
Fixpoint devices_update (skip : bool) (g : globals) (l : list (CXLDevice * RamState Command State)) (up : list CXLBus)
    : res (globals * list (CXLDevice * RamState Command State) * list CXLBus) :=
  match l, up with
  | (d, r) :: l, b :: up =>
      let! (g, d, r, b) := device_update p std skip g d r b in
      let! (g, l, up) := devices_update skip g l up in
      Ok (g, (d, r) :: l, b :: up)
  | l, up => Ok (g, l, up)
  end.

(** [CXLSystem::update] *)
Definition sys_update (skip : bool) (s : CXLSystem) : res CXLSystem :=
  let! s := host_side skip s in
  let tick := curr_tick (sys_g s) in
  let! (l, up, down, sw) := device_buses tick 0 (sys_devices s) (buses_from_device s) (buses_to_device s) (sys_switch s) in
  let s := with_switch sw (bus_to_host s) (bus_from_host s) (with_dev_buses down up (with_devices l s)) in
  let! (g, l, up) := devices_update skip (sys_g s) (sys_devices s) (buses_from_device s) in
  let s := with_host g (sys_host s) (with_dev_buses (buses_to_device s) up (with_devices l s)) in
  let! s := host_update skip s in
  if Z.rem (curr_tick (sys_g s)) (delay_ramulator_update p) =? 0 then dam_update s else Ok s.

(** ** The loop of [main] *)

(** Its exit: nothing is under way and [num_reqs] requests, the newlines of
    the trace, have completed. *)
Definition run_over (num_reqs : Z) (s : CXLSystem) : bool :=
  let h := sys_host s in
  bool_decide (messages_sent_to_device h = ∅) && bool_decide (reqs_in_dam h = ∅) && (num_reqs <=? num_reqs_completed (sys_g s)).
(** A round: an update, then the clock *)
Definition main_round (skip : bool) (s : CXLSystem) : res CXLSystem :=
  let! s := sys_update skip s in
  Ok (with_host (set_curr_tick (curr_tick (sys_g s) + 1) (sys_g s)) (sys_host s) s).
(** At most [n] rounds: whether the exit was taken, the rounds in which
    nothing was under way, and the system *)
Fixpoint main_loop (skip : bool) (num_reqs : Z) (n : nat) (inactive_cycle_count : Z) (s : CXLSystem) : res (bool * Z * CXLSystem) :=
  match n with
  | O => Ok (false, inactive_cycle_count, s)
  | Datatypes.S n =>
      let! s := main_round skip s in
      let inactive_cycle_count := inactive_cycle_count + (if no_active_transaction (sys_host s) then 1 else 0) in
      if run_over num_reqs s then Ok (true, inactive_cycle_count, s) else main_loop skip num_reqs n inactive_cycle_count s
  end.
End System.
