(* ===== verification/SysRun.v ===== *)
(** * The clock of the memories in a run of the system

    The host jumps over idle time and makes up for the cycles of the
    memories; after any number of rounds of the loop of [main] every memory
    of a device has run one cycle per six ticks of simulated time. *)
From Stdlib Require Import ZArith Lia Bool String.
From stdpp Require Import base list gmap.
From S2P Require Import Prelude RamIf Dram Sched Controller Memory RamDevice RamRun Ddr4 Ddr4Memory DevRam.
From S2P Require Import Flit CxlBuf Samples CxlBus CxlNode CxlSwitch CxlDevice CxlHost HostTrace CxlSys SysFrame.
Import DDR4.

#[export] Instance dam_laws : ClientLaws (globals * CXLHost * CXL_if_buf) (H := dam_client).
Proof.
  split; cbn.
  - done.
  - by intros [[] ?].
  - by intros ? ? ? ? [= <-].
  - intros clk r [[g h] b] d' [= <-]. done.
Qed.

Section SysRun.
Context `{Indet} (p : CXLParams) (std : Std Command State).
Hypothesis six : delay_ramulator_update p = 6.
#[local] Abbreviation Dev := (CXLDevice * RamState Command State)%type.

(** A device whose memory has run [n] cycles, the end of no trace in sight *)
Definition clocked (n : Z) (x : Dev) : Prop := no_end (inp_buf (fst x)) /\ status (snd x) <> END /\ clks (snd x) = n.

Lemma ram_clocked tick n d r : clocked n (d, r) ->
  ensures (ram_update (H := dev_client tick) std d r) (fun x => clocked (n + 1) (snd (fst x), snd x)).
Proof.
  intros (H1 & H2 & H3). cbn in *. destruct (ram_update std d r) as [[[b d'] r']|] eqn:E; [|done]. cbn.
  destruct (ram_update_clks (H := dev_client tick) std _ _ _ _ _ H1 H2 E) as (G1 & G2 & G3). split; [done|]. split; [done|]. cbn. lia.
Qed.

(** A tick of a device is a cycle of its memory when it is one of six. *)
Lemma device_clocked skip g n d r bus : clocked n (d, r) ->
  ensures (device_update p std skip g d r bus) (fun x => let '(g', d', r', _) := x in same_tick g g' /\
    clocked (if Z.rem (curr_tick g) 6 =? 0 then n + 1 else n) (d', r')).
Proof.
  intros Hc. unfold device_update, CxlDevice.update. cbv zeta. rewrite six.
  eapply (ensures_bind _ _ (fun x => same_globals g (fst (snd x)) /\ same_dev d (snd (snd x)))).
  { destruct (skip && _); [done|apply dev_packer_frame]. }
  intros [b1 [g1 d1]] [T1%same_globals_tick H1]. cbn in T1, H1. set (d1' := if skip && _ then _ else d1). assert (H1' : inp_buf d1' = inp_buf d) by (unfold d1'; by destruct (skip && _)).
  clearbody d1'. clear H1. eapply (ensures_bind _ _ (fun x => same_dev d1' (snd x))).
  { destruct (skip && _); [done|apply dev_unpacker_frame]. }
  intros [b2 d2] H2. cbn in H2. set (d2' := if skip && _ then _ else d2). assert (H2' : no_end (inp_buf d2')).
  { unfold same_dev in *. unfold d2'. destruct (skip && _); cbn; rewrite H2, H1'; apply Hc. }
  clearbody d2'. clear H2. eapply (ensures_bind _ _ (fun x => no_end (inp_buf (snd x)))).
  { destruct (skip && _); [done|by apply send_frame]. }
  intros [b3 d3] H3. cbn in H3. set (d3' := if b3 then _ else _). assert (H3' : no_end (inp_buf d3')).
  { unfold d3'. destruct b3; destruct (skip && _); done. }
  clearbody d3'. clear H3. eapply (ensures_bind _ _ (fun x => same_dev d3' (fst (snd x)))).
  { destruct (skip && _); [done|apply dev_transmit_frame]. }
  intros [b4 [d4 bus4]] H4. cbn in H4. set (d4' := if skip && _ then _ else d4). assert (H4' : no_end (inp_buf d4')).
  { unfold same_dev in *. unfold d4'. destruct (skip && _); cbn; by rewrite H4. }
  clearbody d4'. clear H4.
  eapply (ensures_bind _ _ (fun x => clocked (if Z.rem (curr_tick g) 6 =? 0 then n + 1 else n) x)).
  { assert (Hc4 : clocked n (d4', r)) by (destruct Hc as (_ & ? & ?); by split). destruct (Z.rem _ 6 =? 0); [|done].
    eapply ensures_bind; [by apply ram_clocked|]. by intros [[? ?] ?]. }
  intros [d5 r5] H5. repeat (destruct (negb (skip && _ && _)); [|exact I]). cbn. split; [done|]. by destruct (_ && _).
Qed.

(** The memories of the devices in step *)
Record sys_ok (n : Z) (s : CXLSystem) : Prop := {
  sk_devs : Forall (clocked n) (sys_devices s);
  sk_len : length (buses_from_device s) = length (sys_devices s)
}.
(** What changes neither the devices nor the clock *)
Definition same_sys (s s' : CXLSystem) : Prop :=
  same_tick (sys_g s) (sys_g s') /\ sys_devices s' = sys_devices s /\ buses_from_device s' = buses_from_device s.

Lemma same_sys_ok n s s' : same_sys s s' -> sys_ok n s -> sys_ok n s'.
Proof. intros (_ & E1 & E2) [H1 H2]. split; by rewrite ?E2, E1. Qed.
Lemma same_sys_trans s1 s2 s3 : same_sys s1 s2 -> same_sys s2 s3 -> same_sys s1 s3.
Proof. unfold same_sys, same_tick. intuition congruence. Qed.

Lemma devices_clocked skip n l : Forall (clocked n) l -> forall g up, length up = length l ->
  ensures (devices_update p std skip g l up) (fun x => let '(g', l', up') := x in same_tick g g' /\
    Forall (clocked (if Z.rem (curr_tick g) 6 =? 0 then n + 1 else n)) l' /\ length up' = length l').
Proof.
  induction 1 as [|[d r] l Hd Hl IH]; intros g up Hlen; cbn [devices_update]; [by destruct up|].
  destruct up as [|b up]; [done|]. eapply ensures_bind; [by apply device_clocked|]. intros [[[g1 d1] r1] b1] [T1 H1].
  eapply ensures_bind; [apply IH; by injection Hlen|]. intros [[g2 l2] up2] (T2 & H2 & L2). cbn. unfold same_tick in *.
  split; [congruence|]. rewrite T1 in H2. split; [by constructor|]. by rewrite L2.
Qed.
Lemma rams_clocked tick n l : Forall (clocked n) l ->
  ensures (rams_update std tick l) (fun l' => Forall (clocked (n + 1)) l' /\ length l' = length l).
Proof.
  induction 1 as [|[d r] l Hd Hl IH]; cbn [rams_update]; [done|]. eapply ensures_bind; [by apply ram_clocked|].
  intros [[b d1] r1] H1. eapply ensures_bind; [exact IH|]. intros l1 [H2 L2]. cbn. split; [by constructor|]. by rewrite L2.
Qed.
Lemma device_buses_clocked tick n l : Forall (clocked n) l -> forall i up down sw, length up = length l ->
  ensures (device_buses p tick i l up down sw) (fun x => let '(l', up', _, _) := x in Forall (clocked n) l' /\ length up' = length l').
Proof.
  induction 1 as [|[d r] l Hd Hl IH]; intros i up down sw Hlen; cbn [device_buses]; [by destruct up|].
  destruct up as [|b up]; [done|]. destruct (om_get i down) as [b1|]; [|done].
  eapply ensures_bind; [apply ensures_any|]. intros [b1' rx] _. eapply ensures_bind; [apply ensures_any|]. intros [b2' ds] _.
  eapply ensures_bind; [apply IH; by injection Hlen|]. intros [[[l2 up2] down2] sw2] [H2 L2]. cbn. split; [by constructor|]. by rewrite L2.
Qed.

(** The direct-attached memory *)
Lemma complete_dam clk l : forall d, ensures (complete_all (H := dam_client) clk l d) (fun d' => same_tick (fst (fst d)) (fst (fst d'))).
Proof.
  induction l as [|r l IH]; intros d; cbn [complete_all]; [done|]. destruct d as [[g h] b]. cbn [completed dam_client bind].
  exact (IH (_, _, b)).
Qed.
Lemma dam_same s : ensures (dam_update std s) (same_sys s).
Proof.
  unfold dam_update. destruct (sys_dam s) as [dam|]; [|done]. set (d := (sys_g s, sys_host s, dam_buf dam)).
  assert (Hu : ensures (ram_update (H := dam_client) std d (dam_ram dam)) (fun x => same_tick (sys_g s) (fst (fst (snd (fst x)))))).
  { unfold ram_update. destruct (_ || _); [|done]. assert (Hf : fst (fst (fetch (H := dam_client) d (dam_ram dam))) = (sys_g s, sys_host s)).
    { unfold fetch. destruct (_ && _); [|done]. by destruct (get_dramtrace_request _ _) as [[? ?] ?]. }
    destruct (fetch d (dam_ram dam)) as [d1 r1]. cbn [fst] in Hf.
    eapply (ensures_bind _ _ (fun x => fst (fst x) = (sys_g s, sys_host s))).
    { destruct (status r1); try done. unfold offer. destruct (cur r1) as [[? ?] ?]. eapply ensures_bind; [apply ensures_any|].
      intros [ok m] _. by destruct ok. }
    intros [d2 r2] H2. eapply ensures_bind; [apply ensures_any|]. intros [m dn] _.
    eapply ensures_bind; [apply complete_dam|]. intros d3 H3. cbn in *. by rewrite H2 in H3. }
  eapply ensures_bind; [exact Hu|]. intros [[b [[g h] b']] r] T. done.
Qed.

(** ** Idle time *)

(** The loop runs one cycle for every multiple of six up to [now]; the bound
    on its rounds is not reached. *)
Lemma catch_up_clocked fuel : forall j now n s, sys_ok n s -> now / 6 - j < Z.of_nat fuel ->
  ensures (catch_up std fuel (j * 6) now s) (fun s' => same_tick (sys_g s) (sys_g s') /\ sys_ok (n + Z.max 0 (now / 6 - j + 1)) s').
Proof.
  induction fuel as [|fuel IH]; intros j now n s Hs Hf; cbn [catch_up].
  { split; [done|]. replace (Z.max 0 (now / 6 - j + 1)) with 0 by lia. by rewrite Z.add_0_r. }
  destruct (Z.leb_spec (j * 6) now) as [Hle|Hgt].
  - assert (Hj : j <= now / 6) by (apply Z.div_le_lower_bound; lia).
    eapply (ensures_bind _ _ (same_sys s)).
    { destruct (negb _); [|done]. destruct (sys_dam s); [apply dam_same|done]. }
    intros s1 H1. pose proof (same_sys_ok n s s1 H1 Hs) as [D1 L1]. eapply ensures_bind; [by apply rams_clocked|]. intros l [D2 L2].
    replace (j * 6 + 6) with ((j + 1) * 6) by lia.
    assert (Hs2 : sys_ok (n + 1) (with_devices l s1)) by (split; cbn; [done|congruence]).
    pose proof (IH (j + 1) now (n + 1) _ Hs2 ltac:(lia)) as F. destruct (catch_up std fuel _ _ _) as [s'|]; [|done]. cbn in F |- *.
    destruct F as [T F]. split; [destruct H1 as [T1 _]; unfold same_tick in *; congruence|].
    replace (n + Z.max 0 (now / 6 - j + 1)) with (n + 1 + Z.max 0 (now / 6 - (j + 1) + 1)) by lia. done.
  - assert (Hj : now / 6 < j) by (apply Z.div_lt_upper_bound; lia). split; [done|].
    replace (Z.max 0 (now / 6 - j + 1)) with 0 by lia. by rewrite Z.add_0_r.
Qed.

(** A part of a tick that may move the clock from [t] on *)
Definition advances (t n : Z) (s : CXLSystem) : Prop :=
  t <= curr_tick (sys_g s) -> sys_ok (n + (curr_tick (sys_g s) / 6 - t / 6)) s.
Lemma skip_idle_clocked n s : 0 <= curr_tick (sys_g s) -> sys_ok n s ->
  ensures (skip_idle p std s) (advances (curr_tick (sys_g s)) n).
Proof.
  intros H0 Hs. unfold skip_idle. set (t := curr_tick (sys_g s)) in *.
  assert (Hno : advances t n s) by (intros _; fold t; by rewrite Z.sub_diag, Z.add_0_r).
  destruct (q_ _) as [|[gap m] l]; [done|]. destruct (no_active_transaction _); [|done]. cbv zeta. set (now := s64 _).
  assert (Hq : Z.quot t 6 = t / 6) by (by apply Z.quot_div_nonneg). rewrite Hq.
  set (s1 := with_host _ _ s). assert (Hs1 : sys_ok n s1) by (by destruct Hs).
  destruct (Z.le_gt_cases t now) as [Hle|Hgt].
  - rewrite (Z.quot_div_nonneg now 6) by lia. pose proof (Z.div_le_mono t now 6 ltac:(lia) Hle).
    pose proof (Z.div_pos t 6 ltac:(lia) ltac:(lia)).
    pose proof (catch_up_clocked (Z.to_nat (now / 6 + 1)) (t / 6 + 1) now n s1 Hs1 ltac:(lia)) as F.
    destruct (catch_up std _ _ now s1) as [s'|]; [|done]. cbn in F |- *. destruct F as [T F]. unfold same_tick in T. cbn in T.
    intros _. rewrite T. replace (n + (now / 6 - t / 6)) with (n + Z.max 0 (now / 6 - (t / 6 + 1) + 1)) by lia. done.
  - pose proof (Z.div_le_mono now t 6 ltac:(lia) ltac:(lia)).
    assert (HT : forall k i s2, ensures (catch_up std k i now s2) (fun s' => same_tick (sys_g s2) (sys_g s'))).
    { clear. induction k as [|k IH]; intros i s2; cbn [catch_up]; [done|]. destruct (i <=? now); [|done].
      eapply (ensures_bind _ _ (same_sys s2)). { destruct (negb _); [|done]. destruct (sys_dam s2); [apply dam_same|done]. }
      intros s3 [T3 _]. eapply ensures_bind; [apply ensures_any|]. intros l _. specialize (IH (i + 6) (with_devices l s3)).
      destruct (catch_up std k _ _ _); [|done]. cbn in *. unfold same_tick in *. cbn in *. congruence. }
    specialize (HT (Z.to_nat (Z.quot now 6 + 1)) ((t / 6 + 1) * 6) s1).
    destruct (catch_up std _ _ now s1) as [s'|]; [|done]. cbn in HT |- *. unfold same_tick in HT. cbn in HT. intros Hle. lia.
Qed.
Lemma advances_same t n s s' : same_sys s s' -> advances t n s -> advances t n s'.
Proof. intros H1 H2 Hle. pose proof H1 as [T _]. unfold same_tick in T. rewrite T in *. by eapply same_sys_ok, H2. Qed.

Lemma read_trace_tick g h lines : ensures (read_trace g h lines) (fun x => same_tick g (snd (fst (fst x)))).
Proof.
  unfold read_trace. destruct (is_buf_full _); [done|]. destruct lines as [|l lines]; [done|].
  eapply ensures_bind; [apply ensures_any|]. intros [[a o] gap] _. destruct (message_new _ _ _) as [m k].
  eapply ensures_bind; [apply ensures_any|]. intros b _. done.
Qed.
Lemma text_to_trace_clocked n s : 0 <= curr_tick (sys_g s) -> sys_ok n s ->
  ensures (text_to_trace p std s) (fun x => advances (curr_tick (sys_g s)) n (snd x)).
Proof.
  intros H0 Hs. unfold text_to_trace. eapply ensures_bind; [by apply skip_idle_clocked|]. intros s1 H1.
  eapply ensures_bind; [apply ensures_any|]. intros [[full h] b] _. cbv zeta. set (s2 := with_dam _ _).
  assert (H2 : advances (curr_tick (sys_g s)) n s2) by (by eapply advances_same; [|exact H1]).
  destruct full; [done|]. eapply ensures_bind; [apply read_trace_tick|]. intros [[[more g] h'] lines] T. cbn in T |- *.
  eapply advances_same; [|exact H2]. by split.
Qed.
Lemma host_clocked skip n s : 0 <= curr_tick (sys_g s) -> sys_ok n s ->
  ensures (host_update p std skip s) (advances (curr_tick (sys_g s)) n).
Proof.
  intros H0 Hs. unfold host_update. eapply (ensures_bind _ _ (advances (curr_tick (sys_g s)) n)).
  - destruct (_ || _); [|intros _; cbn; by rewrite Z.sub_diag, Z.add_0_r].
    eapply ensures_bind; [by apply text_to_trace_clocked|]. intros [more s1] H1. cbn in H1. destruct more; [done|].
    by eapply advances_same; [|exact H1].
  - intros s1 H1. eapply ensures_bind; [apply update_flits_tick|]. intros [[g h] bus] T. cbn in T |- *.
    eapply advances_same; [|exact H1]. by split.
Qed.

(** ** A tick of the system, and the loop *)

(** The number of multiples of six below [t] *)
Definition cycles (t : Z) : Z := (t + 5) / 6.

Lemma cycles_step t : 0 <= t -> (if Z.rem t 6 =? 0 then cycles t + 1 else cycles t) = t / 6 + 1.
Proof.
  intros Ht. unfold cycles. rewrite Z.rem_mod_nonneg by lia. pose proof (Z.div_mod t 6 ltac:(lia)). pose proof (Z.mod_pos_bound t 6 ltac:(lia)).
  destruct (Z.eqb_spec (t mod 6) 0) as [E|E].
  - replace ((t + 5) / 6) with (t / 6); [lia|]. apply Z.div_unique with 5; lia.
  - symmetry. apply Z.div_unique with (t mod 6 - 1); lia.
Qed.
Lemma cycles_next t : cycles (t + 1) = t / 6 + 1.
Proof. unfold cycles. replace (t + 1 + 5) with (t + 1 * 6) by lia. rewrite Z.div_add by lia. done. Qed.

Lemma host_side_same skip s : ensures (host_side p skip s) (same_sys s).
Proof.
  unfold host_side. eapply ensures_bind; [apply ensures_any|]. intros [b1 rx] _. eapply ensures_bind; [apply ensures_any|].
  intros [b2 us] _. eapply ensures_bind; [apply ensures_any|]. intros [[sw down] b3] _. done.
Qed.
Lemma sys_clocked skip s : 0 <= curr_tick (sys_g s) -> sys_ok (cycles (curr_tick (sys_g s))) s ->
  ensures (sys_update p std skip s) (fun s' => curr_tick (sys_g s) <= curr_tick (sys_g s') -> sys_ok (cycles (curr_tick (sys_g s') + 1)) s').
Proof.
  intros H0 Hs. set (t := curr_tick (sys_g s)) in *. unfold sys_update.
  eapply ensures_bind; [apply host_side_same|]. intros s1 H1. pose proof (same_sys_ok _ _ _ H1 Hs) as [D1 L1].
  destruct H1 as [T1 _]. eapply ensures_bind; [by apply device_buses_clocked|]. intros [[[l up] down] sw] [D2 L2].
  cbv zeta. cbn [sys_g sys_devices buses_from_device with_switch with_dev_buses with_devices].
  eapply ensures_bind; [by apply devices_clocked|]. intros [[g l3] up3] (T3 & D3 & L3). rewrite T1 in D3. fold t in D3. rewrite cycles_step in D3 by done.
  set (s4 := with_host g _ _). assert (T4 : curr_tick (sys_g s4) = t) by (cbn; unfold same_tick in *; rewrite T3; exact T1).
  assert (H4 : sys_ok (t / 6 + 1) s4) by (by split). clearbody s4.
  eapply ensures_bind; [apply host_clocked; [by rewrite T4|exact H4]|]. intros s5 H5. rewrite T4 in H5.
  assert (Hfin : t <= curr_tick (sys_g s5) -> sys_ok (cycles (curr_tick (sys_g s5) + 1)) s5).
  { intros Hle. rewrite cycles_next. specialize (H5 Hle). by replace (curr_tick (sys_g s5) / 6 + 1) with
      (t / 6 + 1 + (curr_tick (sys_g s5) / 6 - t / 6)) by lia. }
  destruct (_ =? 0); [|exact Hfin]. pose proof (dam_same s5) as Hd. destruct (dam_update std s5) as [s6|]; [|done]. cbn in Hd |- *.
  pose proof Hd as [T6 _]. unfold same_tick in T6. rewrite T6. intros Hle. eapply same_sys_ok; [exact Hd|auto].
Qed.

Lemma round_clocked skip s : 0 <= curr_tick (sys_g s) -> sys_ok (cycles (curr_tick (sys_g s))) s ->
  ensures (main_round p std skip s) (fun s' => curr_tick (sys_g s) < curr_tick (sys_g s') -> sys_ok (cycles (curr_tick (sys_g s'))) s').
Proof.
  intros H0 Hs. unfold main_round. eapply ensures_bind; [by apply sys_clocked|]. intros s1 H1 Hlt. cbn in Hlt |- *.
  destruct (H1 ltac:(lia)) as [A B]. by split.
Qed.

(** Time goes forward in every round: no jump over idle time goes back. *)
Fixpoint time_forward (skip : bool) (num_reqs : Z) (n : nat) (s : CXLSystem) : bool :=
  match n with
  | O => true
  | Datatypes.S n =>
      match main_round p std skip s with
      | Ok s' => (curr_tick (sys_g s) <? curr_tick (sys_g s')) && (run_over num_reqs s' || time_forward skip num_reqs n s')
      | Abort _ => true
      end
  end.

Lemma loop_clocked skip num n : forall k s, time_forward skip num n s = true -> 0 <= curr_tick (sys_g s) ->
  sys_ok (cycles (curr_tick (sys_g s))) s ->
  ensures (main_loop p std skip num n k s) (fun x => sys_ok (cycles (curr_tick (sys_g (snd x)))) (snd x)).
Proof.
  induction n as [|n IH]; intros k s; cbn [main_loop time_forward]; [done|]. intros Hf H0 Hs.
  pose proof (round_clocked skip s H0 Hs) as H1. destruct (main_round p std skip s) as [s'|]; [|done]. cbn in H1 |- *.
  apply andb_true_iff in Hf as [Hlt Hf]. apply Z.ltb_lt in Hlt. specialize (H1 Hlt).
  destruct (run_over num s'); [done|]. apply IH; [done|lia|done].
Qed.

Lemma new_clocked m wait iv ivs lines : ensures (CXLSystem_new p m wait iv ivs lines) (fun s => curr_tick (sys_g s) = 0 /\ sys_ok 0 s).
Proof.
  unfold CXLSystem_new. eapply ensures_bind; [apply ensures_any|]. intros h _. eapply ensures_bind; [apply ensures_any|].
  intros sw _. cbn. split; [done|]. split; cbn [sys_devices buses_from_device]; [|by rewrite !length_map].
  apply Forall_map, Forall_forall. intros i _. split; [apply Forall_nil_2|by split].
Qed.

(** C6: the memories keep time.  After any number of rounds of the loop of
    [main] in which the clock does not go back, whatever the trace, the
    addresses, the memories and the jumps over idle time were, the memory of
    every device has run exactly one cycle per multiple of six that the
    simulated time has passed: the cycles that a jump leaves out are all made
    up for, and none is run twice. *)
Theorem memory_clock_exact m wait iv ivs lines skip num n s0 over idle s :
  CXLSystem_new p m wait iv ivs lines = Ok s0 ->
  time_forward skip num n s0 = true ->
  main_loop p std skip num n 0 s0 = Ok (over, idle, s) ->
  Forall (fun x => clks (snd x) = (curr_tick (sys_g s) + 5) / 6) (sys_devices s).
Proof.
  intros Hn Hf Hl. pose proof (new_clocked m wait iv ivs lines) as N. rewrite Hn in N. destruct N as [T0 H0].
  pose proof (loop_clocked skip num n 0 s0 Hf) as L. rewrite Hl, T0 in L. destruct (L ltac:(lia) H0) as [D _].
  eapply Forall_impl; [exact D|]. by intros x (_ & _ & ?).
Qed.
End SysRun.
