(* ===== verification/SysFlow.v ===== *)
(** * Every request completes once

    The invariant of a run of the system with one device: every message read
    from the trace is in exactly one place, and the credits of the flow
    control are conserved. *)
From Stdlib Require Import ZArith Lia Bool String.
From stdpp Require Import base list list_numbers gmap.
From S2P Require Import Prelude RamIf Dram Sched Controller CtrlRun Memory MemRun RamDevice RamRun Ddr4 Ddr4Memory DevRam.
From S2P Require Import Flit CxlBuf Samples CxlBus Packing Link CxlNode CxlDevice DevPack DevRun CxlSwitch SwitchRun Wire DevHeaders.
From S2P Require Import CxlHost HostPack HostRun HostTrace SysFrame Flow HostFlow DevFlow CxlSys SysRun.
Import DDR4.

(** ** The direct-attached memory *)

(** The messages that the host has given to it *)
Definition dam_ids (h : CXLHost) : list Z := map fst (map_to_list (reqs_in_dam h)).
(** And those it has *)
Definition dam_held (dam : DirectAttached) : list Z := map fst (held (dam_ram dam) ++ buf_tags (dam_buf dam) ++ mem_tags (dam_ram dam)).
Record dam_ok (h : CXLHost) (dam : DirectAttached) : Prop := {
  da_buf : valid_buf (dam_buf dam);
  da_ram : ram_ok (dam_ram dam);
  da_ids : dam_ids h ≡ₚ dam_held dam
}.

Lemma dam_ids_delete h k l : dam_ids h ≡ₚ k :: l -> dam_ids (set_reqs_in_dam (delete k (reqs_in_dam h)) h) ≡ₚ l.
Proof.
  intros E. assert (Hk : k ∈ dam_ids h) by (rewrite E; apply list_elem_of_here). unfold dam_ids in *. apply list_elem_of_fmap in Hk as ([k' x] & -> & Hk).
  apply elem_of_map_to_list in Hk. rewrite <- (map_to_list_delete (reqs_in_dam h) _ x Hk) in E. cbn in E. by apply Permutation_cons_inv in E.
Qed.
Lemma dam_complete clk dn : forall g h b rest x, dam_ids h ≡ₚ map rq_id dn ++ rest -> complete_all (H := dam_client) clk dn (g, h, b) = Ok x ->
  exists g' m, x = (g', set_reqs_in_dam m h, b) /\ dam_ids (set_reqs_in_dam m h) ≡ₚ rest /\ counted (len dn) g g'.
Proof.
  induction dn as [|r dn IH]; intros g h b rest x Hp E.
  { injection E as <-. exists g, (reqs_in_dam h). split; [by destruct h|]. split; [exact Hp|]. apply counted_0. }
  cbn [complete_all completed dam_client bind] in E. cbn [map app] in Hp. apply dam_ids_delete in Hp.
  destruct (IH _ _ _ _ _ Hp E) as (g' & m & -> & Hr & Hc). exists g', m. split; [done|]. split; [exact Hr|].
  replace (len (r :: dn)) with (1 + len dn) by (unfold len; cbn [length]; lia). eapply counted_trans; [|exact Hc]. by apply counted_step.
Qed.
Lemma dam_cycle_flow std g h dam b g' h' b' r' : dam_ok h dam -> ram_update (H := dam_client) std (g, h, dam_buf dam) (dam_ram dam) = Ok (b, (g', h', b'), r') ->
  dam_ok h' (mk_DirectAttached b' r') /\ exists l, (exists m, h' = set_reqs_in_dam m h) /\ dam_ids h ≡ₚ l ++ dam_ids h' /\ counted (len l) g g'.
Proof.
  intros [H1 H2 H3] E. rewrite (ram_update_eq (H := dam_client) std (g, h, dam_buf dam) (dam_ram dam) H1 H2) in E. apply bind_ok_inv in E as ([[d1 s1] dn] & Ec & E). apply bind_ok_inv in E as (d2 & Ed & E).
  injection E as _ -> <-. destruct (cycle_ok (H := dam_client) std (g, h, dam_buf dam) (dam_ram dam) d1 s1 dn H1 H2 Ec) as (acc & [U1 U2 U3 U4 U5 [U6 _]]).
  assert (Hd1 : d1 = (g, h, client_buf (MemClient := dam_client) d1)).
  { destruct U3 as [[_ Hd]|(x & _ & Hd)]; [exact Hd|]. cbn in Hd. by injection Hd as <-. }
  rewrite Hd1 in Ed. set (b1 := client_buf (MemClient := dam_client) d1) in *. assert (Hi : dam_ids h ≡ₚ map rq_id dn ++ dam_held (mk_DirectAttached b1 s1)).
  { rewrite H3. unfold dam_held. cbn [dam_buf dam_ram]. apply (f_equal (map fst)) in U1. apply (Permutation_map fst) in U2.
    rewrite !map_app in *. rewrite map_map in U2. change (fun x => fst (req_tag x)) with rq_id in U2. apply perm_eq in U1. cbn [client_buf dam_client snd] in U1. change (snd d1) with b1 in U1. clearbody b1. clear -U1 U2.
    perm_lia. }
  destruct (dam_complete _ _ _ _ _ _ _ Hi Ed) as (g2 & m & E2 & Hr & Hc). injection E2 as -> -> ->. split; [by split|].
  exists (map rq_id dn). split; [by eexists|]. split; [by rewrite Hi, Hr|]. unfold len in *. by rewrite length_map.
Qed.

(** ** The books of a run *)
Definition in_range (iv : Z * Z) (a : Z) : bool := (fst iv <=? a) && (a <? snd iv).
Definition text_ids (h : CXLHost) : list Z := map (fun x => msg_id (snd x)) (q_ (text_to_trace_buf h)).

Lemma in_range_iv iv a : in_range iv a = true -> in_iv iv a.
Proof. unfold in_range, in_iv. destruct iv as [lo hi]. cbn. rewrite andb_comm. by intros ->. Qed.

Section Run.
Context `{Indet} (p : CXLParams) (std : Std Command State) (dam_iv iv : Z * Z) (lines0 : list string).
#[local] Abbreviation flow := (flow (C := Command) (S := State) iv).
Implicit Types (h : CXLHost) (d : CXLDevice) (dn un : list flit).

(** An address of the direct-attached memory or of the device *)
Definition routed (a : Z) : bool := in_range dam_iv a || in_range iv a.
Definition line_routed (s : string) : bool := match parse_line s with Ok (a, _, _) => routed a | Abort _ => true end.

(** Messages are numbered from 0 on in the order of the trace; [fin] are
    those that have completed. *)
Record ledger (g : globals) (h : CXLHost) (lines : list string) (dam : DirectAttached) (fin : list Z) : Prop := {
  lg_dam : dam_ok h dam;
  lg_range : DAM_addr h = Some dam_iv;
  lg_text : Forall (fun x => (opCode (snd x) = Req \/ opCode (snd x) = RwD) /\ routed (address (snd x)) = true) (q_ (text_to_trace_buf h));
  lg_lines : Forall (fun s => line_routed s = true) lines;
  lg_read : 0 <= msg_count g /\ msg_count g + len lines = len lines0;
  lg_ids : seqZ 0 (msg_count g) ≡ₚ text_ids h ++ sent_ids h ++ dam_ids h ++ fin;
  lg_done : num_reqs_completed g = u64 (len fin)
}.

Lemma ledger_nodup g h lines dam fin : ledger g h lines dam fin -> NoDup (text_ids h ++ sent_ids h ++ dam_ids h ++ fin).
Proof. intros L. rewrite <- (lg_ids _ _ _ _ _ L). apply NoDup_seqZ. Qed.

Lemma ledger_retires g g' h h' lines dam fin l : ledger g h lines dam fin -> retires h h' l -> counted (len l) g g' ->
  ledger g' h' lines dam (l ++ fin).
Proof.
  intros [L1 L2 L3 L4 L5 L6 L7] (R1 & R2 & R3 & R4) [C1 C2]. split; rewrite ?C1, ?R2, ?R4; try done.
  - destruct L1 as [A1 A2 A3]. split; try done. unfold dam_ids in *. by rewrite R3.
  - rewrite L6. unfold text_ids, dam_ids. rewrite R2, R3. clear -R1. perm_lia.
  - rewrite (C2 _ L7). rewrite len_app. f_equal. lia.
Qed.
Lemma ledger_same g g' h h' lines dam fin : ledger g h lines dam fin -> host_books h' = host_books h -> counted 0 g g' -> ledger g' h' lines dam fin.
Proof. intros L Hb Hc. exact (ledger_retires g g' h h' lines dam fin [] L (books_retires _ _ Hb) Hc). Qed.
Lemma ledger_dam g h lines dam fin b g' h' b' r' : ledger g h lines dam fin ->
  ram_update (H := dam_client) std (g, h, dam_buf dam) (dam_ram dam) = Ok (b, (g', h', b'), r') ->
  host_view h' = host_view h /\ exists l, ledger g' h' lines (mk_DirectAttached b' r') (l ++ fin).
Proof.
  intros L E. destruct L as [L1 L2 L3 L4 L5 L6 L7]. destruct (dam_cycle_flow std g h dam b g' h' b' r' L1 E) as (D & l & (m & ->) & Hi & C1 & C2).
  split; [done|]. exists l. split; rewrite ?C1; try done.
  - rewrite L6. change (text_ids (set_reqs_in_dam m h)) with (text_ids h). change (sent_ids (set_reqs_in_dam m h)) with (sent_ids h). clear -Hi. perm_lia.
  - rewrite (C2 _ L7). rewrite len_app. f_equal. lia.
Qed.

(** Reading a line *)
Lemma ledger_read g h lines dam fin more g' h' lines' : len lines0 < 2 ^ 64 -> ledger g h lines dam fin ->
  read_trace g h lines = Ok (more, g', h', lines') -> ledger g' h' lines' dam fin /\ host_view h' = host_view h.
Proof.
  intros Hn L E. unfold read_trace in E. destruct (is_buf_full _); [by injection E as <- <- <- <-|]. destruct lines as [|s lines]; [by injection E as <- <- <- <-|].
  apply bind_ok_inv in E as ([[a oc] gap] & Ep & E). unfold message_new in E. apply bind_ok_inv in E as (b & Eb & E). injection E as <- <- <- <-.
  apply enqueue_inv in Eb as (_ & Hb & _). destruct L as [L1 L2 L3 L4 [L5 L5'] L6 L7]. apply Forall_cons in L4 as [Ls L4]. unfold line_routed in Ls. rewrite Ep in Ls.
  assert (Hoc : oc = Req \/ oc = RwD).
  { unfold parse_line in Ep. destruct (HostTrace.split _ _) as [|w0 [|w1 [|w2 []]]]; try done. apply bind_ok_inv in Ep as (? & _ & Ep).
    apply bind_ok_inv in Ep as (o & Eo & Ep). apply bind_ok_inv in Ep as (? & _ & Ep). injection Ep as _ <- _.
    destruct (String.eqb w1 "R"); [injection Eo as <-; by left|]. destruct (String.eqb w1 "W"); [injection Eo as <-; by right|done]. }
  assert (Hl : len (s :: lines) = 1 + len lines) by (unfold len; cbn [length]; lia). pose proof (len_nonneg lines) as Hl0.
  assert (Hc : u64 (msg_count g + 1) = msg_count g + 1) by (apply u64_small; lia). split; [|done]. split; try done.
  - by destruct L1.
  - cbn. rewrite Hb. apply Forall_app. split; [done|]. by apply Forall_singleton.
  - cbn. rewrite Hc. lia.
  - cbn. rewrite Hc, seqZ_app, L6 by lia. change (seqZ (0 + msg_count g) 1) with [0 + msg_count g]. unfold text_ids. cbn [text_to_trace_buf set_text_to_trace_buf]. rewrite Hb, map_app.
    change (sent_ids (set_text_to_trace_buf b h)) with (sent_ids h). change (dam_ids (set_text_to_trace_buf b h)) with (dam_ids h). cbn. rewrite Z.add_0_l. clear. perm_lia.
Qed.

(** Issuing the oldest message that was read *)
Lemma ledger_pop h x t l : q_ (text_to_trace_buf h) = (x, t) :: l -> text_ids h = [msg_id t] ++ map (fun x => msg_id (snd x)) l.
Proof. intros E. unfold text_ids. by rewrite E. Qed.
Lemma ledger_dam_add g h lines dam fin x t l tick h' b : ledger g h lines dam fin -> q_ (text_to_trace_buf h) = (x, t) :: l ->
  issue_dam tick t h (dam_buf dam) = Ok (h', b) -> ledger g h' lines (mk_DirectAttached b (dam_ram dam)) fin /\ host_view h' = host_view h.
Proof.
  intros L Hq E. pose proof (ledger_nodup _ _ _ _ _ L) as Nd. destruct L as [L1 L2 L3 L4 L5 L6 L7]. unfold issue_dam in E.
  destruct (isFull _); [injection E as <- <-; by destruct dam|]. apply bind_ok_inv in E as (req & Er & E). apply bind_ok_inv in E as (b1 & Eb & E).
  apply bind_ok_inv in E as (q & Eq & E). injection E as <- <-. split; [|done]. apply dequeue_inv in Eq as (y & Eq & _). cbn in Eq. rewrite Hq in Eq. injection Eq as <- ->.
  assert (Hr : rr_id req = msg_id t /\ valid_req req). { unfold message2ramulator_req in Er. destruct (opCode t); try discriminate; by injection Er as <-. } destruct Hr as [Hr Hv].
  rewrite (ledger_pop _ _ _ _ Hq) in *. destruct (reqs_in_dam h !! rr_id req) as [z|] eqn:Ez.
  { exfalso. cbn in Nd. apply NoDup_cons in Nd as [Nd _]. apply Nd. rewrite !elem_of_app. right. right. left. unfold dam_ids. rewrite <- Hr.
    apply list_elem_of_fmap. exists (rr_id req, z). split; [done|]. by apply elem_of_map_to_list. }
  unfold buf_add in Eb. destruct (negb _); [|done]. injection Eb as <-. rewrite Hq in L3. apply Forall_cons in L3 as [_ L3].
  set (h' := set_text_to_trace_buf _ _). assert (Hi : dam_ids h' ≡ₚ [msg_id t] ++ dam_ids h).
  { unfold dam_ids, h'. cbn. rewrite map_to_list_insert by done. cbn. by rewrite Hr. }
  split; try done.
  - destruct L1 as [A1 A2 A3]. split; [by apply Forall_app_2; [|apply Forall_singleton]|done|]. rewrite Hi, A3. unfold dam_held, buf_tags. cbn [dam_buf dam_ram if_buf].
    rewrite !map_app. cbn [map fst]. rewrite Hr. clear. perm_lia.
  - rewrite L6. unfold text_ids. change (q_ (text_to_trace_buf h')) with (q_ q). change (sent_ids h') with (sent_ids h). clear -Hi. perm_lia.
Qed.

Lemma ledger_issue g h lines dam fin d r dn un tick full h' b : ledger g h lines dam fin -> flow h d r dn un ->
  issue p tick h (Some (dam_buf dam)) = Ok (full, h', b) ->
  exists b', b = Some b' /\ ledger g h' lines (mk_DirectAttached b' (dam_ram dam)) fin /\ flow h' d r dn un.
Proof.
  intros L F E. unfold issue in E. assert (Hsame : mk_DirectAttached (dam_buf dam) (dam_ram dam) = dam) by (by destruct dam).
  destruct (q_ (text_to_trace_buf h)) as [|[x t] l] eqn:Hq; [injection E as _ <- <-; exists (dam_buf dam); by rewrite Hsame|].
  if_in E; [injection E as _ <- <-; exists (dam_buf dam); by rewrite Hsame|]. cbv zeta in E. set (h1 := set_last_text_to_trace_buf_dequeue tick h) in *.
  assert (L1 : ledger g h1 lines dam fin) by (by eapply ledger_same; [exact L| |apply counted_0]).
  assert (F1 : flow h1 d r dn un) by (by apply (flow_host_view iv h)). assert (Hq1 : q_ (text_to_trace_buf h1) = (x, t) :: l) by exact Hq.
  clearbody h1. clear L F Hq h. destruct (to_dam t h1 (Some (dam_buf dam))) eqn:Ht.
  { apply bind_ok_inv in E as ([h2 b2] & E2 & E). injection E as _ <- <-. destruct (ledger_dam_add _ _ _ _ _ _ _ _ _ _ _ L1 Hq1 E2) as [L2 V2].
    exists b2. split; [done|]. split; [done|]. by apply (flow_host_view iv h1). }
  apply bind_ok_inv in E as ([fl h2] & E2 & E). injection E as <- <- <-. exists (dam_buf dam). split; [done|]. rewrite Hsame.
  pose proof (ledger_nodup _ _ _ _ _ L1) as Nd. pose proof L1 as [A1 A2 A3 A4 A5 A6 A7]. rewrite Hq1 in A3. apply Forall_cons in A3 as [[Hoc Hrt] A3]. cbn [snd] in *.
  rewrite (ledger_pop _ _ _ _ Hq1) in Nd, A6. destruct (issue_vc_flow iv tick x t l h1 d r dn un fl h2 F1 Hq1 Hoc) as [F2 K]; [| |exact E2|].
  { apply in_range_iv. unfold to_dam in Ht. rewrite A2 in Ht. unfold routed, in_range in *. destruct dam_iv. cbn in *. by rewrite Ht in Hrt. }
  { apply eq_None_not_Some. intros [z Hz]. cbn in Nd. apply NoDup_cons in Nd as [Nd _]. apply Nd. rewrite !elem_of_app. right. left. unfold sent_ids.
    apply list_elem_of_fmap. exists (msg_id t, z). split; [done|]. by apply elem_of_map_to_list. }
  split; [|exact F2]. destruct K as [->|(K1 & K2 & K3 & K4)]; [exact L1|].
  split; rewrite ?K1, ?K4; try done.
  - destruct A1 as [B1 B2 B3]. split; try done. unfold dam_ids in *. by rewrite K3.
  - rewrite A6. unfold text_ids, dam_ids. rewrite K1, K3. change (msg_id t :: ?k) with ([msg_id t] ++ k) in K2.
    clear -K2. perm_lia.
Qed.

(** ** The wires of the system *)
Definition sys_dn s (b1 : CXLBus) : list flit := flit_slots b1 ++ sw_down (sys_switch s) ++ flit_slots (bus_from_host s).
Definition sys_un s (b2 : CXLBus) : list flit := flit_slots (bus_to_host s) ++ sw_up (sys_switch s) ++ flit_slots b2.
Record wired (s : CXLSystem) d (r : RamState Command State) (b1 b2 : CXLBus) : Prop := {
  wi_devices : sys_devices s = [(d, r)];
  wi_down : buses_to_device s = [(0, b1)];
  wi_up : buses_from_device s = [b2];
  wi_port : one_port (sys_switch s);
  wi_flow : flow (sys_host s) d r (sys_dn s b1) (sys_un s b2)
}.

Lemma set_rx_same d : CxlDevice.set_rx_buffer (drx d) d = d.
Proof. by destruct d. Qed.
Lemma set_hrx_same h : CxlHost.set_rx_buffer (hrx h) h = h.
Proof. by destruct h. Qed.

(** Only the host changes. *)
Definition new_host (h : CXLHost) (s s' : CXLSystem) : Prop :=
  sys_host s' = h /\ sys_devices s' = sys_devices s /\ buses_to_device s' = buses_to_device s /\ buses_from_device s' = buses_from_device s /\
  sys_switch s' = sys_switch s /\ bus_to_host s' = bus_to_host s /\ bus_from_host s' = bus_from_host s.
Lemma wired_host h s s' d r b1 b2 : wired s d r b1 b2 -> new_host h s s' -> flow h d r (sys_dn s b1) (sys_un s b2) -> wired s' d r b1 b2.
Proof.
  intros [W1 W2 W3 W4 W5] (N1 & N2 & N3 & N4 & N5 & N6 & N7) F. split; unfold sys_dn, sys_un; by rewrite ?N1, ?N2, ?N3, ?N4, ?N5, ?N6, ?N7.
Qed.

Lemma host_side_wired skip s d r b1 b2 s' : wired s d r b1 b2 -> host_side p skip s = Ok s' ->
  (exists b1', wired s' d r b1' b2) /\ host_books (sys_host s') = host_books (sys_host s) /\
  sys_g s' = sys_g s /\ sys_dam s' = sys_dam s /\ sys_lines s' = sys_lines s.
Proof.
  intros [W1 W2 W3 W4 W5] E. unfold host_side in E. apply bind_ok_inv in E as ([bh rx] & Eh & E). apply bind_ok_inv in E as ([bf us] & Ef & E).
  apply bind_ok_inv in E as ([[sw down] bh2] & Es & E). injection E as <-. apply bus_wire in Eh as [Wh Zh], Ef as [Wf _]. cbn [buses_to_device sys_switch with_host] in Es. rewrite W2 in Es.
  apply switch_wire in Es as (b1' & -> & O1 & Wd & Wu); [|by destruct W4]. split; [|done]. exists b1'. split; try done.
  cbn [sys_host with_dev_buses with_switch with_host]. rewrite <- (set_rx_same d). eapply wire_flow; [| |done|exact Zh|exact W5].
  - apply wire_app; [done|]. unfold sys_dn. cbn [sys_switch bus_from_host with_dev_buses with_switch]. rewrite !app_assoc. eapply wire_trans; [|apply wire_app; [exact Wd|apply same_wire_refl]].
    rewrite <- !app_assoc. apply wire_app; [done|]. unfold sw_down, tx_buf. cbn [downstream_buffers_tx ARB_NOC_h2d upstream_buffer_rx set_upstream_buffer_rx].
    rewrite <- !app_assoc. by do 2 (apply wire_app; [done|]).
  - unfold sys_un. cbn [sys_switch bus_to_host with_dev_buses with_switch]. rewrite !app_assoc. apply wire_app; [|done].
    eapply wire_trans; [apply wire_app; [exact Wh|apply same_wire_refl]|]. rewrite <- !app_assoc. by apply wire_app.
Qed.

Lemma device_buses_wired s d r b1 b2 tick l up down sw : wired s d r b1 b2 ->
  device_buses p tick 0 (sys_devices s) (buses_from_device s) (buses_to_device s) (sys_switch s) = Ok (l, up, down, sw) ->
  exists d' b1' b2', wired (with_switch sw (bus_to_host s) (bus_from_host s) (with_dev_buses down up (with_devices l s))) d' r b1' b2'.
Proof.
  intros [W1 W2 W3 W4 W5] E. rewrite W1, W2, W3 in E. cbn [device_buses om_get Z.eqb] in E. apply bind_ok_inv in E as ([b1' rx] & E1 & E).
  apply bind_ok_inv in E as ([b2' ds] & E2 & E). cbn [bind] in E. injection E as <- <- <- <-. apply bus_wire in E1 as [Wd Zd], E2 as [Wu _].
  exists (CxlDevice.set_rx_buffer rx d), b1', b2'. split; try done; [by destruct W4|]. cbn [sys_host with_switch with_dev_buses with_devices]. rewrite <- (set_hrx_same (sys_host s)).
  eapply wire_flow; [| |exact Zd|done|exact W5].
  - unfold sys_dn. cbn [sys_switch bus_from_host with_switch]. rewrite !(app_assoc (q_ _)). by apply wire_app.
  - apply wire_app; [done|]. unfold sys_un. cbn [sys_switch bus_to_host with_switch]. apply wire_app; [done|]. unfold sw_up. rewrite <- !app_assoc.
    do 2 (apply wire_app; [done|]). unfold rx_buf at 2. cbn [downstream_buffers_rx set_downstream_buffers_rx]. by rewrite om_get_set, decide_True by done.
Qed.

Lemma devices_wired skip s d r b1 b2 g l up : wired s d r b1 b2 ->
  devices_update p std skip (sys_g s) (sys_devices s) (buses_from_device s) = Ok (g, l, up) ->
  (exists d' r' b2', wired (with_host g (sys_host s) (with_dev_buses (buses_to_device s) up (with_devices l s))) d' r' b1 b2') /\ counted 0 (sys_g s) g.
Proof.
  intros [W1 W2 W3 W4 W5] E. rewrite W1, W3 in E. cbn [devices_update] in E. apply bind_ok_inv in E as ([[[g1 d1] r1] b] & E1 & E).
  injection E as <- <- <-. unfold sys_un in W5. rewrite app_assoc in W5. destruct (dev_update_flow p iv std skip _ _ _ _ _ _ _ _ _ _ _ W5 E1) as [F C].
  split; [|done]. exists d1, r1, b. split; try done. unfold sys_un. by rewrite app_assoc.
Qed.
Lemma rams_wired tick s d r b1 b2 l : wired s d r b1 b2 -> rams_update std tick (sys_devices s) = Ok l ->
  exists d' r', wired (with_devices l s) d' r' b1 b2.
Proof.
  intros [W1 W2 W3 W4 W5] E. rewrite W1 in E. cbn [rams_update] in E. apply bind_ok_inv in E as ([[b d'] r'] & E1 & E). injection E as <-.
  exists d', r'. split; try done. by eapply dev_cycle_flow.
Qed.

(** ** The invariant of a run *)
Record sys_inv s : Prop := {
  sy_wires : exists d r b1 b2, wired s d r b1 b2;
  sy_ledger : exists dam fin, sys_dam s = Some dam /\ ledger (sys_g s) (sys_host s) (sys_lines s) dam fin
}.

Lemma dam_update_inv s s' : sys_inv s -> dam_update std s = Ok s' -> sys_inv s'.
Proof.
  intros [(d & r & b1 & b2 & W) (dam & fin & Hd & L)] E. unfold dam_update in E. rewrite Hd in E.
  apply bind_ok_inv in E as ([[b [[g h] b']] r'] & E1 & E). injection E as <-. destruct (ledger_dam _ _ _ _ _ _ _ _ _ _ L E1) as (V & l & L').
  split; [|by exists (mk_DirectAttached b' r'), (l ++ fin)]. exists d, r, b1, b2. apply (wired_host h s); [done|done|].
  apply (flow_host_view iv (sys_host s)); [done|apply W].
Qed.
Lemma clock_inv t s : sys_inv s -> sys_inv (with_host (set_curr_tick t (sys_g s)) (sys_host s) s).
Proof.
  intros [(d & r & b1 & b2 & W) (dam & fin & Hd & L)]. split; [|exists dam, fin; split; [done|]; eapply ledger_same; [exact L|done|exact (counted_0 (sys_g s))]].
  exists d, r, b1, b2. by destruct W.
Qed.
Lemma catch_up_inv n : forall i now s s', sys_inv s -> catch_up std n i now s = Ok s' -> sys_inv s'.
Proof.
  induction n as [|n IH]; intros i now s s' I E; cbn [catch_up] in E; [by injection E as <-|]. if_in E; [|by injection E as <-].
  apply bind_ok_inv in E as (s1 & E1 & E). apply bind_ok_inv in E as (l & E2 & E). eapply IH; [|exact E].
  assert (I1 : sys_inv s1) by (if_in E1; [destruct (sys_dam s); [by eapply dam_update_inv|done]|by injection E1 as <-]).
  destruct I1 as [(d & r & b1 & b2 & W) Hl]. destruct (rams_wired _ _ _ _ _ _ _ W E2) as (d' & r' & W'). split; [by exists d', r', b1, b2|exact Hl].
Qed.
Lemma skip_idle_inv s s' : sys_inv s -> skip_idle p std s = Ok s' -> sys_inv s'.
Proof.
  intros I E. unfold skip_idle in E. destruct (q_ _) as [|[gap m] l]; [by injection E as <-|]. if_in E; [|by injection E as <-].
  eapply catch_up_inv; [|exact E]. by apply clock_inv.
Qed.

Hypothesis lines_fit : len lines0 < 2 ^ 64.

Lemma text_to_trace_inv s b s' : sys_inv s -> text_to_trace p std s = Ok (b, s') -> sys_inv s'.
Proof.
  intros I E. unfold text_to_trace in E. apply bind_ok_inv in E as (s1 & E1 & E). apply (skip_idle_inv _ _ I) in E1 as [(d & r & b1 & b2 & W) (dam & fin & Hd & L)].
  rewrite Hd in E. cbn [fmap option_fmap option_map] in E. apply bind_ok_inv in E as ([[full h] ob] & E2 & E).
  destruct (ledger_issue _ _ _ _ _ _ _ _ _ _ _ _ _ L (wi_flow _ _ _ _ _ W) E2) as (b' & -> & L2 & F2). cbv zeta in E.
  set (s2 := with_dam _ _) in E. assert (W2 : wired s2 d r b1 b2) by (by apply (wired_host h s1)).
  destruct full. { injection E as _ <-. split; [by exists d, r, b1, b2|]. by exists (mk_DirectAttached b' (dam_ram dam)), fin. }
  apply bind_ok_inv in E as ([[[more g] h3] lines] & E3 & E). injection E as _ <-.
  destruct (ledger_read _ _ _ _ _ _ _ _ _ lines_fit L2 E3) as [L3 V3]. split; [|by exists (mk_DirectAttached b' (dam_ram dam)), fin].
  exists d, r, b1, b2. apply (wired_host h3 s2); [done|done|]. apply (flow_host_view iv h); [done|apply W2].
Qed.
Lemma finished_inv b s : sys_inv s -> sys_inv (with_host (sys_g s) (set_is_trace_finished b (sys_host s)) s).
Proof.
  intros [(d & r & b1 & b2 & W) (dam & fin & Hd & L)]. split.
  - exists d, r, b1, b2. apply (wired_host (set_is_trace_finished b (sys_host s)) s); [done|done|]. apply (flow_host_view iv (sys_host s)); [done|apply W].
  - exists dam, fin. split; [done|]. eapply ledger_same; [exact L|done|apply counted_0].
Qed.
Lemma host_update_inv skip s s' : sys_inv s -> host_update p std skip s = Ok s' -> sys_inv s'.
Proof.
  intros I E. unfold host_update in E. apply bind_ok_inv in E as (s1 & E1 & E). assert (I1 : sys_inv s1).
  { if_in E1; [|by injection E1 as <-]. apply bind_ok_inv in E1 as ([more s2] & E2 & E1). apply text_to_trace_inv in E2; [|done].
    injection E1 as <-. destruct more; [done|by apply finished_inv]. }
  clear I E1. apply bind_ok_inv in E as ([[g h] bus] & E2 & E). injection E as <-. destruct I1 as [(d & r & b1 & b2 & W) (dam & fin & Hd & L)].
  pose proof (wi_flow _ _ _ _ _ W) as F. unfold sys_dn in F. rewrite app_assoc in F.
  destruct (host_flits_flow p iv skip _ _ _ _ _ _ _ _ _ _ F E2) as (F' & l & R & C). rewrite <- app_assoc in F'. destruct W as [W1 W2 W3 W4 _].
  split; [by exists d, r, b1, b2|]. exists dam, (l ++ fin). split; [done|]. by eapply ledger_retires.
Qed.

Lemma sys_update_inv skip s s' : sys_inv s -> sys_update p std skip s = Ok s' -> sys_inv s'.
Proof.
  intros [(d & r & b1 & b2 & W) (dam & fin & Hd & L)] E. unfold sys_update in E. apply bind_ok_inv in E as (s1 & E1 & E).
  destruct (host_side_wired _ _ _ _ _ _ _ W E1) as ((b1' & W1) & Hb & Hg & Hm & Hl).
  assert (L1 : ledger (sys_g s1) (sys_host s1) (sys_lines s1) dam fin) by (rewrite Hg, Hl; eapply ledger_same; [exact L|exact Hb|apply counted_0]).
  rewrite <- Hm in Hd. clear W L Hb Hg Hm Hl E1 s. apply bind_ok_inv in E as ([[[l up] down] sw] & E2 & E).
  destruct (device_buses_wired _ _ _ _ _ _ _ _ _ _ W1 E2) as (d2 & c1 & c2 & W2). cbv zeta in E. set (s2 := with_switch _ _ _ _) in *.
  apply bind_ok_inv in E as ([[g l3] up3] & E3 & E). destruct (devices_wired _ _ _ _ _ _ _ _ _ W2 E3) as ((d3 & r3 & b3 & W3) & C3).
  set (s3 := with_host _ _ _) in *. assert (I3 : sys_inv s3).
  { split; [by exists d3, r3, c1, b3|]. exists dam, fin. split; [exact Hd|]. eapply ledger_same; [exact L1|done|exact C3]. }
  apply bind_ok_inv in E as (s4 & E4 & E). apply (host_update_inv _ _ _ I3) in E4 as I4. if_in E; [by eapply dam_update_inv|by injection E as <-].
Qed.
Lemma main_loop_inv skip num n : forall k s over idle s', sys_inv s -> main_loop p std skip num n k s = Ok (over, idle, s') ->
  sys_inv s' /\ (over = true -> run_over num s' = true).
Proof.
  induction n as [|n IH]; intros k s over idle s' I E; cbn [main_loop] in E; [by injection E as <- _ <-|].
  apply bind_ok_inv in E as (s1 & E1 & E). assert (I1 : sys_inv s1).
  { unfold main_round in E1. apply bind_ok_inv in E1 as (s2 & E2 & E1). injection E1 as <-. apply clock_inv. by eapply sys_update_inv. }
  destruct (run_over num s1) eqn:Ho; [by injection E as <- _ <-|]. by eapply IH.
Qed.
End Run.
