(* ===== verification/SysOnce.v ===== *)
(** * From the trace to the exit of the loop

    The invariant of [SysFlow] holds of a new system, so it holds of every
    system the loop of [main] reaches; at the exit every line of the trace
    has been served once, and every credit is back. *)
From Stdlib Require Import ZArith Lia Bool String.
From stdpp Require Import base list list_numbers gmap.
From S2P Require Import Prelude RamIf Dram Sched Controller CtrlRun Memory MemRun RamDevice RamRun Ddr4 Ddr4Memory DevRam.
From S2P Require Import Flit CxlBuf Samples CxlBus Packing Link CxlNode CxlDevice DevPack DevRun CxlSwitch Wire DevHeaders.
From S2P Require Import CxlHost HostPack HostRun HostTrace SysFrame Flow HostFlow DevFlow CxlSys SysRun SysFlow.
Import DDR4.

Section New.
Context `{Indet} (p : CXLParams) (dam_iv iv : Z * Z) (wait : Z).

(** ** A new system *)
Definition new_host0 : CXLHost :=
  set_DAM_addr (Some dam_iv) (set_ext_creds {[0 := mk_credits 1 0 1]} (set_address_intervals [(0, iv)] (set_connected_devices [0] (CXLHost_new 1024 2048 1)))).
Definition new_dev0 : CXLDevice := CXLDevice_new p 1024 2048 2 wait.

Lemma new_host_inv : packer_inv 0 new_host0.
Proof. apply idle_packer_inv. destruct iv. vm_compute. reflexivity. Qed.
Lemma new_dev_inv : DevPack.packer_inv 0 new_dev0.
Proof. apply dev_idle_packer_inv. vm_compute. reflexivity. Qed.

Lemma dev0_ok (m : Mem Command State) : ram_ok (RamState_new m) -> mem_tags (RamState_new m) = [] -> dev_ok new_dev0 (RamState_new m).
Proof.
  intros Hr Hm. assert (Hi : in_ram new_dev0 = []) by (unfold in_ram; cbn; by rewrite map_to_list_empty). split; try done.
  - constructor.
  - split; try done; cbn; unfold NUM_VC; split; try done; lia.
  - by rewrite Hi, Hm.
  - rewrite Hi. constructor.
Qed.
Lemma new_flow (m : Mem Command State) : ram_ok (RamState_new m) -> mem_tags (RamState_new m) = [] -> flow iv new_host0 new_dev0 (RamState_new m) [] [].
Proof.
  intros Hr Hm. assert (Hp : pipeline new_dev0 = []) by (unfold pipeline, in_ram; cbn; by rewrite map_to_list_empty). split; try done.
  - cbn. unfold NUM_VC. lia.
  - exists 0. split; [constructor|apply new_host_inv].
  - exists 0. split; [constructor|apply new_dev_inv].
  - split; try done; by repeat (constructor || left).
  - by apply dev0_ok.
Qed.
Lemma switch0 sw : connect_downstream 0 iv (connect_upstream (CXLSwitch_new 4096 0)) = Ok sw -> one_port sw /\ sw_down sw = [] /\ sw_up sw = [].
Proof.
  unfold connect_downstream. cbn [om_get sw_address_intervals connect_upstream CXLSwitch_new set_upstream_buffer_rx set_upstream_buffer_tx]. cbv zeta.
  intros E. apply (f_equal (fun x => match x with Ok y => y | Abort _ => sw end)) in E. rewrite <- E. by split.
Qed.
Lemma new_inv (m : Mem Command State) lines s0 : ram_ok (RamState_new m) -> mem_tags (RamState_new m) = [] ->
  forallb (line_routed dam_iv iv) lines = true -> CXLSystem_new p m wait dam_iv [iv] lines = Ok s0 -> sys_inv dam_iv iv lines s0.
Proof.
  intros Hr Hm Hl E. unfold CXLSystem_new in E. cbv zeta in E. apply bind_ok_inv in E as (h & Eh & E). apply bind_ok_inv in E as (sw & Es & E).
  injection E as <-. assert (Hh : set_DAM_addr (Some dam_iv) h = new_host0) by (by injection Eh as <-). rewrite Hh. clear Eh Hh h.
  cbn [connect_all] in Es. apply bind_ok_inv in Es as (sw1 & Es & E). injection E as ->. apply switch0 in Es as (O & D & U). split.
  - exists new_dev0, (RamState_new m). do 2 eexists. split; try done. cbn [sys_host]. unfold sys_dn, sys_un. cbn [sys_switch]. rewrite D, U. by apply new_flow.
  - exists (mk_DirectAttached CXL_if_buf_new (RamState_new m)), []. split; [done|]. cbn [sys_g sys_host sys_lines]. split; try done.
    + split; try done; [constructor|]. unfold dam_ids, dam_held. cbn [dam_ram dam_buf]. rewrite Hm. cbn. by rewrite map_to_list_empty.
    + apply Forall_forall. intros x Hx%list_elem_of_In. rewrite forallb_forall in Hl. by apply Hl.
Qed.
End New.

(** ** Where the messages are *)
Section Where.
Context `{Indet}.

(** On the way to the device, in it or on the way back *)
Definition on_link (s : CXLSystem) : list Z :=
  match sys_devices s, buses_to_device s, buses_from_device s with
  | [(d, r)], [(_, b1)], [b2] => path_ids (sys_host s) d (sys_dn s b1) (sys_un s b2)
  | _, _, _ => []
  end.
(** Every message that was read and has not completed *)
Definition in_flight (s : CXLSystem) : list Z :=
  text_ids (sys_host s) ++ on_link s ++ match sys_dam s with Some dam => dam_held dam | None => [] end.

Lemma inv_in_flight dam_iv iv lines s : sys_inv dam_iv iv lines s -> exists fin,
  seqZ 0 (msg_count (sys_g s)) ≡ₚ in_flight s ++ fin /\ num_reqs_completed (sys_g s) = u64 (len fin) /\
  0 <= msg_count (sys_g s) /\ msg_count (sys_g s) + len (sys_lines s) = len lines /\
  in_flight s ≡ₚ text_ids (sys_host s) ++ sent_ids (sys_host s) ++ dam_ids (sys_host s).
Proof.
  intros [(d & r & b1 & b2 & [W1 W2 W3 W4 W5]) (dam & fin & Hd & [L1 L2 L3 L4 [L5 L5'] L6 L7])]. exists fin.
  assert (Hi : in_flight s ≡ₚ text_ids (sys_host s) ++ sent_ids (sys_host s) ++ dam_ids (sys_host s)).
  { unfold in_flight, on_link. rewrite W1, W2, W3, Hd, (fw_ids _ _ _ _ _ _ W5), (da_ids _ _ L1). done. }
  split; [|done]. rewrite L6, Hi, <- !app_assoc. done.
Qed.
(** ** The credits *)
Lemma no_ids_total `{Dialect} l : wire_ids l = [] -> total plain_ty l = 0 /\ total hdr_ty l = 0.
Proof.
  induction l as [|f l IH]; [done|]. intros E. change (f :: l) with ([f] ++ l) in E. rewrite wire_ids_app in E.
  apply app_eq_nil in E as [E [I1 I2]%IH]. unfold wire_ids, ids, packed in E. cbn in E. rewrite app_nil_r, map_app in E.
  apply app_eq_nil in E as [E1%map_eq_nil E2%map_eq_nil]. rewrite !total_cons, I1, I2, <- !length_msgs, E1, E2. done.
Qed.
Lemma no_tags t l : map fst l = [] -> tagged t l = 0.
Proof. intros ->%map_eq_nil. done. Qed.
(** Without messages on the way every credit of the host is at home. *)
Lemma credits_home h d dn un : credits_ok h d dn un -> path_ids h d dn un = [] ->
  rsp_credit (CxlHost.int_cred h) = size_ (CxlHost.S2M_NDR h) /\ data_credit (CxlHost.int_cred h) = size_ (CxlHost.S2M_DRS h).
Proof.
  intros [C1 C2 _ _] E. unfold path_ids in E. apply app_eq_nil in E as [E1 E]. apply app_eq_nil in E as [E2 E]. apply app_eq_nil in E as [E3 E].
  apply app_eq_nil in E as [E4 E]. apply app_eq_nil in E as [E5 E]. apply app_eq_nil in E as [E6 E]. apply app_eq_nil in E as [E7 E8].
  unfold HostPack.held_ids in E1. apply app_eq_nil in E1 as [_ E1]. unfold dev_out in E5.
  assert (H1 : ids_down (HostPack.outflits h) = []).
  { unfold HostPack.outflits. rewrite wire_ids_app. apply app_eq_nil in E1 as [E1 E1']. unfold wire_ids at 1. rewrite E1'. unfold wire_ids.
    destruct (CxlHost.is_packer_waiting h); [|done]. cbn. by rewrite app_nil_r. }
  assert (H5 : ids_up (DevPack.outflits d) = []).
  { unfold DevPack.outflits. rewrite wire_ids_app. apply app_eq_nil in E5 as [E5 ->]. unfold wire_ids.
    destruct (CxlDevice.is_packer_waiting d); [|done]. cbn. by rewrite app_nil_r. }
  apply no_ids_total in H1 as [A1 A2], H5 as [B1 B2], E2 as [D1 D2], E6 as [U1 U2]. cbn in A1, A2, B1, B2, D1, D2, U1, U2.
  rewrite !total_app in *. rewrite (no_tags _ _ E4), E8 in C1. rewrite (no_tags _ _ E4), E3, E7 in C2.
  unfold len in C1, C2. cbn [length] in C1, C2. lia.
Qed.
End Where.
Lemma fin_bound n l k : 0 <= n -> seqZ 0 n ≡ₚ l ++ k -> len l + len k = n.
Proof. intros Hn E. apply Permutation_length in E. rewrite length_seqZ, length_app in E. unfold len. lia. Qed.

Section Once.
Context `{Indet} (p : CXLParams) (dam_iv iv : Z * Z) (wait : Z) (lines : list string).
Hypothesis lines_routed : forallb (line_routed dam_iv iv) lines = true.
Hypothesis lines_fit : len lines < 2 ^ 64.

Lemma run_sys_inv channels ranks org speed std m s0 skip num n over idle s :
  0 < channels < 2 ^ 31 -> 0 < ranks < 2 ^ 31 -> ramulator_init channels ranks org speed = Ok (std, m) ->
  CXLSystem_new p m wait dam_iv [iv] lines = Ok s0 -> main_loop p std skip num n 0 s0 = Ok (over, idle, s) ->
  sys_inv dam_iv iv lines s /\ (over = true -> run_over num s = true).
Proof.
  intros Hc Hr Hi E0 El. destruct (new_ram channels ranks org speed std m Hc Hr Hi) as [Hm1 Hm2].
  eapply main_loop_inv; [exact lines_fit| |exact El]. by eapply new_inv.
Qed.

(** C2: no message is lost, duplicated or invented.  Take a system with one
    device behind the switch and a direct-attached memory, DDR4 memories of
    any size, organisation and speed, and any trace whose addresses lie in
    one of the two ranges.  After any number of rounds of the loop of [main],
    with and without cycle skipping, every message made from a line of the
    trace so far is in exactly one place: read but not issued, in one of the
    channels, flits, buses or buffers on the way to the memory of the device
    and back or in that memory, in the direct-attached memory, or completed;
    the messages are numbered in the order of the lines, and as many are
    counted as completed as are. *)
Theorem message_in_one_place channels ranks org speed std m s0 skip num n over idle s :
  0 < channels < 2 ^ 31 -> 0 < ranks < 2 ^ 31 -> ramulator_init channels ranks org speed = Ok (std, m) ->
  CXLSystem_new p m wait dam_iv [iv] lines = Ok s0 -> main_loop p std skip num n 0 s0 = Ok (over, idle, s) ->
  NoDup (in_flight s) /\ msg_count (sys_g s) + len (sys_lines s) = len lines /\
  exists finished, seqZ 0 (msg_count (sys_g s)) ≡ₚ in_flight s ++ finished /\ num_reqs_completed (sys_g s) = len finished.
Proof.
  intros Hc Hr Hi E0 El. destruct (run_sys_inv _ _ _ _ _ _ _ _ _ _ _ _ _ Hc Hr Hi E0 El) as [I _].
  destruct (inv_in_flight _ _ _ _ I) as (fin & Hp & Hn & H0 & Hl & _). pose proof (fin_bound _ _ _ H0 Hp) as Hb.
  pose proof (len_nonneg (in_flight s)). pose proof (len_nonneg fin). pose proof (len_nonneg (sys_lines s)).
  split; [|split; [done|]].
  - pose proof (NoDup_seqZ 0 (msg_count (sys_g s))) as Nd. rewrite Hp in Nd. by apply NoDup_app in Nd as (? & _).
  - exists fin. split; [done|]. rewrite Hn. apply u64_small. lia.
Qed.

(** C1: the run ends when the trace is done, and not before.  When the loop
    of [main] takes its exit, with the number of lines of the trace as the
    number of requests, every line has been read, every message has been
    completed, exactly as many completions have been counted as the trace has
    lines, and nothing is left in a channel, a flit, a bus, the switch, the
    device or a memory. *)
Theorem trace_completes_once channels ranks org speed std m s0 skip n idle s :
  0 < channels < 2 ^ 31 -> 0 < ranks < 2 ^ 31 -> ramulator_init channels ranks org speed = Ok (std, m) ->
  CXLSystem_new p m wait dam_iv [iv] lines = Ok s0 -> main_loop p std skip (len lines) n 0 s0 = Ok (true, idle, s) ->
  sys_lines s = [] /\ in_flight s = [] /\ msg_count (sys_g s) = len lines /\ num_reqs_completed (sys_g s) = len lines.
Proof.
  intros Hc Hr Hi E0 El. destruct (run_sys_inv _ _ _ _ _ _ _ _ _ _ _ _ _ Hc Hr Hi E0 El) as [I Ho]. specialize (Ho eq_refl).
  destruct (inv_in_flight _ _ _ _ I) as (fin & Hp & Hn & H0 & Hl & Hf). pose proof (fin_bound _ _ _ H0 Hp) as Hb.
  pose proof (len_nonneg (in_flight s)). pose proof (len_nonneg fin). pose proof (len_nonneg (sys_lines s)).
  rewrite u64_small in Hn by lia. unfold run_over in Ho. apply andb_true_iff in Ho as [_ Ho%Z.leb_le].
  assert (Hz : forall X (l : list X), len l = 0 -> l = []) by (intros X [|]; unfold len; cbn [length]; [done|lia]).
  split; [apply Hz; lia|]. split; [apply Hz; lia|]. lia.
Qed.

(** C4: no credit is lost or made up.  In every system that the loop of
    [main] reaches, the room of each receiving channel is accounted for: what
    its owner has not promised, the credits the other side has or that are on
    their way to it in a flit, and what the messages on the way use add up to
    the size of the channel, on both sides and for both kinds of message.
    Hence no channel is sent more than it has room for, and once no message
    is on the way the host has all of its credits back. *)
Theorem credits_conserved channels ranks org speed std m s0 skip num n over idle s :
  0 < channels < 2 ^ 31 -> 0 < ranks < 2 ^ 31 -> ramulator_init channels ranks org speed = Ok (std, m) ->
  CXLSystem_new p m wait dam_iv [iv] lines = Ok s0 -> main_loop p std skip num n 0 s0 = Ok (over, idle, s) ->
  exists d r b1 b2, sys_devices s = [(d, r)] /\ buses_to_device s = [(0, b1)] /\ buses_from_device s = [b2] /\
    credits_ok (sys_host s) d (sys_dn s b1) (sys_un s b2) /\
    (in_flight s = [] -> let h := sys_host s in
       rsp_credit (CxlHost.int_cred h) = size_ (CxlHost.S2M_NDR h) /\ data_credit (CxlHost.int_cred h) = size_ (CxlHost.S2M_DRS h)).
Proof.
  intros Hc Hr Hi E0 El. destruct (run_sys_inv _ _ _ _ _ _ _ _ _ _ _ _ _ Hc Hr Hi E0 El) as [[(d & r & b1 & b2 & [W1 W2 W3 W4 W5]) _] _].
  exists d, r, b1, b2. do 3 (split; [done|]). pose proof (fw_credits _ _ _ _ _ _ W5) as C. split; [done|]. intros Hf.
  apply (credits_home _ _ _ _ C). unfold in_flight, on_link in Hf. rewrite W1, W2, W3 in Hf. apply app_eq_nil in Hf as [_ Hf]. by apply app_eq_nil in Hf as [Hf _].
Qed.
End Once.
