(* ===== verification/SysSafe.v ===== *)
(** * Which assertions can stop a run

    A run of the simulator on any trace with addresses in range fails no
    assertion but one of [HostSafe.run_errors]. *)
From Stdlib Require Import ZArith Lia Bool String.
From stdpp Require Import base list list_numbers gmap.
From S2P Require Import Prelude RamIf Dram Sched Controller CtrlRun Memory MemRun RamDevice RamRun Ddr4 Ddr4Safe Ddr4Memory DevRam.
From S2P Require Import Flit CxlBuf Samples CxlBus Packing Link CxlNode CxlDevice DevPack DevRun CxlSwitch SwitchRun Wire DevHeaders.
From S2P Require Import CxlHost HostPack HostRun HostTrace SysFrame Flow HostFlow HostSafe DevFlow DevSafe CxlSys SysRun SysFlow SysOnce.
Import DDR4.

(** ** The buses and the switch *)
Lemma bus_runs p tick b buf : fits b -> runs (bus_update p tick b buf) (fun y => fits (fst y)).
Proof.
  intros Hb. unfold bus_update. rewrite (proj2 (Z.leb_le _ _) Hb). destruct (negb _); [|known_error]. destruct (_ && _); [|done].
  unfold send_to_node. destruct (flit_slots b) as [|f l] eqn:Hq; [done|]. destruct (_ <=? _); [|done]. eapply runs_bind; [apply enqueue_runs|].
  intros buf' _ _. unfold fits, bus_occupancy in *. cbn. rewrite Hq in Hb. cbn [length] in Hb. lia.
Qed.

Section Switch.
Context `{Indet} (p : CXLParams) (iv : Z * Z).
Implicit Types s : CXLSwitch.
Abbreviation ivs_same s := (fun s' => sw_address_intervals s' = sw_address_intervals s).

Lemma check_buffer_runs tick b delay flag : runs (check_buffer_condition tick b delay flag) (fun y => snd y = true -> exists f l, q_ b = f :: l).
Proof.
  unfold check_buffer_condition. destruct (is_buf_empty b) eqn:He; [done|]. apply is_buf_empty_false in He as (f & l & Hq).
  unfold latency_check_flit, get_head. rewrite Hq. cbn. eauto.
Qed.
Lemma dequeue_head {X} (x : X) l b : q_ b = x :: l -> exists b', dequeue b = Ok b'.
Proof. intros Hq. unfold dequeue, is_buf_empty. rewrite Hq. eauto. Qed.

Lemma h2d_rx_runs tick flag s : runs (h2d_rx p tick flag s) (fun y => ivs_same s (snd y)).
Proof.
  unfold h2d_rx. eapply runs_bind; [apply check_buffer_runs|]. intros [fl []] _ Hq; [|done]. destruct (Hq eq_refl) as (f & l & Hf).
  rewrite (get_head_ok _ _ _ Hf). destruct (dequeue_head _ _ _ Hf) as [b ->]. cbn [bind]. eapply runs_bind; [apply enqueue_runs|]. done.
Qed.
Lemma down_dest f : down_ok iv f -> find_dest (get_first_address f) [(0, iv)] = Some 0.
Proof.
  intros [_ [Ha He]]. unfold get_first_address, is_flit_empty, slots_in in *. induction (slots f) as [|x l IH]; [done|]. cbn in He |- *.
  apply Forall_cons in Ha as [Hx Hl]. destruct (slot_type_eqb (slot_ty x) empty) eqn:Ex; [by apply IH|].
  destruct Hx as [Hx|Hx]; [by rewrite Hx in Ex|exact Hx].
Qed.
Lemma h2d_noc_runs tick flag s : sw_address_intervals s = [(0, iv)] -> Forall (down_ok iv) (sw_down s) ->
  runs (h2d_noc p tick flag s) (fun y => ivs_same s (snd y)).
Proof.
  intros Hi Hd. unfold h2d_noc. eapply runs_bind; [apply check_buffer_runs|]. intros [fl []] _ Hq; [|done]. destruct (Hq eq_refl) as (f & l & Hf).
  rewrite (get_head_ok _ _ _ Hf). cbn [bind]. eapply (runs_bind _ _ (fun _ => True)).
  { destruct (slot_type_eqb _ _); [done|]. unfold switch_destination. rewrite Hi, down_dest; [done|].
    unfold sw_down in Hd. rewrite !Forall_app, Hf in Hd. destruct Hd as (_ & Hd & _). by apply Forall_cons in Hd as [Hd _]. }
  intros dest _ _. destruct (dequeue_head _ _ _ Hf) as [b Eb]. cbn [ARB_NOC_h2d set_previous_destination]. rewrite Eb. cbn [bind].
  eapply runs_bind; [apply enqueue_runs|]. done.
Qed.
Lemma h2d_tx_runs tick flag s b : one_port s -> fits b ->
  runs (h2d_tx p tick (map fst (downstream_buffers_tx s)) flag s [(0, b)]) (fun y => ivs_same s (snd (fst y)) /\ Forall (fun e => fits (snd e)) (snd y)).
Proof.
  intros Ho Hfit. assert (Hno : Forall (fun e => fits (snd e)) [(0, b)]) by (by apply Forall_singleton).
  rewrite (op_tx s Ho). cbn [h2d_tx]. eapply (runs_bind _ _ (fun y => ivs_same s (snd (fst y)) /\ Forall (fun e => fits (snd e)) (snd y))); [|by intros [[fl s1] bs] _ Hs].
  unfold h2d_tx_port. eapply runs_bind; [apply check_buffer_runs|]. intros [fl []] _ Hq; [|done]. destruct (Hq eq_refl) as (f & l & Hf).
  cbn [om_get Z.eqb]. unfold check_transmission. destruct (is_full b) eqn:Hb; [done|]. destruct (_ <? _); [done|].
  rewrite (get_head_ok _ _ _ Hf). destruct (dequeue_head _ _ _ Hf) as [b' Eb]. rewrite Eb. cbn [bind].
  edestruct add_to_bus_runs as (bus & Ea & Hf'); [exact Hb|]. rewrite Ea. cbn. split; [done|]. apply Forall_singleton, Hf', Hfit.
Qed.
Lemma d2h_rx_runs tick n : forall flag s, runs (d2h_rx p tick n flag s) (fun y => ivs_same s (snd y)).
Proof.
  assert (Hp : forall s, sw_address_intervals (update_port s) = sw_address_intervals s) by (intros s; unfold update_port; by if_goal).
  induction n as [|n IH]; intros flag s; cbn [d2h_rx]; [done|]. eapply runs_bind; [apply check_buffer_runs|]. intros [fl []] _ Hq.
  - destruct (Hq eq_refl) as (f & l & Hf). rewrite (get_head_ok _ _ _ Hf). destruct (dequeue_head _ _ _ Hf) as [b' Eb]. rewrite Eb. cbn [bind].
    eapply runs_bind; [apply enqueue_runs|]. intros b2 _ _. cbn. by rewrite Hp.
  - eapply runs_eq; [apply IH|]. intros y _ Hy. cbn in Hy. by rewrite Hy, Hp.
Qed.
Lemma d2h_noc_runs tick flag s : runs (d2h_noc p tick flag s) (fun y => ivs_same s (snd y)).
Proof.
  unfold d2h_noc. eapply runs_bind; [apply check_buffer_runs|]. intros [fl []] _ Hq; [|done]. destruct (Hq eq_refl) as (f & l & Hf).
  rewrite (get_head_ok _ _ _ Hf). destruct (dequeue_head _ _ _ Hf) as [b ->]. cbn [bind]. eapply runs_bind; [apply enqueue_runs|]. done.
Qed.
Lemma d2h_tx_runs tick flag s b : fits b -> runs (d2h_tx p tick flag s b) (fun y => ivs_same s (snd (fst y)) /\ fits (snd y)).
Proof.
  intros Hfit. unfold d2h_tx. eapply runs_bind; [apply check_buffer_runs|]. intros [fl ok] _ Hq. destruct ok; [|done]. cbn [andb]. destruct (Hq eq_refl) as (f & l & Hf).
  unfold check_transmission. destruct (is_full b) eqn:Hb; [done|]. destruct (_ <? _); [done|].
  rewrite (get_head_ok _ _ _ Hf). destruct (dequeue_head _ _ _ Hf) as [b' Eb]. rewrite Eb. cbn [bind].
  edestruct add_to_bus_runs as (bus & Ea & Hf'); [exact Hb|]. rewrite Ea. cbn. auto.
Qed.
Lemma switch_runs skip tick s b hb : one_port s -> sw_address_intervals s = [(0, iv)] -> Forall (down_ok iv) (sw_down s) -> fits b -> fits hb ->
  runs (switch_update p skip tick s [(0, b)] hb) (fun y => sw_address_intervals (fst (fst y)) = [(0, iv)] /\
    Forall (fun e => fits (snd e)) (snd (fst y)) /\ fits (snd y)).
Proof.
  intros Ho Hi Hd Hb Hh. unfold switch_update. destruct (_ && _); [split_and!; try done; by apply Forall_singleton|].
  eapply runs_bind; [apply h2d_rx_runs|]. intros [f1 s1] E1 I1. apply h2d_rx_wire in E1 as (O1 & D1 & _); [|done]. cbn [snd] in I1. rewrite Hi in I1.
  eapply runs_bind; [apply h2d_noc_runs; [done|]|]. { exact (wire_forall (down_ok iv) _ _ D1 Hd). }
  intros [f2 s2] E2 I2. apply h2d_noc_wire in E2 as (O2 & _ & _); [|done]. cbn [snd] in I2.
  eapply runs_bind; [by apply h2d_tx_runs|]. intros [[f3 s3] bs] _ [I3 B3]. cbn [fst snd] in I3, B3. eapply runs_bind; [apply d2h_rx_runs|]. intros [f4 s4] _ I4.
  eapply runs_bind; [apply d2h_noc_runs|]. intros [f5 s5] _ I5. eapply runs_bind; [by apply d2h_tx_runs|]. intros [[f6 s6] hb6] _ [I6 B6]. cbn [fst snd] in *.
  split; [destruct skip; cbn; congruence|done].
Qed.
End Switch.

(** ** The system *)
Section Safe.
Context `{Indet} (p : CXLParams) (dam_iv iv : Z * Z) (lines0 : list string).
Context (channels : Z) (std : Std Command State) (m0 : Mem Command State) (o : OrgEntry) (sp : SpeedEntry).
Hypothesis Hbuilt : built channels std m0 o sp.
Hypothesis lines_fit : len lines0 < 2 ^ 64.
#[local] Abbreviation flow := (flow (C := Command) (S := State) iv).
#[local] Abbreviation mem_ok := (mem_ok channels m0 o sp).
#[local] Abbreviation ledger := (ledger dam_iv iv lines0).

(** The memories *)
Definition mems_ok (s : CXLSystem) : Prop :=
  Forall (fun x => mem_ok (memory (snd x))) (sys_devices s) /\
  match sys_dam s with Some dam => mem_ok (memory (dam_ram dam)) | None => True end.
(** The buses *)
Definition buses_ok (s : CXLSystem) : Prop :=
  fits (bus_to_host s) /\ fits (bus_from_host s) /\ Forall (fun e => fits (snd e)) (buses_to_device s) /\ Forall fits (buses_from_device s).
Record sys_safe (s : CXLSystem) : Prop := {
  ss_inv : sys_inv dam_iv iv lines0 s;
  ss_keyed : keyed iv (sys_host s);
  ss_rr : rcvd_rsp_state (sys_host s) <> rr_W;
  ss_ivs : sw_address_intervals (sys_switch s) = [(0, iv)];
  ss_mems : mems_ok s;
  ss_buses : buses_ok s
}.

(** The direct-attached memory *)
Lemma dam_complete_ok clk l : forall x, exists y, complete_all (H := dam_client) clk l x = Ok y.
Proof. induction l as [|q l IH]; intros [[g h] b]; cbn [complete_all completed dam_client bind]; [eauto|apply IH]. Qed.
Lemma dam_cycle_runs g h dam : dam_ok h dam -> mem_ok (memory (dam_ram dam)) ->
  runs (ram_update (H := dam_client) std (g, h, dam_buf dam) (dam_ram dam)) (fun y => mem_ok (memory (snd y))).
Proof.
  intros [D1 D2 D3] M. rewrite (ram_update_eq (H := dam_client) std (g, h, dam_buf dam) (dam_ram dam) D1 D2).
  pose proof (client_cycle_fine channels std m0 o sp Hbuilt (H := dam_client) (g, h, dam_buf dam) (dam_ram dam) D1 D2 M ltac:(done)) as F.
  destruct (cycle std _ _) as [[[d2 s2] dn]|e]; [|cbn in *; rewrite F; known_error]. cbn [bind].
  destruct (dam_complete_ok (clks (dam_ram dam)) dn d2) as [y ->]. exact F.
Qed.
Lemma dam_update_runs s : sys_safe s -> runs (dam_update std s) sys_safe.
Proof.
  intros [I K R V M B]. pose proof I as [_ (dam & fin & Hd & L)]. unfold dam_update. rewrite Hd.
  destruct M as [M1 M2]. rewrite Hd in M2.
  apply (runs_eq _ (fun s' => mems_ok s' /\ buses_ok s' /\ exists m, sys_host s' = set_reqs_in_dam m (sys_host s) /\ sys_switch s' = sys_switch s)).
  - eapply runs_bind; [by apply dam_cycle_runs; [apply L|]|]. intros [[b [[g h] b']] r] E M'. cbn in M'.
    destruct (dam_cycle_flow std _ _ dam b g h b' r (lg_dam _ _ _ _ _ _ _ _ L) E) as (_ & _ & (m & ->) & _). split; [by split|]. split; [done|by exists m].
  - intros s' E (M' & B' & m & E1 & E2). assert (I' : sys_inv dam_iv iv lines0 s').
    { eapply dam_update_inv; [exact I|]. unfold dam_update. by rewrite Hd. }
    split; [done| | |by rewrite E2|done|done]; rewrite E1; [by apply (keyed_view iv (sys_host s))|done].
Qed.
Lemma clock_safe t s : sys_safe s -> sys_safe (with_host (set_curr_tick t (sys_g s)) (sys_host s) s).
Proof. intros [I K R V M B]. split; try done. by apply clock_inv. Qed.

(** The jump over idle time *)
Lemma rams_runs tick s : sys_safe s -> runs (rams_update std tick (sys_devices s)) (fun l => sys_safe (with_devices l s)).
Proof.
  intros [[(d & r & b1 & b2 & W) L] K R V [M1 M2] B]. pose proof W as [W1 W2 W3 W4 W5]. rewrite W1 in M1. apply Forall_cons in M1 as [M1 _].
  apply (runs_eq _ (Forall (fun x => mem_ok (memory (snd x))))).
  - rewrite W1. cbn [rams_update]. eapply runs_bind; [by eapply dev_cycle_runs|]. intros [[b d'] r'] _ [_ M']. cbn. by constructor.
  - intros l E M'. destruct (rams_wired std iv tick s d r b1 b2 l W E) as (d' & r' & W'). split; try done. split; [by exists d', r', b1, b2|exact L].
Qed.
Lemma catch_up_runs n : forall i now s, sys_safe s -> runs (catch_up std n i now s) sys_safe.
Proof.
  induction n as [|n IH]; intros i now s Hs; cbn [catch_up]; [done|]. if_goal; [|done]. eapply (runs_bind _ _ sys_safe).
  - if_goal; [|done]. destruct (ss_inv _ Hs) as [_ (dam & fin & Hd & _)]. pose proof (dam_update_runs s Hs) as F. by rewrite Hd in *.
  - intros s1 _ H1. eapply runs_bind; [by apply rams_runs|]. intros l _ H2. by apply IH.
Qed.
Lemma skip_idle_runs s : sys_safe s -> runs (skip_idle p std s) sys_safe.
Proof.
  intros Hs. unfold skip_idle. destruct (q_ _) as [|[gap m] l]; [done|]. if_goal; [|done]. apply catch_up_runs. by apply clock_safe.
Qed.

(** The trace *)
Definition bare (h : CXLHost) := (connected_devices h, address_intervals h, ext_creds h, rcvd_rsp_state h).
Lemma stoul_runs w : runs (stoul w) (fun _ => True).
Proof.
  unfold stoul. set (x := match skip_spaces w with EmptyString => _ | String _ _ => _ end). destruct x as [neg u]. eapply (runs_bind _ _ (fun _ => True)).
  - unfold unsigned_part. repeat case_match; known_error || done.
  - intros v _ _. if_goal; [known_error|done].
Qed.
Lemma parse_runs w : runs (parse_line w) (fun _ => True).
Proof.
  unfold parse_line. destruct (HostTrace.split _ _) as [|w0 [|w1 [|w2 []]]]; try known_error.
  eapply runs_bind; [apply stoul_runs|]. intros a _ _. eapply (runs_bind _ _ (fun _ => True)); [repeat if_goal; known_error || done|].
  intros oc _ _. eapply runs_bind; [apply stoul_runs|]. done.
Qed.
Lemma read_runs g h lines : runs (read_trace g h lines) (fun y => bare (snd (fst y)) = bare h).
Proof.
  unfold read_trace. destruct (is_buf_full _) eqn:Hf; [done|]. destruct lines as [|w lines]; [done|].
  eapply runs_bind; [apply parse_runs|]. intros [[a oc] gap] _ _. unfold message_new. eapply runs_bind; [apply enqueue_runs|]. done.
Qed.
Lemma issue_runs tick g h lines dam fin : ledger g h lines dam fin -> runs (issue p tick h (Some (dam_buf dam))) (fun y => bare (snd (fst y)) = bare h).
Proof.
  intros [_ _ L _ _ _ _]. unfold issue. destruct (q_ (text_to_trace_buf h)) as [|[x t] l] eqn:Hq; [done|]. if_goal; [done|]. cbv zeta.
  apply Forall_cons in L as [[Ho _] _]. cbn [snd] in Ho. set (h1 := set_last_text_to_trace_buf_dequeue tick h).
  assert (Hd : forall k, text_to_trace_buf k = text_to_trace_buf h -> exists q, dequeue (text_to_trace_buf k) = Ok q) by (intros k ->; by eapply dequeue_head).
  if_goal.
  - eapply (runs_bind _ _ (fun y => bare (fst y) = bare h)); [|by intros [h' b'] _ Hb]. unfold issue_dam. destruct (isFull _) eqn:Hf; [done|].
    assert (Er : exists q, message2ramulator_req t = Ok q) by (unfold message2ramulator_req; destruct Ho as [-> | ->]; eauto).
    destruct Er as [q ->]. cbn [bind]. unfold buf_add. rewrite Hf. cbn [negb bind].
    match goal with |- context [dequeue (text_to_trace_buf ?k)] => destruct (Hd k eq_refl) as [q' Eq] end. by rewrite Eq.
  - eapply (runs_bind _ _ (fun y => bare (snd y) = bare h)); [|by intros [fl h'] _ Hb]. unfold issue_vc. rewrite message_copy_id.
    change (opCode (set_msg_time _ t)) with (opCode t). destruct Ho as [-> | ->]; (destruct (is_buf_full _) eqn:Hf; [done|]); unfold enqueue; rewrite Hf; cbn [negb bind]; cbv zeta beta;
      match goal with |- context [dequeue (text_to_trace_buf ?k)] => destruct (Hd k eq_refl) as [q' Eq] end; by rewrite Eq.
Qed.
Lemma bare_safe s s' : bare (sys_host s') = bare (sys_host s) -> sys_switch s' = sys_switch s -> mems_ok s' -> buses_ok s' -> sys_inv dam_iv iv lines0 s' -> sys_safe s -> sys_safe s'.
Proof.
  intros Hb Hs Hm Hbs Hi [I K R V M _]. unfold bare in Hb. split; [done| | |by rewrite Hs|done|done]; [apply (keyed_view iv (sys_host s)); [congruence|done]|congruence].
Qed.
Lemma text_to_trace_runs s : sys_safe s -> runs (text_to_trace p std s) (fun y => sys_safe (snd y)).
Proof.
  intros Hs. apply (runs_eq _ (fun y => exists s1, sys_safe s1 /\ bare (sys_host (snd y)) = bare (sys_host s1) /\ sys_switch (snd y) = sys_switch s1 /\ mems_ok (snd y) /\ buses_ok (snd y))).
  - unfold text_to_trace. eapply runs_bind; [by apply skip_idle_runs|]. intros s1 _ H1. destruct (ss_inv _ H1) as [_ (dam & fin & Hd & L)].
    rewrite Hd. cbn [fmap option_fmap option_map]. eapply runs_bind; [by eapply issue_runs|]. intros [[full h] ob] E Hb. cbn [fst snd] in Hb.
    pose proof (ss_buses _ H1) as B1. destruct (ss_mems _ H1) as [M1 M2]. rewrite Hd in M2. assert (Hm : forall dam', memory (dam_ram dam') = memory (dam_ram dam) -> mem_ok (memory (dam_ram dam'))) by (by intros dam' ->).
    cbv zeta. destruct full; [exists s1; split_and!; try done; destruct ob; by split; [|apply Hm]|].
    eapply runs_bind; [apply read_runs|]. intros [[[more g] h3] lines] _ Hb3. cbn [fst snd] in Hb3. exists s1.
    split_and!; [done|by cbn; rewrite Hb3|done|destruct ob; by split; [|apply Hm]|done].
  - intros [b s'] E (s1 & H1 & Hb & Hw & Hm & Hbs). apply (bare_safe s1); try done. eapply text_to_trace_inv; [exact lines_fit|apply Hs|exact E].
Qed.

(** The host *)
Record rest_safe (s : CXLSystem) : Prop := {
  rs_keyed : keyed iv (sys_host s);
  rs_rr : rcvd_rsp_state (sys_host s) <> rr_W;
  rs_ivs : sw_address_intervals (sys_switch s) = [(0, iv)];
  rs_mems : mems_ok s;
  rs_buses : buses_ok s
}.
Lemma rest_inv s : rest_safe s -> sys_inv dam_iv iv lines0 s -> sys_safe s.
Proof. by intros [] I. Qed.
Lemma safe_rest s : sys_safe s -> rest_safe s.
Proof. by intros []. Qed.
Lemma host_update_runs skip s : sys_safe s -> runs (host_update p std skip s) sys_safe.
Proof.
  intros Hs. apply (runs_eq _ rest_safe).
  - unfold host_update. eapply (runs_bind _ _ sys_safe).
    { if_goal; [|done]. eapply runs_bind; [by apply text_to_trace_runs|]. intros [more s1] _ H1. destruct more; [done|].
      apply (bare_safe s1); try done; [exact (ss_mems _ H1)|exact (ss_buses _ H1)|]. apply finished_inv, H1. }
    intros s1 _ [[(d & r & b1 & b2 & W) _] K R V M (B1 & B2 & B3 & B4)]. pose proof (wi_flow _ _ _ _ _ _ W) as F. unfold sys_dn in F. rewrite app_assoc in F.
    assert (Hh : host_safe iv (sys_host s1) d r ((flit_slots b1 ++ sw_down (sys_switch s1)) ++ flit_slots (bus_from_host s1)) (sys_un s1 b2)) by (by split).
    eapply runs_bind; [by apply update_flits_runs|]. intros [[g h] bus] _ [[_ K' R'] B']. by split.
  - intros s' E Hr. apply rest_inv; [done|]. eapply host_update_inv; [exact lines_fit|apply Hs|exact E].
Qed.

(** A tick *)
Lemma host_side_runs skip s d r b1 b2 : wired iv s d r b1 b2 -> rest_safe s -> runs (host_side p skip s) rest_safe.
Proof.
  intros [W1 W2 W3 W4 W5] [K R V M (B1 & B2 & B3 & B4)]. unfold host_side. rewrite W2 in B3. apply Forall_cons in B3 as [B3 _].
  eapply runs_bind; [by apply bus_runs|]. intros [bh rx] _ Bh.
  eapply runs_bind; [by apply bus_runs|]. intros [bf us] Ef Bf. cbn [sys_switch buses_to_device with_host]. rewrite W2.
  eapply runs_bind; [apply (switch_runs p iv)|].
  - by destruct W4.
  - done.
  - apply bus_wire in Ef as [Wf _]. pose proof (fw_dflits _ _ _ _ _ _ W5) as Fd. unfold sys_dn in Fd. apply Forall_app in Fd as [_ Fd]. apply Forall_app in Fd as [_ Fd].
    unfold sw_down, tx_buf in *. cbn [downstream_buffers_tx ARB_NOC_h2d upstream_buffer_rx set_upstream_buffer_rx]. rewrite <- !app_assoc in Fd.
    assert (Fd' : Forall (down_ok iv) (q_ us ++ flit_slots bf)).
    { eapply wire_forall; [apply _|exact Wf|]. apply Forall_app in Fd as [_ Fd]. by apply Forall_app in Fd as [_ Fd]. }
    rewrite !Forall_app in *. tauto.
  - done.
  - done.
  - intros [[sw down] bh2] _ (Hi & Bd & Bh2). split; try done. by apply (keyed_view iv (sys_host s)).
Qed.
Lemma device_buses_runs tick s d r b1 b2 : wired iv s d r b1 b2 -> rest_safe s ->
  runs (device_buses p tick 0 (sys_devices s) (buses_from_device s) (buses_to_device s) (sys_switch s)) (fun y => let '(l, up, down, sw) := y in
    rest_safe (with_switch sw (bus_to_host s) (bus_from_host s) (with_dev_buses down up (with_devices l s)))).
Proof.
  intros [W1 W2 W3 W4 W5] [K R V [M1 M2] (B1 & B2 & B3 & B4)]. rewrite W1, W2, W3 in *. apply Forall_cons in M1 as [M1 _], B3 as [B3 _], B4 as [B4 _].
  cbn [device_buses om_get Z.eqb]. eapply runs_bind; [by apply bus_runs|]. intros [b1' rx] _ Bd.
  eapply runs_bind; [by apply bus_runs|]. intros [b2' ds] _ Bu. cbn. split; try done; [by split; [apply Forall_singleton|]|]. split_and!; try done; by apply Forall_singleton.
Qed.
Lemma devices_runs skip s d r b1 b2 : wired iv s d r b1 b2 -> rest_safe s ->
  runs (devices_update p std skip (sys_g s) (sys_devices s) (buses_from_device s)) (fun y => let '(g, l, up) := y in
    rest_safe (with_host g (sys_host s) (with_dev_buses (buses_to_device s) up (with_devices l s)))).
Proof.
  intros [W1 W2 W3 W4 W5] [K R V [M1 M2] (B1 & B2 & B3 & B4)]. rewrite W1, W3 in *. apply Forall_cons in M1 as [M1 _], B4 as [B4 _]. unfold sys_un in W5. rewrite app_assoc in W5. cbn [devices_update].
  eapply runs_bind; [by eapply dev_update_runs|]. intros [[[g d'] r'] b] _ (_ & M' & Bu). cbn. split; try done; [by split; [apply Forall_singleton|]|]. split_and!; try done; by apply Forall_singleton.
Qed.
Lemma sys_update_runs skip s : sys_safe s -> runs (sys_update p std skip s) sys_safe.
Proof.
  intros Hs. pose proof (safe_rest s Hs) as Hr. destruct (ss_inv _ Hs) as [(d & r & b1 & b2 & W) (dam & fin & Hd & L)]. unfold sys_update.
  eapply runs_bind; [by eapply host_side_runs|]. intros s1 E1 R1. destruct (host_side_wired p iv _ _ _ _ _ _ _ W E1) as ((b1' & W1) & Hb & Hg & Hm & Hl).
  assert (L1 : ledger (sys_g s1) (sys_host s1) (sys_lines s1) dam fin) by (rewrite Hg, Hl; eapply ledger_same; [exact L|exact Hb|apply counted_0]).
  rewrite <- Hm in Hd. clear W L Hb Hg Hm Hl E1 Hs Hr s. eapply runs_bind; [by eapply device_buses_runs|]. intros [[[l up] down] sw] E2 R2.
  destruct (device_buses_wired p iv _ _ _ _ _ _ _ _ _ _ W1 E2) as (d2 & c1 & c2 & W2). cbv zeta. set (s2 := with_switch _ _ _ _) in *.
  eapply runs_bind; [by eapply devices_runs|]. intros [[g l3] up3] E3 R3. destruct (devices_wired p std iv _ _ _ _ _ _ _ _ _ W2 E3) as ((d3 & r3 & b3 & W3) & C3).
  set (s3 := with_host _ _ _) in *. assert (S3 : sys_safe s3).
  { apply rest_inv; [done|]. split; [by exists d3, r3, c1, b3|]. exists dam, fin. split; [exact Hd|]. eapply ledger_same; [exact L1|done|exact C3]. }
  eapply runs_bind; [by apply host_update_runs|]. intros s4 _ S4. if_goal; [by apply dam_update_runs|done].
Qed.
Lemma main_loop_runs skip num n : forall k s, sys_safe s -> runs (main_loop p std skip num n k s) (fun _ => True).
Proof.
  induction n as [|n IH]; intros k s Hs; cbn [main_loop]; [done|]. eapply (runs_bind _ _ sys_safe).
  - unfold main_round. eapply runs_bind; [by apply sys_update_runs|]. intros s1 _ S1. by apply clock_safe.
  - intros s1 _ S1. if_goal; [done|by apply IH].
Qed.
End Safe.

(** ** From the start *)
Lemma new_safe `{Indet} p dam_iv iv wait lines channels ranks org speed std m s0 :
  forallb (line_routed dam_iv iv) lines = true ->
  0 < channels < 2 ^ 31 -> 0 < ranks < 2 ^ 31 -> ramulator_init channels ranks org speed = Ok (std, m) ->
  CXLSystem_new p m wait dam_iv [iv] lines = Ok s0 -> exists o sp, built channels std m o sp /\ sys_safe dam_iv iv lines channels m o sp s0.
Proof.
  intros Hl Hc Hr Hi E0. destruct (new_ram channels ranks org speed std m Hc Hr Hi) as [Hm1 Hm2].
  destruct (memory_built channels ranks org speed std m Hc Hr Hi) as (o & sp & Hb). pose proof (mem_new_ok channels std m o sp Hb) as Hmo.
  exists o, sp. split; [done|]. pose proof (new_inv p dam_iv iv wait m lines s0 Hm1 Hm2 Hl E0) as I. unfold CXLSystem_new in E0.
  apply bind_ok_inv in E0 as (h & Eh & E0). apply bind_ok_inv in E0 as (sw & Es & E0). apply (f_equal (fun x => match x with Ok y => y | Abort _ => s0 end)) in E0. subst s0.
  assert (Hh : set_DAM_addr (Some dam_iv) h = new_host0 dam_iv iv) by (by injection Eh as <-). cbv zeta in *. rewrite Hh in *. clear Eh Hh h.
  split; [done| | | | |].
  - split; [done|done|]. cbn. by rewrite dom_singleton_L.
  - done.
  - cbn [connect_all] in Es. apply bind_ok_inv in Es as (sw1 & Es & E). injection E as ->. cbn [sys_switch]. unfold connect_downstream in Es.
    cbn [om_get sw_address_intervals connect_upstream CXLSwitch_new set_upstream_buffer_rx set_upstream_buffer_tx] in Es.
    by apply (f_equal (fun x => match x with Ok y => sw_address_intervals y | Abort _ => [] end)) in Es.
  - split; [by apply Forall_singleton|done].
  - split_and!; try done; by apply Forall_singleton.
Qed.

(** C3: what can stop the simulator.  Let the trace have fewer than 2^64
    lines, and let the address of each line that has the form of a request
    lie in one of the two ranges; whatever the memories, the number of rounds
    and the cycle skipping, the loop of [main] fails no assertion but one of
    [run_errors].  These are on the form of a trace line (four), on room (a
    buffer is full, both channels of a device are full while its memory has
    nothing to do, the memory's queue has no room for a refresh) and on
    buses.  For such a trace none of the others can fail: the stall of a
    receiver, whose channels cannot be full while it holds a flit, the
    credits having made room for every message sent; the packing rules, the
    announced and the actual data, the ranges of the credits, flits for
    several devices, unroutable or unknown messages, responses and
    completions without a request, the states of the round robins, the flags
    of the skipped cycles, credits for unknown devices, the overflow of the
    memory's input buffer, taking from empty buffers, and those of the
    controllers and of the DRAM model.  An address outside the two ranges
    does fail an assertion of the host. *)
Theorem run_stops_only `{Indet} p dam_iv iv wait lines channels ranks org speed std m s0 skip num n :
  forallb (line_routed dam_iv iv) lines = true -> len lines < 2 ^ 64 ->
  0 < channels < 2 ^ 31 -> 0 < ranks < 2 ^ 31 -> ramulator_init channels ranks org speed = Ok (std, m) ->
  CXLSystem_new p m wait dam_iv [iv] lines = Ok s0 ->
  match main_loop p std skip num n 0 s0 with Ok _ => True | Abort e => e ∈ run_errors end.
Proof.
  intros Hl Hn Hc Hr Hi E0. destruct (new_safe p dam_iv iv wait lines channels ranks org speed std m s0 Hl Hc Hr Hi E0) as (o & sp & Hb & Hs).
  by eapply main_loop_runs.
Qed.
