(* ===== verification/SysWitness.v ===== *)
(** * Concrete runs of the simulator

    The whole simulator on short traces: the parameters and the address
    ranges of [main], a DDR4 memory of one channel and one rank behind the
    direct-attached range and behind the device. *)
From Stdlib Require Import ZArith Lia Bool String.
From stdpp Require Import base list list_numbers gmap.
From S2P Require Import Prelude RamIf Dram Sched Controller Memory RamDevice Ddr4 Ddr4Memory.
From S2P Require Import Flit CxlBuf Samples CxlBus CxlNode CxlSwitch CxlDevice CxlHost HostTrace Flow HostSafe CxlSys SysRun SysFlow SysOnce SysSafe.
Import DDR4.

Module SysWitness.

(** The system that runs the trace [lines] *)
Definition sim (lines : list string) : res (Std Command State * CXLSystem) :=
  let! (std, m) := ramulator_init 1 1 DDR4_2Gb_x8 DDR4_1600K in
  let! s := CXLSystem_new main_params m 1 main_dam_interval [main_interval] lines in
  Ok (std, s).
(** What a run shows: the exit, the requests completed, the time, the cycles
    of the direct-attached memory and those of the memories of the devices *)
Definition shown : Type := bool * Z * Z * option Z * list Z.
Definition show (over : bool) (s : CXLSystem) : shown :=
  (over, num_reqs_completed (sys_g s), curr_tick (sys_g s), (fun dam => clks (dam_ram dam)) <$> sys_dam s,
   map (fun x => clks (snd x)) (sys_devices s)).
Definition play (n : nat) (lines : list string) : res shown :=
  let! (std, s) := sim lines in
  let! (over, _, s) := main_loop main_params std false (Z.of_nat (length lines)) n 0 s in
  Ok (show over s).

(** Reads and writes of the device and of the direct-attached memory, from
    the trace to the exit of the loop: all four complete. *)
Example four_requests :
  play (Z.to_nat 3000) ["64 R 1"; "0xb00000000000020 R 1"; "0xb00000000000040 W 5"; "128 W 100"]%string = Ok (true, 4, 2041, Some 341, [341]).
Proof. vm_compute. reflexivity. Qed.
(** The jump of the host sets the clock to the time of the message that is
    due, and that time may have passed: after two rounds it is still 1. *)
Example clock_goes_back : play 2 ["64 R 0"]%string = Ok (false, 0, 1, Some 2, [1]).
Proof. vm_compute. reflexivity. Qed.

(** A jump over a thousand ticks before the first request, which goes to the
    direct-attached memory, and a second one for the device *)
Definition lines0 : list string := ["64 R 100"; "0xb00000000000040 W 5"]%string.
Definition jumps (n : nat) (x : res (Std Command State * Mem Command State)) : bool :=
  match x with
  | Ok (std, m) =>
      match CXLSystem_new main_params m 1 main_dam_interval [main_interval] lines0 with
      | Ok s => time_forward main_params std false 2 n s &&
          match main_loop main_params std false 2 n 0 s with
          | Ok (over, _, s) => bool_decide (show over s = (false, 0, 1049, Some 175, [175]))
          | Abort _ => false
          end
      | Abort _ => false
      end
  | Abort _ => false
  end.
Lemma jumps_spec n x : jumps n x = true ->
  exists std m s0 idle s, x = Ok (std, m) /\
  CXLSystem_new main_params m 1 main_dam_interval [main_interval] lines0 = Ok s0 /\ time_forward main_params std false 2 n s0 = true /\
  main_loop main_params std false 2 n 0 s0 = Ok (false, idle, s) /\ curr_tick (sys_g s) = 1049.
Proof.
  unfold jumps. destruct x as [[std m]|]; [|discriminate]. destruct (CXLSystem_new _ _ _ _ _ _) as [s0|] eqn:E0; [|discriminate].
  intros [Hf B]%andb_true_iff. destruct (main_loop _ _ _ _ _ _ s0) as [[[over idle] s]|] eqn:El; [|discriminate].
  apply bool_decide_eq_true_1 in B. unfold show in B. injection B as -> _ Ht _ _. by exists std, m, s0, idle, s.
Qed.
Lemma memory_clock_exact_witness :
  exists std m s0 idle s, ramulator_init 1 1 DDR4_2Gb_x8 DDR4_1600K = Ok (std, m) /\
  CXLSystem_new main_params m 1 main_dam_interval [main_interval] lines0 = Ok s0 /\
  main_loop main_params std false 2 50 0 s0 = Ok (false, idle, s) /\ curr_tick (sys_g s) = 1049 /\
  Forall (fun x => clks (snd x) = (curr_tick (sys_g s) + 5) / 6) (sys_devices s).
Proof.
  assert (B : jumps 50 (ramulator_init 1 1 DDR4_2Gb_x8 DDR4_1600K) = true) by (vm_compute; reflexivity).
  destruct (jumps_spec _ _ B) as (std & m & s0 & idle & s & E & E0 & Hf & El & Ht).
  exists std, m, s0, idle, s. split; [exact E|]. split; [exact E0|]. split; [exact El|]. split; [exact Ht|].
  exact (memory_clock_exact main_params std eq_refl m 1 main_dam_interval [main_interval] lines0 false 2 50 s0 false idle s E0 Hf El).
Defined.

(** ** A read of the device and a write of the direct-attached memory *)
Definition lines1 : list string := ["0xb00000000000040 R 1"; "128 W 1"]%string.
(** Where a run is after at most [n] rounds: the exit, the messages in
    flight and the number of those completed *)
Definition reaches (n : nat) (t : bool * list Z * Z) (x : res (Std Command State * Mem Command State)) : bool :=
  match x with
  | Ok (std, m) =>
      match CXLSystem_new main_params m 1 main_dam_interval [main_interval] lines1 with
      | Ok s0 =>
          match main_loop main_params std false 2 n 0 s0 with
          | Ok (over, _, s) => bool_decide ((over, in_flight s, num_reqs_completed (sys_g s)) = t)
          | Abort _ => false
          end
      | Abort _ => false
      end
  | Abort _ => false
  end.
Lemma reaches_spec n over fl k x : reaches n (over, fl, k) x = true ->
  exists std m s0 idle s, x = Ok (std, m) /\ CXLSystem_new main_params m 1 main_dam_interval [main_interval] lines1 = Ok s0 /\
  main_loop main_params std false 2 n 0 s0 = Ok (over, idle, s) /\ in_flight s = fl /\ num_reqs_completed (sys_g s) = k.
Proof.
  unfold reaches. destruct x as [[std m]|]; [|discriminate]. destruct (CXLSystem_new _ _ _ _ _ _) as [s0|] eqn:E0; [|discriminate].
  destruct (main_loop _ _ _ _ _ _ s0) as [[[over' idle] s]|] eqn:El; [|discriminate]. intros B%bool_decide_eq_true_1.
  apply pair_equal_spec in B as [[-> <-]%pair_equal_spec <-]. by exists std, m, s0, idle, s.
Qed.

(** After 100 rounds the write has completed and the read is under way. *)
Lemma message_in_one_place_witness :
  exists std m s0 idle s, ramulator_init 1 1 DDR4_2Gb_x8 DDR4_1600K = Ok (std, m) /\
  main_loop main_params std false 2 100 0 s0 = Ok (false, idle, s) /\ in_flight s = [0] /\ num_reqs_completed (sys_g s) = 1 /\
  NoDup (in_flight s) /\ msg_count (sys_g s) + len (sys_lines s) = 2 /\
  exists finished, seqZ 0 (msg_count (sys_g s)) ≡ₚ in_flight s ++ finished /\ num_reqs_completed (sys_g s) = len finished.
Proof.
  assert (B : reaches 100 (false, [0], 1) (ramulator_init 1 1 DDR4_2Gb_x8 DDR4_1600K) = true) by (vm_compute; reflexivity).
  destruct (reaches_spec _ _ _ _ _ B) as (std & m & s0 & idle & s & E & E0 & El & Hf & Hn).
  exists std, m, s0, idle, s. split; [exact E|]. split; [exact El|]. split; [exact Hf|]. split; [exact Hn|].
  refine (message_in_one_place main_params main_dam_interval main_interval 1 lines1 _ _ 1 1 DDR4_2Gb_x8 DDR4_1600K std m s0 false 2 100 false idle s _ _ E E0 El);
    vm_compute; repeat split.
Defined.
Lemma credits_conserved_witness :
  exists std m s0 idle s d r b1 b2, ramulator_init 1 1 DDR4_2Gb_x8 DDR4_1600K = Ok (std, m) /\
  main_loop main_params std false 2 100 0 s0 = Ok (false, idle, s) /\ in_flight s = [0] /\
  sys_devices s = [(d, r)] /\ credits_ok (sys_host s) d (sys_dn s b1) (sys_un s b2).
Proof.
  assert (B : reaches 100 (false, [0], 1) (ramulator_init 1 1 DDR4_2Gb_x8 DDR4_1600K) = true) by (vm_compute; reflexivity).
  destruct (reaches_spec _ _ _ _ _ B) as (std & m & s0 & idle & s & E & E0 & El & Hf & _).
  assert (C : exists d r b1 b2, sys_devices s = [(d, r)] /\ credits_ok (sys_host s) d (sys_dn s b1) (sys_un s b2)).
  { destruct (credits_conserved main_params main_dam_interval main_interval 1 lines1 eq_refl eq_refl 1 1 DDR4_2Gb_x8 DDR4_1600K std m s0 false 2 100 false idle s
      ltac:(lia) ltac:(lia) E E0 El) as (d & r & b1 & b2 & C1 & _ & _ & C2 & _). exact (ex_intro _ d (ex_intro _ r (ex_intro _ b1 (ex_intro _ b2 (conj C1 C2))))). }
  destruct C as (d & r & b1 & b2 & C1 & C2). exists std, m, s0, idle, s, d, r, b1, b2. split; [exact E|]. split; [exact El|]. split; [exact Hf|]. split; [exact C1|exact C2].
Defined.
(** The whole run *)
Lemma trace_completes_once_witness :
  exists std m s0 idle s, ramulator_init 1 1 DDR4_2Gb_x8 DDR4_1600K = Ok (std, m) /\
  main_loop main_params std false 2 (Z.to_nat 3000) 0 s0 = Ok (true, idle, s) /\
  sys_lines s = [] /\ in_flight s = [] /\ msg_count (sys_g s) = 2 /\ num_reqs_completed (sys_g s) = 2.
Proof.
  assert (B : reaches (Z.to_nat 3000) (true, [], 2) (ramulator_init 1 1 DDR4_2Gb_x8 DDR4_1600K) = true) by (vm_compute; reflexivity).
  destruct (reaches_spec _ _ _ _ _ B) as (std & m & s0 & idle & s & E & E0 & El & _ & _).
  exists std, m, s0, idle, s. split; [exact E|]. split; [exact El|].
  refine (trace_completes_once main_params main_dam_interval main_interval 1 lines1 _ _ 1 1 DDR4_2Gb_x8 DDR4_1600K std m s0 false (Z.to_nat 3000) idle s _ _ E E0 El);
    lia || (vm_compute; reflexivity).
Defined.

(** A trace whose second line is neither a read nor a write *)
Definition lines2 : list string := ["64 R 1"; "0xb00000000000040 X 5"]%string.
Definition fails_with (lines : list string) (n : nat) (e : string) (x : res (Std Command State * Mem Command State)) : bool :=
  match x with
  | Ok (std, m) =>
      match CXLSystem_new main_params m 1 main_dam_interval [main_interval] lines with
      | Ok s0 => match main_loop main_params std true 2 n 0 s0 with Ok _ => false | Abort e' => String.eqb e' e end
      | Abort _ => false
      end
  | Abort _ => false
  end.
Lemma fails_with_spec lines n e x : fails_with lines n e x = true ->
  exists std m s0, x = Ok (std, m) /\ CXLSystem_new main_params m 1 main_dam_interval [main_interval] lines = Ok s0 /\
  main_loop main_params std true 2 n 0 s0 = Abort e.
Proof.
  unfold fails_with. destruct x as [[std m]|]; [|discriminate]. destruct (CXLSystem_new _ _ _ _ _ _) as [s0|] eqn:E0; [|discriminate].
  destruct (main_loop _ _ _ _ _ _ s0) as [|e'] eqn:El; [discriminate|]. intros B%String.eqb_eq. subst e'. by exists std, m, s0.
Qed.
Lemma run_stops_only_witness :
  exists std m s0, ramulator_init 1 1 DDR4_2Gb_x8 DDR4_1600K = Ok (std, m) /\
  main_loop main_params std true 2 10 0 s0 = Abort "Illegal opcode"%string /\
  match main_loop main_params std true 2 10 0 s0 with Ok _ => True | Abort e => e ∈ run_errors end.
Proof.
  assert (B : fails_with lines2 10 "Illegal opcode"%string (ramulator_init 1 1 DDR4_2Gb_x8 DDR4_1600K) = true) by (vm_compute; reflexivity).
  destruct (fails_with_spec _ _ _ _ B) as (std & m & s0 & E & E0 & El).
  exists std, m, s0. split; [exact E|]. split; [exact El|].
  refine (run_stops_only main_params main_dam_interval main_interval 1 lines2 1 1 DDR4_2Gb_x8 DDR4_1600K std m s0 true 2 10 _ _ _ _ E E0);
    lia || (vm_compute; reflexivity).
Defined.
(** The condition on the addresses is needed: an address between the two
    ranges, or above them, fails an assertion of the host. *)
Lemma unknown_address_stops w : w = "0xd00000000000000 R 1"%string \/ w = "0xaffffffffffffff R 1"%string ->
  line_routed main_dam_interval main_interval w = false /\
  exists std m s0, ramulator_init 1 1 DDR4_2Gb_x8 DDR4_1600K = Ok (std, m) /\
    CXLSystem_new main_params m 1 main_dam_interval [main_interval] [w] = Ok s0 /\
    main_loop main_params std true 2 60 0 s0 = Abort "Invalid address"%string /\ "Invalid address"%string ∉ run_errors.
Proof.
  intros Hw. assert (B : fails_with [w] 60 "Invalid address"%string (ramulator_init 1 1 DDR4_2Gb_x8 DDR4_1600K) = true)
    by (destruct Hw as [-> | ->]; vm_compute; reflexivity).
  split; [destruct Hw as [-> | ->]; vm_compute; reflexivity|]. destruct (fails_with_spec _ _ _ _ B) as (std & m & s0 & E & E0 & El).
  exists std, m, s0. split; [exact E|]. split; [exact E0|]. split; [exact El|].
  unfold run_errors. rewrite !not_elem_of_cons. split_and!; [discriminate..|apply not_elem_of_nil].
Qed.
End SysWitness.
